(* ===== verification/_CoqProject ===== *)
-Q . S2P
Prelude.v
StateMonad.v
StdContainers.v
Text.v
NatTraversal.v
IceUtils.v
IceServers.v
IceAgent.v
IceAgentOk.v
IceProbes.v
RingBuffer.v
SeqNum.v
ByteIO.v
Units.v
NetworkTypes.v
Prober.v
Float32.v
Rtcp.v
RtcpFeedback.v
Ccfb.v
RtcpDispatch.v
RtpPacket.v
RtpToSend.v
RtpTimestamp.v
Packetizer.v
Sdp.v
Session.v
SessionOk.v
SdpOk.v
OfferOk.v
OfferRead.v
Signalling.v
SignallingOk.v
Av1.v
PacketHistory.v
FeedbackTracker.v
FeedbackGenerator.v
Nack.v
FrameRelease.v
FrameAssembly.v
FrameAssemblyOk.v
FrameArrival.v
PacketQueue.v
PacketQueueOk.v
ReceiverStats.v
VideoReceiver.v
VideoReceiverOk.v
VideoSend.v
VideoStream.v
NackPipeline.v
DataChannel.v
DataChannelOk.v
Pacer.v
PacerOk.v
PacerRate.v
PacerFlow.v
PacedSender.v
PacedSenderOk.v
FeedbackAdapter.v
FeedbackAdapterOk.v
SendPath.v
SendPathOk.v
Retransmission.v
Threads.v
WsClient.v
WsClientOk.v
PeerConnection.v
PeerConnectionOk.v
Connection.v
ConnectionOk.v
