(* ===== verification/Prelude.v ===== *)
(** * MiniRTC: a verification development

    MiniRTC is a peer-to-peer library for real-time audio, video and data.  A
    connection is a stack of layers under [src/]: signalling ([ws], [pc]) finds
    the other peers, [ice] finds a path to them and agrees on keys, [transport]
    negotiates the session and sorts datagrams into RTP and RTCP, [rtp] and
    [rtcp] are the two wire formats, [transport/channel] turns frames into
    packets and packets into frames, and [qos] decides what to send, when, and
    what to ask for again.  This library models these layers: the code that
    reads bytes and texts an attacker may have written, the code whose
    arithmetic wraps, and the state that several threads share.

    ** How the parts work together

    The application's [PeerConnection] signs in at a signalling server through
    a [WsClient], which reconnects when the socket fails.  The server's messages
    become work for one thread, which makes a connection for each peer and
    hands it the offer, the answer and the candidates that came.  A connection
    owns an [IceTransport]: it writes its capabilities into an SDP, takes the
    other peer's, and gives both and the candidates to its [IceAgent], which
    registers the relays, guesses at the ports of address translators, runs the
    DTLS handshake and cuts the SRTP keys from it.

    A sent frame goes through a packetizer, which numbers and serializes RTP
    packets; each is parsed back into an [RtpPacket], waits in the pacer's
    queue for its turn, is numbered, stamped and sent, and kept in the history.
    The receiver parses the datagram, notes gaps in the numbers and asks for them
    in RTCP NACK blocks; it keeps the packets of a frame until all are there,
    and gives the frames to the decoder in order, or gives a frame up at a
    deadline and asks for a key frame.  The sender's [IceTransport] takes the
    compound RTCP datagram apart block by block; a NACK makes a task of the
    video channel take the packet from the history again, in RTX form, from
    which the receiver restores it; report blocks give the round-trip time that
    both ends use to space retransmissions, and sender reports tie the RTP
    timestamps to the clock.  For congestion control the receiver tracks the
    arrival time of every packet and builds congestion feedback messages at a
    bounded rate; the sender's adapter matches them with what it sent, and keeps
    count of the bytes in flight; the pacer keeps to the rate it is given.
    Reliable data goes through KCP, whose datagrams travel in RTP packets.

    ** Files

    Shared:
    - [Prelude.v]: machine integers, memory, tactics, list lemmas.
      [StateMonad.v]: operations that may fail, on a state and a world.
      [Threads.v]: operations that other threads interleave with.
    - [StdContainers.v]: [std::map] as a sorted list, [std::clamp], and an
      interface to [std::sort], whose order of equal elements is unspecified.
      [Text.v]: [std::string] and its searches.  [RingBuffer.v]: [ringbuffer].
    - [SeqNum.v]: [common/rtc_base/numerics] and
      [common/sequence_number_compare.h]: wrapping order, unwrapper.
      [ByteIO.v]: [common/byte_io.h], used by every parser and builder.
      [Units.v]: [common/api/units], [common/api/ntp], [common/clock].
      [Float32.v]: binary32 and binary64 operations, on [SpecFloat].
      [NetworkTypes.v]: [common/api/transport/network_types.h].

    Wire formats:
    - [Rtcp.v]: [rtcp/rtcp_packet]: common header, report block, SR, RR.
      [RtcpFeedback.v]: [rtcp/nack], [rtcp/fir], [rtcp/rtp_feedback],
      [rtcp/rtcp_sender].  [Ccfb.v]: [rtcp/congestion_control_feedback] (RFC
      8888).  [RtcpDispatch.v]: [IceTransport::ParseRtcpPacket] and its handlers
      ([transport/ice_transport.cpp]).
    - [RtpPacket.v], [RtpToSend.v]: [rtp/rtp_packet/rtp_packet.cpp],
      [rtp_packet_to_send]: parser, in-place updates, RTX.  [RtpTimestamp.v]:
      [rtp_timestamp.h].  [PacketHistory.v]: [rtp_packet_history.cpp].
    - [Packetizer.v]: [rtp/rtp_packetizer] for H.264, data and padding, and
      [rtp_packet_h264.cpp] on the other side.  [Av1.v]: the OBU parser and the
      AV1 packetizer.

    Sending:
    - [PacketQueue.v], [PacketQueueOk.v]: [qos/prioritized_packet_queue.cc].
      [Prober.v]: [qos/bitrate_prober.cc].  [Pacer.v]:
      [qos/pacing_controller.cc] on top of both, with [PacerOk.v] (its
      invariant), [PacerRate.v] (rates, waking, congestion) and [PacerFlow.v]
      (no packet is copied or made up).  [PacedSender.v], [PacedSenderOk.v]:
      [transport/paced_sender], the loop around it.
    - [SendPath.v], [SendPathOk.v]: the callbacks of the paced sender in
      [transport/ice_transport_controller.cpp].  [FeedbackAdapter.v],
      [FeedbackAdapterOk.v]: [qos/transport_feedback_adapter.cc].
    - [VideoSend.v]: [transport/channel/video_channel_send.cpp];
      [VideoStream.v]: the numbers of its packets;
      [NackPipeline.v]: its threads and the requests they answer;
      [Retransmission.v]: a lost packet from the sender to the receiver.
    - [DataChannel.v], [DataChannelOk.v]: the data channels of
      [transport/channel], both directions.

    Receiving:
    - [Nack.v]: [qos/nack_requester.cc], [qos/histogram.cc],
      [qos/video_recovery_timing.h].  [FeedbackTracker.v],
      [FeedbackGenerator.v]: [qos/congestion_control_feedback_tracker.cc] and
      [_generator.cc].
    - The video receiver, [transport/channel/rtp_video_receiver.cpp]:
      [FrameRelease.v] (the frames that wait, one round of the worker),
      [FrameAssembly.v] (the packets that wait, both codecs),
      [FrameAssemblyOk.v] (the interface of a codec and that both keep it),
      [FrameArrival.v] (arrival orders, end to end with the packetizers),
      [ReceiverStats.v] (receiver reports), [VideoReceiver.v] and
      [VideoReceiverOk.v] (the whole, RTX included).

    Sessions:
    - [NatTraversal.v], [IceUtils.v], [IceServers.v]: [ice/nat_traversal.h],
      [ice_utils.h], [ice_server_config.h], [ice_server_resolver.h].
      [IceAgent.v]: [ice/ice_agent.cpp]; [IceAgentOk.v] (handshake, relays) and
      [IceProbes.v] (guesses, keys).
    - [Sdp.v], [Session.v]: the negotiation in [transport/ice_transport.cpp] and
      the headers it uses; [SessionOk.v], [SdpOk.v], [OfferOk.v], [OfferRead.v]:
      what is written is read back.  [Signalling.v], [SignallingOk.v]: the
      descriptions and candidates that come and go.
    - [WsClient.v], [WsClientOk.v]: [ws/ws_client.cpp].  [PeerConnection.v],
      [PeerConnectionOk.v]: [pc/peer_connection.cpp].  [Connection.v],
      [ConnectionOk.v]: [pc/minirtc_connection.cpp].

    A class of the code is a record with its fields, a method a function that
    takes the record and returns the changed one, or a computation of the state
    monad where it calls out; a method that returns [bool] with an out-parameter
    returns both.  Definitions carry the file and lines they translate.  Code
    of others is a class of operations that the definitions are parametrized
    with: clocks, sockets, [NiceAgent] and [Dtls] of the agent, JSON, DNS, KCP,
    the RTCP sender.  What such an operation is told is kept in a trace where a
    theorem is about it.

    ** Memory and overflow

    A buffer is a list of bytes, and an access outside it makes a definition
    return [None]; so do a read of an empty container, a division by zero and an
    exception.  [Some] in the conclusion of a theorem therefore says that the code
    stays within its buffers (and, with recursion on fuel, that its loops end).
    Unsigned arithmetic is reduced where the type does it; signed arithmetic is
    exact, and the theorems' hypotheses keep it in range.

    Fuel: every loop bounded by a size of its input has that size plus one
    ([ParseRtcpPacket] by the datagram, [ParseObus] by the frame, extension
    parsing by the block, culling by the length of the history, the payload types of a
    section by its length); the totality theorems show that this is enough, since
    they conclude [Some].  The pacer's send loop has the fuel of the code's own
    circuit breaker, 65536 rounds.  A connection processes a message and, once,
    the candidates that waited for it: two rounds.

    Bounds of the theorems about runs: clocks up to 2^61 us, and queueing times
    up to fifty days; queues of at most 500,000 packets (200,000 in the pacer),
    packets of at most 2000 bytes there; rates up to 4 Tbit/s, debts up to 2.5e11
    bytes, probes of at most 1 MB, clusters of at most 1 GB; histories of 16,384
    packets; frames of at most 4096 packets, which is the receiver's own limit;
    fewer than 2^31 events where an identifier counts them.

    ** Threads

    Where the operations of an object run under its lock or on one thread, a
    theorem about runs covers every order of operations.  Where threads meet
    between the sections that hold a lock, the steps are the sections:
    [NackPipeline.v] and [FrameRelease.v] have step relations, [PacedSender.v]
    takes its loop one round at a time, with the flag of [Shutdown] read anew at
    every place where the code reads it, and in [WsClient.v] and
    [PeerConnection.v] a method is a tree of atomic sections
    ([Threads.Thread]), of which a schedule interleaves any number, begun at any
    time.  The memory model is sequentially consistent.

    ** Theorems

    - Whatever arrives: on any bytes, the RTP parser ([RtpPacket.rtp_parse_safe])
      and the whole RTCP reception ([RtcpDispatch.rtcp_reception_total]) read
      only the datagram; the video receiver handles any packet
      ([VideoReceiverOk.video_receiver_total]), the peer connection any message
      of the server ([PeerConnectionOk.peer_survives]); the configurations that
      are accepted are valid ([IceServers.ice_configuration_valid]).  Any sequence
      of operations keeps the invariants of the history, the NACK requester, the
      queue, the prober, the pacer and the adapter
      ([PacketHistory.history_run_safe], [Nack.nack_run_safe],
      [PacketQueueOk.queue_run_safe], [Prober.prober_run_safe],
      [PacerOk.pacer_run_safe], [FeedbackAdapterOk.adapter_in_flight]).
    - Security of a path: media goes only to a peer whose certificate matches
      the SDP ([IceAgentOk.dtls_peer_verified]), a forced relay leaves no other
      path ([IceAgentOk.forced_relay_only]), both ends cut the same keys
      ([IceProbes.srtp_keys_mirror]), guesses never replace a real candidate and
      are bounded ([IceProbes.probes_never_overwrite]), every server that may be
      used is registered in its turn ([IceServers.turn_servers_served]).
    - Session set-up: an offer is understood as it was meant, from the agent's
      text to the other peer's tables ([OfferRead.offer_understood]); candidates
      may come before the description, at the agent
      ([SignallingOk.trickle_any_order]) and before there is a transport
      ([ConnectionOk.early_candidates_kept]); a connection ends once
      ([PeerConnectionOk.connections_end_once]); attempts to reconnect do not
      overlap ([WsClientOk.reconnects_never_overlap]).
    - Round trips: a specification of well-formed frames, blocks and OBUs, with
      an encoder written from the formats; the code's parser decodes what it
      encodes ([RtpPacket.rtp_build_decodes], [Av1.obu_parse_correct]), the
      code's builder emits it, and parsing what is built gives the fields back
      (SR, RR, NACK, FIR, congestion feedback).  Capture times come back from
      the timestamps ([RtpTimestamp.capture_times_recovered]); a lost packet
      comes back from its retransmission
      ([Retransmission.retransmission_restores]); KCP's datagrams arrive as they
      were sent ([DataChannelOk.reliable_data_arrives]).
    - End to end: cutting a frame into packets and depacketizing them gives the
      frame back ([Packetizer.h264_frame_reassembled],
      [Av1.av1_frame_reassembled]); in whatever order the packets arrive, with
      losses, duplicates and packets of other frames, the receiver completes a
      frame when all its packets are there and delivers only what was sent
      ([FrameArrival.delivered_as_sent], [FrameArrival.complete_when_arrived],
      [FrameArrival.h264_frame_arrives], [FrameArrival.av1_frame_arrives]); the
      packets of a video channel, whichever packetizer it uses, are numbered
      without gaps and parse ([VideoStream.video_stream_numbered]).  A compound RTCP datagram has
      the effect of its messages in order
      ([RtcpDispatch.rtcp_reception_faithful]).
    - Refinement: the history, a deque indexed by differences of wrapping
      numbers, implements a finite map ([PacketHistory.history_refines_map]);
      the queue implements round robin over priorities
      ([PacketQueueOk.queue_refines], [PacketQueueOk.queue_drains]); the ring
      buffer implements a queue ([RingBuffer.ring_refines_queue]); the unwrapper
      implements the true numbering ([SeqNum.unwrap_refines]).
    - Recovery: a packet is retransmitted at most once per round trip
      ([PacketHistory.history_retransmits_once]); requests are answered, each
      once, however the threads interleave ([NackPipeline.nacks_answered_once],
      [NackPipeline.nack_pipeline_safe]); a gap in the numbers is recorded
      exactly, filled exactly, and requested with the back-off that the schedule
      prescribes ([Nack.nack_gap_recorded], [Nack.nack_request_backoff]); what
      goes out is kept to be sent again ([SendPathOk.outgoing_packet_kept]);
      frames come out in order and after damage the decoder restarts on a key
      frame ([FrameRelease.frames_delivered_in_order],
      [FrameRelease.keyframe_after_damage]).
    - Pacing: what is sent in a burst is bounded, the pacer always asks to be
      woken while it has packets, and holds while congested
      ([PacerRate.pacer_burst_bounded], [PacerRate.pacer_wakes],
      [PacerRate.pacer_congestion_holds]); what leaves was queued, once
      ([PacerFlow.pacer_conserves]), under consecutive numbers
      ([PacedSenderOk.paced_sender_numbers]).
    - Feedback: the reports are paced and say what arrived
      ([FeedbackGenerator.feedback_paced], [FeedbackGenerator.feedback_delivered],
      [FeedbackTracker.feedback_tracker_report],
      [ReceiverStats.receiver_report_counts]), and what the sender makes of
      them is true ([FeedbackAdapterOk.adapter_results_true]).

    ** What is not modelled

    The bandwidth estimators of [qos] (floating point filters), forward error
    correction and the codecs.  libnice, OpenSSL, GLib, libsrtp, KCP,
    websocketpp, the JSON library and the DNS are interfaces.  Of
    [IceTransport] and its controller, the media input, the adaptation to rates
    and the callbacks that only connect threads; the transport over
    libdatachannel; the statistics and what is only logged; the C functions of
    [rtc].  Waiting for a thread to end is left out in [WsClient.v] and
    [PeerConnection.v], and [Destroy] of the video channel.  Copy-on-write
    sharing of packet buffers is left out: a packet owns its bytes.  The ordered
    containers of the NACK requester and of the frames that wait are lists in
    the containers' order; [Nack.v] and [FrameRelease.v] say when the two
    agree. *)

From stdpp Require Export base tactics option list list_numbers gmap numbers.
From Stdlib Require Export ZArith Lia Bool.

#[global] Open Scope Z_scope.

(** ** Machine integers

    A [w]-bit unsigned integer of the code is a [Z]; every conversion to the
    type is an explicit reduction, written with the name of the C++ type. *)

Definition u8 (x : Z) : Z := x `mod` 256.
Definition u16 (x : Z) : Z := x `mod` 65536.
Definition u32 (x : Z) : Z := x `mod` 4294967296.
Definition u64 (x : Z) : Z := x `mod` 18446744073709551616.

(** Two's complement conversions to the signed types. *)
Definition s32 (x : Z) : Z := (x + 2147483648) `mod` 4294967296 - 2147483648.
Definition s64 (x : Z) : Z :=
  (x + 9223372036854775808) `mod` 18446744073709551616 - 9223372036854775808.

Definition is_u8 (x : Z) : Prop := 0 <= x < 256.
Definition is_u16 (x : Z) : Prop := 0 <= x < 65536.
Definition is_u32 (x : Z) : Prop := 0 <= x < 4294967296.
Definition is_u64 (x : Z) : Prop := 0 <= x < 18446744073709551616.

(** Every element of the list is a byte. *)
Definition bytes (l : list Z) : Prop := Forall is_u8 l.

Create HintDb rtc.
Create Rewrite HintDb len.
#[export] Hint Unfold is_u8 is_u16 is_u32 is_u64 bytes : rtc.

(** ** Tactics *)

(** Linear arithmetic with [/] and [mod] by constants. *)
Ltac zdm := Z.div_mod_to_equations; lia.

(** Machine integers unfolded, then [zdm]. *)
Ltac ilia :=
  unfold u8, u16, u32, u64, s32, s64, is_u8, is_u16, is_u32, is_u64 in *; zdm.

(** Boolean tests of the code turned into propositions. *)
Ltac b2p :=
  repeat match goal with
  | H : (_ && _)%bool = true |- _ => apply andb_prop in H;
      let H1 := fresh H in let H2 := fresh H in destruct H as [H1 H2]
  | H : (_ && _)%bool = false |- _ => apply andb_false_iff in H
  | H : (_ || _)%bool = true |- _ => apply orb_prop in H
  | H : (_ || _)%bool = false |- _ => apply orb_false_elim in H;
      let H1 := fresh H in let H2 := fresh H in destruct H as [H1 H2]
  | H : negb _ = true |- _ => apply negb_true_iff in H
  | H : negb _ = false |- _ => apply negb_false_iff in H
  | H : (_ <? _) = true |- _ => apply Z.ltb_lt in H
  | H : (_ <? _) = false |- _ => apply Z.ltb_ge in H
  | H : (_ <=? _) = true |- _ => apply Z.leb_le in H
  | H : (_ <=? _) = false |- _ => apply Z.leb_gt in H
  | H : (_ =? _) = true |- _ => apply Z.eqb_eq in H
  | H : (_ =? _) = false |- _ => apply Z.eqb_neq in H
  end.

(** Split the first test of the goal, keeping what it decided. *)
Ltac case_if :=
  match goal with
  | |- context [if ?b then _ else _] =>
      lazymatch type of b with
      | bool => let E := fresh "E" in destruct b eqn:E; b2p
      | _ => let E := fresh "E" in destruct b as [E | E]
      end
  end.

(** [Forall] over a list written out, as the premise of a witness. *)
Ltac forall_lit :=
  cbn; unfold bytes;
  repeat first [apply Forall_nil_2 | apply Forall_cons_2];
  try (unfold is_u8, is_u16, is_u32, is_u64; lia).

(** ** Memory

    A buffer is a list of bytes.  Reading or writing outside it is undefined
    behaviour in the code, and [None] here: a definition that goes through
    [rd] and [wr] and is proved to return [Some] never leaves its buffers. *)

Definition zlen {A} (l : list A) : Z := Z.of_nat (length l).

Definition rd {A} (m : list A) (i : Z) : option A :=
  if (0 <=? i) && (i <? zlen m) then m !! Z.to_nat i else None.

Definition wr {A} (m : list A) (i : Z) (v : A) : option (list A) :=
  if (0 <=? i) && (i <? zlen m) then Some (<[Z.to_nat i := v]> m) else None.

(** The range [[i, i + n)] of a buffer, as [std::vector(p + i, p + i + n)] or
    [memcpy] read it. *)
Definition rd_range {A} (m : list A) (i n : Z) : option (list A) :=
  if (0 <=? i) && (0 <=? n) && (i + n <=? zlen m)
  then Some (take (Z.to_nat n) (drop (Z.to_nat i) m)) else None.

(** Consecutive writes [m[i] = b0; m[i+1] = b1; ...]. *)
Fixpoint wrs {A} (m : list A) (i : Z) (bs : list A) : option (list A) :=
  match bs with
  | [] => Some m
  | b :: bs' => m' ← wr m i b; wrs m' (i + 1) bs'
  end.

Lemma zlen_nonneg {A} (l : list A) : 0 <= zlen l.
Proof. unfold zlen. lia. Qed.

Lemma to_nat_zlen {A} (l : list A) : Z.to_nat (zlen l) = length l.
Proof. apply Nat2Z.id. Qed.

Lemma zlen_app {A} (l k : list A) : zlen (l ++ k) = zlen l + zlen k.
Proof. unfold zlen. rewrite length_app. lia. Qed.

Lemma zlen_cons {A} (x : A) l : zlen (x :: l) = 1 + zlen l.
Proof. unfold zlen. cbn [length]. lia. Qed.

Lemma zlen_nil {A} : zlen (@nil A) = 0.
Proof. reflexivity. Qed.

#[export] Hint Rewrite @zlen_app @zlen_cons @zlen_nil @length_app
  @length_take @length_drop @length_insert : len.

Ltac len := unfold zlen in *; autorewrite with len in *; cbn [length] in *; lia.

Lemma rd_Some {A} (m : list A) i :
  0 <= i < zlen m -> exists v, rd m i = Some v /\ m !! Z.to_nat i = Some v.
Proof.
  intros H. unfold rd.
  replace ((0 <=? i) && (i <? zlen m)) with true by lia.
  destruct (lookup_lt_is_Some_2 m (Z.to_nat i)) as [v Hv]; [len|eauto].
Qed.

Lemma rd_inv {A} (m : list A) i v :
  rd m i = Some v -> 0 <= i < zlen m /\ m !! Z.to_nat i = Some v.
Proof. unfold rd. case_if; [|discriminate]. intros; split; [lia|done]. Qed.

Lemma rd_nat {A} (m : list A) (i : nat) : rd m (Z.of_nat i) = m !! i.
Proof.
  unfold rd. case_if.
  - by rewrite Nat2Z.id.
  - symmetry. apply lookup_ge_None. unfold zlen in *. destruct E; b2p; lia.
Qed.

Lemma rd_app_r {A} (a b : list A) i :
  zlen a <= i -> rd (a ++ b) i = rd b (i - zlen a).
Proof.
  intros H. unfold rd. rewrite zlen_app.
  replace ((0 <=? i - zlen a) && (i - zlen a <? zlen b))
    with ((0 <=? i) && (i <? zlen a + zlen b))
    by (pose proof (zlen_nonneg a); lia).
  case_if; [|done]. rewrite lookup_app_r by len.
  f_equal. len.
Qed.

Lemma rd_app_l {A} (a b : list A) i :
  0 <= i < zlen a -> rd (a ++ b) i = rd a i.
Proof.
  intros H. unfold rd. rewrite zlen_app.
  replace ((0 <=? i) && (i <? zlen a)) with true by lia.
  replace ((0 <=? i) && (i <? zlen a + zlen b)) with true
    by (pose proof (zlen_nonneg b); lia).
  apply lookup_app_l. len.
Qed.

Lemma rd_drop {A} (m : list A) (k i : Z) :
  0 <= k -> 0 <= i -> rd (drop (Z.to_nat k) m) i = rd m (k + i).
Proof.
  intros Hk Hi. rewrite <- (Z2Nat.id i) at 1 by done.
  rewrite rd_nat, lookup_drop.
  replace (k + i) with (Z.of_nat (Z.to_nat k + Z.to_nat i)) by lia.
  by rewrite rd_nat.
Qed.

Lemma rd_Forall {A} (P : A -> Prop) m i v :
  Forall P m -> rd m i = Some v -> P v.
Proof.
  intros HP H. apply rd_inv in H as [_ H].
  by eapply Forall_lookup_1 in HP.
Qed.

Lemma wr_Some {A} (m : list A) i v :
  0 <= i < zlen m -> wr m i v = Some (<[Z.to_nat i := v]> m).
Proof.
  intros H. unfold wr.
  by replace ((0 <=? i) && (i <? zlen m)) with true by lia.
Qed.

(** A block of writes in bounds replaces exactly that range. *)
Lemma wrs_app {A} (a b c bs : list A) :
  length b = length bs -> wrs (a ++ b ++ c) (zlen a) bs = Some (a ++ bs ++ c).
Proof.
  revert a b; induction bs as [|x bs IH]; intros a [|y b]; try discriminate; [done|].
  intros [= Hl]. cbn [wrs]. rewrite wr_Some by (pose proof (zlen_nonneg c); len).
  cbn. unfold zlen at 1. rewrite Nat2Z.id, insert_app_r_alt by lia.
  rewrite Nat.sub_diag. cbn.
  specialize (IH (a ++ [x]) b Hl).
  rewrite zlen_app in IH. rewrite <- !app_assoc in IH. exact IH.
Qed.

Lemma wrs_Some {A} (m bs : list A) i :
  0 <= i -> i + zlen bs <= zlen m ->
  wrs m i bs =
    Some (take (Z.to_nat i) m ++ bs ++ drop (Z.to_nat i + length bs) m).
Proof.
  intros H0 H1.
  rewrite <- (wrs_app _ (take (length bs) (drop (Z.to_nat i) m))).
  - rewrite <- drop_drop, take_drop, take_drop.
    f_equal. len.
  - len.
Qed.

Lemma wrs_length {A} (m bs m' : list A) i :
  wrs m i bs = Some m' -> length m' = length m.
Proof.
  revert m i; induction bs as [|b bs IH]; cbn; intros m i H; [by simplify_eq|].
  unfold wr in H. revert H; case_if; cbn; [|discriminate].
  intros H. apply IH in H. by rewrite length_insert in H.
Qed.

Lemma rd_range_Some {A} (m : list A) i n :
  0 <= i -> 0 <= n -> i + n <= zlen m ->
  rd_range m i n = Some (take (Z.to_nat n) (drop (Z.to_nat i) m)).
Proof.
  intros. unfold rd_range.
  by replace ((0 <=? i) && (0 <=? n) && (i + n <=? zlen m)) with true by lia.
Qed.

Lemma rd_range_inv {A} (m l : list A) i n :
  rd_range m i n = Some l ->
  0 <= i /\ 0 <= n /\ i + n <= zlen m /\ l = take (Z.to_nat n) (drop (Z.to_nat i) m).
Proof. unfold rd_range. case_if; [intros [= <-]|done]. split_and!; lia || done. Qed.

Lemma rd_range_mid {A} (a b c : list A) :
  rd_range (a ++ b ++ c) (zlen a) (zlen b) = Some b.
Proof.
  rewrite rd_range_Some by (rewrite ?zlen_app; pose proof (zlen_nonneg a);
    pose proof (zlen_nonneg b); pose proof (zlen_nonneg c); lia).
  unfold zlen. rewrite !Nat2Z.id, drop_app_length, take_app_length. done.
Qed.

(** ** Differences of numbers below a modulus *)

Lemma mod_sub_cases W a b :
  0 <= a < W -> 0 <= b < W ->
  (b - a) `mod` W = if a <=? b then b - a else b - a + W.
Proof.
  intros. case_if.
  - apply Z.mod_small. lia.
  - rewrite <- (Z.mod_small (b - a + W) W) by lia.
    rewrite <- (Z_mod_plus_full (b - a) 1 W). f_equal. lia.
Qed.

Lemma mod_range W x : 0 < W -> 0 <= x `mod` W < W.
Proof. apply Z.mod_pos_bound. Qed.

Lemma u8_range x : is_u8 (u8 x). Proof. apply mod_range. lia. Qed.
Lemma u16_range x : is_u16 (u16 x). Proof. apply mod_range. lia. Qed.
Lemma u32_range x : is_u32 (u32 x). Proof. apply mod_range. lia. Qed.
Lemma u64_range x : is_u64 (u64 x). Proof. apply mod_range. lia. Qed.
#[export] Hint Resolve u8_range u16_range u32_range u64_range : rtc.

Lemma u8_id x : is_u8 x -> u8 x = x. Proof. apply Z.mod_small. Qed.
Lemma u16_id x : is_u16 x -> u16 x = x. Proof. apply Z.mod_small. Qed.
Lemma u32_id x : is_u32 x -> u32 x = x. Proof. apply Z.mod_small. Qed.
Lemma u64_id x : is_u64 x -> u64 x = x. Proof. apply Z.mod_small. Qed.

Lemma wr_None {A} (m : list A) i v : zlen m <= i -> wr m i v = None.
Proof. intros H. unfold wr. by replace (i <? zlen m) with false by lia; rewrite andb_false_r. Qed.

(** A block of writes that leaves the buffer is undefined. *)
Lemma wrs_None {A} (m bs : list A) i :
  0 <= i -> 0 < zlen bs -> zlen m < i + zlen bs -> wrs m i bs = None.
Proof.
  revert m i; induction bs as [|b bs IH]; intros m i Hi Hp Hl; [done|].
  rewrite zlen_cons in Hl. cbn [wrs].
  destruct (Z.le_gt_cases (zlen m) i); [by rewrite wr_None|].
  rewrite wr_Some by lia. cbn [mbind option_bind].
  destruct bs as [|b' bs]; [rewrite zlen_nil in Hl; lia|].
  apply IH; [lia|rewrite zlen_cons; pose proof (zlen_nonneg bs); lia|len].
Qed.

Lemma rd_byte (m : list Z) i :
  bytes m -> 0 <= i < zlen m -> exists v, rd m i = Some v /\ is_u8 v.
Proof.
  intros Hm Hi. destruct (rd_Some m i Hi) as (v & Hv & _).
  exists v. split; [done|]. by eapply rd_Forall.
Qed.

(** The expression evaluated first in a chain of binds. *)
Ltac headexp t :=
  lazymatch t with
  | mbind _ ?x => headexp x
  | @mbind _ _ _ _ _ ?x => headexp x
  | _ => t
  end.

(** Perform the first read of the definition in the goal, which is in bounds;
    [v] is the byte. *)
Ltac read_as v :=
  match goal with
  | |- context [?t = _] =>
      lazymatch headexp t with
      | rd ?m ?i =>
          let H := fresh "Hrd" in let Hb := fresh "Hb" in
          destruct (rd_byte m i) as (v & H & Hb);
          [try done; auto with rtc|lia|rewrite H; cbn [mbind option_bind]; cbv zeta]
      end
  end.

(** Split the first test of the definition in the goal. *)
Ltac step_if :=
  match goal with
  | |- context [?t = _] =>
      let e := headexp t in
      lazymatch e with
      | (if ?b then _ else _) =>
          let E := fresh "E" in destruct b eqn:E; b2p; cbn [mbind option_bind]
      end
  end.

(** ** Sums *)

Fixpoint zsum {A} (f : A -> Z) (l : list A) : Z :=
  match l with [] => 0 | x :: l' => f x + zsum f l' end.

Lemma zsum_app {A} (f : A -> Z) l k : zsum f (l ++ k) = zsum f l + zsum f k.
Proof. induction l as [|x l IH]; cbn [zsum app]; lia. Qed.

Lemma zsum_perm {A} (f : A -> Z) l k : l ≡ₚ k -> zsum f l = zsum f k.
Proof. induction 1; cbn [zsum]; lia. Qed.

Lemma zsum_bound {A} (f : A -> Z) b l :
  Forall (fun x => 0 <= f x <= b) l -> 0 <= zsum f l <= zlen l * b.
Proof. induction 1; [by change (zlen (@nil A)) with 0|]. rewrite zlen_cons. cbn [zsum]. nia. Qed.

Lemma zsum_shift {A} (f g : A -> Z) d l :
  (forall x, g x = f x + d) -> zsum g l = zsum f l + d * zlen l.
Proof.
  intros H. induction l as [|x l IH]; [change (zlen (@nil A)) with 0; cbn; lia|].
  cbn [zsum]. rewrite IH, H, zlen_cons. lia.
Qed.

Lemma zlen_perm {A} (l k : list A) : l ≡ₚ k -> zlen l = zlen k.
Proof. intros H. unfold zlen. by rewrite (Permutation_length H). Qed.
