(* ===== verification/StateMonad.v ===== *)
(** * Stateful code that can fail

    Methods that read and write members, call out and may do something
    undefined are functions of the state that return [None] in that case.  [wp]
    says that such a method succeeds and what it then returns and leaves behind:
    it is a statement of total correctness, since it gives the result. *)

From S2P Require Import Prelude.

Definition M (S A : Type) : Type := S -> option (A * S).

#[export] Instance M_ret {S} : MRet (M S) := fun _ a s => Some (a, s).
#[export] Instance M_bind {S} : MBind (M S) := fun _ _ f m s => '(a, s) ← m s; f a s.

Section operations.
Context {S : Type}.

Definition gets {A} (f : S -> A) : M S A := fun s => Some (f s, s).
Definition modify (f : S -> S) : M S unit := fun s => Some (tt, f s).
Definition lift {A} (o : option A) : M S A := fun s => a ← o; Some (a, s).

(** A method called for each element of a container, in order. *)
Fixpoint for_each {A} (f : A -> M S unit) (l : list A) : M S unit :=
  match l with
  | [] => mret tt
  | x :: l => f x ;; for_each f l
  end.

Lemma for_each_eval {A} (f : A -> M S unit) x l s s' :
  f x s = Some (tt, s') -> for_each f (x :: l) s = for_each f l s'.
Proof. intros E. cbn. unfold mbind, M_bind. by rewrite E. Qed.

Lemma bind_eval {A B} (m : M S A) (f : A -> M S B) s a s' : m s = Some (a, s') -> (m ≫= f) s = f a s'.
Proof. intros E. unfold mbind, M_bind. by rewrite E. Qed.

Lemma bind_inv {A B} (m : M S A) (f : A -> M S B) s r : (m ≫= f) s = Some r -> exists a s', m s = Some (a, s') /\ f a s' = Some r.
Proof. unfold mbind, M_bind. destruct (m s) as [[a s']|]; [|done]. cbn. eauto. Qed.

Definition wp {A} (m : M S A) (s : S) (Q : A -> S -> Prop) : Prop :=
  exists a s', m s = Some (a, s') /\ Q a s'.

Lemma wp_ret {A} (a : A) s (Q : A -> S -> Prop) : Q a s -> wp (mret a) s Q.
Proof. intros H. by exists a, s. Qed.

Lemma wp_bind {A B} (m : M S A) (f : A -> M S B) s Q :
  wp m s (fun a s' => wp (f a) s' Q) -> wp (m ≫= f) s Q.
Proof.
  intros (a & s' & Hm & b & s'' & Hf & HQ). exists b, s''. split; [|done].
  unfold mbind, M_bind. by rewrite Hm.
Qed.

Lemma wp_mono {A} (m : M S A) s (P Q : A -> S -> Prop) :
  wp m s P -> (forall a s', P a s' -> Q a s') -> wp m s Q.
Proof. intros (a & s' & Hm & HP) H. exists a, s'. auto. Qed.

(** A method has one outcome. *)
Lemma wp_both {A} (m : M S A) s (P Q : A -> S -> Prop) :
  wp m s P -> wp m s Q -> wp m s (fun a s' => P a s' /\ Q a s').
Proof. intros (a & s' & Hm & HP) (b & s'' & Hm' & HQ). rewrite Hm in Hm'. injection Hm' as <- <-. by exists a, s'. Qed.

Lemma wp_gets {A} (f : S -> A) s (Q : A -> S -> Prop) : Q (f s) s -> wp (gets f) s Q.
Proof. intros H. by exists (f s), s. Qed.

Lemma wp_modify f s (Q : unit -> S -> Prop) : Q tt (f s) -> wp (modify f) s Q.
Proof. intros H. by exists tt, (f s). Qed.

Lemma wp_lift {A} (o : option A) a s (Q : A -> S -> Prop) : o = Some a -> Q a s -> wp (lift o) s Q.
Proof. intros -> H. by exists a, s. Qed.

(** A loop keeps what each of its steps keeps. *)
Lemma wp_for_each {A} (f : A -> M S unit) (I : S -> Prop) l s :
  (forall x s, x ∈ l -> I s -> wp (f x) s (fun _ s' => I s')) ->
  I s -> wp (for_each f l) s (fun _ s' => I s').
Proof.
  revert s. induction l as [|x l IH]; intros s Hf HI; cbn [for_each]; [by apply wp_ret|].
  apply wp_bind. eapply wp_mono; [apply Hf; [left|done]|]. intros [] s' HI'.
  apply IH; [|done]. intros y s1 Hy. apply Hf. by right.
Qed.

End operations.

(** One step of a method. *)
Ltac wp_step :=
  lazymatch goal with
  | |- wp (mbind _ _) _ _ => apply wp_bind
  | |- wp (mret _) _ _ => apply wp_ret
  | |- wp (gets _) _ _ => apply wp_gets
  | |- wp (modify _) _ _ => apply wp_modify
  end.

(** Replace a call by what is known of it. *)
Ltac wp_call H := eapply wp_mono; [eapply H|cbn beta].
