(* ===== verification/StdContainers.v ===== *)
(** * Containers and algorithms of the C++ standard library

    [std::map] with an integer key, as the list of its nodes in the order an
    iterator visits them, and [std::sort], of which only what the standard
    promises is used: the class [StdSort] has the function and its two laws, so
    that nothing proved depends on the order of equivalent elements. *)

From Stdlib Require Import Sorted.
From S2P Require Import Prelude.

(** ** [std::map] *)

Section map.
Context {V : Type}.
Implicit Types l : list (Z * V).

(** [find]. *)
Fixpoint map_find (k : Z) l : option V :=
  match l with
  | [] => None
  | (k', v) :: l' => if k =? k' then Some v else map_find k l'
  end.

(** [emplace]: nothing when the key is there. *)
Fixpoint map_emplace (k : Z) (v : V) l : list (Z * V) :=
  match l with
  | [] => [(k, v)]
  | (k', v') :: l' =>
      if k <? k' then (k, v) :: l
      else if k =? k' then l else (k', v') :: map_emplace k v l'
  end.

(** [m[k] = v]. *)
Fixpoint map_assign (k : Z) (v : V) l : list (Z * V) :=
  match l with
  | [] => [(k, v)]
  | (k', v') :: l' =>
      if k =? k' then (k, v) :: l'
      else if k <? k' then (k, v) :: l else (k', v') :: map_assign k v l'
  end.

(** Assignment through an iterator that [find] returned. *)
Definition map_update (k : Z) (f : V -> V) l : list (Z * V) :=
  map (fun '(k', v) => if k =? k' then (k', f v) else (k', v)) l.

(** [erase]. *)
Definition map_erase (k : Z) l : list (Z * V) :=
  List.filter (fun '(k', _) => negb (k =? k')) l.

Definition keys_sorted l : Prop := StronglySorted Z.lt (map fst l).

Lemma keys_sorted_cons k v l :
  keys_sorted ((k, v) :: l) <-> keys_sorted l /\ Forall (fun x => k < x.1) l.
Proof.
  unfold keys_sorted. cbn. split.
  - intros H. apply StronglySorted_inv in H as [? H]. by rewrite List.Forall_map in H.
  - intros [? H]. constructor; [done|]. by rewrite List.Forall_map.
Qed.

Lemma keys_sorted_nil : keys_sorted [].
Proof. constructor. Qed.

Lemma map_find_In k v l : map_find k l = Some v -> In (k, v) l.
Proof.
  induction l as [|[k' v'] l IH]; cbn; [done|]. case_match; [|auto].
  intros [= ->]. left. f_equal. lia.
Qed.

Lemma map_find_below k l : Forall (fun x => k < x.1) l -> map_find k l = None.
Proof.
  induction 1 as [|[k' v'] l Hx Hl IH]; cbn in *; [done|].
  by replace (k =? k') with false by lia.
Qed.

Lemma map_find_iff k v l : keys_sorted l -> map_find k l = Some v <-> In (k, v) l.
Proof.
  intros Hs. split; [apply map_find_In|].
  induction l as [|[k' v'] l IH]; cbn; [done|].
  apply keys_sorted_cons in Hs as [Hs Hk]. intros [[= -> ->]|H].
  - by rewrite Z.eqb_refl.
  - rewrite List.Forall_forall in Hk. pose proof (Hk _ H) as Hlt. cbn in Hlt.
    replace (k =? k') with false by lia. auto.
Qed.

Lemma map_find_assign j k v l : map_find j (map_assign k v l) = if j =? k then Some v else map_find j l.
Proof.
  induction l as [|[k' v'] l IH]; cbn [map_assign map_find]; [done|].
  destruct (Z.eqb_spec k k') as [<-|]; cbn [map_find]; [by destruct (j =? k)|].
  destruct (k <? k'); cbn [map_find]; [done|]. rewrite IH.
  destruct (Z.eqb_spec j k'), (Z.eqb_spec j k); congruence.
Qed.

Lemma map_find_absent k l : k ∉ map fst l -> map_find k l = None.
Proof.
  induction l as [|[k' v'] l IH]; cbn; [done|]. intros [Hk Hl]%not_elem_of_cons.
  replace (k =? k') with false by lia. auto.
Qed.

Lemma map_assign_new k v l : k ∉ map fst l -> map_assign k v l ≡ₚ (k, v) :: l.
Proof.
  induction l as [|[k' v'] l IH]; cbn; [done|]. intros [Hk Hl]%not_elem_of_cons.
  replace (k =? k') with false by lia. destruct (k <? k'); [done|]. rewrite IH by done. apply perm_swap.
Qed.

(** Assignments one after the other. *)
Definition map_assign_all (new l : list (Z * V)) : list (Z * V) := fold_left (fun m x => map_assign x.1 x.2 m) new l.

Lemma map_assign_all_new new l : base.NoDup (map fst new) -> (forall k, k ∈ map fst new -> k ∉ map fst l) ->
  map_assign_all new l ≡ₚ new ++ l.
Proof.
  revert l. induction new as [|[k v] new IH]; intros l Hd Hn; [done|]. cbn in Hd. apply list.NoDup_cons in Hd as [Hk Hd].
  unfold map_assign_all in *. cbn [fold_left fst snd map app] in *.
  assert (map_assign k v l ≡ₚ (k, v) :: l) as E by (apply map_assign_new, Hn; left).
  rewrite IH; [|done|].
  - rewrite E. by rewrite <- Permutation_middle.
  - intros j Hj. rewrite (Permutation_map fst E). cbn. apply not_elem_of_cons. split; [by intros ->|]. apply Hn. by right.
Qed.

Lemma map_find_perm k v l : base.NoDup (map fst l) -> In (k, v) l -> map_find k l = Some v.
Proof.
  induction l as [|[k' v'] l IH]; cbn; [done|]. intros [Hk Hd]%list.NoDup_cons [[= -> ->]|Hin].
  - by rewrite Z.eqb_refl.
  - destruct (Z.eqb_spec k k') as [->|]; [|auto]. destruct Hk. apply list_elem_of_In.
    apply (in_map fst _ _ Hin).
Qed.

Lemma map_emplace_below j k v l :
  Forall (fun x => j < x.1) l -> j < k -> Forall (fun x => j < x.1) (map_emplace k v l).
Proof.
  induction 1 as [|[k' v'] l Hx Hl IH]; intros Hj; cbn in *; [by repeat constructor|].
  repeat case_match; repeat constructor; cbn; auto.
Qed.

Lemma map_emplace_sorted k v l : keys_sorted l -> keys_sorted (map_emplace k v l).
Proof.
  induction l as [|[k' v'] l IH]; intros Hs; cbn; [by repeat constructor|].
  pose proof Hs as H. apply keys_sorted_cons in H as [Hl Hk].
  destruct (Z.ltb_spec k k'); [|destruct (Z.eqb_spec k k'); [done|]].
  - apply keys_sorted_cons. split; [done|]. constructor; [done|].
    eapply List.Forall_impl; [|exact Hk]. cbn. lia.
  - apply keys_sorted_cons. split; [auto|]. apply map_emplace_below; [done|lia].
Qed.

(** A new key is one new node, whatever its place. *)
Lemma map_emplace_new k v l :
  keys_sorted l -> map_find k l = None -> map_emplace k v l ≡ₚ (k, v) :: l.
Proof.
  induction l as [|[k' v'] l IH]; intros Hs; cbn; [done|].
  apply keys_sorted_cons in Hs as [Hl Hk].
  destruct (Z.eqb_spec k k'); [done|]. intros Hf.
  case_match; [done|]. rewrite IH by done. apply perm_swap.
Qed.

Lemma map_emplace_old k v w l : keys_sorted l -> map_find k l = Some w -> map_emplace k v l = l.
Proof.
  induction l as [|[k' v'] l IH]; intros Hs; cbn; [done|].
  apply keys_sorted_cons in Hs as [Hl Hk].
  destruct (Z.eqb_spec k k').
  - subst. rewrite Z.ltb_irrefl. done.
  - intros Hf. destruct (Z.ltb_spec k k').
    + rewrite map_find_below in Hf; [done|].
      eapply List.Forall_impl; [|exact Hk]. cbn. lia.
    + by rewrite IH.
Qed.

Lemma map_find_emplace j k v l :
  keys_sorted l ->
  map_find j (map_emplace k v l) =
    if j =? k then Some (default v (map_find k l)) else map_find j l.
Proof.
  induction l as [|[k' v'] l IH]; intros Hs; cbn [map_emplace map_find].
  { by destruct (j =? k). }
  pose proof Hs as H. apply keys_sorted_cons in H as [Hl Hk].
  destruct (Z.ltb_spec k k'); [|destruct (Z.eqb_spec k k') as [->|]]; cbn [map_find].
  - replace (k =? k') with false by lia. rewrite (map_find_below k); [done|].
    eapply List.Forall_impl; [|exact Hk]. cbn. lia.
  - by destruct (Z.eqb_spec j k').
  - rewrite IH by done. destruct (Z.eqb_spec j k'), (Z.eqb_spec j k); try done; lia.
Qed.

Lemma map_erase_In x k l : In x (map_erase k l) <-> In x l /\ x.1 <> k.
Proof.
  unfold map_erase. rewrite List.filter_In. destruct x as [k' v]. cbn.
  destruct (Z.eqb_spec k k') as [->|]; cbn; intuition congruence.
Qed.

Lemma map_erase_id k l : Forall (fun x => k < x.1) l -> map_erase k l = l.
Proof.
  induction 1 as [|[k' v'] l Hx Hl IH]; cbn in *; [done|].
  replace (k =? k') with false by lia. cbn. f_equal. exact IH.
Qed.

Lemma map_erase_sorted k l : keys_sorted l -> keys_sorted (map_erase k l).
Proof.
  induction l as [|[k' v'] l IH]; intros Hs; cbn; [done|].
  apply keys_sorted_cons in Hs as [Hl Hk]. case_match; [|by apply IH].
  apply keys_sorted_cons. split; [by apply IH|].
  rewrite List.Forall_forall in *. intros x Hx. apply map_erase_In in Hx as [Hx _]. auto.
Qed.

Lemma map_find_erase j k l :
  map_find j (map_erase k l) = if j =? k then None else map_find j l.
Proof.
  induction l as [|[k' v'] l IH]; cbn; [by destruct (_ =? _)|].
  destruct (Z.eqb_spec k k') as [->|]; cbn; rewrite ?IH;
    repeat case_match; try done; lia.
Qed.

(** Erasing a stored key takes one node out. *)
Lemma map_erase_perm k v l :
  keys_sorted l -> map_find k l = Some v -> l ≡ₚ (k, v) :: map_erase k l.
Proof.
  induction l as [|[k' v'] l IH]; intros Hs; cbn; [done|].
  apply keys_sorted_cons in Hs as [Hl Hk]. destruct (Z.eqb_spec k k') as [->|]; cbn.
  - intros [= ->]. change (List.filter _ l) with (map_erase k' l). by rewrite map_erase_id.
  - intros Hf. rewrite IH at 1 by done. apply perm_swap.
Qed.

Lemma map_update_keys k f l : map fst (map_update k f l) = map fst l.
Proof.
  induction l as [|[k' v] l IH]; cbn; [done|]. f_equal; [by case_match|exact IH].
Qed.

Lemma map_update_sorted k f l : keys_sorted l -> keys_sorted (map_update k f l).
Proof. unfold keys_sorted. by rewrite map_update_keys. Qed.

Lemma map_find_update j k f l :
  map_find j (map_update k f l) = if j =? k then f <$> map_find k l else map_find j l.
Proof.
  induction l as [|[k' v] l IH]; cbn; [by destruct (_ =? _)|].
  destruct (Z.eqb_spec k k') as [->|]; cbn; rewrite ?IH;
    repeat case_match; try done; lia.
Qed.

Lemma map_update_absent k f l : map_find k l = None -> map_update k f l = l.
Proof.
  induction l as [|[k' v] l IH]; cbn; [done|].
  destruct (k =? k'); [done|]. intros H. f_equal. by apply IH.
Qed.

(** Updating a stored key is replacing its node. *)
Lemma map_update_perm k f v l :
  keys_sorted l -> map_find k l = Some v -> map_update k f l ≡ₚ (k, f v) :: map_erase k l.
Proof.
  induction l as [|[k' v'] l IH]; intros Hs; cbn; [done|].
  apply keys_sorted_cons in Hs as [Hl Hk]. destruct (Z.eqb_spec k k') as [->|]; cbn.
  - intros [= ->]. change (List.filter _ l) with (map_erase k' l).
    rewrite map_erase_id by done. change (List.map _ l) with (map_update k' f l).
    rewrite map_update_absent; [done|]. by apply map_find_below.
  - intros Hf. change (List.map _ l) with (map_update k f l).
    rewrite IH by done. apply perm_swap.
Qed.

Lemma map_update_update k f g l :
  map_update k g (map_update k f l) = map_update k (fun v => g (f v)) l.
Proof.
  unfold map_update. rewrite map_map. apply map_ext. intros [k' v]. by destruct (k =? k') eqn:E; rewrite E.
Qed.

Lemma map_erase_absent k l : map_find k l = None -> map_erase k l = l.
Proof.
  induction l as [|[k' v'] l IH]; cbn; [done|]. destruct (k =? k'); [done|].
  intros H. cbn. f_equal. by apply IH.
Qed.

Lemma map_erase_permutation k l l' : l ≡ₚ l' -> map_erase k l ≡ₚ map_erase k l'.
Proof.
  unfold map_erase. induction 1 as [|[k' v] l l' _ IH|[k1 v1] [k2 v2] l|]; cbn; [done| | |].
  - case_match; [by f_equiv|done].
  - repeat case_match; try done. apply perm_swap.
  - by etransitivity.
Qed.

(** A new node that is then updated. *)
Lemma map_update_emplace k f v l :
  keys_sorted l -> map_find k l = None ->
  map_update k f (map_emplace k v l) ≡ₚ (k, f v) :: l.
Proof.
  intros Hs Hf. rewrite (map_update_perm k f v);
    [|by apply map_emplace_sorted|by rewrite map_find_emplace, Z.eqb_refl, Hf].
  f_equiv. transitivity (map_erase k ((k, v) :: l)).
  - by apply map_erase_permutation, map_emplace_new.
  - cbn. rewrite Z.eqb_refl. cbn. change (List.filter _ l) with (map_erase k l).
    by rewrite map_erase_absent.
Qed.

Lemma keys_sorted_app_r l1 l2 : keys_sorted (l1 ++ l2) -> keys_sorted l2.
Proof.
  induction l1 as [|[k v] l1 IH]; [done|]. intros H. apply keys_sorted_cons in H as [H _]. auto.
Qed.

Lemma map_emplace_Forall (P : Z * V -> Prop) k v l :
  Forall P l -> P (k, v) -> Forall P (map_emplace k v l).
Proof.
  intros H Hv. induction H as [|[k' v'] l Hx Hl IH]; cbn; [by constructor|].
  repeat case_match; repeat constructor; done.
Qed.

Lemma map_update_Forall (P : Z * V -> Prop) k f l :
  Forall P l -> (forall v, P (k, v) -> P (k, f v)) -> Forall P (map_update k f l).
Proof.
  intros H Hf. induction H as [|[k' v'] l Hx Hl IH]; cbn; [constructor|].
  constructor; [|done]. destruct (Z.eqb_spec k k') as [->|]; auto.
Qed.
End map.

#[export] Hint Resolve keys_sorted_nil map_emplace_sorted map_erase_sorted
  map_update_sorted : rtc.

(** ** [std::clamp], for [lo <= hi] *)

Definition clamp (v lo hi : Z) : Z := if v <? lo then lo else if hi <? v then hi else v.

Lemma clamp_range v lo hi : lo <= hi -> lo <= clamp v lo hi <= hi.
Proof. unfold clamp. intros H. repeat case_if; b2p; lia. Qed.

(** ** [std::sort] *)

(** What [std::sort] requires of the comparison: a strict weak order. *)
Class WeakOrder {A} (lt : A -> A -> bool) : Prop := {
  lt_asym x y : lt x y = true -> lt y x = false;
  le_trans x y z : lt y x = false -> lt z y = false -> lt z x = false;
}.

(** The result is in order: nothing is less than what precedes it. *)
Definition in_order {A} (lt : A -> A -> bool) : list A -> Prop :=
  StronglySorted (fun x y => lt y x = false).

Class StdSort := {
  std_sort {A} (lt : A -> A -> bool) : list A -> list A;
  std_sort_perm {A} (lt : A -> A -> bool) l : std_sort lt l ≡ₚ l;
  std_sort_order {A} (lt : A -> A -> bool) `{!WeakOrder lt} l : in_order lt (std_sort lt l);
}.

(** One sort that keeps the promises: by insertion, equivalent elements in the
    order they had. *)
Section insertion.
Context {A : Type} (lt : A -> A -> bool).

Fixpoint insert_by (x : A) (l : list A) : list A :=
  match l with
  | [] => [x]
  | y :: l' => if lt y x then y :: insert_by x l' else x :: l
  end.

Fixpoint insertion_sort (l : list A) : list A :=
  match l with [] => [] | x :: l' => insert_by x (insertion_sort l') end.

Lemma insert_by_perm x l : insert_by x l ≡ₚ x :: l.
Proof.
  induction l as [|y l IH]; cbn; [done|]. case_match; [|done].
  rewrite IH. apply perm_swap.
Qed.

Lemma insertion_sort_perm l : insertion_sort l ≡ₚ l.
Proof. induction l as [|x l IH]; cbn; [done|]. by rewrite insert_by_perm, IH. Qed.

Lemma insert_by_order `{!WeakOrder lt} x l : in_order lt l -> in_order lt (insert_by x l).
Proof.
  induction l as [|y l IH]; intros H; cbn; [by repeat constructor|].
  pose proof H as H0. apply StronglySorted_inv in H0 as [Hl Hy].
  destruct (lt y x) eqn:E.
  - constructor; [by apply IH|]. rewrite insert_by_perm. constructor; [by apply lt_asym|done].
  - constructor; [done|]. constructor; [done|].
    eapply List.Forall_impl; [|exact Hy]. intros z Hz. by apply (le_trans x y z).
Qed.

Lemma insertion_sort_order `{!WeakOrder lt} l : in_order lt (insertion_sort l).
Proof. induction l as [|x l IH]; cbn; [constructor|]. by apply insert_by_order. Qed.
End insertion.

#[export] Instance insertion_StdSort : StdSort := {
  std_sort A lt := insertion_sort lt;
  std_sort_perm A lt := insertion_sort_perm lt;
  std_sort_order A lt H := insertion_sort_order lt;
}.
