(* ===== verification/Text.v ===== *)
(** * Text

    [std::string], its searches, and the parts of the streams and of the number
    conversions that the SDP code uses, on lists of characters.  [None] of a
    search is [npos].  The second half has what the round trips of SDP
    attributes share: cutting a text into lines and words, numbers. *)

From Stdlib Require Import Ascii String.
From stdpp Require Import strings.
From S2P Require Import Prelude.

Definition text : Type := list ascii.

Definition lit (s : string) : text := list_ascii_of_string s.

Definition newline : ascii := Ascii.ascii_of_nat 10.
Definition carriage_return : ascii := Ascii.ascii_of_nat 13.

(** ** Characters *)

Definition code (c : ascii) : Z := Z.of_N (N_of_ascii c).

(** [std::isspace], in the C locale, and what [>>] skips. *)
Definition isspace (c : ascii) : bool := (code c =? 32) || ((9 <=? code c) && (code c <=? 13)).

Definition isdigit (c : ascii) : bool := (48 <=? code c) && (code c <=? 57).

(** [std::tolower], in the C locale. *)
Definition tolower (c : ascii) : ascii :=
  if (65 <=? code c) && (code c <=? 90) then ascii_of_N (Z.to_N (code c + 32)) else c.

(** ** Searches *)

Fixpoint starts_with (p s : text) : bool :=
  match p, s with
  | [], _ => true
  | c :: p, d :: s => bool_decide (c = d) && starts_with p s
  | _ :: _, [] => false
  end.

(** [s.find(p)], and [s.find(p, pos)]. *)
Fixpoint find (p s : text) : option nat :=
  if starts_with p s then Some 0%nat else
  match s with
  | [] => None
  | _ :: s => S <$> find p s
  end.
Definition find_from (p s : text) (pos : nat) : option nat :=
  if (pos <=? length s)%nat then Nat.add pos <$> find p (drop pos s) else None.

(** [s.rfind(p)]: the last place. *)
Fixpoint rfind (p s : text) : option nat :=
  match s with
  | [] => if starts_with p [] then Some 0%nat else None
  | _ :: s' => match rfind p s' with Some n => Some (S n) | None => if starts_with p s then Some 0%nat else None end
  end.

(** [s.find_first_of(set)]. *)
Fixpoint find_first_of (set s : text) : option nat :=
  match s with
  | [] => None
  | c :: s => if bool_decide (c ∈ set) then Some 0%nat else S <$> find_first_of set s
  end.

(** [s.substr(pos, n)], with [pos] inside. *)
Definition substr (s : text) (pos n : nat) : text := take n (drop pos s).

(** ** Lines and words *)

Definition drop_while (f : ascii -> bool) : text -> text :=
  fix go s := match s with [] => [] | c :: s' => if f c then go s' else s end.

Definition trim_by (f : ascii -> bool) (s : text) : text := rev (drop_while f (rev (drop_while f s))).

(** [std::getline] until it fails, with a delimiter. *)
Fixpoint getlines (d : ascii) (s : text) : list text :=
  match s with
  | [] => []
  | c :: s =>
      if bool_decide (c = d) then [] :: getlines d s else
      match getlines d s with
      | [] => [[c]]
      | l :: ls => (c :: l) :: ls
      end
  end.

(** [stream >> word] until it fails. *)
Fixpoint words (s : text) : list text :=
  match s with
  | [] => []
  | c :: s' =>
      if isspace c then words s' else
      match s' with
      | [] => [[c]]
      | c' :: _ => if isspace c' then [c] :: words s' else
          match words s' with
          | [] => [[c]]
          | w :: ws => (c :: w) :: ws
          end
      end
  end.

(** ** Numbers *)

Definition digit (z : Z) : ascii := ascii_of_N (Z.to_N (48 + z)).

(** [std::to_string] of a number with at most twenty digits. *)
Fixpoint decimal (fuel : nat) (z : Z) (rest : text) : text :=
  match fuel with
  | O => rest
  | S fuel => if z <? 10 then digit z :: rest else decimal fuel (z / 10) (digit (z mod 10) :: rest)
  end.
Definition to_string (z : Z) : text := decimal 20 z [].

(** The value of digits, after those that gave [v]. *)
Fixpoint value_from (v : Z) (s : text) : Z :=
  match s with
  | [] => v
  | c :: s => value_from (10 * v + (code c - 48)) s
  end.
Definition value (s : text) : Z := value_from 0 s.

(** The digits at the front. *)
Fixpoint span_digits (s : text) : text * text :=
  match s with
  | c :: s' => if isdigit c then let '(a, b) := span_digits s' in (c :: a, b) else ([], s)
  | [] => ([], [])
  end.

(** [std::from_chars] to a [uint32_t] that takes the whole text. *)
Definition from_chars_u32 (s : text) : option Z :=
  if bool_decide (s = []) || negb (forallb isdigit s) || (4294967296 <=? value s) then None else Some (value s).

(** [stream >> x] for a [uint32_t]: the number and the rest of the stream.  A
    minus sign is taken as arithmetic modulo [2^32]. *)
Definition read_u32 (s : text) : option (Z * text) :=
  let s := drop_while isspace s in
  let '(negative, s) := match s with
                        | c :: s' => if bool_decide (code c = 45) then (true, s')
                                     else if bool_decide (code c = 43) then (false, s') else (false, s)
                        | [] => (false, [])
                        end in
  let '(digits, rest) := span_digits s in
  if bool_decide (digits = []) || (4294967296 <=? value digits) then None
  else Some (if negative then u32 (- value digits) else value digits, rest).

(** [atoi]; a number that an [int] cannot hold is undefined. *)
Definition atoi (s : text) : option Z :=
  let s := drop_while isspace s in
  let '(negative, s) := match s with
                        | c :: s' => if bool_decide (code c = 45) then (true, s')
                                     else if bool_decide (code c = 43) then (false, s') else (false, s)
                        | [] => (false, [])
                        end in
  let v := value (span_digits s).1 in
  let v := if negative then - v else v in
  if (-2147483648 <=? v) && (v <=? 2147483647) then Some v else None.

(** ** [std::map] with a text as the key

    In the order of the keys, which is that of the bytes. *)

Fixpoint text_lt (a b : text) : bool :=
  match a, b with
  | _, [] => false
  | [], _ :: _ => true
  | c :: a, d :: b => (code c <? code d) || ((code c =? code d) && text_lt a b)
  end.

Section text_map.
Context {V : Type}.

Fixpoint text_find (k : text) (l : list (text * V)) : option V :=
  match l with
  | [] => None
  | (k', v) :: l => if bool_decide (k = k') then Some v else text_find k l
  end.

(** [m[k] = v]. *)
Fixpoint text_assign (k : text) (v : V) (l : list (text * V)) : list (text * V) :=
  match l with
  | [] => [(k, v)]
  | (k', v') :: l' =>
      if bool_decide (k = k') then (k, v) :: l' else
      if text_lt k k' then (k, v) :: l else (k', v') :: text_assign k v l'
  end.

Lemma text_find_assign j k v l :
  text_find j (text_assign k v l) = if bool_decide (j = k) then Some v else text_find j l.
Proof.
  induction l as [|[k' v'] l IH]; cbn; [done|].
  repeat case_bool_decide; subst; cbn; try case_match; cbn; repeat case_bool_decide; subst; try done;
    rewrite IH; by case_bool_decide.
Qed.

Definition text_assign_all (new l : list (text * V)) : list (text * V) := fold_left (fun m x => text_assign x.1 x.2 m) new l.

Lemma text_assign_all_other k new l : k ∉ map fst new -> text_find k (text_assign_all new l) = text_find k l.
Proof.
  revert l. induction new as [|[k' v] new IH]; intros l Hk; [done|]. cbn in Hk. apply not_elem_of_cons in Hk as [Hk Hn].
  unfold text_assign_all in *. cbn [fold_left fst snd]. rewrite IH by done. by rewrite text_find_assign, bool_decide_false.
Qed.

(** Keys that are all different: the order does not matter. *)
Lemma text_assign_all_find k v new l : base.NoDup (map fst new) -> In (k, v) new ->
  text_find k (text_assign_all new l) = Some v.
Proof.
  revert l. induction new as [|[k' v'] new IH]; intros l Hd Hin; [done|]. cbn in Hd. apply list.NoDup_cons in Hd as [Hk Hd].
  destruct Hin as [[= -> ->]|Hin]; [|exact (IH _ Hd Hin)].
  change (text_find k (text_assign_all new (text_assign k v l)) = Some v).
  by rewrite text_assign_all_other, text_find_assign, bool_decide_true.
Qed.

Lemma text_assign_all_perm k new new' : base.NoDup (map fst new) -> new ≡ₚ new' ->
  text_find k (text_assign_all new []) = text_find k (text_assign_all new' []).
Proof.
  intros Hd Hp. destruct (decide (k ∈ map fst new)) as [Hin|Hin].
  - apply list_elem_of_In, in_map_iff in Hin as ([k' v] & <- & Hin). rewrite (text_assign_all_find _ v) by done.
    symmetry. apply text_assign_all_find; [by rewrite <- Hp|]. by apply (Permutation_in _ Hp).
  - rewrite !text_assign_all_other; [done|by rewrite <- Hp|done].
Qed.

End text_map.

(** ** Lines *)

Definition plain_line (l : text) : Prop := newline ∉ l.

Definition unlines (ls : list text) : text := concat (map (fun l => l ++ [newline]) ls).

Lemma getlines_cons d x s : d ∉ x -> getlines d (x ++ d :: s) = x :: getlines d s.
Proof.
  induction x as [|c x IH]; intros Hx; cbn [app getlines].
  - by rewrite bool_decide_true.
  - apply not_elem_of_cons in Hx as [Hc Hx]. rewrite bool_decide_false by congruence. by rewrite IH.
Qed.

Lemma getlines_last d x : d ∉ x -> x <> [] -> getlines d x = [x].
Proof.
  induction x as [|c x IH]; intros Hx Hn; [done|]. apply not_elem_of_cons in Hx as [Hc Hx].
  cbn [getlines]. rewrite bool_decide_false by congruence. destruct x as [|c' x]; [done|]. by rewrite IH.
Qed.

Lemma unlines_cons l ls : unlines (l :: ls) = l ++ newline :: unlines ls.
Proof. unfold unlines. cbn. by rewrite <- app_assoc. Qed.

Lemma unlines_app a b : unlines (a ++ b) = unlines a ++ unlines b.
Proof. unfold unlines. by rewrite map_app, concat_app. Qed.

Lemma getlines_unlines ls rest :
  Forall plain_line ls -> getlines newline (unlines ls ++ rest) = ls ++ getlines newline rest.
Proof.
  induction 1 as [|l ls Hl _ IH]; [done|].
  rewrite unlines_cons, <- app_assoc. cbn [app]. by rewrite getlines_cons, IH.
Qed.

Lemma getlines_unlines' ls : Forall plain_line ls -> getlines newline (unlines ls) = ls.
Proof. intros H. pose proof (getlines_unlines ls [] H) as E. by rewrite !app_nil_r in E. Qed.

(** ** Searches *)

Lemma starts_with_app p s : starts_with p (p ++ s) = true.
Proof. induction p as [|c p IH]; cbn; [done|]. by rewrite bool_decide_true, IH. Qed.

Lemma starts_with_spec p s : starts_with p s = true <-> exists r, s = p ++ r.
Proof.
  split; [|intros [r ->]; apply starts_with_app].
  revert s. induction p as [|c p IH]; intros s; cbn; [eauto|].
  destruct s as [|d s]; [done|]. intros H. apply andb_prop in H as [Hc H].
  apply bool_decide_eq_true in Hc as <-. apply IH in H as [r ->]. by exists r.
Qed.

Lemma starts_with_refl p : starts_with p p = true.
Proof. rewrite <- (app_nil_r p) at 2. apply starts_with_app. Qed.

(** What starts with [p] starts with what [p] starts with; a longer text does
    not change what a prefix decides. *)
Lemma starts_with_longer p a s : (length p <= length a)%nat -> starts_with p (a ++ s) = starts_with p a.
Proof.
  revert a. induction p as [|c p IH]; intros [|d a] Hl; cbn in *; try done; [lia|].
  rewrite IH by lia. done.
Qed.

Lemma find_app p x s : starts_with p (x ++ s) = false -> (x = [] -> False) ->
  find p (x ++ s) = S <$> find p (tail x ++ s).
Proof. destruct x as [|c x]; [done|]. intros H _. cbn [app find tail] in *. by rewrite H. Qed.

Lemma find_char c x s : c ∉ x -> find [c] (x ++ c :: s) = Some (length x).
Proof.
  induction x as [|d x IH]; intros Hx; cbn.
  - by rewrite bool_decide_true.
  - apply not_elem_of_cons in Hx as [Hd Hx]. rewrite bool_decide_false by done. cbn. by rewrite IH.
Qed.

Lemma find_char_none c x : c ∉ x -> find [c] x = None.
Proof.
  induction x as [|d x IH]; intros Hx; cbn; [done|].
  apply not_elem_of_cons in Hx as [Hd Hx]. rewrite bool_decide_false by done. cbn. by rewrite IH.
Qed.

Lemma substr_app a b c : substr (a ++ b ++ c) (length a) (length b) = b.
Proof. unfold substr. by rewrite drop_app_length, take_app_length. Qed.

(** ** Spaces *)

Definition no_space (s : text) : Prop := Forall (fun c => isspace c = false) s.

Lemma drop_while_none f s : (forall c, head s = Some c -> f c = false) -> drop_while f s = s.
Proof. destruct s as [|c s]; [done|]. intros H. cbn. by rewrite H. Qed.

Lemma trim_by_id (f : ascii -> bool) s :
  (forall c, head s = Some c -> f c = false) -> (forall c, head (rev s) = Some c -> f c = false) -> trim_by f s = s.
Proof.
  intros Hh Hl. unfold trim_by. rewrite (drop_while_none f s) by done.
  rewrite drop_while_none by done. apply rev_involutive.
Qed.

Lemma trim_word s : no_space s -> trim_by isspace s = s.
Proof.
  intros H. apply trim_by_id; intros c Hc; unfold no_space in H; rewrite List.Forall_forall in H; apply H.
  - destruct s as [|d s]; [done|]. injection Hc as ->. by left.
  - apply in_rev. destruct (rev s) as [|d r]; [done|]. injection Hc as ->. by left.
Qed.

Lemma words_cons w c s : no_space w -> w <> [] -> isspace c = true -> words (w ++ c :: s) = w :: words s.
Proof.
  induction w as [|d w IH]; [done|]. intros Hw _ Hc. inversion Hw as [|? ? Hd Hw']; subst.
  cbn [app words]. rewrite Hd. destruct w as [|d' w].
  - cbn [app]. rewrite Hc. cbn [words]. by rewrite Hc.
  - pose proof (IH Hw' ltac:(done) Hc) as E. inversion Hw' as [|? ? Hd' _]; subst. cbn [app] in *. rewrite Hd'. by rewrite E.
Qed.

Lemma words_last w : no_space w -> w <> [] -> words w = [w].
Proof.
  induction w as [|d w IH]; [done|]. intros Hw _. inversion Hw as [|? ? Hd Hw']; subst.
  cbn [words]. rewrite Hd. destruct w as [|d' w]; [done|].
  inversion Hw' as [|? ? Hd' _]; subst. by rewrite Hd', (IH Hw').
Qed.

(** ** Numbers *)

Definition digits (s : text) : Prop := Forall (fun c => isdigit c = true) s.

Lemma code_digit z : 0 <= z < 10 -> code (digit z) = 48 + z.
Proof. intros H. unfold code, digit. rewrite N_ascii_embedding; lia. Qed.

Lemma isdigit_digit z : 0 <= z < 10 -> isdigit (digit z) = true.
Proof. intros H. unfold isdigit. rewrite code_digit by done. lia. Qed.

Lemma digit_no_space c : isdigit c = true -> isspace c = false.
Proof. unfold isdigit, isspace. lia. Qed.

Lemma decimal_digits fuel z rest : 0 <= z -> digits rest -> digits (decimal fuel z rest).
Proof.
  revert z rest. induction fuel as [|fuel IH]; intros z rest Hz Hr; cbn; [done|].
  destruct (Z.ltb_spec z 10).
  - constructor; [apply isdigit_digit; lia|done].
  - apply IH; [apply Z.div_pos; lia|]. constructor; [apply isdigit_digit, Z.mod_pos_bound; lia|done].
Qed.

Lemma decimal_value fuel z rest : 0 <= z < 10 ^ Z.of_nat fuel ->
  value_from 0 (decimal fuel z rest) = value_from z rest.
Proof.
  revert z rest. induction fuel as [|fuel IH]; intros z rest Hz.
  - cbn in *. by replace z with 0 by lia.
  - rewrite Nat2Z.inj_succ, Z.pow_succ_r in Hz by lia. cbn [decimal]. destruct (Z.ltb_spec z 10).
    + cbn [value_from]. rewrite code_digit by lia. f_equal. lia.
    + rewrite IH by (split; [apply Z.div_pos; lia|apply Z.div_lt_upper_bound; lia]).
      cbn [value_from]. rewrite code_digit by (apply Z.mod_pos_bound; lia).
      f_equal. pose proof (Z.div_mod z 10). lia.
Qed.

Lemma decimal_cons fuel z rest : exists c s, decimal (S fuel) z rest = c :: s.
Proof.
  revert z rest. induction fuel as [|fuel IH]; intros z rest; cbn [decimal] in *.
  - destruct (z <? 10); eauto.
  - destruct (z <? 10); eauto.
Qed.

Lemma to_string_digits z : 0 <= z -> digits (to_string z).
Proof. intros Hz. apply decimal_digits; [done|constructor]. Qed.

Lemma to_string_value z : is_u32 z -> value (to_string z) = z.
Proof. intros Hz. unfold value, to_string. by rewrite decimal_value by (unfold is_u32 in Hz; lia). Qed.

Lemma to_string_cons z : exists c s, to_string z = c :: s.
Proof. apply decimal_cons. Qed.

Lemma to_string_no_space z : 0 <= z -> no_space (to_string z).
Proof. intros Hz. eapply List.Forall_impl; [|by apply to_string_digits]. apply digit_no_space. Qed.

Lemma to_string_inj a b : is_u32 a -> is_u32 b -> to_string a = to_string b -> a = b.
Proof. intros Ha Hb E. by rewrite <- (to_string_value a), <- (to_string_value b), E. Qed.

Lemma from_chars_to_string z : is_u32 z -> from_chars_u32 (to_string z) = Some z.
Proof.
  intros Hz. unfold from_chars_u32. rewrite to_string_value by done.
  rewrite bool_decide_false by (destruct (to_string_cons z) as (c & s & ->); done).
  assert (forallb isdigit (to_string z) = true) as ->.
  { apply forallb_forall. pose proof (to_string_digits z ltac:(unfold is_u32 in Hz; lia)) as H.
    unfold digits in H. by rewrite List.Forall_forall in H. }
  unfold is_u32 in Hz. by replace (4294967296 <=? z) with false by lia.
Qed.

Lemma span_digits_app a s : digits a -> (forall c, head s = Some c -> isdigit c = false) ->
  span_digits (a ++ s) = (a, s).
Proof.
  intros Ha Hs. induction Ha as [|c a Hc Ha IH]; cbn [app span_digits].
  - destruct s as [|c s]; [done|]. cbn. by rewrite (Hs c).
  - by rewrite Hc, IH.
Qed.

Lemma drop_while_spaces a s : Forall (fun c => isspace c = true) a -> (forall c, head s = Some c -> isspace c = false) ->
  drop_while isspace (a ++ s) = s.
Proof.
  intros Ha Hs. induction Ha as [|c a Hc Ha IH]; cbn [app drop_while]; [by apply drop_while_none|].
  fold (drop_while isspace). by rewrite Hc, IH.
Qed.

Lemma read_u32_to_string sp z rest :
  is_u32 z -> Forall (fun c => isspace c = true) sp -> (forall c, head rest = Some c -> isdigit c = false) ->
  read_u32 (sp ++ to_string z ++ rest) = Some (z, rest).
Proof.
  intros Hz Hsp Hr. pose proof (to_string_digits z ltac:(unfold is_u32 in Hz; lia)) as Hd.
  pose proof (to_string_value z Hz) as Hv. destruct (to_string_cons z) as (c & s & E). rewrite E in *.
  pose proof (List.Forall_inv Hd) as Hc. cbn beta in Hc.
  unfold read_u32. rewrite drop_while_spaces; [|done|intros d [= <-]; by apply digit_no_space].
  cbn [app]. rewrite !bool_decide_false by (unfold isdigit in Hc; lia).
  change (c :: s ++ rest) with ((c :: s) ++ rest). rewrite span_digits_app by done.
  rewrite bool_decide_false by done. rewrite Hv.
  unfold is_u32 in Hz. by replace (4294967296 <=? z) with false by lia.
Qed.
