(* ===== verification/NatTraversal.v ===== *)
(** * Address mappings and port prediction

    [src/ice/nat_traversal.h]: what the samples of STUN servers say about the
    address translator of this peer, which addresses ports may be predicted for,
    and the guesses at the next ports of the other peer's translator, which are
    bounded in number whatever candidates the other peer sends. *)

From Stdlib Require Import Ascii String Sorted.
From stdpp Require Import gmap strings sorting.
From S2P Require Import Prelude StdContainers Text.

(** ** Analysis of the mappings *)

(** src/ice/nat_traversal.h:19-25 [NatMappingSample] *)
Record NatMappingSample := mkSample {
  server_ip : text;
  server_port : Z;
  mapped_ip : text;
  mapped_port : Z;
  sequence : Z;
}.

(** src/ice/nat_traversal.h:27-34 [NatMappingAnalysis] *)
Record NatMappingAnalysis := mkAnalysis {
  mapping : string;
  port_pattern : string;
  port_step : Z;
  samples : Z;
}.

(** src/ice/nat_traversal.h:44-45 [AnalyzeNatMappings] *)
Definition complete_sample (s : NatMappingSample) : bool :=
  negb (server_port s =? 0) && negb (mapped_port s =? 0) &&
  negb (bool_decide (server_ip s = [])) && negb (bool_decide (mapped_ip s = [])).

(** The samples that are complete, one of each server's endpoint. *)
(** src/ice/nat_traversal.h:39-48 [AnalyzeNatMappings] *)
Fixpoint usable_samples (endpoints : gset (text * Z)) (l : list NatMappingSample) : list NatMappingSample :=
  match l with
  | [] => []
  | s :: l =>
      if negb (complete_sample s) then usable_samples endpoints l else
      let endpoint := (server_ip s, server_port s) in
      if bool_decide (endpoint ∈ endpoints) then usable_samples endpoints l
      else s :: usable_samples ({[endpoint]} ∪ endpoints) l
  end.

(** src/ice/nat_traversal.h:51-53 [AnalyzeNatMappings] *)
Definition by_sequence (a b : NatMappingSample) : bool := sequence a <? sequence b.

#[export] Instance by_sequence_order : WeakOrder by_sequence.
Proof. unfold by_sequence. split; intros *; lia. Qed.

(** src/ice/nat_traversal.h:70-74 [AnalyzeNatMappings] *)
Fixpoint linear_after (step : Z) (previous : NatMappingSample) (l : list NatMappingSample) : bool :=
  match l with
  | [] => true
  | s :: l =>
      (sequence previous <? sequence s) && (mapped_port s - mapped_port previous =? step) && linear_after step s l
  end.

(** src/ice/nat_traversal.h:36-78 [AnalyzeNatMappings] *)
Definition AnalyzeNatMappings {sorts : StdSort} (all : list NatMappingSample) : NatMappingAnalysis :=
  match std_sort by_sequence (usable_samples ∅ all) with
  | first :: second :: rest =>
      let l := first :: second :: rest in
      let same_ip := forallb (fun s => bool_decide (mapped_ip s = mapped_ip first)) l in
      let stable := forallb (fun s => bool_decide (mapped_ip s = mapped_ip first) && (mapped_port s =? mapped_port first)) l in
      let different_servers := existsb (fun s => negb (bool_decide (server_ip s = server_ip first))) l in
      let mapping := if stable then (if different_servers then "endpoint-independent"%string
                                     else "insufficient-destination-diversity"%string)
                     else "destination-dependent"%string in
      if stable || negb same_ip || (zlen l <? 3)
      then mkAnalysis mapping (if stable then "stable" else "unknown") 0 (zlen l) else
      let step := mapped_port second - mapped_port first in
      let linear := negb (step =? 0) && (-1024 <=? step) && (step <=? 1024) && linear_after step first (second :: rest) in
      mkAnalysis mapping (if linear then "linear-observed" else "irregular-observed")
                 (if linear then step else 0) (zlen l)
  | l => mkAnalysis "insufficient-samples" "unknown" 0 (zlen l)
  end.

(** ** Addresses that ports are predicted for *)

(** One number of the address: its value and what follows. *)
(** src/ice/nat_traversal.h:84-89 [IsPublicIpv4ForPrediction] *)
Definition read_byte (s : text) : option (Z * text) :=
  let '(digits, rest) := span_digits s in
  if bool_decide (digits = []) || (3 <? zlen digits) || (255 <? value digits) then None
  else Some (value digits, rest).

(** src/ice/nat_traversal.h:90-92 [IsPublicIpv4ForPrediction] *)
Definition read_dot (s : text) : option text :=
  match s with c :: s => if bool_decide (c = "."%char) then Some s else None | [] => None end.

(** src/ice/nat_traversal.h:81-94 [IsPublicIpv4ForPrediction] *)
Definition read_ipv4 (s : text) : option (Z * Z * Z * Z) :=
  '(a, s) ← read_byte s; s ← read_dot s;
  '(b, s) ← read_byte s; s ← read_dot s;
  '(c, s) ← read_byte s; s ← read_dot s;
  '(d, s) ← read_byte s;
  if bool_decide (s = []) then Some (a, b, c, d) else None.

(** src/ice/nat_traversal.h:80-102 [IsPublicIpv4ForPrediction] *)
Definition IsPublicIpv4ForPrediction (ip : text) : bool :=
  match read_ipv4 ip with
  | None => false
  | Some (b0, b1, b2, _) =>
      negb (b0 =? 0) && negb (b0 =? 10) && negb (b0 =? 127) && (b0 <? 224) &&
      negb ((b0 =? 100) && (64 <=? b1) && (b1 <=? 127)) &&
      negb ((b0 =? 169) && (b1 =? 254)) &&
      negb ((b0 =? 172) && (16 <=? b1) && (b1 <=? 31)) &&
      negb ((b0 =? 192) && ((b1 =? 168) || ((b1 =? 0) && (b2 =? 0)))) &&
      negb ((b0 =? 198) && ((b1 =? 18) || (b1 =? 19)))
  end.

(** ** Prediction of ports *)

(** src/ice/nat_traversal.h:106-106 [RemotePortPredictor::kMaxPredictions] *)
Definition kMaxPredictions : Z := 32.

(** src/ice/nat_traversal.h:147-150 [RemotePortPredictor::Group] *)
Record Group := mkGroup {
  observed : list Z;
  predicted : gset Z;
}.

(** src/ice/nat_traversal.h:151-152 [RemotePortPredictor] *)
Record RemotePortPredictor := mkPredictor {
  groups_ : gmap text Group;
  predictions_ : Z;
}.

Definition new_predictor : RemotePortPredictor := mkPredictor ∅ 0.

(** The difference between neighbours, when it is the same everywhere. *)
(** src/ice/nat_traversal.h:122-127 [RemotePortPredictor::Observe] *)
Fixpoint same_steps (step : Z) (l : list Z) : bool :=
  match l with
  | a :: (b :: _) as l' => (b - a =? step) && same_steps step l'
  | _ => true
  end.
(** src/ice/nat_traversal.h:119-129 [RemotePortPredictor::Observe] *)
Definition observed_step (l : list Z) : Z :=
  match l with
  | a :: b :: c :: l =>
      let step := b - a in
      let step := if same_steps step (b :: c :: l) then step else 0 in
      if (step <? -64) || (64 <? step) then 0 else step
  | _ => 0
  end.

(** src/ice/nat_traversal.h:132-132 [RemotePortPredictor::Observe] *)
Definition guess_offset (step i : Z) : Z :=
  if negb (step =? 0) then step * i else ((i + 1) `quot` 2) * (if negb (i `rem` 2 =? 0) then 1 else -1).

(** src/ice/nat_traversal.h:130-142 [RemotePortPredictor::Observe] *)
Fixpoint guess (fuel : nat) (i step port : Z) (seen : list Z) (made : gset Z) (predictions : Z)
    : list Z * gset Z * Z :=
  match fuel with
  | O => ([], made, predictions)
  | S fuel =>
      if negb ((i <=? 8) && (predictions <? kMaxPredictions)) then ([], made, predictions) else
      let candidate := port + guess_offset step i in
      if (candidate <? 1024) || (65535 <? candidate) || bool_decide (candidate ∈ seen) || bool_decide (candidate ∈ made)
      then guess fuel (i + 1) step port seen made predictions
      else let '(result, made, predictions) := guess fuel (i + 1) step port seen ({[candidate]} ∪ made) (predictions + 1) in
           (candidate :: result, made, predictions)
  end.

(** The loop ends by itself after its eighth round. *)
(** src/ice/nat_traversal.h:110-143 [RemotePortPredictor::Observe] *)
Definition Observe (group : text) (port : Z) (p : RemotePortPredictor) : list Z * RemotePortPredictor :=
  if (port =? 0) || (bool_decide (groups_ p !! group = None) && (8 <=? Z.of_nat (size (groups_ p)))) then ([], p) else
  let state := default (mkGroup [] ∅) (groups_ p !! group) in
  let store state n := mkPredictor (<[group := state]> (groups_ p)) n in
  if bool_decide (port ∈ observed state) || (8 <=? zlen (observed state)) then ([], store state (predictions_ p)) else
  let seen := observed state ++ [port] in
  if (zlen seen <? 2) || (kMaxPredictions <=? predictions_ p)
  then ([], store (mkGroup seen (predicted state)) (predictions_ p)) else
  let '(result, made, n) := guess 9 1 (observed_step seen) port seen (predicted state) (predictions_ p) in
  (result, store (mkGroup seen made) n).

Example ports_continue :
  let '(_, p) := Observe (lit "g") 40000 new_predictor in
  let '(_, p) := Observe (lit "g") 40004 p in
  (Observe (lit "g") 40008 p).1 = [40012; 40016; 40020; 40024; 40028; 40032; 40036; 40040].
Proof. vm_compute. reflexivity. Qed.

Example private_address : IsPublicIpv4ForPrediction (lit "192.168.1.4") = false /\
  IsPublicIpv4ForPrediction (lit "8.8.4.4") = true /\ IsPublicIpv4ForPrediction (lit "8.8.4") = false.
Proof. vm_compute. auto. Qed.

(** ** The guesses *)

(** What the loop has done from a round on. *)
Definition guessed (i step port : Z) (seen : list Z) (made : gset Z) (n : Z) (r : list Z * gset Z * Z) : Prop :=
  let '(res, made', n') := r in
  made' = list_to_set res ∪ made /\ NoDup res /\ n' = n + zlen res /\ n' <= 32 /\
  Forall (fun c => 1024 <= c <= 65535 /\ c ∉ seen /\ c ∉ made) res /\
  (n' < 32 -> forall k, i <= k <= 8 -> 1024 <= port + guess_offset step k <= 65535 ->
   port + guess_offset step k ∉ seen -> port + guess_offset step k ∈ made').

Lemma guess_stop i step port seen made n : 9 <= i \/ n = 32 -> n <= 32 ->
  guessed i step port seen made n ([], made, n).
Proof.
  intros Hi Hn. unfold guessed. rewrite zlen_nil. split_and!; try lia; [cbn; set_solver|apply NoDup_nil_2|constructor].
Qed.

Lemma guess_ok fuel i step port seen made n : 9 - Z.of_nat fuel <= i -> n <= 32 ->
  guessed i step port seen made n (guess fuel i step port seen made n).
Proof.
  revert i made n. induction fuel as [|fuel IH]; intros i made n Hi Hn; cbn [guess].
  { apply guess_stop; lia. }
  destruct (Z.leb_spec i 8); cbn [andb negb].
  2: { apply guess_stop; lia. }
  unfold kMaxPredictions. destruct (Z.ltb_spec n 32); cbn [negb].
  2: { apply guess_stop; lia. }
  set (c := port + guess_offset step i).
  destruct ((c <? 1024) || (65535 <? c) || bool_decide (c ∈ seen) || bool_decide (c ∈ made)) eqn:E.
  - specialize (IH (i + 1) made n ltac:(lia) Hn). unfold guessed in *. destruct (guess _ _ _ _ _ _ _) as [[res made'] n'].
    destruct IH as (-> & Hd & -> & Hl & Hf & Hc). split_and!; try done.
    intros Hn' k Hk Hr Hs. destruct (decide (k = i)) as [->|].
    + fold c in Hr, Hs |- *. rewrite (bool_decide_false _ Hs) in E.
      replace (c <? 1024) with false in E by lia. replace (65535 <? c) with false in E by lia.
      cbn in E. apply bool_decide_eq_true in E. set_solver.
    + apply Hc; [done|lia|done|done].
  - apply orb_false_elim in E as [[[E1 E2]%orb_false_elim E3]%orb_false_elim E4].
    apply bool_decide_eq_false in E3, E4.
    specialize (IH (i + 1) ({[c]} ∪ made) (n + 1) ltac:(lia) ltac:(lia)). unfold guessed in *.
    destruct (guess _ _ _ _ _ _ _) as [[res made'] n'].
    destruct IH as (-> & Hd & -> & Hl & Hf & Hc). rewrite zlen_cons. split_and!; try lia.
    + cbn. set_solver.
    + apply list.NoDup_cons. split; [|done]. intros Hin. rewrite List.Forall_forall in Hf.
      apply list_elem_of_In in Hin. destruct (Hf _ Hin) as (_ & _ & Hx). set_solver.
    + constructor; [split_and!; (lia || done)|]. eapply List.Forall_impl; [|exact Hf]. cbn. intros x (? & ? & Hx). set_solver.
    + intros Hn' k Hk Hr Hs. destruct (decide (k = i)) as [->|]; [fold c; set_solver|].
      apply Hc; [lia|lia|done|done].
Qed.

(** ** Runs *)

(** What was observed, of which group, and the guesses that this gave. *)
Fixpoint observe_run (obs : list (text * Z)) (p : RemotePortPredictor)
    : list (text * Z * list Z) * RemotePortPredictor :=
  match obs with
  | [] => ([], p)
  | (g, port) :: obs =>
      let '(res, p) := Observe g port p in
      let '(log, p) := observe_run obs p in
      ((g, port, res) :: log, p)
  end.

Definition of_group (g : text) (log : list (text * Z * list Z)) : list (text * Z * list Z) :=
  List.filter (fun e => bool_decide (e.1.1 = g)) log.
Definition guesses_of (g : text) (log : list (text * Z * list Z)) : list Z := concat (map snd (of_group g log)).
Definition all_guesses (log : list (text * Z * list Z)) : list Z := concat (map snd log).
Definition ports_of (g : text) (log : list (text * Z * list Z)) : list Z := map (fun e => e.1.2) (of_group g log).

Record group_ok (log : list (text * Z * list Z)) (g : text) (s : Group) : Prop := {
  group_few : zlen (observed s) <= 8;
  group_all : zlen (observed s) < 8 -> forall port, port ∈ ports_of g log -> port <> 0 -> port ∈ observed s;
  group_predicted : predicted s = list_to_set (guesses_of g log);
  group_distinct : NoDup (guesses_of g log);
}.

Record predictor_ok (log : list (text * Z * list Z)) (p : RemotePortPredictor) : Prop := {
  predictor_count : predictions_ p = zlen (all_guesses log);
  predictor_few : predictions_ p <= 32;
  predictor_groups : Z.of_nat (size (groups_ p)) <= 8;
  predictor_group : forall g s, groups_ p !! g = Some s -> group_ok log g s;
  predictor_unknown : forall g, groups_ p !! g = None -> guesses_of g log = [];
  (** A group without state has been given port 0 only, or there are eight others. *)
  predictor_new : forall g port, groups_ p !! g = None -> Z.of_nat (size (groups_ p)) < 8 ->
    port ∈ ports_of g log -> port = 0;
}.

Lemma of_group_snoc g log e : of_group g (log ++ [e]) = of_group g log ++ (if bool_decide (e.1.1 = g) then [e] else []).
Proof. unfold of_group. rewrite List.filter_app. cbn. by case_bool_decide. Qed.

Lemma guesses_snoc g log g' port res :
  guesses_of g (log ++ [(g', port, res)]) = guesses_of g log ++ (if bool_decide (g' = g) then res else []).
Proof.
  unfold guesses_of. rewrite of_group_snoc, map_app, concat_app. cbn. case_bool_decide; cbn; by rewrite ?app_nil_r.
Qed.

Lemma ports_snoc g log g' port res :
  ports_of g (log ++ [(g', port, res)]) = ports_of g log ++ (if bool_decide (g' = g) then [port] else []).
Proof. unfold ports_of. rewrite of_group_snoc, map_app. cbn. by case_bool_decide. Qed.

Lemma all_guesses_snoc log g port res : all_guesses (log ++ [(g, port, res)]) = all_guesses log ++ res.
Proof. unfold all_guesses. rewrite map_app, concat_app. cbn. by rewrite app_nil_r. Qed.

Lemma new_predictor_ok : predictor_ok [] new_predictor.
Proof.
  split; try done; try (cbn; lia).
  intros g port _ _ H. by apply elem_of_nil in H.
Qed.

(** An observation that gives no guesses. *)
Lemma group_ok_silent log g s g' port :
  group_ok log g s -> (g' = g -> zlen (observed s) < 8 -> port <> 0 -> port ∈ observed s) ->
  group_ok (log ++ [(g', port, [])]) g s.
Proof.
  intros [H1 H2 H3 H4] Hp. split; [done| | |].
  - intros Hl q Hq Hq0. rewrite ports_snoc in Hq. apply elem_of_app in Hq as [Hq|Hq]; [by apply H2|].
    case_bool_decide; [|by apply elem_of_nil in Hq]. apply list_elem_of_singleton in Hq as ->. by apply Hp.
  - rewrite guesses_snoc. case_bool_decide; by rewrite app_nil_r.
  - rewrite guesses_snoc. case_bool_decide; by rewrite app_nil_r.
Qed.

Lemma predictor_ok_silent log p g port :
  predictor_ok log p ->
  (forall s, groups_ p !! g = Some s -> zlen (observed s) < 8 -> port <> 0 -> port ∈ observed s) ->
  (groups_ p !! g = None -> Z.of_nat (size (groups_ p)) < 8 -> port = 0) ->
  predictor_ok (log ++ [(g, port, [])]) p.
Proof.
  intros [H1 H2 H3 H4 H5 H6] Hp Hn. split; try done.
  - by rewrite all_guesses_snoc, app_nil_r.
  - intros g' s Hs. apply group_ok_silent; [by apply H4|]. intros <-. by apply Hp.
  - intros g' Hg. rewrite guesses_snoc, (H5 g' Hg). by case_bool_decide.
  - intros g' q Hg Hl Hq. rewrite ports_snoc in Hq. apply elem_of_app in Hq as [Hq|Hq]; [by eapply H6|].
    case_bool_decide; [|by apply elem_of_nil in Hq]. apply list_elem_of_singleton in Hq as ->. subst. by apply Hn.
Qed.

(** The group is stored again, with what it was given and its guesses. *)
Lemma predictor_ok_store log p g port res s' n :
  predictor_ok log p -> port <> 0 ->
  (groups_ p !! g = None -> Z.of_nat (size (groups_ p)) < 8) ->
  n = predictions_ p + zlen res -> n <= 32 ->
  zlen (observed s') <= 8 ->
  (zlen (observed s') < 8 -> port ∈ observed s' /\ forall q, q ∈ ports_of g log -> q <> 0 -> q ∈ observed s') ->
  predicted s' = list_to_set (guesses_of g log ++ res) -> NoDup (guesses_of g log ++ res) ->
  predictor_ok (log ++ [(g, port, res)]) (mkPredictor (<[g := s']> (groups_ p)) n).
Proof.
  intros [H1 H2 H3 H4 H5 H6] H0 Hroom -> Hn Hl Hall Hpred Hd. split; cbn [groups_ predictions_].
  - rewrite all_guesses_snoc, zlen_app. lia.
  - done.
  - destruct (groups_ p !! g) as [s|] eqn:Eg.
    + rewrite map_size_insert_Some by eauto. done.
    + rewrite map_size_insert_None by done. specialize (Hroom eq_refl). lia.
  - intros g' s Hs. destruct (decide (g' = g)) as [->|Hne].
    + rewrite lookup_insert_eq in Hs. injection Hs as <-. split; [done| | |].
      * intros Hl' q Hq Hq0. destruct (Hall Hl') as [Hp Ha]. rewrite ports_snoc, bool_decide_true in Hq by done.
        apply elem_of_app in Hq as [Hq|Hq]; [by apply Ha|]. by apply list_elem_of_singleton in Hq as ->.
      * by rewrite guesses_snoc, bool_decide_true.
      * by rewrite guesses_snoc, bool_decide_true.
    + rewrite lookup_insert_ne in Hs by done. destruct (H4 g' s Hs) as [J1 J2 J3 J4].
      split; [done| | |]; rewrite ?guesses_snoc, ?ports_snoc, bool_decide_false, ?app_nil_r by done; done.
  - intros g' Hg. destruct (decide (g' = g)) as [->|Hne]; [by rewrite lookup_insert_eq in Hg|].
    rewrite lookup_insert_ne in Hg by done. by rewrite guesses_snoc, bool_decide_false, app_nil_r, H5.
  - intros g' q Hg Hs Hq. destruct (decide (g' = g)) as [->|Hne]; [by rewrite lookup_insert_eq in Hg|].
    rewrite lookup_insert_ne in Hg by done. rewrite ports_snoc, bool_decide_false, app_nil_r in Hq by done.
    eapply H6; [done| |done]. destruct (groups_ p !! g) eqn:Eg.
    + rewrite map_size_insert_Some in Hs by eauto. done.
    + rewrite map_size_insert_None in Hs by done. lia.
Qed.

Definition fresh_guesses (log : list (text * Z * list Z)) (g : text) (port : Z) (res : list Z) : Prop :=
  Forall (fun c => 1024 <= c <= 65535 /\ c <> port /\ c ∉ ports_of g log) res.

(** Nothing in range is missed while guesses are left. *)
Definition complete_guesses (p : RemotePortPredictor) (log : list (text * Z * list Z)) (g : text) (port : Z)
    (res : list Z) (p' : RemotePortPredictor) : Prop :=
  forall s, groups_ p !! g = Some s -> 0 < zlen (observed s) < 8 -> port <> 0 -> port ∉ observed s ->
  predictions_ p' < 32 -> forall k, 1 <= k <= 8 ->
  let c := port + guess_offset (observed_step (observed s ++ [port])) k in
  1024 <= c <= 65535 -> c ∉ observed s ++ [port] -> c ∈ guesses_of g log ++ res.

Definition observed_ok (log : list (text * Z * list Z)) (p : RemotePortPredictor) (g : text) (port : Z)
    (r : list Z * RemotePortPredictor) : Prop :=
  predictor_ok (log ++ [(g, port, r.1)]) r.2 /\ fresh_guesses log g port r.1 /\ complete_guesses p log g port r.1 r.2.

(** The branch that guesses. *)
Lemma Observe_guess log p g port s :
  predictor_ok log p -> port <> 0 -> default (mkGroup [] ∅) (groups_ p !! g) = s ->
  (groups_ p !! g = None -> Z.of_nat (size (groups_ p)) < 8) ->
  port ∉ observed s -> zlen (observed s) < 8 -> 1 <= zlen (observed s) ->
  observed_ok log p g port
    (let '(result, made, n) := guess 9 1 (observed_step (observed s ++ [port])) port (observed s ++ [port])
                                 (predicted s) (predictions_ p) in
     (result, mkPredictor (<[g := mkGroup (observed s ++ [port]) made]> (groups_ p)) n)).
Proof.
  intros Hok H0 Es Hroom Hnew Hl H1. pose proof Hok as [_ Hc _ Hg _ _].
  destruct (groups_ p !! g) as [s'|] eqn:Eg; cbn in Es; subst.
  2: { cbn in H1. rewrite zlen_nil in H1. lia. }
  destruct (Hg g s Eg) as [_ Hall Hpred Hd].
  pose proof (guess_ok 9 1 (observed_step (observed s ++ [port])) port (observed s ++ [port]) (predicted s)
    (predictions_ p) ltac:(lia) Hc) as G.
  destruct (guess _ _ _ _ _ _ _) as [[res made] n]. destruct G as (-> & Hdr & -> & Hn & Hf & Hcomplete).
  unfold observed_ok. cbn [fst snd]. split_and!.
  - apply predictor_ok_store; cbn [observed predicted]; try done.
    + by rewrite Eg.
    + rewrite zlen_app, zlen_cons, zlen_nil. lia.
    + intros Hl'. split; [set_solver|]. intros q Hq Hq0. specialize (Hall ltac:(lia) q Hq Hq0). set_solver.
    + rewrite Hpred, list_to_set_app_L. set_solver.
    + apply list.NoDup_app. split_and!; [done| |done]. intros c Hin Hr.
      rewrite List.Forall_forall in Hf. apply list_elem_of_In in Hr. destruct (Hf _ Hr) as (_ & _ & Hx).
      apply Hx. rewrite Hpred. by apply elem_of_list_to_set.
  - eapply List.Forall_impl; [|exact Hf]. cbn. intros c (Hr & Hs & _). split_and!; [lia|lia|set_solver|].
    intros Hin. apply Hs. apply elem_of_app. left. apply Hall; [done|done|lia].
  - intros s' Hs' _ _ _ Hn' k Hk. cbv zeta. intros Hr Hs. rewrite Eg in Hs'. injection Hs' as <-.
    specialize (Hcomplete Hn' k Hk Hr Hs). rewrite Hpred in Hcomplete. apply elem_of_app.
    apply elem_of_union in Hcomplete as [Hx|Hx]; apply elem_of_list_to_set in Hx; auto.
Qed.

Lemma Observe_ok log p g port : predictor_ok log p -> observed_ok log p g port (Observe g port p).
Proof.
  intros Hok. unfold Observe.
  destruct ((port =? 0) || _) eqn:E0.
  { split_and!; cbn [fst snd]; [|constructor|].
    - apply predictor_ok_silent; [done| |].
      + intros s Hs. rewrite Hs in E0. rewrite bool_decide_false in E0 by done. lia.
      + intros Hs Hl. rewrite Hs in E0. rewrite bool_decide_true in E0 by done. lia.
    - intros s Hs _ H0. rewrite Hs in E0. rewrite bool_decide_false in E0 by done. lia. }
  assert (port <> 0) as H0 by lia.
  assert (groups_ p !! g = None -> Z.of_nat (size (groups_ p)) < 8) as Hroom.
  { intros Hs. rewrite Hs in E0. rewrite bool_decide_true in E0 by done. lia. }
  clear E0. set (s := default _ _). pose proof Hok as [_ Hc _ Hg Hu Hnw].
  assert (group_ok log g s) as [J1 J2 J3 J4].
  { subst s. destruct (groups_ p !! g) as [s|] eqn:Eg; [by apply Hg|].
    split; cbn [observed predicted default from_option]; rewrite ?(Hu g Eg); try done.
    - intros _ q Hq Hq0. destruct Hq0. apply (Hnw g q); auto.
    - apply NoDup_nil_2. }
  destruct (bool_decide (port ∈ observed s) || _) eqn:E1.
  { split_and!; cbn [fst snd]; [|constructor|].
    - apply predictor_ok_store; rewrite ?app_nil_r; try done; [rewrite zlen_nil; lia|].
      intros Hl. split; [|by apply J2]. apply orb_prop in E1 as [E1|E1]; [by apply bool_decide_eq_true in E1|lia].
    - intros s' Hs' Hl _ Hnew. exfalso. subst s. rewrite Hs' in E1. cbn in E1.
      rewrite bool_decide_false in E1 by done. lia. }
  apply orb_false_elim in E1 as [E1 E2]. apply bool_decide_eq_false in E1.
  destruct ((zlen (observed s ++ [port]) <? 2) || _) eqn:E3.
  { rewrite zlen_app, zlen_cons, zlen_nil in E3. split_and!; cbn [fst snd]; [|constructor|].
    - apply predictor_ok_store; cbn [observed predicted]; rewrite ?app_nil_r; try done; [rewrite zlen_nil; lia| |].
      + rewrite zlen_app, zlen_cons, zlen_nil. lia.
      + intros Hl. split; [set_solver|]. intros q Hq Hq0. specialize (J2 ltac:(lia) q Hq Hq0). set_solver.
    - intros s' Hs' Hl _ _ Hn. exfalso. subst s. rewrite Hs' in E3. cbn in E3, Hn. unfold kMaxPredictions in E3. lia. }
  rewrite zlen_app, zlen_cons, zlen_nil in E3.
  pose proof (Observe_guess log p g port s Hok H0 eq_refl Hroom E1 ltac:(lia) ltac:(lia)) as Hres.
  exact Hres.
Qed.

Lemma observe_run_ok obs log p : predictor_ok log p ->
  predictor_ok (log ++ (observe_run obs p).1) (observe_run obs p).2.
Proof.
  revert log p. induction obs as [|[g port] obs IH]; intros log p Hok; cbn [observe_run].
  - by rewrite app_nil_r.
  - pose proof (Observe_ok log p g port Hok) as (Hok' & _). destruct (Observe g port p) as [res p'].
    cbn [fst snd] in Hok'. specialize (IH _ _ Hok'). destruct (observe_run obs p') as [log' p'']. cbn [fst snd] in *.
    rewrite <- app_assoc in IH. exact IH.
Qed.

(** The guesses at the ports of a peer are bounded and useful, whatever
    candidates the peer sends: after any observations and one more, at most 32
    ports were guessed in all and at most eight groups are kept; no port is
    guessed twice for a group, guessed below 1024, or guessed after it was seen;
    and while guesses are left, each of the eight ports ahead of the last one
    seen — at the constant step when there is one, around it otherwise — is
    guessed unless it was seen. *)
Theorem port_predictions_bounded (obs : list (text * Z)) (g : text) (port : Z) :
  let '(log, p) := observe_run obs new_predictor in
  let '(res, p') := Observe g port p in
  zlen (all_guesses log) + zlen res = predictions_ p' /\ predictions_ p' <= 32 /\
  Z.of_nat (size (groups_ p')) <= 8 /\
  NoDup (guesses_of g log ++ res) /\ fresh_guesses log g port res /\ complete_guesses p log g port res p'.
Proof.
  pose proof (observe_run_ok obs [] _ new_predictor_ok) as Hok.
  destruct (observe_run obs new_predictor) as [log p]. cbn [app fst snd] in Hok.
  pose proof (Observe_ok log p g port Hok) as (Hok' & Hf & Hc). destruct (Observe g port p) as [res p'].
  cbn [fst snd] in *. destruct Hok' as [H1 H2 H3 H4 H5 _]. rewrite all_guesses_snoc, zlen_app in H1.
  split_and!; try done.
  destruct (groups_ p' !! g) as [s|] eqn:Eg.
  - destruct (H4 g s Eg) as [_ _ _ Hd]. by rewrite guesses_snoc, bool_decide_true in Hd.
  - specialize (H5 g Eg). rewrite guesses_snoc, bool_decide_true in H5 by done. rewrite H5. apply NoDup_nil_2.
Qed.

(** ** What a linear pattern means *)

(** The samples in the order of their sequence, each port the same step beyond
    the one before. *)
Definition linear_samples (step : Z) (l : list NatMappingSample) : Prop :=
  3 <= zlen l /\ step <> 0 /\ -1024 <= step <= 1024 /\
  StronglySorted (fun a b => sequence a < sequence b) l /\
  (forall a b, a ∈ l -> b ∈ l -> mapped_ip a = mapped_ip b) /\
  forall i a b, l !! i = Some a -> l !! S i = Some b -> mapped_port b - mapped_port a = step.

Lemma linear_after_spec step s l : linear_after step s l = true <->
  StronglySorted (fun a b => sequence a < sequence b) (s :: l) /\
  forall i a b, (s :: l) !! i = Some a -> (s :: l) !! S i = Some b -> mapped_port b - mapped_port a = step.
Proof.
  revert s. induction l as [|b l IH]; intros s; cbn [linear_after].
  - split; [|done]. intros _. split; [by repeat constructor|]. intros i a b _. by destruct i.
  - rewrite !andb_true_iff, IH. split.
    + intros [[Hs Hp] [Hss Hd]]. split.
      * constructor; [done|]. apply StronglySorted_inv in Hss as [_ Hb].
        constructor; [lia|]. eapply List.Forall_impl; [|exact Hb]. cbn. lia.
      * intros [|i] x y; [|apply (Hd i)]. cbn. intros [= <-] [= <-]. lia.
    + intros [Hss Hd]. pose proof (Hd 0%nat s b eq_refl eq_refl). apply StronglySorted_inv in Hss as [Hss Hb].
      apply List.Forall_inv in Hb. split_and!; [lia|lia|done|]. intros i. apply (Hd (S i)).
Qed.

Lemma linear_unstable step first second rest : linear_samples step (first :: second :: rest) ->
  mapped_port second - mapped_port first = step /\ mapped_port second <> mapped_port first.
Proof. intros (_ & H0 & _ & _ & _ & Hd). pose proof (Hd 0%nat first second eq_refl eq_refl). lia. Qed.

Lemma sorted_linear {sorts : StdSort} step u l : l ≡ₚ u -> linear_samples step l -> std_sort by_sequence u = l.
Proof.
  intros Hp (_ & _ & _ & Hs & _). 
  apply (sorting.StronglySorted_unique_strong (fun a b => by_sequence b a = false)).
  - intros x y Hx Hy H1 H2. rewrite std_sort_perm, <- Hp in Hx. unfold by_sequence in H1, H2.
    clear -Hs Hx Hy H1 H2. induction Hs as [|c l Hl IH Hc]; [by apply elem_of_nil in Hx|].
    rewrite List.Forall_forall in Hc.
    apply elem_of_cons in Hx as [->|Hx], Hy as [->|Hy]; [done| | |by apply IH].
    + apply list_elem_of_In, Hc in Hy. lia.
    + apply list_elem_of_In, Hc in Hx. lia.
  - apply std_sort_order. apply _.
  - clear -Hs. induction Hs as [|c l Hl IH Hc]; constructor; [done|].
    eapply List.Forall_impl; [|exact Hc]. cbn. unfold by_sequence. lia.
  - by rewrite std_sort_perm.
Qed.

(** The analysis calls the ports of a translator linear, with a step, exactly
    when the usable samples — complete, one for each server's endpoint — can be
    put into an order with strictly growing sequence numbers in which there are
    three or more, all with one address, and each port is that step, which is
    not zero and at most 1024, from the one before.  The order in which the sort
    leaves samples of one sequence number has no influence. *)
Theorem linear_mapping_observed {sorts : StdSort} (all : list NatMappingSample) (step : Z) :
  port_pattern (AnalyzeNatMappings all) = "linear-observed"%string /\ port_step (AnalyzeNatMappings all) = step <->
  exists l, l ≡ₚ usable_samples ∅ all /\ linear_samples step l.
Proof.
  unfold AnalyzeNatMappings. set (u := usable_samples ∅ all). split.
  - pose proof (std_sort_perm by_sequence u) as Hp. destruct (std_sort by_sequence u) as [|first [|second rest]]; [by intros [? _]..|].
    destruct (forallb _ (first :: second :: rest)) eqn:Est; [by intros [? _]|].
    destruct (forallb (fun s => bool_decide (mapped_ip s = mapped_ip first)) _) eqn:Eip; [|by intros [? _]].
    destruct (Z.ltb_spec (zlen (first :: second :: rest)) 3); [by intros [? _]|]. cbn [orb negb].
    destruct (negb _ && _ && _ && _) eqn:El; [|by intros [? _]]. cbn. intros [_ <-].
    exists (first :: second :: rest). split; [done|].
    apply andb_prop in El as [[[E1 E2]%andb_prop E3]%andb_prop E4]. apply linear_after_spec in E4 as [Hs Hd].
    split_and!; try done; try lia. rewrite forallb_forall in Eip.
    intros a b Ha%list_elem_of_In Hb%list_elem_of_In. apply Eip in Ha, Hb.
    apply bool_decide_eq_true in Ha, Hb. congruence.
  - intros (l & Hp & Hl). rewrite (sorted_linear step u l Hp Hl).
    pose proof Hl as (H3 & H0 & Hb & Hs & Hip & Hd).
    destruct l as [|first [|second rest]]; [unfold zlen in H3; cbn in H3; lia..|].
    destruct (linear_unstable _ _ _ _ Hl) as [Hst Hne].
    set (l := first :: second :: rest) in *.
    assert (forallb (fun s => bool_decide (mapped_ip s = mapped_ip first)) l = true) as ->.
    { apply forallb_forall. intros x Hx%list_elem_of_In. apply bool_decide_eq_true, Hip; [done|]. left. }
    assert (forallb (fun s => bool_decide (mapped_ip s = mapped_ip first) && (mapped_port s =? mapped_port first)) l = false) as ->.
    { subst l. cbn [forallb]. replace (mapped_port second =? mapped_port first) with false by lia.
      by rewrite (andb_false_r (bool_decide (mapped_ip second = _))), andb_false_r. }
    replace (zlen l <? 3) with false by lia. cbn [orb negb]. rewrite Hst.
    assert (linear_after step first (second :: rest) = true) as -> by (by apply linear_after_spec).
    replace (step =? 0) with false by lia. replace (-1024 <=? step) with true by lia. replace (step <=? 1024) with true by lia.
    done.
Qed.
