(* ===== verification/IceUtils.v ===== *)
(** * ICE signalling texts and the state of the path

    [src/ice/ice_utils.h]: the attributes of an SDP that concern ICE, and the
    candidates that are signalled one by one; [src/transport/
    ice_component_state.h]: when the path may be used. *)

From Stdlib Require Import Ascii String.
From stdpp Require Import strings.
From S2P Require Import Prelude Text.

(** ** Attributes *)

(** src/ice/ice_utils.h:20-20 [kRelayUpgradeAttribute] *)
Definition kRelayUpgradeAttribute : text := lit "a=x-minirtc-relay-upgrade:1".
(** src/ice/ice_utils.h:21-22 [kP2pEnhancementAttribute] *)
Definition kP2pEnhancementAttribute : text := lit "a=x-minirtc-p2p-enhancement:1".

(** A line without the carriage return at its end. *)
(** src/ice/ice_utils.h:29-29 [HasIceAttribute] *)
Definition chomp (line : text) : text :=
  match rev line with
  | c :: r => if bool_decide (c = carriage_return) then rev r else line
  | [] => line
  end.

(** src/ice/ice_utils.h:24-33 [HasIceAttribute] *)
Definition HasIceAttribute (sdp attribute : text) : bool :=
  existsb (fun line => bool_decide (chomp line = attribute)) (getlines newline sdp).

(** src/ice/ice_utils.h:35-37 [SupportsRelayUpgrade] *)
Definition SupportsRelayUpgrade (sdp : text) : bool := HasIceAttribute sdp kRelayUpgradeAttribute.

(** src/ice/ice_utils.h:39-41 [SupportsP2pEnhancement] *)
Definition SupportsP2pEnhancement (sdp : text) : bool := HasIceAttribute sdp kP2pEnhancementAttribute.

(** Spaces, tabulators and line ends. *)
(** src/ice/ice_utils.h:44-46 [TrimIceWhitespace] *)
Definition ice_space (c : ascii) : bool :=
  (code c =? 32) || (code c =? 9) || (code c =? 13) || (code c =? 10).

(** src/ice/ice_utils.h:43-48 [TrimIceWhitespace] *)
Definition TrimIceWhitespace (value : text) : text := trim_by ice_space value.

(** src/ice/ice_utils.h:53-58 [GetIceUsername] *)
Fixpoint find_username (prefix : text) (lines : list text) : text :=
  match lines with
  | [] => []
  | line :: lines =>
      if starts_with prefix line then TrimIceWhitespace (drop (length prefix) line) else find_username prefix lines
  end.

(** src/ice/ice_utils.h:50-60 [GetIceUsername] *)
Definition GetIceUsername (sdp : text) : text := find_username (lit "a=ice-ufrag:") (getlines newline sdp).

(** ** Candidates *)

(** src/ice/ice_utils.h:71-75 [IceCandidateSignal] *)
Record IceCandidateSignal := mkSignal {
  sig_sdp : text;
  sig_ufrag : text;
}.

#[export] Instance IceCandidateSignal_eq_dec : EqDecision IceCandidateSignal.
Proof. solve_decision. Defined.

(** src/ice/ice_utils.h:74-74 [IceCandidateSignal::complete] *)
Definition complete (s : IceCandidateSignal) : bool := bool_decide (sig_sdp s = []).

(** The pairs of a name and a value at the end of a candidate; one of them may
    name the generation. *)
(** src/ice/ice_utils.h:101-110 [ParseIceCandidateSignal] *)
Fixpoint parse_extension_pairs (fields : list text) (ufrag : text) : option text :=
  match fields with
  | [] => Some ufrag
  | [_] => None
  | token :: value :: fields =>
      if bool_decide (token = lit "ufrag") then
        if (256 <? zlen value) || (negb (bool_decide (ufrag = [])) && negb (bool_decide (ufrag = value))) then None
        else parse_extension_pairs fields value
      else parse_extension_pairs fields ufrag
  end.

Definition nul : ascii := ascii_of_nat 0.

(** src/ice/ice_utils.h:90-90 [ParseIceCandidateSignal] *)
Definition without_a (sdp : text) : text := if starts_with (lit "a=") sdp then drop 2 sdp else sdp.

(** src/ice/ice_utils.h:79-112 [ParseIceCandidateSignal] *)
Definition ParseIceCandidateSignal (candidate_sdp ufrag : text) : option IceCandidateSignal :=
  if (4096 <? zlen candidate_sdp) || (256 <? zlen ufrag) || bool_decide (nul ∈ candidate_sdp) ||
     bool_decide (nul ∈ ufrag) || existsb ice_space ufrag then None else
  let sdp := TrimIceWhitespace candidate_sdp in
  if bool_decide (sdp = []) || bool_decide (sdp = lit "a=end-of-candidates") || bool_decide (sdp = lit "end-of-candidates")
  then Some (mkSignal [] ufrag) else
  if existsb (fun c => bool_decide (c = newline) || bool_decide (c = carriage_return)) sdp then None else
  let sdp := without_a sdp in
  if negb (starts_with (lit "candidate:") sdp) then None else
  let fields := words sdp in
  if zlen fields <? 8 then None else
  ufrag ← parse_extension_pairs (drop 8 fields) ufrag;
  Some (mkSignal (lit "a=" ++ sdp) ufrag).

(** ** The state of the path *)

(** [NiceComponentState] of libnice. *)
Inductive NiceComponentState :=
  | DISCONNECTED | GATHERING | CONNECTING | CONNECTED | READY | FAILED | LAST.

(** src/transport/ice_component_state.h:15-19 [IcePathAvailabilityChange] *)
Inductive IcePathAvailabilityChange := Unchanged | BecameAvailable | BecameUnavailable.

(** src/transport/ice_component_state.h:29-50 [IceComponentStateTracker::Update] *)
Definition Update (state : NiceComponentState) (usable : bool) : IcePathAvailabilityChange * bool :=
  match state with
  | READY => (if usable then Unchanged else BecameAvailable, true)
  | DISCONNECTED | FAILED => (if usable then BecameUnavailable else Unchanged, false)
  | GATHERING | CONNECTING | CONNECTED | LAST => (Unchanged, usable)
  end.

Example parse_candidate :
  ParseIceCandidateSignal (lit "candidate:1 1 UDP 2013266431 10.0.0.2 40000 typ host ufrag abcd") [] =
  Some (mkSignal (lit "a=candidate:1 1 UDP 2013266431 10.0.0.2 40000 typ host ufrag abcd") (lit "abcd")).
Proof. vm_compute. reflexivity. Qed.

(** ** A signal parsed again *)

Lemma ice_space_isspace c : ice_space c = true -> isspace c = true.
Proof. unfold ice_space, isspace. lia. Qed.

Lemma drop_while_head f s c : head (drop_while f s) = Some c -> f c = false.
Proof. induction s as [|d s IH]; [done|]. cbn. destruct (f d) eqn:E; [exact IH|]. cbn. by intros [= <-]. Qed.

Lemma drop_while_suffix f s : exists p, s = p ++ drop_while f s.
Proof.
  induction s as [|d s [p IH]]; [by exists []|]. cbn. destruct (f d); [|by exists []].
  exists (d :: p). cbn. fold (drop_while f). by rewrite <- IH.
Qed.

Lemma drop_while_last f s c r : drop_while f s = r ++ [c] -> exists p, s = p ++ [c].
Proof. intros E. destruct (drop_while_suffix f s) as [p Hp]. exists (p ++ r). by rewrite Hp, E, app_assoc. Qed.

(** The trimmed text is a part of the text and has no space at its ends. *)
Lemma trim_part f s : exists p q, s = p ++ trim_by f s ++ q.
Proof.
  unfold trim_by. destruct (drop_while_suffix f s) as [p Hp].
  destruct (drop_while_suffix f (rev (drop_while f s))) as [q Hq].
  exists p, (rev q). rewrite Hp at 1. f_equal. rewrite <- rev_app_distr, <- Hq. by rewrite rev_involutive.
Qed.

Lemma trim_last f s c : head (rev (trim_by f s)) = Some c -> f c = false.
Proof. unfold trim_by. rewrite rev_involutive. apply drop_while_head. Qed.

Lemma trim_Forall (P : ascii -> Prop) f s : Forall P s -> Forall P (trim_by f s).
Proof. intros H. destruct (trim_part f s) as (p & q & E). rewrite E, !Forall_app in H. tauto. Qed.

Lemma trim_length f s : zlen (trim_by f s) <= zlen s.
Proof. destruct (trim_part f s) as (p & q & E). rewrite E at 2. rewrite !zlen_app. pose proof (zlen_nonneg p). pose proof (zlen_nonneg q). lia. Qed.

(** The words of a text have no spaces in them and its characters. *)
Lemma words_spec (P : ascii -> Prop) s : Forall P s -> Forall (fun w => no_space w /\ w <> [] /\ Forall P w) (words s).
Proof.
  induction s as [|c s IH]; intros HP; [constructor|]. inversion HP as [|? ? Hc Hs]; subst. specialize (IH Hs).
  cbn [words]. destruct (isspace c) eqn:Ec; [done|].
  assert (no_space [c] /\ [c] <> [] /\ Forall P [c]) as Hone.
  { split_and!; [repeat constructor; done|done|by repeat constructor]. }
  destruct s as [|d s]; [by repeat constructor|].
  destruct (isspace d) eqn:Ed; [by constructor|].
  destruct (words (d :: s)) as [|w ws]; [by repeat constructor|].
  inversion IH as [|? ? (H1 & H2 & H3) Hws]; subst. constructor; [|done].
  split_and!; [by constructor|done|by constructor].
Qed.

Definition good_ufrag (u : text) : Prop := zlen u <= 256 /\ nul ∉ u /\ existsb ice_space u = false.

Lemma word_good_ufrag w : no_space w -> Forall (fun c => c <> nul) w -> zlen w <= 256 -> good_ufrag w.
Proof.
  intros Hs Hn Hl. split_and!; [done| |].
  - intros Hin%list_elem_of_In. rewrite List.Forall_forall in Hn. by apply Hn in Hin.
  - apply not_true_is_false. intros (c & Hin & Hc)%existsb_exists. unfold no_space in Hs.
    rewrite List.Forall_forall in Hs. apply Hs in Hin. apply ice_space_isspace in Hc. congruence.
Qed.

(** What the pairs decide does not change when it is given from the start. *)
Lemma pairs_again n fields u u' : (length fields <= n)%nat -> Forall (fun w => w <> []) fields ->
  parse_extension_pairs fields u = Some u' ->
  parse_extension_pairs fields u' = Some u' /\ (u <> [] -> u' = u) /\ (u' = u \/ (u' ∈ fields /\ zlen u' <= 256)).
Proof.
  revert fields u. induction n as [|n IH]; intros [|token [|value fields]] u Hn Hf E; cbn in Hn, E; try lia; try done;
    try (injection E as <-; auto).
  apply list.Forall_cons in Hf as [_ [Hv Hf]%list.Forall_cons]. cbn. case_bool_decide; subst.
  - destruct ((256 <? zlen value) || _) eqn:Eu; [done|]. apply orb_false_elim in Eu as [Hl Hd].
    apply IH in E as (E1 & E2 & _); [|lia|done]. specialize (E2 Hv). subst u'.
    rewrite Hl, bool_decide_false, bool_decide_true by done. cbn [negb andb orb]. split_and!; [done| |].
    + intros Hu. rewrite bool_decide_false in Hd by done. cbn in Hd. apply negb_false_iff, bool_decide_eq_true in Hd. done.
    + right. split; [set_solver|lia].
  - apply IH in E as (E1 & E2 & E3); [|lia|done]. split_and!; [done|done|]. destruct E3 as [|[]]; [by left|right].
    split; [set_solver|done].
Qed.

Lemma no_nul s : nul ∉ s <-> Forall (fun c => c <> nul) s.
Proof.
  rewrite List.Forall_forall. split; [intros H c Hc ->; by apply H, list_elem_of_In|].
  intros H Hin%list_elem_of_In. by apply (H nul).
Qed.

(** The text of a candidate, behind ["a="]. *)
Lemma trimmed_again s : s <> [] -> (forall c, head (rev s) = Some c -> ice_space c = false) ->
  TrimIceWhitespace (lit "a=" ++ s) = lit "a=" ++ s.
Proof.
  intros Hs Hl. apply trim_by_id; [by intros c [= <-]|].
  rewrite rev_app_distr. intros c. destruct (rev s) as [|d r] eqn:E; [|by apply Hl].
  apply (f_equal (@rev ascii)) in E. by rewrite rev_involutive in E.
Qed.

Lemma last_of_suffix (pre s : text) c : s <> [] -> head (rev s) = Some c -> head (rev (pre ++ s)) = Some c.
Proof. intros Hs. rewrite rev_app_distr. by destruct (rev s). Qed.

Lemma parse_length s u sig : ParseIceCandidateSignal s u = Some sig -> zlen (sig_sdp sig) <= zlen s + 2.
Proof.
  unfold ParseIceCandidateSignal. intros E. destruct (_ || existsb ice_space u); [done|].
  destruct (_ || _) in E; [injection E as <-; cbn; pose proof (zlen_nonneg s); unfold zlen at 1; cbn; lia|].
  destruct (existsb _ _); [done|]. destruct (negb _); [done|]. destruct (_ <? 8); [done|].
  destruct (parse_extension_pairs _ u); [|done]. injection E as <-.
  change (zlen (lit "a=" ++ without_a (TrimIceWhitespace s)) <= zlen s + 2). rewrite zlen_app.
  change (zlen (lit "a=")) with 2. unfold without_a.
  pose proof (trim_length ice_space s). fold (TrimIceWhitespace s) in *.
  destruct (starts_with _ _); [|lia]. unfold zlen in *. rewrite length_drop. lia.
Qed.

(** A signal that was accepted is accepted again, as it is, as long as its text
    has not grown over the limit by the ["a="] in front. *)
Lemma parse_again s u sig :
  ParseIceCandidateSignal s u = Some sig -> zlen (sig_sdp sig) <= 4096 ->
  ParseIceCandidateSignal (sig_sdp sig) (sig_ufrag sig) = Some sig.
Proof.
  unfold ParseIceCandidateSignal at 1. intros E Hlen.
  destruct (_ || existsb ice_space u) eqn:E0; [done|].
  apply orb_false_elim in E0 as [[[[_ Hl]%orb_false_elim Hs]%orb_false_elim Hu]%orb_false_elim Hw].
  apply bool_decide_eq_false in Hs, Hu. apply no_nul in Hs.
  assert (good_ufrag u) as Hgu by (split_and!; [lia|done|done]).
  set (x := TrimIceWhitespace s) in *.
  assert (Forall (fun c => c <> nul) x) as Hx by by apply trim_Forall.
  destruct (bool_decide (x = []) || _ || _) eqn:E1.
  { injection E as <-. unfold ParseIceCandidateSignal. cbn [sig_sdp sig_ufrag].
    destruct Hgu as (G1 & G2 & G3). rewrite G3, !bool_decide_false by (done || apply not_elem_of_nil).
    by replace (256 <? zlen u) with false by lia. }
  destruct (existsb _ x) eqn:Enl; [done|].
  destruct (starts_with (lit "candidate:") (without_a x)) eqn:Ec; [|done].
  destruct (zlen (words (without_a x)) <? 8) eqn:E8; [done|]. cbn [negb] in E.
  destruct (parse_extension_pairs _ u) as [u'|] eqn:Ep; [|done]. injection E as <-. cbn [sig_sdp sig_ufrag] in *.
  set (y := without_a x) in *.
  assert (exists pre, x = pre ++ y) as [pre Hpre].
  { subst y. unfold without_a. destruct (starts_with _ x) eqn:Ea; [|by exists []].
    apply starts_with_spec in Ea as [r ->]. by exists (lit "a="). }
  assert (y <> []) as Hy by by intros ->.
  assert (Forall (fun c => c <> nul) y) as Hyn by (rewrite Hpre in Hx; apply Forall_app in Hx; tauto).
  pose proof (words_spec _ y Hyn) as Hwords.
  assert (Forall (fun w => w <> []) (drop 8 (words y))) as Hne.
  { apply Forall_drop. eapply List.Forall_impl; [|exact Hwords]. cbn. tauto. }
  destruct (pairs_again _ _ _ _ (Nat.le_refl _) Hne Ep) as (Ep' & _ & Hu').
  assert (good_ufrag u') as (G1 & G2 & G3).
  { destruct Hu' as [->|[Hin Hv]]; [done|]. rewrite List.Forall_forall in Hwords.
    assert (In u' (words y)) as (H1 & _ & H3)%Hwords by (apply list_elem_of_In; rewrite <- (take_drop 8 (words y)); apply elem_of_app; by right).
    by apply word_good_ufrag. }
  clear Ep. rename Ep' into Ep.
  change (zlen (lit "a=" ++ y) <= 4096) in Hlen.
  change (ParseIceCandidateSignal (lit "a=" ++ y) u' = Some (mkSignal (lit "a=" ++ y) u')).
  unfold ParseIceCandidateSignal. rewrite G3. replace (4096 <? zlen (lit "a=" ++ y)) with false by lia.
  replace (256 <? zlen u') with false by lia.
  rewrite !(bool_decide_false (nul ∈ _)); [|done|].
  2: { apply no_nul. change (Forall (fun c => c <> nul) (lit "a=" ++ y)). rewrite list.Forall_app. split; [by repeat (constructor; [done|])|done]. }
  cbn [orb].
  assert (TrimIceWhitespace (lit "a=" ++ y) = lit "a=" ++ y) as ->.
  { apply (trimmed_again y Hy). intros c Hc. apply (trim_last ice_space s). fold (TrimIceWhitespace s). fold x.
    rewrite Hpre. by apply last_of_suffix. }
  apply starts_with_spec in Ec as [r Hr].
  rewrite !bool_decide_false by (rewrite Hr; done). cbn [orb].
  assert (existsb (fun c => bool_decide (c = newline) || bool_decide (c = carriage_return)) (lit "a=" ++ y) = false) as ->.
  { rewrite Hpre, existsb_app in Enl. apply orb_false_elim in Enl as [_ Enl]. rewrite existsb_app, Enl. done. }
  assert (without_a (lit "a=" ++ y) = y) as ->.
  { unfold without_a. rewrite starts_with_app. done. }
  rewrite Hr at 1. rewrite starts_with_app. cbn [negb]. rewrite E8, Ep. done.
Qed.
