(* ===== verification/IceServers.v ===== *)
(** * The servers of a configuration

    [src/ice/ice_server_config.h]: URLs of STUN and TURN servers, the
    configuration that the signalling server sends as JSON;
    [src/ice/ice_server_resolver.h]: the addresses that relays are registered
    with.  The JSON library, the wall clock and the DNS are interfaces. *)

From Stdlib Require Import Ascii String.
From stdpp Require Import strings.
From S2P Require Import Prelude StateMonad Text.

(** ** Endpoints *)

(** src/ice/ice_utils.h:62-69 [StunEndpoint] *)
Definition StunEndpoint_ToString (host : text) (port : Z) : text :=
  (match find (lit ":") host with None => host | Some _ => lit "[" ++ host ++ lit "]" end) ++ lit ":" ++ to_string port.

(** src/api/minirtc.h:79-84 [TurnMode] *)
Inductive TurnMode := TurnDisabled | TurnAutoUdpTcp | TurnForceUdp | TurnForceTcp.

#[export] Instance TurnMode_eq_dec : EqDecision TurnMode.
Proof. solve_decision. Defined.

(** src/ice/ice_server_config.h:24-24 [kMaxTurnEndpoints] *)
Definition kMaxTurnEndpoints : Z := 8.

(** src/ice/ice_server_config.h:26-34 [IceServerEndpoint] *)
Record IceServerEndpoint := mkEndpoint {
  ep_host : text;
  ep_port : Z;
  ep_turn : bool;
  ep_tcp : bool;
  ep_username : text;
  ep_password : text;
  ep_expires_at : Z;
}.

(** *** URLs *)

Definition isalpha (c : ascii) : bool := ((65 <=? code c) && (code c <=? 90)) || ((97 <=? code c) && (code c <=? 122)).
Definition host_char (c : ascii) : bool := isalpha c || isdigit c || bool_decide (c ∈ lit "._-").
Definition address_char (c : ascii) : bool := isalpha c || isdigit c || bool_decide (c ∈ lit ":.%_-").

(** The longest prefix of characters of a class. *)
Fixpoint span (f : ascii -> bool) (s : text) : text * text :=
  match s with
  | c :: s' => if f c then let '(a, b) := span f s' in (c :: a, b) else ([], s)
  | [] => ([], [])
  end.

(** What the groups of the expression match: the scheme, the host, the port and
    the transport.  What follows a host, an address or a port is never of its
    class, so that there is one way to match. *)
(** src/ice/ice_server_config.h:44-45 [ParseIceServerUrl] *)
Definition match_host (s : text) : option (text * text) :=
  match s with
  | [] => None
  | c :: r =>
      if bool_decide (c = "["%char) then
        let '(a, rest) := span address_char r in
        match rest with
        | d :: rest => if bool_decide (d = "]"%char) && negb (bool_decide (a = [])) then Some (lit "[" ++ a ++ lit "]", rest) else None
        | [] => None
        end
      else
        let '(a, rest) := span host_char s in
        if bool_decide (a = []) then None else Some (a, rest)
  end.

(** src/ice/ice_server_config.h:44-45 [ParseIceServerUrl] *)
Definition match_port (s : text) : option (option text * text) :=
  match s with
  | c :: r =>
      if bool_decide (c = ":"%char) then
        let '(a, rest) := span isdigit r in
        if (1 <=? zlen a) && (zlen a <=? 5) then Some (Some a, rest) else None
      else Some (None, s)
  | [] => Some (None, [])
  end.

(** src/ice/ice_server_config.h:44-45 [ParseIceServerUrl] *)
Definition match_transport (s : text) : option (option text) :=
  if bool_decide (s = []) then Some None else
  if bool_decide (s = lit "?transport=udp") then Some (Some (lit "udp")) else
  if bool_decide (s = lit "?transport=tcp") then Some (Some (lit "tcp")) else None.

(** src/ice/ice_server_config.h:44-47 [ParseIceServerUrl] *)
Definition match_url (url : text) : option (text * text * option text * option text) :=
  if 512 <? zlen url then None else
  scheme ← (if starts_with (lit "stun:") url then Some (lit "stun") else if starts_with (lit "turn:") url then Some (lit "turn") else None);
  '(host, s) ← match_host (drop 5 url);
  '(port, s) ← match_port s;
  transport ← match_transport s;
  Some (scheme, host, port, transport).

(** The zone keeps its letters. *)
(** src/ice/ice_server_config.h:60-65 [ParseIceServerUrl] *)
Definition lower_host (host : text) : text :=
  let zone := default (length host) (find (lit "%") host) in
  map tolower (take zone host) ++ drop zone host.

(** src/ice/ice_server_config.h:42-69 [ParseIceServerUrl] *)
Definition ParseIceServerUrl (url : text) : option IceServerEndpoint :=
  '(scheme, host, port_text, transport) ← match_url url;
  let turn := negb (bool_decide (scheme = lit "stun")) in
  let tcp := bool_decide (transport = Some (lit "tcp")) in
  if negb turn && bool_decide (is_Some transport) then None else
  let port := match port_text with Some p => value p | None => 3478 end in
  if (port <? 1) || (65535 <? port) || (255 <? zlen host + 1 + zlen (to_string port)) then None else
  host ← (if starts_with (lit "[") host then
            let host := substr host 1 (length host - 2) in
            match find (lit ":") host with None => None | Some _ => Some host end
          else Some host);
  Some (mkEndpoint (lower_host host) (u16 port) turn tcp [] [] 0).

Definition url_expected : option IceServerEndpoint -> text * Z * bool * bool -> bool := fun r e =>
  match r with
  | Some r => bool_decide ((ep_host r, ep_port r, ep_turn r, ep_tcp r) = e)
  | None => false
  end.

Example urls :
  url_expected (ParseIceServerUrl (lit "stun:STUN.example.org")) (lit "stun.example.org", 3478, false, false) = true /\
  url_expected (ParseIceServerUrl (lit "turn:[2001:DB8::1%Eth0]:443?transport=tcp")) (lit "2001:db8::1%Eth0", 443, true, true) = true /\
  ParseIceServerUrl (lit "stun:a.org?transport=udp") = None /\ ParseIceServerUrl (lit "turn:a.org:0") = None /\
  ParseIceServerUrl (lit "turn:[a.org]") = None /\ ParseIceServerUrl (lit "turn:a.org:123456") = None.
Proof. vm_compute. split_and!; reflexivity. Qed.

(** ** The wall clock *)

Class WallClock (C : Type) := IceUnixTime : C -> Z * C.

Definition read_time {C} {clock : WallClock C} : M C Z := fun c => Some (IceUnixTime c).

(** src/ice/ice_server_config.h:71-74 [IceServerConfiguration] *)
Record IceServerConfiguration := mkConfiguration {
  conf_id : text;
  conf_expires_at : Z;
  conf_servers : list IceServerEndpoint;
}.

(** src/ice/ice_server_config.h:76-81 [IceServerConfiguration::Fresh] *)
Definition Fresh (now : Z) (config : IceServerConfiguration) : bool :=
  negb (conf_expires_at config <=? now + 5) &&
  forallb (fun server => negb (ep_turn server && (ep_expires_at server <=? now + 5))) (conf_servers config).

Definition fresh_now {C} {clock : WallClock C} (config : IceServerConfiguration) : M C bool :=
  now ← read_time;
  mret (Fresh now config).

Lemma fresh_now_eq {C} {clock : WallClock C} config (c : C) now c' :
  IceUnixTime c = (now, c') -> fresh_now config c = Some (Fresh now config, c').
Proof. intros E. unfold fresh_now, read_time, mbind, M_bind. by rewrite E. Qed.

(** ** The configuration as JSON *)

(** A JSON value of the library: its kind, the member of an object ([find],
    [contains], [operator[]]), the elements of an array, the text of a string,
    the value of an integer. *)
Class JsonLibrary (J : Type) := {
  is_object : J -> bool;
  is_array : J -> bool;
  is_string : J -> bool;
  is_number_integer : J -> bool;
  is_number_unsigned : J -> bool;
  member : string -> J -> option J;
  elements : J -> list J;
  get_string : J -> text;
  get_integer : J -> Z;
}.

Definition INT64_MAX : Z := 9223372036854775807.

Section parse.
Context {J : Type} {json : JsonLibrary J} {C : Type} {clock : WallClock C}.

(** src/ice/ice_server_config.h:85-91 [ReadIceExpiry] *)
Definition ReadIceExpiry (object : J) : option Z :=
  it ← member "expires_at" object;
  if negb (is_number_integer it) then None else
  if is_number_unsigned it && (INT64_MAX <? get_integer it) then None else
  let expiry := s64 (get_integer it) in
  if 0 <? expiry then Some expiry else None.

(** What has been read so far; [seen] maps the keys of the servers to where they
    are. *)
(** src/ice/ice_server_config.h:109-110 [ParseIceServerConfiguration] *)
Record Progress := mkProgress {
  prog_servers : list IceServerEndpoint;
  prog_seen : list (text * nat);
  stun_count : Z;
  turn_count : Z;
  url_count : Z;
}.

(** src/ice/ice_server_config.h:119-121 [ParseIceServerConfiguration] *)
Definition server_key (e : IceServerEndpoint) : text :=
  lit (if ep_turn e then "turn/" else "stun/") ++ StunEndpoint_ToString (ep_host e) (ep_port e) ++
  lit (if ep_tcp e then "/tcp" else "/udp").

Definition required_string (key : string) (object : J) : option text :=
  v ← member key object;
  if is_string v then Some (get_string v) else None.

(** The user and the password that a relay needs. *)
(** src/ice/ice_server_config.h:122-137 [ParseIceServerConfiguration] *)
Definition read_credentials (server : J) (e : IceServerEndpoint) : M C (option IceServerEndpoint) :=
  match (username ← required_string "username" server;
         password ← required_string "credential" server;
         expires_at ← ReadIceExpiry server;
         Some (username, password, expires_at)) with
  | None => mret None
  | Some (username, password, expires_at) =>
      if bool_decide (username = []) || (512 <? zlen username) || bool_decide (password = []) || (512 <? zlen password) ||
         bool_decide (zero ∈ username) || bool_decide (zero ∈ password) then mret None else
      now ← read_time;
      mret (if expires_at <=? now + 5 then None
            else Some (mkEndpoint (ep_host e) (ep_port e) (ep_turn e) (ep_tcp e) username password expires_at))
  end.

(** A server that is there already must be the same. *)
(** src/ice/ice_server_config.h:138-150 [ParseIceServerConfiguration] *)
Definition add_server (e : IceServerEndpoint) (p : Progress) : option Progress :=
  match text_find (server_key e) (prog_seen p) with
  | Some i =>
      previous ← prog_servers p !! i;
      if negb (bool_decide (ep_username e = ep_username previous)) || negb (bool_decide (ep_password e = ep_password previous)) ||
         negb (ep_expires_at e =? ep_expires_at previous) then None else Some p
  | None =>
      let seen := text_assign (server_key e) (length (prog_servers p)) (prog_seen p) in
      let turns := if ep_turn e then turn_count p + 1 else turn_count p in
      let stuns := if ep_turn e then stun_count p else stun_count p + 1 in
      if (if ep_turn e then kMaxTurnEndpoints <? turns else 8 <? stuns) then None
      else Some (mkProgress (prog_servers p ++ [e]) seen stuns turns (url_count p))
  end.

(** src/ice/ice_server_config.h:115-151 [ParseIceServerConfiguration] *)
Definition read_url (server url : J) (p : Progress) : M C (option Progress) :=
  let p := mkProgress (prog_servers p) (prog_seen p) (stun_count p) (turn_count p) (url_count p + 1) in
  if (32 <? url_count p) || negb (is_string url) then mret None else
  match ParseIceServerUrl (get_string url) with
  | None => mret None
  | Some e =>
      e ← (if ep_turn e then read_credentials server e else mret (Some e));
      mret (e ← e; add_server e p)
  end.

(** src/ice/ice_server_config.h:115-152 [ParseIceServerConfiguration] *)
Fixpoint read_urls (server : J) (urls : list J) (p : Progress) : M C (option Progress) :=
  match urls with
  | [] => mret (Some p)
  | url :: urls =>
      p ← read_url server url p;
      match p with Some p => read_urls server urls p | None => mret None end
  end.

(** The URLs of a server: one, or an array of some. *)
(** src/ice/ice_server_config.h:112-114 [ParseIceServerConfiguration] *)
Definition server_urls (server : J) : option (list J) :=
  if negb (is_object server) then None else
  urls ← member "urls" server;
  if is_string urls then Some [urls] else
  if negb (is_array urls) || bool_decide (length (elements urls) = 0%nat) then None else Some (elements urls).

(** src/ice/ice_server_config.h:111-152 [ParseIceServerConfiguration] *)
Fixpoint read_servers (servers : list J) (p : Progress) : M C (option Progress) :=
  match servers with
  | [] => mret (Some p)
  | server :: servers =>
      match server_urls server with
      | None => mret None
      | Some urls =>
          p ← read_urls server urls p;
          match p with Some p => read_servers servers p | None => mret None end
      end
  end.

Definition id_char (c : ascii) : bool := isdigit c || bool_decide (c ∈ lit "abcdefABCDEF-").

(** What is said outside the list of servers, and the list. *)
(** src/ice/ice_server_config.h:95-107 [ParseIceServerConfiguration] *)
Definition configuration_head (ice : J) : option (text * Z * list J) :=
  if negb (is_object ice) then None else
  version ← member "version" ice;
  if negb (is_number_integer version) || negb (get_integer version =? 1) then None else
  id ← required_string "id" ice;
  servers ← member "servers" ice;
  if negb (is_array servers) || (16 <? zlen (elements servers)) then None else
  if bool_decide (id = []) || (64 <? zlen id) || negb (forallb id_char id) then None else
  expires_at ← ReadIceExpiry ice;
  Some (id, expires_at, elements servers).

(** src/ice/ice_server_config.h:93-156 [ParseIceServerConfiguration] *)
Definition ParseIceServerConfiguration (ice : J) : M C (option IceServerConfiguration) :=
  match configuration_head ice with
  | None => mret None
  | Some (id, expires_at, servers) =>
      p ← read_servers servers (mkProgress [] [] 0 0 0);
      match p with
      | None => mret None
      | Some p =>
          let config := mkConfiguration id expires_at (prog_servers p) in
          fresh ← fresh_now config;
          mret (if (fresh : bool) then Some config else None)
      end
  end.

End parse.

(** ** Addresses of relays *)

(** src/ice/ice_server_config.h:158-163 [IceTurnTransportAllowed] *)
Definition IceTurnTransportAllowed (server : IceServerEndpoint) (mode : TurnMode) : bool :=
  ep_turn server && negb (bool_decide (mode = TurnDisabled)) &&
  (negb (bool_decide (mode = TurnForceUdp)) || negb (ep_tcp server)) &&
  (negb (bool_decide (mode = TurnForceTcp)) || ep_tcp server).

(** GIO: whether a text is an address, and the addresses of a name — [None] is
    one that could not be written as a text. *)
Class Resolver := {
  is_address : text -> bool;
  lookup_by_name : text -> list (option text);
}.

Section resolve.
Context {resolver : Resolver} {C : Type} {clock : WallClock C}.

(** src/ice/ice_server_resolver.h:34-47 [ResolveTurnServerAddresses] *)
Fixpoint add_addresses (resolved : list (option text)) (addresses : list text) : list text :=
  match resolved with
  | [] => addresses
  | a :: resolved =>
      if negb (zlen addresses <? 4) then addresses else
      match a with
      | None => add_addresses resolved addresses
      | Some a => add_addresses resolved (if bool_decide (a ∈ addresses) then addresses else addresses ++ [a])
      end
  end.

(** src/ice/ice_server_resolver.h:14-61 [ResolveTurnServerAddresses] *)
Definition ResolveTurnServerAddresses (server : text) : list text :=
  if bool_decide (server = []) then [] else
  if is_address server then [server] else add_addresses (lookup_by_name server) [].

(** The servers that the mode allows, and the addresses of their hosts. *)
(** src/ice/ice_server_resolver.h:65-73 [ResolveTurnServerEndpoints] *)
Fixpoint allowed_endpoints (config : IceServerConfiguration) (mode : TurnMode) (servers : list IceServerEndpoint)
    (hosts : list (text * list text)) (endpoints : list IceServerEndpoint)
    : M C (option (list (text * list text) * list IceServerEndpoint)) :=
  match servers with
  | [] => mret (Some (hosts, endpoints))
  | server :: servers =>
      fresh ← fresh_now config;
      if negb fresh then mret None else
      if negb (IceTurnTransportAllowed server mode) then allowed_endpoints config mode servers hosts endpoints else
      let hosts := match text_find (ep_host server) hosts with
                   | Some _ => hosts
                   | None => text_assign (ep_host server) (ResolveTurnServerAddresses (ep_host server)) hosts
                   end in
      allowed_endpoints config mode servers hosts (endpoints ++ [server])
  end.

Definition set_host (host : text) (e : IceServerEndpoint) : IceServerEndpoint :=
  mkEndpoint host (ep_port e) (ep_turn e) (ep_tcp e) (ep_username e) (ep_password e) (ep_expires_at e).

(** One address of each server, until there are eight. *)
(** src/ice/ice_server_resolver.h:80-87 [ResolveTurnServerEndpoints] *)
Fixpoint add_round (hosts : list (text * list text)) (address : nat) (endpoints result : list IceServerEndpoint)
    : list IceServerEndpoint :=
  match endpoints with
  | [] => result
  | endpoint :: endpoints =>
      match default [] (text_find (ep_host endpoint) hosts) !! address with
      | None => add_round hosts address endpoints result
      | Some a =>
          let result := result ++ [set_host a endpoint] in
          if zlen result =? kMaxTurnEndpoints then result else add_round hosts address endpoints result
      end
  end.

(** src/ice/ice_server_resolver.h:78-88 [ResolveTurnServerEndpoints] *)
Fixpoint add_rounds (hosts : list (text * list text)) (endpoints : list IceServerEndpoint) (rounds address : nat)
    (result : list IceServerEndpoint) : list IceServerEndpoint :=
  match rounds with
  | O => result
  | S rounds =>
      if negb (zlen result <? kMaxTurnEndpoints) then result
      else add_rounds hosts endpoints rounds (S address) (add_round hosts address endpoints result)
  end.

(** src/ice/ice_server_resolver.h:63-90 [ResolveTurnServerEndpoints] *)
Definition ResolveTurnServerEndpoints (config : IceServerConfiguration) (mode : TurnMode) : M C (list IceServerEndpoint) :=
  found ← allowed_endpoints config mode (conf_servers config) [] [];
  match found with
  | None => mret []
  | Some (hosts, endpoints) =>
      fresh ← fresh_now config;
      mret (if negb fresh then [] else add_rounds hosts endpoints 4 0 [])
  end.

End resolve.

(** ** What an accepted configuration is *)

Lemma span_class f s : let '(a, b) := span f s in s = a ++ b /\ Forall (fun c => f c = true) a.
Proof.
  induction s as [|c s IH]; [by split; [|constructor]|]. cbn [span]. destruct (f c) eqn:E; [|by split; [|constructor]].
  destruct (span f s) as [a b]. destruct IH as [-> Ha]. split; [done|]. by constructor.
Qed.

(** A host name, or an address without its brackets. *)
Definition good_host (host : text) : Prop :=
  host <> [] /\ zlen host <= 255 /\ Forall (fun c => address_char c = true) host.

Record good_endpoint (e : IceServerEndpoint) : Prop := {
  good_ep_host : good_host (ep_host e);
  good_ep_port : 1 <= ep_port e <= 65535;
  good_ep_stun : ep_turn e = false -> ep_tcp e = false;
  good_ep_turn : ep_turn e = true -> ep_username e <> [] /\ zlen (ep_username e) <= 512 /\ zero ∉ ep_username e /\
    ep_password e <> [] /\ zlen (ep_password e) <= 512 /\ zero ∉ ep_password e /\ 0 < ep_expires_at e;
}.

Lemma host_address_char c : host_char c = true -> address_char c = true.
Proof.
  unfold host_char, address_char. intros [[Hc | Hc]%orb_prop | H]%orb_prop; [by rewrite Hc|by rewrite Hc, orb_true_r|].
  apply orb_true_iff. right. apply bool_decide_eq_true in H. apply bool_decide_eq_true.
  apply list_elem_of_In in H. apply list_elem_of_In. cbn in H |- *. tauto.
Qed.

Lemma tolower_address c : address_char c = true -> address_char (tolower c) = true.
Proof.
  destruct c as [b0 b1 b2 b3 b4 b5 b6 b7]. destruct b0, b1, b2, b3, b4, b5, b6, b7; vm_compute; congruence.
Qed.

Lemma lower_good host : good_host host -> good_host (lower_host host).
Proof.
  intros (Hn & Hl & Hf). unfold lower_host. set (n := default (length host) _).
  assert (length (map tolower (take n host) ++ drop n host) = length host) as E.
  { rewrite length_app, length_map, <- length_app. by rewrite take_drop. }
  split_and!.
  - intros H. rewrite H in E. by destruct host.
  - unfold zlen in *. by rewrite E.
  - apply Forall_app. split; [|by apply Forall_drop]. apply List.Forall_map.
    eapply List.Forall_impl; [|by apply Forall_take]. apply tolower_address.
Qed.

(** What is matched for the host, with the brackets of an address. *)
Lemma match_host_class s host rest : match_host s = Some (host, rest) ->
  (host <> [] /\ starts_with (lit "[") host = false /\ Forall (fun c => address_char c = true) host) \/
  exists a, host = lit "[" ++ a ++ lit "]" /\ a <> [] /\ Forall (fun c => address_char c = true) a.
Proof.
  unfold match_host. destruct s as [|c s]; [done|]. case_bool_decide as Hc.
  - pose proof (span_class address_char s) as Hs. destruct (span address_char s) as [a [|d r]]; [done|].
    case_bool_decide as Hd; [|done]. case_bool_decide as Ha; [done|]. cbn [andb negb]. intros [= <- <-].
    right. exists a. destruct Hs as [_ Hf]. done.
  - pose proof (span_class host_char (c :: s)) as Hs. destruct (span host_char (c :: s)) as [a r] eqn:E.
    case_bool_decide as Ha; [done|]. intros [= <- <-]. left. destruct Hs as [Hs Hf]. split_and!; [done| |].
    + destruct a as [|x a]; [done|]. injection Hs as -> _. cbn. by rewrite bool_decide_false by congruence.
    + eapply List.Forall_impl; [|exact Hf]. apply host_address_char.
Qed.

Lemma ParseIceServerUrl_good url e : ParseIceServerUrl url = Some e ->
  good_host (ep_host e) /\ 1 <= ep_port e <= 65535 /\ (ep_turn e = false -> ep_tcp e = false) /\
  ep_username e = [] /\ ep_password e = [].
Proof.
  unfold ParseIceServerUrl, match_url.
  destruct (512 <? zlen url); [done|]. destruct (if starts_with _ _ then _ else _) as [scheme|] eqn:Es; [|done].
  cbn [mbind option_bind]. destruct (match_host _) as [[host r1]|] eqn:Eh; [|done]. cbn [mbind option_bind].
  destruct (match_port r1) as [[port r2]|]; [|done]. cbn [mbind option_bind].
  destruct (match_transport r2) as [transport|]; [|done]. cbn [mbind option_bind].
  set (p := match port with Some p => value p | None => 3478 end).
  destruct (negb (negb _) && _) eqn:Et; [done|].
  destruct ((p <? 1) || _ || _) eqn:Ep; [done|].
  apply orb_false_elim in Ep as [[Ep1 Ep2]%orb_false_elim Ep3].
  destruct (if starts_with (lit "[") host then _ else _) as [h|] eqn:Eb; [|done]. cbn [mbind option_bind].
  intros [= <-]. cbn [ep_host ep_port ep_turn ep_tcp ep_username ep_password].
  assert (good_host h) as Hh.
  { assert (0 <= zlen (to_string p)) by (unfold zlen; lia).
    destruct (match_host_class _ _ _ Eh) as [(Hn & Hb & Hf)|(a & -> & Hn & Hf)].
    - rewrite Hb in Eb. injection Eb as <-. split_and!; [done|lia|done].
    - change (starts_with (lit "[") (lit "[" ++ a ++ lit "]")) with true in Eb. cbv iota in Eb.
      assert (substr (lit "[" ++ a ++ lit "]") 1 (length (lit "[" ++ a ++ lit "]") - 2) = a) as Ea.
      { etransitivity; [|exact (substr_app (lit "[") a (lit "]"))]. f_equal.
        rewrite !length_app. cbn. lia. }
      rewrite Ea in Eb. destruct (find (lit ":") a); [|done]. injection Eb as <-. split_and!; [done| |done].
      rewrite !zlen_app in Ep3. change (zlen (lit "[")) with 1 in Ep3. change (zlen (lit "]")) with 1 in Ep3. lia. }
  split_and!; try done.
  - by apply lower_good.
  - rewrite u16_id by (unfold is_u16; lia). lia.
  - rewrite u16_id by (unfold is_u16; lia). lia.
  - intros Ht. change (negb (bool_decide (scheme = lit "stun")) = false) in Ht. rewrite Ht in Et. cbn [andb negb] in Et. apply bool_decide_eq_false in Et.
    apply bool_decide_eq_false. intros ->. apply Et. done.
Qed.

(** *** Reading the servers *)

Section valid.
Context {J : Type} {json : JsonLibrary J} {C : Type} {clock : WallClock C}.

(** A relay and a STUN server are never the same, nor are two transports. *)
Definition server_identity (e : IceServerEndpoint) : bool * text * Z * bool := (ep_turn e, ep_host e, ep_port e, ep_tcp e).

Record progress_ok (p : Progress) : Prop := {
  prog_good : Forall good_endpoint (prog_servers p);
  prog_turns : turn_count p = zlen (List.filter ep_turn (prog_servers p)) /\ turn_count p <= 8;
  prog_stuns : stun_count p = zlen (List.filter (fun e => negb (ep_turn e)) (prog_servers p)) /\ stun_count p <= 8;
  prog_keys : forall k i, text_find k (prog_seen p) = Some i <->
    exists e, prog_servers p !! i = Some e /\ server_key e = k;
}.

Lemma progress_start : progress_ok (mkProgress [] [] 0 0 0).
Proof. split; cbn; [constructor|done|done|]. intros k i. split; [done|]. by intros (e & H & _). Qed.

Lemma ReadIceExpiry_positive object expiry : ReadIceExpiry object = Some expiry -> 0 < expiry.
Proof.
  unfold ReadIceExpiry. destruct (member _ _) as [it|]; [|done]. cbn [mbind option_bind].
  destruct (negb _); [done|]. destruct (_ && _); [done|]. destruct (Z.ltb_spec 0 (s64 (get_integer it))); [|done].
  by intros [= <-].
Qed.

(** The methods read the clock and have no other effect, so they always return. *)
Lemma read_credentials_ok server e (c : C) :
  (let '(b, h) := (good_host (ep_host e) /\ 1 <= ep_port e <= 65535, ep_turn e = true) in b /\ h) ->
  wp (read_credentials server e) c (fun r _ => match r with Some e' => good_endpoint e' | None => True end).
Proof.
  intros [[Hh Hp] Ht]. unfold read_credentials.
  destruct (required_string "username" server) as [u|]; [|by apply wp_ret]. cbn [mbind option_bind].
  destruct (required_string "credential" server) as [p|]; [|by apply wp_ret]. cbn [mbind option_bind].
  destruct (ReadIceExpiry server) as [x|] eqn:Ex; [|by apply wp_ret]. cbn [mbind option_bind].
  destruct (_ || _) eqn:E; [by apply wp_ret|].
  apply orb_false_elim in E as [[[[[E1 E2]%orb_false_elim E3]%orb_false_elim E4]%orb_false_elim E5]%orb_false_elim E6].
  apply bool_decide_eq_false in E1, E3, E5, E6. apply ReadIceExpiry_positive in Ex.
  apply wp_bind. unfold read_time. destruct (IceUnixTime c) as [now c'] eqn:Ec.
  exists now, c'. split; [by rewrite Ec|]. apply wp_ret. destruct (x <=? now + 5); [done|].
  split; cbn [ep_host ep_port ep_turn ep_tcp ep_username ep_password ep_expires_at]; try done; [by rewrite Ht|].
  intros _. split_and!; try done; lia.
Qed.

Lemma add_server_ok e p p' : good_endpoint e -> progress_ok p -> add_server e p = Some p' -> progress_ok p'.
Proof.
  intros He [Hg [Ht Ht8] [Hs Hs8] Hk]. unfold add_server. destruct (text_find _ _) as [i|] eqn:Ef.
  { destruct (prog_servers p !! i); [|done]. cbn [mbind option_bind]. destruct (_ || _); [done|]. by intros [= <-]. }
  destruct (if ep_turn e then _ else _) eqn:El; [done|]. intros [= <-].
  assert (forall k i, text_find k (text_assign (server_key e) (length (prog_servers p)) (prog_seen p)) = Some i <->
    exists e', (prog_servers p ++ [e]) !! i = Some e' /\ server_key e' = k) as Hk'.
  { intros k i. rewrite text_find_assign. case_bool_decide as E.
    - subst k. split.
      + intros [= <-]. exists e. by rewrite list_lookup_middle by done.
      + intros (e' & Hi & Ek). destruct (decide (i = length (prog_servers p))) as [->|Hn]; [done|].
        apply lookup_app_Some in Hi as [Hi|[Hl Hi]].
        * assert (text_find (server_key e) (prog_seen p) = Some i) as H by (apply Hk; by exists e'). congruence.
        * apply list_lookup_singleton_Some in Hi as [Hi _]. lia.
    - rewrite Hk. split.
      + intros (e' & Hi & Ek). exists e'. split; [by apply lookup_app_l_Some|done].
      + intros (e' & Hi & Ek). apply lookup_app_Some in Hi as [Hi|[Hl Hi]]; [by exists e'|].
        apply list_lookup_singleton_Some in Hi as [_ <-]. congruence. }
  split; cbn [prog_servers prog_seen turn_count stun_count]; [apply list.Forall_app; split; [done|constructor; [done|constructor]]| | |done];
    rewrite List.filter_app, zlen_app; unfold kMaxTurnEndpoints in El; cbn [List.filter];
    destruct (ep_turn e); cbn [negb]; rewrite ?zlen_cons, ?zlen_nil; lia.
Qed.

Definition option_ok (r : option Progress) : Prop := match r with Some p => progress_ok p | None => True end.

Lemma read_url_ok server url p (c : C) : progress_ok p -> wp (read_url server url p) c (fun r _ => option_ok r).
Proof.
  intros Hp. unfold read_url.
  set (p1 := mkProgress _ _ _ _ _).
  assert (progress_ok p1) as Hp1 by (destruct Hp; by split).
  destruct (_ || _); [by apply wp_ret|]. destruct (ParseIceServerUrl _) as [e|] eqn:Ee; [|by apply wp_ret].
  apply ParseIceServerUrl_good in Ee as (Hh & Hport & Hs & _). apply wp_bind.
  eapply (wp_mono _ _ (fun r _ => match r with Some e => good_endpoint e | None => True end)).
  - destruct (ep_turn e) eqn:Et; [by apply read_credentials_ok|]. apply wp_ret. split; [done|done|intros _; by apply Hs|intros H; congruence].
  - intros [e'|] c' He; apply wp_ret; [|done]. cbn [mbind option_bind]. destruct (add_server e' p1) as [p'|] eqn:Ea; [|done].
    by apply (add_server_ok e' p1).
Qed.

Lemma read_urls_ok server urls p (c : C) : progress_ok p -> wp (read_urls server urls p) c (fun r _ => option_ok r).
Proof.
  revert p c. induction urls as [|url urls IH]; intros p c Hp; cbn [read_urls]; [by apply wp_ret|].
  apply wp_bind. eapply wp_mono; [by apply read_url_ok|]. intros [p'|] c' H; [by apply IH|by apply wp_ret].
Qed.

Lemma read_servers_ok servers p (c : C) : progress_ok p -> wp (read_servers servers p) c (fun r _ => option_ok r).
Proof.
  revert p c. induction servers as [|server servers IH]; intros p c Hp; cbn [read_servers]; [by apply wp_ret|].
  destruct (server_urls server) as [urls|]; [|by apply wp_ret].
  apply wp_bind. eapply wp_mono; [by apply read_urls_ok|]. intros [p'|] c' H; [by apply IH|by apply wp_ret].
Qed.

(** Servers with different keys. *)
Lemma progress_distinct p : progress_ok p -> base.NoDup (map server_identity (prog_servers p)).
Proof.
  intros [_ _ _ Hk].
  assert (base.NoDup (map server_key (prog_servers p))) as Hd.
  { apply NoDup_alt. intros i j k Hi Hj. apply list_lookup_fmap_Some in Hi as (a & Ea & Ha). apply list_lookup_fmap_Some in Hj as (b & Eb & Hb).
    assert (text_find k (prog_seen p) = Some i) as H1 by (apply Hk; by exists a).
    assert (text_find k (prog_seen p) = Some j) as H2 by (apply Hk; by exists b). congruence. }
  clear Hk. induction (prog_servers p) as [|e l IH]; [apply NoDup_nil_2|]. cbn [map] in *.
  apply list.NoDup_cons in Hd as [Hn Hd]. apply list.NoDup_cons. split; [|auto].
  intros (e' & E & He')%list_elem_of_fmap. apply Hn, list_elem_of_fmap. exists e'. split; [|done].
  unfold server_identity in E. unfold server_key. by injection E as -> -> -> ->.
Qed.

(** A configuration that may be used. *)
Record good_configuration (config : IceServerConfiguration) : Prop := {
  conf_good_id : conf_id config <> [] /\ zlen (conf_id config) <= 64 /\ Forall (fun c => id_char c = true) (conf_id config);
  conf_good_servers : Forall good_endpoint (conf_servers config);
  conf_distinct : base.NoDup (map server_identity (conf_servers config));
  conf_few_turn : zlen (List.filter ep_turn (conf_servers config)) <= 8;
  conf_few_stun : zlen (List.filter (fun e => negb (ep_turn e)) (conf_servers config)) <= 8;
}.

Lemma configuration_head_ok ice id expires_at servers : configuration_head ice = Some (id, expires_at, servers) ->
  id <> [] /\ zlen id <= 64 /\ Forall (fun c => id_char c = true) id.
Proof.
  unfold configuration_head. destruct (negb (is_object ice)); [done|].
  destruct (member "version" ice) as [v|]; [|done]. cbn [mbind option_bind]. destruct (_ || _); [done|].
  destruct (required_string "id" ice) as [i|]; [|done]. cbn [mbind option_bind].
  destruct (member "servers" ice) as [s|]; [|done]. cbn [mbind option_bind]. destruct (_ || _); [done|].
  destruct (_ || _) eqn:E; [done|]. apply orb_false_elim in E as [[E1 E2]%orb_false_elim E3].
  destruct (ReadIceExpiry ice); [|done]. cbn [mbind option_bind]. intros [= <- _ _].
  apply bool_decide_eq_false in E1. apply negb_false_iff in E3. rewrite forallb_forall in E3.
  split_and!; [done|lia|]. by apply List.Forall_forall.
Qed.

(** C15. Whatever JSON the signalling server sends, reading it ends, and a
    configuration that is accepted is well formed: an identifier of up to 64
    hexadecimal digits and dashes; at most eight relays and eight STUN servers,
    no two of the same kind, host, port and transport; every host made of the
    characters of names and addresses, every port in its range, every relay
    with a user and a password; and at the time that was read last, it and each
    of its relays have more than five seconds left. *)
Theorem ice_configuration_valid (ice : J) (c : C) :
  exists r c', ParseIceServerConfiguration ice c = Some (r, c') /\
  match r with
  | None => True
  | Some config => good_configuration config /\
      exists c0 now, IceUnixTime c0 = (now, c') /\ now + 5 < conf_expires_at config /\
        Forall (fun e => ep_turn e = true -> now + 5 < ep_expires_at e) (conf_servers config)
  end.
Proof.
  unfold ParseIceServerConfiguration. destruct (configuration_head ice) as [[[id x] servers]|] eqn:Eh; [|by exists None, c].
  apply configuration_head_ok in Eh.
  destruct (read_servers_ok servers _ c progress_start) as (r & c0 & E & Hr). rewrite (bind_eval _ _ _ _ _ E). cbv beta.
  destruct r as [p|]; [|by exists None, c0].
  cbv zeta. set (config := mkConfiguration _ _ _). destruct (IceUnixTime c0) as [now c1] eqn:Ec.
  rewrite (bind_eval _ _ c0 _ c1 (fresh_now_eq config c0 now c1 Ec)). cbv beta.
  destruct (Fresh now config) eqn:Ef; eexists _, c1; (split; [reflexivity|]); [|done].
  pose proof (progress_distinct p Hr) as Hd. destruct Hr as [Hg [Ht Ht8] [Hs Hs8] _].
  split; [split; cbn; try done; lia|]. exists c0, now. split; [done|]. unfold Fresh in Ef.
  apply andb_prop in Ef as [E1 E2]. split; [lia|]. rewrite forallb_forall in E2. apply List.Forall_forall.
  intros e He Het. specialize (E2 e He). rewrite Het in E2. cbn in E2. lia.
Qed.

End valid.

(** ** Every server gets its first address *)

Section resolved.
Context {resolver : Resolver} {C : Type} {clock : WallClock C}.

(** The addresses that are kept of a host. *)
Definition hosts_ok (hosts : list (text * list text)) : Prop :=
  forall h l, text_find h hosts = Some l -> l = ResolveTurnServerAddresses h.

Lemma allowed_endpoints_ok config mode servers hosts endpoints (c : C) :
  hosts_ok hosts -> (forall e, e ∈ endpoints -> is_Some (text_find (ep_host e) hosts)) ->
  wp (allowed_endpoints config mode servers hosts endpoints) c (fun r _ =>
    match r with
    | None => True
    | Some (hosts', endpoints') => hosts_ok hosts' /\ (forall e, e ∈ endpoints' -> is_Some (text_find (ep_host e) hosts')) /\
        endpoints' = endpoints ++ List.filter (fun e => IceTurnTransportAllowed e mode) servers
    end).
Proof.
  revert hosts endpoints c. induction servers as [|server servers IH]; intros hosts endpoints c Hh He; cbn [allowed_endpoints].
  { apply wp_ret. cbn. by rewrite app_nil_r. }
  apply wp_bind. destruct (IceUnixTime c) as [now c1] eqn:Ec.
  exists (Fresh now config), c1. split; [by apply fresh_now_eq|].
  destruct (Fresh now config); cbn [negb]; [|by apply wp_ret]. cbn [List.filter].
  destruct (IceTurnTransportAllowed server mode); cbn [negb]; [|by apply IH].
  set (hosts' := match text_find _ _ with Some _ => _ | None => _ end).
  assert (hosts_ok hosts' /\ is_Some (text_find (ep_host server) hosts') /\
    forall e, e ∈ endpoints -> is_Some (text_find (ep_host e) hosts')) as (H1 & H2 & H3).
  { subst hosts'. destruct (text_find (ep_host server) hosts) eqn:Ef; [by rewrite Ef|]. split_and!.
    - intros h l. rewrite text_find_assign. case_bool_decide as E; [by intros [= <-]; subst|]. apply Hh.
    - rewrite text_find_assign. by rewrite bool_decide_true.
    - intros e Hin. rewrite text_find_assign. case_bool_decide; [done|]. by apply He. }
  eapply wp_mono; [apply IH; [done|]|].
  - intros e [Hin|Hin]%elem_of_app; [by apply H3|]. by apply list_elem_of_singleton in Hin as ->.
  - intros [[h' e']|] c' H; [|done]. destruct H as (Ha & Hb & ->). split_and!; try done. by rewrite <- app_assoc.
Qed.

(** A server with one of its addresses. *)
Definition resolved_from (endpoints : list IceServerEndpoint) (e : IceServerEndpoint) : Prop :=
  exists s a, s ∈ endpoints /\ a ∈ ResolveTurnServerAddresses (ep_host s) /\ e = set_host a s.

Lemma hosts_addresses hosts (e : IceServerEndpoint) : hosts_ok hosts -> is_Some (text_find (ep_host e) hosts) ->
  default [] (text_find (ep_host e) hosts) = ResolveTurnServerAddresses (ep_host e).
Proof. intros Hh [l Hl]. rewrite Hl. by apply Hh. Qed.

Lemma add_round_ok hosts n all endpoints result :
  hosts_ok hosts -> (forall e, e ∈ endpoints -> is_Some (text_find (ep_host e) hosts)) ->
  (forall e, e ∈ endpoints -> e ∈ all) -> Forall (resolved_from all) result -> zlen result < 8 ->
  let result' := add_round hosts n endpoints result in
  zlen result' <= 8 /\ Forall (resolved_from all) result' /\ (exists new, result' = result ++ new) /\
  (zlen result + zlen endpoints <= 8 ->
   forall e a, e ∈ endpoints -> ResolveTurnServerAddresses (ep_host e) !! n = Some a -> set_host a e ∈ result').
Proof.
  intros Hh. cbv zeta. revert result. induction endpoints as [|e endpoints IH]; intros result Hs Hall Hr Hl; cbn [add_round].
  { split_and!; [lia|done|by exists []; rewrite app_nil_r|]. intros _ e a He. by apply not_elem_of_nil in He. }
  rewrite (hosts_addresses hosts e Hh) by (apply Hs; left).
  assert (forall x, x ∈ endpoints -> is_Some (text_find (ep_host x) hosts)) as Hs' by (intros x Hx; apply Hs; by right).
  assert (forall x, x ∈ endpoints -> x ∈ all) as Hall' by (intros x Hx; apply Hall; by right).
  destruct (ResolveTurnServerAddresses (ep_host e) !! n) as [a|] eqn:Ea.
  - set (result1 := result ++ [set_host a e]).
    assert (zlen result1 = zlen result + 1) as El by (subst result1; by rewrite zlen_app).
    assert (Forall (resolved_from all) result1) as Hr1.
    { subst result1. apply list.Forall_app. split; [done|]. constructor; [|constructor]. exists e, a.
      split_and!; [apply Hall; left|by eapply list_elem_of_lookup_2|done]. }
    unfold kMaxTurnEndpoints. destruct (Z.eqb_spec (zlen result1) 8).
    + split_and!; [lia|done|by eexists|]. rewrite zlen_cons. intros Hle x b Hx Hb.
      assert (endpoints = []) as -> by (destruct endpoints; [done|rewrite zlen_cons in Hle; pose proof (zlen_nonneg endpoints); lia]).
      apply list_elem_of_singleton in Hx as ->. rewrite Ea in Hb. injection Hb as <-. subst result1. apply elem_of_app. right. by left.
    + destruct (IH result1 Hs' Hall' Hr1 ltac:(lia)) as (H1 & H2 & [new H3] & H4). split_and!; [done|done| |].
      * rewrite H3. subst result1. rewrite <- app_assoc. by eexists.
      * rewrite zlen_cons. intros Hle x b Hx Hb. apply list.elem_of_cons in Hx as [->|Hx]; [|apply H4; [lia|done|done]].
        rewrite Ea in Hb. injection Hb as <-. rewrite H3. subst result1. rewrite !elem_of_app. left. right. by left.
  - destruct (IH result Hs' Hall' Hr Hl) as (H1 & H2 & H3 & H4). split_and!; [done|done|done|].
    rewrite zlen_cons. intros Hle x b Hx Hb. apply list.elem_of_cons in Hx as [->|Hx]; [congruence|]. apply H4; [lia|done|done].
Qed.

Lemma add_rounds_ok hosts endpoints rounds n result :
  hosts_ok hosts -> (forall e, e ∈ endpoints -> is_Some (text_find (ep_host e) hosts)) ->
  Forall (resolved_from endpoints) result -> zlen result <= 8 ->
  let result' := add_rounds hosts endpoints rounds n result in
  zlen result' <= 8 /\ Forall (resolved_from endpoints) result' /\ exists new, result' = result ++ new.
Proof.
  intros Hh Hs. cbv zeta. revert n result. induction rounds as [|rounds IH]; intros n result Hr Hl; cbn [add_rounds].
  { split_and!; [done|done|]. exists []. by rewrite app_nil_r. }
  unfold kMaxTurnEndpoints. destruct (Z.ltb_spec (zlen result) 8); cbn [negb].
  2: { split_and!; [done|done|]. exists []. by rewrite app_nil_r. }
  destruct (add_round_ok hosts n endpoints endpoints result Hh Hs ltac:(auto) Hr ltac:(lia)) as (H1 & H2 & [new1 H3] & _).
  destruct (IH (S n) _ H2 H1) as (H4 & H5 & [new2 H6]). split_and!; [done|done|].
  rewrite H6, H3, <- app_assoc. by eexists.
Qed.

Lemma ResolveTurnServerEndpoints_allowed config mode (c : C) :
  wp (ResolveTurnServerEndpoints config mode) c (fun result _ =>
    Forall (resolved_from (List.filter (fun e => IceTurnTransportAllowed e mode) (conf_servers config))) result).
Proof.
  unfold ResolveTurnServerEndpoints. apply wp_bind.
  eapply wp_mono; [apply allowed_endpoints_ok; [by intros h l|intros e He; by apply not_elem_of_nil in He]|].
  intros [[hosts endpoints]|] c1 Hr; [|apply wp_ret; constructor]. destruct Hr as (Hh & Hs & ->).
  apply wp_bind. destruct (IceUnixTime c1) as [now c2] eqn:Ec.
  exists (Fresh now config), c2. split; [by apply fresh_now_eq|]. apply wp_ret.
  destruct (Fresh now config); cbn [negb]; [|constructor].
  by destruct (add_rounds_ok hosts _ 4 0 [] Hh Hs ltac:(constructor) ltac:(done)) as (_ & H & _).
Qed.

Lemma ResolveTurnServerEndpoints_returns config mode (c : C) : is_Some (ResolveTurnServerEndpoints config mode c).
Proof. destruct (ResolveTurnServerEndpoints_allowed config mode c) as (r & c' & E & _). rewrite E. by eexists. Qed.

(** C18. The relays that are registered with the agent are at most eight; each
    is a server of the configuration that the mode allows — none over TCP when
    UDP is forced, none over UDP when TCP is — with an address of its host.
    With up to eight servers allowed, either nothing is registered or every one
    with an address gets its first, however many addresses the others have. *)
Theorem turn_servers_served (config : IceServerConfiguration) (mode : TurnMode) (c : C) :
  let allowed := List.filter (fun e => IceTurnTransportAllowed e mode) (conf_servers config) in
  zlen allowed <= 8 ->
  exists result c', ResolveTurnServerEndpoints config mode c = Some (result, c') /\
    zlen result <= 8 /\ Forall (resolved_from allowed) result /\
    (result = [] \/ forall s a, s ∈ allowed -> head (ResolveTurnServerAddresses (ep_host s)) = Some a -> set_host a s ∈ result).
Proof.
  intros allowed Hle. unfold ResolveTurnServerEndpoints.
  destruct (allowed_endpoints_ok config mode (conf_servers config) [] [] c) as (r & c1 & E & Hr).
  { by intros h l. } { intros e He. by apply not_elem_of_nil in He. }
  rewrite (bind_eval _ _ _ _ _ E). destruct r as [[hosts endpoints]|].
  2: { exists [], c1. split_and!; [done|done|constructor|by left]. }
  destruct Hr as (Hh & Hs & ->). destruct (IceUnixTime c1) as [now c2] eqn:Ec.
  rewrite (bind_eval _ _ _ _ _ (fresh_now_eq config c1 now c2 Ec)).
  destruct (Fresh now config); cbn [negb]; [|by exists [], c2; split_and!; [done|done|constructor|left]].
  eexists _, c2. split; [reflexivity|]. cbn [app]. fold allowed in Hs |- *.
  destruct (add_round_ok hosts 0 allowed allowed [] Hh Hs ltac:(auto) ltac:(constructor) ltac:(done)) as (H1 & H2 & _ & H4).
  destruct (add_rounds_ok hosts allowed 3 1 _ Hh Hs H2 H1) as (H5 & H6 & [new H7]).
  change (add_rounds hosts allowed 4 0 []) with (add_rounds hosts allowed 3 1 (add_round hosts 0 allowed [])).
  split_and!; [done|done|]. right. intros s a Hin Ha. rewrite H7. apply elem_of_app. left. apply H4; [by rewrite zlen_nil|done|].
  destruct (ResolveTurnServerAddresses (ep_host s)); [done|exact Ha].
Qed.

End resolved.

(** ** A configuration *)

Module Sample.

(** JSON values, as a tree. *)
Inductive Value :=
  | Object (members : list (string * Value))
  | Array (l : list Value)
  | Text (s : string)
  | Number (z : Z).

Fixpoint find_member (key : string) (l : list (string * Value)) : option Value :=
  match l with
  | [] => None
  | (k, v) :: l => if bool_decide (key = k) then Some v else find_member key l
  end.

#[export] Instance json_tree : JsonLibrary Value := {|
  is_object v := match v with Object _ => true | _ => false end;
  is_array v := match v with Array _ => true | _ => false end;
  is_string v := match v with Text _ => true | _ => false end;
  is_number_integer v := match v with Number _ => true | _ => false end;
  is_number_unsigned v := match v with Number z => 0 <=? z | _ => false end;
  member key v := match v with Object l => find_member key l | _ => None end;
  elements v := match v with Array l => l | _ => [] end;
  get_string v := match v with Text s => lit s | _ => [] end;
  get_integer v := match v with Number z => z | _ => 0 end;
|}.

(** A clock that moves on by a second with each reading. *)
#[export] Instance seconds : WallClock Z := fun c => (c, c + 1).

Definition relay (host : string) (tcp : bool) (user : string) : Value := Object [
  ("urls", Text ("turn:" ++ host ++ (if tcp then "?transport=tcp" else "")))%string;
  ("username", Text user); ("credential", Text "secret"); ("expires_at", Number 2000)]%string.

Definition message (servers : list Value) : Value := Object [
  ("version", Number 1); ("id", Text "c0ffee-1"); ("expires_at", Number 3000); ("servers", Array servers)]%string.

Definition servers : list Value := [
  Object [("urls", Array [Text "stun:s1.example.org"; Text "stun:S1.example.org:3478"])]%string;
  relay "t1.example.org" false "u"; relay "t2.example.org" true "u"].

Definition keys (r : option (option IceServerConfiguration * Z)) : option (list (text * Z * bool)) :=
  '(c, _) ← r; c ← c; Some (map (fun e => (ep_host e, ep_port e, ep_tcp e)) (conf_servers c)).

Example accepted_configuration : keys (ParseIceServerConfiguration (message servers) 1000) =
  Some [(lit "s1.example.org", 3478, false); (lit "t1.example.org", 3478, false); (lit "t2.example.org", 3478, true)].
Proof. vm_compute. reflexivity. Qed.

(** The same relay with two passwords, and one that is about to expire. *)
Example rejected_configurations :
  keys (ParseIceServerConfiguration (message [relay "t" false "u"; relay "t" false "v"]) 1000) = None /\
  keys (ParseIceServerConfiguration (message [relay "t" false "u"]) 1995) = None.
Proof. vm_compute. auto. Qed.

Definition configuration : IceServerConfiguration := mkConfiguration (lit "c0ffee-1") 3000
  [mkEndpoint (lit "s1.example.org") 3478 false false [] [] 0;
   mkEndpoint (lit "t1.example.org") 3478 true false (lit "u") (lit "p") 2000;
   mkEndpoint (lit "t2.example.org") 443 true true (lit "u") (lit "p") 2000].

(** A name with nine addresses. *)
#[export] Instance dns : Resolver := {|
  is_address _ := false;
  lookup_by_name host := map (fun n => Some (lit "10.0.0." ++ to_string n)) [1; 2; 2; 3; 4; 5; 6; 7; 8];
|}.

End Sample.
Import Sample.

Lemma turn_servers_served_witness :
  zlen (List.filter (fun e => IceTurnTransportAllowed e TurnAutoUdpTcp) (conf_servers Sample.configuration)) <= 8 /\
  exists result c', ResolveTurnServerEndpoints Sample.configuration TurnAutoUdpTcp 1000 = Some (result, c') /\ zlen result <= 8.
Proof.
  split; [vm_compute; discriminate|].
  destruct (turn_servers_served Sample.configuration TurnAutoUdpTcp 1000 ltac:(vm_compute; discriminate)) as (r & c' & E & H & _).
  exists r, c'. exact (conj E H).
Defined.
