(* ===== verification/IceAgent.v ===== *)
(** * The ICE agent

    [src/ice/ice_agent.cpp] and [src/ice/ice_agent.h]: what [IceAgent] does with
    libnice, GLib and OpenSSL, which are the interfaces [NiceAgent] and [Dtls].
    The callbacks that were given to [CreateIceAgent] are there; they, the
    settings and the packets sent are kept in a trace.  The thread of the agent
    is waited for while it starts and while it ends, so both are one step. *)

From Stdlib Require Import Ascii String.
From stdpp Require Import gmap strings.
From S2P Require Import Prelude StateMonad StdContainers Text NatTraversal IceUtils IceServers.

(** ** What the agent calls *)

(** [NiceCandidateType] of libnice. *)
Inductive NiceCandidateType := HOST | SERVER_REFLEXIVE | PEER_REFLEXIVE | RELAYED.

#[export] Instance NiceCandidateType_eq_dec : EqDecision NiceCandidateType.
Proof. solve_decision. Defined.

(** The fields of a [NiceCandidate] that the agent looks at; the base address
    may be invalid. *)
Record NiceCandidate := mkCandidate {
  cand_type : NiceCandidateType;
  cand_udp : bool;
  cand_component : Z;
  cand_foundation : text;
  cand_ip : text;
  cand_port : Z;
  cand_base : option (text * Z);
  cand_priority : Z;
}.

(** What is set on the agent with [g_object_set]. *)
Inductive Setting :=
  | relay_upgrade_timeout (ms : Z)
  | stun_servers (endpoints : text)
  | stun_server (host : text) (port : Z)
  | controlling_mode (controlling : bool)
  | upnp (enabled : bool) (timeout : Z)
  | force_relay.

Class NiceAgent (N : Type) := {
  g_main_context_new : N -> bool * N;
  g_main_loop_new : N -> bool * N;
  (** With trickle ICE, and in reliable mode. *)
  nice_agent_new_full : bool -> bool -> N -> bool * N;
  has_property : string -> N -> bool;
  g_object_set : Setting -> N -> unit * N;
  nice_agent_add_stream : Z -> N -> Z * N;
  nice_agent_set_stream_name : string -> N -> unit * N;
  (** The stream, the address, the port, the user, the password, over TCP. *)
  nice_agent_set_relay_info : Z -> text -> Z -> text -> text -> bool -> N -> bool * N;
  nice_agent_remove_stream : Z -> N -> unit * N;
  nice_agent_generate_local_sdp : N -> text * N;
  nice_agent_generate_local_stream_sdp : Z -> N -> option text * N;
  nice_agent_parse_remote_sdp : text -> N -> Z * N;
  nice_agent_parse_remote_candidate_sdp : Z -> text -> N -> option NiceCandidate * N;
  nice_agent_set_remote_candidates : Z -> Z -> list NiceCandidate -> N -> Z * N;
  nice_agent_get_remote_candidates : Z -> N -> list NiceCandidate;
  (** The types of the pair, when both are there. *)
  nice_agent_get_selected_pair : Z -> N -> option (NiceCandidateType * NiceCandidateType);
  nice_agent_peer_candidate_gathering_done : Z -> N -> bool * N;
  nice_agent_gather_candidates : Z -> N -> bool * N;
  nice_agent_get_component_state : Z -> N -> NiceComponentState;
  nice_agent_send : Z -> list Z -> N -> Z * N;
}.

(** What [SSL_do_handshake] does: it reads and writes through the BIO, and ends
    with a result and a new state of the connection. *)
Inductive Handshake (L : Type) :=
  | Finished (ret : Z) (ssl : L)
  | BioRead (len : Z) (k : option (list Z) -> Handshake L)
  | BioWrite (buf : list Z) (k : Z -> Handshake L).
Arguments Finished {L}. Arguments BioRead {L}. Arguments BioWrite {L}.

(** Connections [L] and certificates [X] of OpenSSL. *)
Class Dtls (N L X : Type) := {
  (** [EVP_PKEY_keygen] and [X509_sign] with what is between them. *)
  make_certificate : N -> option X * N;
  X509_digest : X -> option (list Z);
  (** [SSL_CTX_new] and [SSL_CTX_set_tlsext_use_srtp]. *)
  ssl_context : N -> bool * N;
  (** The certificate and its key, [SSL_new], and the role. *)
  ssl_new : X -> bool -> N -> option L * N;
  SSL_do_handshake : L -> Handshake L;
  (** [SSL_get_error] is [SSL_ERROR_WANT_READ] or [SSL_ERROR_WANT_WRITE]. *)
  ssl_wants_more : L -> Z -> bool;
  SSL_is_init_finished : L -> bool;
  SSL_get_peer_certificate : L -> option X;
  SSL_get_selected_srtp_profile : L -> option text;
  SSL_export_keying_material : L -> string -> Z -> option (list Z);
}.

(** ** The state *)

(** src/ice/ice_agent.h:108-142 [IceAgent] *)
Record AgentConfig := mkConfig {
  use_trickle_ice_ : bool;
  use_reliable_ice_ : bool;
  turn_mode_ : TurnMode;
  ice_config_ : IceServerConfiguration;
  controlling_ : bool;
  has_video_stream_ : bool;
  has_audio_stream_ : bool;
  has_data_stream_ : bool;
  n_components_ : Z;
}.

(** Pointers are there or not. *)
(** src/ice/ice_agent.h:126-147 [IceAgent] *)
Record AgentLife := mkLife {
  nice_thread_ : bool;
  agent_ : bool;
  gcontext_ : bool;
  gloop_ : bool;
  nice_inited_ : bool;
  init_failed_ : bool;
  init_status_ : Z;
  stream_id_ : Z;
  destroyed_ : bool;
  agent_closed_ : bool;
  send_disabled_ : bool;
}.

(** src/ice/ice_agent.h:117-143 [IceAgent] *)
Record AgentSdps := mkSdps {
  video_stream_sdp_ : text;
  audio_stream_sdp_ : text;
  data_stream_sdp_ : text;
  local_sdp_ : text;
}.

(** src/ice/ice_agent.h:167-171 [IceAgent] *)
Record AgentPaths := mkPaths {
  p2p_enhancement_enabled_ : bool;
  nat_samples_ : list (text * list NatMappingSample);
  port_predictor_ : RemotePortPredictor;
}.

(** src/ice/ice_agent.h:174-214 [IceAgent] *)
Record AgentDtls (L X : Type) := mkDtls {
  enable_srtp_ : bool;
  ssl_ : option L;
  dtls_cert_ : option X;
  dtls_fingerprint_ : text;
  dtls_started_ : bool;
  dtls_handshake_done_ : bool;
  remote_fingerprint_ : text;
  dtls_incoming_ : list (list Z);
}.
Arguments mkDtls {L X}. Arguments enable_srtp_ {L X}. Arguments ssl_ {L X}. Arguments dtls_cert_ {L X}.
Arguments dtls_fingerprint_ {L X}. Arguments dtls_started_ {L X}. Arguments dtls_handshake_done_ {L X}.
Arguments remote_fingerprint_ {L X}. Arguments dtls_incoming_ {L X}.

(** What the agent does to the outside. *)
Inductive Event :=
  | Received (buffer : list Z)
  | DtlsDone
  | StateChanged (state : NiceComponentState)
  | Configured (s : Setting)
  | RelayRegistered (server : IceServerEndpoint)
  | Probed (hypotheses : list NiceCandidate)
  | Sent (data : list Z).

Record IceAgent (N L X : Type) := mkAgent {
  config : AgentConfig;
  life : AgentLife;
  sdps : AgentSdps;
  paths : AgentPaths;
  dtls : AgentDtls L X;
  trace : list Event;
  nice : N;
}.
Arguments mkAgent {N L X}. Arguments config {N L X}. Arguments life {N L X}. Arguments sdps {N L X}.
Arguments paths {N L X}. Arguments dtls {N L X}. Arguments trace {N L X}. Arguments nice {N L X}.

(** src/ice/ice_agent.cpp:74-82 [IceAgent::IceAgent] *)
Definition new_agent {N L X} (c : AgentConfig) (enable_srtp : bool) (n : N) : IceAgent N L X :=
  mkAgent c (mkLife false false false false false false (-1) 0 false false false) (mkSdps [] [] [] [])
    (mkPaths false [] new_predictor) (mkDtls enable_srtp None None [] false false [] []) [] n.

(** ** Texts *)

(** Every place of a text, from the front, replaced by another; each round goes
    on behind the place it replaced. *)
(** src/ice/ice_agent.cpp:512-517 [IceAgent::GenerateLocalSdp] *)
Fixpoint replace_all (fuel : nat) (to_replace replacement s : text) : text :=
  match fuel with
  | O => s
  | S fuel =>
      match find to_replace s with
      | None => s
      | Some pos => take pos s ++ replacement ++ replace_all fuel to_replace replacement (drop (pos + length to_replace) s)
      end
  end.

(** src/ice/ice_agent.cpp:52-52 [IsTurnEnabled] *)
Definition IsTurnEnabled (mode : TurnMode) : bool := negb (bool_decide (mode = TurnDisabled)).
(** src/ice/ice_agent.cpp:54-56 [IsTurnForced] *)
Definition IsTurnForced (mode : TurnMode) : bool := bool_decide (mode = TurnForceUdp) || bool_decide (mode = TurnForceTcp).

(** src/ice/ice_agent.cpp:1169-1173 [IceAgent::ExtractAndStripFingerprint] *)
Definition without_line_end (s : text) : text :=
  rev (drop_while (fun c => bool_decide (c = carriage_return) || bool_decide (c = newline)) (rev s)).

(** The fingerprint, when there is a line of one and a space in it or behind it,
    and the text up to the line. *)
(** src/ice/ice_agent.cpp:1163-1181 [IceAgent::ExtractAndStripFingerprint] *)
Definition split_fingerprint (sdp : text) : option (option text * text) :=
  match rfind (lit "a=fingerprint:") sdp with
  | None => None
  | Some pos =>
      let fingerprint := match find_from (lit " ") sdp pos with
                         | Some space_pos => Some (without_line_end (drop (space_pos + 1) sdp))
                         | None => None
                         end in
      let cut_pos := match pos with
                     | O => O
                     | S n => match sdp !! n with
                              | Some c => if bool_decide (c = newline) || bool_decide (c = carriage_return) then n else pos
                              | None => pos
                              end
                     end in
      Some (fingerprint, take cut_pos sdp)
  end.

(** Two upper case hexadecimal digits. *)
Definition hex_digit (z : Z) : ascii := if z <? 10 then digit z else ascii_of_N (Z.to_N (55 + z)).

(** src/ice/ice_agent.cpp:1149-1155 [IceAgent::ComputeFingerprint] *)
Fixpoint hex_pairs (md : list Z) : text :=
  match md with
  | [] => []
  | b :: md => hex_digit (b / 16) :: hex_digit (b mod 16) :: (match md with [] => [] | _ => lit ":" end) ++ hex_pairs md
  end.

(** src/ice/ice_agent.cpp:893-900 [IceAgent::IsDtlsRecord] *)
Definition IsDtlsRecord (data : list Z) : bool :=
  match data with
  | ct :: v0 :: v1 :: _ =>
      if zlen data <? 13 then false else
      if (ct <? 20) || (25 <? ct) then false else
      (v0 =? 254) && ((v1 =? 255) || (v1 =? 253) || (v1 =? 252))
  | _ => false
  end.

(** ** Predicted candidates *)

(** src/ice/ice_agent.cpp:713-715 [IceAgent::ProbePredictedRemoteCandidates] *)
Definition address_text (ip : text) (port : Z) : text := ip ++ lit ":" ++ to_string port.

(** src/ice/ice_agent.cpp:708-716 [IceAgent::ProbePredictedRemoteCandidates] *)
Definition known_addresses (remote : list NiceCandidate) : gset text :=
  list_to_set (map (fun c => address_text (cand_ip c) (cand_port c)) (List.filter cand_udp remote)).

(** The group of a candidate that guesses may be made from. *)
(** src/ice/ice_agent.cpp:720-733 [IceAgent::ProbePredictedRemoteCandidates] *)
Definition prediction_group (c : NiceCandidate) : option text :=
  if negb (bool_decide (cand_type c = SERVER_REFLEXIVE)) || negb (cand_udp c) || starts_with (lit "px-") (cand_foundation c)
  then None else
  match cand_base c with
  | None => None
  | Some (base, base_port) =>
      if (base_port =? 0) || negb (IsPublicIpv4ForPrediction (cand_ip c)) then None
      else Some (cand_ip c ++ lit "/" ++ base ++ lit ":" ++ to_string base_port)
  end.

(** src/ice/ice_agent.cpp:743-749 [IceAgent::ProbePredictedRemoteCandidates] *)
Definition hypothesis (c : NiceCandidate) (port : Z) : NiceCandidate :=
  mkCandidate (cand_type c) (cand_udp c) (cand_component c) (lit "px-" ++ to_string port) (cand_ip c) port (cand_base c)
    (if 256 <? cand_priority c then cand_priority c - 256 else cand_priority c).

(** The guesses of a candidate that are not known addresses, put in front. *)
(** src/ice/ice_agent.cpp:736-751 [IceAgent::ProbePredictedRemoteCandidates] *)
Fixpoint add_hypotheses (c : NiceCandidate) (ports : list Z) (known : gset text) (predicted : list NiceCandidate)
    : gset text * list NiceCandidate :=
  match ports with
  | [] => (known, predicted)
  | port :: ports =>
      let a := address_text (cand_ip c) port in
      if bool_decide (a ∈ known) then add_hypotheses c ports known predicted
      else add_hypotheses c ports ({[a]} ∪ known) (hypothesis c port :: predicted)
  end.

(** src/ice/ice_agent.cpp:719-757 [IceAgent::ProbePredictedRemoteCandidates] *)
Fixpoint predict_candidates (remote : list NiceCandidate) (known : gset text) (predictor : RemotePortPredictor)
    (predicted : list NiceCandidate) : list NiceCandidate * RemotePortPredictor :=
  match remote with
  | [] => (predicted, predictor)
  | c :: remote =>
      match prediction_group c with
      | None => predict_candidates remote known predictor predicted
      | Some group =>
          let '(ports, predictor) := Observe group (u16 (cand_port c)) predictor in
          let '(known, predicted) := add_hypotheses c ports known predicted in
          predict_candidates remote known predictor predicted
      end
  end.

(** ** Methods *)

Section methods.
Context {N L X : Type} {nice_agent : NiceAgent N} {openssl : Dtls N L X} {clock : WallClock N} {resolver : Resolver}.

Notation Agent := (IceAgent N L X).
Definition A (R : Type) : Type := M Agent R.

Definition set_life (f : AgentLife -> AgentLife) : A unit :=
  modify (fun s => mkAgent (config s) (f (life s)) (sdps s) (paths s) (dtls s) (trace s) (nice s)).
Definition set_sdps (f : AgentSdps -> AgentSdps) : A unit :=
  modify (fun s => mkAgent (config s) (life s) (f (sdps s)) (paths s) (dtls s) (trace s) (nice s)).
Definition set_paths (f : AgentPaths -> AgentPaths) : A unit :=
  modify (fun s => mkAgent (config s) (life s) (sdps s) (f (paths s)) (dtls s) (trace s) (nice s)).
Definition set_dtls (f : AgentDtls L X -> AgentDtls L X) : A unit :=
  modify (fun s => mkAgent (config s) (life s) (sdps s) (paths s) (f (dtls s)) (trace s) (nice s)).
Definition emit (e : Event) : A unit :=
  modify (fun s => mkAgent (config s) (life s) (sdps s) (paths s) (dtls s) (trace s ++ [e]) (nice s)).
Definition on_nice {R} (m : M N R) : A R := fun s =>
  '(r, n) ← m (nice s);
  Some (r, mkAgent (config s) (life s) (sdps s) (paths s) (dtls s) (trace s) n).
Definition call {R} (f : N -> R * N) : A R := on_nice (fun n => Some (f n)).

(** Members of the life of the agent. *)
Definition with_send_disabled (b : bool) (l : AgentLife) : AgentLife :=
  mkLife (nice_thread_ l) (agent_ l) (gcontext_ l) (gloop_ l) (nice_inited_ l) (init_failed_ l) (init_status_ l)
    (stream_id_ l) (destroyed_ l) (agent_closed_ l) b.
Definition with_closed (stream_id : Z) (l : AgentLife) : AgentLife :=
  mkLife (nice_thread_ l) (agent_ l) (gcontext_ l) (gloop_ l) (nice_inited_ l) (init_failed_ l) (init_status_ l)
    stream_id (destroyed_ l) true (send_disabled_ l).
Definition with_destroyed (l : AgentLife) : AgentLife :=
  mkLife (nice_thread_ l) (agent_ l) (gcontext_ l) (gloop_ l) (nice_inited_ l) (init_failed_ l) (init_status_ l)
    (stream_id_ l) true (agent_closed_ l) (send_disabled_ l).
Definition with_stream (id : Z) (l : AgentLife) : AgentLife :=
  mkLife (nice_thread_ l) (agent_ l) (gcontext_ l) (gloop_ l) (nice_inited_ l) (init_failed_ l) (init_status_ l)
    id (destroyed_ l) (agent_closed_ l) (send_disabled_ l).
Definition with_init (inited failed : bool) (status : Z) (l : AgentLife) : AgentLife :=
  mkLife (nice_thread_ l) (agent_ l) (gcontext_ l) (gloop_ l) inited failed status
    (stream_id_ l) (destroyed_ l) (agent_closed_ l) (send_disabled_ l).
Definition with_pointers (thread agent context loop : bool) (l : AgentLife) : AgentLife :=
  mkLife thread agent context loop (nice_inited_ l) (init_failed_ l) (init_status_ l)
    (stream_id_ l) (destroyed_ l) (agent_closed_ l) (send_disabled_ l).

(** ... and of DTLS. *)
Definition with_srtp (b : bool) (d : AgentDtls L X) : AgentDtls L X :=
  mkDtls b (ssl_ d) (dtls_cert_ d) (dtls_fingerprint_ d) (dtls_started_ d) (dtls_handshake_done_ d) (remote_fingerprint_ d) (dtls_incoming_ d).
Definition with_ssl (l : option L) (d : AgentDtls L X) : AgentDtls L X :=
  mkDtls (enable_srtp_ d) l (dtls_cert_ d) (dtls_fingerprint_ d) (dtls_started_ d) (dtls_handshake_done_ d) (remote_fingerprint_ d) (dtls_incoming_ d).
Definition with_certificate (x : X) (fingerprint : text) (d : AgentDtls L X) : AgentDtls L X :=
  mkDtls (enable_srtp_ d) (ssl_ d) (Some x) fingerprint (dtls_started_ d) (dtls_handshake_done_ d) (remote_fingerprint_ d) (dtls_incoming_ d).
Definition with_handshake (started done : bool) (d : AgentDtls L X) : AgentDtls L X :=
  mkDtls (enable_srtp_ d) (ssl_ d) (dtls_cert_ d) (dtls_fingerprint_ d) started done (remote_fingerprint_ d) (dtls_incoming_ d).
Definition with_remote_fingerprint (f : text) (d : AgentDtls L X) : AgentDtls L X :=
  mkDtls (enable_srtp_ d) (ssl_ d) (dtls_cert_ d) (dtls_fingerprint_ d) (dtls_started_ d) (dtls_handshake_done_ d) f (dtls_incoming_ d).
Definition with_incoming (q : list (list Z)) (d : AgentDtls L X) : AgentDtls L X :=
  mkDtls (enable_srtp_ d) (ssl_ d) (dtls_cert_ d) (dtls_fingerprint_ d) (dtls_started_ d) (dtls_handshake_done_ d) (remote_fingerprint_ d) q.

(** Initialized, there, and not destroyed. *)
Definition active (l : AgentLife) : bool := nice_inited_ l && agent_ l && negb (destroyed_ l).

Definition has (property : string) : A bool := gets (fun s => has_property property (nice s)).

Definition set_property (s : Setting) : A unit := call (g_object_set s);; emit (Configured s).

(** *** Local descriptions *)

(** src/ice/ice_agent.cpp:484-542 [IceAgent::GenerateLocalSdp] *)
Definition GenerateLocalSdp : A text :=
  l ← gets life;
  if negb (active l) then mret [] else
  c ← gets config;
  video ← call nice_agent_generate_local_sdp;
  let replaced (replacement : string) := replace_all (length video) (lit "video") (lit replacement) video in
  let audio := if has_audio_stream_ c then replaced "audio"%string else video in
  let data := if has_data_stream_ c then replaced "data"%string else video in
  upgrade ← has "relay-upgrade-timeout";
  servers ← has "stun-servers";
  let extensions := if negb (use_reliable_ice_ c) && negb (IsTurnForced (turn_mode_ c)) && upgrade
                    then kRelayUpgradeAttribute ++ [carriage_return; newline] ++
                         (if (servers : bool) then kP2pEnhancementAttribute ++ [carriage_return; newline] else [])
                    else [] in
  let local := video ++ (if has_audio_stream_ c then audio else []) ++ (if has_data_stream_ c then data else []) ++ extensions in
  set_sdps (fun _ => mkSdps video audio data local);;
  mret local.

(** src/ice/ice_agent.cpp:544-569 [IceAgent::GetLocalStreamSdp] *)
Definition GetLocalStreamSdp (stream_id : Z) : A text :=
  l ← gets life;
  if negb (active l) then mret [] else
  sdp ← call (nice_agent_generate_local_stream_sdp stream_id);
  match sdp with
  | None => mret []
  | Some sdp =>
      set_sdps (fun d => mkSdps (video_stream_sdp_ d) (audio_stream_sdp_ d) (data_stream_sdp_ d) sdp);;
      mret sdp
  end.

(** src/ice/ice_agent.cpp:1138-1140 [IceAgent::AppendFingerprintLine] *)
Definition AppendFingerprintLine (sdp : text) : A text :=
  d ← gets dtls;
  mret (sdp ++ lit "a=fingerprint:sha-256 " ++ dtls_fingerprint_ d ++ [carriage_return; newline]).

(** A digest that cannot be made is an exception. *)
(** src/ice/ice_agent.cpp:1142-1156 [IceAgent::ComputeFingerprint] *)
Definition ComputeFingerprint (cert : X) : option text :=
  md ← X509_digest cert;
  Some (hex_pairs md).

(** src/ice/ice_agent.cpp:1042-1136 [IceAgent::GenerateDtlsCertificate] *)
Definition GenerateDtlsCertificate : A unit :=
  x509 ← call make_certificate;
  match x509 with
  | None => mret tt
  | Some x509 =>
      fingerprint ← lift (ComputeFingerprint x509);
      set_dtls (with_certificate x509 fingerprint)
  end.

(** *** Remote descriptions *)

(** src/ice/ice_agent.cpp:1158-1186 [IceAgent::ExtractAndStripFingerprint] *)
Definition ExtractAndStripFingerprint (sdp : text) : A text :=
  d ← gets dtls;
  if negb (bool_decide (remote_fingerprint_ d = [])) then mret sdp else
  match split_fingerprint sdp with
  | None => set_dtls (with_srtp false);; mret sdp
  | Some (fingerprint, rest) =>
      (match fingerprint with Some f => set_dtls (with_remote_fingerprint f) | None => mret tt end);;
      mret rest
  end.

(** src/ice/ice_agent.cpp:694-773 [IceAgent::ProbePredictedRemoteCandidates] *)
Definition ProbePredictedRemoteCandidates : A unit :=
  l ← gets life;
  p ← gets paths;
  if negb (agent_ l) || destroyed_ l || negb (p2p_enhancement_enabled_ p) then mret tt else
  selected ← gets (fun s => nice_agent_get_selected_pair (stream_id_ l) (nice s));
  if match selected with
     | Some (a, b) => negb (bool_decide (a = RELAYED)) && negb (bool_decide (b = RELAYED))
     | None => false end then mret tt else
  remote ← gets (fun s => nice_agent_get_remote_candidates (stream_id_ l) (nice s));
  let '(predicted, predictor) := predict_candidates remote (known_addresses remote) (port_predictor_ p) [] in
  set_paths (fun p => mkPaths (p2p_enhancement_enabled_ p) (nat_samples_ p) predictor);;
  match predicted with
  | [] => mret tt
  | _ => call (nice_agent_set_remote_candidates (stream_id_ l) 1 predicted);; emit (Probed predicted)
  end.

(** src/ice/ice_agent.cpp:571-615 [IceAgent::SetRemoteSdp] *)
Definition SetRemoteSdp (remote_sdp : text) : A Z :=
  l ← gets life;
  if negb (active l) then mret (-1) else
  sdp_no_fingerprint ← ExtractAndStripFingerprint remote_sdp;
  has_upgrade_extension ← has "relay-upgrade-timeout";
  has_servers ← has "stun-servers";
  c ← gets config;
  let upgrade := has_upgrade_extension && negb (use_reliable_ice_ c) && SupportsRelayUpgrade remote_sdp &&
                 negb (IsTurnForced (turn_mode_ c)) in
  set_paths (fun p => mkPaths (upgrade && SupportsP2pEnhancement remote_sdp && has_servers) (nat_samples_ p) (port_predictor_ p));;
  (if (has_upgrade_extension : bool) then set_property (relay_upgrade_timeout (if upgrade then 30000 else 0)) else mret tt);;
  ret ← call (nice_agent_parse_remote_sdp sdp_no_fingerprint);
  if 0 <=? ret then ProbePredictedRemoteCandidates;; mret 0 else mret (-1).

(** src/ice/ice_agent.cpp:617-659 [IceAgent::AddRemoteCandidate] *)
Definition AddRemoteCandidate (candidate_sdp : text) : A Z :=
  l ← gets life;
  if negb (active l) || (stream_id_ l =? 0) then mret (-1) else
  candidate ← call (nice_agent_parse_remote_candidate_sdp (stream_id_ l) candidate_sdp);
  match candidate with
  | None => mret (-1)
  | Some candidate =>
      if negb (cand_component candidate =? 1) then mret (-1) else
      added ← call (nice_agent_set_remote_candidates (stream_id_ l) (cand_component candidate) [candidate]);
      if added <=? 0 then mret (-1) else ProbePredictedRemoteCandidates;; mret 0
  end.

(** A sample of a STUN server, under the base address that it was taken from. *)
(** src/ice/ice_agent.cpp:661-692 [IceAgent::OnStunMappingStatic] *)
Definition OnStunMapping {sorts : StdSort} (stream component : Z) (base : text) (base_port : Z) (sample : NatMappingSample)
    : A (option NatMappingAnalysis) :=
  l ← gets life;
  if destroyed_ l then mret None else
  let key := to_string stream ++ lit "/" ++ to_string component ++ lit "/" ++ base ++ lit ":" ++ to_string base_port in
  p ← gets paths;
  if bool_decide (text_find key (nat_samples_ p) = None) && (64 <=? zlen (nat_samples_ p)) then mret None else
  let samples := default [] (text_find key (nat_samples_ p)) in
  let store samples := set_paths (fun p => mkPaths (p2p_enhancement_enabled_ p) (text_assign key samples (nat_samples_ p)) (port_predictor_ p)) in
  if 32 <=? zlen samples then store samples;; mret None else
  store (samples ++ [sample]);;
  mret (Some (AnalyzeNatMappings (samples ++ [sample]))).

(** src/ice/ice_agent.cpp:775-788 [IceAgent::SetRemoteCandidateGatheringDone] *)
Definition SetRemoteCandidateGatheringDone : A Z :=
  l ← gets life;
  if negb (active l) || (stream_id_ l =? 0) then mret (-1) else
  accepted ← call (nice_agent_peer_candidate_gathering_done (stream_id_ l));
  mret (if (accepted : bool) then 0 else -1).

(** src/ice/ice_agent.cpp:790-812 [IceAgent::GatherCandidates] *)
Definition GatherCandidates : A Z :=
  l ← gets life;
  if negb (active l) then mret (-1) else
  started ← call (nice_agent_gather_candidates (stream_id_ l));
  mret (if (started : bool) then 0 else -1).

(** src/ice/ice_agent.h:33-44 [ICE_STATE] *)
Inductive ICE_STATE :=
  | ICE_STATE_DISCONNECTED | ICE_STATE_GATHERING | ICE_STATE_CONNECTING | ICE_STATE_CONNECTED | ICE_STATE_READY
  | ICE_STATE_FAILED | ICE_STATE_NOT_INITIALIZED | ICE_STATE_DESTROYED | ICE_STATE_NULLPTR | ICE_STATE_LAST.

(** The conversion keeps the number. *)
(** src/ice/ice_agent.cpp:827-827 [IceAgent::GetIceState] *)
Definition ice_state (s : NiceComponentState) : ICE_STATE :=
  match s with
  | DISCONNECTED => ICE_STATE_DISCONNECTED | GATHERING => ICE_STATE_GATHERING | CONNECTING => ICE_STATE_CONNECTING
  | CONNECTED => ICE_STATE_CONNECTED | READY => ICE_STATE_READY | FAILED => ICE_STATE_FAILED | LAST => ICE_STATE_NOT_INITIALIZED
  end.

(** [state_] is only written. *)
(** src/ice/ice_agent.cpp:814-829 [IceAgent::GetIceState] *)
Definition GetIceState : A ICE_STATE :=
  l ← gets life;
  if send_disabled_ l then mret ICE_STATE_DESTROYED else
  if negb (nice_inited_ l) then mret ICE_STATE_NOT_INITIALIZED else
  if negb (agent_ l) then mret ICE_STATE_NULLPTR else
  if destroyed_ l then mret ICE_STATE_DESTROYED else
  gets (fun s => ice_state (nice_agent_get_component_state (stream_id_ l) (nice s))).

(** *** Packets *)

(** src/ice/ice_agent.cpp:831-869 [IceAgent::Send] *)
Definition Send (data : list Z) : A Z :=
  l ← gets life;
  if (zlen data =? 0) || (4294967295 <? zlen data) || send_disabled_ l then mret (-1) else
  if negb (nice_inited_ l) then mret (-1) else
  if negb (agent_ l) then mret (-1) else
  if destroyed_ l then mret (-1) else
  if agent_closed_ l then mret (-1) else
  ret ← call (nice_agent_send (stream_id_ l) data);
  emit (Sent data);;
  mret (if ret =? s32 (zlen data) then 0 else -1).

(** src/ice/ice_agent.cpp:871-871 [IceAgent::StopSending] *)
Definition StopSending : A unit := set_life (with_send_disabled true).

(** src/ice/ice_agent.cpp:873-891 [IceAgent::CleanupDtls] *)
Definition CleanupDtls : A unit :=
  set_dtls (fun d => with_incoming [] (with_handshake false false (with_ssl None d))).

(** src/ice/ice_agent.cpp:914-920 [IceAgent::bio_nice_write] *)
Definition bio_nice_write (buf : list Z) : A Z :=
  if zlen buf <=? 0 then mret (-1) else
  r ← Send buf;
  mret (if r =? 0 then zlen buf else -1).

(** Without a packet OpenSSL is told to try again; what does not fit is lost. *)
(** src/ice/ice_agent.cpp:922-937 [IceAgent::bio_nice_read] *)
Definition bio_nice_read (len : Z) : A (option (list Z)) :=
  if len <=? 0 then mret None else
  d ← gets dtls;
  match dtls_incoming_ d with
  | [] => mret None
  | pkt :: rest =>
      set_dtls (with_incoming rest);;
      mret (Some (take (Z.to_nat len) pkt))
  end.

(** The handshake with the BIO of the agent. *)
Fixpoint run_handshake (h : Handshake L) : A Z :=
  match h with
  | Finished ret ssl => set_dtls (with_ssl (Some ssl));; mret ret
  | BioRead len k => answer ← bio_nice_read len; run_handshake (k answer)
  | BioWrite buf k => answer ← bio_nice_write buf; run_handshake (k answer)
  end.

Definition do_handshake : A Z :=
  d ← gets dtls;
  ssl ← lift (ssl_ d);
  run_handshake (SSL_do_handshake ssl).

(** src/ice/ice_agent.cpp:1021-1039 [IceAgent::StartDtls] *)
Definition first_flight : A Z :=
  ret ← do_handshake;
  if ret =? 1 then set_dtls (with_handshake true true);; mret 0 else
  d ← gets dtls;
  ssl ← lift (ssl_ d);
  mret (if ssl_wants_more ssl ret then 0 else -1).

(** src/ice/ice_agent.cpp:964-1040 [IceAgent::StartDtls] *)
Definition StartDtls (is_client : bool) : A Z :=
  d ← gets dtls;
  if dtls_started_ d || negb (enable_srtp_ d) then mret 0 else
  context ← call ssl_context;
  if negb context then mret (-1) else
  match dtls_cert_ d with
  | None => mret (-1)
  | Some cert =>
      ssl ← call (ssl_new cert is_client);
      match ssl with
      | None => mret (-1)
      | Some ssl =>
          set_dtls (with_ssl (Some ssl));;
          set_dtls (fun d => with_handshake true (dtls_handshake_done_ d) d);;
          first_flight
      end
  end.

(** The certificate of the other peer is the one of its SDP. *)
(** src/ice/ice_agent.cpp:1232-1247 [IceAgent::OnNiceRecv] *)
Definition verify_peer (ssl : L) (expected : text) : option bool :=
  match SSL_get_peer_certificate ssl with
  | Some peer => fp ← ComputeFingerprint peer; Some (bool_decide (fp = expected))
  | None => Some false
  end.

(** src/ice/ice_agent.cpp:1205-1253 [IceAgent::OnNiceRecv] *)
Definition on_dtls_record (buffer : list Z) : A unit :=
  set_dtls (fun d => with_incoming (dtls_incoming_ d ++ [buffer]) d);;
  ret ← do_handshake;
  if ret <=? 0 then mret tt else
  d ← gets dtls;
  ssl ← lift (ssl_ d);
  if SSL_is_init_finished ssl && negb (dtls_handshake_done_ d) then
    set_dtls (fun d => with_handshake (dtls_started_ d) true d);;
    verified ← lift (verify_peer ssl (remote_fingerprint_ d));
    if (verified : bool) then emit DtlsDone else mret tt
  else mret tt.

(** src/ice/ice_agent.cpp:1196-1268 [IceAgent::OnNiceRecv] *)
Definition OnNiceRecv (buffer : list Z) : A unit :=
  let looks_dtls := IsDtlsRecord buffer in
  d ← gets dtls;
  if enable_srtp_ d && looks_dtls then
    if dtls_started_ d then on_dtls_record buffer else mret tt
  else if negb (enable_srtp_ d) && looks_dtls then mret tt
  else emit (Received buffer).

(** src/ice/ice_agent.cpp:1280-1297 [IceAgent::OnNiceStateChanged] *)
Definition OnNiceStateChanged (stream_id component_id : Z) (state : NiceComponentState) : A unit :=
  l ← gets life;
  if negb (stream_id =? stream_id_ l) || negb (component_id =? 1) then mret tt else
  (match state with
   | READY =>
       d ← gets dtls;
       c ← gets config;
       if negb (dtls_started_ d) && negb (bool_decide (remote_fingerprint_ d = [])) && enable_srtp_ d
       then StartDtls (controlling_ c);; mret tt else mret tt
   | _ => mret tt
   end);;
  emit (StateChanged state).

(** *** Keys *)

(** src/ice/ice_agent.cpp:1315-1326 [IceAgent::ExportSrtpKeys] *)
Definition key_lengths (profile : text) : Z * Z :=
  if bool_decide (profile = lit "SRTP_AEAD_AES_128_GCM") then (16, 12)
  else if bool_decide (profile = lit "SRTP_AES128_CM_SHA1_80") || bool_decide (profile = lit "SRTP_AES128_CM_SHA1_32")
  then (16, 14) else (16, 14).

(** The local key and salt, and the remote ones. *)
(** src/ice/ice_agent.cpp:1339-1352 [IceAgent::ExportSrtpKeys] *)
Definition cut_material (material : list Z) (key_len salt_len : Z) (local_is_client_sender : bool)
    : list Z * list Z * list Z * list Z :=
  let part from len := take (Z.to_nat len) (drop (Z.to_nat from) material) in
  let block := key_len + salt_len in
  let client_key := part 0 key_len in
  let client_salt := part key_len salt_len in
  let server_key := part block key_len in
  let server_salt := part (block + key_len) salt_len in
  if local_is_client_sender then (client_key, client_salt, server_key, server_salt)
  else (server_key, server_salt, client_key, client_salt).

(** src/ice/ice_agent.cpp:1299-1355 [IceAgent::ExportSrtpKeys] *)
Definition ExportSrtpKeys (local_is_client_sender : bool) (d : AgentDtls L X) : option (list Z * list Z * list Z * list Z) :=
  if negb (dtls_handshake_done_ d) then None else
  ssl ← ssl_ d;
  profile ← SSL_get_selected_srtp_profile ssl;
  let '(key_len, salt_len) := key_lengths profile in
  let block := key_len + salt_len in
  material ← SSL_export_keying_material ssl "EXTRACTOR-dtls_srtp" (2 * block);
  Some (cut_material material key_len salt_len local_is_client_sender).
(** *** Beginning and end *)

(** The STUN servers, unless the path is to be relayed: all of them when libnice
    can, or the first. *)
(** src/ice/ice_agent.cpp:239-264 [IceAgent::CreateIceAgent] *)
Definition configure_stun (c : AgentConfig) : A unit :=
  let stun_endpoints := List.filter (fun server => negb (ep_turn server)) (conf_servers (ice_config_ c)) in
  if bool_decide (length stun_endpoints = 0%nat) || IsTurnForced (turn_mode_ c) then mret tt else
  several ← has "stun-servers";
  if (several : bool) then
    set_property (stun_servers (fold_left (fun endpoints e =>
      endpoints ++ (if bool_decide (endpoints = []) then [] else lit ",") ++ StunEndpoint_ToString (ep_host e) (ep_port e)) stun_endpoints []))
  else match stun_endpoints with
       | e :: _ => set_property (stun_server (ep_host e) (ep_port e))
       | [] => mret tt
       end.

(** src/ice/ice_agent.cpp:20-35 [AddTurnRelay] *)
Definition AddTurnRelay (stream : Z) (server : IceServerEndpoint) : A bool :=
  accepted ← call (nice_agent_set_relay_info stream (ep_host server) (ep_port server) (ep_username server)
                     (ep_password server) (ep_tcp server));
  (if (accepted : bool) then emit (RelayRegistered server) else mret tt);;
  mret accepted.

(** src/ice/ice_agent.cpp:303-311 [IceAgent::CreateIceAgent] *)
Fixpoint add_relays (stream : Z) (servers : list IceServerEndpoint) (registered : bool) : A bool :=
  match servers with
  | [] => mret registered
  | server :: servers =>
      accepted ← AddTurnRelay stream server;
      add_relays stream servers (registered || accepted)
  end.

(** The relays; without any, or when the configuration is over, creation goes
    on only when the path need not be relayed and the configuration lasts. *)
(** src/ice/ice_agent.cpp:302-332 [IceAgent::CreateIceAgent] *)
Definition register_relays (c : AgentConfig) (stream : Z) : A bool :=
  if negb (IsTurnEnabled (turn_mode_ c)) then mret true else
  servers ← on_nice (ResolveTurnServerEndpoints (ice_config_ c) (turn_mode_ c));
  registered ← add_relays stream servers false;
  fresh ← (if (registered : bool) then on_nice (fresh_now (ice_config_ c)) else mret false);
  if (registered : bool) && (fresh : bool) then mret true else
  if IsTurnForced (turn_mode_ c) then mret false else
  on_nice (fresh_now (ice_config_ c)).

(** What fails leaves no agent and no loop. *)
Definition abandon : A bool :=
  set_life (fun l => with_init false true (-1) (with_pointers (nice_thread_ l) false false false l));;
  mret false.

(** The thread up to its loop, once there is an agent. *)
(** src/ice/ice_agent.cpp:234-344 [IceAgent::CreateIceAgent] *)
Definition prepare_agent (c : AgentConfig) : A bool :=
  configure_stun c;;
  set_property (controlling_mode (controlling_ c));;
  set_property (upnp (negb (IsTurnForced (turn_mode_ c))) 3000);;
  stream ← call (nice_agent_add_stream (n_components_ c));
  set_life (with_stream stream);;
  if stream =? 0 then abandon else
  (if has_video_stream_ c then call (nice_agent_set_stream_name "video") else mret tt);;
  relayed ← register_relays c stream;
  if negb relayed then abandon else
  (if IsTurnForced (turn_mode_ c) then set_property force_relay else mret tt);;
  set_life (with_init true false 0);;
  mret true.

(** src/ice/ice_agent.cpp:162-232 [IceAgent::CreateIceAgent] *)
Definition start_thread (c : AgentConfig) : A bool :=
  context ← call g_main_context_new;
  if negb context then abandon else
  loop ← call g_main_loop_new;
  if negb loop then abandon else
  agent ← call (nice_agent_new_full (use_trickle_ice_ c) (use_reliable_ice_ c));
  if negb agent then abandon else
  set_life (with_pointers true true true true);;
  prepare_agent c.

(** src/ice/ice_agent.cpp:113-385 [IceAgent::CreateIceAgent] *)
Definition CreateIceAgent : A Z :=
  c ← gets config;
  fresh ← on_nice (fresh_now (ice_config_ c));
  if negb fresh then mret (-1) else
  l ← gets life;
  if nice_thread_ l || nice_inited_ l then mret (-1) else
  set_life (fun _ => mkLife true false false false false false (-1) 0 false false false);;
  set_paths (fun _ => mkPaths false [] new_predictor);;
  started ← start_thread c;
  if negb started then
    set_life (fun l => with_pointers false (agent_ l) (gcontext_ l) (gloop_ l) l);;
    mret (-1)
  else GenerateDtlsCertificate;; mret 0.

(** The stream is removed when libnice has let go of it. *)
(** src/ice/ice_agent.cpp:387-425 [IceAgent::CloseNiceAgentStatic] *)
Definition CloseNiceAgent : A unit :=
  l ← gets life;
  (if nice_inited_ l && agent_ l && negb (stream_id_ l =? 0) then call (nice_agent_remove_stream (stream_id_ l)) else mret tt);;
  set_life (fun l => with_closed (if nice_inited_ l && agent_ l then 0 else stream_id_ l) l).

(** src/ice/ice_agent.cpp:427-482 [IceAgent::DestroyIceAgent] *)
Definition DestroyIceAgent : A Z :=
  StopSending;;
  l ← gets life;
  if destroyed_ l then mret 0 else
  set_life with_destroyed;;
  (if gcontext_ l && gloop_ l && nice_thread_ l then CloseNiceAgent else mret tt);;
  set_life (fun l => with_stream 0 (with_init false false (-1) (with_pointers false false false false l)));;
  CleanupDtls;;
  mret 0.

End methods.

(** ** A world in which everything works *)

Module Bench.

(** The clock stands still; libnice takes everything, and has two real mappings
    of the other peer. *)
#[export] Instance still : WallClock Z := fun n => (n, n).

#[export] Instance obliging : NiceAgent Z := {|
  g_main_context_new n := (true, n);
  g_main_loop_new n := (true, n);
  nice_agent_new_full _ _ n := (true, n);
  has_property _ _ := true;
  g_object_set _ n := (tt, n);
  nice_agent_add_stream _ n := (1, n);
  nice_agent_set_stream_name _ n := (tt, n);
  nice_agent_set_relay_info _ _ _ _ _ _ n := (true, n);
  nice_agent_remove_stream _ n := (tt, n);
  nice_agent_generate_local_sdp n := (lit "m=video 9 ICE/SDP" ++ [newline], n);
  nice_agent_generate_local_stream_sdp _ n := (Some [], n);
  nice_agent_parse_remote_sdp _ n := (0, n);
  nice_agent_parse_remote_candidate_sdp _ _ n := (None, n);
  nice_agent_set_remote_candidates _ _ l n := (zlen l, n);
  nice_agent_get_remote_candidates _ _ := [];
  nice_agent_get_selected_pair _ _ := None;
  nice_agent_peer_candidate_gathering_done _ n := (true, n);
  nice_agent_gather_candidates _ n := (true, n);
  nice_agent_get_component_state _ _ := CONNECTED;
  nice_agent_send _ data n := (zlen data, n);
|}.

(** A handshake of one flight each way; the digest of a certificate is its start. *)
#[export] Instance one_flight : Dtls Z bool (list Z) := {|
  make_certificate n := (Some [7], n);
  X509_digest x := Some (take 32 (x ++ replicate 32 0));
  ssl_context n := (true, n);
  ssl_new _ _ n := (Some false, n);
  SSL_do_handshake _ := BioWrite [22; 254; 253] (fun _ => BioRead 1500 (fun answer =>
    match answer with Some _ => Finished 1 true | None => Finished (-1) false end));
  ssl_wants_more _ _ := true;
  SSL_is_init_finished done := done;
  SSL_get_peer_certificate _ := Some [1; 171];
  SSL_get_selected_srtp_profile _ := Some (lit "SRTP_AEAD_AES_128_GCM");
  SSL_export_keying_material _ _ len := if len <? 0 then None else Some (map Z.of_nat (seq 0 (Z.to_nat len)));
|}.

#[export] Instance no_dns : Resolver := {| is_address _ := true; lookup_by_name _ := [] |}.

Definition servers : IceServerConfiguration := mkConfiguration (lit "c0ffee") 3000
  [mkEndpoint (lit "10.0.0.1") 3478 false false [] [] 0; mkEndpoint (lit "10.0.0.2") 3478 true false (lit "u") (lit "p") 2000;
   mkEndpoint (lit "10.0.0.3") 443 true true (lit "u") (lit "p") 2000].

Definition agent_config (mode : TurnMode) : AgentConfig := mkConfig true false mode servers true true true true 1.

Definition fresh_agent (mode : TurnMode) : IceAgent Z bool (list Z) := new_agent (agent_config mode) true 1000.

Definition remote_sdp : text := unlines [lit "m=video 9 x"; lit "a=fingerprint:sha-256 01:AB" ++ concat (replicate 30 (lit ":00"))].
Definition dtls_packet : list Z := [22; 254; 253; 0; 0; 0; 0; 0; 0; 0; 0; 0; 0].

End Bench.

Import Bench.

(** The answer of the peer ends the handshake; without its fingerprint the
    same answer does not. *)
Definition handshake_trace (sdp : text) : option (list Event) :=
  '(_, s) ← (CreateIceAgent;; SetRemoteSdp sdp;; OnNiceStateChanged 1 1 READY;; OnNiceRecv dtls_packet) (fresh_agent TurnDisabled);
  Some (drop 4 (trace s)).

Example handshake_ends : handshake_trace remote_sdp =
  Some [Sent [22; 254; 253]; StateChanged READY; Sent [22; 254; 253]; DtlsDone].
Proof. vm_compute. reflexivity. Qed.

(** The line that [IceTransport::SetRemoteSdp] puts behind the fingerprint when
    both peers know the extension becomes a part of it, and the certificate is
    refused. *)
Example extension_spoils_fingerprint :
  handshake_trace (remote_sdp ++ kRelayUpgradeAttribute ++ [carriage_return; newline]) =
  Some [Sent [22; 254; 253]; StateChanged READY; Sent [22; 254; 253]].
Proof. vm_compute. reflexivity. Qed.
