(* ===== verification/IceAgentOk.v ===== *)
(** * What the ICE agent guarantees

    Whatever libnice, OpenSSL and the other peer do: the handshake counts as
    done only with the certificate that the other peer's SDP announced, no DTLS
    record is taken for media, nothing is sent after sending was stopped; a
    forced relay leaves no other kind of path. *)

From Stdlib Require Import Ascii String.
From stdpp Require Import gmap strings.
From S2P Require Import Prelude StateMonad StdContainers Text NatTraversal IceUtils IceServers IceAgent.

(** ** The calls *)

(** What the program and libnice call on an agent. *)
Inductive AgentCall :=
  | Create | Destroy | Stop
  | LocalSdp | LocalStreamSdp (stream : Z)
  | RemoteSdp (sdp : text) | RemoteCandidate (sdp : text) | RemoteDone | Gather | AskState
  | StunMapping (stream component : Z) (base : text) (base_port : Z) (sample : NatMappingSample)
  | SendPacket (data : list Z)
  | StartHandshake (is_client : bool)
  | Packet (buffer : list Z)
  | ComponentState (stream component : Z) (state : NiceComponentState).

(** A digest by SHA-256 has 32 bytes. *)
Class DtlsLaws (N L X : Type) {openssl : Dtls N L X} := {
  digest_size : forall (x : X) md, X509_digest x = Some md -> zlen md = 32;
}.

Section agent.
Context {N L X : Type} {nice_agent : NiceAgent N} {openssl : Dtls N L X} {laws : DtlsLaws N L X}
  {clock : WallClock N} {resolver : Resolver} {sorts : StdSort}.

Notation Agent := (IceAgent N L X).
Notation Method := (M Agent).

Definition forget {R} (m : Method R) : Method unit := m;; mret tt.

Definition perform (c : AgentCall) : Method unit :=
  match c with
  | Create => forget CreateIceAgent
  | Destroy => forget DestroyIceAgent
  | Stop => StopSending
  | LocalSdp => forget GenerateLocalSdp
  | LocalStreamSdp stream => forget (GetLocalStreamSdp stream)
  | RemoteSdp sdp => forget (SetRemoteSdp sdp)
  | RemoteCandidate sdp => forget (AddRemoteCandidate sdp)
  | RemoteDone => forget SetRemoteCandidateGatheringDone
  | Gather => forget GatherCandidates
  | AskState => forget GetIceState
  | StunMapping stream component base base_port sample => forget (OnStunMapping stream component base base_port sample)
  | SendPacket data => forget (Send data)
  | StartHandshake is_client => forget (StartDtls is_client)
  | Packet buffer => OnNiceRecv buffer
  | ComponentState stream component state => OnNiceStateChanged stream component state
  end.

(** OpenSSL does not make the digest of some certificate. *)
Definition no_digest : Prop := exists x : X, X509_digest x = None.

(** A method ends, with such a result and state, or with an exception when
    [Exn] holds. *)
Section methods.
Context {Exn : Prop}.

Definition runs {T R} (m : M T R) (s : T) (Q : R -> T -> Prop) : Prop :=
  match m s with Some (r, s') => Q r s' | None => Exn end.

Lemma runs_wp {T R} (m : M T R) s Q : wp m s Q -> runs m s Q.
Proof. intros (r & s' & E & H). unfold runs. by rewrite E. Qed.

Lemma runs_bind {T R R'} (m : M T R) (f : R -> M T R') s Q : runs m s (fun r s' => runs (f r) s' Q) -> runs (m ≫= f) s Q.
Proof. unfold runs, mbind, M_bind. by destruct (m s) as [[r s']|]. Qed.

Lemma runs_mono {T R} (m : M T R) s (P Q : R -> T -> Prop) : runs m s P -> (forall r s', P r s' -> Q r s') -> runs m s Q.
Proof. unfold runs. destruct (m s) as [[r s']|]; auto. Qed.

Lemma runs_ret {T R} (r : R) (s : T) (Q : R -> T -> Prop) : Q r s -> runs (mret r) s Q.
Proof. done. Qed.
Lemma runs_gets {T R} (f : T -> R) (s : T) (Q : R -> T -> Prop) : Q (f s) s -> runs (gets f) s Q.
Proof. done. Qed.
Lemma runs_modify {T} f (s : T) (Q : unit -> T -> Prop) : Q tt (f s) -> runs (modify f) s Q.
Proof. done. Qed.
Lemma runs_lift {T R} (o : option R) r (s : T) (Q : R -> T -> Prop) : o = Some r -> Q r s -> runs (lift o) s Q.
Proof. by intros ->. Qed.

(** ** What all methods keep *)

Definition calm (disabled : bool) (e : Event) : Prop :=
  match e with
  | DtlsDone | Received _ => False
  | Sent _ => disabled = false
  | _ => True
  end.

(** A change that is not a handshake that is done. *)
Record quiet (s s' : Agent) : Prop := {
  quiet_trace : exists new, trace s' = trace s ++ new /\ Forall (calm (send_disabled_ (life s))) new;
  quiet_disabled : send_disabled_ (life s) = true -> send_disabled_ (life s') = true;
  quiet_done : dtls_handshake_done_ (dtls s) = true -> dtls_handshake_done_ (dtls s') = true;
  quiet_fingerprint : remote_fingerprint_ (dtls s) <> [] -> remote_fingerprint_ (dtls s') = remote_fingerprint_ (dtls s);
  quiet_srtp : enable_srtp_ (dtls s) = false -> enable_srtp_ (dtls s') = false;
  quiet_kept : remote_fingerprint_ (dtls s) <> [] -> enable_srtp_ (dtls s') = enable_srtp_ (dtls s);
}.

(** A handshake runs only with a connection. *)
Definition inv (s : Agent) : Prop := dtls_started_ (dtls s) = true -> is_Some (ssl_ (dtls s)).

Lemma quiet_refl s : quiet s s.
Proof. split; try done. exists []. by rewrite app_nil_r. Qed.

Lemma quiet_trans s1 s2 s3 : quiet s1 s2 -> quiet s2 s3 -> quiet s1 s3.
Proof.
  intros [(n1 & E1 & F1) D1 O1 R1 S1 K1] [(n2 & E2 & F2) D2 O2 R2 S2 K2]. split; auto.
  - exists (n1 ++ n2). rewrite E2, E1, <- app_assoc. split; [done|]. apply list.Forall_app. split; [done|].
    eapply List.Forall_impl; [|exact F2]. intros e. unfold calm. destruct e; try done.
    destruct (send_disabled_ (life s1)); [|done]. by rewrite D1.
  - intros H. rewrite R2, R1; try done. by rewrite R1.
  - intros H. rewrite K2, K1; try done. by rewrite R1.
Qed.

(** A method that is quiet from a state. *)
Definition calmly {R} (m : Method R) (s : Agent) : Prop := runs m s (fun _ s' => quiet s s' /\ inv s').

Lemma calmly_ret {R} (r : R) s : inv s -> calmly (mret r) s.
Proof. intros H. apply runs_ret. split; [apply quiet_refl|done]. Qed.

Lemma calmly_bind {R R'} (m : Method R) (f : R -> Method R') s :
  calmly m s -> (forall r s', quiet s s' -> inv s' -> calmly (f r) s') -> calmly (m ≫= f) s.
Proof.
  intros Hm Hf. apply runs_bind. eapply runs_mono; [exact Hm|]. intros r s' [Hq Hi].
  eapply runs_mono; [by apply (Hf r s')|]. intros r' s'' [Hq' Hi']. split; [by eapply quiet_trans|done].
Qed.

Lemma calmly_gets {R R'} (g : Agent -> R) (f : R -> Method R') s : calmly (f (g s)) s -> calmly (gets g ≫= f) s.
Proof. intros H. apply runs_bind, runs_gets. exact H. Qed.

Lemma calmly_lift {R R'} (o : option R) (f : R -> Method R') s r : o = Some r -> calmly (f r) s -> calmly (lift o ≫= f) s.
Proof. intros -> H. apply runs_bind, (runs_lift _ r); [done|exact H]. Qed.

(** A change of the state that keeps what counts. *)
Lemma calmly_modify (f : Agent -> Agent) s : quiet s (f s) -> inv (f s) -> calmly (modify f) s.
Proof. intros Hq Hi. by apply runs_modify. Qed.

Lemma calmly_paths f s : inv s -> calmly (set_paths f) s.
Proof. intros H. apply calmly_modify; [|exact H]. split; try done. exists []. by rewrite app_nil_r. Qed.
Lemma calmly_sdps f s : inv s -> calmly (set_sdps f) s.
Proof. intros H. apply calmly_modify; [|exact H]. split; try done. exists []. by rewrite app_nil_r. Qed.
Lemma calmly_life f s : inv s -> (send_disabled_ (life s) = true -> send_disabled_ (f (life s)) = true) ->
  calmly (set_life f) s.
Proof. intros H Hd. apply calmly_modify; [|exact H]. split; try done. exists []. by rewrite app_nil_r. Qed.
Lemma calmly_emit e s : inv s -> calm (send_disabled_ (life s)) e -> calmly (emit e) s.
Proof. intros H He. apply calmly_modify; [|exact H]. split; try done. exists [e]. split; [done|]. by constructor. Qed.

Lemma calmly_on_nice {R} (m : M N R) s : inv s -> is_Some (m (nice s)) -> calmly (on_nice m) s.
Proof.
  intros H [[r n] E]. unfold calmly, runs, on_nice. rewrite E. split; [|exact H].
  split; try done. exists []. by rewrite app_nil_r.
Qed.
Lemma calmly_call {R} (f : N -> R * N) s : inv s -> calmly (call f) s.
Proof. intros H. apply calmly_on_nice; [done|]. by eexists. Qed.

(** Changes of the members of DTLS. *)
Definition tame (d d' : AgentDtls L X) : Prop :=
  (dtls_handshake_done_ d = true -> dtls_handshake_done_ d' = true) /\
  (remote_fingerprint_ d <> [] -> remote_fingerprint_ d' = remote_fingerprint_ d) /\
  (enable_srtp_ d = false -> enable_srtp_ d' = false) /\ (remote_fingerprint_ d <> [] -> enable_srtp_ d' = enable_srtp_ d).
Lemma calmly_dtls f s : tame (dtls s) (f (dtls s)) ->
  (dtls_started_ (f (dtls s)) = true -> is_Some (ssl_ (f (dtls s)))) ->
  calmly (set_dtls f) s.
Proof. intros (H1 & H2 & H3 & H4) Hi. apply calmly_modify; [|exact Hi]. split; try done. exists []. by rewrite app_nil_r. Qed.

(** ** The methods one by one *)

Ltac calm_step :=
  lazymatch goal with
  | |- calmly (let _ := _ in _) _ => cbv zeta
  | |- calmly (if ?b then _ else _) _ => destruct b eqn:?
  | |- calmly (match ?o with _ => _ end) _ => destruct o eqn:?
  | |- calmly (mret _) _ => apply calmly_ret
  | |- calmly (gets _ ≫= _) _ => apply calmly_gets; cbn beta
  | |- calmly (_ ≫= _) _ => apply calmly_bind; [|intros ? ? ? ?; cbn beta]
  | |- calmly (call _) _ => apply calmly_call
  | |- calmly (set_paths _) _ => apply calmly_paths
  | |- calmly (set_sdps _) _ => apply calmly_sdps
  | |- calmly (emit _) _ => apply calmly_emit; [|done]
  | |- inv _ => assumption
  end.
Ltac calm := repeat calm_step.

Lemma calmly_gets' {R} (g : Agent -> R) s : inv s -> calmly (gets g) s.
Proof. intros H. apply runs_gets. split; [apply quiet_refl|done]. Qed.

Lemma set_property_calm p s : inv s -> calmly (set_property p) s.
Proof. intros H. unfold set_property. calm. Qed.

Lemma ProbePredictedRemoteCandidates_calm s : inv s -> calmly ProbePredictedRemoteCandidates s.
Proof. intros H. unfold ProbePredictedRemoteCandidates. calm. Qed.

Lemma GenerateLocalSdp_calm s : inv s -> calmly GenerateLocalSdp s.
Proof. intros H. unfold GenerateLocalSdp, has. calm. Qed.

Lemma GetLocalStreamSdp_calm stream s : inv s -> calmly (GetLocalStreamSdp stream) s.
Proof. intros H. unfold GetLocalStreamSdp. calm. Qed.

Lemma AddRemoteCandidate_calm sdp s : inv s -> calmly (AddRemoteCandidate sdp) s.
Proof. intros H. unfold AddRemoteCandidate. calm. by apply ProbePredictedRemoteCandidates_calm. Qed.

Lemma SetRemoteCandidateGatheringDone_calm s : inv s -> calmly SetRemoteCandidateGatheringDone s.
Proof. intros H. unfold SetRemoteCandidateGatheringDone. calm. Qed.

Lemma GatherCandidates_calm s : inv s -> calmly GatherCandidates s.
Proof. intros H. unfold GatherCandidates. calm. Qed.

Lemma GetIceState_calm s : inv s -> calmly GetIceState s.
Proof. intros H. unfold GetIceState. calm. by apply calmly_gets'. Qed.

Lemma OnStunMapping_calm stream component base base_port sample s :
  inv s -> calmly (OnStunMapping stream component base base_port sample) s.
Proof. intros H. unfold OnStunMapping. calm. Qed.

(** The fingerprint is taken once. *)
Lemma ExtractAndStripFingerprint_calm sdp s : inv s -> calmly (ExtractAndStripFingerprint sdp) s.
Proof.
  intros H. unfold ExtractAndStripFingerprint. calm_step. case_bool_decide as Er; cbn [negb]; [|by calm_step; calm_step].
  destruct (split_fingerprint sdp) as [[fingerprint rest]|]; (apply calmly_bind; [|intros ? ? ? ?; by apply calmly_ret]).
  - destruct fingerprint as [f|]; [|by apply calmly_ret].
    apply calmly_dtls; [by split_and!|exact H].
  - apply calmly_dtls; [by split_and!|exact H].
Qed.

Lemma SetRemoteSdp_calm sdp s : inv s -> calmly (SetRemoteSdp sdp) s.
Proof.
  intros H. unfold SetRemoteSdp, has. calm_step. calm_step; [by apply calmly_ret|].
  apply calmly_bind; [by apply ExtractAndStripFingerprint_calm|]. intros rest s1 _ H1. cbn beta.
  calm; try (by apply set_property_calm); by apply ProbePredictedRemoteCandidates_calm.
Qed.

Lemma Send_calm data s : inv s -> calmly (Send data) s.
Proof.
  intros H. unfold Send. calm_step. destruct ((zlen data =? 0) || _ || _) eqn:E; [by apply calmly_ret|].
  apply orb_false_elim in E as [_ Ed]. do 4 (calm_step; [by apply calmly_ret|]).
  apply runs_bind. unfold call, on_nice, runs at 1. cbn. destruct (nice_agent_send _ _ _) as [ret n]. cbn.
  apply runs_bind, runs_modify. apply runs_ret. split; [|exact H].
  split; try done. exists [Sent data]. split; [done|]. by repeat constructor.
Qed.

Lemma StopSending_calm s : inv s -> calmly StopSending s.
Proof. intros H. by apply calmly_life. Qed.

(** ** The handshake *)

Lemma bio_nice_read_calm len s : inv s -> calmly (bio_nice_read len) s.
Proof.
  intros H. unfold bio_nice_read. calm_step; [by apply calmly_ret|]. calm_step. calm_step; [by apply calmly_ret|].
  apply calmly_bind; [|intros ? ? ? ?; by apply calmly_ret]. by apply calmly_dtls.
Qed.

Lemma bio_nice_write_calm buf s : inv s -> calmly (bio_nice_write buf) s.
Proof.
  intros H. unfold bio_nice_write. calm_step; [by apply calmly_ret|].
  apply calmly_bind; [by apply Send_calm|]. intros ? ? ? ?. by apply calmly_ret.
Qed.

(** A call of libnice or OpenSSL changes their part of the state. *)
Definition with_nice (n : N) (s : Agent) : Agent := mkAgent (config s) (life s) (sdps s) (paths s) (dtls s) (trace s) n.

Lemma runs_call {R} (f : N -> R * N) s (Q : R -> Agent -> Prop) :
  Q (f (nice s)).1 (with_nice (f (nice s)).2 s) -> runs (call f) s Q.
Proof. unfold runs, call, on_nice. by destruct (f (nice s)). Qed.

(** What a handshake leaves alone. *)
Definition same_peer (s s' : Agent) : Prop :=
  remote_fingerprint_ (dtls s') = remote_fingerprint_ (dtls s) /\ enable_srtp_ (dtls s') = enable_srtp_ (dtls s) /\
  dtls_handshake_done_ (dtls s') = dtls_handshake_done_ (dtls s).

Lemma runs_both {T R} (m : M T R) s (P Q : R -> T -> Prop) : runs m s P -> runs m s Q -> runs m s (fun r s' => P r s' /\ Q r s').
Proof. unfold runs. by destruct (m s) as [[r s']|]. Qed.

Lemma bio_nice_read_same len s : runs (bio_nice_read len) s (fun _ s' => same_peer s s').
Proof.
  unfold bio_nice_read. destruct (_ : bool); [done|]. apply runs_bind, runs_gets.
  destruct (dtls_incoming_ (dtls s)); [done|]. by apply runs_bind, runs_modify, runs_ret.
Qed.

Lemma Send_same data s : runs (Send data) s (fun _ s' => same_peer s s').
Proof.
  unfold Send. apply runs_bind, runs_gets. destruct (_ || _); [done|]. repeat case_match; try done.
  all: apply runs_bind, runs_call, runs_bind, runs_modify, runs_ret; done.
Qed.

Lemma bio_nice_write_same buf s : runs (bio_nice_write buf) s (fun _ s' => same_peer s s').
Proof.
  unfold bio_nice_write. destruct (_ : bool); [done|]. apply runs_bind. eapply runs_mono; [apply Send_same|]. by intros r s'.
Qed.

Lemma same_peer_trans s1 s2 s3 : same_peer s1 s2 -> same_peer s2 s3 -> same_peer s1 s3.
Proof. intros (A & B & C) (D & E & F). split_and!; congruence. Qed.

(** At its end there is a connection. *)
Lemma run_handshake_ok h s : inv s ->
  runs (run_handshake h) s (fun _ s' => quiet s s' /\ inv s' /\ is_Some (ssl_ (dtls s')) /\ same_peer s s').
Proof.
  revert s. induction h as [ret ssl|len k IH|buf k IH]; intros s H; cbn [run_handshake]; apply runs_bind.
  - apply runs_modify, runs_ret. split_and!; [|intros Hs; by eexists|done|done].
    split; try done. exists []. by rewrite app_nil_r.
  - eapply runs_mono; [apply runs_both; [by apply bio_nice_read_calm|by apply bio_nice_read_same]|]. intros answer s1 [[Hq H1] Hp].
    eapply runs_mono; [by apply IH|]. intros r s2 (Hq2 & H2 & Hs & Hp2).
    split_and!; [by eapply quiet_trans|done|done|by eapply same_peer_trans].
  - eapply runs_mono; [apply runs_both; [by apply bio_nice_write_calm|by apply bio_nice_write_same]|]. intros answer s1 [[Hq H1] Hp].
    eapply runs_mono; [by apply IH|]. intros r s2 (Hq2 & H2 & Hs & Hp2).
    split_and!; [by eapply quiet_trans|done|done|by eapply same_peer_trans].
Qed.

Lemma do_handshake_ok s : inv s -> is_Some (ssl_ (dtls s)) ->
  runs do_handshake s (fun _ s' => quiet s s' /\ inv s' /\ is_Some (ssl_ (dtls s')) /\ same_peer s s').
Proof.
  intros H [ssl E]. unfold do_handshake. apply runs_bind, runs_gets, runs_bind, (runs_lift _ ssl); [done|]. by apply run_handshake_ok.
Qed.

Lemma quiet_same s s' : trace s' = trace s -> send_disabled_ (life s') = send_disabled_ (life s) -> tame (dtls s) (dtls s') -> quiet s s'.
Proof. intros Et Ed (H1 & H2 & H3 & H4). split; try done; [exists []; by rewrite app_nil_r|by rewrite Ed]. Qed.

Lemma calmly_after {R} (m : Method R) s s' : quiet s s' -> calmly m s' -> runs m s' (fun _ s'' => quiet s s'' /\ inv s'').
Proof. intros Hq Hm. eapply runs_mono; [exact Hm|]. intros r s'' [Hq' H']. split; [by eapply quiet_trans|done]. Qed.

Lemma first_flight_calm s : inv s -> dtls_started_ (dtls s) = true -> calmly first_flight s.
Proof.
  intros H Hs. pose proof (H Hs) as Hssl. unfold first_flight. apply runs_bind.
  eapply runs_mono; [by apply do_handshake_ok|]. intros ret s1 (Hq & H1 & [ssl1 E1] & _). apply calmly_after; [done|].
  calm_step.
  - apply calmly_bind; [|intros ? ? ? ?; by apply calmly_ret]. apply calmly_dtls; [by split_and!|].
    intros _. by exists ssl1.
  - calm_step. apply (calmly_lift _ _ _ ssl1); [done|]. by apply calmly_ret.
Qed.

Lemma StartDtls_calm is_client s : inv s -> calmly (StartDtls is_client) s.
Proof.
  intros H. unfold StartDtls. calm_step. destruct (dtls_started_ (dtls s) || _) eqn:E; [by apply calmly_ret|].
  apply orb_false_elim in E as [En Es]. apply negb_false_iff in Es.
  apply runs_bind, runs_call. set (s1 := with_nice _ s).
  apply calmly_after; [by apply quiet_same; [done|done|split_and!]|].
  destruct (ssl_context (nice s)).1; cbn [negb]; [|by apply calmly_ret].
  destruct (dtls_cert_ (dtls s)) as [cert|]; [|by apply calmly_ret].
  apply runs_bind, runs_call. set (s2 := with_nice _ s1).
  apply calmly_after; [by apply quiet_same; [done|done|split_and!]|].
  destruct (ssl_new cert is_client (nice s1)).1 as [ssl|]; [|by apply calmly_ret].
  apply runs_bind, runs_modify, runs_bind, runs_modify. apply calmly_after; [by apply quiet_same; [done|done|split_and!]|].
  apply first_flight_calm; [|done]. intros _. by eexists.
Qed.

Lemma OnNiceStateChanged_calm stream component state s : inv s -> calmly (OnNiceStateChanged stream component state) s.
Proof.
  intros H. unfold OnNiceStateChanged. do 2 calm_step; [by apply calmly_ret|].
  apply calmly_bind; [|intros; by apply calmly_emit].
  destruct state; try by apply calmly_ret. calm_step. calm_step. calm_step; [|by apply calmly_ret].
  apply calmly_bind; [by apply StartDtls_calm|]. intros ? ? ? ?. by apply calmly_ret.
Qed.

(** ** Packets *)

(** The certificate of the connection is the one that the SDP announced. *)
Definition peer_verified (s s' : Agent) : Prop :=
  dtls_handshake_done_ (dtls s) = false /\ dtls_handshake_done_ (dtls s') = true /\
  enable_srtp_ (dtls s') = true /\ remote_fingerprint_ (dtls s') <> [] /\
  exists ssl cert, ssl_ (dtls s') = Some ssl /\ SSL_get_peer_certificate ssl = Some cert /\
    ComputeFingerprint cert = Some (remote_fingerprint_ (dtls s')).

(** What a packet does: it is quiet, or ends a verified handshake, or is handed
    on. *)
Definition packet_done (buffer : list Z) (s s' : Agent) : Prop :=
  quiet s s' \/
  (exists s1, quiet s s1 /\ trace s' = trace s1 ++ [DtlsDone] /\ life s' = life s1 /\
    remote_fingerprint_ (dtls s') = remote_fingerprint_ (dtls s1) /\ enable_srtp_ (dtls s') = enable_srtp_ (dtls s1) /\
    IsDtlsRecord buffer = true /\ peer_verified s s') \/
  (IsDtlsRecord buffer = false /\ dtls s' = dtls s /\ life s' = life s /\ trace s' = trace s ++ [Received buffer]).

Lemma ComputeFingerprint_made (cert : X) fp : ComputeFingerprint (L := L) cert = Some fp -> fp <> [].
Proof.
  unfold ComputeFingerprint. destruct (X509_digest cert) as [md|] eqn:E; [|done]. cbn. intros [= <-].
  apply digest_size in E. destruct md as [|b md]; [done|]. destruct md; by cbn.
Qed.

Lemma verify_peer_made ssl expected :
  match verify_peer (X := X) ssl expected with
  | Some b => b = true -> expected <> [] /\
      exists cert, SSL_get_peer_certificate ssl = Some cert /\ ComputeFingerprint (L := L) cert = Some expected
  | None => no_digest
  end.
Proof.
  unfold verify_peer. destruct (SSL_get_peer_certificate ssl) as [peer|]; [|done].
  destruct (ComputeFingerprint peer) as [fp|] eqn:E; cbn [mbind option_bind].
  - intros ->%bool_decide_eq_true. split; [by eapply ComputeFingerprint_made|]. by exists peer.
  - exists peer. unfold ComputeFingerprint in E. by destruct (X509_digest peer).
Qed.

Lemma on_dtls_record_ok buffer s : (no_digest -> Exn) -> inv s -> dtls_started_ (dtls s) = true -> enable_srtp_ (dtls s) = true -> IsDtlsRecord buffer = true ->
  runs (on_dtls_record buffer) s (fun _ s' => packet_done buffer s s' /\ inv s').
Proof.
  intros Hx H Hs He Hb. pose proof (H Hs) as Hssl. unfold on_dtls_record.
  apply runs_bind, runs_modify. set (s0 := mkAgent _ _ _ _ _ _ _).
  assert (quiet s s0) as Hq0 by (by apply quiet_same; [done|done|split_and!]).
  apply runs_bind. eapply runs_mono; [apply do_handshake_ok; [exact H|exact Hssl]|]. intros ret s1 (Hq1 & H1 & [ssl Essl] & (Hp1 & Hp2 & Hp3)).
  assert (quiet s s1) as Hq by (by eapply quiet_trans).
  destruct (ret <=? 0); [apply runs_ret; split; [by left|done]|].
  apply runs_bind, runs_gets, runs_bind, (runs_lift _ ssl); [done|].
  destruct (SSL_is_init_finished ssl && _) eqn:Ed; [|apply runs_ret; split; [by left|done]].
  apply andb_prop in Ed as [_ Ed]. apply negb_true_iff in Ed.
  apply runs_bind, runs_modify. set (s2 := mkAgent _ _ _ _ _ _ _).
  pose proof (verify_peer_made ssl (remote_fingerprint_ (dtls s1))) as Hv. apply runs_bind. unfold lift, runs at 1. revert Hv.
  destruct (verify_peer ssl _) as [b|]; intros Hv; [|exact (Hx Hv)]. cbn [mbind option_bind].
  assert (quiet s1 s2) as Hq2 by (by apply quiet_same; [done|done|split_and!]).
  assert (inv s2) as H2 by exact H1.
  destruct b; [|apply runs_ret; split; [left; by eapply quiet_trans|done]].
  apply runs_modify. split; [|exact H2]. right. left. exists s1. split_and!; try done.
  destruct (Hv eq_refl) as (Hne & cert & Ec & Ef). 
  change (dtls_handshake_done_ (dtls s0)) with (dtls_handshake_done_ (dtls s)) in Hp3. change (enable_srtp_ (dtls s0)) with (enable_srtp_ (dtls s)) in Hp2.
  split_and!; cbn; [congruence|done|congruence|done|by exists ssl, cert].
Qed.

Lemma OnNiceRecv_ok buffer s : (IsDtlsRecord buffer = true -> no_digest -> Exn) -> inv s ->
  runs (OnNiceRecv buffer) s (fun _ s' => packet_done buffer s s' /\ inv s').
Proof.
  intros Hx H. unfold OnNiceRecv. cbv zeta. apply runs_bind, runs_gets.
  assert (packet_done buffer s s /\ inv s) as Hnone by (split; [left; apply quiet_refl|done]).
  destruct (enable_srtp_ (dtls s)) eqn:Ee, (IsDtlsRecord buffer) eqn:Eb; cbn [andb negb].
  - destruct (dtls_started_ (dtls s)) eqn:Es; [by apply on_dtls_record_ok; first apply Hx|]. by apply runs_ret.
  - apply runs_modify. split; [|exact H]. right. right. done.
  - by apply runs_ret.
  - apply runs_modify. split; [|exact H]. right. right. done.
Qed.

(** ** Beginning and end *)

Lemma fresh_now_returns conf (n : N) : is_Some (fresh_now conf n).
Proof. destruct (IceUnixTime n) as [now n'] eqn:E. rewrite (fresh_now_eq conf n now n' E). by eexists. Qed.

Lemma calmly_fresh conf s : inv s -> calmly (on_nice (fresh_now conf)) s.
Proof. intros H. apply calmly_on_nice; [done|apply fresh_now_returns]. Qed.

Lemma configure_stun_calm c s : inv s -> calmly (configure_stun c) s.
Proof. intros H. unfold configure_stun, has. calm; by apply set_property_calm. Qed.

Lemma add_relays_calm stream servers b s : inv s -> calmly (add_relays stream servers b) s.
Proof.
  revert b s. induction servers as [|server servers IH]; intros b s H; cbn [add_relays]; [by apply calmly_ret|].
  apply calmly_bind; [|intros accepted s' _ H'; by apply IH]. unfold AddTurnRelay. calm.
Qed.

Lemma abandon_calm s : inv s -> calmly abandon s.
Proof. intros H. unfold abandon. apply calmly_bind; [by apply calmly_life|]. intros ? ? ? ?. by apply calmly_ret. Qed.

Lemma register_relays_calm c stream s : inv s -> calmly (register_relays c stream) s.
Proof.
  intros H. unfold register_relays. calm_step; [by apply calmly_ret|].
  apply calmly_bind; [apply calmly_on_nice; [done|apply ResolveTurnServerEndpoints_returns]|]. intros servers s1 _ H1; cbn beta.
  apply calmly_bind; [by apply add_relays_calm|]. intros registered s2 _ H2; cbn beta.
  apply calmly_bind; [destruct registered; [by apply calmly_fresh|by apply calmly_ret]|]. intros fresh s3 _ H3; cbn beta.
  calm_step; [by apply calmly_ret|]. calm_step; [by apply calmly_ret|]. by apply calmly_fresh.
Qed.

Lemma prepare_agent_calm c s : inv s -> calmly (prepare_agent c) s.
Proof.
  intros H. unfold prepare_agent.
  apply calmly_bind; [by apply configure_stun_calm|]. intros ? s1 _ H1; cbn beta.
  apply calmly_bind; [by apply set_property_calm|]. intros ? s2 _ H2; cbn beta.
  apply calmly_bind; [by apply set_property_calm|]. intros ? s3 _ H3; cbn beta.
  apply calmly_bind; [by apply calmly_call|]. intros stream s4 _ H4; cbn beta.
  apply calmly_bind; [by apply calmly_life|]. intros ? s5 _ H5; cbn beta.
  calm_step; [by apply abandon_calm|].
  apply calmly_bind; [by calm|]. intros ? s6 _ H6; cbn beta.
  apply calmly_bind; [by apply register_relays_calm|]. intros relayed s7 _ H7; cbn beta.
  calm_step; [by apply abandon_calm|].
  apply calmly_bind; [calm_step; [by apply set_property_calm|by apply calmly_ret]|]. intros ? s8 _ H8; cbn beta.
  apply calmly_bind; [by apply calmly_life|]. intros ? s9 _ H9. by apply calmly_ret.
Qed.

Lemma start_thread_calm c s : inv s -> calmly (start_thread c) s.
Proof.
  intros H. unfold start_thread.
  apply calmly_bind; [by apply calmly_call|]. intros [|] s1 _ H1; cbn beta iota delta [negb]; [|by apply abandon_calm].
  apply calmly_bind; [by apply calmly_call|]. intros [|] s2 _ H2; cbn beta iota delta [negb]; [|by apply abandon_calm].
  apply calmly_bind; [by apply calmly_call|]. intros [|] s3 _ H3; cbn beta iota delta [negb]; [|by apply abandon_calm].
  apply calmly_bind; [by apply calmly_life|]. intros ? s' _ H'. by apply prepare_agent_calm.
Qed.

Lemma GenerateDtlsCertificate_calm s : (no_digest -> Exn) -> inv s -> calmly GenerateDtlsCertificate s.
Proof.
  intros Hx H. unfold GenerateDtlsCertificate. apply calmly_bind; [by apply calmly_call|]. intros [x|] s1 _ H1; cbn beta; [|by apply calmly_ret].
  apply runs_bind. unfold lift, runs at 1, ComputeFingerprint.
  destruct (X509_digest x) as [md|] eqn:E; cbn [mbind option_bind]; [|apply Hx; by exists x]. by apply calmly_dtls; [split_and!|exact H1].
Qed.

(** Creation starts from a state in which sending is on. *)
Lemma CreateIceAgent_ok s : (no_digest -> Exn) -> inv s ->
  runs CreateIceAgent s (fun _ s' => inv s' /\
    (quiet s s' \/ exists s1 s2, quiet s s1 /\ trace s2 = trace s1 /\ dtls s2 = dtls s1 /\ quiet s2 s')).
Proof.
  intros Hx H. unfold CreateIceAgent. apply runs_bind, runs_gets, runs_bind.
  eapply runs_mono; [by apply calmly_fresh|]. intros fresh s1 [Hq1 H1].
  destruct fresh; cbn [negb]; [|apply runs_ret; split; [done|by left]].
  apply runs_bind, runs_gets. destruct (_ || _); [apply runs_ret; split; [done|by left]|].
  apply runs_bind, runs_modify. set (s2 := mkAgent _ (mkLife _ _ _ _ _ _ _ _ _ _ _) _ _ _ _ _).
  assert (inv s2) as H2 by exact H1.
  match goal with |- runs ?m _ _ => assert (calmly m s2) as Hc end.
  { apply calmly_bind; [by apply calmly_paths|]. intros ? s3 _ H3; cbn beta.
    apply calmly_bind; [by apply start_thread_calm|]. intros started s4 _ H4; cbn beta.
    destruct started; cbn [negb].
    - apply calmly_bind; [by apply GenerateDtlsCertificate_calm|]. intros ? s5 _ H5. by apply calmly_ret.
    - apply calmly_bind; [by apply calmly_life|]. intros ? s5 _ H5. by apply calmly_ret. }
  eapply runs_mono; [exact Hc|]. intros r s' [Hq H']. split; [done|]. right. by exists s1, s2.
Qed.

(** What is left after the end. *)
Lemma DestroyIceAgent_ok s : inv s ->
  runs DestroyIceAgent s (fun _ s' => inv s' /\
    exists s1, quiet s s1 /\ trace s' = trace s1 /\ send_disabled_ (life s') = true /\
      remote_fingerprint_ (dtls s') = remote_fingerprint_ (dtls s1) /\ enable_srtp_ (dtls s') = enable_srtp_ (dtls s1)).
Proof.
  intros H. unfold DestroyIceAgent, StopSending. apply runs_bind, runs_modify. set (s0 := mkAgent _ _ _ _ _ _ _).
  assert (quiet s s0) as Hq0 by (split; try done; exists []; by rewrite app_nil_r).
  apply runs_bind, runs_gets. destruct (destroyed_ (life s0)); [apply runs_ret; split; [done|by exists s0]|].
  match goal with |- runs ?m _ _ => assert (runs m s0 (fun _ s' => inv s' /\
    exists s1, quiet s0 s1 /\ trace s' = trace s1 /\ send_disabled_ (life s') = true /\
      remote_fingerprint_ (dtls s') = remote_fingerprint_ (dtls s1) /\ enable_srtp_ (dtls s') = enable_srtp_ (dtls s1))) as Hm end.
  { assert (inv s0) as H0 by exact H. assert (send_disabled_ (life s0) = true) as Hd0 by done. clearbody s0. clear dependent s.
    apply runs_bind. eapply runs_mono; [by apply calmly_life|]. intros _ s1 [Hq1 H1].
    apply runs_bind. eapply runs_mono.
    { instantiate (1 := fun _ s' => quiet s1 s' /\ inv s'). destruct (_ && _); [|by apply calmly_ret].
      unfold CloseNiceAgent. apply calmly_gets. apply calmly_bind; [calm|]. intros ? s' _ H'. by apply calmly_life. }
    intros _ s2 [Hq2 H2]. cbn beta. apply runs_bind, runs_modify, runs_bind, runs_modify, runs_ret. split; [by intros Hs|].
    exists s2. split_and!; try done; [by eapply quiet_trans|]. apply (quiet_disabled _ _ Hq2), (quiet_disabled _ _ Hq1), Hd0. }
  eapply runs_mono; [exact Hm|]. intros r s' (H' & s1 & Hq & Hrest). split; [done|]. exists s1.
  split; [by eapply quiet_trans|exact Hrest].
Qed.

(** ** Every call *)

(** The states of an agent. *)
Inductive reachable : Agent -> Prop :=
  | reachable_new c srtp n : reachable (new_agent c srtp n)
  | reachable_call s c s' : reachable s -> perform c s = Some (tt, s') -> reachable s'.

Definition is_done (e : Event) : bool := match e with DtlsDone => true | _ => false end.

(** What a call may do. *)
Record call_ok (c : AgentCall) (s s' : Agent) (new : list Event) : Prop := {
  call_trace : trace s' = trace s ++ new;
  call_media : forall b, Received b ∈ new -> c = Packet b /\ IsDtlsRecord b = false;
  call_verified : DtlsDone ∈ new -> peer_verified s s' /\ zlen (List.filter is_done new) = 1 /\
    exists b, c = Packet b /\ IsDtlsRecord b = true;
  call_stopped : send_disabled_ (life s) = true -> c <> Create ->
    send_disabled_ (life s') = true /\ forall d, Sent d ∉ new;
  call_done_kept : dtls_handshake_done_ (dtls s) = true -> c <> Destroy -> dtls_handshake_done_ (dtls s') = true;
  call_fingerprint_kept : remote_fingerprint_ (dtls s) <> [] -> remote_fingerprint_ (dtls s') = remote_fingerprint_ (dtls s) /\
    enable_srtp_ (dtls s') = enable_srtp_ (dtls s);
  call_srtp_kept : enable_srtp_ (dtls s) = false -> enable_srtp_ (dtls s') = false;
}.

Lemma calm_events disabled new : Forall (calm disabled) new ->
  DtlsDone ∉ new /\ (forall b, Received b ∉ new) /\ (disabled = true -> forall d, Sent d ∉ new) /\ List.filter is_done new = [].
Proof.
  induction 1 as [|e new He _ (I1 & I2 & I3 & I4)]; [split_and!; try done; intros; apply not_elem_of_nil|].
  destruct e; try done; split_and!; intros; try (apply not_elem_of_cons; split; [done|auto]); try done.
  - cbn in He. congruence.
Qed.

Lemma quiet_call_ok c s s' : quiet s s' -> exists new, call_ok c s s' new.
Proof.
  intros [(new & E & Hf) Hd Ho Hr Hs Hk]. exists new. destruct (calm_events _ _ Hf) as (C1 & C2 & C3 & _).
  split; try done; auto; intros; exfalso; first [by eapply C2 | by apply C1].
Qed.

Lemma calmly_forget {R} (m : Method R) s : calmly m s -> calmly (forget m) s.
Proof. intros H. unfold forget. apply calmly_bind; [exact H|]. intros ? ? ? ?. by apply calmly_ret. Qed.

Lemma packet_call_ok buffer s s' : packet_done buffer s s' -> exists new, call_ok (Packet buffer) s s' new.
Proof.
  intros [Hq|[(s1 & Hq & Et & El & Er & Ee & Hb & Hp)|(Hb & Ed & El & Et)]].
  - by apply quiet_call_ok.
  - destruct Hq as [(new & E & Hf) Hd Ho Hr Hs Hk]. destruct (calm_events _ _ Hf) as (C1 & C2 & C3 & C4).
    exists (new ++ [DtlsDone]). split.
    + by rewrite Et, E, <- app_assoc.
    + intros b [Hin|Hin%list_elem_of_singleton]%elem_of_app; [by apply C2 in Hin|done].
    + intros _. split_and!; [done| |by exists buffer]. by rewrite List.filter_app, C4.
    + intros Hdis _. rewrite El. split; [auto|].
      intros d [Hin|Hin%list_elem_of_singleton]%elem_of_app; [by apply C3 in Hin|done].
    + intros _ _. apply Hp.
    + intros Hne. rewrite Er, Ee. auto.
    + rewrite Ee. exact Hs.
  - exists [Received buffer]. split; rewrite ?Ed, ?El; try done.
    + intros b Hin%list_elem_of_singleton. by injection Hin as ->.
    + intros Hin%list_elem_of_singleton. done.
    + intros Hdis _. split; [done|]. intros d Hin%list_elem_of_singleton. done.
Qed.

Lemma create_call_ok s s' :
  (quiet s s' \/ exists s1 s2, quiet s s1 /\ trace s2 = trace s1 /\ dtls s2 = dtls s1 /\ quiet s2 s') ->
  exists new, call_ok Create s s' new.
Proof.
  intros [Hq|(s1 & s2 & Hq1 & Et & Ed & Hq2)]; [by apply quiet_call_ok|].
  destruct Hq1 as [(n1 & E1 & F1) D1 O1 R1 S1 K1], Hq2 as [(n2 & E2 & F2) D2 O2 R2 S2 K2].
  rewrite Et in E2. rewrite Ed in O2, R2, S2, K2.
  destruct (calm_events _ _ F1) as (A1 & B1 & _), (calm_events _ _ F2) as (A2 & B2 & _).
  exists (n1 ++ n2). split; auto.
  - by rewrite E2, E1, <- app_assoc.
  - intros b [H|H]%elem_of_app; [by apply B1 in H|by apply B2 in H].
  - intros [H|H]%elem_of_app; done.
  - intros H. assert (remote_fingerprint_ (dtls s1) <> []) by (by rewrite R1). rewrite R2, K2 by done. auto.
Qed.

Lemma destroy_call_ok s s' :
  (exists s1, quiet s s1 /\ trace s' = trace s1 /\ send_disabled_ (life s') = true /\
    remote_fingerprint_ (dtls s') = remote_fingerprint_ (dtls s1) /\ enable_srtp_ (dtls s') = enable_srtp_ (dtls s1)) ->
  exists new, call_ok Destroy s s' new.
Proof.
  intros (s1 & [(new & E & Hf) Hd Ho Hr Hs Hk] & Et & Hd' & Er & Ee). destruct (calm_events _ _ Hf) as (C1 & C2 & C3 & _).
  exists new. split; try done.
  - by rewrite Et.
  - intros b H. by apply C2 in H.
  - intros Hdis _. auto.
  - intros H. rewrite Er, Ee. auto.
  - rewrite Ee. exact Hs.
Qed.

(** The calls that make the digest of a certificate. *)
Definition makes_digest (c : AgentCall) : Prop := c = Create \/ exists b, c = Packet b /\ IsDtlsRecord b = true.

Lemma call_done c s : (makes_digest c -> no_digest -> Exn) -> inv s -> runs (perform c) s (fun _ s' => inv s' /\ exists new, call_ok c s s' new).
Proof.
  intros Hx H.
  assert (forall m : Method unit, calmly m s -> runs m s (fun _ s' => inv s' /\ exists new, call_ok c s s' new)) as Hcalm.
  { intros m Hm. eapply runs_mono; [exact Hm|]. intros r s' [Hq H']. split; [done|by apply quiet_call_ok]. }
  destruct c; cbn [perform].
  - unfold forget. apply runs_bind. eapply runs_mono; [apply CreateIceAgent_ok; [apply Hx; by left|exact H]|]. intros r s' [H' Hc].
    apply runs_ret. split; [done|by apply create_call_ok].
  - unfold forget. apply runs_bind. eapply runs_mono; [by apply DestroyIceAgent_ok|]. intros r s' [H' Hc].
    apply runs_ret. split; [done|by apply destroy_call_ok].
  - apply Hcalm. by apply StopSending_calm.
  - apply Hcalm, calmly_forget. by apply GenerateLocalSdp_calm.
  - apply Hcalm, calmly_forget. by apply GetLocalStreamSdp_calm.
  - apply Hcalm, calmly_forget. by apply SetRemoteSdp_calm.
  - apply Hcalm, calmly_forget. by apply AddRemoteCandidate_calm.
  - apply Hcalm, calmly_forget. by apply SetRemoteCandidateGatheringDone_calm.
  - apply Hcalm, calmly_forget. by apply GatherCandidates_calm.
  - apply Hcalm, calmly_forget. by apply GetIceState_calm.
  - apply Hcalm, calmly_forget. by apply OnStunMapping_calm.
  - apply Hcalm, calmly_forget. by apply Send_calm.
  - apply Hcalm, calmly_forget. by apply StartDtls_calm.
  - eapply runs_mono; [apply OnNiceRecv_ok; [intros Hb; apply Hx; right; by eexists|exact H]|]. intros r s' [Hp H']. split; [done|by apply packet_call_ok].
  - apply Hcalm. by apply OnNiceStateChanged_calm.
Qed.
End methods.

Lemma reachable_inv s : reachable s -> inv s.
Proof.
  induction 1 as [c srtp n|s c s' _ IH E]; [done|]. pose proof (call_done (Exn := no_digest) c s (fun _ H => H) IH) as H. unfold runs in H. rewrite E in H. apply H.
Qed.

(** C13. In every state that calls of the program and of libnice can lead to, in
    any order, a handshake started by the transport included, and with any
    behaviour of libnice and OpenSSL, every call ends — with an exception only
    where a digest is made, in creation and upon a DTLS packet, and only when
    OpenSSL does not make it — and: the end of the handshake is
    announced only by a DTLS packet, once per connection, with SRTP on, and with
    a certificate whose fingerprint is the one that was taken from the other
    peer's SDP, which no later SDP replaces or switches off; no DTLS record is
    handed on as a media packet; after sending was stopped nothing is given to
    libnice to send, by the program or by the handshake, until the agent is
    created anew.  (A digest by SHA-256 has 32 bytes.) *)
Theorem dtls_peer_verified (s : Agent) (c : AgentCall) :
  reachable s ->
  match perform c s with
  | Some (_, s') => exists new, call_ok c s s' new
  | None => (c = Create \/ exists b, c = Packet b /\ IsDtlsRecord b = true) /\ exists x : X, X509_digest x = None
  end.
Proof.
  intros Hr. pose proof (call_done (Exn := makes_digest c /\ no_digest) c s (@conj _ _) (reachable_inv s Hr)) as H. unfold runs in H.
  destruct (perform c s) as [[[] s']|]; [apply H|exact H].
Qed.

(** ** A forced relay *)

(** What creation may do when the path is to be relayed. *)
Definition relay_only (mode : TurnMode) (e : Event) : Prop :=
  match e with
  | Configured (stun_servers _) | Configured (stun_server _ _) => False
  | Configured (upnp enabled _) => enabled = false
  | Configured _ => True
  | RelayRegistered server => ep_turn server = true /\ ep_tcp server = bool_decide (mode = TurnForceTcp)
  | _ => False
  end.

(** What a method adds to the trace. *)
Definition adds {R} (m : Method R) (s : Agent) (Q : R -> list Event -> Prop) : Prop :=
  runs (Exn := no_digest) m s (fun r s' => exists new, trace s' = trace s ++ new /\ Q r new).

Lemma adds_ret {R} (r : R) s (Q : R -> list Event -> Prop) : Q r [] -> adds (mret r) s Q.
Proof. intros H. apply runs_ret. exists []. by rewrite app_nil_r. Qed.

Lemma adds_bind {R R'} (m : Method R) (f : R -> Method R') s P Q :
  adds m s P -> (forall r s' new, P r new -> adds (f r) s' (fun r' new' => Q r' (new ++ new'))) -> adds (m ≫= f) s Q.
Proof.
  intros Hm Hf. apply runs_bind. eapply runs_mono; [exact Hm|]. intros r s' (new & E & H).
  eapply runs_mono; [by apply (Hf r s' new)|]. intros r' s'' (new' & E' & H'). exists (new ++ new').
  by rewrite E', E, <- app_assoc.
Qed.

Lemma adds_gets {R R'} (g : Agent -> R) (f : R -> Method R') s Q : adds (f (g s)) s Q -> adds (gets g ≫= f) s Q.
Proof. intros H. apply runs_bind, runs_gets. exact H. Qed.

Lemma adds_mono {R} (m : Method R) s (P Q : R -> list Event -> Prop) :
  adds m s P -> (forall r new, P r new -> Q r new) -> adds m s Q.
Proof. intros H Hm. eapply runs_mono; [exact H|]. intros r s' (new & E & Hp). exists new. auto. Qed.

Lemma adds_on_nice {R} (m : M N R) s (P : R -> Prop) : runs (Exn := no_digest) m (nice s) (fun r _ => P r) -> adds (on_nice m) s (fun r new => new = [] /\ P r).
Proof.
  unfold adds, runs, on_nice. destruct (m (nice s)) as [[r n]|]; [|done]. intros H. exists []. by rewrite app_nil_r.
Qed.
Lemma adds_call {R} (f : N -> R * N) s : adds (call f) s (fun _ new => new = []).
Proof. eapply adds_mono; [apply (adds_on_nice _ s (fun _ => True)); unfold runs; by destruct (f (nice s))|]. by intros r new [-> _]. Qed.
Lemma adds_life f s : adds (set_life f) s (fun _ new => new = []).
Proof. apply runs_modify. exists []. by rewrite app_nil_r. Qed.
Lemma adds_emit e s : adds (emit e) s (fun _ new => new = [e]).
Proof. apply runs_modify. by exists [e]. Qed.
Lemma adds_property p s : adds (set_property p) s (fun _ new => new = [Configured p]).
Proof. eapply adds_bind; [apply adds_call|]. intros r s' new ->. apply adds_emit. Qed.

Lemma add_relays_adds mode stream servers b s :
  Forall (fun e => ep_turn e = true /\ ep_tcp e = bool_decide (mode = TurnForceTcp)) servers ->
  adds (add_relays stream servers b) s (fun r new => Forall (relay_only mode) new /\
    (r = true -> b = true \/ exists e, RelayRegistered e ∈ new)).
Proof.
  intros H. revert b s. induction H as [|server servers Hs _ IH]; intros b s; cbn [add_relays].
  { apply adds_ret. split; [constructor|by left]. }
  eapply (adds_bind _ _ _ (fun r new => new = (if (r : bool) then [RelayRegistered server] else []))).
  - eapply adds_bind; [apply adds_call|]. intros accepted s1 new ->. cbn [app]. destruct accepted.
    + eapply adds_bind; [apply adds_emit|]. intros _ s2 new ->. by apply adds_ret.
    + eapply adds_bind; [by apply (adds_ret tt s1 (fun _ new => new = []))|]. intros _ s2 new ->. by apply adds_ret.
  - intros accepted s1 new ->. eapply adds_mono; [apply IH|]. intros r new (Hf & Hr). split.
    + apply list.Forall_app. split; [|done]. destruct accepted; constructor; [exact Hs|constructor].
    + intros ->. destruct (Hr eq_refl) as [E|[e He]].
      * destruct b; [by left|right]. cbn in E. rewrite E. exists server. left.
      * right. exists e. apply elem_of_app. by right.
Qed.

Lemma forced_mode mode : IsTurnForced mode = true -> mode = TurnForceUdp \/ mode = TurnForceTcp.
Proof. unfold IsTurnForced. intros [H|H]%orb_prop; apply bool_decide_eq_true in H; auto. Qed.

Lemma allowed_when_forced mode e : IsTurnForced mode = true -> IceTurnTransportAllowed e mode = true ->
  ep_turn e = true /\ ep_tcp e = bool_decide (mode = TurnForceTcp).
Proof. intros Hm. unfold IceTurnTransportAllowed. destruct (forced_mode mode Hm) as [-> | ->], (ep_turn e), (ep_tcp e); by vm_compute. Qed.

Lemma register_relays_adds c stream s : IsTurnForced (turn_mode_ c) = true ->
  adds (register_relays c stream) s (fun r new => Forall (relay_only (turn_mode_ c)) new /\
    (r = true -> exists e, RelayRegistered e ∈ new)).
Proof.
  intros Hm. unfold register_relays.
  assert (IsTurnEnabled (turn_mode_ c) = true) as -> by (destruct (forced_mode _ Hm) as [-> | ->]; done). cbn [negb].
  eapply adds_bind; [apply adds_on_nice, runs_wp, ResolveTurnServerEndpoints_allowed|]. intros servers s1 new [-> Hf]. cbn [app].
  eapply adds_bind; [apply (add_relays_adds (turn_mode_ c))|].
  { eapply List.Forall_impl; [|exact Hf]. intros e (e0 & a & Hin & _ & ->). cbn. apply list_elem_of_In, filter_In in Hin as [_ Ha].
    by apply allowed_when_forced. }
  intros registered s2 new (Hr & Hreg). cbn beta.
  eapply (adds_bind _ _ _ (fun _ new => new = [])).
  { destruct registered; [|by apply adds_ret]. eapply adds_mono; [apply (adds_on_nice _ _ (fun _ => True))|by intros r new' [-> _]].
    apply runs_wp. destruct (fresh_now_returns (ice_config_ c) (nice s2)) as [[r n] E]. by exists r, n. }
  intros fresh s3 new' ->. cbn [app]. rewrite Hm. destruct (registered && fresh) eqn:E; apply adds_ret; rewrite !app_nil_r.
  - split; [done|]. intros _. apply andb_prop in E as [E _]. destruct (Hreg E); done.
  - by split.
Qed.

Lemma abandon_adds s : adds abandon s (fun r new => new = [] /\ r = false).
Proof. eapply adds_bind; [apply adds_life|]. intros _ s' new ->. by apply adds_ret. Qed.

Lemma prepare_agent_adds c s : IsTurnForced (turn_mode_ c) = true ->
  adds (prepare_agent c) s (fun r new => Forall (relay_only (turn_mode_ c)) new /\
    (r = true -> Configured force_relay ∈ new /\ exists e, RelayRegistered e ∈ new)).
Proof.
  intros Hm. unfold prepare_agent, configure_stun. rewrite Hm, orb_true_r. cbn [negb].
  eapply adds_bind; [by apply (adds_ret tt s (fun _ new => new = []))|]. intros _ s1 new1 ->. cbn [app].
  eapply adds_bind; [apply adds_property|]. intros _ s2 new2 ->.
  eapply adds_bind; [apply adds_property|]. intros _ s3 new3 ->.
  eapply adds_bind; [apply adds_call|]. intros stream s4 new4 ->.
  eapply adds_bind; [apply adds_life|]. intros _ s5 new5 ->. cbn [app].
  assert (Forall (relay_only (turn_mode_ c)) [Configured (controlling_mode (controlling_ c)); Configured (upnp false 3000)]) as H2
    by (repeat constructor).
  destruct (stream =? 0); [eapply adds_mono; [apply abandon_adds|]; by intros r new [-> ->]|].
  eapply (adds_bind _ _ _ (fun _ new => new = [])).
  { destruct (has_video_stream_ c); [apply adds_call|by apply adds_ret]. }
  intros _ s6 new6 ->. cbn [app].
  eapply adds_bind; [by apply register_relays_adds|]. intros relayed s7 new7 (Hf & He). cbn beta.
  destruct relayed; cbn [negb].
  2: { eapply adds_mono; [apply abandon_adds|]. intros r new [-> ->]. rewrite app_nil_r. split; [|done]. repeat (constructor; [done|]). exact Hf. }
  eapply adds_bind; [apply adds_property|]. intros _ s8 new8 ->.
  eapply adds_bind; [apply adds_life|]. intros _ s9 new9 ->. apply adds_ret. rewrite !app_nil_r. split.
  - repeat (constructor; [done|]). apply list.Forall_app. split; [done|]. by repeat constructor.
  - intros _. split; [|destruct (He eq_refl) as [e Hin]; exists e]; do 2 right; apply elem_of_app; [right; left|by left].
Qed.

(** C14. When a relay is forced and the agent could be created, libnice was told
    to use relays only, no STUN server was set and port mapping was switched
    off, so that no other kind of path can be gathered; at least one relay was
    registered, and every one that was is reached over the transport that is
    forced.  Creation ends, with an exception only when OpenSSL does not make a
    digest. *)
Theorem forced_relay_only (s : Agent) :
  IsTurnForced (turn_mode_ (config s)) = true ->
  match CreateIceAgent s with
  | Some (r, s') => exists new, trace s' = trace s ++ new /\ Forall (relay_only (turn_mode_ (config s))) new /\
      (r = 0 -> Configured force_relay ∈ new /\ exists e, RelayRegistered e ∈ new)
  | None => exists x : X, X509_digest x = None
  end.
Proof.
  intros Hm.
  assert (adds CreateIceAgent s (fun r new => Forall (relay_only (turn_mode_ (config s))) new /\
    (r = 0 -> Configured force_relay ∈ new /\ exists e, RelayRegistered e ∈ new))) as H; [|exact H].
  unfold CreateIceAgent. apply adds_gets. set (c := config s) in *. clearbody c.
  assert (forall conf s, adds (on_nice (fresh_now conf)) s (fun _ new => new = [])) as Hfresh.
  { intros conf s0. eapply adds_mono; [apply (adds_on_nice _ _ (fun _ => True))|by intros r new' [-> _]].
    apply runs_wp. destruct (fresh_now_returns conf (nice s0)) as [[r n] E]. by exists r, n. }
  eapply adds_bind; [apply Hfresh|]. intros fresh s1 new1 ->. cbn [app].
  destruct fresh; cbn [negb]; [|by apply adds_ret; split].
  apply adds_gets. destruct (_ || _); [by apply adds_ret; split|].
  eapply adds_bind; [apply adds_life|]. intros _ s2 new2 ->. cbn [app].
  eapply (adds_bind _ _ _ (fun _ new => new = [])); [apply runs_modify; exists []; by rewrite app_nil_r|]. intros _ s3 new3 ->. cbn [app].
  eapply (adds_bind _ _ _ (fun r new => Forall (relay_only (turn_mode_ c)) new /\
    (r = true -> Configured force_relay ∈ new /\ exists e, RelayRegistered e ∈ new))).
  { unfold start_thread.
    eapply adds_bind; [apply adds_call|]. intros ok1 s4 new4 ->. cbn [app].
    destruct ok1; cbn [negb]; [|eapply adds_mono; [apply abandon_adds|]; by intros r new [-> ->]].
    eapply adds_bind; [apply adds_call|]. intros ok2 s5 new5 ->. cbn [app].
    destruct ok2; cbn [negb]; [|eapply adds_mono; [apply abandon_adds|]; by intros r new [-> ->]].
    eapply adds_bind; [apply adds_call|]. intros ok3 s6 new6 ->. cbn [app].
    destruct ok3; cbn [negb]; [|eapply adds_mono; [apply abandon_adds|]; by intros r new [-> ->]].
    eapply adds_bind; [apply adds_life|]. intros _ s7 new7 ->. by apply prepare_agent_adds. }
  intros started s4 new4 (Hf & He). destruct started; cbn [negb].
  - eapply (adds_bind _ _ _ (fun _ new => new = [])).
    { unfold GenerateDtlsCertificate. eapply adds_bind; [apply adds_call|]. intros [x|] s5 new5 ->; cbn [app]; [|by apply adds_ret].
      apply runs_bind. unfold lift, runs at 1, ComputeFingerprint.
      destruct (X509_digest x) as [md|] eqn:E; cbn [mbind option_bind]; [|by exists x]. apply runs_modify. exists []. by rewrite app_nil_r. }
    intros _ s5 new5 ->. apply adds_ret. rewrite !app_nil_r. split; [done|]. intros _. by apply He.
  - eapply adds_bind; [apply adds_life|]. intros _ s5 new5 ->. apply adds_ret. rewrite !app_nil_r. by split.
Qed.

End agent.

(** ** On the bench *)

Import Bench.

#[export] Instance bench_laws : DtlsLaws Z bool (list Z).
Proof.
  split. intros x md E. assert (md = take 32 (x ++ replicate 32 0)) as -> by (apply Some_inj; symmetry; exact E).
  unfold zlen. rewrite length_take, length_app, length_replicate. lia.
Defined.

Fixpoint calls_run {N L X} `{!NiceAgent N} `{!Dtls N L X} `{!WallClock N} `{!Resolver} `{!StdSort}
    (cs : list AgentCall) (s : IceAgent N L X) : option (IceAgent N L X) :=
  match cs with
  | [] => Some s
  | c :: cs => match perform c s with Some (_, s') => calls_run cs s' | None => None end
  end.

Lemma calls_reachable {N L X} `{!NiceAgent N} `{!Dtls N L X} `{!WallClock N} `{!Resolver} `{!StdSort}
    cs (s s' : IceAgent N L X) : reachable s -> calls_run cs s = Some s' -> reachable s'.
Proof.
  revert s. induction cs as [|c cs IH]; intros s Hr; cbn [calls_run]; [by intros [= <-]|].
  destruct (perform c s) as [[[] s1]|] eqn:E; [|done]. apply IH. by eapply reachable_call.
Qed.

Definition before_the_end : list AgentCall :=
  [Create; LocalSdp; RemoteSdp remote_sdp; Gather; SendPacket [1; 2]; ComponentState 1 1 READY].

Definition waiting : IceAgent Z bool (list Z) :=
  default (fresh_agent TurnDisabled) (calls_run before_the_end (fresh_agent TurnDisabled)).

Lemma waiting_reachable : reachable waiting.
Proof. apply (calls_reachable before_the_end (fresh_agent TurnDisabled)); [apply reachable_new|vm_compute; reflexivity]. Qed.

Lemma dtls_peer_verified_witness :
  dtls_started_ (dtls waiting) = true /\ dtls_handshake_done_ (dtls waiting) = false /\
  match perform (Packet dtls_packet) waiting with
  | Some (_, s') => exists new, call_ok (Packet dtls_packet) waiting s' new
  | None => (Packet dtls_packet = Create \/ exists b, Packet dtls_packet = Packet b /\ IsDtlsRecord b = true) /\
      exists x, X509_digest x = None
  end.
Proof.
  split; [vm_compute; reflexivity|]. split; [vm_compute; reflexivity|].
  apply (dtls_peer_verified waiting (Packet dtls_packet) waiting_reachable).
Defined.

Lemma forced_relay_only_witness :
  IsTurnForced (turn_mode_ (config (fresh_agent TurnForceTcp))) = true /\
  match CreateIceAgent (fresh_agent TurnForceTcp) with
  | Some (r, s') => exists new, trace s' = trace (fresh_agent TurnForceTcp) ++ new /\ Forall (relay_only TurnForceTcp) new /\
      (r = 0 -> Configured force_relay ∈ new /\ exists e, RelayRegistered e ∈ new)
  | None => exists x, X509_digest x = None
  end.
Proof.
  split; [reflexivity|]. apply (forced_relay_only (fresh_agent TurnForceTcp)). reflexivity.
Defined.

(** The transport starts the handshake before the other peer's SDP is there: the
    packet that ends it is not believed. *)
Example early_start : 
  option_map (fun s => List.filter is_done (trace s))
    (calls_run [Create; StartHandshake true; Packet dtls_packet; RemoteSdp remote_sdp; Packet dtls_packet] (fresh_agent TurnDisabled)) = Some [].
Proof. vm_compute. reflexivity. Qed.

Example forced_creation :
  option_map (fun r => (fst r, trace (snd r))) (CreateIceAgent (fresh_agent TurnForceTcp)) =
  Some (0, [Configured (controlling_mode true); Configured (upnp false 3000);
            RelayRegistered (mkEndpoint (lit "10.0.0.3") 443 true true (lit "u") (lit "p") 2000); Configured force_relay]).
Proof. vm_compute. reflexivity. Qed.
