(* ===== verification/IceProbes.v ===== *)
(** * Predicted candidates and media keys

    What [IceAgent] gives to libnice as guesses at the other peer's ports, over
    all rounds of an agent's life, and the keys that the two ends of a
    connection take from what DTLS exports. *)

From Stdlib Require Import Ascii String.
From stdpp Require Import gmap strings.
From S2P Require Import Prelude StateMonad StdContainers Text NatTraversal IceUtils IceServers IceAgent.

(** ** Predicted candidates *)

Definition address_of (c : NiceCandidate) : text := address_text (cand_ip c) (cand_port c).

(** The rounds of an agent: what libnice knew, and what was added to it. *)
Fixpoint probe_run (rounds : list (list NiceCandidate)) (p : RemotePortPredictor)
    : list (list NiceCandidate) * RemotePortPredictor :=
  match rounds with
  | [] => ([], p)
  | remote :: rounds =>
      let '(predicted, p) := predict_candidates remote (known_addresses remote) p [] in
      let '(made, p) := probe_run rounds p in
      (predicted :: made, p)
  end.

(** A guess: like a real candidate that the other peer's translator gave an
    address to, on another port. *)
Definition good_guess (remote : list NiceCandidate) (h : NiceCandidate) : Prop :=
  1024 <= cand_port h <= 65535 /\ starts_with (lit "px-") (cand_foundation h) = true /\
  exists c, c ∈ remote /\ h = hypothesis c (cand_port h) /\ cand_type c = SERVER_REFLEXIVE /\ cand_udp c = true /\
    starts_with (lit "px-") (cand_foundation c) = false /\ IsPublicIpv4ForPrediction (cand_ip c) = true.

(** The guesses so far, beside the addresses known at first and those known
    now. *)
Record guesses_ok (remote : list NiceCandidate) (known0 known : gset text) (predicted : list NiceCandidate) : Prop := {
  guesses_new : forall h, h ∈ predicted -> address_of h ∈ known /\ address_of h ∉ known0;
  guesses_distinct : base.NoDup (map address_of predicted);
  guesses_known : known0 ⊆ known;
  guesses_good : Forall (good_guess remote) predicted;
}.

Lemma prediction_group_real c group : prediction_group c = Some group ->
  cand_type c = SERVER_REFLEXIVE /\ cand_udp c = true /\ starts_with (lit "px-") (cand_foundation c) = false /\
  IsPublicIpv4ForPrediction (cand_ip c) = true.
Proof.
  unfold prediction_group. destruct (_ || _) eqn:E; [done|]. apply orb_false_elim in E as [[E1 E2]%orb_false_elim E3].
  apply negb_false_iff in E1, E2. apply bool_decide_eq_true in E1.
  destruct (cand_base c) as [[base port]|]; [|done]. destruct (_ || _) eqn:E; [done|].
  apply orb_false_elim in E as [_ E]. by apply negb_false_iff in E.
Qed.

Lemma add_hypotheses_ok remote known0 c group ports known predicted :
  c ∈ remote -> prediction_group c = Some group -> Forall (fun p => 1024 <= p <= 65535) ports ->
  guesses_ok remote known0 known predicted ->
  let '(known', predicted') := add_hypotheses c ports known predicted in
  guesses_ok remote known0 known' predicted' /\ zlen predicted' <= zlen predicted + zlen ports.
Proof.
  intros Hc Hg Hp. revert known predicted. induction Hp as [|port ports Hport _ IH]; intros known predicted Hok; cbn [add_hypotheses].
  { rewrite zlen_nil. split; [done|lia]. }
  rewrite zlen_cons. case_bool_decide as Ha.
  { specialize (IH _ _ Hok). destruct (add_hypotheses c ports known predicted). destruct IH. split; [done|lia]. }
  specialize (IH ({[address_text (cand_ip c) port]} ∪ known) (hypothesis c port :: predicted)).
  destruct (add_hypotheses _ _ _ _) as [known' predicted']. rewrite zlen_cons in IH.
  destruct Hok as [Hn Hd Hk Hf]. destruct IH as [H1 H2]; [|split; [done|lia]]. split.
  - intros h [->|Hin]%list.elem_of_cons.
    + change (address_of (hypothesis c port)) with (address_text (cand_ip c) port). split; [set_solver|]. intros H. by apply Ha, Hk.
    + destruct (Hn h Hin). set_solver.
  - cbn [map]. apply list.NoDup_cons. split; [|done]. intros (h & E & Hin)%list_elem_of_fmap. apply Ha.
    change (address_of (hypothesis c port)) with (address_text (cand_ip c) port) in E. rewrite E. by apply Hn.
  - set_solver.
  - constructor; [|done]. destruct (prediction_group_real c group Hg) as (H3 & H4 & H5 & H6).
    split_and!; cbn [cand_port cand_foundation hypothesis]; try lia; [apply starts_with_app|]. by exists c.
Qed.

Lemma predict_candidates_ok all known0 remote known log p predicted :
  (forall c, c ∈ remote -> c ∈ all) -> predictor_ok log p -> guesses_ok all known0 known predicted ->
  let '(predicted', p') := predict_candidates remote known p predicted in
  exists log' known', predictor_ok (log ++ log') p' /\ guesses_ok all known0 known' predicted' /\
    zlen predicted' <= zlen predicted + zlen (all_guesses log').
Proof.
  revert known log p predicted. induction remote as [|c remote IH]; intros known log p predicted Hall Hp Hg; cbn [predict_candidates].
  { exists [], known. rewrite app_nil_r. split_and!; [done|done|]. unfold all_guesses. cbn. rewrite zlen_nil. lia. }
  assert (forall x, x ∈ remote -> x ∈ all) as Hall' by (intros x Hx; apply Hall; by right).
  destruct (prediction_group c) as [group|] eqn:Eg; [|by apply (IH known)].
  destruct (Observe_ok log p group (u16 (cand_port c)) Hp) as (Hp1 & Hf & _).
  destruct (Observe group (u16 (cand_port c)) p) as [ports p1]. cbn [fst snd] in *.
  pose proof (add_hypotheses_ok all known0 c group ports known predicted ltac:(apply Hall; left) Eg
    ltac:(eapply List.Forall_impl; [|exact Hf]; by intros q [? _]) Hg) as Ha.
  destruct (add_hypotheses c ports known predicted) as [known1 predicted1]. destruct Ha as [Hg1 Hl].
  specialize (IH known1 _ p1 predicted1 Hall' Hp1 Hg1). destruct (predict_candidates remote known1 p1 predicted1) as [predicted' p'].
  destruct IH as (log' & known' & Hp' & Hg' & Hl'). exists ([(group, u16 (cand_port c), ports)] ++ log'), known'.
  rewrite app_assoc. split_and!; [done|done|].
  assert (all_guesses ([(group, u16 (cand_port c), ports)] ++ log') = ports ++ all_guesses log') as -> by done.
  rewrite zlen_app. lia.
Qed.

Lemma guesses_start remote : guesses_ok remote (known_addresses remote) (known_addresses remote) [].
Proof. split; [intros h H; by apply not_elem_of_nil in H|apply NoDup_nil_2|done|constructor]. Qed.

Lemma all_guesses_app a b : all_guesses (a ++ b) = all_guesses a ++ all_guesses b.
Proof. unfold all_guesses. by rewrite map_app, concat_app. Qed.

Lemma probe_run_ok rounds log p : predictor_ok log p ->
  let '(made, p') := probe_run rounds p in
  exists log', predictor_ok (log ++ log') p' /\ zlen (concat made) <= zlen (all_guesses log').
Proof.
  revert log p. induction rounds as [|remote rounds IH]; intros log p Hp; cbn [probe_run].
  { exists []. rewrite app_nil_r. split; [done|]. apply Z.le_refl. }
  pose proof (predict_candidates_ok remote (known_addresses remote) remote (known_addresses remote) log p []
    ltac:(done) Hp (guesses_start remote)) as H.
  destruct (predict_candidates remote _ p []) as [predicted p1]. destruct H as (log1 & known1 & Hp1 & _ & Hl1).
  specialize (IH _ p1 Hp1). destruct (probe_run rounds p1) as [made p']. destruct IH as (log2 & Hp2 & Hl2).
  exists (log1 ++ log2). rewrite app_assoc. split; [done|]. cbn [concat]. rewrite all_guesses_app, !zlen_app. rewrite zlen_nil in Hl1. lia.
Qed.

(** C17. Whatever candidates the other peer sends, and however often guesses are
    made: an agent gives libnice at most 32 guesses in all; in each round their
    addresses are different and none is the address of a candidate that libnice
    knows, so that no real candidate is overwritten; each is on a port from 1024
    up, at a public address that a translator gave to a real candidate, and is
    marked, so that no guess is made from a guess. *)
Theorem probes_never_overwrite (rounds : list (list NiceCandidate)) (remote : list NiceCandidate) :
  let '(made, p) := probe_run rounds new_predictor in
  let '(predicted, p') := predict_candidates remote (known_addresses remote) p [] in
  zlen (concat made) + zlen predicted <= 32 /\
  base.NoDup (map address_of predicted) /\
  (forall h c, h ∈ predicted -> c ∈ remote -> cand_udp c = true -> address_of h <> address_of c) /\
  Forall (good_guess remote) predicted.
Proof.
  pose proof (probe_run_ok rounds [] _ new_predictor_ok) as Hrun. destruct (probe_run rounds new_predictor) as [made p].
  destruct Hrun as (log & Hp & Hl). cbn [app] in Hp.
  pose proof (predict_candidates_ok remote (known_addresses remote) remote (known_addresses remote) log p []
    ltac:(done) Hp (guesses_start remote)) as H.
  destruct (predict_candidates remote _ p []) as [predicted p']. destruct H as (log' & known' & Hp' & [Hn Hd _ Hf] & Hl').
  destruct Hp' as [Hc H32 _ _ _ _]. rewrite all_guesses_app, zlen_app in Hc. rewrite zlen_nil in Hl'.
  split_and!; [lia|done| |done].
  intros h c Hh Hin Hu E. destruct (Hn h Hh) as [_ Hno]. apply Hno. rewrite E. unfold known_addresses.
  apply elem_of_list_to_set, list_elem_of_fmap. exists c. split; [done|]. apply list_elem_of_In, filter_In.
  split; [by apply list_elem_of_In|done].
Qed.

(** Three mappings of one socket, a step of two apart: the ports around the
    second, and then the ports ahead of the third. *)
Example probes :
  let c port := mkCandidate SERVER_REFLEXIVE true 1 (lit "1") (lit "8.8.4.4") port (Some (lit "10.0.0.2", 5000)) 1000 in
  map (fun h => (cand_port h, cand_priority h)) (predict_candidates [c 4000; c 4002; c 4004] (known_addresses [c 4000; c 4002; c 4004]) new_predictor []).1 =
  [(4020, 744); (4018, 744); (4016, 744); (4014, 744); (4012, 744); (4010, 744); (4008, 744); (3998, 744);
   (4006, 744); (3999, 744); (4005, 744); (4001, 744); (4003, 744)].
Proof. vm_compute. reflexivity. Qed.

(** ** Fingerprints *)

Definition line_end (t : text) : Prop := Forall (fun c => c = carriage_return \/ c = newline) t.

(** Characters of fingerprints. *)
Definition hex_char (c : ascii) : bool := isdigit c || ((65 <=? code c) && (code c <=? 70)) || bool_decide (c = ":"%char).

Lemma hex_digit_code z : 0 <= z < 16 -> code (hex_digit z) = if z <? 10 then 48 + z else 55 + z.
Proof.
  intros H. unfold hex_digit. destruct (Z.ltb_spec z 10); [rewrite code_digit; lia|].
  assert (z = 10 \/ z = 11 \/ z = 12 \/ z = 13 \/ z = 14 \/ z = 15) as Hz by lia.
  by destruct Hz as [-> | [-> | [-> | [-> | [-> | ->]]]]].
Qed.

Lemma hex_digit_char z : 0 <= z < 16 -> hex_char (hex_digit z) = true.
Proof. intros H. unfold hex_char, isdigit. rewrite hex_digit_code by done. destruct (Z.ltb_spec z 10); lia. Qed.

Lemma byte_digits b : is_u8 b -> 0 <= b / 16 < 16 /\ 0 <= b mod 16 < 16.
Proof. unfold is_u8. intros. split; [split; [apply Z.div_pos; lia|apply Z.div_lt_upper_bound; lia]|apply Z.mod_pos_bound; lia]. Qed.

Lemma hex_pairs_chars md : bytes md -> Forall (fun c => hex_char c = true) (hex_pairs md).
Proof.
  induction 1 as [|b md Hb _ IH]; [constructor|]. cbn [hex_pairs]. destruct (byte_digits b Hb).
  do 2 (constructor; [by apply hex_digit_char|]). destruct md; [done|]. cbn [app lit list_ascii_of_string]. by constructor.
Qed.

Lemma hex_pairs_inj md md' : bytes md -> bytes md' -> hex_pairs md = hex_pairs md' -> md = md'.
Proof.
  intros Hm. revert md'. induction Hm as [|b md Hb Hm IH]; intros [|b' md'] Hm' E; try done.
  apply list.Forall_cons in Hm' as [Hb' Hm']. cbn [hex_pairs] in E. injection E as E1 E2 E3.
  destruct (byte_digits b Hb) as [B1 B2], (byte_digits b' Hb') as [B3 B4].
  assert (forall x y, 0 <= x < 16 -> 0 <= y < 16 -> hex_digit x = hex_digit y -> x = y) as Hinj.
  { intros x y Hx Hy E. apply (f_equal code) in E. rewrite !hex_digit_code in E by done.
    destruct (Z.ltb_spec x 10), (Z.ltb_spec y 10); lia. }
  apply Hinj in E1, E2; try done. f_equal.
  - rewrite (Z.div_mod b 16), (Z.div_mod b' 16) by lia. by rewrite E1, E2.
  - destruct md, md'; try done. apply IH; [done|]. exact (f_equal (@tl ascii) E3).
Qed.

(** The last place of a text that does not come again. *)
Lemma rfind_none c p s : c ∉ s -> rfind (c :: p) s = None.
Proof.
  induction s as [|d s IH]; [done|]. intros H. apply not_elem_of_cons in H as [Hd Hs]. cbn [rfind]. rewrite IH by done.
  cbn [starts_with]. by rewrite bool_decide_false.
Qed.

Lemma rfind_app p a s n : rfind p s = Some n -> rfind p (a ++ s) = Some (length a + n)%nat.
Proof. intros H. induction a as [|c a IH]; [done|]. cbn [app rfind length]. by rewrite IH. Qed.

Lemma hex_not_a fp : Forall (fun c => hex_char c = true) fp -> "a"%char ∉ fp.
Proof. intros H Hin%list_elem_of_In. rewrite List.Forall_forall in H. by apply H in Hin. Qed.

Lemma hex_not_end fp c : Forall (fun c => hex_char c = true) fp -> c ∈ fp -> c <> carriage_return /\ c <> newline.
Proof.
  intros H Hin%list_elem_of_In. rewrite List.Forall_forall in H. apply H in Hin. split; intros ->; by vm_compute in Hin.
Qed.

Lemma without_line_end_ok fp t : (forall c, c ∈ fp -> c <> carriage_return /\ c <> newline) -> line_end t ->
  without_line_end (fp ++ t) = fp.
Proof.
  intros Hf Ht. unfold without_line_end. rewrite rev_app_distr.
  set (f := fun c => bool_decide (c = carriage_return) || bool_decide (c = newline)).
  assert (forall a b, Forall (fun c => f c = true) a -> drop_while f (a ++ b) = drop_while f b) as Hdrop.
  { intros a b. induction 1 as [|c a Hc _ IH]; [done|]. cbn. by rewrite Hc. }
  rewrite Hdrop.
  2: { apply List.Forall_rev. eapply List.Forall_impl; [|exact Ht]. intros c [-> | ->]; done. }
  rewrite drop_while_none; [by rewrite rev_involutive|].
  intros c Hc. destruct (Hf c) as [H1 H2].
  - apply list_elem_of_In, in_rev. destruct (rev fp); [done|]. injection Hc as ->. by left.
  - subst f. cbn. by rewrite !bool_decide_false.
Qed.

Definition fingerprint_line (fp : text) : text := lit "a=fingerprint:sha-256 " ++ fp.

(** The description without the line end before the line of the fingerprint. *)
Definition without_last_end (sdp : text) : text :=
  match rev sdp with
  | c :: r => if bool_decide (c = newline) || bool_decide (c = carriage_return) then rev r else sdp
  | [] => sdp
  end.

(** The fingerprint that one peer puts into its description is the one that
    the other peer expects: from a description with the line of a certificate's
    digest at its end — whatever line end the line has kept on its way — the
    agent takes exactly the text of that digest and gives libnice what stood
    before it; and different digests have different texts. *)
Theorem fingerprint_carried (sdp : text) (md : list Z) (t : text) :
  bytes md -> line_end t ->
  split_fingerprint (sdp ++ fingerprint_line (hex_pairs md) ++ t) = Some (Some (hex_pairs md), without_last_end sdp) /\
  forall md', bytes md' -> hex_pairs md' = hex_pairs md -> md' = md.
Proof.
  intros Hm Ht. split; [|intros md' Hm' E; by apply hex_pairs_inj].
  pose proof (hex_pairs_chars md Hm) as Hc. set (fp := hex_pairs md) in *. clearbody fp.
  assert ("a"%char ∉ fp ++ t) as Ha.
  { apply not_elem_of_app. split; [by apply hex_not_a|]. intros Hin%list_elem_of_In. unfold line_end in Ht.
    rewrite List.Forall_forall in Ht. by apply Ht in Hin as [H|H]. }
  assert (rfind (lit "a=fingerprint:") (fingerprint_line fp ++ t) = Some 0%nat) as Hr.
  { unfold fingerprint_line. rewrite <- app_assoc. cbn [lit list_ascii_of_string app rfind].
    by rewrite (rfind_none _ _ _ Ha). }
  unfold split_fingerprint. rewrite (rfind_app _ _ _ _ Hr), Nat.add_0_r.
  assert (find_from (lit " ") (sdp ++ fingerprint_line fp ++ t) (length sdp) = Some (length sdp + 21)%nat) as ->.
  { unfold find_from. rewrite drop_app_length. destruct (Nat.leb_spec (length sdp) (length (sdp ++ fingerprint_line fp ++ t))) as [_|Hl].
    - reflexivity.
    - rewrite length_app in Hl. lia. }
  assert (drop (length sdp + 21 + 1) (sdp ++ fingerprint_line fp ++ t) = fp ++ t) as ->.
  { rewrite <- Nat.add_assoc, <- drop_drop, drop_app_length. reflexivity. }
  rewrite without_line_end_ok by (try done; intros c Hin; by apply (hex_not_end fp)).
  f_equal. f_equal. unfold without_last_end.
  destruct sdp as [|c sdp] using rev_ind; [done|]. clear IHsdp. rewrite rev_app_distr, length_app. cbn [rev app length].
  replace (length sdp + 1)%nat with (S (length sdp)) by lia.
  rewrite <- app_assoc. cbn [app].
  match goal with |- context [?l !! length sdp] => replace (l !! length sdp) with (Some c) by (symmetry; by apply list_lookup_middle) end.
  rewrite rev_involutive.
  destruct (bool_decide (c = newline) || bool_decide (c = carriage_return)); [apply take_app_length|].
  rewrite (cons_middle c sdp), app_assoc. replace (S (length sdp)) with (length (sdp ++ [c])) by (rewrite length_app; cbn; lia). apply take_app_length.
Qed.

Lemma fingerprint_carried_witness :
  split_fingerprint (Bench.remote_sdp) = Some (Some (hex_pairs ([1; 171] ++ replicate 30 0)), lit "m=video 9 x") /\
  split_fingerprint (unlines [lit "m=video 9 x"] ++ fingerprint_line (hex_pairs [1; 171]) ++ [newline]) =
    Some (Some (hex_pairs [1; 171]), without_last_end (unlines [lit "m=video 9 x"])).
Proof.
  split; [vm_compute; reflexivity|]. refine (proj1 (fingerprint_carried (unlines [lit "m=video 9 x"]) [1; 171] [newline] _ _)).
  - repeat (constructor; [unfold is_u8; lia|]). constructor.
  - constructor; [by right|constructor].
Defined.

(** ** Keys *)

Section keys.
Context {N L X : Type} {openssl : Dtls N L X}.

(** The two ends export the same bytes, for the same profile. *)
Definition same_export (d d' : AgentDtls L X) : Prop :=
  exists ssl ssl', ssl_ d = Some ssl /\ ssl_ d' = Some ssl' /\
    SSL_get_selected_srtp_profile ssl = SSL_get_selected_srtp_profile ssl' /\
    forall label len, SSL_export_keying_material ssl label len = SSL_export_keying_material ssl' label len.

Lemma cut_roles material key_len salt_len :
  let '(lk, ls, rk, rs) := cut_material material key_len salt_len true in
  cut_material material key_len salt_len false = (rk, rs, lk, ls).
Proof. reflexivity. Qed.

Lemma part_length (material : list Z) from len : 0 <= from -> 0 <= len -> from + len <= zlen material ->
  zlen (take (Z.to_nat len) (drop (Z.to_nat from) material)) = len.
Proof. intros. unfold zlen in *. rewrite length_take, length_drop. lia. Qed.

(** The parts are all of the material. *)
Lemma cut_covers material key_len salt_len : 0 <= key_len -> 0 <= salt_len -> zlen material = 2 * (key_len + salt_len) ->
  let '(lk, ls, rk, rs) := cut_material material key_len salt_len true in
  zlen lk = key_len /\ zlen ls = salt_len /\ zlen rk = key_len /\ zlen rs = salt_len /\ lk ++ ls ++ rk ++ rs = material.
Proof.
  intros Hk Hs Hl. unfold cut_material. rewrite !part_length by lia. split_and!; try done.
  etransitivity; [|apply (take_drop (Z.to_nat key_len) material)]. f_equal.
  etransitivity; [|apply (take_drop (Z.to_nat salt_len))]. f_equal. rewrite drop_drop.
  replace (Z.to_nat key_len + Z.to_nat salt_len)%nat with (Z.to_nat (key_len + salt_len)) by lia.
  etransitivity; [|apply (take_drop (Z.to_nat key_len))]. f_equal. rewrite drop_drop.
  replace (Z.to_nat (key_len + salt_len) + Z.to_nat key_len)%nat with (Z.to_nat (key_len + salt_len + key_len)) by lia.
  apply take_ge. rewrite length_drop. unfold zlen in Hl. lia.
Qed.

(** C16. The peer in the role of the client and the one in the role of the server
    take keys that mirror each other, whatever the profile: what one encrypts
    with the other decrypts with.  The keys have 16 bytes and the salts 12 or 14,
    and between them they use every exported byte once. *)
Theorem srtp_keys_mirror (client server : AgentDtls L X) (lk ls rk rs : list Z) :
  same_export client server ->
  dtls_handshake_done_ server = true ->
  (forall ssl label len m, SSL_export_keying_material ssl label len = Some m -> zlen m = len) ->
  ExportSrtpKeys true client = Some (lk, ls, rk, rs) ->
  ExportSrtpKeys false server = Some (rk, rs, lk, ls) /\
  zlen lk = 16 /\ zlen rk = 16 /\ zlen ls = zlen rs /\ (zlen ls = 12 \/ zlen ls = 14) /\
  exists material ssl, ssl_ client = Some ssl /\
    SSL_export_keying_material ssl "EXTRACTOR-dtls_srtp" (2 * (16 + zlen ls)) = Some material /\
    lk ++ ls ++ rk ++ rs = material.
Proof.
  intros (ssl & ssl' & E1 & E2 & Ep & Em) Hdone Hlen. unfold ExportSrtpKeys. rewrite E1, E2, Hdone. cbn [negb mbind option_bind].
  destruct (negb (dtls_handshake_done_ client)); [done|]. rewrite <- Ep.
  destruct (SSL_get_selected_srtp_profile ssl) as [profile|]; [|done]. cbn [mbind option_bind].
  assert (exists s, key_lengths profile = (16, s) /\ (s = 12 \/ s = 14)) as (s & -> & Hs).
  { unfold key_lengths. destruct (bool_decide _); [by exists 12; auto|]. destruct (_ || _); by exists 14; auto. }
  rewrite <- Em. destruct (SSL_export_keying_material ssl _ _) as [m|] eqn:E; [|done]. cbn [mbind option_bind].
  apply Hlen in E as Hm. pose proof (cut_covers m 16 s ltac:(lia) ltac:(lia) ltac:(lia)) as Hc.
  pose proof (cut_roles m 16 s) as Hr. destruct (cut_material m 16 s true) as [[[a b] c] d].
  intros [= <- <- <- <-]. destruct Hc as (H1 & H2 & H3 & H4 & H5). rewrite Hr. split_and!; try done; try lia.
  exists m, ssl. rewrite H2. done.
Qed.

End keys.

Section bench.
Import Bench.

Definition finished : AgentDtls bool (list Z) := mkDtls true (Some true) (Some [7]) (lit "07") true true (lit "01:AB") [].

Lemma srtp_keys_mirror_witness :
  exists lk ls rk rs, ExportSrtpKeys true finished = Some (lk, ls, rk, rs) /\
    ExportSrtpKeys false finished = Some (rk, rs, lk, ls) /\ zlen lk = 16.
Proof.
  do 4 eexists. split; [vm_compute; reflexivity|].
  assert (forall (ssl : bool) label len m, SSL_export_keying_material ssl label len = Some m -> zlen m = len) as Hlen.
  { cbn. intros _ _ len m. destruct (Z.ltb_spec len 0); [done|]. intros [= <-]. unfold zlen. rewrite length_map, length_seq. lia. }
  assert (same_export finished finished) as Hsame by (exists true, true; repeat split).
  destruct (srtp_keys_mirror finished finished _ _ _ _ Hsame eq_refl Hlen eq_refl) as (H1 & H2 & _).
  split; [exact H1|exact H2].
Defined.

End bench.
