(* ===== verification/RingBuffer.v ===== *)
(** * The ring buffer

    [RingBuffer] of [src/ringbuffer/ringbuffer.h]: an array with two indices,
    from which elements are moved out.  It is shown to be a first-in-first-out
    queue of one element less than its size.  [None] is an access beyond the
    array. *)

From S2P Require Import Prelude.

(** The values of an element type: a new one, and what a move leaves behind. *)
Class Movable (T : Type) := {
  default_value : T;
  moved_from : T -> T;
}.

(** src/ringbuffer/ringbuffer.h:102-106 [RingBuffer] *)
Record RingBuffer (T : Type) := mkRing {
  m_size : Z;
  m_front : Z;
  m_rear : Z;
  m_data : list T;
}.
Arguments mkRing {T}.
Arguments m_size {T}.
Arguments m_front {T}.
Arguments m_rear {T}.
Arguments m_data {T}.

Section ring.
Context {T : Type} {movable : Movable T}.

(** src/ringbuffer/ringbuffer.h:55-57 [RingBuffer::RingBuffer] *)
Definition new_ring (size : Z) : RingBuffer T :=
  mkRing size 0 0 (replicate (Z.to_nat size) default_value).

(** src/ringbuffer/ringbuffer.h:64-64 [RingBuffer::isEmpty] *)
Definition isEmpty (r : RingBuffer T) : bool := m_front r =? m_rear r.

(** src/ringbuffer/ringbuffer.h:66-66 [RingBuffer::isFull] *)
Definition isFull (r : RingBuffer T) : bool := m_front r =? u32 (m_rear r + 1) `mod` m_size r.

(** src/ringbuffer/ringbuffer.h:68-78 [RingBuffer::push] *)
Definition push (value : T) (r : RingBuffer T) : option (bool * RingBuffer T) :=
  if isFull r then Some (false, r) else
  data ← wr (m_data r) (m_rear r) value;
  Some (true, mkRing (m_size r) (m_front r) (u32 (m_rear r + 1) `mod` m_size r) data).

(** src/ringbuffer/ringbuffer.h:80-87 [RingBuffer::pop] *)
Definition pop (r : RingBuffer T) : option (option T * RingBuffer T) :=
  if isEmpty r then Some (None, r) else
  value ← rd (m_data r) (m_front r);
  data ← wr (m_data r) (m_front r) (moved_from value);
  Some (Some value, mkRing (m_size r) (u32 (m_front r + 1) `mod` m_size r) (m_rear r) data).

(** src/ringbuffer/ringbuffer.h:95-99 [RingBuffer::clear] *)
Definition clear (r : RingBuffer T) : RingBuffer T := mkRing (m_size r) 0 0 (m_data r).

(** ** The queue it stands for *)

Definition ring_ok (r : RingBuffer T) : Prop :=
  0 < m_size r < 4294967296 /\ 0 <= m_front r < m_size r /\ 0 <= m_rear r < m_size r /\
  zlen (m_data r) = m_size r.

(** How many elements are in the ring, and the place of the i-th. *)
Definition ring_count (r : RingBuffer T) : nat := Z.to_nat ((m_rear r - m_front r) `mod` m_size r).
Definition ring_place (r : RingBuffer T) (i : nat) : Z := (m_front r + Z.of_nat i) `mod` m_size r.

(** The elements, the oldest first. *)
Definition holds_queue (r : RingBuffer T) (l : list T) : Prop :=
  ring_ok r /\ length l = ring_count r /\
  forall i x, l !! i = Some x -> rd (m_data r) (ring_place r i) = Some x.

Lemma next_index i n : 0 <= i < n -> n < 4294967296 ->
  u32 (i + 1) `mod` n = (i + 1) `mod` n /\ 0 <= (i + 1) `mod` n < n.
Proof. intros Hi Hn. rewrite u32_id by (unfold is_u32; lia). split; [done|]. apply Z.mod_pos_bound. lia. Qed.

Lemma ring_count_lt r : ring_ok r -> Z.of_nat (ring_count r) < m_size r.
Proof.
  intros (Hs & _). unfold ring_count. pose proof (Z.mod_pos_bound (m_rear r - m_front r) (m_size r) ltac:(lia)). lia.
Qed.

Lemma ring_place_bound r i : ring_ok r -> 0 <= ring_place r i < m_size r.
Proof. intros (Hs & _). apply Z.mod_pos_bound. lia. Qed.

Lemma new_ring_ok size : 0 < size < 4294967296 -> holds_queue (new_ring size) [].
Proof.
  intros Hs. unfold holds_queue, ring_ok, ring_count, new_ring. cbn. unfold zlen. rewrite length_replicate.
  split_and!; try lia; try done.
Qed.

Lemma isEmpty_spec r l : holds_queue r l -> isEmpty r = bool_decide (l = []).
Proof.
  intros ((Hs & Hf & Hr & _) & Hl & _). unfold isEmpty, ring_count in *.
  destruct (Z.eqb_spec (m_front r) (m_rear r)) as [E|E].
  - rewrite E, Z.sub_diag, Z.mod_0_l in Hl by lia. destruct l; [done|done].
  - rewrite bool_decide_false; [done|]. intros ->.
    assert ((m_rear r - m_front r) `mod` m_size r = 0) as H0 by (pose proof (Z.mod_pos_bound (m_rear r - m_front r) (m_size r)); cbn in Hl; lia).
    apply Z.mod_divide in H0 as [k Hk]; [|lia]. assert (k = 0) by nia. subst. lia.
Qed.

Lemma isFull_spec r l : holds_queue r l -> isFull r = (zlen l =? m_size r - 1).
Proof.
  intros ((Hs & Hf & Hr & _) & Hl & _). unfold isFull, ring_count in *.
  destruct (next_index (m_rear r) (m_size r) Hr ltac:(lia)) as [-> _].
  pose proof (Z.mod_pos_bound (m_rear r - m_front r) (m_size r) ltac:(lia)) as Hb.
  assert (zlen l = (m_rear r - m_front r) `mod` m_size r) as -> by (unfold zlen; lia).
  set (n := m_size r) in *. set (f := m_front r) in *. set (e := m_rear r) in *.
  assert ((e + 1) `mod` n = if e + 1 =? n then 0 else e + 1) as ->.
  { destruct (Z.eqb_spec (e + 1) n) as [->|]; [apply Z.mod_same; lia|apply Z.mod_small; lia]. }
  assert ((e - f) `mod` n = if f <=? e then e - f else e - f + n) as ->.
  { destruct (Z.leb_spec f e); [apply Z.mod_small; lia|].
    rewrite <- (Z.mod_add _ 1) by lia. rewrite Z.mod_small; lia. }
  destruct (Z.eqb_spec (e + 1) n), (Z.leb_spec f e); lia.
Qed.

(** Different elements have different places. *)
Lemma ring_place_inj r i j :
  ring_ok r -> Z.of_nat i < m_size r -> Z.of_nat j < m_size r -> ring_place r i = ring_place r j -> i = j.
Proof.
  intros (Hs & _) Hi Hj E. unfold ring_place in E.
  assert (Z.of_nat i `mod` m_size r = Z.of_nat j `mod` m_size r) as E'.
  { replace (Z.of_nat i) with (m_front r + Z.of_nat i - m_front r) by lia.
    replace (Z.of_nat j) with (m_front r + Z.of_nat j - m_front r) by lia.
    by rewrite (Zminus_mod (m_front r + Z.of_nat i)), (Zminus_mod (m_front r + Z.of_nat j)), E. }
  rewrite !Z.mod_small in E' by lia. lia.
Qed.

(** Reading beside what was written. *)
Lemma rd_insert_ne (m : list T) a b v :
  0 <= a -> a <> b -> rd (<[Z.to_nat a := v]> m) b = rd m b.
Proof.
  intros Ha Hne. unfold rd, zlen. rewrite length_insert. case_match; [|done].
  apply list_lookup_insert_ne. lia.
Qed.

Lemma rd_insert_eq (m : list T) a v : 0 <= a < zlen m -> rd (<[Z.to_nat a := v]> m) a = Some v.
Proof.
  intros Ha. unfold rd, zlen in *. rewrite length_insert. replace (_ && _) with true by lia.
  apply list_lookup_insert_eq. lia.
Qed.

Lemma push_ok value r l :
  holds_queue r l ->
  exists r', push value r = Some (negb (zlen l =? m_size r - 1), r') /\ m_size r' = m_size r /\
    holds_queue r' (if zlen l =? m_size r - 1 then l else l ++ [value]).
Proof.
  intros H. pose proof H as (Hok & Hl & Hin). pose proof Hok as (Hs & Hf & Hr & Hd).
  unfold push. rewrite (isFull_spec r l H). destruct (Z.eqb_spec (zlen l) (m_size r - 1)) as [Hz|Hz]; [by exists r|].
  destruct (next_index (m_rear r) (m_size r) Hr ltac:(lia)) as [-> Hn].
  rewrite wr_Some by lia. cbn [mbind option_bind]. eexists. split; [done|]. split; [done|].
  pose proof (ring_count_lt r Hok) as Hc.
  assert (ring_count (mkRing (m_size r) (m_front r) ((m_rear r + 1) `mod` m_size r) (<[Z.to_nat (m_rear r) := value]> (m_data r)))
    = S (ring_count r)) as Hcount.
  { unfold ring_count in *. cbn. rewrite Zminus_mod_idemp_l.
    replace (m_rear r + 1 - m_front r) with ((m_rear r - m_front r) + 1) by lia.
    rewrite <- Zplus_mod_idemp_l. rewrite (Z.mod_small (_ + 1)); unfold zlen in Hz;
      pose proof (Z.mod_pos_bound (m_rear r - m_front r) (m_size r) ltac:(lia)); lia. }
  assert (ring_place r (ring_count r) = m_rear r) as Hlast.
  { unfold ring_place, ring_count. rewrite Z2Nat.id by (apply Z.mod_pos_bound; lia).
    rewrite Zplus_mod_idemp_r. replace (m_front r + (m_rear r - m_front r)) with (m_rear r) by lia. by apply Z.mod_small. }
  split; [|split; [rewrite length_app, Hcount; cbn; lia|]].
  - unfold ring_ok. cbn. unfold zlen. rewrite length_insert. split_and!; try lia. exact Hd.
  - intros i x Hi. unfold ring_place. cbn [m_front m_size m_data]. fold (ring_place r i).
    destruct (decide (i = length l)) as [->|Hne].
    + rewrite lookup_app_r, Nat.sub_diag in Hi by lia. injection Hi as <-.
      rewrite Hl, Hlast. apply rd_insert_eq. lia.
    + pose proof (lookup_lt_Some _ _ _ Hi) as Hi'. rewrite length_app in Hi'. cbn in Hi'.
      rewrite lookup_app_l in Hi by lia. rewrite rd_insert_ne; [by apply Hin|lia|].
      intros E. rewrite <- Hlast in E. apply ring_place_inj in E; [lia|done|lia|lia].
Qed.

Lemma pop_ok r l :
  holds_queue r l ->
  exists r', pop r = Some (head l, r') /\ m_size r' = m_size r /\ holds_queue r' (tail l).
Proof.
  intros H. pose proof H as (Hok & Hl & Hin). pose proof Hok as (Hs & Hf & Hr & Hd).
  unfold pop. rewrite (isEmpty_spec r l H). destruct l as [|x l]; [by exists r|].
  rewrite bool_decide_false by done.
  assert (rd (m_data r) (m_front r) = Some x) as ->.
  { specialize (Hin O x eq_refl). unfold ring_place in Hin. by rewrite Z.add_0_r, Z.mod_small in Hin. }
  cbn [mbind option_bind]. rewrite wr_Some by lia. cbn [mbind option_bind].
  destruct (next_index (m_front r) (m_size r) Hf ltac:(lia)) as [-> Hn].
  eexists. split; [done|]. split; [done|]. pose proof (ring_count_lt r Hok) as Hc. cbn [length] in Hl.
  assert (ring_count (mkRing (m_size r) ((m_front r + 1) `mod` m_size r) (m_rear r) (<[Z.to_nat (m_front r) := moved_from x]> (m_data r)))
    = length l) as Hcount.
  { unfold ring_count in *. cbn. rewrite Zminus_mod_idemp_r.
    replace (m_rear r - (m_front r + 1)) with ((m_rear r - m_front r) + -1) by lia.
    rewrite <- Zplus_mod_idemp_l. pose proof (Z.mod_pos_bound (m_rear r - m_front r) (m_size r) ltac:(lia)).
    rewrite (Z.mod_small (_ + -1)); lia. }
  split; [|split; [by rewrite Hcount|]].
  - unfold ring_ok. cbn. unfold zlen. rewrite length_insert. split_and!; try lia. exact Hd.
  - intros i y Hi. cbn [tail] in Hi. pose proof (lookup_lt_Some _ _ _ Hi) as Hi'.
    specialize (Hin (S i) y Hi). unfold ring_place in *. cbn [m_front m_size m_data].
    rewrite Zplus_mod_idemp_l. replace (m_front r + 1 + Z.of_nat i) with (m_front r + Z.of_nat (S i)) by lia.
    rewrite rd_insert_ne; [exact Hin|lia|]. intros E.
    assert (ring_place r 0 = ring_place r (S i)) as E' by (unfold ring_place; rewrite <- E, Z.add_0_r; by apply Z.mod_small).
    apply ring_place_inj in E'; [done|done|lia|lia].
Qed.

Lemma clear_ok r l : holds_queue r l -> holds_queue (clear r) [].
Proof.
  intros ((Hs & Hf & Hr & Hd) & _). unfold holds_queue, ring_ok, ring_count, clear. cbn.
  split_and!; try lia; try done. 
Qed.

(** ** Runs *)

Inductive ring_op := OpPush (value : T) | OpPop | OpClear.

(** What an operation returns. *)
Inductive ring_result := Pushed (done : bool) | Popped (value : option T) | Cleared.

Definition ring_step (op : ring_op) (r : RingBuffer T) : option (ring_result * RingBuffer T) :=
  match op with
  | OpPush value => '(ok, r) ← push value r; Some (Pushed ok, r)
  | OpPop => '(value, r) ← pop r; Some (Popped value, r)
  | OpClear => Some (Cleared, clear r)
  end.

(** The queue that takes [capacity] elements. *)
Definition queue_step (capacity : Z) (op : ring_op) (l : list T) : ring_result * list T :=
  match op with
  | OpPush value => if zlen l =? capacity then (Pushed false, l) else (Pushed true, l ++ [value])
  | OpPop => (Popped (head l), tail l)
  | OpClear => (Cleared, [])
  end.

Fixpoint ring_run (ops : list ring_op) (r : RingBuffer T) : option (list ring_result * RingBuffer T) :=
  match ops with
  | [] => Some ([], r)
  | op :: ops => '(x, r) ← ring_step op r; '(xs, r) ← ring_run ops r; Some (x :: xs, r)
  end.

Fixpoint queue_run (capacity : Z) (ops : list ring_op) (l : list T) : list ring_result * list T :=
  match ops with
  | [] => ([], l)
  | op :: ops => let '(x, l) := queue_step capacity op l in
                 let '(xs, l) := queue_run capacity ops l in (x :: xs, l)
  end.

Lemma ring_step_ok op r l :
  holds_queue r l ->
  exists r', ring_step op r = Some ((queue_step (m_size r - 1) op l).1, r') /\ m_size r' = m_size r /\
    holds_queue r' (queue_step (m_size r - 1) op l).2.
Proof.
  intros H. destruct op as [value| |]; cbn [ring_step queue_step].
  - destruct (push_ok value r l H) as (r' & -> & E & H'). exists r'. cbn [mbind option_bind].
    by destruct (zlen l =? m_size r - 1).
  - destruct (pop_ok r l H) as (r' & -> & E & H'). by exists r'.
  - exists (clear r). split; [done|]. split; [done|]. by eapply clear_ok.
Qed.

Lemma ring_run_ok ops : forall r l, holds_queue r l ->
  exists r', ring_run ops r = Some ((queue_run (m_size r - 1) ops l).1, r') /\
    holds_queue r' (queue_run (m_size r - 1) ops l).2.
Proof.
  induction ops as [|op ops IH]; intros r l H; cbn [ring_run queue_run]; [by exists r|].
  destruct (ring_step_ok op r l H) as (r1 & -> & E & H1). cbn [mbind option_bind].
  destruct (queue_step _ op l) as [x l1]. cbn [fst snd] in *.
  destruct (IH r1 l1 H1) as (r2 & -> & H2). rewrite E in *. exists r2.
  by destruct (queue_run _ ops l1).
Qed.
End ring.

#[global] Arguments ring_op : clear implicits.
#[global] Arguments ring_result : clear implicits.

(** ** Property *)

(** The ring buffer is a bounded queue: any sequence of operations on a new
    ring of a size below 2^32 stays inside the array and returns what a
    first-in-first-out queue for one element less returns — also after the
    indices have wrapped around any number of times — and the elements are then
    those of the queue. *)
Theorem ring_refines_queue {T} {movable : Movable T} (size : Z) (ops : list (ring_op T)) :
  0 < size < 4294967296 ->
  exists r, ring_run ops (new_ring size) = Some ((queue_run (size - 1) ops []).1, r) /\
    holds_queue r (queue_run (size - 1) ops []).2.
Proof. intros Hs. exact (ring_run_ok ops (new_ring size) [] (new_ring_ok size Hs)). Qed.

#[export] Instance Z_movable : Movable Z := {| default_value := 0; moved_from x := x |}.

(** A ring of three places, around which the indices go. *)
Definition ring_sample : list (ring_op Z) :=
  [OpPush 1; OpPush 2; OpPush 3; OpPop; OpPush 4; OpPop; OpPush 5; OpPop; OpPop; OpPop].

Lemma ring_refines_queue_witness :
  exists r, ring_run ring_sample (new_ring 3) =
      Some ([Pushed true; Pushed true; Pushed false; Popped (Some 1); Pushed true; Popped (Some 2); Pushed true;
             Popped (Some 4); Popped (Some 5); Popped None], r) /\
    holds_queue r [].
Proof. apply (ring_refines_queue 3 ring_sample). lia. Defined.
