(* ===== verification/SeqNum.v ===== *)
(** * Wrapping sequence numbers

    The templates of [src/common/rtc_base/numerics/mod_ops.h],
    [sequence_number_util.h], [sequence_number_unwrapper.h] and
    [src/common/sequence_number_compare.h], at a type of [W] values (65536 for
    [uint16_t], 2^32 for [uint32_t]) and a modulus [M] ([M = 0]: the type's own
    wrap-around). *)

From S2P Require Import Prelude.

(** ** Operations *)

(** Subtraction of two unsigned values: types narrower than [int] are promoted
    and subtracted as [int]; the others wrap. *)
Definition promoted_sub (W a b : Z) : Z :=
  if W <=? 65536 then a - b else (a - b) `mod` W.

(** src/common/rtc_base/numerics/mod_ops.h:20-26 [Add] *)
Definition Add (M a b : Z) : Z :=
  let t := u64 (M - b `mod` M) in
  let res := u64 (a - t) in
  if a <? t then u64 (res + M) else res.

(** src/common/rtc_base/numerics/mod_ops.h:28-33 [Subtract] *)
Definition Subtract (M a b : Z) : Z :=
  let sub := b `mod` M in
  if a <? sub then u64 (M - (sub - a)) else a - sub.

(** src/common/rtc_base/numerics/mod_ops.h:59-76 [ForwardDiff] *)
Definition ForwardDiff (W M a b : Z) : Z :=
  if 0 <? M then
    (if a <=? b then b - a else M - (a - b)) `mod` W
  else (b - a) `mod` W.

(** src/common/rtc_base/numerics/mod_ops.h:102-119 [ReverseDiff] *)
Definition ReverseDiff (W M a b : Z) : Z :=
  if 0 <? M then
    (if b <=? a then a - b else M - (b - a)) `mod` W
  else (a - b) `mod` W.

(** src/common/rtc_base/numerics/mod_ops.h:124-129 [MinDiff] *)
Definition MinDiff (W M a b : Z) : Z :=
  Z.min (ForwardDiff W M a b) (ReverseDiff W M a b).

(** src/common/rtc_base/numerics/sequence_number_util.h:27-48 [AheadOrAt] *)
Definition AheadOrAt (W M a b : Z) : bool :=
  if 0 <? M then
    let maxDist := M / 2 in
    if negb (Z.testbit M 0) && (MinDiff W M a b =? maxDist) then b <? a
    else ForwardDiff W M b a <=? maxDist
  else
    let maxDist := (W - 1) / 2 + 1 in
    if promoted_sub W a b =? maxDist then b <? a
    else ForwardDiff W 0 b a <? maxDist.

(** src/common/rtc_base/numerics/sequence_number_util.h:55-60 [AheadOf] *)
Definition AheadOf (W M a b : Z) : bool := negb (a =? b) && AheadOrAt W M a b.

(** src/common/rtc_base/numerics/sequence_number_util.h:66-69 [AscendingSeqNumComp] *)
Definition AscendingSeqNumComp (W M a b : Z) : bool := AheadOf W M a b.

(** src/common/rtc_base/numerics/sequence_number_util.h:75-78 [DescendingSeqNumComp] *)
Definition DescendingSeqNumComp (W M a b : Z) : bool := AheadOf W M b a.

(** src/common/sequence_number_compare.h:7-22 [IsNewer] *)
Definition IsNewer (W value prev_value : Z) : bool :=
  let kBreakpoint := Z.shiftr (W - 1) 1 + 1 in
  if promoted_sub W value prev_value =? kBreakpoint then prev_value <? value
  else negb (value =? prev_value) &&
       ((value - prev_value) `mod` W <? kBreakpoint).

(** src/common/sequence_number_compare.h:26-29 [IsNewerSequenceNumber] *)
Definition IsNewerSequenceNumber (sequence_number prev : Z) : bool :=
  IsNewer 65536 (u16 sequence_number) (u16 prev).

(** src/common/sequence_number_compare.h:33-35 [IsNewerTimestamp] *)
Definition IsNewerTimestamp (timestamp prev : Z) : bool :=
  IsNewer 4294967296 (u32 timestamp) (u32 prev).

(** src/common/sequence_number_compare.h:37-42 [LatestSequenceNumber] *)
Definition LatestSequenceNumber (s1 s2 : Z) : Z :=
  if IsNewerSequenceNumber s1 s2 then s1 else s2.

(** src/common/sequence_number_compare.h:44-46 [LatestTimestamp] *)
Definition LatestTimestamp (t1 t2 : Z) : Z :=
  if IsNewerTimestamp t1 t2 then t1 else t2.

(** src/common/rtc_base/numerics/sequence_number_unwrapper.h:70-74 [SeqNumUnwrapper] *)
Record SeqNumUnwrapper := mkUnwrapper {
  last_unwrapped_ : Z;
  last_value_ : option Z;
}.

Definition fresh_unwrapper : SeqNumUnwrapper := mkUnwrapper 0 None.

(** src/common/rtc_base/numerics/sequence_number_unwrapper.h:60-68 [SeqNumUnwrapper::Delta] *)
Definition Delta (W M last_value new_value : Z) : Z :=
  let kBackwardAdjustment := if M =? 0 then (W - 1) + 1 else M in
  let result := ForwardDiff W M last_value new_value in
  if AheadOrAt W M new_value last_value then result
  else result - kBackwardAdjustment.

(** src/common/rtc_base/numerics/sequence_number_unwrapper.h:35-44 [SeqNumUnwrapper::Unwrap] *)
Definition Unwrap (W M : Z) (u : SeqNumUnwrapper) (value : Z)
    : Z * SeqNumUnwrapper :=
  let lu := match last_value_ u with
            | None => value
            | Some lv => last_unwrapped_ u + Delta W M lv value
            end in
  (lu, mkUnwrapper lu (Some value)).

(** src/common/rtc_base/numerics/sequence_number_unwrapper.h:47-52 [SeqNumUnwrapper::PeekUnwrap] *)
Definition PeekUnwrap (W M : Z) (u : SeqNumUnwrapper) (value : Z) : Z :=
  match last_value_ u with
  | None => value
  | Some lv => last_unwrapped_ u + Delta W M lv value
  end.

(** src/common/rtc_base/numerics/sequence_number_unwrapper.h:56-59 [SeqNumUnwrapper::Reset] *)
Definition Reset (u : SeqNumUnwrapper) : SeqNumUnwrapper := mkUnwrapper 0 None.

(** ** The comparison at the width of the type ([M = 0])

    [W] is an even number of values; the two instances used by the program are
    [uint16_t] and [uint32_t]. *)

Class EvenWidth (W : Z) := {
  half : Z;
  half_pos : 0 < half;
  half_twice : W = 2 * half;
}.
#[global] Arguments half W {_}.

#[export] Instance EvenWidth_u8 : EvenWidth 256.
Proof. exists 128; lia. Defined.
#[export] Instance EvenWidth_u16 : EvenWidth 65536.
Proof. exists 32768; lia. Defined.
#[export] Instance EvenWidth_u32 : EvenWidth 4294967296.
Proof. exists 2147483648; lia. Defined.

Section width.
Context {W : Z} `{!EvenWidth W}.
Implicit Types a b c : Z.

(** Forward distance from [b] to [a]. *)
Definition dist (a b : Z) : Z := (a - b) `mod` W.

Local Abbreviation inW x := (0 <= x < W).

Lemma half_div : (W - 1) / 2 + 1 = half W.
Proof.
  pose proof half_pos (W:=W). pose proof half_twice (W:=W).
  replace (W - 1) with (1 + (half W - 1) * 2) by lia.
  rewrite Z.div_add by lia. change (1 / 2) with 0. lia.
Qed.

Lemma dist_cases a b :
  inW a -> inW b -> dist a b = if b <=? a then a - b else a - b + W.
Proof. intros. apply mod_sub_cases; lia. Qed.

Lemma AheadOf_spec a b :
  inW a -> inW b ->
  AheadOf W 0 a b = true <->
  (0 < dist a b < half W \/ (dist a b = half W /\ b < a)).
Proof.
  intros Ha Hb. unfold AheadOf, AheadOrAt, ForwardDiff.
  change (0 <? 0) with false. cbv iota. rewrite half_div.
  change ((a - b) `mod` W) with (dist a b).
  pose proof half_pos (W:=W) as Hp. pose proof half_twice (W:=W) as Ht.
  pose proof (dist_cases a b Ha Hb) as Hd.
  destruct (b <=? a) eqn:Hle; b2p;
    destruct (promoted_sub W a b =? half W) eqn:E; b2p;
    unfold promoted_sub in E; change ((a - b) `mod` W) with (dist a b) in E;
    destruct (W <=? 65536); lia.
Qed.

Lemma dist_range a b : 0 <= dist a b < W.
Proof.
  pose proof half_pos (W:=W). pose proof half_twice (W:=W).
  apply mod_range. lia.
Qed.

Lemma AheadOf_irrefl a : AheadOf W 0 a a = false.
Proof. unfold AheadOf. by rewrite Z.eqb_refl. Qed.

(** Two different numbers are always ordered, one way only. *)
Lemma AheadOf_total a b :
  inW a -> inW b -> a <> b -> AheadOf W 0 a b = negb (AheadOf W 0 b a).
Proof.
  intros Ha Hb Hne.
  pose proof half_pos (W:=W). pose proof half_twice (W:=W).
  pose proof (AheadOf_spec a b Ha Hb) as H1.
  pose proof (AheadOf_spec b a Hb Ha) as H2.
  rewrite dist_cases in H1, H2 by done.
  destruct (AheadOf W 0 a b), (AheadOf W 0 b a); try done; exfalso;
    destruct (b <=? a) eqn:?, (a <=? b) eqn:?; b2p; intuition lia.
Qed.

Lemma dist_window r i j :
  dist ((r + i) `mod` W) ((r + j) `mod` W) = (i - j) `mod` W.
Proof.
  pose proof half_pos (W:=W). pose proof half_twice (W:=W).
  unfold dist. rewrite <- Zminus_mod. f_equal. lia.
Qed.

(** Inside a window shorter than half the number space the wrapping order is
    the numeric order of the offsets. *)
Lemma AheadOf_window r i j :
  Z.abs (i - j) < half W ->
  AheadOf W 0 ((r + i) `mod` W) ((r + j) `mod` W) = (j <? i).
Proof.
  intros Hij.
  pose proof half_pos (W:=W). pose proof half_twice (W:=W).
  assert (0 < W) by lia.
  apply eq_iff_eq_true. rewrite AheadOf_spec by (apply mod_range; lia).
  rewrite dist_window, Z.ltb_lt.
  destruct (Z.leb_spec 0 (i - j)).
  - rewrite Z.mod_small by lia. lia.
  - rewrite <- (Z_mod_plus_full (i - j) 1 W), Z.mod_small by lia. lia.
Qed.

Lemma AheadOrAt_AheadOf a b :
  inW a -> inW b -> AheadOrAt W 0 a b = (a =? b) || AheadOf W 0 a b.
Proof.
  intros Ha Hb. unfold AheadOf. destruct (Z.eqb_spec a b) as [->|]; [|done].
  pose proof half_pos (W:=W). pose proof half_twice (W:=W).
  unfold AheadOrAt, ForwardDiff. change (0 <? 0) with false. cbv iota.
  rewrite half_div, Z.sub_diag, Z.mod_0_l by lia.
  unfold promoted_sub. rewrite Z.sub_diag, Z.mod_0_l by lia.
  destruct (W <=? 65536); replace (0 =? half W) with false by lia;
    simpl; lia.
Qed.

(** [IsNewer] of the RTP history and [AheadOf] are the same order. *)
Lemma IsNewer_AheadOf a b :
  inW a -> inW b -> IsNewer W a b = AheadOf W 0 a b.
Proof.
  intros Ha Hb. unfold IsNewer, AheadOf, AheadOrAt, ForwardDiff.
  change (0 <? 0) with false. cbv iota.
  rewrite Z.shiftr_div_pow2 by lia. change (2 ^ 1) with 2. rewrite half_div.
  pose proof half_pos (W:=W). pose proof half_twice (W:=W).
  destruct (promoted_sub W a b =? half W) eqn:E; [|done].
  destruct (Z.eqb_spec a b) as [->|]; [|by destruct (b <? a)].
  simpl. lia.
Qed.

(** ** The unwrapper *)

Lemma Delta_cases a b :
  inW a -> inW b ->
  Delta W 0 a b =
    if (dist b a <? half W) || ((dist b a =? half W) && (a <? b))
    then dist b a else dist b a - W.
Proof.
  intros Ha Hb. unfold Delta. change (0 =? 0) with true. cbv iota.
  rewrite AheadOrAt_AheadOf by done.
  unfold ForwardDiff. change (0 <? 0) with false. cbv iota.
  change ((b - a) `mod` W) with (dist b a).
  pose proof half_pos (W:=W). pose proof half_twice (W:=W).
  pose proof (AheadOf_spec b a Hb Ha) as H1.
  pose proof (dist_range b a) as H3.
  assert (b = a <-> dist b a = 0) as H2.
  { rewrite dist_cases by done. case_if; lia. }
  destruct (AheadOf W 0 b a), (Z.eqb_spec b a); simpl;
    case_if; try lia; destruct E; b2p; intuition lia.
Qed.

Lemma Delta_mod a b :
  inW a -> inW b -> (a + Delta W 0 a b) `mod` W = b.
Proof.
  intros Ha Hb. rewrite Delta_cases by done.
  pose proof half_pos (W:=W). pose proof half_twice (W:=W).
  assert ((a + dist b a) `mod` W = b) as Hm.
  { unfold dist. rewrite Zplus_mod_idemp_r.
    replace (a + (b - a)) with b by lia. by apply Z.mod_small. }
  case_if; [done|].
  rewrite <- (Z_mod_plus_full _ 1 W).
  by replace (a + (dist b a - W) + 1 * W) with (a + dist b a) by lia.
Qed.

Lemma Delta_bound a b :
  inW a -> inW b -> - half W <= Delta W 0 a b <= half W.
Proof.
  intros Ha Hb. rewrite Delta_cases by done.
  pose proof half_pos (W:=W). pose proof half_twice (W:=W).
  pose proof (dist_range b a). case_if; lia.
Qed.

(** The step computed is the true step whenever that is shorter than half the
    number space. *)
Lemma Delta_exact x y :
  Z.abs (y - x) < half W -> Delta W 0 (x `mod` W) (y `mod` W) = y - x.
Proof.
  intros Hxy.
  pose proof half_pos (W:=W). pose proof half_twice (W:=W).
  rewrite Delta_cases by (apply mod_range; lia).
  unfold dist. rewrite <- Zminus_mod.
  destruct (Z.leb_spec 0 (y - x)).
  - rewrite Z.mod_small by lia. case_if; lia.
  - rewrite <- (Z_mod_plus_full (y - x) 1 W), Z.mod_small by lia.
    case_if; lia.
Qed.

(** Feeding a list of values to the unwrapper. *)
Fixpoint unwrap_all (u : SeqNumUnwrapper) (vs : list Z) : list Z :=
  match vs with
  | [] => []
  | v :: vs' => let '(x, u') := Unwrap W 0 u v in x :: unwrap_all u' vs'
  end.

(** Consecutive elements differ by less than half the number space. *)
Fixpoint steps_below_half (x : Z) (xs : list Z) : Prop :=
  match xs with
  | [] => True
  | y :: ys => Z.abs (y - x) < half W /\ steps_below_half y ys
  end.

Lemma unwrap_all_step base x xs :
  steps_below_half x xs ->
  unwrap_all (mkUnwrapper (x - base) (Some (x `mod` W)))
             (map (fun y => y `mod` W) xs)
  = map (fun y => y - base) xs.
Proof.
  revert x; induction xs as [|y ys IH]; intros x; [done|].
  cbn [steps_below_half map unwrap_all]. intros [Hd Hs].
  unfold Unwrap. cbn [last_value_ last_unwrapped_].
  rewrite Delta_exact by done.
  replace (x - base + (y - x)) with (y - base) by lia.
  f_equal. by apply IH.
Qed.

(** The unwrapped value is congruent to the received one. *)
Definition unwrapper_ok (u : SeqNumUnwrapper) : Prop :=
  match last_value_ u with
  | None => True
  | Some v => inW v /\ last_unwrapped_ u `mod` W = v
  end.

Lemma Unwrap_ok u v :
  inW v -> unwrapper_ok u ->
  let '(x, u') := Unwrap W 0 u v in
  unwrapper_ok u' /\ x `mod` W = v /\ last_unwrapped_ u' = x /\
  last_value_ u' = Some v.
Proof.
  intros Hv Hu. unfold Unwrap, unwrapper_ok in *. cbn.
  destruct (last_value_ u) as [lv|]; [|rewrite Z.mod_small by lia; tauto].
  destruct Hu as [Hlv Hm].
  assert ((last_unwrapped_ u + Delta W 0 lv v) `mod` W = v) as ->; [|tauto].
  rewrite <- Zplus_mod_idemp_l, Hm. by apply Delta_mod.
Qed.
End width.

#[global] Opaque AheadOf Delta.

(** The two widths in use. *)
Abbreviation AheadOf16 := (AheadOf 65536 0).
Abbreviation AheadOrAt16 := (AheadOrAt 65536 0).
Abbreviation AheadOf32 := (AheadOf 4294967296 0).
Abbreviation ForwardDiff16 := (ForwardDiff 65536 0).
Abbreviation ReverseDiff16 := (ReverseDiff 65536 0).
Abbreviation Unwrap16 := (Unwrap 65536 0).

Lemma ForwardDiff16_eq a b : ForwardDiff16 a b = u16 (b - a).
Proof. reflexivity. Qed.

(** The order on wrapping sequence numbers is total and asymmetric on the
    whole number space, irreflexive, and is the same order in both of the
    program's implementations of it ([AheadOf] and [IsNewer]). *)
Theorem seqnum_order_total (W : Z) `{!EvenWidth W} (a b : Z) :
  0 <= a < W -> 0 <= b < W ->
  (if a =? b then AheadOf W 0 a b = false
   else AheadOf W 0 a b = negb (AheadOf W 0 b a)) /\
  IsNewer W a b = AheadOf W 0 a b.
Proof.
  intros Ha Hb. split; [|by apply IsNewer_AheadOf].
  destruct (Z.eqb_spec a b) as [->|]; [apply AheadOf_irrefl|].
  by apply AheadOf_total.
Qed.

Lemma seqnum_order_total_witness :
  AheadOf 65536 0 2 65533 = true /\ AheadOf 65536 0 65533 2 = false.
Proof.
  destruct (seqnum_order_total 65536 2 65533 ltac:(lia) ltac:(lia)) as [H _].
  simpl in H. split; [vm_compute; reflexivity|vm_compute; reflexivity].
Defined.

(** Used as the key order of a map, the comparison is only sound inside
    half of the number space: there it is the numeric order of the offsets,
    hence transitive, whatever the wrap-around; outside it is not transitive. *)
Theorem seqnum_order_window (W : Z) `{!EvenWidth W} (r i j : Z) :
  Z.abs (i - j) < half W ->
  DescendingSeqNumComp W 0 ((r + i) `mod` W) ((r + j) `mod` W) = (i <? j).
Proof.
  intros H. unfold DescendingSeqNumComp. apply AheadOf_window. lia.
Qed.

Lemma seqnum_order_window_witness :
  DescendingSeqNumComp 65536 0 65530 4 = true.
Proof.
  exact (seqnum_order_window (EvenWidth0:=EvenWidth_u16) 65536 65530 0 10 ltac:(repeat split; vm_compute; reflexivity)).
Defined.

Example seqnum_order_not_transitive :
  AheadOf 65536 0 20000 0 = true /\ AheadOf 65536 0 40000 20000 = true /\
  AheadOf 65536 0 40000 0 = false.
Proof. repeat split; vm_compute; reflexivity. Qed.

(** The unwrapper refines the true 64-bit numbering: when consecutive
    numbers differ by less than half the number space, in either direction, the
    values it returns are the true numbers up to the constant fixed by the
    first one. *)
Theorem unwrap_refines (W : Z) `{!EvenWidth W} (x : Z) (xs : list Z) :
  steps_below_half (W:=W) x xs ->
  unwrap_all (W:=W) fresh_unwrapper (map (fun y => y `mod` W) (x :: xs))
  = map (fun y => y - (x - x `mod` W)) (x :: xs).
Proof.
  intros H. cbn [map unwrap_all]. unfold Unwrap. cbn.
  f_equal; [lia|].
  replace (x `mod` W) with (x - (x - x `mod` W)) at 1 by lia.
  by apply unwrap_all_step.
Qed.

Lemma unwrap_refines_witness :
  unwrap_all (W:=65536) fresh_unwrapper [65534; 65535; 1; 0; 5]
  = [65534; 65535; 65537; 65536; 65541].
Proof.
  exact (unwrap_refines (EvenWidth0:=EvenWidth_u16) 65536 65534 [65535; 65537; 65536; 65541]
           ltac:(repeat split; vm_compute; reflexivity)).
Defined.
