(* ===== verification/ByteIO.v ===== *)
(** * Integers in byte buffers

    [ByteReader] and [ByteWriter] of [src/common/byte_io.h]: integers of [B]
    bytes, big and little endian, signed and unsigned, and the hand-unrolled
    specialisations for 2, 4 and 8 bytes.  A pointer is a buffer and a position
    in it. *)

From S2P Require Import Prelude.

(** ** Operations *)

(** [for (i = 0; i < B; ++i) val |= data[i] << ((B - 1 - i) * 8)]. *)
Fixpoint be_loop (data : list Z) (p i : Z) (n : nat) (val : Z) : option Z :=
  match n with
  | O => Some val
  | S n' =>
      d ← rd data (p + i);
      be_loop data p (i + 1) n' (Z.lor val (Z.shiftl d (8 * Z.of_nat n')))
  end.

(** src/common/byte_io.h:83-88 [ByteReader::InternalReadBigEndian] *)
Definition ReadBigEndian (B : nat) (data : list Z) (p : Z) : option Z :=
  be_loop data p 0 B 0.

(** [for (i = 0; i < B; ++i) val |= data[i] << (i * 8)]. *)
Fixpoint le_loop (data : list Z) (p i : Z) (n : nat) (val : Z) : option Z :=
  match n with
  | O => Some val
  | S n' =>
      d ← rd data (p + i);
      le_loop data p (i + 1) n' (Z.lor val (Z.shiftl d (8 * i)))
  end.

(** src/common/byte_io.h:90-95 [ByteReader::InternalReadLittleEndian] *)
Definition ReadLittleEndian (B : nat) (data : list Z) (p : Z) : option Z :=
  le_loop data p 0 B 0.

(** The bytes [data[0] ... data[B-1]] that a write stores. *)
Fixpoint be_bytes (B : nat) (val : Z) : list Z :=
  match B with
  | O => []
  | S B' => u8 (Z.shiftr val (8 * Z.of_nat B')) :: be_bytes B' val
  end.

Fixpoint le_bytes_from (i : Z) (n : nat) (val : Z) : list Z :=
  match n with
  | O => []
  | S n' => u8 (Z.shiftr val (8 * i)) :: le_bytes_from (i + 1) n' val
  end.

(** src/common/byte_io.h:171-176 [ByteWriter::WriteBigEndian] *)
Definition WriteBigEndian (B : nat) (data : list Z) (p val : Z)
    : option (list Z) := wrs data p (be_bytes B val).

(** src/common/byte_io.h:178-183 [ByteWriter::WriteLittleEndian] *)
Definition WriteLittleEndian (B : nat) (data : list Z) (p val : Z)
    : option (list Z) := wrs data p (le_bytes_from 0 B val).

(** The specialisations: every access written out. *)

(** src/common/byte_io.h:270-273 [ByteReader<T, 2>::ReadBigEndian] *)
Definition ReadBigEndian2 (data : list Z) (p : Z) : option Z :=
  b0 ← rd data p; b1 ← rd data (p + 1);
  Some (Z.lor (Z.shiftl b0 8) b1).

(** src/common/byte_io.h:301-316 [ByteReader<T, 4>::ReadBigEndian] *)
Definition ReadBigEndian4 (data : list Z) (p : Z) : option Z :=
  b0 ← rd data p; b1 ← rd data (p + 1); b2 ← rd data (p + 2);
  b3 ← rd data (p + 3);
  Some (Z.lor (Z.lor (Z.lor (Z.shiftl b0 24) (Z.shiftl b1 16))
                     (Z.shiftl b2 8)) b3).

(** src/common/byte_io.h:344-362 [ByteReader<T, 8>::ReadBigEndian] *)
Definition ReadBigEndian8 (data : list Z) (p : Z) : option Z :=
  b0 ← rd data p; b1 ← rd data (p + 1); b2 ← rd data (p + 2);
  b3 ← rd data (p + 3); b4 ← rd data (p + 4); b5 ← rd data (p + 5);
  b6 ← rd data (p + 6); b7 ← rd data (p + 7);
  Some (Z.lor (Z.lor (Z.lor (Z.lor (Z.lor (Z.lor (Z.lor
          (Z.shiftl b0 56) (Z.shiftl b1 48)) (Z.shiftl b2 40))
          (Z.shiftl b3 32)) (Z.shiftl b4 24)) (Z.shiftl b5 16))
          (Z.shiftl b6 8)) b7).

(** src/common/byte_io.h:284-288 [ByteWriter<T, 2>::WriteBigEndian] *)
Definition WriteBigEndian2 (data : list Z) (p val : Z) : option (list Z) :=
  data ← wr data p (u8 (Z.shiftr val 8));
  wr data (p + 1) (u8 val).

(** src/common/byte_io.h:323-329 [ByteWriter<T, 4>::WriteBigEndian] *)
Definition WriteBigEndian4 (data : list Z) (p val : Z) : option (list Z) :=
  data ← wr data p (u8 (Z.shiftr val 24));
  data ← wr data (p + 1) (u8 (Z.shiftr val 16));
  data ← wr data (p + 2) (u8 (Z.shiftr val 8));
  wr data (p + 3) (u8 val).

(** src/common/byte_io.h:367-377 [ByteWriter<T, 8>::WriteBigEndian] *)
Definition WriteBigEndian8 (data : list Z) (p val : Z) : option (list Z) :=
  data ← wr data p (u8 (Z.shiftr val 56));
  data ← wr data (p + 1) (u8 (Z.shiftr val 48));
  data ← wr data (p + 2) (u8 (Z.shiftr val 40));
  data ← wr data (p + 3) (u8 (Z.shiftr val 32));
  data ← wr data (p + 4) (u8 (Z.shiftr val 24));
  data ← wr data (p + 5) (u8 (Z.shiftr val 16));
  data ← wr data (p + 6) (u8 (Z.shiftr val 8));
  wr data (p + 7) (u8 val).

(** The signed reader at a type of [w] bits. *)

(** src/common/byte_io.h:121-139 [ByteReader::ReinterpretAsSigned] *)
Definition ReinterpretAsSigned (w unsigned_val : Z) : Z :=
  let kUnsignedHighestBitMask := Z.shiftl 1 (w - 1) in
  let kSignedHighestBitMask := - Z.shiftl 1 (w - 1) in
  if negb (Z.land unsigned_val kUnsignedHighestBitMask =? 0)
  then Z.lor (Z.land unsigned_val (Z.lnot kUnsignedHighestBitMask))
             kSignedHighestBitMask
  else unsigned_val.

(** src/common/byte_io.h:146-158 [ByteReader::SignExtend] *)
Definition SignExtend (w : Z) (B : nat) (val : Z) : Z :=
  let kMsb := u8 (Z.shiftr val ((Z.of_nat B - 1) * 8)) in
  if negb (Z.land kMsb 0x80 =? 0) then
    let kUsedBitsMask := Z.shiftl 1 ((Z.of_nat B `mod` (w / 8)) * 8) - 1 in
    Z.lor ((Z.lnot kUsedBitsMask) `mod` 2 ^ w) val
  else val.

(** src/common/byte_io.h:104-108 [ByteReader::ReadBigEndian] *)
Definition ReadBigEndianSigned (w : Z) (B : nat) (data : list Z) (p : Z)
    : option Z :=
  v ← ReadBigEndian B data p;
  Some (ReinterpretAsSigned w
          (if 8 * Z.of_nat B <? w then SignExtend w B v else v)).

(** src/common/byte_io.h:192-194 [ByteWriter::WriteBigEndian] *)
Definition WriteBigEndianSigned (w : Z) (B : nat) (data : list Z) (p val : Z)
    : option (list Z) :=
  WriteBigEndian B data p (val `mod` 2 ^ w).

(** ** Values of byte strings *)

Fixpoint be_val (l : list Z) : Z :=
  match l with
  | [] => 0
  | b :: l' => b * 256 ^ zlen l' + be_val l'
  end.

Lemma lor_add k a b : 0 <= k -> 0 <= b < 2 ^ k -> Z.lor (a * 2 ^ k) b = a * 2 ^ k + b.
Proof.
  intros Hk Hb. rewrite <- Z.lxor_lor, <- Z.add_nocarry_lxor; [done| |];
  apply Z.bits_inj'; intros n Hn; rewrite Z.land_spec, Z.bits_0;
  destruct (Z.ltb_spec n k).
  all: try (rewrite Z.mul_pow2_bits_low by lia; done).
  all: rewrite <- (Z.mod_small b (2 ^ k)), Z.mod_pow2_bits_high by lia;
    apply andb_false_r.
Qed.

Lemma pow256 n : 0 <= n -> 256 ^ n = 2 ^ (8 * n).
Proof. intros. by rewrite Z.pow_mul_r by lia. Qed.

Lemma be_val_range l : bytes l -> 0 <= be_val l < 256 ^ zlen l.
Proof.
  induction 1 as [|b l Hb Hl IH]; cbn [be_val]; [done|].
  rewrite zlen_cons, Z.pow_add_r by (pose proof (zlen_nonneg l); lia).
  unfold is_u8 in Hb. nia.
Qed.

Lemma bytes_app l k : bytes (l ++ k) <-> bytes l /\ bytes k.
Proof. apply Forall_app. Qed.

Lemma bytes_cons b l : bytes (b :: l) <-> is_u8 b /\ bytes l.
Proof. unfold bytes. apply Forall_cons_iff. Qed.

Lemma bytes_take n l : bytes l -> bytes (take n l).
Proof. apply Forall_take. Qed.

Lemma bytes_drop n l : bytes l -> bytes (drop n l).
Proof. apply Forall_drop. Qed.

Lemma be_bytes_length B v : length (be_bytes B v) = B.
Proof. induction B; cbn; auto. Qed.

Lemma be_bytes_zlen B v : zlen (be_bytes B v) = Z.of_nat B.
Proof. unfold zlen. by rewrite be_bytes_length. Qed.
#[export] Hint Rewrite be_bytes_length be_bytes_zlen : len.

Lemma be_bytes_bytes B v : bytes (be_bytes B v).
Proof. induction B; constructor; [apply u8_range|done]. Qed.
#[export] Hint Resolve be_bytes_bytes : rtc.

Lemma be_val_be_bytes B v : be_val (be_bytes B v) = v `mod` 256 ^ Z.of_nat B.
Proof.
  induction B as [|B IH]; cbn [be_bytes be_val].
  - by rewrite Z.pow_0_r, Z.mod_1_r.
  - rewrite IH, be_bytes_zlen. unfold u8.
    rewrite Z.shiftr_div_pow2, <- pow256 by lia.
    replace (256 ^ Z.of_nat (S B)) with (256 ^ Z.of_nat B * 256)
      by (rewrite Nat2Z.inj_succ, Z.pow_succ_r; lia).
    rewrite Z.rem_mul_r by lia. lia.
Qed.

Lemma be_bytes_be_val l : bytes l -> be_bytes (length l) (be_val l) = l.
Proof.
  induction 1 as [|b l Hb Hl IH]; [done|]. cbn [length be_bytes be_val].
  pose proof (be_val_range l Hl) as Hr. fold (zlen l).
  assert (0 < 256 ^ zlen l) as Hp by lia.
  f_equal.
  - rewrite Z.shiftr_div_pow2, <- pow256 by (pose proof (zlen_nonneg l); lia).
    rewrite Z.div_add_l, Z.div_small, Z.add_0_r by lia. by apply u8_id.
  - transitivity (be_bytes (length l) (be_val l)); [|exact IH]. clear IH Hb.
    assert (forall n, (n <= length l)%nat ->
      be_bytes n (b * 256 ^ zlen l + be_val l) = be_bytes n (be_val l)) as H;
      [|by apply H].
    induction n as [|n IHn]; intros Hn; [done|]. cbn [be_bytes]. f_equal; [|apply IHn; lia].
    rewrite !Z.shiftr_div_pow2, <- !pow256 by lia. unfold u8.
    replace (zlen l) with (Z.of_nat n + (1 + (zlen l - 1 - Z.of_nat n))) by lia.
    rewrite !Z.pow_add_r by (unfold zlen in *; lia).
    replace (b * (256 ^ Z.of_nat n * (256 ^ 1 * 256 ^ (zlen l - 1 - Z.of_nat n))))
      with (b * 256 ^ (zlen l - 1 - Z.of_nat n) * 256 * 256 ^ Z.of_nat n) by lia.
    rewrite Z.div_add_l by lia.
    rewrite Z.add_comm, Z_mod_plus_full. done.
Qed.

Lemma be_bytes_mod B v : be_bytes B (v `mod` 256 ^ Z.of_nat B) = be_bytes B v.
Proof.
  rewrite <- be_val_be_bytes.
  rewrite <- (be_bytes_length B v) at 1. apply be_bytes_be_val, be_bytes_bytes.
Qed.

Lemma be_loop_spec l : forall a p i c val k,
  bytes l -> zlen a = p + i -> val = k * 256 ^ zlen l ->
  be_loop (a ++ l ++ c) p i (length l) val = Some (val + be_val l).
Proof.
  induction l as [|b l IH]; intros a p i c val k Hb Ha Hv; cbn [length be_loop be_val].
  - f_equal. lia.
  - apply bytes_cons in Hb as [Hb Hl]. pose proof (zlen_nonneg l) as Hnn.
    rewrite rd_app_r, Ha, Z.sub_diag by lia. rewrite rd_app_l by (rewrite zlen_cons; lia).
    replace (rd (b :: l) 0) with (Some b) by (symmetry; apply (rd_nat (b :: l) 0)).
    cbn [mbind option_bind].
    fold (zlen l). rewrite Z.shiftl_mul_pow2, <- pow256 by lia.
    assert (Z.lor val (b * 256 ^ zlen l) = (k * 256 + b) * 256 ^ zlen l) as ->.
    { rewrite Hv, zlen_cons, Z.pow_add_r, Z.pow_1_r by lia.
      rewrite (pow256 (zlen l)) by lia.
      replace (k * (256 * 2 ^ (8 * zlen l))) with (k * 2 ^ 8 * 2 ^ (8 * zlen l)) by lia.
      rewrite <- !Z.shiftl_mul_pow2, <- Z.shiftl_lor, !Z.shiftl_mul_pow2 by lia.
      rewrite lor_add by (unfold is_u8 in Hb; lia). done. }
    replace (a ++ (b :: l) ++ c) with ((a ++ [b]) ++ l ++ c) by (by rewrite <- app_assoc).
    erewrite IH; [|done|rewrite zlen_app, zlen_cons, zlen_nil; lia|done].
    rewrite Hv, zlen_cons, Z.pow_add_r by lia. f_equal. lia.
Qed.

Lemma split_mid {A} (m : list A) p n :
  0 <= p -> p + Z.of_nat n <= zlen m ->
  exists a l c, m = a ++ l ++ c /\ zlen a = p /\ length l = n.
Proof.
  intros H0 H1. exists (take (Z.to_nat p) m), (take n (drop (Z.to_nat p) m)),
    (drop n (drop (Z.to_nat p) m)).
  rewrite !take_drop. split_and!; [done|len|len].
Qed.

(** Reading inside the buffer yields the value of the bytes there. *)
Lemma ReadBigEndian_mid a l c :
  bytes l -> ReadBigEndian (length l) (a ++ l ++ c) (zlen a) = Some (be_val l).
Proof. intros. unfold ReadBigEndian. by erewrite (be_loop_spec l _ _ _ _ _ 0) by (done || lia). Qed.

Lemma ReadBigEndian_Some B m p :
  bytes m -> 0 <= p -> p + Z.of_nat B <= zlen m ->
  ReadBigEndian B m p = Some (be_val (take B (drop (Z.to_nat p) m))).
Proof.
  intros Hm H0 H1.
  destruct (split_mid m p B H0 H1) as (a & l & c & -> & <- & <-).
  apply bytes_app in Hm as [_ [Hl _]%bytes_app].
  rewrite ReadBigEndian_mid by done. unfold zlen.
  by rewrite Nat2Z.id, drop_app_length, take_app_length.
Qed.

Lemma ReadBigEndian_range B m p v :
  bytes m -> 0 <= p -> p + Z.of_nat B <= zlen m ->
  ReadBigEndian B m p = Some v -> 0 <= v < 256 ^ Z.of_nat B.
Proof.
  intros Hm H0 H1. rewrite ReadBigEndian_Some by done. intros [= <-].
  replace (Z.of_nat B) with (zlen (take B (drop (Z.to_nat p) m))) by len.
  by apply be_val_range, bytes_take, bytes_drop.
Qed.

Lemma WriteBigEndian_mid B a b c v :
  length b = B -> WriteBigEndian B (a ++ b ++ c) (zlen a) v
                  = Some (a ++ be_bytes B v ++ c).
Proof. intros. apply wrs_app. by rewrite be_bytes_length. Qed.

(** ** Little endian *)

Lemma le_loop_spec l : forall a p i c val,
  bytes l -> zlen a = p + i -> 0 <= i -> 0 <= val < 256 ^ i ->
  le_loop (a ++ l ++ c) p i (length l) val
  = Some (val + be_val (rev l) * 256 ^ i).
Proof.
  induction l as [|b l IH]; intros a p i c val Hb Ha Hi Hv; cbn [length le_loop].
  - f_equal. cbn. lia.
  - apply bytes_cons in Hb as [Hb Hl].
    rewrite rd_app_r, Ha, Z.sub_diag by lia.
    rewrite rd_app_l by (rewrite zlen_cons; pose proof (zlen_nonneg l); lia).
    replace (rd (b :: l) 0) with (Some b) by (symmetry; apply (rd_nat (b :: l) 0)).
    cbn [mbind option_bind].
    rewrite Z.shiftl_mul_pow2, Z.lor_comm, lor_add by (rewrite <- ?pow256; lia).
    rewrite <- pow256 by lia.
    replace (a ++ (b :: l) ++ c) with ((a ++ [b]) ++ l ++ c)
      by (by rewrite <- app_assoc).
    assert (256 ^ (i + 1) = 256 ^ i * 256) as Hp by (rewrite Z.pow_add_r; lia).
    rewrite IH; [|done|rewrite zlen_app, zlen_cons, zlen_nil; lia|lia|
      unfold is_u8 in Hb; nia].
    f_equal. cbn [rev]. rewrite Hp.
    assert (forall k, be_val (k ++ [b]) = be_val k * 256 + b) as ->.
    { induction k as [|x k IHk]; cbn [app be_val]; [rewrite zlen_nil; lia|].
      rewrite IHk, zlen_app, zlen_cons, zlen_nil, Z.pow_add_r
        by (pose proof (zlen_nonneg k); lia). lia. }
    lia.
Qed.

Lemma le_bytes_length n v : forall i, length (le_bytes_from i n v) = n.
Proof. induction n; intros; cbn; auto. Qed.

Lemma le_bytes_rev n v : rev (le_bytes_from 0 n v) = be_bytes n v.
Proof.
  assert (forall n i, 0 <= i -> le_bytes_from i (S n) v
    = le_bytes_from i n v ++ [u8 (Z.shiftr v (8 * (i + Z.of_nat n)))]) as Hs.
  { clear n. induction n as [|n IH]; intros i Hi.
    - cbn [le_bytes_from app]. by replace (i + Z.of_nat 0) with i by lia.
    - cbn [le_bytes_from app].
      f_equal. specialize (IH (i + 1) ltac:(lia)). cbn [le_bytes_from] in IH.
      rewrite IH. do 5 f_equal. lia. }
  induction n as [|n IH]; [done|].
  rewrite Hs, rev_app_distr by lia. cbn [rev app be_bytes]. by rewrite IH.
Qed.

Lemma le_bytes_bytes n v : bytes (le_bytes_from 0 n v).
Proof.
  assert (forall i, bytes (le_bytes_from i n v)) as H; [|apply H].
  induction n; intros i; [constructor|constructor; [apply u8_range|apply IHn]].
Qed.

(** ** Sign extension *)

Lemma lor_lnot_add k x : 0 <= k -> 0 <= x < 2 ^ k ->
  Z.lor (- 2 ^ k) x = x - 2 ^ k.
Proof.
  intros Hk Hx. replace (- 2 ^ k) with (-1 * 2 ^ k) by lia.
  rewrite lor_add by done. lia.
Qed.

Lemma land_pow2_eq0 x k : 0 <= k ->
  (Z.land x (2 ^ k) =? 0) = negb (Z.testbit x k).
Proof.
  intros Hk. apply eq_iff_eq_true. rewrite Z.eqb_eq, negb_true_iff.
  split.
  - intros H. assert (Z.testbit (Z.land x (2 ^ k)) k = false) as Hb
      by (by rewrite H, Z.bits_0).
    rewrite Z.land_spec, Z.pow2_bits_true, andb_true_r in Hb by lia. done.
  - intros H. apply Z.bits_inj'. intros n Hn. rewrite Z.land_spec, Z.bits_0.
    destruct (Z.eq_dec n k) as [->|]; [by rewrite H|].
    rewrite Z.pow2_bits_false by lia. apply andb_false_r.
Qed.

Lemma testbit_top k x : 0 <= k -> 0 <= x < 2 ^ (k + 1) ->
  Z.testbit x k = (2 ^ k <=? x).
Proof.
  intros Hk Hx. rewrite Z.pow_add_r in Hx by lia. change (2 ^ 1) with 2 in Hx.
  apply eq_iff_eq_true. rewrite Z.testbit_true, Z.leb_le by lia.
  assert (0 < 2 ^ k) by lia.
  split; intros H1.
  - destruct (Z.le_gt_cases (2 ^ k) x); [done|].
    rewrite Z.div_small in H1 by lia. done.
  - replace (x / 2 ^ k) with 1; [done|].
    apply Z.div_unique with (x - 2 ^ k); lia.
Qed.

(** [ReinterpretAsSigned] is the two's complement value. *)
Lemma ReinterpretAsSigned_spec w x : 1 <= w -> 0 <= x < 2 ^ w ->
  ReinterpretAsSigned w x = if x <? 2 ^ (w - 1) then x else x - 2 ^ w.
Proof.
  intros Hw Hx. unfold ReinterpretAsSigned.
  rewrite !Z.shiftl_1_l.
  rewrite land_pow2_eq0, negb_involutive by lia.
  assert (2 ^ w = 2 * 2 ^ (w - 1)) as Hp
    by (rewrite <- Z.pow_succ_r by lia; f_equal; lia).
  rewrite testbit_top by (replace (w - 1 + 1) with w by lia; lia).
  destruct (Z.leb_spec (2 ^ (w - 1)) x); [|by replace (x <? 2 ^ (w - 1)) with true by lia].
  replace (x <? 2 ^ (w - 1)) with false by lia.
  assert (Z.land x (Z.lnot (2 ^ (w - 1))) = x - 2 ^ (w - 1)) as ->.
  { rewrite <- Z.ldiff_land. symmetry. apply Z.sub_nocarry_ldiff.
    apply Z.bits_inj'. intros n Hn. rewrite Z.ldiff_spec, Z.bits_0.
    destruct (Z.eq_dec n (w - 1)) as [->|].
    - rewrite (testbit_top _ x) by (replace (w - 1 + 1) with w by lia; lia).
      replace (2 ^ (w - 1) <=? x) with true by lia. apply andb_false_r.
    - rewrite Z.pow2_bits_false by lia. done. }
  rewrite Z.lor_comm, lor_lnot_add by lia. lia.
Qed.

Lemma SignExtend_spec w B x :
  8 * Z.of_nat B < w -> (1 <= B)%nat -> 8 * (w / 8) = w ->
  0 <= x < 256 ^ Z.of_nat B ->
  SignExtend w B x =
    if x <? 2 ^ (8 * Z.of_nat B - 1) then x else x - 256 ^ Z.of_nat B + 2 ^ w.
Proof.
  intros HB H1 Hw Hx. unfold SignExtend.
  rewrite pow256 in * by lia. remember (8 * Z.of_nat B) as k eqn:Hk.
  change 0x80 with (2 ^ 7). rewrite land_pow2_eq0, negb_involutive by lia.
  assert (Z.testbit (u8 (Z.shiftr x ((Z.of_nat B - 1) * 8))) 7
    = Z.testbit x (k - 1)) as ->.
  { unfold u8. change 256 with (2 ^ 8).
    rewrite Z.mod_pow2_bits_low, Z.shiftr_spec by lia. f_equal. lia. }
  rewrite testbit_top by (replace (k - 1 + 1) with k by lia; lia).
  destruct (Z.leb_spec (2 ^ (k - 1)) x); [|by replace (x <? 2 ^ (k - 1)) with true by lia].
  replace (x <? 2 ^ (k - 1)) with false by lia.
  rewrite (Z.mod_small (Z.of_nat B)) by lia.
  replace (Z.of_nat B * 8) with k by lia. rewrite Z.shiftl_1_l.
  replace (Z.lnot (2 ^ k - 1)) with (- 2 ^ k) by (unfold Z.lnot; lia).
  assert ((- 2 ^ k) `mod` 2 ^ w = (2 ^ (w - k) - 1) * 2 ^ k) as ->.
  { rewrite <- (Z_mod_plus_full _ 1), Z.mod_small.
    - rewrite Z.mul_sub_distr_r, <- Z.pow_add_r by lia.
      replace (w - k + k) with w by lia. lia.
    - pose proof (Z.pow_lt_mono_r 2 k w). lia. }
  rewrite lor_add by lia.
  rewrite Z.mul_sub_distr_r, <- Z.pow_add_r by lia.
  replace (w - k + k) with w by lia. lia.
Qed.

(** ** Reading and writing in sequence *)

(** At position [p] of the buffer [m] the bytes that remain are [l]. *)
Definition At (m : list Z) (p : Z) (l : list Z) : Prop :=
  0 <= p /\ drop (Z.to_nat p) m = l /\ p + zlen l = zlen m.

Lemma At_start m : At m 0 m.
Proof. split_and!; [lia|done|lia]. Qed.

Lemma At_split m p l : At m p l -> exists a, m = a ++ l /\ zlen a = p.
Proof.
  intros (H0 & H1 & H2). exists (take (Z.to_nat p) m).
  pose proof (zlen_nonneg l). split; [by rewrite <- H1, take_drop|len].
Qed.

Lemma At_app m p a l : At m p (a ++ l) -> At m (p + zlen a) l.
Proof.
  intros (b & -> & <-)%At_split. pose proof (zlen_nonneg a). pose proof (zlen_nonneg b).
  split_and!; [lia| |rewrite !zlen_app; lia].
  rewrite app_assoc, <- zlen_app. unfold zlen. by rewrite Nat2Z.id, drop_app_length.
Qed.

Lemma At_len m p l : At m p l -> zlen l = zlen m - p.
Proof. intros (? & ? & ?). lia. Qed.

(** Reading an integer that was written there. *)
Lemma At_read B m p v r :
  At m p (be_bytes B v ++ r) ->
  ReadBigEndian B m p = Some (v `mod` 256 ^ Z.of_nat B) /\ At m (p + Z.of_nat B) r.
Proof.
  intros H. pose proof (At_app _ _ _ _ H) as H1. rewrite be_bytes_zlen in H1.
  split; [|done]. apply At_split in H as (a & -> & <-).
  pose proof (ReadBigEndian_mid a (be_bytes B v) r ltac:(auto with rtc)) as R.
  by rewrite be_bytes_length, be_val_be_bytes in R.
Qed.

Lemma At_read_u32 m p v r : is_u32 v -> At m p (be_bytes 4 v ++ r) ->
  ReadBigEndian 4 m p = Some v /\ At m (p + 4) r.
Proof.
  intros Hv [H ?]%At_read. split; [|done]. rewrite H. f_equal. by apply u32_id.
Qed.

Lemma At_read_u16 m p v r : is_u16 v -> At m p (be_bytes 2 v ++ r) ->
  ReadBigEndian 2 m p = Some v /\ At m (p + 2) r.
Proof.
  intros Hv [H ?]%At_read. split; [|done]. rewrite H. f_equal. by apply u16_id.
Qed.

Lemma At_rd m p b r : At m p (b :: r) -> rd m p = Some b /\ At m (p + 1) r.
Proof.
  intros H. pose proof (At_app m p [b] r H) as H1.
  apply At_split in H as (a & -> & <-). split; [|done].
  rewrite rd_app_r, Z.sub_diag by lia. apply (rd_nat (b :: r) 0).
Qed.

(** Read the next byte or integer of what [H : At m p l] describes, in the
    goal. *)
Ltac at_norm H :=
  cbn [app] in H;
  change (Z.of_nat 1) with 1 in H; change (Z.of_nat 2) with 2 in H;
  change (Z.of_nat 3) with 3 in H; change (Z.of_nat 4) with 4 in H;
  rewrite <- ?Z.add_assoc in H;
  repeat match type of H with
  | At ?m (0 + ?b) ?l => change (At m b l) in H
  | At _ ?p _ =>
      match p with
      | context [Zpos ?a + Zpos ?b] =>
          let v := eval vm_compute in (Zpos a + Zpos b) in
          change (Zpos a + Zpos b) with v in H
      end
  end.
(** The literal positions of the goal. *)
Ltac pos_norm :=
  cbn [mbind option_bind]; cbv zeta; rewrite <- ?Z.add_assoc;
  repeat match goal with
  | |- context [0 + Zpos ?b] => change (0 + Zpos b) with (Zpos b)
  | |- context [Zpos ?a + Zpos ?b] =>
      let v := eval vm_compute in (Zpos a + Zpos b) in
      change (Zpos a + Zpos b) with v
  end.
Ltac at_rd H := apply At_rd in H as [-> H]; at_norm H.
Ltac at_u32 H := apply At_read_u32 in H as [-> H]; [|done]; at_norm H.
Ltac at_u16 H := apply At_read_u16 in H as [-> H]; [|done]; at_norm H.

(** A block of writes at the end of what has been written so far. *)
Lemma wrs_next (w r bs : list Z) p :
  p = zlen w -> (length bs <= length r)%nat ->
  wrs (w ++ r) p bs = Some ((w ++ bs) ++ drop (length bs) r).
Proof.
  intros -> H. rewrite <- (take_drop (length bs) r) at 1.
  rewrite wrs_app by len. by rewrite <- app_assoc.
Qed.

Lemma WriteBigEndian_next B (w r : list Z) p v :
  p = zlen w -> (B <= length r)%nat ->
  WriteBigEndian B (w ++ r) p v = Some ((w ++ be_bytes B v) ++ drop B r).
Proof.
  intros -> H. unfold WriteBigEndian.
  rewrite wrs_next by (rewrite ?be_bytes_length; done). by rewrite be_bytes_length.
Qed.

(** ** Properties *)

(** An unsigned integer of any number of bytes, written and read back at
    the same place in either byte order, is the integer truncated to that many
    bytes; the write changes the [B] bytes it covers and no other, and is
    undefined exactly when it leaves the buffer. *)
Theorem byteio_roundtrip (B : nat) (m : list Z) (p val : Z) :
  bytes m -> 0 <= p -> (1 <= B)%nat ->
  match WriteBigEndian B m p val, WriteLittleEndian B m p val with
  | Some m1, Some m2 =>
      p + Z.of_nat B <= zlen m /\
      ReadBigEndian B m1 p = Some (val `mod` 256 ^ Z.of_nat B) /\
      ReadLittleEndian B m2 p = Some (val `mod` 256 ^ Z.of_nat B) /\
      m1 = take (Z.to_nat p) m ++ be_bytes B val ++ drop (Z.to_nat p + B) m /\
      m2 = take (Z.to_nat p) m ++ rev (be_bytes B val)
             ++ drop (Z.to_nat p + B) m
  | None, None => zlen m < p + Z.of_nat B
  | _, _ => False
  end.
Proof.
  intros Hm Hp HB. unfold WriteBigEndian, WriteLittleEndian.
  destruct (Z.le_gt_cases (p + Z.of_nat B) (zlen m)).
  - rewrite !wrs_Some by (rewrite ?be_bytes_zlen; unfold zlen in *;
      rewrite ?le_bytes_length; lia).
    rewrite be_bytes_length, le_bytes_length.
    assert (zlen (take (Z.to_nat p) m) = p) as Ht by len.
    assert (rev (be_bytes B val) = le_bytes_from 0 B val) as Hr
      by (by rewrite <- le_bytes_rev, rev_involutive).
    split_and!; [done| | |done|by rewrite Hr].
    + rewrite <- be_val_be_bytes.
      pose proof (ReadBigEndian_mid (take (Z.to_nat p) m) (be_bytes B val)
        (drop (Z.to_nat p + B) m) ltac:(auto with rtc)) as R.
      by rewrite be_bytes_length, Ht in R.
    + rewrite <- be_val_be_bytes, <- le_bytes_rev.
      pose proof (le_loop_spec (le_bytes_from 0 B val) (take (Z.to_nat p) m) p 0
        (drop (Z.to_nat p + B) m) 0 (le_bytes_bytes _ _)) as R.
      rewrite le_bytes_length in R. unfold ReadLittleEndian.
      rewrite R by lia. f_equal. lia.
  - rewrite !wrs_None; [done|..]; rewrite ?be_bytes_zlen; unfold zlen in *;
      rewrite ?le_bytes_length; lia.
Qed.

Lemma byteio_roundtrip_witness :
  WriteBigEndian 3 [1; 2; 3; 4; 5] 1 0x12345678 = Some [1; 0x34; 0x56; 0x78; 5]
  /\ ReadBigEndian 3 [1; 0x34; 0x56; 0x78; 5] 1 = Some 0x345678.
Proof.
  pose proof (byteio_roundtrip 3 [1; 2; 3; 4; 5] 1 0x12345678
    ltac:(repeat constructor; unfold is_u8; lia) ltac:(lia) ltac:(lia)) as H.
  vm_compute in H. split; [reflexivity|exact (proj1 (proj2 H))].
Defined.

(** A signed integer of [B] bytes of a type of [w] bits is read back as the
    value written: the sign extension and the two's complement
    reinterpretation are right for every value that fits, negative ones
    included, at the native width and below it. *)
Theorem byteio_signed_roundtrip (w : Z) (B : nat) (a b c : list Z) (val : Z) :
  (1 <= B)%nat -> 8 * Z.of_nat B <= w -> 8 * (w / 8) = w ->
  length b = B -> - 2 ^ (8 * Z.of_nat B - 1) <= val < 2 ^ (8 * Z.of_nat B - 1) ->
  (m ← WriteBigEndianSigned w B (a ++ b ++ c) (zlen a) val;
   ReadBigEndianSigned w B m (zlen a)) = Some val.
Proof.
  intros HB HBw Hw Hb Hv. unfold WriteBigEndianSigned, ReadBigEndianSigned.
  rewrite WriteBigEndian_mid by done. cbn [mbind option_bind].
  rewrite <- (be_bytes_length B (val `mod` 2 ^ w)) at 1.
  rewrite ReadBigEndian_mid by auto with rtc. cbn [mbind option_bind]. f_equal.
  rewrite be_val_be_bytes, pow256 by lia.
  remember (8 * Z.of_nat B) as k eqn:Hk.
  assert (2 ^ k = 2 * 2 ^ (k - 1)) as Hk2
    by (rewrite <- Z.pow_succ_r by lia; f_equal; lia).
  assert (2 ^ w = 2 ^ (w - k) * 2 ^ k) as Hwk
    by (rewrite <- Z.pow_add_r by lia; f_equal; lia).
  assert (2 ^ w = 2 * 2 ^ (w - 1)) as Hw2
    by (rewrite <- Z.pow_succ_r by lia; f_equal; lia).
  assert (0 < 2 ^ (w - k)) by (apply Z.pow_pos_nonneg; lia).
  assert (0 < 2 ^ (k - 1)) by (apply Z.pow_pos_nonneg; lia).
  assert ((val `mod` 2 ^ w) `mod` 2 ^ k = val `mod` 2 ^ k) as ->.
  { rewrite Hwk, Z.mul_comm, Z.rem_mul_r by lia.
    rewrite Z.mul_comm, Z_mod_plus_full. apply Z.mod_mod. lia. }
  assert (exists x, val `mod` 2 ^ k = x /\ 0 <= x < 2 ^ k /\
    ((x = val /\ x < 2 ^ (k - 1)) \/ (x = val + 2 ^ k /\ 2 ^ (k - 1) <= x)))
    as (x & -> & Hx & Hxv).
  { destruct (Z.leb_spec 0 val).
    - exists val. rewrite Z.mod_small; lia.
    - exists (val + 2 ^ k). rewrite <- (Z_mod_plus_full _ 1), Z.mod_small; lia. }
  assert (2 ^ (k - 1) <= 2 ^ (w - 1)) by (apply Z.pow_le_mono_r; lia).
  destruct (Z.ltb_spec k w).
  - assert (2 ^ k <= 2 ^ (w - 1)) by (apply Z.pow_le_mono_r; lia).
    rewrite SignExtend_spec by (rewrite ?pow256, <- ?Hk by lia; done || lia).
    rewrite pow256, <- Hk by lia.
    destruct (Z.ltb_spec x (2 ^ (k - 1)));
      rewrite ReinterpretAsSigned_spec by lia; case_if; lia.
  - replace w with k by lia. rewrite ReinterpretAsSigned_spec by lia.
    case_if; lia.
Qed.

Lemma byteio_signed_roundtrip_witness :
  (m ← WriteBigEndianSigned 32 3 [9; 9; 9; 9] 1 (-5);
   ReadBigEndianSigned 32 3 m 1) = Some (-5).
Proof.
  exact (byteio_signed_roundtrip 32 3 [9] [9; 9; 9] [] (-5) ltac:(lia) ltac:(lia)
    eq_refl eq_refl ltac:(lia)).
Defined.

(** The hand-unrolled specialisations for 2, 4 and 8 bytes are the generic
    loops, on every buffer and at every position, reads and writes outside the
    buffer included. *)
Theorem byteio_specialisations (m : list Z) (p val : Z) :
  ReadBigEndian2 m p = ReadBigEndian 2 m p /\
  ReadBigEndian4 m p = ReadBigEndian 4 m p /\
  ReadBigEndian8 m p = ReadBigEndian 8 m p /\
  WriteBigEndian2 m p val = WriteBigEndian 2 m p val /\
  WriteBigEndian4 m p val = WriteBigEndian 4 m p val /\
  WriteBigEndian8 m p val = WriteBigEndian 8 m p val.
Proof.
  unfold ReadBigEndian2, ReadBigEndian4, ReadBigEndian8, ReadBigEndian,
    WriteBigEndian2, WriteBigEndian4, WriteBigEndian8, WriteBigEndian.
  cbn [be_loop be_bytes wrs]. rewrite <- !Z.add_assoc.
  repeat match goal with
  | |- context [8 * Z.of_nat ?n] =>
      let v := eval vm_compute in (8 * Z.of_nat n) in
      change (8 * Z.of_nat n) with v
  | |- context [p + (?a + ?b)] =>
      let v := eval vm_compute in (a + b) in change (a + b) with v
  end.
  rewrite Z.add_0_r, ?Z.shiftr_0_r.
  split_and!;
    repeat (match goal with
      | |- context [rd m ?q] => destruct (rd m q) as [?b|]
      | |- context [wr ?m ?q ?v] => destruct (wr m q v) as [?m|]
      end; cbn [mbind option_bind]; [|done]);
    rewrite ?Z.shiftl_0_r, ?Z.lor_0_l; done.
Qed.
