(* ===== verification/Units.v ===== *)
(** * Units of time, size and rate, and the clock

    [UnitBase]/[RelativeUnit] of [src/common/api/units/unit_base.h] and their
    instances: a unit is the [int64_t] it holds, with the two extreme values as
    the infinities.  Then rounding division, the NTP conversions of
    [SystemClock] and the compact NTP intervals.  [/] and [%] of the code
    truncate: [Z.quot] and [Z.rem].  The sums and products of finite values are
    the mathematical ones; a result outside [int64_t] is undefined behaviour in
    the code. *)

From S2P Require Import Prelude.

(** src/common/api/units/unit_base.h:164-166 [UnitBase::PlusInfinityVal] *)
Definition PlusInfinity : Z := 9223372036854775807.

(** src/common/api/units/unit_base.h:167-169 [UnitBase::MinusInfinityVal] *)
Definition MinusInfinity : Z := -9223372036854775808.

(** src/common/api/units/unit_base.h:46-48 [UnitBase::IsInfinite] *)
Definition IsInfinite (u : Z) : bool := (u =? PlusInfinity) || (u =? MinusInfinity).

(** src/common/api/units/unit_base.h:45-45 [UnitBase::IsFinite] *)
Definition IsFinite (u : Z) : bool := negb (IsInfinite u).

(** src/common/api/units/unit_base.h:72-75 [UnitBase::RoundTo] *)
Definition RoundTo (u resolution : Z) : Z :=
  Z.quot (u + Z.quot resolution 2) resolution * resolution.

(** src/common/api/units/unit_base.h:76-79 [UnitBase::RoundUpTo] *)
Definition RoundUpTo (u resolution : Z) : Z :=
  Z.quot (u + resolution - 1) resolution * resolution.

(** src/common/api/units/unit_base.h:80-82 [UnitBase::RoundDownTo] *)
Definition RoundDownTo (u resolution : Z) : Z :=
  Z.quot u resolution * resolution.

(** src/common/api/units/unit_base.h:185-188 [RelativeUnit::Clamped] *)
Definition Clamped (u min_value max_value : Z) : Z :=
  Z.max min_value (Z.min u max_value).

(** src/common/api/units/unit_base.h:192-199 [RelativeUnit::operator+] *)
Definition unit_add (a b : Z) : Z :=
  if (a =? PlusInfinity) || (b =? PlusInfinity) then PlusInfinity
  else if (a =? MinusInfinity) || (b =? MinusInfinity) then MinusInfinity
  else a + b.

(** src/common/api/units/unit_base.h:200-207 [RelativeUnit::operator-] *)
Definition unit_sub (a b : Z) : Z :=
  if (a =? PlusInfinity) || (b =? MinusInfinity) then PlusInfinity
  else if (a =? MinusInfinity) || (b =? PlusInfinity) then MinusInfinity
  else a - b.

(** src/common/api/units/unit_base.h:227-229 [RelativeUnit::operator/] *)
Definition unit_div (a scalar : Z) : Z := Z.quot a scalar.

(** src/common/api/units/unit_base.h:233-235 [RelativeUnit::operator*] *)
Definition unit_mul (a scalar : Z) : Z := a * scalar.

(** src/common/api/units/unit_base.h:266-270 [operator-] *)
Definition unit_neg (a : Z) : Z :=
  if a =? PlusInfinity then MinusInfinity
  else if a =? MinusInfinity then PlusInfinity
  else -1 * a.

(** src/common/api/units/timestamp.h:89-96 [Timestamp::operator-] *)
Definition timestamp_diff (a b : Z) : Z :=
  if (a =? PlusInfinity) || (b =? MinusInfinity) then PlusInfinity
  else if (a =? MinusInfinity) || (b =? PlusInfinity) then MinusInfinity
  else a - b.

(** src/common/api/units/timestamp.h:73-80 [Timestamp::operator+] *)
Definition timestamp_add (a delta : Z) : Z :=
  if (a =? PlusInfinity) || (delta =? PlusInfinity) then PlusInfinity
  else if (a =? MinusInfinity) || (delta =? MinusInfinity) then MinusInfinity
  else a + delta.

(** src/common/api/units/data_rate.h:81-85 [data_rate_impl::Microbits] *)
Definition Microbits (size : Z) : Z := size * 8000000.

(** src/common/api/units/data_rate.h:94-97 [operator/] *)
Definition size_over_duration (size duration : Z) : Z :=
  Z.quot (Microbits size) duration.

(** src/common/api/units/data_rate.h:98-100 [operator/] *)
Definition size_over_rate (size rate : Z) : Z := Z.quot (Microbits size) rate.

(** src/common/api/units/data_rate.h:101-105 [operator*] *)
Definition rate_times_duration (rate duration : Z) : Z :=
  Z.quot (rate * duration + 4000000) 8000000.

(** ** Rounding division *)

(** src/common/rtc_base/numerics/divide_round.h:21-29 [DivideRoundUp] *)
Definition DivideRoundUp (dividend divisor : Z) : Z :=
  let quotient := Z.quot dividend divisor in
  let remainder := Z.rem dividend divisor in
  quotient + (if 0 <? remainder then 1 else 0).

(** src/common/rtc_base/numerics/divide_round.h:31-53 [DivideRoundToNearest] *)
Definition DivideRoundToNearest (dividend divisor : Z) : Z :=
  if dividend <? 0 then
    let half_of_divisor := Z.quot divisor 2 in
    let quotient := Z.quot dividend divisor in
    let remainder := Z.rem dividend divisor in
    if half_of_divisor <? - remainder then quotient - 1 else quotient
  else
    let half_of_divisor := Z.quot (divisor - 1) 2 in
    let quotient := Z.quot dividend divisor in
    let remainder := Z.rem dividend divisor in
    if half_of_divisor <? remainder then quotient + 1 else quotient.

(** src/common/api/units/unit_base.h:130-134 [UnitBase::ToFraction] *)
Definition ToFraction (Denominator u : Z) : Z := DivideRoundToNearest u Denominator.

(** ** Compact NTP intervals *)

(** src/common/api/ntp/ntp_time_util.cc:23-35 [SaturatedToCompactNtp] *)
Definition SaturatedToCompactNtp (delta : Z) : Z :=
  let kMaxCompactNtp := 0xFFFFFFFF in
  let kCompactNtpInSecond := 0x10000 in
  if delta <=? 0 then 0
  else if Z.quot (kMaxCompactNtp * 1000000) kCompactNtpInSecond <=? delta
  then kMaxCompactNtp
  else u32 (DivideRoundToNearest (delta * kCompactNtpInSecond) 1000000).

(** src/common/api/ntp/ntp_time_util.cc:37-48 [CompactNtpIntervalToTimeDelta] *)
Definition CompactNtpIntervalToTimeDelta (compact_ntp_interval : Z) : Z :=
  let value :=
    if 0x80000000 <? compact_ntp_interval
    then compact_ntp_interval - Z.shiftl 1 32 else compact_ntp_interval in
  DivideRoundToNearest (value * 1000000) (Z.shiftl 1 16).

(** src/common/api/ntp/ntp_time_util.cc:50-59 [CompactNtpRttToTimeDelta] *)
Definition CompactNtpRttToTimeDelta (compact_ntp_interval : Z) : Z :=
  Z.max (CompactNtpIntervalToTimeDelta compact_ntp_interval) 1000.

(** ** The clock

    The two time sources are functions the clock is built with: a reading is
    the nanoseconds they return. *)

Definition kMicrosecondsPerSecond := 1000000.
Definition kNtpEpochOffsetSeconds := 2208988800.
Definition kNtpFractionalUnit := 4294967296.

(** src/common/clock/system_clock.cpp:114-114 [SystemClock::CurrentTimeUs] *)
Definition CurrentTimeUs (time_ns : Z) : Z := Z.quot time_ns 1000.

(** src/common/clock/system_clock.cpp:200-202 [SystemClock::CurrentUtcTimeUs] *)
Definition CurrentUtcTimeUs (utc_time_ns : Z) : Z := Z.quot utc_time_ns 1000.

(** src/common/clock/system_clock.cpp:128-142 [SystemClock::UtcTimeUsToNtp] *)
Definition UtcTimeUsToNtp (utc_time_us : Z) : Z :=
  let unix_seconds := Z.quot utc_time_us kMicrosecondsPerSecond in
  let microseconds := Z.rem utc_time_us kMicrosecondsPerSecond in
  let '(unix_seconds, microseconds) :=
    if microseconds <? 0
    then (unix_seconds - 1, microseconds + kMicrosecondsPerSecond)
    else (unix_seconds, microseconds) in
  let ntp_seconds := u32 (unix_seconds + kNtpEpochOffsetSeconds) in
  let ntp_fractions :=
    u32 (u64 (u64 microseconds * kNtpFractionalUnit) / kMicrosecondsPerSecond) in
  Z.lor (Z.shiftl ntp_seconds 32) ntp_fractions.

(** src/common/clock/system_clock.cpp:124-126 [SystemClock::MonotonicTimeUsToNtp] *)
Definition MonotonicTimeUsToNtp (monotonic_to_utc_offset_us monotonic_time_us : Z)
    : Z := UtcTimeUsToNtp (monotonic_time_us + monotonic_to_utc_offset_us).

(** src/common/clock/system_clock.cpp:144-169 [SystemClock::NtpToUtcTimeUs] *)
Definition NtpToUtcTimeUs (current_utc_time_us ntp_time : Z) : Z :=
  let ntp_seconds := u32 (Z.shiftr ntp_time 32) in
  let ntp_fractions := u32 ntp_time in
  let current_ntp_seconds :=
    Z.quot current_utc_time_us kMicrosecondsPerSecond + kNtpEpochOffsetSeconds in
  let current_era := Z.shiftr current_ntp_seconds 32 in
  let expanded_ntp_seconds := Z.lor (Z.shiftl current_era 32) ntp_seconds in
  let kNtpEraSeconds := Z.shiftl 1 32 in
  let expanded_ntp_seconds :=
    if Z.quot kNtpEraSeconds 2 <? expanded_ntp_seconds - current_ntp_seconds
    then expanded_ntp_seconds - kNtpEraSeconds
    else if Z.quot kNtpEraSeconds 2 <? current_ntp_seconds - expanded_ntp_seconds
    then expanded_ntp_seconds + kNtpEraSeconds
    else expanded_ntp_seconds in
  let fractional_us :=
    u64 (u64 (ntp_fractions * kMicrosecondsPerSecond) + kNtpFractionalUnit / 2)
      / kNtpFractionalUnit in
  (expanded_ntp_seconds - kNtpEpochOffsetSeconds) * kMicrosecondsPerSecond
    + fractional_us.

(** src/common/clock/system_clock.cpp:171-173 [SystemClock::NtpToMonotonicTimeUs] *)
Definition NtpToMonotonicTimeUs (monotonic_to_utc_offset_us current_utc_time_us
    ntp_time : Z) : Z :=
  NtpToUtcTimeUs current_utc_time_us ntp_time - monotonic_to_utc_offset_us.

(** src/common/clock/system_clock.cpp:175-178 [SystemClock::CompactNtp] *)
Definition CompactNtp (ntp_time : Z) : Z :=
  Z.lor (u32 (Z.shiftl (u32 (Z.shiftr ntp_time 32)) 16))
        (Z.shiftr (u32 ntp_time) 16).

(** src/common/clock/system_clock.cpp:180-185 [SystemClock::CompactNtpIntervalToMilliseconds] *)
Definition CompactNtpIntervalToMilliseconds (interval : Z) : Z :=
  let kCompactNtpUnitsPerSecond := Z.shiftl 1 16 in
  (interval * 1000 + kCompactNtpUnitsPerSecond / 2) / kCompactNtpUnitsPerSecond.

(** src/common/clock/system_clock.cpp:187-194 [SystemClock::NtpToAbsoluteSendTime] *)
Definition NtpToAbsoluteSendTime (ntp_time : Z) : Z :=
  Z.land (u32 (Z.shiftr ntp_time (32 - 18))) 0x00FFFFFF.

(** ** Lemmas *)

(** Time arithmetic far from the two infinities is exact. *)
Definition small (x : Z) : Prop := - 4611686018427387904 < x < 4611686018427387904.

Ltac finite_tests :=
  unfold small, PlusInfinity, MinusInfinity in *;
  repeat match goal with |- context [?a =? ?b] =>
    rewrite (proj2 (Z.eqb_neq a b)) by lia; cbn [orb] end; try reflexivity.

Lemma unit_add_small a b : small a -> small b -> unit_add a b = a + b.
Proof. intros Ha Hb. unfold unit_add. finite_tests. Qed.
Lemma unit_sub_small a b : small a -> small b -> unit_sub a b = a - b.
Proof. intros Ha Hb. unfold unit_sub. finite_tests. Qed.
Lemma timestamp_diff_small a b : small a -> small b -> timestamp_diff a b = a - b.
Proof. intros Ha Hb. unfold timestamp_diff. finite_tests. Qed.

Lemma timestamp_add_small a b : small a -> small b -> timestamp_add a b = a + b.
Proof. intros Ha Hb. unfold timestamp_add. finite_tests. Qed.

(** Times are such that the arithmetic on them is exact. *)
Definition is_time (t : Z) : Prop := 0 <= t < 2305843009213693952.

Lemma timestamp_diff_time a b :
  is_time a -> is_time b -> timestamp_diff a b = a - b /\ IsFinite (a - b) = true.
Proof.
  unfold is_time. intros Ha Hb. rewrite timestamp_diff_small by (unfold small; lia).
  split; [done|]. unfold IsFinite, IsInfinite. finite_tests.
Qed.

Lemma DivideRoundToNearest_floor n d :
  0 < d -> DivideRoundToNearest n d = (2 * n + d) / (2 * d).
Proof.
  intros Hd. unfold DivideRoundToNearest.
  assert (n = d * Z.quot n d + Z.rem n d) as Hq by (apply Z.quot_rem; lia).
  destruct (Z.ltb_spec n 0).
  - assert (- d < Z.rem n d <= 0) as Hr.
    { pose proof (Z.rem_bound_pos (- n) d ltac:(lia) ltac:(lia)).
      rewrite Z.rem_opp_l in * by lia. lia. }
    rewrite Z.quot_div_nonneg by lia.
    set (q := Z.quot n d) in *. set (r := Z.rem n d) in *. clearbody q r.
    case_if.
    + apply Z.div_unique with (2 * n + d - 2 * d * (q - 1)); [zdm|lia].
    + apply Z.div_unique with (2 * n + d - 2 * d * q); [zdm|lia].
  - pose proof (Z.rem_bound_pos n d ltac:(lia) ltac:(lia)) as Hr.
    rewrite (Z.quot_div_nonneg (d - 1) 2) by lia.
    set (q := Z.quot n d) in *. set (r := Z.rem n d) in *. clearbody q r.
    case_if.
    + apply Z.div_unique with (2 * n + d - 2 * d * (q + 1)); [zdm|lia].
    + apply Z.div_unique with (2 * n + d - 2 * d * q); [zdm|lia].
Qed.

Lemma lor_shiftl_add a b k : 0 <= k -> 0 <= b < 2 ^ k ->
  Z.lor (Z.shiftl a k) b = a * 2 ^ k + b.
Proof.
  intros. rewrite <- Z.lxor_lor, <- Z.add_nocarry_lxor, Z.shiftl_mul_pow2; [done|lia| |];
  apply Z.bits_inj'; intros n Hn; rewrite Z.land_spec, Z.bits_0;
  destruct (Z.ltb_spec n k).
  all: try (rewrite Z.shiftl_spec_low by lia; done).
  all: rewrite <- (Z.mod_small b (2 ^ k)), Z.mod_pow2_bits_high by lia;
    apply andb_false_r.
Qed.

(** The two fields of an NTP time: floor seconds and the fraction of the
    microseconds. *)
Lemma UtcTimeUsToNtp_spec t :
  UtcTimeUsToNtp t =
    u32 (t / 1000000 + kNtpEpochOffsetSeconds) * 2 ^ 32
    + (t `mod` 1000000) * 4294967296 / 1000000.
Proof.
  unfold UtcTimeUsToNtp, kMicrosecondsPerSecond, kNtpFractionalUnit.
  assert (t = 1000000 * Z.quot t 1000000 + Z.rem t 1000000) as Hq
    by (apply Z.quot_rem; lia).
  assert (-1000000 < Z.rem t 1000000 < 1000000) as Hr
    by (pose proof (Z.rem_bound_abs t 1000000 ltac:(lia)); lia).
  set (q := Z.quot t 1000000) in *. set (r := Z.rem t 1000000) in *. clearbody q r.
  assert (exists s m, (if r <? 0 then (q - 1, r + 1000000) else (q, r)) = (s, m)
    /\ s = t / 1000000 /\ m = t `mod` 1000000) as (s & m & -> & -> & ->)
    by (case_if; eexists _, _; split_and!; [done|zdm|zdm|done|zdm|zdm]).
  rewrite lor_shiftl_add by (lia || apply u32_range).
  do 2 f_equal. assert (0 <= t `mod` 1000000 < 1000000) by zdm.
  rewrite (u64_id (t `mod` 1000000)), u64_id, u32_id;
    unfold is_u64, is_u32; try lia; zdm.
Qed.

(** The era selection: among the seconds congruent to the wire value, the one
    within half an era of the current time. *)
Lemma era_select c s :
  Z.abs (s - c) < 2 ^ 31 ->
  let e := Z.lor (Z.shiftl (Z.shiftr c 32) 32) (u32 s) in
  (if Z.quot (Z.shiftl 1 32) 2 <? e - c then e - Z.shiftl 1 32
   else if Z.quot (Z.shiftl 1 32) 2 <? c - e then e + Z.shiftl 1 32
   else e) = s.
Proof.
  intros H e. subst e. rewrite lor_shiftl_add by (lia || apply u32_range).
  rewrite Z.shiftr_div_pow2 by lia.
  change (Z.shiftl 1 32) with 4294967296. change (Z.quot 4294967296 2) with 2147483648.
  change (2 ^ 32) with 4294967296. change (2 ^ 31) with 2147483648 in H.
  unfold u32. repeat case_if; zdm.
Qed.

Lemma fraction_roundtrip m :
  0 <= m < 1000000 ->
  (m * 4294967296 / 1000000 * 1000000 + 2147483648) / 4294967296 = m.
Proof. intros. symmetry. zdm. Qed.

Lemma NtpToUtc_UtcToNtp now t :
  Z.abs (t / 1000000 - Z.quot now 1000000) < 2 ^ 31 ->
  NtpToUtcTimeUs now (UtcTimeUsToNtp t) = t.
Proof.
  intros H. rewrite UtcTimeUsToNtp_spec.
  assert (0 <= t `mod` 1000000 < 1000000) as Hm by zdm.
  set (m := t `mod` 1000000) in *. set (s := t / 1000000) in *.
  assert (0 <= m * 4294967296 / 1000000 < 4294967296) as Hf by zdm.
  assert (t = s * 1000000 + m) as Ht by (subst s m; zdm). clearbody s m. subst t.
  unfold NtpToUtcTimeUs.
  set (f := m * 4294967296 / 1000000) in *.
  pose proof (u32_range (s + kNtpEpochOffsetSeconds)) as Hs.
  set (w := u32 (s + kNtpEpochOffsetSeconds)) in *.
  assert (u32 (Z.shiftr (w * 2 ^ 32 + f) 32) = w) as ->.
  { rewrite Z.shiftr_div_pow2, Z.div_add_l, Z.div_small by lia.
    rewrite Z.add_0_r. by apply u32_id. }
  assert (u32 (w * 2 ^ 32 + f) = f) as ->.
  { unfold u32. rewrite Z.add_comm. change (2 ^ 32) with 4294967296.
    rewrite Z_mod_plus_full. by apply Z.mod_small. }
  subst w. unfold kMicrosecondsPerSecond in *.
  rewrite era_select by (unfold kNtpEpochOffsetSeconds; lia).
  unfold kNtpFractionalUnit. change (4294967296 / 2) with 2147483648.
  rewrite (u64_id (f * 1000000)) by (unfold is_u64; lia).
  rewrite u64_id by (unfold is_u64; lia). subst f.
  rewrite fraction_roundtrip by done. lia.
Qed.

Lemma CompactNtp_spec n : 0 <= n -> CompactNtp n = u32 (n / 65536).
Proof.
  intros Hn. unfold CompactNtp.
  rewrite (Z.shiftr_div_pow2 (u32 n)) by lia. change (2 ^ 16) with 65536.
  assert (u32 (Z.shiftl (u32 (Z.shiftr n 32)) 16)
    = Z.shiftl ((n / 4294967296) `mod` 65536) 16) as ->.
  { rewrite !Z.shiftl_mul_pow2, Z.shiftr_div_pow2 by lia. unfold u32.
    change (2 ^ 16) with 65536. change (2 ^ 32) with 4294967296. zdm. }
  rewrite lor_shiftl_add by (lia || (unfold u32; zdm)).
  unfold u32. change (2 ^ 16) with 65536. zdm.
Qed.

(** ** Properties *)

(** [DivideRoundToNearest] is the nearest integer for dividends of either
    sign, halves going up, and [DivideRoundUp] is the ceiling of a
    non-negative quotient, for every positive divisor. *)
Theorem divide_round_spec (n d : Z) :
  0 < d ->
  DivideRoundToNearest n d = (2 * n + d) / (2 * d) /\
  2 * Z.abs (DivideRoundToNearest n d * d - n) <= d /\
  DivideRoundUp n d = - ((- n) / d).
Proof.
  intros Hd. split_and!; [by apply DivideRoundToNearest_floor| |].
  - rewrite DivideRoundToNearest_floor by done.
    set (q := (2 * n + d) / (2 * d)).
    assert (2 * d * q <= 2 * n + d < 2 * d * q + 2 * d) as Hq.
    { pose proof (Z.mul_div_le (2 * n + d) (2 * d) ltac:(lia)).
      pose proof (Z.mul_succ_div_gt (2 * n + d) (2 * d) ltac:(lia)). lia. }
    clearbody q. nia.
  - unfold DivideRoundUp.
    assert (n = d * Z.quot n d + Z.rem n d) as Hq by (apply Z.quot_rem; lia).
    assert (- d < Z.rem n d < d) as Hr
      by (pose proof (Z.rem_bound_abs n d ltac:(lia)); lia).
    set (q := Z.quot n d) in *. set (r := Z.rem n d) in *.
    assert (0 < r -> n > 0) by (subst r; intros; destruct (Z.le_gt_cases n 0);
      [pose proof (Z.rem_nonpos n d); lia|lia]).
    clearbody q r. case_if.
    + assert ((- n) / d = - q - 1) as ->; [|lia].
      symmetry. apply Z.div_unique with (d - r); [lia|nia].
    + assert ((- n) / d = - q) as ->; [|lia].
      symmetry. apply Z.div_unique with (- r); [lia|nia].
Qed.

Lemma divide_round_spec_witness :
  DivideRoundToNearest (-15) 10 = -1 /\ DivideRoundUp 21 10 = 3.
Proof.
  pose proof (divide_round_spec (-15) 10 ltac:(lia)) as [H1 _].
  pose proof (divide_round_spec 21 10 ltac:(lia)) as (_ & _ & H2).
  split; [exact H1|exact H2].
Defined.

(** The wall clock survives the 32.32 NTP wire format: a UTC time within
    half an NTP era (68 years) of the receiver's current time comes back to
    the microsecond, across the wrap of the seconds field in 2036 and for times
    before 1970, and so does a monotonic time. *)
Theorem ntp_time_roundtrip (offset now t : Z) :
  Z.abs (t / kMicrosecondsPerSecond - Z.quot now kMicrosecondsPerSecond)
    < Z.shiftl 1 31 ->
  NtpToUtcTimeUs now (UtcTimeUsToNtp t) = t /\
  NtpToMonotonicTimeUs offset now (MonotonicTimeUsToNtp offset (t - offset))
    = t - offset /\
  is_u64 (UtcTimeUsToNtp t).
Proof.
  unfold kMicrosecondsPerSecond. change (Z.shiftl 1 31) with (2 ^ 31). intros H.
  unfold NtpToMonotonicTimeUs, MonotonicTimeUsToNtp.
  replace (t - offset + offset) with t by lia.
  rewrite NtpToUtc_UtcToNtp by done. split_and!; [done..|].
  rewrite UtcTimeUsToNtp_spec.
  pose proof (u32_range (t / 1000000 + kNtpEpochOffsetSeconds)) as Hs.
  assert (0 <= (t `mod` 1000000) * 4294967296 / 1000000 < 4294967296) by zdm.
  unfold is_u64, is_u32 in *. change (2 ^ 32) with 4294967296. lia.
Qed.

(** One second before and after the wrap of February 2036. *)
Lemma ntp_time_roundtrip_witness :
  UtcTimeUsToNtp 2085978496000001 = 4294 /\
  NtpToUtcTimeUs 2085978495000000 4294 = 2085978496000001.
Proof.
  pose proof (ntp_time_roundtrip 0 2085978495000000 2085978496000001
    ltac:(vm_compute; reflexivity)) as [H _].
  vm_compute in H. split; [vm_compute; reflexivity|exact H].
Defined.

(** An interval carried as compact NTP (a report's delay, 1/65536 s)
    is recovered within 8 microseconds when it is below nine hours, is 0 when
    negative, and saturates otherwise; the round trip time made from it is at
    least one millisecond. *)
Theorem compact_ntp_interval_roundtrip (delta : Z) :
  let wire := SaturatedToCompactNtp delta in
  is_u32 wire /\
  (delta <= 0 -> wire = 0) /\
  (0 <= delta < 32768 * 1000000 ->
     Z.abs (CompactNtpIntervalToTimeDelta wire - delta) <= 8) /\
  (65536 * 1000000 <= delta -> wire = 0xFFFFFFFF) /\
  1000 <= CompactNtpRttToTimeDelta wire.
Proof.
  unfold SaturatedToCompactNtp, CompactNtpRttToTimeDelta.
  change (Z.quot (4294967295 * 1000000) 65536) with 65535999984.
  destruct (Z.leb_spec delta 0); [|destruct (Z.leb_spec 65535999984 delta)].
  - split_and!; unfold is_u32; try lia. intros.
    change (CompactNtpIntervalToTimeDelta 0) with 0. lia.
  - split_and!; unfold is_u32; lia.
  - rewrite DivideRoundToNearest_floor by lia.
    assert (is_u32 ((2 * (delta * 65536) + 1000000) / (2 * 1000000))) as Hw
      by (unfold is_u32; zdm).
    rewrite u32_id by done. split_and!; [done|lia| |lia|lia].
    intros Hd. unfold CompactNtpIntervalToTimeDelta.
    rewrite DivideRoundToNearest_floor by done.
    change (Z.shiftl 1 16) with 65536. change (Z.shiftl 1 32) with 4294967296.
    case_if; zdm.
Qed.

Lemma compact_ntp_interval_roundtrip_witness :
  SaturatedToCompactNtp 1500000 = 98304 /\
  Z.abs (CompactNtpIntervalToTimeDelta 98304 - 1500000) <= 8.
Proof.
  pose proof (compact_ntp_interval_roundtrip 1500000) as (_ & _ & H & _).
  split; [reflexivity|exact (H ltac:(lia))].
Defined.
