(* ===== verification/NetworkTypes.v ===== *)
(** * What the congestion controller and the pacer tell each other

    Structures of [src/common/api/transport/network_types.h] that several
    components pass around. *)

From S2P Require Import Prelude Units.

(** src/common/api/transport/network_types.h:102-106 [PacedPacketInfo] *)
Record PacedPacketInfo := mkPaced {
  send_bitrate : Z;
  probe_cluster_id : Z;
  probe_cluster_min_probes : Z;
  probe_cluster_min_bytes : Z;
  probe_cluster_bytes_sent : Z;
}.

(** src/common/api/transport/network_types.h:101-101 [PacedPacketInfo::kNotAProbe] *)
Definition kNotAProbe : Z := -1.

(** src/common/api/transport/network_types.h:102-106 [PacedPacketInfo::PacedPacketInfo] *)
Definition not_a_probe : PacedPacketInfo := mkPaced 0 kNotAProbe (-1) (-1) 0.

(** src/common/api/transport/network_types.h:219-228 [ProbeClusterConfig] *)
Record ProbeClusterConfig := mkProbeConfig {
  at_time : Z;
  target_data_rate : Z;
  target_duration : Z;
  config_min_probe_delta : Z;
  target_probe_count : Z;
  config_id : Z;
}.
