(* ===== verification/Prober.v ===== *)
(** * The bitrate prober

    [BitrateProber] of [src/qos/bitrate_prober.cc]: the queue of probe clusters
    the congestion controller asked for, and the state machine that says when
    the next probe is due and what it should look like.  A rate of zero would be
    divided by, which is [None]; every other operation is total. *)

From Stdlib Require Import Sorted.
From S2P Require Import Prelude Units NetworkTypes.

(** ** State *)

(** src/qos/bitrate_prober.cc:30-30 [kProbeClusterTimeout] *)
Definition kProbeClusterTimeout : Z := 5000000.
(** src/qos/bitrate_prober.cc:31-31 [kMaxPendingProbeClusters] *)
Definition kMaxPendingProbeClusters : Z := 5.

(** src/qos/bitrate_prober.h:96-106 [BitrateProber::ProbingState] *)
Inductive ProbingState := kDisabled | kInactive | kActive.

#[export] Instance ProbingState_eq_dec : EqDecision ProbingState.
Proof. solve_decision. Defined.

(** src/qos/bitrate_prober.h:110-119 [BitrateProber::ProbeCluster] *)
Record ProbeCluster := mkCluster {
  pace_info : PacedPacketInfo;
  sent_probes : Z;
  sent_packets : Z;
  sent_bytes : Z;
  min_probe_delta : Z;
  requested_at : Z;
  started_at : Z;
}.

(** src/qos/bitrate_prober.h:27-43 [BitrateProberConfig] *)
Record BitrateProberConfig := mkProberConfig {
  max_probe_delay : Z;
  min_packet_size : Z;
  allow_start_probing_immediately : bool;
}.

(** src/qos/bitrate_prober.h:126-136 [BitrateProber] *)
Record BitrateProber := mkProber {
  probing_state_ : ProbingState;
  clusters_ : list ProbeCluster;
  next_probe_time_ : Z;
  config_ : BitrateProberConfig;
}.

Definition set_state (s : ProbingState) (b : BitrateProber) : BitrateProber :=
  mkProber s (clusters_ b) (next_probe_time_ b) (config_ b).
Definition set_clusters (l : list ProbeCluster) (b : BitrateProber) : BitrateProber :=
  mkProber (probing_state_ b) l (next_probe_time_ b) (config_ b).
Definition set_next (t : Z) (b : BitrateProber) : BitrateProber :=
  mkProber (probing_state_ b) (clusters_ b) t (config_ b).

(** src/qos/bitrate_prober.h:61-61 [BitrateProber::is_probing] *)
Definition is_probing (b : BitrateProber) : bool := bool_decide (probing_state_ b = kActive).

(** ** Operations *)

(** src/qos/bitrate_prober.cc:43-53 [BitrateProber::SetEnabled] *)
Definition SetEnabled (enable : bool) (b : BitrateProber) : BitrateProber :=
  if enable then
    match probing_state_ b with kDisabled => set_state kInactive b | _ => b end
  else set_state kDisabled b.

(** src/qos/bitrate_prober.cc:35-41 [BitrateProber::BitrateProber] *)
Definition new_prober : BitrateProber :=
  SetEnabled true (mkProber kDisabled [] PlusInfinity (mkProberConfig 10000 200 false)).

(** src/qos/bitrate_prober.cc:238-244 [BitrateProber::RecommendedMinProbeSize] *)
Definition RecommendedMinProbeSize (b : BitrateProber) : Z :=
  match clusters_ b with
  | [] => 0
  | c :: _ => rate_times_duration (send_bitrate (pace_info c)) (min_probe_delta c)
  end.

(** src/qos/bitrate_prober.cc:86-107 [BitrateProber::ReadyToSetActiveState] *)
Definition ReadyToSetActiveState (packet_size : Z) (b : BitrateProber) : bool :=
  match clusters_ b, probing_state_ b with
  | [], _ => false
  | _, kDisabled | _, kActive => false
  | _, kInactive =>
      if allow_start_probing_immediately (config_ b) then true
      else Z.min (RecommendedMinProbeSize b) (min_packet_size (config_ b)) <=? packet_size
  end.

(** src/qos/bitrate_prober.cc:79-84 [BitrateProber::MaybeSetActiveState] *)
Definition MaybeSetActiveState (packet_size : Z) (b : BitrateProber) : BitrateProber :=
  if ReadyToSetActiveState packet_size b
  then mkProber kActive (clusters_ b) MinusInfinity (config_ b) else b.

(** src/qos/bitrate_prober.cc:55-58 [BitrateProber::SetAllowProbeWithoutMediaPacket] *)
Definition ProberSetAllowProbeWithoutMediaPacket (allow : bool) (b : BitrateProber)
    : BitrateProber :=
  MaybeSetActiveState 0
    (mkProber (probing_state_ b) (clusters_ b) (next_probe_time_ b)
       (mkProberConfig (max_probe_delay (config_ b)) (min_packet_size (config_ b)) allow)).

(** src/qos/bitrate_prober.cc:60-77 [BitrateProber::AbortProbing] *)
Definition ProberAbortProbing (b : BitrateProber) : BitrateProber :=
  let b := set_next PlusInfinity (set_clusters [] b) in
  match probing_state_ b with kDisabled => b | _ => set_state kInactive b end.

(** src/qos/bitrate_prober.cc:109-111 [BitrateProber::OnIncomingPacket] *)
Definition OnIncomingPacket (packet_size : Z) (b : BitrateProber) : BitrateProber :=
  MaybeSetActiveState packet_size b.

(** The first [while]: pop the clusters that are too old. *)
(** src/qos/bitrate_prober.cc:157-174 [BitrateProber::RemoveExpiredClusters] *)
Fixpoint drop_expired (now : Z) (l : list ProbeCluster) : bool * list ProbeCluster :=
  match l with
  | [] => (false, [])
  | c :: l' =>
      if kProbeClusterTimeout <=? timestamp_diff now (requested_at c)
      then (true, (drop_expired now l').2) else (false, l)
  end.

(** src/qos/bitrate_prober.cc:155-189 [BitrateProber::RemoveExpiredClusters] *)
Definition RemoveExpiredClusters (now : Z) (b : BitrateProber) : bool * BitrateProber :=
  let '(removed_cluster, l) := drop_expired now (clusters_ b) in
  let b := set_clusters l b in
  if negb removed_cluster then (false, b) else
  (true,
   match l with
   | [] =>
       let b := set_next PlusInfinity b in
       match probing_state_ b with kDisabled => b | _ => set_state kInactive b end
   | _ => if is_probing b then set_next MinusInfinity b else b
   end).

(** The [while] of [CreateProbeCluster]: make room in the queue. *)
(** src/qos/bitrate_prober.cc:116-127 [BitrateProber::CreateProbeCluster] *)
Fixpoint discard_excess (l : list ProbeCluster) : list ProbeCluster :=
  match l with
  | [] => []
  | _ :: l' => if kMaxPendingProbeClusters <=? zlen l then discard_excess l' else l
  end.

(** [probe_cluster_min_bytes] is an [int]. *)
(** src/qos/bitrate_prober.cc:129-138 [BitrateProber::CreateProbeCluster] *)
Definition cluster_of_config (c : ProbeClusterConfig) : ProbeCluster :=
  mkCluster
    (mkPaced (target_data_rate c) (config_id c) (target_probe_count c)
       (s32 (rate_times_duration (target_data_rate c) (target_duration c))) 0)
    0 0 0 (config_min_probe_delta c) (at_time c) MinusInfinity.

(** src/qos/bitrate_prober.cc:113-153 [BitrateProber::CreateProbeCluster] *)
Definition CreateProbeCluster (c : ProbeClusterConfig) (b : BitrateProber) : BitrateProber :=
  let b := (RemoveExpiredClusters (at_time c) b).2 in
  MaybeSetActiveState 0
    (set_clusters (discard_excess (clusters_ b) ++ [cluster_of_config c]) b).

(** src/qos/bitrate_prober.cc:191-196 [BitrateProber::NextClusterExpiration] *)
Definition NextClusterExpiration (b : BitrateProber) : Z :=
  match clusters_ b with
  | [] => PlusInfinity
  | c :: _ => timestamp_add (requested_at c) kProbeClusterTimeout
  end.

(** src/qos/bitrate_prober.cc:198-205 [BitrateProber::NextProbeTime] *)
Definition NextProbeTime (b : BitrateProber) : Z :=
  match probing_state_ b, clusters_ b with
  | kActive, _ :: _ => next_probe_time_ b
  | _, _ => PlusInfinity
  end.

(** src/qos/bitrate_prober.cc:212-218 [BitrateProber::CurrentCluster] *)
Definition probe_delayed (now : Z) (c : ProbeCluster) (b : BitrateProber) : bool :=
  let allowed_probe_delay := Z.max (max_probe_delay (config_ b)) (unit_mul (min_probe_delta c) 2) in
  IsFinite (next_probe_time_ b) &&
  (allowed_probe_delay <? timestamp_diff now (next_probe_time_ b)).

(** The cluster in front, with the bytes it has sent. *)
(** src/qos/bitrate_prober.cc:233-235 [BitrateProber::CurrentCluster] *)
Definition cluster_info (c : ProbeCluster) : PacedPacketInfo :=
  let i := pace_info c in
  mkPaced (send_bitrate i) (probe_cluster_id i) (probe_cluster_min_probes i)
    (probe_cluster_min_bytes i) (sent_bytes c).

(** src/qos/bitrate_prober.cc:207-236 [BitrateProber::CurrentCluster] *)
Definition CurrentCluster (now : Z) (b : BitrateProber)
    : option PacedPacketInfo * BitrateProber :=
  match clusters_ b, probing_state_ b with
  | c :: rest, kActive =>
      if probe_delayed now c b then
        match rest with
        | [] => (None, set_state kInactive (set_clusters [] b))
        | c' :: _ => (Some (cluster_info c'), set_clusters rest b)
        end
      else (Some (cluster_info c), b)
  | _, _ => (None, b)
  end.

(** src/qos/bitrate_prober.cc:284-293 [BitrateProber::CalculateNextProbeTime] *)
Definition CalculateNextProbeTime (c : ProbeCluster) : option Z :=
  if send_bitrate (pace_info c) =? 0 then None
  else Some (timestamp_add (started_at c)
               (size_over_rate (sent_bytes c) (send_bitrate (pace_info c)))).

(** src/qos/bitrate_prober.cc:249-254 [BitrateProber::ProbeSent] *)
Definition count_probe (now size packet_count : Z) (c : ProbeCluster) : ProbeCluster :=
  mkCluster (pace_info c) (sent_probes c + 1) (sent_packets c + packet_count)
    (sent_bytes c + s32 size) (min_probe_delta c) (requested_at c)
    (if sent_probes c =? 0 then now else started_at c).

(** src/qos/bitrate_prober.cc:261-262 [BitrateProber::ProbeSent] *)
Definition cluster_complete (c : ProbeCluster) : bool :=
  (probe_cluster_min_bytes (pace_info c) <=? sent_bytes c) &&
  (probe_cluster_min_probes (pace_info c) <=? sent_probes c).

(** src/qos/bitrate_prober.cc:246-282 [BitrateProber::ProbeSent] *)
Definition ProbeSent (now size packet_count : Z) (b : BitrateProber) : option BitrateProber :=
  match clusters_ b with
  | [] => Some b
  | c :: rest =>
      let c := count_probe now size packet_count c in
      scheduled ← CalculateNextProbeTime c;
      let b := set_next (Z.max scheduled (timestamp_add now (min_probe_delta c))) b in
      let l := if cluster_complete c then rest else c :: rest in
      let b := set_clusters l b in
      Some (match l with [] => set_state kInactive b | _ => b end)
  end.

(** ** The life of a prober *)

Inductive ProberEvent :=
  | Enable (enable : bool)
  | Allow (allow : bool)
  | Abort
  | Incoming (packet_size : Z)
  | Create (config : ProbeClusterConfig)
  | Expire (now : Z)
  | Query (now : Z)
  | Sent (now size packet_count : Z).

Definition prober_step (b : BitrateProber) (e : ProberEvent) : option BitrateProber :=
  match e with
  | Enable enable => Some (SetEnabled enable b)
  | Allow allow => Some (ProberSetAllowProbeWithoutMediaPacket allow b)
  | Abort => Some (ProberAbortProbing b)
  | Incoming size => Some (OnIncomingPacket size b)
  | Create c => Some (CreateProbeCluster c b)
  | Expire now => Some (RemoveExpiredClusters now b).2
  | Query now => Some (CurrentCluster now b).2
  | Sent now size n => ProbeSent now size n b
  end.

Fixpoint prober_run (b : BitrateProber) (es : list ProberEvent) : option BitrateProber :=
  match es with
  | [] => Some b
  | e :: es => b ← prober_step b e; prober_run b es
  end.

(** Probes of at most 1 MB, of which 900 kB are asked for; clusters of at most
    1 GB. *)
Definition kMaxProbeBytes : Z := 1000000.
Definition kMaxProbeSize : Z := 900000.
Definition kMaxTargetBytes : Z := 1000000000.

Definition probe_config_ok (c : ProbeClusterConfig) : Prop :=
  is_time (at_time c) /\ 0 < target_data_rate c /\
  0 <= rate_times_duration (target_data_rate c) (target_duration c) <= kMaxTargetBytes /\
  is_time (config_min_probe_delta c) /\
  rate_times_duration (target_data_rate c) (config_min_probe_delta c) <= kMaxProbeSize /\
  0 < target_probe_count c <= 1000.

Definition probe_event_ok (e : ProberEvent) : Prop :=
  match e with
  | Create c => probe_config_ok c
  | Expire now | Query now => is_time now
  | Sent now size _ => is_time now /\ 0 < size <= kMaxProbeBytes
  | _ => True
  end.

(** ** Invariant *)

(** A cluster that is still to be sent, or part of it. *)
Record cluster_ok (c : ProbeCluster) : Prop := {
  co_rate : 0 < send_bitrate (pace_info c);
  co_delta : is_time (min_probe_delta c);
  co_size : rate_times_duration (send_bitrate (pace_info c)) (min_probe_delta c) <= kMaxProbeSize;
  co_requested : is_time (requested_at c);
  co_probes : 0 < probe_cluster_min_probes (pace_info c) <= 1000;
  co_bytes : probe_cluster_min_bytes (pace_info c) <= kMaxTargetBytes;
  co_sent : 0 <= sent_probes c <= sent_bytes c /\ sent_bytes c <= sent_probes c * kMaxProbeBytes;
  co_started : 0 < sent_probes c -> is_time (started_at c);
  co_open : cluster_complete c = false;
}.

(** The schedule holds the cluster to its rate: what it has sent takes, at the
    target rate, until the next probe. *)
Definition on_schedule (next : Z) (c : ProbeCluster) : Prop :=
  0 < sent_probes c -> IsFinite next = true ->
  sent_bytes c * 8000000 < (next - started_at c + 1) * send_bitrate (pace_info c).

Record prober_ok (b : BitrateProber) : Prop := {
  po_count : zlen (clusters_ b) <= kMaxPendingProbeClusters;
  po_clusters : Forall cluster_ok (clusters_ b);
  po_fresh : Forall (fun c => sent_probes c = 0) (tail (clusters_ b));
  po_active : probing_state_ b = kActive -> clusters_ b <> [] /\ next_probe_time_ b <> PlusInfinity;
  po_paced : match clusters_ b with [] => True | c :: _ => on_schedule (next_probe_time_ b) c end;
}.

Lemma cluster_open_bytes c : cluster_ok c -> 0 <= sent_bytes c < kMaxTargetBytes.
Proof.
  intros [_ _ _ _ Hp Hb Hs _ Ho]. unfold cluster_complete, kMaxTargetBytes, kMaxProbeBytes in *. lia.
Qed.

(** The clusters behind the first one have not sent anything. *)
Lemma suffix_fresh {A} (P : A -> Prop) (l k : list A) : Forall P (tail (l ++ k)) -> Forall P (tail k).
Proof.
  destruct l as [|x l]; [done|]. cbn [app tail]. intros H. apply Forall_app in H as [_ H].
  destruct k as [|y k]; [constructor|]. by inversion H.
Qed.

(** Clusters dropped from the front, and the state and the schedule changed: the
    schedule of a cluster that stays is the one it had, or starts over. *)
Lemma prober_ok_suffix b pre l s n :
  prober_ok b -> clusters_ b = pre ++ l ->
  (s = kActive -> l <> [] /\ n <> PlusInfinity) ->
  (pre = [] -> IsFinite n = true -> n = next_probe_time_ b) ->
  prober_ok (mkProber s l n (config_ b)).
Proof.
  intros [H1 H2 H3 H4 H5] Hl Hs Hn. rewrite Hl in *. split; cbn; try done.
  - rewrite zlen_app in H1. pose proof (zlen_nonneg pre). lia.
  - by apply Forall_app in H2 as [_ ?].
  - by apply suffix_fresh in H3.
  - destruct pre as [|c pre].
    + destruct l as [|c l]; [done|]. intros Hc Hf. rewrite (Hn eq_refl Hf).
      apply H5; [done|]. by rewrite <- (Hn eq_refl Hf).
    + destruct l as [|c' l]; [done|]. cbn [app tail] in H3. apply Forall_app in H3 as [_ H3].
      apply Forall_cons_1 in H3 as [H3 _]. unfold on_schedule. lia.
Qed.

Lemma prober_ok_next b s n :
  prober_ok b -> (s = kActive -> clusters_ b <> [] /\ n <> PlusInfinity) ->
  (IsFinite n = true -> n = next_probe_time_ b) ->
  prober_ok (mkProber s (clusters_ b) n (config_ b)).
Proof. intros H Hs Hn. by apply (prober_ok_suffix b []). Qed.

Lemma prober_ok_config b cfg :
  prober_ok b -> prober_ok (mkProber (probing_state_ b) (clusters_ b) (next_probe_time_ b) cfg).
Proof. by intros [H1 H2 H3 H4 H5]. Qed.

Lemma new_prober_ok : prober_ok new_prober.
Proof. by split; try constructor. Qed.

Lemma prober_inactive_ok s b : s <> kActive -> prober_ok b -> prober_ok (set_state s b).
Proof. intros Hs H. by apply (prober_ok_next b s (next_probe_time_ b)). Qed.

Lemma SetEnabled_ok e b : prober_ok b -> prober_ok (SetEnabled e b).
Proof.
  intros H. unfold SetEnabled. destruct e; [destruct (probing_state_ b); [|done..]|];
    by apply prober_inactive_ok.
Qed.

Lemma MaybeSetActiveState_ok size b : prober_ok b -> prober_ok (MaybeSetActiveState size b).
Proof.
  intros H. unfold MaybeSetActiveState, ReadyToSetActiveState.
  destruct (clusters_ b) as [|c l] eqn:Hc; [done|]. rewrite <- Hc.
  destruct (probing_state_ b); try done.
  case_match; [|done]. apply prober_ok_next; [done| |done]. intros _. by rewrite Hc.
Qed.

Lemma ProberAbortProbing_ok b : prober_ok (ProberAbortProbing b).
Proof.
  unfold ProberAbortProbing. cbn. destruct (probing_state_ b) eqn:Hs;
    split; cbn; try rewrite Hs; try done; constructor.
Qed.

Lemma drop_expired_suffix now l :
  exists pre, l = pre ++ (drop_expired now l).2 /\
    (drop_expired now l).1 = match pre with [] => false | _ => true end /\
    Forall (fun c => kProbeClusterTimeout <= timestamp_diff now (requested_at c)) pre /\
    match (drop_expired now l).2 with
    | [] => True
    | c :: _ => timestamp_diff now (requested_at c) < kProbeClusterTimeout
    end.
Proof.
  induction l as [|c l IH]; cbn [drop_expired]; [by exists []|].
  destruct (Z.leb_spec kProbeClusterTimeout (timestamp_diff now (requested_at c))).
  - destruct IH as (pre & Hl & _ & Hf & Hy). exists (c :: pre). cbn [fst snd app].
    split_and!; [f_equal; exact Hl|done|constructor; [lia|done]|done].
  - exists []. cbn [fst snd]. split_and!; [done|done|constructor|lia].
Qed.

Lemma RemoveExpiredClusters_ok now b : prober_ok b -> prober_ok (RemoveExpiredClusters now b).2.
Proof.
  intros H. unfold RemoveExpiredClusters.
  destruct (drop_expired_suffix now (clusters_ b)) as (pre & Hl & Hr & _ & _).
  destruct (drop_expired now (clusters_ b)) as [r l]. cbn [fst snd] in *. subst r.
  destruct b as [s cs n cfg]. cbn [clusters_] in Hl.
  unfold set_state, set_next, set_clusters, is_probing. cbn [probing_state_ clusters_ next_probe_time_ config_].
  destruct pre as [|c pre]; cbn [negb snd].
  - apply (prober_ok_suffix _ [] _ _ _ H); [done| |done].
    intros ->. cbn in Hl. subst cs. by apply (po_active _ H).
  - destruct l as [|c' l].
    + destruct s; by apply (prober_ok_suffix _ (c :: pre) _ _ _ H).
    + case_bool_decide; by apply (prober_ok_suffix _ (c :: pre) _ _ _ H).
Qed.

Lemma CurrentCluster_ok now b : prober_ok b -> prober_ok (CurrentCluster now b).2.
Proof.
  intros H. unfold CurrentCluster. destruct b as [s cs n cfg]. cbn [clusters_ probing_state_].
  destruct cs as [|c cs]; [done|]. destruct s; try done.
  case_match; [|done]. unfold set_state, set_clusters. cbn.
  destruct cs as [|c' cs]; cbn [snd]; apply (prober_ok_suffix _ [c] _ _ _ H); try done.
  intros _. split; [done|]. by apply (po_active _ H).
Qed.

Lemma discard_excess_suffix l :
  exists pre, l = pre ++ discard_excess l /\ zlen (discard_excess l) < kMaxPendingProbeClusters.
Proof.
  induction l as [|c l (pre & Hl & Hn)]; [by exists []|]. cbn [discard_excess].
  destruct (Z.leb_spec kMaxPendingProbeClusters (zlen (c :: l))).
  - exists (c :: pre). cbn [app]. by rewrite <- Hl.
  - by exists [].
Qed.

Lemma cluster_of_config_ok c : probe_config_ok c -> cluster_ok (cluster_of_config c).
Proof.
  intros (Ht & Hr & Hb & Hd & Hz & Hn). unfold cluster_of_config, kMaxTargetBytes in *.
  replace (s32 _) with (rate_times_duration (target_data_rate c) (target_duration c)) by ilia.
  split; unfold kMaxTargetBytes, kMaxProbeBytes; cbn -[Z.le Z.lt]; try done; try lia.
  apply andb_false_intro2, Z.leb_gt. cbn. lia.
Qed.

(** A new cluster at the end of the queue. *)
Lemma prober_ok_snoc b c :
  prober_ok b -> zlen (clusters_ b) < kMaxPendingProbeClusters -> cluster_ok c -> sent_probes c = 0 ->
  prober_ok (set_clusters (clusters_ b ++ [c]) b).
Proof.
  intros [H1 H2 H3 H4 H5] Hn Hc Hs. split; cbn.
  - rewrite zlen_app, zlen_cons, zlen_nil. lia.
  - apply Forall_app. by split; [|constructor].
  - destruct (clusters_ b) as [|c0 l]; cbn [app tail]; [constructor|].
    apply Forall_app. split; [done|]. by constructor.
  - intros Ha. destruct (H4 Ha) as [_ Hne]. split; [|done]. by destruct (clusters_ b).
  - destruct (clusters_ b) as [|c0 l]; cbn [app]; [|done]. unfold on_schedule. lia.
Qed.

Lemma CreateProbeCluster_ok c b :
  prober_ok b -> probe_config_ok c -> prober_ok (CreateProbeCluster c b).
Proof.
  intros H Hc. unfold CreateProbeCluster. apply MaybeSetActiveState_ok.
  pose proof (RemoveExpiredClusters_ok (at_time c) b H) as H1.
  set (b1 := (RemoveExpiredClusters (at_time c) b).2) in *.
  destruct (discard_excess_suffix (clusters_ b1)) as (pre & Hl & Hn).
  set (l := discard_excess (clusters_ b1)) in *.
  destruct (decide (l = [])) as [He|Hne].
  - rewrite He. apply cluster_of_config_ok in Hc. destruct H1 as [_ _ _ H4 _].
    split; cbn; [done|by constructor|constructor| |unfold on_schedule; cbn; lia].
    intros Ha. split; [done|]. by apply H4.
  - assert (prober_ok (set_clusters l b1)) as H2.
    { destruct b1 as [s cs n cfg]. cbn in *. apply (prober_ok_suffix _ pre _ _ _ H1); [done| |done].
      intros Ha. split; [done|]. by apply (po_active _ H1). }
    change (set_clusters (l ++ [cluster_of_config c]) b1) with
      (set_clusters (clusters_ (set_clusters l b1) ++ [cluster_of_config c]) (set_clusters l b1)).
    apply prober_ok_snoc; [done|done|by apply cluster_of_config_ok|done].
Qed.

(** ** Sending a probe *)

(** A cluster that has just sent a probe, before the check that it is complete. *)
Lemma count_probe_ok now size n c :
  cluster_ok c -> is_time now -> 0 < size <= kMaxProbeBytes ->
  let c' := count_probe now size n c in
  is_time (started_at c') /\ sent_probes c' = sent_probes c + 1 /\ sent_bytes c' = sent_bytes c + size /\
  (cluster_complete c' = false -> cluster_ok c').
Proof.
  intros H Hnow Hs. pose proof (cluster_open_bytes c H) as Hb.
  destruct H as [H1 H2 Hz H3 H4 H5 H6 H7 H8]. unfold kMaxProbeBytes in *.
  assert (s32 size = size) as Hs32 by ilia. cbn zeta.
  assert (is_time (started_at (count_probe now size n c))) as Ht.
  { cbn. destruct (Z.eqb_spec (sent_probes c) 0); [done|]. apply H7. lia. }
  split_and!; [done|done|cbn; lia|]. intros Ho.
  split; unfold kMaxProbeBytes; cbn -[Z.le Z.lt Z.mul]; try done; lia.
Qed.

(** The schedule after a probe: at least the gap between probes, and the time
    that the bytes sent take at the target rate. *)
Lemma scheduled_ok now c :
  0 < send_bitrate (pace_info c) -> is_time (started_at c) -> is_time now ->
  is_time (min_probe_delta c) -> 0 <= sent_bytes c < 2147483648 ->
  exists t, CalculateNextProbeTime c = Some t /\
    timestamp_add now (min_probe_delta c) = now + min_probe_delta c /\
    IsFinite (Z.max t (now + min_probe_delta c)) = true /\
    on_schedule (Z.max t (now + min_probe_delta c)) c.
Proof.
  intros Hr Hs Hnow Hd Hb. unfold CalculateNextProbeTime.
  destruct (Z.eqb_spec (send_bitrate (pace_info c)) 0); [lia|].
  set (r := send_bitrate (pace_info c)) in *. unfold size_over_rate, Microbits.
  assert (0 <= Z.quot (sent_bytes c * 8000000) r <= sent_bytes c * 8000000) as Hq.
  { rewrite Z.quot_div_nonneg by lia. split; [apply Z.div_pos; lia|].
    apply Z.div_le_upper_bound; nia. }
  assert (sent_bytes c * 8000000 < (Z.quot (sent_bytes c * 8000000) r + 1) * r) as Hlt.
  { rewrite Z.quot_div_nonneg by lia. pose proof (Z.mul_succ_div_gt (sent_bytes c * 8000000) r). lia. }
  set (d := Z.quot _ r) in *. clearbody d.
  unfold is_time in *. rewrite !timestamp_add_small by (unfold small; lia).
  eexists. split; [done|]. split; [done|].
  assert (IsFinite (Z.max (started_at c + d) (now + min_probe_delta c)) = true) as Hf.
  { unfold IsFinite, IsInfinite. finite_tests. }
  split; [done|]. intros _ _. fold r. nia.
Qed.

Lemma ProbeSent_ok now size n b :
  prober_ok b -> is_time now -> 0 < size <= kMaxProbeBytes ->
  exists b', ProbeSent now size n b = Some b' /\ prober_ok b' /\
    match clusters_ b with
    | [] => b' = b
    | c :: rest =>
        let c := count_probe now size n c in
        clusters_ b' = (if cluster_complete c then rest else c :: rest) /\
        now + min_probe_delta c <= next_probe_time_ b' /\ IsFinite (next_probe_time_ b') = true
    end.
Proof.
  intros H Hnow Hs. unfold ProbeSent. destruct b as [s cs next cfg]. cbn [clusters_].
  destruct cs as [|c rest]; [by eexists|].
  pose proof (po_clusters _ H) as Hc. cbn [clusters_] in Hc. apply Forall_cons_1 in Hc as [Hc Hrest].
  destruct (count_probe_ok now size n c Hc Hnow Hs) as (Ht & Hp & Hb & Ho).
  pose proof (cluster_open_bytes c Hc) as Hob. unfold kMaxTargetBytes, kMaxProbeBytes in *.
  cbn zeta. set (c' := count_probe now size n c) in *.
  destruct (scheduled_ok now c') as (t & -> & Hadd & Hf & Hsch);
    [by destruct Hc|done|done|by destruct Hc|lia|].
  cbn [mbind option_bind]. rewrite Hadd. set (next' := Z.max t (now + min_probe_delta c')) in *.
  eexists. split; [done|]. unfold set_state, set_clusters, set_next. cbn.
  assert (forall s', (s' = kActive -> s = kActive /\ (if cluster_complete c' then rest else c' :: rest) <> []) ->
    prober_ok (mkProber s' (if cluster_complete c' then rest else c' :: rest) next' cfg)) as Hok.
  { intros s' Hs'. destruct (cluster_complete c').
    - apply (prober_ok_suffix _ [c] _ _ _ H); [done| |done]. intros Ha. destruct (Hs' Ha) as [_ ?].
      split; [done|]. by intros He; rewrite He in Hf.
    - destruct H as [P1 P2 P3 P4 P5]. split; cbn; try done.
      + constructor; [by apply Ho|done].
      + intros _. split; [done|]. by intros He; rewrite He in Hf. }
  split.
  - destruct (cluster_complete c') eqn:Hcc; [|by apply Hok]. destruct rest; by apply Hok.
  - destruct (cluster_complete c'); [destruct rest|]; cbn; (split; [done|]); split; try done; apply Z.le_max_r.
Qed.

Lemma prober_step_ok b e :
  prober_ok b -> probe_event_ok e -> exists b', prober_step b e = Some b' /\ prober_ok b'.
Proof.
  intros H He. destruct e; cbn [prober_step probe_event_ok] in *.
  - eexists. split; [done|]. by apply SetEnabled_ok.
  - eexists. split; [done|]. by apply MaybeSetActiveState_ok, prober_ok_config.
  - eexists. split; [done|]. apply ProberAbortProbing_ok.
  - eexists. split; [done|]. by apply MaybeSetActiveState_ok.
  - eexists. split; [done|]. by apply CreateProbeCluster_ok.
  - eexists. split; [done|]. by apply RemoveExpiredClusters_ok.
  - eexists. split; [done|]. by apply CurrentCluster_ok.
  - destruct He as [Hn Hs]. destruct (ProbeSent_ok now size packet_count b H Hn Hs) as (b' & -> & Hb & _).
    by eexists.
Qed.

Lemma prober_run_ok es b :
  prober_ok b -> Forall probe_event_ok es -> exists b', prober_run b es = Some b' /\ prober_ok b'.
Proof.
  revert b. induction es as [|e es IH]; intros b H Hes; cbn [prober_run]; [by eexists|].
  apply Forall_cons_1 in Hes as [He Hes]. destruct (prober_step_ok b e H He) as (b1 & -> & H1).
  cbn [mbind option_bind]. by apply IH.
Qed.

(** ** The queue is what is left of the requests *)

Definition requests (es : list ProberEvent) : list Z :=
  flat_map (fun e => match e with Create c => [at_time c] | _ => [] end) es.

Lemma requested_step b e b' :
  prober_step b e = Some b' ->
  exists pre, map requested_at (clusters_ b) ++ requests [e] = pre ++ map requested_at (clusters_ b').
Proof.
  assert (forall pre l, clusters_ b = pre ++ l ->
    exists pre, map requested_at (clusters_ b) ++ [] = pre ++ map requested_at l) as Hsuf.
  { intros pre l ->. exists (map requested_at pre). by rewrite app_nil_r, map_app. }
  assert (forall size b, clusters_ (MaybeSetActiveState size b) = clusters_ b) as Hm
    by (intros size b0; unfold MaybeSetActiveState; by case_match).
  assert (forall now, exists pre, clusters_ b = pre ++ clusters_ (RemoveExpiredClusters now b).2) as Hexp.
  { intros now. destruct (drop_expired_suffix now (clusters_ b)) as (pre & Hl & _).
    exists pre. rewrite Hl at 1. f_equal. unfold RemoveExpiredClusters.
    destruct (drop_expired now (clusters_ b)) as [r l]. cbn [fst snd]. destruct r; cbn [negb snd]; [|done].
    unfold set_state, set_next, set_clusters, is_probing. cbn [probing_state_].
    destruct l; [by destruct (probing_state_ b)|by case_bool_decide]. }
  intros He. destruct e; cbn [prober_step requests flat_map app] in *; try injection He as <-.
  - apply (Hsuf []). cbn. unfold SetEnabled. destruct enable; [|done]. by destruct (probing_state_ b).
  - unfold ProberSetAllowProbeWithoutMediaPacket. rewrite Hm. by apply (Hsuf []).
  - apply (Hsuf (clusters_ b)). unfold ProberAbortProbing. cbn.
    destruct (probing_state_ b); cbn; by rewrite app_nil_r.
  - unfold OnIncomingPacket. rewrite Hm. by apply (Hsuf []).
  - unfold CreateProbeCluster. rewrite Hm. cbn [clusters_ set_clusters].
    destruct (Hexp (at_time config)) as [pre1 H1].
    destruct (discard_excess_suffix (clusters_ (RemoveExpiredClusters (at_time config) b).2)) as (pre2 & H2 & _).
    rewrite H1. set (l := discard_excess _) in *. rewrite H2. exists (map requested_at (pre1 ++ pre2)). rewrite !map_app. cbn [map requested_at cluster_of_config].
    by rewrite <- !app_assoc.
  - destruct (Hexp now) as [pre Hp]. by apply (Hsuf pre).
  - unfold CurrentCluster. destruct (clusters_ b) as [|c l] eqn:Hc; [exists []; cbn; by rewrite Hc|].
    rewrite <- Hc in Hsuf |- *.
    destruct (probing_state_ b); [by apply (Hsuf [])..|]. case_match; [|by apply (Hsuf [])].
    destruct l; cbn [snd]; by apply (Hsuf [c]).
  - unfold ProbeSent in He. destruct (clusters_ b) as [|c l] eqn:Hc; [injection He as <-; exists []; by rewrite Hc|].
    apply bind_Some in He as (t & _ & He). injection He as <-.
    set (c' := count_probe now size packet_count c).
    destruct (cluster_complete c'); [exists [requested_at c]|exists []]; rewrite app_nil_r; [|done].
    by destruct l.
Qed.

Lemma requested_run es b b' :
  prober_run b es = Some b' ->
  exists pre, map requested_at (clusters_ b) ++ requests es = pre ++ map requested_at (clusters_ b').
Proof.
  revert b. induction es as [|e es IH]; intros b; cbn [prober_run].
  - intros [= <-]. exists []. by rewrite app_nil_r.
  - intros (b1 & H1 & Hr)%bind_Some. destruct (requested_step b e b1 H1) as [p1 E1].
    destruct (IH b1 Hr) as [p2 E2]. exists (p1 ++ p2).
    change (requests (e :: es)) with (requests ([e] ++ es)). unfold requests in *. rewrite flat_map_app.
    by rewrite app_assoc, E1, <- app_assoc, E2, app_assoc.
Qed.

(** ** Sending a whole cluster *)

Definition probe_bytes (p : Z * Z * Z) : Z := p.1.2.
Definition probe_event (p : Z * Z * Z) : ProberEvent := Sent p.1.1 p.1.2 p.2.

Definition incomplete (c : ProbeCluster) (ps : list (Z * Z * Z)) : Prop :=
  sent_bytes c + zsum probe_bytes ps < probe_cluster_min_bytes (pace_info c) \/
  sent_probes c + zlen ps < probe_cluster_min_probes (pace_info c).

(** Probes that do not complete the cluster add up in it. *)
Lemma probes_add_up ps b c rest :
  prober_ok b -> clusters_ b = c :: rest -> Forall probe_event_ok (map probe_event ps) -> incomplete c ps ->
  exists b' c', prober_run b (map probe_event ps) = Some b' /\ prober_ok b' /\
    clusters_ b' = c' :: rest /\ probing_state_ b' = probing_state_ b /\ pace_info c' = pace_info c /\
    sent_bytes c' = sent_bytes c + zsum probe_bytes ps /\ sent_probes c' = sent_probes c + zlen ps.
Proof.
  revert b c. induction ps as [|[[now size] n] ps IH]; intros b c H Hc Hps Hi; cbn [map prober_run].
  - exists b, c. split_and!; try done; unfold zlen; cbn [zsum length]; lia.
  - cbn [map] in Hps. apply Forall_cons_1 in Hps as [[Hnow Hsz] Hps].
    unfold incomplete in Hi. cbn [zsum] in *. rewrite zlen_cons in *.
    change (probe_bytes (now, size, n)) with size in *.
    assert (Forall (fun p => 0 < probe_bytes p) ps) as Hpos.
    { clear - Hps. induction ps as [|p ps IH]; [constructor|]. cbn [map] in Hps.
      apply Forall_cons_1 in Hps as [[_ Hp] Hps]. constructor; [|by apply IH]. unfold probe_bytes. lia. }
    assert (0 <= zsum probe_bytes ps) as Hsum.
    { clear - Hpos. induction Hpos; cbn [zsum]; lia. }
    pose proof (zlen_nonneg ps).
    pose proof (po_clusters b H) as Hok. rewrite Hc in Hok. apply Forall_cons_1 in Hok as [Hok _].
    destruct (count_probe_ok now size n c Hok Hnow Hsz) as (_ & Hp & Hb & _).
    destruct (ProbeSent_ok now size n b H Hnow Hsz) as (b1 & Hs1 & H1 & Hrel). rewrite Hc in Hrel.
    assert (cluster_complete (count_probe now size n c) = false) as Hf.
    { unfold cluster_complete. rewrite Hp, Hb. cbn [count_probe pace_info]. lia. }
    cbn zeta in Hrel. rewrite Hf in Hrel. destruct Hrel as [Hc1 _].
    cbn [prober_step probe_event fst snd]. rewrite Hs1. cbn [mbind option_bind].
    assert (probing_state_ b1 = probing_state_ b) as Hst1.
    { unfold ProbeSent in Hs1. rewrite Hc in Hs1. apply bind_Some in Hs1 as (t & _ & Hs1).
      rewrite Hf in Hs1. by injection Hs1 as <-. }
    destruct (IH b1 _ H1 Hc1 Hps) as (b' & c' & Hr & Hb' & Hc' & Hst & Hpi & Hby & Hpr).
    { unfold incomplete. rewrite Hp, Hb. cbn [count_probe pace_info]. lia. }
    exists b', c'. split_and!; try done; [by rewrite Hst|rewrite Hby, Hb; lia|rewrite Hpr, Hp; lia].
Qed.

(** ** Properties *)

(** Whatever is asked of a prober, with positive rates and in any order, it
    never divides by zero and keeps its invariant: at most five clusters wait,
    all of them unfinished and only the first one started; a prober that is
    active has a cluster to send and a time to send it; and the first cluster
    keeps to its rate.  The queue is first in, first out: what waits are the
    latest requests. *)
Theorem prober_run_safe (es : list ProberEvent) :
  Forall probe_event_ok es ->
  exists b pre, prober_run new_prober es = Some b /\ prober_ok b /\
    requests es = pre ++ map requested_at (clusters_ b).
Proof.
  intros Hes. destruct (prober_run_ok es new_prober new_prober_ok Hes) as (b & Hr & Hb).
  destruct (requested_run es new_prober b Hr) as [pre Hp]. by exists b, pre.
Qed.

(** A cluster is sent to its end and no further: while the probes sent have
    not reached both the number of bytes and the number of probes asked for, the
    cluster stays first with the exact totals; the probe that reaches both
    removes it, and the next cluster follows, or probing stops.  In between, the
    next probe waits for the gap between probes, and until the bytes sent fit
    the target rate. *)
Theorem prober_cluster_sent (b : BitrateProber) (c : ProbeCluster) (rest : list ProbeCluster)
    (ps : list (Z * Z * Z)) (now size n : Z) :
  prober_ok b -> clusters_ b = c :: rest ->
  Forall probe_event_ok (map probe_event (ps ++ [(now, size, n)])) -> incomplete c ps ->
  let bytes := sent_bytes c + zsum probe_bytes (ps ++ [(now, size, n)]) in
  let probes := sent_probes c + zlen (ps ++ [(now, size, n)]) in
  let i := pace_info c in
  exists b', prober_run b (map probe_event (ps ++ [(now, size, n)])) = Some b' /\
    if (probe_cluster_min_bytes i <=? bytes) && (probe_cluster_min_probes i <=? probes)
    then clusters_ b' = rest /\
         probing_state_ b' = match rest with [] => kInactive | _ => probing_state_ b end
    else exists c', clusters_ b' = c' :: rest /\ pace_info c' = i /\ sent_bytes c' = bytes /\
         sent_probes c' = probes /\ probing_state_ b' = probing_state_ b /\
         now + min_probe_delta c' <= next_probe_time_ b' /\
         bytes * 8000000 < (next_probe_time_ b' - started_at c' + 1) * send_bitrate i.
Proof.
  intros H Hc Hps Hi. cbn zeta. rewrite map_app in *. apply Forall_app in Hps as [Hps Hp].
  apply Forall_cons_1 in Hp as [[Hnow Hs] _]. cbn [fst snd probe_event] in *.
  destruct (probes_add_up ps b c rest H Hc Hps Hi) as (b1 & c1 & Hr1 & H1 & Hc1 & Hst1 & Hpi & Hby & Hpr).
  destruct (ProbeSent_ok now size n b1 H1 Hnow Hs) as (b2 & Hs2 & H2 & Hrel). rewrite Hc1 in Hrel.
  pose proof (po_clusters b1 H1) as Hok. rewrite Hc1 in Hok. apply Forall_cons_1 in Hok as [Hok _].
  destruct (count_probe_ok now size n c1 Hok Hnow Hs) as (_ & Hp2 & Hb2 & _).
  assert (prober_run b (map probe_event ps ++ map probe_event [(now, size, n)]) = Some b2) as Hrun.
  { clear - Hr1 Hs2. revert b Hr1. generalize (map probe_event ps) as es.
    induction es as [|e es IH]; intros b; cbn [app prober_run map].
    - intros [= ->]. cbn [prober_step probe_event fst snd]. by rewrite Hs2.
    - intros (b' & -> & Hr)%bind_Some. cbn [mbind option_bind]. by apply IH. }
  exists b2. split; [exact Hrun|].
  rewrite zsum_app, zlen_app. cbn [zsum]. unfold zlen at 2 4. cbn [length]. unfold probe_bytes at 2 4 6.
  cbn [fst snd].
  replace (sent_bytes c + (zsum probe_bytes ps + (size + 0))) with (sent_bytes (count_probe now size n c1)) by lia.
  replace (sent_probes c + (zlen ps + Z.of_nat 1)) with (sent_probes (count_probe now size n c1)) by lia.
  rewrite <- Hpi. change (pace_info c1) with (pace_info (count_probe now size n c1)).
  fold (cluster_complete (count_probe now size n c1)). cbn zeta in Hrel.
  set (c2 := count_probe now size n c1) in *. destruct Hrel as (Hcl & Hnext & Hfin).
  assert (probing_state_ b2 = match clusters_ b2 with [] => kInactive | _ => probing_state_ b end) as Hst.
  { unfold ProbeSent in Hs2. rewrite Hc1 in Hs2. apply bind_Some in Hs2 as (t & _ & Hs2).
    fold c2 in Hs2. injection Hs2 as <-. rewrite <- Hst1.
    by destruct (if cluster_complete c2 then rest else c2 :: rest). }
  destruct (cluster_complete c2); rewrite Hcl in Hst; [by split|].
  exists c2. split_and!; try done. pose proof (po_paced b2 H2) as Hpaced. rewrite Hcl in Hpaced.
  apply Hpaced; [|done]. destruct (co_sent c1 Hok). lia.
Qed.

(** Old clusters come first. *)
Definition expired (now : Z) (c : ProbeCluster) : bool := kProbeClusterTimeout <=? now - requested_at c.

Lemma drop_expired_filter now l :
  is_time now -> Forall cluster_ok l -> StronglySorted Z.le (map requested_at l) ->
  drop_expired now l = (existsb (expired now) l, List.filter (fun c => negb (expired now c)) l).
Proof.
  intros Hnow Hok Hs. induction l as [|c l IH]; [done|]. cbn [drop_expired existsb List.filter map] in *.
  apply Forall_cons_1 in Hok as [Hc Hok]. inversion Hs as [|? ? Hs' Hle]; subst.
  destruct (timestamp_diff_time now (requested_at c) Hnow (co_requested c Hc)) as [-> _].
  fold (expired now c). destruct (expired now c) eqn:He; cbn [negb orb].
  - by rewrite IH.
  - assert (Forall (fun c' => expired now c' = false) l) as Hf.
    { apply (Forall_map requested_at) in Hle. eapply List.Forall_impl; [|exact Hle]. cbn. unfold expired in *. lia. }
    f_equal.
    + clear - Hf. induction Hf as [|x l Hx _ IHl]; cbn [existsb]; [done|]. by rewrite Hx.
    + f_equal. clear - Hf. induction Hf as [|x l Hx _ IHl]; cbn [List.filter]; [done|]. by rewrite Hx, <- IHl.
Qed.

(** When clusters are requested in the order of time, the clusters that
    waited five seconds are exactly those that [RemoveExpiredClusters] removes,
    and it tells whether there were any; no cluster is left that has expired,
    and the prober stops when none is left. *)
Theorem prober_expires (es : list ProberEvent) (b : BitrateProber) (now : Z) :
  Forall probe_event_ok es -> StronglySorted Z.le (requests es) ->
  prober_run new_prober es = Some b -> is_time now ->
  let '(removed, b') := RemoveExpiredClusters now b in
  removed = existsb (expired now) (clusters_ b) /\
  clusters_ b' = List.filter (fun c => negb (expired now c)) (clusters_ b) /\
  now < NextClusterExpiration b' /\
  (clusters_ b' = [] -> probing_state_ b' <> kActive).
Proof.
  intros Hes Hs Hr Hnow. destruct (prober_run_ok es new_prober new_prober_ok Hes) as (b0 & Hr' & Hb).
  rewrite Hr in Hr'. injection Hr' as <-. destruct (requested_run es new_prober b Hr) as [pre Hp].
  cbn [map clusters_ new_prober app] in Hp. change (requests es = pre ++ map requested_at (clusters_ b)) in Hp.
  rewrite Hp in Hs. assert (StronglySorted Z.le (map requested_at (clusters_ b))) as Hs'.
  { clear - Hs. induction pre as [|x pre IH]; [done|]. apply IH. by inversion Hs. }
  pose proof (RemoveExpiredClusters_ok now b Hb) as Hb'.
  destruct (drop_expired_suffix now (clusters_ b)) as (_ & _ & _ & _ & Hyoung).
  pose proof (drop_expired_filter now (clusters_ b) Hnow (po_clusters b Hb) Hs') as Hd.
  unfold RemoveExpiredClusters in *. rewrite Hd in *. cbn [fst snd] in *.
  set (l := List.filter _ _) in *. set (r := existsb _ _) in *.
  assert (Forall cluster_ok l) as Hl.
  { clear - Hb. apply List.Forall_forall. intros c [Hc _]%filter_In. revert c Hc. apply List.Forall_forall, Hb. }
  assert (forall b', clusters_ b' = l -> prober_ok b' ->
    r = r /\ clusters_ b' = l /\ now < NextClusterExpiration b' /\ (clusters_ b' = [] -> probing_state_ b' <> kActive)) as Hfin.
  { intros b' Hc H. split_and!; [done|done| |].
    - unfold NextClusterExpiration. rewrite Hc. destruct l as [|c l'].
      + unfold is_time, PlusInfinity in *. lia.
      + apply Forall_cons_1 in Hl as [Hl _]. pose proof (co_requested c Hl) as Hrq.
        destruct (timestamp_diff_time now (requested_at c) Hnow Hrq) as [Ed _]. rewrite Ed in Hyoung.
        unfold kProbeClusterTimeout, is_time in *. rewrite timestamp_add_small by (unfold small; lia). lia.
    - intros He Ha. by destruct (po_active b' H Ha). }
  destruct r; cbn [negb] in *; apply Hfin; try done.
  unfold set_state, set_next, set_clusters, is_probing. cbn.
  destruct l; [by destruct (probing_state_ b)|by case_bool_decide].
Qed.

(** Two clusters of 1 Mbit/s, the second requested half a second later. *)
Definition sample_probe (t : Z) (id : Z) : ProbeClusterConfig := mkProbeConfig t 1000000 15000 2000 2 id.

Definition sample_probing : list ProberEvent :=
  [Create (sample_probe 1000000 1); Create (sample_probe 1500000 2); Incoming 1200; Query 1510000].

Lemma sample_probing_ok : Forall probe_event_ok sample_probing.
Proof. repeat constructor; unfold is_time; vm_compute; congruence. Qed.

Definition sample_prober : BitrateProber :=
  match prober_run new_prober sample_probing with Some b => b | None => new_prober end.

Lemma sample_prober_ok : prober_ok sample_prober.
Proof.
  destruct (prober_run_ok sample_probing new_prober new_prober_ok sample_probing_ok) as (b & Hr & Hb).
  unfold sample_prober. by rewrite Hr.
Qed.

Lemma prober_run_safe_witness :
  exists b pre, prober_run new_prober sample_probing = Some b /\ prober_ok b /\
    requests sample_probing = pre ++ map requested_at (clusters_ b).
Proof. exact (prober_run_safe sample_probing sample_probing_ok). Defined.

(** 1875 bytes are asked for: the second probe reaches them. *)
Lemma prober_cluster_sent_witness :
  exists b', prober_run sample_prober (map probe_event [(1510000, 1200, 1); (1520000, 1200, 1)]) = Some b' /\
    map requested_at (clusters_ b') = [1500000] /\ probing_state_ b' = kActive.
Proof.
  assert (exists c c', clusters_ sample_prober = [c; c'] /\ c = cluster_of_config (sample_probe 1000000 1) /\
    c' = cluster_of_config (sample_probe 1500000 2)) as (c & c' & Hc & -> & ->)
    by (do 2 eexists; vm_compute; split; [reflexivity|split; reflexivity]).
  destruct (prober_cluster_sent sample_prober _ _ [(1510000, 1200, 1)] 1520000 1200 1
    sample_prober_ok Hc) as (b' & Hr & Hb').
  - repeat constructor; vm_compute; congruence.
  - left. vm_compute. reflexivity.
  - exists b'. split; [exact Hr|]. destruct Hb' as [-> ->]. split; reflexivity.
Defined.

Lemma prober_expires_witness :
  exists b', RemoveExpiredClusters 6200000 sample_prober = (true, b') /\
    map requested_at (clusters_ b') = [1500000].
Proof.
  assert (prober_run new_prober sample_probing = Some sample_prober) as Hr by (vm_compute; reflexivity).
  assert (is_time 6200000) as Ht by (unfold is_time; lia).
  assert (StronglySorted Z.le (requests sample_probing)) as Hs by (vm_compute; repeat constructor; discriminate).
  pose proof (prober_expires sample_probing sample_prober 6200000 sample_probing_ok Hs Hr Ht) as H.
  destruct (RemoveExpiredClusters 6200000 sample_prober) as [r b'] eqn:E.
  destruct H as (-> & Hc & _). exists b'. split; [reflexivity|]. rewrite Hc. reflexivity.
Defined.
