(* ===== verification/Float32.v ===== *)
(** * Arithmetic of [float] and [double]

    binary32 on the Standard Library's executable specification of IEEE 754:
    24 bits of precision, exponents up to 128, round to nearest even. *)

From Stdlib Require Import SpecFloat.
From S2P Require Import Prelude Units.


(** Conversion of an integer, round to nearest even. *)
Definition f32_of_Z (z : Z) : spec_float := binary_normalize 24 128 z 0 false.
Definition f32_mul : spec_float -> spec_float -> spec_float := SFmul 24 128.
Definition f32_div : spec_float -> spec_float -> spec_float := SFdiv 24 128.

(** [static_cast<int64_t>]: truncation, undefined outside the range. *)
Definition f32_to_s64 (f : spec_float) : option Z :=
  match f with
  | S754_zero _ => Some 0
  | S754_finite s m e =>
      let a := if 0 <=? e then Z.shiftl (Zpos m) e else Z.shiftr (Zpos m) (- e) in
      let v := if s then - a else a in
      if (MinusInfinity <=? v) && (v <=? PlusInfinity) then Some v else None
  | _ => None
  end.

Definition f32_add : spec_float -> spec_float -> spec_float := SFadd 24 128.

(** [a < b]; false when one is not a number. *)
Definition f32_lt : spec_float -> spec_float -> bool := SFltb.

(** ** Signs *)

(** Not negative, with the sign bit clear. *)
Definition f32_plus (f : spec_float) : Prop :=
  match f with
  | S754_zero s | S754_infinity s | S754_finite s _ _ => s = false
  | S754_nan => True
  end.

Lemma round_aux_plus m e l : f32_plus (binary_round_aux 24 128 false m e l).
Proof.
  unfold binary_round_aux.
  destruct (shr_fexp _ _ _ _ _) as [mrs e'].
  destruct (shr_fexp _ _ _ _ _) as [mrs' e''].
  destruct (shr_m mrs'); cbn; [done| |done]. by destruct (e'' <=? 128 - 24).
Qed.

Lemma f32_of_Z_plus z : 0 <= z -> f32_plus (f32_of_Z z).
Proof.
  intros Hz. unfold f32_of_Z, binary_normalize. destruct z as [|p|p]; [done| |lia].
  unfold binary_round. destruct (shl_align _ _ _). apply round_aux_plus.
Qed.

Lemma f32_mul_plus x y : f32_plus x -> f32_plus y -> f32_plus (f32_mul x y).
Proof.
  unfold f32_mul. destruct x as [sx|sx| |sx mx ex], y as [sy|sy| |sy my ey];
    cbn; intros; subst; try done; apply round_aux_plus.
Qed.

Lemma f32_to_s64_nonneg f v : f32_plus f -> f32_to_s64 f = Some v -> 0 <= v.
Proof.
  destruct f as [s|s| |s m e]; cbn; try done.
  - intros _ [= <-]. lia.
  - intros ->. cbv zeta. destruct (_ && _); [|done]. intros [= <-].
    destruct (0 <=? e); [apply Z.shiftl_nonneg|apply Z.shiftr_nonneg]; lia.
Qed.

(** ** Arithmetic of [double]

    binary64: 53 bits of precision, exponents up to 1024. *)

Definition f64_of_Z (z : Z) : spec_float := binary_normalize 53 1024 z 0 false.
Definition f64_mul : spec_float -> spec_float -> spec_float := SFmul 53 1024.
Definition f64_div : spec_float -> spec_float -> spec_float := SFdiv 53 1024.

(** A decimal literal, [n / d]. *)
Definition f64_literal (n d : Z) : spec_float := f64_div (f64_of_Z n) (f64_of_Z d).

(** [std::llround]: to the nearest integer, halves away from zero; unspecified
    outside the range of the result. *)
Definition llround (f : spec_float) : option Z :=
  match f with
  | S754_zero _ => Some 0
  | S754_finite s m e =>
      let a := if 0 <=? e then Z.shiftl (Zpos m) e
               else Z.shiftr (Zpos m + Z.shiftl 1 (- e - 1)) (- e) in
      let v := if s then - a else a in
      if (MinusInfinity <=? v) && (v <=? PlusInfinity) then Some v else None
  | _ => None
  end.

(** ** Magnitudes

    Rounding at most doubles a value, so a computation whose exact values are
    far from the largest number never overflows. *)

Section magnitude.
Context (prec emax : Z).

(** Zero, or positive with an exponent of at least [lo] and a value of at most
    [2 ^ k]. *)
Definition within (lo k : Z) (f : spec_float) : Prop :=
  f = S754_zero false \/
  exists m e, f = S754_finite false m e /\ lo <= e /\ Zpos m * 2 ^ (e - lo) <= 2 ^ (k - lo).

Lemma digits2_pos_bound p :
  2 ^ (Zpos (digits2_pos p) - 1) <= Zpos p.
Proof.
  induction p as [p IH|p IH|]; cbn [digits2_pos]; rewrite ?Pos2Z.inj_succ; [| |done];
    replace (Z.succ (Zpos (digits2_pos p)) - 1) with (Z.succ (Zpos (digits2_pos p) - 1)) by lia;
    rewrite Z.pow_succ_r by lia; lia.
Qed.

Lemma shr_1_m mrs : 0 <= shr_m mrs -> shr_m (shr_1 mrs) = shr_m mrs / 2.
Proof.
  destruct mrs as [[|p|p] r s]; cbn; intros H; [done| |lia].
  destruct p as [p|p|]; cbn; zdm.
Qed.

Lemma iter_shr_m n : forall mrs, 0 <= shr_m mrs ->
  shr_m (SpecFloat.iter_pos shr_1 n mrs) = shr_m mrs / 2 ^ Zpos n.
Proof.
  assert (forall a b c, 0 <= a -> 0 <= b -> 0 <= c -> a / 2 ^ b / 2 ^ c = a / 2 ^ (b + c)) as Hd.
  { intros a b c Ha Hb Hc. rewrite Z.div_div, Z.pow_add_r; lia. }
  assert (forall a b, 0 <= a -> 0 <= a / 2 ^ b) as Hpos.
  { intros a b Ha. destruct (Z.ltb_spec b 0).
    - rewrite Z.pow_neg_r by lia. by rewrite Z.div_0_r.
    - apply Z.div_pos; lia. }
  induction n as [n IH|n IH|]; intros mrs H; cbn [SpecFloat.iter_pos].
  - pose proof (shr_1_m mrs H) as H1. pose proof (Hpos (shr_m mrs) 1 H) as H2.
    change (2 ^ 1) with 2 in H2. rewrite <- H1 in H2. pose proof (IH _ H2) as E.
    rewrite IH by (rewrite E; by apply Hpos). rewrite E, H1.
    change (shr_m mrs / 2) with (shr_m mrs / 2 ^ 1). rewrite !(Hd (shr_m mrs)) by lia.
    by replace (1 + Zpos n + Zpos n) with (Zpos (xI n)) by lia.
  - pose proof (IH _ H) as E. rewrite IH by (rewrite E; by apply Hpos).
    rewrite E, Hd by lia. by replace (Zpos n + Zpos n) with (Zpos (xO n)) by lia.
  - by apply shr_1_m.
Qed.

(** Dropping the low bits. *)
Lemma shr_fexp_spec m e l :
  0 <= m ->
  exists n, 0 <= n /\ (shr_fexp prec emax m e l).2 = e + n /\
    shr_m (shr_fexp prec emax m e l).1 = m / 2 ^ n /\
    n = Z.max 0 (fexp prec emax (Zdigits2 m + e) - e).
Proof.
  intros Hm. unfold shr_fexp, shr.
  assert (shr_m (shr_record_of_loc m l) = m) as Hr by (by destruct l as [|[]]).
  destruct (fexp prec emax (Zdigits2 m + e) - e) as [|p|p] eqn:E; cbn [fst snd].
  - exists 0. rewrite Hr, Z.div_1_r. lia.
  - exists (Zpos p). rewrite iter_shr_m; rewrite Hr; lia.
  - exists 0. rewrite Hr, Z.div_1_r. lia.
Qed.

Lemma round_nearest_even_le m l : m <= round_nearest_even m l <= m + 1.
Proof. unfold round_nearest_even. repeat case_match; lia. Qed.

Lemma binary_round_aux_within lo k m e l :
  0 < prec -> lo <= e -> emin prec emax <= e -> Zpos m * 2 ^ (e - lo) <= 2 ^ (k - lo) ->
  lo <= k -> k + 1 <= emax - prec ->
  within lo (k + 1) (binary_round_aux prec emax false (Zpos m) e l).
Proof.
  intros Hp Hlo Hmin Hv Hk Hmax. unfold binary_round_aux.
  destruct (shr_fexp_spec (Zpos m) e l ltac:(lia)) as (n & Hn & He & Hm & Hnv).
  destruct (shr_fexp prec emax (Zpos m) e l) as [mrs e']. cbn [fst snd] in *.
  pose proof (round_nearest_even_le (shr_m mrs) (loc_of_shr_record mrs)) as Hr.
  set (m1 := round_nearest_even _ _) in *.
  assert (0 <= shr_m mrs) as H0 by (rewrite Hm; apply Z.div_pos; lia).
  destruct (shr_fexp_spec m1 e' loc_Exact ltac:(lia)) as (n2 & Hn2 & He2 & Hm2 & _).
  destruct (shr_fexp prec emax m1 e' loc_Exact) as [mrs2 e2]. cbn [fst snd] in *.
  assert (2 ^ n <= Zpos m) as Hpn.
  { destruct (Z.eq_dec n 0) as [->|]; [change (2 ^ 0) with 1; lia|].
    transitivity (2 ^ (Zpos (digits2_pos m) - 1)); [|apply digits2_pos_bound].
    apply Z.pow_le_mono_r; [lia|]. unfold fexp in Hnv. cbn [Zdigits2] in Hnv. lia. }
  assert (shr_m mrs2 * 2 ^ (n + n2) <= 2 * Zpos m) as Hval.
  { rewrite Z.pow_add_r by lia. rewrite Hm2.
    pose proof (Z.mul_div_le m1 (2 ^ n2) ltac:(lia)).
    pose proof (Z.mul_div_le (Zpos m) (2 ^ n) ltac:(lia)). rewrite Hm in Hr. nia. }
  assert (0 <= shr_m mrs2) as H2 by (rewrite Hm2; apply Z.div_pos; lia).
  destruct (shr_m mrs2) as [|m2|m2]; [by left| |lia].
  assert (Zpos m2 * 2 ^ (e2 - lo) <= 2 ^ (k + 1 - lo)) as Hb.
  { replace (e2 - lo) with (n + n2 + (e - lo)) by lia.
    replace (k + 1 - lo) with (1 + (k - lo)) by lia.
    rewrite (Z.pow_add_r 2 (n + n2)), (Z.pow_add_r 2 1) by lia. change (2 ^ 1) with 2. nia. }
  assert (e2 - lo <= k + 1 - lo) as Hle.
  { apply (Z.pow_le_mono_r_iff 2); [lia..|]. nia. }
  rewrite (proj2 (Z.leb_le _ _)) by lia. right. exists m2, e2. split; [done|]. lia.
Qed.

Lemma within_mul lo1 k1 lo2 k2 x y :
  0 < prec -> within lo1 k1 x -> within lo2 k2 y -> lo1 <= k1 -> lo2 <= k2 ->
  emin prec emax <= lo1 + lo2 -> k1 + k2 + 1 <= emax - prec ->
  within (lo1 + lo2) (k1 + k2 + 1) (SFmul prec emax x y).
Proof.
  intros Hp Hx Hy H1 H2 Hmin Hmax.
  destruct Hx as [->|(m & e & -> & Hlo & Hm)], Hy as [->|(m' & e' & -> & Hlo' & Hm')];
    [by left..|].
  cbn [SFmul xorb]. apply binary_round_aux_within; [lia..| |lia|lia].
  replace (e + e' - (lo1 + lo2)) with ((e - lo1) + (e' - lo2)) by lia.
  replace (k1 + k2 - (lo1 + lo2)) with ((k1 - lo1) + (k2 - lo2)) by lia.
  rewrite !Z.pow_add_r by lia. rewrite Pos2Z.inj_mul.
  transitivity ((Zpos m * 2 ^ (e - lo1)) * (Zpos m' * 2 ^ (e' - lo2))); [lia|].
  apply Z.mul_le_mono_nonneg; lia.
Qed.

Lemma iter_xO m d : Zpos (Pos.iter xO m d) = Zpos m * 2 ^ Zpos d.
Proof.
  revert m. induction d as [|d IH] using Pos.peano_ind; intros m; [cbn; lia|].
  rewrite Pos.iter_succ, Pos2Z.inj_xO, IH, Pos2Z.inj_succ, Z.pow_succ_r by lia. lia.
Qed.

Lemma within_of_Z k z :
  0 < prec -> 0 <= k -> 0 <= z <= 2 ^ k -> emin prec emax <= - prec -> k + 1 <= emax - prec ->
  within (- prec) (k + 1) (binary_normalize prec emax z 0 false).
Proof.
  intros Hp Hk Hz Hmin Hmax. destruct z as [|m|m]; [by left| |lia].
  cbn [binary_normalize]. unfold binary_round, shl_align.
  assert (- prec <= fexp prec emax (Zpos (digits2_pos m) + 0)) as Hf by (unfold fexp; lia).
  destruct (fexp prec emax (Zpos (digits2_pos m) + 0) - 0) as [|d|d] eqn:E.
  1, 2: apply binary_round_aux_within; try lia;
    replace (k - - prec) with (k + (0 - - prec)) by lia; rewrite Z.pow_add_r by lia; nia.
  apply binary_round_aux_within; try lia. rewrite iter_xO.
  replace (fexp prec emax (Zpos (digits2_pos m) + 0)) with (Zneg d) by lia.
  rewrite <- Z.mul_assoc, <- Z.pow_add_r by lia.
  replace (Zpos d + (Zneg d - - prec)) with prec by lia.
  replace (k - - prec) with (k + prec) by lia. rewrite Z.pow_add_r by lia. nia.
Qed.
(** *** Bounds that rounding keeps

    A bound that is itself a float is kept by rounding: [M * 2 ^ E] with [M] of
    at most [prec] digits. *)

Definition below (lo M E : Z) (f : spec_float) : Prop :=
  f = S754_zero false \/
  exists m e, f = S754_finite false m e /\ lo <= e /\ Zpos m * 2 ^ (e - lo) <= M * 2 ^ (E - lo).

(** Bits that are zero leave no trace. *)
Lemma iter_shr_exact n : forall m, 0 <= m -> (2 ^ Zpos n | m) ->
  SpecFloat.iter_pos shr_1 n (Build_shr_record m false false) = Build_shr_record (m / 2 ^ Zpos n) false false.
Proof.
  assert (forall k, 0 <= k -> (2 | k) -> shr_1 (Build_shr_record k false false) = Build_shr_record (k / 2) false false) as H1.
  { intros k Hk [q ->]. rewrite Z.div_mul by lia. destruct q as [|q|q]; [done| |lia].
    replace (Zpos q * 2) with (Zpos (xO q)) by lia. done. }
  assert (forall a b m, 0 <= a -> 0 <= b -> 0 <= m -> (2 ^ (a + b) | m) -> (2 ^ a | m) /\ (2 ^ b | m / 2 ^ a) /\
    m / 2 ^ a / 2 ^ b = m / 2 ^ (a + b) /\ 0 <= m / 2 ^ a) as Hd.
  { intros a b m Ha Hb Hm [q ->]. rewrite Z.pow_add_r by lia.
    replace (q * (2 ^ a * 2 ^ b)) with (q * 2 ^ b * 2 ^ a) by ring. rewrite Z.div_mul by lia.
    split; [by eexists|]. split; [by eexists|]. rewrite Z.div_mul by lia.
    replace (q * 2 ^ b * 2 ^ a) with (q * (2 ^ a * 2 ^ b)) by ring.
    rewrite Z.div_mul by lia. split; [done|].
    assert (0 < 2 ^ a) by (apply Z.pow_pos_nonneg; lia). nia. }
  induction n as [n IH|n IH|]; intros m Hm Hdiv; cbn [SpecFloat.iter_pos].
  - replace (Zpos n~1) with (1 + (Zpos n + Zpos n)) in * by lia.
    destruct (Hd 1 (Zpos n + Zpos n) m) as (D1 & D2 & D3 & D4); [lia|lia|done|done|]. change (2 ^ 1) with 2 in *.
    rewrite H1 by done. destruct (Hd (Zpos n) (Zpos n) (m / 2)) as (D5 & D6 & D7 & D8); [lia|lia|done|done|].
    rewrite IH by done. rewrite IH by done. by rewrite D7, D3.
  - replace (Zpos n~0) with (Zpos n + Zpos n) in * by lia.
    destruct (Hd (Zpos n) (Zpos n) m) as (D5 & D6 & D7 & D8); [lia|lia|done|done|].
    rewrite IH by done. rewrite IH by done. by rewrite D7.
  - by apply H1.
Qed.

Lemma shr_fexp_exact m e n :
  0 <= m -> n = Z.max 0 (fexp prec emax (Zdigits2 m + e) - e) -> (2 ^ n | m) ->
  loc_of_shr_record (shr_fexp prec emax m e loc_Exact).1 = loc_Exact.
Proof.
  intros Hm -> Hd. unfold shr_fexp, shr. destruct (fexp prec emax (Zdigits2 m + e) - e) as [|p|p]; [done| |done].
  change (Z.max 0 (Zpos p)) with (Zpos p) in Hd. cbn [shr_record_of_loc fst]. by rewrite iter_shr_exact.
Qed.

Lemma round_aux_below lo M E m e :
  0 < prec -> lo <= e -> lo <= emin prec emax -> emin prec emax <= E -> 0 < M < 2 ^ prec ->
  prec + E <= emax - prec -> Zpos m * 2 ^ (e - lo) <= M * 2 ^ (E - lo) ->
  below (emin prec emax) M E (binary_round_aux prec emax false (Zpos m) e loc_Exact).
Proof.
  intros Hp Hlo Hmin HE HM Hmax Hv. unfold binary_round_aux.
  destruct (shr_fexp_spec (Zpos m) e loc_Exact ltac:(lia)) as (n & Hn & He & Hm & Hnv).
  pose proof (shr_fexp_exact (Zpos m) e n ltac:(lia) Hnv) as Hexact.
  destruct (shr_fexp prec emax (Zpos m) e loc_Exact) as [mrs e']. cbn [fst snd] in *.
  pose proof (round_nearest_even_le (shr_m mrs) (loc_of_shr_record mrs)) as Hr.
  assert (round_nearest_even (shr_m mrs) (loc_of_shr_record mrs) * 2 ^ (e' - lo) <= M * 2 ^ (E - lo)) as H1.
  { assert (0 < 2 ^ n /\ 0 < 2 ^ (e - lo)) as [Hpn Hpe] by (split; apply Z.pow_pos_nonneg; lia).
    rewrite He. replace (e + n - lo) with (n + (e - lo)) by lia. rewrite Z.pow_add_r by lia.
    assert ((2 ^ n | Zpos m) \/ ~ (2 ^ n | Zpos m)) as [Hd|Hd]
      by (rewrite <- Z.mod_divide by lia; destruct (Z.eq_dec (Zpos m mod 2 ^ n) 0); auto).
    - rewrite (Hexact Hd). cbn [round_nearest_even]. rewrite Hm.
      destruct Hd as [q Hq]. rewrite Hq, Z.div_mul by lia. rewrite Hq in Hv. lia.
    - assert (n <> 0) as Hn0 by (intros ->; apply Hd; exists (Zpos m); lia).
      assert (e' <= E) as HeE.
      { pose proof (digits2_pos_bound m) as Hdig. unfold fexp in Hnv. cbn [Zdigits2] in Hnv.
        destruct (Z.ltb_spec (Zpos (digits2_pos m) + e - prec) (emin prec emax)); [lia|].
        assert (Zpos (digits2_pos m) + e < prec + E + 1); [|lia].
        assert (2 ^ (Zpos (digits2_pos m) - 1 + (e - lo)) < 2 ^ (prec + (E - lo))) as Hlt.
        { rewrite !Z.pow_add_r by lia. assert (0 < 2 ^ (E - lo)) by (apply Z.pow_pos_nonneg; lia). nia. }
        apply Z.pow_lt_mono_r_iff in Hlt; lia. }
      assert (M * 2 ^ (E - lo) = M * 2 ^ (E - e') * (2 ^ n * 2 ^ (e - lo))) as HN.
      { rewrite <- Z.mul_assoc, <- !Z.pow_add_r by lia. do 2 f_equal. lia. }
      rewrite HN in *. set (N := M * 2 ^ (E - e')) in *. clearbody N.
      assert (Zpos m <= N * 2 ^ n) as HmN by nia.
      assert (shr_m mrs < N) as Hlt.
      { rewrite Hm. apply Z.div_lt_upper_bound; [lia|].
        destruct (Z.eq_dec (Zpos m) (2 ^ n * N)) as [Eq|]; [|lia]. destruct Hd. exists N. lia. }
      assert (0 < 2 ^ n * 2 ^ (e - lo)) by nia. nia. }
  set (m1 := round_nearest_even _ _) in *.
  assert (0 <= shr_m mrs) as H0 by (rewrite Hm; apply Z.div_pos; lia).
  destruct (shr_fexp_spec m1 e' loc_Exact ltac:(lia)) as (n2 & Hn2 & He2 & Hm2 & Hnv2).
  destruct (shr_fexp prec emax m1 e' loc_Exact) as [mrs2 e2]. cbn [fst snd] in *.
  assert (emin prec emax <= e2) as Hem by (unfold fexp in Hnv2; lia).
  assert (shr_m mrs2 * 2 ^ (e2 - lo) <= M * 2 ^ (E - lo)) as H2.
  { rewrite He2, Hm2. replace (e' + n2 - lo) with (n2 + (e' - lo)) by lia. rewrite Z.pow_add_r by lia.
    pose proof (Z.mul_div_le m1 (2 ^ n2) ltac:(lia)).
    assert (0 < 2 ^ (e' - lo)) by (apply Z.pow_pos_nonneg; lia). nia. }
  assert (0 <= shr_m mrs2) as H3 by (rewrite Hm2; apply Z.div_pos; lia).
  destruct (shr_m mrs2) as [|m2|m2]; [by left| |lia].
  assert (e2 < prec + E) as Hle.
  { assert (2 ^ (e2 - lo) < 2 ^ (prec + (E - lo))) as Hlt.
    { rewrite Z.pow_add_r by lia. assert (0 < 2 ^ (E - lo) /\ 0 < 2 ^ (e2 - lo)) as [] by (split; apply Z.pow_pos_nonneg; lia). nia. }
    apply Z.pow_lt_mono_r_iff in Hlt; lia. }
  rewrite (proj2 (Z.leb_le _ _)) by lia. right. exists m2, e2. split; [done|]. split; [done|].
  set (lo' := emin prec emax) in *. replace (e2 - lo) with ((e2 - lo') + (lo' - lo)) in H2 by lia.
  replace (E - lo) with ((E - lo') + (lo' - lo)) in H2 by lia. rewrite !Z.pow_add_r in H2 by lia.
  assert (0 < 2 ^ (lo' - lo)) by (apply Z.pow_pos_nonneg; lia). nia.
Qed.
End magnitude.

(** The bound at another reference exponent. *)
Lemma scale_bound lo lo' a b e E :
  lo <= e -> lo <= E -> lo' <= e -> lo' <= E ->
  a * 2 ^ (e - lo) <= b * 2 ^ (E - lo) -> a * 2 ^ (e - lo') <= b * 2 ^ (E - lo').
Proof.
  intros H1 H2 H3 H4 H.
  assert (forall d, 0 <= d -> a * 2 ^ (e - lo + d) <= b * 2 ^ (E - lo + d)) as Hup.
  { intros d Hd. rewrite !Z.pow_add_r by lia. assert (0 < 2 ^ d) by (apply Z.pow_pos_nonneg; lia). nia. }
  destruct (Z.leb_spec lo' lo) as [Hl|Hl].
  - specialize (Hup (lo - lo') ltac:(lia)).
    replace (e - lo + (lo - lo')) with (e - lo') in Hup by lia.
    by replace (E - lo + (lo - lo')) with (E - lo') in Hup by lia.
  - replace (e - lo) with (e - lo' + (lo' - lo)) in H by lia.
    replace (E - lo) with (E - lo' + (lo' - lo)) in H by lia. rewrite !Z.pow_add_r in H by lia.
    assert (0 < 2 ^ (lo' - lo)) by (apply Z.pow_pos_nonneg; lia). nia.
Qed.

Section bounds.
Context (prec emax : Z) (Hp : 0 < prec).

Lemma below_weaken lo M E M' E' f :
  below lo M E f -> lo <= E -> lo <= E' -> M * 2 ^ (E - lo) <= M' * 2 ^ (E' - lo) -> below lo M' E' f.
Proof. intros [->|(m & e & -> & He & Hm)] H1 H2 H; [by left|right]. exists m, e. split; [done|]. split; [done|lia]. Qed.

(** A product with a fixed factor. *)
Lemma mul_below M E mx ex y :
  0 < M -> emin prec emax <= E -> emin prec emax <= ex + E -> ex <= 0 -> prec + (ex + E) <= emax - prec ->
  Zpos mx * M < 2 ^ prec -> below (emin prec emax) M E y ->
  below (emin prec emax) (Zpos mx * M) (ex + E) (SFmul prec emax (S754_finite false mx ex) y).
Proof using Hp.
  intros HM HE HxE Hx Hmax Hdig [->|(m & e & -> & He & Hm)]; [by left|]. cbn [SFmul xorb].
  apply (round_aux_below prec emax (emin prec emax + ex)); try lia.
  rewrite Pos2Z.inj_mul. replace (ex + e - (emin prec emax + ex)) with (e - emin prec emax) by lia.
  replace (ex + E - (emin prec emax + ex)) with (E - emin prec emax) by lia. nia.
Qed.

Lemma shl_align_below lo k m e :
  lo <= e -> lo <= k -> let r := shl_align m e k in
  lo <= r.2 /\ Zpos r.1 * 2 ^ (r.2 - lo) = Zpos m * 2 ^ (e - lo).
Proof.
  intros He Hk. unfold shl_align. destruct (k - e) as [|d|d] eqn:E; cbn [fst snd]; [done|done|].
  split; [done|]. rewrite iter_xO, <- Z.mul_assoc, <- Z.pow_add_r by lia. do 2 f_equal. lia.
Qed.

Lemma normalize_below lo M E z e :
  0 <= z -> lo <= e -> lo <= emin prec emax -> emin prec emax <= E -> 0 < M < 2 ^ prec ->
  prec + E <= emax - prec -> z * 2 ^ (e - lo) <= M * 2 ^ (E - lo) ->
  below (emin prec emax) M E (binary_normalize prec emax z e false).
Proof using Hp.
  intros Hz He Hmin HE HM Hmax Hv. destruct z as [|m|m]; [by left| |lia].
  cbn [binary_normalize]. unfold binary_round.
  assert (lo <= fexp prec emax (Zpos (digits2_pos m) + e)) as Hf by (unfold fexp; lia).
  destruct (shl_align_below lo _ m e He Hf) as [H1 H2]. destruct (shl_align m e _) as [mz ez]. cbn [fst snd] in *.
  apply (round_aux_below prec emax lo); try lia.
Qed.

(** A sum, of values that are not negative. *)
Lemma add_below M1 E1 M2 E2 M E x y :
  let lo := emin prec emax in
  lo <= E1 -> lo <= E2 -> lo <= E -> 0 <= M1 -> 0 <= M2 -> 0 < M < 2 ^ prec -> prec + E <= emax - prec ->
  below lo M1 E1 x -> below lo M2 E2 y ->
  M1 * 2 ^ (E1 - lo) + M2 * 2 ^ (E2 - lo) <= M * 2 ^ (E - lo) ->
  below lo M E (SFadd prec emax x y).
Proof using Hp.
  intros lo H1 H2 HE HM1 HM2 HM Hmax Hx Hy Hs.
  assert (0 <= M1 * 2 ^ (E1 - lo) /\ 0 <= M2 * 2 ^ (E2 - lo)) as [Hn1 Hn2]
    by (split; apply Z.mul_nonneg_nonneg; try lia; apply Z.pow_nonneg; lia).
  destruct Hx as [->|(mx & ex & -> & Hex & Hmx)], Hy as [->|(my & ey & -> & Hey & Hmy)].
  - by left.
  - right. exists my, ey. split; [done|]. split; [done|lia].
  - right. exists mx, ex. split; [done|]. split; [done|lia].
  - cbn [SFadd cond_Zopp]. set (ez := Z.min ex ey).
    destruct (shl_align_below lo ez mx ex Hex ltac:(lia)) as [_ A1].
    destruct (shl_align_below lo ez my ey Hey ltac:(lia)) as [_ A2].
    assert (forall m e, ez <= e -> (shl_align m e ez).2 = ez) as Hs2.
    { intros m e Hle. unfold shl_align. destruct (ez - e) eqn:Ee; cbn; lia. }
    rewrite (Hs2 mx ex ltac:(lia)) in A1. rewrite (Hs2 my ey ltac:(lia)) in A2.
    apply (normalize_below lo); lia.
Qed.
End bounds.

Lemma below_within M E f k : below (-149) M E f -> M * 2 ^ (E - -149) <= 2 ^ (k - -149) -> within (-149) k f.
Proof. intros [->|(m & e & -> & He & Hm)] H; [by left|right]. exists m, e. split; [done|]. split; [done|lia]. Qed.

(** A value within the range of [int64_t] is converted. *)
Lemma within_shift lo k m e :
  lo <= e -> 0 <= k -> lo <= k -> Zpos m * 2 ^ (e - lo) <= 2 ^ (k - lo) ->
  if 0 <=? e then Zpos m * 2 ^ e <= 2 ^ k else Zpos m <= 2 ^ (k - e).
Proof.
  intros Hlo Hk Hlk Hm. destruct (Z.leb_spec 0 e) as [He|He].
  - destruct (Z.leb_spec 0 lo) as [Hl|Hl].
    + replace e with ((e - lo) + lo) by lia. replace k with ((k - lo) + lo) by lia.
      rewrite !(Z.pow_add_r 2 _ lo) by lia. nia.
    + replace (e - lo) with (e + - lo) in Hm by lia. replace (k - lo) with (k + - lo) in Hm by lia.
      rewrite !(Z.pow_add_r 2 _ (- lo)) in Hm by lia.
      pose proof (Z.pow_pos_nonneg 2 (- lo) ltac:(lia) ltac:(lia)). nia.
  - replace (k - lo) with ((k - e) + (e - lo)) in Hm by lia.
    rewrite (Z.pow_add_r 2 (k - e)) in Hm by lia.
    pose proof (Z.pow_pos_nonneg 2 (e - lo) ltac:(lia) ltac:(lia)). nia.
Qed.

Lemma f32_to_s64_within lo k f :
  within lo k f -> lo <= k -> 0 <= k <= 62 -> exists v, f32_to_s64 f = Some v /\ 0 <= v.
Proof.
  intros [->|(m & e & -> & Hlo & Hm)] Hk1 Hk; [by exists 0|]. cbn [f32_to_s64].
  pose proof (within_shift lo k m e Hlo ltac:(lia) ltac:(lia) Hm) as Hs.
  assert (2 ^ k <= 2 ^ 62) as Hp by (apply Z.pow_le_mono_r; lia). change (2 ^ 62) with 4611686018427387904 in Hp.
  set (a := if 0 <=? e then _ else _).
  assert (0 <= a <= 2 ^ k) as Ha.
  { subst a. destruct (Z.leb_spec 0 e).
    - rewrite Z.shiftl_mul_pow2 by lia. lia.
    - rewrite Z.shiftr_div_pow2 by lia. split; [apply Z.div_pos; lia|].
      apply Z.div_le_upper_bound; [lia|]. rewrite <- Z.pow_add_r by lia.
      by replace (- e + k) with (k - e) by lia. }
  exists a. split; [|lia]. cbv zeta. unfold MinusInfinity, PlusInfinity.
  by replace (_ && _) with true by lia.
Qed.

Lemma llround_within lo k f :
  within lo k f -> lo <= k -> 0 <= k <= 61 -> exists v, llround f = Some v /\ 0 <= v.
Proof.
  intros [->|(m & e & -> & Hlo & Hm)] Hk1 Hk; [by exists 0|]. cbn [llround].
  pose proof (within_shift lo k m e Hlo ltac:(lia) ltac:(lia) Hm) as Hs.
  assert (2 ^ k <= 2 ^ 61) as Hp by (apply Z.pow_le_mono_r; lia).
  change (2 ^ 61) with 2305843009213693952 in Hp.
  set (a := if 0 <=? e then _ else _).
  assert (0 <= a <= 2 ^ k + 1) as Ha.
  { subst a. destruct (Z.leb_spec 0 e).
    - rewrite Z.shiftl_mul_pow2 by lia. lia.
    - rewrite Z.shiftl_mul_pow2, Z.shiftr_div_pow2 by lia.
      assert (0 < 2 ^ (- e - 1)) by (apply Z.pow_pos_nonneg; lia).
      assert (2 ^ (- e) = 2 * 2 ^ (- e - 1)) as Hd.
      { rewrite <- Z.pow_succ_r by lia. f_equal. lia. }
      split; [apply Z.div_pos; lia|].
      apply Z.div_le_upper_bound; [lia|]. rewrite Z.mul_add_distr_l, <- Z.pow_add_r by lia.
      replace (- e + k) with (k - e) by lia. lia. }
  exists a. split; [|lia]. cbv zeta. unfold MinusInfinity, PlusInfinity.
  by replace (_ && _) with true by lia.
Qed.
