(* ===== verification/Rtcp.v ===== *)
(** * RTCP headers and reports

    The common header ([src/rtcp/rtcp_packet/rtcp_common_header.cpp]), the
    report block and the sender and receiver reports that carry it.  Each
    [Parse] and [Build] takes the object it is called on and gives the object
    it leaves; [None] is an access outside a buffer. *)

From S2P Require Import Prelude ByteIO.

(** ** The common header *)

(** src/rtcp/rtcp_packet/rtcp_common_header.h:46-50 [RtcpCommonHeader] *)
Record RtcpCommonHeader := mkHeader {
  packet_type_ : Z;
  count_or_format_ : Z;
  padding_size_ : Z;
  payload_size_ : Z;
  payload_ : list Z;      (* the memory from the payload pointer on *)
}.

Definition empty_header := mkHeader 0 0 0 0 [].
Definition kHeaderSizeBytes : Z := 4.

(** src/rtcp/rtcp_packet/rtcp_common_header.cpp:29-47 [RtcpCommonHeader::Create] *)
Definition Create (version has_padding count_or_format payload_type
    length_in_words_minus_one : Z) (buffer : option (list Z))
    : option (Z * option (list Z)) :=
  match buffer with
  | None => Some (0, None)
  | Some buffer =>
      buffer ← wrs buffer 0
        [u8 (Z.lor (Z.lor (Z.shiftl version 6) (Z.shiftl has_padding 5))
                   count_or_format);
         payload_type;
         Z.land (Z.shiftr length_in_words_minus_one 8) 0xFF;
         Z.land length_in_words_minus_one 0xFF];
      Some (4, Some buffer)
  end.

(** src/rtcp/rtcp_packet/rtcp_common_header.cpp:49-106 [RtcpCommonHeader::Parse] *)
Definition Parse (h : RtcpCommonHeader) (buffer : list Z) (size_bytes : Z)
    : option (bool * RtcpCommonHeader) :=
  let kVersion := 2 in
  if size_bytes <? kHeaderSizeBytes then Some (false, h) else
  b0 ← rd buffer 0;
  let version := Z.shiftr b0 6 in
  if negb (version =? kVersion) then Some (false, h) else
  let has_padding := negb (Z.land b0 0x20 =? 0) in
  b1 ← rd buffer 1; b2 ← rd buffer 2; b3 ← rd buffer 3;
  let count_or_format := Z.land b0 0x1F in
  let payload_size := Z.lor (Z.shiftl b2 8) b3 * 4 in
  let payload := drop 4 buffer in
  let h := mkHeader b1 count_or_format 0 payload_size payload in
  if size_bytes <? kHeaderSizeBytes + payload_size then Some (false, h) else
  if has_padding then
    if payload_size =? 0 then Some (false, h) else
    padding_size ← rd payload (payload_size - 1);
    let h := mkHeader b1 count_or_format padding_size payload_size payload in
    if padding_size =? 0 then Some (false, h) else
    if payload_size <? padding_size then Some (false, h) else
    Some (true, mkHeader b1 count_or_format padding_size
                  (payload_size - padding_size) payload)
  else Some (true, h).

(** src/rtcp/rtcp_packet/rtcp_common_header.h:38-40 [RtcpCommonHeader::packet_size] *)
Definition packet_size (h : RtcpCommonHeader) : Z :=
  kHeaderSizeBytes + payload_size_ h + padding_size_ h.

(** src/rtcp/rtcp_packet/rtcp_common_header.h:42-44 [RtcpCommonHeader::NextPacket] *)
Definition NextPacket (h : RtcpCommonHeader) : list Z :=
  drop (Z.to_nat (payload_size_ h + padding_size_ h)) (payload_ h).

(** ** Report blocks *)

(** src/rtcp/rtcp_packet/rtcp_report_block.h:67-81 [RtcpReportBlock] *)
Record RtcpReportBlock := mkBlock {
  sender_ssrc_ : Z;
  source_ssrc_ : Z;
  fraction_lost_ : Z;
  cumulative_lost_ : Z;             (* int32_t *)
  extended_high_seq_num_ : Z;
  jitter_ : Z;
  last_sr_ : Z;
  delay_since_last_sr_ : Z;
  report_block_timestamp_utc_ : Z;
  report_block_timestamp_ : Z;
  last_rtt_ : Z;
  sum_rtt_ : Z;
  num_rtts_ : Z;
}.

(** src/rtcp/rtcp_packet/rtcp_report_block.cpp:29-42 [RtcpReportBlock::RtcpReportBlock] *)
Definition empty_block : RtcpReportBlock := mkBlock 0 0 0 0 0 0 0 0 0 0 0 0 0.

Definition kLength : Z := 24.

(** src/rtcp/rtcp_packet/rtcp_report_block.h:29-37 [RtcpReportBlock::SetCumulativeLost] *)
Definition SetCumulativeLost (b : RtcpReportBlock) (cumulative_lost : Z)
    : bool * RtcpReportBlock :=
  if (Z.shiftl 1 23 <=? cumulative_lost) || (cumulative_lost <? - Z.shiftl 1 23)
  then (false, b)
  else (true, mkBlock (sender_ssrc_ b) (source_ssrc_ b) (fraction_lost_ b)
          cumulative_lost (extended_high_seq_num_ b) (jitter_ b) (last_sr_ b)
          (delay_since_last_sr_ b) (report_block_timestamp_utc_ b)
          (report_block_timestamp_ b) (last_rtt_ b) (sum_rtt_ b) (num_rtts_ b)).

(** The 24 bytes, in the order they are stored; [x >> k & 0xFF] of each field
    is one byte of [be_bytes]. *)
Definition block_bytes (b : RtcpReportBlock) : list Z :=
  be_bytes 4 (source_ssrc_ b) ++ [fraction_lost_ b] ++
  be_bytes 3 (cumulative_lost_ b) ++ be_bytes 4 (extended_high_seq_num_ b) ++
  be_bytes 4 (jitter_ b) ++ be_bytes 4 (last_sr_ b) ++
  be_bytes 4 (delay_since_last_sr_ b).

(** src/rtcp/rtcp_packet/rtcp_report_block.cpp:44-79 [RtcpReportBlock::Create] *)
Definition CreateBlock (b : RtcpReportBlock) (buffer : list Z) (pos : Z)
    : option (list Z * Z) :=
  buffer ← wrs buffer pos (block_bytes b);
  Some (buffer, kLength).

(** src/rtcp/rtcp_packet/rtcp_report_block.cpp:81-112 [RtcpReportBlock::Parse] *)
Definition ParseBlock (b : RtcpReportBlock) (buffer : list Z) (pos : Z)
    : option (Z * RtcpReportBlock) :=
  source_ssrc ← ReadBigEndian 4 buffer pos;
  fraction_lost ← rd buffer (pos + 4);
  lost ← ReadBigEndian 3 buffer (pos + 5);
  let cumulative_lost :=
    if negb (Z.land lost 0x800000 =? 0) then s32 (Z.lor lost 0xFF000000)
    else lost in
  extended_high_seq_num ← ReadBigEndian 4 buffer (pos + 8);
  jitter ← ReadBigEndian 4 buffer (pos + 12);
  last_sr ← ReadBigEndian 4 buffer (pos + 16);
  delay_since_last_sr ← ReadBigEndian 4 buffer (pos + 20);
  Some (kLength,
    mkBlock (sender_ssrc_ b) source_ssrc fraction_lost cumulative_lost
      extended_high_seq_num jitter last_sr delay_since_last_sr
      (report_block_timestamp_utc_ b) (report_block_timestamp_ b)
      (last_rtt_ b) (sum_rtt_ b) (num_rtts_ b)).

(** src/rtcp/rtcp_packet/rtcp_report_block.cpp:114-124 [RtcpReportBlock::SetReportBlock] *)
Definition SetReportBlock (b : RtcpReportBlock) (sender_ssrc : Z)
    (report_block : RtcpReportBlock)
    (report_block_timestamp_utc report_block_timestamp : Z) : RtcpReportBlock :=
  mkBlock sender_ssrc (source_ssrc_ report_block) (fraction_lost_ report_block)
    (cumulative_lost_ report_block) (extended_high_seq_num_ report_block)
    (jitter_ report_block) (last_sr_ b) (delay_since_last_sr_ b)
    report_block_timestamp_utc report_block_timestamp
    (last_rtt_ b) (sum_rtt_ b) (num_rtts_ b).

(** src/rtcp/rtcp_packet/rtcp_report_block.cpp:126-130 [RtcpReportBlock::AddRoundTripTimeSample] *)
Definition AddRoundTripTimeSample (b : RtcpReportBlock) (rtt : Z)
    : RtcpReportBlock :=
  mkBlock (sender_ssrc_ b) (source_ssrc_ b) (fraction_lost_ b)
    (cumulative_lost_ b) (extended_high_seq_num_ b) (jitter_ b) (last_sr_ b)
    (delay_since_last_sr_ b) (report_block_timestamp_utc_ b)
    (report_block_timestamp_ b) rtt (sum_rtt_ b + rtt) (num_rtts_ b + 1).

(** [for (report : reports_) pos += report.Create(buffer_ + pos)]. *)
Fixpoint create_blocks (reports : list RtcpReportBlock) (buffer : list Z) (pos : Z)
    : option (list Z * Z) :=
  match reports with
  | [] => Some (buffer, pos)
  | r :: rs => '(buffer, n) ← CreateBlock r buffer pos; create_blocks rs buffer (pos + n)
  end.

(** [for (i = 0; i < report_count; ++i)] of both reports' [Parse]. *)
Fixpoint parse_blocks (report_count : nat) (payload : list Z) (pos : Z)
    (reports : list RtcpReportBlock) : option (Z * list RtcpReportBlock) :=
  match report_count with
  | O => Some (pos, reports)
  | S n => '(len, report) ← ParseBlock empty_block payload pos;
           parse_blocks n payload (pos + len) (reports ++ [report])
  end.

(** ** Sender report *)

(** src/rtcp/rtcp_packet/sender_report.h:53-60 [SenderReport::SenderInfo] *)
Record SenderInfo := mkSenderInfo {
  si_sender_ssrc : Z;
  ntp_ts_msw : Z;
  ntp_ts_lsw : Z;
  rtp_ts : Z;
  sender_packet_count : Z;
  sender_octet_count : Z;
}.

(** src/rtcp/rtcp_packet/sender_report.h:109-116 [SenderReport] *)
Record SenderReport := mkSR {
  sr_sender_ssrc_ : Z;
  sr_common_header_ : RtcpCommonHeader;
  sender_info_ : SenderInfo;
  sr_reports_ : list RtcpReportBlock;
  sr_buffer_ : list Z;
  sr_size_ : Z;
}.

(** src/rtcp/rtcp_packet/sender_report.h:71-74 [SenderReport::SetNtpTimestamp] *)
Definition SetNtpTimestamp (i : SenderInfo) (ntp_timestamp : Z) : SenderInfo :=
  mkSenderInfo (si_sender_ssrc i) (u32 (Z.shiftr ntp_timestamp 32))
    (u32 ntp_timestamp) (rtp_ts i) (sender_packet_count i) (sender_octet_count i).

(** src/rtcp/rtcp_packet/sender_report.h:86-89 [SenderReport::NtpTimestamp] *)
Definition NtpTimestamp (i : SenderInfo) : Z :=
  Z.lor (Z.shiftl (ntp_ts_msw i) 32) (ntp_ts_lsw i).

(** src/rtcp/rtcp_packet/sender_report.h:90-93 [SenderReport::CompactNtpTimestamp] *)
Definition CompactNtpTimestamp (i : SenderInfo) : Z :=
  Z.lor (u32 (Z.shiftl (ntp_ts_msw i) 16)) (Z.shiftr (ntp_ts_lsw i) 16).

Definition SR_TYPE : Z := 200.
Definition RR_TYPE : Z := 201.
Definition DEFAULT_RTCP_VERSION : Z := 2.
Definition DEFAULT_RTCP_HEADER_SIZE : Z := 4.
Definition DEFAULT_SR_SIZE : Z := 24.
Definition DEFAULT_RR_SIZE : Z := 4.

(** Four statements [buffer_[pos++] = v >> k & 0xFF]. *)
Definition put_u32 (st : list Z * Z) (v : Z) : option (list Z * Z) :=
  buffer ← WriteBigEndian 4 (st.1) (st.2) v; Some (buffer, st.2 + 4).

(** src/rtcp/rtcp_packet/sender_report.cpp:25-78 [SenderReport::Build] *)
Definition BuildSR (sr : SenderReport) (garbage : Z)
    : option (option (list Z) * SenderReport) :=
  if 0x1f <? zlen (sr_reports_ sr) then Some (None, sr) else
  let buffer_size := DEFAULT_RTCP_HEADER_SIZE + DEFAULT_SR_SIZE
                     + zlen (sr_reports_ sr) * kLength in
  let '(buffer, size) :=
    if negb (buffer_size =? sr_size_ sr)
    then (replicate (Z.to_nat buffer_size) garbage, buffer_size)
    else (sr_buffer_ sr, sr_size_ sr) in
  '(pos, buffer) ← Create DEFAULT_RTCP_VERSION 0 (u8 (zlen (sr_reports_ sr)))
      SR_TYPE (u16 ((buffer_size - DEFAULT_RTCP_HEADER_SIZE) / 4)) (Some buffer);
  buffer ← buffer;
  let i := sender_info_ sr in
  st ← put_u32 (buffer, pos) (si_sender_ssrc i);
  st ← put_u32 st (ntp_ts_msw i);
  st ← put_u32 st (ntp_ts_lsw i);
  st ← put_u32 st (rtp_ts i);
  st ← put_u32 st (sender_packet_count i);
  st ← put_u32 st (sender_octet_count i);
  '(buffer, _) ← create_blocks (sr_reports_ sr) st.1 st.2;
  Some (Some buffer, mkSR (sr_sender_ssrc_ sr) (sr_common_header_ sr) i
                       (sr_reports_ sr) buffer size).

(** The lambda [read_u32] of [SenderReport::Parse]. *)
Definition read_u32 (payload : list Z) (pos : Z) : option (Z * Z) :=
  v ← ReadBigEndian 4 payload pos; Some (v, pos + 4).

(** src/rtcp/rtcp_packet/sender_report.cpp:80-120 [SenderReport::Parse] *)
Definition ParseSR (sr : SenderReport) (packet : RtcpCommonHeader)
    : option (bool * SenderReport) :=
  let kSenderInfoLength := DEFAULT_SR_SIZE in
  let report_count := count_or_format_ packet in
  let required_payload_size := kSenderInfoLength + report_count * kLength in
  if payload_size_ packet <? required_payload_size
  then Some (false, mkSR (sr_sender_ssrc_ sr) (sr_common_header_ sr)
                      (sender_info_ sr) [] (sr_buffer_ sr) (sr_size_ sr))
  else
  let payload := payload_ packet in
  '(ssrc, pos) ← read_u32 payload 0;
  '(msw, pos) ← read_u32 payload pos;
  '(lsw, pos) ← read_u32 payload pos;
  '(ts, pos) ← read_u32 payload pos;
  '(pc, pos) ← read_u32 payload pos;
  '(oc, pos) ← read_u32 payload pos;
  '(pos, reports) ← parse_blocks (Z.to_nat report_count) payload pos [];
  Some (pos =? required_payload_size,
        mkSR ssrc packet (mkSenderInfo ssrc msw lsw ts pc oc) reports
          (sr_buffer_ sr) (sr_size_ sr)).

(** ** Receiver report *)

(** src/rtcp/rtcp_packet/receiver_report.h:64-70 [ReceiverReport] *)
Record ReceiverReport := mkRR {
  rr_sender_ssrc_ : Z;
  rr_common_header_ : RtcpCommonHeader;
  rr_reports_ : list RtcpReportBlock;
  rr_buffer_ : list Z;
  rr_size_ : Z;
}.

(** src/rtcp/rtcp_packet/receiver_report.cpp:24-54 [ReceiverReport::Build] *)
Definition BuildRR (rr : ReceiverReport) (garbage : Z)
    : option (option (list Z) * ReceiverReport) :=
  if 0x1f <? zlen (rr_reports_ rr) then Some (None, rr) else
  let buffer_size := DEFAULT_RTCP_HEADER_SIZE + DEFAULT_RR_SIZE
                     + zlen (rr_reports_ rr) * kLength in
  let '(buffer, size) :=
    if negb (buffer_size =? rr_size_ rr)
    then (replicate (Z.to_nat buffer_size) garbage, buffer_size)
    else (rr_buffer_ rr, rr_size_ rr) in
  '(pos, buffer) ← Create DEFAULT_RTCP_VERSION 0 (u8 (zlen (rr_reports_ rr)))
      RR_TYPE (u16 ((buffer_size - DEFAULT_RTCP_HEADER_SIZE) / 4)) (Some buffer);
  buffer ← buffer;
  st ← put_u32 (buffer, pos) (rr_sender_ssrc_ rr);
  '(buffer, _) ← create_blocks (rr_reports_ rr) st.1 st.2;
  Some (Some buffer, mkRR (rr_sender_ssrc_ rr) (rr_common_header_ rr)
                       (rr_reports_ rr) buffer size).

(** src/rtcp/rtcp_packet/receiver_report.cpp:56-83 [ReceiverReport::Parse] *)
Definition ParseRR (rr : ReceiverReport) (packet : RtcpCommonHeader)
    : option (Z * ReceiverReport) :=
  let report_count := count_or_format_ packet in
  let required_payload_size := DEFAULT_RR_SIZE + report_count * kLength in
  if payload_size_ packet <? required_payload_size
  then Some (0, mkRR (rr_sender_ssrc_ rr) (rr_common_header_ rr) []
                  (rr_buffer_ rr) (rr_size_ rr))
  else
  let payload := payload_ packet in
  ssrc ← ReadBigEndian 4 payload 0;
  '(pos, reports) ← parse_blocks (Z.to_nat report_count) payload 4 [];
  Some (pos, mkRR ssrc packet reports (rr_buffer_ rr) (rr_size_ rr)).

(** ** Lemmas: the common header *)

Lemma land_byte_small a k : 0 <= a < 2 ^ k -> 0 <= k <= 8 -> Z.land a 0xFF = a.
Proof.
  intros Ha Hk. change 0xFF with (Z.ones 8). rewrite Z.land_ones by lia.
  apply Z.mod_small. pose proof (Z.pow_le_mono_r 2 k 8). lia.
Qed.

Lemma land_ff x : Z.land x 0xFF = u8 x.
Proof. change 0xFF with (Z.ones 8). by rewrite Z.land_ones by lia. Qed.

Lemma lor_shl8 a b : is_u8 b -> Z.lor (Z.shiftl a 8) b = a * 256 + b.
Proof. intros. rewrite Z.shiftl_mul_pow2 by lia. by apply (lor_add 8). Qed.

Lemma Parse_bytes_drop (m : list Z) n : bytes m -> bytes (drop n m).
Proof. apply Forall_drop. Qed.
#[export] Hint Resolve Parse_bytes_drop : rtc.

(** What a successful [Parse] guarantees of the block it delimits. *)
Definition header_in (h : RtcpCommonHeader) (size_bytes : Z) : Prop :=
  0 <= count_or_format_ h < 32 /\ 0 <= packet_type_ h < 256 /\
  0 <= payload_size_ h /\ 0 <= padding_size_ h /\
  packet_size h <= size_bytes /\
  size_bytes - 4 <= zlen (payload_ h) /\ bytes (payload_ h).

Lemma land_ones_range x k : 0 <= k -> 0 <= Z.land x (Z.ones k) < 2 ^ k.
Proof. intros. rewrite Z.land_ones by done. apply Z.mod_pos_bound. lia. Qed.

Lemma Parse_safe h buffer size_bytes :
  bytes buffer -> size_bytes <= zlen buffer ->
  exists ok h', Parse h buffer size_bytes = Some (ok, h') /\
    (ok = true -> header_in h' size_bytes /\ payload_ h' = drop 4 buffer).
Proof.
  intros Hb Hs. unfold Parse, kHeaderSizeBytes.
  cbv zeta. step_if; [by eexists _, _|]. read_as b0. step_if; [by eexists _, _|].
  read_as b1. read_as b2. read_as b3.
  rewrite lor_shl8 by done.
  pose proof (land_ones_range b0 5 ltac:(lia)) as Hc.
  change (Z.ones 5) with 0x1F in Hc. change (2 ^ 5) with 32 in Hc.
  assert (zlen (drop 4 buffer) = zlen buffer - 4) as Hd by len.
  unfold is_u8 in *.
  step_if; [by eexists _, _|]. step_if.
  - step_if; [by eexists _, _|]. read_as pad. unfold is_u8 in *.
    repeat step_if; eexists _, _; (split; [done|]); try done.
    intros _. split; [|done]. unfold header_in, packet_size, kHeaderSizeBytes. cbn.
    split_and!; try lia. auto with rtc.
  - eexists _, _. split; [done|]. intros _. split; [|done].
    unfold header_in, packet_size, kHeaderSizeBytes. cbn.
    split_and!; try lia. auto with rtc.
Qed.

(** Reading back a header made by [Create] without padding. *)
Lemma Parse_Create h count type len rest :
  0 <= count < 32 -> is_u8 type -> is_u16 len -> len * 4 <= zlen rest ->
  Parse h ([u8 (Z.lor (Z.lor (Z.shiftl 2 6) (Z.shiftl 0 5)) count); type;
            Z.land (Z.shiftr len 8) 0xFF; Z.land len 0xFF] ++ rest) (4 + zlen rest)
  = Some (true, mkHeader type count 0 (len * 4) rest).
Proof.
  intros Hc Ht Hl Hr. unfold is_u8, is_u16 in *.
  pose proof (zlen_nonneg rest) as Hn.
  unfold Parse, kHeaderSizeBytes.
  replace (4 + zlen rest <? 4) with false by lia.
  set (m := _ ++ rest).
  assert (At m 0 ([u8 (Z.lor (Z.lor (Z.shiftl 2 6) (Z.shiftl 0 5)) count); type;
            Z.land (Z.shiftr len 8) 0xFF; Z.land len 0xFF] ++ rest)) as H
    by apply At_start.
  cbn [app] in H. do 4 at_rd H.
  cbn [mbind option_bind].
  change (Z.lor (Z.shiftl 2 6) (Z.shiftl 0 5)) with (1 * 2 ^ 7).
  rewrite lor_add, u8_id by (unfold is_u8; lia).
  rewrite !land_ff.
  assert (Z.shiftr (1 * 2 ^ 7 + count) 6 = 2) as ->
    by (rewrite Z.shiftr_div_pow2 by lia; change (2 ^ 7) with 128; change (2 ^ 6) with 64; zdm).
  assert (Z.land (1 * 2 ^ 7 + count) 31 = count) as ->.
  { change 31 with (Z.ones 5). rewrite Z.land_ones by lia.
    change (2 ^ 7) with 128; change (2 ^ 5) with 32. zdm. }
  assert (Z.land (1 * 2 ^ 7 + count) 32 = 0) as ->.
  { assert ((Z.land (1 * 2 ^ 7 + count) (2 ^ 5) =? 0) = true) as E;
      [|by apply Z.eqb_eq in E].
    rewrite land_pow2_eq0 by lia.
    apply negb_true_iff. apply Z.testbit_false; [lia|].
    change (2 ^ 7) with 128; change (2 ^ 5) with 32. zdm. }
  cbn [negb Z.eqb].
  rewrite lor_shl8 by apply u8_range.
  assert (u8 (Z.shiftr len 8) * 256 + u8 len = len) as ->
    by (rewrite Z.shiftr_div_pow2 by lia; change (2 ^ 8) with 256; unfold u8; zdm).
  replace (4 + zlen rest <? 4 + len * 4) with false by lia. done.
Qed.

(** ** Lemmas: report blocks *)

(** The ranges of the fields that go on the wire. *)
Definition block_ok (b : RtcpReportBlock) : Prop :=
  is_u32 (source_ssrc_ b) /\ is_u8 (fraction_lost_ b) /\
  - 8388608 <= cumulative_lost_ b < 8388608 /\
  is_u32 (extended_high_seq_num_ b) /\ is_u32 (jitter_ b) /\
  is_u32 (last_sr_ b) /\ is_u32 (delay_since_last_sr_ b).

(** A report block that carries only what the wire carries. *)
Definition wire_block (b : RtcpReportBlock) : RtcpReportBlock :=
  mkBlock 0 (source_ssrc_ b) (fraction_lost_ b) (cumulative_lost_ b)
    (extended_high_seq_num_ b) (jitter_ b) (last_sr_ b) (delay_since_last_sr_ b)
    0 0 0 0 0.

Lemma block_bytes_zlen b : zlen (block_bytes b) = 24.
Proof. unfold block_bytes. len. Qed.

Lemma block_bytes_length b : length (block_bytes b) = 24%nat.
Proof. reflexivity. Qed.

(** The sign extension of the 24-bit loss count. *)
Lemma cumulative_lost_read x :
  -8388608 <= x < 8388608 ->
  (if negb (Z.land (x `mod` 16777216) 0x800000 =? 0)
   then s32 (Z.lor (x `mod` 16777216) 0xFF000000) else x `mod` 16777216) = x.
Proof.
  intros Hx. change 0x800000 with (2 ^ 23).
  rewrite land_pow2_eq0, negb_involutive by lia.
  rewrite testbit_top by (change (2 ^ (23 + 1)) with 16777216; zdm).
  change (2 ^ 23) with 8388608.
  destruct (Z.leb_spec 8388608 (x `mod` 16777216)); [|zdm].
  rewrite Z.lor_comm. change 0xFF000000 with (255 * 2 ^ 24).
  rewrite lor_add by (change (2 ^ 24) with 16777216; zdm).
  change (2 ^ 24) with 16777216. unfold s32. zdm.
Qed.

Lemma ParseBlock_read b0 b m p r :
  block_ok b -> At m p (block_bytes b ++ r) ->
  ParseBlock b0 m p = Some (24,
    mkBlock (sender_ssrc_ b0) (source_ssrc_ b) (fraction_lost_ b)
      (cumulative_lost_ b) (extended_high_seq_num_ b) (jitter_ b) (last_sr_ b)
      (delay_since_last_sr_ b) (report_block_timestamp_utc_ b0)
      (report_block_timestamp_ b0) (last_rtt_ b0) (sum_rtt_ b0) (num_rtts_ b0))
  /\ At m (p + 24) r.
Proof.
  intros (Hs & Hf & Hl & He & Hj & Hls & Hd) H. unfold block_bytes in H.
  rewrite <- !app_assoc in H. unfold ParseBlock.
  at_u32 H. cbn [mbind option_bind]. at_rd H. cbn [mbind option_bind].
  apply At_read in H as [-> H]. at_norm H. cbn [mbind option_bind].
  at_u32 H. cbn [mbind option_bind]. at_u32 H. cbn [mbind option_bind].
  at_u32 H. cbn [mbind option_bind]. at_u32 H. cbn [mbind option_bind].
  change (256 ^ Z.of_nat 3) with 16777216.
  rewrite cumulative_lost_read by done. split; [done|exact H].
Qed.

Lemma parse_blocks_read bs : forall m p r acc,
  Forall block_ok bs -> At m p (flat_map block_bytes bs ++ r) ->
  parse_blocks (length bs) m p acc
  = Some (p + 24 * zlen bs, acc ++ map wire_block bs).
Proof.
  induction bs as [|b bs IH]; intros m p r acc Hb H; cbn [length parse_blocks].
  - cbn [map]. rewrite app_nil_r. do 2 f_equal. len.
  - apply Forall_cons_1 in Hb as [Hb Hbs]. cbn [flat_map] in H.
    rewrite <- app_assoc in H.
    destruct (ParseBlock_read empty_block b m p _ Hb H) as [-> H']. cbn [mbind option_bind].
    rewrite (IH m (p + 24) r) by done. rewrite zlen_cons, <- app_assoc.
    do 2 f_equal. lia.
Qed.

Lemma ReadBE_safe B m p :
  bytes m -> 0 <= p -> p + Z.of_nat B <= zlen m ->
  exists v, ReadBigEndian B m p = Some v.
Proof. intros. rewrite ReadBigEndian_Some by done. eauto. Qed.

Lemma ParseBlock_safe b0 m p :
  bytes m -> 0 <= p -> p + 24 <= zlen m ->
  exists b, ParseBlock b0 m p = Some (24, b).
Proof.
  intros Hm H0 H1. unfold ParseBlock.
  rewrite !ReadBigEndian_Some by (done || lia). cbn [mbind option_bind].
  read_as f. eauto.
Qed.

Lemma parse_blocks_safe n : forall m p acc,
  bytes m -> 0 <= p -> p + 24 * Z.of_nat n <= zlen m ->
  exists bs, parse_blocks n m p acc = Some (p + 24 * Z.of_nat n, acc ++ bs) /\
             length bs = n.
Proof.
  induction n as [|n IH]; intros m p acc Hm H0 H1; cbn [parse_blocks].
  - exists []. rewrite app_nil_r. split; [do 2 f_equal; lia|done].
  - destruct (ParseBlock_safe empty_block m p) as (b & ->); [done|lia|lia|].
    cbn [mbind option_bind].
    destruct (IH m (p + 24) (acc ++ [b])) as (bs & -> & Hl); [done|lia|lia|].
    exists (b :: bs). rewrite <- app_assoc. split; [do 2 f_equal; lia|cbn; lia].
Qed.

Lemma create_blocks_next bs : forall w r p,
  p = zlen w -> (24 * length bs <= length r)%nat ->
  create_blocks bs (w ++ r) p =
    Some ((w ++ flat_map block_bytes bs) ++ drop (24 * length bs) r,
          p + 24 * zlen bs).
Proof.
  induction bs as [|b bs IH]; intros w r p -> Hr; cbn [create_blocks flat_map length].
  - rewrite app_nil_r, Nat.mul_0_r, drop_0. do 2 f_equal. len.
  - unfold CreateBlock.
    rewrite wrs_next by (done || (rewrite block_bytes_length; cbn in Hr; lia)).
    cbn [mbind option_bind]. rewrite block_bytes_length, IH;
      [|rewrite zlen_app, block_bytes_zlen; done|cbn in Hr; len].
    rewrite drop_drop, <- !app_assoc, zlen_cons.
    replace (24 + 24 * length bs)%nat with (24 * S (length bs))%nat by lia.
    unfold kLength. do 2 f_equal. lia.
Qed.

Lemma put_u32_next w r p v :
  p = zlen w -> (4 <= length r)%nat ->
  put_u32 (w ++ r, p) v = Some ((w ++ be_bytes 4 v) ++ drop 4 r, p + 4).
Proof.
  intros Hp Hr. unfold put_u32. cbn [fst snd].
  rewrite WriteBigEndian_next by done. done.
Qed.

Lemma flat_blocks_zlen bs : zlen (flat_map block_bytes bs) = 24 * zlen bs.
Proof.
  induction bs as [|b bs IH]; [done|]. cbn [flat_map].
  rewrite zlen_app, block_bytes_zlen, IH, zlen_cons. lia.
Qed.

(** ** Lemmas: building reports *)

Definition header_bytes (count type len : Z) : list Z :=
  [u8 (Z.lor (Z.lor (Z.shiftl 2 6) (Z.shiftl 0 5)) count); type;
   Z.land (Z.shiftr len 8) 0xFF; Z.land len 0xFF].

Lemma header_bytes_length a b c : length (header_bytes a b c) = 4%nat.
Proof. reflexivity. Qed.
#[export] Hint Rewrite header_bytes_length block_bytes_length : len.

Lemma Create_spec count type len r :
  (4 <= length r)%nat ->
  Create 2 0 count type len (Some r) = Some (4, Some (header_bytes count type len ++ drop 4 r)).
Proof.
  intros H. unfold Create. rewrite (wrs_next [] r _ 0) by (done || cbn; lia). done.
Qed.

Definition info_bytes (i : SenderInfo) : list Z :=
  be_bytes 4 (si_sender_ssrc i) ++ be_bytes 4 (ntp_ts_msw i) ++
  be_bytes 4 (ntp_ts_lsw i) ++ be_bytes 4 (rtp_ts i) ++
  be_bytes 4 (sender_packet_count i) ++ be_bytes 4 (sender_octet_count i).

Definition info_ok (i : SenderInfo) : Prop :=
  is_u32 (si_sender_ssrc i) /\ is_u32 (ntp_ts_msw i) /\ is_u32 (ntp_ts_lsw i) /\
  is_u32 (rtp_ts i) /\ is_u32 (sender_packet_count i) /\
  is_u32 (sender_octet_count i).

(** The bytes of the two packets. *)
Definition sr_bytes (sr : SenderReport) : list Z :=
  let n := zlen (sr_reports_ sr) in
  header_bytes n 200 (6 + 6 * n) ++ info_bytes (sender_info_ sr) ++
  flat_map block_bytes (sr_reports_ sr).

Definition rr_bytes (rr : ReceiverReport) : list Z :=
  let n := zlen (rr_reports_ rr) in
  header_bytes n 201 (1 + 6 * n) ++ be_bytes 4 (rr_sender_ssrc_ rr) ++
  flat_map block_bytes (rr_reports_ rr).

(** The buffer either packet is written into has the size it needs, whether it
    is new or reused. *)
Lemma report_buffer n size (buf : list Z) garbage :
  0 <= n -> size = zlen buf ->
  exists b s, (if negb (n =? size) then (replicate (Z.to_nat n) garbage, n)
               else (buf, size)) = (b, s) /\ zlen b = n /\ s = n.
Proof.
  intros Hn ->. case_if.
  - eexists _, _. split; [done|]. unfold zlen. rewrite length_replicate. lia.
  - eexists _, _. split; [done|]. lia.
Qed.

Ltac put_next := rewrite put_u32_next by len; cbn [mbind option_bind].

Lemma BuildSR_spec sr garbage :
  zlen (sr_reports_ sr) <= 31 -> sr_size_ sr = zlen (sr_buffer_ sr) ->
  BuildSR sr garbage = Some (Some (sr_bytes sr),
    mkSR (sr_sender_ssrc_ sr) (sr_common_header_ sr) (sender_info_ sr)
      (sr_reports_ sr) (sr_bytes sr) (zlen (sr_bytes sr))).
Proof.
  intros Hn Hsz. unfold BuildSR. pose proof (zlen_nonneg (sr_reports_ sr)) as H0.
  replace (0x1f <? zlen (sr_reports_ sr)) with false by lia.
  unfold DEFAULT_RTCP_HEADER_SIZE, DEFAULT_SR_SIZE, kLength. cbv zeta.
  destruct (report_buffer (4 + 24 + zlen (sr_reports_ sr) * 24) (sr_size_ sr)
    (sr_buffer_ sr) garbage) as (b & s & -> & Hb & ->); [lia|done|].
  rewrite Create_spec by (unfold zlen in *; lia). cbn [mbind option_bind].
  assert (forall a b c, zlen (header_bytes a b c) = 4) as Hh by done.
  do 6 put_next. cbn [fst snd].
  rewrite create_blocks_next by len. cbn [mbind option_bind].
  rewrite (drop_ge _ (24 * _)) by len. rewrite app_nil_r.
  rewrite u8_id by (unfold is_u8; lia).
  replace ((4 + 24 + zlen (sr_reports_ sr) * 24 - 4) / 4)
    with (6 + 6 * zlen (sr_reports_ sr)) by zdm.
  rewrite u16_id by (unfold is_u16; lia).
  assert (zlen (sr_bytes sr) = 4 + 24 + zlen (sr_reports_ sr) * 24) as Hz.
  { unfold sr_bytes, info_bytes. cbv zeta.
    rewrite !zlen_app, flat_blocks_zlen, !be_bytes_zlen, Hh. lia. }
  rewrite Hz. unfold sr_bytes, info_bytes, SR_TYPE. cbv zeta.
  by rewrite <- !app_assoc.
Qed.

Lemma BuildRR_spec rr garbage :
  zlen (rr_reports_ rr) <= 31 -> rr_size_ rr = zlen (rr_buffer_ rr) ->
  BuildRR rr garbage = Some (Some (rr_bytes rr),
    mkRR (rr_sender_ssrc_ rr) (rr_common_header_ rr)
      (rr_reports_ rr) (rr_bytes rr) (zlen (rr_bytes rr))).
Proof.
  intros Hn Hsz. unfold BuildRR. pose proof (zlen_nonneg (rr_reports_ rr)) as H0.
  replace (0x1f <? zlen (rr_reports_ rr)) with false by lia.
  unfold DEFAULT_RTCP_HEADER_SIZE, DEFAULT_RR_SIZE, kLength. cbv zeta.
  destruct (report_buffer (4 + 4 + zlen (rr_reports_ rr) * 24) (rr_size_ rr)
    (rr_buffer_ rr) garbage) as (b & s & -> & Hb & ->); [lia|done|].
  rewrite Create_spec by (unfold zlen in *; lia). cbn [mbind option_bind].
  assert (forall a b c, zlen (header_bytes a b c) = 4) as Hh by done.
  put_next. cbn [fst snd].
  rewrite create_blocks_next by len. cbn [mbind option_bind].
  rewrite (drop_ge _ (24 * _)) by len. rewrite app_nil_r.
  rewrite u8_id by (unfold is_u8; lia).
  replace ((4 + 4 + zlen (rr_reports_ rr) * 24 - 4) / 4)
    with (1 + 6 * zlen (rr_reports_ rr)) by zdm.
  rewrite u16_id by (unfold is_u16; lia).
  assert (zlen (rr_bytes rr) = 4 + 4 + zlen (rr_reports_ rr) * 24) as Hz.
  { unfold rr_bytes. cbv zeta.
    rewrite !zlen_app, flat_blocks_zlen, !be_bytes_zlen, Hh. lia. }
  rewrite Hz. unfold rr_bytes, RR_TYPE. cbv zeta. by rewrite <- !app_assoc.
Qed.

Lemma ParseSR_read sr h i bs r :
  info_ok i -> Forall block_ok bs ->
  payload_ h = info_bytes i ++ flat_map block_bytes bs ++ r ->
  payload_size_ h = 24 + 24 * zlen bs -> count_or_format_ h = zlen bs ->
  ParseSR sr h = Some (true,
    mkSR (si_sender_ssrc i) h i (map wire_block bs) (sr_buffer_ sr) (sr_size_ sr)).
Proof.
  intros (H1 & H2 & H3 & H4 & H5 & H6) Hbs Hp Hs Hc. unfold ParseSR.
  rewrite Hs, Hc, Hp. unfold DEFAULT_SR_SIZE, kLength. cbv zeta.
  replace (24 + 24 * zlen bs <? 24 + zlen bs * 24) with false by lia.
  set (m := info_bytes i ++ _).
  assert (At m 0 (info_bytes i ++ flat_map block_bytes bs ++ r)) as H by apply At_start.
  unfold info_bytes in H. rewrite <- !app_assoc in H. unfold read_u32.
  do 6 (at_u32 H; pos_norm).
  unfold zlen. rewrite Nat2Z.id. fold (zlen bs).
  erewrite parse_blocks_read by (exact Hbs || exact H). cbn [mbind option_bind].
  replace (_ =? _) with true by lia. by destruct i.
Qed.

Lemma ParseRR_read rr h ssrc bs r :
  is_u32 ssrc -> Forall block_ok bs ->
  payload_ h = be_bytes 4 ssrc ++ flat_map block_bytes bs ++ r ->
  4 + 24 * zlen bs <= payload_size_ h -> count_or_format_ h = zlen bs ->
  ParseRR rr h = Some (4 + 24 * zlen bs,
    mkRR ssrc h (map wire_block bs) (rr_buffer_ rr) (rr_size_ rr)).
Proof.
  intros H1 Hbs Hp Hs Hc. unfold ParseRR.
  rewrite Hc, Hp. unfold DEFAULT_RR_SIZE, kLength. cbv zeta.
  replace (payload_size_ h <? 4 + zlen bs * 24) with false by lia.
  set (m := be_bytes 4 ssrc ++ _).
  assert (At m 0 (be_bytes 4 ssrc ++ flat_map block_bytes bs ++ r)) as H by apply At_start.
  at_u32 H; cbn [mbind option_bind].
  unfold zlen. rewrite Nat2Z.id. fold (zlen bs).
  erewrite parse_blocks_read by (exact Hbs || exact H). done.
Qed.

(** A built packet is delimited again by the common header's parser. *)
Lemma Parse_built h n type k body :
  0 <= n <= 31 -> is_u8 type -> 0 <= k < 65536 -> zlen body = k * 4 ->
  Parse h (header_bytes n type k ++ body) (zlen (header_bytes n type k ++ body))
  = Some (true, mkHeader type n 0 (k * 4) body).
Proof.
  intros Hn Ht Hk Hb. rewrite zlen_app.
  change (zlen (header_bytes n type k)) with 4.
  apply Parse_Create; unfold is_u16; lia || done.
Qed.

(** A block followed by others in a datagram is delimited by its header. *)
Lemma Parse_block h n type k body rest :
  0 <= n <= 31 -> is_u8 type -> 0 <= k < 65536 -> zlen body = k * 4 ->
  let wire := (header_bytes n type k ++ body) ++ rest in
  let h' := mkHeader type n 0 (k * 4) (body ++ rest) in
  Parse h wire (zlen wire) = Some (true, h') /\
  packet_size h' = zlen (header_bytes n type k ++ body) /\ NextPacket h' = rest.
Proof.
  intros Hn Ht Hk Hb wire h'. pose proof (zlen_nonneg rest). split_and!.
  - unfold wire. rewrite <- app_assoc, (zlen_app (header_bytes n type k)).
    change (zlen (header_bytes n type k)) with 4.
    apply Parse_Create; unfold is_u16; [lia|done|lia|rewrite zlen_app; lia].
  - unfold packet_size, kHeaderSizeBytes. cbn [payload_size_ padding_size_ h'].
    rewrite zlen_app. change (zlen (header_bytes n type k)) with 4. lia.
  - unfold NextPacket. cbn [payload_ payload_size_ padding_size_ h'].
    rewrite Z.add_0_r, <- Hb. unfold zlen. by rewrite Nat2Z.id, drop_app_length.
Qed.

(** ** Properties *)

(** On any received bytes the common header's parser reads only inside
    the buffer, and a header it accepts delimits a block of at least four bytes
    that lies inside the received data, with its count and padding in range. *)
Theorem common_header_safe (h : RtcpCommonHeader) (buffer : list Z) :
  bytes buffer ->
  exists ok h', Parse h buffer (zlen buffer) = Some (ok, h') /\
    (ok = true ->
       kHeaderSizeBytes <= packet_size h' <= zlen buffer /\
       0 <= count_or_format_ h' < 32 /\
       0 <= payload_size_ h' <= zlen (payload_ h') /\
       NextPacket h' = drop (Z.to_nat (packet_size h')) buffer).
Proof.
  intros Hb. destruct (Parse_safe h buffer (zlen buffer) Hb) as (ok & h' & H & Hok);
    [lia|].
  exists ok, h'. split; [done|]. intros ->.
  destruct (Hok eq_refl) as [(Hc & Ht & Hp & Hpad & Hsz & Hz & _) Hpl].
  unfold packet_size, kHeaderSizeBytes in *. split_and!; try lia.
  unfold NextPacket. rewrite Hpl, drop_drop. f_equal. lia.
Qed.

Lemma common_header_safe_witness :
  exists ok h', Parse empty_header [0x80; 201; 0; 1; 1; 2; 3; 4; 9] 9 = Some (ok, h')
    /\ ok = true.
Proof.
  destruct (common_header_safe empty_header [0x80; 201; 0; 1; 1; 2; 3; 4; 9]
    ltac:(repeat constructor; unfold is_u8; lia)) as (ok & h' & H & _).
  vm_compute in H. injection H as <- <-. by eexists _, _.
Defined.

(** Sender reports round-trip: with at most 31 report blocks the packet
    built, in a new or a reused buffer of any prior contents, is delimited by
    the common header's parser and parsed back into the same sender info and
    report blocks, the signed 24-bit loss counts included. *)
Theorem sender_report_roundtrip (sr sr0 : SenderReport) (h0 : RtcpCommonHeader)
    (garbage : Z) :
  info_ok (sender_info_ sr) -> Forall block_ok (sr_reports_ sr) ->
  sr_size_ sr = zlen (sr_buffer_ sr) -> zlen (sr_reports_ sr) <= 0x1f ->
  ('(wire, _) ← BuildSR sr garbage; wire ← wire;
   '(ok, h) ← Parse h0 wire (zlen wire);
   '(ok', sr') ← ParseSR sr0 h;
   Some (ok, packet_type_ h, ok', sender_info_ sr', sr_reports_ sr'))
  = Some (true, SR_TYPE, true, sender_info_ sr, map wire_block (sr_reports_ sr)).
Proof.
  intros Hi Hb Hsz Hn. pose proof (zlen_nonneg (sr_reports_ sr)).
  rewrite BuildSR_spec by done. cbn [mbind option_bind].
  unfold sr_bytes. cbv zeta.
  rewrite Parse_built; [|lia|done|lia|
    unfold info_bytes; rewrite !zlen_app, flat_blocks_zlen, !be_bytes_zlen; lia].
  cbn [mbind option_bind].
  erewrite (ParseSR_read _ _ (sender_info_ sr) (sr_reports_ sr) []);
    [done|done|done|cbn; by rewrite app_nil_r|cbn; lia|done].
Qed.

Definition example_block :=
  mkBlock 0 0x11223344 5 (-3) 70000 9 0xABCD0000 65536 0 0 0 0 0.

Lemma sender_report_roundtrip_witness :
  let sr := mkSR 7 empty_header (mkSenderInfo 7 0x83AA7E80 1 2 3 4)
              [example_block; example_block] [] 0 in
  ('(wire, _) ← BuildSR sr 0xAA; wire ← wire;
   '(ok, h) ← Parse empty_header wire (zlen wire);
   '(ok', sr') ← ParseSR sr h;
   Some (ok, packet_type_ h, ok', sender_info_ sr', sr_reports_ sr'))
  = Some (true, 200, true, mkSenderInfo 7 0x83AA7E80 1 2 3 4,
          [example_block; example_block]).
Proof.
  intros sr. apply (sender_report_roundtrip sr sr empty_header 0xAA).
  - repeat split; vm_compute; congruence.
  - repeat constructor; vm_compute; congruence.
  - reflexivity.
  - vm_compute. congruence.
Defined.

(** Receiver reports round-trip in the same way; the size the parser
    returns is the number of bytes of the body. *)
Theorem receiver_report_roundtrip (rr rr0 : ReceiverReport) (h0 : RtcpCommonHeader)
    (garbage : Z) :
  is_u32 (rr_sender_ssrc_ rr) -> Forall block_ok (rr_reports_ rr) ->
  rr_size_ rr = zlen (rr_buffer_ rr) -> zlen (rr_reports_ rr) <= 0x1f ->
  ('(wire, _) ← BuildRR rr garbage; wire ← wire;
   '(ok, h) ← Parse h0 wire (zlen wire);
   '(n, rr') ← ParseRR rr0 h;
   Some (ok, packet_type_ h, n, rr_sender_ssrc_ rr', rr_reports_ rr'))
  = Some (true, RR_TYPE, 4 + 24 * zlen (rr_reports_ rr), rr_sender_ssrc_ rr,
          map wire_block (rr_reports_ rr)).
Proof.
  intros Hi Hb Hsz Hn. pose proof (zlen_nonneg (rr_reports_ rr)).
  rewrite BuildRR_spec by done. cbn [mbind option_bind].
  unfold rr_bytes. cbv zeta.
  rewrite Parse_built; [|lia|done|lia|
    rewrite !zlen_app, flat_blocks_zlen, !be_bytes_zlen; lia].
  cbn [mbind option_bind].
  erewrite (ParseRR_read _ _ (rr_sender_ssrc_ rr) (rr_reports_ rr) []);
    [done|done|done|cbn; by rewrite app_nil_r|cbn; lia|done].
Qed.

Lemma receiver_report_roundtrip_witness :
  let rr := mkRR 7 empty_header [example_block] [] 0 in
  ('(wire, _) ← BuildRR rr 0xAA; wire ← wire;
   '(ok, h) ← Parse empty_header wire (zlen wire);
   '(n, rr') ← ParseRR rr h;
   Some (ok, packet_type_ h, n, rr_sender_ssrc_ rr', rr_reports_ rr'))
  = Some (true, 201, 28, 7, [example_block]).
Proof.
  intros rr. apply (receiver_report_roundtrip rr rr empty_header 0xAA).
  - vm_compute; split; congruence.
  - repeat constructor; vm_compute; congruence.
  - reflexivity.
  - vm_compute. congruence.
Defined.
