(* ===== verification/RtcpFeedback.v ===== *)
(** * RTCP feedback messages

    The serialisation of [RtcpPacket] ([src/rtcp/rtcp_packet/rtcp_packet.cpp]):
    a message is written at a position of a datagram buffer, and a full buffer
    is handed to a callback and restarted.  Then generic NACK
    ([src/rtcp/nack.cpp]) and full intra requests ([src/rtcp/fir.cpp]), and
    [RtcpSender] ([src/rtcp/rtcp_sender/rtcp_sender.h]), which gathers messages
    into datagrams and is proved against the interface [RtcpMessage] that the
    messages implement. *)

From S2P Require Import Prelude ByteIO Rtcp.

(** ** The serialiser *)

Section callback.
(** The callback, and the state it acts on. *)
Context {St : Type} (callback : list Z -> St -> St).

(** The datagram buffer, the write position and the callback's state. *)
Record Writer := mkWriter {
  packet : list Z;
  index : Z;
  sink : St;
}.

(** src/rtcp/rtcp_packet/rtcp_packet.cpp:9-22 [RtcpPacket::OnBufferFull] *)
Definition OnBufferFull (w : Writer) : option (bool * Writer) :=
  if index w =? 0 then Some (false, w) else
  datagram ← rd_range (packet w) 0 (index w);
  Some (true, mkWriter (packet w) 0 (callback datagram (sink w))).

(** src/rtcp/rtcp_packet/rtcp_packet.cpp:56-73 [RtcpPacket::CreateHeader] *)
Definition CreateHeader (count_or_format packet_type length : Z)
    (padding : bool) (w : Writer) : option Writer :=
  let kVersionBits := u8 (Z.shiftl 2 6) in
  let padding_bit := if padding then Z.shiftl 1 5 else 0 in
  p ← wrs (packet w) (index w)
    [Z.lor (Z.lor kVersionBits padding_bit) (u8 count_or_format);
     packet_type;
     Z.land (Z.shiftr length 8) 0xff; Z.land length 0xff];
  Some (mkWriter p (index w + 4) (sink w)).

(** A write at the current position, which then moves past it:
    [ByteWriter::WriteBigEndian(packet + *index, v); *index += B]. *)
Definition put (B : nat) (v : Z) (w : Writer) : option Writer :=
  p ← WriteBigEndian B (packet w) (index w) v;
  Some (mkWriter p (index w + Z.of_nat B) (sink w)).

(** src/rtcp/rtp_feedback/rtp_feedback.cpp:27-30 [RtpFeedback::CreateCommonFeedback] *)
Definition CreateCommonFeedback (sender_ssrc media_ssrc : Z) (w : Writer)
    : option Writer :=
  w ← put 4 sender_ssrc w; put 4 media_ssrc w.

(** What a serialiser is started with and leaves behind. *)
Definition writer_ok (max_length : Z) (w : Writer) : Prop :=
  0 <= index w <= max_length /\ max_length <= zlen (packet w).

Definition pending (w : Writer) : list Z := take (Z.to_nat (index w)) (packet w).

(** The datagrams handed to the callback, in order. *)
Definition deliver (ds : list (list Z)) (s : St) : St :=
  foldl (fun s d => callback d s) s ds.

(** From [w] to [w'] the whole blocks [blocks] have been serialised in order:
    some complete the datagram that was pending, and the others fill new
    datagrams; all but the last of these have gone to the callback. *)
Definition serialised (max_length : Z) (blocks : list (list Z)) (w w' : Writer)
    : Prop :=
  writer_ok max_length w' /\ length (packet w') = length (packet w) /\
  exists ds g0 gs,
    sink w' = deliver ds (sink w) /\
    ds ++ [pending w'] = (pending w ++ concat g0) :: map (@concat Z) gs /\
    g0 ++ concat gs = blocks /\
    Forall (fun d => 0 < zlen d <= max_length) ds.
End callback.
#[global] Arguments Writer St : clear implicits.
#[global] Arguments mkWriter {St} packet index sink.

(** src/rtcp/rtcp_packet/rtcp_packet.cpp:24-39 [RtcpPacket::HeaderLength] *)
Definition HeaderLength (BlockLength : Z) : Z :=
  if BlockLength <=? 0 then u64 (-1)
  else if negb (BlockLength `mod` 4 =? 0) then u64 (-1)
  else (BlockLength - 4) / 4.

(** The parsed fields of [RtpFeedback]: (sender_ssrc, media_ssrc). *)

(** src/rtcp/rtp_feedback/rtp_feedback.cpp:22-25 [RtpFeedback::ParseCommonFeedback] *)
Definition ParseCommonFeedback (payload : list Z) : option (Z * Z) :=
  s ← ReadBigEndian 4 payload 0;
  m ← ReadBigEndian 4 payload 4;
  Some (s, m).

(** ** Generic NACK *)

(** src/rtcp/nack.h:46-49 [Nack::PackedNack] *)
Record PackedNack := mkPacked { first_pid : Z; bitmask : Z }.

(** src/rtcp/nack.h:54-55 [Nack] *)
Record Nack := mkNack {
  nack_sender_ssrc : Z;
  nack_media_ssrc : Z;
  packed_ : list PackedNack;
  packet_ids_ : list Z;
}.

Definition RTPFB : Z := 205.
Definition NACK_FMT : Z := 1.

(** The inner [while] of [Nack::Pack]: the ids that follow the pid within 16. *)
Fixpoint pack_group (first_pid bitmask : Z) (it : list Z) : Z * list Z :=
  match it with
  | [] => (bitmask, [])
  | x :: it' =>
      let shift := u16 (x - first_pid - 1) in
      if shift <=? 15
      then pack_group first_pid (Z.lor bitmask (Z.shiftl 1 shift)) it'
      else (bitmask, it)
  end.

Fixpoint pack_loop (fuel : nat) (it : list Z) (packed : list PackedNack)
    : option (list PackedNack) :=
  match fuel with
  | O => None
  | S fuel' =>
      match it with
      | [] => Some packed
      | pid :: it' =>
          let '(mask, rest) := pack_group pid 0 it' in
          pack_loop fuel' rest (packed ++ [mkPacked pid mask])
      end
  end.

(** src/rtcp/nack.cpp:125-144 [Nack::Pack] *)
Definition Pack (packet_ids : list Z) (packed : list PackedNack)
    : option (list PackedNack) :=
  pack_loop (S (length packet_ids)) packet_ids packed.

(** src/rtcp/nack.cpp:120-123 [Nack::SetPacketIds] *)
Definition SetPacketIds (n : Nack) (nack_list : list Z) : option Nack :=
  p ← Pack nack_list (packed_ n);
  Some (mkNack (nack_sender_ssrc n) (nack_media_ssrc n) p nack_list).

(** [for (bitmask = item.bitmask; bitmask != 0; bitmask >>= 1, ++pid)]: 16
    rounds empty a [uint16_t]. *)
Fixpoint unpack_bits (fuel : nat) (bitmask pid : Z) : list Z :=
  match fuel with
  | O => []
  | S fuel' =>
      if bitmask =? 0 then []
      else (if Z.odd bitmask then [pid] else []) ++
           unpack_bits fuel' (Z.shiftr bitmask 1) (u16 (pid + 1))
  end.

Definition unpack_item (item : PackedNack) : list Z :=
  first_pid item :: unpack_bits 16 (bitmask item) (u16 (first_pid item + 1)).

(** src/rtcp/nack.cpp:146-154 [Nack::Unpack] *)
Definition Unpack (packed : list PackedNack) (packet_ids : list Z) : list Z :=
  packet_ids ++ flat_map unpack_item packed.

(** [for (index = 0; index < nack_items; ++index)] of [Nack::Parse]. *)
Fixpoint parse_items (nack_items : nat) (payload : list Z) (next_nack : Z)
    : option (list PackedNack) :=
  match nack_items with
  | O => Some []
  | S n =>
      pid ← ReadBigEndian 2 payload next_nack;
      mask ← ReadBigEndian 2 payload (next_nack + 2);
      rest ← parse_items n payload (next_nack + 4);
      Some (mkPacked pid mask :: rest)
  end.

(** src/rtcp/nack.cpp:52-74 [Nack::Parse] *)
Definition ParseNack (n : Nack) (packet : RtcpCommonHeader)
    : option (bool * Nack) :=
  if payload_size_ packet <? 8 + 4 then Some (false, n) else
  let nack_items := (payload_size_ packet - 8) / 4 in
  '(sender, media) ← ParseCommonFeedback (payload_ packet);
  packed ← parse_items (Z.to_nat nack_items) (payload_ packet) 8;
  Some (true, mkNack sender media packed (Unpack packed [])).

(** src/rtcp/nack.cpp:76-79 [Nack::BlockLength] *)
Definition NackBlockLength (n : Nack) : Z := 4 + 8 + zlen (packed_ n) * 4.

Section nack_create.
Context {St : Type} (callback : list Z -> St -> St).

(** [for (; nack_index < nack_end_index; ++nack_index)]. *)
Fixpoint put_items (items : list PackedNack) (w : Writer St) : option (Writer St) :=
  match items with
  | [] => Some w
  | item :: items' =>
      w ← put 2 (first_pid item) w;
      w ← put 2 (bitmask item) w;
      put_items items' w
  end.

(** The outer loop of [Nack::Create]; [items] are those from [nack_index]
    on. *)
Fixpoint nack_loop (fuel : nat) (n : Nack) (items : list PackedNack)
    (max_length : Z) (w : Writer St) : option (bool * Writer St) :=
  match fuel with
  | O => None
  | S fuel' =>
      if zlen items =? 0 then Some (true, w) else
      let bytes_left_in_buffer := u64 (max_length - index w) in
      if bytes_left_in_buffer <? 12 + 4 then
        '(ok, w) ← OnBufferFull callback w;
        if negb ok then Some (false, w) else nack_loop fuel' n items max_length w
      else
        let num_nack_fields :=
          Z.min ((bytes_left_in_buffer - 12) / 4) (zlen items) in
        let payload_size_bytes := 8 + num_nack_fields * 4 in
        w ← CreateHeader NACK_FMT RTPFB (payload_size_bytes / 4) false w;
        w ← CreateCommonFeedback (nack_sender_ssrc n) (nack_media_ssrc n) w;
        w ← put_items (take (Z.to_nat num_nack_fields) items) w;
        nack_loop fuel' n (drop (Z.to_nat num_nack_fields) items) max_length w
  end.

(** src/rtcp/nack.cpp:81-114 [Nack::Create] *)
Definition CreateNack (n : Nack) (max_length : Z) (w : Writer St)
    : option (bool * Writer St) :=
  nack_loop (2 * length (packed_ n) + 3) n (packed_ n) max_length w.
End nack_create.

(** ** Full intra request *)

(** src/rtcp/fir.h:32-37 [Fir::Request] *)
Record Request := mkRequest { req_ssrc : Z; seq_nr : Z }.

Record Fir := mkFir {
  fir_sender_ssrc : Z;
  fir_media_ssrc : Z;
  items_ : list Request;
}.

Definition PSFB : Z := 206.
Definition FIR_FMT : Z := 4.

(** src/rtcp/fir.h:46-48 [Fir::AddRequestTo] *)
Definition AddRequestTo (f : Fir) (ssrc seq_num : Z) : Fir :=
  mkFir (fir_sender_ssrc f) (fir_media_ssrc f) (items_ f ++ [mkRequest ssrc seq_num]).

Fixpoint parse_requests (n : nat) (payload : list Z) (next_fci : Z)
    : option (list Request) :=
  match n with
  | O => Some []
  | S n =>
      ssrc ← ReadBigEndian 4 payload next_fci;
      seq ← rd payload (next_fci + 4);
      rest ← parse_requests n payload (next_fci + 8);
      Some (mkRequest ssrc seq :: rest)
  end.

(** src/rtcp/fir.cpp:51-75 [Fir::Parse] *)
Definition ParseFir (f : Fir) (packet : RtcpCommonHeader) : option (bool * Fir) :=
  if payload_size_ packet <? 8 + 8 then Some (false, f) else
  if negb ((payload_size_ packet - 8) `mod` 8 =? 0) then Some (false, f) else
  '(sender, media) ← ParseCommonFeedback (payload_ packet);
  let number_of_fci_items := (payload_size_ packet - 8) / 8 in
  items ← parse_requests (Z.to_nat number_of_fci_items) (payload_ packet) 8;
  Some (true, mkFir sender media items).

(** src/rtcp/fir.cpp:77-79 [Fir::BlockLength] *)
Definition FirBlockLength (f : Fir) : Z := 4 + 8 + 8 * zlen (items_ f).

Section fir_create.
Context {St : Type} (callback : list Z -> St -> St).

Fixpoint put_requests (items : list Request) (w : Writer St) : option (Writer St) :=
  match items with
  | [] => Some w
  | r :: items' =>
      w ← put 4 (req_ssrc r) w;
      w ← put 1 (seq_nr r) w;
      w ← put 3 0 w;
      put_requests items' w
  end.

(** [while ( *index + BlockLength() > max_length)
      if (!OnBufferFull(...)) return false]: the first flush empties the
    buffer, so a second one fails; two rounds are enough. *)
Fixpoint make_room (fuel : nat) (block_length max_length : Z) (w : Writer St)
    : option (bool * Writer St) :=
  match fuel with
  | O => None
  | S fuel' =>
      if max_length <? index w + block_length then
        '(ok, w) ← OnBufferFull callback w;
        if negb ok then Some (false, w)
        else make_room fuel' block_length max_length w
      else Some (true, w)
  end.

(** src/rtcp/fir.cpp:81-102 [Fir::Create] *)
Definition CreateFir (f : Fir) (max_length : Z) (w : Writer St)
    : option (bool * Writer St) :=
  '(ok, w) ← make_room 3 (FirBlockLength f) max_length w;
  if negb ok then Some (false, w) else
  w ← CreateHeader FIR_FMT PSFB (HeaderLength (FirBlockLength f)) false w;
  w ← CreateCommonFeedback (fir_sender_ssrc f) (fir_media_ssrc f) w;
  w ← put_requests (items_ f) w;
  Some (true, w).
End fir_create.

(** ** Lemmas: the serialiser *)

Lemma header_byte c : is_u8 c ->
  Z.lor (Z.lor (u8 (Z.shiftl 2 6)) 0) (u8 c)
  = u8 (Z.lor (Z.lor (Z.shiftl 2 6) (Z.shiftl 0 5)) c).
Proof.
  intros Hc. rewrite <- (land_ff (Z.lor _ c)), Z.land_lor_distr_l.
  by rewrite (land_ff c).
Qed.

Section writer.
Context {St : Type} (callback : list Z -> St -> St).
Implicit Types w : Writer St.

(** [a] has been written and [r] is the room left. *)
Definition Wr w (a r : list Z) : Prop := packet w = a ++ r /\ index w = zlen a.

Lemma Wr_pending w a r : Wr w a r -> pending w = a.
Proof.
  intros [Hp Hi]. unfold pending. rewrite Hp, Hi. unfold zlen.
  by rewrite Nat2Z.id, take_app_length.
Qed.

Lemma writer_Wr max w : writer_ok max w ->
  exists r, Wr w (pending w) r /\ zlen (pending w) = index w /\
            zlen r = zlen (packet w) - index w.
Proof.
  intros (Hi & Hm). exists (drop (Z.to_nat (index w)) (packet w)).
  unfold Wr, pending. rewrite take_drop.
  assert (zlen (take (Z.to_nat (index w)) (packet w)) = index w) as -> by len.
  split_and!; [done|done|done|len].
Qed.

Lemma put_Wr B v w a r :
  Wr w a r -> (B <= length r)%nat ->
  exists w', put B v w = Some w' /\ Wr w' (a ++ be_bytes B v) (drop B r) /\
    sink w' = sink w /\ length (packet w') = length (packet w).
Proof.
  intros [Hp Hi] Hr. unfold put. rewrite Hp, WriteBigEndian_next by done.
  cbn [mbind option_bind]. eexists. split; [done|]. unfold Wr. cbn.
  split_and!; [done|len|done|len].
Qed.

Lemma CreateHeader_Wr c t l w a r :
  Wr w a r -> (4 <= length r)%nat -> is_u8 c ->
  exists w', CreateHeader c t l false w = Some w' /\
    Wr w' (a ++ header_bytes c t l) (drop 4 r) /\
    sink w' = sink w /\ length (packet w') = length (packet w).
Proof.
  intros [Hp Hi] Hr Hc. unfold CreateHeader.
  rewrite Hp, wrs_next by (done || cbn; lia).
  cbn [mbind option_bind]. eexists. split; [done|]. unfold Wr. cbn [packet index sink].
  split_and!; [|len|done|len].
  unfold header_bytes. by rewrite header_byte.
Qed.

Lemma feedback_Wr s m w a r :
  Wr w a r -> (8 <= length r)%nat ->
  exists w', CreateCommonFeedback s m w = Some w' /\
    Wr w' (a ++ be_bytes 4 s ++ be_bytes 4 m) (drop 8 r) /\
    sink w' = sink w /\ length (packet w') = length (packet w).
Proof.
  intros H Hr. unfold CreateCommonFeedback.
  destruct (put_Wr 4 s w a r H) as (w1 & -> & H1 & <- & <-); [lia|].
  cbn [mbind option_bind].
  destruct (put_Wr 4 m w1 _ _ H1) as (w2 & -> & H2 & <- & <-); [len|].
  eexists. split; [done|]. rewrite drop_drop, <- app_assoc in H2. done.
Qed.

(** *** Serialising whole blocks *)

Lemma serialised_nil max w : writer_ok max w -> serialised callback max [] w w.
Proof.
  intros H. split_and!; [done|done|].
  exists [], [], []. split_and!; try done. cbn. by rewrite app_nil_r.
Qed.

(** One block written after what is pending. *)
Lemma serialised_block max block w w' a r r' :
  writer_ok max w -> Wr w a r -> Wr w' (a ++ block) r' ->
  sink w' = sink w -> length (packet w') = length (packet w) ->
  index w + zlen block <= max ->
  serialised callback max [block] w w'.
Proof.
  intros [[H0 H1] H2] HW HW' Hs Hl Hi. unfold serialised.
  destruct HW as [Hp Hx], HW' as [Hp' Hx'].
  pose proof (zlen_nonneg block). rewrite zlen_app in Hx'.
  split_and!; [unfold writer_ok, zlen in *; lia|done|].
  exists [], [block], []. rewrite (Wr_pending w a r), (Wr_pending w' (a ++ block) r')
    by (split; rewrite ?zlen_app; done).
  cbn. rewrite app_nil_r. done.
Qed.

Lemma OnBufferFull_spec max w :
  writer_ok max w ->
  exists ok w', OnBufferFull callback w = Some (ok, w') /\
    ok = negb (index w =? 0) /\ index w' = 0 /\
    serialised callback max [] w w' /\ (ok = false -> w' = w).
Proof.
  intros H. unfold OnBufferFull. case_if.
  - exists false, w. split_and!; [done|done|lia|by apply serialised_nil|done].
  - destruct H as [[H0 H1] H2].
    rewrite rd_range_Some by lia. cbn [mbind option_bind].
    eexists true, _. split_and!; [done|done|done| |done].
    split_and!; [unfold writer_ok; cbn; lia|done|].
    exists [pending w], [], [[]]. cbn.
    split_and!; [done| |done|].
    + by rewrite app_nil_r.
    + constructor; [|constructor]. unfold pending. len.
Qed.

Lemma deliver_app ds ds' (s : St) :
  deliver callback (ds ++ ds') s = deliver callback ds' (deliver callback ds s).
Proof. apply foldl_app. Qed.

Lemma serialised_trans max b1 b2 w w1 w2 :
  serialised callback max b1 w w1 -> serialised callback max b2 w1 w2 ->
  serialised callback max (b1 ++ b2) w w2.
Proof.
  intros (Hok1 & Hl1 & ds1 & g0 & gs & Hs1 & Hd1 & Hb1 & Hf1)
    (Hok2 & Hl2 & ds2 & h0 & hs & Hs2 & Hd2 & Hb2 & Hf2).
  split_and!; [done|congruence|].
  assert (sink w2 = deliver callback (ds1 ++ ds2) (sink w)) as Hs
    by (by rewrite deliver_app, <- Hs1).
  assert (Forall (fun d => 0 < zlen d <= max) (ds1 ++ ds2)) as Hf by (by apply Forall_app).
  destruct ds1 as [|d ds1]; cbn [app] in Hd1.
  - injection Hd1 as Hp Hg. symmetry in Hg. apply map_eq_nil in Hg as ->.
    exists ds2, (g0 ++ h0), hs. split_and!; [done| | |done].
    + rewrite Hd2, Hp, concat_app. by rewrite <- app_assoc.
    + rewrite <- Hb1, <- Hb2. cbn. by rewrite app_nil_r, <- app_assoc.
  - injection Hd1 as Hd Hg.
    destruct gs as [|gl gs _] using rev_ind;
      [by destruct ds1|].
    rewrite map_app in Hg. apply app_inj_tail in Hg as [Hg Hp].
    exists (d :: ds1 ++ ds2), g0, (gs ++ [gl ++ h0] ++ hs).
    split_and!; [done| | |done].
    + cbn [app]. f_equal; [done|]. rewrite <- app_assoc, Hd2, Hg, Hp.
      rewrite !map_app. cbn [map app]. by rewrite concat_app.
    + rewrite <- Hb1, <- Hb2, !concat_app. cbn [concat].
      by rewrite !app_nil_r, <- !app_assoc.
Qed.
End writer.

(** ** Lemmas: generic NACK on the wire *)

Definition item_ok (i : PackedNack) : Prop := is_u16 (first_pid i) /\ is_u16 (bitmask i).

Definition item_bytes (i : PackedNack) : list Z :=
  be_bytes 2 (first_pid i) ++ be_bytes 2 (bitmask i).

(** One NACK message: the header, the common fields and the items. *)
Definition nack_block (n : Nack) (items : list PackedNack) : list Z :=
  header_bytes NACK_FMT RTPFB (2 + zlen items) ++
  be_bytes 4 (nack_sender_ssrc n) ++ be_bytes 4 (nack_media_ssrc n) ++
  flat_map item_bytes items.

Lemma flat_items_zlen items : zlen (flat_map item_bytes items) = 4 * zlen items.
Proof.
  induction items as [|i items IH]; [done|]. cbn [flat_map].
  rewrite zlen_app, IH, zlen_cons. unfold item_bytes. len.
Qed.

Lemma nack_block_zlen n items : zlen (nack_block n items) = 12 + 4 * zlen items.
Proof.
  unfold nack_block. rewrite !zlen_app, flat_items_zlen, !be_bytes_zlen.
  change (zlen (header_bytes NACK_FMT RTPFB (2 + zlen items))) with 4. lia.
Qed.

Section nack_lemmas.
Context {St : Type} (callback : list Z -> St -> St).
Implicit Types w : Writer St.

Lemma put_items_Wr items : forall w a r,
  Wr w a r -> (4 * length items <= length r)%nat ->
  exists w', put_items items w = Some w' /\
    Wr w' (a ++ flat_map item_bytes items) (drop (4 * length items) r) /\
    sink w' = sink w /\ length (packet w') = length (packet w).
Proof.
  induction items as [|i items IH]; intros w a r H Hr; cbn [put_items flat_map].
  - exists w. rewrite app_nil_r. done.
  - cbn [length] in Hr.
    destruct (put_Wr 2 (first_pid i) w a r H) as (w1 & -> & H1 & <- & <-); [lia|].
    cbn [mbind option_bind].
    destruct (put_Wr 2 (bitmask i) w1 _ _ H1) as (w2 & -> & H2 & <- & <-); [len|].
    cbn [mbind option_bind]. rewrite drop_drop in H2.
    destruct (IH w2 _ _ H2) as (w3 & -> & H3 & <- & <-); [len|].
    eexists. split; [done|]. split; [|done].
    rewrite drop_drop, <- !app_assoc in H3. unfold item_bytes at 1.
    rewrite <- !app_assoc. cbn [length].
    by replace (4 * S (length items))%nat with (2 + 2 + 4 * length items)%nat by lia.
Qed.

(** The statements that write one message. *)
Lemma nack_block_Wr n items w a r :
  Wr w a r -> 12 + 4 * zlen items <= zlen r ->
  exists w',
    (w ← CreateHeader NACK_FMT RTPFB ((8 + zlen items * 4) / 4) false w;
     w ← CreateCommonFeedback (nack_sender_ssrc n) (nack_media_ssrc n) w;
     put_items items w) = Some w' /\
    Wr w' (a ++ nack_block n items) (drop (12 + 4 * length items) r) /\
    sink w' = sink w /\ length (packet w') = length (packet w).
Proof.
  intros H Hr.
  destruct (CreateHeader_Wr NACK_FMT RTPFB ((8 + zlen items * 4) / 4) w a r H)
    as (w1 & -> & H1 & <- & <-); [len|done|]. cbn [mbind option_bind].
  destruct (feedback_Wr (nack_sender_ssrc n) (nack_media_ssrc n) w1 _ _ H1)
    as (w2 & -> & H2 & <- & <-); [len|]. cbn [mbind option_bind].
  destruct (put_items_Wr items w2 _ _ H2) as (w3 & -> & H3 & <- & <-); [len|].
  eexists. split; [done|]. split; [|done].
  rewrite !drop_drop, <- !app_assoc in H3. unfold nack_block.
  replace ((8 + zlen items * 4) / 4) with (2 + zlen items) in H3 by zdm.
  rewrite <- ?app_assoc in *.
  by replace (12 + 4 * length items)%nat with (4 + 8 + 4 * length items)%nat by lia.
Qed.

Lemma nack_loop_spec n max fuel : forall items w,
  is_u64 max -> 16 <= max -> writer_ok max w ->
  (2 * length items + (if (index w =? 0)%Z then 1 else 2) <= fuel)%nat ->
  exists w' chunks, nack_loop callback fuel n items max w = Some (true, w') /\
    serialised callback max (map (nack_block n) chunks) w w' /\
    concat chunks = items /\
    Forall (fun c => 0 < zlen c /\ 12 + 4 * zlen c <= max) chunks.
Proof.
  induction fuel as [|fuel IH]; intros items w Hmax H16 Hw Hf; [destruct (index w =? 0)%Z; lia|].
  cbn [nack_loop]. case_if.
  { exists w, []. assert (items = []) as -> by (destruct items; [done|];
      rewrite zlen_cons in E; pose proof (zlen_nonneg items); lia).
    split_and!; [done|by apply serialised_nil|done|constructor]. }
  cbv zeta. destruct (writer_Wr max w Hw) as (r & HW & Ha & Hr).
  pose proof Hw as [[H0 H1] H2].
  assert (1 <= zlen items) as Hpos by (pose proof (zlen_nonneg items); lia).
  rewrite u64_id by (unfold is_u64 in *; lia). case_if.
  - destruct (OnBufferFull_spec callback max w Hw) as (ok & w1 & -> & -> & Hi & Hs & _).
    cbn [mbind option_bind]. assert ((index w =? 0) = false) as Ei by lia.
    rewrite Ei in *. cbn [negb].
    destruct (IH items w1) as (w' & cs & -> & Hs' & Hc); [done|done|apply Hs| |].
    { rewrite Hi. cbn. lia. }
    exists w', cs. split_and!; [done| |by destruct Hc..].
    rewrite <- (app_nil_l (map _ cs)). by eapply serialised_trans.
  - set (k := Z.min ((max - index w - 12) / 4) (zlen items)).
    assert (1 <= k <= zlen items) as Hk by (subst k; zdm).
    assert (index w + (12 + 4 * k) <= max) as Hk2 by (subst k; zdm).
    clearbody k.
    set (chunk := take (Z.to_nat k) items).
    assert (zlen chunk = k) as Hck by (subst chunk; len).
    destruct (nack_block_Wr n chunk w _ r HW) as (w1 & Hw1 & HW1 & Hs1 & Hl1); [lia|].
    rewrite Hck in Hw1.
    destruct (CreateHeader _ _ _ _ _) as [wa|]; [|done]. cbn [mbind option_bind] in *.
    destruct (CreateCommonFeedback _ _ _) as [wb|]; [|done]. cbn [mbind option_bind] in *.
    rewrite Hw1. cbn [mbind option_bind].
    assert (serialised callback max [nack_block n chunk] w w1) as Hser.
    { eapply serialised_block; eauto. rewrite nack_block_zlen. lia. }
    destruct (IH (drop (Z.to_nat k) items) w1) as (w' & cs & -> & Hs' & Hc & Hcs);
      [done|done|apply Hser| |].
    { revert Hf. unfold zlen in *. rewrite length_drop. repeat case_if; lia. }
    exists w', (chunk :: cs). split_and!; [done| | |].
    + apply (serialised_trans _ _ [_] _ _ _ _ Hser Hs').
    + cbn [concat]. rewrite Hc. apply take_drop.
    + constructor; [lia|done].
Qed.

(** With less than 16 bytes no item fits: the pending datagram is flushed and
    the call fails. *)
Lemma nack_loop_small n max fuel : forall items w,
  is_u64 max -> max < 16 -> writer_ok max w -> 0 < zlen items -> (2 <= fuel)%nat ->
  exists w', nack_loop callback fuel n items max w = Some (false, w') /\
    serialised callback max [] w w'.
Proof.
  intros items w Hmax H16 Hw Hi Hf.
  destruct fuel as [|[|fuel]]; [lia|lia|].
  cbn [nack_loop]. pose proof Hw as [[H0 H1] H2].
  replace (zlen items =? 0) with false by lia. cbv zeta.
  rewrite (u64_id (max - index w)) by (unfold is_u64 in *; lia).
  replace (max - index w <? 12 + 4) with true by lia.
  destruct (OnBufferFull_spec callback max w Hw) as (ok & w1 & -> & -> & Hi1 & Hs & Hf1).
  cbn [mbind option_bind]. rewrite negb_involutive. case_if.
  { exists w1. done. }
  rewrite Hi1, (u64_id (max - 0)) by (unfold is_u64 in *; lia).
  replace (max - 0 <? 12 + 4) with true by lia.
  unfold OnBufferFull at 1. rewrite Hi1. cbn. by exists w1.
Qed.
End nack_lemmas.

Lemma parse_items_read items : forall m p r,
  Forall item_ok items -> At m p (flat_map item_bytes items ++ r) ->
  parse_items (length items) m p = Some items.
Proof.
  induction items as [|i items IH]; intros m p r Hi H; [done|].
  apply Forall_cons_1 in Hi as [[Hi1 Hi2] Hi]. cbn [flat_map] in H.
  unfold item_bytes at 1 in H. rewrite <- !app_assoc in H.
  cbn [length parse_items].
  at_u16 H. cbn [mbind option_bind]. at_u16 H. cbn [mbind option_bind].
  rewrite (IH m (p + 4) r) by done. cbn [mbind option_bind]. by destruct i.
Qed.

Lemma parse_items_safe k : forall m p,
  bytes m -> 0 <= p -> p + 4 * Z.of_nat k <= zlen m ->
  exists items, parse_items k m p = Some items /\ length items = k /\
                Forall item_ok items.
Proof.
  induction k as [|k IH]; intros m p Hm H0 H1; cbn [parse_items].
  - exists []. done.
  - destruct (ReadBE_safe 2 m p) as (x & Hx); [done|lia|lia|].
    destruct (ReadBE_safe 2 m (p + 2)) as (y & Hy); [done|lia|lia|].
    rewrite Hx, Hy. cbn [mbind option_bind].
    destruct (IH m (p + 4)) as (items & -> & Hl & Hf); [done|lia|lia|].
    eexists. split_and!; [done|cbn; lia|]. constructor; [|done]. split.
    + eapply (ReadBigEndian_range 2); [| | |exact Hx]; done || lia.
    + eapply (ReadBigEndian_range 2); [| | |exact Hy]; done || lia.
Qed.

Lemma ParseCommonFeedback_read s m l r :
  is_u32 s -> is_u32 m -> l = be_bytes 4 s ++ be_bytes 4 m ++ r ->
  ParseCommonFeedback l = Some (s, m) /\ At l 8 r.
Proof.
  intros Hs Hm Hl. assert (At l 0 (be_bytes 4 s ++ be_bytes 4 m ++ r)) as H
    by (rewrite Hl; apply At_start). clear Hl.
  unfold ParseCommonFeedback. at_u32 H. cbn [mbind option_bind].
  at_u32 H. done.
Qed.

Lemma ParseCommonFeedback_safe l : bytes l -> 8 <= zlen l ->
  exists s m, ParseCommonFeedback l = Some (s, m).
Proof.
  intros. unfold ParseCommonFeedback. rewrite !ReadBigEndian_Some by (done || lia).
  cbn. eauto.
Qed.

(** ** Lemmas: packing *)

Lemma odd_add_even_shift x s : 1 <= s -> Z.odd (x + 2 ^ s) = Z.odd x.
Proof.
  intros. rewrite Z.odd_add, Z.odd_pow by lia. apply xorb_false_r.
Qed.

Lemma shiftr_add_pow x s : 1 <= s -> Z.shiftr (x + 2 ^ s) 1 = Z.shiftr x 1 + 2 ^ (s - 1).
Proof.
  intros. rewrite !Z.shiftr_div_pow2 by lia. change (2 ^ 1) with 2.
  replace (2 ^ s) with (2 ^ (s - 1) * 2) by
    (rewrite Z.mul_comm, <- Z.pow_succ_r by lia; f_equal; lia).
  by rewrite Z.div_add by lia.
Qed.

(** The id at offset [s], added above the bits set so far, comes out last. *)
Lemma unpack_bits_snoc n : forall s mask pid,
  0 <= s < Z.of_nat n -> 0 <= mask < 2 ^ s -> is_u16 pid ->
  unpack_bits n (mask + 2 ^ s) pid = unpack_bits n mask pid ++ [u16 (pid + s)].
Proof.
  induction n as [|n IH]; intros s mask pid Hs Hm Hp; [lia|].
  cbn [unpack_bits].
  assert (0 < 2 ^ s) by (apply Z.pow_pos_nonneg; lia).
  replace (mask + 2 ^ s =? 0) with false by lia.
  destruct (Z.eq_dec s 0) as [->|].
  - change (2 ^ 0) with 1 in *. assert (mask = 0) as -> by lia. cbn.
    rewrite Z.add_0_r, (u16_id pid) by done. by destruct n.
  - rewrite odd_add_even_shift, shiftr_add_pow by lia.
    assert (2 ^ s = 2 * 2 ^ (s - 1)) as Hp2
      by (rewrite <- Z.pow_succ_r by lia; f_equal; lia).
    assert (0 <= Z.shiftr mask 1 < 2 ^ (s - 1)) as Hsh
      by (rewrite Z.shiftr_div_pow2 by lia; change (2 ^ 1) with 2; zdm).
    rewrite IH by (lia || apply u16_range).
    assert (u16 (u16 (pid + 1) + (s - 1)) = u16 (pid + s)) as ->
      by (unfold u16; rewrite Zplus_mod_idemp_l; f_equal; lia).
    destruct (Z.eqb_spec mask 0) as [->|].
    + change (Z.shiftr 0 1) with 0. cbn. by destruct n.
    + by rewrite app_assoc.
Qed.

Lemma unpack_bits_In n : forall mask pid x,
  0 <= mask < 2 ^ Z.of_nat n -> is_u16 pid ->
  In x (unpack_bits n mask pid) <->
  exists i, 0 <= i < Z.of_nat n /\ Z.testbit mask i = true /\ x = u16 (pid + i).
Proof.
  induction n as [|n IH]; intros mask pid x Hm Hp.
  - split; [done|intros (i & ? & _); lia].
  - cbn [unpack_bits]. destruct (Z.eqb_spec mask 0) as [E|].
    { split; [done|]. intros (i & _ & Hb & _). subst mask. by rewrite Z.bits_0 in Hb. }
    assert (2 ^ Z.of_nat (S n) = 2 * 2 ^ Z.of_nat n) as Hp2
      by (rewrite Nat2Z.inj_succ, Z.pow_succ_r; lia).
    assert (0 <= Z.shiftr mask 1 < 2 ^ Z.of_nat n) as Hsh
      by (rewrite Z.shiftr_div_pow2 by lia; change (2 ^ 1) with 2; zdm).
    rewrite in_app_iff, IH by (done || apply u16_range).
    split.
    + intros [Hx|(i & Hi & Hb & ->)].
      * exists 0. destruct (Z.odd mask) eqn:Ho; [|done].
        destruct Hx as [<-|[]]. rewrite Z.bit0_odd, Z.add_0_r, u16_id by done.
        split_and!; [lia|lia|done|done].
      * exists (i + 1). rewrite Z.shiftr_spec in Hb by lia.
        split_and!; [lia|lia|done|].
        unfold u16. rewrite Zplus_mod_idemp_l. f_equal. lia.
    + intros (i & Hi & Hb & ->). destruct (Z.eq_dec i 0) as [->|].
      * left. rewrite Z.bit0_odd in Hb. rewrite Hb, Z.add_0_r, u16_id by done. by left.
      * right. exists (i - 1). rewrite Z.shiftr_spec by lia.
        replace (i - 1 + 1) with i by lia. split_and!; [lia|lia|done|].
        unfold u16. rewrite Zplus_mod_idemp_l. f_equal. lia.
Qed.

Lemma lor_bit_range mask s : 0 <= s <= 15 -> 0 <= mask < 65536 ->
  0 <= Z.lor mask (Z.shiftl 1 s) < 65536.
Proof.
  intros Hs Hm. rewrite Z.shiftl_1_l.
  assert (0 < 2 ^ s) by (apply Z.pow_pos_nonneg; lia).
  assert (0 <= Z.lor mask (2 ^ s)) by (apply Z.lor_nonneg; lia).
  split; [done|].
  destruct (Z.eq_dec (Z.lor mask (2 ^ s)) 0) as [->|]; [lia|].
  change 65536 with (2 ^ 16). apply Z.log2_lt_pow2; [lia|].
  rewrite Z.log2_lor, Z.log2_pow2 by lia.
  destruct (Z.eq_dec mask 0) as [->|]; [change (Z.log2 0) with 0; lia|].
  assert (Z.log2 mask < 16) by (apply Z.log2_lt_pow2; lia). lia.
Qed.

(** What a group consumes, as a set of ids. *)
Lemma pack_group_In pid : forall it mask mask' rest,
  is_u16 pid -> 0 <= mask < 65536 -> Forall is_u16 it ->
  pack_group pid mask it = (mask', rest) ->
  0 <= mask' < 65536 /\ (length rest <= length it)%nat /\ Forall is_u16 rest /\
  forall x, In x (unpack_bits 16 mask' (u16 (pid + 1))) \/ In x rest <->
            In x (unpack_bits 16 mask (u16 (pid + 1))) \/ In x it.
Proof.
  induction it as [|y it IH]; intros mask mask' rest Hp Hm Hit; cbn [pack_group].
  - intros [= <- <-]. done.
  - apply Forall_cons_1 in Hit as [Hy Hit]. case_if.
    + pose proof (u16_range (y - pid - 1)) as Hs.
      set (s := u16 (y - pid - 1)) in *. unfold is_u16 in Hs.
      intros H. pose proof (lor_bit_range mask s ltac:(lia) Hm) as Hm'.
      destruct (IH _ _ _ Hp Hm' Hit H) as (Hr & Hl & Hf & Hin).
      split_and!; [lia|lia|cbn; lia|done|]. intros x. rewrite Hin.
      assert (y = u16 (u16 (pid + 1) + s)) as Hyx.
      { subst s. unfold u16, is_u16 in *. rewrite <- Zplus_mod.
        replace (pid + 1 + (y - pid - 1)) with y by lia. by rewrite Z.mod_small. }
      rewrite !unpack_bits_In by (done || apply u16_range).
      cbn [In].
      assert ((exists i, 0 <= i < Z.of_nat 16 /\
          Z.testbit (Z.lor mask (Z.shiftl 1 s)) i = true /\ x = u16 (u16 (pid + 1) + i))
        <-> (exists i, 0 <= i < Z.of_nat 16 /\ Z.testbit mask i = true /\
             x = u16 (u16 (pid + 1) + i)) \/ y = x) as ->; [|tauto].
      split.
      * intros (i & Hi & Hb & Hx).
        rewrite Z.lor_spec, Z.shiftl_1_l in Hb. apply orb_prop in Hb as [Hb|Hb].
        -- left. by exists i.
        -- right. destruct (Z.eq_dec i s) as [->|]; [congruence|].
           by rewrite Z.pow2_bits_false in Hb by lia.
      * intros [(i & Hi & Hb & Hx)|<-].
        -- exists i. rewrite Z.lor_spec, Hb. done.
        -- exists s. rewrite Z.lor_spec, Z.shiftl_1_l, Z.pow2_bits_true by lia.
           rewrite orb_true_r. split_and!; [lia|lia|done|done].
    + intros [= <- <-]. split_and!; [lia|lia|done|by constructor|done].
Qed.

Lemma Unpack_app a b ids : Unpack (a ++ b) ids = Unpack b (Unpack a ids).
Proof. unfold Unpack. by rewrite flat_map_app, app_assoc. Qed.

Lemma pack_loop_spec fuel : forall it packed,
  (length it < fuel)%nat -> Forall is_u16 it -> Forall item_ok packed ->
  exists new, pack_loop fuel it packed = Some (packed ++ new) /\
    Forall item_ok new /\ (length new <= length it)%nat /\
    forall x, In x (Unpack new []) <-> In x it.
Proof.
  induction fuel as [|fuel IH]; intros it packed Hf Hit Hpk; [lia|].
  cbn [pack_loop]. destruct it as [|pid it].
  { exists []. rewrite app_nil_r. done. }
  apply Forall_cons_1 in Hit as [Hp Hit].
  destruct (pack_group pid 0 it) as [mask rest] eqn:Hg.
  destruct (pack_group_In pid it 0 mask rest Hp ltac:(lia) Hit Hg) as (Hm & Hl & Hr & Hin).
  assert (item_ok (mkPacked pid mask)) as Hi by (split; [done|unfold is_u16; done]).
  destruct (IH rest (packed ++ [mkPacked pid mask])) as (new & -> & Hn & Hnl & Hx);
    [cbn in Hf; lia|done|by apply Forall_app_2; [|constructor]|].
  exists (mkPacked pid mask :: new). rewrite <- app_assoc.
  split_and!; [done|by constructor|cbn; lia|].
  intros x. unfold Unpack in *. cbn [app flat_map] in *.
  rewrite in_app_iff, Hx. unfold unpack_item. cbn [first_pid bitmask In].
  specialize (Hin x). cbn [unpack_bits Z.eqb In] in Hin. tauto.
Qed.

(** Every id is ahead of the one before it, by less than the number space less
    one group of 16. *)
Fixpoint ascending_from (last : Z) (ids : list Z) : Prop :=
  match ids with
  | [] => True
  | x :: ids' => 1 <= u16 (x - last) <= 65519 /\ ascending_from x ids'
  end.

Definition ascending (ids : list Z) : Prop :=
  match ids with [] => True | x :: ids' => ascending_from x ids' end.

Lemma pack_group_ascending pid : forall it mask mask' rest sp,
  is_u16 pid -> -1 <= sp <= 15 -> 0 <= mask < 2 ^ (sp + 1) -> Forall is_u16 it ->
  ascending_from (u16 (pid + 1 + sp)) it ->
  pack_group pid mask it = (mask', rest) ->
  unpack_bits 16 mask' (u16 (pid + 1)) ++ rest
    = unpack_bits 16 mask (u16 (pid + 1)) ++ it /\ ascending rest.
Proof.
  induction it as [|y it IH]; intros mask mask' rest sp Hp Hsp Hm Hit Ha; cbn [pack_group].
  - intros [= <- <-]. done.
  - apply Forall_cons_1 in Hit as [Hy Hit]. destruct Ha as [Hd Ha].
    assert (y = u16 (u16 (pid + 1) + u16 (y - pid - 1))) as Hyx.
    { unfold u16, is_u16 in *. rewrite <- Zplus_mod.
      replace (pid + 1 + (y - pid - 1)) with y by lia. by rewrite Z.mod_small. }
    assert (u16 (y - pid - 1) = sp + u16 (y - u16 (pid + 1 + sp)) \/
            15 < u16 (y - pid - 1)) as Hs
      by (unfold is_u16, u16 in *; zdm).
    case_if.
    + set (s := u16 (y - pid - 1)) in *. intros H.
      destruct Hs as [Hs|]; [|lia].
      assert (0 <= s <= 15 /\ sp < s) as [Hs1 Hs2] by lia.
      assert (2 ^ (sp + 1) <= 2 ^ s) by (apply Z.pow_le_mono_r; lia).
      assert (2 ^ (s + 1) = 2 * 2 ^ s) as Hp2 by (rewrite <- Z.pow_succ_r by lia; done).
      assert (Z.lor mask (Z.shiftl 1 s) = mask + 2 ^ s) as Hlor.
      { rewrite Z.shiftl_1_l, Z.lor_comm.
        rewrite <- (Z.mul_1_l (2 ^ s)), lor_add by lia. lia. }
      rewrite Hlor in H.
      destruct (IH (mask + 2 ^ s) mask' rest s Hp ltac:(lia) ltac:(lia) Hit) as [He Hr]; [|done|].
      { replace (pid + 1 + s) with (pid + 1 + (y - pid - 1) + (s - (y - pid - 1))) by lia.
        subst s. unfold u16 in *. rewrite <- Zplus_mod_idemp_r.
        assert (((y - pid - 1) `mod` 65536 - (y - pid - 1)) `mod` 65536 = 0) as -> by zdm.
        replace (pid + 1 + (y - pid - 1) + 0) with y by lia.
        rewrite Z.mod_small by done. done. }
      split; [|done]. rewrite He, unpack_bits_snoc by (lia || apply u16_range).
      rewrite <- app_assoc. cbn [app]. by rewrite <- Hyx.
    + intros [= <- <-]. done.
Qed.

Lemma pack_loop_ascending fuel : forall it packed,
  (length it < fuel)%nat -> Forall is_u16 it -> ascending it ->
  exists new, pack_loop fuel it packed = Some (packed ++ new) /\ Unpack new [] = it.
Proof.
  induction fuel as [|fuel IH]; intros it packed Hf Hit Ha; [lia|].
  cbn [pack_loop]. destruct it as [|pid it].
  { exists []. by rewrite app_nil_r. }
  apply Forall_cons_1 in Hit as [Hp Hit].
  destruct (pack_group pid 0 it) as [mask rest] eqn:Hg.
  destruct (pack_group_In pid it 0 mask rest Hp ltac:(lia) Hit Hg) as (_ & Hl & Hr & _).
  destruct (pack_group_ascending pid it 0 mask rest (-1) Hp) as [He Hra];
    [lia|done|done|by replace (pid + 1 + -1) with pid by lia; rewrite u16_id|done|].
  destruct (IH rest (packed ++ [mkPacked pid mask])) as (new & -> & Hx);
    [cbn in Hf; lia|done|done|].
  exists (mkPacked pid mask :: new). rewrite <- app_assoc. split; [done|].
  unfold Unpack in *. cbn [app flat_map] in *. rewrite Hx.
  unfold unpack_item. cbn [first_pid bitmask app]. rewrite He.
  cbn [unpack_bits Z.eqb app]. done.
Qed.

(** ** Lemmas: full intra requests on the wire *)

Definition request_ok (r : Request) : Prop := is_u32 (req_ssrc r) /\ is_u8 (seq_nr r).

Definition request_bytes (r : Request) : list Z :=
  be_bytes 4 (req_ssrc r) ++ be_bytes 1 (seq_nr r) ++ be_bytes 3 0.

Definition fir_block (f : Fir) : list Z :=
  header_bytes FIR_FMT PSFB (2 + 2 * zlen (items_ f)) ++
  be_bytes 4 (fir_sender_ssrc f) ++ be_bytes 4 (fir_media_ssrc f) ++
  flat_map request_bytes (items_ f).

Lemma flat_requests_zlen items : zlen (flat_map request_bytes items) = 8 * zlen items.
Proof.
  induction items as [|i items IH]; [done|]. cbn [flat_map].
  rewrite zlen_app, IH, zlen_cons. unfold request_bytes. len.
Qed.

Lemma fir_block_zlen f : zlen (fir_block f) = FirBlockLength f.
Proof.
  unfold fir_block, FirBlockLength. rewrite !zlen_app, flat_requests_zlen, !be_bytes_zlen.
  change (zlen (header_bytes FIR_FMT PSFB (2 + 2 * zlen (items_ f)))) with 4. lia.
Qed.

Lemma parse_requests_read items : forall m p r,
  Forall request_ok items -> At m p (flat_map request_bytes items ++ r) ->
  parse_requests (length items) m p = Some items.
Proof.
  induction items as [|i items IH]; intros m p r Hi H; [done|].
  apply Forall_cons_1 in Hi as [[Hi1 Hi2] Hi]. cbn [flat_map] in H.
  unfold request_bytes at 1 in H. rewrite <- !app_assoc in H.
  cbn [length parse_requests].
  at_u32 H. cbn [mbind option_bind].
  cbn [be_bytes app] in H. change (8 * Z.of_nat 0) with 0 in H.
  rewrite Z.shiftr_0_r, u8_id in H by done. at_rd H. cbn [mbind option_bind].
  apply (At_app _ _ [_; _; _]) in H.
  rewrite (IH m (p + 8) r); [by destruct i|done|].
  replace (p + 8) with (p + 5 + 3) by lia. exact H.
Qed.

Lemma parse_requests_safe k : forall m p,
  bytes m -> 0 <= p -> p + 8 * Z.of_nat k <= zlen m ->
  exists items, parse_requests k m p = Some items /\ length items = k.
Proof.
  induction k as [|k IH]; intros m p Hm H0 H1; cbn [parse_requests]; [by exists []|].
  rewrite ReadBigEndian_Some by (done || lia). cbn [mbind option_bind]. read_as b.
  destruct (IH m (p + 8)) as (items & -> & Hl); [done|lia|lia|].
  eexists. split; [done|]. cbn. lia.
Qed.

Section fir_lemmas.
Context {St : Type} (callback : list Z -> St -> St).
Implicit Types w : Writer St.

(** [make_room] leaves room for the block, or fails because the block does
    not fit an empty buffer. *)
Lemma make_room_spec block_length max w :
  writer_ok max w -> 0 <= block_length ->
  exists w', make_room callback 3 block_length max w = Some (block_length <=? max, w') /\
    serialised callback max [] w w' /\
    (block_length <= max -> index w' + block_length <= max).
Proof.
  intros Hw Hb. cbn [make_room]. pose proof Hw as [[H0 H1] H2]. case_if.
  - destruct (OnBufferFull_spec callback max w Hw) as (ok & w1 & -> & -> & Hi & Hs & Hf).
    cbn [mbind option_bind]. rewrite negb_involutive.
    destruct (Z.eqb_spec (index w) 0).
    { exists w1. replace (block_length <=? max) with false by lia.
      split_and!; [done|done|lia]. }
    rewrite Hi. case_if.
    + unfold OnBufferFull. rewrite Hi. cbn. exists w1.
      replace (block_length <=? max) with false by lia.
      split_and!; [done|done|lia].
    + exists w1. replace (block_length <=? max) with true by lia.
      split_and!; [done|done|lia].
  - exists w. replace (block_length <=? max) with true by lia.
    split_and!; [done|by apply serialised_nil|lia].
Qed.

Lemma put_requests_Wr items : forall w a r,
  Wr w a r -> (8 * length items <= length r)%nat ->
  exists w', put_requests items w = Some w' /\
    Wr w' (a ++ flat_map request_bytes items) (drop (8 * length items) r) /\
    sink w' = sink w /\ length (packet w') = length (packet w).
Proof.
  induction items as [|i items IH]; intros w a r H Hr; cbn [put_requests flat_map].
  - exists w. rewrite app_nil_r. done.
  - cbn [length] in Hr.
    destruct (put_Wr 4 (req_ssrc i) w a r H) as (w1 & -> & H1 & <- & <-); [lia|].
    cbn [mbind option_bind].
    destruct (put_Wr 1 (seq_nr i) w1 _ _ H1) as (w2 & -> & H2 & <- & <-); [len|].
    cbn [mbind option_bind].
    destruct (put_Wr 3 0 w2 _ _ H2) as (w3 & -> & H3 & <- & <-); [len|].
    cbn [mbind option_bind]. rewrite !drop_drop in H3.
    destruct (IH w3 _ _ H3) as (w4 & -> & H4 & <- & <-); [len|].
    eexists. split; [done|]. split; [|done].
    rewrite drop_drop, <- !app_assoc in H4. unfold request_bytes at 1.
    rewrite <- !app_assoc. cbn [length].
    by replace (8 * S (length items))%nat with (4 + 1 + 3 + 8 * length items)%nat by lia.
Qed.
End fir_lemmas.

(** ** The interface of a message, and its implementations *)

(** What [RtcpSender] relies on when it calls the virtual [Create]: from any
    pending datagram the message is serialised as whole blocks, in datagrams
    of at most [max_length] bytes; when [max_length] is too small for the
    message nothing of it is written, and the call fails. *)
Class RtcpMessage (M : Type) := {
  msg_create : forall {St} (callback : list Z -> St -> St),
    M -> Z -> Writer St -> option (bool * Writer St);
  msg_ok : M -> Prop;
  msg_min : M -> Z;
  msg_encodes : M -> list (list Z) -> Prop;
  msg_create_spec : forall St (callback : list Z -> St -> St) m max w,
    is_u64 max -> writer_ok max w -> msg_ok m ->
    exists w' blocks,
      msg_create callback m max w = Some (msg_min m <=? max, w') /\
      serialised callback max blocks w w' /\
      (if msg_min m <=? max then msg_encodes m blocks else blocks = []);
  msg_nonempty : forall m blocks,
    msg_ok m -> msg_encodes m blocks -> Forall (fun b => 0 < zlen b) blocks;
}.

(** The chunks of items a NACK may be cut into. *)
Definition nack_encodes (n : Nack) (blocks : list (list Z)) : Prop :=
  exists chunks, blocks = map (nack_block n) chunks /\ concat chunks = packed_ n /\
                 Forall (fun c => 0 < zlen c) chunks.

#[export] Program Instance Nack_message : RtcpMessage Nack := {
  msg_create := fun St cb n => CreateNack cb n;
  msg_ok := fun _ => True;
  msg_min := fun n => if zlen (packed_ n) =? 0 then 0 else 16;
  msg_encodes := nack_encodes;
}.
Next Obligation.
  intros St cb n max w Hmax Hw _. unfold CreateNack.
  pose proof (zlen_nonneg (packed_ n)). pose proof Hw as [[? ?] ?].
  case_if.
  - exists w, []. replace (0 <=? max) with true by lia.
    replace (2 * length (packed_ n) + 3)%nat with (S (2 * length (packed_ n) + 2)) by lia.
    cbn [nack_loop]. replace (zlen (packed_ n) =? 0) with true by lia.
    split_and!; [done|by apply serialised_nil|].
    exists []. split_and!; [done| |constructor].
    destruct (packed_ n); [done|]. rewrite zlen_cons in *.
    pose proof (zlen_nonneg l). lia.
  - case_if.
    + destruct (nack_loop_spec cb n max (2 * length (packed_ n) + 3) (packed_ n) w)
        as (w' & chunks & -> & Hs & Hc & Hf); [done|lia|done|destruct (_ =? _)%Z; lia|].
      exists w', (map (nack_block n) chunks). split_and!; [done|done|].
      exists chunks. split_and!; [done|done|]. eapply Forall_impl; [|exact Hf].
      intros c [? ?]. done.
    + destruct (nack_loop_small cb n max (2 * length (packed_ n) + 3) (packed_ n) w)
        as (w' & -> & Hs); [done|lia|done|lia|lia|].
      by exists w', [].
Qed.
Next Obligation.
  intros n blocks _ (chunks & -> & _ & Hc). apply Forall_map.
  eapply Forall_impl; [|exact Hc]. intros c _. change (0 < zlen (nack_block n c)). rewrite nack_block_zlen.
  pose proof (zlen_nonneg c). lia.
Qed.

#[export] Program Instance Fir_message : RtcpMessage Fir := {
  msg_create := fun St cb f => CreateFir cb f;
  msg_ok := fun _ => True;
  msg_min := FirBlockLength;
  msg_encodes := fun f blocks => blocks = [fir_block f];
}.
Next Obligation.
  intros St cb f max w Hmax Hw _. unfold CreateFir.
  pose proof (zlen_nonneg (items_ f)) as Hn.
  destruct (make_room_spec cb (FirBlockLength f) max w Hw) as (w1 & -> & Hs & Hi);
    [unfold FirBlockLength; lia|].
  cbn [mbind option_bind]. destruct (Z.leb_spec (FirBlockLength f) max); cbn [negb].
  2: { exists w1, []. done. }
  specialize (Hi ltac:(lia)). pose proof Hs as (Hw1 & _).
  destruct (writer_Wr max w1 Hw1) as (r & HW & Ha & Hr).
  pose proof Hw1 as [[H0 H1] H2]. unfold FirBlockLength in *.
  destruct (CreateHeader_Wr FIR_FMT PSFB (HeaderLength (4 + 8 + 8 * zlen (items_ f)))
    w1 _ r HW) as (w2 & -> & HW2 & Hs2 & Hl2); [len|done|]. cbn [mbind option_bind].
  destruct (feedback_Wr (fir_sender_ssrc f) (fir_media_ssrc f) w2 _ _ HW2)
    as (w3 & -> & HW3 & Hs3 & Hl3); [len|]. cbn [mbind option_bind].
  destruct (put_requests_Wr (items_ f) w3 _ _ HW3) as (w4 & -> & HW4 & Hs4 & Hl4);
    [len|]. cbn [mbind option_bind].
  exists w4, [fir_block f]. split_and!; [done| |done].
  apply (serialised_trans cb max [] [_] w w1 w4 Hs).
  eapply (serialised_block cb max _ w1 w4); [done|exact HW| |congruence|len|].
  - rewrite <- !app_assoc in HW4.
    replace (HeaderLength (4 + 8 + 8 * zlen (items_ f))) with (2 + 2 * zlen (items_ f)) in HW4;
      [exact HW4|].
    unfold HeaderLength.
    replace (4 + 8 + 8 * zlen (items_ f) <=? 0) with false by lia.
    replace ((4 + 8 + 8 * zlen (items_ f)) `mod` 4 =? 0) with true by zdm.
    cbn [negb]. zdm.
  - rewrite fir_block_zlen. unfold FirBlockLength. lia.
Qed.
Next Obligation.
  intros f blocks _ ->. constructor; [|constructor].
  rewrite fir_block_zlen. unfold FirBlockLength. pose proof (zlen_nonneg (items_ f)). lia.
Qed.

(** Messages of two kinds. *)
#[export] Program Instance sum_message {A B} `{!RtcpMessage A} `{!RtcpMessage B}
    : RtcpMessage (A + B) := {
  msg_create := fun St cb m =>
    match m with inl a => msg_create cb a | inr b => msg_create cb b end;
  msg_ok := fun m => match m with inl a => msg_ok a | inr b => msg_ok b end;
  msg_min := fun m => match m with inl a => msg_min a | inr b => msg_min b end;
  msg_encodes := fun m =>
    match m with inl a => msg_encodes a | inr b => msg_encodes b end;
}.
Next Obligation. intros A B HA HB St cb [a|b]; apply msg_create_spec. Qed.
Next Obligation. intros A B HA HB [a|b]; apply msg_nonempty. Qed.

(** ** The sender of compound packets *)

Section sender.
(** The network callback: negative when the datagram could not be sent. *)
Context (callback_ : list Z -> Z).

(** The datagrams given to the network so far, and the flag. *)
Record Sending := mkSending {
  sent_ : list (list Z);
  pending_send_successful_ : bool;
}.

(** src/rtcp/rtcp_sender/rtcp_sender.h:63-67 [RtcpSender] *)
Record RtcpSender := mkSender {
  max_packet_size_ : Z;
  out_ : Writer Sending;
}.

(** src/rtcp/rtcp_sender/rtcp_sender.h:57-61 [RtcpSender::SendBuffer] *)
Definition SendBuffer (packet_data : list Z) (s : Sending) : Sending :=
  mkSending (sent_ s ++ [packet_data])
    (if callback_ packet_data <? 0 then false else pending_send_successful_ s).

(** src/rtcp/rtcp_sender/rtcp_sender.h:21-27 [RtcpSender::RtcpSender] *)
Definition NewSender (max_packet_size : Z) (buffer : list Z) : RtcpSender :=
  mkSender max_packet_size (mkWriter buffer 0 (mkSending [] true)).

(** src/rtcp/rtcp_sender/rtcp_sender.h:36-43 [RtcpSender::AppendPacket] *)
Definition AppendPacket {M} `{!RtcpMessage M} (s : RtcpSender) (packet : M)
    : option RtcpSender :=
  '(created, w) ← msg_create SendBuffer packet (max_packet_size_ s) (out_ s);
  Some (mkSender (max_packet_size_ s)
    (mkWriter (RtcpFeedback.packet w) (index w)
      (mkSending (sent_ (sink w)) (pending_send_successful_ (sink w) && created)))).

(** src/rtcp/rtcp_sender/rtcp_sender.h:46-54 [RtcpSender::Send] *)
Definition Send (s : RtcpSender) : option (bool * RtcpSender) :=
  w ← (if 0 <? index (out_ s) then
         d ← rd_range (packet (out_ s)) 0 (index (out_ s));
         Some (mkWriter (packet (out_ s)) 0 (SendBuffer d (sink (out_ s))))
       else Some (out_ s));
  let send_successful := pending_send_successful_ (sink w) in
  Some (send_successful,
        mkSender (max_packet_size_ s)
          (mkWriter (packet w) (index w) (mkSending (sent_ (sink w)) true))).

(** Messages appended one after the other. *)
Fixpoint append_all {M} `{!RtcpMessage M} (s : RtcpSender) (ms : list M)
    : option RtcpSender :=
  match ms with
  | [] => Some s
  | m :: ms' => s ← AppendPacket s m; append_all s ms'
  end.
End sender.

Section sender_lemmas.
Context (callback_ : list Z -> Z).
Context {M : Type} `{!RtcpMessage M}.

Lemma deliver_SendBuffer ds s :
  deliver (SendBuffer callback_) ds s =
  mkSending (sent_ s ++ ds)
    (pending_send_successful_ s && forallb (fun d => 0 <=? callback_ d) ds).
Proof.
  revert s; induction ds as [|d ds IH]; intros s.
  - cbn. rewrite app_nil_r, andb_true_r. by destruct s.
  - unfold deliver in *. cbn [foldl]. rewrite IH. cbn.
    rewrite <- app_assoc. f_equal.
    rewrite Z.leb_antisym. by destruct (callback_ d <? 0), (pending_send_successful_ s).
Qed.

(** What one message turned into. *)
Definition sends_as (max : Z) (m : M) (blocks : list (list Z)) : Prop :=
  if msg_min m <=? max then msg_encodes m blocks else blocks = [].

(** The state between two calls: everything appended is in datagrams already
    sent or pending, as whole blocks, and the flag tells whether all went
    well. *)
Definition sender_inv (max : Z) (created : bool) (blocks : list (list Z))
    (s : RtcpSender) : Prop :=
  max_packet_size_ s = max /\ writer_ok max (out_ s) /\
  (exists groups, sent_ (sink (out_ s)) ++ [pending (out_ s)] = map (@concat Z) groups /\
                  concat groups = blocks) /\
  Forall (fun d => 0 < zlen d <= max) (sent_ (sink (out_ s))) /\
  pending_send_successful_ (sink (out_ s))
    = created && forallb (fun d => 0 <=? callback_ d) (sent_ (sink (out_ s))).

Lemma AppendPacket_inv max created blocks s m :
  is_u64 max -> msg_ok m -> sender_inv max created blocks s ->
  exists s' new, AppendPacket callback_ s m = Some s' /\
    sends_as max m new /\
    sender_inv max (created && (msg_min m <=? max)) (blocks ++ new) s'.
Proof.
  intros Hmax Hok (Hms & Hw & (groups & Hg & Hc) & Hf & Hfl). unfold AppendPacket.
  rewrite Hms.
  destruct (msg_create_spec _ (SendBuffer callback_) m max (out_ s) Hmax Hw Hok)
    as (w' & new & -> & (Hw' & Hl & ds & g0 & gs & Hs & Hd & Hb & Hfd) & Henc).
  cbn [mbind option_bind]. eexists _, new. split_and!; [done|done|].
  rewrite deliver_SendBuffer in Hs. rewrite Hs. unfold sender_inv. cbn.
  split_and!; [done|exact Hw'| | |].
  - destruct groups as [|gl groups _] using rev_ind; [by destruct (sent_ _)|].
    rewrite map_app in Hg. apply app_inj_tail in Hg as [Hg Hp].
    exists (groups ++ [gl ++ g0] ++ gs). split.
    + rewrite <- app_assoc. change (pending _) with (pending w').
      rewrite Hd, Hg, Hp, !map_app. cbn [map app]. by rewrite concat_app.
    + rewrite <- Hc, <- Hb, !concat_app. cbn [concat].
      by rewrite !app_nil_r, <- !app_assoc.
  - by apply Forall_app.
  - rewrite Hfl, forallb_app.
    by destruct created, (msg_min m <=? max), (forallb _ (sent_ _)), (forallb _ ds).
Qed.

Lemma append_all_inv max ms : forall created blocks s,
  is_u64 max -> Forall msg_ok ms -> sender_inv max created blocks s ->
  exists s' bss, append_all callback_ s ms = Some s' /\
    Forall2 (sends_as max) ms bss /\
    sender_inv max (created && forallb (fun m => msg_min m <=? max) ms)
               (blocks ++ concat bss) s'.
Proof.
  induction ms as [|m ms IH]; intros created blocks s Hmax Hok Hs; cbn [append_all forallb].
  - exists s, []. rewrite andb_true_r. cbn. rewrite app_nil_r. done.
  - apply Forall_cons_1 in Hok as [Hm Hok].
    destruct (AppendPacket_inv max created blocks s m Hmax Hm Hs) as (s1 & new & -> & Hn & H1).
    cbn [mbind option_bind].
    destruct (IH _ _ _ Hmax Hok H1) as (s' & bss & -> & Hb & H').
    exists s', (new :: bss). split_and!; [done|by constructor|].
    cbn [concat]. by rewrite andb_assoc, app_assoc.
Qed.

Lemma concat_nil_nonempty (g : list (list Z)) :
  Forall (fun b => 0 < zlen b) g -> concat g = [] -> g = [].
Proof.
  destruct 1 as [|b g Hb _]; [done|]. cbn. intros [-> _]%app_eq_nil.
  by vm_compute in Hb.
Qed.

Lemma sends_as_nonempty max ms bss :
  Forall msg_ok ms -> Forall2 (sends_as max) ms bss ->
  Forall (fun b => 0 < zlen b) (concat bss).
Proof.
  intros Hok. induction 1 as [|m bs ms bss Hm _ IH]; [constructor|]. cbn.
  apply Forall_cons_1 in Hok as [Hokm Hok].
  apply Forall_app. split; [|by apply IH]. unfold sends_as in Hm.
  destruct (msg_min m <=? max); [by eapply msg_nonempty|by subst].
Qed.
End sender_lemmas.

Lemma ParseNack_read n0 h s m items r :
  is_u32 s -> is_u32 m -> Forall item_ok items -> 0 < zlen items ->
  payload_ h = be_bytes 4 s ++ be_bytes 4 m ++ flat_map item_bytes items ++ r ->
  payload_size_ h = 8 + 4 * zlen items ->
  ParseNack n0 h = Some (true, mkNack s m items (Unpack items [])).
Proof.
  intros Hs Hm Hi Hl Hp Hsz. unfold ParseNack. rewrite Hsz.
  replace (_ <? 8 + 4) with false by lia. cbv zeta.
  destruct (ParseCommonFeedback_read s m _ _ Hs Hm Hp) as [-> HAt].
  cbn [mbind option_bind].
  replace (Z.to_nat ((8 + 4 * zlen items - 8) / 4)) with (length items)
    by (unfold zlen; zdm).
  erewrite parse_items_read by (exact Hi || exact HAt). done.
Qed.

Lemma ParseFir_read f0 h f r :
  is_u32 (fir_sender_ssrc f) -> is_u32 (fir_media_ssrc f) ->
  Forall request_ok (items_ f) -> 0 < zlen (items_ f) ->
  payload_ h = be_bytes 4 (fir_sender_ssrc f) ++ be_bytes 4 (fir_media_ssrc f) ++
    flat_map request_bytes (items_ f) ++ r ->
  payload_size_ h = 8 + 8 * zlen (items_ f) ->
  ParseFir f0 h = Some (true, f).
Proof.
  intros Hs Hm Hi Hl Hp Hsz. unfold ParseFir. rewrite Hsz.
  replace (_ <? 8 + 8) with false by lia.
  replace ((8 + 8 * zlen (items_ f) - 8) `mod` 8 =? 0) with true by zdm. cbn [negb].
  destruct (ParseCommonFeedback_read _ _ _ _ Hs Hm Hp) as [-> HAt].
  cbn [mbind option_bind]. cbv zeta.
  replace (Z.to_nat ((8 + 8 * zlen (items_ f) - 8) / 8)) with (length (items_ f))
    by (unfold zlen; zdm).
  erewrite parse_requests_read by (exact Hi || exact HAt).
  cbn [mbind option_bind]. by destruct f.
Qed.

Lemma nack_body_zlen n items :
  zlen (be_bytes 4 (nack_sender_ssrc n) ++ be_bytes 4 (nack_media_ssrc n) ++
        flat_map item_bytes items) = (2 + zlen items) * 4.
Proof. rewrite !zlen_app, flat_items_zlen, !be_bytes_zlen. lia. Qed.

Lemma fir_body_zlen f :
  zlen (be_bytes 4 (fir_sender_ssrc f) ++ be_bytes 4 (fir_media_ssrc f) ++
        flat_map request_bytes (items_ f)) = (2 + 2 * zlen (items_ f)) * 4.
Proof. rewrite !zlen_app, flat_requests_zlen, !be_bytes_zlen. lia. Qed.

(** ** Properties *)

(** Everything appended to a compound-packet sender is sent: after any
    sequence of messages and [Send], the datagrams given to the network are
    whole RTCP blocks, none empty and none over [max_packet_size], which in
    order are exactly the serialised messages; a message that cannot fit is
    dropped whole; the result tells whether every message was created and every
    datagram accepted; and the sender is left empty and reset. *)
Theorem rtcp_sender_delivers (callback_ : list Z -> Z) {M} `{!RtcpMessage M}
    (ms : list M) (max : Z) (buffer : list Z) :
  0 <= max < 2 ^ 64 -> max <= zlen buffer -> Forall msg_ok ms ->
  exists s1 s2 ok bss groups,
    append_all callback_ (NewSender max buffer) ms = Some s1 /\
    Send callback_ s1 = Some (ok, s2) /\
    Forall2 (sends_as max) ms bss /\
    sent_ (sink (out_ s2)) = map (@concat Z) groups /\
    concat groups = concat bss /\
    Forall (fun d => 0 < zlen d <= max) (sent_ (sink (out_ s2))) /\
    ok = forallb (fun m => msg_min m <=? max) ms &&
         forallb (fun d => 0 <=? callback_ d) (sent_ (sink (out_ s2))) /\
    index (out_ s2) = 0 /\ pending_send_successful_ (sink (out_ s2)) = true.
Proof.
  intros Hmax Hb Hok.
  assert (sender_inv callback_ max true [] (NewSender max buffer)) as H0.
  { unfold sender_inv, NewSender, writer_ok. cbn.
    split_and!; [done|lia|lia|lia|exists [[]]; done|constructor|done]. }
  destruct (append_all_inv callback_ max ms true [] _ Hmax Hok H0)
    as (s1 & bss & Ha & Hss & (Hm & Hw & (groups & Hg & Hc) & Hf & Hfl)).
  pose proof (sends_as_nonempty max ms bss Hok Hss) as Hne.
  cbn [app andb] in *. pose proof Hw as [[Hi0 Hi1] Hi2].
  destruct groups as [|gl groups _] using rev_ind; [by destruct (sent_ _)|].
  rewrite map_app in Hg. apply app_inj_tail in Hg as [Hg Hp].
  rewrite <- Hc in Hne. rewrite concat_app in Hne, Hc. cbn [concat] in Hne, Hc.
  rewrite app_nil_r in Hne, Hc.
  exists s1. unfold Send. case_if.
  - rewrite rd_range_Some by lia. cbn [mbind option_bind].
    eexists _, _, bss, (groups ++ [gl]).
    split_and!; [done|done|done| | | | |done|done]; cbn.
    + rewrite map_app, Hg. cbn [map]. by rewrite <- Hp.
    + rewrite concat_app. cbn. by rewrite app_nil_r.
    + apply Forall_app. split; [done|]. constructor; [|constructor]. len.
    + rewrite forallb_app, Hfl. cbn [forallb].
      rewrite Z.leb_antisym, andb_true_r.
      destruct (callback_ _ <? 0); cbn; [by rewrite !andb_false_r|by rewrite andb_true_r].
  - cbn [mbind option_bind].
    assert (index (out_ s1) = 0) as Hi by lia.
    unfold pending in Hp. rewrite Hi in Hp. cbn in Hp.
    apply Forall_app in Hne as [_ Hne]. symmetry in Hp.
    apply (concat_nil_nonempty gl Hne) in Hp as ->.
    eexists _, _, bss, groups.
    split_and!; [done|done|done|done| |done|done|done|done].
    by rewrite <- Hc, app_nil_r.
Qed.

Definition example_nack : Nack := mkNack 1 2 [mkPacked 10 3; mkPacked 100 0] [].
Definition example_fir : Fir := mkFir 1 0 [mkRequest 9 4].

Lemma rtcp_sender_delivers_witness :
  exists s1 s2 ok,
    append_all (fun _ => 1) (NewSender 24 (repeat 0 1500))
      [inl example_nack; inr example_fir] = Some s1 /\
    Send (fun _ => 1) s1 = Some (ok, s2) /\ ok = true /\
    map zlen (sent_ (sink (out_ s2))) = [20; 20].
Proof.
  destruct (rtcp_sender_delivers (fun _ => 1) [inl example_nack; inr example_fir]
    24 (repeat 0 1500)) as (s1 & s2 & ok & _ & _ & H1 & H2 & _).
  - lia.
  - vm_compute. congruence.
  - repeat constructor.
  - exists s1, s2, ok. split; [exact H1|]. split; [exact H2|].
    vm_compute in H1. injection H1 as <-. vm_compute in H2. injection H2 as <- <-.
    split; reflexivity.
Defined.

(** Packing lost sequence numbers into pid/bitmask items loses and invents
    nothing, for any list of 16-bit numbers: the ids unpacked are the same set;
    for a list in sending order, across the wrap-around, they are the same
    list; every item fits its two 16-bit fields and there are no more items
    than ids. *)
Theorem nack_pack_unpack (ids : list Z) :
  Forall is_u16 ids ->
  exists packed, Pack ids [] = Some packed /\
    Forall item_ok packed /\ (length packed <= length ids)%nat /\
    (forall x, In x (Unpack packed []) <-> In x ids) /\
    (ascending ids -> Unpack packed [] = ids).
Proof.
  intros Hi. unfold Pack.
  destruct (pack_loop_spec (S (length ids)) ids []) as (new & H & Hok & Hl & Hin);
    [lia|done|constructor|].
  exists new. rewrite H. split_and!; [done|done|done|done|].
  intros Ha. destruct (pack_loop_ascending (S (length ids)) ids []) as (new' & H' & Hu);
    [lia|done|done|]. rewrite H in H'. cbn in H'. by simplify_eq.
Qed.

Lemma nack_pack_unpack_witness :
  exists packed, Pack [65534; 65535; 1; 14; 15; 700] [] = Some packed /\
    packed = [mkPacked 65534 0x8005; mkPacked 15 0; mkPacked 700 0] /\
    Unpack packed [] = [65534; 65535; 1; 14; 15; 700].
Proof.
  destruct (nack_pack_unpack [65534; 65535; 1; 14; 15; 700]) as (p & Hp & _ & _ & _ & Hu).
  - repeat constructor; vm_compute; congruence.
  - exists p. split; [exact Hp|]. split.
    + vm_compute in Hp. injection Hp as <-. reflexivity.
    + apply Hu. repeat split; vm_compute; congruence.
Defined.

(** A NACK message taken off the wire is the one that was serialised:
    each block [Create] writes is delimited by the common header's parser and
    parsed into the same SSRCs, items and ids, whatever follows it in the
    datagram. *)
Theorem nack_block_roundtrip (n n0 : Nack) (h0 : RtcpCommonHeader)
    (items : list PackedNack) (rest : list Z) :
  is_u32 (nack_sender_ssrc n) -> is_u32 (nack_media_ssrc n) ->
  Forall item_ok items -> 0 < zlen items <= 65533 ->
  ('(ok, h) ← Parse h0 (nack_block n items ++ rest) (zlen (nack_block n items ++ rest));
   '(ok', n') ← ParseNack n0 h;
   Some (ok, packet_type_ h, count_or_format_ h, packet_size h, ok', n'))
  = Some (true, RTPFB, NACK_FMT, zlen (nack_block n items), true,
          mkNack (nack_sender_ssrc n) (nack_media_ssrc n) items (Unpack items [])).
Proof.
  intros Hs Hm Hi Hl. unfold nack_block.
  destruct (Parse_block h0 NACK_FMT RTPFB (2 + zlen items) _ rest ltac:(done)
    ltac:(done) ltac:(lia) (nack_body_zlen n items)) as (-> & Hsz & _).
  cbn [mbind option_bind].
  erewrite ParseNack_read; [|exact Hs|exact Hm|exact Hi|lia|
    cbn [payload_]; by rewrite <- !app_assoc|cbn [payload_size_]; lia].
  cbn [mbind option_bind]. by rewrite Hsz.
Qed.

Lemma nack_block_roundtrip_witness :
  ('(ok, h) ← Parse empty_header (nack_block example_nack [mkPacked 10 3] ++ [7; 7])
                (zlen (nack_block example_nack [mkPacked 10 3] ++ [7; 7]));
   '(ok', n') ← ParseNack example_nack h;
   Some (ok, packet_type_ h, count_or_format_ h, packet_size h, ok', n'))
  = Some (true, 205, 1, 16, true, mkNack 1 2 [mkPacked 10 3] [10; 11; 12]).
Proof.
  apply (nack_block_roundtrip example_nack example_nack empty_header
    [mkPacked 10 3] [7; 7]); repeat constructor; vm_compute; congruence.
Defined.

(** Full intra requests round-trip with their wire type 206/4, and the
    parser rejects a body that is not a whole number of requests. *)
Theorem fir_block_roundtrip (f f0 : Fir) (h0 : RtcpCommonHeader) (rest : list Z) :
  is_u32 (fir_sender_ssrc f) -> is_u32 (fir_media_ssrc f) ->
  Forall request_ok (items_ f) -> 0 < zlen (items_ f) <= 32766 ->
  ('(ok, h) ← Parse h0 (fir_block f ++ rest) (zlen (fir_block f ++ rest));
   '(ok', f') ← ParseFir f0 h;
   Some (ok, packet_type_ h, count_or_format_ h, packet_size h, ok', f'))
  = Some (true, PSFB, FIR_FMT, FirBlockLength f, true, f) /\
  (forall h, ~ (payload_size_ h `mod` 8 = 0) -> ParseFir f0 h = Some (false, f0)).
Proof.
  intros Hs Hm Hi Hl. split.
  - rewrite <- fir_block_zlen. unfold fir_block.
    destruct (Parse_block h0 FIR_FMT PSFB (2 + 2 * zlen (items_ f)) _ rest ltac:(done)
      ltac:(done) ltac:(lia) (fir_body_zlen f)) as (-> & Hsz & _).
    cbn [mbind option_bind].
    erewrite ParseFir_read; [|exact Hs|exact Hm|exact Hi|lia|
      cbn [payload_]; by rewrite <- !app_assoc|cbn [payload_size_]; lia].
    cbn [mbind option_bind]. by rewrite Hsz.
  - intros h Hh. unfold ParseFir. case_if; [done|].
    by replace ((payload_size_ h - 8) `mod` 8 =? 0) with false by zdm.
Qed.

Lemma fir_block_roundtrip_witness :
  ('(ok, h) ← Parse empty_header (fir_block example_fir ++ []) (zlen (fir_block example_fir ++ []));
   '(ok', f') ← ParseFir example_fir h;
   Some (ok, packet_type_ h, count_or_format_ h, packet_size h, ok', f'))
  = Some (true, 206, 4, 20, true, example_fir).
Proof.
  apply (fir_block_roundtrip example_fir example_fir empty_header []);
    repeat constructor; vm_compute; congruence.
Defined.
