(* ===== verification/Ccfb.v ===== *)
(** * Congestion control feedback (RFC 8888)

    [CongestionControlFeedback] of [src/rtcp/congestion_control_feedback.cpp]:
    per SSRC a run of consecutive sequence numbers, each with a received bit,
    the ECN marking and an arrival time offset of 13 bits.  The offset is
    computed in binary32 floating point, evaluated here with the Standard
    Library's executable specification of IEEE 754. *)

From Stdlib Require Import SpecFloat.
From S2P Require Import Prelude ByteIO Units Float32 Rtcp RtcpFeedback.

(** src/common/api/transport/ecn_marking.h:34-39 [EcnMarking] *)
Inductive EcnMarking := kNotEct | kEct1 | kEct0 | kCe.

#[export] Instance EcnMarking_eq_dec : EqDecision EcnMarking.
Proof. solve_decision. Defined.

(** src/rtcp/congestion_control_feedback.h:31-38 [CongestionControlFeedback::PacketInfo] *)
Record PacketInfo := mkInfo {
  ssrc : Z;
  sequence_number : Z;
  arrival_time_offset : Z;      (* TimeDelta *)
  ecn : EcnMarking;
}.

(** src/rtcp/congestion_control_feedback.h:63-65 [CongestionControlFeedback] *)
Record Ccfb := mkCcfb {
  cc_sender_ssrc : Z;
  packets_ : list PacketInfo;
  report_timestamp_compact_ntp_ : Z;
}.

(** src/common/api/units/unit_base.h:135-139 [UnitBase::ToFraction] *)
Definition seconds_float (us : Z) : spec_float :=
  f32_mul (f32_of_Z us) (f32_div (f32_of_Z 1) (f32_of_Z 1000000)).

(** ** The packet word *)

(** src/rtcp/congestion_control_feedback.cpp:82-89 [To13bitAto] *)
Definition To13bitAto (offset : Z) : option Z :=
  if offset <? 0 then Some 0x1FFF else
  v ← f32_to_s64 (f32_mul (f32_of_Z 1024) (seconds_float offset));
  Some (u16 (Z.min v 0x1FFE)).

(** src/rtcp/congestion_control_feedback.cpp:91-104 [AtoToTimeDelta] *)
Definition AtoToTimeDelta (receive_info : Z) : Z :=
  let ato := Z.land receive_info 0x1FFF in
  if ato =? 0x1FFE then PlusInfinity
  else if ato =? 0x1FFF then MinusInfinity
  else unit_div (ato * 1000000) 1024.

(** src/rtcp/congestion_control_feedback.cpp:106-119 [To2BitEcn] *)
Definition To2BitEcn (ecn_marking : EcnMarking) : Z :=
  match ecn_marking with
  | kNotEct => 0
  | kEct1 => Z.shiftl 0x01 13
  | kEct0 => Z.shiftl 0x02 13
  | kCe => Z.shiftl 0x03 13
  end.

(** src/rtcp/congestion_control_feedback.cpp:121-133 [ToEcnMarking] *)
Definition ToEcnMarking (receive_info : Z) : EcnMarking :=
  let ecn := Z.land (Z.shiftr receive_info 13) 3 in
  if ecn =? 1 then kEct1 else if ecn =? 2 then kEct0
  else if ecn =? 3 then kCe else kNotEct.

(** src/rtcp/congestion_control_feedback.cpp:191-197 [write_report_for_ssrc] *)
Definition packet_word (p : PacketInfo) : option Z :=
  if IsFinite (arrival_time_offset p) then
    ato ← To13bitAto (arrival_time_offset p);
    Some (Z.lor (Z.lor 0x8000 (To2BitEcn (ecn p))) ato)
  else Some 0.

(** ** Size *)

(** src/rtcp/congestion_control_feedback.cpp:239-245 [increase_size_per_ssrc] *)
Definition increase_size_per_ssrc (number_of_packets_for_ssrc : Z) : Z :=
  8 + number_of_packets_for_ssrc * 2 +
  (if negb (number_of_packets_for_ssrc `mod` 2 =? 0) then 2 else 0).

(** The loop of [BlockLength]; [prev] is [packets_[i - 1]]. *)
Fixpoint block_length_loop (prev : PacketInfo) (rest : list PacketInfo)
    (ssrc_ first_sequence_number total_size : Z) : Z :=
  match rest with
  | [] =>
      total_size + increase_size_per_ssrc
        (u16 (sequence_number prev - first_sequence_number + 1))
  | p :: rest' =>
      if negb (ssrc p =? ssrc_) then
        block_length_loop p rest' (ssrc p) (sequence_number p)
          (total_size + increase_size_per_ssrc
             (u16 (sequence_number prev - first_sequence_number + 1)))
      else block_length_loop p rest' ssrc_ first_sequence_number total_size
  end.

(** src/rtcp/congestion_control_feedback.cpp:232-263 [CongestionControlFeedback::BlockLength] *)
Definition CcfbBlockLength (c : Ccfb) : Z :=
  match packets_ c with
  | [] => 4 + 4 + 4
  | p :: rest => block_length_loop p rest (ssrc p) (sequence_number p) (4 + 4 + 4)
  end.

(** ** Serialisation *)

Section create.
Context {St : Type} (callback : list Z -> St -> St).

Fixpoint put_words (packets : list PacketInfo) (w : Writer St) : option (Writer St) :=
  match packets with
  | [] => Some w
  | p :: ps => word ← packet_word p; w ← put 2 word w; put_words ps w
  end.

(** src/rtcp/congestion_control_feedback.cpp:169-206 [write_report_for_ssrc] *)
Definition write_report_for_ssrc (packets : list PacketInfo) (w : Writer St)
    : option (Writer St) :=
  p0 ← packets !! 0%nat;
  w ← put 4 (ssrc p0) w;
  w ← put 2 (sequence_number p0) w;
  let num_reports := u16 (zlen packets) in
  if 16384 <? num_reports then Some w else
  w ← put 2 num_reports w;
  w ← put_words packets w;
  if negb (num_reports `mod` 2 =? 0) then put 2 0 w else Some w.

(** The number of packets at the head of the list with the SSRC. *)
Fixpoint count_ssrc (ssrc_ : Z) (l : list PacketInfo) : nat :=
  match l with
  | [] => 0
  | p :: l' => if negb (ssrc p =? ssrc_) then 0 else S (count_ssrc ssrc_ l')
  end.

(** src/rtcp/congestion_control_feedback.cpp:208-220 [CongestionControlFeedback::Create] *)
Fixpoint write_reports (fuel : nat) (remaining : list PacketInfo) (w : Writer St)
    : option (Writer St) :=
  match fuel with
  | O => None
  | S fuel' =>
      match remaining with
      | [] => Some w
      | p0 :: _ =>
          let n := count_ssrc (ssrc p0) remaining in
          w ← write_report_for_ssrc (take n remaining) w;
          write_reports fuel' (drop n remaining) w
      end
  end.

(** src/rtcp/congestion_control_feedback.cpp:142-230 [CongestionControlFeedback::Create] *)
Definition CreateCcfb (c : Ccfb) (max_length : Z) (w : Writer St)
    : option (bool * Writer St) :=
  '(ok, w) ← make_room callback 3 (CcfbBlockLength c) max_length w;
  if negb ok then Some (false, w) else
  w ← CreateHeader 11 RTPFB (HeaderLength (CcfbBlockLength c)) false w;
  w ← put 4 (cc_sender_ssrc c) w;
  w ← write_reports (S (length (packets_ c))) (packets_ c) w;
  w ← put 4 (report_timestamp_compact_ntp_ c) w;
  Some (true, w).
End create.

(** ** Parsing *)

(** [for (i = 0; i < num_reports; ++i)]. *)
Fixpoint parse_words (n : nat) (payload : list Z) (p ssrc_ base_seqno i : Z)
    (packets : list PacketInfo) : option (Z * list PacketInfo) :=
  match n with
  | O => Some (p, packets)
  | S n' =>
      packet_info ← ReadBigEndian 2 payload p;
      let seq_no := u16 (base_seqno + i) in
      let received := negb (Z.land packet_info 0x8000 =? 0) in
      parse_words n' payload (p + 2) ssrc_ base_seqno (i + 1)
        (packets ++ [mkInfo ssrc_ seq_no
           (if received then AtoToTimeDelta packet_info else MinusInfinity)
           (ToEcnMarking packet_info)])
  end.

(** The [while] of [CongestionControlFeedback::Parse]: every round consumes at
    least the eight bytes of a report header. *)
Fixpoint parse_reports (fuel : nat) (payload : list Z) (p payload_end : Z)
    (packets : list PacketInfo) : option (bool * list PacketInfo) :=
  match fuel with
  | O => None
  | S fuel' =>
      if p + 8 <? payload_end then
        ssrc_ ← ReadBigEndian 4 payload p;
        base_seqno ← ReadBigEndian 2 payload (p + 4);
        num_reports ← ReadBigEndian 2 payload (p + 6);
        let p := p + 8 in
        if payload_end <? p + 2 * num_reports then Some (false, packets) else
        '(p, packets) ← parse_words (Z.to_nat num_reports) payload p ssrc_
                          base_seqno 0 packets;
        let p := if negb (num_reports `mod` 2 =? 0) then p + 2 else p in
        parse_reports fuel' payload p payload_end packets
      else Some (p =? payload_end, packets)
  end.

(** src/rtcp/congestion_control_feedback.cpp:265-312 [CongestionControlFeedback::Parse] *)
Definition ParseCcfb (c : Ccfb) (packet : RtcpCommonHeader)
    : option (bool * Ccfb) :=
  let payload := payload_ packet in
  let size := payload_size_ packet in
  if negb (size `mod` 4 =? 0) || (size <? 4 + 4) then Some (false, c) else
  sender ← ReadBigEndian 4 payload 0;
  ts ← ReadBigEndian 4 payload (size - 4);
  '(ok, packets) ← parse_reports (Z.to_nat size) payload 4 (size - 4) (packets_ c);
  Some (ok, mkCcfb sender packets ts).

(** ** Lemmas: the packet word *)

Lemma To13bitAto_range o a : To13bitAto o = Some a -> 0 <= a <= 0x1FFF.
Proof.
  unfold To13bitAto. case_if; [intros [= <-]; lia|].
  destruct (f32_to_s64 _) as [v|] eqn:Hv; [|done]. cbn. intros [= <-].
  apply f32_to_s64_nonneg in Hv.
  - rewrite u16_id; unfold is_u16; lia.
  - apply f32_mul_plus; [by apply f32_of_Z_plus|].
    apply f32_mul_plus; [by apply f32_of_Z_plus|]. by vm_compute.
Qed.

(** The conversion is defined for any offset of less than 73000 years. *)
Lemma To13bitAto_some o : o < 2305843009213693952 -> is_Some (To13bitAto o).
Proof.
  intros Ho. unfold To13bitAto. destruct (Z.ltb_spec o 0); [by eauto|].
  assert (within (-24) 62 (f32_of_Z o)) as H1
    by (apply (within_of_Z 24 128 61); [lia|lia|change (2 ^ 61) with 2305843009213693952; lia|
        unfold emin; lia|lia]).
  assert (within (-43) (-19) (f32_div (f32_of_Z 1) (f32_of_Z 1000000))) as H2
    by (right; eexists _, _; split; [vm_compute; reflexivity|split; [lia|vm_compute; congruence]]).
  assert (within (-13) 10 (f32_of_Z 1024)) as H3
    by (right; eexists _, _; split; [vm_compute; reflexivity|split; [lia|vm_compute; congruence]]).
  pose proof (within_mul 24 128 _ _ _ _ _ _ ltac:(lia) H1 H2 ltac:(lia) ltac:(lia)
    ltac:(unfold emin; lia) ltac:(lia)) as H4.
  pose proof (within_mul 24 128 _ _ _ _ _ _ ltac:(lia) H3 H4 ltac:(lia) ltac:(lia)
    ltac:(unfold emin; lia) ltac:(lia)) as H5.
  destruct (f32_to_s64_within _ _ _ H5 ltac:(lia) ltac:(lia)) as (v & Hv & _).
  change (f32_to_s64 (f32_mul (f32_of_Z 1024) (seconds_float o)) = Some v) in Hv.
  rewrite Hv. by eexists.
Qed.

(** The bits of the word, field by field. *)
Lemma packet_word_bits a e :
  0 <= a <= 0x1FFF ->
  let word := Z.lor (Z.lor 0x8000 (To2BitEcn e)) a in
  is_u16 word /\ Z.land word 0x8000 = 0x8000 /\ Z.land word 0x1FFF = a /\
  ToEcnMarking word = e.
Proof.
  intros Ha word.
  assert (word = (4 + match e with kNotEct => 0 | kEct1 => 1 | kEct0 => 2 | kCe => 3 end)
    * 2 ^ 13 + a) as Hw.
  { unfold word. rewrite <- lor_add by lia. by destruct e. }
  assert (0 <= match e with kNotEct => 0 | kEct1 => 1 | kEct0 => 2 | kCe => 3 end <= 3)
    as He by (destruct e; lia).
  set (k := match e with kNotEct => 0 | kEct1 => 1 | kEct0 => 2 | kCe => 3 end) in *.
  change (2 ^ 13) with 8192 in Hw. split_and!.
  - unfold is_u16. lia.
  - assert (Z.testbit word 15 = true) as Hb
      by (apply Z.testbit_true; [lia|]; change (2 ^ 15) with 32768; zdm).
    change 0x8000 with (2 ^ 15). apply Z.bits_inj'. intros n Hn.
    rewrite Z.land_spec. destruct (Z.eq_dec n 15) as [->|].
    + by rewrite Hb.
    + rewrite Z.pow2_bits_false by lia. apply andb_false_r.
  - change 0x1FFF with (Z.ones 13). rewrite Z.land_ones by lia.
    change (2 ^ 13) with 8192. zdm.
  - unfold ToEcnMarking.
    assert (Z.land (Z.shiftr word 13) 3 = k) as ->.
    { change 3 with (Z.ones 2). rewrite Z.land_ones, Z.shiftr_div_pow2 by lia.
      change (2 ^ 13) with 8192. change (2 ^ 2) with 4. zdm. }
    subst k. by destruct e.
Qed.

(** What the receiver of the report is told about a packet. *)
Definition decoded (p : PacketInfo) : PacketInfo :=
  if IsFinite (arrival_time_offset p) then
    match To13bitAto (arrival_time_offset p) with
    | Some a => mkInfo (ssrc p) (sequence_number p) (AtoToTimeDelta a) (ecn p)
    | None => p
    end
  else mkInfo (ssrc p) (sequence_number p) MinusInfinity kNotEct.

Definition decode_word (word : Z) : Z * EcnMarking :=
  (if negb (Z.land word 0x8000 =? 0) then AtoToTimeDelta word else MinusInfinity,
   ToEcnMarking word).

Lemma packet_word_decode p word :
  packet_word p = Some word ->
  is_u16 word /\
  decode_word word = (arrival_time_offset (decoded p), ecn (decoded p)).
Proof.
  unfold packet_word, decoded, decode_word. destruct (IsFinite _).
  - destruct (To13bitAto _) as [a|] eqn:Ha; [|done]. cbn [mbind option_bind].
    intros [= <-]. apply To13bitAto_range in Ha.
    destruct (packet_word_bits a (ecn p) Ha) as (Hu & Hr & Hm & He).
    split; [done|]. rewrite Hr, He. cbn [negb Z.eqb].
    unfold AtoToTimeDelta. rewrite Hm.
    change 0x1FFF with (Z.ones 13).
    rewrite (Z.land_ones a), (Z.mod_small a) by (lia || (change (2 ^ 13) with 8192; lia)).
    done.
  - intros [= <-]. done.
Qed.

(** ** The documented form of a report

    [CongestionControlFeedback] asks its caller for packets grouped by SSRC,
    with consecutive sequence numbers: a list of runs. *)

Record Run := mkRun {
  run_ssrc : Z;
  run_first : Z;
  run_infos : list (Z * EcnMarking);
}.

Fixpoint expand_from (s first : Z) (infos : list (Z * EcnMarking)) : list PacketInfo :=
  match infos with
  | [] => []
  | (o, e) :: infos' => mkInfo s (u16 first) o e :: expand_from s (first + 1) infos'
  end.

Definition expand (r : Run) : list PacketInfo :=
  expand_from (run_ssrc r) (run_first r) (run_infos r).

Definition run_ok (r : Run) : Prop :=
  is_u32 (run_ssrc r) /\ is_u16 (run_first r) /\
  0 < zlen (run_infos r) <= 16384 /\
  Forall (fun i => IsFinite (fst i) = true -> is_Some (To13bitAto (fst i))) (run_infos r).

(** Adjacent runs belong to different streams. *)
Fixpoint distinct_ssrcs (runs : list Run) : Prop :=
  match runs with
  | r :: ((r' :: _) as rs) => run_ssrc r <> run_ssrc r' /\ distinct_ssrcs rs
  | _ => True
  end.

Lemma expand_from_length s infos : forall first,
  length (expand_from s first infos) = length infos.
Proof. induction infos as [|[o e] infos IH]; intros; cbn; auto. Qed.

Definition run_size (r : Run) : Z := increase_size_per_ssrc (zlen (run_infos r)).

Lemma expand_from_lookup s infos : forall first i,
  expand_from s first infos !! i =
    (fun '(o, e) => mkInfo s (u16 (first + Z.of_nat i)) o e) <$> infos !! i.
Proof.
  induction infos as [|[o e] infos IH]; intros first i; [done|].
  destruct i as [|i]; cbn [expand_from]; [cbn; by rewrite Z.add_0_r|].
  cbn [lookup list_lookup]. rewrite IH. by replace (first + 1 + Z.of_nat i)
    with (first + Z.of_nat (S i)) by lia.
Qed.

Lemma expand_ssrc s infos : forall first,
  Forall (fun p => ssrc p = s) (expand_from s first infos).
Proof. induction infos as [|[o e] infos IH]; intros; cbn; constructor; eauto. Qed.

(** The size loop from a packet list on, with [total] for what precedes. *)
Definition length_from (total : Z) (l : list PacketInfo) : Z :=
  match l with
  | [] => total
  | p :: rest => block_length_loop p rest (ssrc p) (sequence_number p) total
  end.

Definition head_differs (s : Z) (l : list PacketInfo) : Prop :=
  match l with [] => True | p :: _ => ssrc p <> s end.

(** The number of packets computed from the sequence numbers. *)
Lemma run_count first0 x :
  u16 (u16 x - u16 first0 + 1) = u16 (x - first0 + 1).
Proof.
  unfold u16. rewrite <- (Zplus_mod_idemp_l (_ - _)), <- Zminus_mod.
  by rewrite Zplus_mod_idemp_l.
Qed.

(** The size loop over the rest of a run. *)
Lemma block_length_run s infos : forall prev first0 first rest total,
  sequence_number prev = u16 (first - 1) -> head_differs s rest ->
  block_length_loop prev (expand_from s first infos ++ rest) s (u16 first0) total =
  length_from (total + increase_size_per_ssrc (u16 (first + zlen infos - first0))) rest.
Proof.
  induction infos as [|[o e] infos IH]; intros prev first0 first rest total Hp Hr.
  - cbn [expand_from app].
    assert (u16 (sequence_number prev - u16 first0 + 1) = u16 (first + zlen (@nil (Z * EcnMarking)) - first0)) as Hc
      by (rewrite Hp, run_count; f_equal; unfold zlen; cbn; lia).
    destruct rest as [|p rest]; cbn [block_length_loop length_from]; [by rewrite Hc|].
    cbn in Hr. replace (ssrc p =? s) with false by lia. cbn [negb]. by rewrite Hc.
  - cbn [expand_from app block_length_loop ssrc]. rewrite Z.eqb_refl. cbn [negb].
    rewrite IH by (done || (cbn; f_equal; lia)). rewrite zlen_cons.
    do 3 f_equal. f_equal. lia.
Qed.

Lemma length_from_run r rest total :
  run_ok r -> head_differs (run_ssrc r) rest ->
  length_from total (expand r ++ rest) = length_from (total + run_size r) rest.
Proof.
  intros (_ & Hf & Hl & _) Hr. unfold expand, run_size.
  destruct (run_infos r) as [|[o e] infos]; [unfold zlen in Hl; cbn in Hl; lia|].
  cbn [expand_from app length_from ssrc sequence_number].
  rewrite block_length_run by (done || (cbn; f_equal; lia)).
  rewrite zlen_cons in *. do 3 f_equal.
  rewrite <- (u16_id (1 + zlen infos)) by (unfold is_u16; lia). f_equal. lia.
Qed.

Lemma expand_head_differs r rs :
  distinct_ssrcs (r :: rs) -> Forall run_ok rs ->
  head_differs (run_ssrc r) (flat_map expand rs).
Proof.
  destruct rs as [|r' rs]; [done|]. intros [Hne _] Hok.
  apply Forall_cons_1 in Hok as [(_ & _ & Hl & _) _].
  cbn [flat_map]. unfold expand.
  destruct (run_infos r') as [|[o e] infos]; [unfold zlen in Hl; cbn in Hl; lia|].
  cbn. done.
Qed.

Lemma distinct_tail r rs : distinct_ssrcs (r :: rs) -> distinct_ssrcs rs.
Proof. destruct rs; [done|]. by intros [_ H]. Qed.

(** The size written in the header is the size of the runs. *)
Lemma length_from_runs runs : forall total,
  Forall run_ok runs -> distinct_ssrcs runs ->
  length_from total (flat_map expand runs) = foldl (fun t r => t + run_size r) total runs.
Proof.
  induction runs as [|r rs IH]; intros total Hok Hd; [done|].
  apply Forall_cons_1 in Hok as [Hr Hok]. cbn [flat_map foldl].
  rewrite length_from_run by (done || by apply expand_head_differs).
  apply IH; [done|by eapply distinct_tail].
Qed.

(** ** Lemmas: serialisation *)

Definition word_of (p : PacketInfo) : Z := default 0 (packet_word p).

Definition pad_bytes (n : Z) : list Z :=
  if negb (n `mod` 2 =? 0) then be_bytes 2 0 else [].

Definition run_bytes (r : Run) : list Z :=
  be_bytes 4 (run_ssrc r) ++ be_bytes 2 (run_first r) ++
  be_bytes 2 (zlen (run_infos r)) ++
  flat_map (fun p => be_bytes 2 (word_of p)) (expand r) ++
  pad_bytes (zlen (run_infos r)).

Definition ccfb_of (sender ts : Z) (runs : list Run) : Ccfb :=
  mkCcfb sender (flat_map expand runs) ts.

Definition ccfb_block (sender ts : Z) (runs : list Run) : list Z :=
  header_bytes 11 RTPFB (2 + zlen (flat_map run_bytes runs) / 4) ++
  be_bytes 4 sender ++ flat_map run_bytes runs ++ be_bytes 4 ts.

Lemma words_zlen ps : zlen (flat_map (fun p => be_bytes 2 (word_of p)) ps) = 2 * zlen ps.
Proof.
  induction ps as [|p ps IH]; [done|]. cbn [flat_map].
  rewrite zlen_app, IH, be_bytes_zlen, zlen_cons. lia.
Qed.

Lemma expand_zlen r : zlen (expand r) = zlen (run_infos r).
Proof. unfold zlen, expand. by rewrite expand_from_length. Qed.

Lemma run_bytes_zlen r : zlen (run_bytes r) = run_size r.
Proof.
  unfold run_bytes, run_size, increase_size_per_ssrc, pad_bytes.
  rewrite !zlen_app, words_zlen, expand_zlen, !be_bytes_zlen.
  case_if; rewrite ?be_bytes_zlen, ?zlen_nil; change (zlen (@nil Z)) with 0; lia.
Qed.

Lemma run_size_mod4 r : run_size r `mod` 4 = 0.
Proof. unfold run_size, increase_size_per_ssrc. case_if; zdm. Qed.

Lemma runs_size runs : forall total,
  foldl (fun t r => t + run_size r) total runs = total + zlen (flat_map run_bytes runs).
Proof.
  induction runs as [|r rs IH]; intros total; cbn [foldl flat_map].
  - change (zlen (@nil Z)) with 0. lia.
  - rewrite IH, zlen_app, run_bytes_zlen. lia.
Qed.

Lemma runs_mod4 runs : zlen (flat_map run_bytes runs) `mod` 4 = 0.
Proof.
  induction runs as [|r rs IH]; [done|]. cbn [flat_map].
  rewrite zlen_app, run_bytes_zlen. pose proof (run_size_mod4 r). zdm.
Qed.

Lemma CcfbBlockLength_runs sender ts runs :
  Forall run_ok runs -> distinct_ssrcs runs ->
  CcfbBlockLength (ccfb_of sender ts runs) = 12 + zlen (flat_map run_bytes runs).
Proof.
  intros Hok Hd. pose proof (length_from_runs runs 12 Hok Hd) as H.
  rewrite runs_size in H. rewrite <- H. unfold CcfbBlockLength. cbn [packets_ ccfb_of].
  by destruct (flat_map expand runs).
Qed.

Lemma packet_word_ok r p : run_ok r -> In p (expand r) ->
  packet_word p = Some (word_of p).
Proof.
  intros (_ & _ & _ & Hf) Hin. unfold word_of.
  assert (is_Some (packet_word p)) as [w ->]; [|done].
  unfold expand in Hin. revert Hin. generalize (run_first r).
  induction Hf as [|[o e] infos Ho Hf IH]; intros first Hin; [done|].
  destruct Hin as [<-|Hin]; [|by eapply IH].
  unfold packet_word. cbn in *. destruct (IsFinite o); [|eauto].
  destruct (Ho eq_refl) as [a ->]. cbn. eauto.
Qed.

Lemma expand_words r : run_ok r ->
  Forall (fun p => packet_word p = Some (word_of p)) (expand r).
Proof. intros Hr. apply List.Forall_forall. intros p. by apply packet_word_ok. Qed.

Section create_lemmas.
Context {St : Type} (callback : list Z -> St -> St).
Implicit Types w : Writer St.

Lemma put_words_Wr ps : forall w a r,
  Forall (fun p => packet_word p = Some (word_of p)) ps ->
  Wr w a r -> (2 * length ps <= length r)%nat ->
  exists w', put_words ps w = Some w' /\
    Wr w' (a ++ flat_map (fun p => be_bytes 2 (word_of p)) ps) (drop (2 * length ps) r) /\
    sink w' = sink w /\ length (packet w') = length (packet w).
Proof.
  induction ps as [|p ps IH]; intros w a r Hw H Hr; cbn [put_words flat_map].
  - exists w. by rewrite app_nil_r.
  - apply Forall_cons_1 in Hw as [Hp Hw]. cbn [length] in Hr. rewrite Hp.
    cbn [mbind option_bind].
    destruct (put_Wr 2 (word_of p) w a r H) as (w1 & -> & H1 & <- & <-); [lia|].
    cbn [mbind option_bind].
    destruct (IH w1 _ _ Hw H1) as (w2 & -> & H2 & <- & <-); [len|].
    eexists. split; [done|]. split; [|done].
    rewrite drop_drop, <- app_assoc in H2. cbn [length].
    by replace (2 * S (length ps))%nat with (2 + 2 * length ps)%nat by lia.
Qed.

Lemma run_head r : run_ok r -> exists o e infos,
  run_infos r = (o, e) :: infos /\
  expand r !! 0%nat = Some (mkInfo (run_ssrc r) (run_first r) o e).
Proof.
  intros (_ & Hf & Hl & _). unfold expand.
  destruct (run_infos r) as [|[o e] infos]; [unfold zlen in Hl; cbn in Hl; lia|].
  exists o, e, infos. cbn. by rewrite (u16_id (run_first r)).
Qed.

Lemma write_report_Wr r w a l :
  run_ok r -> Wr w a l -> run_size r <= zlen l ->
  exists w', write_report_for_ssrc (expand r) w = Some w' /\
    Wr w' (a ++ run_bytes r) (drop (length (run_bytes r)) l) /\
    sink w' = sink w /\ length (packet w') = length (packet w).
Proof.
  intros Hok H Hl. destruct (run_head r Hok) as (o & e & infos & Hi & Hh).
  pose proof Hok as (_ & _ & Hn & _).
  assert (zlen (run_bytes r) = run_size r) as Hz by apply run_bytes_zlen.
  assert (length (expand r) = length (run_infos r)) as Hel by apply expand_from_length.
  unfold run_size, increase_size_per_ssrc in *.
  unfold write_report_for_ssrc. rewrite Hh. cbn [mbind option_bind ssrc sequence_number].
  assert (0 <= (if negb (zlen (run_infos r) `mod` 2 =? 0) then 2 else 0)) as Hpad0
    by (case_if; lia).
  destruct (put_Wr 4 (run_ssrc r) w a l H) as (w1 & -> & H1 & <- & <-); [len|].
  cbn [mbind option_bind].
  destruct (put_Wr 2 (run_first r) w1 _ _ H1) as (w2 & -> & H2 & <- & <-); [len|].
  cbn [mbind option_bind]. rewrite expand_zlen, u16_id by (unfold is_u16; lia).
  replace (16384 <? zlen (run_infos r)) with false by lia. cbv zeta.
  destruct (put_Wr 2 (zlen (run_infos r)) w2 _ _ H2) as (w3 & -> & H3 & <- & <-); [len|].
  cbn [mbind option_bind].
  destruct (put_words_Wr (expand r) w3 _ _ (expand_words r Hok) H3)
    as (w4 & -> & H4 & <- & <-); [len|].
  cbn [mbind option_bind]. rewrite !drop_drop in H4.
  unfold run_bytes, pad_bytes in *.
  destruct (negb (zlen (run_infos r) `mod` 2 =? 0)).
  - destruct (put_Wr 2 0 w4 _ _ H4) as (w5 & -> & H5 & <- & <-); [len|].
    eexists. split; [done|]. split; [|done]. rewrite drop_drop in H5.
    rewrite <- !app_assoc in H5.
    match type of H5 with Wr _ _ (drop ?n _) =>
      match goal with |- Wr _ _ (drop ?k _) => replace k with n; [done|len] end end.
  - eexists. split; [done|]. split; [|done].
    rewrite <- !app_assoc in H4. rewrite app_nil_r in *.
    match type of H4 with Wr _ _ (drop ?n _) =>
      match goal with |- Wr _ _ (drop ?k _) => replace k with n; [done|len] end end.
Qed.

Lemma count_ssrc_run s infos : forall first rest,
  head_differs s rest ->
  count_ssrc s (expand_from s first infos ++ rest) = length infos.
Proof.
  induction infos as [|[o e] infos IH]; intros first rest Hr; cbn [expand_from app].
  - destruct rest as [|p rest]; [done|]. cbn in *. by replace (ssrc p =? s) with false by lia.
  - cbn [count_ssrc ssrc length]. rewrite Z.eqb_refl. cbn [negb]. by rewrite IH.
Qed.

Lemma write_reports_Wr runs : forall fuel w a l,
  Forall run_ok runs -> distinct_ssrcs runs -> Wr w a l ->
  zlen (flat_map run_bytes runs) <= zlen l ->
  (length (flat_map expand runs) < fuel)%nat ->
  exists w', write_reports fuel (flat_map expand runs) w = Some w' /\
    Wr w' (a ++ flat_map run_bytes runs) (drop (length (flat_map run_bytes runs)) l) /\
    sink w' = sink w /\ length (packet w') = length (packet w).
Proof.
  induction runs as [|r rs IH]; intros fuel w a l Hok Hd H Hl Hf.
  - destruct fuel; [lia|]. cbn. exists w. by rewrite app_nil_r.
  - pose proof (expand_head_differs r rs Hd) as Hne.
    apply Forall_cons_1 in Hok as [Hr Hok]. specialize (Hne Hok).
    destruct (run_head r Hr) as (o & e & infos & Hi & Hh).
    cbn [flat_map] in *. rewrite zlen_app, run_bytes_zlen in Hl.
    pose proof (zlen_nonneg (flat_map run_bytes rs)).
    destruct fuel as [|fuel]; [lia|]. cbn [write_reports].
    assert (exists p0 tl, expand r ++ flat_map expand rs = p0 :: tl /\ ssrc p0 = run_ssrc r)
      as (p0 & tl & Heq & Hs0).
    { destruct (expand r) as [|p0 tl]; [done|]. exists p0, (tl ++ flat_map expand rs).
      cbn in Hh. injection Hh as ->. done. }
    rewrite Heq, <- Heq, Hs0. unfold expand at 1 3 5.
    rewrite count_ssrc_run by done.
    rewrite <- (expand_from_length (run_ssrc r) (run_infos r) (run_first r)).
    fold (expand r). rewrite take_app_length, drop_app_length.
    destruct (write_report_Wr r w a l Hr H) as (w1 & -> & H1 & <- & <-); [lia|].
    cbn [mbind option_bind].
    destruct (IH fuel w1 _ _ Hok (distinct_tail _ _ Hd) H1) as (w2 & -> & H2 & <- & <-).
    + pose proof (run_bytes_zlen r). len.
    + pose proof (expand_from_length (run_ssrc r) (run_infos r) (run_first r)).
      fold (expand r) in *. rewrite Hi in *. rewrite length_app in Hf. cbn in *. lia.
    + eexists. split; [done|]. split; [|done].
      by rewrite drop_drop, <- app_assoc, <- length_app in H2.
Qed.
End create_lemmas.

(** A report in the documented form. *)
Definition report_of (c : Ccfb) (runs : list Run) : Prop :=
  packets_ c = flat_map expand runs /\ Forall run_ok runs /\ distinct_ssrcs runs /\
  is_u32 (cc_sender_ssrc c) /\ is_u32 (report_timestamp_compact_ntp_ c).

Definition report_block (c : Ccfb) (runs : list Run) : list Z :=
  ccfb_block (cc_sender_ssrc c) (report_timestamp_compact_ntp_ c) runs.

Lemma report_eq c runs : report_of c runs ->
  c = ccfb_of (cc_sender_ssrc c) (report_timestamp_compact_ntp_ c) runs.
Proof. intros (H & _). destruct c; cbn in *. by subst. Qed.

Lemma ccfb_block_zlen s ts runs :
  zlen (ccfb_block s ts runs) = 12 + zlen (flat_map run_bytes runs).
Proof.
  unfold ccfb_block. rewrite !zlen_app, !be_bytes_zlen.
  change (zlen (header_bytes 11 RTPFB (2 + zlen (flat_map run_bytes runs) / 4))) with 4.
  lia.
Qed.

Lemma CcfbBlockLength_report c runs :
  report_of c runs -> CcfbBlockLength c = 12 + zlen (flat_map run_bytes runs).
Proof.
  intros H. rewrite (report_eq c runs H). by apply CcfbBlockLength_runs; apply H.
Qed.

Lemma HeaderLength_report n :
  0 <= n -> n `mod` 4 = 0 -> HeaderLength (12 + n) = 2 + n / 4.
Proof.
  intros Hn Hm. unfold HeaderLength.
  replace (12 + n <=? 0) with false by lia.
  replace ((12 + n) `mod` 4 =? 0) with true by zdm. cbn [negb]. zdm.
Qed.

#[export] Program Instance Ccfb_message : RtcpMessage Ccfb := {
  msg_create := fun St cb c => CreateCcfb cb c;
  msg_ok := fun c => exists runs, report_of c runs;
  msg_min := CcfbBlockLength;
  msg_encodes := fun c blocks => exists runs,
    report_of c runs /\ blocks = [report_block c runs];
}.
Next Obligation.
  intros St cb c max w Hmax Hw [runs Hrep]. unfold CreateCcfb.
  pose proof (CcfbBlockLength_report c runs Hrep) as Hbl.
  set (n := zlen (flat_map run_bytes runs)) in *.
  assert (0 <= n) as Hn0 by apply zlen_nonneg.
  pose proof (runs_mod4 runs) as Hm4.
  destruct (make_room_spec cb (CcfbBlockLength c) max w Hw) as (w1 & -> & Hs & Hi); [lia|].
  cbn [mbind option_bind]. destruct (Z.leb_spec (CcfbBlockLength c) max); cbn [negb].
  2: { exists w1, []. done. }
  specialize (Hi ltac:(lia)). pose proof Hs as (Hw1 & _).
  destruct (writer_Wr max w1 Hw1) as (r & HW & Ha & Hr).
  pose proof Hw1 as [[H0 H1] H2]. rewrite Hbl in *.
  rewrite HeaderLength_report by done.
  destruct (CreateHeader_Wr 11 RTPFB (2 + n / 4) w1 _ r HW)
    as (w2 & -> & HW2 & Hs2 & Hl2); [len|done|]. cbn [mbind option_bind].
  destruct (put_Wr 4 (cc_sender_ssrc c) w2 _ _ HW2)
    as (w3 & -> & HW3 & Hs3 & Hl3); [len|]. cbn [mbind option_bind].
  pose proof Hrep as (Hp & Hok & Hd & _). rewrite Hp.
  destruct (write_reports_Wr runs (S (length (flat_map expand runs))) w3 _ _ Hok Hd HW3)
    as (w4 & -> & HW4 & Hs4 & Hl4); [subst n; len|lia|]. cbn [mbind option_bind].
  destruct (put_Wr 4 (report_timestamp_compact_ntp_ c) w4 _ _ HW4)
    as (w5 & -> & HW5 & Hs5 & Hl5); [subst n; len|]. cbn [mbind option_bind].
  exists w5, [report_block c runs]. split_and!; [done| |by exists runs].
  apply (serialised_trans cb max [] [_] w w1 w5 Hs).
  eapply (serialised_block cb max _ w1 w5); [done|exact HW| |congruence|lia|].
  - rewrite <- !app_assoc in HW5. exact HW5.
  - unfold report_block. rewrite ccfb_block_zlen. fold n. lia.
Qed.
Next Obligation.
  intros c blocks _ (runs & Hrep & ->). constructor; [|constructor].
  unfold report_block. rewrite ccfb_block_zlen.
  pose proof (zlen_nonneg (flat_map run_bytes runs)). lia.
Qed.

(** ** Lemmas: parsing *)

Lemma parse_words_read s infos : forall m p base i first r acc,
  is_u16 base -> u16 (base + i) = u16 first ->
  Forall (fun p => packet_word p = Some (word_of p)) (expand_from s first infos) ->
  At m p (flat_map (fun p => be_bytes 2 (word_of p)) (expand_from s first infos) ++ r) ->
  parse_words (length infos) m p s base i acc =
    Some (p + 2 * zlen infos, acc ++ map decoded (expand_from s first infos)) /\
  At m (p + 2 * zlen infos) r.
Proof.
  induction infos as [|[o e] infos IH]; intros m p base i first r acc Hb Hi Hw H;
    cbn [length parse_words].
  - cbn in *. change (zlen (@nil (Z * EcnMarking))) with 0.
    rewrite app_nil_r. replace (p + 2 * 0) with p by lia. done.
  - cbn [expand_from flat_map map] in *. apply Forall_cons_1 in Hw as [Hp Hw].
    destruct (packet_word_decode _ _ Hp) as [Hu Hdec].
    rewrite <- app_assoc in H. at_u16 H. cbn [mbind option_bind].
    destruct (IH m (p + 2) base (i + 1) (first + 1) r
      (acc ++ [decoded (mkInfo s (u16 first) o e)]) Hb) as [Hpw HA]; [|done|exact H|].
    { replace (base + (i + 1)) with (base + i + 1) by lia. unfold u16 in *.
      by rewrite <- Zplus_mod_idemp_l, Hi, Zplus_mod_idemp_l. }
    rewrite zlen_cons. replace (p + 2 * (1 + zlen infos)) with (p + 2 + 2 * zlen infos) by lia.
    split; [|done]. rewrite <- app_assoc in Hpw. cbn [app] in Hpw. rewrite <- Hpw.
    cbv zeta. do 2 f_equal. unfold decode_word in Hdec. injection Hdec as -> ->.
    rewrite Hi. unfold decoded. cbn.
    destruct (IsFinite o); [|done]. by destruct (To13bitAto o).
Qed.

Lemma parse_reports_read runs : forall fuel m p tail acc payload_end,
  Forall run_ok runs -> (length runs < fuel)%nat ->
  At m p (flat_map run_bytes runs ++ tail) ->
  payload_end = p + zlen (flat_map run_bytes runs) ->
  parse_reports fuel m p payload_end acc =
    Some (true, acc ++ map decoded (flat_map expand runs)).
Proof.
  induction runs as [|r rs IH]; intros fuel m p tail acc pe Hok Hf H ->;
    (destruct fuel as [|fuel]; [lia|]); cbn [parse_reports].
  - cbn [flat_map map]. change (zlen (@nil Z)) with 0.
    replace (p + 8 <? p + 0) with false by lia. rewrite app_nil_r.
    do 2 f_equal. lia.
  - apply Forall_cons_1 in Hok as [Hr Hok].
    pose proof Hr as (Hs & Hfst & Hn & _). cbn [flat_map] in *.
    pose proof (zlen_nonneg (flat_map run_bytes rs)).
    rewrite zlen_app, run_bytes_zlen.
    assert (8 + 2 * zlen (run_infos r) <= run_size r) as Hsz
      by (unfold run_size, increase_size_per_ssrc; case_if; lia).
    replace (p + 8 <? _) with true by lia.
    unfold run_bytes at 1 in H. rewrite <- !app_assoc in H.
    at_u32 H. cbn [mbind option_bind]. at_u16 H. cbn [mbind option_bind].
    apply At_read_u16 in H as [-> H]; [|unfold is_u16; lia]. at_norm H.
    cbn [mbind option_bind]. cbv zeta.
    replace (_ <? p + 8 + 2 * zlen (run_infos r)) with false by lia.
    replace (Z.to_nat (zlen (run_infos r))) with (length (run_infos r)) by len.
    destruct (parse_words_read (run_ssrc r) (run_infos r) m (p + 8) (run_first r) 0
      (run_first r) (pad_bytes (zlen (run_infos r)) ++ flat_map run_bytes rs ++ tail) acc)
      as [Hpw HA]; [done|f_equal; lia|by apply expand_words|exact H|].
    fold (zlen (run_infos r)) in *. rewrite Hpw. cbn [mbind option_bind].
    rewrite map_app, (app_assoc acc). fold (expand r).
    apply (IH fuel m _ tail); [done|cbn in Hf; lia| |].
    + unfold pad_bytes in HA. destruct (negb _); [|exact HA].
      apply (At_app _ _ (be_bytes 2 0)) in HA. exact HA.
    + unfold run_size, increase_size_per_ssrc. destruct (negb _); lia.
Qed.

Lemma parse_words_safe n : forall m p s base i acc,
  bytes m -> 0 <= p -> p + 2 * Z.of_nat n <= zlen m ->
  exists acc', parse_words n m p s base i acc = Some (p + 2 * Z.of_nat n, acc').
Proof.
  induction n as [|n IH]; intros m p s base i acc Hm H0 H1; cbn [parse_words].
  - eexists. do 2 f_equal. lia.
  - rewrite ReadBigEndian_Some by (done || lia). cbn [mbind option_bind]. cbv zeta.
    destruct (IH m (p + 2) s base (i + 1)
      (acc ++ [mkInfo s (u16 (base + i))
        (if negb (Z.land (be_val (take 2 (drop (Z.to_nat p) m))) 0x8000 =? 0)
         then AtoToTimeDelta (be_val (take 2 (drop (Z.to_nat p) m))) else MinusInfinity)
        (ToEcnMarking (be_val (take 2 (drop (Z.to_nat p) m))))])) as (acc' & ->);
      [done|lia|lia|].
    eexists. do 2 f_equal. lia.
Qed.

Lemma runs_count runs :
  Forall run_ok runs -> zlen runs <= zlen (flat_map run_bytes runs).
Proof.
  induction 1 as [|r rs Hr _ IH]; [done|].
  cbn [flat_map]. rewrite zlen_app, run_bytes_zlen, zlen_cons.
  pose proof Hr as (_ & _ & Hn & _).
  unfold run_size, increase_size_per_ssrc. destruct (negb _); lia.
Qed.

(** On any bytes the loop ends and stays in the payload. *)
Lemma parse_reports_safe fuel : forall m p pe acc,
  bytes m -> 0 <= p -> pe <= zlen m -> pe - p < Z.of_nat fuel -> 0 < Z.of_nat fuel ->
  exists ok acc', parse_reports fuel m p pe acc = Some (ok, acc').
Proof.
  induction fuel as [|fuel IH]; intros m p pe acc Hm H0 H1 Hf Hf0; [lia|].
  cbn [parse_reports]. case_if; [|eauto].
  destruct (ReadBE_safe 4 m p) as (s & ->); [done|lia|lia|]. cbn [mbind option_bind].
  destruct (ReadBE_safe 2 m (p + 4)) as (b & ->); [done|lia|lia|]. cbn [mbind option_bind].
  destruct (ReadBE_safe 2 m (p + 6)) as (n & Hn); [done|lia|lia|].
  pose proof (ReadBigEndian_range 2 m (p + 6) n Hm ltac:(lia) ltac:(lia) Hn) as Hr.
  rewrite Hn. cbn [mbind option_bind]. cbv zeta. case_if; [eauto|].
  destruct (parse_words_safe (Z.to_nat n) m (p + 8) s b 0 acc) as (acc' & ->);
    [done|lia|lia|]. cbn [mbind option_bind].
  destruct (negb (n `mod` 2 =? 0)); apply IH; done || lia.
Qed.

Lemma ccfb_body_zlen c runs :
  zlen (be_bytes 4 (cc_sender_ssrc c) ++ flat_map run_bytes runs ++
        be_bytes 4 (report_timestamp_compact_ntp_ c))
  = (2 + zlen (flat_map run_bytes runs) / 4) * 4.
Proof.
  rewrite !zlen_app, !be_bytes_zlen. pose proof (runs_mod4 runs). zdm.
Qed.

Lemma ParseCcfb_read h c runs r :
  report_of c runs ->
  payload_ h = be_bytes 4 (cc_sender_ssrc c) ++ flat_map run_bytes runs ++
    be_bytes 4 (report_timestamp_compact_ntp_ c) ++ r ->
  payload_size_ h = 8 + zlen (flat_map run_bytes runs) ->
  ParseCcfb (mkCcfb 0 [] 0) h =
    Some (true, mkCcfb (cc_sender_ssrc c) (map decoded (packets_ c))
                  (report_timestamp_compact_ntp_ c)).
Proof.
  intros (Hp & Hok & Hd & Hs & Ht) Hpl Hsz. pose proof (runs_mod4 runs) as Hm4.
  pose proof (runs_count runs Hok) as Hc. pose proof (zlen_nonneg runs).
  set (n := zlen (flat_map run_bytes runs)) in *.
  unfold ParseCcfb. rewrite Hsz. cbv zeta.
  replace (negb ((8 + n) `mod` 4 =? 0) || (8 + n <? 4 + 4)) with false by zdm.
  assert (At (payload_ h) 0 (be_bytes 4 (cc_sender_ssrc c) ++ flat_map run_bytes runs ++
    be_bytes 4 (report_timestamp_compact_ntp_ c) ++ r)) as HA
    by (rewrite Hpl; apply At_start).
  at_u32 HA. cbn [mbind option_bind].
  pose proof (At_app _ _ _ _ HA) as HB. fold n in HB.
  apply At_read_u32 in HB as [HB _]; [|done].
  replace (8 + n - 4) with (4 + n) by lia. rewrite HB. cbn [mbind option_bind].
  rewrite (parse_reports_read runs _ (payload_ h) 4 _ []) with (3 := HA);
    [|done|unfold zlen in Hc; lia|subst n; lia].
  cbn [mbind option_bind app]. by rewrite Hp.
Qed.

Lemma report_decodes (c : Ccfb) (runs : list Run) (h0 : RtcpCommonHeader)
    (rest : list Z) :
  report_of c runs -> CcfbBlockLength c <= 4 * 65535 ->
  zlen (report_block c runs) = CcfbBlockLength c /\
  ('(ok, h) ← Parse h0 (report_block c runs ++ rest) (zlen (report_block c runs ++ rest));
   '(ok', c') ← ParseCcfb (mkCcfb 0 [] 0) h;
   Some (ok, packet_type_ h, count_or_format_ h, packet_size h, ok', c'))
  = Some (true, RTPFB, 11, CcfbBlockLength c, true,
          mkCcfb (cc_sender_ssrc c) (map decoded (packets_ c))
                 (report_timestamp_compact_ntp_ c)).
Proof.
  intros Hrep Hsz. rewrite (CcfbBlockLength_report c runs Hrep) in *.
  pose proof (zlen_nonneg (flat_map run_bytes runs)).
  rewrite <- (ccfb_block_zlen (cc_sender_ssrc c) (report_timestamp_compact_ntp_ c)).
  split; [done|]. unfold report_block, ccfb_block.
  destruct (Parse_block h0 11 RTPFB (2 + zlen (flat_map run_bytes runs) / 4) _ rest
    ltac:(done) ltac:(done) ltac:(zdm) (ccfb_body_zlen c runs)) as (-> & Hps & _).
  cbn [mbind option_bind]. pose proof (runs_mod4 runs).
  erewrite ParseCcfb_read; [|exact Hrep|cbn [payload_]; by rewrite <- !app_assoc|
    cbn [payload_size_]; zdm].
  cbn [mbind option_bind]. by rewrite Hps.
Qed.

(** ** Properties *)

(** A congestion control feedback report in the documented form (packets
    grouped by stream, consecutive sequence numbers that may wrap, at most
    16384 per stream) is carried exactly: the bytes written, of the size
    [BlockLength] announces, are delimited by the common header's parser and
    parsed into the same sender, timestamp and packets, each received packet
    with its ECN marking and its arrival offset rounded to the 13-bit field,
    each lost one as lost. *)
Theorem ccfb_roundtrip (c : Ccfb) (runs : list Run) (h0 : RtcpCommonHeader)
    (rest : list Z) :
  report_of c runs -> CcfbBlockLength c <= 4 * 65535 ->
  zlen (report_block c runs) = CcfbBlockLength c /\
  ('(ok, h) ← Parse h0 (report_block c runs ++ rest) (zlen (report_block c runs ++ rest));
   '(ok', c') ← ParseCcfb (mkCcfb 0 [] 0) h;
   Some (ok, packet_type_ h, count_or_format_ h, packet_size h, ok', c'))
  = Some (true, RTPFB, 11, CcfbBlockLength c, true,
          mkCcfb (cc_sender_ssrc c) (map decoded (packets_ c))
                 (report_timestamp_compact_ntp_ c)).
Proof. intros Hrep Hsz. exact (report_decodes c runs h0 rest Hrep Hsz). Qed.

Definition example_run : Run :=
  mkRun 7 65535 [(500000, kEct1); (MinusInfinity, kNotEct); (PlusInfinity - 1, kCe)].

Definition example_report : Ccfb :=
  mkCcfb 3 (expand example_run ++ expand (mkRun 9 4 [(-5, kEct0)])) 77.

Lemma ccfb_roundtrip_witness :
  CcfbBlockLength example_report = 40 /\
  ('(ok, h) ← Parse empty_header (report_block example_report [example_run; mkRun 9 4 [(-5, kEct0)]] ++ [])
                (zlen (report_block example_report [example_run; mkRun 9 4 [(-5, kEct0)]] ++ []));
   '(ok', c') ← ParseCcfb (mkCcfb 0 [] 0) h;
   Some (ok, packet_type_ h, count_or_format_ h, packet_size h, ok', c'))
  = Some (true, 205, 11, 40, true, mkCcfb 3
      [mkInfo 7 65535 500000 kEct1; mkInfo 7 0 MinusInfinity kNotEct;
       mkInfo 7 1 PlusInfinity kCe; mkInfo 9 4 MinusInfinity kEct0] 77).
Proof.
  destruct (ccfb_roundtrip example_report [example_run; mkRun 9 4 [(-5, kEct0)]]
    empty_header []) as [H1 H2].
  - split_and!; [reflexivity| | |split; vm_compute; congruence|split; vm_compute; congruence].
    + repeat (apply Forall_cons; [|]); try apply Forall_nil.
      * split_and!; [split; vm_compute; congruence|split; vm_compute; congruence|
          vm_compute; reflexivity|vm_compute; congruence|].
        repeat (apply Forall_cons; [vm_compute; intros _; eexists; reflexivity|]).
        apply Forall_nil.
      * split_and!; [split; vm_compute; congruence|split; vm_compute; congruence|
          vm_compute; reflexivity|vm_compute; congruence|].
        apply Forall_cons; [vm_compute; intros _; eexists; reflexivity|].
        apply Forall_nil.
    + split; [vm_compute; congruence|exact I].
  - vm_compute. congruence.
  - split; [vm_compute; reflexivity|]. etransitivity; [exact H2|vm_compute; reflexivity].
Defined.
