(* ===== verification/RtcpDispatch.v ===== *)
(** * Reception of compound RTCP packets

    [IceTransport::ParseRtcpPacket] of [src/transport/ice_transport.cpp] and its
    handlers: a datagram is cut into blocks, each block is parsed by its type
    and its content handed to the transport controller, whose calls are
    recorded as events.  The [k]-th report block is timed by the [k]-th reading
    of the clock. *)

From S2P Require Import Prelude ByteIO Units Rtcp RtcpFeedback Ccfb.

(** The calls on [ice_transport_controller_]. *)
Inductive Event :=
| OnSenderReport (info : SenderInfo) (reports : list RtcpReportBlock)
| OnReceiverReport (report_block_datas : list RtcpReportBlock)
| OnCongestionControlFeedback (feedback : Ccfb)
| OnReceiveNack (media_ssrc : Z) (packet_ids : list Z)
| FullIntraRequest (ssrc : Z).

(** src/rtcp/rtcp_packet/rtcp_packet_info.h:23-36 [RtcpPacketInfo] *)
Record RtcpPacketInfo := mkPacketInfo {
  remote_ssrc : Z;
  report_block_datas : list RtcpReportBlock;
  rtt : option Z;
}.

Section dispatch.
(** Whether [ice_transport_controller_] is set; the clock: its offset, and the
    readings (monotonic and UTC nanoseconds). *)
Context (controller : bool).
Context (monotonic_to_utc_offset_us : Z).
Context (clock : nat -> Z * Z).

(** The information gathered, and the calls made so far. *)
Record Reception := mkReception {
  info_ : RtcpPacketInfo;
  events_ : list Event;
}.

Definition emit (e : Event) (r : Reception) : Reception :=
  if controller then mkReception (info_ r) (events_ r ++ [e]) else r.

(** src/transport/ice_transport.cpp:688-712 [IceTransport::HandleReportBlock] *)
Definition HandleReportBlock (rtcp_report_block : RtcpReportBlock)
    (info : RtcpPacketInfo) (remote : Z) : RtcpPacketInfo :=
  let '(mono_ns, utc_ns) := clock (length (report_block_datas info)) in
  let now_us := CurrentTimeUs mono_ns in
  let now_ntp := MonotonicTimeUsToNtp monotonic_to_utc_offset_us now_us in
  let data := SetReportBlock empty_block remote rtcp_report_block
                (NtpToUtcTimeUs (CurrentUtcTimeUs utc_ns) now_ntp) now_us in
  let send_time_ntp := last_sr_ rtcp_report_block in
  if negb (send_time_ntp =? 0) then
    let delay_ntp := delay_since_last_sr_ rtcp_report_block in
    let receive_time_ntp := CompactNtp now_ntp in
    let rtt_ntp := u32 (receive_time_ntp - delay_ntp - send_time_ntp) in
    let rtt_ms := CompactNtpIntervalToMilliseconds rtt_ntp in
    mkPacketInfo (remote_ssrc info)
      (report_block_datas info ++ [AddRoundTripTimeSample data rtt_ms])
      (Some rtt_ms)
  else mkPacketInfo (remote_ssrc info) (report_block_datas info ++ [data]) (rtt info).

(** src/transport/ice_transport.cpp:714-725 [IceTransport::HandleSenderReport] *)
Definition HandleSenderReport (h : RtcpCommonHeader) (r : Reception)
    : option (bool * Reception) :=
  '(ok, sr) ← ParseSR (mkSR 0 empty_header (mkSenderInfo 0 0 0 0 0 0) [] [] 0) h;
  if negb ok then Some (false, r)
  else Some (true, emit (OnSenderReport (sender_info_ sr) (sr_reports_ sr)) r).

(** src/transport/ice_transport.cpp:727-743 [IceTransport::HandleReceiverReport] *)
Definition HandleReceiverReport (h : RtcpCommonHeader) (r : Reception)
    : option (bool * Reception) :=
  '(n, rr) ← ParseRR (mkRR 0 empty_header [] [] 0) h;
  if n =? 0 then Some (false, r) else
  let remote := rr_sender_ssrc_ rr in
  let info := mkPacketInfo remote (report_block_datas (info_ r)) (rtt (info_ r)) in
  let info := foldl (fun i b => HandleReportBlock b i remote) info (rr_reports_ rr) in
  Some (true, mkReception info (events_ r)).

(** src/transport/ice_transport.cpp:745-761 [IceTransport::HandleCongestionControlFeedback] *)
Definition HandleCongestionControlFeedback (h : RtcpCommonHeader) (r : Reception)
    : option (bool * Reception) :=
  '(ok, feedback) ← ParseCcfb (mkCcfb 0 [] 0) h;
  if negb ok || (zlen (packets_ feedback) =? 0) then Some (false, r)
  else Some (true, emit (OnCongestionControlFeedback feedback) r).

(** src/transport/ice_transport.cpp:763-777 [IceTransport::HandleNack] *)
Definition HandleNack (h : RtcpCommonHeader) (r : Reception)
    : option (bool * Reception) :=
  '(ok, nack) ← ParseNack (mkNack 0 0 [] []) h;
  if negb ok then Some (false, r) else
  if controller
  then Some (true, emit (OnReceiveNack (nack_media_ssrc nack) (packet_ids_ nack)) r)
  else Some (false, r).

(** src/transport/ice_transport.cpp:779-794 [IceTransport::HandleFir] *)
Definition HandleFir (h : RtcpCommonHeader) (r : Reception)
    : option (bool * Reception) :=
  '(ok, fir) ← ParseFir (mkFir 0 0 []) h;
  if negb ok then Some (false, r) else
  if controller
  then Some (true, foldl (fun r q => emit (FullIntraRequest (req_ssrc q)) r) r (items_ fir))
  else Some (false, r).

(** src/transport/ice_transport.cpp:645-674 [IceTransport::ParseRtcpPacket] *)
Definition HandleBlock (h : RtcpCommonHeader) (r : Reception)
    : option (bool * Reception) :=
  let type := packet_type_ h in
  let fmt := count_or_format_ h in
  if type =? 200 then HandleSenderReport h r
  else if type =? 201 then HandleReceiverReport h r
  else if type =? 205 then
    if fmt =? 11 then HandleCongestionControlFeedback h r
    else if fmt =? 1 then HandleNack h r
    else Some (true, r)
  else if type =? 206 then
    if fmt =? 4 then HandleFir h r else Some (true, r)
  else Some (true, r).

(** src/transport/ice_transport.cpp:633-686 [IceTransport::ParseRtcpPacket] *)
Fixpoint parse_blocks_loop (fuel : nat) (next_block : list Z) (remaining : Z)
    (valid : bool) (r : Reception) : option (bool * Reception) :=
  match fuel with
  | O => None
  | S fuel' =>
      if 0 <? remaining then
        '(parsed, h) ← Parse empty_header next_block remaining;
        if negb parsed then Some (false, r) else
        let block_size := packet_size h in
        if (block_size =? 0) || (remaining <? block_size) then Some (false, r) else
        '(block_valid, r) ← HandleBlock h r;
        parse_blocks_loop fuel' (NextPacket h) (remaining - block_size)
          (valid && block_valid) r
      else
        let datas := report_block_datas (info_ r) in
        if valid && controller && negb (zlen datas =? 0)
        then Some (valid, emit (OnReceiverReport datas) r)
        else Some (valid, r)
  end.

(** src/transport/ice_transport.cpp:627-686 [IceTransport::ParseRtcpPacket] *)
Definition ParseRtcpPacket (buffer : list Z) (r : Reception)
    : option (bool * Reception) :=
  if zlen buffer =? 0 then Some (false, r)
  else parse_blocks_loop (S (length buffer)) buffer (zlen buffer) true r.
End dispatch.

(** ** Lemmas: handlers are total on what the header's parser accepts *)

Section dispatch_lemmas.
Context (controller : bool) (offset : Z) (clock : nat -> Z * Z).
Abbreviation HandleBlock' := (HandleBlock controller offset clock).
Abbreviation loop := (parse_blocks_loop controller offset clock).

Lemma ParseSR_safe sr h size :
  header_in h size -> exists ok sr', ParseSR sr h = Some (ok, sr').
Proof.
  intros ((Hc0 & Hc1) & _ & Hp0 & Hpad & Hsz & Hz & Hb). unfold ParseSR.
  unfold packet_size, DEFAULT_SR_SIZE, kLength, kHeaderSizeBytes in *. cbv zeta.
  case_if; [eauto|]. unfold read_u32.
  rewrite !ReadBigEndian_Some by (done || lia). cbn [mbind option_bind].
  rewrite !ReadBigEndian_Some by (done || lia). cbn [mbind option_bind].
  rewrite !ReadBigEndian_Some by (done || lia). cbn [mbind option_bind].
  rewrite !ReadBigEndian_Some by (done || lia). cbn [mbind option_bind].
  rewrite !ReadBigEndian_Some by (done || lia). cbn [mbind option_bind].
  rewrite !ReadBigEndian_Some by (done || lia). cbn [mbind option_bind].
  destruct (parse_blocks_safe (Z.to_nat (count_or_format_ h)) (payload_ h)
    (0 + 4 + 4 + 4 + 4 + 4 + 4) []) as (bs & -> & _); [done|lia|lia|].
  cbn [mbind option_bind]. eauto.
Qed.

Lemma ParseRR_safe rr h size :
  header_in h size -> exists n rr', ParseRR rr h = Some (n, rr').
Proof.
  intros ((Hc0 & Hc1) & _ & Hp0 & Hpad & Hsz & Hz & Hb). unfold ParseRR.
  unfold packet_size, DEFAULT_RR_SIZE, kLength, kHeaderSizeBytes in *. cbv zeta.
  case_if; [eauto|].
  rewrite !ReadBigEndian_Some by (done || lia). cbn [mbind option_bind].
  destruct (parse_blocks_safe (Z.to_nat (count_or_format_ h)) (payload_ h) 4 [])
    as (bs & -> & _); [done|lia|lia|].
  cbn [mbind option_bind]. eauto.
Qed.

Lemma ParseNack_safe n h size :
  header_in h size -> exists ok n', ParseNack n h = Some (ok, n').
Proof.
  intros (_ & _ & Hp0 & Hpad & Hsz & Hz & Hb). unfold ParseNack.
  unfold packet_size, kHeaderSizeBytes in *. cbv zeta. case_if; [eauto|].
  destruct (ParseCommonFeedback_safe (payload_ h) Hb) as (s & m & ->); [lia|].
  cbn [mbind option_bind].
  destruct (parse_items_safe (Z.to_nat ((payload_size_ h - 8) / 4)) (payload_ h) 8)
    as (items & -> & _); [done|lia|zdm|].
  cbn [mbind option_bind]. eauto.
Qed.

Lemma ParseFir_safe f h size :
  header_in h size -> exists ok f', ParseFir f h = Some (ok, f').
Proof.
  intros (_ & _ & Hp0 & Hpad & Hsz & Hz & Hb). unfold ParseFir.
  unfold packet_size, kHeaderSizeBytes in *. case_if; [eauto|].
  destruct (negb _); [eauto|].
  destruct (ParseCommonFeedback_safe (payload_ h) Hb) as (s & m & ->); [lia|].
  cbn [mbind option_bind]. cbv zeta.
  destruct (parse_requests_safe (Z.to_nat ((payload_size_ h - 8) / 8)) (payload_ h) 8)
    as (items & -> & _); [done|lia|zdm|].
  cbn [mbind option_bind]. eauto.
Qed.

Lemma ParseCcfb_safe c h size :
  header_in h size -> exists ok c', ParseCcfb c h = Some (ok, c').
Proof.
  intros (_ & _ & Hp0 & Hpad & Hsz & Hz & Hb). unfold ParseCcfb.
  unfold packet_size, kHeaderSizeBytes in *. cbv zeta.
  destruct (negb _ || _) eqn:E; [eauto|]. b2p.
  rewrite !ReadBigEndian_Some by (done || lia). cbn [mbind option_bind].
  destruct (parse_reports_safe (Z.to_nat (payload_size_ h)) (payload_ h) 4
    (payload_size_ h - 4) (packets_ c)) as (ok & ps & ->); [done|lia|lia|lia|lia|].
  cbn [mbind option_bind]. eauto.
Qed.

Lemma HandleBlock_safe h size r :
  header_in h size -> exists ok r', HandleBlock' h r = Some (ok, r').
Proof.
  intros H. unfold HandleBlock. cbv zeta.
  unfold HandleSenderReport, HandleReceiverReport, HandleCongestionControlFeedback,
    HandleNack, HandleFir.
  destruct (_ =? 200).
  { destruct (ParseSR_safe (mkSR 0 empty_header (mkSenderInfo 0 0 0 0 0 0) [] [] 0) h size H)
      as (ok & x & ->). cbn [mbind option_bind]. destruct (negb ok); eauto. }
  destruct (_ =? 201).
  { destruct (ParseRR_safe (mkRR 0 empty_header [] [] 0) h size H) as (ok & x & ->).
    cbn [mbind option_bind]. destruct (ok =? 0); eauto. }
  destruct (_ =? 205).
  { destruct (_ =? 11).
    { destruct (ParseCcfb_safe (mkCcfb 0 [] 0) h size H) as (ok & x & ->).
      cbn [mbind option_bind]. destruct (_ || _); eauto. }
    destruct (_ =? 1); [|eauto].
    destruct (ParseNack_safe (mkNack 0 0 [] []) h size H) as (ok & x & ->).
    cbn [mbind option_bind]. destruct (negb ok); [eauto|]. destruct controller; eauto. }
  destruct (_ =? 206); [|eauto]. destruct (_ =? 4); [|eauto].
  destruct (ParseFir_safe (mkFir 0 0 []) h size H) as (ok & x & ->).
  cbn [mbind option_bind]. destruct (negb ok); [eauto|]. destruct controller; eauto.
Qed.

(** The loop ends on any bytes: a block takes at least the four bytes of its
    header. *)
Lemma loop_safe fuel : forall next remaining valid r,
  bytes next -> remaining <= zlen next -> remaining < Z.of_nat fuel ->
  0 < Z.of_nat fuel ->
  exists ok r', loop fuel next remaining valid r = Some (ok, r').
Proof.
  induction fuel as [|fuel IH]; intros next remaining valid r Hb Hr Hf Hf0; [lia|].
  cbn [parse_blocks_loop]. case_if; [|cbv zeta; destruct (_ && _); eauto].
  destruct (Parse_safe empty_header next remaining Hb Hr) as (ok & h & -> & Hok).
  cbn [mbind option_bind]. destruct ok; [|cbn; eauto]. cbn [negb]. cbv zeta.
  destruct (Hok eq_refl) as [Hin Hpl].
  pose proof Hin as (_ & _ & Hp0 & Hpad & Hsz & Hz & Hbp).
  destruct (_ || _); [eauto|].
  destruct (HandleBlock_safe h remaining r Hin) as (bv & r' & ->). cbn [mbind option_bind].
  unfold packet_size, kHeaderSizeBytes in *.
  apply IH; [|unfold NextPacket; rewrite Hpl in *; len|lia|lia].
  unfold NextPacket. auto with rtc.
Qed.
End dispatch_lemmas.

(** ** Lemmas: what each serialised message does when it is received *)

(** The messages the program serialises. *)
Inductive Msg :=
| MSenderReport (sr : SenderReport)
| MReceiverReport (rr : ReceiverReport)
| MNack (n : Nack) (items : list PackedNack)
| MFir (f : Fir)
| MCcfb (c : Ccfb) (runs : list Run).

Definition msg_wf (m : Msg) : Prop :=
  match m with
  | MSenderReport sr =>
      info_ok (sender_info_ sr) /\ Forall block_ok (sr_reports_ sr) /\
      zlen (sr_reports_ sr) <= 31
  | MReceiverReport rr =>
      is_u32 (rr_sender_ssrc_ rr) /\ Forall block_ok (rr_reports_ rr) /\
      zlen (rr_reports_ rr) <= 31
  | MNack n items =>
      is_u32 (nack_sender_ssrc n) /\ is_u32 (nack_media_ssrc n) /\
      Forall item_ok items /\ 0 < zlen items <= 65533
  | MFir f =>
      is_u32 (fir_sender_ssrc f) /\ is_u32 (fir_media_ssrc f) /\
      Forall request_ok (items_ f) /\ 0 < zlen (items_ f) <= 32766
  | MCcfb c runs =>
      report_of c runs /\ 0 < zlen (packets_ c) /\ CcfbBlockLength c <= 4 * 65535
  end.

Definition msg_bytes (m : Msg) : list Z :=
  match m with
  | MSenderReport sr => sr_bytes sr
  | MReceiverReport rr => rr_bytes rr
  | MNack n items => nack_block n items
  | MFir f => fir_block f
  | MCcfb c runs => report_block c runs
  end.

Section receive.
Context (offset : Z) (clock : nat -> Z * Z).

(** The intended effect of a message on the receiver. *)
Definition msg_effect (r : Reception) (m : Msg) : Reception :=
  match m with
  | MSenderReport sr =>
      emit true (OnSenderReport (sender_info_ sr) (map wire_block (sr_reports_ sr))) r
  | MReceiverReport rr =>
      mkReception
        (foldl (fun i b => HandleReportBlock offset clock b i (rr_sender_ssrc_ rr))
           (mkPacketInfo (rr_sender_ssrc_ rr) (report_block_datas (info_ r)) (rtt (info_ r)))
           (map wire_block (rr_reports_ rr)))
        (events_ r)
  | MNack n items => emit true (OnReceiveNack (nack_media_ssrc n) (Unpack items [])) r
  | MFir f => foldl (fun r q => emit true (FullIntraRequest (req_ssrc q)) r) r (items_ f)
  | MCcfb c runs =>
      emit true (OnCongestionControlFeedback
        (mkCcfb (cc_sender_ssrc c) (map decoded (packets_ c))
           (report_timestamp_compact_ntp_ c))) r
  end.

Definition finish (r : Reception) : Reception :=
  if negb (zlen (report_block_datas (info_ r)) =? 0)
  then emit true (OnReceiverReport (report_block_datas (info_ r))) r else r.

Lemma sr_body_zlen sr :
  zlen (info_bytes (sender_info_ sr) ++ flat_map block_bytes (sr_reports_ sr))
  = (6 + 6 * zlen (sr_reports_ sr)) * 4.
Proof. unfold info_bytes. rewrite !zlen_app, flat_blocks_zlen, !be_bytes_zlen. lia. Qed.

Lemma rr_body_zlen rr :
  zlen (be_bytes 4 (rr_sender_ssrc_ rr) ++ flat_map block_bytes (rr_reports_ rr))
  = (1 + 6 * zlen (rr_reports_ rr)) * 4.
Proof. rewrite zlen_app, flat_blocks_zlen, be_bytes_zlen. lia. Qed.

(** One block at the head of the datagram. *)
Lemma msg_step m rest r :
  msg_wf m ->
  exists h, Parse empty_header (msg_bytes m ++ rest) (zlen (msg_bytes m ++ rest)) = Some (true, h) /\
    packet_size h = zlen (msg_bytes m) /\ NextPacket h = rest /\
    HandleBlock true offset clock h r = Some (true, msg_effect r m).
Proof.
  destruct m as [sr|rr|n items|f|c runs]; cbn [msg_bytes msg_wf msg_effect].
  - intros (Hi & Hb & Hn). unfold sr_bytes. cbv zeta.
    pose proof (zlen_nonneg (sr_reports_ sr)).
    destruct (Parse_block empty_header (zlen (sr_reports_ sr)) 200
      (6 + 6 * zlen (sr_reports_ sr)) _ rest ltac:(lia)
      ltac:(done) ltac:(lia) (sr_body_zlen sr)) as (Hp & Hsz & Hnx).
    eexists. split_and!; [exact Hp|exact Hsz|exact Hnx|].
    unfold HandleBlock, HandleSenderReport. cbn [packet_type_ count_or_format_ Z.eqb Pos.eqb].
    erewrite ParseSR_read; [|exact Hi|exact Hb|cbn [payload_]; by rewrite <- app_assoc|
      cbn [payload_size_]; lia|done].
    done.
  - intros (Hi & Hb & Hn). unfold rr_bytes. cbv zeta.
    pose proof (zlen_nonneg (rr_reports_ rr)).
    destruct (Parse_block empty_header (zlen (rr_reports_ rr)) 201
      (1 + 6 * zlen (rr_reports_ rr)) _ rest ltac:(lia)
      ltac:(done) ltac:(lia) (rr_body_zlen rr)) as (Hp & Hsz & Hnx).
    eexists. split_and!; [exact Hp|exact Hsz|exact Hnx|].
    unfold HandleBlock, HandleReceiverReport. cbn [packet_type_ count_or_format_ Z.eqb Pos.eqb].
    erewrite ParseRR_read; [|exact Hi|exact Hb|cbn [payload_]; by rewrite <- app_assoc|
      cbn [payload_size_]; lia|done].
    cbn [mbind option_bind]. by replace (_ =? 0) with false by lia.
  - intros (Hs & Hm & Hi & Hn). unfold nack_block.
    destruct (Parse_block empty_header NACK_FMT RTPFB (2 + zlen items) _ rest ltac:(done)
      ltac:(done) ltac:(lia) (nack_body_zlen n items)) as (Hp & Hsz & Hnx).
    eexists. split_and!; [exact Hp|exact Hsz|exact Hnx|].
    unfold HandleBlock, HandleNack. cbn [packet_type_ count_or_format_ NACK_FMT RTPFB Z.eqb Pos.eqb].
    erewrite ParseNack_read; [|exact Hs|exact Hm|exact Hi|lia|
      cbn [payload_]; by rewrite <- !app_assoc|cbn [payload_size_]; lia].
    done.
  - intros (Hs & Hm & Hi & Hn). unfold fir_block.
    destruct (Parse_block empty_header FIR_FMT PSFB (2 + 2 * zlen (items_ f)) _ rest ltac:(done)
      ltac:(done) ltac:(lia) (fir_body_zlen f)) as (Hp & Hsz & Hnx).
    eexists. split_and!; [exact Hp|exact Hsz|exact Hnx|].
    unfold HandleBlock, HandleFir. cbn [packet_type_ count_or_format_ FIR_FMT PSFB Z.eqb Pos.eqb].
    erewrite ParseFir_read; [|exact Hs|exact Hm|exact Hi|lia|
      cbn [payload_]; by rewrite <- !app_assoc|cbn [payload_size_]; lia].
    done.
  - intros (Hrep & Hn & Hsz0). unfold report_block, ccfb_block.
    pose proof (CcfbBlockLength_report c runs Hrep) as Hbl.
    pose proof (zlen_nonneg (flat_map run_bytes runs)). pose proof (runs_mod4 runs).
    destruct (Parse_block empty_header 11 RTPFB (2 + zlen (flat_map run_bytes runs) / 4) _ rest
      ltac:(done) ltac:(done) ltac:(zdm) (ccfb_body_zlen c runs)) as (Hp & Hsz & Hnx).
    eexists. split_and!; [exact Hp|exact Hsz|exact Hnx|].
    unfold HandleBlock, HandleCongestionControlFeedback.
    cbn [packet_type_ count_or_format_ RTPFB Z.eqb Pos.eqb].
    erewrite ParseCcfb_read; [|exact Hrep|cbn [payload_]; by rewrite <- !app_assoc|
      cbn [payload_size_]; zdm].
    cbn [mbind option_bind packets_ negb orb].
    replace (zlen (map decoded (packets_ c)) =? 0) with false
      by (unfold zlen in *; rewrite length_map; lia).
    done.
Qed.

Lemma msg_bytes_pos m : msg_wf m -> 4 <= zlen (msg_bytes m).
Proof.
  intros _. destruct m; cbn [msg_bytes]; unfold sr_bytes, rr_bytes, nack_block, fir_block,
    report_block, ccfb_block; cbv zeta;
    rewrite zlen_app; match goal with |- _ <= _ + zlen ?l => pose proof (zlen_nonneg l) end;
    match goal with |- context [zlen (header_bytes ?a ?b ?c)] =>
      change (zlen (header_bytes a b c)) with 4 end; lia.
Qed.

Lemma loop_messages ms : forall fuel r,
  Forall msg_wf ms -> (length ms < fuel)%nat ->
  parse_blocks_loop true offset clock fuel (flat_map msg_bytes ms)
    (zlen (flat_map msg_bytes ms)) true r
  = Some (true, finish (foldl msg_effect r ms)).
Proof.
  induction ms as [|m ms IH]; intros fuel r Hwf Hf; (destruct fuel as [|fuel]; [lia|]);
    cbn [parse_blocks_loop flat_map foldl].
  - cbn. unfold finish. by destruct (negb _).
  - apply Forall_cons_1 in Hwf as [Hm Hwf].
    pose proof (msg_bytes_pos m Hm) as Hpos.
    pose proof (zlen_nonneg (flat_map msg_bytes ms)).
    destruct (msg_step m (flat_map msg_bytes ms) r Hm) as (h & Hp & Hsz & Hnx & Hh).
    rewrite Hp. rewrite (zlen_app (msg_bytes m)).
    replace (0 <? _) with true by lia. cbn [mbind option_bind negb]. cbv zeta.
    rewrite Hsz.
    replace (_ || _) with false by lia. rewrite Hh. cbn [mbind option_bind andb].
    rewrite Hnx.
    replace (zlen (msg_bytes m) + zlen (flat_map msg_bytes ms) - zlen (msg_bytes m))
      with (zlen (flat_map msg_bytes ms)) by lia.
    apply IH; [done|cbn in Hf; lia].
Qed.
End receive.

(** ** Properties *)

(** C2. Reception of compound packets is total: on any bytes whatever,
    malformed or hostile, parsing ends and reads nothing outside the datagram,
    with or without a controller. *)
Theorem rtcp_reception_total (controller : bool) (offset : Z)
    (clock : nat -> Z * Z) (buffer : list Z) (r : Reception) :
  bytes buffer ->
  exists ok r', ParseRtcpPacket controller offset clock buffer r = Some (ok, r').
Proof.
  intros Hb. unfold ParseRtcpPacket. destruct (_ =? 0); [eauto|].
  apply loop_safe; [done|lia|unfold zlen; lia|lia].
Qed.

Lemma rtcp_reception_total_witness :
  exists ok r',
    ParseRtcpPacket true 0 (fun _ => (0, 0)) [0x80; 205; 0; 9; 1]
      (mkReception (mkPacketInfo 0 [] None) []) = Some (ok, r') /\ ok = false.
Proof.
  destruct (rtcp_reception_total true 0 (fun _ => (0, 0)) [0x80; 205; 0; 9; 1]
    (mkReception (mkPacketInfo 0 [] None) [])
    ltac:(repeat constructor; unfold is_u8; lia)) as (ok & r' & H).
  exists ok, r'. split; [exact H|]. vm_compute in H. by injection H as <- _.
Defined.

(** C3. End to end: any sequence of serialised messages (sender and receiver
    reports, NACKs, intra requests, congestion control feedback) packed into
    one datagram is received as exactly that sequence: each message has its
    intended effect, in order, and the report blocks gathered are reported once
    at the end. *)
Theorem rtcp_reception_faithful (offset : Z) (clock : nat -> Z * Z)
    (ms : list Msg) (r : Reception) :
  Forall msg_wf ms -> ms <> [] ->
  ParseRtcpPacket true offset clock (flat_map msg_bytes ms) r
  = Some (true, finish (foldl (msg_effect offset clock) r ms)).
Proof.
  intros Hwf Hne. unfold ParseRtcpPacket.
  assert (zlen ms <= zlen (flat_map msg_bytes ms)) as Hl.
  { clear Hne. induction Hwf as [|m ms Hm _ IH]; [done|]. cbn [flat_map].
    rewrite zlen_app, zlen_cons. pose proof (msg_bytes_pos m Hm). lia. }
  destruct ms as [|m ms]; [done|].
  replace (zlen (flat_map msg_bytes (m :: ms)) =? 0) with false
    by (rewrite zlen_cons in Hl; pose proof (zlen_nonneg ms); lia).
  apply loop_messages; [done|unfold zlen in Hl; lia].
Qed.

Definition example_msgs : list Msg :=
  [MReceiverReport (mkRR 7 empty_header
     [mkBlock 0 9 0 (-2) 70000 1 0x7E800000 0x8000 0 0 0 0 0] [] 0);
   MNack example_nack [mkPacked 10 3]; MFir example_fir].

(** The receiver's clock is at NTP second 0x83AA7E81. *)
Lemma rtcp_reception_faithful_witness :
  exists datas,
    option_map (fun p => (fst p, rtt (info_ (snd p)), events_ (snd p)))
      (ParseRtcpPacket true 0 (fun _ => (1000000000, 1000000000))
         (flat_map msg_bytes example_msgs)
         (mkReception (mkPacketInfo 0 [] None) []))
    = Some (true, Some 500,
        [OnReceiveNack 2 [10; 11; 12]; FullIntraRequest 9; OnReceiverReport datas]).
Proof.
  rewrite (rtcp_reception_faithful 0 (fun _ => (1000000000, 1000000000)) example_msgs).
  - eexists. vm_compute. reflexivity.
  - repeat (apply Forall_cons; [repeat (split || constructor); vm_compute; congruence|]).
    apply Forall_nil.
  - discriminate.
Defined.

(** The round trip time of a report block is the time since the sender
    report it answers was sent, less the delay the peer reports, to half a
    millisecond, however the 32-bit compact NTP time has wrapped in between;
    without a sender report there is no sample.  But when the delay exceeds the
    elapsed time by even 1/65536 s the unsigned difference is taken as 18
    hours. *)
Theorem report_block_rtt (offset : Z) (clock : nat -> Z * Z) (b : RtcpReportBlock)
    (info : RtcpPacketInfo) (remote ntp_sent ntp_now : Z) :
  0 <= ntp_sent -> 0 <= ntp_now ->
  ntp_now = MonotonicTimeUsToNtp offset
              (CurrentTimeUs (clock (length (report_block_datas info))).1) ->
  last_sr_ b = CompactNtp ntp_sent ->
  let info' := HandleReportBlock offset clock b info remote in
  let elapsed := ntp_now / 65536 - ntp_sent / 65536 - delay_since_last_sr_ b in
  length (report_block_datas info') = S (length (report_block_datas info)) /\
  (last_sr_ b = 0 -> rtt info' = rtt info) /\
  (last_sr_ b <> 0 -> 0 <= elapsed < 2 ^ 32 ->
     exists ms, rtt info' = Some ms /\ 2 * Z.abs (ms * 65536 - elapsed * 1000) <= 65536) /\
  (last_sr_ b <> 0 -> elapsed = -1 -> rtt info' = Some (65536 * 1000)).
Proof.
  intros Hs Hn Hnow Hsr. cbv zeta. unfold HandleReportBlock.
  destruct (clock _) as [mono_ns utc_ns]. cbn [fst] in Hnow. cbv zeta. rewrite <- Hnow.
  destruct (Z.eqb_spec (last_sr_ b) 0) as [E|E]; cbn [negb].
  { cbn. rewrite length_app. cbn. split_and!; [lia|done|done|done]. }
  rewrite Hsr. rewrite !CompactNtp_spec by done.
  set (e := ntp_now / 65536 - ntp_sent / 65536 - delay_since_last_sr_ b).
  assert (u32 (u32 (ntp_now / 65536) - delay_since_last_sr_ b - u32 (ntp_sent / 65536))
    = u32 e) as ->.
  { subst e. generalize (ntp_now / 65536), (ntp_sent / 65536). intros x y.
    unfold u32. zdm. }
  cbn [rtt report_block_datas]. rewrite length_app. cbn [length].
  split_and!; [lia|intros H0; destruct E; by rewrite Hsr, CompactNtp_spec| |].
  - intros _ He. eexists. split; [done|]. rewrite u32_id by done.
    unfold CompactNtpIntervalToMilliseconds. change (Z.shiftl 1 16) with 65536.
    clearbody e. zdm.
  - intros _ ->. reflexivity.
Qed.

Lemma report_block_rtt_witness :
  exists ms, rtt (HandleReportBlock 0 (fun _ => (1000000000, 1000000000))
    (mkBlock 0 9 0 0 0 0 0x7E800000 0x8000 0 0 0 0 0) (mkPacketInfo 0 [] None) 7) = Some ms
    /\ ms = 500.
Proof.
  destruct (report_block_rtt 0 (fun _ => (1000000000, 1000000000))
    (mkBlock 0 9 0 0 0 0 0x7E800000 0x8000 0 0 0 0 0) (mkPacketInfo 0 [] None) 7
    0x83AA7E8000000000 0x83AA7E8100000000 ltac:(lia) ltac:(lia)
    ltac:(reflexivity) ltac:(reflexivity)) as (_ & _ & H & _).
  destruct H as (ms & Hms & _); [discriminate|vm_compute; split; congruence|].
  exists ms. split; [exact Hms|]. vm_compute in Hms. by injection Hms.
Defined.
