(* ===== verification/RtpPacket.v ===== *)
(** * RTP packets

    [RtpPacket] of [src/rtp/rtp_packet/rtp_packet.cpp]: the parser of the fixed
    header, the contributing sources, the one-byte header extensions and the
    padding; the in-place update of the absolute send time and of the sequence
    number; and the retransmission packet ([BuildRtxPacket] of
    [src/rtp/rtp_packet/rtp_packet_to_send.cpp]).  [None] is an access outside
    the buffer. *)

From S2P Require Import Prelude ByteIO Rtcp.

(** src/rtp/rtp_packet/rtp_packet.h:234-239 [RtpPacket::Extension] *)
Record Extension := mkExt {
  ext_id : Z;
  ext_len : Z;
  data_offset : Z;
  ext_data : list Z;
}.

(** src/rtp/rtp_packet/rtp_packet.h:284-313 [RtpPacket] *)
Record RtpPacket := mkRtp {
  version_ : Z;
  has_padding_ : bool;
  has_extension_ : bool;
  csrc_count_ : Z;
  marker_ : bool;
  payload_type_ : Z;
  sequence_number_ : Z;
  timestamp_ : Z;
  ssrc_ : Z;
  csrcs_ : list Z;
  extension_profile_ : Z;
  extension_len_ : Z;
  extensions_ : list Extension;
  abs_send_time_ext_id_ : option Z;
  payload_offset_ : Z;
  payload_size_ : Z;
  padding_size_ : Z;
  buffer_ : list Z;
  size_ : Z;
}.

(** Assignments to the members. *)
(** src/rtp/rtp_packet/rtp_packet.h:201-201 [RtpPacket::SetVerion] *)
Definition set_version_ (v : Z) (p : RtpPacket) : RtpPacket :=
  mkRtp v (has_padding_ p) (has_extension_ p) (csrc_count_ p) (marker_ p)
    (payload_type_ p) (sequence_number_ p) (timestamp_ p) (ssrc_ p) (csrcs_
    p) (extension_profile_ p) (extension_len_ p) (extensions_ p)
    (abs_send_time_ext_id_ p) (payload_offset_ p) (payload_size_ p)
    (padding_size_ p) (buffer_ p) (size_ p).
(** src/rtp/rtp_packet/rtp_packet.h:202-202 [RtpPacket::SetHasPadding] *)
Definition set_has_padding_ (v : bool) (p : RtpPacket) : RtpPacket :=
  mkRtp (version_ p) v (has_extension_ p) (csrc_count_ p) (marker_ p)
    (payload_type_ p) (sequence_number_ p) (timestamp_ p) (ssrc_ p) (csrcs_
    p) (extension_profile_ p) (extension_len_ p) (extensions_ p)
    (abs_send_time_ext_id_ p) (payload_offset_ p) (payload_size_ p)
    (padding_size_ p) (buffer_ p) (size_ p).
(** src/rtp/rtp_packet/rtp_packet.h:203-203 [RtpPacket::SetHasExtension] *)
Definition set_has_extension_ (v : bool) (p : RtpPacket) : RtpPacket :=
  mkRtp (version_ p) (has_padding_ p) v (csrc_count_ p) (marker_ p)
    (payload_type_ p) (sequence_number_ p) (timestamp_ p) (ssrc_ p) (csrcs_
    p) (extension_profile_ p) (extension_len_ p) (extensions_ p)
    (abs_send_time_ext_id_ p) (payload_offset_ p) (payload_size_ p)
    (padding_size_ p) (buffer_ p) (size_ p).
Definition set_csrc_count_ (v : Z) (p : RtpPacket) : RtpPacket :=
  mkRtp (version_ p) (has_padding_ p) (has_extension_ p) v (marker_ p)
    (payload_type_ p) (sequence_number_ p) (timestamp_ p) (ssrc_ p) (csrcs_
    p) (extension_profile_ p) (extension_len_ p) (extensions_ p)
    (abs_send_time_ext_id_ p) (payload_offset_ p) (payload_size_ p)
    (padding_size_ p) (buffer_ p) (size_ p).
(** src/rtp/rtp_packet/rtp_packet.h:204-204 [RtpPacket::SetMarker] *)
Definition set_marker_ (v : bool) (p : RtpPacket) : RtpPacket :=
  mkRtp (version_ p) (has_padding_ p) (has_extension_ p) (csrc_count_ p) v
    (payload_type_ p) (sequence_number_ p) (timestamp_ p) (ssrc_ p) (csrcs_
    p) (extension_profile_ p) (extension_len_ p) (extensions_ p)
    (abs_send_time_ext_id_ p) (payload_offset_ p) (payload_size_ p)
    (padding_size_ p) (buffer_ p) (size_ p).
(** src/rtp/rtp_packet/rtp_packet.h:205-207 [RtpPacket::SetPayloadType] *)
Definition set_payload_type_ (v : Z) (p : RtpPacket) : RtpPacket :=
  mkRtp (version_ p) (has_padding_ p) (has_extension_ p) (csrc_count_ p)
    (marker_ p) v (sequence_number_ p) (timestamp_ p) (ssrc_ p) (csrcs_ p)
    (extension_profile_ p) (extension_len_ p) (extensions_ p)
    (abs_send_time_ext_id_ p) (payload_offset_ p) (payload_size_ p)
    (padding_size_ p) (buffer_ p) (size_ p).
(** src/rtp/rtp_packet/rtp_packet.h:208-210 [RtpPacket::SetSequenceNumber] *)
Definition set_sequence_number_ (v : Z) (p : RtpPacket) : RtpPacket :=
  mkRtp (version_ p) (has_padding_ p) (has_extension_ p) (csrc_count_ p)
    (marker_ p) (payload_type_ p) v (timestamp_ p) (ssrc_ p) (csrcs_ p)
    (extension_profile_ p) (extension_len_ p) (extensions_ p)
    (abs_send_time_ext_id_ p) (payload_offset_ p) (payload_size_ p)
    (padding_size_ p) (buffer_ p) (size_ p).
(** src/rtp/rtp_packet/rtp_packet.h:211-211 [RtpPacket::SetTimestamp] *)
Definition set_timestamp_ (v : Z) (p : RtpPacket) : RtpPacket :=
  mkRtp (version_ p) (has_padding_ p) (has_extension_ p) (csrc_count_ p)
    (marker_ p) (payload_type_ p) (sequence_number_ p) v (ssrc_ p) (csrcs_
    p) (extension_profile_ p) (extension_len_ p) (extensions_ p)
    (abs_send_time_ext_id_ p) (payload_offset_ p) (payload_size_ p)
    (padding_size_ p) (buffer_ p) (size_ p).
(** src/rtp/rtp_packet/rtp_packet.h:212-212 [RtpPacket::SetSsrc] *)
Definition set_ssrc_ (v : Z) (p : RtpPacket) : RtpPacket :=
  mkRtp (version_ p) (has_padding_ p) (has_extension_ p) (csrc_count_ p)
    (marker_ p) (payload_type_ p) (sequence_number_ p) (timestamp_ p) v
    (csrcs_ p) (extension_profile_ p) (extension_len_ p) (extensions_ p)
    (abs_send_time_ext_id_ p) (payload_offset_ p) (payload_size_ p)
    (padding_size_ p) (buffer_ p) (size_ p).
(** src/rtp/rtp_packet/rtp_packet.h:213-213 [RtpPacket::SetCsrcs] *)
Definition set_csrcs_ (v : list Z) (p : RtpPacket) : RtpPacket :=
  mkRtp (version_ p) (has_padding_ p) (has_extension_ p) (csrc_count_ p)
    (marker_ p) (payload_type_ p) (sequence_number_ p) (timestamp_ p) (ssrc_
    p) v (extension_profile_ p) (extension_len_ p) (extensions_ p)
    (abs_send_time_ext_id_ p) (payload_offset_ p) (payload_size_ p)
    (padding_size_ p) (buffer_ p) (size_ p).
Definition set_extension_profile_ (v : Z) (p : RtpPacket) : RtpPacket :=
  mkRtp (version_ p) (has_padding_ p) (has_extension_ p) (csrc_count_ p)
    (marker_ p) (payload_type_ p) (sequence_number_ p) (timestamp_ p) (ssrc_
    p) (csrcs_ p) v (extension_len_ p) (extensions_ p)
    (abs_send_time_ext_id_ p) (payload_offset_ p) (payload_size_ p)
    (padding_size_ p) (buffer_ p) (size_ p).
Definition set_extension_len_ (v : Z) (p : RtpPacket) : RtpPacket :=
  mkRtp (version_ p) (has_padding_ p) (has_extension_ p) (csrc_count_ p)
    (marker_ p) (payload_type_ p) (sequence_number_ p) (timestamp_ p) (ssrc_
    p) (csrcs_ p) (extension_profile_ p) v (extensions_ p)
    (abs_send_time_ext_id_ p) (payload_offset_ p) (payload_size_ p)
    (padding_size_ p) (buffer_ p) (size_ p).
Definition set_extensions_ (v : list Extension) (p : RtpPacket) : RtpPacket :=
  mkRtp (version_ p) (has_padding_ p) (has_extension_ p) (csrc_count_ p)
    (marker_ p) (payload_type_ p) (sequence_number_ p) (timestamp_ p) (ssrc_
    p) (csrcs_ p) (extension_profile_ p) (extension_len_ p) v
    (abs_send_time_ext_id_ p) (payload_offset_ p) (payload_size_ p)
    (padding_size_ p) (buffer_ p) (size_ p).
(** src/rtp/rtp_packet/rtp_packet.h:219-222 [RtpPacket::SetAbsoluteSendTimeExtensionId] *)
Definition set_abs_send_time_ext_id_ (v : option Z) (p : RtpPacket) : RtpPacket :=
  mkRtp (version_ p) (has_padding_ p) (has_extension_ p) (csrc_count_ p)
    (marker_ p) (payload_type_ p) (sequence_number_ p) (timestamp_ p) (ssrc_
    p) (csrcs_ p) (extension_profile_ p) (extension_len_ p) (extensions_ p)
    v (payload_offset_ p) (payload_size_ p) (padding_size_ p) (buffer_ p)
    (size_ p).
Definition set_payload_offset_ (v : Z) (p : RtpPacket) : RtpPacket :=
  mkRtp (version_ p) (has_padding_ p) (has_extension_ p) (csrc_count_ p)
    (marker_ p) (payload_type_ p) (sequence_number_ p) (timestamp_ p) (ssrc_
    p) (csrcs_ p) (extension_profile_ p) (extension_len_ p) (extensions_ p)
    (abs_send_time_ext_id_ p) v (payload_size_ p) (padding_size_ p) (buffer_
    p) (size_ p).
Definition set_payload_size_ (v : Z) (p : RtpPacket) : RtpPacket :=
  mkRtp (version_ p) (has_padding_ p) (has_extension_ p) (csrc_count_ p)
    (marker_ p) (payload_type_ p) (sequence_number_ p) (timestamp_ p) (ssrc_
    p) (csrcs_ p) (extension_profile_ p) (extension_len_ p) (extensions_ p)
    (abs_send_time_ext_id_ p) (payload_offset_ p) v (padding_size_ p)
    (buffer_ p) (size_ p).
Definition set_padding_size_ (v : Z) (p : RtpPacket) : RtpPacket :=
  mkRtp (version_ p) (has_padding_ p) (has_extension_ p) (csrc_count_ p)
    (marker_ p) (payload_type_ p) (sequence_number_ p) (timestamp_ p) (ssrc_
    p) (csrcs_ p) (extension_profile_ p) (extension_len_ p) (extensions_ p)
    (abs_send_time_ext_id_ p) (payload_offset_ p) (payload_size_ p) v
    (buffer_ p) (size_ p).
Definition set_buffer_ (v : list Z) (p : RtpPacket) : RtpPacket :=
  mkRtp (version_ p) (has_padding_ p) (has_extension_ p) (csrc_count_ p)
    (marker_ p) (payload_type_ p) (sequence_number_ p) (timestamp_ p) (ssrc_
    p) (csrcs_ p) (extension_profile_ p) (extension_len_ p) (extensions_ p)
    (abs_send_time_ext_id_ p) (payload_offset_ p) (payload_size_ p)
    (padding_size_ p) v (size_ p).
(** src/rtp/rtp_packet/rtp_packet.h:214-214 [RtpPacket::SetSize] *)
Definition set_size_ (v : Z) (p : RtpPacket) : RtpPacket :=
  mkRtp (version_ p) (has_padding_ p) (has_extension_ p) (csrc_count_ p)
    (marker_ p) (payload_type_ p) (sequence_number_ p) (timestamp_ p) (ssrc_
    p) (csrcs_ p) (extension_profile_ p) (extension_len_ p) (extensions_ p)
    (abs_send_time_ext_id_ p) (payload_offset_ p) (payload_size_ p)
    (padding_size_ p) (buffer_ p) v.

(** src/rtp/rtp_packet/rtp_packet.cpp:7-7 [RtpPacket::RtpPacket] *)
Definition new_packet : RtpPacket :=
  mkRtp 0 false false 0 false 0 1 0 0 [] 0 0 [] None 0 0 0 [] 0.

Definition kFixedHeaderSize : Z := 12.
Definition kRtpVersion : Z := 2.
Definition kMaxRtpCsrcSize : Z := 15.
Definition kOneByteExtensionProfileId : Z := 0xBEDE.

(** ** Parsing *)

(** The loop over [csrc_count_]. *)
Fixpoint parse_csrcs (n : nat) (buffer : list Z) (offset : Z) (csrcs : list Z)
    : option (list Z) :=
  match n with
  | O => Some csrcs
  | S n' =>
      csrc ← ReadBigEndian 4 buffer offset;
      parse_csrcs n' buffer (offset + 4) (csrcs ++ [csrc])
  end.

(** src/rtp/rtp_packet/rtp_packet.cpp:122-146 [RtpPacket::Parse] *)
Fixpoint parse_extensions (fuel : nat) (buffer : list Z) (offset extension_end : Z)
    (exts : list Extension) : option (bool * list Extension) :=
  match fuel with
  | O => None
  | S fuel' =>
      if offset <? extension_end then
        b ← rd buffer offset;
        let id := Z.shiftr b 4 in
        if id =? 0 then parse_extensions fuel' buffer (offset + 1) extension_end exts
        else if id =? 15 then Some (true, exts)
        else
          let len := Z.land b 0x0F + 1 in
          if extension_end <? offset + 1 + len then Some (false, exts) else
          data ← rd_range buffer (offset + 1) len;
          parse_extensions fuel' buffer (offset + (1 + len)) extension_end
            (exts ++ [mkExt id len (offset + 1) data])
      else Some (true, exts)
  end.

(** src/rtp/rtp_packet/rtp_packet.cpp:101-149 [RtpPacket::Parse] *)
Definition parse_extension_header (p : RtpPacket) (buffer : list Z) (size : Z)
    : option (bool * RtpPacket) :=
  if negb (has_extension_ p) then Some (true, p) else
  if size <? payload_offset_ p + 4 then Some (false, p) else
  profile ← ReadBigEndian 2 buffer (payload_offset_ p);
  len ← ReadBigEndian 2 buffer (payload_offset_ p + 2);
  let p := set_extension_profile_ profile (set_extension_len_ len p) in
  let p := set_payload_offset_ (payload_offset_ p + 4) p in
  if size <? payload_offset_ p + len * 4 then Some (false, p) else
  let total_ext_len := len * 4 in
  '(ok, p) ← (if profile =? kOneByteExtensionProfileId then
     '(ok, exts) ← parse_extensions (S (Z.to_nat total_ext_len)) buffer
        (payload_offset_ p) (payload_offset_ p + total_ext_len) (extensions_ p);
     Some (ok, set_extensions_ exts p)
   else Some (true, p));
  if negb ok then Some (false, p)
  else Some (true, set_payload_offset_ (payload_offset_ p + total_ext_len) p).

(** src/rtp/rtp_packet/rtp_packet.cpp:151-171 [RtpPacket::Parse] *)
Definition parse_padding (p : RtpPacket) (buffer : list Z) (size : Z)
    : option (bool * RtpPacket) :=
  p ← (if has_padding_ p && (payload_offset_ p <? size) then
         padding ← rd buffer (size - 1);
         if padding =? 0
         then Some (set_padding_size_ 0 (set_has_padding_ false p))
         else Some (set_padding_size_ padding p)
       else Some (set_padding_size_ 0 p));
  if size <? payload_offset_ p + padding_size_ p then Some (false, p)
  else Some (true, set_payload_size_ (size - payload_offset_ p - padding_size_ p) p).

(** src/rtp/rtp_packet/rtp_packet.cpp:34-172 [RtpPacket::Parse] *)
Definition Parse (p : RtpPacket) (buffer : list Z) (size : Z)
    : option (bool * RtpPacket) :=
  let p := set_payload_offset_ 0 (set_csrcs_ [] (set_extensions_ [] p)) in
  if size <? kFixedHeaderSize then Some (false, p) else
  b0 ← rd buffer 0;
  let p := set_version_ (Z.land (Z.shiftr b0 6) 0x03) p in
  if negb (version_ p =? kRtpVersion) then Some (false, p) else
  let p := set_has_padding_ (Z.odd (Z.shiftr b0 5)) p in
  let p := set_has_extension_ (Z.odd (Z.shiftr b0 4)) p in
  let p := set_csrc_count_ (Z.land b0 0x0f) p in
  if kMaxRtpCsrcSize <? csrc_count_ p then Some (false, p) else
  b1 ← rd buffer 1;
  let p := set_marker_ (Z.odd (Z.shiftr b1 7)) p in
  let p := set_payload_type_ (Z.land b1 0x7f) p in
  seq ← ReadBigEndian 2 buffer 2;
  ts ← ReadBigEndian 4 buffer 4;
  ssrc ← ReadBigEndian 4 buffer 8;
  let p := set_sequence_number_ seq (set_timestamp_ ts (set_ssrc_ ssrc p)) in
  let p := set_payload_offset_ kFixedHeaderSize p in
  if size <? kFixedHeaderSize + csrc_count_ p * 4 then Some (false, p) else
  csrcs ← parse_csrcs (Z.to_nat (csrc_count_ p)) buffer kFixedHeaderSize [];
  let p := set_csrcs_ csrcs p in
  let p := set_payload_offset_ (kFixedHeaderSize + csrc_count_ p * 4) p in
  if size <? payload_offset_ p then Some (false, p) else
  '(ok, p) ← parse_extension_header p buffer size;
  if negb ok then Some (false, p) else parse_padding p buffer size.

(** src/rtp/rtp_packet/rtp_packet.cpp:24-32 [RtpPacket::Build] *)
Definition Build (p : RtpPacket) (buffer : list Z) (size : Z)
    : option (bool * RtpPacket) :=
  '(ok, p) ← Parse p buffer size;
  if negb ok then Some (false, p) else
  data ← rd_range buffer 0 size;
  Some (true, set_size_ size (set_buffer_ data p)).

(** The bytes [Payload()] points to, [PayloadSize()] of them. *)
(** src/rtp/rtp_packet/rtp_packet.h:261-263 [RtpPacket::Payload] *)
Definition Payload (p : RtpPacket) : option (list Z) :=
  rd_range (buffer_ p) (payload_offset_ p) (payload_size_ p).

(** src/rtp/rtp_packet/rtp_packet.h:279-282 [RtpPacket::add_offset_to_payload] *)
Definition add_offset_to_payload (offset : Z) (p : RtpPacket) : RtpPacket :=
  set_payload_size_ (u64 (payload_size_ p - offset))
    (set_payload_offset_ (payload_offset_ p + offset) p).

(** src/rtp/rtp_packet/rtp_packet.h:224-231 [RtpPacket::UpdateSequenceNumber] *)
Definition UpdateSequenceNumber (sequence_number : Z) (p : RtpPacket)
    : option RtpPacket :=
  if 4 <=? zlen (buffer_ p) then
    b ← WriteBigEndian 2 (buffer_ p) 2 sequence_number;
    Some (set_sequence_number_ sequence_number (set_buffer_ b p))
  else Some p.

(** ** Absolute send time *)

(** The [for] over the extensions: the first that matches is rewritten. *)
Fixpoint update_first (extension_id abs_send_time : Z) (buffer : list Z)
    (before exts : list Extension) : option (option (list Z * list Extension)) :=
  match exts with
  | [] => Some None
  | e :: exts' =>
      if negb (ext_id e =? extension_id) || negb (ext_len e =? 3) ||
         (zlen buffer <? data_offset e + 3)
      then update_first extension_id abs_send_time buffer (before ++ [e]) exts'
      else
        let abs := Z.land abs_send_time 0x00FFFFFF in
        b ← wrs buffer (data_offset e)
              [u8 (Z.shiftr abs 16); u8 (Z.shiftr abs 8); u8 abs];
        data ← rd_range b (data_offset e) 3;
        Some (Some (b, before ++ mkExt (ext_id e) (ext_len e) (data_offset e) data :: exts'))
  end.

(** src/rtp/rtp_packet/rtp_packet.cpp:174-195 [RtpPacket::UpdateAbsoluteSendTimestamp] *)
Definition UpdateAbsoluteSendTimestamp (extension_id abs_send_time : Z) (p : RtpPacket)
    : option (bool * RtpPacket) :=
  if negb (extension_profile_ p =? kOneByteExtensionProfileId) then Some (false, p) else
  r ← update_first extension_id abs_send_time (buffer_ p) [] (extensions_ p);
  match r with
  | None => Some (false, p)
  | Some (b, exts) => Some (true, set_extensions_ exts (set_buffer_ b p))
  end.

Fixpoint get_first (extension_id : Z) (exts : list Extension) : option (option Z) :=
  match exts with
  | [] => Some None
  | e :: exts' =>
      if (ext_id e =? extension_id) && (zlen (ext_data e) =? 3) then
        d0 ← rd (ext_data e) 0; d1 ← rd (ext_data e) 1; d2 ← rd (ext_data e) 2;
        Some (Some (Z.lor (Z.lor (Z.shiftl d0 16) (Z.shiftl d1 8)) d2))
      else get_first extension_id exts'
  end.

(** src/rtp/rtp_packet/rtp_packet.cpp:202-216 [RtpPacket::GetAbsoluteSendTimestamp] *)
Definition GetAbsoluteSendTimestamp (extension_id : Z) (p : RtpPacket)
    : option (option Z) := get_first extension_id (extensions_ p).

(** ** Retransmission *)

(** src/rtp/rtp_packet/rtp_packet_to_send.cpp:38-105 [RtpPacketToSend::BuildRtxPacket] *)
Definition BuildRtxPacket (p : RtpPacket)
    (retransmitted_sequence_number : option Z) : option (bool * RtpPacket) :=
  match retransmitted_sequence_number with
  | None => Some (false, p)
  | Some osn =>
      let csrc_count := u8 (zlen (csrcs_ p)) in
      let payload_type := payload_type_ p in
      let original_buffer := buffer_ p in
      let original_header_size := payload_offset_ p in
      let p := set_payload_type_ 127 p in
      let frame :=
        [u8 (Z.lor (Z.lor (Z.lor (Z.shiftl (version_ p) 6)
               (Z.shiftl (Z.b2z (has_padding_ p)) 5))
               (Z.shiftl (Z.b2z (has_extension_ p)) 4)) csrc_count);
         u8 (Z.lor (Z.shiftl (Z.b2z (marker_ p)) 7) payload_type)] ++
        be_bytes 2 (sequence_number_ p) ++ be_bytes 4 (timestamp_ p) ++
        be_bytes 4 (ssrc_ p) ++
        flat_map (be_bytes 4) (take (Z.to_nat csrc_count) (csrcs_ p)) in
      ext ← (if has_extension_ p then
               let extension_offset := kFixedHeaderSize + csrc_count * 4 in
               if (original_header_size <? extension_offset) ||
                  (zlen original_buffer <? original_header_size)
               then Some None
               else e ← rd_range original_buffer extension_offset
                          (original_header_size - extension_offset);
                    Some (Some e)
             else Some (Some []));
      match ext with
      | None => Some (false, p)
      | Some e =>
          payload ← Payload p;
          let frame := frame ++ e ++ be_bytes 2 osn ++ payload in
          '(_, p) ← Build p frame (u32 (zlen frame));
          Some (true, p)
      end
  end.

(** ** Lemmas: parsing never leaves the buffer *)

Lemma parse_csrcs_safe n : forall buffer offset acc,
  bytes buffer -> 0 <= offset -> offset + 4 * Z.of_nat n <= zlen buffer ->
  exists l, parse_csrcs n buffer offset acc = Some (acc ++ l) /\ length l = n /\
            Forall is_u32 l.
Proof.
  induction n as [|n IH]; intros buffer offset acc Hb H0 H1; cbn [parse_csrcs].
  - exists []. by rewrite app_nil_r.
  - destruct (ReadBE_safe 4 buffer offset) as (v & Hv); [done|lia|lia|].
    rewrite Hv. cbn [mbind option_bind].
    destruct (IH buffer (offset + 4) (acc ++ [v])) as (l & -> & Hl & Hf); [done|lia|lia|].
    exists (v :: l). rewrite <- app_assoc. split_and!; [done|cbn; lia|].
    constructor; [|done]. eapply (ReadBigEndian_range 4); [| | |exact Hv]; done || lia.
Qed.

(** An extension element found by the parser: its data are the bytes of the
    buffer at its offset, inside the extension block. *)
Definition ext_in (buffer : list Z) (lo hi : Z) (e : Extension) : Prop :=
  1 <= ext_id e <= 14 /\ 1 <= ext_len e <= 16 /\
  lo < data_offset e /\ data_offset e + ext_len e <= hi /\
  rd_range buffer (data_offset e) (ext_len e) = Some (ext_data e).

Lemma parse_extensions_safe fuel : forall buffer offset hi lo acc,
  bytes buffer -> 0 <= lo <= offset -> hi <= zlen buffer ->
  hi - offset < Z.of_nat fuel -> 0 < Z.of_nat fuel ->
  Forall (ext_in buffer lo hi) acc ->
  exists ok l, parse_extensions fuel buffer offset hi acc = Some (ok, l) /\
               Forall (ext_in buffer lo hi) l.
Proof.
  induction fuel as [|fuel IH]; intros buffer offset hi lo acc Hb H0 H1 Hf Hf0 Ha; [lia|].
  cbn [parse_extensions]. destruct (Z.ltb_spec offset hi); [|eauto].
  read_as b.
  destruct (Z.eqb_spec (Z.shiftr b 4) 0); [apply IH; done || lia|].
  destruct (Z.eqb_spec (Z.shiftr b 4) 15); [eauto|].
  pose proof (land_ones_range b 4 ltac:(lia)) as Hl.
  change (Z.ones 4) with 0x0F in Hl. change (2 ^ 4) with 16 in Hl.
  destruct (Z.ltb_spec hi (offset + 1 + (Z.land b 0x0F + 1))); [eauto|].
  rewrite rd_range_Some by lia. cbn [mbind option_bind].
  apply IH; [done|lia|lia|lia|lia|]. apply Forall_app. split; [done|].
  constructor; [|constructor].
  assert (0 <= Z.shiftr b 4 < 16) as Hs
    by (rewrite Z.shiftr_div_pow2 by lia; change (2 ^ 4) with 16;
        unfold is_u8 in *; zdm).
  unfold ext_in. cbn [ext_id ext_len data_offset ext_data].
  split_and!; try lia. by rewrite rd_range_Some by lia.
Qed.

(** What parsing guarantees of an accepted packet. *)
Definition parsed_in (p : RtpPacket) (buffer : list Z) (size : Z) : Prop :=
  version_ p = 2 /\ 0 <= csrc_count_ p <= 15 /\ zlen (csrcs_ p) = csrc_count_ p /\
  12 + 4 * csrc_count_ p <= payload_offset_ p /\
  payload_offset_ p + payload_size_ p + padding_size_ p = size /\
  0 <= payload_size_ p /\ 0 <= padding_size_ p < 256 /\
  0 <= payload_type_ p < 128 /\ is_u16 (sequence_number_ p) /\
  is_u32 (timestamp_ p) /\ is_u32 (ssrc_ p) /\
  Forall (ext_in buffer 12 (payload_offset_ p)) (extensions_ p).

Lemma parse_padding_safe p buffer size :
  bytes buffer -> size = zlen buffer -> 0 < size ->
  exists ok p', parse_padding p buffer size = Some (ok, p') /\
    (ok = true -> exists hp pad, 0 <= pad < 256 /\
       payload_offset_ p + pad <= size /\
       p' = set_payload_size_ (size - payload_offset_ p - pad)
              (set_padding_size_ pad (set_has_padding_ hp p))).
Proof.
  intros Hb -> Hs. unfold parse_padding.
  destruct (has_padding_ p && (payload_offset_ p <? zlen buffer)) eqn:E.
  - read_as pad. unfold is_u8 in *.
    destruct (Z.eqb_spec pad 0) as [->|]; cbn [mbind option_bind].
    + cbn [set_padding_size_ set_has_padding_ payload_offset_ padding_size_].
      destruct (Z.ltb_spec (zlen buffer) (payload_offset_ p + 0)); eexists _, _;
        (split; [done|]); [done|].
      intros _. exists false, 0. split_and!; [lia|lia|lia|done].
    + cbn [set_padding_size_ payload_offset_ padding_size_].
      destruct (Z.ltb_spec (zlen buffer) (payload_offset_ p + pad)); eexists _, _;
        (split; [done|]); [done|].
      intros _. exists (has_padding_ p), pad. split_and!; [lia|lia|lia|].
      by destruct p.
  - cbn [mbind option_bind set_padding_size_ payload_offset_ padding_size_].
    destruct (Z.ltb_spec (zlen buffer) (payload_offset_ p + 0)); eexists _, _;
      (split; [done|]); [done|].
    intros _. exists (has_padding_ p), 0. split_and!; [lia|lia|lia|]. by destruct p.
Qed.

Lemma ext_in_mono buffer lo hi lo' hi' e :
  lo' <= lo -> hi <= hi' -> ext_in buffer lo hi e -> ext_in buffer lo' hi' e.
Proof. intros ? ? (? & ? & ? & ? & ?). unfold ext_in. split_and!; done || lia. Qed.

Lemma parse_extension_header_safe p buffer size :
  bytes buffer -> size = zlen buffer -> 12 <= payload_offset_ p <= size ->
  extensions_ p = [] ->
  exists ok p', parse_extension_header p buffer size = Some (ok, p') /\
    (ok = true -> exists prof len exts off,
       payload_offset_ p <= off <= size /\
       Forall (ext_in buffer 12 off) exts /\
       p' = set_payload_offset_ off (set_extensions_ exts
              (set_extension_profile_ prof (set_extension_len_ len p)))).
Proof.
  intros Hb -> Ho He. unfold parse_extension_header.
  destruct (has_extension_ p); cbn [negb].
  2: { eexists true, p. split; [done|]. intros _.
       exists (extension_profile_ p), (extension_len_ p), [], (payload_offset_ p).
       split_and!; [lia|lia|constructor|]. rewrite <- He. by destruct p. }
  destruct (Z.ltb_spec (zlen buffer) (payload_offset_ p + 4)); [by eexists _, _|].
  destruct (ReadBE_safe 2 buffer (payload_offset_ p)) as (prof & Hp); [done|lia|lia|].
  destruct (ReadBE_safe 2 buffer (payload_offset_ p + 2)) as (len & Hl); [done|lia|lia|].
  pose proof (ReadBigEndian_range 2 _ (payload_offset_ p + 2) _ Hb ltac:(lia) ltac:(lia) Hl) as Hr.
  rewrite Hp, Hl. cbn [mbind option_bind]. cbv zeta.
  cbn [set_extension_profile_ set_extension_len_ set_payload_offset_ payload_offset_
       extensions_].
  destruct (Z.ltb_spec (zlen buffer) (payload_offset_ p + 4 + len * 4)); [by eexists _, _|].
  destruct (prof =? kOneByteExtensionProfileId).
  - destruct (parse_extensions_safe (S (Z.to_nat (len * 4))) buffer (payload_offset_ p + 4)
      (payload_offset_ p + 4 + len * 4) 12 []) as (ok & l & Hx & Hf);
      [done|lia|lia|lia|lia|constructor|].
    rewrite He, Hx. cbn [mbind option_bind]. destruct ok; cbn [negb]; [|by eexists _, _].
    eexists true, _. split; [done|]. intros _.
    exists prof, len, l, (payload_offset_ p + 4 + len * 4). split_and!; [lia|lia|done|done].
  - cbn [mbind option_bind negb]. eexists true, _. split; [done|]. intros _.
    exists prof, len, [], (payload_offset_ p + 4 + len * 4).
    split_and!; [lia|lia|constructor|]. rewrite <- He. by destruct p.
Qed.

Lemma Parse_rtp_safe p buffer :
  bytes buffer ->
  exists ok p', Parse p buffer (zlen buffer) = Some (ok, p') /\
    (ok = true -> parsed_in p' buffer (zlen buffer)).
Proof.
  intros Hb. unfold Parse, kFixedHeaderSize, kRtpVersion, kMaxRtpCsrcSize. cbv zeta.
  destruct (Z.ltb_spec (zlen buffer) 12); [by eexists _, _|].
  read_as b0. unfold set_version_ at 1. cbn [version_].
  destruct (Z.eqb_spec (Z.land (Z.shiftr b0 6) 3) 2) as [Hv|]; cbn [negb]; [|by eexists _, _].
  pose proof (land_ones_range b0 4 ltac:(lia)) as Hc.
  change (Z.ones 4) with 0x0F in Hc. change (2 ^ 4) with 16 in Hc.
  unfold set_csrc_count_ at 1. cbn [csrc_count_].
  replace (15 <? Z.land b0 15) with false by lia.
  read_as b1.
  destruct (ReadBE_safe 2 buffer 2) as (seq & Hseq); [done|lia|lia|].
  destruct (ReadBE_safe 4 buffer 4) as (ts & Hts); [done|lia|lia|].
  destruct (ReadBE_safe 4 buffer 8) as (ss & Hss); [done|lia|lia|].
  rewrite Hseq, Hts, Hss. cbn [mbind option_bind]. cbv zeta.
  pose proof (ReadBigEndian_range 2 _ 2 _ Hb ltac:(lia) ltac:(lia) Hseq) as Rseq.
  pose proof (ReadBigEndian_range 4 _ 4 _ Hb ltac:(lia) ltac:(lia) Hts) as Rts.
  pose proof (ReadBigEndian_range 4 _ 8 _ Hb ltac:(lia) ltac:(lia) Hss) as Rss.
  pose proof (land_ones_range b1 7 ltac:(lia)) as Hpt.
  change (Z.ones 7) with 0x7F in Hpt. change (2 ^ 7) with 128 in Hpt.
  match goal with |- context [set_payload_offset_ 12 ?q] => set (p1 := q) end.
  change (csrc_count_ (set_payload_offset_ 12 p1)) with (Z.land b0 15).
  destruct (Z.ltb_spec (zlen buffer) (12 + Z.land b0 15 * 4)); [by eexists _, _|].
  destruct (parse_csrcs_safe (Z.to_nat (Z.land b0 15)) buffer 12 []) as (l & -> & Hl & _);
    [done|lia|lia|].
  cbn [mbind option_bind app]. cbv zeta.
  change (csrc_count_ (set_csrcs_ l (set_payload_offset_ 12 p1))) with (Z.land b0 15).
  match goal with |- context [set_payload_offset_ (12 + _) ?q] =>
    set (p2 := set_payload_offset_ (12 + Z.land b0 15 * 4) q) end.
  assert (payload_offset_ p2 = 12 + Z.land b0 15 * 4) as Ho by done.
  rewrite Ho. destruct (Z.ltb_spec (zlen buffer) (12 + Z.land b0 15 * 4)); [by eexists _, _|].
  destruct (parse_extension_header_safe p2 buffer (zlen buffer)) as (ok & p3 & -> & Hok);
    [done|done|lia|done|].
  cbn [mbind option_bind]. destruct ok; cbn [negb]; [|by eexists _, _].
  destruct (Hok eq_refl) as (prof & len & exts & off & Hoff & Hex & ->).
  match goal with |- context [parse_padding ?q _ _] =>
    destruct (parse_padding_safe q buffer (zlen buffer)) as (ok & p4 & -> & Hok4);
      [done|done|lia|] end.
  eexists _, _. split; [done|]. intros ->.
  destruct (Hok4 eq_refl) as (hp & pad & Hpad & Hfit & ->).
  clear Hok Hok4. subst p2 p1. unfold parsed_in.
  cbn [payload_offset_ set_payload_offset_ set_extensions_ set_extension_profile_
    set_extension_len_ set_payload_size_ set_padding_size_ set_has_padding_
    payload_size_ padding_size_ version_ csrc_count_ csrcs_ payload_type_
    sequence_number_ timestamp_ ssrc_ extensions_ set_csrcs_ set_version_
    set_csrc_count_ set_sequence_number_ set_timestamp_ set_ssrc_ set_payload_type_
    set_marker_ set_has_extension_] in *.
  unfold is_u16, is_u32. change (256 ^ Z.of_nat 2) with 65536 in *.
  change (256 ^ Z.of_nat 4) with 4294967296 in *.
  split_and!; try lia; try done. unfold zlen. rewrite Hl. lia.
Qed.

(** ** The wire format

    What RFC 3550 and RFC 8285 make of a packet: the abstract packet, its
    bytes, and the members the parser must set from them. *)

Record RtpFrame := mkFrame {
  f_marker : bool;
  f_payload_type : Z;
  f_sequence_number : Z;
  f_timestamp : Z;
  f_ssrc : Z;
  f_csrcs : list Z;
  f_exts : option (list (Z * list Z) * nat);
  f_payload : list Z;
  f_padding : option (list Z);
}.

(** One-byte extension elements, and the zero bytes that align the block. *)
Definition element_bytes (e : Z * list Z) : list Z :=
  16 * e.1 + (zlen e.2 - 1) :: e.2.
Definition elements_bytes (els : list (Z * list Z)) : list Z := flat_map element_bytes els.

Definition block_body (x : list (Z * list Z) * nat) : list Z :=
  elements_bytes x.1 ++ replicate x.2 0.

Definition exts_bytes (x : option (list (Z * list Z) * nat)) : list Z :=
  match x with
  | None => []
  | Some b => be_bytes 2 kOneByteExtensionProfileId ++
              be_bytes 2 (zlen (block_body b) / 4) ++ block_body b
  end.

Definition padding_bytes (x : option (list Z)) : list Z :=
  match x with None => [] | Some l => l ++ [zlen l + 1] end.

Definition header_fixed (f : RtpFrame) : list Z :=
  [128 + 32 * Z.b2z (bool_decide (is_Some (f_padding f)))
       + 16 * Z.b2z (bool_decide (is_Some (f_exts f))) + zlen (f_csrcs f);
   128 * Z.b2z (f_marker f) + f_payload_type f] ++
  be_bytes 2 (f_sequence_number f) ++ be_bytes 4 (f_timestamp f) ++
  be_bytes 4 (f_ssrc f).

Definition encode (f : RtpFrame) : list Z :=
  header_fixed f ++ flat_map (be_bytes 4) (f_csrcs f) ++ exts_bytes (f_exts f) ++
  f_payload f ++ padding_bytes (f_padding f).

Definition element_ok (e : Z * list Z) : Prop :=
  1 <= e.1 <= 14 /\ 1 <= zlen e.2 <= 16 /\ bytes e.2.

Definition exts_ok (x : option (list (Z * list Z) * nat)) : Prop :=
  match x with
  | None => True
  | Some b => Forall element_ok b.1 /\ (4 | zlen (block_body b)) /\
              zlen (block_body b) < 4 * 65536
  end.

Definition frame_ok (f : RtpFrame) : Prop :=
  0 <= f_payload_type f < 128 /\ is_u16 (f_sequence_number f) /\
  is_u32 (f_timestamp f) /\ is_u32 (f_ssrc f) /\
  zlen (f_csrcs f) <= 15 /\ Forall is_u32 (f_csrcs f) /\ exts_ok (f_exts f) /\
  bytes (f_payload f) /\
  match f_padding f with None => True | Some l => bytes l /\ zlen l < 255 end.

(** The members that describe the extension elements at a position. *)
Fixpoint ext_records (p : Z) (els : list (Z * list Z)) : list Extension :=
  match els with
  | [] => []
  | e :: els' => mkExt e.1 (zlen e.2) (p + 1) e.2 :: ext_records (p + 1 + zlen e.2) els'
  end.

Definition exts_offset (f : RtpFrame) : Z := 12 + 4 * zlen (f_csrcs f).
Definition frame_payload_offset (f : RtpFrame) : Z :=
  exts_offset f + zlen (exts_bytes (f_exts f)).

(** The packet [p] after [f] has been parsed into it. *)
Definition parsed (f : RtpFrame) (p : RtpPacket) : RtpPacket :=
  mkRtp 2 (bool_decide (is_Some (f_padding f))) (bool_decide (is_Some (f_exts f)))
    (zlen (f_csrcs f)) (f_marker f) (f_payload_type f) (f_sequence_number f)
    (f_timestamp f) (f_ssrc f) (f_csrcs f)
    (match f_exts f with None => extension_profile_ p | _ => kOneByteExtensionProfileId end)
    (match f_exts f with None => extension_len_ p | Some b => zlen (block_body b) / 4 end)
    (match f_exts f with None => [] | Some b => ext_records (exts_offset f + 4) b.1 end)
    (abs_send_time_ext_id_ p) (frame_payload_offset f) (zlen (f_payload f))
    (zlen (padding_bytes (f_padding f))) (buffer_ p) (size_ p).

Definition built (f : RtpFrame) (p : RtpPacket) : RtpPacket :=
  set_size_ (zlen (encode f)) (set_buffer_ (encode f) (parsed f p)).

Lemma flat_map_be4_zlen l : zlen (flat_map (be_bytes 4) l) = 4 * zlen l.
Proof.
  induction l as [|x l IH]; [done|]. cbn [flat_map].
  rewrite zlen_app, IH, be_bytes_zlen, zlen_cons. lia.
Qed.

Lemma parse_csrcs_encode l : forall m p r acc,
  Forall is_u32 l -> At m p (flat_map (be_bytes 4) l ++ r) ->
  parse_csrcs (length l) m p acc = Some (acc ++ l) /\ At m (p + 4 * zlen l) r.
Proof.
  induction l as [|x l IH]; intros m p r acc Hl H.
  - rewrite app_nil_r. change (zlen (@nil Z)) with 0. by rewrite Z.mul_0_r, Z.add_0_r.
  - apply Forall_cons_1 in Hl as [Hx Hl]. cbn [flat_map parse_csrcs length] in *.
    rewrite <- app_assoc in H.
    apply At_read_u32 in H as [-> H]; [|done]. cbn [mbind option_bind].
    destruct (IH m (p + 4) r (acc ++ [x]) Hl H) as [-> H'].
    rewrite <- app_assoc. split; [done|].
    replace (p + 4 * zlen (x :: l)) with (p + 4 + 4 * zlen l) by len. done.
Qed.

Lemma element_header id n :
  1 <= id <= 14 -> 1 <= n <= 16 ->
  Z.shiftr (16 * id + (n - 1)) 4 = id /\ Z.land (16 * id + (n - 1)) 0x0F + 1 = n.
Proof.
  intros. rewrite Z.shiftr_div_pow2 by lia.
  change 0x0F with (Z.ones 4). rewrite Z.land_ones by lia. change (2 ^ 4) with 16.
  split; zdm.
Qed.

Lemma parse_zeros n : forall fuel m p r acc e,
  At m p (replicate n 0 ++ r) -> e = p + Z.of_nat n -> (n < fuel)%nat ->
  parse_extensions fuel m p e acc = Some (true, acc).
Proof.
  induction n as [|n IH]; intros [|fuel] m p r acc e H -> Hf; try lia;
    cbn [parse_extensions replicate app] in *.
  - by rewrite Z.add_0_r, Z.ltb_irrefl.
  - rewrite (proj2 (Z.ltb_lt p (p + Z.of_nat (S n)))) by lia.
    apply At_rd in H as [-> H]. cbn [mbind option_bind]. cbv zeta.
    eapply IH; [exact H|lia|lia].
Qed.

Lemma At_rd_range m p a r : At m p (a ++ r) -> rd_range m p (zlen a) = Some a.
Proof. intros (b & -> & <-)%At_split. apply rd_range_mid. Qed.

Lemma parse_elements els : forall fuel m p n r acc e,
  Forall element_ok els ->
  At m p (elements_bytes els ++ replicate n 0 ++ r) ->
  e = p + zlen (elements_bytes els) + Z.of_nat n ->
  (length els + n < fuel)%nat ->
  parse_extensions fuel m p e acc = Some (true, acc ++ ext_records p els).
Proof.
  induction els as [|[id d] els IH]; intros fuel m p n r acc e Ho H -> Hf.
  - cbn [elements_bytes flat_map app ext_records] in *. rewrite app_nil_r. change (zlen (@nil Z)) with 0. rewrite Z.add_0_r.
    eapply parse_zeros; [exact H|done|cbn in Hf; lia].
  - apply Forall_cons_1 in Ho as [(Hid & Hd & Hb) Ho]. cbn [fst snd] in *.
    destruct fuel as [|fuel]; [cbn in Hf; lia|].
    cbn [parse_extensions ext_records]. unfold elements_bytes in *.
    cbn [flat_map element_bytes app fst snd] in *.
    rewrite zlen_cons, zlen_app.
    pose proof (zlen_nonneg (flat_map element_bytes els)).
    rewrite (proj2 (Z.ltb_lt _ _)) by lia.
    apply At_rd in H as [-> H]. cbn [mbind option_bind]. cbv zeta.
    destruct (element_header id (zlen d) Hid Hd) as [-> ->].
    rewrite (proj2 (Z.eqb_neq id 0)), (proj2 (Z.eqb_neq id 15)) by lia.
    rewrite (proj2 (Z.ltb_ge _ _)) by lia.
    rewrite <- app_assoc in H. rewrite (At_rd_range _ _ _ _ H). cbn [mbind option_bind].
    apply At_app in H.
    rewrite (IH fuel m (p + (1 + zlen d)) n r _ _ Ho); [|by rewrite Z.add_assoc|lia|cbn in Hf; lia].
    by rewrite <- app_assoc, Z.add_assoc.
Qed.

Lemma elements_length els : Z.of_nat (length els) <= zlen (elements_bytes els).
Proof.
  induction els as [|e els IH]; [done|]. unfold elements_bytes in *.
  cbn [flat_map length]. rewrite zlen_app. unfold element_bytes at 1. rewrite zlen_cons.
  pose proof (zlen_nonneg e.2). lia.
Qed.

Lemma odd_b2z_add k (b : bool) : Z.odd (2 * k + Z.b2z b) = b.
Proof. rewrite Z.add_comm, Z.odd_add_mul_2. by destruct b. Qed.

Lemma header_byte0 (pad ext : bool) cc :
  0 <= cc <= 15 ->
  let b := 128 + 32 * Z.b2z pad + 16 * Z.b2z ext + cc in
  Z.land (Z.shiftr b 6) 3 = 2 /\ Z.odd (Z.shiftr b 5) = pad /\
  Z.odd (Z.shiftr b 4) = ext /\ Z.land b 15 = cc.
Proof.
  intros H b. rewrite !Z.shiftr_div_pow2 by lia.
  change 3 with (Z.ones 2). change 15 with (Z.ones 4). rewrite !Z.land_ones by lia.
  change (2 ^ 6) with 64. change (2 ^ 5) with 32. change (2 ^ 4) with 16. change (2 ^ 2) with 4.
  replace (b / 32) with (2 * 2 + Z.b2z pad) by (subst b; destruct pad, ext; cbn [Z.b2z]; zdm).
  replace (b / 16) with (2 * (4 + Z.b2z pad) + Z.b2z ext)
    by (subst b; destruct pad, ext; cbn [Z.b2z]; zdm).
  rewrite !odd_b2z_add. split_and!; try done; subst b; destruct pad, ext; cbn [Z.b2z]; zdm.
Qed.

Lemma header_byte1 (m : bool) pt :
  0 <= pt < 128 ->
  let b := 128 * Z.b2z m + pt in Z.odd (Z.shiftr b 7) = m /\ Z.land b 0x7f = pt.
Proof.
  intros H b. rewrite Z.shiftr_div_pow2 by lia. change 0x7f with (Z.ones 7).
  rewrite Z.land_ones by lia. change (2 ^ 7) with 128.
  replace (b / 128) with (2 * 0 + Z.b2z m) by (subst b; destruct m; cbn [Z.b2z]; zdm).
  rewrite odd_b2z_add. split; [done|subst b; destruct m; cbn [Z.b2z]; zdm].
Qed.

Lemma exts_bytes_zlen b :
  zlen (exts_bytes (Some b)) = 4 + zlen (block_body b).
Proof. cbn [exts_bytes]. rewrite !zlen_app, !be_bytes_zlen. lia. Qed.

(** The extension block, where the packet says there is one. *)
Lemma parse_extension_header_encode x p m r :
  exts_ok x -> has_extension_ p = bool_decide (is_Some x) -> extensions_ p = [] ->
  At m (payload_offset_ p) (exts_bytes x ++ r) ->
  parse_extension_header p m (zlen m) =
    Some (true, set_payload_offset_ (payload_offset_ p + zlen (exts_bytes x))
      match x with
      | None => p
      | Some b => set_extensions_ (ext_records (payload_offset_ p + 4) b.1)
                   (set_extension_profile_ kOneByteExtensionProfileId
                     (set_extension_len_ (zlen (block_body b) / 4) p))
      end).
Proof.
  intros Hx He He0 H. unfold parse_extension_header. rewrite He.
  destruct x as [b|]; cbn [exts_bytes] in *.
  2: { replace (payload_offset_ p + zlen (@nil Z)) with (payload_offset_ p)
         by (change (zlen (@nil Z)) with 0; lia). by destruct p. }
  rewrite bool_decide_true by eauto. cbn [negb].
  destruct Hx as (Ho & [k Hk] & Hl). pose proof (zlen_nonneg r).
  pose proof (At_len _ _ _ H) as Hlen. rewrite !zlen_app, !be_bytes_zlen in *.
  pose proof (zlen_nonneg (block_body b)).
  rewrite (proj2 (Z.ltb_ge _ _)) by lia.
  rewrite <- !app_assoc in H.
  apply At_read_u16 in H as [-> H]; [|done].
  assert (zlen (block_body b) / 4 * 4 = zlen (block_body b)) as Hk4 by zdm.
  apply At_read_u16 in H as [-> H]; [|unfold is_u16; zdm].
  cbn [mbind option_bind]. cbv zeta.
  cbn [set_extension_profile_ set_extension_len_ set_payload_offset_ payload_offset_ extensions_].
  rewrite Hk4, He0. rewrite (proj2 (Z.ltb_ge _ _)) by lia.
  rewrite Z.eqb_refl. unfold block_body in *. rewrite zlen_app in *.
  rewrite <- app_assoc in H. rewrite <- Z.add_assoc in H. change (2 + 2) with 4 in H.
  pose proof (elements_length b.1).
  assert (zlen (replicate b.2 0) = Z.of_nat b.2) as Hz by (unfold zlen; by rewrite length_replicate).
  erewrite parse_elements; [|exact Ho|exact H|lia|rewrite ?Hz; lia].
  cbn [mbind option_bind negb app]. do 2 f_equal.
  unfold set_extensions_, set_payload_offset_. cbn. f_equal. lia.
Qed.

Lemma parse_padding_encode pad p m payload :
  has_padding_ p = bool_decide (is_Some pad) ->
  match pad with None => True | Some l => zlen l < 255 end ->
  At m (payload_offset_ p) (payload ++ padding_bytes pad) ->
  parse_padding p m (zlen m) =
    Some (true, set_payload_size_ (zlen payload)
                  (set_padding_size_ (zlen (padding_bytes pad)) p)).
Proof.
  intros Hp Hl H. unfold parse_padding. rewrite Hp.
  pose proof (At_len _ _ _ H) as Hlen. rewrite zlen_app in Hlen.
  pose proof (zlen_nonneg payload). destruct pad as [l|]; cbn [padding_bytes] in *.
  - rewrite bool_decide_true by eauto. rewrite zlen_app, zlen_cons, zlen_nil in *.
    pose proof (zlen_nonneg l). rewrite (proj2 (Z.ltb_lt _ _)) by lia. cbn [andb].
    apply At_app in H. apply At_app in H.
    replace (payload_offset_ p + zlen payload + zlen l) with (zlen m - 1) in H by lia.
    apply At_rd in H as [-> _]. cbn [mbind option_bind].
    rewrite (proj2 (Z.eqb_neq _ _)) by lia. cbn [mbind option_bind].
    cbn [set_padding_size_ payload_offset_ padding_size_].
    rewrite (proj2 (Z.ltb_ge _ _)) by lia. do 2 f_equal.
    unfold set_payload_size_, set_padding_size_. cbn. f_equal; lia.
  - rewrite bool_decide_false by (intros [? [=]]). cbn [andb mbind option_bind].
    cbn [set_padding_size_ payload_offset_ padding_size_].
    change (zlen (@nil Z)) with 0 in *.
    rewrite (proj2 (Z.ltb_ge _ _)) by lia. do 2 f_equal.
    unfold set_payload_size_, set_padding_size_. cbn. f_equal; lia.
Qed.

Lemma Parse_encode f p :
  frame_ok f -> Parse p (encode f) (zlen (encode f)) = Some (true, parsed f p).
Proof.
  intros (Hpt & Hseq & Hts & Hss & Hcc & Hcs & Hx & Hb & Hpad).
  pose proof (At_start (encode f)) as H.
  unfold encode in H at 2. unfold header_fixed in H. set (m := encode f) in *.
  pose proof (At_len _ _ _ H) as Hlen. rewrite !zlen_app, !be_bytes_zlen in Hlen.
  rewrite flat_map_be4_zlen in Hlen. rewrite !zlen_cons in Hlen.
  change (zlen (@nil Z)) with 0 in Hlen.
  pose proof (zlen_nonneg (f_csrcs f)). pose proof (zlen_nonneg (exts_bytes (f_exts f))).
  pose proof (zlen_nonneg (f_payload f)). pose proof (zlen_nonneg (padding_bytes (f_padding f))).
  unfold Parse, kFixedHeaderSize, kRtpVersion, kMaxRtpCsrcSize. cbv zeta.
  rewrite (proj2 (Z.ltb_ge _ _)) by lia.
  rewrite <- !app_assoc in H. cbn [app] in H.
  at_rd H. cbn [mbind option_bind].
  destruct (header_byte0 (bool_decide (is_Some (f_padding f)))
    (bool_decide (is_Some (f_exts f))) (zlen (f_csrcs f)) ltac:(lia)) as (-> & -> & -> & ->).
  unfold set_version_ at 1. cbn [version_]. rewrite Z.eqb_refl. cbn [negb].
  unfold set_csrc_count_ at 1. cbn [csrc_count_]. rewrite (proj2 (Z.ltb_ge _ _)) by lia.
  at_rd H. cbn [mbind option_bind].
  destruct (header_byte1 (f_marker f) (f_payload_type f) Hpt) as [-> ->].
  at_norm H. at_u16 H. at_u32 H. at_u32 H. cbn [mbind option_bind].
  match goal with |- context [set_payload_offset_ 12 ?q] => set (p1 := set_payload_offset_ 12 q) end.
  change (csrc_count_ p1) with (zlen (f_csrcs f)).
  rewrite (proj2 (Z.ltb_ge _ _)) by lia.
  rewrite to_nat_zlen.
  destruct (parse_csrcs_encode _ _ _ _ [] Hcs H) as [-> H']. cbn [mbind option_bind app].
  change (csrc_count_ (set_csrcs_ (f_csrcs f) p1)) with (zlen (f_csrcs f)).
  rewrite (Z.mul_comm (zlen (f_csrcs f)) 4).
  match goal with |- context [set_payload_offset_ ?o ?q] => set (p2 := set_payload_offset_ o q) end.
  change (payload_offset_ p2) with (12 + 4 * zlen (f_csrcs f)).
  rewrite (proj2 (Z.ltb_ge _ _)) by lia.
  erewrite (parse_extension_header_encode (f_exts f) p2); [|done|done|done|exact H'].
  cbn [mbind option_bind negb]. apply At_app in H'.
  change (payload_offset_ p2) with (12 + 4 * zlen (f_csrcs f)).
  match goal with |- parse_padding ?q _ _ = _ => set (p3 := q) end.
  erewrite (parse_padding_encode (f_padding f) p3 m (f_payload f)).
  - subst p3 p2 p1. unfold parsed, frame_payload_offset, exts_offset. by destruct (f_exts f).
  - subst p3 p2 p1. by destruct (f_exts f).
  - destruct (f_padding f); [apply Hpad|done].
  - exact H'.
Qed.

Lemma rd_range_all {A} (m : list A) : rd_range m 0 (zlen m) = Some m.
Proof.
  rewrite rd_range_Some by (pose proof (zlen_nonneg m); lia).
  by rewrite to_nat_zlen, drop_0, firstn_all.
Qed.

Lemma Build_encode f p :
  frame_ok f -> Build p (encode f) (zlen (encode f)) = Some (true, built f p).
Proof.
  intros Hf. unfold Build. rewrite Parse_encode by done. cbn [mbind option_bind negb].
  by rewrite rd_range_all.
Qed.

Lemma header_fixed_zlen f : zlen (header_fixed f) = 12.
Proof. unfold header_fixed. rewrite !zlen_app, !be_bytes_zlen. done. Qed.

Lemma encode_zlen f :
  zlen (encode f) = 12 + 4 * zlen (f_csrcs f) + zlen (exts_bytes (f_exts f)) +
    zlen (f_payload f) + zlen (padding_bytes (f_padding f)).
Proof. unfold encode. rewrite !zlen_app, header_fixed_zlen, flat_map_be4_zlen. lia. Qed.

Lemma encode_split f :
  encode f = (header_fixed f ++ flat_map (be_bytes 4) (f_csrcs f) ++ exts_bytes (f_exts f)) ++
             f_payload f ++ padding_bytes (f_padding f) /\
  zlen (header_fixed f ++ flat_map (be_bytes 4) (f_csrcs f) ++ exts_bytes (f_exts f)) =
    frame_payload_offset f.
Proof.
  split; [unfold encode; by rewrite <- !app_assoc|].
  rewrite !zlen_app, header_fixed_zlen, flat_map_be4_zlen. unfold frame_payload_offset, exts_offset.
  lia.
Qed.

Lemma Payload_built f p : Payload (built f p) = Some (f_payload f).
Proof.
  unfold Payload. cbn [built set_size_ set_buffer_ buffer_ payload_offset_ payload_size_ parsed].
  destruct (encode_split f) as [-> <-]. apply rd_range_mid.
Qed.

(** The payload after its first bytes have been consumed. *)
Lemma Payload_add_offset f p a b :
  f_payload f = a ++ b -> zlen (f_payload f) < 18446744073709551616 ->
  Payload (add_offset_to_payload (zlen a) (built f p)) = Some b.
Proof.
  intros Hf Hz. unfold Payload, add_offset_to_payload.
  cbn [set_payload_size_ set_payload_offset_ built set_size_ set_buffer_ parsed
    payload_size_ payload_offset_ buffer_].
  destruct (encode_split f) as [-> <-]. rewrite Hf in *. rewrite zlen_app in Hz.
  rewrite (zlen_app a b), Z.add_simpl_l.
  pose proof (zlen_nonneg a). pose proof (zlen_nonneg b). rewrite u64_id by (unfold is_u64; lia).
  match goal with |- rd_range (?h ++ (a ++ b) ++ ?d) (zlen ?h + zlen a) _ = _ =>
    replace (h ++ (a ++ b) ++ d) with ((h ++ a) ++ b ++ d) by (rewrite <- !app_assoc; done);
    replace (zlen h + zlen a) with (zlen (h ++ a)) by (rewrite (zlen_app h a); done) end.
  apply rd_range_mid.
Qed.

(** ** Retransmission *)

(** The packet that carries [f] again on a retransmission stream. *)
Definition rtx_frame (osn : Z) (f : RtpFrame) : RtpFrame :=
  mkFrame (f_marker f) (f_payload_type f) (f_sequence_number f) (f_timestamp f) (f_ssrc f)
    (f_csrcs f) (f_exts f) (be_bytes 2 osn ++ f_payload f) None.

Lemma header_lor (ext : bool) cc :
  0 <= cc <= 15 ->
  Z.lor (Z.lor (Z.lor (Z.shiftl 2 6) (Z.shiftl (Z.b2z false) 5)) (Z.shiftl (Z.b2z ext) 4)) cc =
  128 + 32 * Z.b2z false + 16 * Z.b2z ext + cc.
Proof.
  intros H. destruct ext; cbn [Z.b2z].
  - change (Z.lor (Z.lor (Z.shiftl 2 6) (Z.shiftl 0 5)) (Z.shiftl 1 4)) with (9 * 2 ^ 4).
    rewrite lor_add by lia. lia.
  - change (Z.lor (Z.lor (Z.shiftl 2 6) (Z.shiftl 0 5)) (Z.shiftl 0 4)) with (8 * 2 ^ 4).
    rewrite lor_add by lia. lia.
Qed.

Lemma marker_lor (m : bool) pt :
  0 <= pt < 128 -> Z.lor (Z.shiftl (Z.b2z m) 7) pt = 128 * Z.b2z m + pt.
Proof. intros H. rewrite Z.shiftl_mul_pow2, lor_add by lia. lia. Qed.

(** The extension block of the packet, copied out of its buffer. *)
Lemma exts_copied f p :
  rd_range (buffer_ (built f p)) (exts_offset f) (frame_payload_offset f - exts_offset f)
    = Some (exts_bytes (f_exts f)).
Proof.
  cbn [built set_size_ set_buffer_ buffer_]. unfold encode, frame_payload_offset.
  replace (exts_offset f) with (zlen (header_fixed f ++ flat_map (be_bytes 4) (f_csrcs f)))
    by (rewrite zlen_app, header_fixed_zlen, flat_map_be4_zlen; unfold exts_offset; lia).
  rewrite app_assoc, Z.add_simpl_l. apply rd_range_mid.
Qed.

Lemma encode_rtx osn f :
  frame_ok f -> f_padding f = None ->
  [u8 (Z.lor (Z.lor (Z.lor (Z.shiftl 2 6) (Z.shiftl (Z.b2z false) 5))
        (Z.shiftl (Z.b2z (bool_decide (is_Some (f_exts f)))) 4)) (u8 (zlen (f_csrcs f))));
   u8 (Z.lor (Z.shiftl (Z.b2z (f_marker f)) 7) (f_payload_type f))] ++
  be_bytes 2 (f_sequence_number f) ++ be_bytes 4 (f_timestamp f) ++
  be_bytes 4 (f_ssrc f) ++
  flat_map (be_bytes 4) (take (Z.to_nat (u8 (zlen (f_csrcs f)))) (f_csrcs f)) =
  header_fixed (rtx_frame osn f) ++ flat_map (be_bytes 4) (f_csrcs f).
Proof.
  intros (Hpt & _ & _ & _ & Hcc & _) Hp. pose proof (zlen_nonneg (f_csrcs f)).
  rewrite (u8_id (zlen (f_csrcs f))) by (unfold is_u8; lia).
  rewrite to_nat_zlen, firstn_all, header_lor, marker_lor by lia.
  rewrite u8_id by (unfold is_u8; destruct (bool_decide _); cbn [Z.b2z]; lia).
  rewrite u8_id by (unfold is_u8; destruct (f_marker f); cbn [Z.b2z]; lia).
  unfold header_fixed. cbn [rtx_frame f_padding f_exts f_csrcs f_marker f_payload_type
    f_sequence_number f_timestamp f_ssrc]. rewrite (bool_decide_false (is_Some None)) by (intros [? [=]]).
  by rewrite <- !app_assoc.
Qed.

(** The frame on another stream. *)
Definition relabel (pt ssrc : Z) (f : RtpFrame) : RtpFrame :=
  mkFrame (f_marker f) pt (f_sequence_number f) (f_timestamp f) ssrc (f_csrcs f) (f_exts f)
    (f_payload f) (f_padding f).

Lemma relabel_same f : relabel (f_payload_type f) (f_ssrc f) f = f.
Proof. by destruct f. Qed.

Lemma relabel_ok pt ssrc f : frame_ok f -> 0 <= pt < 128 -> is_u32 ssrc -> frame_ok (relabel pt ssrc f).
Proof.
  intros (H1 & H2 & H3 & H4 & H5 & H6 & H7 & Hb & Hp) Hpt Hs.
  exact (conj Hpt (conj H2 (conj H3 (conj Hs (conj H5 (conj H6 (conj H7 (conj Hb Hp)))))))).
Qed.

Lemma rtx_frame_ok osn f : frame_ok f -> frame_ok (rtx_frame osn f).
Proof.
  intros (H1 & H2 & H3 & H4 & H5 & H6 & H7 & Hb & _).
  refine (conj H1 (conj H2 (conj H3 (conj H4 (conj H5 (conj H6 (conj H7 (conj _ I)))))))).
  apply bytes_app. split; [apply be_bytes_bytes|done].
Qed.

Lemma rtx_frame_zlen osn pt ssrc f :
  f_padding f = None -> zlen (encode (rtx_frame osn (relabel pt ssrc f))) = zlen (encode f) + 2.
Proof.
  intros Hp. unfold encode. rewrite !zlen_app, !header_fixed_zlen. rewrite Hp.
  cbn [rtx_frame relabel f_csrcs f_exts f_payload f_padding padding_bytes].
  rewrite zlen_app, be_bytes_zlen. lia.
Qed.

(** The packet for another stream: the caller has set its SSRC and type. *)
Lemma BuildRtxPacket_relabel pt ssrc osn f p :
  frame_ok f -> f_padding f = None -> 0 <= pt < 128 -> is_u32 ssrc -> is_u16 osn -> zlen (encode f) < 65536 ->
  let q := set_payload_type_ pt (set_ssrc_ ssrc (built f p)) in
  BuildRtxPacket q (Some osn) =
    Some (true, built (rtx_frame osn (relabel pt ssrc f)) (set_payload_type_ 127 q)).
Proof.
  intros Hf Hp Hpt Hss Ho Hz q. subst q. unfold BuildRtxPacket. cbv zeta.
  pose proof (relabel_ok pt ssrc f Hf Hpt Hss) as Hr.
  pose proof (encode_rtx osn (relabel pt ssrc f) Hr Hp) as He.
  cbn [relabel f_marker f_payload_type f_sequence_number f_timestamp f_ssrc f_csrcs f_exts] in He.
  cbn [set_payload_type_ set_ssrc_ version_ has_padding_ has_extension_ marker_ sequence_number_
    timestamp_ ssrc_ csrcs_ payload_type_ payload_offset_ buffer_].
  cbn [built set_size_ set_buffer_ parsed version_ has_padding_ has_extension_ marker_
    sequence_number_ timestamp_ ssrc_ csrcs_ payload_type_ payload_offset_ buffer_].
  rewrite Hp. rewrite (bool_decide_false (is_Some None)) by (intros [? [=]]).
  rewrite He. destruct (encode_split f) as [Hs Hs'].
  assert (12 + u8 (zlen (f_csrcs f)) * 4 = exts_offset f) as Hoff.
  { destruct Hf as (_ & _ & _ & _ & Hcc & _). pose proof (zlen_nonneg (f_csrcs f)).
    rewrite u8_id by (unfold is_u8; lia). unfold exts_offset. lia. }
  assert (zlen (encode f) = frame_payload_offset f +
    zlen (f_payload f ++ padding_bytes (f_padding f))) as Hl
    by (rewrite Hs, zlen_app, Hs'; done).
  pose proof (zlen_nonneg (f_payload f ++ padding_bytes (f_padding f))).
  pose proof (zlen_nonneg (exts_bytes (f_exts f))).
  match goal with |- context [mbind _ ?x] =>
    assert (x = Some (Some (exts_bytes (f_exts f)))) as -> end.
  { unfold kFixedHeaderSize. rewrite Hoff. case_bool_decide as Hx.
    - unfold frame_payload_offset in *. rewrite (proj2 (Z.ltb_ge _ _)) by lia.
      rewrite (proj2 (Z.ltb_ge _ _)) by lia. cbn [orb].
      change (encode f) with (buffer_ (built f p)). by rewrite exts_copied.
    - destruct (f_exts f); [destruct Hx; eauto|done]. }
  cbn [mbind option_bind].
  change (Payload _) with (Payload (built f p)). rewrite Payload_built. cbn [mbind option_bind].
  assert ((header_fixed (rtx_frame osn (relabel pt ssrc f)) ++ flat_map (be_bytes 4) (f_csrcs f)) ++
    exts_bytes (f_exts f) ++ be_bytes 2 osn ++ f_payload f = encode (rtx_frame osn (relabel pt ssrc f))) as ->.
  { unfold encode. cbn [rtx_frame relabel f_csrcs f_exts f_payload f_padding padding_bytes].
    by rewrite app_nil_r, <- !app_assoc. }
  pose proof (rtx_frame_zlen osn pt ssrc f Hp). pose proof (zlen_nonneg (encode f)).
  rewrite u32_id by (unfold is_u32; lia). by rewrite Build_encode by (by apply rtx_frame_ok).
Qed.

Lemma BuildRtxPacket_built osn f p :
  frame_ok f -> f_padding f = None -> is_u16 osn -> zlen (encode f) < 65536 ->
  BuildRtxPacket (built f p) (Some osn) =
    Some (true, built (rtx_frame osn f) (set_payload_type_ 127 (built f p))).
Proof.
  intros Hf Hp Ho Hz. pose proof Hf as (Hpt & _ & _ & Hs & _).
  pose proof (BuildRtxPacket_relabel (f_payload_type f) (f_ssrc f) osn f p Hf Hp Hpt Hs Ho Hz) as H.
  rewrite relabel_same in H. exact H.
Qed.

(** ** The absolute send time, rewritten in place *)

Definition ast_bytes (t : Z) : list Z := be_bytes 3 t.

Fixpoint set_ast (id t : Z) (els : list (Z * list Z)) : option (list (Z * list Z)) :=
  match els with
  | [] => None
  | e :: els' =>
      if (e.1 =? id) && (zlen e.2 =? 3) then Some ((e.1, ast_bytes t) :: els')
      else els'' ← set_ast id t els'; Some (e :: els'')
  end.

(** The frame whose first 3-byte element [id] holds the time [t]. *)
Definition frame_set_ast (id t : Z) (f : RtpFrame) : option RtpFrame :=
  match f_exts f with
  | None => None
  | Some (els, n) =>
      els' ← set_ast id t els;
      Some (mkFrame (f_marker f) (f_payload_type f) (f_sequence_number f) (f_timestamp f)
              (f_ssrc f) (f_csrcs f) (Some (els', n)) (f_payload f) (f_padding f))
  end.

Lemma ast_bytes_writes t :
  [u8 (Z.shiftr (Z.land t 0x00FFFFFF) 16); u8 (Z.shiftr (Z.land t 0x00FFFFFF) 8);
   u8 (Z.land t 0x00FFFFFF)] = ast_bytes t.
Proof.
  unfold ast_bytes, be_bytes. cbn -[u8 Z.shiftr Z.land].
  change (0xFFFFFF) with (Z.ones 24). rewrite Z.land_ones by lia.
  rewrite !Z.shiftr_div_pow2 by lia. change (2 ^ 24) with 16777216.
  change (2 ^ 16) with 65536. change (2 ^ 8) with 256. change (2 ^ 0) with 1.
  change (2 ^ (8 * Z.of_nat 2)) with 65536. change (2 ^ (8 * Z.of_nat 1)) with 256.
  change (2 ^ (8 * Z.of_nat 0)) with 1.
  unfold u8. f_equal; [zdm|]. f_equal; [zdm|]. f_equal. zdm.
Qed.

Lemma ast_bytes_zlen t : zlen (ast_bytes t) = 3.
Proof. apply be_bytes_zlen. Qed.

Lemma elements_bytes_cons e els :
  elements_bytes (e :: els) = 16 * e.1 + (zlen e.2 - 1) :: e.2 ++ elements_bytes els.
Proof. done. Qed.

Lemma update_first_spec id t els : forall a r before,
  Forall element_ok els ->
  update_first id t (a ++ elements_bytes els ++ r) before (ext_records (zlen a) els) =
    Some (els' ← set_ast id t els;
          Some (a ++ elements_bytes els' ++ r, before ++ ext_records (zlen a) els')).
Proof.
  induction els as [|[i d] els IH]; intros a r before Ho; [done|].
  apply Forall_cons_1 in Ho as [_ Ho].
  cbn [update_first ext_records set_ast ext_id ext_len data_offset fst snd].
  rewrite elements_bytes_cons. cbn [fst snd app]. rewrite <- app_assoc.
  set (h := 16 * i + (zlen d - 1)).
  rewrite zlen_app, zlen_cons, !zlen_app.
  pose proof (zlen_nonneg r). pose proof (zlen_nonneg (elements_bytes els)).
  pose proof (zlen_nonneg a).
  destruct (Z.eqb_spec i id) as [->|Hi]; cbn [negb orb andb].
  - destruct (Z.eqb_spec (zlen d) 3) as [Hd|Hd]; cbn [negb orb andb].
    + rewrite (proj2 (Z.ltb_ge _ _)) by lia. rewrite ast_bytes_writes.
      change (a ++ h :: d ++ elements_bytes els ++ r)
        with (a ++ [h] ++ d ++ elements_bytes els ++ r).
      rewrite (app_assoc a [h]).
      replace (zlen a + 1) with (zlen (a ++ [h])) by (rewrite zlen_app; done).
      rewrite wrs_app by (pose proof (ast_bytes_zlen t); len). cbn [mbind option_bind].
      replace 3 with (zlen (ast_bytes t)) at 1 by apply ast_bytes_zlen.
      rewrite rd_range_mid. cbn [mbind option_bind].
      rewrite elements_bytes_cons. cbn [fst snd app ext_records].
      rewrite ast_bytes_zlen. subst h. rewrite Hd, zlen_app, <- !app_assoc. done.
    + specialize (IH (a ++ h :: d) r (before ++ [mkExt id (zlen d) (zlen a + 1) d]) Ho).
      rewrite zlen_app, zlen_cons, Z.add_assoc in IH. rewrite <- app_assoc in IH. cbn [app] in IH.
      rewrite IH. destruct (set_ast id t els); cbn [mbind option_bind]; [|done].
      rewrite elements_bytes_cons. cbn [fst snd ext_records app]. by rewrite <- !app_assoc.
  - specialize (IH (a ++ h :: d) r (before ++ [mkExt i (zlen d) (zlen a + 1) d]) Ho).
    rewrite zlen_app, zlen_cons, Z.add_assoc in IH. rewrite <- app_assoc in IH. cbn [app] in IH.
    rewrite IH. destruct (set_ast id t els); cbn [mbind option_bind]; [|done].
    rewrite elements_bytes_cons. cbn [fst snd ext_records app]. by rewrite <- !app_assoc.
Qed.

Lemma set_ast_shape id t els els' :
  set_ast id t els = Some els' -> Forall element_ok els ->
  Forall element_ok els' /\ zlen (elements_bytes els') = zlen (elements_bytes els).
Proof.
  revert els'; induction els as [|[i d] els IH]; intros els' H Ho; [done|].
  apply Forall_cons_1 in Ho as [He Ho]. cbn [set_ast fst snd] in H. revert H.
  case_if.
  - intros [= <-]. b2p. rewrite !elements_bytes_cons. cbn [fst snd].
    rewrite !zlen_cons, !zlen_app, ast_bytes_zlen. split; [|lia].
    constructor; [|done]. destruct He as (? & _). cbn [fst snd] in *.
    unfold element_ok. cbn [fst snd]. rewrite ast_bytes_zlen.
    split; [done|]. split; [lia|apply be_bytes_bytes].
  - destruct (set_ast id t els) as [l|]; cbn [mbind option_bind]; [|done].
    intros [= <-]. destruct (IH l) as [? Hl]; [done..|].
    split; [by constructor|]. rewrite !elements_bytes_cons, !zlen_cons, !zlen_app, Hl. lia.
Qed.

Lemma lor_bytes3 a b c :
  is_u8 a -> is_u8 b -> is_u8 c ->
  Z.lor (Z.lor (Z.shiftl a 16) (Z.shiftl b 8)) c = a * 65536 + b * 256 + c.
Proof.
  unfold is_u8. intros. rewrite !Z.shiftl_mul_pow2, lor_add by lia.
  replace (a * 2 ^ 16 + b * 2 ^ 8) with ((a * 256 + b) * 2 ^ 8) by lia.
  rewrite lor_add by lia. lia.
Qed.

Lemma ast_bytes_read t :
  (d0 ← rd (ast_bytes t) 0; d1 ← rd (ast_bytes t) 1; d2 ← rd (ast_bytes t) 2;
   Some (Some (Z.lor (Z.lor (Z.shiftl d0 16) (Z.shiftl d1 8)) d2))) =
  Some (Some (t `mod` 16777216)).
Proof.
  pose proof (be_val_be_bytes 3 t) as Hv. change (256 ^ Z.of_nat 3) with 16777216 in Hv.
  rewrite <- Hv. unfold ast_bytes.
  pose proof (be_bytes_bytes 3 t) as Hb. cbn [be_bytes] in *.
  apply bytes_cons in Hb as [Ha [Hb [Hc _]%bytes_cons]%bytes_cons].
  transitivity (Some (Some (Z.lor (Z.lor (Z.shiftl (u8 (Z.shiftr t (8 * Z.of_nat 2))) 16)
    (Z.shiftl (u8 (Z.shiftr t (8 * Z.of_nat 1))) 8)) (u8 (Z.shiftr t (8 * Z.of_nat 0))))));
    [done|].
  rewrite lor_bytes3 by done. cbn [be_val]. do 2 f_equal.
  rewrite !zlen_cons. change (zlen (@nil Z)) with 0. cbn [Z.add Z.pow]. lia.
Qed.

Lemma get_first_ast id t els : forall els' p,
  set_ast id t els = Some els' ->
  get_first id (ext_records p els') = Some (Some (t `mod` 16777216)).
Proof.
  induction els as [|[i d] els IH]; intros els' p H; [done|].
  cbn [set_ast fst snd] in H. destruct ((i =? id) && (zlen d =? 3)) eqn:E.
  - injection H as <-. cbn [ext_records get_first ext_id ext_data fst snd].
    rewrite ast_bytes_zlen. apply andb_prop in E as [-> _]. cbn [andb].
    change (3 =? 3) with true. cbv match.
    by apply ast_bytes_read.
  - destruct (set_ast id t els) as [l|]; cbn [mbind option_bind] in H; [|done].
    injection H as <-. cbn [ext_records get_first ext_id ext_data fst snd].
    rewrite E. by apply IH.
Qed.

Lemma frame_set_ast_ok id t f f' :
  frame_set_ast id t f = Some f' -> frame_ok f -> frame_ok f' /\ zlen (encode f') = zlen (encode f).
Proof.
  unfold frame_set_ast. destruct (f_exts f) as [[els n]|] eqn:Hx; [|done].
  destruct (set_ast id t els) as [els'|] eqn:E; cbn [mbind option_bind]; [|done].
  intros [= <-] (H1 & H2 & H3 & H4 & H5 & H6 & H7 & Hb & Hp). rewrite Hx in H7.
  destruct H7 as (Ho & Hd & Hl). destruct (set_ast_shape _ _ _ _ E Ho) as [Ho' Hz].
  unfold block_body in *. cbn [fst snd] in *. rewrite zlen_app in *.
  split.
  - refine (conj H1 (conj H2 (conj H3 (conj H4 (conj H5 (conj H6 (conj _ (conj Hb Hp)))))))).
    cbn [f_exts exts_ok]. unfold block_body. cbn [fst snd]. rewrite zlen_app, Hz. done.
  - unfold encode. rewrite !zlen_app, !header_fixed_zlen.
    cbn [f_padding f_exts f_csrcs f_payload]. rewrite Hx, !exts_bytes_zlen. unfold block_body. cbn [fst snd].
    rewrite !zlen_app, Hz. done.
Qed.

Lemma header_fixed_eq f f' :
  f_padding f = f_padding f' -> is_Some (f_exts f) -> is_Some (f_exts f') ->
  f_csrcs f = f_csrcs f' -> f_marker f = f_marker f' -> f_payload_type f = f_payload_type f' ->
  f_sequence_number f = f_sequence_number f' -> f_timestamp f = f_timestamp f' ->
  f_ssrc f = f_ssrc f' -> header_fixed f = header_fixed f'.
Proof.
  intros H1 H2 H3 H4 H5 H6 H7 H8 H9. unfold header_fixed.
  rewrite H1, H4, H5, H6, H7, H8, H9.
  by rewrite (bool_decide_true _ H2), (bool_decide_true _ H3).
Qed.

(** The in-place rewrite is what building the changed frame gives. *)
Lemma UpdateAbsoluteSendTimestamp_built id t f p :
  frame_ok f ->
  UpdateAbsoluteSendTimestamp id t (built f p) =
    Some (match frame_set_ast id t f with
          | Some f' => (true, built f' p)
          | None => (false, built f p)
          end).
Proof.
  intros (_ & _ & _ & _ & _ & _ & Hx & _). unfold UpdateAbsoluteSendTimestamp, frame_set_ast.
  cbn [built set_size_ set_buffer_ parsed extension_profile_ extensions_ buffer_].
  destruct (f_exts f) as [[els n]|] eqn:E; cbn [fst].
  2: { by destruct (extension_profile_ p =? _). }
  rewrite Z.eqb_refl. cbn [negb].
  destruct Hx as (Ho & Hd & _). cbn [fst snd] in *.
  set (pre := (header_fixed f ++ flat_map (be_bytes 4) (f_csrcs f)) ++
              be_bytes 2 kOneByteExtensionProfileId ++
              be_bytes 2 (zlen (block_body (els, n)) / 4)).
  set (post := replicate n 0 ++ f_payload f ++ padding_bytes (f_padding f)).
  assert (encode f = pre ++ elements_bytes els ++ post) as He.
  { unfold encode, pre, post. rewrite E. cbn [exts_bytes]. unfold block_body at 2.
    cbn [fst snd]. by rewrite <- !app_assoc. }
  assert (exts_offset f + 4 = zlen pre) as Hp.
  { unfold pre, exts_offset. rewrite !zlen_app, header_fixed_zlen, flat_map_be4_zlen,
      !be_bytes_zlen. lia. }
  rewrite He, Hp, update_first_spec by done.
  destruct (set_ast id t els) as [els'|] eqn:Es; cbn [mbind option_bind]; [|done].
  destruct (set_ast_shape _ _ _ _ Es Ho) as [_ Hz].
  assert (zlen (block_body (els', n)) = zlen (block_body (els, n))) as Hb
    by (unfold block_body; cbn [fst snd]; rewrite !zlen_app, Hz; done).
  match goal with |- context [mkFrame ?a ?b ?c ?d ?e ?g ?h ?i ?j] =>
    set (f' := mkFrame a b c d e g h i j) end.
  assert (encode f' = pre ++ elements_bytes els' ++ post) as He'.
  { unfold encode, pre, post. subst f'. cbn [f_csrcs f_exts f_payload f_padding exts_bytes].
    rewrite Hb. unfold block_body at 2. cbn [fst snd]. rewrite <- !app_assoc. f_equal.
    apply header_fixed_eq; try done. }
  assert (exts_offset f' = exts_offset f) as Hoff by done.
  assert (frame_payload_offset f' = frame_payload_offset f) as Hpo.
  { unfold frame_payload_offset. rewrite Hoff. subst f'. cbn [f_exts]. rewrite E.
    by rewrite !exts_bytes_zlen, Hb. }
  assert (zlen (encode f') = zlen (encode f)) as Hlen
    by (rewrite He, He', !zlen_app, Hz; done).
  lazy beta iota delta [built set_size_ set_buffer_ set_extensions_ parsed buffer_ extensions_ version_ has_padding_ has_extension_ csrc_count_ marker_ payload_type_
    sequence_number_ timestamp_ ssrc_ csrcs_ extension_profile_ extension_len_
    abs_send_time_ext_id_ payload_offset_ payload_size_ padding_size_ size_].
  rewrite Hpo, Hoff, Hlen, Hp, He'. subst f'. cbn [f_exts f_padding f_csrcs f_marker
    f_payload_type f_sequence_number f_timestamp f_ssrc f_payload].
  rewrite E, Hb, He. by rewrite !(bool_decide_true (is_Some (Some _))) by eauto.
Qed.

Lemma GetAbsoluteSendTimestamp_set id t f f' p :
  frame_set_ast id t f = Some f' ->
  GetAbsoluteSendTimestamp id (built f' p) = Some (Some (t `mod` 16777216)).
Proof.
  unfold frame_set_ast, GetAbsoluteSendTimestamp. destruct (f_exts f) as [[els n]|]; [|done].
  destruct (set_ast id t els) as [els'|] eqn:Es; cbn [mbind option_bind]; [|done].
  intros [= <-]. cbn [built set_size_ set_buffer_ extensions_ parsed f_exts fst].
  eapply get_first_ast. exact Es.
Qed.

(** ** The sequence number, rewritten in place *)

Definition frame_set_seq (s : Z) (f : RtpFrame) : RtpFrame :=
  mkFrame (f_marker f) (f_payload_type f) s (f_timestamp f) (f_ssrc f)
    (f_csrcs f) (f_exts f) (f_payload f) (f_padding f).

Lemma UpdateSequenceNumber_built s f p :
  UpdateSequenceNumber s (built f p) = Some (built (frame_set_seq s f) p).
Proof.
  unfold UpdateSequenceNumber. cbn [built set_size_ set_buffer_ buffer_].
  assert (exists h rest, encode f = h ++ be_bytes 2 (f_sequence_number f) ++ rest /\
            encode (frame_set_seq s f) = h ++ be_bytes 2 s ++ rest /\ zlen h = 2)
    as (h & rest & He & He' & Hh).
  { eexists [_; _], _. split_and!; [|unfold encode, header_fixed; cbn [app]; reflexivity|done].
    unfold encode, header_fixed. cbn [app]. reflexivity. }
  pose proof (zlen_nonneg rest).
  rewrite (proj2 (Z.leb_le _ _)) by (rewrite He, !zlen_app, be_bytes_zlen; lia).
  rewrite He, <- Hh, WriteBigEndian_mid by apply be_bytes_length. cbn [mbind option_bind].
  lazy beta iota delta [built set_size_ set_buffer_ set_sequence_number_ parsed version_ has_padding_ has_extension_ csrc_count_ marker_ payload_type_
    sequence_number_ timestamp_ ssrc_ csrcs_ extension_profile_ extension_len_ extensions_
    abs_send_time_ext_id_ payload_offset_ payload_size_ padding_size_ size_ buffer_].
  rewrite He, He', !zlen_app, !be_bytes_zlen. done.
Qed.

(** ** Properties *)

(** Any sequence of bytes can be given to the RTP parser: it never reads
    outside the buffer, and when it accepts, the header, contributing sources,
    extension elements, payload and padding all lie inside the buffer and
    account for every byte of it. *)
Theorem rtp_parse_safe (p : RtpPacket) (buffer : list Z) :
  bytes buffer ->
  exists ok p', Parse p buffer (zlen buffer) = Some (ok, p') /\
    (ok = true -> parsed_in p' buffer (zlen buffer)).
Proof. apply Parse_rtp_safe. Qed.

Lemma rtp_parse_safe_witness :
  exists ok p', Parse new_packet [128; 96; 0; 1] (zlen [128; 96; 0; 1]) = Some (ok, p') /\
    (ok = true -> parsed_in p' [128; 96; 0; 1] (zlen [128; 96; 0; 1])).
Proof. apply rtp_parse_safe. forall_lit. Defined.

(** C1. The parser inverts the wire format of RFC 3550 with the one-byte
    extensions of RFC 8285: a packet with any header fields, contributing
    sources, extension elements, payload and padding is accepted, every member
    is set to the field it comes from whatever the packet object held before,
    and [Payload] is exactly the payload. *)
Theorem rtp_build_decodes (f : RtpFrame) (p : RtpPacket) :
  frame_ok f ->
  Build p (encode f) (zlen (encode f)) = Some (true, built f p) /\
  Payload (built f p) = Some (f_payload f).
Proof. intros Hf. split; [by apply Build_encode|apply Payload_built]. Qed.

(** A packet with a marker, one contributing source, an absolute send time
    (element 3), one alignment byte kept by a second element, and padding. *)
Definition sample_frame : RtpFrame :=
  mkFrame true 96 65535 90000 0xDEADBEEF [7]
    (Some ([(3, [1; 2; 3]); (5, [9; 9])], 1%nat)) [1; 2; 3; 4] (Some [0; 0]).

Lemma sample_frame_ok : frame_ok sample_frame.
Proof.
  unfold frame_ok, exts_ok, is_u16, is_u32.
  split_and!; try (cbn; unfold zlen; cbn; lia); try done; forall_lit.
  change (Forall element_ok [(3, [1; 2; 3]); (5, [9; 9])] /\ (4 | 8) /\ 8 < 4 * 65536).
  split_and!; [|by exists 2|lia].
  unfold element_ok. forall_lit; cbn [fst snd]; split_and!; try (unfold zlen; cbn; lia); forall_lit.
  split; [forall_lit|done].
Defined.

Lemma rtp_build_decodes_witness :
  Build new_packet (encode sample_frame) (zlen (encode sample_frame)) =
    Some (true, built sample_frame new_packet) /\
  Payload (built sample_frame new_packet) = Some [1; 2; 3; 4].
Proof. exact (rtp_build_decodes sample_frame new_packet sample_frame_ok). Defined.

(** A packet that is sent again goes out as the same frame with the
    original sequence number in front of the payload, so that the receiver
    that parses it recovers the original packet: header, contributing sources,
    extension block and payload are copied unchanged. *)
Theorem rtx_carries_original (f : RtpFrame) (p : RtpPacket) (osn : Z) :
  frame_ok f -> f_padding f = None -> is_u16 osn -> zlen (encode f) < 65536 ->
  exists p', BuildRtxPacket (built f p) (Some osn) = Some (true, p') /\
    buffer_ p' = encode (rtx_frame osn f) /\
    Payload p' = Some (be_bytes 2 osn ++ f_payload f) /\
    Payload (add_offset_to_payload 2 p') = Some (f_payload f) /\
    sequence_number_ p' = f_sequence_number f /\ timestamp_ p' = f_timestamp f /\
    ssrc_ p' = f_ssrc f /\ payload_type_ p' = f_payload_type f /\
    csrcs_ p' = f_csrcs f /\ marker_ p' = f_marker f.
Proof.
  intros Hf Hp Ho Hz. eexists. split; [by apply BuildRtxPacket_built|].
  split; [done|]. split; [apply Payload_built|]. split; [|done].
  change 2 with (zlen (be_bytes 2 osn)). apply Payload_add_offset; [done|].
  rewrite encode_zlen in Hz. cbn [rtx_frame f_payload]. rewrite zlen_app, be_bytes_zlen.
  pose proof (zlen_nonneg (exts_bytes (f_exts f))). pose proof (zlen_nonneg (f_csrcs f)).
  pose proof (zlen_nonneg (padding_bytes (f_padding f))). lia.
Qed.

Definition sample_unpadded : RtpFrame :=
  mkFrame true 96 65535 90000 0xDEADBEEF [7]
    (Some ([(3, [1; 2; 3]); (5, [9; 9])], 1%nat)) [1; 2; 3; 4] None.

Lemma rtx_carries_original_witness :
  exists p', BuildRtxPacket (built sample_unpadded new_packet) (Some 77) = Some (true, p') /\
    buffer_ p' = encode (rtx_frame 77 sample_unpadded) /\
    Payload p' = Some [0; 77; 1; 2; 3; 4] /\
    Payload (add_offset_to_payload 2 p') = Some [1; 2; 3; 4] /\
    sequence_number_ p' = 65535 /\ timestamp_ p' = 90000 /\
    ssrc_ p' = 0xDEADBEEF /\ payload_type_ p' = 96 /\ csrcs_ p' = [7] /\ marker_ p' = true.
Proof.
  refine (rtx_carries_original sample_unpadded new_packet 77 _ eq_refl _ eq_refl).
  - destruct sample_frame_ok as (H1 & H2 & H3 & H4 & H5 & H6 & H7 & H8 & _).
    exact (conj H1 (conj H2 (conj H3 (conj H4 (conj H5 (conj H6 (conj H7 (conj H8 I)))))))).
  - split; reflexivity || discriminate.
Defined.

(** Stamping the send time in a built packet rewrites the first three-byte
    element with that id: the packet, its buffer included, becomes exactly what
    building the frame with the new element gives, the time read back from it
    is the stamp modulo [2^24], and a receiver that parses the buffer sees the
    same packet.  A packet with no such element is reported and left alone. *)
Theorem abs_send_time_rewritten (id t : Z) (f : RtpFrame) (p : RtpPacket) :
  frame_ok f ->
  match frame_set_ast id t f with
  | Some f' =>
      UpdateAbsoluteSendTimestamp id t (built f p) = Some (true, built f' p) /\
      GetAbsoluteSendTimestamp id (built f' p) = Some (Some (t `mod` 16777216)) /\
      Build p (encode f') (zlen (encode f)) = Some (true, built f' p)
  | None => UpdateAbsoluteSendTimestamp id t (built f p) = Some (false, built f p)
  end.
Proof.
  intros Hf. pose proof (UpdateAbsoluteSendTimestamp_built id t f p Hf) as Hu.
  destruct (frame_set_ast id t f) as [f'|] eqn:E; [|done].
  destruct (frame_set_ast_ok _ _ _ _ E Hf) as [Hf' <-].
  split_and!; [done|by eapply GetAbsoluteSendTimestamp_set|by apply Build_encode].
Qed.

Lemma abs_send_time_rewritten_witness :
  match frame_set_ast 3 0x1ABCDEF sample_frame with
  | Some f' =>
      UpdateAbsoluteSendTimestamp 3 0x1ABCDEF (built sample_frame new_packet) =
        Some (true, built f' new_packet) /\
      GetAbsoluteSendTimestamp 3 (built f' new_packet) = Some (Some (0x1ABCDEF `mod` 16777216)) /\
      Build new_packet (encode f') (zlen (encode sample_frame)) = Some (true, built f' new_packet)
  | None => UpdateAbsoluteSendTimestamp 3 0x1ABCDEF (built sample_frame new_packet) =
              Some (false, built sample_frame new_packet)
  end.
Proof. exact (abs_send_time_rewritten 3 0x1ABCDEF sample_frame new_packet sample_frame_ok). Defined.

(** Renumbering a built packet changes its sequence number and the two
    bytes that carry it, and nothing else: the result is the packet built from
    the renumbered frame, which parses back to it. *)
Theorem sequence_number_rewritten (s : Z) (f : RtpFrame) (p : RtpPacket) :
  frame_ok f -> is_u16 s ->
  UpdateSequenceNumber s (built f p) = Some (built (frame_set_seq s f) p) /\
  Build p (encode (frame_set_seq s f)) (zlen (encode f)) = Some (true, built (frame_set_seq s f) p).
Proof.
  intros Hf Hs. split; [apply UpdateSequenceNumber_built|].
  replace (zlen (encode f)) with (zlen (encode (frame_set_seq s f))).
  - apply Build_encode. destruct Hf as (H1 & H2 & Hf). exact (conj H1 (conj Hs Hf)).
  - unfold encode. rewrite !zlen_app, !header_fixed_zlen. done.
Qed.

Lemma sequence_number_rewritten_witness :
  UpdateSequenceNumber 5 (built sample_frame new_packet) =
    Some (built (frame_set_seq 5 sample_frame) new_packet) /\
  Build new_packet (encode (frame_set_seq 5 sample_frame)) (zlen (encode sample_frame)) =
    Some (true, built (frame_set_seq 5 sample_frame) new_packet).
Proof.
  refine (sequence_number_rewritten 5 sample_frame new_packet sample_frame_ok _).
  split; reflexivity || discriminate.
Defined.
