(* ===== verification/RtpToSend.v ===== *)
(** * Packets to be sent

    [RtpPacketToSend] of [src/rtp/rtp_packet/rtp_packet_to_send.h]: an RTP packet
    and what the sender notes about it on its way through the pacer, the history
    and the transport.  Its [additional_data_] is left out: nothing reads it. *)

From Stdlib Require Import String.
From S2P Require Import Prelude RtpPacket.

(** src/common/api/rtp_rtcp/rtp_rtcp_typedef.h:120-127 [RtpPacketMediaType] *)
Inductive RtpPacketMediaType :=
  | kAudio | kVideo | kRetransmission | kForwardErrorCorrection | kPadding.

#[export] Instance RtpPacketMediaType_eq_dec : EqDecision RtpPacketMediaType.
Proof. solve_decision. Defined.

(** The value as [size_t]. *)
Definition media_type_index (t : RtpPacketMediaType) : Z :=
  match t with
  | kAudio => 0 | kVideo => 1 | kRetransmission => 2 | kForwardErrorCorrection => 3
  | kPadding => 4
  end.

(** src/rtp/rtp_packet/rtp_packet_to_send.h:61-61 [RtpPacketToSend::OriginalType] *)
Inductive OriginalType := kOriginalAudio | kOriginalVideo.

(** src/rtp/rtp_packet/rtp_packet_to_send.h:166-185 [RtpPacketToSend] *)
Record RtpPacketToSend := mkToSend {
  rtp_packet : RtpPacket;
  capture_time_ : Z;
  packet_type_ : option RtpPacketMediaType;
  original_packet_type_ : option OriginalType;
  original_ssrc_ : option Z;
  transport_sequence_number_ : option Z;
  allow_retransmission_ : bool;
  retransmitted_sequence_number_ : option Z;
  is_first_packet_of_frame_ : bool;
  is_key_frame_ : bool;
  fec_protect_packet_ : bool;
  is_red_ : bool;
  send_as_ect1_ : bool;
  time_in_send_queue_ : option Z;
  stream_name_ : string;
}.

(** src/rtp/rtp_packet/rtp_packet_to_send.cpp:29-36 [RtpPacketToSend::set_packet_type] *)
Definition set_packet_type (type : RtpPacketMediaType) (p : RtpPacketToSend) : RtpPacketToSend :=
  let original :=
    match packet_type_ p with
    | Some kAudio => Some kOriginalAudio
    | Some kVideo => Some kOriginalVideo
    | _ => original_packet_type_ p
    end in
  mkToSend (rtp_packet p) (capture_time_ p) (Some type) original (original_ssrc_ p)
    (transport_sequence_number_ p) (allow_retransmission_ p) (retransmitted_sequence_number_ p)
    (is_first_packet_of_frame_ p) (is_key_frame_ p) (fec_protect_packet_ p) (is_red_ p)
    (send_as_ect1_ p) (time_in_send_queue_ p) (stream_name_ p).

(** src/rtp/rtp_packet/rtp_packet_to_send.h:141-143 [RtpPacketToSend::set_time_in_send_queue] *)
Definition set_time_in_send_queue (t : Z) (p : RtpPacketToSend) : RtpPacketToSend :=
  mkToSend (rtp_packet p) (capture_time_ p) (packet_type_ p) (original_packet_type_ p)
    (original_ssrc_ p)
    (transport_sequence_number_ p) (allow_retransmission_ p) (retransmitted_sequence_number_ p)
    (is_first_packet_of_frame_ p) (is_key_frame_ p) (fec_protect_packet_ p) (is_red_ p)
    (send_as_ect1_ p) (Some t) (stream_name_ p).

(** src/rtp/rtp_packet/rtp_packet_to_send.h:161-163 [RtpPacketToSend::set_stream_name] *)
Definition set_stream_name (name : string) (p : RtpPacketToSend) : RtpPacketToSend :=
  mkToSend (rtp_packet p) (capture_time_ p) (packet_type_ p) (original_packet_type_ p)
    (original_ssrc_ p)
    (transport_sequence_number_ p) (allow_retransmission_ p) (retransmitted_sequence_number_ p)
    (is_first_packet_of_frame_ p) (is_key_frame_ p) (fec_protect_packet_ p) (is_red_ p)
    (send_as_ect1_ p) (time_in_send_queue_ p) name.

Definition Ssrc (p : RtpPacketToSend) : Z := ssrc_ (rtp_packet p).
Definition SequenceNumber (p : RtpPacketToSend) : Z := sequence_number_ (rtp_packet p).

(** A packet as a packetizer leaves it. *)
(** src/rtp/rtp_packet/rtp_packet_to_send.h:166-185 [RtpPacketToSend::RtpPacketToSend] *)
Definition new_to_send (p : RtpPacket) : RtpPacketToSend :=
  mkToSend p 0 None None None None false None false false false false false None EmptyString.
