(* ===== verification/RtpTimestamp.v ===== *)
(** * Capture times on the wire

    [src/rtp/rtp_packet/rtp_timestamp.h]: the sender turns capture times into
    32-bit RTP timestamps, the receiver turns these back into times of its own
    clock, with the help of sender reports.  Both wrap; the theorem at the end
    says that together they recover the capture times. *)

From S2P Require Import Prelude Units.

(** src/rtp/rtp_packet/rtp_timestamp.h:16-16 [kRtpTimestampMicrosecondsPerSecond] *)
Definition kRtpTimestampMicrosecondsPerSecond : Z := 1000000.

(** src/rtp/rtp_packet/rtp_timestamp.h:18-25 [RtpTicksToMicroseconds] *)
Definition RtpTicksToMicroseconds (ticks clock_rate : Z) : Z :=
  if clock_rate =? 0 then 0 else
  Z.quot ticks clock_rate * kRtpTimestampMicrosecondsPerSecond +
  Z.quot (Z.rem ticks clock_rate * kRtpTimestampMicrosecondsPerSecond) clock_rate.

(** src/rtp/rtp_packet/rtp_timestamp.h:27-44 [ExtrapolateRtpTimestamp] *)
Definition ExtrapolateRtpTimestamp (anchor_rtp_timestamp anchor_time_us target_time_us clock_rate : Z)
    : Z :=
  let elapsed_us := target_time_us - anchor_time_us in
  let absolute_elapsed_us :=
    if 0 <=? elapsed_us then u64 elapsed_us else u64 (u64 (- (elapsed_us + 1)) + 1) in
  let elapsed_ticks :=
    u64 (u64 (absolute_elapsed_us / kRtpTimestampMicrosecondsPerSecond * clock_rate) +
         u64 (absolute_elapsed_us mod kRtpTimestampMicrosecondsPerSecond * clock_rate) /
           kRtpTimestampMicrosecondsPerSecond) in
  if 0 <=? elapsed_us
  then u32 (anchor_rtp_timestamp + u32 elapsed_ticks)
  else u32 (anchor_rtp_timestamp - u32 elapsed_ticks).

(** ** The sender's clock *)

(** src/rtp/rtp_packet/rtp_timestamp.h:89-91 [RtpTimestampGenerator] *)
Record RtpTimestampGenerator := mkTimestampGenerator {
  generator_clock_rate_ : Z;
  generator_base_timestamp_ : Z;
  first_capture_time_us_ : option Z;
}.

(** src/rtp/rtp_packet/rtp_timestamp.h:50-51 [RtpTimestampGenerator::RtpTimestampGenerator] *)
Definition new_timestamp_generator (clock_rate base_timestamp : Z) : RtpTimestampGenerator :=
  mkTimestampGenerator clock_rate base_timestamp None.

(** src/rtp/rtp_packet/rtp_timestamp.h:74-87 [RtpTimestampGenerator::TimestampForTimeUsLocked] *)
Definition TimestampForTimeUsLocked (first time_us : Z) (g : RtpTimestampGenerator) : Z :=
  let elapsed_us := time_us - first in
  if elapsed_us <=? 0 then generator_base_timestamp_ g else
  ExtrapolateRtpTimestamp (generator_base_timestamp_ g) first time_us (generator_clock_rate_ g).

(** src/rtp/rtp_packet/rtp_timestamp.h:53-61 [RtpTimestampGenerator::TimestampForCaptureTimeUs] *)
Definition TimestampForCaptureTimeUs (capture_time_us : Z) (g : RtpTimestampGenerator)
    : Z * RtpTimestampGenerator :=
  match first_capture_time_us_ g with
  | None =>
      (generator_base_timestamp_ g,
       mkTimestampGenerator (generator_clock_rate_ g) (generator_base_timestamp_ g) (Some capture_time_us))
  | Some first => (TimestampForTimeUsLocked first capture_time_us g, g)
  end.

(** src/rtp/rtp_packet/rtp_timestamp.h:65-71 [RtpTimestampGenerator::TimestampForPaddingTimeUs] *)
Definition TimestampForPaddingTimeUs (time_us : Z) (g : RtpTimestampGenerator) : Z :=
  match first_capture_time_us_ g with
  | None => generator_base_timestamp_ g
  | Some first => TimestampForTimeUsLocked first time_us g
  end.

(** src/rtp/rtp_packet/rtp_timestamp.h:128-130 [RtpSampleTimestampGenerator] *)
Record RtpSampleTimestampGenerator := mkSampleGenerator {
  sample_base_timestamp_ : Z;
  sample_count_ : Z;
  sample_first_capture_time_us_ : option Z;
}.

(** src/rtp/rtp_packet/rtp_timestamp.h:126-126 [RtpSampleTimestampGenerator::kOpusRtpClockRate] *)
Definition kOpusRtpClockRate : Z := 48000.

(** src/rtp/rtp_packet/rtp_timestamp.h:106-107 [RtpSampleTimestampGenerator::RtpSampleTimestampGenerator] *)
Definition new_sample_generator (base_timestamp : Z) : RtpSampleTimestampGenerator :=
  mkSampleGenerator base_timestamp 0 None.

(** The timestamp and the media time of the next samples. *)
(** src/rtp/rtp_packet/rtp_timestamp.h:109-124 [RtpSampleTimestampGenerator::NextTimestamp] *)
Definition NextTimestamp (samples_per_channel capture_time_us : Z) (g : RtpSampleTimestampGenerator)
    : (Z * Z) * RtpSampleTimestampGenerator :=
  let first := default capture_time_us (sample_first_capture_time_us_ g) in
  let timestamp := u32 (sample_base_timestamp_ g + u32 (sample_count_ g)) in
  let media_time_us := first + RtpTicksToMicroseconds (s64 (sample_count_ g)) kOpusRtpClockRate in
  ((timestamp, media_time_us),
   mkSampleGenerator (sample_base_timestamp_ g) (u64 (sample_count_ g + samples_per_channel)) (Some first)).

(** ** The receiver's clock *)

(** src/rtp/rtp_packet/rtp_timestamp.h:180-209 [RtpTimestampMapper::TimestampUnwrapper] *)
Record TimestampUnwrapper := mkTimestampUnwrapper {
  last_timestamp_ : option Z;
  last_unwrapped_timestamp_ : Z;
}.

(** src/rtp/rtp_packet/rtp_timestamp.h:182-199 [RtpTimestampMapper::TimestampUnwrapper::Unwrap] *)
Definition UnwrapTimestamp (timestamp : Z) (u : TimestampUnwrapper) : Z * TimestampUnwrapper :=
  match last_timestamp_ u with
  | None => (timestamp, mkTimestampUnwrapper (Some timestamp) timestamp)
  | Some last_timestamp =>
      let wrapped_delta := u32 (timestamp - last_timestamp) in
      let delta := if wrapped_delta <=? 0x7fffffff then wrapped_delta
                   else wrapped_delta - 4294967296 in
      let unwrapped := last_unwrapped_timestamp_ u + delta in
      (unwrapped, mkTimestampUnwrapper (Some timestamp) unwrapped)
  end.

(** src/rtp/rtp_packet/rtp_timestamp.h:211-216 [RtpTimestampMapper] *)
Record RtpTimestampMapper := mkMapper {
  mapper_clock_rate_ : Z;
  timestamp_unwrapper_ : TimestampUnwrapper;
  first_unwrapped_timestamp_ : option Z;
  first_local_time_us_ : Z;
  sender_report_unwrapped_timestamp_ : option Z;
  sender_report_local_time_us_ : Z;
}.

(** src/rtp/rtp_packet/rtp_timestamp.h:141-141 [RtpTimestampMapper::RtpTimestampMapper] *)
Definition new_mapper (clock_rate : Z) : RtpTimestampMapper :=
  mkMapper clock_rate (mkTimestampUnwrapper None 0) None 0 None 0.

(** src/rtp/rtp_packet/rtp_timestamp.h:143-162 [RtpTimestampMapper::ToLocalTimeUs] *)
Definition ToLocalTimeUs (rtp_timestamp arrival_time_us : Z) (m : RtpTimestampMapper)
    : Z * RtpTimestampMapper :=
  let '(unwrapped_timestamp, u) := UnwrapTimestamp rtp_timestamp (timestamp_unwrapper_ m) in
  let m := mkMapper (mapper_clock_rate_ m) u (first_unwrapped_timestamp_ m) (first_local_time_us_ m)
             (sender_report_unwrapped_timestamp_ m) (sender_report_local_time_us_ m) in
  match sender_report_unwrapped_timestamp_ m with
  | Some sender_report =>
      (sender_report_local_time_us_ m +
         RtpTicksToMicroseconds (unwrapped_timestamp - sender_report) (mapper_clock_rate_ m), m)
  | None =>
      match first_unwrapped_timestamp_ m with
      | None =>
          (arrival_time_us,
           mkMapper (mapper_clock_rate_ m) u (Some unwrapped_timestamp) arrival_time_us None
             (sender_report_local_time_us_ m))
      | Some first =>
          (first_local_time_us_ m +
             RtpTicksToMicroseconds (unwrapped_timestamp - first) (mapper_clock_rate_ m), m)
      end
  end.

(** src/rtp/rtp_packet/rtp_timestamp.h:164-169 [RtpTimestampMapper::UpdateFromSenderReport] *)
Definition UpdateFromSenderReport (rtp_timestamp sender_report_local_time_us : Z)
    (m : RtpTimestampMapper) : RtpTimestampMapper :=
  let '(unwrapped, u) := UnwrapTimestamp rtp_timestamp (timestamp_unwrapper_ m) in
  mkMapper (mapper_clock_rate_ m) u (first_unwrapped_timestamp_ m) (first_local_time_us_ m)
    (Some unwrapped) sender_report_local_time_us.

(** src/rtp/rtp_packet/rtp_timestamp.h:171-178 [RtpTimestampMapper::Reset] *)
Definition ResetMapper (m : RtpTimestampMapper) : RtpTimestampMapper := new_mapper (mapper_clock_rate_ m).

(** ** Lemmas: the two conversions *)

Lemma u32_u64 x : u32 (u64 x) = u32 x.
Proof. unfold u32, u64. zdm. Qed.

Lemma u32_add_u32 a x : u32 (a + u32 x) = u32 (a + x).
Proof. unfold u32. by rewrite Zplus_mod_idemp_r. Qed.

Lemma u32_sub_u32 a x : u32 (a - u32 x) = u32 (a - x).
Proof. unfold u32. by rewrite Zminus_mod_idemp_r. Qed.

(** Elapsed time in ticks, towards the anchor; no step overflows. *)
Definition elapsed (rate e : Z) : Z :=
  if 0 <=? e then e * rate / 1000000 else - (- e * rate / 1000000).

Lemma extrapolate_exact anchor t0 t1 rate :
  is_u32 rate -> -9223372036854775808 < t1 - t0 < 9223372036854775808 ->
  ExtrapolateRtpTimestamp anchor t0 t1 rate = u32 (anchor + elapsed rate (t1 - t0)).
Proof.
  unfold is_u32, ExtrapolateRtpTimestamp, elapsed, kRtpTimestampMicrosecondsPerSecond. intros Hr Ht. cbv zeta.
  set (e := t1 - t0) in *. clearbody e.
  assert (forall a, 0 <= a < 9223372036854775808 ->
    u32 (u64 (u64 (a / 1000000 * rate) + u64 (a mod 1000000 * rate) / 1000000)) = u32 (a * rate / 1000000)) as Hticks.
  { intros a Ha. rewrite u32_u64. assert (0 <= a mod 1000000 < 1000000) as Hm by (apply Z.mod_pos_bound; lia).
    rewrite (u64_id (a mod 1000000 * rate)) by (unfold is_u64; nia).
    rewrite Z.add_comm, <- u32_add_u32, u32_u64, u32_add_u32.
    rewrite (Z.div_mod a 1000000) at 3 by lia.
    replace ((1000000 * (a / 1000000) + a mod 1000000) * rate) with (a mod 1000000 * rate + (a / 1000000 * rate) * 1000000) by ring.
    by rewrite Z.div_add by lia. }
  destruct (Z.leb_spec 0 e).
  - rewrite (u64_id e) by (unfold is_u64; lia). by rewrite Hticks, u32_add_u32 by lia.
  - rewrite (u64_id (- (e + 1))) by (unfold is_u64; lia). replace (- (e + 1) + 1) with (- e) by lia.
    rewrite (u64_id (- e)) by (unfold is_u64; lia). by rewrite Hticks, u32_sub_u32 by lia.
Qed.

Lemma ticks_to_us d rate : 0 < rate -> Z.abs (RtpTicksToMicroseconds d rate * rate - d * 1000000) < rate.
Proof.
  intros Hr. unfold RtpTicksToMicroseconds, kRtpTimestampMicrosecondsPerSecond.
  destruct (Z.eqb_spec rate 0); [lia|].
  pose proof (Z.quot_rem d rate ltac:(lia)) as H1.
  pose proof (Z.quot_rem (Z.rem d rate * 1000000) rate ltac:(lia)) as H2.
  pose proof (Z.rem_bound_abs (Z.rem d rate * 1000000) rate ltac:(lia)) as H3.
  rewrite Z.mul_add_distr_r.
  replace (Z.quot (Z.rem d rate * 1000000) rate * rate)
    with (Z.rem d rate * 1000000 - Z.rem (Z.rem d rate * 1000000) rate) by lia.
  replace (Z.quot d rate * 1000000 * rate) with ((d - Z.rem d rate) * 1000000) by lia. lia.
Qed.

(** The unwrapper follows the true count of ticks, up to a constant. *)
Lemma UnwrapTimestamp_follows x y k :
  -2147483648 <= y - x < 2147483648 ->
  UnwrapTimestamp (u32 y) (mkTimestampUnwrapper (Some (u32 x)) (x + k)) =
    (y + k, mkTimestampUnwrapper (Some (u32 y)) (y + k)).
Proof.
  intros H. unfold UnwrapTimestamp. cbn [last_timestamp_ last_unwrapped_timestamp_].
  assert (x + k + (if u32 (u32 y - u32 x) <=? 0x7fffffff then u32 (u32 y - u32 x)
    else u32 (u32 y - u32 x) - 4294967296) = y + k) as ->; [|done].
  rewrite u32_sub_u32. assert (u32 (u32 y - x) = u32 (y - x)) as -> by (unfold u32; by rewrite Zminus_mod_idemp_l).
  unfold u32. case_match; b2p; zdm.
Qed.

(** ** The capture timeline, end to end *)

(** A frame captured at a time, and assembled by the receiver at another; and a
    sender report written at [now] from the timestamp of a frame captured
    before, whose NTP time the receiver translates to [local]. *)
Inductive TimelineEvent :=
  | CapturedFrame (capture arrival : Z)
  | SenderReportAt (capture now local : Z).

Definition timeline_step (e : TimelineEvent) (g : RtpTimestampGenerator) (m : RtpTimestampMapper)
    : option Z * RtpTimestampGenerator * RtpTimestampMapper :=
  match e with
  | CapturedFrame capture arrival =>
      let '(timestamp, g) := TimestampForCaptureTimeUs capture g in
      let '(captured, m) := ToLocalTimeUs timestamp arrival m in
      (Some captured, g, m)
  | SenderReportAt capture now local =>
      let '(timestamp, g) := TimestampForCaptureTimeUs capture g in
      (None, g, UpdateFromSenderReport
        (ExtrapolateRtpTimestamp timestamp capture now (generator_clock_rate_ g)) local m)
  end.

(** The capture times as the receiver gives them to the frames. *)
Fixpoint timeline_run (es : list TimelineEvent) (g : RtpTimestampGenerator) (m : RtpTimestampMapper)
    : list Z :=
  match es with
  | [] => []
  | e :: es =>
      let '(out, g, m) := timeline_step e g m in option_list out ++ timeline_run es g m
  end.

(** What they should be: with the clocks of sender and receiver aligned by the
    last report or, before any, by the first frame. *)
Fixpoint timeline_spec (reported : bool) (anchor : option (Z * Z)) (es : list TimelineEvent) : list Z :=
  match es with
  | [] => []
  | CapturedFrame capture arrival :: es =>
      let '(local, sent) := default (arrival, capture) anchor in
      (local + (capture - sent)) :: timeline_spec reported (Some (local, sent)) es
  | SenderReportAt _ now local :: es => timeline_spec true (Some (local, now)) es
  end.

Definition event_time (e : TimelineEvent) : Z :=
  match e with CapturedFrame capture _ => capture | SenderReportAt _ now _ => now end.

Definition timeline_event_ok (c0 : Z) (e : TimelineEvent) : Prop :=
  match e with
  | CapturedFrame capture _ => c0 <= capture < c0 + 4611686018427387904
  | SenderReportAt capture now _ => c0 <= capture <= now /\ now < c0 + 4611686018427387904
  end.

(** Successive events are less than half the timestamp range apart. *)
Fixpoint half_range_apart (rate t : Z) (es : list TimelineEvent) : Prop :=
  match es with
  | [] => True
  | e :: es => Z.abs (event_time e - t) * rate <= 2147483644 * 1000000 /\ half_range_apart rate (event_time e) es
  end.

Section timeline.
Context (rate base c0 : Z) (Hrate : is_u32 rate) (Hpos : 0 < rate) (Hbase : is_u32 base).

(** [x] ticks is a fair reading of the time [t]. *)
Definition reads (x t : Z) : Prop :=
  (t - c0) * rate - 2000000 < (x - base) * 1000000 <= (t - c0) * rate.

Lemma reads_close x t y u :
  reads x t -> reads y u -> Z.abs (u - t) * rate <= 2147483644 * 1000000 -> -2147483648 <= y - x < 2147483648.
Proof. unfold reads. intros Hx Hy H. nia. Qed.

Definition generator : RtpTimestampGenerator := mkTimestampGenerator rate base (Some c0).

Lemma elapsed_nonneg e : 0 <= e -> e * rate - 1000000 < elapsed rate e * 1000000 <= e * rate.
Proof.
  intros He. unfold elapsed. rewrite (proj2 (Z.leb_le 0 e)) by lia.
  pose proof (Z.mul_div_le (e * rate) 1000000 ltac:(lia)).
  pose proof (Z.mul_succ_div_gt (e * rate) 1000000 ltac:(lia)). lia.
Qed.

(** What the sender writes for an event. *)
Definition event_ticks (e : TimelineEvent) : Z :=
  match e with
  | CapturedFrame capture _ => base + elapsed rate (capture - c0)
  | SenderReportAt capture now _ => base + elapsed rate (capture - c0) + elapsed rate (now - capture)
  end.

Lemma event_ticks_reads e : timeline_event_ok c0 e -> reads (event_ticks e) (event_time e).
Proof.
  unfold reads. destruct e as [c a|c n l]; cbn [timeline_event_ok event_ticks event_time]; intros H.
  - pose proof (elapsed_nonneg (c - c0) ltac:(lia)). lia.
  - pose proof (elapsed_nonneg (c - c0) ltac:(lia)). pose proof (elapsed_nonneg (n - c) ltac:(lia)). nia.
Qed.

Lemma TimestampForCapture_ticks c :
  c0 <= c < c0 + 4611686018427387904 ->
  TimestampForCaptureTimeUs c generator = (u32 (base + elapsed rate (c - c0)), generator).
Proof.
  intros Hc. unfold TimestampForCaptureTimeUs, TimestampForTimeUsLocked. cbn [generator first_capture_time_us_
    generator_base_timestamp_ generator_clock_rate_]. f_equal.
  destruct (Z.leb_spec (c - c0) 0); [|by apply extrapolate_exact; [|lia]].
  replace (c - c0) with 0 by lia. unfold elapsed. cbn. by rewrite Z.add_0_r, u32_id.
Qed.

(** What the mapper knows: the last event's ticks, and a reading of the anchor. *)
Record follows (reported : bool) (anchor : option (Z * Z)) (last : option Z) (k : Z) (m : RtpTimestampMapper)
    : Prop := {
  fo_rate : mapper_clock_rate_ m = rate;
  fo_last : match last with
    | None => last_timestamp_ (timestamp_unwrapper_ m) = None
    | Some x => timestamp_unwrapper_ m = mkTimestampUnwrapper (Some (u32 x)) (x + k)
    end;
  fo_anchor : match anchor with
    | None => first_unwrapped_timestamp_ m = None /\ reported = false
    | Some (local, t) => exists x, reads x t /\
        (if reported
         then sender_report_unwrapped_timestamp_ m = Some (x + k) /\ sender_report_local_time_us_ m = local
         else first_unwrapped_timestamp_ m = Some (x + k) /\ first_local_time_us_ m = local)
    end;
  fo_report : reported = false -> sender_report_unwrapped_timestamp_ m = None;
}.

Definition close (out ideal : Z) : Prop := Z.abs (out - ideal) * rate < 2000000 + rate.

Lemma close_ticks local t c x y k :
  reads x t -> reads y c ->
  close (local + RtpTicksToMicroseconds (y + k - (x + k)) rate) (local + (c - t)).
Proof.
  unfold reads, close. intros Hx Hy. replace (y + k - (x + k)) with (y - x) by lia.
  pose proof (ticks_to_us (y - x) rate Hpos). nia.
Qed.

(** The unwrapper takes the next event in. *)
Lemma unwrap_event reported anchor last t m e :
  timeline_event_ok c0 e ->
  match last with
  | None => forall k, follows reported anchor None k m
  | Some (x, k) => follows reported anchor (Some x) k m /\ reads x t /\
      Z.abs (event_time e - t) * rate <= 2147483644 * 1000000
  end ->
  exists k, follows reported anchor (option_map fst last) k m /\
    UnwrapTimestamp (u32 (event_ticks e)) (timestamp_unwrapper_ m) =
      (event_ticks e + k, mkTimestampUnwrapper (Some (u32 (event_ticks e))) (event_ticks e + k)).
Proof.
  intros He H. pose proof (event_ticks_reads e He) as Hy. destruct last as [[x k]|].
  - destruct H as (H & Hx & Hclose). exists k. split; [exact H|].
    rewrite (fo_last _ _ _ _ _ H). apply UnwrapTimestamp_follows. by eapply reads_close.
  - exists (u32 (event_ticks e) - event_ticks e). split; [apply H|].
    unfold UnwrapTimestamp. rewrite (fo_last _ _ _ _ _ (H 0)). by rewrite !Zplus_minus.
Qed.

Definition knows (reported : bool) (anchor : option (Z * Z)) (last : option (Z * Z)) (t : Z) m : Prop :=
  match last with
  | None => forall k, follows reported anchor None k m
  | Some (x, k) => follows reported anchor (Some x) k m /\ reads x t
  end.

Lemma timeline_run_close es reported anchor last t m :
  knows reported anchor last t m -> Forall (timeline_event_ok c0) es -> half_range_apart rate t es ->
  Forall2 close (timeline_run es generator m) (timeline_spec reported anchor es).
Proof.
  revert reported anchor last t m. induction es as [|e es IH]; intros reported anchor last t m H Hes Hd;
    [constructor|].
  apply Forall_cons_1 in Hes as [He Hes]. destruct Hd as [Hd Hds]. pose proof (event_ticks_reads e He) as Hy.
  destruct (unwrap_event reported anchor last t m e He) as (k & F & Hu);
    [destruct last as [[x k]|]; [destruct H; by split_and!|exact H]|].
  cbn [timeline_run]. destruct e as [c a|c n l]; cbn [timeline_event_ok event_time timeline_spec] in *;
    unfold timeline_step; rewrite TimestampForCapture_ticks by lia.
  - cbn [event_ticks] in *. unfold ToLocalTimeUs. rewrite Hu. cbn [sender_report_unwrapped_timestamp_ first_unwrapped_timestamp_].
    set (y := base + elapsed rate (c - c0)) in *.
    pose proof (fo_anchor _ _ _ _ _ F) as Ha. rewrite (fo_rate _ _ _ _ _ F).
    destruct anchor as [[local t']|].
    + destruct Ha as (x & Hx & Ha). destruct reported; destruct Ha as [E <-].
      * rewrite E. cbn [option_list app default]. constructor; [by apply close_ticks|].
        eapply (IH _ _ (Some (y, k)) c); [split; [|done]|done|done].
        split; [done|done|by exists x|done].
      * pose proof (fo_report _ _ _ _ _ F eq_refl) as Er. rewrite Er, E. cbn [option_list app default].
        constructor; [by apply close_ticks|].
        eapply (IH _ _ (Some (y, k)) c); [split; [|done]|done|done].
        split; [done|done|by exists x|done].
    + destruct Ha as [E ->]. pose proof (fo_report _ _ _ _ _ F eq_refl) as Er. rewrite Er, E.
      cbn [option_list app default]. constructor; [unfold close; lia|].
      eapply (IH _ _ (Some (y, k)) c); [split; [|done]|done|done].
      split; [done|done|by exists y|done].
  - cbn [event_ticks generator_clock_rate_ generator] in *. rewrite extrapolate_exact by (done || lia).
    rewrite <- u32_add_u32, (u32_add_u32 (u32 _)).
    assert (u32 (u32 (base + elapsed rate (c - c0)) + elapsed rate (n - c)) =
      u32 (base + elapsed rate (c - c0) + elapsed rate (n - c))) as ->
      by (unfold u32; by rewrite Zplus_mod_idemp_l).
    unfold UpdateFromSenderReport. rewrite Hu. cbn [option_list app].
    set (y := base + _ + _) in *.
    eapply (IH _ _ (Some (y, k)) n); [split; [|done]|done|done].
    split; [apply F|done|by exists y|done].
Qed.
End timeline.

(** C38. Capture times survive the wire: whatever frames and sender reports
    arrive, in any order, across any number of wraps of the 32-bit timestamps,
    the capture time given to each frame is the sender's, moved by the offset
    between the clocks that the last report told (before any, by the offset of
    the first frame), up to two ticks of the RTP clock and a microsecond.  The
    events of the stream are less than half the range of the timestamps apart,
    one from the next (6.6 hours at 90 kHz). *)
Theorem capture_times_recovered (rate base c0 : Z) (es : list TimelineEvent) :
  is_u32 rate -> 0 < rate -> is_u32 base ->
  Forall (timeline_event_ok c0) es -> half_range_apart rate c0 es ->
  Forall2 (close rate)
    (timeline_run es (TimestampForCaptureTimeUs c0 (new_timestamp_generator rate base)).2 (new_mapper rate))
    (timeline_spec false None es).
Proof.
  intros Hr Hp Hb Hes Hd. eapply (timeline_run_close rate base c0 Hr Hp Hb es false None None c0); [|done|done].
  intros k. by split.
Qed.

(** Over a wrap of the timestamps: two frames, a report, and frames out of order. *)
Definition sample_timeline : list TimelineEvent :=
  [CapturedFrame 5000 90000; CapturedFrame 38333 125000; SenderReportAt 38333 40000 126000;
   CapturedFrame 100000000 100090000; CapturedFrame 71666 159000].

Lemma capture_times_recovered_witness :
  Forall2 (close 90000)
    (timeline_run sample_timeline
       (TimestampForCaptureTimeUs 5000 (new_timestamp_generator 90000 4294967290)).2 (new_mapper 90000))
    (timeline_spec false None sample_timeline).
Proof.
  apply (capture_times_recovered 90000 4294967290 5000 sample_timeline).
  - unfold is_u32. lia.
  - lia.
  - unfold is_u32. lia.
  - repeat constructor; lia.
  - cbn. lia.
Defined.

(** Sample-clocked media: the timestamp counts the samples, and the media time
    is the time they take at 48 kHz, whatever the capture times are later. *)
Lemma NextTimestamp_counts n c (g : RtpSampleTimestampGenerator) :
  0 <= sample_count_ g < 9223372036854775808 ->
  let '((timestamp, media_time), _) := NextTimestamp n c g in
  timestamp = u32 (sample_base_timestamp_ g + sample_count_ g) /\
  Z.abs ((media_time - default c (sample_first_capture_time_us_ g)) * 48000 - sample_count_ g * 1000000) < 48000.
Proof.
  intros Hc. unfold NextTimestamp. rewrite u32_add_u32. split; [done|].
  unfold s64. rewrite Z.mod_small, Z.add_simpl_r by lia.
  pose proof (ticks_to_us (sample_count_ g) kOpusRtpClockRate ltac:(done)) as H. unfold kOpusRtpClockRate in *. lia.
Qed.
