(* ===== verification/Packetizer.v ===== *)
(** * Packetizers

    [RtpPacketizer] and its H.264 and generic implementations
    ([src/rtp/rtp_packetizer/]): a video frame becomes a train of RTP packets.
    The members [version_], [has_padding_], [has_extension_], [csrc_count_],
    [marker_] and [timestamp_] are assigned for each packet before they are
    read, and [csrcs_] is never assigned; the state that lasts is the record
    [Packetizer] below.  The depacketizer of H.264 ([RtpPacketH264] of
    [src/rtp/rtp_packet/]) is here too, for the theorem that puts a frame back
    together.  [None] is an access outside a buffer. *)

From S2P Require Import Prelude ByteIO Rtcp RtpPacket.

(** src/rtp/rtp_packet/rtp_defines.h:13-14 [MAX_NALU_LEN] *)
Definition MAX_NALU_LEN : Z := 1150.

(** src/rtp/rtp_packet/rtp_defines.h:19-29 [PAYLOAD_TYPE] *)
Inductive PAYLOAD_TYPE :=
  | UNDEFINED | H264 | H264_FEC_SOURCE | H264_FEC_REPAIR | AV1 | OPUS | RTX | DATA | KCP.

Definition payload_type_value (t : PAYLOAD_TYPE) : Z :=
  match t with
  | UNDEFINED => 0 | H264 => 96 | H264_FEC_SOURCE => 97 | H264_FEC_REPAIR => 98
  | AV1 => 99 | OPUS => 111 | RTX => 127 | DATA => 120 | KCP => 121
  end.

(** src/rtp/rtp_packet/rtp_defines.h:44-44 [NAL_UNIT_TYPE] *)
Inductive NAL_UNIT_TYPE := UNKNOWN | NALU | FU_A | FU_B.

Definition nal_unit_type_value (t : NAL_UNIT_TYPE) : Z :=
  match t with UNKNOWN => 0 | NALU => 1 | FU_A => 28 | FU_B => 29 end.

(** src/rtp/rtp_packet/rtp_defines.h:31-35 [FU_INDICATOR] *)
Record FU_INDICATOR := mkFuIndicator {
  forbidden_bit : Z;
  nal_reference_idc : Z;
  fi_nal_unit_type : Z;
}.

(** src/rtp/rtp_packet/rtp_defines.h:37-42 [FU_HEADER] *)
Record FU_HEADER := mkFuHeader {
  fu_start : Z;
  fu_end : Z;
  remain_bit : Z;
  fh_nal_unit_type : Z;
}.

(** src/rtp/rtp_packetizer/rtp_packetizer_h264.h:43-70 [RtpPacketizerH264] *)
Record Packetizer := mkPacketizer {
  pz_payload_type : Z;
  pz_sequence_number : Z;
  pz_ssrc : Z;
  pz_abs_send_time_ext_id : option Z;
  current_frame_is_key_frame : bool;
}.

Definition pz_set_seq (s : Z) (st : Packetizer) : Packetizer :=
  mkPacketizer (pz_payload_type st) s (pz_ssrc st) (pz_abs_send_time_ext_id st)
    (current_frame_is_key_frame st).

(** src/rtp/rtp_packetizer/rtp_packetizer_h264.cpp:5-18 [RtpPacketizerH264::RtpPacketizerH264] *)
Definition RtpPacketizerH264 (ssrc : Z) : Packetizer :=
  mkPacketizer (payload_type_value H264) 0 ssrc None false.

(** src/rtp/rtp_packetizer/rtp_packetizer_generic.cpp:5-18 [RtpPacketizerGeneric::RtpPacketizerGeneric] *)
Definition RtpPacketizerGeneric (ssrc payload_type : Z) : Packetizer :=
  mkPacketizer payload_type 0 ssrc None false.

(** src/rtp/rtp_packetizer/rtp_packetizer_av1.cpp:10-23 [RtpPacketizerAv1::RtpPacketizerAv1] *)
Definition RtpPacketizerAv1 (ssrc : Z) : Packetizer :=
  mkPacketizer (payload_type_value AV1) 0 ssrc None false.

(** src/rtp/rtp_packetizer/rtp_packetizer_av1.h:30-32 [RtpPacketizerAv1::SetIsKeyFrame] *)
Definition SetIsKeyFrame (is_key_frame : bool) (st : Packetizer) : Packetizer :=
  mkPacketizer (pz_payload_type st) (pz_sequence_number st) (pz_ssrc st)
    (pz_abs_send_time_ext_id st) is_key_frame.

(** The class [Create] instantiates. *)
Inductive PacketizerKind := KindH264 | KindAv1 | KindGeneric.

(** src/rtp/rtp_packetizer/rtp_packetizer.cpp:10-20 [RtpPacketizer::Create] *)
Definition Create (payload_type ssrc : Z) : PacketizerKind * Packetizer :=
  if payload_type =? payload_type_value H264 then (KindH264, RtpPacketizerH264 ssrc)
  else if payload_type =? payload_type_value AV1 then (KindAv1, RtpPacketizerAv1 ssrc)
  else (KindGeneric, RtpPacketizerGeneric ssrc payload_type).

(** src/rtp/rtp_packet/rtp_header_extension.h:19-22 [IsValidOneByteExtensionId] *)
Definition IsValidOneByteExtensionId (id : Z) : bool := (1 <=? id) && (id <=? 14).

(** src/rtp/rtp_packetizer/rtp_packetizer.cpp:22-30 [RtpPacketizer::SetAbsoluteSendTimeExtensionId] *)
Definition SetAbsoluteSendTimeExtensionId (extension_id : option Z) (st : Packetizer)
    : Packetizer :=
  let v := match extension_id with
           | Some id => if negb (IsValidOneByteExtensionId id) then None else extension_id
           | None => extension_id
           end in
  mkPacketizer (pz_payload_type st) (pz_sequence_number st) (pz_ssrc st) v
    (current_frame_is_key_frame st).

(** src/rtp/rtp_packetizer/rtp_packetizer.h:43-45 [RtpPacketizer::HasAbsoluteSendTimeExtension] *)
Definition HasAbsoluteSendTimeExtension (st : Packetizer) : bool :=
  match pz_abs_send_time_ext_id st with Some _ => true | None => false end.

(** src/rtp/rtp_packetizer/rtp_packetizer.cpp:32-52 [RtpPacketizer::AppendAbsoluteSendTimeExtension] *)
Definition AppendAbsoluteSendTimeExtension (st : Packetizer) (frame : list Z) : list Z :=
  match pz_abs_send_time_ext_id st with
  | None => frame
  | Some id =>
      frame ++ [u8 (Z.shiftr kOneByteExtensionProfileId 8); u8 kOneByteExtensionProfileId;
                0; 1; u8 (Z.lor (Z.shiftl id 4) 2)] ++ replicate 3 0
  end.

(** The bytes of [(v >> 24) & 0xFF], ... pushed one after the other. *)
Definition push16 (v : Z) : list Z := [Z.land (Z.shiftr v 8) 0xFF; Z.land v 0xFF].
Definition push32 (v : Z) : list Z :=
  [Z.land (Z.shiftr v 24) 0xFF; Z.land (Z.shiftr v 16) 0xFF;
   Z.land (Z.shiftr v 8) 0xFF; Z.land v 0xFF].

(** src/rtp/rtp_packetizer/rtp_packetizer_h264.cpp:64-88 [RtpPacketizerH264::BuildNalu] *)
Definition packet_header (st : Packetizer) (has_padding marker : bool)
    (payload_type rtp_timestamp : Z) : list Z :=
  let has_extension := HasAbsoluteSendTimeExtension st in
  let frame :=
    [u8 (Z.lor (Z.lor (Z.lor (Z.shiftl kRtpVersion 6) (Z.shiftl (Z.b2z has_padding) 5))
           (Z.shiftl (Z.b2z has_extension) 4)) 0);
     u8 (Z.lor (Z.shiftl (Z.b2z marker) 7) payload_type)] ++
    push16 (pz_sequence_number st) ++ push32 rtp_timestamp ++ push32 (pz_ssrc st) in
  if has_extension then AppendAbsoluteSendTimeExtension st frame else frame.

(** src/rtp/rtp_packetizer/rtp_packetizer_h264.cpp:97-110 [RtpPacketizerH264::BuildNalu] *)
Definition push_packet (frame : list Z) (rtp_packets : list RtpPacket)
    : option (list RtpPacket) :=
  '(ok, p) ← Build new_packet frame (u32 (zlen frame));
  Some (if ok : bool then rtp_packets ++ [p] else rtp_packets).

(** A [for] over the index of the packet, whose body may use and change the
    packetizer and adds to the packets. *)
Fixpoint packet_loop
    (step : Packetizer -> Z -> list RtpPacket -> option (list RtpPacket * Packetizer))
    (n : nat) (st : Packetizer) (index : Z) (rtp_packets : list RtpPacket)
    : option (list RtpPacket * Packetizer) :=
  match n with
  | O => Some (rtp_packets, st)
  | S n' =>
      '(pkts, st) ← step st index rtp_packets;
      packet_loop step n' st (index + 1) pkts
  end.

(** ** H.264 *)

Definition indicator_byte (f : FU_INDICATOR) : Z :=
  u8 (Z.lor (Z.lor (Z.shiftl (forbidden_bit f) 7) (Z.shiftl (nal_reference_idc f) 5))
        (fi_nal_unit_type f)).
Definition fu_header_byte (f : FU_HEADER) : Z :=
  u8 (Z.lor (Z.lor (Z.lor (Z.shiftl (fu_start f) 7) (Z.shiftl (fu_end f) 6))
        (Z.shiftl (remain_bit f) 5)) (fh_nal_unit_type f)).

(** src/rtp/rtp_packetizer/rtp_packetizer_h264.cpp:40-113 [RtpPacketizerH264::BuildNalu] *)
Definition BuildNalu (st : Packetizer) (payload : list Z) (payload_size rtp_timestamp : Z)
    : option (list RtpPacket * Packetizer) :=
  let st := pz_set_seq (u16 (pz_sequence_number st + 1)) st in
  let fu_indicator := mkFuIndicator 0 1 (nal_unit_type_value NALU) in
  data ← rd_range payload 0 payload_size;
  let frame := packet_header st false true (pz_payload_type st) rtp_timestamp ++
               [indicator_byte fu_indicator] ++ data in
  pkts ← push_packet frame [];
  Some (pkts, st).

(** src/rtp/rtp_packetizer/rtp_packetizer_h264.cpp:125-210 [RtpPacketizerH264::BuildFua] *)
Definition fua_step (st : Packetizer) (payload : list Z)
    (packet_num last_packet_size rtp_timestamp index : Z) (rtp_packets : list RtpPacket)
    : option (list RtpPacket * Packetizer) :=
  let marker := index =? u32 (packet_num - 1) in
  let st := pz_set_seq (u16 (pz_sequence_number st + 1)) st in
  let fu_indicator := mkFuIndicator 0 0 (nal_unit_type_value FU_A) in
  let fu_header := mkFuHeader (if index =? 0 then 1 else 0)
                     (if index =? u32 (packet_num - 1) then 1 else 0) 0
                     (nal_unit_type_value FU_A) in
  data ← (if (index =? u32 (packet_num - 1)) && (0 <? last_packet_size)
          then rd_range payload (u32 (index * MAX_NALU_LEN)) last_packet_size
          else rd_range payload (u32 (index * MAX_NALU_LEN)) MAX_NALU_LEN);
  let frame := packet_header st false marker (pz_payload_type st) rtp_timestamp ++
               [indicator_byte fu_indicator; fu_header_byte fu_header] ++ data in
  pkts ← push_packet frame rtp_packets;
  Some (pkts, st).

(** src/rtp/rtp_packetizer/rtp_packetizer_h264.cpp:115-213 [RtpPacketizerH264::BuildFua] *)
Definition BuildFua (st : Packetizer) (payload : list Z) (payload_size rtp_timestamp : Z)
    : option (list RtpPacket * Packetizer) :=
  let last_packet_size := payload_size `mod` MAX_NALU_LEN in
  let packet_num := payload_size / MAX_NALU_LEN + (if last_packet_size =? 0 then 0 else 1) in
  packet_loop (fun st => fua_step st payload packet_num last_packet_size rtp_timestamp)
    (Z.to_nat packet_num) st 0 [].

(** src/rtp/rtp_packetizer/rtp_packetizer_h264.cpp:28-38 [RtpPacketizerH264::Build] *)
Definition BuildH264 (st : Packetizer) (payload : list Z) (payload_size rtp_timestamp : Z)
    : option (list RtpPacket * Packetizer) :=
  if payload_size <=? MAX_NALU_LEN
  then BuildNalu st payload payload_size rtp_timestamp
  else BuildFua st payload payload_size rtp_timestamp.

(** [rtp_packet_frame_.back() = v]. *)
Definition set_back (frame : list Z) (v : Z) : option (list Z) :=
  wr frame (zlen frame - 1) v.

(** src/rtp/rtp_packetizer/rtp_packetizer_h264.cpp:226-285 [RtpPacketizerH264::BuildPadding] *)
Fixpoint padding_loop (fuel : nat) (st : Packetizer) (remaining_size rtp_timestamp : Z)
    (rtp_packets : list RtpPacket) : option (list RtpPacket * Packetizer) :=
  match fuel with
  | O => None
  | S fuel' =>
      if 0 <? remaining_size then
        let packet_data_size := Z.min remaining_size MAX_NALU_LEN in
        let payload_type := u8 (u32 (pz_payload_type st - 1)) in
        let st := pz_set_seq (u16 (pz_sequence_number st + 1)) st in
        let frame := packet_header st true false payload_type rtp_timestamp ++
                     replicate (Z.to_nat packet_data_size) 0 in
        frame ← set_back frame 1;
        pkts ← push_packet frame rtp_packets;
        padding_loop fuel' st (remaining_size - packet_data_size) rtp_timestamp pkts
      else Some (rtp_packets, st)
  end.

(** src/rtp/rtp_packetizer/rtp_packetizer_h264.cpp:215-288 [RtpPacketizerH264::BuildPadding] *)
Definition BuildPadding (st : Packetizer) (payload_size rtp_timestamp : Z)
    : option (list RtpPacket * Packetizer) :=
  padding_loop (S (Z.to_nat payload_size)) st payload_size rtp_timestamp [].

(** ** Generic payloads *)

(** src/rtp/rtp_packetizer/rtp_packetizer_generic.cpp:31-89 [RtpPacketizerGeneric::Build] *)
Definition generic_step (st : Packetizer) (payload : list Z)
    (packet_num last_packet_size rtp_timestamp index : Z) (rtp_packets : list RtpPacket)
    : option (list RtpPacket * Packetizer) :=
  let marker := index =? u32 (packet_num - 1) in
  let st := pz_set_seq (u16 (pz_sequence_number st + 1)) st in
  data ← (if (index =? u32 (packet_num - 1)) && (0 <? last_packet_size)
          then rd_range payload 0 last_packet_size
          else rd_range payload 0 MAX_NALU_LEN);
  let frame := packet_header st false marker (pz_payload_type st) rtp_timestamp ++ data in
  '(_, p) ← Build new_packet frame (u32 (zlen frame));
  Some (rtp_packets ++ [p], st).

(** src/rtp/rtp_packetizer/rtp_packetizer_generic.cpp:22-92 [RtpPacketizerGeneric::Build] *)
Definition BuildGeneric (st : Packetizer) (payload : list Z) (payload_size rtp_timestamp : Z)
    : option (list RtpPacket * Packetizer) :=
  let last_packet_size := payload_size `mod` MAX_NALU_LEN in
  let packet_num := payload_size / MAX_NALU_LEN + (if last_packet_size =? 0 then 0 else 1) in
  packet_loop (fun st => generic_step st payload packet_num last_packet_size rtp_timestamp)
    (Z.to_nat packet_num) st 0 [].

(** ** The receiving side of H.264 *)

(** src/rtp/rtp_packet/rtp_packet_h264.h:13-38 [RtpPacketH264] *)
Record RtpPacketH264 := mkH264 {
  h264_packet : RtpPacket;
  osn_ : Z;
  fu_indicator_ : FU_INDICATOR;
  fu_header_ : FU_HEADER;
  fu_info_got_ : bool;
}.

(** src/rtp/rtp_packet/rtp_packet_h264.h:21-23 [RtpPacketH264::NalUnitType] *)
Definition NalUnitType (p : RtpPacketH264) : Z := fi_nal_unit_type (fu_indicator_ p).
(** src/rtp/rtp_packet/rtp_packet_h264.h:24-24 [RtpPacketH264::FuAStart] *)
Definition FuAStart (p : RtpPacketH264) : bool := negb (fu_start (fu_header_ p) =? 0).
(** src/rtp/rtp_packet/rtp_packet_h264.h:25-25 [RtpPacketH264::FuAEnd] *)
Definition FuAEnd (p : RtpPacketH264) : bool := negb (fu_end (fu_header_ p) =? 0).

(** The fields of the two header bytes. *)
Definition read_indicator (b : Z) : FU_INDICATOR :=
  mkFuIndicator (Z.land (Z.shiftr b 7) 0x01) (Z.land (Z.shiftr b 5) 0x03) (Z.land b 0x1F).
Definition read_fu_header (b : Z) : FU_HEADER :=
  mkFuHeader (Z.land (Z.shiftr b 7) 0x01) (Z.land (Z.shiftr b 6) 0x01)
    (Z.land (Z.shiftr b 5) 0x01) (Z.land b 0x1F).

(** src/rtp/rtp_packet/rtp_packet_h264.cpp:8-48 [RtpPacketH264::GetFrameHeaderInfo] *)
Definition GetFrameHeaderInfo (h : RtpPacketH264) : option (bool * RtpPacketH264) :=
  if fu_info_got_ h then Some (true, h) else
  let p := h264_packet h in
  let frame_buffer i := rd (buffer_ p) (payload_offset_ p + i) in
  let is_rtx := payload_type_ p =? payload_type_value RTX in
  if is_rtx && (payload_size_ p <? 2) then Some (false, h) else
  osn ← (if is_rtx then b0 ← frame_buffer 0; b1 ← frame_buffer 1;
           Some (u16 (Z.lor (Z.shiftl b0 8) b1))
         else Some (osn_ h));
  let offset := if is_rtx then 2 else 0 in
  let h := mkH264 p osn (fu_indicator_ h) (fu_header_ h) (fu_info_got_ h) in
  if payload_size_ p <=? offset then Some (false, h) else
  b ← frame_buffer offset;
  let ind := read_indicator b in
  let h := mkH264 p osn ind (fu_header_ h) (fu_info_got_ h) in
  if fi_nal_unit_type ind =? nal_unit_type_value NALU then
    Some (true, mkH264 (add_offset_to_payload (1 + offset) p) osn ind (fu_header_ h) true)
  else if fi_nal_unit_type ind =? nal_unit_type_value FU_A then
    if payload_size_ p <=? offset + 1 then Some (false, h) else
    b1 ← frame_buffer (offset + 1);
    Some (true, mkH264 (add_offset_to_payload (2 + offset) p) osn ind (read_fu_header b1) true)
  else Some (true, mkH264 p osn ind (fu_header_ h) true).

(** ** Frames *)

(** What lasts between calls is in range. *)
Definition pz_ok (st : Packetizer) : Prop :=
  0 < pz_payload_type st < 128 /\ is_u16 (pz_sequence_number st) /\ is_u32 (pz_ssrc st) /\
  match pz_abs_send_time_ext_id st with Some id => 1 <= id <= 14 | None => True end.

(** The extension block every packet carries when one was negotiated: the
    element whose value is written when the packet is sent. *)
Definition frame_exts (st : Packetizer) : option (list (Z * list Z) * nat) :=
  match pz_abs_send_time_ext_id st with
  | None => None
  | Some id => Some ([(id, [0; 0; 0])], 0%nat)
  end.

(** The packet the state [st] sends next. *)
Definition frame_of (st : Packetizer) (marker : bool) (payload_type rtp_timestamp : Z)
    (payload : list Z) (padding : option (list Z)) : RtpFrame :=
  mkFrame marker payload_type (pz_sequence_number st) rtp_timestamp (pz_ssrc st) []
    (frame_exts st) payload padding.

Lemma push16_be v : push16 v = be_bytes 2 v.
Proof. unfold push16. rewrite !land_ff. cbn [be_bytes]. by rewrite Z.shiftr_0_r. Qed.

Lemma push32_be v : push32 v = be_bytes 4 v.
Proof. unfold push32. rewrite !land_ff. cbn [be_bytes]. by rewrite Z.shiftr_0_r. Qed.

Lemma ext_byte id : 1 <= id <= 14 -> u8 (Z.lor (Z.shiftl id 4) 2) = 16 * id + 2.
Proof.
  intros. rewrite Z.shiftl_mul_pow2, lor_add by lia. rewrite u8_id; [lia|unfold is_u8; lia].
Qed.

Lemma frame_exts_zlen st : zlen (exts_bytes (frame_exts st)) <= 8.
Proof. unfold frame_exts. by destruct (pz_abs_send_time_ext_id st). Qed.

Lemma packet_header_encode st marker pt ts payload padding :
  pz_ok st -> 0 <= pt < 128 ->
  packet_header st (bool_decide (is_Some padding)) marker pt ts ++ payload ++ padding_bytes padding
    = encode (frame_of st marker pt ts payload padding).
Proof.
  intros (_ & _ & _ & Hid) Hpt. unfold packet_header, encode, header_fixed, frame_of.
  cbn [f_padding f_exts f_csrcs f_marker f_payload_type f_sequence_number f_timestamp
    f_ssrc f_payload flat_map]. cbv zeta.
  rewrite push16_be, !push32_be, marker_lor by done.
  rewrite (u8_id (128 * Z.b2z marker + pt)) by (unfold is_u8; destruct marker; cbn [Z.b2z]; lia).
  change (zlen (@nil Z)) with 0. unfold HasAbsoluteSendTimeExtension, AppendAbsoluteSendTimeExtension,
    frame_exts, kRtpVersion.
  destruct (pz_abs_send_time_ext_id st) as [id|].
  - rewrite ext_byte by done. rewrite (bool_decide_true (is_Some (Some _))) by eauto.
    destruct (bool_decide (is_Some padding)); cbn; rewrite <- ?app_assoc; done.
  - rewrite (bool_decide_false (is_Some None)) by (intros [? [=]]).
    destruct (bool_decide (is_Some padding)); cbn; rewrite <- ?app_assoc; done.
Qed.

Lemma frame_of_ok st marker pt ts payload padding :
  pz_ok st -> 0 <= pt < 128 -> is_u32 ts -> bytes payload ->
  match padding with None => True | Some l => bytes l /\ zlen l < 255 end ->
  frame_ok (frame_of st marker pt ts payload padding).
Proof.
  intros (_ & Hs & Hss & Hid) Hpt Hts Hb Hp.
  refine (conj Hpt (conj Hs (conj Hts (conj Hss (conj _ (conj _ (conj _ (conj Hb Hp)))))))).
  - done.
  - apply Forall_nil_2.
  - cbn [f_exts frame_of]. unfold frame_exts. destruct (pz_abs_send_time_ext_id st) as [id|]; [|done].
    split_and!; [|exists 1; reflexivity|done]. cbn [fst]. apply Forall_cons_2; [|apply Forall_nil_2].
    unfold element_ok. cbn [fst snd]. split_and!; [lia|lia|done|done|forall_lit].
Qed.

Lemma push_packet_encode f acc :
  frame_ok f -> zlen (encode f) < 4294967296 ->
  push_packet (encode f) acc = Some (acc ++ [built f new_packet]).
Proof.
  intros Hf Hz. unfold push_packet. pose proof (zlen_nonneg (encode f)).
  rewrite u32_id by (unfold is_u32; lia). by rewrite Build_encode.
Qed.

(** A train of packets, one for each payload: consecutive sequence numbers,
    one timestamp and one source, the marker on the last packet only. *)
Definition train (st : Packetizer) (rtp_timestamp : Z) (n : nat) (payloads : list (list Z))
    : list RtpFrame :=
  imap (fun i pl =>
    frame_of (pz_set_seq (u16 (pz_sequence_number st + Z.of_nat (S i))) st) (Nat.eqb (S i) n)
      (pz_payload_type st) rtp_timestamp pl None) payloads.

Definition advance (k : nat) (st : Packetizer) : Packetizer :=
  pz_set_seq (u16 (pz_sequence_number st + Z.of_nat k)) st.

Lemma pz_ok_seq s st : pz_ok st -> pz_ok (pz_set_seq (u16 s) st).
Proof. intros (H1 & H2 & H). exact (conj H1 (conj (u16_range s) H)). Qed.

Lemma pz_set_seq_twice a b st : pz_set_seq a (pz_set_seq b st) = pz_set_seq a st.
Proof. done. Qed.

Lemma pz_set_seq_id st : is_u16 (pz_sequence_number st) -> advance 0 st = st.
Proof.
  intros H. unfold advance. rewrite Z.add_0_r, u16_id by done. by destruct st.
Qed.

Lemma advance_S k st : pz_set_seq (u16 (pz_sequence_number (advance k st) + 1)) (advance k st)
  = advance (S k) st.
Proof.
  unfold advance. cbn [pz_set_seq pz_sequence_number].
  rewrite pz_set_seq_twice. f_equal. ilia.
Qed.

Lemma train_snoc st ts n l x :
  train st ts n (l ++ [x]) = train st ts n l ++
    [frame_of (advance (S (length l)) st) (Nat.eqb (S (length l)) n) (pz_payload_type st) ts x None].
Proof. unfold train. rewrite imap_app. cbn. by rewrite Nat.add_0_r. Qed.

Definition packets (l : list RtpFrame) : list RtpPacket := map (fun f => built f new_packet) l.

(** A body that sends the next packet of a train, run for the whole train. *)
Lemma packet_loop_train step st ts n l2 : forall l1 index,
  (forall j pl pkts, l2 !! j = Some pl ->
     step (advance (length l1 + j) st) (index + Z.of_nat j) pkts =
       Some (pkts ++ packets [frame_of (advance (S (length l1 + j)) st)
                               (Nat.eqb (S (length l1 + j)) n) (pz_payload_type st) ts pl None],
             advance (S (length l1 + j)) st)) ->
  packet_loop step (length l2) (advance (length l1) st) index (packets (train st ts n l1)) =
  Some (packets (train st ts n (l1 ++ l2)), advance (length (l1 ++ l2)) st).
Proof.
  induction l2 as [|x l2 IH]; intros l1 index H; cbn [packet_loop length].
  - by rewrite app_nil_r.
  - pose proof (H 0%nat x (packets (train st ts n l1)) eq_refl) as H0.
    rewrite Nat.add_0_r, Z.add_0_r in H0. rewrite H0. cbn [mbind option_bind].
    replace (l1 ++ x :: l2) with ((l1 ++ [x]) ++ l2) by (by rewrite <- app_assoc).
    specialize (IH (l1 ++ [x]) (index + 1)). rewrite length_app in IH. cbn [length] in IH.
    rewrite train_snoc in IH. unfold packets in *. rewrite map_app in IH.
    replace (length l1 + 1)%nat with (S (length l1)) in IH by lia. apply IH.
    intros j pl pkts Hj. specialize (H (S j) pl pkts Hj).
    replace (length l1 + S j)%nat with (S (length l1) + j)%nat in H by lia.
    replace (index + Z.of_nat (S j)) with (index + 1 + Z.of_nat j) in H by lia. exact H.
Qed.

Lemma packet_loop_all step st ts l :
  is_u16 (pz_sequence_number st) ->
  (forall i pl pkts, l !! i = Some pl ->
     step (advance i st) (Z.of_nat i) pkts =
       Some (pkts ++ packets [frame_of (advance (S i) st) (Nat.eqb (S i) (length l))
                               (pz_payload_type st) ts pl None], advance (S i) st)) ->
  packet_loop step (length l) st 0 [] =
    Some (packets (train st ts (length l) l), advance (length l) st).
Proof.
  intros Hs H. pose proof (packet_loop_train step st ts (length l) l [] 0 H) as G.
  cbn [length app] in G. rewrite pz_set_seq_id in G by done. exact G.
Qed.

(** ** Cutting a payload into packets *)

Definition chunk (payload : list Z) (i : nat) : list Z :=
  take (Z.to_nat MAX_NALU_LEN) (drop (i * Z.to_nat MAX_NALU_LEN) payload).

Definition packet_count (size : Z) : Z :=
  size / MAX_NALU_LEN + (if size `mod` MAX_NALU_LEN =? 0 then 0 else 1).

Definition chunks (payload : list Z) : list (list Z) :=
  map (chunk payload) (seq 0 (Z.to_nat (packet_count (zlen payload)))).

Lemma concat_take_drop {A} (m : nat) (l : list A) n : forall k,
  concat (map (fun i => take m (drop (i * m) l)) (seq k n)) = take (n * m) (drop (k * m) l).
Proof.
  induction n as [|n IH]; intros k; [done|].
  cbn [seq map concat]. rewrite IH. cbn [Nat.mul].
  rewrite <- take_take_drop, drop_drop. do 3 f_equal. lia.
Qed.

Lemma packet_count_spec size :
  0 <= size -> size <= packet_count size * MAX_NALU_LEN < size + MAX_NALU_LEN.
Proof. unfold packet_count, MAX_NALU_LEN. intros. case_if; zdm. Qed.

(** The packets carry the whole payload, in order. *)
Lemma concat_chunks payload : concat (chunks payload) = payload.
Proof.
  unfold chunks. unfold chunk. rewrite concat_take_drop. cbn [Nat.mul].
  rewrite drop_0, firstn_all2; [done|].
  pose proof (packet_count_spec (zlen payload) (zlen_nonneg payload)).
  unfold zlen, MAX_NALU_LEN in *. lia.
Qed.

Lemma chunks_length payload :
  length (chunks payload) = Z.to_nat (packet_count (zlen payload)).
Proof. unfold chunks. by rewrite length_map, length_seq. Qed.

Lemma chunks_lookup payload i c :
  chunks payload !! i = Some c ->
  Z.of_nat i < packet_count (zlen payload) /\ c = chunk payload i.
Proof.
  unfold chunks. rewrite list_lookup_fmap. intros (j & Hj & ->)%fmap_Some.
  apply lookup_seq in Hj as [-> Hj]. cbn. split; [lia|done].
Qed.

Lemma bytes_chunk payload i : bytes payload -> bytes (chunk payload i).
Proof. intros. by apply bytes_take, bytes_drop. Qed.

Lemma chunk_zlen payload i : zlen (chunk payload i) <= MAX_NALU_LEN.
Proof. unfold chunk, zlen. rewrite length_take. unfold MAX_NALU_LEN. lia. Qed.

(** The read of one iteration is the chunk of its index. *)
Lemma chunk_read payload (i : nat) :
  zlen payload < 4294967296 -> Z.of_nat i < packet_count (zlen payload) ->
  (if (Z.of_nat i =? u32 (packet_count (zlen payload) - 1)) &&
      (0 <? zlen payload `mod` MAX_NALU_LEN)
   then rd_range payload (u32 (Z.of_nat i * MAX_NALU_LEN)) (zlen payload `mod` MAX_NALU_LEN)
   else rd_range payload (u32 (Z.of_nat i * MAX_NALU_LEN)) MAX_NALU_LEN)
  = Some (chunk payload i).
Proof.
  intros Hl Hi. pose proof (zlen_nonneg payload) as H0.
  pose proof (packet_count_spec _ H0) as Hc.
  assert (packet_count (zlen payload) < 4294967296) as Hp by (unfold MAX_NALU_LEN in *; lia).
  rewrite (u32_id (packet_count (zlen payload) - 1)) by (unfold is_u32; lia).
  rewrite u32_id by (unfold is_u32, MAX_NALU_LEN in *; nia).
  assert (Z.of_nat i * MAX_NALU_LEN = Z.of_nat (i * Z.to_nat MAX_NALU_LEN)) as Hoff
    by (unfold MAX_NALU_LEN; lia).
  destruct (Z.eqb_spec (Z.of_nat i) (packet_count (zlen payload) - 1)) as [He|He];
    destruct (Z.ltb_spec 0 (zlen payload `mod` MAX_NALU_LEN)) as [Hm|Hm]; cbn [andb].
  1: assert (Z.of_nat i * MAX_NALU_LEN + zlen payload `mod` MAX_NALU_LEN = zlen payload) as Hs
       by (rewrite He; unfold packet_count, MAX_NALU_LEN in *; case_if; zdm);
     rewrite rd_range_Some by lia; f_equal; unfold chunk; rewrite Hoff, Nat2Z.id,
       !firstn_all2; [done| |]; rewrite length_drop; unfold zlen, MAX_NALU_LEN in *; lia.
  all: assert (Z.of_nat i * MAX_NALU_LEN + MAX_NALU_LEN <= zlen payload) as Hs
         by (unfold packet_count, MAX_NALU_LEN in *; revert Hi Hc He; case_if; zdm);
       rewrite rd_range_Some by (unfold MAX_NALU_LEN in *; lia); unfold chunk;
       by rewrite Hoff, Nat2Z.id.
Qed.

(** ** H.264 frames *)

(** The header byte of a whole unit, and those of a fragment. *)
Definition nalu_payload (data : list Z) : list Z := 33 :: data.
Definition fua_payload (n i : nat) (data : list Z) : list Z :=
  28 :: (128 * Z.b2z (Nat.eqb i 0) + 64 * Z.b2z (Nat.eqb (S i) n) + 28) :: data.

(** The RTP payloads of a frame. *)
Definition h264_payloads (payload : list Z) : list (list Z) :=
  if zlen payload <=? MAX_NALU_LEN then [nalu_payload payload]
  else imap (fua_payload (length (chunks payload))) (chunks payload).

Lemma fu_header_byte_eq (s e : bool) :
  fu_header_byte (mkFuHeader (if s then 1 else 0) (if e then 1 else 0) 0
    (nal_unit_type_value FU_A)) = 128 * Z.b2z s + 64 * Z.b2z e + 28.
Proof. by destruct s, e. Qed.

Lemma step_frame_ok st i b ts pl :
  pz_ok st -> is_u32 ts -> bytes pl -> zlen pl <= 2 + MAX_NALU_LEN ->
  let f := frame_of (advance (S i) st) b (pz_payload_type st) ts pl None in
  frame_ok f /\ zlen (encode f) < 4294967296.
Proof.
  intros Hok Hts Hb Hz. pose proof Hok as (Hpt & _).
  assert (pz_ok (advance (S i) st)) as Hok' by (by apply pz_ok_seq).
  split; [apply frame_of_ok; done || lia|].
  rewrite encode_zlen. cbn [frame_of f_csrcs f_exts f_payload f_padding padding_bytes].
  pose proof (frame_exts_zlen (advance (S i) st)).
  change (zlen (@nil Z)) with 0. unfold MAX_NALU_LEN in *. lia.
Qed.

(** What a body that appends the packet it has built does. *)
Lemma push_step st i b ts pl acc :
  pz_ok st -> is_u32 ts -> bytes pl -> zlen pl <= 2 + MAX_NALU_LEN ->
  push_packet (packet_header (advance (S i) st) false b (pz_payload_type st) ts ++ pl) acc =
    Some (acc ++ packets [frame_of (advance (S i) st) b (pz_payload_type st) ts pl None]).
Proof.
  intros Hok Hts Hb Hz. pose proof Hok as (Hpt & _).
  destruct (step_frame_ok st i b ts pl Hok Hts Hb Hz) as [Hf Hl].
  unfold packets. cbn [map]. rewrite <- (push_packet_encode _ acc Hf Hl).
  rewrite <- (packet_header_encode (advance (S i) st) b (pz_payload_type st) ts pl None);
    [|by apply pz_ok_seq|lia].
  cbn [padding_bytes]. by rewrite app_nil_r.
Qed.

Lemma eqb_last i n : (0 < n < 4294967296) -> 0 <= Z.of_nat i < n ->
  (Z.of_nat i =? u32 (n - 1)) = Nat.eqb (S i) (Z.to_nat n).
Proof.
  intros. rewrite u32_id by (unfold is_u32; lia).
  destruct (Nat.eqb_spec (S i) (Z.to_nat n)); lia.
Qed.

Lemma chunks_size (payload : list Z) :
  zlen payload < 4294967296 -> MAX_NALU_LEN < zlen payload ->
  0 < packet_count (zlen payload) < 4294967296.
Proof.
  intros. pose proof (packet_count_spec (zlen payload) (zlen_nonneg payload)).
  unfold MAX_NALU_LEN in *. lia.
Qed.

Lemma fua_step_spec st payload ts i pl pkts :
  pz_ok st -> is_u32 ts -> bytes payload -> MAX_NALU_LEN < zlen payload < 4294967296 ->
  imap (fua_payload (length (chunks payload))) (chunks payload) !! i = Some pl ->
  fua_step (advance i st) payload (packet_count (zlen payload))
    (zlen payload `mod` MAX_NALU_LEN) ts (Z.of_nat i) pkts =
  Some (pkts ++ packets [frame_of (advance (S i) st) (Nat.eqb (S i) (length (chunks payload)))
                          (pz_payload_type st) ts pl None], advance (S i) st).
Proof.
  intros Hok Hts Hb Hz Hi. rewrite list_lookup_imap in Hi.
  apply fmap_Some in Hi as (c & Hc & ->). apply chunks_lookup in Hc as [Hi ->].
  pose proof (chunks_size payload ltac:(lia) ltac:(lia)) as Hn.
  unfold fua_step. cbv zeta. rewrite advance_S, chunk_read by lia. cbn [mbind option_bind].
  rewrite eqb_last by lia. rewrite <- chunks_length.
  replace (Z.of_nat i =? 0) with (Nat.eqb i 0) by (destruct (Nat.eqb_spec i 0); lia).
  rewrite fu_header_byte_eq.
  change (indicator_byte (mkFuIndicator 0 0 (nal_unit_type_value FU_A))) with 28.
  change (pz_payload_type (advance i st)) with (pz_payload_type st).
  change (pz_payload_type (advance (S i) st)) with (pz_payload_type st).
  rewrite push_step; [done|done|done| |].
  - apply bytes_cons. split; [unfold is_u8; lia|]. apply bytes_cons.
    split; [|by apply bytes_chunk].
    unfold is_u8. destruct (Nat.eqb i 0), (Nat.eqb (S i) _); cbn [Z.b2z]; lia.
  - cbn [app]. rewrite !zlen_cons. pose proof (chunk_zlen payload i). lia.
Qed.

Lemma BuildH264_train st payload ts :
  pz_ok st -> is_u32 ts -> bytes payload -> zlen payload < 4294967296 ->
  BuildH264 st payload (zlen payload) ts =
    Some (packets (train st ts (length (h264_payloads payload)) (h264_payloads payload)),
          advance (length (h264_payloads payload)) st).
Proof.
  intros Hok Hts Hb Hz. unfold BuildH264, h264_payloads.
  destruct (Z.leb_spec (zlen payload) MAX_NALU_LEN) as [Hl|Hl].
  - unfold BuildNalu. cbv zeta. rewrite rd_range_all. cbn [mbind option_bind].
    change (u16 (pz_sequence_number st + 1)) with (u16 (pz_sequence_number st + Z.of_nat 1)).
    change (pz_set_seq (u16 (pz_sequence_number st + Z.of_nat 1)) st) with (advance 1 st).
    change (pz_payload_type (advance 1 st)) with (pz_payload_type st).
    change (indicator_byte (mkFuIndicator 0 1 (nal_unit_type_value NALU))) with 33.
    rewrite push_step; [done|done|done| |].
    + apply bytes_cons. split; [unfold is_u8; lia|done].
    + cbn [app]. rewrite zlen_cons. lia.
  - unfold BuildFua. cbv zeta. fold (packet_count (zlen payload)).
    rewrite length_imap, <- chunks_length.
    destruct Hok as (Hpt & Hs & Hok).
    pose proof (packet_loop_all (fun st => fua_step st payload (packet_count (zlen payload))
      (zlen payload `mod` MAX_NALU_LEN) ts) st ts
      (imap (fua_payload (length (chunks payload))) (chunks payload)) Hs) as G.
    rewrite length_imap in G. apply G. intros i pl pkts Hi.
    apply fua_step_spec; [exact (conj Hpt (conj Hs Hok))|done|done|lia|done].
Qed.

(** ** What every packetizer promises

    The interface of [RtpPacketizer::Build]: a frame becomes a train of
    packets, none longer than a chunk and its two header bytes. *)
Class TrainBuilder
    (build : Packetizer -> list Z -> Z -> option (list RtpPacket * Packetizer)) : Prop := {
  build_train : forall st payload ts,
    pz_ok st -> is_u32 ts -> bytes payload -> zlen payload < 2147483648 ->
    exists pls,
      build st payload ts =
        Some (packets (train st ts (length pls) pls), advance (length pls) st) /\
      Forall (fun pl => bytes pl /\ zlen pl <= 2 + MAX_NALU_LEN) pls
}.

Lemma train_lookup st ts n pls i f :
  train st ts n pls !! i = Some f ->
  exists pl, pls !! i = Some pl /\
    f = frame_of (advance (S i) st) (Nat.eqb (S i) n) (pz_payload_type st) ts pl None.
Proof.
  unfold train. rewrite list_lookup_imap. intros (pl & Hpl & ->)%fmap_Some. eauto.
Qed.

Lemma packets_lookup l i p :
  packets l !! i = Some p -> exists f, l !! i = Some f /\ p = built f new_packet.
Proof. unfold packets. rewrite list_lookup_fmap. intros (f & Hf & ->)%fmap_Some. eauto. Qed.

Lemma train_length st ts n pls : length (train st ts n pls) = length pls.
Proof. unfold train. by rewrite length_imap. Qed.

Lemma packets_length l : length (packets l) = length l.
Proof. unfold packets. by rewrite length_map. Qed.

(** A packet of a train on the wire. *)
Definition packet_of_train (st : Packetizer) (ts : Z) (n i : nat) (p : RtpPacket) : Prop :=
  sequence_number_ p = u16 (pz_sequence_number st + Z.of_nat i + 1) /\
  timestamp_ p = ts /\ ssrc_ p = pz_ssrc st /\ payload_type_ p = pz_payload_type st /\
  marker_ p = Nat.eqb (S i) n /\ zlen (buffer_ p) <= 1172 /\
  Build new_packet (buffer_ p) (zlen (buffer_ p)) = Some (true, p).

Lemma train_packet st ts n pls i p :
  pz_ok st -> is_u32 ts ->
  Forall (fun pl => bytes pl /\ zlen pl <= 2 + MAX_NALU_LEN) pls ->
  packets (train st ts n pls) !! i = Some p -> packet_of_train st ts n i p.
Proof.
  intros Hok Hts Hpls (f & Hf & ->)%packets_lookup.
  apply train_lookup in Hf as (pl & Hpl & ->).
  apply (Forall_lookup_1 _ _ _ _ Hpls) in Hpl as [Hb Hz].
  destruct (step_frame_ok st i (Nat.eqb (S i) n) ts pl Hok Hts Hb Hz) as [Hf _].
  split; [cbn; f_equal; lia|]. split_and!; try done.
  - cbn [built set_size_ set_buffer_ buffer_]. rewrite encode_zlen.
    cbn [frame_of f_csrcs f_exts f_payload f_padding padding_bytes].
    pose proof (frame_exts_zlen (advance (S i) st)). change (zlen (@nil Z)) with 0.
    unfold MAX_NALU_LEN in *. lia.
  - by apply Build_encode.
Qed.

Lemma pz_ok_advance k st : pz_ok st -> pz_ok (advance k st).
Proof. apply pz_ok_seq. Qed.

Lemma advance_add j k st : advance j (advance k st) = advance (k + j) st.
Proof.
  unfold advance. cbn [pz_set_seq pz_sequence_number]. rewrite pz_set_seq_twice. f_equal. ilia.
Qed.

Lemma h264_payloads_ok payload :
  bytes payload ->
  Forall (fun pl => bytes pl /\ zlen pl <= 2 + MAX_NALU_LEN) (h264_payloads payload).
Proof.
  intros Hb. unfold h264_payloads. destruct (Z.leb_spec (zlen payload) MAX_NALU_LEN).
  - apply Forall_cons_2; [|apply Forall_nil_2]. unfold nalu_payload.
    rewrite bytes_cons, zlen_cons. split; [split; [unfold is_u8; lia|done]|lia].
  - apply Forall_lookup_2. intros i pl Hi. rewrite list_lookup_imap in Hi.
    apply fmap_Some in Hi as (c & Hc & ->). apply chunks_lookup in Hc as [_ ->].
    unfold fua_payload. rewrite !bytes_cons, !zlen_cons.
    pose proof (chunk_zlen payload i). pose proof (bytes_chunk payload i Hb).
    split; [|lia]. split; [unfold is_u8; lia|]. split; [|done].
    unfold is_u8. destruct (Nat.eqb i 0), (Nat.eqb (S i) _); cbn [Z.b2z]; lia.
Qed.

#[export] Instance H264_train : TrainBuilder (fun st p ts => BuildH264 st p (zlen p) ts).
Proof.
  constructor. intros st payload ts Hok Hts Hb Hz. exists (h264_payloads payload).
  split; [apply BuildH264_train; done || lia|by apply h264_payloads_ok].
Qed.

(** ** Putting a frame back together *)

(** A received packet before its payload header is read; the fields the code
    leaves uninitialised are arbitrary. *)
Definition received (osn : Z) (ind : FU_INDICATOR) (hdr : FU_HEADER) (p : RtpPacket)
    : RtpPacketH264 := mkH264 p osn ind hdr false.

Lemma At_payload f p i b :
  f_payload f !! i = Some b ->
  rd (buffer_ (built f p)) (payload_offset_ (built f p) + Z.of_nat i) = Some b.
Proof.
  intros Hi. cbn [built set_size_ set_buffer_ buffer_ payload_offset_ parsed].
  destruct (encode_split f) as [-> <-]. rewrite rd_app_r by lia.
  replace (_ - _) with (Z.of_nat i) by lia. rewrite rd_nat.
  by apply lookup_app_l_Some.
Qed.

Lemma payload_size_built f p : payload_size_ (built f p) = zlen (f_payload f).
Proof. done. Qed.

Lemma GetFrameHeaderInfo_nalu f p osn ind hdr data :
  f_payload f = nalu_payload data -> f_payload_type f <> 127 -> zlen data < 4294967296 ->
  GetFrameHeaderInfo (received osn ind hdr (built f p)) =
    Some (true, mkH264 (add_offset_to_payload 1 (built f p)) osn (mkFuIndicator 0 1 1) hdr true) /\
  Payload (add_offset_to_payload 1 (built f p)) = Some data.
Proof.
  intros Hf Hpt Hz. pose proof (zlen_nonneg data). split.
  - unfold GetFrameHeaderInfo, received. cbn [fu_info_got_ h264_packet osn_]. cbv zeta.
    change (payload_type_ (built f p)) with (f_payload_type f).
    change (payload_type_value RTX) with 127. rewrite (proj2 (Z.eqb_neq _ _)) by done.
    cbn [andb mbind option_bind]. rewrite payload_size_built, Hf. unfold nalu_payload.
    rewrite zlen_cons, (proj2 (Z.leb_gt _ _)) by lia.
    assert (rd (buffer_ (built f p)) (payload_offset_ (built f p) + 0) = Some 33) as ->
      by (apply (At_payload f p 0); by rewrite Hf).
    done.
  - change 1 with (zlen [33]). apply Payload_add_offset; [done|].
    rewrite Hf. unfold nalu_payload. rewrite zlen_cons. lia.
Qed.

Lemma fu_header_bits (s e : bool) :
  read_fu_header (128 * Z.b2z s + 64 * Z.b2z e + 28) = mkFuHeader (Z.b2z s) (Z.b2z e) 0 28.
Proof. by destruct s, e. Qed.

Lemma GetFrameHeaderInfo_fua f p osn ind hdr n i data :
  f_payload f = fua_payload n i data -> f_payload_type f <> 127 -> zlen data < 4294967296 ->
  GetFrameHeaderInfo (received osn ind hdr (built f p)) =
    Some (true, mkH264 (add_offset_to_payload 2 (built f p)) osn (mkFuIndicator 0 0 28)
                  (mkFuHeader (Z.b2z (Nat.eqb i 0)) (Z.b2z (Nat.eqb (S i) n)) 0 28) true) /\
  Payload (add_offset_to_payload 2 (built f p)) = Some data.
Proof.
  intros Hf Hpt Hz. pose proof (zlen_nonneg data). split.
  - unfold GetFrameHeaderInfo, received. cbn [fu_info_got_ h264_packet osn_]. cbv zeta.
    change (payload_type_ (built f p)) with (f_payload_type f).
    change (payload_type_value RTX) with 127. rewrite (proj2 (Z.eqb_neq _ _)) by done.
    cbn [andb mbind option_bind]. rewrite payload_size_built, Hf. unfold fua_payload.
    rewrite !zlen_cons, (proj2 (Z.leb_gt _ _)) by lia.
    assert (rd (buffer_ (built f p)) (payload_offset_ (built f p) + 0) = Some 28) as ->
      by (apply (At_payload f p 0); by rewrite Hf).
    cbn [mbind option_bind]. change (fi_nal_unit_type (read_indicator 28)) with 28.
    change (28 =? nal_unit_type_value NALU) with false.
    change (28 =? nal_unit_type_value FU_A) with true. cbv match.
    rewrite (proj2 (Z.leb_gt _ _)) by lia.
    change (0 + 1) with (Z.of_nat 1). erewrite (At_payload f p 1) by (rewrite Hf; reflexivity).
    cbn [mbind option_bind]. by rewrite fu_header_bits.
  - match type of Hf with _ = fua_payload _ _ _ => unfold fua_payload in Hf end.
    match type of Hf with _ = ?a :: ?b :: _ => change 2 with (zlen [a; b]) end.
    apply Payload_add_offset; [done|]. rewrite Hf, !zlen_cons. lia.
Qed.

(** ** Generic payloads: what is sent *)

Definition generic_payloads (payload : list Z) : list (list Z) :=
  imap (fun i c => take (length c) payload) (chunks payload).

Lemma generic_step_spec st payload ts i pl pkts :
  pz_ok st -> is_u32 ts -> bytes payload -> zlen payload < 4294967296 ->
  generic_payloads payload !! i = Some pl ->
  generic_step (advance i st) payload (packet_count (zlen payload))
    (zlen payload `mod` MAX_NALU_LEN) ts (Z.of_nat i) pkts =
  Some (pkts ++ packets [frame_of (advance (S i) st) (Nat.eqb (S i) (length (chunks payload)))
                          (pz_payload_type st) ts pl None], advance (S i) st).
Proof.
  intros Hok Hts Hb Hz Hi. unfold generic_payloads in Hi. rewrite list_lookup_imap in Hi.
  apply fmap_Some in Hi as (c & Hc & ->). apply chunks_lookup in Hc as [Hi ->].
  assert (0 < packet_count (zlen payload) < 4294967296) as Hn.
  { pose proof (packet_count_spec (zlen payload) (zlen_nonneg payload)).
    unfold MAX_NALU_LEN in *. lia. }
  pose proof (chunk_read payload i Hz Hi) as Hr.
  unfold generic_step. cbv zeta. rewrite advance_S.
  match goal with |- context [mbind _ (if ?b then rd_range _ 0 ?x else rd_range _ 0 ?y)] =>
    assert ((if b then rd_range payload 0 x else rd_range payload 0 y) =
            Some (take (length (chunk payload i)) payload)) as -> end.
  { destruct ((_ =? _) && _); apply rd_range_inv in Hr as (H0 & H1 & H2 & Hr);
      rewrite rd_range_Some, drop_0 by lia; do 2 f_equal; rewrite Hr, length_take, length_drop;
      unfold zlen, MAX_NALU_LEN in *; lia. }
  cbn [mbind option_bind]. rewrite eqb_last by lia. rewrite <- chunks_length.
  assert (bytes (take (length (chunk payload i)) payload)) as Hb' by by apply bytes_take.
  assert (zlen (take (length (chunk payload i)) payload) <= 2 + MAX_NALU_LEN) as Hz'.
  { pose proof (chunk_zlen payload i). unfold zlen in *. rewrite length_take. lia. }
  pose proof (push_step st i (Nat.eqb (S i) (length (chunks payload))) ts _ pkts Hok Hts Hb' Hz')
    as Hp. unfold push_packet in Hp.
  change (pz_payload_type (advance (S i) st)) with (pz_payload_type st).
  destruct (Build new_packet _ _) as [[ok p]|]; cbn [mbind option_bind] in *; [|done].
  injection Hp as Hp. destruct ok; [by rewrite Hp|].
  apply (f_equal length) in Hp. rewrite length_app in Hp. cbn in Hp. lia.
Qed.

Lemma generic_payloads_length payload : length (generic_payloads payload) = length (chunks payload).
Proof. unfold generic_payloads. by rewrite length_imap. Qed.

Lemma generic_payloads_single p : 0 < zlen p <= MAX_NALU_LEN -> generic_payloads p = [p].
Proof.
  intros Hs. unfold generic_payloads, chunks. replace (Z.to_nat (packet_count (zlen p))) with 1%nat
    by (pose proof (packet_count_spec (zlen p) (zlen_nonneg p)); unfold MAX_NALU_LEN in *; lia).
  cbn. unfold chunk. rewrite Nat.mul_0_l, drop_0.
  assert (take (Z.to_nat MAX_NALU_LEN) p = p) as ->
    by (apply firstn_all2; unfold zlen, MAX_NALU_LEN in *; lia).
  by rewrite firstn_all.
Qed.

Lemma BuildGeneric_train st payload ts :
  pz_ok st -> is_u32 ts -> bytes payload -> zlen payload < 4294967296 ->
  BuildGeneric st payload (zlen payload) ts =
    Some (packets (train st ts (length (generic_payloads payload)) (generic_payloads payload)),
          advance (length (generic_payloads payload)) st).
Proof.
  intros Hok Hts Hb Hz. unfold BuildGeneric. cbv zeta. fold (packet_count (zlen payload)).
  rewrite <- chunks_length, <- generic_payloads_length.
  apply (packet_loop_all (fun st => generic_step st payload (packet_count (zlen payload))
    (zlen payload `mod` MAX_NALU_LEN) ts)); [apply Hok|].
  intros i pl pkts Hi. rewrite generic_payloads_length. by apply generic_step_spec.
Qed.

#[export] Instance Generic_train :
  TrainBuilder (fun st p ts => BuildGeneric st p (zlen p) ts).
Proof.
  constructor. intros st payload ts Hok Hts Hb Hz. exists (generic_payloads payload).
  split; [apply BuildGeneric_train; done || lia|].
  apply Forall_lookup_2. intros i pl Hi. unfold generic_payloads in Hi.
  rewrite list_lookup_imap in Hi. apply fmap_Some in Hi as (c & Hc & ->).
  apply chunks_lookup in Hc as [_ ->]. split; [by apply bytes_take|].
  pose proof (chunk_zlen payload i). unfold zlen in *. rewrite length_take. lia.
Qed.

(** ** Padding *)

Definition padding_frame (st : Packetizer) (ts : Z) (i : nat) (d : Z) : RtpFrame :=
  frame_of (advance (S i) st) false (pz_payload_type st - 1) ts
    (replicate (Z.to_nat (d - 1)) 0) (Some []).

Lemma replicate_bytes n : bytes (replicate n 0).
Proof. apply Forall_replicate. unfold is_u8. lia. Qed.

Lemma replicate_zlen {A} n (x : A) : zlen (replicate n x) = Z.of_nat n.
Proof. unfold zlen. by rewrite length_replicate. Qed.

Lemma set_back_snoc l x v : set_back (l ++ [x]) v = Some (l ++ [v]).
Proof.
  unfold set_back. rewrite zlen_app, zlen_cons. change (zlen (@nil Z)) with 0.
  replace (zlen l + (1 + 0) - 1) with (zlen l) by lia.
  rewrite wr_Some by len. rewrite to_nat_zlen. by rewrite insert_app_r_alt, Nat.sub_diag by lia.
Qed.

Lemma padding_packet st ts i d acc :
  pz_ok st -> is_u32 ts -> 1 <= d <= MAX_NALU_LEN ->
  (frame ← set_back (packet_header (advance (S i) st) true false (pz_payload_type st - 1) ts ++
                     replicate (Z.to_nat d) 0) 1;
   push_packet frame acc) = Some (acc ++ packets [padding_frame st ts i d]).
Proof.
  intros Hok Hts Hd. pose proof Hok as (Hpt & _).
  replace (Z.to_nat d) with (Z.to_nat (d - 1) + 1)%nat by lia.
  rewrite replicate_add, app_assoc. cbn [replicate]. rewrite set_back_snoc.
  cbn [mbind option_bind]. rewrite <- app_assoc.
  pose proof (packet_header_encode (advance (S i) st) false (pz_payload_type st - 1) ts
    (replicate (Z.to_nat (d - 1)) 0) (Some []) (pz_ok_advance _ _ Hok) ltac:(lia)) as He.
  rewrite (bool_decide_true (is_Some (Some []))) in He by eauto. cbn [padding_bytes app] in He.
  change (zlen (@nil Z) + 1) with 1 in He. rewrite He. apply push_packet_encode.
  - apply frame_of_ok; [by apply pz_ok_advance|lia|done|apply replicate_bytes|].
    split; [apply Forall_nil_2|done].
  - rewrite encode_zlen. cbn [frame_of f_csrcs f_exts f_payload f_padding padding_bytes app].
    rewrite replicate_zlen. pose proof (frame_exts_zlen (advance (S i) st)).
    change (zlen (@nil Z)) with 0. change (zlen [0 + 1]) with 1. unfold MAX_NALU_LEN in *. lia.
Qed.

Lemma padding_frame_size st ts i d p :
  1 <= d ->
  payload_size_ (built (padding_frame st ts i d) p) +
  padding_size_ (built (padding_frame st ts i d) p) = d.
Proof.
  intros. change (zlen (replicate (Z.to_nat (d - 1)) 0) + 1 = d). rewrite replicate_zlen. lia.
Qed.

(** The sizes of the padding packets. *)
Fixpoint padding_sizes (n : nat) (remaining : Z) : list Z :=
  match n with
  | O => []
  | S n' => if 0 <? remaining
            then Z.min remaining MAX_NALU_LEN :: padding_sizes n' (remaining - Z.min remaining MAX_NALU_LEN)
            else []
  end.

Lemma padding_sizes_sum n : forall r, 0 <= r <= Z.of_nat n ->
  foldr Z.add 0 (padding_sizes n r) = r /\ Forall (fun d => 1 <= d <= MAX_NALU_LEN) (padding_sizes n r).
Proof.
  induction n as [|n IH]; intros r Hr; cbn [padding_sizes].
  - split; [cbn; lia|apply Forall_nil_2].
  - destruct (Z.ltb_spec 0 r).
    + destruct (IH (r - Z.min r MAX_NALU_LEN)) as [Hs Hf]; [unfold MAX_NALU_LEN; lia|].
      cbn [foldr]. rewrite Hs. split; [lia|].
      apply Forall_cons_2; [unfold MAX_NALU_LEN; lia|done].
    + split; [cbn; lia|apply Forall_nil_2].
Qed.

Lemma padding_loop_spec n : forall fuel st ts i r acc,
  pz_ok st -> is_u32 ts -> 0 <= r <= Z.of_nat n -> (n < fuel)%nat ->
  padding_loop fuel (advance i st) r ts acc =
    Some (acc ++ packets (imap (fun j d => padding_frame st ts (i + j) d) (padding_sizes n r)),
          advance (i + length (padding_sizes n r)) st).
Proof.
  induction n as [|n IH]; intros [|fuel] st ts i r acc Hok Hts Hr Hfu; try lia;
    cbn [padding_loop padding_sizes];
    destruct (Z.ltb_spec 0 r); try lia;
    try (cbn; by rewrite app_nil_r, Nat.add_0_r).
  pose proof Hok as (Hpt & _).
  change (pz_payload_type (advance i st)) with (pz_payload_type st).
  rewrite (u32_id (pz_payload_type st - 1)) by (unfold is_u32; lia).
  rewrite (u8_id (pz_payload_type st - 1)) by (unfold is_u8; lia).
  cbv zeta. rewrite advance_S.
  pose proof (padding_packet st ts i (Z.min r MAX_NALU_LEN) acc Hok Hts
    ltac:(unfold MAX_NALU_LEN; lia)) as Hp.
  destruct (set_back _ _) as [fr|]; cbn [mbind option_bind] in *; [|done].
  rewrite Hp. cbn [mbind option_bind].
  rewrite (IH fuel st ts (S i) _ _ Hok Hts) by (unfold MAX_NALU_LEN; lia).
  cbn [imap length]. rewrite <- app_assoc. do 2 f_equal; [|f_equal; lia].
  f_equal. unfold packets. cbn [map app]. rewrite Nat.add_0_r. f_equal. f_equal.
  apply imap_ext. intros j d _. cbn. f_equal. lia.
Qed.

(** What the receiver makes of the packet of index [i]. *)
Definition depacketized (payload : list Z) (osn : Z) (hdr : FU_HEADER) (p : RtpPacket) (i : nat)
    : RtpPacketH264 :=
  if zlen payload <=? MAX_NALU_LEN
  then mkH264 (add_offset_to_payload 1 p) osn (mkFuIndicator 0 1 1) hdr true
  else mkH264 (add_offset_to_payload 2 p) osn (mkFuIndicator 0 0 28)
         (mkFuHeader (Z.b2z (Nat.eqb i 0))
            (Z.b2z (Nat.eqb (S i) (length (h264_payloads payload)))) 0 28) true.

Definition h264_fragments (payload : list Z) : list (list Z) :=
  if zlen payload <=? MAX_NALU_LEN then [payload] else chunks payload.

Lemma h264_fragments_length payload :
  length (h264_fragments payload) = length (h264_payloads payload).
Proof.
  unfold h264_fragments, h264_payloads. case_if; [done|]. by rewrite length_imap.
Qed.

Lemma concat_h264_fragments payload : concat (h264_fragments payload) = payload.
Proof.
  unfold h264_fragments. case_if; [cbn; by rewrite app_nil_r|apply concat_chunks].
Qed.

Lemma depacketize_packet payload osn ind hdr f i d :
  h264_payloads payload !! i = Some (f_payload f) -> h264_fragments payload !! i = Some d ->
  f_payload_type f <> 127 -> zlen payload < 4294967296 ->
  GetFrameHeaderInfo (received osn ind hdr (built f new_packet)) =
    Some (true, depacketized payload osn hdr (built f new_packet) i) /\
  Payload (h264_packet (depacketized payload osn hdr (built f new_packet) i)) = Some d.
Proof.
  intros Hp Hd Hpt Hz. unfold depacketized, h264_payloads, h264_fragments in *.
  destruct (Z.leb_spec (zlen payload) MAX_NALU_LEN).
  - destruct i; [|done]. injection Hp as Hp. injection Hd as <-.
    by apply GetFrameHeaderInfo_nalu.
  - rewrite list_lookup_imap, Hd in Hp. cbn in Hp. injection Hp as Hp.
    rewrite length_imap. apply GetFrameHeaderInfo_fua; [done|done|].
    apply chunks_lookup in Hd as [_ ->]. pose proof (chunk_zlen payload i).
    unfold MAX_NALU_LEN in *. lia.
Qed.

(** A packet of an H.264 train, on the wire and read back. *)
Lemma h264_packet_received st payload ts osn ind hdr i p d :
  pz_ok st -> pz_payload_type st <> 127 -> is_u32 ts -> bytes payload -> zlen payload < 4294967296 ->
  packets (train st ts (length (h264_payloads payload)) (h264_payloads payload)) !! i = Some p ->
  h264_fragments payload !! i = Some d ->
  packet_of_train st ts (length (h264_payloads payload)) i p /\
  GetFrameHeaderInfo (received osn ind hdr p) = Some (true, depacketized payload osn hdr p i) /\
  Payload (h264_packet (depacketized payload osn hdr p i)) = Some d.
Proof.
  intros Hok Hpt Hts Hb Hz Hp Hd.
  split; [exact (train_packet _ _ _ _ _ _ Hok Hts (h264_payloads_ok payload Hb) Hp)|].
  apply packets_lookup in Hp as (f & Hf & ->). apply train_lookup in Hf as (pl & Hpl & ->).
  exact (depacketize_packet payload osn ind hdr
    (frame_of (advance (S i) st) (Nat.eqb (S i) (length (h264_payloads payload)))
      (pz_payload_type st) ts pl None) i d Hpl Hd Hpt Hz).
Qed.

(** ** Properties *)

Definition sample_packetizer : Packetizer :=
  SetAbsoluteSendTimeExtensionId (Some 3) (pz_set_seq 65535 (RtpPacketizerH264 0x12345678)).

Lemma sample_packetizer_ok : pz_ok sample_packetizer.
Proof. unfold pz_ok, is_u16, is_u32. cbn. lia. Defined.

(** An H.264 frame survives packetization: the packets [Build] makes, each
    parsed from its own bytes and read with [GetFrameHeaderInfo] whatever its
    uninitialised fields held, give back the frame when their payloads are put
    together in order.  A frame of at most 1150 bytes is one [NALU] packet; a
    longer one is a train of [FU_A] packets of which exactly the first has the
    start bit and exactly the last the end bit and the RTP marker. *)
Theorem h264_frame_reassembled (st : Packetizer) (payload : list Z) (ts osn : Z)
    (ind : FU_INDICATOR) (hdr : FU_HEADER) :
  pz_ok st -> pz_payload_type st <> payload_type_value RTX -> is_u32 ts -> bytes payload ->
  zlen payload < 4294967296 ->
  exists pkts st' hs frags,
    BuildH264 st payload (zlen payload) ts = Some (pkts, st') /\
    length hs = length pkts /\ length frags = length pkts /\ concat frags = payload /\
    forall i p h d, pkts !! i = Some p -> hs !! i = Some h -> frags !! i = Some d ->
      Build new_packet (buffer_ p) (zlen (buffer_ p)) = Some (true, p) /\
      GetFrameHeaderInfo (received osn ind hdr p) = Some (true, h) /\
      Payload (h264_packet h) = Some d /\
      marker_ p = Nat.eqb (S i) (length pkts) /\
      (if zlen payload <=? MAX_NALU_LEN then NalUnitType h = nal_unit_type_value NALU
       else NalUnitType h = nal_unit_type_value FU_A /\ FuAStart h = Nat.eqb i 0 /\
            FuAEnd h = Nat.eqb (S i) (length pkts)).
Proof.
  intros Hok Hpt Hts Hb Hz. rewrite BuildH264_train by done.
  set (pkts := packets _). assert (length pkts = length (h264_payloads payload)) as Hn
    by (unfold pkts; by rewrite packets_length, train_length).
  eexists pkts, _, (imap (fun i p => depacketized payload osn hdr p i) pkts), (h264_fragments payload).
  split; [reflexivity|]. split; [apply length_imap|].
  split; [by rewrite h264_fragments_length|]. split; [apply concat_h264_fragments|].
  intros i p h d Hp Hh Hd. rewrite list_lookup_imap, Hp in Hh. injection Hh as <-.
  destruct (h264_packet_received st payload ts osn ind hdr i p d Hok Hpt Hts Hb Hz Hp Hd)
    as ((_ & _ & _ & _ & Hm & _ & Hbuild) & Hg & Hq).
  split_and!; [done|done|done|by rewrite Hn|].
  unfold depacketized. rewrite Hn. destruct (zlen payload <=? MAX_NALU_LEN); [done|].
  unfold FuAStart, FuAEnd. cbn [fu_header_ fu_start fu_end].
  by destruct (Nat.eqb i 0), (Nat.eqb (S i) _).
Qed.

Lemma h264_frame_reassembled_witness :
  let payload := replicate 2301 5 in
  exists pkts st' hs frags,
    BuildH264 sample_packetizer payload (zlen payload) 9000 = Some (pkts, st') /\
    length hs = length pkts /\ length frags = length pkts /\ concat frags = payload /\
    forall i p h d, pkts !! i = Some p -> hs !! i = Some h -> frags !! i = Some d ->
      Build new_packet (buffer_ p) (zlen (buffer_ p)) = Some (true, p) /\
      GetFrameHeaderInfo (received 0 (mkFuIndicator 1 1 1) (mkFuHeader 1 1 1 1) p) =
        Some (true, h) /\
      Payload (h264_packet h) = Some d /\
      marker_ p = Nat.eqb (S i) (length pkts) /\
      (if zlen payload <=? MAX_NALU_LEN then NalUnitType h = nal_unit_type_value NALU
       else NalUnitType h = nal_unit_type_value FU_A /\ FuAStart h = Nat.eqb i 0 /\
            FuAEnd h = Nat.eqb (S i) (length pkts)).
Proof.
  refine (h264_frame_reassembled sample_packetizer (replicate 2301 5) 9000 0
    (mkFuIndicator 1 1 1) (mkFuHeader 1 1 1 1) sample_packetizer_ok _ _ _ _).
  - discriminate.
  - unfold is_u32. lia.
  - apply Forall_replicate. unfold is_u8. lia.
  - reflexivity.
Defined.

Lemma BuildPadding_packets (st : Packetizer) (size ts : Z) :
  pz_ok st -> is_u32 ts -> 0 <= size < 4294967296 ->
  exists pkts, BuildPadding st size ts = Some (pkts, advance (length pkts) st) /\
    foldr Z.add 0 (map (fun p => payload_size_ p + padding_size_ p) pkts) = size /\
    forall i p, pkts !! i = Some p ->
      payload_type_ p = pz_payload_type st - 1 /\ ssrc_ p = pz_ssrc st /\ padding_size_ p = 1 /\
      payload_size_ p + padding_size_ p <= MAX_NALU_LEN /\
      sequence_number_ p = u16 (pz_sequence_number st + Z.of_nat i + 1) /\
      Build new_packet (buffer_ p) (zlen (buffer_ p)) = Some (true, p).
Proof.
  intros Hok Hts Hsz. pose proof Hok as (Hpt & Hseq & _).
  assert (size = Z.of_nat (Z.to_nat size)) as Hn by lia.
  pose proof (padding_loop_spec (Z.to_nat size) (S (Z.to_nat size)) st ts 0 size [] Hok Hts
    ltac:(lia) ltac:(lia)) as Hp.
  rewrite pz_set_seq_id in Hp by done. unfold BuildPadding. rewrite Hp. clear Hp.
  destruct (padding_sizes_sum (Z.to_nat size) size ltac:(lia)) as [Hsum Hall].
  set (sizes := padding_sizes _ _) in *. cbn [app].
  exists (packets (imap (fun j d => padding_frame st ts (0 + j) d) sizes)). split; [by rewrite packets_length, length_imap|]. split.
  - transitivity (foldr Z.add 0 sizes); [|done]. unfold packets. rewrite map_map. f_equal.
    apply list_eq. intros i. change (map ?f ?l) with (f <$> l). rewrite !list_lookup_fmap.
    rewrite list_lookup_imap. destruct (sizes !! i) as [d|] eqn:Hd; [|done].
    apply (Forall_lookup_1 _ _ _ _ Hall) in Hd. cbn [fmap option_fmap option_map].
    f_equal. apply padding_frame_size. lia.
  - intros i p (f & Hf & ->)%packets_lookup. rewrite list_lookup_imap in Hf.
    apply fmap_Some in Hf as (d & Hd & ->). apply (Forall_lookup_1 _ _ _ _ Hall) in Hd.
    split; [done|]. split; [done|]. split; [done|]. split.
    { rewrite padding_frame_size by lia. lia. }
    split; [cbn; f_equal; lia|]. apply Build_encode. apply frame_of_ok;
      [by apply pz_ok_advance|lia|done|apply replicate_bytes|split; [apply Forall_nil_2|done]].
Qed.

(** Bandwidth probes: [BuildPadding] sends exactly the number of bytes
    asked for, as payload and padding of packets of at most 1150 bytes each,
    with one byte of padding and the padding payload type, consecutive sequence
    numbers after the stream's, and a packet that parses back to itself. *)
Theorem padding_packets (st : Packetizer) (size ts : Z) :
  pz_ok st -> is_u32 ts -> 0 <= size < 4294967296 ->
  exists pkts st', BuildPadding st size ts = Some (pkts, st') /\
    foldr Z.add 0 (map (fun p => payload_size_ p + padding_size_ p) pkts) = size /\
    pz_sequence_number st' = u16 (pz_sequence_number st + Z.of_nat (length pkts)) /\
    forall i p, pkts !! i = Some p ->
      payload_type_ p = pz_payload_type st - 1 /\ padding_size_ p = 1 /\
      payload_size_ p + padding_size_ p <= MAX_NALU_LEN /\
      sequence_number_ p = u16 (pz_sequence_number st + Z.of_nat i + 1) /\
      Build new_packet (buffer_ p) (zlen (buffer_ p)) = Some (true, p).
Proof.
  intros Hok Hts Hsz. destruct (BuildPadding_packets st size ts Hok Hts Hsz) as (pkts & E & Hs & Hp).
  eexists _, _. split; [exact E|]. split; [done|]. split; [done|]. intros i p Hi. by destruct (Hp i p Hi) as (? & _ & ?).
Qed.

Lemma padding_packets_witness :
  exists pkts st', BuildPadding sample_packetizer 1151 9000 = Some (pkts, st') /\
    foldr Z.add 0 (map (fun p => payload_size_ p + padding_size_ p) pkts) = 1151 /\
    pz_sequence_number st' =
      u16 (pz_sequence_number sample_packetizer + Z.of_nat (length pkts)) /\
    forall i p, pkts !! i = Some p ->
      payload_type_ p = pz_payload_type sample_packetizer - 1 /\ padding_size_ p = 1 /\
      payload_size_ p + padding_size_ p <= MAX_NALU_LEN /\
      sequence_number_ p = u16 (pz_sequence_number sample_packetizer + Z.of_nat i + 1) /\
      Build new_packet (buffer_ p) (zlen (buffer_ p)) = Some (true, p).
Proof.
  refine (padding_packets sample_packetizer 1151 9000 sample_packetizer_ok _ _);
    unfold is_u32; lia.
Defined.

(** What the generic packetizer sends of a payload longer than one packet:
    [Build] copies every packet from the start of the payload, so two payloads
    of the same size that agree on their first 1150 bytes are sent as the same
    packets and nothing after those bytes reaches the receiver; only a payload
    that fits one packet is carried whole. *)
Theorem generic_build_sends_prefix (st : Packetizer) (p q : list Z) (ts : Z) :
  pz_ok st -> is_u32 ts -> bytes p -> bytes q -> zlen p < 4294967296 ->
  zlen p = zlen q -> take (Z.to_nat MAX_NALU_LEN) p = take (Z.to_nat MAX_NALU_LEN) q ->
  BuildGeneric st p (zlen p) ts = BuildGeneric st q (zlen q) ts /\
  (0 < zlen p <= MAX_NALU_LEN ->
   exists x st', BuildGeneric st p (zlen p) ts = Some ([x], st') /\ Payload x = Some p).
Proof.
  intros Hok Hts Hp Hq Hz Hl Ht.
  rewrite !BuildGeneric_train by (done || lia). split.
  - assert (generic_payloads p = generic_payloads q) as ->; [|done].
    unfold generic_payloads, chunks. rewrite Hl. apply list_eq. intros i.
    rewrite !list_lookup_imap. change (map ?f ?l) with (f <$> l). rewrite !list_lookup_fmap.
    destruct (seq _ _ !! i); [|done]. cbn. f_equal.
    assert (length (chunk p n) = length (chunk q n)) as ->
      by (unfold chunk; rewrite !length_take, !length_drop; unfold zlen in Hl; lia).
    assert (length (chunk q n) <= Z.to_nat MAX_NALU_LEN)%nat as Hm
      by (unfold chunk; rewrite length_take; lia).
    rewrite <- (Nat.min_l _ _ Hm) at 1 2. by rewrite <- !take_take, Ht.
  - intros Hs. rewrite generic_payloads_single by done.
    eexists _, _. split; [reflexivity|]. apply (Payload_built (frame_of (advance 1 st) _ _ _ _ _)).
Qed.

Lemma generic_build_sends_prefix_witness :
  let p := replicate 1150 1 ++ [2] in let q := replicate 1150 1 ++ [3] in
  BuildGeneric sample_packetizer p (zlen p) 9000 = BuildGeneric sample_packetizer q (zlen q) 9000 /\
  (0 < zlen p <= MAX_NALU_LEN ->
   exists x st', BuildGeneric sample_packetizer p (zlen p) 9000 = Some ([x], st') /\
     Payload x = Some p).
Proof.
  refine (generic_build_sends_prefix sample_packetizer (replicate 1150 1 ++ [2])
    (replicate 1150 1 ++ [3]) 9000 sample_packetizer_ok _ _ _ _ _ _).
  - unfold is_u32. lia.
  - apply bytes_app. split; [apply Forall_replicate; unfold is_u8; lia|forall_lit].
  - apply bytes_app. split; [apply Forall_replicate; unfold is_u8; lia|forall_lit].
  - reflexivity.
  - reflexivity.
  - reflexivity.
Defined.
