(* ===== verification/Sdp.v ===== *)
(** * What peers agree on in SDP attributes

    The extension identifiers of [src/transport/rtp_extension_negotiation.cpp],
    the pairs of streams and their retransmission streams of
    [src/transport/rtx_ssrc_mapping.h], and the functions on the text of an SDP
    at the head of [src/transport/ice_transport.cpp]: its sections, the
    capabilities that a video section states, and the writing of a section. *)

From Stdlib Require Import Ascii String.
From stdpp Require Import gmap strings.
From S2P Require Import Prelude Text Packetizer.

(** src/transport/rtp_extension_negotiation.cpp:15-22 [Trim] *)
Definition Trim (value : text) : text := trim_by isspace value.

(** src/transport/rtp_extension_negotiation.cpp:24-35 [ParseUint32] *)
Definition ParseUint32 (value : text) : option Z := from_chars_u32 value.

(** ** The identifier of the send time extension *)

(** src/rtp/rtp_packet/rtp_header_extension.h:15-16 [kAbsoluteSendTimeUri] *)
Definition kAbsoluteSendTimeUri : text := lit "http://www.webrtc.org/experiments/rtp-hdrext/abs-send-time".
(** src/rtp/rtp_packet/rtp_header_extension.h:17-17 [kPreferredAbsoluteSendTimeExtensionId] *)
Definition kPreferredAbsoluteSendTimeExtensionId : Z := 3.

(** src/rtp/rtp_packet/rtp_header_extension.h:19-22 [IsValidOneByteExtensionId] *)
Definition IsValidOneByteExtensionId (id : Z) : bool := (1 <=? id) && (id <=? 14).

(** src/transport/rtp_extension_negotiation.h:16-21 [RtpExtensionDirection] *)
Inductive RtpExtensionDirection := kSendRecv | kSendOnly | kRecvOnly | kInactive.

(** src/transport/rtp_extension_negotiation.h:23-27 [AbsoluteSendTimeExtensionIds] *)
Record AbsoluteSendTimeExtensionIds := mkIds {
  send_id : option Z;
  recv_id : option Z;
  valid : bool;
}.

(** src/transport/rtp_extension_negotiation.cpp:37-41 [InvalidExtensionIds] *)
Definition InvalidExtensionIds : AbsoluteSendTimeExtensionIds := mkIds None None false.

(** src/transport/rtp_extension_negotiation.cpp:43-58 [ParseDirection] *)
Definition ParseDirection (direction : text) : option RtpExtensionDirection :=
  if bool_decide (direction = lit "sendrecv") then Some kSendRecv else
  if bool_decide (direction = lit "sendonly") then Some kSendOnly else
  if bool_decide (direction = lit "recvonly") then Some kRecvOnly else
  if bool_decide (direction = lit "inactive") then Some kInactive else None.

Definition kExtmapPrefix : text := lit "a=extmap:".

(** A line that maps a usable identifier: the identifier, the direction if it is
    one, and the name of the extension. *)
(** src/transport/rtp_extension_negotiation.cpp:73-100 [ParseRemoteAbsoluteSendTimeExtension] *)
Definition parse_extmap (default_direction : RtpExtensionDirection) (line : text)
    : option (Z * option RtpExtensionDirection * text) :=
  let line := Trim line in
  if negb (starts_with kExtmapPrefix line) then None else
  separator ← find_from (lit " ") line (length kExtmapPrefix);
  let id_token := substr line (length kExtmapPrefix) (separator - length kExtmapPrefix) in
  let '(direction, id_token) :=
    match find (lit "/") id_token with
    | Some n => (ParseDirection (drop (n + 1) id_token), take n id_token)
    | None => (Some default_direction, id_token)
    end in
  let uri := Trim (drop (separator + 1) line) in
  let uri := match find_first_of [" "%char; ascii_of_nat 9] uri with Some n => take n uri | None => uri end in
  id ← ParseUint32 id_token;
  if IsValidOneByteExtensionId id then Some (id, direction, uri) else None.

(** src/transport/rtp_extension_negotiation.cpp:114-125 [ParseRemoteAbsoluteSendTimeExtension] *)
Definition ids_in_direction (id : Z) (d : RtpExtensionDirection) : AbsoluteSendTimeExtensionIds :=
  match d with
  | kSendRecv => mkIds (Some id) (Some id) true
  | kSendOnly => mkIds None (Some id) true
  | kRecvOnly => mkIds (Some id) None true
  | kInactive => mkIds None None true
  end.

(** src/transport/rtp_extension_negotiation.cpp:72-126 [ParseRemoteAbsoluteSendTimeExtension] *)
Fixpoint parse_extmaps (default_direction : RtpExtensionDirection) (lines : list text) (extensions : gset Z)
    (seen : bool) (result : AbsoluteSendTimeExtensionIds) : AbsoluteSendTimeExtensionIds :=
  match lines with
  | [] => result
  | line :: lines =>
      match parse_extmap default_direction line with
      | None => parse_extmaps default_direction lines extensions seen result
      | Some (id, direction, uri) =>
          if bool_decide (id ∈ extensions) then InvalidExtensionIds else
          let extensions := {[id]} ∪ extensions in
          if negb (bool_decide (uri = kAbsoluteSendTimeUri))
          then parse_extmaps default_direction lines extensions seen result else
          if seen then InvalidExtensionIds else
          match direction with
          | None => InvalidExtensionIds
          | Some d => parse_extmaps default_direction lines extensions true (ids_in_direction id d)
          end
      end
  end.

(** src/transport/rtp_extension_negotiation.cpp:62-128 [ParseRemoteAbsoluteSendTimeExtension] *)
Definition ParseRemoteAbsoluteSendTimeExtension (sdp_section : text) (default_direction : RtpExtensionDirection)
    : AbsoluteSendTimeExtensionIds :=
  parse_extmaps default_direction (getlines newline sdp_section) ∅ false (mkIds None None true).

(** src/transport/rtp_extension_negotiation.cpp:130-160 [BuildLocalAbsoluteSendTimeExtmap] *)
Definition BuildLocalAbsoluteSendTimeExtmap (ids : AbsoluteSendTimeExtensionIds) : text :=
  if negb (valid ids) then [] else
  match (match send_id ids with Some id => Some id | None => recv_id ids end) with
  | None => []
  | Some id =>
      if negb (IsValidOneByteExtensionId id) then [] else
      match send_id ids, recv_id ids with
      | Some a, Some b =>
          if a =? b then kExtmapPrefix ++ to_string id ++ lit " " ++ kAbsoluteSendTimeUri ++ [newline] else []
      | s, _ =>
          kExtmapPrefix ++ to_string id ++ lit (match s with Some _ => "/sendonly" | None => "/recvonly" end) ++ lit " " ++
          kAbsoluteSendTimeUri ++ [newline]
      end
  end.

(** ** Streams and their retransmission streams *)

Definition ssrc_line (ssrc : Z) (attribute : string) (stream_id : text) : text :=
  lit "a=ssrc:" ++ to_string ssrc ++ lit attribute ++ stream_id.
Definition group_line (media_ssrc rtx_ssrc : Z) : text :=
  lit "a=ssrc-group:FID " ++ to_string media_ssrc ++ lit " " ++ to_string rtx_ssrc.

(** src/transport/rtx_ssrc_mapping.h:17-31 [BuildRtxSsrcAttributes] *)
Definition BuildRtxSsrcAttributes (stream_id : text) (media_ssrc rtx_ssrc : Z) : text :=
  ssrc_line media_ssrc " name:" stream_id ++ [newline] ++
  (if (media_ssrc =? 0) || (rtx_ssrc =? 0) || (media_ssrc =? rtx_ssrc) then [] else
   group_line media_ssrc rtx_ssrc ++ [newline] ++ ssrc_line rtx_ssrc " cname:" stream_id ++ [newline]).

(** [stream >> word]: what is read and what is left. *)
Definition read_word (s : text) : option (text * text) :=
  let s := drop_while isspace s in
  match words s with
  | [] => None
  | w :: _ => Some (w, drop (length w) s)
  end.

(** src/transport/rtx_ssrc_mapping.h:33-49 [ParseRtxSsrcGroup] *)
Definition ParseRtxSsrcGroup (line : text) : option (Z * Z) :=
  let prefix := lit "a=ssrc-group:" in
  if negb (starts_with prefix line) then None else
  '(semantics, s) ← read_word (drop (length prefix) line);
  '(media_ssrc, s) ← read_u32 s;
  '(rtx_ssrc, s) ← read_u32 s;
  if negb (bool_decide (semantics = lit "FID")) || (media_ssrc =? 0) || (rtx_ssrc =? 0) || (media_ssrc =? rtx_ssrc)
  then None else Some (media_ssrc, rtx_ssrc).

(** ** Sections *)

Definition m_ (media_tag : string) : text := lit "m=" ++ lit media_tag.
Definition next_media : text := newline :: lit "m=".

(** src/transport/ice_transport.cpp:86-95 [GetMediaSection] *)
Definition GetMediaSection (sdp : text) (media_tag : string) : text :=
  match find (m_ media_tag) sdp with
  | None => []
  | Some start =>
      match find_from next_media sdp (start + 1) with
      | None => drop start sdp
      | Some e => substr sdp start (e - start)
      end
  end.

(** src/transport/ice_transport.cpp:97-100 [GetSessionSection] *)
Definition GetSessionSection (sdp : text) : text :=
  match find (lit "m=") sdp with Some n => take n sdp | None => sdp end.

(** src/transport/ice_transport.cpp:102-112 [HasExtmap] *)
Definition HasExtmap (sdp_section : text) : bool :=
  existsb (fun line => starts_with kExtmapPrefix (Trim line)) (getlines newline sdp_section).

(** src/transport/ice_transport.cpp:118-128 [GetMediaDirection] *)
Fixpoint media_direction (lines : list text) : RtpExtensionDirection :=
  match lines with
  | [] => kSendRecv
  | line :: lines =>
      let line := Trim line in
      if bool_decide (line = lit "a=sendonly") then kSendOnly else
      if bool_decide (line = lit "a=recvonly") then kRecvOnly else
      if bool_decide (line = lit "a=inactive") then kInactive else media_direction lines
  end.
(** src/transport/ice_transport.cpp:114-130 [GetMediaDirection] *)
Definition GetMediaDirection (media_section : text) : RtpExtensionDirection :=
  media_direction (getlines newline media_section).

(** src/transport/ice_transport.cpp:132-148 [GetAbsoluteSendTimeExtensionIds] *)
Definition GetAbsoluteSendTimeExtensionIds (sdp : text) (media_tag : string) : AbsoluteSendTimeExtensionIds :=
  let media_section := GetMediaSection sdp media_tag in
  let session_section := GetSessionSection sdp in
  if HasExtmap media_section && HasExtmap session_section then InvalidExtensionIds else
  if HasExtmap media_section
  then ParseRemoteAbsoluteSendTimeExtension media_section (GetMediaDirection media_section)
  else ParseRemoteAbsoluteSendTimeExtension session_section kSendRecv.

(** ** The capabilities of a video section *)

(** src/transport/ice_transport.cpp:150-155 [VideoTransportCapabilities] *)
Record VideoTransportCapabilities := mkCapabilities {
  rtx : bool;
  nack : bool;
  fir : bool;
  reduced_size_rtcp : bool;
}.

(** What the lines read so far have said. *)
Record CapabilityScan := mkScan {
  payload_on_media_line : bool;
  has_rtx_mapping : bool;
  has_matching_apt : bool;
  has_nack_feedback : bool;
  has_fir : bool;
  has_reduced_size : bool;
}.

(** src/transport/ice_transport.cpp:202-208 [ParseVideoTransportCapabilities] *)
Definition is_matching_apt (media_payload parameter : text) : bool :=
  let parameter := Trim parameter in
  match find (lit "=") parameter with
  | Some separator =>
      bool_decide (Trim (take separator parameter) = lit "apt") &&
      bool_decide (Trim (drop (separator + 1) parameter) = media_payload)
  | None => false
  end.

(** src/transport/ice_transport.cpp:182-215 [ParseVideoTransportCapabilities] *)
Definition scan_line (media_payload line : text) (s : CapabilityScan) : CapabilityScan :=
  let rtx_payload_type := to_string (payload_type_value RTX) in
  let rtpmap_prefix := lit "a=rtpmap:" ++ rtx_payload_type ++ lit " " in
  let fmtp_prefix := lit "a=fmtp:" ++ rtx_payload_type ++ lit " " in
  let line := Trim line in
  mkScan
    (payload_on_media_line s ||
     (starts_with (lit "m=video ") line && existsb (fun field => bool_decide (field = rtx_payload_type)) (words line)))
    (if starts_with rtpmap_prefix line
     then bool_decide (map tolower (Trim (drop (length rtpmap_prefix) line)) = lit "rtx/90000") else has_rtx_mapping s)
    (has_matching_apt s ||
     (starts_with fmtp_prefix line && existsb (is_matching_apt media_payload) (getlines ";"%char (drop (length fmtp_prefix) line))))
    (has_nack_feedback s || bool_decide (line = lit "a=rtcp-fb:" ++ media_payload ++ lit " nack") ||
     bool_decide (line = lit "a=rtcp-fb:* nack"))
    (has_fir s || bool_decide (line = lit "a=rtcp-fb:" ++ media_payload ++ lit " ccm fir") ||
     bool_decide (line = lit "a=rtcp-fb:* ccm fir"))
    (has_reduced_size s || bool_decide (line = lit "a=rtcp-rsize")).

Definition scan_lines (media_payload : text) (lines : list text) (s : CapabilityScan) : CapabilityScan :=
  fold_left (fun s line => scan_line media_payload line s) lines s.

(** src/transport/ice_transport.cpp:157-222 [ParseVideoTransportCapabilities] *)
Definition ParseVideoTransportCapabilities (video_section : text) (media_payload_type : Z) : VideoTransportCapabilities :=
  let s := scan_lines (to_string media_payload_type) (getlines newline video_section)
             (mkScan false false false false false false) in
  let r := payload_on_media_line s && has_rtx_mapping s && has_matching_apt s in
  mkCapabilities r (r && has_nack_feedback s) (has_fir s) (has_reduced_size s).

(** src/transport/ice_transport.cpp:224-246 [BuildVideoTransportAttributes] *)
Definition BuildVideoTransportAttributes (media_payload : text)
    (include_rtx include_nack include_fir include_reduced_size_rtcp : bool) : text :=
  let rtx_payload := to_string (payload_type_value RTX) in
  (if include_rtx then
     lit "a=rtpmap:" ++ rtx_payload ++ lit " rtx/90000" ++ [newline] ++
     lit "a=fmtp:" ++ rtx_payload ++ lit " apt=" ++ media_payload ++ [newline] else []) ++
  (if include_nack then lit "a=rtcp-fb:" ++ media_payload ++ lit " nack" ++ [newline] else []) ++
  (if include_fir then lit "a=rtcp-fb:" ++ media_payload ++ lit " ccm fir" ++ [newline] else []) ++
  (if include_reduced_size_rtcp then lit "a=rtcp-rsize" ++ [newline] else []).

(** The first ["ICE/SDP"] of the media line gives way to the capability, and the
    attributes go to the end of the section. *)
(** src/transport/ice_transport.cpp:248-269 [ConfigureMediaSection] *)
Definition ConfigureMediaSection (sdp : text) (media_tag : string) (capability attributes : text) : text :=
  match find (m_ media_tag) sdp with
  | None => sdp
  | Some section_start =>
      let media_line_end := default (length sdp) (find_from [newline] sdp section_start) in
      let sdp :=
        match find_from (lit "ICE/SDP") sdp section_start with
        | Some pos => if (pos <? media_line_end)%nat then take pos sdp ++ capability ++ drop (pos + 7) sdp else sdp
        | None => sdp
        end in
      let insert_pos := match find_from next_media sdp (section_start + 1) with
                        | Some n => (n + 1)%nat
                        | None => length sdp
                        end in
      take insert_pos sdp ++ attributes ++ drop insert_pos sdp
  end.
