(* ===== verification/Session.v ===== *)
(** * Negotiation of a session

    The parts of [IceTransport] ([src/transport/ice_transport.cpp]) that write
    an offer or an answer and read the other peer's: streams and their SSRCs,
    payload types, extension identifiers, the section given to the ICE agent.
    The transport is one after [InitIceTransmission]: its agent and its
    controller are there; what it calls on them and on the signalling
    connection is the interface [SessionWorld]. *)

From Stdlib Require Import Ascii String.
From stdpp Require Import gmap strings.
From S2P Require Import Prelude StateMonad StdContainers Text IceUtils Packetizer Sdp.

(** ** What the transport calls *)

(** A message to the other peer, through the signalling server. *)
Inductive Message :=
  | Offer (sdp : text)
  | Answer (sdp : text)
  | NewCandidate (sdp ufrag : text).

Class SessionWorld (W : Type) := {
  AddVideoSendChannel : text -> W -> Z * W;
  GetVideoRtxSsrc : text -> W -> Z * W;
  AddAudioSendChannel : text -> W -> Z * W;
  AddDataSendChannel : text -> bool -> W -> Z * W;
  AddVideoReceiveChannel : text -> Z -> Z -> W -> unit * W;
  AddAudioReceiveChannel : text -> Z -> W -> unit * W;
  AddDataReceiveChannel : text -> Z -> bool -> W -> unit * W;
  SetSrtpEnabled : bool -> W -> unit * W;
  (** [Create] and [Start]: the video payload type, whether retransmissions are
      on, the identifiers for sending and receiving video and audio. *)
  CreateAndStart : Z -> bool -> option Z * option Z -> option Z * option Z -> W -> unit * W;
  (** The agent. *)
  agent_GenerateLocalSdp : W -> text * W;
  agent_AppendFingerprintLine : text -> W -> text * W;
  agent_SetRemoteSdp : text -> W -> Z * W;
  agent_AddRemoteCandidate : text -> W -> Z * W;
  agent_SetRemoteCandidateGatheringDone : W -> Z * W;
  agent_GatherCandidates : W -> Z * W;
  (** [ice_ws_transport_->Send]. *)
  send_message : Message -> W -> unit * W;
}.

(** ** The state *)

Record LocalStreams := mkLocal {
  video_stream_ids_ : list text;
  audio_stream_ids_ : list text;
  data_stream_ids_ : list (text * bool);
  video_senders_ssrc_ : list (text * Z);
  audio_senders_ssrc_ : list (text * Z);
  data_senders_ssrc_ : list (text * Z);
}.

Record RemoteStreams := mkRemote {
  remote_video_stream_ids_ : list text;
  remote_audio_stream_ids_ : list text;
  remote_data_stream_ids_ : list text;
  video_receivers_ssrc_ : list (text * Z);
  video_receivers_rtx_ssrc_ : list (text * Z);
  audio_receivers_ssrc_ : list (text * Z);
  data_receivers_ssrc_ : list (text * Z);
  remote_data_stream_reliable_ : list (text * bool);
}.

Record Negotiated := mkNegotiated {
  remote_capabilities_got_ : bool;
  remote_prefered_video_pt_ : Z;
  remote_prefered_audio_pt_ : Z;
  remote_prefered_data_pt_ : Z;
  negotiated_video_pt_ : Z;
  negotiated_audio_pt_ : Z;
  negotiated_data_pt_ : Z;
  video_abs_send_time_ext_id_ : option Z;
  video_abs_recv_time_ext_id_ : option Z;
  audio_abs_send_time_ext_id_ : option Z;
  audio_abs_recv_time_ext_id_ : option Z;
}.

Record CandidateState := mkCandidates {
  remote_ice_username_ : text;
  local_ice_username_ : text;
  seen_local_candidate_sdps_ : gset text;
  remote_candidate_keys_ : gset text;
  pending_remote_candidates_ : list IceCandidateSignal;
  local_gathering_done_sent_ : bool;
  remote_gathering_done_ : bool;
}.

(** The members that negotiation uses, in groups. *)
(** src/transport/ice_transport.h:191-283 [IceTransport] *)
Record IceTransport := mkTransport {
  offer_peer_ : bool;
  use_trickle_ice_ : bool;
  prefered_video_payload_type_ : PAYLOAD_TYPE;
  support_video_payload_types_ : list Z;
  support_audio_payload_types_ : list Z;
  support_data_payload_types_ : list Z;
  enable_srtp_ : bool;
  local_sdp_ : text;
  remote_sdp_ : text;
  local : LocalStreams;
  remote : RemoteStreams;
  negotiated : Negotiated;
  candidates : CandidateState;
}.

Definition set_enable_srtp (b : bool) (t : IceTransport) : IceTransport :=
  mkTransport (offer_peer_ t) (use_trickle_ice_ t) (prefered_video_payload_type_ t) (support_video_payload_types_ t)
    (support_audio_payload_types_ t) (support_data_payload_types_ t) b (local_sdp_ t) (remote_sdp_ t)
    (local t) (remote t) (negotiated t) (candidates t).
Definition set_sdps (l r : text) (t : IceTransport) : IceTransport :=
  mkTransport (offer_peer_ t) (use_trickle_ice_ t) (prefered_video_payload_type_ t) (support_video_payload_types_ t)
    (support_audio_payload_types_ t) (support_data_payload_types_ t) (enable_srtp_ t) l r
    (local t) (remote t) (negotiated t) (candidates t).
Definition set_local (l : LocalStreams) (t : IceTransport) : IceTransport :=
  mkTransport (offer_peer_ t) (use_trickle_ice_ t) (prefered_video_payload_type_ t) (support_video_payload_types_ t)
    (support_audio_payload_types_ t) (support_data_payload_types_ t) (enable_srtp_ t) (local_sdp_ t) (remote_sdp_ t)
    l (remote t) (negotiated t) (candidates t).
Definition set_remote (r : RemoteStreams) (t : IceTransport) : IceTransport :=
  mkTransport (offer_peer_ t) (use_trickle_ice_ t) (prefered_video_payload_type_ t) (support_video_payload_types_ t)
    (support_audio_payload_types_ t) (support_data_payload_types_ t) (enable_srtp_ t) (local_sdp_ t) (remote_sdp_ t)
    (local t) r (negotiated t) (candidates t).
Definition set_negotiated (n : Negotiated) (t : IceTransport) : IceTransport :=
  mkTransport (offer_peer_ t) (use_trickle_ice_ t) (prefered_video_payload_type_ t) (support_video_payload_types_ t)
    (support_audio_payload_types_ t) (support_data_payload_types_ t) (enable_srtp_ t) (local_sdp_ t) (remote_sdp_ t)
    (local t) (remote t) n (candidates t).
Definition set_candidates (c : CandidateState) (t : IceTransport) : IceTransport :=
  mkTransport (offer_peer_ t) (use_trickle_ice_ t) (prefered_video_payload_type_ t) (support_video_payload_types_ t)
    (support_audio_payload_types_ t) (support_data_payload_types_ t) (enable_srtp_ t) (local_sdp_ t) (remote_sdp_ t)
    (local t) (remote t) (negotiated t) c.

Definition set_extensions (vs vr asend arecv : option Z) (n : Negotiated) : Negotiated :=
  mkNegotiated (remote_capabilities_got_ n) (remote_prefered_video_pt_ n) (remote_prefered_audio_pt_ n)
    (remote_prefered_data_pt_ n) (negotiated_video_pt_ n) (negotiated_audio_pt_ n) (negotiated_data_pt_ n)
    vs vr asend arecv.
Definition set_capabilities_got (n : Negotiated) : Negotiated :=
  mkNegotiated true (remote_prefered_video_pt_ n) (remote_prefered_audio_pt_ n)
    (remote_prefered_data_pt_ n) (negotiated_video_pt_ n) (negotiated_audio_pt_ n) (negotiated_data_pt_ n)
    (video_abs_send_time_ext_id_ n) (video_abs_recv_time_ext_id_ n)
    (audio_abs_send_time_ext_id_ n) (audio_abs_recv_time_ext_id_ n).
Definition set_payload_types (prefered agreed : Z * Z * Z) (n : Negotiated) : Negotiated :=
  mkNegotiated (remote_capabilities_got_ n) prefered.1.1 prefered.1.2 prefered.2 agreed.1.1 agreed.1.2 agreed.2
    (video_abs_send_time_ext_id_ n) (video_abs_recv_time_ext_id_ n)
    (audio_abs_send_time_ext_id_ n) (audio_abs_recv_time_ext_id_ n).

(** ** The streams of the other peer *)

(** What the lines of a section say about streams. *)
Record StreamLines := mkStreamLines {
  ssrc_to_sender_id : list (Z * text);
  ssrc_to_reliable : list (Z * bool);
  media_to_rtx_ssrc : list (Z * Z);
  new_sdp_block : text;
}.

Inductive MediaType := video | audio | data.

#[export] Instance MediaType_eq_dec : EqDecision MediaType.
Proof. solve_decision. Defined.

(** src/transport/ice_transport.cpp:1187-1206 [IceTransport::ParseSsrcFromSdpAndRemove] *)
Definition parse_ssrc_line (line : text) (s : StreamLines) : StreamLines :=
  let prefix_len := length (lit "a=ssrc:") in
  match find_from (lit " ") line prefix_len with
  | None => s
  | Some space_pos =>
      match ParseUint32 (substr line prefix_len (space_pos - prefix_len)) with
      | None => s
      | Some ssrc =>
          let attribute := drop (space_pos + 1) line in
          if starts_with (lit "name:") attribute
          then mkStreamLines (map_assign ssrc (chomp (drop 5 attribute)) (ssrc_to_sender_id s)) (ssrc_to_reliable s)
                 (media_to_rtx_ssrc s) (new_sdp_block s)
          else s
      end
  end.

(** src/transport/ice_transport.cpp:1208-1219 [IceTransport::ParseSsrcFromSdpAndRemove] *)
Definition parse_reliable_line (line : text) (s : StreamLines) : StreamLines :=
  let prefix_len := length (lit "a=x-reliable-data:") in
  match find_from (lit " ") line prefix_len with
  | None => s
  | Some space_pos =>
      match ParseUint32 (substr line prefix_len (space_pos - prefix_len)) with
      | None => s
      | Some ssrc =>
          mkStreamLines (ssrc_to_sender_id s)
            (map_assign ssrc (bool_decide (Trim (drop (space_pos + 1) line) = lit "1")) (ssrc_to_reliable s))
            (media_to_rtx_ssrc s) (new_sdp_block s)
      end
  end.

(** src/transport/ice_transport.cpp:1180-1223 [IceTransport::ParseSsrcFromSdpAndRemove] *)
Definition parse_stream_line (media_type : MediaType) (s : StreamLines) (line : text) : StreamLines :=
  if starts_with (lit "a=ssrc-group:") line && bool_decide (media_type = video) then
    match ParseRtxSsrcGroup line with
    | Some (media, rtx) =>
        mkStreamLines (ssrc_to_sender_id s) (ssrc_to_reliable s) (map_assign media rtx (media_to_rtx_ssrc s)) (new_sdp_block s)
    | None => s
    end
  else if starts_with (lit "a=ssrc:") line then parse_ssrc_line line s
  else if starts_with (lit "a=x-reliable-data:") line && bool_decide (media_type = data) then parse_reliable_line line s
  else mkStreamLines (ssrc_to_sender_id s) (ssrc_to_reliable s) (media_to_rtx_ssrc s)
         (new_sdp_block s ++ line ++ [newline]).

Definition parse_stream_lines (media_type : MediaType) (sdp_block : text) : StreamLines :=
  fold_left (parse_stream_line media_type) (getlines newline sdp_block) (mkStreamLines [] [] [] []).

(** The named streams, those of retransmissions left out, in the order of their
    SSRCs. *)
(** src/transport/ice_transport.cpp:1225-1246 [IceTransport::ParseSsrcFromSdpAndRemove] *)
Definition named_streams (media_type : MediaType) (s : StreamLines) : list (Z * text) :=
  List.filter (fun '(ssrc, sender_id) =>
    negb (bool_decide (media_type = video) && existsb (fun m => m.2 =? ssrc) (media_to_rtx_ssrc s)) &&
    negb (bool_decide (sender_id = []))) (ssrc_to_sender_id s).

Definition stream_ssrcs (streams : list (Z * text)) : list (text * Z) :=
  fold_left (fun m '(ssrc, id) => text_assign id ssrc m) streams [].

(** src/transport/ice_transport.cpp:1247-1255 [IceTransport::ParseSsrcFromSdpAndRemove] *)
Definition stream_rtx_ssrcs (s : StreamLines) : list (text * Z) :=
  fold_left (fun m '(media, rtx) =>
    match map_find media (ssrc_to_sender_id s) with
    | Some id => if bool_decide (id = []) then m else text_assign id rtx m
    | None => m
    end) (media_to_rtx_ssrc s) [].

(** src/transport/ice_transport.cpp:1257-1266 [IceTransport::ParseSsrcFromSdpAndRemove] *)
Definition stream_reliable (s : StreamLines) (known : list (text * bool)) : list (text * bool) :=
  fold_left (fun m '(ssrc, reliable) =>
    match map_find ssrc (ssrc_to_sender_id s) with
    | Some id => text_assign id reliable m
    | None => m
    end) (ssrc_to_reliable s) known.

(** The block without the lines about streams, their SSRCs and those of their
    retransmissions; the members that list the streams are changed. *)
(** src/transport/ice_transport.cpp:1168-1269 [IceTransport::ParseSsrcFromSdpAndRemove] *)
Definition ParseSsrcFromSdpAndRemove (media_type : MediaType) (sdp_block : text) (r : RemoteStreams)
    : text * list (text * Z) * list (text * Z) * RemoteStreams :=
  let s := parse_stream_lines media_type sdp_block in
  let streams := named_streams media_type s in
  let ids := map snd streams in
  let r := match media_type with
           | video => mkRemote (remote_video_stream_ids_ r ++ ids) (remote_audio_stream_ids_ r) (remote_data_stream_ids_ r)
                        (video_receivers_ssrc_ r) (video_receivers_rtx_ssrc_ r) (audio_receivers_ssrc_ r)
                        (data_receivers_ssrc_ r) (remote_data_stream_reliable_ r)
           | audio => mkRemote (remote_video_stream_ids_ r) (remote_audio_stream_ids_ r ++ ids) (remote_data_stream_ids_ r)
                        (video_receivers_ssrc_ r) (video_receivers_rtx_ssrc_ r) (audio_receivers_ssrc_ r)
                        (data_receivers_ssrc_ r) (remote_data_stream_reliable_ r)
           | data => mkRemote (remote_video_stream_ids_ r) (remote_audio_stream_ids_ r) (remote_data_stream_ids_ r ++ ids)
                        (video_receivers_ssrc_ r) (video_receivers_rtx_ssrc_ r) (audio_receivers_ssrc_ r)
                        (data_receivers_ssrc_ r) (stream_reliable s (remote_data_stream_reliable_ r))
           end in
  (new_sdp_block s, stream_ssrcs streams,
   match media_type with video => stream_rtx_ssrcs s | _ => [] end, r).

(** ** Payload types *)

(** The list of payload types at the end of a media line.  A search that starts
    behind a position that was not found starts at 0, and the one behind the
    name of a section that is not there at the sum of [npos] and the length. *)
(** src/transport/ice_transport.cpp:1435-1447 [IceTransport::NegotiateVideoPayloadType] *)
Definition remote_types (media_tag : string) (remote_sdp : text) : text :=
  let start := match find (m_ media_tag) remote_sdp with
               | Some n => (n + length (m_ media_tag))%nat
               | None => (length (m_ media_tag) - 1)%nat
               end in
  let after (pos : option nat) := match pos with Some n => (n + 1)%nat | None => 0%nat end in
  let line_end := find_from [newline] remote_sdp start in
  let pos1 := find_from (lit " ") remote_sdp start in
  let pos2 := find_from (lit " ") remote_sdp (after pos1) in
  let pos3 := find_from (lit " ") remote_sdp (after pos2) in
  match line_end, pos1, pos2, pos3 with
  | Some e, Some _, Some _, Some p =>
      if (e <? p + 1)%nat then drop (p + 1) remote_sdp else substr remote_sdp (p + 1) (e - p - 1)
  | _, _, _, _ => []
  end.

(** The loop over the types: the last type looked at, and the one agreed on. *)
(** src/transport/ice_transport.cpp:1460-1489 [IceTransport::NegotiateVideoPayloadType] *)
Fixpoint negotiate_loop (fuel : nat) (supported : list Z) (types : text) (start : nat) (prefered agreed : Z) : option (Z * Z) :=
  match fuel with
  | O => Some (prefered, agreed)
  | S fuel =>
      if (length types <? start)%nat then Some (prefered, agreed) else
      let e := find_from (lit " ") types start in
      pt ← atoi (match e with Some n => take n types | None => types end);
      if bool_decide (pt ∈ supported) then Some (pt, pt) else
      match e with
      | Some n => negotiate_loop fuel supported types (n + 1) pt agreed
      | None => Some (pt, agreed)
      end
  end.

(** Each round starts further behind in the text. *)
(** src/transport/ice_transport.cpp:1430-1500 [IceTransport::NegotiateVideoPayloadType] *)
Definition NegotiatePayloadType (media_tag : string) (supported : list Z) (remote_sdp : text) (prefered agreed : Z)
    : option (bool * Z * Z) :=
  let types := remote_types media_tag remote_sdp in
  '(prefered, agreed) ← negotiate_loop (S (S (length types))) supported types 0 prefered agreed;
  Some (negb (agreed =? payload_type_value UNDEFINED), prefered, agreed).

(** ** Methods *)

Section methods.
Context {W : Type} {world : SessionWorld W}.

Definition C (A : Type) : Type := M (IceTransport * W) A.

Definition transport {A} (f : IceTransport -> A) : C A := gets (fun s => f s.1).
Definition set_transport (f : IceTransport -> IceTransport) : C unit := modify (fun s => (f s.1, s.2)).
Definition call {A} (f : W -> A * W) : C A := fun s => let '(a, w) := f s.2 in Some (a, (s.1, w)).

(** src/transport/ice_transport.cpp:1008-1011 [IceTransport::AddVideoStream] *)
Definition AddVideoStream (stream_id : text) : C unit :=
  set_transport (fun t => let l := local t in
    set_local (mkLocal (video_stream_ids_ l ++ [stream_id]) (audio_stream_ids_ l) (data_stream_ids_ l)
                 (video_senders_ssrc_ l) (audio_senders_ssrc_ l) (data_senders_ssrc_ l)) t).
(** src/transport/ice_transport.cpp:1013-1016 [IceTransport::AddAudioStream] *)
Definition AddAudioStream (stream_id : text) : C unit :=
  set_transport (fun t => let l := local t in
    set_local (mkLocal (video_stream_ids_ l) (audio_stream_ids_ l ++ [stream_id]) (data_stream_ids_ l)
                 (video_senders_ssrc_ l) (audio_senders_ssrc_ l) (data_senders_ssrc_ l)) t).
(** [insert] leaves a stream that is there as it is. *)
(** src/transport/ice_transport.cpp:1018-1021 [IceTransport::AddDataStream] *)
Definition AddDataStream (stream_id : text) (reliable : bool) : C unit :=
  set_transport (fun t => let l := local t in
    set_local (mkLocal (video_stream_ids_ l) (audio_stream_ids_ l)
                 (match text_find stream_id (data_stream_ids_ l) with
                  | Some _ => data_stream_ids_ l
                  | None => text_assign stream_id reliable (data_stream_ids_ l) end)
                 (video_senders_ssrc_ l) (audio_senders_ssrc_ l) (data_senders_ssrc_ l)) t).

Definition set_senders (v a d : list (text * Z) -> list (text * Z)) : C unit :=
  set_transport (fun t => let l := local t in
    set_local (mkLocal (video_stream_ids_ l) (audio_stream_ids_ l) (data_stream_ids_ l)
                 (v (video_senders_ssrc_ l)) (a (audio_senders_ssrc_ l)) (d (data_senders_ssrc_ l))) t).

(** src/transport/ice_transport.cpp:1026-1038 [IceTransport::AppendLocalSenderSsrcAttributes] *)
Fixpoint video_attributes (include_video_rtx : bool) (ids : list text) : C text :=
  match ids with
  | [] => mret []
  | stream_id :: ids =>
      ssrc ← call (AddVideoSendChannel stream_id);
      set_senders (text_assign stream_id ssrc) id id;;
      attributes ← (if include_video_rtx then
                      rtx_ssrc ← call (GetVideoRtxSsrc stream_id);
                      mret (BuildRtxSsrcAttributes stream_id ssrc rtx_ssrc)
                    else mret (ssrc_line ssrc " name:" stream_id ++ [newline]));
      rest ← video_attributes include_video_rtx ids;
      mret (attributes ++ rest)
  end.

(** src/transport/ice_transport.cpp:1040-1046 [IceTransport::AppendLocalSenderSsrcAttributes] *)
Fixpoint audio_attributes (ids : list text) : C text :=
  match ids with
  | [] => mret []
  | stream_id :: ids =>
      ssrc ← call (AddAudioSendChannel stream_id);
      set_senders id (text_assign stream_id ssrc) id;;
      rest ← audio_attributes ids;
      mret (ssrc_line ssrc " name:" stream_id ++ [newline] ++ rest)
  end.

Definition reliable_line (ssrc : Z) (reliable : bool) : text :=
  lit "a=x-reliable-data:" ++ to_string ssrc ++ lit " " ++ lit (if reliable then "1" else "0").

(** src/transport/ice_transport.cpp:1048-1056 [IceTransport::AppendLocalSenderSsrcAttributes] *)
Fixpoint data_attributes (ids : list (text * bool)) : C text :=
  match ids with
  | [] => mret []
  | (stream_id, reliable) :: ids =>
      ssrc ← call (AddDataSendChannel stream_id reliable);
      set_senders id id (text_assign stream_id ssrc);;
      rest ← data_attributes ids;
      mret (ssrc_line ssrc " name:" stream_id ++ [newline] ++ reliable_line ssrc reliable ++ [newline] ++ rest)
  end.

(** The attributes for video, audio and data. *)
(** src/transport/ice_transport.cpp:1023-1057 [IceTransport::AppendLocalSenderSsrcAttributes] *)
Definition AppendLocalSenderSsrcAttributes (include_video_rtx : bool) : C (text * text * text) :=
  l ← transport local;
  v ← video_attributes include_video_rtx (video_stream_ids_ l);
  a ← audio_attributes (audio_stream_ids_ l);
  d ← data_attributes (data_stream_ids_ l);
  mret (v, a, d).

Definition kProtocol : text := lit "UDP/TLS/RTP/SAVPF ".

Definition set_negotiation (f : Negotiated -> Negotiated) : C unit :=
  set_transport (fun t => set_negotiated (f (negotiated t)) t).

Definition configure_sections (v va a aa d da : text) : C unit :=
  set_transport (fun t =>
    set_sdps (ConfigureMediaSection (ConfigureMediaSection (ConfigureMediaSection (local_sdp_ t) "video" v va) "audio" a aa)
                "data" d da) (remote_sdp_ t) t).

(** The payload type put first, and the others of the offer. *)
(** src/transport/ice_transport.cpp:1060-1082 [IceTransport::AppendLocalCapabilitiesToOffer] *)
Definition offered_types (prefered : PAYLOAD_TYPE) : text * text :=
  let '(pt, others) := match prefered with
                       | AV1 => (to_string (payload_type_value AV1), lit " 96 97 98")
                       | _ => (to_string (payload_type_value H264), lit " 97 98 99")
                       end in
  (pt, kProtocol ++ pt ++ others ++ lit " " ++ to_string (payload_type_value RTX)).

(** src/transport/ice_transport.cpp:1059-1109 [IceTransport::AppendLocalCapabilitiesToOffer] *)
Definition AppendLocalCapabilitiesToOffer : C unit :=
  prefered ← transport prefered_video_payload_type_;
  let '(preferred_video_pt, video_capabilities) := offered_types prefered in
  let id := Some kPreferredAbsoluteSendTimeExtensionId in
  set_negotiation (set_extensions id id id id);;
  let extmap := BuildLocalAbsoluteSendTimeExtmap (mkIds id id true) in
  '(v, a, d) ← AppendLocalSenderSsrcAttributes true;
  configure_sections
    video_capabilities (extmap ++ BuildVideoTransportAttributes preferred_video_pt true true true true ++ v)
    (kProtocol ++ lit "111") (extmap ++ a)
    (kProtocol ++ lit "120 121") d.

(** src/transport/ice_transport.cpp:1111-1166 [IceTransport::AppendLocalCapabilitiesToAnswer] *)
Definition AppendLocalCapabilitiesToAnswer : C unit :=
  n ← transport negotiated;
  remote_sdp ← transport remote_sdp_;
  let remote_video := ParseVideoTransportCapabilities (GetMediaSection remote_sdp "video") (negotiated_video_pt_ n) in
  let video_capability := kProtocol ++ to_string (negotiated_video_pt_ n) ++
    (if rtx remote_video then lit " " ++ to_string (payload_type_value RTX) else []) in
  let extmap s r := BuildLocalAbsoluteSendTimeExtmap (mkIds s r true) in
  '(v, a, d) ← AppendLocalSenderSsrcAttributes (rtx remote_video);
  call (CreateAndStart (negotiated_video_pt_ n) (rtx remote_video)
          (video_abs_send_time_ext_id_ n, video_abs_recv_time_ext_id_ n)
          (audio_abs_send_time_ext_id_ n, audio_abs_recv_time_ext_id_ n));;
  configure_sections
    video_capability
    (extmap (video_abs_send_time_ext_id_ n) (video_abs_recv_time_ext_id_ n) ++
     BuildVideoTransportAttributes (to_string (negotiated_video_pt_ n)) (rtx remote_video) (nack remote_video)
       (fir remote_video) (reduced_size_rtcp remote_video) ++ v)
    (kProtocol ++ to_string (negotiated_audio_pt_ n))
    (extmap (audio_abs_send_time_ext_id_ n) (audio_abs_recv_time_ext_id_ n) ++ a)
    (kProtocol ++ to_string (negotiated_data_pt_ n)) d.

(** ** The other peer's offer or answer *)

Definition set_streams (r : RemoteStreams) : C unit := set_transport (set_remote r).

(** From [start] to [e]; with [e] before [start] the length wraps and the rest of
    the text is taken. *)
Definition section_text (sdp : text) (start e : nat) : text :=
  if (e <? start)%nat then drop start sdp else substr sdp start (e - start).

Definition or_end (sdp : text) (pos : option nat) : nat := default (length sdp) pos.

(** src/transport/ice_transport.cpp:1288-1300 [IceTransport::GetRemoteCapabilities] *)
Definition read_video_section (sdp : text) : C text :=
  match find (m_ "video") sdp with
  | None => mret []
  | Some start =>
      let e := min (or_end sdp (find (m_ "audio") sdp))
                 (min (or_end sdp (find (m_ "data") sdp)) (or_end sdp (find (lit "a=candidate") sdp))) in
      r ← transport remote;
      let '(rest, ssrcs, rtx_ssrcs, r) := ParseSsrcFromSdpAndRemove video (section_text sdp start e) r in
      set_streams (mkRemote (remote_video_stream_ids_ r) (remote_audio_stream_ids_ r) (remote_data_stream_ids_ r)
                     ssrcs rtx_ssrcs (audio_receivers_ssrc_ r) (data_receivers_ssrc_ r) (remote_data_stream_reliable_ r));;
      mret rest
  end.

(** src/transport/ice_transport.cpp:1302-1311 [IceTransport::GetRemoteCapabilities] *)
Definition read_audio_section (sdp : text) : C unit :=
  match find (m_ "audio") sdp with
  | None => mret tt
  | Some start =>
      let e := min (or_end sdp (find (m_ "data") sdp)) (or_end sdp (find (lit "a=candidate") sdp)) in
      r ← transport remote;
      let '(_, ssrcs, _, r) := ParseSsrcFromSdpAndRemove audio (section_text sdp start e) r in
      set_streams (mkRemote (remote_video_stream_ids_ r) (remote_audio_stream_ids_ r) (remote_data_stream_ids_ r)
                     (video_receivers_ssrc_ r) (video_receivers_rtx_ssrc_ r) ssrcs (data_receivers_ssrc_ r)
                     (remote_data_stream_reliable_ r))
  end.

(** src/transport/ice_transport.cpp:1313-1320 [IceTransport::GetRemoteCapabilities] *)
Definition read_data_section (sdp : text) : C unit :=
  match find (m_ "data") sdp with
  | None => mret tt
  | Some start =>
      let e := or_end sdp (find (lit "a=candidate") sdp) in
      r ← transport remote;
      let '(_, ssrcs, _, r) := ParseSsrcFromSdpAndRemove data (section_text sdp start e) r in
      set_streams (mkRemote (remote_video_stream_ids_ r) (remote_audio_stream_ids_ r) (remote_data_stream_ids_ r)
                     (video_receivers_ssrc_ r) (video_receivers_rtx_ssrc_ r) (audio_receivers_ssrc_ r) ssrcs
                     (remote_data_stream_reliable_ r))
  end.

Definition ends_with_newline (s : text) : bool :=
  match rev s with c :: _ => bool_decide (c = newline) | [] => false end.

(** What is given to the agent; without a fingerprint SRTP is turned off. *)
(** src/transport/ice_transport.cpp:1322-1341 [IceTransport::GetRemoteCapabilities] *)
Definition media_stream_text (sdp video_text : text) : C text :=
  let media := video_text ++ match find (lit "a=candidate") sdp with Some n => drop n sdp | None => [] end in
  match rfind (lit "a=fingerprint") sdp with
  | Some n =>
      let line := drop n sdp in
      let line := match find [newline] line with Some e => take e line | None => line end in
      mret (media ++ (if ends_with_newline media then [] else [newline]) ++ line)
  | None => set_transport (set_enable_srtp false);; mret media
  end.

(** An offer that the answer changed is not used. *)
(** src/transport/ice_transport.cpp:1353-1376 [IceTransport::GetRemoteCapabilities] *)
Definition accepted_ids (offer_peer : bool) (ids : AbsoluteSendTimeExtensionIds) : option Z * option Z :=
  let changed (id : option Z) := match id with Some id => negb (id =? kPreferredAbsoluteSendTimeExtensionId) | None => false end in
  if offer_peer && (changed (send_id ids) || changed (recv_id ids)) then (None, None) else (send_id ids, recv_id ids).

(** src/transport/ice_transport.cpp:1344-1377 [IceTransport::GetRemoteCapabilities] *)
Definition negotiate_extensions (sdp : text) : C unit :=
  offer_peer ← transport offer_peer_;
  let '(vs, vr) := accepted_ids offer_peer (GetAbsoluteSendTimeExtensionIds sdp "video") in
  let '(asend, arecv) := accepted_ids offer_peer (GetAbsoluteSendTimeExtensionIds sdp "audio") in
  set_negotiation (set_extensions vs vr asend arecv).

(** src/transport/ice_transport.cpp:1383-1404 [IceTransport::GetRemoteCapabilities] *)
Definition add_receive_channels : C unit :=
  r ← transport remote;
  for_each (fun '(name, ssrc) =>
    call (AddVideoReceiveChannel name ssrc (default 0 (text_find name (video_receivers_rtx_ssrc_ r))))) (video_receivers_ssrc_ r);;
  for_each (fun '(name, ssrc) => call (AddAudioReceiveChannel name ssrc)) (audio_receivers_ssrc_ r);;
  for_each (fun '(name, ssrc) =>
    call (AddDataReceiveChannel name ssrc (default false (text_find name (remote_data_stream_reliable_ r))))) (data_receivers_ssrc_ r).

(** The three negotiations, up to the first that fails. *)
(** src/transport/ice_transport.cpp:1406-1408 [IceTransport::GetRemoteCapabilities] *)
Definition negotiate_types (sdp : text) : C bool :=
  n ← transport negotiated;
  videos ← transport support_video_payload_types_;
  audios ← transport support_audio_payload_types_;
  datas ← transport support_data_payload_types_;
  let put v a d := set_negotiation (set_payload_types (v.1, a.1, d.1) (v.2, a.2, d.2)) in
  let v := (remote_prefered_video_pt_ n, negotiated_video_pt_ n) in
  let a := (remote_prefered_audio_pt_ n, negotiated_audio_pt_ n) in
  let d := (remote_prefered_data_pt_ n, negotiated_data_pt_ n) in
  '(ok, prefered, agreed) ← lift (NegotiatePayloadType "video" videos sdp v.1 v.2);
  let v := (prefered, agreed) in
  put v a d;;
  if negb ok then mret false else
  '(ok, prefered, agreed) ← lift (NegotiatePayloadType "audio" audios sdp a.1 a.2);
  let a := (prefered, agreed) in
  put v a d;;
  if negb ok then mret false else
  '(ok, prefered, agreed) ← lift (NegotiatePayloadType "data" datas sdp d.1 d.2);
  put v a (prefered, agreed);;
  mret ok.

(** src/transport/ice_transport.cpp:1271-1428 [IceTransport::GetRemoteCapabilities] *)
Definition GetRemoteCapabilities (sdp : text) : C text :=
  video_text ← read_video_section sdp;
  read_audio_section sdp;;
  read_data_section sdp;;
  media ← media_stream_text sdp video_text;
  got ← transport (fun t => remote_capabilities_got_ (negotiated t));
  if (got : bool) then mret media else
  negotiate_extensions sdp;;
  srtp ← transport enable_srtp_;
  call (SetSrtpEnabled srtp);;
  add_receive_channels;;
  ok ← negotiate_types sdp;
  if negb ok then mret [] else
  offer_peer ← transport offer_peer_;
  n ← transport negotiated;
  (if (offer_peer : bool) then
     let capabilities := ParseVideoTransportCapabilities (GetMediaSection sdp "video") (negotiated_video_pt_ n) in
     call (CreateAndStart (negotiated_video_pt_ n) (rtx capabilities)
             (video_abs_send_time_ext_id_ n, video_abs_recv_time_ext_id_ n)
             (audio_abs_send_time_ext_id_ n, audio_abs_recv_time_ext_id_ n))
   else mret tt);;
  set_negotiation set_capabilities_got;;
  mret media.

End methods.
