(* ===== verification/SessionOk.v ===== *)
(** * Negotiation does not look at candidates

    The functions of [Session] neither read nor change the members that concern
    candidates: run with other candidates they do the same. *)

From Stdlib Require Import Ascii String.
From stdpp Require Import gmap strings.
From S2P Require Import Prelude StateMonad StdContainers Text IceUtils Packetizer Sdp Session.

Section frame.
Context {W : Type} {world : SessionWorld W}.

Definition with_candidates {A} (c : CandidateState) (r : A * (IceTransport * W)) : A * (IceTransport * W) :=
  (r.1, (set_candidates c r.2.1, r.2.2)).

Definition framed {A} (m : C A) : Prop :=
  forall c t w, m (set_candidates c t, w) = with_candidates c <$> m (t, w).

Lemma framed_ret {A} (a : A) : framed (mret a).
Proof. done. Qed.

Lemma framed_bind {A B} (m : C A) (f : A -> C B) : framed m -> (forall a, framed (f a)) -> framed (m ≫= f).
Proof.
  intros Hm Hf c t w. unfold mbind, M_bind. rewrite Hm.
  destruct (m (t, w)) as [[a [t' w']]|]; [|done]. cbn. apply Hf.
Qed.

Lemma framed_transport {A} (f : IceTransport -> A) : (forall c t, f (set_candidates c t) = f t) -> framed (transport f).
Proof. intros Hf c t w. unfold transport, gets. cbn. by rewrite Hf. Qed.

Lemma framed_set (f : IceTransport -> IceTransport) :
  (forall c t, f (set_candidates c t) = set_candidates c (f t)) -> framed (set_transport f).
Proof. intros Hf c t w. unfold set_transport, modify. cbn. by rewrite Hf. Qed.

Lemma framed_call {A} (f : W -> A * W) : framed (call f).
Proof. intros c t w. unfold call. cbn. by destruct (f w). Qed.

Lemma framed_lift {A} (o : option A) : framed (lift o).
Proof. intros c t w. unfold lift. by destruct o. Qed.

Lemma framed_for_each {A} (f : A -> C unit) l : (forall x, framed (f x)) -> framed (for_each f l).
Proof.
  intros Hf. induction l as [|x l IH]; cbn [for_each]; [apply framed_ret|].
  apply framed_bind; [apply Hf|]. intros _. exact IH.
Qed.

End frame.

(** One step of a framed method; what reads or changes the state does it by
    computation. *)
Ltac framed_step :=
  lazymatch goal with
  | |- framed (mret _) => apply framed_ret
  | |- framed (mbind _ _) => apply framed_bind; [|intros ?]
  | |- framed (transport _) => apply framed_transport; reflexivity
  | |- framed (set_transport _) => apply framed_set; reflexivity
  | |- framed (call _) => apply framed_call
  | |- framed (lift _) => apply framed_lift
  | |- framed (for_each _ _) => apply framed_for_each; intros ?
  | |- framed (if ?b then _ else _) => destruct b
  | |- framed (match ?x with _ => _ end) => destruct x
  | |- framed (let _ := _ in _) => cbv zeta
  end.

Section methods.
Context {W : Type} {world : SessionWorld W}.

Lemma framed_sections sdp : framed (W:=W) (read_video_section sdp).
Proof. unfold read_video_section, set_streams. repeat framed_step. Qed.
Lemma framed_audio sdp : framed (W:=W) (read_audio_section sdp).
Proof. unfold read_audio_section, set_streams. repeat framed_step. Qed.
Lemma framed_data sdp : framed (W:=W) (read_data_section sdp).
Proof. unfold read_data_section, set_streams. repeat framed_step. Qed.
Lemma framed_media sdp video_text : framed (W:=W) (media_stream_text sdp video_text).
Proof. unfold media_stream_text. repeat framed_step. Qed.
Lemma framed_extensions sdp : framed (W:=W) (negotiate_extensions sdp).
Proof. unfold negotiate_extensions, set_negotiation. repeat framed_step. Qed.
Lemma framed_channels : framed add_receive_channels.
Proof. unfold add_receive_channels. repeat framed_step. Qed.
Lemma framed_types sdp : framed (W:=W) (negotiate_types sdp).
Proof. unfold negotiate_types, set_negotiation. repeat framed_step. Qed.

Lemma GetRemoteCapabilities_framed sdp : framed (GetRemoteCapabilities sdp).
Proof.
  unfold GetRemoteCapabilities, set_negotiation.
  repeat first [apply framed_sections | apply framed_audio | apply framed_data | apply framed_media
    | apply framed_extensions | apply framed_channels | apply framed_types | framed_step].
Qed.

End methods.
