(* ===== verification/SdpOk.v ===== *)
(** * Attributes written and read back

    What [Sdp] and [Session] write into an SDP is read back by the same code of
    the other peer: the identifiers of extensions with the directions swapped,
    the capabilities of the video section, the streams. *)

From Stdlib Require Import Ascii String.
From stdpp Require Import gmap strings.
From S2P Require Import Prelude StateMonad StdContainers Text IceUtils Packetizer Sdp Session.

(** ** Lines *)

(** A line that begins with something else than these prefixes, and with no
    space, is none of them after trimming either. *)
Definition begins (l : text) : Prop := forall c, head l = Some c -> isspace c = false.

Lemma trim_prefix l : begins l -> exists r, l = Trim l ++ r.
Proof.
  intros Hb. unfold Trim, trim_by. rewrite (drop_while_none isspace l) by done.
  destruct (drop_while_suffix isspace (rev l)) as [q Hq]. exists (rev q).
  rewrite <- rev_app_distr, <- Hq. by rewrite rev_involutive.
Qed.

Lemma starts_with_trans p a r : starts_with p a = true -> starts_with p (a ++ r) = true.
Proof. intros [s ->]%starts_with_spec. rewrite <- app_assoc. apply starts_with_app. Qed.

Lemma starts_with_trim p l : begins l -> starts_with p l = false -> starts_with p (Trim l) = false.
Proof.
  intros Hb Hp. destruct (trim_prefix l Hb) as [r Hr]. apply not_true_is_false. intros H.
  rewrite Hr, starts_with_trans in Hp; done.
Qed.

Lemma trim_ne l t p : begins l -> starts_with p l = false -> starts_with p t = true -> Trim l <> t.
Proof. intros Hb Hp Ht E. pose proof (starts_with_trim p l Hb Hp) as H. rewrite E in H. congruence. Qed.

(** Two prefixes that differ at a place they both have exclude one another. *)
Fixpoint clash (p q : text) : bool :=
  match p, q with
  | c :: p, d :: q => negb (bool_decide (c = d)) || clash p q
  | _, _ => false
  end.

Lemma clash_starts p q l : clash p q = true -> starts_with p l = true -> starts_with q l = false.
Proof.
  revert q l. induction p as [|c p IH]; intros [|d q] [|x l]; cbn; try done.
  intros Hc Hp. apply andb_prop in Hp as [Hx Hp]. apply bool_decide_eq_true in Hx as <-.
  apply orb_prop in Hc as [Hc|Hc]; [|by rewrite (IH q l), andb_false_r].
  apply negb_true_iff, bool_decide_eq_false in Hc. by rewrite bool_decide_false by congruence.
Qed.

Lemma begins_cons c l : isspace c = false -> begins (c :: l).
Proof. intros H d [= <-]. exact H. Qed.

Lemma trim_ends a d : begins (a ++ [d]) -> isspace d = false -> Trim (a ++ [d]) = a ++ [d].
Proof. intros Hb Hd. apply trim_by_id; [exact Hb|]. rewrite rev_app_distr. by intros x [= <-]. Qed.

(** ** The identifiers of extensions *)

Definition extmap_line (id : Z) (direction : string) : text :=
  kExtmapPrefix ++ to_string id ++ lit direction ++ lit " " ++ kAbsoluteSendTimeUri.

Definition line_direction (direction : string) (default : RtpExtensionDirection) : option RtpExtensionDirection :=
  match direction with
  | EmptyString => Some default
  | _ => ParseDirection (drop 1 (lit direction))
  end.

(** Lines without an extension do not matter. *)
Lemma parse_extmap_none d l : starts_with kExtmapPrefix (Trim l) = false -> parse_extmap d l = None.
Proof. intros H. unfold parse_extmap. by rewrite H. Qed.

Lemma parse_extmaps_skip d ls ls' ext seen r :
  Forall (fun l => starts_with kExtmapPrefix (Trim l) = false) ls ->
  parse_extmaps d (ls ++ ls') ext seen r = parse_extmaps d ls' ext seen r.
Proof. induction 1 as [|l ls Hl _ IH]; [done|]. cbn [app parse_extmaps]. by rewrite parse_extmap_none. Qed.

Lemma to_string_small id : 1 <= id <= 14 ->
  In (id, to_string id) (map (fun z => (z, to_string z)) [1; 2; 3; 4; 5; 6; 7; 8; 9; 10; 11; 12; 13; 14]).
Proof. intros H. apply (in_map (fun z => (z, to_string z))). cbn. lia. Qed.

(** The line that is written for an identifier, in each of its three forms. *)
Lemma parse_extmap_line d id direction : 1 <= id <= 14 ->
  direction = EmptyString \/ direction = "/sendonly"%string \/ direction = "/recvonly"%string ->
  parse_extmap d (extmap_line id direction) = Some (id, line_direction direction d, kAbsoluteSendTimeUri).
Proof.
  intros Hid Hd. unfold extmap_line. pose proof (to_string_small id Hid) as Hin.
  set (s := to_string id) in *. clearbody s.
  cbn [map] in Hin. repeat (destruct Hin as [[= <- <-]|Hin]; [destruct Hd as [->|[->| ->]]; destruct d; vm_compute; reflexivity|]).
  destruct Hin.
Qed.

(** The prefixes that mean something in a section. *)
Definition meaningful : list text :=
  [lit "m=video "; lit "a=rtpmap:"; lit "a=fmtp:"; lit "a=rtcp-fb:"; lit "a=rtcp-rsize"; kExtmapPrefix;
   lit "a=sendonly"; lit "a=recvonly"; lit "a=inactive"].

Definition quiet (l : text) : Prop := begins l /\ Forall (fun p => starts_with p l = false) meaningful.

Lemma quiet_clash q l : begins l -> forallb (clash q) meaningful = true -> starts_with q l = true -> quiet l.
Proof.
  intros Hb Hc Hq. split; [done|]. apply List.Forall_forall. intros p Hp.
  rewrite forallb_forall in Hc. by apply (clash_starts q), Hq; apply Hc.
Qed.

Lemma quiet_trim p l : quiet l -> In p meaningful -> starts_with p (Trim l) = false.
Proof. intros [Hb Hl] Hp. rewrite List.Forall_forall in Hl. apply starts_with_trim; auto. Qed.

Lemma quiet_ne p l t : quiet l -> In p meaningful -> starts_with p t = true -> Trim l <> t.
Proof. intros Hq Hp Ht E. pose proof (quiet_trim p l Hq Hp) as H. rewrite E in H. congruence. Qed.

Lemma media_direction_quiet ls : Forall (fun l => quiet l \/ starts_with kExtmapPrefix (Trim l) = true \/
    starts_with (lit "a=rt") (Trim l) = true \/ starts_with (lit "a=fm") (Trim l) = true \/ starts_with (lit "m=") (Trim l) = true) ls ->
  media_direction ls = kSendRecv.
Proof.
  induction 1 as [|l ls Hl _ IH]; [done|]. cbn [media_direction].
  assert (forall t, In t [lit "a=sendonly"; lit "a=recvonly"; lit "a=inactive"] -> Trim l <> t) as Hne.
  { intros t Ht E. destruct Hl as [Hq|Hl].
    - revert E. apply (quiet_ne t); [done|cbn in Ht |- *; tauto|apply starts_with_refl].
    - rewrite E in Hl. cbn in Ht. destruct Ht as [<-|[<-|[<-|[]]]]; by destruct Hl as [|[|[|]]]. }
  rewrite !bool_decide_false by (apply Hne; cbn; tauto). exact IH.
Qed.

(** ** Capabilities *)

(** A payload type as a text. *)
Definition payload_text (m : text) : Prop := digits m /\ m <> [].

Lemma payload_text_to_string z : 0 <= z -> payload_text (to_string z).
Proof. intros H. split; [by apply to_string_digits|]. by destruct (to_string_cons z) as (c & s & ->). Qed.

Lemma payload_no_space m : payload_text m -> no_space m.
Proof. intros [H _]. eapply List.Forall_impl; [|exact H]. apply digit_no_space. Qed.

Lemma payload_not m c s : payload_text m -> m ++ s = c -> (exists d r, c = d :: r /\ isdigit d = false) -> False.
Proof.
  intros [Hd Hn] <- (d & r & E & Hdd). destruct m as [|x m]; [done|]. injection E as -> _.
  apply List.Forall_inv in Hd. congruence.
Qed.

Section scan.
Context (m : text) (Hm : payload_text m).

Lemma scan_quiet l s : quiet l -> scan_line m l s = s.
Proof.
  intros Hq. unfold scan_line.
  assert (forall p q, In q meaningful -> starts_with q p = true -> starts_with p (Trim l) = false) as Hno.
  { intros p q Hq1 Hqp. apply not_true_is_false. intros [r E]%starts_with_spec.
    pose proof (quiet_trim q l Hq Hq1) as H. rewrite E, starts_with_trans in H; done. }
  rewrite (Hno (lit "m=video ") (lit "m=video ")) by (done || (cbn; tauto)).
  rewrite (Hno _ (lit "a=rtpmap:")) by (done || (cbn; tauto)).
  rewrite (Hno _ (lit "a=fmtp:")) by (done || (cbn; tauto)).
  rewrite !(bool_decide_false (Trim l = _)).
  - cbn [andb]. rewrite !orb_false_r. by destruct s.
  - apply (quiet_ne (lit "a=rtcp-rsize")); [done|cbn; tauto|done].
  - apply (quiet_ne (lit "a=rtcp-fb:")); [done|cbn; tauto|done].
  - apply (quiet_ne (lit "a=rtcp-fb:")); [done|cbn; tauto|done].
  - apply (quiet_ne (lit "a=rtcp-fb:")); [done|cbn; tauto|done].
  - apply (quiet_ne (lit "a=rtcp-fb:")); [done|cbn; tauto|done].
Qed.

Lemma scan_extmap id direction s : scan_line m (extmap_line id direction) s = s.
Proof.
  assert (Trim (extmap_line id direction) = extmap_line id direction) as E.
  { assert (extmap_line id direction = (kExtmapPrefix ++ to_string id ++ lit direction ++ lit " " ++
      lit "http://www.webrtc.org/experiments/rtp-hdrext/abs-send-tim") ++ ["e"%char]) as ->
      by (unfold extmap_line; by rewrite <- !app_assoc).
    apply trim_ends; [by apply begins_cons|done]. }
  unfold scan_line. cbv zeta. rewrite E. unfold extmap_line, kExtmapPrefix. cbn [lit list_ascii_of_string app starts_with].
  rewrite !bool_decide_false by (intros [=]). cbn [andb]. rewrite !orb_false_r. by destruct s.
Qed.

Lemma scan_rtpmap s : scan_line m (lit "a=rtpmap:127 rtx/90000") s =
  mkScan (payload_on_media_line s) true (has_matching_apt s) (has_nack_feedback s) (has_fir s) (has_reduced_size s).
Proof.
  unfold scan_line. cbv zeta. change (Trim (lit "a=rtpmap:127 rtx/90000")) with (lit "a=rtpmap:127 rtx/90000").
  change (starts_with (lit "m=video ") (lit "a=rtpmap:127 rtx/90000")) with false. 
  rewrite !(bool_decide_false (lit "a=rtpmap:127 rtx/90000" = _)) by (intros [=]).
  cbn [andb]. rewrite !orb_false_r. f_equal.
Qed.

Lemma trim_payload_end p : begins (p ++ m) -> Trim (p ++ m) = p ++ m.
Proof.
  intros Hb. destruct Hm as [Hd Hn]. destruct (exists_last Hn) as (m' & d & E). rewrite E in *.
  rewrite app_assoc. apply trim_ends; [by rewrite <- app_assoc|].
  apply digit_no_space. apply Forall_app in Hd as [_ Hd]. by inversion Hd.
Qed.

Lemma matching_apt : is_matching_apt m (lit "apt=" ++ m) = true.
Proof.
  unfold is_matching_apt. cbv zeta. rewrite trim_payload_end by by apply begins_cons.
  change (find (lit "=") (lit "apt=" ++ m)) with (Some 3%nat).
  change (bool_decide (lit "apt" = lit "apt") && bool_decide (Trim m = m) = true).
  unfold Trim. rewrite (trim_word m) by by apply payload_no_space. by rewrite !bool_decide_true.
Qed.

Lemma scan_fmtp s : scan_line m (lit "a=fmtp:127 apt=" ++ m) s =
  mkScan (payload_on_media_line s) (has_rtx_mapping s) true (has_nack_feedback s) (has_fir s) (has_reduced_size s).
Proof.
  unfold scan_line. cbv zeta. rewrite trim_payload_end by by apply begins_cons.
  change (starts_with (lit "a=fmtp:" ++ _ ++ _) _) with true.
  change (drop (length (lit "a=fmtp:" ++ to_string (payload_type_value RTX) ++ lit " ")) (lit "a=fmtp:127 apt=" ++ m)) with (lit "apt=" ++ m).
  rewrite getlines_last; [|intros Hin; apply elem_of_app in Hin as [Hin|Hin]|by intros [=]].
  2: { apply list_elem_of_In in Hin. cbn in Hin. destruct Hin as [|[|[|[|[]]]]]; discriminate. }
  2: { destruct Hm as [Hd _]. unfold digits in Hd. rewrite List.Forall_forall in Hd.
       apply list_elem_of_In, Hd in Hin. by vm_compute in Hin. }
  cbn [existsb]. rewrite matching_apt. rewrite !(bool_decide_false (lit "a=fmtp:127 apt=" ++ m = _)) by (intros [=]).
  cbn [lit list_ascii_of_string app starts_with]. cbn [andb orb]. rewrite !orb_false_r, orb_true_r. f_equal.
Qed.

Lemma payload_star s s' : m ++ s <> "*"%char :: s'.
Proof. intros E. eapply (payload_not m _ s Hm E). eexists _, _. split; [reflexivity|done]. Qed.

Lemma scan_nack s : scan_line m (lit "a=rtcp-fb:" ++ m ++ lit " nack") s =
  mkScan (payload_on_media_line s) (has_rtx_mapping s) (has_matching_apt s) true (has_fir s) (has_reduced_size s).
Proof.
  unfold scan_line. cbv zeta.
  assert (Trim (lit "a=rtcp-fb:" ++ m ++ lit " nack") = lit "a=rtcp-fb:" ++ m ++ lit " nack") as ->.
  { assert (lit "a=rtcp-fb:" ++ m ++ lit " nack" = (lit "a=rtcp-fb:" ++ m ++ lit " nac") ++ ["k"%char]) as -> by by rewrite <- !app_assoc.
    apply trim_ends; [by apply begins_cons|done]. }
  rewrite (bool_decide_true (_ = lit "a=rtcp-fb:" ++ m ++ lit " nack")) by done.
  rewrite (bool_decide_false (_ = lit "a=rtcp-fb:" ++ m ++ lit " ccm fir")) by (intros E%app_inv_head%app_inv_head; discriminate).
  rewrite (bool_decide_false (_ = lit "a=rtcp-fb:* ccm fir"))
    by (change (lit "a=rtcp-fb:* ccm fir") with (lit "a=rtcp-fb:" ++ lit "* ccm fir"); intros E%app_inv_head; by apply payload_star in E).
  rewrite (bool_decide_false (_ = lit "a=rtcp-rsize")) by (intros [=]).
  cbn [lit list_ascii_of_string app starts_with]. cbn [andb]. rewrite !orb_false_r, orb_true_r. done.
Qed.

Lemma scan_fir s : scan_line m (lit "a=rtcp-fb:" ++ m ++ lit " ccm fir") s =
  mkScan (payload_on_media_line s) (has_rtx_mapping s) (has_matching_apt s) (has_nack_feedback s) true (has_reduced_size s).
Proof.
  unfold scan_line. cbv zeta.
  assert (Trim (lit "a=rtcp-fb:" ++ m ++ lit " ccm fir") = lit "a=rtcp-fb:" ++ m ++ lit " ccm fir") as ->.
  { assert (lit "a=rtcp-fb:" ++ m ++ lit " ccm fir" = (lit "a=rtcp-fb:" ++ m ++ lit " ccm fi") ++ ["r"%char]) as -> by by rewrite <- !app_assoc.
    apply trim_ends; [by apply begins_cons|done]. }
  rewrite (bool_decide_true (_ = lit "a=rtcp-fb:" ++ m ++ lit " ccm fir")) by done.
  rewrite (bool_decide_false (_ = lit "a=rtcp-fb:" ++ m ++ lit " nack")) by (intros E%app_inv_head%app_inv_head; discriminate).
  rewrite (bool_decide_false (_ = lit "a=rtcp-fb:* nack"))
    by (change (lit "a=rtcp-fb:* nack") with (lit "a=rtcp-fb:" ++ lit "* nack"); intros E%app_inv_head; by apply payload_star in E).
  rewrite (bool_decide_false (_ = lit "a=rtcp-rsize")) by (intros [=]).
  cbn [lit list_ascii_of_string app starts_with]. cbn [andb]. rewrite !orb_false_r, orb_true_r. done.
Qed.

Lemma scan_rsize s : scan_line m (lit "a=rtcp-rsize") s =
  mkScan (payload_on_media_line s) (has_rtx_mapping s) (has_matching_apt s) (has_nack_feedback s) (has_fir s) true.
Proof.
  unfold scan_line. cbv zeta. change (Trim (lit "a=rtcp-rsize")) with (lit "a=rtcp-rsize").
  rewrite !(bool_decide_false (lit "a=rtcp-rsize" = lit "a=rtcp-fb:" ++ _)) by (intros [=]).
  rewrite (bool_decide_false (_ = lit "a=rtcp-fb:* nack")), (bool_decide_false (_ = lit "a=rtcp-fb:* ccm fir")) by (intros [=]).
  rewrite (bool_decide_true (lit "a=rtcp-rsize" = _)) by done.
  cbn [lit list_ascii_of_string app starts_with]. cbn [andb]. rewrite !orb_false_r, orb_true_r. done.
Qed.

(** The last word of a text. *)
Lemma words_last_word a c w : isspace c = true -> no_space w -> w <> [] ->
  exists ws, words (a ++ c :: w) = ws ++ [w] /\ (forall e s, a ++ c :: w = e :: s -> isspace e = false -> ws <> []).
Proof.
  intros Hc Hw Hn. induction a as [|d a (ws & E & Hne)].
  - exists []. cbn [app words]. rewrite Hc, words_last by done. split; [done|]. intros e s [= <- _]. congruence.
  - cbn [app words]. destruct (isspace d) eqn:Ed.
    { exists ws. split; [done|]. intros e s [= <- _]. congruence. }
    destruct (a ++ c :: w) as [|e s] eqn:Es; [by destruct a|]. destruct (isspace e) eqn:Ee.
    { exists ([d] :: ws). by rewrite E. }
    specialize (Hne e s eq_refl Ee). destruct ws as [|x ws]; [done|]. exists ((d :: x) :: ws). by rewrite E.
Qed.

Definition has_word (w : text) (s : text) : bool := existsb (fun field => bool_decide (field = w)) (words s).

Lemma has_last_word a c w : isspace c = true -> no_space w -> w <> [] -> has_word w (a ++ c :: w) = true.
Proof.
  intros Hc Hw Hn. destruct (words_last_word a c w Hc Hw Hn) as (ws & E & _). unfold has_word.
  rewrite E, existsb_app. cbn. rewrite bool_decide_true by done. apply orb_true_r.
Qed.

(** A media line that ends in the payload type of retransmissions. *)
Lemma scan_media_line front s :
  scan_line m (lit "m=video " ++ front ++ lit " 127") s =
  mkScan true (has_rtx_mapping s) (has_matching_apt s) (has_nack_feedback s) (has_fir s) (has_reduced_size s).
Proof.
  assert (has_word (to_string (payload_type_value RTX)) (lit "m=video " ++ front ++ lit " 127") = true) as He.
  { rewrite app_assoc. apply (has_last_word _ " "%char (lit "127")); [done|by repeat constructor|done]. }
  unfold scan_line. cbv zeta.
  assert (Trim (lit "m=video " ++ front ++ lit " 127") = lit "m=video " ++ front ++ lit " 127") as ->.
  { assert (lit "m=video " ++ front ++ lit " 127" = (lit "m=video " ++ front ++ lit " 12") ++ ["7"%char]) as -> by by rewrite <- !app_assoc.
    apply trim_ends; [by apply begins_cons|done]. }
  unfold has_word in He. rewrite He.
  rewrite (bool_decide_false (_ = lit "a=rtcp-fb:" ++ m ++ lit " nack")), (bool_decide_false (_ = lit "a=rtcp-fb:* nack")),
    (bool_decide_false (_ = lit "a=rtcp-fb:" ++ m ++ lit " ccm fir")), (bool_decide_false (_ = lit "a=rtcp-fb:* ccm fir")),
    (bool_decide_false (_ = lit "a=rtcp-rsize")) by (intros [=]).
  cbn [lit list_ascii_of_string app starts_with]. cbn [andb]. rewrite !orb_false_r, orb_true_r. done.
Qed.

End scan.

(** ** Lines about streams *)

Lemma find_from_app p a s : find_from p (a ++ s) (length a) = Nat.add (length a) <$> find p s.
Proof.
  unfold find_from. rewrite length_app, drop_app_length.
  by replace (length a <=? length a + length s)%nat with true by (symmetry; apply Nat.leb_le; lia).
Qed.

Lemma digits_not d s : digits s -> isdigit d = false -> d ∉ s.
Proof.
  intros Hs Hd Hin%list_elem_of_In. unfold digits in Hs. rewrite List.Forall_forall in Hs. apply Hs in Hin. congruence.
Qed.

(** The number up to the space behind a prefix, and what follows. *)
Lemma number_after p z rest : is_u32 z ->
  find_from (lit " ") (p ++ to_string z ++ lit " " ++ rest) (length p) = Some (length p + length (to_string z))%nat /\
  substr (p ++ to_string z ++ lit " " ++ rest) (length p) (length p + length (to_string z) - length p) = to_string z /\
  drop (length p + length (to_string z) + 1) (p ++ to_string z ++ lit " " ++ rest) = rest.
Proof.
  intros Hz. assert (digits (to_string z)) as Hd by (apply to_string_digits; unfold is_u32 in Hz; lia). split_and!.
  - rewrite find_from_app. change (lit " " ++ rest) with (" "%char :: rest). change (lit " ") with [" "%char].
    by rewrite find_char by by apply digits_not.
  - replace (_ + _ - _)%nat with (length (to_string z)) by lia. by rewrite substr_app.
  - rewrite <- Nat.add_assoc, <- drop_drop, drop_app_length, <- drop_drop, drop_app_length. done.
Qed.

Definition good_name (id : text) : Prop := plain_line id /\ id <> [] /\ chomp id = id.

Lemma parse_name_line mt s ssrc id : is_u32 ssrc -> good_name id ->
  parse_stream_line mt s (ssrc_line ssrc " name:" id) =
  mkStreamLines (map_assign ssrc id (ssrc_to_sender_id s)) (ssrc_to_reliable s) (media_to_rtx_ssrc s) (new_sdp_block s).
Proof.
  intros Hz (_ & _ & Hch). unfold parse_stream_line, ssrc_line.
  change (starts_with (lit "a=ssrc-group:") (lit "a=ssrc:" ++ _)) with false. cbn [andb].
  rewrite starts_with_app. unfold parse_ssrc_line.
  change (lit " name:" ++ id) with (lit " " ++ (lit "name:" ++ id)).
  destruct (number_after (lit "a=ssrc:") ssrc (lit "name:" ++ id) Hz) as (-> & -> & ->).
  unfold ParseUint32. rewrite from_chars_to_string by done.
  rewrite starts_with_app. change (drop 5 (lit "name:" ++ id)) with id. by rewrite Hch.
Qed.

Lemma parse_cname_line mt s ssrc id : is_u32 ssrc -> parse_stream_line mt s (ssrc_line ssrc " cname:" id) = s.
Proof.
  intros Hz. unfold parse_stream_line, ssrc_line.
  change (starts_with (lit "a=ssrc-group:") (lit "a=ssrc:" ++ _)) with false. cbn [andb].
  rewrite starts_with_app. unfold parse_ssrc_line.
  change (lit " cname:" ++ id) with (lit " " ++ (lit "cname:" ++ id)).
  destruct (number_after (lit "a=ssrc:") ssrc (lit "cname:" ++ id) Hz) as (-> & -> & ->).
  unfold ParseUint32. by rewrite from_chars_to_string by done.
Qed.

Lemma parse_group_line s media rtx : is_u32 media -> is_u32 rtx -> media <> 0 -> rtx <> 0 -> media <> rtx ->
  parse_stream_line video s (group_line media rtx) =
  mkStreamLines (ssrc_to_sender_id s) (ssrc_to_reliable s) (map_assign media rtx (media_to_rtx_ssrc s)) (new_sdp_block s).
Proof.
  intros Hm Hr Hm0 Hr0 Hne. unfold parse_stream_line, group_line.
  change (lit "a=ssrc-group:FID " ++ to_string media ++ lit " " ++ to_string rtx)
    with (lit "a=ssrc-group:" ++ (lit "FID" ++ lit " " ++ to_string media ++ lit " " ++ to_string rtx)).
  rewrite starts_with_app, bool_decide_true by done. cbn [andb].
  unfold ParseRtxSsrcGroup. rewrite starts_with_app, drop_app_length. cbn [negb].
  assert (read_word (lit "FID" ++ lit " " ++ to_string media ++ lit " " ++ to_string rtx) =
    Some (lit "FID", lit " " ++ to_string media ++ lit " " ++ to_string rtx)) as ->.
  { unfold read_word. rewrite drop_while_none by by intros c [= <-].
    change (lit " " ++ to_string media ++ lit " " ++ to_string rtx) with (" "%char :: (to_string media ++ lit " " ++ to_string rtx)).
    rewrite words_cons by (done || by repeat constructor). by rewrite drop_app_length. }
  unfold mbind at 1, option_bind at 1.
  assert (read_u32 (lit " " ++ to_string media ++ lit " " ++ to_string rtx) = Some (media, lit " " ++ to_string rtx)) as ->.
  { apply read_u32_to_string; [done|by repeat constructor|by intros c [= <-]]. }
  unfold mbind at 1, option_bind at 1.
  assert (read_u32 (lit " " ++ to_string rtx) = Some (rtx, [])) as ->.
  { rewrite <- (app_nil_r (to_string rtx)). apply read_u32_to_string; [done|by repeat constructor|done]. }
  unfold mbind, option_bind. rewrite bool_decide_true by done.
  replace (media =? 0) with false by lia. replace (rtx =? 0) with false by lia. replace (media =? rtx) with false by lia. done.
Qed.

Lemma parse_reliable_line_ok s ssrc reliable : is_u32 ssrc ->
  parse_stream_line data s (reliable_line ssrc reliable) =
  mkStreamLines (ssrc_to_sender_id s) (map_assign ssrc reliable (ssrc_to_reliable s)) (media_to_rtx_ssrc s) (new_sdp_block s).
Proof.
  intros Hz. unfold parse_stream_line, reliable_line.
  change (starts_with (lit "a=ssrc-group:") (lit "a=x-reliable-data:" ++ _)) with false.
  change (starts_with (lit "a=ssrc:") (lit "a=x-reliable-data:" ++ _)) with false. cbn [andb].
  rewrite starts_with_app, bool_decide_true by done. cbn [andb]. unfold parse_reliable_line.
  destruct (number_after (lit "a=x-reliable-data:") ssrc (lit (if reliable then "1" else "0")) Hz) as (-> & -> & ->).
  unfold ParseUint32. rewrite from_chars_to_string by done. by destruct reliable.
Qed.

(** A line about something else stays in the text. *)
Lemma parse_other_line mt s l : starts_with (lit "a=ssrc") l = false -> starts_with (lit "a=x-reliable-data:") l = false ->
  parse_stream_line mt s l =
  mkStreamLines (ssrc_to_sender_id s) (ssrc_to_reliable s) (media_to_rtx_ssrc s) (new_sdp_block s ++ l ++ [newline]).
Proof.
  intros H1 H2. unfold parse_stream_line.
  assert (forall q, starts_with (lit "a=ssrc") q = true -> starts_with q l = false) as Hno.
  { intros q Hq. apply not_true_is_false. intros [r ->]%starts_with_spec. by rewrite starts_with_trans in H1. }
  by rewrite (Hno (lit "a=ssrc-group:")), (Hno (lit "a=ssrc:")), H2 by done.
Qed.

(** ** The streams of a section *)

(** A video stream: its name, its SSRC and that of its retransmissions. *)
Definition VideoStream : Type := text * Z * Z.

Definition video_stream_lines (v : VideoStream) : list text :=
  [ssrc_line v.1.2 " name:" v.1.1; group_line v.1.2 v.2; ssrc_line v.2 " cname:" v.1.1].
Definition audio_stream_lines (a : text * Z) : list text := [ssrc_line a.2 " name:" a.1].
Definition data_stream_lines (d : text * bool * Z) : list text :=
  [ssrc_line d.2 " name:" d.1.1; reliable_line d.2 d.1.2].

Definition good_ssrc (z : Z) : Prop := is_u32 z /\ z <> 0.

Definition good_videos (vs : list VideoStream) : Prop :=
  Forall (fun v => good_name v.1.1 /\ good_ssrc v.1.2 /\ good_ssrc v.2) vs /\
  NoDup (map (fun v => v.1.1) vs) /\ NoDup (map (fun v => v.1.2) vs ++ map snd vs).

Lemma map_cons_keys {A} (f : A -> Z) (g : A -> text) l : map fst (map (fun x => (f x, g x)) l) = map f l.
Proof. rewrite map_map. done. Qed.

(** What is kept of the other lines. *)
Definition other_line (l : text) : Prop :=
  starts_with (lit "a=ssrc") l = false /\ starts_with (lit "a=x-reliable-data:") l = false.

Lemma fold_other_lines mt ls s : Forall other_line ls ->
  fold_left (parse_stream_line mt) ls s =
  mkStreamLines (ssrc_to_sender_id s) (ssrc_to_reliable s) (media_to_rtx_ssrc s) (new_sdp_block s ++ unlines ls).
Proof.
  intros H. revert s. induction H as [|l ls [H1 H2] _ IH]; intros s; cbn [fold_left].
  - change (unlines []) with (@nil ascii). rewrite app_nil_r. by destruct s.
  - rewrite parse_other_line, IH by done. cbn [ssrc_to_sender_id ssrc_to_reliable media_to_rtx_ssrc new_sdp_block].
    by rewrite unlines_cons, <- !app_assoc.
Qed.

Lemma fold_video_lines vs s : Forall (fun v => good_name v.1.1 /\ good_ssrc v.1.2 /\ good_ssrc v.2 /\ v.1.2 <> v.2) vs ->
  fold_left (parse_stream_line video) (flat_map video_stream_lines vs) s =
  mkStreamLines (map_assign_all (map (fun v => (v.1.2, v.1.1)) vs) (ssrc_to_sender_id s)) (ssrc_to_reliable s)
    (map_assign_all (map (fun v => (v.1.2, v.2)) vs) (media_to_rtx_ssrc s)) (new_sdp_block s).
Proof.
  intros H. revert s. induction H as [|v vs (Hn & [Hz Hz0] & [Hr Hr0] & Hne) _ IH]; intros s; [by destruct s|].
  cbn [flat_map]. rewrite fold_left_app, IH. unfold video_stream_lines at 1 2 3 4. cbn [fold_left].
  rewrite parse_name_line, parse_group_line, parse_cname_line by done. reflexivity.
Qed.

Lemma fold_audio_lines l s : Forall (fun a => good_name a.1 /\ good_ssrc a.2) l ->
  fold_left (parse_stream_line audio) (flat_map audio_stream_lines l) s =
  mkStreamLines (map_assign_all (map (fun a => (a.2, a.1)) l) (ssrc_to_sender_id s)) (ssrc_to_reliable s)
    (media_to_rtx_ssrc s) (new_sdp_block s).
Proof.
  intros H. revert s. induction H as [|a l (Hn & [Hz Hz0]) _ IH]; intros s; [by destruct s|].
  cbn [flat_map]. rewrite fold_left_app, IH. unfold audio_stream_lines at 1 2 3 4. cbn [fold_left].
  by rewrite parse_name_line.
Qed.

Lemma fold_data_lines l s : Forall (fun d => good_name d.1.1 /\ good_ssrc d.2) l ->
  fold_left (parse_stream_line data) (flat_map data_stream_lines l) s =
  mkStreamLines (map_assign_all (map (fun d => (d.2, d.1.1)) l) (ssrc_to_sender_id s))
    (map_assign_all (map (fun d => (d.2, d.1.2)) l) (ssrc_to_reliable s)) (media_to_rtx_ssrc s) (new_sdp_block s).
Proof.
  intros H. revert s. induction H as [|d l (Hn & [Hz Hz0]) _ IH]; intros s; [by destruct s|].
  cbn [flat_map]. rewrite fold_left_app, IH. unfold data_stream_lines at 1 2 3 4. cbn [fold_left].
  by rewrite parse_name_line, parse_reliable_line_ok.
Qed.

(** Streams of different names and SSRCs, as the maps of the two peers have them. *)
Lemma stream_ssrcs_assign l : stream_ssrcs l = text_assign_all (map (fun x => (x.2, x.1)) l) [].
Proof.
  unfold stream_ssrcs, text_assign_all. generalize (@nil (text * Z)). induction l as [|[z id] l IH]; intros m; [done|]. cbn. apply IH.
Qed.

Lemma video_distinct vs : good_videos vs -> forall v, In v vs -> v.1.2 ∉ map snd vs.
Proof.
  intros (_ & _ & Hd) v Hv. apply list.NoDup_app in Hd as (_ & Hd & _). apply Hd, list_elem_of_In.
  apply (in_map (fun v => v.1.2) _ _ Hv).
Qed.

(** None of the lines has a newline in it. *)
Lemma plain_check l : forallb (fun c => negb (bool_decide (c = newline))) l = true -> plain_line l.
Proof.
  rewrite forallb_forall. intros H Hin%list_elem_of_In. apply H in Hin. by rewrite bool_decide_true in Hin.
Qed.
Lemma plain_app a b : plain_line a -> plain_line b -> plain_line (a ++ b).
Proof. intros Ha Hb [H|H]%elem_of_app; auto. Qed.
Lemma plain_number z : is_u32 z -> plain_line (to_string z).
Proof. intros Hz. apply digits_not; [apply to_string_digits; unfold is_u32 in Hz; lia|done]. Qed.

Lemma plain_ssrc_line z s id : is_u32 z -> plain_line (lit s) -> plain_line id -> plain_line (ssrc_line z s id).
Proof. intros. unfold ssrc_line. repeat apply plain_app; try done; [by apply plain_check|by apply plain_number]. Qed.
Lemma plain_group_line a b : is_u32 a -> is_u32 b -> plain_line (group_line a b).
Proof. intros. unfold group_line. repeat apply plain_app; first [by apply plain_number | by apply plain_check]. Qed.
Lemma plain_reliable_line a b : is_u32 a -> plain_line (reliable_line a b).
Proof.
  intros. unfold reliable_line. repeat apply plain_app; try (by apply plain_number); apply plain_check; by destruct b.
Qed.

Lemma plain_flat {A} (f : A -> list text) (P : A -> Prop) l :
  (forall x, P x -> Forall plain_line (f x)) -> Forall P l -> Forall plain_line (flat_map f l).
Proof. intros Hf. induction 1 as [|x l Hx _ IH]; [constructor|]. cbn. apply Forall_app. auto. Qed.

Lemma plain_video v : good_name v.1.1 /\ good_ssrc v.1.2 /\ good_ssrc v.2 -> Forall plain_line (video_stream_lines v).
Proof.
  intros ((Hn & _) & [Hz _] & [Hr _]).
  repeat (constructor; [first [by apply plain_group_line | apply plain_ssrc_line; [done|by apply plain_check|done]]|]). constructor.
Qed.
Lemma plain_audio a : good_name a.1 /\ good_ssrc a.2 -> Forall plain_line (audio_stream_lines a).
Proof. intros ((Hn & _) & [Hz _]). repeat constructor. apply plain_ssrc_line; [done|by apply plain_check|done]. Qed.
Lemma plain_data d : good_name d.1.1 /\ good_ssrc d.2 -> Forall plain_line (data_stream_lines d).
Proof.
  intros ((Hn & _) & [Hz _]). constructor; [apply plain_ssrc_line; [done|by apply plain_check|done]|].
  constructor; [by apply plain_reliable_line|constructor].
Qed.

(** The entries found for streams of different names. *)
Lemma named_all mt s : (mt = video -> forall m, In m (media_to_rtx_ssrc s) -> forall x, In x (ssrc_to_sender_id s) -> m.2 <> x.1) ->
  (forall x, In x (ssrc_to_sender_id s) -> x.2 <> []) -> named_streams mt s = ssrc_to_sender_id s.
Proof.
  intros Hr Hn. unfold named_streams. apply List.forallb_filter_id, forallb_forall. intros [z id] Hin.
  assert (id <> []) as Hid by exact (Hn (z, id) Hin). rewrite (bool_decide_false _ Hid). cbn [negb]. rewrite andb_true_r. apply negb_true_iff.
  case_bool_decide as Hmt; [|done]. cbn [andb]. apply not_true_is_false. intros (m & Hm & Hz)%existsb_exists.
  apply (Hr Hmt m Hm (z, id) Hin). cbn. lia.
Qed.

Lemma stream_rtx_assign s (vs : list VideoStream) m :
  base.NoDup (map fst (ssrc_to_sender_id s)) ->
  Forall (fun v => In (v.1.2, v.1.1) (ssrc_to_sender_id s) /\ v.1.1 <> []) vs ->
  fold_left (fun m '(media, rtx) =>
    match map_find media (ssrc_to_sender_id s) with
    | Some id => if bool_decide (id = []) then m else text_assign id rtx m
    | None => m
    end) (map (fun v => (v.1.2, v.2)) vs) m = text_assign_all (map (fun v => (v.1.1, v.2)) vs) m.
Proof.
  intros Hd Hs. revert m. induction Hs as [|v vs [Hin Hne] _ IH]; intros m; [done|]. cbn [map fold_left].
  rewrite (map_find_perm _ _ _ Hd Hin), bool_decide_false by done. rewrite IH. reflexivity.
Qed.

Lemma stream_reliable_assign s (ds : list (text * bool * Z)) m :
  base.NoDup (map fst (ssrc_to_sender_id s)) ->
  Forall (fun d => In (d.2, d.1.1) (ssrc_to_sender_id s)) ds ->
  fold_left (fun m '(ssrc, reliable) =>
    match map_find ssrc (ssrc_to_sender_id s) with
    | Some id => text_assign id reliable m
    | None => m
    end) (map (fun d => (d.2, d.1.2)) ds) m = text_assign_all (map fst ds) m.
Proof.
  intros Hd Hs. revert m. induction Hs as [|[[id rel] z] ds Hin _ IH]; intros m; [done|]. cbn [map fold_left].
  rewrite (map_find_perm _ _ _ Hd Hin). rewrite IH. reflexivity.
Qed.

(** A map from SSRCs to names, turned round. *)
Lemma turned {A} (f : A -> Z) (g : A -> text) (l : list A) streams id :
  base.NoDup (map g l) -> streams ≡ₚ map (fun x => (f x, g x)) l ->
  text_find id (stream_ssrcs streams) = text_find id (text_assign_all (map (fun x => (g x, f x)) l) []).
Proof.
  intros Hd Hp. rewrite stream_ssrcs_assign. symmetry. apply text_assign_all_perm.
  - rewrite map_map. exact Hd.
  - rewrite Hp, map_map. done.
Qed.

(** The video section is read as it was written: the lines about other things
    are left, and each stream is known with its SSRC and that of its
    retransmissions. *)
Lemma video_streams_read before vs :
  good_videos vs -> Forall plain_line before -> Forall other_line before ->
  let s := parse_stream_lines video (unlines (before ++ flat_map video_stream_lines vs)) in
  new_sdp_block s = unlines before /\
  map snd (named_streams video s) ≡ₚ map (fun v => v.1.1) vs /\
  (forall id, text_find id (stream_ssrcs (named_streams video s)) = text_find id (text_assign_all (map fst vs) [])) /\
  (forall id, text_find id (stream_rtx_ssrcs s) = text_find id (text_assign_all (map (fun v => (v.1.1, v.2)) vs) [])).
Proof.
  intros Hg Hp Ho. cbv zeta. pose proof (video_distinct vs Hg) as Hdist. destruct Hg as (Hf & Hn & Hd).
  apply list.NoDup_app in Hd as (Hds & _ & Hdr).
  assert (Forall (fun v => good_name v.1.1 /\ good_ssrc v.1.2 /\ good_ssrc v.2 /\ v.1.2 <> v.2) vs) as Hf'.
  { rewrite List.Forall_forall in *. intros v Hv. destruct (Hf v Hv) as (H1 & H2 & H3). split_and!; try done.
    intros E. apply (Hdist v Hv), list_elem_of_In. rewrite E. by apply in_map. }
  unfold parse_stream_lines. rewrite getlines_unlines'.
  2: { apply Forall_app. split; [done|]. eapply plain_flat; [|exact Hf]. apply plain_video. }
  rewrite fold_left_app, (fold_other_lines _ _ _ Ho), (fold_video_lines _ _ Hf').
  set (s := mkStreamLines _ _ _ _).
  assert (ssrc_to_sender_id s ≡ₚ map (fun v => (v.1.2, v.1.1)) vs) as Es.
  { subst s. cbn [ssrc_to_sender_id]. rewrite map_assign_all_new; rewrite ?map_map; [by rewrite app_nil_r|done|].
    intros k _. apply not_elem_of_nil. }
  assert (media_to_rtx_ssrc s ≡ₚ map (fun v => (v.1.2, v.2)) vs) as Er.
  { subst s. cbn [media_to_rtx_ssrc]. rewrite map_assign_all_new; rewrite ?map_map; [by rewrite app_nil_r|done|].
    intros k _. apply not_elem_of_nil. }
  assert (named_streams video s = ssrc_to_sender_id s) as En.
  { apply named_all.
    - intros _ m Hm x Hx. apply (Permutation_in _ Er), in_map_iff in Hm as (v & <- & Hv).
      apply (Permutation_in _ Es), in_map_iff in Hx as (v' & <- & Hv'). cbn. intros E. apply (Hdist v' Hv'), list_elem_of_In.
      rewrite <- E. by apply in_map.
    - intros x Hx. apply (Permutation_in _ Es), in_map_iff in Hx as (v & <- & Hv). cbn.
      rewrite List.Forall_forall in Hf. by destruct (Hf v Hv) as ((_ & H & _) & _). }
  split_and!; [done| | |].
  - rewrite En, Es, map_map. done.
  - intros id. rewrite En, (turned (fun v => v.1.2) (fun v => v.1.1) vs) by done.
    f_equal. f_equal. clear. induction vs as [|[[n z] r] vs IH]; [done|]. cbn. by f_equal.
  - intros id. destruct (Permutation_map_inv _ _ Er) as (vs' & E & Hp').
    unfold stream_rtx_ssrcs. rewrite E, stream_rtx_assign.
    + apply text_assign_all_perm; [rewrite map_map; by rewrite <- Hp'|]. by rewrite Hp'.
    + rewrite Es, map_map. done.
    + rewrite <- Hp'. rewrite List.Forall_forall in *. intros v Hv. destruct (Hf v Hv) as ((_ & H & _) & _). split; [|done].
      apply (Permutation_in _ (Permutation_sym Es)). apply (in_map (fun v => (v.1.2, v.1.1)) _ _ Hv).
Qed.


Definition good_audios (l : list (text * Z)) : Prop :=
  Forall (fun a => good_name a.1 /\ good_ssrc a.2) l /\ NoDup (map fst l) /\ NoDup (map snd l).

Lemma audio_streams_read before l :
  good_audios l -> Forall plain_line before -> Forall other_line before ->
  let s := parse_stream_lines audio (unlines (before ++ flat_map audio_stream_lines l)) in
  map snd (named_streams audio s) ≡ₚ map fst l /\
  forall id, text_find id (stream_ssrcs (named_streams audio s)) = text_find id (text_assign_all l []).
Proof.
  intros (Hf & Hn & Hd) Hp Ho. cbv zeta. unfold parse_stream_lines. rewrite getlines_unlines'.
  2: { apply Forall_app. split; [done|]. eapply plain_flat; [|exact Hf]. apply plain_audio. }
  rewrite fold_left_app, (fold_other_lines _ _ _ Ho), (fold_audio_lines _ _ Hf).
  set (s := mkStreamLines _ _ _ _).
  assert (ssrc_to_sender_id s ≡ₚ map (fun a => (a.2, a.1)) l) as Es.
  { subst s. cbn [ssrc_to_sender_id]. rewrite map_assign_all_new; rewrite ?map_map; [by rewrite app_nil_r|done|].
    intros k _. apply not_elem_of_nil. }
  assert (named_streams audio s = ssrc_to_sender_id s) as En.
  { apply named_all; [done|]. intros x Hx. apply (Permutation_in _ Es), in_map_iff in Hx as (a & <- & Ha). cbn.
    rewrite List.Forall_forall in Hf. by destruct (Hf a Ha) as ((_ & H & _) & _). }
  rewrite En. split; [rewrite Es, map_map; done|].
  intros id. rewrite (turned snd fst l) by done. f_equal. f_equal. clear. induction l as [|[n z] l IH]; [done|]. cbn. by f_equal.
Qed.

Definition good_datas (l : list (text * bool * Z)) : Prop :=
  Forall (fun d => good_name d.1.1 /\ good_ssrc d.2) l /\ NoDup (map (fun d => d.1.1) l) /\ NoDup (map snd l).

Lemma data_streams_read before l :
  good_datas l -> Forall plain_line before -> Forall other_line before ->
  let s := parse_stream_lines data (unlines (before ++ flat_map data_stream_lines l)) in
  map snd (named_streams data s) ≡ₚ map (fun d => d.1.1) l /\
  (forall id, text_find id (stream_ssrcs (named_streams data s)) = text_find id (text_assign_all (map (fun d => (d.1.1, d.2)) l) [])) /\
  (forall id, text_find id (stream_reliable s []) = text_find id (text_assign_all (map fst l) [])).
Proof.
  intros (Hf & Hn & Hd) Hp Ho. cbv zeta. unfold parse_stream_lines. rewrite getlines_unlines'.
  2: { apply Forall_app. split; [done|]. eapply plain_flat; [|exact Hf]. apply plain_data. }
  rewrite fold_left_app, (fold_other_lines _ _ _ Ho), (fold_data_lines _ _ Hf).
  set (s := mkStreamLines _ _ _ _).
  assert (ssrc_to_sender_id s ≡ₚ map (fun d => (d.2, d.1.1)) l) as Es.
  { subst s. cbn [ssrc_to_sender_id]. rewrite map_assign_all_new; rewrite ?map_map; [by rewrite app_nil_r|done|].
    intros k _. apply not_elem_of_nil. }
  assert (ssrc_to_reliable s ≡ₚ map (fun d => (d.2, d.1.2)) l) as Er.
  { subst s. cbn [ssrc_to_reliable]. rewrite map_assign_all_new; rewrite ?map_map; [by rewrite app_nil_r|done|].
    intros k _. apply not_elem_of_nil. }
  assert (named_streams data s = ssrc_to_sender_id s) as En.
  { apply named_all; [done|]. intros x Hx. apply (Permutation_in _ Es), in_map_iff in Hx as (a & <- & Ha). cbn.
    rewrite List.Forall_forall in Hf. by destruct (Hf a Ha) as ((_ & H & _) & _). }
  rewrite En. split_and!; [rewrite Es, map_map; done| |].
  - intros id. by rewrite (turned snd (fun d => d.1.1) l) by done.
  - intros id. destruct (Permutation_map_inv _ _ Er) as (l' & E & Hp').
    unfold stream_reliable. rewrite E, stream_reliable_assign.
    + apply text_assign_all_perm; [rewrite map_map; by rewrite <- Hp'|]. by rewrite Hp'.
    + rewrite Es, map_map. done.
    + rewrite <- Hp'. apply List.Forall_forall. intros d Hin.
      apply (Permutation_in _ (Permutation_sym Es)). apply (in_map (fun d => (d.2, d.1.1)) _ _ Hin).
Qed.

(** ** Sections of a text *)

(** A search for something without a newline goes through the lines. *)
Lemma find_line p l s : newline ∉ p -> find p l = None -> p <> [] -> find p (l ++ newline :: s) = Nat.add (S (length l)) <$> find p s.
Proof.
  intros Hp Hl Hn. induction l as [|c l IH].
  - cbn [app find length]. destruct p as [|d p]; [done|]. apply not_elem_of_cons in Hp as [Hd _]. cbn [starts_with].
    rewrite bool_decide_false by congruence. cbn [andb]. by destruct (find (d :: p) s).
  - cbn [app find length]. cbn [find] in Hl. destruct (starts_with p (c :: l)) eqn:E; [done|].
    assert (starts_with p (c :: l ++ newline :: s) = false) as ->.
    { apply not_true_is_false. intros H. change (c :: l ++ newline :: s) with ((c :: l) ++ newline :: s) in H.
      clear -Hp E H. revert E H. generalize (c :: l). induction p as [|d p IH]; intros k E H; [by destruct k|].
      apply not_elem_of_cons in Hp as [Hd Hp]. destruct k as [|x k]; cbn in *.
      - rewrite bool_decide_false in H by congruence. done.
      - apply andb_prop in H as [Hx H]. rewrite Hx in E. cbn in E. by apply (IH Hp k). }
    rewrite IH by (by destruct (find p l)). destruct (find p s); [|done]. cbn. f_equal.
Qed.

Lemma find_unlines p ls s : newline ∉ p -> p <> [] -> Forall (fun l => find p l = None) ls ->
  find p (unlines ls ++ s) = Nat.add (length (unlines ls)) <$> find p s.
Proof.
  intros Hp Hn. induction 1 as [|l ls Hl _ IH]; [cbn; by destruct (find p s)|].
  rewrite unlines_cons, <- app_assoc. cbn [app]. rewrite find_line, IH by done.
  rewrite length_app. cbn [length]. destruct (find p s); [|done]. cbn. f_equal. lia.
Qed.

Lemma find_here p s : find p (p ++ s) = Some 0%nat.
Proof. pose proof (starts_with_app p s) as H. destruct (p ++ s); cbn [find]; by rewrite H. Qed.

(** The next media line. *)
Lemma find_next x ls s : newline ∉ x -> Forall plain_line ls -> Forall (fun l => starts_with (lit "m=") l = false) ls ->
  find next_media (x ++ newline :: unlines ls ++ s) =
  if starts_with (lit "m=") s then Some (length x + length (unlines ls))%nat
  else Nat.add (length x + S (length (unlines ls))) <$> find next_media s.
Proof.
  intros Hx Hp Hm. revert x Hx. induction Hm as [|l ls Hl _ IH]; intros x Hx.
  - change (unlines []) with (@nil ascii). cbn [app length]. rewrite Nat.add_0_r. induction x as [|c x IHx].
    + cbn [app length find]. unfold next_media at 1. cbn [starts_with]. rewrite bool_decide_true by done. cbn [andb].
      destruct (starts_with (lit "m=") s); [done|]. done.
    + apply not_elem_of_cons in Hx as [Hc Hx]. cbn [app length find]. unfold next_media at 1. cbn [starts_with].
      rewrite bool_decide_false by done. cbn [andb]. rewrite IHx by done.
      destruct (starts_with (lit "m=") s); [done|]. by destruct (find next_media s).
  - apply list.Forall_cons in Hp as [Hpl Hp]. rewrite unlines_cons, <- app_assoc. cbn [app].
    specialize (IH Hp l Hpl). induction x as [|c x IHx].
    + cbn [app length find]. unfold next_media at 1. cbn [starts_with]. rewrite bool_decide_true by done. cbn [andb].
      assert (starts_with (lit "m=") (l ++ newline :: unlines ls ++ s) = false) as ->.
      { clear -Hl Hpl. by destruct l as [|a [|b l]]. }
      rewrite IH. rewrite length_app. cbn [length]. destruct (starts_with (lit "m=") s); [cbn; f_equal; lia|].
      destruct (find next_media s); [|done]. cbn. f_equal; lia.
    + apply not_elem_of_cons in Hx as [Hc Hx]. cbn [app length find]. unfold next_media at 1. cbn [starts_with].
      rewrite bool_decide_false by done. cbn [andb]. rewrite IHx by done.
      destruct (starts_with (lit "m=") s); [done|]. by destruct (find next_media s).
Qed.
