(* ===== verification/OfferOk.v ===== *)
(** * An offer is understood

    The whole way of an offer: the agent's SDP, the sections that
    [AppendLocalCapabilitiesToOffer] fills in, the text, and what
    [GetRemoteCapabilities] of the other peer takes from it. *)

From Stdlib Require Import Ascii String.
From stdpp Require Import gmap strings.
From S2P Require Import Prelude StateMonad StdContainers Text IceUtils Packetizer Sdp Session SdpOk.

(** ** Sections *)

(** A media line of the agent, and one that is filled in. *)
Definition media_line (tag : string) (port capability : text) : text := m_ tag ++ lit " " ++ port ++ lit " " ++ capability.

(** A section behind others. *)
Definition section (tag : string) (port capability : text) (lines : list text) : text :=
  unlines (media_line tag port capability :: lines).

Lemma find_skip p a s : (forall c, head p = Some c -> c ∉ a) -> p <> [] -> find p (a ++ s) = Nat.add (length a) <$> find p s.
Proof.
  intros Hc Hn. induction a as [|x a IH]; [cbn; by destruct (find p s)|]. destruct p as [|c p]; [done|].
  cbn [app find length starts_with]. pose proof (Hc c eq_refl) as Hx. apply not_elem_of_cons in Hx as [Hx Ha].
  rewrite bool_decide_false by done. cbn [andb]. rewrite IH by (intros d [= <-]; exact Ha).
  by destruct (find (c :: p) s).
Qed.

Lemma find_from_next p a s n : n = length a -> find_from p (a ++ s) n = Nat.add (length a) <$> find p s.
Proof. intros ->. apply find_from_app. Qed.

(** The sections in front of the one that is looked for. *)
Definition quiet_for (tag : string) (ls : list text) : Prop := Forall (fun l => find (m_ tag) l = None) ls.

(** The tags are short words. *)
Definition good_tag (tag : string) : Prop := tag = "video"%string \/ tag = "audio"%string \/ tag = "data"%string.

Lemma tag_plain tag : good_tag tag -> plain_line (m_ tag) /\ "I"%char ∉ m_ tag /\ m_ tag <> [] /\ starts_with (lit "m=") (m_ tag) = true.
Proof.
  intros [->|[->| ->]]; (split_and!; [by apply plain_check| |done|done]); intros H%list_elem_of_In; cbn in H; intuition discriminate.
Qed.

Lemma find_tag tag ls s : good_tag tag -> quiet_for tag ls -> find (m_ tag) (unlines ls ++ m_ tag ++ s) = Some (length (unlines ls)).
Proof.
  intros Ht Hq. destruct (tag_plain tag Ht) as (Hp & _ & Hn & _). rewrite find_unlines, find_here by done.
  cbn. by rewrite Nat.add_0_r.
Qed.

Definition body_lines (ls : list text) : Prop := Forall plain_line ls /\ Forall (fun l => starts_with (lit "m=") l = false) ls.

(** The media line up to the capability. *)
Definition front (tag : string) (port : text) : text := m_ tag ++ lit " " ++ port ++ lit " ".

Lemma section_eq tag port capability body rest :
  section tag port capability body ++ rest = front tag port ++ capability ++ newline :: unlines body ++ rest.
Proof. unfold section, media_line, front. rewrite unlines_cons, <- !app_assoc. done. Qed.

Lemma front_ok tag port : good_tag tag -> digits port -> plain_line (front tag port) /\ "I"%char ∉ front tag port.
Proof.
  intros Ht Hd. destruct (tag_plain tag Ht) as (Htp & HtI & _ & _). unfold front. split.
  - apply plain_app; [done|]. apply plain_app; [by apply plain_check|].
    apply plain_app; [by apply (digits_not newline)|by apply plain_check].
  - rewrite !not_elem_of_app. assert ("I"%char ∉ port) by (by apply digits_not).
    assert ("I"%char ∉ lit " ") by (intros Hx%list_elem_of_In; cbn in Hx; intuition discriminate). done.
Qed.

Lemma take_app_add {A} (a b : list A) n : take (length a + n) (a ++ b) = a ++ take n b.
Proof. by rewrite take_app_add. Qed.

Lemma configure_section pre tag port capability attributes body rest :
  good_tag tag -> quiet_for tag pre -> digits port -> plain_line capability -> body_lines body ->
  rest = [] \/ starts_with (lit "m=") rest = true ->
  ConfigureMediaSection (unlines pre ++ section tag port (lit "ICE/SDP") body ++ rest) tag capability attributes =
  unlines pre ++ section tag port capability body ++ attributes ++ rest.
Proof.
  intros Ht Hq Hd Hc [Hb Hm] Hr. destruct (front_ok tag port Ht Hd) as [Hpf HIf].
  rewrite !section_eq. unfold ConfigureMediaSection.
  assert (find (m_ tag) (unlines pre ++ front tag port ++ lit "ICE/SDP" ++ newline :: unlines body ++ rest)
    = Some (length (unlines pre))) as ->.
  { unfold front. rewrite <- !app_assoc. by apply find_tag. }
  rewrite !find_from_app.
  assert (find [newline] (front tag port ++ lit "ICE/SDP" ++ newline :: unlines body ++ rest) = Some (length (front tag port) + 7)%nat) as ->.
  { rewrite app_assoc, find_char; [by rewrite length_app|]. apply plain_app; [done|by apply plain_check]. }
  rewrite (find_skip (lit "ICE/SDP") (front tag port)) by (done || by intros c [= <-]). rewrite find_here.
  cbn [fmap option_fmap option_map default from_option]. unfold id. rewrite Nat.add_0_r.
  replace (length (unlines pre) + length (front tag port) <? length (unlines pre) + (length (front tag port) + 7))%nat with true
    by (symmetry; apply Nat.ltb_lt; lia).
  rewrite take_app_add, take_app_length, <- !drop_drop, !drop_app_length.
  change (drop 7 (lit "ICE/SDP" ++ newline :: unlines body ++ rest)) with (newline :: unlines body ++ rest).
  assert (exists c y, front tag port = c :: y) as (c & y & Ef) by (destruct Ht as [->|[->| ->]]; by eexists _, _).
  rewrite Ef in *. apply not_elem_of_cons in Hpf as [_ Hpy].
  assert (find_from next_media ((unlines pre ++ c :: y) ++ capability ++ newline :: unlines body ++ rest) (length (unlines pre) + 1) =
    if starts_with (lit "m=") rest then Some (length (unlines pre) + length (c :: y) + length capability + length (unlines body))%nat
    else (fun n => (length (unlines pre) + 1 + (length (y ++ capability) + S (length (unlines body)) + n))%nat) <$> find next_media rest) as ->.
  { assert ((unlines pre ++ c :: y) ++ capability ++ newline :: unlines body ++ rest =
      (unlines pre ++ [c]) ++ (y ++ capability) ++ newline :: unlines body ++ rest) as -> by (by rewrite <- !app_assoc).
    rewrite (find_from_next _ (unlines pre ++ [c])) by (by rewrite length_app).
    rewrite find_next; [|by apply plain_app|done|done]. rewrite !length_app. cbn [length].
    destruct (starts_with (lit "m=") rest); [cbn; f_equal; lia|]. destruct (find next_media rest); [|done]. cbn. f_equal; lia. }
  assert (((unlines pre ++ c :: y) ++ capability ++ newline :: unlines body ++ rest) =
    ((unlines pre ++ c :: y) ++ capability ++ newline :: unlines body) ++ rest) as -> by (by rewrite <- !app_assoc).
  set (whole := (unlines pre ++ c :: y) ++ capability ++ newline :: unlines body).
  assert (match (if starts_with (lit "m=") rest then Some (length (unlines pre) + length (c :: y) + length capability + length (unlines body))%nat
     else (fun n => (length (unlines pre) + 1 + (length (y ++ capability) + S (length (unlines body)) + n))%nat) <$> find next_media rest)
    with Some n => (n + 1)%nat | None => length (whole ++ rest) end = length whole) as ->.
  { assert (length whole = length (unlines pre) + length (c :: y) + length capability + S (length (unlines body)))%nat as El
      by (subst whole; rewrite !length_app; cbn [length]; lia).
    destruct Hr as [->|Hr]; [cbn; rewrite app_nil_r; done|]. rewrite Hr, El. lia. }
  rewrite take_app_length, drop_app_length. subst whole. by rewrite <- !app_assoc.
Qed.

(** ** Lines that are not taken for something else *)

Lemma find_none_longer p q s : find p s = None -> find (p ++ q) s = None.
Proof.
  induction s as [|c s IH]; intros H.
  - cbn [find] in *. destruct p; [done|]. done.
  - cbn [find] in *. destruct (starts_with p (c :: s)) eqn:E; [done|].
    destruct (starts_with (p ++ q) (c :: s)) eqn:E'.
    + apply starts_with_spec in E' as [r Hr]. rewrite Hr, <- app_assoc, starts_with_app in E. done.
    + rewrite IH; [done|]. by destruct (find p s).
Qed.

(** Behind a beginning that no place of the other text matches. *)
Lemma find_clash p a b : forallb (fun n => clash p (drop n a)) (seq 0 (length a)) = true ->
  find p (a ++ b) = Nat.add (length a) <$> find p b.
Proof.
  induction a as [|c a IH]; intros H; [cbn; by destruct (find p b)|].
  cbn [length seq forallb] in H. apply andb_prop in H as [H0 H].
  cbn [app find length]. cbn [drop] in H0.
  assert (starts_with p (c :: a ++ b) = false) as ->.
  { apply not_true_is_false. intros Hp. apply (clash_starts p (c :: a)) in Hp; [|done].
    change (starts_with (c :: a) ((c :: a) ++ b) = false) in Hp. by rewrite starts_with_app in Hp. }
  rewrite IH; [by destruct (find p b)|]. rewrite forallb_forall in H |- *. intros n Hn.
  apply (H (S n)). apply in_seq in Hn. apply in_seq. lia.
Qed.

Lemma find_no_eq c p s : "="%char ∉ s -> find (c :: "="%char :: p) s = None.
Proof.
  induction s as [|d s IH]; [done|]. intros H. apply not_elem_of_cons in H as [Hd Hs]. cbn [find].
  rewrite IH by done. cbn [starts_with]. destruct s as [|e s]; [by rewrite andb_false_r|].
  apply not_elem_of_cons in Hs as [He Hs]. cbn [starts_with]. rewrite (bool_decide_false ("="%char = e)) by done.
  by rewrite andb_false_r.
Qed.

(** A line of a section that is no media line, no candidate. *)
Record calm_line (l : text) : Prop := {
  calm_plain : plain_line l;
  calm_media : find (lit "m=") l = None;
  calm_candidate : find (lit "a=candidate") l = None;
}.

Definition begins_calmly (a : text) : bool :=
  forallb (fun n => clash (lit "m=") (drop n a)) (seq 0 (length a)) &&
  forallb (fun n => clash (lit "a=candidate") (drop n a)) (seq 0 (length a)) &&
  forallb (fun c => negb (bool_decide (c = newline))) a.

Lemma calm_behind a b : begins_calmly a = true -> plain_line b -> "="%char ∉ b -> calm_line (a ++ b).
Proof.
  unfold begins_calmly. intros [[H1 H2]%andb_prop H3]%andb_prop Hb He. split.
  - apply plain_app; [by apply plain_check|done].
  - rewrite find_clash by done. by rewrite (find_no_eq "m"%char []).
  - rewrite find_clash by done. by rewrite (find_no_eq "a"%char (lit "candidate")).
Qed.

Lemma calm_check l : forallb (fun c => negb (bool_decide (c = newline))) l = true ->
  find (lit "m=") l = None -> find (lit "a=candidate") l = None -> calm_line l.
Proof. intros H1 H2 H3. split; [by apply plain_check|done|done]. Qed.

Lemma digits_no_eq s : digits s -> "="%char ∉ s.
Proof. intros H. by apply digits_not. Qed.
Lemma number_no_eq z : is_u32 z -> "="%char ∉ to_string z.
Proof. intros Hz. apply digits_no_eq, to_string_digits. unfold is_u32 in Hz. lia. Qed.

(** Names of streams that have no equals sign in them. *)
Definition plain_name (id : text) : Prop := good_name id /\ "="%char ∉ id.

Lemma no_eq_check l : forallb (fun c => negb (bool_decide (c = "="%char))) l = true -> "="%char ∉ l.
Proof.
  intros H Hin%list_elem_of_In. rewrite forallb_forall in H. apply H in Hin. by rewrite bool_decide_true in Hin.
Qed.

Lemma no_eq_app a b : "="%char ∉ a -> "="%char ∉ b -> "="%char ∉ a ++ b.
Proof. intros Ha Hb [H|H]%elem_of_app; auto. Qed.

Lemma calm_ssrc_line z s id : is_u32 z -> plain_line (lit s) -> "="%char ∉ lit s -> plain_line id -> "="%char ∉ id ->
  calm_line (ssrc_line z s id).
Proof.
  intros. unfold ssrc_line. apply calm_behind; [done| |].
  - apply plain_app; [by apply plain_number|]. by apply plain_app.
  - apply no_eq_app; [by apply number_no_eq|]. by apply no_eq_app.
Qed.

Lemma calm_group_line a b : is_u32 a -> is_u32 b -> calm_line (group_line a b).
Proof.
  intros. unfold group_line. apply calm_behind; [done| |].
  - apply plain_app; [by apply plain_number|]. apply plain_app; [by apply plain_check|by apply plain_number].
  - apply no_eq_app; [by apply number_no_eq|]. apply no_eq_app; [by apply no_eq_check|by apply number_no_eq].
Qed.

Lemma calm_reliable_line a b : is_u32 a -> calm_line (reliable_line a b).
Proof.
  intros. unfold reliable_line. apply calm_behind; [done| |].
  - apply plain_app; [by apply plain_number|]. apply plain_app; apply plain_check; by destruct b.
  - apply no_eq_app; [by apply number_no_eq|]. apply no_eq_app; apply no_eq_check; by destruct b.
Qed.

Lemma calm_flat {A} (f : A -> list text) (P : A -> Prop) l :
  (forall x, P x -> Forall calm_line (f x)) -> Forall P l -> Forall calm_line (flat_map f l).
Proof. intros Hf. induction 1 as [|x l Hx _ IH]; [constructor|]. cbn. apply List.Forall_app. auto. Qed.

Lemma calm_videos vs : good_videos vs -> Forall (fun v => "="%char ∉ v.1.1) vs -> Forall calm_line (flat_map video_stream_lines vs).
Proof.
  intros (Hf & _ & _) He. apply (calm_flat _ (fun v => (good_name v.1.1 /\ good_ssrc v.1.2 /\ good_ssrc v.2) /\ "="%char ∉ v.1.1)).
  - intros v [((Hn & _) & [Hz _] & [Hr _]) Hv]. unfold video_stream_lines. constructor; [|constructor; [|constructor; [|constructor]]].
    + apply calm_ssrc_line; try done; [by apply plain_check|by apply no_eq_check].
    + by apply calm_group_line.
    + apply calm_ssrc_line; try done; [by apply plain_check|by apply no_eq_check].
  - rewrite List.Forall_forall in *. auto.
Qed.

Lemma calm_audios l : good_audios l -> Forall (fun a => "="%char ∉ a.1) l -> Forall calm_line (flat_map audio_stream_lines l).
Proof.
  intros (Hf & _ & _) He. apply (calm_flat _ (fun a => (good_name a.1 /\ good_ssrc a.2) /\ "="%char ∉ a.1)).
  - intros a [((Hn & _) & [Hz _]) Ha]. constructor; [|constructor].
    apply calm_ssrc_line; try done; [by apply plain_check|by apply no_eq_check].
  - rewrite List.Forall_forall in *. auto.
Qed.

Lemma calm_datas l : good_datas l -> Forall (fun d => "="%char ∉ d.1.1) l -> Forall calm_line (flat_map data_stream_lines l).
Proof.
  intros (Hf & _ & _) He. apply (calm_flat _ (fun d => (good_name d.1.1 /\ good_ssrc d.2) /\ "="%char ∉ d.1.1)).
  - intros d [((Hn & _) & [Hz _]) Hd]. constructor; [|constructor; [|constructor]]; [|by apply calm_reliable_line].
    apply calm_ssrc_line; try done; [by apply plain_check|by apply no_eq_check].
  - rewrite List.Forall_forall in *. auto.
Qed.

(** Calm lines do not name a section. *)
Lemma calm_quiet tag ls : Forall calm_line ls -> quiet_for tag ls.
Proof. intros H. eapply List.Forall_impl; [|exact H]. intros l Hl. apply find_none_longer, Hl. Qed.

Lemma calm_body ls : Forall calm_line ls -> body_lines ls.
Proof.
  intros H. split; (eapply List.Forall_impl; [|exact H]); intros l Hl; [apply Hl|].
  apply not_true_is_false. intros [r ->]%starts_with_spec. destruct Hl as [_ Hl _]. by rewrite find_here in Hl.
Qed.

(** ** Media lines of the other sections *)

Definition good_capability (c : text) : Prop := plain_line c /\ "="%char ∉ c.

Lemma media_line_other tag tag' port capability : good_tag tag -> good_tag tag' -> tag <> tag' ->
  digits port -> good_capability capability -> find (m_ tag') (media_line tag port capability) = None.
Proof.
  intros Ht Ht' Hne Hd [_ Hc]. unfold media_line.
  assert (forallb (fun n => clash (m_ tag') (drop n (m_ tag))) (seq 0 (length (m_ tag))) = true) as E.
  { destruct Ht as [->|[->| ->]], Ht' as [->|[->| ->]]; done. }
  rewrite find_clash by exact E.
  assert ("="%char ∉ lit " " ++ port ++ lit " " ++ capability) as Hno.
  { repeat (apply no_eq_app; [first [by apply no_eq_check | by apply digits_no_eq]|]). done. }
  unfold m_. by rewrite (find_no_eq "m"%char (lit tag')).
Qed.

Lemma media_line_no_candidate tag port capability : good_tag tag -> digits port -> good_capability capability ->
  find (lit "a=candidate") (media_line tag port capability) = None.
Proof.
  intros Ht Hd [_ Hc]. unfold media_line.
  assert (forallb (fun n => clash (lit "a=candidate") (drop n (m_ tag))) (seq 0 (length (m_ tag))) = true \/ tag = "data"%string) as [E| ->].
  { destruct Ht as [->|[->| ->]]; [by left|by left|by right]. }
  - rewrite find_clash by exact E.
    assert ("="%char ∉ lit " " ++ port ++ lit " " ++ capability) as Hno.
    { repeat (apply no_eq_app; [first [by apply no_eq_check | by apply digits_no_eq]|]). done. }
    by rewrite (find_no_eq "a"%char (lit "candidate")).
  - rewrite app_assoc, (find_clash _ (m_ "data" ++ lit " ")) by done.
    assert ("="%char ∉ port ++ lit " " ++ capability) as Hno.
    { repeat (apply no_eq_app; [first [by apply no_eq_check | by apply digits_no_eq]|]). done. }
    by rewrite (find_no_eq "a"%char (lit "candidate")).
Qed.

Lemma media_line_plain tag port capability : good_tag tag -> digits port -> good_capability capability ->
  plain_line (media_line tag port capability).
Proof.
  intros Ht Hd [Hc _]. destruct (tag_plain tag Ht) as (Hp & _). unfold media_line.
  apply plain_app; [done|]. apply plain_app; [by apply plain_check|]. apply plain_app; [by apply (digits_not newline)|].
  apply plain_app; [by apply plain_check|done].
Qed.

(** ** The three sections *)

(** The description of the agent before candidates are known, and the one that
    is sent. *)
Record Sections := mkSections {
  session_lines : list text;
  video_port : text;
  video_capability : text;
  video_lines : list text;
  audio_port : text;
  audio_capability : text;
  audio_lines : list text;
  data_port : text;
  data_capability : text;
  data_lines : list text;
}.

Definition video_section (s : Sections) : text := section "video" (video_port s) (video_capability s) (video_lines s).
Definition audio_section (s : Sections) : text := section "audio" (audio_port s) (audio_capability s) (audio_lines s).
Definition data_section (s : Sections) : text := section "data" (data_port s) (data_capability s) (data_lines s).

Definition sections_text (s : Sections) : text :=
  unlines (session_lines s) ++ video_section s ++ audio_section s ++ data_section s.

Record good_sections (s : Sections) : Prop := {
  good_session : Forall calm_line (session_lines s);
  good_video_lines : Forall calm_line (video_lines s);
  good_audio_lines : Forall calm_line (audio_lines s);
  good_data_lines : Forall calm_line (data_lines s);
  good_ports : digits (video_port s) /\ digits (audio_port s) /\ digits (data_port s);
  good_capabilities : good_capability (video_capability s) /\ good_capability (audio_capability s) /\
    good_capability (data_capability s);
}.

Lemma good_video_tag : good_tag "video". Proof. by left. Qed.
Lemma good_audio_tag : good_tag "audio". Proof. right. by left. Qed.
Lemma good_data_tag : good_tag "data". Proof. right. by right. Qed.
#[local] Hint Resolve good_video_tag good_audio_tag good_data_tag : core.

(** What stands in front of a section. *)
Definition before_audio (s : Sections) : list text :=
  session_lines s ++ media_line "video" (video_port s) (video_capability s) :: video_lines s.
Definition before_data (s : Sections) : list text :=
  before_audio s ++ media_line "audio" (audio_port s) (audio_capability s) :: audio_lines s.

Lemma before_audio_text s : unlines (before_audio s) = unlines (session_lines s) ++ video_section s.
Proof. unfold before_audio. by rewrite unlines_app. Qed.
Lemma before_data_text s : unlines (before_data s) = unlines (before_audio s) ++ audio_section s.
Proof. unfold before_data. by rewrite unlines_app. Qed.

Lemma quiet_before_audio s tag : good_sections s -> good_tag tag -> tag <> "video"%string -> quiet_for tag (before_audio s).
Proof.
  intros [H1 H2 H3 H4 (P1 & P2 & P3) (C1 & C2 & C3)] Ht Hn. apply list.Forall_app. split; [by apply calm_quiet|].
  constructor; [|by apply calm_quiet]. by apply media_line_other.
Qed.
Lemma quiet_before_data s tag : good_sections s -> good_tag tag -> tag <> "video"%string -> tag <> "audio"%string ->
  quiet_for tag (before_data s).
Proof.
  intros H Ht Hv Ha. apply list.Forall_app. split; [by apply quiet_before_audio|].
  destruct H as [H1 H2 H3 H4 (P1 & P2 & P3) (C1 & C2 & C3)].
  constructor; [|by apply calm_quiet]. by apply media_line_other.
Qed.

(** Each section keeps its place; its capability and its lines change. *)
Definition configured (s : Sections) (v : text) (va : list text) (a : text) (aa : list text) (d : text) (da : list text) : Sections :=
  mkSections (session_lines s) (video_port s) v (video_lines s ++ va) (audio_port s) a (audio_lines s ++ aa)
    (data_port s) d (data_lines s ++ da).

Lemma section_more tag port capability ls more :
  section tag port capability ls ++ unlines more = section tag port capability (ls ++ more).
Proof. unfold section. by rewrite !unlines_cons, unlines_app, <- !app_assoc. Qed.

Lemma configure_all s v va a aa d da :
  good_sections s -> video_capability s = lit "ICE/SDP" -> audio_capability s = lit "ICE/SDP" -> data_capability s = lit "ICE/SDP" ->
  good_sections (configured s v va a aa d da) ->
  ConfigureMediaSection (ConfigureMediaSection (ConfigureMediaSection (sections_text s) "video" v (unlines va))
    "audio" a (unlines aa)) "data" d (unlines da) = sections_text (configured s v va a aa d da).
Proof.
  intros Hs Ev Ea Ed Hc. pose proof Hs as [H1 H2 H3 H4 (P1 & P2 & P3) _]. pose proof Hc as [_ _ _ _ _ (C1 & C2 & C3)].
  cbn [configured video_capability audio_capability data_capability] in C1, C2, C3.
  assert (sections_text s = unlines (session_lines s) ++ section "video" (video_port s) (lit "ICE/SDP") (video_lines s) ++
    (audio_section s ++ data_section s)) as -> by (unfold sections_text, video_section; by rewrite Ev).
  rewrite configure_section; [|done|by apply calm_quiet|done|apply C1|by apply calm_body|right; by unfold audio_section, section].
  assert (unlines (session_lines s) ++ section "video" (video_port s) v (video_lines s) ++ unlines va ++ audio_section s ++ data_section s =
    unlines (before_audio (configured s v va a aa d da)) ++ section "audio" (audio_port s) (lit "ICE/SDP") (audio_lines s) ++ data_section s) as ->.
  { rewrite before_audio_text. unfold video_section, audio_section. cbn [session_lines video_port video_capability video_lines configured].
    rewrite Ea, <- section_more, <- !app_assoc. done. }
  rewrite configure_section; [|done|by apply quiet_before_audio|done|apply C2|by apply calm_body|right; by unfold data_section, section].
  assert (unlines (before_audio (configured s v va a aa d da)) ++ section "audio" (audio_port s) a (audio_lines s) ++ unlines aa ++ data_section s =
    unlines (before_data (configured s v va a aa d da)) ++ section "data" (data_port s) (lit "ICE/SDP") (data_lines s) ++ []) as ->.
  { rewrite before_data_text. unfold audio_section, data_section. cbn [audio_port audio_capability audio_lines configured].
    rewrite Ed, <- section_more, <- !app_assoc, app_nil_r. done. }
  rewrite configure_section; [|done|by apply quiet_before_data|done|apply C3|by apply calm_body|by left].
  unfold sections_text. rewrite before_data_text, before_audio_text. unfold data_section.
  cbn [data_port data_capability data_lines configured]. by rewrite app_nil_r, <- section_more, <- !app_assoc.
Qed.

(** *** Where they are found *)

Lemma section_find tag port capability ls rest :
  section tag port capability ls ++ rest = m_ tag ++ (lit " " ++ port ++ lit " " ++ capability) ++ newline :: unlines ls ++ rest.
Proof. unfold section, media_line. rewrite unlines_cons, <- !app_assoc. done. Qed.

Lemma found_video s : good_sections s -> find (m_ "video") (sections_text s) = Some (length (unlines (session_lines s))).
Proof.
  intros H. unfold sections_text, video_section. rewrite section_find. apply find_tag; [done|]. apply calm_quiet, H.
Qed.
Lemma found_audio s : good_sections s -> find (m_ "audio") (sections_text s) = Some (length (unlines (before_audio s))).
Proof.
  intros H. unfold sections_text. rewrite app_assoc, <- before_audio_text. unfold audio_section. rewrite section_find.
  apply find_tag; [done|]. by apply quiet_before_audio.
Qed.
Lemma found_data s : good_sections s -> find (m_ "data") (sections_text s) = Some (length (unlines (before_data s))).
Proof.
  intros H. unfold sections_text. rewrite app_assoc, <- before_audio_text, app_assoc, <- before_data_text.
  rewrite <- (app_nil_r (data_section s)). unfold data_section. rewrite section_find.
  apply find_tag; [done|]. by apply quiet_before_data.
Qed.

Lemma no_candidate s : good_sections s -> find (lit "a=candidate") (sections_text s) = None.
Proof.
  intros [H1 H2 H3 H4 (P1 & P2 & P3) (C1 & C2 & C3)].
  assert (sections_text s = unlines (before_data s ++ media_line "data" (data_port s) (data_capability s) :: data_lines s)) as ->.
  { rewrite unlines_app, before_data_text, before_audio_text. unfold sections_text. by rewrite <- !app_assoc. }
  rewrite <- (app_nil_r (unlines _)), find_unlines; [done|by apply plain_check|done|].
  assert (forall ls, Forall calm_line ls -> Forall (fun l => find (lit "a=candidate") l = None) ls) as Hc.
  { intros ls Hl. eapply List.Forall_impl; [|exact Hl]. intros l Hl'. apply Hl'. }
  unfold before_data, before_audio. rewrite !list.Forall_app, !list.Forall_cons. split_and!; auto; by apply media_line_no_candidate.
Qed.

(** ** The streams that are received *)

(** A map with these entries. *)
Definition entries {V} (m l : list (text * V)) : Prop := forall k v, text_find k m = Some v <-> In (k, v) l.

Lemma entries_assigned {V} (m l : list (text * V)) : base.NoDup (map fst l) ->
  (forall k, text_find k m = text_find k (text_assign_all l [])) -> entries m l.
Proof.
  intros Hd Hm k v. rewrite Hm. split; [|by apply text_assign_all_find].
  intros H. destruct (decide (k ∈ map fst l)) as [Hin|Hn].
  - apply list_elem_of_fmap in Hin as ([k' v'] & -> & Hin). apply list_elem_of_In in Hin. cbn [fst] in *.
    rewrite (text_assign_all_find k' v' l [] Hd Hin) in H. by injection H as <-.
  - by rewrite text_assign_all_other in H.
Qed.

(** What the other peer knows of the streams. *)
Record received (r : RemoteStreams) (vs : list VideoStream) (aus : list (text * Z)) (ds : list (text * bool * Z)) : Prop := {
  received_videos : remote_video_stream_ids_ r ≡ₚ map (fun v => v.1.1) vs;
  received_video_ssrcs : entries (video_receivers_ssrc_ r) (map fst vs);
  received_rtx_ssrcs : entries (video_receivers_rtx_ssrc_ r) (map (fun v => (v.1.1, v.2)) vs);
  received_audios : remote_audio_stream_ids_ r ≡ₚ map fst aus;
  received_audio_ssrcs : entries (audio_receivers_ssrc_ r) aus;
  received_datas : remote_data_stream_ids_ r ≡ₚ map (fun d => d.1.1) ds;
  received_data_ssrcs : entries (data_receivers_ssrc_ r) (map (fun d => (d.1.1, d.2)) ds);
  received_reliable : entries (remote_data_stream_reliable_ r) (map fst ds);
}.

Definition no_remote (r : RemoteStreams) : Prop :=
  remote_video_stream_ids_ r = [] /\ remote_audio_stream_ids_ r = [] /\ remote_data_stream_ids_ r = [] /\
  remote_data_stream_reliable_ r = [].

Lemma section_text_mid a b c : section_text (a ++ b ++ c) (length a) (length a + length b) = b.
Proof.
  unfold section_text. replace (length a + length b <? length a)%nat with false by (symmetry; apply Nat.ltb_ge; lia).
  replace (length a + length b - length a)%nat with (length b) by lia. apply substr_app.
Qed.

Section receive.
Context {W : Type} {world : SessionWorld W}.

(** The parts of [GetRemoteCapabilities] that read the streams. *)
Definition read_streams (sdp : text) : C (W := W) text :=
  rest ← read_video_section sdp;
  read_audio_section sdp;;
  read_data_section sdp;;
  mret rest.

Lemma media_other_line tag port capability : other_line (media_line tag port capability).
Proof. split; reflexivity. Qed.

Lemma read_video_ok s t (w : W) : good_sections s ->
  read_video_section (sections_text s) (t, w) =
  let '(rest, ssrcs, rtx_ssrcs, r) := ParseSsrcFromSdpAndRemove video (video_section s) (remote t) in
  Some (rest, (set_remote (mkRemote (remote_video_stream_ids_ r) (remote_audio_stream_ids_ r) (remote_data_stream_ids_ r)
                     ssrcs rtx_ssrcs (audio_receivers_ssrc_ r) (data_receivers_ssrc_ r) (remote_data_stream_reliable_ r)) t, w)).
Proof.
  intros H. unfold read_video_section. rewrite found_video, found_audio, found_data, no_candidate by done. unfold or_end. cbn [default from_option]. unfold id.
  assert (length (unlines (before_audio s)) = length (unlines (session_lines s)) + length (video_section s))%nat as La
    by (by rewrite before_audio_text, length_app).
  assert (length (unlines (before_data s)) = length (unlines (before_audio s)) + length (audio_section s))%nat as Ld
    by (by rewrite before_data_text, length_app).
  assert (length (sections_text s) = length (unlines (before_data s)) + length (data_section s))%nat as Lt.
  { unfold sections_text. rewrite !length_app. lia. }
  rewrite !Nat.min_l by lia. rewrite La. unfold sections_text at 1. rewrite section_text_mid. reflexivity.
Qed.

Lemma read_audio_ok s t (w : W) : good_sections s ->
  read_audio_section (sections_text s) (t, w) =
  let '(_, ssrcs, _, r) := ParseSsrcFromSdpAndRemove audio (audio_section s) (remote t) in
  Some (tt, (set_remote (mkRemote (remote_video_stream_ids_ r) (remote_audio_stream_ids_ r) (remote_data_stream_ids_ r)
                     (video_receivers_ssrc_ r) (video_receivers_rtx_ssrc_ r) ssrcs (data_receivers_ssrc_ r)
                     (remote_data_stream_reliable_ r)) t, w)).
Proof.
  intros H. unfold read_audio_section. rewrite found_audio, found_data, no_candidate by done. unfold or_end. cbn [default from_option]. unfold id.
  assert (length (unlines (before_data s)) = length (unlines (before_audio s)) + length (audio_section s))%nat as Ld
    by (by rewrite before_data_text, length_app).
  assert (sections_text s = unlines (before_audio s) ++ audio_section s ++ data_section s) as ->
    by (rewrite before_audio_text; unfold sections_text; by rewrite <- !app_assoc).
  rewrite Nat.min_l by (rewrite !length_app; lia). rewrite Ld, section_text_mid. reflexivity.
Qed.

Lemma read_data_ok s t (w : W) : good_sections s ->
  read_data_section (sections_text s) (t, w) =
  let '(_, ssrcs, _, r) := ParseSsrcFromSdpAndRemove data (data_section s) (remote t) in
  Some (tt, (set_remote (mkRemote (remote_video_stream_ids_ r) (remote_audio_stream_ids_ r) (remote_data_stream_ids_ r)
                     (video_receivers_ssrc_ r) (video_receivers_rtx_ssrc_ r) (audio_receivers_ssrc_ r) ssrcs
                     (remote_data_stream_reliable_ r)) t, w)).
Proof.
  intros H. unfold read_data_section. rewrite found_data, no_candidate by done. unfold or_end. cbn [default from_option].
  assert (sections_text s = unlines (before_data s) ++ data_section s ++ []) as ->
    by (rewrite before_data_text, before_audio_text, app_nil_r; unfold sections_text; by rewrite <- !app_assoc).
  unfold id. replace (length (unlines (before_data s) ++ data_section s ++ [])) with (length (unlines (before_data s)) + length (data_section s))%nat
    by (rewrite !length_app; cbn; lia).
  rewrite section_text_mid. reflexivity.
Qed.

(** Lines behind the streams do not matter for them. *)
Lemma parse_after mt ls after : Forall plain_line ls -> Forall plain_line after -> Forall other_line after ->
  parse_stream_lines mt (unlines (ls ++ after)) =
  let s := parse_stream_lines mt (unlines ls) in
  mkStreamLines (ssrc_to_sender_id s) (ssrc_to_reliable s) (media_to_rtx_ssrc s) (new_sdp_block s ++ unlines after).
Proof.
  intros Hl Ha Ho. unfold parse_stream_lines. rewrite !getlines_unlines' by (try apply List.Forall_app; done).
  by rewrite fold_left_app, fold_other_lines.
Qed.

(** The sections with streams at their ends; behind those of data, other lines
    may follow. *)
Lemma streams_received s bv vs ba aus bd ds after t (w : W) :
  good_sections s ->
  video_lines s = bv ++ flat_map video_stream_lines vs -> audio_lines s = ba ++ flat_map audio_stream_lines aus ->
  data_lines s = bd ++ flat_map data_stream_lines ds ++ after ->
  Forall other_line bv -> Forall other_line ba -> Forall other_line bd -> Forall other_line after ->
  good_videos vs -> good_audios aus -> good_datas ds -> no_remote (remote t) ->
  exists rest r, read_streams (sections_text s) (t, w) = Some (rest, (set_remote r t, w)) /\ received r vs aus ds /\
    rest = unlines (media_line "video" (video_port s) (video_capability s) :: bv).
Proof.
  intros H Ev Ea Ed Hov Hoa Hod Hoafter Hv Ha Hd (R1 & R2 & R3 & R4). unfold read_streams.
  pose proof H as [G1 G2 G3 G4 (P1 & P2 & P3) (C1 & C2 & C3)].
  assert (forall tag port capability ls rest, good_tag tag -> digits port -> good_capability capability ->
    Forall calm_line (ls ++ rest) -> Forall plain_line (media_line tag port capability :: ls)) as Hplain.
  { intros tag port capability ls rest Ht Hp Hc [Hl _]%list.Forall_app. constructor; [by apply media_line_plain|].
    eapply List.Forall_impl; [|exact Hl]. intros l Hl'. apply Hl'. }
  rewrite Ev in G2. rewrite Ea in G3. rewrite Ed in G4.
  pose proof (video_streams_read (media_line "video" (video_port s) (video_capability s) :: bv) vs Hv
    ltac:(by eapply Hplain) ltac:(constructor; [apply media_other_line|done])) as (V1 & V2 & V3 & V4).
  pose proof (audio_streams_read (media_line "audio" (audio_port s) (audio_capability s) :: ba) aus Ha
    ltac:(by eapply Hplain) ltac:(constructor; [apply media_other_line|done])) as (A1 & A2).
  pose proof (data_streams_read (media_line "data" (data_port s) (data_capability s) :: bd) ds Hd
    ltac:(by eapply Hplain) ltac:(constructor; [apply media_other_line|done])) as (D1 & D2 & D3).
  assert (forall ls, Forall calm_line ls -> Forall plain_line ls) as Hcp.
  { intros ls Hl. eapply List.Forall_impl; [|exact Hl]. intros l Hl'. apply Hl'. }
  assert (Forall calm_line (flat_map data_stream_lines ds ++ after)) as G4' by (by apply list.Forall_app in G4 as [_ G4]).
  apply list.Forall_app in G4' as [G5 G6].
  pose proof (parse_after data ((media_line "data" (data_port s) (data_capability s) :: bd) ++ flat_map data_stream_lines ds) after
    ltac:(apply list.Forall_app; split; [by eapply Hplain|by apply Hcp]) ltac:(by apply Hcp) Hoafter) as Eafter.
  rewrite <- app_assoc in Eafter. cbn [app] in V1, V2, V3, V4, A1, A2, D1, D2, D3, Eafter. rewrite <- Ed in Eafter.
  fold (section "data" (data_port s) (data_capability s) (data_lines s)) in Eafter. fold (data_section s) in Eafter.
  rewrite <- Ev in V1, V2, V3, V4. rewrite <- Ea in A1, A2.
  fold (section "video" (video_port s) (video_capability s) (video_lines s)) in V1, V2, V3, V4. fold (video_section s) in V1, V2, V3, V4.
  fold (section "audio" (audio_port s) (audio_capability s) (audio_lines s)) in A1, A2. fold (audio_section s) in A1, A2.
  set (sd := parse_stream_lines data (unlines _)) in D1, D2, D3, Eafter.
  assert (forall known, named_streams data (parse_stream_lines data (data_section s)) = named_streams data sd /\
    stream_reliable (parse_stream_lines data (data_section s)) known = stream_reliable sd known) as Hsd by (intros known; by rewrite Eafter).
  rewrite (bind_eval _ _ _ _ _ (read_video_ok s t w H)).
  rewrite (bind_eval _ _ _ _ _ (read_audio_ok s _ w H)).
  rewrite (bind_eval _ _ _ _ _ (read_data_ok s _ w H)).
  eexists _, _. split; [reflexivity|]. destruct Hv as (_ & Hvn & _), Ha as (_ & Han & _), Hd as (_ & Hdn & _).
  split; [|exact V1]. split; cbn [remote_video_stream_ids_ remote_audio_stream_ids_ remote_data_stream_ids_ video_receivers_ssrc_
    video_receivers_rtx_ssrc_ audio_receivers_ssrc_ data_receivers_ssrc_ remote_data_stream_reliable_ remote set_remote].
  - rewrite R1. exact V2.
  - apply entries_assigned; [by rewrite map_map|exact V3].
  - apply entries_assigned; [by rewrite map_map|exact V4].
  - rewrite R2. exact A1.
  - apply entries_assigned; [done|exact A2].
  - rewrite R3, (proj1 (Hsd [])). exact D1.
  - apply entries_assigned; [by rewrite map_map|]. rewrite (proj1 (Hsd [])). exact D2.
  - apply entries_assigned; [by rewrite map_map|]. rewrite R4, (proj2 (Hsd [])). exact D3.
Qed.

End receive.
