(* ===== verification/OfferRead.v ===== *)
(** * An offer from end to end

    The offer that [AppendLocalCapabilitiesToOffer] writes, for the streams and
    SSRCs of the offering peer, and what [GetRemoteCapabilities] of the other
    peer makes of it: streams, payload types, extension identifiers and the
    capabilities of the video section. *)

From Stdlib Require Import Ascii String.
From stdpp Require Import gmap strings.
From S2P Require Import Prelude StateMonad StdContainers Text IceUtils Packetizer Sdp Session SdpOk OfferOk.

(** ** Writing *)

Section offer.
Context {W : Type} {world : SessionWorld W}.

(** The SSRCs that the controller gives to the streams, in their order. *)
Fixpoint allot_videos (ids : list text) (w : W) : list VideoStream * W :=
  match ids with
  | [] => ([], w)
  | id :: ids =>
      let '(ssrc, w) := AddVideoSendChannel id w in
      let '(rtx_ssrc, w) := GetVideoRtxSsrc id w in
      let '(vs, w) := allot_videos ids w in
      ((id, ssrc, rtx_ssrc) :: vs, w)
  end.

Fixpoint allot_audios (ids : list text) (w : W) : list (text * Z) * W :=
  match ids with
  | [] => ([], w)
  | id :: ids =>
      let '(ssrc, w) := AddAudioSendChannel id w in
      let '(l, w) := allot_audios ids w in
      ((id, ssrc) :: l, w)
  end.

Fixpoint allot_datas (ids : list (text * bool)) (w : W) : list (text * bool * Z) * W :=
  match ids with
  | [] => ([], w)
  | (id, reliable) :: ids =>
      let '(ssrc, w) := AddDataSendChannel id reliable w in
      let '(l, w) := allot_datas ids w in
      ((id, reliable, ssrc) :: l, w)
  end.

Definition allot (l : LocalStreams) (w : W) : list VideoStream * list (text * Z) * list (text * bool * Z) * W :=
  let '(vs, w) := allot_videos (video_stream_ids_ l) w in
  let '(aus, w) := allot_audios (audio_stream_ids_ l) w in
  let '(ds, w) := allot_datas (data_stream_ids_ l) w in
  (vs, aus, ds, w).

Lemma call_eval {A} (f : W -> A * W) t w : call f (t, w) = Some ((f w).1, (t, (f w).2)).
Proof. unfold call. cbn. by destruct (f w). Qed.

(** Only the SSRCs of the senders change. *)
Definition local_changed (t t' : IceTransport) : Prop := exists l, t' = set_local l t.

Lemma local_changed_refl t : local_changed t t.
Proof. exists (local t). by destruct t. Qed.
Lemma local_changed_trans t1 t2 t3 : local_changed t1 t2 -> local_changed t2 t3 -> local_changed t1 t3.
Proof. intros [l1 ->] [l2 ->]. by exists l2. Qed.

Lemma set_senders_eval v a d t (w : W) : exists t', set_senders v a d (t, w) = Some (tt, (t', w)) /\ local_changed t t'.
Proof. eexists. split; [reflexivity|]. by eexists. Qed.

Lemma rtx_attributes v : good_ssrc v.1.2 -> good_ssrc v.2 -> v.1.2 <> v.2 ->
  BuildRtxSsrcAttributes v.1.1 v.1.2 v.2 = unlines (video_stream_lines v).
Proof.
  intros [_ H1] [_ H2] Hn. unfold BuildRtxSsrcAttributes, video_stream_lines.
  replace (v.1.2 =? 0) with false by lia. replace (v.2 =? 0) with false by lia. replace (v.1.2 =? v.2) with false by lia. cbn [orb].
  rewrite !unlines_cons. reflexivity.
Qed.

Lemma unlines_flat {A} (f : A -> list text) x l : unlines (flat_map f (x :: l)) = unlines (f x) ++ unlines (flat_map f l).
Proof. cbn [flat_map]. apply unlines_app. Qed.

Lemma video_attributes_eval ids t w :
  let '(vs, w') := allot_videos ids w in
  Forall (fun v => good_ssrc v.1.2 /\ good_ssrc v.2 /\ v.1.2 <> v.2) vs ->
  exists t', video_attributes true ids (t, w) = Some (unlines (flat_map video_stream_lines vs), (t', w')) /\ local_changed t t'.
Proof.
  revert t w. induction ids as [|id ids IH]; intros t w; cbn [allot_videos].
  { intros _. exists t. split; [done|apply local_changed_refl]. }
  destruct (AddVideoSendChannel id w) as [ssrc w1] eqn:E1. destruct (GetVideoRtxSsrc id w1) as [rtx_ssrc w2] eqn:E2.
  destruct (set_senders_eval (text_assign id ssrc) (fun x => x) (fun x => x) t w1) as (t1 & Es & Hc1).
  specialize (IH t1 w2). destruct (allot_videos ids w2) as [vs w'] eqn:Ea.
  intros [(H1 & H2 & H3) Hvs]%list.Forall_cons. destruct (IH Hvs) as (t' & Er & Hc2). exists t'.
  split; [|by eapply local_changed_trans]. cbn [video_attributes].
  rewrite (bind_eval _ _ _ _ _ (call_eval _ t w)), E1. cbn [fst snd].
  rewrite (bind_eval _ _ _ _ _ Es).
  assert ((rtx_ssrc ← call (GetVideoRtxSsrc id); mret (BuildRtxSsrcAttributes id ssrc rtx_ssrc)) (t1, w1) =
    Some (BuildRtxSsrcAttributes id ssrc rtx_ssrc, (t1, w2))) as Eb.
  { rewrite (bind_eval _ _ _ _ _ (call_eval _ t1 w1)), E2. done. }
  rewrite (bind_eval _ _ _ _ _ Eb), (bind_eval _ _ _ _ _ Er).
  rewrite unlines_flat, <- (rtx_attributes (id, ssrc, rtx_ssrc)) by done. done.
Qed.

Lemma audio_attributes_eval ids t w :
  let '(l, w') := allot_audios ids w in
  exists t', audio_attributes ids (t, w) = Some (unlines (flat_map audio_stream_lines l), (t', w')) /\ local_changed t t'.
Proof.
  revert t w. induction ids as [|id ids IH]; intros t w; cbn [allot_audios].
  { exists t. split; [done|apply local_changed_refl]. }
  destruct (AddAudioSendChannel id w) as [ssrc w1] eqn:E1.
  destruct (set_senders_eval (fun x => x) (text_assign id ssrc) (fun x => x) t w1) as (t1 & Es & Hc1).
  specialize (IH t1 w1). destruct (allot_audios ids w1) as [l w'] eqn:Ea. destruct IH as (t' & Er & Hc2). exists t'.
  split; [|by eapply local_changed_trans]. cbn [audio_attributes].
  rewrite (bind_eval _ _ _ _ _ (call_eval _ t w)), E1. cbn [fst snd].
  rewrite (bind_eval _ _ _ _ _ Es), (bind_eval _ _ _ _ _ Er).
  rewrite unlines_flat. change (audio_stream_lines (id, ssrc)) with [ssrc_line ssrc " name:" id].
  rewrite unlines_cons, <- app_assoc. reflexivity.
Qed.

Lemma data_attributes_eval ids t w :
  let '(l, w') := allot_datas ids w in
  exists t', data_attributes ids (t, w) = Some (unlines (flat_map data_stream_lines l), (t', w')) /\ local_changed t t'.
Proof.
  revert t w. induction ids as [|[id reliable] ids IH]; intros t w; cbn [allot_datas].
  { exists t. split; [done|apply local_changed_refl]. }
  destruct (AddDataSendChannel id reliable w) as [ssrc w1] eqn:E1.
  destruct (set_senders_eval (fun x => x) (fun x => x) (text_assign id ssrc) t w1) as (t1 & Es & Hc1).
  specialize (IH t1 w1). destruct (allot_datas ids w1) as [l w'] eqn:Ea. destruct IH as (t' & Er & Hc2). exists t'.
  split; [|by eapply local_changed_trans]. cbn [data_attributes].
  rewrite (bind_eval _ _ _ _ _ (call_eval _ t w)), E1. cbn [fst snd].
  rewrite (bind_eval _ _ _ _ _ Es), (bind_eval _ _ _ _ _ Er).
  rewrite unlines_flat. change (data_stream_lines (id, reliable, ssrc)) with [ssrc_line ssrc " name:" id; reliable_line ssrc reliable].
  rewrite !unlines_cons, <- app_assoc. cbn [app]. rewrite <- app_assoc. reflexivity.
Qed.

(** ** The lines that an offer adds *)

(** The payload type that is put first, and those behind it. *)
Definition first_type (prefered : PAYLOAD_TYPE) : text := (offered_types prefered).1.

Definition capability_lines (pt : text) : list text :=
  [lit "a=rtpmap:127 rtx/90000"; lit "a=fmtp:127 apt=" ++ pt; lit "a=rtcp-fb:" ++ pt ++ lit " nack";
   lit "a=rtcp-fb:" ++ pt ++ lit " ccm fir"; lit "a=rtcp-rsize"].

Lemma capability_lines_text pt : BuildVideoTransportAttributes pt true true true true = unlines (capability_lines pt).
Proof.
  unfold BuildVideoTransportAttributes, capability_lines. rewrite !unlines_cons.
  change (to_string (payload_type_value RTX)) with (lit "127"). rewrite <- !app_assoc. cbn. by rewrite <- ?app_assoc.
Qed.

Definition offer_extmap : text := extmap_line kPreferredAbsoluteSendTimeExtensionId "".

Definition offered (s : Sections) (prefered : PAYLOAD_TYPE) (vs : list VideoStream) (aus : list (text * Z))
    (ds : list (text * bool * Z)) : Sections :=
  configured s (offered_types prefered).2 (offer_extmap :: capability_lines (first_type prefered) ++ flat_map video_stream_lines vs)
    (kProtocol ++ lit "111") (offer_extmap :: flat_map audio_stream_lines aus)
    (kProtocol ++ lit "120 121") (flat_map data_stream_lines ds).

Lemma first_type_cases prefered : first_type prefered = lit "99" \/ first_type prefered = lit "96".
Proof. destruct prefered; vm_compute; auto. Qed.

Lemma extmap_calm : calm_line offer_extmap.
Proof. apply calm_check; vm_compute; reflexivity. Qed.

Lemma capability_lines_calm pt : pt = lit "99" \/ pt = lit "96" -> Forall calm_line (capability_lines pt).
Proof. intros [-> | ->]; repeat (constructor; [apply calm_check; vm_compute; reflexivity|]); constructor. Qed.

(** Streams whose descriptions are understood. *)
Definition good_streams (vs : list VideoStream) (aus : list (text * Z)) (ds : list (text * bool * Z)) : Prop :=
  (good_videos vs /\ good_audios aus /\ good_datas ds) /\
  Forall (fun v => "="%char ∉ v.1.1) vs /\ Forall (fun a => "="%char ∉ a.1) aus /\ Forall (fun d => "="%char ∉ d.1.1) ds.

Lemma offered_good s prefered vs aus ds : good_sections s -> good_streams vs aus ds -> good_sections (offered s prefered vs aus ds).
Proof.
  intros [H1 H2 H3 H4 H5 _] ((Hv & Ha & Hd) & Ev & Ea & Ed). split; cbn [offered configured session_lines video_lines audio_lines data_lines
    video_port audio_port data_port video_capability audio_capability data_capability]; try done.
  - apply list.Forall_app. split; [done|]. constructor; [apply extmap_calm|]. apply list.Forall_app.
    split; [apply capability_lines_calm, first_type_cases|by apply calm_videos].
  - apply list.Forall_app. split; [done|]. constructor; [apply extmap_calm|by apply calm_audios].
  - apply list.Forall_app. split; [done|by apply calm_datas].
  - split_and!; (split; [apply plain_check|apply no_eq_check]); by destruct prefered.
Qed.

(** *** The offer *)

Lemma good_videos_ssrcs vs : good_videos vs -> Forall (fun v => good_ssrc v.1.2 /\ good_ssrc v.2 /\ v.1.2 <> v.2) vs.
Proof.
  intros Hg. pose proof (video_distinct vs Hg) as Hdist. destruct Hg as (Hf & _ & _).
  rewrite List.Forall_forall in *. intros v Hv. destruct (Hf v Hv) as (_ & H2 & H3). split_and!; try done.
  intros E. apply (Hdist v Hv), list_elem_of_In. rewrite E. by apply in_map.
Qed.

Lemma sender_attributes_eval t w :
  let '(vs, aus, ds, w') := allot (local t) w in
  good_videos vs ->
  exists t', AppendLocalSenderSsrcAttributes true (t, w) =
      Some ((unlines (flat_map video_stream_lines vs), unlines (flat_map audio_stream_lines aus), unlines (flat_map data_stream_lines ds)), (t', w')) /\
    local_changed t t'.
Proof.
  unfold allot. pose proof (video_attributes_eval (video_stream_ids_ (local t)) t w) as Vv.
  destruct (allot_videos _ w) as [vs w1].
  pose proof (audio_attributes_eval (audio_stream_ids_ (local t))) as Va.
  destruct (allot_audios (audio_stream_ids_ (local t)) w1) as [aus w2] eqn:Eau.
  pose proof (data_attributes_eval (data_stream_ids_ (local t))) as Vd.
  destruct (allot_datas (data_stream_ids_ (local t)) w2) as [ds w3] eqn:Eds. intros Hg.
  destruct (Vv (good_videos_ssrcs vs Hg)) as (t1 & Rv & Hc1).
  specialize (Va t1 w1). rewrite Eau in Va. destruct Va as (t2 & Ra & Hc2).
  specialize (Vd t2 w2). rewrite Eds in Vd. destruct Vd as (t3 & Rd & Hc3).
  exists t3. split; [|eapply local_changed_trans; [exact Hc1|by eapply local_changed_trans]].
  unfold AppendLocalSenderSsrcAttributes, transport. rewrite (bind_eval _ _ (t, w) (local t) (t, w)) by reflexivity.
  by rewrite (bind_eval _ _ _ _ _ Rv), (bind_eval _ _ _ _ _ Ra), (bind_eval _ _ _ _ _ Rd).
Qed.

Lemma offer_extmap_text : BuildLocalAbsoluteSendTimeExtmap
  (mkIds (Some kPreferredAbsoluteSendTimeExtensionId) (Some kPreferredAbsoluteSendTimeExtensionId) true) = unlines [offer_extmap].
Proof. reflexivity. Qed.

Lemma offer_written s t w :
  let '(vs, aus, ds, w') := allot (local t) w in
  good_sections s -> video_capability s = lit "ICE/SDP" -> audio_capability s = lit "ICE/SDP" -> data_capability s = lit "ICE/SDP" ->
  good_streams vs aus ds -> local_sdp_ t = sections_text s ->
  exists t', AppendLocalCapabilitiesToOffer (t, w) = Some (tt, (t', w')) /\
    local_sdp_ t' = sections_text (offered s (prefered_video_payload_type_ t) vs aus ds).
Proof.
  set (id3 := Some kPreferredAbsoluteSendTimeExtensionId).
  pose proof (sender_attributes_eval (set_negotiated (set_extensions id3 id3 id3 id3 (negotiated t)) t) w) as Vs.
  cbn [local set_negotiated] in Vs.
  destruct (allot (local t) w) as [[[vs aus] ds] w'] eqn:Eallot. intros Hs Ev Ea Ed Hst Hl.
  destruct Vs as (t3 & Ess & [l3 Hc]); [apply Hst|].
  unfold AppendLocalCapabilitiesToOffer, transport.
  rewrite (bind_eval _ _ (t, w) (prefered_video_payload_type_ t) (t, w)) by reflexivity.
  destruct (offered_types (prefered_video_payload_type_ t)) as [pt capabilities] eqn:Et.
  rewrite (bind_eval _ _ (t, w) tt (set_negotiated (set_extensions id3 id3 id3 id3 (negotiated t)) t, w)) by reflexivity.
  rewrite (bind_eval _ _ _ _ _ Ess). subst id3. rewrite offer_extmap_text.
  eexists. split; [reflexivity|]. cbn [fst snd local_sdp_ Session.set_sdps].
  assert (local_sdp_ t3 = sections_text s) as -> by (rewrite Hc; exact Hl).
  rewrite capability_lines_text, <- !unlines_app.
  pose proof (offered_good s (prefered_video_payload_type_ t) vs aus ds Hs Hst) as Hg.
  unfold offered, first_type in Hg |- *. rewrite Et in Hg |- *. cbn [fst snd] in Hg |- *.
  by apply (configure_all s).
Qed.

End offer.

(** ** Payload types *)

(** The media line of a section behind lines that do not name it. *)
Lemma types_read pre tag port types rest after : good_tag tag -> quiet_for tag pre -> digits port -> plain_line types ->
  remote_types tag (unlines pre ++ section tag port (kProtocol ++ types) rest ++ after) = types.
Proof.
  intros Ht Hq Hd Hp. destruct (tag_plain tag Ht) as (Htp & _ & Hn & _).
  set (proto := lit "UDP/TLS/RTP/SAVPF").
  set (tail := newline :: unlines rest ++ after). set (a := unlines pre ++ m_ tag).
  assert (unlines pre ++ section tag port (kProtocol ++ types) rest ++ after =
    a ++ " "%char :: port ++ " "%char :: proto ++ " "%char :: types ++ tail) as ->.
  { unfold section, media_line, kProtocol, a, tail. rewrite unlines_cons, <- !app_assoc. reflexivity. }
  unfold remote_types.
  assert (find (m_ tag) (a ++ " "%char :: port ++ " "%char :: proto ++ " "%char :: types ++ tail) = Some (length (unlines pre))) as ->
    by (unfold a; rewrite <- app_assoc; by apply find_tag).
  assert (length (unlines pre) + length (m_ tag) = length a)%nat as -> by (unfold a; by rewrite length_app).
  rewrite !find_from_app.
  assert (find [newline] (" "%char :: port ++ " "%char :: proto ++ " "%char :: types ++ tail) =
    Some (length port + length types + 20)%nat) as ->.
  { replace (" "%char :: port ++ " "%char :: proto ++ " "%char :: types ++ tail)
      with ((" "%char :: port ++ " "%char :: proto ++ " "%char :: types) ++ newline :: unlines rest ++ after)
      by (cbn [app]; by rewrite <- !app_assoc; cbn [app]; rewrite <- !app_assoc).
    rewrite find_char; [|apply (plain_app [" "%char]); [by apply plain_check|]; apply plain_app; [by apply (digits_not newline)|];
      apply (plain_app (" "%char :: proto ++ [" "%char])); [by apply plain_check|done]].
    f_equal. cbn [length]. rewrite length_app. cbn [length]. rewrite length_app. cbn. lia. }
  assert (find (lit " ") (" "%char :: port ++ " "%char :: proto ++ " "%char :: types ++ tail) = Some 0%nat) as -> by done.
  cbn [fmap option_fmap option_map].
  assert (" "%char ∉ port) as Hsp by (by apply digits_not).
  replace (a ++ " "%char :: port ++ " "%char :: proto ++ " "%char :: types ++ tail)
    with ((a ++ [" "%char]) ++ port ++ " "%char :: proto ++ " "%char :: types ++ tail) by (by rewrite <- app_assoc).
  rewrite (find_from_next (lit " ") (a ++ [" "%char])) by (rewrite length_app; cbn; lia).
  change (lit " ") with [" "%char]. rewrite find_char by done. cbn [fmap option_fmap option_map].
  replace ((a ++ [" "%char]) ++ port ++ " "%char :: proto ++ " "%char :: types ++ tail)
    with ((a ++ " "%char :: port ++ [" "%char]) ++ proto ++ " "%char :: types ++ tail)
    by (rewrite <- !app_assoc; cbn [app]; by rewrite <- !app_assoc).
  rewrite (find_from_next _ (a ++ " "%char :: port ++ [" "%char])) by (rewrite !length_app; cbn [length]; rewrite length_app; cbn; lia).
  rewrite find_char by (intros Hx%list_elem_of_In; cbn in Hx; intuition discriminate). cbn [fmap option_fmap option_map].
  rewrite (proj2 (Nat.ltb_ge _ _)) by (rewrite !length_app; cbn [length]; rewrite length_app; cbn; lia).
  replace ((a ++ " "%char :: port ++ [" "%char]) ++ proto ++ " "%char :: types ++ tail)
    with ((a ++ " "%char :: port ++ " "%char :: proto ++ [" "%char]) ++ types ++ tail)
    by (rewrite <- !app_assoc; cbn [app]; by rewrite <- !app_assoc).
  match goal with |- substr ((?x ++ _) ++ _) ?n ?k = _ =>
    replace n with (length (a ++ " "%char :: port ++ " "%char :: proto ++ [" "%char]))
      by (rewrite !length_app; cbn [length]; rewrite !length_app; cbn; lia);
    replace k with (length types) by (rewrite !length_app; cbn [length]; rewrite !length_app; cbn; lia)
  end.
  apply substr_app.
Qed.

(** A list whose first type is supported is agreed on at once. *)
Lemma first_agreed tag supported sdp pt : bool_decide (pt ∈ supported) = true -> pt <> payload_type_value UNDEFINED ->
  atoi (match find (lit " ") (remote_types tag sdp) with Some n => take n (remote_types tag sdp) | None => remote_types tag sdp end) = Some pt ->
  forall p a, NegotiatePayloadType tag supported sdp p a = Some (true, pt, pt).
Proof.
  intros Hs Hu Ha p a. unfold NegotiatePayloadType. cbn [negotiate_loop].
  assert (find_from (lit " ") (remote_types tag sdp) 0 = find (lit " ") (remote_types tag sdp)) as ->.
  { unfold find_from. cbn [Nat.leb drop]. by destruct (find _ _). }
  cbn [Nat.ltb Nat.leb]. rewrite Ha. cbn [mbind option_bind]. rewrite Hs. cbn [mbind option_bind].
  by replace (pt =? payload_type_value UNDEFINED) with false by (symmetry; by apply Z.eqb_neq).
Qed.

(** ** Reading *)

Definition first_value (prefered : PAYLOAD_TYPE) : Z := match prefered with AV1 => 99 | _ => 96 end.

(** The peer knows no stream of the other, and supports the first of each list. *)
Record ready (prefered : PAYLOAD_TYPE) (u : IceTransport) : Prop := {
  ready_answers : offer_peer_ u = false;
  ready_streams : no_remote (remote u);
  ready_new : remote_capabilities_got_ (negotiated u) = false;
  ready_video : bool_decide (first_value prefered ∈ support_video_payload_types_ u) = true;
  ready_audio : bool_decide (111 ∈ support_audio_payload_types_ u) = true;
  ready_data : bool_decide (120 ∈ support_data_payload_types_ u) = true;
}.

Section answer.
Context {W : Type} {world : SessionWorld W}.

(** What the later steps of the reading keep. *)
Record same (t t' : IceTransport) : Prop := {
  same_remote : remote t' = remote t;
  same_side : offer_peer_ t' = offer_peer_ t;
  same_got : remote_capabilities_got_ (negotiated t') = remote_capabilities_got_ (negotiated t);
  same_videos : support_video_payload_types_ t' = support_video_payload_types_ t;
  same_audios : support_audio_payload_types_ t' = support_audio_payload_types_ t;
  same_datas : support_data_payload_types_ t' = support_data_payload_types_ t;
}.

Definition keeps {A} (m : C (W:=W) A) : Prop := forall t w, exists a t' w', m (t, w) = Some (a, (t', w')) /\ same t t'.

Lemma same_refl t : same t t.
Proof. by split. Qed.
Lemma same_trans t1 t2 t3 : same t1 t2 -> same t2 t3 -> same t1 t3.
Proof. intros [] []. split; congruence. Qed.

Lemma keeps_ret {A} (a : A) : keeps (mret a).
Proof. intros t w. eexists _, _, _. split; [done|apply same_refl]. Qed.
Lemma keeps_bind {A B} (m : C A) (f : A -> C B) : keeps m -> (forall a, keeps (f a)) -> keeps (m ≫= f).
Proof.
  intros Hm Hf t w. destruct (Hm t w) as (a & t1 & w1 & E & H1). destruct (Hf a t1 w1) as (b & t2 & w2 & E2 & H2).
  exists b, t2, w2. rewrite (bind_eval _ _ _ _ _ E). split; [done|by eapply same_trans].
Qed.
Lemma keeps_transport {A} (f : IceTransport -> A) : keeps (transport f).
Proof. intros t w. eexists _, _, _. split; [reflexivity|apply same_refl]. Qed.
Lemma keeps_set f : (forall t, same t (f t)) -> keeps (set_transport f).
Proof. intros Hf t w. eexists _, _, _. split; [reflexivity|apply Hf]. Qed.
Lemma keeps_call {A} (f : W -> A * W) : keeps (call f).
Proof. intros t w. rewrite call_eval. eexists _, _, _. split; [reflexivity|apply same_refl]. Qed.
Lemma keeps_for_each {A} (f : A -> C unit) l : (forall x, keeps (f x)) -> keeps (for_each f l).
Proof. intros Hf. induction l; cbn [for_each]; [apply keeps_ret|]. apply keeps_bind; auto. Qed.

End answer.

Ltac keeps_step :=
  lazymatch goal with
  | |- keeps (mret _) => apply keeps_ret
  | |- keeps (mbind _ _) => apply keeps_bind; [|intros ?]
  | |- keeps (transport _) => apply keeps_transport
  | |- keeps (set_transport _) => apply keeps_set; intros ?; split; reflexivity
  | |- keeps (call _) => apply keeps_call
  | |- keeps (for_each _ _) => apply keeps_for_each; intros ?
  | |- keeps (match ?x with _ => _ end) => destruct x
  end.

Section answer_steps.
Context {W : Type} {world : SessionWorld W}.

Lemma keeps_media sdp video_text : keeps (W:=W) (media_stream_text sdp video_text).
Proof. unfold media_stream_text. repeat keeps_step. Qed.
Lemma keeps_extensions sdp : keeps (W:=W) (negotiate_extensions sdp).
Proof. unfold negotiate_extensions, set_negotiation. repeat keeps_step. Qed.
Lemma keeps_channels : keeps add_receive_channels.
Proof. unfold add_receive_channels. repeat keeps_step. Qed.

(** The three types are the first of their lists. *)
Lemma types_agreed sdp prefered t (w : W) :
  (forall p a, NegotiatePayloadType "video" (support_video_payload_types_ t) sdp p a = Some (true, first_value prefered, first_value prefered)) ->
  (forall p a, NegotiatePayloadType "audio" (support_audio_payload_types_ t) sdp p a = Some (true, 111, 111)) ->
  (forall p a, NegotiatePayloadType "data" (support_data_payload_types_ t) sdp p a = Some (true, 120, 120)) ->
  exists t', negotiate_types sdp (t, w) = Some (true, (t', w)) /\ same t t' /\
    negotiated_video_pt_ (negotiated t') = first_value prefered /\ negotiated_audio_pt_ (negotiated t') = 111 /\
    negotiated_data_pt_ (negotiated t') = 120.
Proof.
  intros Hv Ha Hd. unfold negotiate_types, set_negotiation.
  rewrite (bind_eval _ _ (t, w) (negotiated t) (t, w)) by reflexivity.
  rewrite (bind_eval _ _ (t, w) (support_video_payload_types_ t) (t, w)) by reflexivity.
  rewrite (bind_eval _ _ (t, w) (support_audio_payload_types_ t) (t, w)) by reflexivity.
  rewrite (bind_eval _ _ (t, w) (support_data_payload_types_ t) (t, w)) by reflexivity.
  cbv zeta. rewrite Hv, Ha, Hd. eexists. split; [reflexivity|]. split; [by split|]. done.
Qed.

(** The whole reading, once the streams are read. *)
Lemma capabilities_read sdp prefered u r rest (w : W) : ready prefered u -> read_streams sdp (u, w) = Some (rest, (set_remote r u, w)) ->
  (forall p a, NegotiatePayloadType "video" (support_video_payload_types_ u) sdp p a = Some (true, first_value prefered, first_value prefered)) ->
  (forall p a, NegotiatePayloadType "audio" (support_audio_payload_types_ u) sdp p a = Some (true, 111, 111)) ->
  (forall p a, NegotiatePayloadType "data" (support_data_payload_types_ u) sdp p a = Some (true, 120, 120)) ->
  exists media u' w', GetRemoteCapabilities sdp (u, w) = Some (media, (u', w')) /\ remote u' = r /\
    remote_capabilities_got_ (negotiated u') = true /\ negotiated_video_pt_ (negotiated u') = first_value prefered /\
    negotiated_audio_pt_ (negotiated u') = 111 /\ negotiated_data_pt_ (negotiated u') = 120.
Proof.
  intros [Hs _ Hg _ _ _] Hr Hv Ha Hd. unfold GetRemoteCapabilities.
  unfold read_streams in Hr. apply bind_inv in Hr as (video_text & [u1 w1] & E1 & Hr). rewrite (bind_eval _ _ _ _ _ E1).
  apply bind_inv in Hr as (x & [u2 w2] & E2 & Hr). rewrite (bind_eval _ _ _ _ _ E2).
  apply bind_inv in Hr as (y & [u3 w3] & E3 & [= -> -> ->]). rewrite (bind_eval _ _ _ _ _ E3).
  destruct (keeps_media sdp rest (set_remote r u) w) as (media & t1 & w1' & M1 & K1). rewrite (bind_eval _ _ _ _ _ M1).
  rewrite (bind_eval _ _ (t1, w1') false (t1, w1')) by (unfold transport, gets; cbn; by rewrite (same_got _ _ K1); cbn; by rewrite Hg).
  destruct (keeps_extensions sdp t1 w1') as ([] & t2 & w2' & M2 & K2). rewrite (bind_eval _ _ _ _ _ M2).
  rewrite (bind_eval _ _ (t2, w2') (enable_srtp_ t2) (t2, w2')) by reflexivity.
  rewrite (bind_eval _ _ _ _ _ (call_eval _ t2 w2')). generalize (SetSrtpEnabled (enable_srtp_ t2) w2').2. intros w3'.
  destruct (keeps_channels t2 w3') as ([] & t4 & w4' & M4 & K4). rewrite (bind_eval _ _ _ _ _ M4).
  assert (same (set_remote r u) t4) as K by (eapply same_trans; [exact K1|by eapply same_trans]).
  destruct (types_agreed sdp prefered t4 w4') as (t5 & M5 & K5 & N1 & N2 & N3).
  1-3: by rewrite ?(same_videos _ _ K), ?(same_audios _ _ K), ?(same_datas _ _ K).
  rewrite (bind_eval _ _ _ _ _ M5). cbn [negb].
  assert (offer_peer_ t5 = false) as Hs5 by (rewrite (same_side _ _ K5), (same_side _ _ K); exact Hs).
  rewrite (bind_eval _ _ (t5, w4') false (t5, w4')) by (unfold transport, gets; cbn; by rewrite Hs5).
  eexists _, _, _. split; [reflexivity|]. cbn. split_and!; try done.
  by rewrite (same_remote _ _ K5), (same_remote _ _ K).
Qed.

End answer_steps.

(** ** From one peer to the other *)

(** Lines behind the last section. *)
Definition with_tail (s : Sections) (tail : list text) : Sections :=
  mkSections (session_lines s) (video_port s) (video_capability s) (video_lines s) (audio_port s) (audio_capability s) (audio_lines s)
    (data_port s) (data_capability s) (data_lines s ++ tail).

Lemma with_tail_text s tail : sections_text (with_tail s tail) = sections_text s ++ unlines tail.
Proof. unfold sections_text, data_section at 2. rewrite <- !app_assoc, section_more. reflexivity. Qed.

Lemma with_tail_good s tail : good_sections s -> Forall calm_line tail -> good_sections (with_tail s tail).
Proof. intros [] Ht. split; try done. cbn. by apply list.Forall_app. Qed.

Definition video_types (prefered : PAYLOAD_TYPE) : text := drop (length kProtocol) (offered_types prefered).2.

Lemma video_types_eq prefered : (offered_types prefered).2 = kProtocol ++ video_types prefered /\ plain_line (video_types prefered).
Proof. split; [by destruct prefered|]. apply plain_check. by destruct prefered. Qed.

Section types.
Variables (s : Sections) (prefered : PAYLOAD_TYPE) (vs : list VideoStream) (aus : list (text * Z)) (ds : list (text * bool * Z)).
Variable tail : list text.
Let sent := with_tail (offered s prefered vs aus ds) tail.
Hypothesis Hs : good_sections sent.

Lemma sent_video_types : remote_types "video" (sections_text sent) = video_types prefered.
Proof.
  destruct (video_types_eq prefered) as [E Hp]. unfold sections_text, video_section.
  change (video_capability sent) with ((offered_types prefered).2). rewrite E.
  destruct Hs as [H _ _ _ (P1 & _) _]. apply types_read; [by left|by apply calm_quiet|done|done].
Qed.

Lemma sent_audio_types : remote_types "audio" (sections_text sent) = lit "111".
Proof.
  unfold sections_text. rewrite app_assoc, <- before_audio_text. unfold audio_section.
  pose proof (quiet_before_audio sent "audio" Hs ltac:(right; by left) ltac:(done)) as Hq.
  destruct Hs as [_ _ _ _ (_ & P2 & _) _]. apply types_read; [right; by left|done|done|by apply plain_check].
Qed.

Lemma sent_data_types : remote_types "data" (sections_text sent) = lit "120 121".
Proof.
  unfold sections_text. rewrite app_assoc, <- before_audio_text, app_assoc, <- before_data_text, <- (app_nil_r (data_section sent)).
  unfold data_section. pose proof (quiet_before_data sent "data" Hs ltac:(right; by right) ltac:(done) ltac:(done)) as Hq.
  destruct Hs as [_ _ _ _ (_ & _ & P3) _]. apply types_read; [right; by right|done|done|by apply plain_check].
Qed.

End types.

Lemma video_types_first prefered : atoi (match find (lit " ") (video_types prefered) with Some n => take n (video_types prefered)
  | None => video_types prefered end) = Some (first_value prefered).
Proof. by destruct prefered. Qed.

(** What the agent describes, before anything is added. *)
Record plain_sections (s : Sections) : Prop := {
  plain_good : good_sections s;
  plain_capabilities : video_capability s = lit "ICE/SDP" /\ audio_capability s = lit "ICE/SDP" /\ data_capability s = lit "ICE/SDP";
  plain_others : Forall other_line (video_lines s) /\ Forall other_line (audio_lines s) /\ Forall other_line (data_lines s);
}.

Lemma offer_lines_other prefered : Forall other_line (offer_extmap :: capability_lines (first_type prefered)).
Proof. destruct prefered; repeat (constructor; [split; reflexivity|]); constructor. Qed.

(** C23. An offer without candidates is understood by a peer that supports its
    first payload types.  The offer is the agent's three sections — decimal
    ports, "ICE/SDP", then lines with no [m=], no [a=candidate] (candidates
    trickle) and no description of a stream — with what
    [AppendLocalCapabilitiesToOffer] puts in them, and more such lines behind
    them, as the fingerprint.  The names of the streams are not empty, have no
    newline, no carriage return at the end and no equals sign, and differ
    within each kind; the SSRCs that the controller gives, those of
    retransmissions included, are 32-bit numbers other than 0 and differ within
    each kind.  The peer that reads answers, has read no offer before, knows no
    stream of the other, and supports the preferred video type, 111 and 120.
    Then it reads exactly the streams of the offering peer with their SSRCs,
    those of retransmissions and the reliability of data streams included,
    agrees on the first payload type of each section, and does not fail.  (With
    candidates in a section the streams behind the first one are lost, and a
    peer that does not support the first type tries no other:
    ice_transport.cpp:1289 and 1467.) *)
Theorem offer_understood {W W'} {world : SessionWorld W} {world' : SessionWorld W'} s t (w : W) u (w2 : W') tail :
  let '(vs, aus, ds, w1) := allot (local t) w in
  plain_sections s -> local_sdp_ t = sections_text s -> good_streams vs aus ds ->
  Forall calm_line tail -> Forall other_line tail -> ready (prefered_video_payload_type_ t) u ->
  exists t1 media u1 w2', AppendLocalCapabilitiesToOffer (t, w) = Some (tt, (t1, w1)) /\
    GetRemoteCapabilities (local_sdp_ t1 ++ unlines tail) (u, w2) = Some (media, (u1, w2')) /\
    received (remote u1) vs aus ds /\ remote_capabilities_got_ (negotiated u1) = true /\
    negotiated_video_pt_ (negotiated u1) = first_value (prefered_video_payload_type_ t) /\
    negotiated_audio_pt_ (negotiated u1) = 111 /\ negotiated_data_pt_ (negotiated u1) = 120.
Proof.
  pose proof (offer_written s t w) as Hw. destruct (allot (local t) w) as [[[vs aus] ds] w1].
  intros [Hg (Ev & Ea & Ed) (Ov & Oa & Od)] Hl Hst Hct Hot Hu. destruct (Hw Hg Ev Ea Ed Hst Hl) as (t1 & E1 & El).
  set (prefered := prefered_video_payload_type_ t) in *.
  assert (good_sections (with_tail (offered s prefered vs aus ds) tail)) as Hs by (apply with_tail_good; [by apply offered_good|done]).
  pose proof (offer_lines_other prefered) as Hoff. destruct Hst as ((Hv & Ha & Hd) & _).
  destruct (streams_received (with_tail (offered s prefered vs aus ds) tail) (video_lines s ++ offer_extmap :: capability_lines (first_type prefered)) vs
    (audio_lines s ++ [offer_extmap]) aus (data_lines s) ds tail u w2 Hs) as (rest & r & Er & Hr & _); try done.
  { cbn. by rewrite <- app_assoc. }
  { cbn. by rewrite <- app_assoc. }
  { cbn. by rewrite <- app_assoc. }
  { by apply list.Forall_app. }
  { apply list.Forall_app. split; [done|]. apply list.Forall_cons in Hoff as [Hoff _]. by constructor. }
  { apply Hu. }
  destruct (capabilities_read _ prefered u r rest w2 Hu Er) as (media & u1 & w2' & E2 & <- & H).
  - apply first_agreed; [apply Hu|by destruct prefered|]. rewrite sent_video_types by done. apply video_types_first.
  - apply first_agreed; [apply Hu|done|]. by rewrite sent_audio_types.
  - apply first_agreed; [apply Hu|done|]. by rewrite sent_data_types.
  - exists t1, media, u1, w2'. by rewrite El, <- with_tail_text.
Qed.

(** ** A session of the two *)

Record counter := mkCounter { next_number : Z }.

(** A controller that gives the next SSRCs, and an agent without candidates. *)
#[local] Instance counting_world : SessionWorld counter := {|
  AddVideoSendChannel _ w := (next_number w, mkCounter (next_number w + 2));
  GetVideoRtxSsrc _ w := (next_number w - 1, w);
  AddAudioSendChannel _ w := (next_number w, mkCounter (next_number w + 2));
  AddDataSendChannel _ _ w := (next_number w, mkCounter (next_number w + 2));
  AddVideoReceiveChannel _ _ _ w := (tt, w);
  AddAudioReceiveChannel _ _ w := (tt, w);
  AddDataReceiveChannel _ _ _ w := (tt, w);
  SetSrtpEnabled _ w := (tt, w);
  CreateAndStart _ _ _ _ w := (tt, w);
  agent_GenerateLocalSdp w := ([], w);
  agent_AppendFingerprintLine sdp w := (sdp, w);
  agent_SetRemoteSdp _ w := (0, w);
  agent_AddRemoteCandidate _ w := (0, w);
  agent_SetRemoteCandidateGatheringDone w := (0, w);
  agent_GatherCandidates w := (0, w);
  send_message _ w := (tt, w);
|}.

Definition described : Sections :=
  let lines := [lit "c=IN IP4 0.0.0.0"; lit "a=ice-ufrag:abcd"; lit "a=ice-pwd:secret"] in
  mkSections [] (lit "9") (lit "ICE/SDP") lines (lit "9") (lit "ICE/SDP") lines (lit "9") (lit "ICE/SDP") lines.

Definition offering : IceTransport :=
  mkTransport true true AV1 [96; 99] [111] [120] true (sections_text described) []
    (mkLocal [lit "cam"; lit "screen"] [lit "mic"] [(lit "chat", true); (lit "mouse", false)] [] [] [])
    (mkRemote [] [] [] [] [] [] [] []) (mkNegotiated false 0 0 0 0 0 0 None None None None) (mkCandidates [] [] ∅ ∅ [] false false).
Definition answering : IceTransport :=
  mkTransport false true H264 [96; 99] [111] [120] true [] [] (mkLocal [] [] [] [] [] [])
    (mkRemote [] [] [] [] [] [] [] []) (mkNegotiated false 0 0 0 0 0 0 None None None None) (mkCandidates [] [] ∅ ∅ [] false false).
Definition fingerprint_line : text := lit "a=fingerprint:sha-256 AA:BB".

Lemma calm_checks ls : forallb (fun l => forallb (fun c => negb (bool_decide (c = newline))) l &&
  match find (lit "m=") l, find (lit "a=candidate") l with None, None => true | _, _ => false end) ls = true -> Forall calm_line ls.
Proof.
  induction ls as [|l ls IH]; intros H; [constructor|]. apply andb_prop in H as [[H1 H2]%andb_prop H]. constructor; [|auto].
  destruct (find (lit "m=") l) eqn:E1; [done|]. destruct (find (lit "a=candidate") l) eqn:E2; [done|]. by apply calm_check.
Qed.

Lemma described_plain : plain_sections described.
Proof.
  split; [split; cbn| |]; try (by apply calm_checks); try by split_and!.
  - split_and!; by repeat constructor.
  - split_and!; (split; [by apply plain_check|by apply no_eq_check]).
  - split_and!; repeat (constructor; [split; reflexivity|]); constructor.
Qed.

Definition offered_videos : list VideoStream := [(lit "cam", 100, 101); (lit "screen", 102, 103)].
Definition offered_audios : list (text * Z) := [(lit "mic", 104)].
Definition offered_datas : list (text * bool * Z) := [(lit "chat", true, 106); (lit "mouse", false, 108)].

Lemma offered_streams : good_streams offered_videos offered_audios offered_datas.
Proof.
  assert (forall z, (0 <? z) && (z <=? 108) = true -> good_ssrc z) as Hz by (intros z Hz; unfold good_ssrc, is_u32; lia).
  assert (forall l, forallb (fun c => negb (bool_decide (c = newline))) l = true -> l <> [] -> chomp l = l -> good_name l) as Hn
    by (intros l H1 H2 H3; split_and!; [by apply plain_check|done|done]).
  unfold good_streams, good_videos, good_audios, good_datas. split_and!;
    first [by repeat (constructor; [split_and!; first [by apply Hn | by apply Hz]|]); constructor
         | by repeat (constructor; [by apply no_eq_check|]); constructor
         | by apply (bool_decide_unpack _); vm_compute].
Qed.

Lemma offer_understood_witness :
  exists t1 media u1 w2', AppendLocalCapabilitiesToOffer (offering, mkCounter 100) = Some (tt, (t1, mkCounter 110)) /\
    GetRemoteCapabilities (local_sdp_ t1 ++ unlines [fingerprint_line]) (answering, mkCounter 200) = Some (media, (u1, w2')) /\
    received (remote u1) offered_videos offered_audios offered_datas /\ remote_capabilities_got_ (negotiated u1) = true /\
    negotiated_video_pt_ (negotiated u1) = 99 /\
    negotiated_audio_pt_ (negotiated u1) = 111 /\ negotiated_data_pt_ (negotiated u1) = 120.
Proof.
  refine (offer_understood described offering (mkCounter 100) answering (mkCounter 200) [fingerprint_line] described_plain _ offered_streams _ _ _).
  - reflexivity.
  - by apply calm_checks.
  - constructor; [split; reflexivity|constructor].
  - by split.
Defined.
