(* ===== verification/SignallingOk.v ===== *)
(** * Candidates before and after the SDP

    What reaches the agent of the signals that come for a connection is a
    function of the signals and of the generation that the SDP names; it does
    not depend on when the SDP comes. *)

From Stdlib Require Import Ascii String.
From stdpp Require Import gmap strings.
From S2P Require Import Prelude StateMonad StdContainers Text IceUtils Packetizer Sdp Session SessionOk Signalling.

(** ** What should reach the agent *)

Inductive agent_call := CandidateCall (sdp : text) | DoneCall.

(** A signal names the generation it belongs to, or none. *)
Definition of_generation (username : text) (s : IceCandidateSignal) : bool :=
  bool_decide (sig_ufrag s = []) || bool_decide (username = []) || bool_decide (sig_ufrag s = username).

Lemma stale_generation u s : stale (sig_ufrag s) u = negb (of_generation u s).
Proof. unfold stale, of_generation. by rewrite !negb_orb. Qed.

(** The candidates of the generation, each once, up to the end of candidates. *)
Definition signal_step (username : text) (s : IceCandidateSignal) (k : gset text * bool) : list agent_call * (gset text * bool) :=
  if negb (of_generation username s) || k.2 then ([], k) else
  if complete s then ([DoneCall], (k.1, true)) else
  if bool_decide (sig_sdp s ∈ k.1) then ([], k) else ([CandidateCall (sig_sdp s)], ({[sig_sdp s]} ∪ k.1, k.2)).

Fixpoint signal_run (username : text) (l : list IceCandidateSignal) (k : gset text * bool) : list agent_call * (gset text * bool) :=
  match l with
  | [] => ([], k)
  | s :: l =>
      let '(c, k) := signal_step username s k in
      let '(cs, k) := signal_run username l k in
      (c ++ cs, k)
  end.

Definition accepted (username : text) (l : list IceCandidateSignal) : list agent_call := (signal_run username l (∅, false)).1.

(** The well-formed signals. *)
Definition signals (l : list (text * text)) : list IceCandidateSignal :=
  omap (fun x => ParseIceCandidateSignal x.1 x.2) l.

(** A signal that was taken changes nothing when it comes again. *)
Definition taken (username : text) (k : gset text * bool) (s : IceCandidateSignal) : Prop :=
  signal_step username s k = ([], k).

Lemma step_taken u s k : taken u (signal_step u s k).2 s.
Proof.
  unfold taken, signal_step. destruct k as [keys done]; cbn [fst snd].
  destruct (of_generation u s); cbn [negb orb fst snd]; [|done].
  destruct done; cbn [fst snd]; [done|].
  destruct (complete s); cbn [fst snd]; [done|].
  case_bool_decide; cbn [fst snd]; rewrite bool_decide_true; done || set_solver.
Qed.

Lemma taken_mono u s k s' : taken u k s -> taken u (signal_step u s' k).2 s.
Proof.
  unfold taken, signal_step. destruct k as [keys done]; cbn [fst snd].
  destruct (of_generation u s); cbn [negb orb]; [|done]. destruct (of_generation u s'); cbn [negb orb fst snd]; [|done].
  destruct done; [done|]. cbn [orb].
  destruct (complete s); [done|].
  case_bool_decide; [|done]. intros _. destruct (complete s'); cbn [fst snd]; [done|].
  case_bool_decide; cbn [fst snd]; rewrite bool_decide_true; done || set_solver.
Qed.

(** The queue: the signals not seen before. *)
Fixpoint fresh (seen l : list IceCandidateSignal) : list IceCandidateSignal :=
  match l with
  | [] => []
  | s :: l => if bool_decide (s ∈ seen) then fresh seen l else s :: fresh (seen ++ [s]) l
  end.

Lemma run_fresh u seen l k : (forall s, s ∈ seen -> taken u k s) -> signal_run u (fresh seen l) k = signal_run u l k.
Proof.
  revert seen k. induction l as [|s l IH]; intros seen k Hs; cbn [fresh signal_run]; [done|].
  case_bool_decide as Hin.
  - rewrite (Hs s Hin). rewrite IH by done. by destruct (signal_run u l k).
  - cbn [signal_run]. pose proof (step_taken u s k) as Ht. 
    assert (forall x, x ∈ seen ++ [s] -> taken u (signal_step u s k).2 x) as Hs'.
    { intros x [Hx | ->%list_elem_of_singleton]%elem_of_app; [by apply taken_mono, Hs|done]. }
    destruct (signal_step u s k) as [c k']. cbn [snd] in *. by rewrite IH.
Qed.

Lemma signal_run_app u l1 l2 k :
  signal_run u (l1 ++ l2) k =
  let '(c1, k1) := signal_run u l1 k in let '(c2, k2) := signal_run u l2 k1 in (c1 ++ c2, k2).
Proof.
  revert k. induction l1 as [|s l1 IH]; intros k; cbn [app signal_run]; [by destruct (signal_run u l2 k)|].
  destruct (signal_step u s k) as [c k']. rewrite IH. destruct (signal_run u l1 k') as [c1 k1].
  destruct (signal_run u l2 k1) as [c2 k2]. by rewrite app_assoc.
Qed.

Lemma signals_app l1 l2 : signals (l1 ++ l2) = signals l1 ++ signals l2.
Proof. unfold signals. apply omap_app. Qed.

(** Each candidate once, and nothing after the end. *)
Lemma signal_run_shape u l keys done :
  exists cs, (signal_run u l (keys, done)).1 = map CandidateCall cs ++ (if (signal_run u l (keys, done)).2.2 && negb done then [DoneCall] else []) /\
    NoDup cs /\ (forall c, c ∈ cs -> c ∉ keys) /\ (done = true -> cs = [] /\ (signal_run u l (keys, done)).2.2 = true).
Proof.
  revert keys done. induction l as [|s l IH]; intros keys done; cbn [signal_run fst snd].
  { exists []. split_and!; try done; [by destruct done|apply NoDup_nil_2|set_solver]. }
  unfold signal_step. cbn [fst snd]. destruct (negb (of_generation u s) || done) eqn:E.
  { destruct (IH keys done) as (cs & E1 & E2). destruct (signal_run u l (keys, done)) as [x y]. by exists cs. }
  apply orb_false_elim in E as [_ ->]. destruct (complete s).
  { destruct (IH keys true) as (cs & E1 & _ & _ & Hd). destruct (Hd eq_refl) as [-> Hy].
    destruct (signal_run u l (keys, true)) as [x y]. cbn [fst snd map app negb] in *. subst x. rewrite Hy.
    exists []. cbn. split_and!; [done|apply NoDup_nil_2|set_solver|done]. }
  case_bool_decide as Hk.
  { destruct (IH keys false) as (cs & E1 & E2). destruct (signal_run u l (keys, false)) as [x y]. by exists cs. }
  destruct (IH ({[sig_sdp s]} ∪ keys) false) as (cs & E1 & E2 & E3 & E4).
  destruct (signal_run u l ({[sig_sdp s]} ∪ keys, false)) as [x y]. cbn [fst snd] in *. subst x.
  exists (sig_sdp s :: cs). split_and!; [done| | |done].
  - apply list.NoDup_cons. split; [|done]. intros Hin%E3. set_solver.
  - intros c [-> | Hc]%elem_of_cons; [done|]. apply E3 in Hc. set_solver.
Qed.

(** ** What the transport does *)

Section run.
Context {W : Type} {world : SessionWorld W}.

Definition apply_call (w : W) (c : agent_call) : W :=
  match c with
  | CandidateCall sdp => (agent_AddRemoteCandidate sdp w).2
  | DoneCall => (agent_SetRemoteCandidateGatheringDone w).2
  end.

Definition known (c : CandidateState) : gset text * bool := (remote_candidate_keys_ c, remote_gathering_done_ c).
Definition set_known (k : gset text * bool) (c : CandidateState) : CandidateState :=
  mkCandidates (remote_ice_username_ c) (local_ice_username_ c) (seen_local_candidate_sdps_ c) k.1
    (pending_remote_candidates_ c) (local_gathering_done_sent_ c) k.2.

Lemma set_known_id c : set_known (known c) c = c.
Proof. by destruct c. Qed.
Lemma set_candidates_id t : set_candidates (candidates t) t = t.
Proof. by destruct t. Qed.

Context (Hadd : forall sdp w, (agent_AddRemoteCandidate sdp w).1 = 0).
Context (Hdone : forall w, (agent_SetRemoteCandidateGatheringDone w).1 = 0).

(** Read the members that a method reads. *)
Ltac run_method :=
  unfold of_candidates, transport, set_candidate_state, set_transport, modify, gets, call, mret, M_ret, mbind, M_bind, mbind, option_bind;
  cbn [fst snd].

(** The methods on a state that is there. *)
Lemma take_signal_eq s t w : take_signal s (t, w) =
  if stale (sig_ufrag s) (remote_ice_username_ (candidates t)) then Some (0, (t, w))
  else if bool_decide (remote_sdp_ t = []) then queue_candidate s (t, w) else apply_signal s (t, w).
Proof. unfold take_signal. run_method. destruct (stale _ _); [done|]. by destruct (bool_decide _). Qed.

Lemma gathering_done_eq enqueue u t w : remote_sdp_ t <> [] -> stale u (remote_ice_username_ (candidates t)) = false ->
  gathering_done enqueue u (t, w) =
  if remote_gathering_done_ (candidates t) then Some (0, (t, w)) else
  let w' := (agent_SetRemoteCandidateGatheringDone w).2 in
  Some (0, (set_candidates (set_remote_done (candidates t)) t, w')).
Proof.
  intros Hr Hs. unfold gathering_done. run_method. rewrite Hs, bool_decide_false by done.
  destruct (remote_gathering_done_ _); [done|].
  cbn [fst snd]. pose proof (Hdone w). destruct (agent_SetRemoteCandidateGatheringDone w) as [r w']. cbn [fst] in *. subst r. reflexivity.
Qed.

Lemma apply_candidate_eq s t w : complete s = false -> apply_signal s (t, w) =
  if remote_gathering_done_ (candidates t) || bool_decide (sig_sdp s ∈ remote_candidate_keys_ (candidates t))
  then Some (0, (t, w)) else
  Some (0, (set_candidates (set_keys ({[sig_sdp s]} ∪ remote_candidate_keys_ (candidates t)) (candidates t)) t,
            (agent_AddRemoteCandidate (sig_sdp s) w).2)).
Proof.
  intros Hc. unfold apply_signal. rewrite Hc. run_method. destruct (remote_gathering_done_ _); [done|]. cbn [orb].
  destruct (bool_decide _); [done|].
  cbn [fst snd]. pose proof (Hadd (sig_sdp s) w). destruct (agent_AddRemoteCandidate (sig_sdp s) w) as [r w']. cbn [fst] in *. subst r. reflexivity.
Qed.

Lemma take_signal_ok u s t w :
  remote_sdp_ t <> [] -> remote_ice_username_ (candidates t) = u ->
  take_signal s (t, w) =
    Some (0, (set_candidates (set_known (signal_step u s (known (candidates t))).2 (candidates t)) t,
              fold_left apply_call (signal_step u s (known (candidates t))).1 w)).
Proof.
  intros Hr Hu. rewrite take_signal_eq, bool_decide_false, Hu by done.
  assert (set_candidates (set_known (known (candidates t)) (candidates t)) t = t) as Hid
    by by rewrite set_known_id, set_candidates_id.
  unfold signal_step. rewrite <- stale_generation. destruct (stale (sig_ufrag s) u) eqn:Es; cbn [orb]; [cbn [fst snd fold_left]; by rewrite Hid|].
  destruct (complete s) eqn:Ec.
  - unfold apply_signal. rewrite Ec, gathering_done_eq by (rewrite ?Hu; done). change (known (candidates t)).2 with (remote_gathering_done_ (candidates t)).
    destruct (remote_gathering_done_ (candidates t)); cbn [fst snd fold_left]; [by rewrite Hid|done].
  - rewrite apply_candidate_eq by done. change (known (candidates t)).2 with (remote_gathering_done_ (candidates t)).
    change (known (candidates t)).1 with (remote_candidate_keys_ (candidates t)).
    destruct (remote_gathering_done_ (candidates t)) eqn:Ed; cbn [orb fst snd fold_left]; [by rewrite Hid|].
    case_bool_decide; cbn [fst snd fold_left apply_call]; [by rewrite Hid|].
    unfold set_known, set_keys. cbn [fst snd]. by rewrite Ed.
Qed.

(** A list of signals, one after the other. *)
Lemma take_signals_ok u l t w :
  remote_sdp_ t <> [] -> remote_ice_username_ (candidates t) = u ->
  for_each (fun s => _ ← take_signal s; mret tt) l (t, w) =
    Some (tt, (set_candidates (set_known (signal_run u l (known (candidates t))).2 (candidates t)) t,
               fold_left apply_call (signal_run u l (known (candidates t))).1 w)).
Proof.
  revert t w. induction l as [|s l IH]; intros t w Hr Hu.
  { cbn [for_each signal_run fst snd fold_left]. by rewrite set_known_id, set_candidates_id. }
  erewrite for_each_eval; [|rewrite (bind_eval _ _ _ _ _ (take_signal_ok u s t w Hr Hu)); reflexivity].
  rewrite IH by done. cbn [signal_run].
  change (known (candidates (set_candidates (set_known (signal_step u s (known (candidates t))).2 (candidates t)) t)))
    with ((signal_step u s (known (candidates t))).2.1, (signal_step u s (known (candidates t))).2.2).
  rewrite <- surjective_pairing. destruct (signal_step u s (known (candidates t))) as [c k]. cbn [fst snd].
  destruct (signal_run u l k) as [cs k']. cbn [fst snd]. by rewrite fold_left_app.
Qed.

Definition add_signal (x : text * text) : C unit := _ ← AddRemoteCandidate x.1 x.2; mret tt.

Lemma add_signals l (s : IceTransport * W) : for_each add_signal l s = for_each (fun s => _ ← take_signal s; mret tt) (signals l) s.
Proof.
  revert s. induction l as [|[c u] l IH]; intros s; [done|].
  unfold signals in *. cbn [omap list_omap fst snd]. unfold add_signal at 1, AddRemoteCandidate.
  cbn [for_each fst snd]. destruct (ParseIceCandidateSignal c u) as [sig|]; cbn [for_each].
  - unfold mbind, M_bind. destruct (take_signal sig s) as [[r s']|]; [|done]. cbn. apply IH.
  - rewrite <- IH. done.
Qed.

Lemma stale_unknown u : stale u [] = false.
Proof. unfold stale. by destruct (bool_decide (u = [])). Qed.

Lemma queue_candidate_ok s t (w : W) : zlen (pending_remote_candidates_ (candidates t)) < 256 ->
  queue_candidate s (t, w) =
  Some (0, (if bool_decide (s ∈ pending_remote_candidates_ (candidates t)) then t else
            set_candidates (set_pending (pending_remote_candidates_ (candidates t) ++ [s]) (candidates t)) t, w)).
Proof.
  intros Hl. unfold queue_candidate. run_method. destruct (bool_decide _); [done|].
  by replace (256 <=? _) with false by lia.
Qed.

Lemma queue_all l t (w : W) : remote_sdp_ t = [] -> remote_ice_username_ (candidates t) = [] ->
  zlen (pending_remote_candidates_ (candidates t)) + zlen l <= 256 ->
  for_each (fun s => _ ← take_signal s; mret tt) l (t, w) =
    Some (tt, (set_candidates (set_pending (pending_remote_candidates_ (candidates t) ++
                 fresh (pending_remote_candidates_ (candidates t)) l) (candidates t)) t, w)).
Proof.
  revert t. induction l as [|s l IH]; intros t Hr Hu Hl.
  { cbn. rewrite app_nil_r. unfold set_pending. by destruct t as [??????????? ? []]. }
  rewrite zlen_cons in Hl. pose proof (zlen_nonneg l).
  assert (take_signal s (t, w) =
    Some (0, (if bool_decide (s ∈ pending_remote_candidates_ (candidates t)) then t else
            set_candidates (set_pending (pending_remote_candidates_ (candidates t) ++ [s]) (candidates t)) t, w))) as E.
  { rewrite take_signal_eq, Hu. rewrite stale_unknown, bool_decide_true by done. apply queue_candidate_ok. lia. }
  erewrite for_each_eval; [|rewrite (bind_eval _ _ _ _ _ E); reflexivity].
  cbn [fresh]. destruct (bool_decide (s ∈ _)).
  - rewrite IH by (done || lia). done.
  - rewrite IH; [|done|done|cbn; rewrite zlen_app, zlen_cons, zlen_nil; lia].
    cbn. unfold set_pending. cbn. by rewrite <- app_assoc.
Qed.

(** Signals from the queue are taken as they are. *)
Lemma queued_again l (s : IceTransport * W) : Forall (fun sig => ParseIceCandidateSignal (sig_sdp sig) (sig_ufrag sig) = Some sig) l ->
  for_each (fun signal => _ ← AddRemoteCandidate (sig_sdp signal) (sig_ufrag signal); mret tt) l s =
  for_each (fun s => _ ← take_signal s; mret tt) l s.
Proof.
  intros H. revert s. induction H as [|sig l Hs _ IH]; intros s; [done|]. cbn [for_each].
  assert (AddRemoteCandidate (W:=W) (sig_sdp sig) (sig_ufrag sig) = take_signal sig) as ->
    by (unfold AddRemoteCandidate; by rewrite Hs).
  unfold mbind, M_bind.
  destruct (take_signal sig s) as [[r s']|]; [|done]. cbn. apply IH.
Qed.

Lemma signals_again l : Forall (fun x => zlen x.1 <= 4094) l ->
  Forall (fun sig => ParseIceCandidateSignal (sig_sdp sig) (sig_ufrag sig) = Some sig) (signals l).
Proof.
  induction 1 as [|[c u] l Hx _ IH]; [constructor|]. unfold signals in *. cbn [omap list_omap fst snd] in *.
  destruct (ParseIceCandidateSignal c u) as [sig|] eqn:E; [|done]. constructor; [|done].
  eapply parse_again; [exact E|]. pose proof (parse_length c u sig E). lia.
Qed.

Lemma fresh_sub seen l : forall s, s ∈ fresh seen l -> s ∈ l.
Proof.
  revert seen. induction l as [|x l IH]; intros seen s; cbn [fresh]; [done|].
  case_bool_decide; [intros H1%IH; by right|]. intros [-> | H1%IH]%elem_of_cons; [by left|by right].
Qed.

Lemma signals_length l : zlen (signals l) <= zlen l.
Proof.
  unfold signals. induction l as [|x l IH]; [done|]. cbn [omap list_omap]. destruct (ParseIceCandidateSignal _ _); rewrite ?zlen_cons; cbn in *; lia.
Qed.

(** ** The SDP *)

Lemma SetRemoteSdp_eq sdp t (w : W) t1 w1 media :
  remote_ice_username_ (candidates t) = [] -> GetIceUsername sdp <> [] ->
  GetRemoteCapabilities sdp (t, w) = Some (media, (t1, w1)) -> media <> [] ->
  (agent_SetRemoteSdp (with_extensions sdp media) w1).1 = 0 ->
  SetRemoteSdp sdp (t, w) =
  (for_each (fun s => _ ← AddRemoteCandidate (sig_sdp s) (sig_ufrag s); mret tt) (pending_remote_candidates_ (candidates t1)) ;; mret 0)
    (set_candidates (set_pending [] (set_remote_username (GetIceUsername sdp) (candidates t1))) (set_sdps (local_sdp_ t1) sdp t1),
     (agent_SetRemoteSdp (with_extensions sdp media) w1).2).
Proof.
  intros Hu Hs Hm Hn Ha. unfold SetRemoteSdp. rewrite bool_decide_false by done.
  rewrite (bind_eval _ _ _ (remote_ice_username_ (candidates t)) (t, w)) by done. rewrite Hu.
  rewrite (bool_decide_true ([] = [])) by done. cbn [negb andb].
  rewrite (bind_eval _ _ _ _ _ Hm). rewrite bool_decide_false by done.
  rewrite (bind_eval _ _ (t1, w1) 0 (t1, (agent_SetRemoteSdp (with_extensions sdp media) w1).2)).
  2: { unfold call. cbn. destruct (agent_SetRemoteSdp _ w1) as [r w2]. cbn in Ha. by subst r. }
  reflexivity.
Qed.

(** What a successful [SetRemoteSdp] has done. *)
Lemma SetRemoteSdp_inv sdp t (w : W) s :
  remote_ice_username_ (candidates t) = [] -> SetRemoteSdp sdp (t, w) = Some (0, s) ->
  GetIceUsername sdp <> [] /\ exists media t1 w1,
    GetRemoteCapabilities sdp (t, w) = Some (media, (t1, w1)) /\ media <> [] /\
    (agent_SetRemoteSdp (with_extensions sdp media) w1).1 = 0.
Proof.
  intros Hu. unfold SetRemoteSdp. destruct (bool_decide (GetIceUsername sdp = [])) eqn:Eu; [by intros [= ]|].
  apply bool_decide_eq_false in Eu. intros E. split; [done|].
  rewrite (bind_eval (of_candidates remote_ice_username_) _ (t, w) (remote_ice_username_ (candidates t)) (t, w)) in E by reflexivity. rewrite Hu in E.
  rewrite (bool_decide_true ([] = [])) in E by done. cbn [negb andb] in E.
  destruct (GetRemoteCapabilities sdp (t, w)) as [[media [t1 w1]]|] eqn:Em.
  2: { unfold mbind, M_bind in E. by rewrite Em in E. }
  rewrite (bind_eval _ _ _ _ _ Em) in E. exists media, t1, w1. split; [done|].
  case_bool_decide as Hn; [by injection E|]. split; [done|].
  destruct (agent_SetRemoteSdp (with_extensions sdp media) w1) as [r w2] eqn:Ea.
  rewrite (bind_eval (call (agent_SetRemoteSdp (with_extensions sdp media))) _ (t1, w1) r (t1, w2)) in E
    by (unfold call; cbn [fst snd]; by rewrite Ea).
  cbn [fst]. destruct (Z.eqb_spec r 0); [done|]. by injection E.
Qed.

(** With signals in the queue, the same, and then the queue. *)
Lemma SetRemoteSdp_queue sdp t (w : W) t0 w0 p :
  remote_ice_username_ (candidates t) = [] -> pending_remote_candidates_ (candidates t) = [] ->
  SetRemoteSdp sdp (t, w) = Some (0, (t0, w0)) ->
  Forall (fun sig => ParseIceCandidateSignal (sig_sdp sig) (sig_ufrag sig) = Some sig) p ->
  remote_sdp_ t0 <> [] /\ candidates t0 = set_remote_username (GetIceUsername sdp) (candidates t) /\
  SetRemoteSdp sdp (set_candidates (set_pending p (candidates t)) t, w) =
    Some (0, (set_candidates (set_known (signal_run (GetIceUsername sdp) p (known (candidates t))).2 (candidates t0)) t0,
              fold_left apply_call (signal_run (GetIceUsername sdp) p (known (candidates t))).1 w0)).
Proof.
  intros Hu Hp Hset Hq. pose proof (SetRemoteSdp_inv sdp t w _ Hu Hset) as (Hs & media & t1 & w1 & Hm & Hn & Ha).
  assert (sdp <> []) as Hsdp by by intros ->.
  pose proof (GetRemoteCapabilities_framed sdp (candidates t) t w) as Hframe.
  rewrite set_candidates_id, Hm in Hframe. injection Hframe as Ht1.
  assert (candidates t1 = candidates t) as Hc1 by by rewrite Ht1.
  rewrite (SetRemoteSdp_eq sdp t w t1 w1 media Hu Hs Hm Hn Ha), Hc1, Hp in Hset. injection Hset as Et0 Ew0.
  set (w2 := (agent_SetRemoteSdp (with_extensions sdp media) w1).2) in *.
  assert (remote_sdp_ t0 = sdp) as Hr0 by by rewrite <- Et0.
  assert (candidates t0 = set_remote_username (GetIceUsername sdp) (candidates t)) as Hc0.
  { rewrite <- Et0. unfold set_pending, set_remote_username. cbn. by rewrite Hp. }
  split_and!; [by rewrite Hr0|done|].
  pose proof (GetRemoteCapabilities_framed sdp (set_pending p (candidates t)) t w) as Hm'. rewrite Hm in Hm'.
  cbn [fmap option_fmap option_map with_candidates fst snd] in Hm'.
  rewrite (SetRemoteSdp_eq sdp (set_candidates (set_pending p (candidates t)) t) w _ _ media Hu Hs Hm' Hn Ha).
  cbn [fst snd candidates set_candidates]. change (pending_remote_candidates_ (set_pending p (candidates t))) with p.
  fold w2. rewrite (bind_eval _ _ _ tt
    (set_candidates (set_known (signal_run (GetIceUsername sdp) p (known (candidates t))).2 (candidates t0)) t0,
     fold_left apply_call (signal_run (GetIceUsername sdp) p (known (candidates t))).1 w0)); [done|].
  rewrite queued_again by done.
  rewrite (take_signals_ok (GetIceUsername sdp)) by done.
  rewrite Hc0, <- Et0, Ew0. unfold set_pending, set_remote_username, set_known, known, set_candidates, set_sdps.
  cbn. by rewrite Hp.
Qed.

Definition receive (before : list (text * text)) (sdp : text) (after : list (text * text)) : C Z :=
  for_each add_signal before ;; r ← SetRemoteSdp sdp ; for_each add_signal after ;; mret r.

Lemma receive_ok before sdp after t (w : W) lu sl ls t0 w0 :
  candidates t = mkCandidates [] lu sl ∅ [] ls false -> remote_sdp_ t = [] ->
  zlen before <= 256 -> Forall (fun x => zlen x.1 <= 4094) before ->
  SetRemoteSdp sdp (t, w) = Some (0, (t0, w0)) ->
  exists t', receive before sdp after (t, w) =
    Some (0, (t', fold_left apply_call (accepted (GetIceUsername sdp) (signals (before ++ after))) w0)).
Proof.
  intros Hc Hr Hl Hlen Hset. unfold receive.
  pose proof (signals_length before) as Hsl.
  assert (zlen (pending_remote_candidates_ (candidates t)) + zlen (signals before) <= 256) as Hroom
    by (rewrite Hc; cbn [pending_remote_candidates_]; rewrite zlen_nil, Z.add_0_l; exact (Z.le_trans _ _ _ Hsl Hl)).
  pose proof (queue_all (signals before) t w Hr ltac:(by rewrite Hc) Hroom) as Hq.
  assert (pending_remote_candidates_ (candidates t) = []) as Hp0 by by rewrite Hc.
  rewrite Hp0 in Hq. cbn [app] in Hq. rewrite <- add_signals in Hq. rewrite (bind_eval _ _ _ _ _ Hq). clear Hq.
  pose proof (signals_again before Hlen) as Hok.
  assert (Forall (fun sig => ParseIceCandidateSignal (sig_sdp sig) (sig_ufrag sig) = Some sig) (fresh [] (signals before))) as Hok'.
  { rewrite List.Forall_forall in *. intros x Hx%list_elem_of_In. apply Hok, list_elem_of_In. by eapply fresh_sub. }
  destruct (SetRemoteSdp_queue sdp t w t0 w0 _ ltac:(by rewrite Hc) ltac:(by rewrite Hc) Hset Hok') as (Hr0 & Hc0 & E).
  rewrite (bind_eval _ _ _ _ _ E). clear E. rewrite run_fresh by (intros s Hs; by apply elem_of_nil in Hs).
  set (k := known (candidates t)) in *. set (u := GetIceUsername sdp) in *.
  erewrite bind_eval; [|rewrite add_signals; apply (take_signals_ok u); [exact Hr0|cbn; by rewrite Hc0]].
  unfold mret, M_ret. eexists. f_equal. f_equal. f_equal.
  unfold accepted. rewrite signals_app, signal_run_app.
  change (∅, false) with (known (mkCandidates [] lu sl ∅ [] ls false)). rewrite <- Hc. fold k.
  cbn [candidates set_candidates].
  change (known (set_known (signal_run u (signals before) k).2 (candidates t0)))
    with ((signal_run u (signals before) k).2.1, (signal_run u (signals before) k).2.2).
  rewrite <- surjective_pairing. destruct (signal_run u (signals before) k) as [c1 k1]. cbn [fst snd].
  destruct (signal_run u (signals after) k1) as [c2 k2]. cbn [fst snd]. by rewrite fold_left_app.
Qed.

End run.

(** C24. It makes no difference when the SDP comes: when signals come, then the
    SDP, then more signals, and the SDP by itself would be accepted, then all
    that is done to the agent is what the SDP does, followed by the calls for
    the well-formed signals of the SDP's generation, in the order in which all
    of them came — each candidate once, up to the first end of candidates and
    nothing after it.  (Up to 256 signals before the SDP, of candidates not
    longer than 4094 bytes, and an agent that takes what it is given.) *)
Theorem trickle_any_order {W} {world : SessionWorld W} (before after : list (text * text)) (sdp : text)
    (t t0 : IceTransport) (w w0 : W) (local_username : text) (seen_local : gset text) (local_done : bool) :
  (forall sdp w, (agent_AddRemoteCandidate sdp w).1 = 0) ->
  (forall w, (agent_SetRemoteCandidateGatheringDone w).1 = 0) ->
  candidates t = mkCandidates [] local_username seen_local ∅ [] local_done false -> remote_sdp_ t = [] ->
  zlen before <= 256 -> Forall (fun x => zlen x.1 <= 4094) before ->
  SetRemoteSdp sdp (t, w) = Some (0, (t0, w0)) ->
  exists t' cs done, receive before sdp after (t, w) =
    Some (0, (t', fold_left apply_call (map CandidateCall cs ++ (if (done : bool) then [DoneCall] else [])) w0)) /\
    map CandidateCall cs ++ (if done then [DoneCall] else []) = accepted (GetIceUsername sdp) (signals (before ++ after)) /\
    NoDup cs.
Proof.
  intros Ha Hd Hc Hr Hl Hlen Hset.
  destruct (receive_ok Ha Hd before sdp after t w _ _ _ t0 w0 Hc Hr Hl Hlen Hset) as [t' E].
  destruct (signal_run_shape (GetIceUsername sdp) (signals (before ++ after)) ∅ false) as (cs & Ecs & Hn & _).
  exists t', cs, ((signal_run (GetIceUsername sdp) (signals (before ++ after)) (∅, false)).2.2 && negb false).
  rewrite <- Ecs. done.
Qed.

(** ** A session with an agent that keeps a record *)

Record recorder := mkRecorder { next_ssrc : Z; record : list agent_call; sent : list Message }.

#[export] Instance recording_world : SessionWorld recorder := {|
  AddVideoSendChannel _ w := (next_ssrc w, mkRecorder (next_ssrc w + 2) (record w) (sent w));
  GetVideoRtxSsrc _ w := (next_ssrc w - 1, w);
  AddAudioSendChannel _ w := (next_ssrc w, mkRecorder (next_ssrc w + 2) (record w) (sent w));
  AddDataSendChannel _ _ w := (next_ssrc w, mkRecorder (next_ssrc w + 2) (record w) (sent w));
  AddVideoReceiveChannel _ _ _ w := (tt, w);
  AddAudioReceiveChannel _ _ w := (tt, w);
  AddDataReceiveChannel _ _ _ w := (tt, w);
  SetSrtpEnabled _ w := (tt, w);
  CreateAndStart _ _ _ _ w := (tt, w);
  agent_GenerateLocalSdp w :=
    (unlines [lit "m=video 9 ICE/SDP"; lit "c=IN IP4 0.0.0.0"; lit "a=ice-ufrag:abcd"; lit "a=ice-pwd:secret";
              lit "m=audio 9 ICE/SDP"; lit "c=IN IP4 0.0.0.0"; lit "a=ice-ufrag:abcd"; lit "a=ice-pwd:secret";
              lit "m=data 9 ICE/SDP"; lit "c=IN IP4 0.0.0.0"; lit "a=ice-ufrag:abcd"; lit "a=ice-pwd:secret"], w);
  agent_AppendFingerprintLine sdp w := (sdp ++ lit "a=fingerprint:sha-256 AA:BB" ++ [newline], w);
  agent_SetRemoteSdp _ w := (0, w);
  agent_AddRemoteCandidate sdp w := (0, mkRecorder (next_ssrc w) (record w ++ [CandidateCall sdp]) (sent w));
  agent_SetRemoteCandidateGatheringDone w := (0, mkRecorder (next_ssrc w) (record w ++ [DoneCall]) (sent w));
  agent_GatherCandidates w := (0, w);
  send_message m w := (tt, mkRecorder (next_ssrc w) (record w) (sent w ++ [m]));
|}.

Definition new_transport (offer_peer : bool) (v a : list text) (d : list (text * bool)) : IceTransport :=
  mkTransport offer_peer true H264 [96; 99] [111] [120] true [] [] (mkLocal v a d [] [] [])
    (mkRemote [] [] [] [] [] [] [] []) (mkNegotiated false 0 0 0 0 0 0 None None None None)
    (mkCandidates [] [] ∅ ∅ [] false false).

Definition sample_offer : text :=
  match SendOffer (new_transport true [lit "cam"] [lit "mic"] [(lit "chat", true)], mkRecorder 100 [] []) with
  | Some (_, (_, w)) => match sent w with [Offer sdp] => sdp | _ => [] end
  | None => []
  end.

Definition sample_answerer : IceTransport := new_transport false [] [] [].

Definition sample_accepted : IceTransport * recorder :=
  match SetRemoteSdp sample_offer (sample_answerer, mkRecorder 200 [] []) with
  | Some (_, s) => s
  | None => (sample_answerer, mkRecorder 0 [] [])
  end.

Definition early : list (text * text) :=
  [(lit "candidate:1 1 UDP 2013266431 10.0.0.2 40000 typ host", lit "abcd");
   (lit "candidate:2 1 UDP 2013266431 10.0.0.9 40000 typ host", lit "old");
   (lit "candidate:1 1 UDP 2013266431 10.0.0.2 40000 typ host", lit "abcd")].
Definition late : list (text * text) :=
  [(lit "candidate:3 1 UDP 2013266431 10.0.0.3 40000 typ host", lit "abcd"); ([], lit "abcd");
   (lit "candidate:4 1 UDP 2013266431 10.0.0.4 40000 typ host", lit "abcd")].

(** The streams of the offer arrive, and the calls are two candidates and the end. *)
Example sample_streams :
  let r := remote sample_accepted.1 in
  video_receivers_ssrc_ r = [(lit "cam", 100)] /\ video_receivers_rtx_ssrc_ r = [(lit "cam", 101)] /\
  audio_receivers_ssrc_ r = [(lit "mic", 102)] /\ data_receivers_ssrc_ r = [(lit "chat", 104)] /\
  remote_data_stream_reliable_ r = [(lit "chat", true)].
Proof. vm_compute. auto. Qed.

Lemma trickle_any_order_witness :
  exists t' cs done, receive early sample_offer late (sample_answerer, mkRecorder 200 [] []) =
    Some (0, (t', fold_left apply_call (map CandidateCall cs ++ (if (done : bool) then [DoneCall] else [])) sample_accepted.2)) /\
    map CandidateCall cs ++ (if done then [DoneCall] else []) = accepted (GetIceUsername sample_offer) (signals (early ++ late)) /\
    NoDup cs.
Proof.
  apply (trickle_any_order early late sample_offer sample_answerer sample_accepted.1 (mkRecorder 200 [] []) sample_accepted.2 [] ∅ false).
  - reflexivity.
  - reflexivity.
  - reflexivity.
  - reflexivity.
  - vm_compute. discriminate.
  - repeat constructor; vm_compute; discriminate.
  - vm_compute. reflexivity.
Defined.
