(* ===== verification/Av1.v ===== *)
(** * AV1 over RTP

    The OBU parser ([src/rtp/rtp_packet/obu_parser.cpp], on the byte reader of
    [src/rtp/rtp_packet/byte_buffer.cpp]), the AV1 packetizer
    ([src/rtp/rtp_packetizer/rtp_packetizer_av1.cpp]) and the received AV1
    packet ([src/rtp/rtp_packet/rtp_packet_av1.cpp]).  [None] is an access
    outside a buffer. *)

From S2P Require Import Prelude ByteIO Rtcp RtpPacket Packetizer.

(** ** The byte reader *)

(** src/rtp/rtp_packet/byte_buffer.h:14-40 [ByteBufferReader] *)
Record ByteBufferReader := mkReader {
  bytes_ : list Z;
  start_ : Z;
}.

(** src/rtp/rtp_packet/byte_buffer.h:24-24 [ByteBufferReader::Length] *)
Definition Length (r : ByteBufferReader) : Z := zlen (bytes_ r) - start_ r.

(** src/rtp/rtp_packet/byte_buffer.cpp:28-32 [ByteBufferReader::ReadUInt8] *)
Definition ReadUInt8 (r : ByteBufferReader) : option (option Z * ByteBufferReader) :=
  if Length r <? 1 then Some (None, r) else
  b ← rd (bytes_ r) (start_ r);
  Some (Some b, mkReader (bytes_ r) (start_ r + 1)).

(** The [for] of [ReadUVarint] from bit [i] on; [n] iterations are left.  The
    result is the value and the number of bytes the code says it took. *)
Fixpoint uvarint_loop (n : nat) (i v : Z) (r : ByteBufferReader)
    : option (option (Z * Z) * ByteBufferReader) :=
  match n with
  | O => Some (None, r)
  | S n' =>
      '(b, r) ← ReadUInt8 r;
      match b with
      | None => Some (None, r)
      | Some b =>
          let v := Z.lor v (u64 (Z.shiftl (Z.land b 0x7F) i)) in
          if b <? 0x80
          then Some (Some (v, i / 8 + (if i `mod` 8 =? 0 then 0 else 1) + 1), r)
          else uvarint_loop n' (i + 7) v r
      end
  end.

(** src/rtp/rtp_packet/byte_buffer.cpp:57-81 [ByteBufferReader::ReadUVarint] *)
Definition ReadUVarint (r : ByteBufferReader)
    : option (option (Z * Z) * ByteBufferReader) := uvarint_loop 10 0 0 r.

(** src/rtp/rtp_packet/byte_buffer.cpp:83-87 [ByteBufferReader::Consume] *)
Definition Consume (size : Z) (r : ByteBufferReader) : bool * ByteBufferReader :=
  if Length r <? size then (false, r) else (true, mkReader (bytes_ r) (start_ r + size)).

(** ** OBUs *)

(** src/rtp/rtp_packet/obu.h:30-35 [Obu] *)
Record Obu := mkObu {
  obu_header : Z;
  obu_extension_header : option Z;
  obu_payload : list Z;
  obu_size : Z;
}.

(** src/rtp/rtp_packet/obu_parser.cpp:45-45 [ObuHasExtension] *)
Definition ObuHasExtension (obu_header : Z) : bool := negb (Z.land obu_header 4 =? 0).
(** src/rtp/rtp_packet/obu_parser.cpp:47-47 [ObuHasSize] *)
Definition ObuHasSize (obu_header : Z) : bool := negb (Z.land obu_header 2 =? 0).
(** src/rtp/rtp_packet/obu_parser.cpp:49-49 [ObuType] *)
Definition ObuType (obu_header : Z) : Z := Z.shiftr (Z.land obu_header 120) 3.

(** The payload of an OBU: the bytes of its size field, if it has one, and of
    its data; [None] inside when the input is malformed. *)
(** src/rtp/rtp_packet/obu_parser.cpp:72-104 [ParseObus] *)
Definition obu_body (header : Z) (r : ByteBufferReader)
    : option (option (list Z) * ByteBufferReader) :=
  if negb (ObuHasSize header) then
    data ← rd_range (bytes_ r) (start_ r) (Length r);
    Some (Some data, (Consume (Length r) r).2)
  else
    '(sz, r) ← ReadUVarint r;
    match sz with
    | None => Some (None, r)
    | Some (size, size_len) =>
        if Length r <? size then Some (None, r)
        else if size =? 0 then Some (Some [0], (Consume size r).2)
        else
          data ← rd_range (bytes_ r) (start_ r) size;
          size_data ← rd_range (bytes_ r) (start_ r - size_len) size_len;
          Some (Some (size_data ++ data), (Consume size r).2)
    end.

(** src/rtp/rtp_packet/obu_parser.cpp:56-115 [ParseObus] *)
Definition parse_obu (r : ByteBufferReader) : option (option Obu * ByteBufferReader) :=
  '(h, r) ← ReadUInt8 r;
  match h with
  | None => Some (None, r)
  | Some header =>
      '(ext, r) ← (if ObuHasExtension header then
          if Length r =? 0 then Some (None, r)
          else '(e, r) ← ReadUInt8 r;
               Some (match e with Some e => Some (Some e) | None => None end, r)
        else Some (Some None, r));
      match ext with
      | None => Some (None, r)
      | Some ext =>
          '(body, r) ← obu_body header r;
          match body with
          | None => Some (None, r)
          | Some payload =>
              let size := (match ext with Some _ => 2 | None => 1 end) + zlen payload in
              let payload := match ext with Some e => e :: payload | None => payload end in
              Some (Some (mkObu header ext (header :: payload) size), r)
          end
      end
  end.

Fixpoint parse_obus_loop (fuel : nat) (r : ByteBufferReader) (result : list Obu)
    : option (list Obu) :=
  match fuel with
  | O => None
  | S fuel' =>
      if 0 <? Length r then
        '(o, r) ← parse_obu r;
        match o with
        | None => Some []
        | Some o => parse_obus_loop fuel' r (result ++ [o])
        end
      else Some result
  end.

(** src/rtp/rtp_packet/obu_parser.cpp:51-126 [ParseObus] *)
Definition ParseObus (payload : list Z) (payload_size : Z) : option (list Obu) :=
  data ← rd_range payload 0 payload_size;
  parse_obus_loop (S (Z.to_nat payload_size)) (mkReader data 0) [].

(** ** Packets *)

(** src/rtp/rtp_packetizer/rtp_packetizer_av1.h:35-41 [RtpPacketizerAv1::SetAv1AggrHeader] *)
Definition SetAv1AggrHeader (z y w n : Z) : Z :=
  let h := 0 in
  let h := if z =? 0 then h else u8 (Z.lor h (Z.shiftl 1 7)) in
  let h := if y =? 0 then h else u8 (Z.lor h (Z.shiftl 1 6)) in
  let h := if w =? 0 then h else u8 (Z.lor h (Z.shiftl w 4)) in
  if n =? 0 then h else u8 (Z.lor h (Z.shiftl 1 3)).

(** src/rtp/rtp_packetizer/rtp_packetizer_av1.cpp:34-74 [RtpPacketizerAv1::Build] *)
Definition av1_push (st : Packetizer) (marker : bool) (rtp_timestamp aggr_header : Z)
    (data : list Z) (rtp_packets : list RtpPacket) : option (list RtpPacket) :=
  let frame := packet_header st false marker (pz_payload_type st) rtp_timestamp ++
               [aggr_header] ++ data in
  '(_, p) ← Build new_packet frame (u32 (zlen frame));
  Some (rtp_packets ++ [p]).

(** src/rtp/rtp_packetizer/rtp_packetizer_av1.cpp:101-126 [RtpPacketizerAv1::Build] *)
Definition av1_fragment_step (obus_size i packet_num : Z) (obu : Obu) (rtp_timestamp : Z)
    (st : Packetizer) (j : Z) (rtp_packets : list RtpPacket)
    : option (list RtpPacket * Packetizer) :=
  let st := pz_set_seq (u16 (pz_sequence_number st + 1)) st in
  let is_last := (i =? obus_size - 1) && (j =? packet_num - 1) in
  let offset := j * MAX_NALU_LEN in
  let size := if j =? packet_num - 1 then obu_size obu - offset else MAX_NALU_LEN in
  let z := if (0 <? i) || (0 <? j) then 1 else 0 in
  let y := if negb is_last then 1 else 0 in
  let n := if current_frame_is_key_frame st && (i =? 0) && (j =? 0) then 1 else 0 in
  data ← rd_range (obu_payload obu) offset size;
  pkts ← av1_push st is_last rtp_timestamp (SetAv1AggrHeader z y 1 n) data rtp_packets;
  Some (pkts, st).

(** src/rtp/rtp_packetizer/rtp_packetizer_av1.cpp:76-126 [RtpPacketizerAv1::Build] *)
Definition av1_obu_step (obus : list Obu) (rtp_timestamp : Z) (st : Packetizer) (i : Z)
    (rtp_packets : list RtpPacket) : option (list RtpPacket * Packetizer) :=
  obu ← rd obus i;
  if obu_size obu <=? MAX_NALU_LEN then
    let st := pz_set_seq (u16 (pz_sequence_number st + 1)) st in
    let is_last := i =? zlen obus - 1 in
    let z := if 0 <? i then 1 else 0 in
    let y := if negb is_last then 1 else 0 in
    let n := if current_frame_is_key_frame st && (i =? 0) then 1 else 0 in
    pkts ← av1_push st is_last rtp_timestamp (SetAv1AggrHeader z y 1 n) (obu_payload obu)
             rtp_packets;
    Some (pkts, st)
  else
    let packet_num := (obu_size obu + MAX_NALU_LEN - 1) / MAX_NALU_LEN in
    packet_loop (av1_fragment_step (zlen obus) i packet_num obu rtp_timestamp)
      (Z.to_nat packet_num) st 0 rtp_packets.

(** src/rtp/rtp_packetizer/rtp_packetizer_av1.cpp:27-129 [RtpPacketizerAv1::Build] *)
Definition BuildAv1 (st : Packetizer) (payload : list Z) (payload_size rtp_timestamp : Z)
    : option (list RtpPacket * Packetizer) :=
  obus ← ParseObus payload payload_size;
  packet_loop (av1_obu_step obus rtp_timestamp) (length obus) st 0 [].

(** ** The receiving side *)

(** src/rtp/rtp_packet/rtp_packet_av1.h:13-51 [RtpPacketAv1] *)
Record RtpPacketAv1 := mkAv1 {
  av1_packet : RtpPacket;
  av1_aggr_header_ : Z;
  z_ : Z;
  y_ : Z;
  w_ : Z;
  n_ : Z;
}.

(** src/rtp/rtp_packet/rtp_packet_av1.cpp:8-22 [RtpPacketAv1::GetFrameHeaderInfo] *)
Definition GetFrameHeaderInfoAv1 (h : RtpPacketAv1) : option (bool * RtpPacketAv1) :=
  let p := av1_packet h in
  if payload_size_ p <? 1 then Some (false, h) else
  b ← rd (buffer_ p) (payload_offset_ p);
  Some (true, mkAv1 (add_offset_to_payload 1 p) b (Z.shiftr b 7)
                (Z.land (Z.shiftr b 6) 0x01) (Z.land (Z.shiftr b 4) 0x03)
                (Z.land (Z.shiftr b 3) 0x01)).

(** src/rtp/rtp_packet/rtp_packet_av1.h:22-30 [RtpPacketAv1::Av1FrameStart] *)
Definition Av1FrameStart (h : RtpPacketAv1) : bool :=
  if (z_ h =? 0) && (y_ h =? 0) && (w_ h =? 1) then true
  else (z_ h =? 0) && (y_ h =? 1) && (w_ h =? 1).

(** src/rtp/rtp_packet/rtp_packet_av1.h:33-41 [RtpPacketAv1::Av1FrameEnd] *)
Definition Av1FrameEnd (h : RtpPacketAv1) : bool :=
  if (z_ h =? 0) && (y_ h =? 0) && (w_ h =? 1) then true
  else (z_ h =? 1) && (y_ h =? 0) && (w_ h =? 1).

(** src/rtp/rtp_packet/rtp_packet_av1.h:43-43 [RtpPacketAv1::IsKeyFrame] *)
Definition IsKeyFrame (h : RtpPacketAv1) : bool := n_ h =? 1.

(** ** Lemmas: the parser stays inside its input *)

Definition reader_ok (r : ByteBufferReader) : Prop :=
  bytes (bytes_ r) /\ 0 <= start_ r <= zlen (bytes_ r).

(** [r'] is [r] moved forward. *)
Definition reader_next (r r' : ByteBufferReader) : Prop :=
  bytes_ r' = bytes_ r /\ start_ r <= start_ r' <= zlen (bytes_ r).

Lemma reader_next_ok r r' : reader_ok r -> reader_next r r' -> reader_ok r'.
Proof. intros [Hb Hs] [He Hn]. unfold reader_ok. rewrite He. split; [done|lia]. Qed.

Lemma reader_next_refl r : reader_ok r -> reader_next r r.
Proof. intros [_ H]. split; [done|lia]. Qed.

Lemma reader_next_trans r1 r2 r3 : reader_next r1 r2 -> reader_next r2 r3 -> reader_next r1 r3.
Proof. intros [E1 H1] [E2 H2]. split; [congruence|]. rewrite E1 in H2. lia. Qed.

Lemma ReadUInt8_safe r :
  reader_ok r ->
  exists b r', ReadUInt8 r = Some (b, r') /\ reader_next r r' /\
    (b = None -> Length r = 0) /\
    (forall x, b = Some x -> is_u8 x /\ start_ r' = start_ r + 1).
Proof.
  intros [Hb Hs]. unfold ReadUInt8, Length. destruct (Z.ltb_spec (zlen (bytes_ r) - start_ r) 1).
  - exists None, r. split_and!; [done|by apply reader_next_refl|lia|done].
  - read_as b. exists (Some b), (mkReader (bytes_ r) (start_ r + 1)).
    split_and!; [done|split; [done|cbn; lia]|done|]. intros x [= <-]. done.
Qed.

Lemma uvarint_loop_safe n : forall k v r,
  reader_ok r -> 0 <= k -> 0 <= v ->
  exists res r', uvarint_loop n (7 * k) v r = Some (res, r') /\ reader_next r r' /\
    (forall v' len, res = Some (v', len) ->
       0 <= v' /\ 1 <= len <= k + (start_ r' - start_ r)).
Proof.
  induction n as [|n IH]; intros k v r Hr Hk Hv; cbn [uvarint_loop].
  - exists None, r. split_and!; [done|by apply reader_next_refl|done].
  - destruct (ReadUInt8_safe r Hr) as (b & r1 & -> & Hn & _ & Hb). cbn [mbind option_bind].
    destruct b as [b|]; [|exists None, r1; done].
    destruct (Hb b eq_refl) as [_ Hs]. cbv zeta.
    set (v1 := Z.lor v _).
    assert (0 <= v1) as Hv1 by (apply Z.lor_nonneg; split; [done|apply u64_range]).
    destruct (b <? 128).
    + eexists _, r1. split_and!; [reflexivity|done|]. intros v' len [= <- <-].
      rewrite Hs. split; [done|]. case_if; zdm.
    + replace (7 * k + 7) with (7 * (k + 1)) by lia.
      destruct (IH (k + 1) v1 r1) as (res & r2 & -> & Hn2 & Hres);
        [by eapply reader_next_ok|lia|done|].
      exists res, r2. split_and!; [done|by eapply reader_next_trans|].
      intros v' len He. destruct (Hres v' len He). lia.
Qed.

Lemma Consume_next r size :
  reader_ok r -> 0 <= size <= Length r ->
  (Consume size r).2 = mkReader (bytes_ r) (start_ r + size) /\
  reader_next r (Consume size r).2.
Proof.
  intros Hr Hs. unfold Consume. rewrite (proj2 (Z.ltb_ge _ _)) by lia.
  split; [done|]. destruct Hr. split; [done|]. unfold Length in *. cbn. lia.
Qed.

Lemma obu_body_safe header r :
  reader_ok r ->
  exists b r', obu_body header r = Some (b, r') /\ reader_next r r' /\
    (forall pl, b = Some pl -> bytes pl).
Proof.
  intros Hr. pose proof Hr as [Hb Hs]. unfold obu_body.
  assert (0 <= Length r) as Hl by (unfold Length; lia).
  destruct (ObuHasSize header); cbn [negb].
  - destruct (uvarint_loop_safe 10 0 0 r Hr ltac:(lia) ltac:(lia)) as (sz & r1 & Hv & Hn & Hsz).
    unfold ReadUVarint. rewrite Z.mul_0_r in Hv. rewrite Hv. cbn [mbind option_bind].
    pose proof (reader_next_ok _ _ Hr Hn) as Hr1.
    destruct sz as [[size len]|]; [|by exists None, r1].
    destruct (Hsz size len eq_refl) as [H0 Hlen].
    destruct (Z.ltb_spec (Length r1) size); [by exists None, r1|].
    destruct (Consume_next r1 size Hr1 ltac:(lia)) as [_ Hc].
    pose proof (reader_next_trans _ _ _ Hn Hc).
    destruct (Z.eqb_spec size 0).
    + eexists _, _. split_and!; [reflexivity|done|]. intros pl [= <-]. forall_lit.
    + destruct Hr1 as [Hb1 Hs1]. unfold Length in *. rewrite !rd_range_Some by lia.
      cbn [mbind option_bind]. eexists _, _. split_and!; [reflexivity|done|].
      intros pl [= <-]. apply bytes_app. by split; apply bytes_take, bytes_drop.
  - rewrite rd_range_Some by (unfold Length in *; lia). cbn [mbind option_bind].
    destruct (Consume_next r (Length r) Hr ltac:(lia)) as [_ Hc].
    eexists _, _. split_and!; [reflexivity|done|].
    intros pl [= <-]. by apply bytes_take, bytes_drop.
Qed.

(** What the parser guarantees of each OBU. *)
Definition obu_ok (o : Obu) : Prop :=
  bytes (obu_payload o) /\ obu_size o = zlen (obu_payload o) /\ 1 <= obu_size o.

Lemma parse_obu_safe r :
  reader_ok r -> 0 < Length r ->
  exists o r', parse_obu r = Some (o, r') /\ reader_next r r' /\ start_ r < start_ r' /\
    (forall ob, o = Some ob -> obu_ok ob).
Proof.
  intros Hr Hl. unfold parse_obu.
  destruct (ReadUInt8_safe r Hr) as (h & r1 & -> & Hn1 & Hh0 & Hh). cbn [mbind option_bind].
  destruct h as [h|]; [|specialize (Hh0 eq_refl); lia].
  destruct (Hh h eq_refl) as [Hb Hs1]. pose proof (reader_next_ok _ _ Hr Hn1) as Hr1.
  assert (exists ext r2, (if ObuHasExtension h
      then if Length r1 =? 0 then Some (None, r1)
           else '(e, r) ← ReadUInt8 r1;
                Some (match e with Some e => Some (Some e) | None => None end, r)
      else Some (Some None, r1)) = Some (ext, r2) /\ reader_next r1 r2 /\
      (forall e, ext = Some (Some e) -> is_u8 e)) as (ext & r2 & -> & Hn2 & He).
  { destruct (ObuHasExtension h); [|exists (Some None), r1; split_and!; [done| |done];
      by apply reader_next_refl].
    destruct (Length r1 =? 0); [exists None, r1; split_and!; [done| |done];
      by apply reader_next_refl|].
    destruct (ReadUInt8_safe r1 Hr1) as (e & r2 & -> & Hn2 & _ & He). cbn [mbind option_bind].
    eexists _, r2. split_and!; [reflexivity|done|]. intros x Hx.
    destruct e as [e|]; [|done]. injection Hx as <-. by apply He. }
  cbn [mbind option_bind]. pose proof (reader_next_ok _ _ Hr1 Hn2) as Hr2.
  pose proof (reader_next_trans _ _ _ Hn1 Hn2) as Hn12.
  destruct ext as [ext|]; [|exists None, r2; split_and!; [done|done|destruct Hn2; lia|done]].
  destruct (obu_body_safe h r2 Hr2) as (b & r3 & -> & Hn3 & Hbody). cbn [mbind option_bind].
  pose proof (reader_next_trans _ _ _ Hn12 Hn3) as Hn.
  assert (start_ r < start_ r3) by (destruct Hn2, Hn3; lia).
  destruct b as [pl|]; [|by exists None, r3].
  eexists _, r3. split_and!; [reflexivity|done|done|]. intros ob [= <-].
  pose proof (zlen_nonneg pl). specialize (Hbody pl eq_refl).
  unfold obu_ok. cbn [obu_payload obu_size].
  destruct ext as [e|]; rewrite ?bytes_cons, !zlen_cons; split_and!; try done; try lia.
  by apply He.
Qed.

Lemma parse_obus_loop_safe fuel : forall r acc,
  reader_ok r -> Length r < Z.of_nat fuel -> Forall obu_ok acc ->
  exists l, parse_obus_loop fuel r acc = Some l /\ Forall obu_ok l.
Proof.
  induction fuel as [|fuel IH]; intros r acc Hr Hf Ha; [destruct Hr; unfold Length in *; lia|].
  cbn [parse_obus_loop]. destruct (Z.ltb_spec 0 (Length r)) as [Hl|]; [|eauto].
  destruct (parse_obu_safe r Hr Hl) as (o & r1 & -> & Hn & Hs & Ho). cbn [mbind option_bind].
  destruct o as [o|]; [|exists []; split; [done|apply Forall_nil_2]].
  apply IH; [by eapply reader_next_ok| |].
  - unfold Length in *. destruct Hn as [-> Hn]. lia.
  - apply Forall_app. split; [done|]. apply Forall_cons_2; [by apply Ho|apply Forall_nil_2].
Qed.

Lemma ParseObus_safe payload :
  bytes payload ->
  exists obus, ParseObus payload (zlen payload) = Some obus /\ Forall obu_ok obus.
Proof.
  intros Hb. unfold ParseObus. rewrite rd_range_all. cbn [mbind option_bind].
  pose proof (zlen_nonneg payload). apply parse_obus_loop_safe; [|unfold Length; cbn; lia|apply Forall_nil_2].
  split; [done|cbn; lia].
Qed.

(** ** The format of OBUs *)

(** LEB128 in as few bytes as the value needs. *)
Fixpoint leb128 (fuel : nat) (v : Z) : list Z :=
  match fuel with
  | O => []
  | S fuel' => if v <? 128 then [v] else (v `mod` 128 + 128) :: leb128 fuel' (v / 128)
  end.

(** An OBU as an encoder writes it: header, extension, data, and whether the
    size field is present. *)
Record ObuUnit := mkUnit {
  u_header : Z;
  u_ext : option Z;
  u_data : list Z;
}.

Definition unit_bytes (u : ObuUnit) : list Z :=
  u_header u :: match u_ext u with Some e => [e] | None => [] end ++
  (if ObuHasSize (u_header u) then leb128 5 (zlen (u_data u)) else []) ++ u_data u.

Definition unit_ok (u : ObuUnit) : Prop :=
  is_u8 (u_header u) /\ ObuHasExtension (u_header u) = bool_decide (is_Some (u_ext u)) /\
  bytes (u_data u) /\ zlen (u_data u) < 2147483648 /\
  match u_ext u with Some e => is_u8 e | None => True end.

(** What the parser makes of it: the bytes it occupied. *)
Definition obu_of_unit (u : ObuUnit) : Obu :=
  mkObu (u_header u) (u_ext u) (unit_bytes u) (zlen (unit_bytes u)).

Lemma ReadUInt8_At m p b r :
  At m p (b :: r) -> ReadUInt8 (mkReader m p) = Some (Some b, mkReader m (p + 1)) /\ At m (p + 1) r.
Proof.
  intros H. pose proof (At_len _ _ _ H) as Hl. rewrite zlen_cons in Hl. pose proof (zlen_nonneg r).
  unfold ReadUInt8, Length. cbn [bytes_ start_]. rewrite (proj2 (Z.ltb_ge _ _)) by lia.
  apply At_rd in H as [-> H]. done.
Qed.

(** Seven more bits. *)
Lemma lor_seven v b i :
  0 <= i -> 0 <= v < 2 ^ i -> 0 <= b < 128 -> b * 2 ^ i < 18446744073709551616 ->
  Z.lor v (u64 (Z.shiftl b i)) = v + b * 2 ^ i.
Proof.
  intros. rewrite Z.shiftl_mul_pow2 by lia.
  assert (0 < 2 ^ i) by (apply Z.pow_pos_nonneg; lia).
  rewrite u64_id by (unfold is_u64; nia). rewrite Z.lor_comm, lor_add by done. lia.
Qed.

(** The number of bytes of the encoding: the code's formula is right for sizes
    below [2^35]. *)
Lemma uvarint_leb128 fuel : forall n k v acc m p r,
  0 <= v < 128 ^ Z.of_nat fuel -> (0 < fuel <= n)%nat -> 0 <= k -> k + Z.of_nat fuel <= 8 ->
  0 <= acc < 2 ^ (7 * k) ->
  At m p (leb128 fuel v ++ r) ->
  uvarint_loop n (7 * k) acc (mkReader m p) =
    Some (Some (acc + v * 2 ^ (7 * k), k + zlen (leb128 fuel v)),
          mkReader m (p + zlen (leb128 fuel v))) /\ At m (p + zlen (leb128 fuel v)) r.
Proof.
  induction fuel as [|fuel IH]; intros n k v acc m p r Hv Hn Hk Hk8 Hacc H; [lia|].
  destruct n as [|n]; [lia|]. cbn [leb128 uvarint_loop] in *.
  assert (2 ^ (7 * k) <= 2 ^ 49) by (apply Z.pow_le_mono_r; lia).
  destruct (Z.ltb_spec v 128) as [Hs|Hs].
  - cbn [app] in H. apply ReadUInt8_At in H as [-> H]. cbn [mbind option_bind]. cbv zeta.
    assert (Z.land v 0x7F = v) as ->
      by (change 0x7F with (Z.ones 7); rewrite Z.land_ones by lia; apply Z.mod_small; lia).
    rewrite lor_seven by (lia || nia). rewrite (proj2 (Z.ltb_lt _ _)) by lia.
    rewrite zlen_cons. change (zlen (@nil Z)) with 0. rewrite !Z.add_0_r.
    split; [|done]. do 4 f_equal. case_if; zdm.
  - cbn [app] in H. apply ReadUInt8_At in H as [-> H]. cbn [mbind option_bind]. cbv zeta.
    assert (0 <= v `mod` 128 < 128) by zdm.
    assert (Z.land (v `mod` 128 + 128) 0x7F = v `mod` 128) as ->
      by (change 0x7F with (Z.ones 7); rewrite Z.land_ones by lia; change (2 ^ 7) with 128; zdm).
    rewrite lor_seven by (lia || nia). rewrite (proj2 (Z.ltb_ge _ _)) by lia.
    replace (7 * k + 7) with (7 * (k + 1)) by lia.
    assert (2 ^ (7 * (k + 1)) = 2 ^ (7 * k) * 128) as Hp
      by (replace (7 * (k + 1)) with (7 * k + 7) by lia; rewrite Z.pow_add_r by lia; done).
    rewrite Nat2Z.inj_succ, Z.pow_succ_r in Hv by lia.
    assert (fuel <> 0)%nat by (intros ->; cbn in Hv; lia).
    edestruct (IH n (k + 1) (v / 128)) as [-> H']; [|lia|lia|lia| |exact H|].
    + split; [zdm|]. apply Z.div_lt_upper_bound; lia.
    + rewrite Hp. nia.
    + rewrite zlen_cons.
      replace (p + (1 + zlen (leb128 fuel (v / 128)))) with (p + 1 + zlen (leb128 fuel (v / 128)))
        by lia.
      split; [|done]. do 4 f_equal; [|lia].
      rewrite Hp. pose proof (Z.div_mod v 128 ltac:(lia)). nia.
Qed.

Lemma leb128_bytes n : forall v, 0 <= v -> bytes (leb128 n v).
Proof.
  induction n as [|n IH]; intros v Hv; cbn [leb128]; [apply Forall_nil_2|].
  destruct (Z.ltb_spec v 128); apply bytes_cons; unfold is_u8;
    (split; [zdm|]); [apply Forall_nil_2|apply IH; zdm].
Qed.

Lemma obu_body_At h m p data r :
  bytes data -> zlen data < 2147483648 ->
  (ObuHasSize h = false -> r = []) ->
  At m p ((if ObuHasSize h then leb128 5 (zlen data) else []) ++ data ++ r) ->
  exists q, obu_body h (mkReader m p) =
    Some (Some ((if ObuHasSize h then leb128 5 (zlen data) else []) ++ data), mkReader m q) /\
    At m q r.
Proof.
  intros Hb Hz Hr H. unfold obu_body. pose proof (zlen_nonneg data). pose proof (zlen_nonneg r).
  destruct (ObuHasSize h) eqn:Es; cbn [negb].
  - pose proof (At_split _ _ _ H) as (a & Hm & Hpa).
    destruct (uvarint_leb128 5 10 0 (zlen data) 0 m p (data ++ r)) as [Hu H'];
      [change (128 ^ Z.of_nat 5) with 34359738368; lia|lia|lia|lia|cbn; lia|exact H|].
    rewrite Z.mul_0_r in Hu. change (2 ^ 0) with 1 in Hu. rewrite Z.mul_1_r, Z.add_0_l in Hu.
    unfold ReadUVarint. rewrite Hu. cbn [mbind option_bind]. rewrite !Z.add_0_l.
    pose proof (At_len _ _ _ H') as Hl. rewrite zlen_app in Hl.
    unfold Length. cbn [bytes_ start_]. rewrite (proj2 (Z.ltb_ge _ _)) by lia.
    unfold Consume, Length. cbn [bytes_ start_]. rewrite (proj2 (Z.ltb_ge _ _)) by lia.
    destruct (Z.eqb_spec (zlen data) 0) as [E0|].
    + rewrite E0. assert (data = []) as -> by (destruct data; [done|rewrite zlen_cons in E0; len]).
      eexists. split; [reflexivity|]. rewrite Z.add_0_r. exact H'.
    + rewrite (At_rd_range _ _ _ _ H'). cbn [mbind option_bind].
      replace (p + zlen (leb128 5 (zlen data)) - zlen (leb128 5 (zlen data))) with p by lia.
      rewrite (At_rd_range _ _ _ _ H). cbn [mbind option_bind].
      eexists. split; [reflexivity|]. cbn [snd]. by apply At_app.
  - cbn [app] in *. rewrite (Hr eq_refl) in *.
    pose proof (At_len _ _ _ H) as Hl. rewrite app_nil_r in Hl. unfold Length. cbn [bytes_ start_].
    rewrite <- Hl. rewrite (At_rd_range _ _ _ _ H). cbn [mbind option_bind].
    unfold Consume, Length. cbn [bytes_ start_]. rewrite (proj2 (Z.ltb_ge _ _)) by lia.
    eexists. split; [reflexivity|]. cbn [snd]. by apply At_app.
Qed.

Lemma parse_obu_At u m p r :
  unit_ok u -> (ObuHasSize (u_header u) = false -> r = []) ->
  At m p (unit_bytes u ++ r) ->
  exists q, parse_obu (mkReader m p) = Some (Some (obu_of_unit u), mkReader m q) /\ At m q r.
Proof.
  intros (Hh & Hx & Hb & Hz & He) Hr H. unfold parse_obu, unit_bytes in *.
  cbn [app] in H. apply ReadUInt8_At in H as [-> H]. cbn [mbind option_bind]. rewrite Hx.
  rewrite <- !app_assoc in H. destruct (u_ext u) as [e|] eqn:Ee.
  - rewrite bool_decide_true by eauto. cbn [app] in H.
    pose proof (At_len _ _ _ H) as Hl. rewrite zlen_cons in Hl.
    unfold Length. cbn [bytes_ start_].
    rewrite (proj2 (Z.eqb_neq _ _)) by (match type of Hl with 1 + zlen ?l = _ =>
      pose proof (zlen_nonneg l) end; lia).
    apply ReadUInt8_At in H as [-> H]. cbn [mbind option_bind].
    destruct (obu_body_At _ _ _ _ _ Hb Hz Hr H) as (q & -> & H'). cbn [mbind option_bind].
    exists q. split; [|done]. unfold obu_of_unit, unit_bytes. rewrite Ee. cbn [app].
    do 3 f_equal. rewrite !zlen_cons. f_equal. lia.
  - rewrite bool_decide_false by (intros [? [=]]). cbn [mbind option_bind app] in *.
    destruct (obu_body_At _ _ _ _ _ Hb Hz Hr H) as (q & -> & H'). cbn [mbind option_bind].
    exists q. split; [|done]. unfold obu_of_unit, unit_bytes. rewrite Ee. cbn [app].
    do 3 f_equal. rewrite !zlen_cons. done.
Qed.

(** A temporal unit: only its last OBU may leave out the size. *)
Fixpoint units_ok (us : list ObuUnit) : Prop :=
  match us with
  | [] => True
  | u :: us' => unit_ok u /\ (ObuHasSize (u_header u) = false -> us' = []) /\ units_ok us'
  end.

Lemma parse_obus_At us : forall fuel m p acc,
  units_ok us -> At m p (flat_map unit_bytes us) -> (length us < fuel)%nat ->
  parse_obus_loop fuel (mkReader m p) acc = Some (acc ++ map obu_of_unit us).
Proof.
  induction us as [|u us IH]; intros [|fuel] m p acc Hok H Hf; try (cbn in Hf; lia);
    pose proof (At_len _ _ _ H) as Hl; cbn [parse_obus_loop flat_map map] in *;
    unfold Length; cbn [bytes_ start_].
  - change (zlen (@nil Z)) with 0 in Hl. rewrite (proj2 (Z.ltb_ge _ _)) by lia. by rewrite app_nil_r.
  - destruct Hok as (Hu & Hlast & Hus).
    rewrite (proj2 (Z.ltb_lt _ _))
      by (unfold unit_bytes at 1 in Hl; cbn [app] in Hl; rewrite zlen_cons in Hl;
          match type of Hl with 1 + zlen ?l = _ => pose proof (zlen_nonneg l) end; lia).
    destruct (parse_obu_At u m p (flat_map unit_bytes us) Hu) as (q & -> & H');
      [intros E; by rewrite (Hlast E)|done|].
    cbn [mbind option_bind]. rewrite (IH fuel m q); [by rewrite <- app_assoc|done|done|].
    cbn in Hf. lia.
Qed.

Lemma units_length us : Z.of_nat (length us) <= zlen (flat_map unit_bytes us).
Proof.
  induction us as [|u us IH]; [done|]. cbn [flat_map length]. rewrite zlen_app.
  unfold unit_bytes at 1. rewrite zlen_cons.
  match goal with |- _ <= 1 + zlen ?l + _ => pose proof (zlen_nonneg l) end. lia.
Qed.

(** ** Packets of a frame *)

(** The pieces an OBU is cut into. *)
Definition obu_pieces (o : Obu) : list (list Z) :=
  if obu_size o <=? MAX_NALU_LEN then [obu_payload o] else chunks (obu_payload o).

Definition frame_pieces (obus : list Obu) : list (list Z) := concat (map obu_pieces obus).

Definition aggr_header (key : bool) (n i : nat) : Z :=
  128 * Z.b2z (negb (Nat.eqb i 0)) + 64 * Z.b2z (negb (Nat.eqb (S i) n)) + 16 +
  8 * Z.b2z (key && Nat.eqb i 0).

Definition av1_payloads (key : bool) (n : nat) (pieces : list (list Z)) : list (list Z) :=
  imap (fun i d => aggr_header key n i :: d) pieces.

Lemma SetAv1AggrHeader_eq (z y k : bool) :
  SetAv1AggrHeader (if z then 1 else 0) (if y then 1 else 0) 1 (if k then 1 else 0) =
    128 * Z.b2z z + 64 * Z.b2z y + 16 + 8 * Z.b2z k.
Proof. by destruct z, y, k. Qed.

Lemma aggr_header_u8 key n i : is_u8 (aggr_header key n i).
Proof.
  unfold aggr_header, is_u8.
  destruct (negb (Nat.eqb i 0)), (negb (Nat.eqb (S i) n)), (key && Nat.eqb i 0); cbn [Z.b2z]; lia.
Qed.

Lemma obu_pieces_ok o :
  obu_ok o -> Forall (fun d => bytes d /\ zlen d <= MAX_NALU_LEN) (obu_pieces o).
Proof.
  intros (Hb & Hs & _). unfold obu_pieces. destruct (Z.leb_spec (obu_size o) MAX_NALU_LEN).
  - apply Forall_cons_2; [split; [done|lia]|apply Forall_nil_2].
  - apply Forall_lookup_2. intros i d Hd. apply chunks_lookup in Hd as [_ ->].
    split; [by apply bytes_chunk|apply chunk_zlen].
Qed.

Lemma frame_pieces_ok obus :
  Forall obu_ok obus -> Forall (fun d => bytes d /\ zlen d <= MAX_NALU_LEN) (frame_pieces obus).
Proof.
  induction 1 as [|o obus Ho _ IH]; [apply Forall_nil_2|].
  unfold frame_pieces in *. cbn [map concat]. apply Forall_app. split; [by apply obu_pieces_ok|done].
Qed.

Lemma obu_pieces_nonempty o : obu_ok o -> (1 <= length (obu_pieces o))%nat.
Proof.
  intros (_ & Hs & H1). unfold obu_pieces. case_if; [done|]. rewrite chunks_length.
  pose proof (packet_count_spec _ (zlen_nonneg (obu_payload o))). unfold MAX_NALU_LEN in *. lia.
Qed.

Lemma concat_obu_pieces o : concat (obu_pieces o) = obu_payload o.
Proof. unfold obu_pieces. case_if; [cbn; by rewrite app_nil_r|apply concat_chunks]. Qed.

Lemma concat_frame_pieces obus : concat (frame_pieces obus) = concat (map obu_payload obus).
Proof.
  unfold frame_pieces. induction obus as [|o obus IH]; [done|].
  cbn [map concat]. by rewrite concat_app, IH, concat_obu_pieces.
Qed.

Lemma av1_payloads_app key n a b :
  av1_payloads key n (a ++ b) =
  av1_payloads key n a ++ imap (fun j d => aggr_header key n (length a + j) :: d) b.
Proof. unfold av1_payloads. rewrite imap_app. done. Qed.

(** One packet, numbered [k + j] of the frame. *)
Lemma av1_push_step st i b ts h data acc :
  pz_ok st -> is_u32 ts -> is_u8 h -> bytes data -> zlen data <= MAX_NALU_LEN ->
  av1_push (advance (S i) st) b ts h data acc =
    Some (acc ++ packets [frame_of (advance (S i) st) b (pz_payload_type st) ts (h :: data) None]).
Proof.
  intros Hok Hts Hh Hb Hz.
  assert (bytes (h :: data)) as Hb' by (by apply bytes_cons).
  pose proof (push_step st i b ts (h :: data) acc Hok Hts Hb') as Hp.
  rewrite zlen_cons in Hp. specialize (Hp ltac:(lia)). unfold push_packet in Hp.
  unfold av1_push. cbn [app]. cbv zeta.
  change (pz_payload_type (advance (S i) st)) with (pz_payload_type st).
  destruct (Build new_packet _ _) as [[ok p]|]; cbn [mbind option_bind] in *; [|done].
  injection Hp as Hp. destruct ok; [by rewrite Hp|].
  apply (f_equal length) in Hp. rewrite length_app in Hp. cbn in Hp. lia.
Qed.

Lemma ceil_packet_count s :
  0 <= s -> (s + MAX_NALU_LEN - 1) / MAX_NALU_LEN = packet_count s.
Proof. intros. unfold packet_count, MAX_NALU_LEN. case_if; zdm. Qed.

(** The position in the frame of the packets of the OBU of index [i]. *)
Lemma obu_position obus i o :
  Forall obu_ok obus -> obus !! i = Some o ->
  let k := length (frame_pieces (take i obus)) in
  (k = 0 <-> i = 0)%nat /\
  (k + length (obu_pieces o) <= length (frame_pieces obus))%nat /\
  (k + length (obu_pieces o) = length (frame_pieces obus) <-> S i = length obus)%nat.
Proof.
  intros Ho Hi k.
  assert (forall l, Forall obu_ok l -> length (frame_pieces l) = 0%nat <-> l = []) as Hz.
  { intros [|x l] Hl; [done|]. apply Forall_cons_1 in Hl as [Hx _].
    pose proof (obu_pieces_nonempty x Hx). unfold frame_pieces. cbn [map concat].
    rewrite length_app. split; [lia|done]. }
  assert (length (frame_pieces obus) = k + length (obu_pieces o) +
    length (frame_pieces (drop (S i) obus)))%nat as Hs.
  { unfold k. rewrite <- (take_drop_middle obus i o Hi) at 1. unfold frame_pieces.
    rewrite map_app, concat_app, length_app. cbn [map concat]. rewrite length_app. lia. }
  pose proof (lookup_lt_Some _ _ _ Hi) as Hl. split; [|split].
  - unfold k. rewrite Hz by (by apply Forall_take).
    split; [intros E; apply (f_equal length) in E; rewrite length_take in E; cbn in E; lia|
            by intros ->].
  - lia.
  - rewrite Hs. assert (length (frame_pieces (drop (S i) obus)) = 0%nat <-> S i = length obus) as Hd.
    { rewrite Hz by (by apply Forall_drop). split.
      - intros E. apply (f_equal length) in E. rewrite length_drop in E. cbn in E. lia.
      - intros E. apply drop_ge. lia. }
    rewrite <- Hd. lia.
Qed.

Lemma last_bit (obus k len N i j : nat) :
  (k + len <= N)%nat -> (k + len = N <-> S i = obus)%nat -> (j < len)%nat ->
  (Z.of_nat i =? Z.of_nat obus - 1) && (Z.of_nat j =? Z.of_nat len - 1) = Nat.eqb (S (k + j)) N.
Proof.
  intros H1 H2 H3. destruct (Z.eqb_spec (Z.of_nat i) (Z.of_nat obus - 1)),
    (Z.eqb_spec (Z.of_nat j) (Z.of_nat len - 1)), (Nat.eqb_spec (S (k + j)) N); cbn [andb]; lia.
Qed.

Lemma first_bit (k i j : nat) :
  (k = 0 <-> i = 0)%nat ->
  (0 <? Z.of_nat i) || (0 <? Z.of_nat j) = negb (Nat.eqb (k + j) 0).
Proof.
  intros H. destruct (Z.ltb_spec 0 (Z.of_nat i)), (Z.ltb_spec 0 (Z.of_nat j)),
    (Nat.eqb_spec (k + j) 0); cbn [orb negb]; lia.
Qed.

Lemma key_bit (key : bool) (k i j : nat) :
  (k = 0 <-> i = 0)%nat ->
  key && (Z.of_nat i =? 0) && (Z.of_nat j =? 0) = key && Nat.eqb (k + j) 0.
Proof.
  intros H. destruct key; [|done]. destruct (Z.eqb_spec (Z.of_nat i) 0),
    (Z.eqb_spec (Z.of_nat j) 0), (Nat.eqb_spec (k + j) 0); cbn [andb]; lia.
Qed.

Lemma fragment_read (payload : list Z) (j : nat) :
  Z.of_nat j < packet_count (zlen payload) ->
  rd_range payload (Z.of_nat j * MAX_NALU_LEN)
    (if Z.of_nat j =? packet_count (zlen payload) - 1
     then zlen payload - Z.of_nat j * MAX_NALU_LEN else MAX_NALU_LEN)
  = Some (chunk payload j).
Proof.
  intros Hj. pose proof (packet_count_spec _ (zlen_nonneg payload)) as Hc.
  assert (Z.of_nat j * MAX_NALU_LEN = Z.of_nat (j * Z.to_nat MAX_NALU_LEN)) as Hoff
    by (unfold MAX_NALU_LEN; lia).
  destruct (Z.eqb_spec (Z.of_nat j) (packet_count (zlen payload) - 1)) as [He|He];
    rewrite rd_range_Some by (unfold MAX_NALU_LEN in *; lia); f_equal; unfold chunk;
    rewrite Hoff, Nat2Z.id; [|done].
  rewrite !firstn_all2; [done| |]; rewrite length_drop; unfold zlen, MAX_NALU_LEN in *; lia.
Qed.

Section ObuStep.
Context (st : Packetizer) (ts : Z) (obus : list Obu).
Context (Hst : pz_ok st) (Hts : is_u32 ts) (Hobus : Forall obu_ok obus).

Let N := length (frame_pieces obus).
Let key := current_frame_is_key_frame st.
Let sent (i : nat) : list (list Z) := av1_payloads key N (frame_pieces (take i obus)).

Lemma sent_length i : length (sent i) = length (frame_pieces (take i obus)).
Proof. unfold sent, av1_payloads. apply length_imap. Qed.

Lemma av1_fragment_spec i o j d pkts :
  obus !! i = Some o -> MAX_NALU_LEN < obu_size o ->
  obu_pieces o !! j = Some d ->
  let k := length (frame_pieces (take i obus)) in
  av1_fragment_step (zlen obus) (Z.of_nat i) (packet_count (obu_size o)) o ts
    (advance (k + j) st) (Z.of_nat j) pkts =
  Some (pkts ++ packets [frame_of (advance (S (k + j)) st) (Nat.eqb (S (k + j)) N)
                          (pz_payload_type st) ts (aggr_header key N (k + j) :: d) None],
        advance (S (k + j)) st).
Proof.
  intros Hi Hbig Hd k.
  destruct (obu_position obus i o Hobus Hi) as (Hk0 & Hle & Hlast).
  pose proof (Forall_lookup_1 _ _ _ _ Hobus Hi) as Ho. pose proof Ho as (Hb & Hs & _).
  pose proof (lookup_lt_Some _ _ _ Hd) as Hj.
  assert (obu_pieces o = chunks (obu_payload o)) as Hp
    by (unfold obu_pieces; rewrite (proj2 (Z.leb_gt _ _)) by lia; done).
  rewrite Hp in Hd. apply chunks_lookup in Hd as [Hjn ->].
  assert (packet_count (obu_size o) = Z.of_nat (length (obu_pieces o))) as Hn
    by (rewrite Hp, chunks_length, Hs; lia).
  unfold av1_fragment_step. cbv zeta. rewrite advance_S.
  rewrite Hs. rewrite fragment_read by done. cbn [mbind option_bind].
  rewrite <- Hs, Hn. unfold zlen at 1 2.
  rewrite (last_bit _ k (length (obu_pieces o)) N i j Hle Hlast Hj).
  rewrite (first_bit k i j Hk0), (key_bit _ k i j Hk0), SetAv1AggrHeader_eq.
  change (current_frame_is_key_frame (advance (S (k + j)) st)) with key.
  fold (aggr_header key N (k + j)).
  rewrite av1_push_step; [done|done|done|apply aggr_header_u8|by apply bytes_chunk|apply chunk_zlen].
Qed.

Lemma av1_obu_spec i o :
  obus !! i = Some o ->
  let k := length (frame_pieces (take i obus)) in
  av1_obu_step obus ts (advance k st) (Z.of_nat i) (packets (train st ts N (sent i))) =
    Some (packets (train st ts N (sent (S i))),
          advance (length (frame_pieces (take (S i) obus))) st).
Proof.
  intros Hi k.
  assert (frame_pieces (take (S i) obus) = frame_pieces (take i obus) ++ obu_pieces o) as Hfp.
  { rewrite (take_S_r _ _ _ Hi). unfold frame_pieces. rewrite map_app, concat_app. cbn.
    by rewrite app_nil_r. }
  assert (sent (S i) = sent i ++ imap (fun j d => aggr_header key N (k + j) :: d) (obu_pieces o))
    as Hsent by (unfold sent; by rewrite Hfp, av1_payloads_app).
  rewrite Hsent, Hfp, length_app. fold k.
  destruct (obu_position obus i o Hobus Hi) as (Hk0 & Hle & Hlast). fold k N in Hk0, Hle, Hlast.
  pose proof (Forall_lookup_1 _ _ _ _ Hobus Hi) as Ho. pose proof Ho as (Hb & Hs & _).
  unfold av1_obu_step. rewrite rd_nat, Hi. cbn [mbind option_bind]. cbv zeta.
  destruct (Z.leb_spec (obu_size o) MAX_NALU_LEN) as [Hsm|Hbig].
  - assert (obu_pieces o = [obu_payload o]) as Hp
      by (unfold obu_pieces; rewrite (proj2 (Z.leb_le _ _)) by lia; done).
    rewrite Hp in *. cbn [imap length] in *. rewrite advance_S, Nat.add_0_r, Nat.add_1_r.
    pose proof (last_bit (length obus) k 1 N i 0 Hle Hlast ltac:(lia)) as Hl.
    rewrite andb_true_r, Nat.add_0_r in Hl. unfold zlen at 1 2. rewrite Hl.
    pose proof (first_bit k i 0 Hk0) as Hf. rewrite orb_false_r, Nat.add_0_r in Hf. rewrite Hf.
    pose proof (key_bit key k i 0 Hk0) as Hk. rewrite andb_true_r, Nat.add_0_r in Hk.
    change (current_frame_is_key_frame (advance (S k) st)) with key. rewrite Hk, SetAv1AggrHeader_eq.
    fold (aggr_header key N k).
    rewrite av1_push_step; [|done|done|apply aggr_header_u8|done|lia].
    cbn [mbind option_bind]. rewrite train_snoc, sent_length. fold k.
    unfold packets. by rewrite map_app.
  - rewrite ceil_packet_count by (unfold MAX_NALU_LEN in *; lia).
    set (l2 := imap (fun j d => aggr_header key N (k + j) :: d) (obu_pieces o)).
    assert (Z.to_nat (packet_count (obu_size o)) = length l2) as ->.
    { unfold l2. rewrite length_imap. unfold obu_pieces.
      rewrite (proj2 (Z.leb_gt _ _)) by lia. by rewrite chunks_length, Hs. }
    assert (length (sent i) = k) as Hk by apply sent_length.
    pose proof (packet_loop_train (av1_fragment_step (zlen obus) (Z.of_nat i)
      (packet_count (obu_size o)) o ts) st ts N l2 (sent i) 0) as G.
    rewrite length_app, !Hk in G.
    assert (length l2 = length (obu_pieces o)) as Hl2 by (unfold l2; apply length_imap).
    rewrite <- Hl2. apply G.
    intros j pl pkts Hj. unfold l2 in Hj. rewrite list_lookup_imap in Hj.
    apply fmap_Some in Hj as (d & Hd & ->). rewrite Z.add_0_l. by apply av1_fragment_spec.
Qed.

Lemma av1_obus_loop n : forall i,
  (i + n = length obus)%nat ->
  packet_loop (av1_obu_step obus ts) n (advance (length (frame_pieces (take i obus))) st)
    (Z.of_nat i) (packets (train st ts N (sent i))) =
  Some (packets (train st ts N (sent (length obus))),
        advance (length (frame_pieces obus)) st).
Proof.
  induction n as [|n IH]; intros i Hi; cbn [packet_loop].
  - replace i with (length obus) by lia. by rewrite firstn_all.
  - destruct (lookup_lt_is_Some_2 obus i) as [o Ho]; [lia|].
    rewrite (av1_obu_spec i o Ho). cbn [mbind option_bind].
    replace (Z.of_nat i + 1) with (Z.of_nat (S i)) by lia. apply IH. lia.
Qed.
End ObuStep.

Lemma BuildAv1_train st payload obus ts :
  pz_ok st -> is_u32 ts -> Forall obu_ok obus -> ParseObus payload (zlen payload) = Some obus ->
  let pls := av1_payloads (current_frame_is_key_frame st) (length (frame_pieces obus))
               (frame_pieces obus) in
  BuildAv1 st payload (zlen payload) ts =
    Some (packets (train st ts (length pls) pls), advance (length pls) st).
Proof.
  intros Hok Hts Ho Hp pls. unfold BuildAv1. rewrite Hp. cbn [mbind option_bind].
  pose proof (av1_obus_loop st ts obus Hok Hts Ho (length obus) 0 eq_refl) as G.
  rewrite take_0 in G. unfold frame_pieces at 1 in G. cbn [map concat length] in G.
  rewrite pz_set_seq_id in G by apply Hok.
  rewrite firstn_all in G.
  assert (length pls = length (frame_pieces obus)) as -> by (unfold pls, av1_payloads; apply length_imap).
  exact G.
Qed.

Lemma av1_payloads_ok key n obus :
  Forall obu_ok obus ->
  Forall (fun pl => bytes pl /\ zlen pl <= 2 + MAX_NALU_LEN)
    (av1_payloads key n (frame_pieces obus)).
Proof.
  intros Ho. apply Forall_lookup_2. intros i pl Hi. unfold av1_payloads in Hi.
  rewrite list_lookup_imap in Hi. apply fmap_Some in Hi as (d & Hd & ->).
  apply (Forall_lookup_1 _ _ _ _ (frame_pieces_ok _ Ho)) in Hd as [Hb Hz].
  rewrite bytes_cons, zlen_cons. split; [split; [apply aggr_header_u8|done]|lia].
Qed.

#[export] Instance Av1_train : TrainBuilder (fun st p ts => BuildAv1 st p (zlen p) ts).
Proof.
  constructor. intros st payload ts Hok Hts Hb Hz.
  destruct (ParseObus_safe payload Hb) as (obus & Hp & Ho).
  eexists. split; [by apply BuildAv1_train|]. by apply av1_payloads_ok.
Qed.

(** The count the code reports for a varint of nine bytes is eight. *)
Lemma uvarint_nine_bytes :
  ReadUVarint (mkReader (replicate 8 128 ++ [1]) 0) =
    Some (Some (72057594037927936, 8), mkReader (replicate 8 128 ++ [1]) 9).
Proof. reflexivity. Qed.

Lemma concat_units us : concat (map obu_payload (map obu_of_unit us)) = flat_map unit_bytes us.
Proof. rewrite map_map. rewrite flat_map_concat_map. done. Qed.

Lemma ParseObus_units us :
  units_ok us ->
  ParseObus (flat_map unit_bytes us) (zlen (flat_map unit_bytes us)) = Some (map obu_of_unit us).
Proof.
  intros Hok. unfold ParseObus. rewrite rd_range_all. cbn [mbind option_bind].
  rewrite (parse_obus_At us _ _ 0 []); [done|done|apply At_start|].
  pose proof (units_length us). lia.
Qed.

Lemma unit_bytes_ok u : unit_ok u -> bytes (unit_bytes u).
Proof.
  intros (Hh & _ & Hb & _ & He). unfold unit_bytes. apply bytes_cons. split; [done|].
  apply bytes_app. split; [destruct (u_ext u); [by apply Forall_cons_2, Forall_nil_2|apply Forall_nil_2]|].
  apply bytes_app. split; [|done]. destruct (ObuHasSize (u_header u)); [|apply Forall_nil_2].
  apply leb128_bytes, zlen_nonneg.
Qed.

Lemma units_bytes_ok us : units_ok us -> bytes (flat_map unit_bytes us).
Proof.
  induction us as [|u us IH]; [intros _; apply Forall_nil_2|].
  intros (Hu & _ & Hus). cbn [flat_map]. apply bytes_app. split; [by apply unit_bytes_ok|by apply IH].
Qed.

Lemma units_obus_ok us : units_ok us -> Forall obu_ok (map obu_of_unit us).
Proof.
  induction us as [|u us IH]; [intros _; apply Forall_nil_2|].
  intros (Hu & _ & Hus). cbn [map]. apply Forall_cons_2; [|by apply IH].
  split; [by apply unit_bytes_ok|]. split; [done|]. cbn [obu_size obu_of_unit].
  unfold unit_bytes. rewrite zlen_cons.
  match goal with |- _ <= 1 + zlen ?l => pose proof (zlen_nonneg l) end. lia.
Qed.

(** ** The received packet *)

Definition received_av1 (a z y w n : Z) (p : RtpPacket) : RtpPacketAv1 := mkAv1 p a z y w n.

Lemma aggr_bits (z y k : bool) :
  let h := 128 * Z.b2z z + 64 * Z.b2z y + 16 + 8 * Z.b2z k in
  Z.shiftr h 7 = Z.b2z z /\ Z.land (Z.shiftr h 6) 1 = Z.b2z y /\
  Z.land (Z.shiftr h 4) 3 = 1 /\ Z.land (Z.shiftr h 3) 1 = Z.b2z k.
Proof. by destruct z, y, k. Qed.

(** What the receiver makes of the packet of index [i]. *)
Definition depacketized_av1 (key : bool) (cnt i : nat) (p : RtpPacket) : RtpPacketAv1 :=
  let h := aggr_header key cnt i in
  mkAv1 (add_offset_to_payload 1 p) h (Z.shiftr h 7) (Z.land (Z.shiftr h 6) 1)
    (Z.land (Z.shiftr h 4) 3) (Z.land (Z.shiftr h 3) 1).

Lemma depacketized_av1_flags key cnt i p :
  let h := depacketized_av1 key cnt i p in
  Av1FrameStart h = Nat.eqb i 0 /\ Av1FrameEnd h = Nat.eqb (S i) cnt /\ IsKeyFrame h = key && Nat.eqb i 0.
Proof.
  unfold depacketized_av1, aggr_header.
  destruct (aggr_bits (negb (Nat.eqb i 0)) (negb (Nat.eqb (S i) cnt)) (key && Nat.eqb i 0))
    as (Hz' & Hy & Hw & Hn).
  unfold Av1FrameStart, Av1FrameEnd, IsKeyFrame. cbn [z_ y_ w_ n_].
  rewrite Hz', Hy, Hw, Hn.
  by destruct (Nat.eqb i 0), (Nat.eqb (S i) cnt), key.
Qed.

Lemma GetFrameHeaderInfoAv1_built f p a z y w n key cnt i data :
  f_payload f = aggr_header key cnt i :: data -> zlen data < 4294967296 ->
  GetFrameHeaderInfoAv1 (received_av1 a z y w n (built f p)) =
    Some (true, depacketized_av1 key cnt i (built f p)) /\
  Payload (av1_packet (depacketized_av1 key cnt i (built f p))) = Some data.
Proof.
  intros Hf Hz. pose proof (zlen_nonneg data).
  unfold GetFrameHeaderInfoAv1, received_av1. cbn [av1_packet].
  rewrite payload_size_built, Hf, zlen_cons, (proj2 (Z.ltb_ge _ _)) by lia.
  assert (rd (buffer_ (built f p)) (payload_offset_ (built f p)) =
          Some (aggr_header key cnt i)) as ->.
  { rewrite <- (Z.add_0_r (payload_offset_ _)). apply (At_payload f p 0). by rewrite Hf. }
  cbn [mbind option_bind]. split; [reflexivity|].
  unfold depacketized_av1. cbn [av1_packet]. change 1 with (zlen [aggr_header key cnt i]).
  apply Payload_add_offset; [done|]. rewrite Hf, zlen_cons. lia.
Qed.

(** A packet of an AV1 train, on the wire and read back. *)
Lemma av1_packet_received st obus ts a z y w n i p d :
  let pieces := frame_pieces obus in
  let pls := av1_payloads (current_frame_is_key_frame st) (length pieces) pieces in
  let h := depacketized_av1 (current_frame_is_key_frame st) (length pieces) i p in
  pz_ok st -> is_u32 ts -> Forall obu_ok obus ->
  packets (train st ts (length pls) pls) !! i = Some p -> pieces !! i = Some d ->
  packet_of_train st ts (length pls) i p /\
  GetFrameHeaderInfoAv1 (received_av1 a z y w n p) = Some (true, h) /\ Payload (av1_packet h) = Some d.
Proof.
  intros pieces pls h Hok Hts Ho Hp Hd.
  split; [exact (train_packet _ _ _ _ _ _ Hok Hts
    (av1_payloads_ok (current_frame_is_key_frame st) (length pieces) _ Ho) Hp)|].
  apply packets_lookup in Hp as (f & Hf & ->). apply train_lookup in Hf as (pl & Hpl & ->).
  unfold pls, av1_payloads in Hpl. rewrite list_lookup_imap, Hd in Hpl. cbn in Hpl. injection Hpl as <-.
  apply (Forall_lookup_1 _ _ _ _ (frame_pieces_ok _ Ho)) in Hd as [_ Hz].
  apply GetFrameHeaderInfoAv1_built; [done|]. unfold MAX_NALU_LEN in Hz. lia.
Qed.

(** ** Properties *)

(** The OBU parser is total and stays inside its input: whatever the bytes
    of the frame, it returns, and each OBU it returns has in its payload as
    many bytes as its size says, at least one.  On a frame an encoder wrote
    (minimal size fields; only the last OBU may leave out its size) it returns
    one OBU for each unit, with its header, its extension and exactly the bytes
    the unit occupied, so their concatenation is the frame. *)
Theorem obu_parse_correct (payload : list Z) (us : list ObuUnit) :
  bytes payload -> units_ok us ->
  (exists obus, ParseObus payload (zlen payload) = Some obus /\ Forall obu_ok obus) /\
  ParseObus (flat_map unit_bytes us) (zlen (flat_map unit_bytes us)) =
    Some (map obu_of_unit us) /\
  concat (map obu_payload (map obu_of_unit us)) = flat_map unit_bytes us.
Proof.
  intros Hb Hu. split; [by apply ParseObus_safe|]. split; [by apply ParseObus_units|].
  apply concat_units.
Qed.

(** A temporal delimiter, a frame of 1500 bytes with an extension, and a tile
    group without a size. *)
Definition sample_units : list ObuUnit :=
  [mkUnit 0x12 None []; mkUnit 0x36 (Some 8) (replicate 1500 9); mkUnit 0x20 None [1; 2; 3]].

Lemma sample_units_ok : units_ok sample_units.
Proof.
  cbn [units_ok sample_units]. unfold unit_ok. cbn [u_header u_ext u_data].
  split_and!; try done; try (unfold is_u8; lia); try apply Forall_nil_2.
  - apply Forall_replicate. unfold is_u8. lia.
  - forall_lit.
Defined.

Lemma obu_parse_correct_witness :
  (exists obus, ParseObus [18; 0; 50; 200; 1] (zlen [18; 0; 50; 200; 1]) = Some obus /\
     Forall obu_ok obus) /\
  ParseObus (flat_map unit_bytes sample_units) (zlen (flat_map unit_bytes sample_units)) =
    Some (map obu_of_unit sample_units) /\
  concat (map obu_payload (map obu_of_unit sample_units)) = flat_map unit_bytes sample_units.
Proof.
  refine (obu_parse_correct [18; 0; 50; 200; 1] sample_units _ sample_units_ok). forall_lit.
Defined.

(** An AV1 frame survives packetization: the packets [Build] makes of an
    encoder's frame, parsed from their own bytes and read with
    [GetFrameHeaderInfo] whatever the receiver's object held, give back the
    frame when their payloads are put together in order; exactly the first
    packet is a frame start and, for a key frame, a key frame packet; exactly
    the last is a frame end and carries the RTP marker. *)
Theorem av1_frame_reassembled (st : Packetizer) (us : list ObuUnit) (ts a z y w n : Z) :
  pz_ok st -> is_u32 ts -> units_ok us ->
  let frame := flat_map unit_bytes us in
  exists pkts st' frags,
    BuildAv1 st frame (zlen frame) ts = Some (pkts, st') /\
    length frags = length pkts /\ concat frags = frame /\
    forall i p d, pkts !! i = Some p -> frags !! i = Some d ->
      Build new_packet (buffer_ p) (zlen (buffer_ p)) = Some (true, p) /\
      marker_ p = Nat.eqb (S i) (length pkts) /\
      exists h, GetFrameHeaderInfoAv1 (received_av1 a z y w n p) = Some (true, h) /\
        Payload (av1_packet h) = Some d /\
        Av1FrameStart h = Nat.eqb i 0 /\ Av1FrameEnd h = Nat.eqb (S i) (length pkts) /\
        IsKeyFrame h = current_frame_is_key_frame st && Nat.eqb i 0.
Proof.
  intros Hok Hts Hus frame.
  pose proof (units_obus_ok us Hus) as Ho.
  rewrite (BuildAv1_train st frame (map obu_of_unit us) ts Hok Hts Ho (ParseObus_units us Hus)).
  set (pieces := frame_pieces (map obu_of_unit us)).
  set (pls := av1_payloads _ _ pieces). set (pkts := packets _).
  assert (length pls = length pieces) as Hl by (unfold pls, av1_payloads; apply length_imap).
  assert (length pkts = length pieces) as Hn
    by (unfold pkts; rewrite packets_length, train_length; done).
  eexists pkts, _, pieces. split; [reflexivity|]. split; [done|].
  split; [unfold pieces; rewrite concat_frame_pieces; apply concat_units|].
  intros i p d Hp Hd.
  destruct (av1_packet_received st (map obu_of_unit us) ts a z y w n i p d Hok Hts Ho Hp Hd)
    as ((_ & _ & _ & _ & Hm & _ & Hbuild) & Hg & Hq).
  split; [done|]. split; [by rewrite Hn, <- Hl|]. eexists. split; [exact Hg|]. split; [exact Hq|].
  rewrite Hn. apply depacketized_av1_flags.
Qed.

Lemma av1_frame_reassembled_witness :
  let frame := flat_map unit_bytes sample_units in
  exists pkts st' frags,
    BuildAv1 (SetIsKeyFrame true sample_packetizer) frame (zlen frame) 3000 = Some (pkts, st') /\
    length frags = length pkts /\ concat frags = frame /\
    forall i p d, pkts !! i = Some p -> frags !! i = Some d ->
      Build new_packet (buffer_ p) (zlen (buffer_ p)) = Some (true, p) /\
      marker_ p = Nat.eqb (S i) (length pkts) /\
      exists h, GetFrameHeaderInfoAv1 (received_av1 0 1 1 3 1 p) = Some (true, h) /\
        Payload (av1_packet h) = Some d /\
        Av1FrameStart h = Nat.eqb i 0 /\ Av1FrameEnd h = Nat.eqb (S i) (length pkts) /\
        IsKeyFrame h =
          current_frame_is_key_frame (SetIsKeyFrame true sample_packetizer) && Nat.eqb i 0.
Proof.
  refine (av1_frame_reassembled (SetIsKeyFrame true sample_packetizer) sample_units 3000
    0 1 1 3 1 _ _ sample_units_ok).
  - unfold pz_ok, is_u16, is_u32. cbn. lia.
  - unfold is_u32. lia.
Defined.
