(* ===== verification/PacketHistory.v ===== *)
(** * Packet history

    [RtpPacketHistory] of [src/rtp/rtp_packet/rtp_packet_history.cpp]: the sent
    packets a receiver may still ask for, in a deque that starts at the oldest
    one and has an empty slot for each sequence number in between that is not
    stored.  The clock is an argument of the operations that read it.  [None]
    is an access outside the deque or through a null pointer. *)

From S2P Require Import Prelude SeqNum Units RtpPacket RtpToSend.

(** src/rtp/rtp_packet/rtp_packet_history.h:23-23 [RtpPacketHistory::kMaxCapacity] *)
Definition kMaxCapacity : Z := 10001.
(** src/rtp/rtp_packet/rtp_packet_history.h:27-28 [RtpPacketHistory::kMinPacketDuration] *)
Definition kMinPacketDuration : Z := 1000000.
(** src/rtp/rtp_packet/rtp_packet_history.h:29-29 [RtpPacketHistory::kMinPacketDurationRtt] *)
Definition kMinPacketDurationRtt : Z := 3.
(** src/rtp/rtp_packet/rtp_packet_history.h:31-31 [RtpPacketHistory::kPacketCullingDelayFactor] *)
Definition kPacketCullingDelayFactor : Z := 3.

(** src/rtp/rtp_packet/rtp_packet_history.h:58-85 [RtpPacketHistory::StoredPacket] *)
Record StoredPacket := mkStored {
  packet_ : option RtpPacketToSend;
  pending_transmission_ : bool;
  send_time_ : Z;
  times_retransmitted_ : Z;
}.

(** A slot without a packet; the code leaves its other members unset and never
    reads them. *)
Definition empty_slot : StoredPacket := mkStored None false 0 0.

(** src/rtp/rtp_packet/rtp_packet_history.cpp:8-15 [RtpPacketHistory::StoredPacket::StoredPacket] *)
Definition new_stored (packet : RtpPacketToSend) (send_time : Z) : StoredPacket :=
  mkStored (Some packet) false send_time 0.

(** src/rtp/rtp_packet/rtp_packet_history.h:91-96 [RtpPacketHistory] *)
Record RtpPacketHistory := mkHistory {
  packet_history_ : list StoredPacket;
  rtt_ : Z;
  number_to_store_ : Z;
}.

(** src/rtp/rtp_packet/rtp_packet_history.cpp:25-28 [RtpPacketHistory::RtpPacketHistory] *)
Definition new_history : RtpPacketHistory := mkHistory [] 100000 kMaxCapacity.

Definition set_slots (l : list StoredPacket) (h : RtpPacketHistory) : RtpPacketHistory :=
  mkHistory l (rtt_ h) (number_to_store_ h).

(** [while (!empty() && front().packet_ == nullptr) pop_front();] *)
Fixpoint pop_empty (l : list StoredPacket) : list StoredPacket :=
  match l with
  | s :: l' => match packet_ s with None => pop_empty l' | Some _ => l end
  | [] => []
  end.

(** src/rtp/rtp_packet/rtp_packet_history.cpp:186-199 [RtpPacketHistory::RemovePacket] *)
Definition RemovePacket (packet_index : Z) (l : list StoredPacket)
    : option (option RtpPacketToSend * list StoredPacket) :=
  s ← rd l packet_index;
  l' ← wr l packet_index (mkStored None (pending_transmission_ s) (send_time_ s)
                            (times_retransmitted_ s));
  Some (packet_ s, if packet_index =? 0 then pop_empty l' else l').

(** src/rtp/rtp_packet/rtp_packet_history.cpp:201-225 [RtpPacketHistory::GetPacketIndex] *)
Definition GetPacketIndex (l : list StoredPacket) (sequence_number : Z) : option Z :=
  match l with
  | [] => Some 0
  | s :: _ =>
      p ← packet_ s;
      let first_seq := SequenceNumber p in
      if first_seq =? sequence_number then Some 0 else
      let packet_index := sequence_number - first_seq in
      let kSeqNumSpan := 65536 in
      if IsNewerSequenceNumber sequence_number first_seq then
        Some (if sequence_number <? first_seq then packet_index + kSeqNumSpan else packet_index)
      else
        Some (if first_seq <? sequence_number then packet_index - kSeqNumSpan else packet_index)
  end.

(** src/rtp/rtp_packet/rtp_packet_history.cpp:227-235 [RtpPacketHistory::GetStoredPacket] *)
Definition GetStoredPacket (l : list StoredPacket) (sequence_number : Z)
    : option (option (Z * StoredPacket)) :=
  index ← GetPacketIndex l sequence_number;
  if (index <? 0) || (zlen l <=? index) then Some None else
  s ← rd l index;
  match packet_ s with None => Some None | Some _ => Some (Some (index, s)) end.

(** src/rtp/rtp_packet/rtp_packet_history.cpp:74-106 [RtpPacketHistory::RemoveDeadPackets] *)
Fixpoint remove_dead_loop (fuel : nat) (now packet_duration number_to_store : Z)
    (l : list StoredPacket) : option (list StoredPacket) :=
  match fuel with
  | O => None
  | S fuel' =>
      match l with
      | [] => Some []
      | stored_packet :: _ =>
          if kMaxCapacity <? zlen l then
            '(_, l) ← RemovePacket 0 l;
            remove_dead_loop fuel' now packet_duration number_to_store l
          else if pending_transmission_ stored_packet then Some l
          else if now <? timestamp_add (send_time_ stored_packet) packet_duration then Some l
          else if (number_to_store <=? zlen l) ||
                  (timestamp_add (send_time_ stored_packet)
                     (unit_mul packet_duration kPacketCullingDelayFactor) <=? now)
          then
            '(_, l) ← RemovePacket 0 l;
            remove_dead_loop fuel' now packet_duration number_to_store l
          else Some l
      end
  end.

(** src/rtp/rtp_packet/rtp_packet_history.cpp:70-73 [RtpPacketHistory::RemoveDeadPackets] *)
Definition packet_duration (rtt : Z) : Z :=
  if IsFinite rtt then Z.max (unit_mul rtt kMinPacketDurationRtt) kMinPacketDuration
  else kMinPacketDuration.

(** src/rtp/rtp_packet/rtp_packet_history.cpp:68-107 [RtpPacketHistory::RemoveDeadPackets] *)
Definition RemoveDeadPackets (now : Z) (h : RtpPacketHistory) : option RtpPacketHistory :=
  l ← remove_dead_loop (S (length (packet_history_ h))) now (packet_duration (rtt_ h))
        (number_to_store_ h) (packet_history_ h);
  Some (set_slots l h).

(** src/rtp/rtp_packet/rtp_packet_history.cpp:32-35 [RtpPacketHistory::SetRtt] *)
Definition SetRtt (now rtt : Z) (h : RtpPacketHistory) : option RtpPacketHistory :=
  RemoveDeadPackets now (mkHistory (packet_history_ h) rtt (number_to_store_ h)).

(** src/rtp/rtp_packet/rtp_packet_history.cpp:52-59 [RtpPacketHistory::PutRtpPacket] *)
Definition expand (packet_index : Z) (l : list StoredPacket) : Z * list StoredPacket :=
  let l := replicate (Z.to_nat (- packet_index)) empty_slot ++ l in
  let packet_index := Z.max packet_index 0 in
  (packet_index, l ++ replicate (Z.to_nat (packet_index + 1 - zlen l)) empty_slot).

(** src/rtp/rtp_packet/rtp_packet_history.cpp:42-49 [RtpPacketHistory::PutRtpPacket] *)
Definition remove_duplicate (packet_index rtp_seq_no : Z) (l : list StoredPacket)
    : option (Z * list StoredPacket) :=
  if (0 <=? packet_index) && (packet_index <? zlen l) then
    s ← rd l packet_index;
    match packet_ s with
    | Some _ =>
        '(_, l) ← RemovePacket packet_index l;
        i ← GetPacketIndex l rtp_seq_no;
        Some (i, l)
    | None => Some (packet_index, l)
    end
  else Some (packet_index, l).

(** src/rtp/rtp_packet/rtp_packet_history.cpp:37-66 [RtpPacketHistory::PutRtpPacket] *)
Definition PutRtpPacket (now : Z) (rtp_packet : RtpPacketToSend) (send_time : Z)
    (h : RtpPacketHistory) : option RtpPacketHistory :=
  h ← RemoveDeadPackets now h;
  let rtp_seq_no := SequenceNumber rtp_packet in
  let l := packet_history_ h in
  packet_index ← GetPacketIndex l rtp_seq_no;
  '(packet_index, l) ← remove_duplicate packet_index rtp_seq_no l;
  let '(packet_index, l) := expand packet_index l in
  l ← wr l packet_index (new_stored rtp_packet send_time);
  RemoveDeadPackets now (set_slots l h).

(** src/rtp/rtp_packet/rtp_packet_history.cpp:173-184 [RtpPacketHistory::VerifyRtt] *)
Definition VerifyRtt (now : Z) (packet : StoredPacket) (h : RtpPacketHistory) : bool :=
  negb ((0 <? times_retransmitted_ packet) &&
        (timestamp_diff now (send_time_ packet) <? rtt_ h)).

(** What the callback leaves behind when it is called is the first result. *)
(** src/rtp/rtp_packet/rtp_packet_history.cpp:117-146 [RtpPacketHistory::GetPacketAndMarkAsPending] *)
Definition GetPacketAndEncapsulate {A} (now sequence_number : Z)
    (encapsulate : RtpPacketToSend -> option (A * option RtpPacketToSend)) (h : RtpPacketHistory)
    : option (option A * option RtpPacketToSend * RtpPacketHistory) :=
  let l := packet_history_ h in
  r ← GetStoredPacket l sequence_number;
  match r with
  | None => Some (None, None, h)
  | Some (index, packet) =>
      if pending_transmission_ packet then Some (None, None, h) else
      if negb (VerifyRtt now packet h) then Some (None, None, h) else
      p ← packet_ packet;
      '(a, e) ← encapsulate p;
      match e with
      | None => Some (Some a, None, h)
      | Some e =>
          l ← wr l index (mkStored (Some p) true (send_time_ packet)
                            (times_retransmitted_ packet));
          Some (Some a, Some e, set_slots l h)
      end
  end.

(** src/rtp/rtp_packet/rtp_packet_history.cpp:117-146 [RtpPacketHistory::GetPacketAndMarkAsPending] *)
Definition GetPacketAndMarkAsPending (now sequence_number : Z)
    (encapsulate : RtpPacketToSend -> option RtpPacketToSend) (h : RtpPacketHistory)
    : option (option RtpPacketToSend * RtpPacketHistory) :=
  '(_, r, h) ← GetPacketAndEncapsulate now sequence_number (fun p => Some (tt, encapsulate p)) h;
  Some (r, h).

(** src/rtp/rtp_packet/rtp_packet_history.cpp:109-115 [RtpPacketHistory::GetPacketAndMarkAsPending] *)
Definition GetPacketCopyAndMarkAsPending (now sequence_number : Z) (h : RtpPacketHistory)
    : option (option RtpPacketToSend * RtpPacketHistory) :=
  GetPacketAndMarkAsPending now sequence_number Some h.

(** src/rtp/rtp_packet/rtp_packet_history.cpp:148-159 [RtpPacketHistory::MarkPacketAsSent] *)
Definition MarkPacketAsSent (now sequence_number : Z) (h : RtpPacketHistory)
    : option RtpPacketHistory :=
  r ← GetStoredPacket (packet_history_ h) sequence_number;
  match r with
  | None => Some h
  | Some (index, packet) =>
      l ← wr (packet_history_ h) index
            (mkStored (packet_ packet) false now (u64 (times_retransmitted_ packet + 1)));
      Some (set_slots l h)
  end.

(** src/rtp/rtp_packet/rtp_packet_history.cpp:161-171 [RtpPacketHistory::MarkPacketAsAborted] *)
Definition MarkPacketAsAborted (sequence_number : Z) (h : RtpPacketHistory)
    : option RtpPacketHistory :=
  r ← GetStoredPacket (packet_history_ h) sequence_number;
  match r with
  | None => Some h
  | Some (index, packet) =>
      l ← wr (packet_history_ h) index
            (mkStored (packet_ packet) false (send_time_ packet) (times_retransmitted_ packet));
      Some (set_slots l h)
  end.

(** ** The deque *)

Definition front_ok (l : list StoredPacket) : Prop :=
  match l with [] => True | s :: _ => is_Some (packet_ s) end.

(** Slot [i] holds the packet numbered [b + i], or none. *)
Definition slots_from (b : Z) (l : list StoredPacket) : Prop :=
  forall i s p, l !! i = Some s -> packet_ s = Some p ->
    SequenceNumber p = u16 (b + Z.of_nat i).

Definition slots_ok (l : list StoredPacket) : Prop :=
  front_ok l /\ exists b, slots_from b l.

(** The packet numbered [seq] is stored, with the state in [s]. *)
Definition stores (l : list StoredPacket) (seq : Z) (s : StoredPacket) : Prop :=
  exists i p, l !! i = Some s /\ packet_ s = Some p /\ SequenceNumber p = seq.

Lemma slots_from_drop b l k : slots_from b l -> slots_from (b + Z.of_nat k) (drop k l).
Proof.
  intros H i s p Hi Hp. rewrite lookup_drop in Hi. rewrite (H _ _ _ Hi Hp). f_equal. lia.
Qed.

Lemma slots_from_insert b l i s p :
  slots_from b l -> packet_ s = Some p -> SequenceNumber p = u16 (b + Z.of_nat i) ->
  slots_from b (<[i:=s]> l).
Proof.
  intros H Hs Hq j t q Hj Hp. apply list_lookup_insert_Some in Hj as [(-> & <- & _)|[_ Hj]].
  - congruence.
  - by apply (H j t q).
Qed.

Lemma front_ok_insert l i s : front_ok l -> is_Some (packet_ s) -> front_ok (<[i:=s]> l).
Proof. destruct l as [|t l], i; cbn; done. Qed.

Lemma slots_ok_from l p s l' b :
  l = s :: l' -> packet_ s = Some p -> slots_from b l -> slots_from (SequenceNumber p) l.
Proof.
  intros -> Hp H i t q Hi Hq. rewrite (H i t q Hi Hq), (H 0%nat s p eq_refl Hp). ilia.
Qed.

Lemma pop_empty_spec l :
  exists k, pop_empty l = drop k l /\ (k <= length l)%nat /\ front_ok (drop k l) /\
    forall i s, (i < k)%nat -> l !! i = Some s -> packet_ s = None.
Proof.
  induction l as [|s l (k & Hk & Hl & Hf & He)]; [exists 0%nat; split_and!; done || lia|].
  cbn [pop_empty]. destruct (packet_ s) eqn:E.
  - exists 0%nat. split_and!; [done|lia|cbn; by rewrite E|lia].
  - exists (S k). split_and!; [done|cbn; lia|done|].
    intros [|i] t Hi Ht; [by injection Ht as <-|]. by apply (He i); [lia|].
Qed.

Lemma RemovePacket_front s l :
  exists p, RemovePacket 0 (s :: l) = Some (p, pop_empty l).
Proof.
  unfold RemovePacket. change 0 with (Z.of_nat 0). rewrite rd_nat. cbn [lookup list_lookup mbind option_bind].
  rewrite wr_Some by (rewrite zlen_cons; pose proof (zlen_nonneg l); lia).
  cbn [mbind option_bind]. eexists. reflexivity.
Qed.

(** What is culled: slots at the front, never one that is pending or fresh
    unless the capacity demands it. *)
Lemma remove_dead_spec fuel now dur n : forall l,
  front_ok l -> (length l < fuel)%nat ->
  exists k, remove_dead_loop fuel now dur n l = Some (drop k l) /\ front_ok (drop k l) /\
    zlen (drop k l) <= kMaxCapacity /\
    forall i s, l !! i = Some s -> is_Some (packet_ s) -> zlen l - Z.of_nat i <= kMaxCapacity ->
      pending_transmission_ s = true \/ now < timestamp_add (send_time_ s) dur -> (k <= i)%nat.
Proof.
  induction fuel as [|fuel IH]; intros l Hf Hl; [lia|]. cbn [remove_dead_loop].
  destruct l as [|s l]; [exists 0%nat; split_and!; done|].
  assert (zlen (s :: l) = 1 + zlen l) as Hz by apply zlen_cons.
  (* removing the front and going on *)
  assert (exists k, ('(_, l) ← RemovePacket 0 (s :: l); remove_dead_loop fuel now dur n l) =
      Some (drop k (s :: l)) /\ front_ok (drop k (s :: l)) /\
      zlen (drop k (s :: l)) <= kMaxCapacity /\
      forall i t, l !! i = Some t -> is_Some (packet_ t) -> zlen l - Z.of_nat i <= kMaxCapacity ->
        pending_transmission_ t = true \/ now < timestamp_add (send_time_ t) dur -> (k <= S i)%nat)
    as Hstep.
  { destruct (RemovePacket_front s l) as (p & ->). cbn [mbind option_bind].
    destruct (pop_empty_spec l) as (k0 & -> & Hk0 & Hf0 & He0).
    destruct (IH (drop k0 l) Hf0) as (k1 & -> & Hf1 & Hz1 & Hs1);
      [rewrite length_drop; cbn in Hl; lia|].
    exists (S (k0 + k1)). rewrite drop_drop in *. split_and!; [done|done|done|].
    intros i t Hi Ht Hc Hlive.
    destruct (Nat.lt_ge_cases i k0) as [Hlt|Hge].
    - rewrite (He0 i t Hlt Hi) in Ht. by destruct Ht.
    - assert (k1 <= i - k0)%nat; [|lia]. apply (Hs1 _ t); [|done| |done].
      + rewrite lookup_drop. by replace (k0 + (i - k0))%nat with i by lia.
      + unfold zlen in *. rewrite length_drop. lia. }
  destruct Hstep as (k & Hk & Hfk & Hzk & Hs).
  destruct (Z.ltb_spec kMaxCapacity (zlen (s :: l))) as [Hcap|Hcap].
  { exists k. split_and!; [done|done|done|]. intros [|i] t Hi Ht Hc Hlive; [lia|].
    apply (Hs i t); [done|done|lia|done]. }
  destruct (pending_transmission_ s) eqn:Ep.
  { exists 0%nat. split_and!; done || lia. }
  destruct (Z.ltb_spec now (timestamp_add (send_time_ s) dur)).
  { exists 0%nat. split_and!; done || lia. }
  match goal with |- context [if ?b then _ else _] => destruct b end.
  - exists k. split_and!; [done|done|done|]. intros [|i] t Hi Ht Hc Hlive.
    + injection Hi as <-. destruct Hlive; [congruence|lia].
    + apply (Hs i t); [done|done|lia|done].
  - exists 0%nat. split_and!; done || lia.
Qed.

Lemma slots_ok_drop l k : (exists b, slots_from b l) -> front_ok (drop k l) -> slots_ok (drop k l).
Proof. intros [b Hb] Hf. split; [done|]. eexists. by apply slots_from_drop. Qed.

(** ** Finding a packet *)

Lemma GetPacketIndex_spec l s p l' seq :
  l = s :: l' -> packet_ s = Some p -> is_u16 (SequenceNumber p) -> is_u16 seq ->
  exists d, GetPacketIndex l seq = Some d /\ -32768 <= d <= 32768 /\
    seq = u16 (SequenceNumber p + d).
Proof.
  intros -> Hp Hf Hs. cbn [GetPacketIndex]. rewrite Hp. cbn [mbind option_bind]. cbv zeta.
  set (f := SequenceNumber p) in *.
  destruct (Z.eqb_spec f seq) as [<-|Hne]; [exists 0; split_and!; [done|lia|lia|ilia]|].
  unfold IsNewerSequenceNumber, IsNewer. cbv zeta. rewrite !u16_id by done.
  change (Z.shiftr (65536 - 1) 1 + 1) with 32768. unfold promoted_sub.
  change (65536 <=? 65536) with true. cbv match.
  unfold is_u16 in *.
  destruct (Z.ltb_spec seq f), (Z.ltb_spec f seq); try lia;
    destruct (Z.eqb_spec (seq - f) 32768); try lia;
    rewrite ?(proj2 (Z.eqb_neq seq f)) by lia; cbn [negb andb].
  all: try destruct (Z.ltb_spec ((seq - f) `mod` 65536) 32768).
  all: eexists; (split; [reflexivity|]); split; [zdm|unfold u16; zdm].
Qed.

Definition capacity_ok (l : list StoredPacket) : Prop := zlen l <= 32768.

Lemma GetStoredPacket_spec l seq :
  slots_ok l -> capacity_ok l -> is_u16 seq ->
  exists r, GetStoredPacket l seq = Some r /\
    match r with
    | Some (i, s) => 0 <= i /\ l !! Z.to_nat i = Some s /\
                     exists p, packet_ s = Some p /\ SequenceNumber p = seq
    | None => forall s, ~ stores l seq s
    end.
Proof.
  intros [Hf [b Hb]] Hc Hs. unfold GetStoredPacket.
  destruct l as [|s0 l']; [exists None; split; [done|intros s (i & p & Hi & _); done]|].
  cbn [front_ok] in Hf. destruct Hf as [p0 Hp0].
  pose proof (slots_ok_from _ _ _ _ _ eq_refl Hp0 Hb) as Hb0.
  assert (is_u16 (SequenceNumber p0)) as Hu by (rewrite (Hb 0%nat _ _ eq_refl Hp0); apply u16_range).
  destruct (GetPacketIndex_spec _ s0 p0 l' seq eq_refl Hp0 Hu Hs) as (d & -> & Hd & Hseq).
  cbn [mbind option_bind]. set (l := s0 :: l') in *.
  (* an index whose packet has this number is the one found *)
  assert (forall i s p, l !! i = Some s -> packet_ s = Some p -> SequenceNumber p = seq ->
            d = Z.of_nat i) as Huniq.
  { intros i s p Hi Hp Hq. pose proof (lookup_lt_Some _ _ _ Hi) as Hli.
    rewrite (Hb0 i s p Hi Hp) in Hq. unfold capacity_ok, zlen in Hc.
    rewrite Hseq in Hq. ilia. }
  destruct ((d <? 0) || (zlen l <=? d)) eqn:E; b2p.
  - exists None. split; [done|]. intros s (i & p & Hi & Hp & Hq).
    pose proof (Huniq i s p Hi Hp Hq). pose proof (lookup_lt_Some _ _ _ Hi).
    unfold zlen in E. destruct E; b2p; lia.
  - destruct (lookup_lt_is_Some_2 l (Z.to_nat d)) as [s Hsd]; [unfold zlen in *; lia|].
    assert (rd l d = Some s) as -> by (rewrite <- (Z2Nat.id d) at 1 by lia; by rewrite rd_nat).
    cbn [mbind option_bind]. destruct (packet_ s) as [p|] eqn:Ep.
    + exists (Some (d, s)). split; [done|]. split_and!; [lia|done|].
      exists p. split; [done|]. rewrite (Hb0 _ s p Hsd Ep), Hseq. f_equal. lia.
    + exists None. split; [done|]. intros t (i & p & Hi & Hp & Hq).
      pose proof (Huniq i t p Hi Hp Hq) as ->. rewrite Nat2Z.id in Hsd. congruence.
Qed.

(** A number is stored in one slot at most. *)
Lemma stores_unique l seq i j s t p q :
  slots_ok l -> capacity_ok l ->
  l !! i = Some s -> l !! j = Some t -> packet_ s = Some p -> packet_ t = Some q ->
  SequenceNumber p = seq -> SequenceNumber q = seq -> i = j.
Proof.
  intros [_ [b Hb]] Hc Hi Hj Hp Hq <- He.
  pose proof (lookup_lt_Some _ _ _ Hi). pose proof (lookup_lt_Some _ _ _ Hj).
  rewrite (Hb i s p Hi Hp), (Hb j t q Hj Hq) in He. unfold capacity_ok, zlen in Hc. ilia.
Qed.

(** ** The history as a map from sequence numbers *)

Definition stored_entry (s : StoredPacket) : option (Z * StoredPacket) :=
  p ← packet_ s; Some (SequenceNumber p, s).

Definition stored_map (l : list StoredPacket) : gmap Z StoredPacket :=
  list_to_map (omap stored_entry l).

(** What the history promises, independently of the deque. *)
Definition abs (h : RtpPacketHistory) : gmap Z StoredPacket := stored_map (packet_history_ h).

Definition hist_ok (h : RtpPacketHistory) : Prop :=
  slots_ok (packet_history_ h) /\ zlen (packet_history_ h) <= kMaxCapacity.

Lemma capacity_of_max l : zlen l <= kMaxCapacity -> capacity_ok l.
Proof. unfold capacity_ok, kMaxCapacity. lia. Qed.
#[export] Hint Resolve capacity_of_max : rtc.

Lemma elem_of_entries l q s :
  (q, s) ∈ omap stored_entry l <-> stores l q s.
Proof.
  rewrite list_elem_of_omap. split.
  - intros (t & Ht & He). apply list_elem_of_lookup in Ht as [i Hi]. unfold stored_entry in He.
    destruct (packet_ t) as [p|] eqn:Hp; cbn [mbind option_bind] in He; [|done].
    injection He as <- <-. by exists i, p.
  - intros (i & p & Hi & Hp & <-). exists s. split; [by eapply list_elem_of_lookup_2|].
    unfold stored_entry. by rewrite Hp.
Qed.

Lemma stored_map_spec l q s :
  slots_ok l -> capacity_ok l -> stored_map l !! q = Some s <-> stores l q s.
Proof.
  intros Hok Hc. unfold stored_map. split.
  - intros H%elem_of_list_to_map_2. by apply elem_of_entries.
  - intros H. apply elem_of_list_to_map_1'; [|by apply elem_of_entries].
    intros t Ht%elem_of_entries. destruct H as (i & p & Hi & Hp & Hq), Ht as (j & r & Hj & Hr & Hq').
    pose proof (stores_unique l q i j s t p r Hok Hc Hi Hj Hp Hr Hq Hq') as <-. congruence.
Qed.

Lemma stored_map_None l q :
  slots_ok l -> capacity_ok l -> stored_map l !! q = None <-> forall s, ~ stores l q s.
Proof.
  intros Hok Hc. split.
  - intros H s Hs%stored_map_spec; [|done|done]. congruence.
  - intros H. destruct (stored_map l !! q) as [s|] eqn:E; [|done].
    apply stored_map_spec in E; [|done|done]. by destruct (H s).
Qed.

(** Changing the state kept with a packet. *)
Lemma slots_ok_update l i s t p :
  slots_ok l -> l !! i = Some s -> packet_ s = Some p -> packet_ t = Some p ->
  slots_ok (<[i:=t]> l).
Proof.
  intros [Hf [b Hb]] Hi Hs Ht. split; [by apply front_ok_insert; [|rewrite Ht]|].
  exists b. apply (slots_from_insert _ _ _ _ p); [done|done|by apply (Hb i s p)].
Qed.

Lemma stored_map_update l i s t p :
  slots_ok l -> capacity_ok l -> l !! i = Some s -> packet_ s = Some p -> packet_ t = Some p ->
  stored_map (<[i:=t]> l) = <[SequenceNumber p := t]> (stored_map l).
Proof.
  intros Hok Hc Hi Hs Ht.
  pose proof (slots_ok_update l i s t p Hok Hi Hs Ht) as Hok'.
  assert (capacity_ok (<[i:=t]> l)) as Hc' by (unfold capacity_ok, zlen in *; by rewrite length_insert).
  apply map_eq. intros q. apply option_eq. intros u.
  rewrite stored_map_spec by done. rewrite lookup_insert_Some.
  rewrite stored_map_spec by done. split.
  - intros (j & r & Hj & Hr & Hq). apply list_lookup_insert_Some in Hj as [(-> & -> & _)|[Hne Hj]].
    + left. split; [congruence|done].
    + right. split; [|by exists j, r]. intros Hqq. apply Hne.
      by apply (stores_unique l q i j s u p r).
  - intros [[<- <-]|[Hne (j & r & Hj & Hr & Hq)]].
    + exists i, p. split_and!; [|done|done]. apply list_lookup_insert_eq. by eapply lookup_lt_Some.
    + exists j, r. split_and!; [|done|done]. rewrite list_lookup_insert_ne; [done|].
      intros ->. congruence.
Qed.

Lemma GetStoredPacket_abs h seq :
  hist_ok h -> is_u16 seq ->
  exists r, GetStoredPacket (packet_history_ h) seq = Some r /\
    match r with
    | Some (i, s) => 0 <= i < zlen (packet_history_ h) /\
        packet_history_ h !! Z.to_nat i = Some s /\ abs h !! seq = Some s /\
        exists p, packet_ s = Some p /\ SequenceNumber p = seq
    | None => abs h !! seq = None
    end.
Proof.
  intros [Hok Hz] Hs. pose proof (capacity_of_max _ Hz) as Hc.
  destruct (GetStoredPacket_spec _ seq Hok Hc Hs) as (r & -> & Hr). exists r. split; [done|].
  destruct r as [[i s]|]; [|by apply stored_map_None].
  destruct Hr as (H0 & Hi & p & Hp & Hq). pose proof (lookup_lt_Some _ _ _ Hi).
  split_and!; [done|unfold zlen; lia|done| |by exists p].
  apply stored_map_spec; [done|done|]. by exists (Z.to_nat i), p.
Qed.

(** A slot that was found, with new state for its packet. *)
Lemma update_found h seq i s t p :
  hist_ok h -> 0 <= i < zlen (packet_history_ h) -> packet_history_ h !! Z.to_nat i = Some s ->
  packet_ s = Some p -> SequenceNumber p = seq -> packet_ t = Some p ->
  exists l, wr (packet_history_ h) i t = Some l /\ hist_ok (set_slots l h) /\
    abs (set_slots l h) = <[seq := t]> (abs h).
Proof.
  intros [Hok Hz] Hi Hs Hp <- Ht. rewrite wr_Some by done.
  eexists. split; [reflexivity|]. split.
  - split; cbn [set_slots packet_history_]; [by eapply slots_ok_update|].
    unfold zlen in *. by rewrite length_insert.
  - unfold abs. cbn [set_slots packet_history_]. eapply stored_map_update; eauto with rtc.
Qed.

(** ** Inserting a packet *)

Lemma stores_pop_empty l q s : stores (pop_empty l) q s <-> stores l q s.
Proof.
  destruct (pop_empty_spec l) as (k & -> & Hk & _ & He). split.
  - intros (i & p & Hi & Hp & Hq). rewrite lookup_drop in Hi. by exists (k + i)%nat, p.
  - intros (i & p & Hi & Hp & Hq). destruct (Nat.lt_ge_cases i k) as [Hlt|Hge].
    + rewrite (He i s Hlt Hi) in Hp. done.
    + exists (i - k)%nat, p. rewrite lookup_drop. by replace (k + (i - k))%nat with i by lia.
Qed.

Lemma stores_remove l i s p t q u :
  slots_ok l -> capacity_ok l -> l !! i = Some s -> packet_ s = Some p -> packet_ t = None ->
  stores (<[i:=t]> l) q u <-> stores l q u /\ q <> SequenceNumber p.
Proof.
  intros Hok Hc Hi Hs Ht. split.
  - intros (j & r & Hj & Hr & Hq). apply list_lookup_insert_Some in Hj as [(_ & <- & _)|[Hne Hj]];
      [congruence|]. split; [by exists j, r|]. intros Hqq. apply Hne.
    by apply (stores_unique l q i j s u p r).
  - intros [(j & r & Hj & Hr & Hq) Hne]. exists j, r. split_and!; [|done|done].
    rewrite list_lookup_insert_ne; [done|]. intros ->. congruence.
Qed.

Lemma slots_from_remove b l i t : slots_from b l -> packet_ t = None -> slots_from b (<[i:=t]> l).
Proof.
  intros H Ht j s p Hj Hp. apply list_lookup_insert_Some in Hj as [(_ & <- & _)|[_ Hj]];
    [congruence|]. by apply (H j s p).
Qed.

Lemma GetPacketIndex_total l seq :
  slots_ok l -> is_u16 seq -> exists d, GetPacketIndex l seq = Some d.
Proof.
  intros [Hf [b Hb]] Hs. destruct l as [|s l']; [by exists 0|]. destruct Hf as [p Hp].
  destruct (GetPacketIndex_spec _ s p l' seq eq_refl Hp) as (d & Hd & _); [|done|by exists d].
  rewrite (Hb 0%nat s p eq_refl Hp). apply u16_range.
Qed.

(** The number at the index found is the number looked for. *)
Lemma index_number l seq d i s p :
  slots_ok l -> is_u16 seq -> GetPacketIndex l seq = Some d ->
  l !! i = Some s -> packet_ s = Some p -> Z.of_nat i = d -> SequenceNumber p = seq.
Proof.
  intros [Hf [b Hb]] Hs Hd Hi Hp <-. destruct l as [|s0 l']; [done|]. destruct Hf as [p0 Hp0].
  pose proof (slots_ok_from _ _ _ _ _ eq_refl Hp0 Hb) as Hb0.
  destruct (GetPacketIndex_spec _ s0 p0 l' seq eq_refl Hp0) as (d & Hd' & _ & ->);
    [rewrite (Hb 0%nat s0 p0 eq_refl Hp0); apply u16_range|done|].
  rewrite Hd in Hd'. injection Hd' as <-. by apply (Hb0 i s p).
Qed.

Lemma remove_duplicate_spec l d seq :
  slots_ok l -> capacity_ok l -> is_u16 seq -> GetPacketIndex l seq = Some d ->
  exists d' l', remove_duplicate d seq l = Some (d', l') /\ slots_ok l' /\ zlen l' <= zlen l /\
    GetPacketIndex l' seq = Some d' /\
    forall q s, stores l' q s <-> stores l q s /\ q <> seq.
Proof.
  intros Hok Hc Hs Hd. pose proof Hok as [Hf [b Hb]]. unfold remove_duplicate.
  assert ((forall s, ~ stores l seq s) ->
    exists d' l', Some (d, l) = Some (d', l') /\ slots_ok l' /\ zlen l' <= zlen l /\
      GetPacketIndex l' seq = Some d' /\ forall q s, stores l' q s <-> stores l q s /\ q <> seq)
    as Hkeep.
  { intros Hn. exists d, l. split_and!; [done|done|lia|done|]. intros q s. split; [|tauto].
    intros H. split; [done|]. intros ->. by apply (Hn s). }
  destruct (GetStoredPacket_spec l seq Hok Hc Hs) as (r & Hr & Hspec).
  unfold GetStoredPacket in Hr. rewrite Hd in Hr. cbn [mbind option_bind] in Hr.
  replace ((0 <=? d) && (d <? zlen l)) with (negb ((d <? 0) || (zlen l <=? d)))
    by (destruct (Z.leb_spec 0 d), (Z.ltb_spec d (zlen l)), (Z.ltb_spec d 0), (Z.leb_spec (zlen l) d);
        done || lia).
  destruct ((d <? 0) || (zlen l <=? d)); cbn [negb].
  { injection Hr as <-. by apply Hkeep. }
  destruct (rd l d) as [s|] eqn:Hrd; cbn [mbind option_bind] in *; [|done].
  destruct (packet_ s) as [p|] eqn:Hp; [|injection Hr as <-; by apply Hkeep].
  injection Hr as <-. destruct Hspec as (H0 & Hi & p' & Hp' & Hq).
  unfold RemovePacket. rewrite Hrd. cbn [mbind option_bind].
  pose proof (lookup_lt_Some _ _ _ Hi). rewrite wr_Some by (unfold zlen; lia). cbn [mbind option_bind].
  set (t := mkStored None _ _ _). set (l1 := <[Z.to_nat d := t]> l).
  assert (forall q u, stores l1 q u <-> stores l q u /\ q <> seq) as Hst.
  { intros q u. rewrite <- Hq. by apply (stores_remove l _ s p' t). }
  assert (slots_from b l1) as Hb1 by (by apply slots_from_remove).
  assert (zlen l1 = zlen l) as Hz1 by (unfold zlen, l1; by rewrite length_insert).
  destruct (Z.eqb_spec d 0).
  - destruct (pop_empty_spec l1) as (k & Hk & Hkl & Hfk & _).
    assert (slots_ok (pop_empty l1)) as Hok2
      by (rewrite Hk; apply slots_ok_drop; [by exists b|done]).
    destruct (GetPacketIndex_total _ seq Hok2 Hs) as (d' & Hd').
    rewrite Hd'. cbn [mbind option_bind]. exists d', (pop_empty l1). split_and!; [done|done| |done|].
    + rewrite Hk. unfold zlen in *. rewrite length_drop. lia.
    + intros q u. by rewrite stores_pop_empty.
  - assert (slots_ok l1) as Hok2.
    { split; [|by exists b]. unfold l1. destruct l as [|x l']; [done|].
      replace (Z.to_nat d) with (S (Z.to_nat (d - 1))) by lia. done. }
    destruct (GetPacketIndex_total _ seq Hok2 Hs) as (d' & Hd').
    rewrite Hd'. cbn [mbind option_bind]. exists d', l1. split_and!; [done|done|lia|done|done].
Qed.

Lemma replicate_empty_lookup n i s : replicate n empty_slot !! i = Some s -> packet_ s = None.
Proof. by intros [-> _]%lookup_replicate. Qed.

(** The deque with room for index [d]. *)
Section Expand.
Context (l : list StoredPacket) (d : Z).

(** The slots added in front. *)
Definition added : nat := Z.to_nat (- d).
Definition expanded : list StoredPacket := (expand d l).2.
Definition slot : nat := Z.to_nat (Z.max d 0).

Lemma expand_eq : expand d l = (Z.max d 0, expanded).
Proof. done. Qed.

Lemma expanded_zlen : zlen expanded = Z.max (- d) 0 + Z.max (zlen l) (d + 1).
Proof.
  unfold expanded, expand. cbn [snd]. cbv zeta. unfold zlen.
  rewrite !length_app, !length_replicate. lia.
Qed.

Lemma slot_lt : (slot < length expanded)%nat.
Proof. pose proof expanded_zlen. unfold zlen, slot in *. lia. Qed.

Lemma expanded_from j s q :
  expanded !! j = Some s -> packet_ s = Some q -> (added <= j)%nat /\ l !! (j - added)%nat = Some s.
Proof.
  unfold expanded, expand. cbn [snd]. cbv zeta. fold added. intros Hj Hq.
  apply lookup_app_Some in Hj as [Hj|[_ Hj]]; [|apply replicate_empty_lookup in Hj; congruence].
  apply lookup_app_Some in Hj as [Hj|[Hlen Hj]]; [apply replicate_empty_lookup in Hj; congruence|].
  rewrite length_replicate in *. done.
Qed.

Lemma expanded_to j s : l !! j = Some s -> expanded !! (added + j)%nat = Some s.
Proof.
  intros Hj. unfold expanded, expand. cbn [snd]. cbv zeta. fold added. apply lookup_app_l_Some.
  rewrite lookup_app_r by (rewrite length_replicate; lia). rewrite length_replicate.
  by replace (added + j - added)%nat with j by lia.
Qed.

Lemma expanded_slots_from b : slots_from b l -> slots_from (b - Z.of_nat added) expanded.
Proof.
  intros Hb j s q Hj Hq. destruct (expanded_from j s q Hj Hq) as [Ha Hx].
  rewrite (Hb _ s q Hx Hq). f_equal. lia.
Qed.

Lemma insert_front_ok t :
  front_ok l -> (l = [] -> d = 0) -> is_Some (packet_ t) -> front_ok (<[slot:=t]> expanded).
Proof.
  intros Hf Hn Ht. destruct (Z.leb_spec d 0).
  - assert (slot = 0%nat) as -> by (unfold slot; lia). pose proof slot_lt as Hs.
    destruct expanded; [cbn in Hs; lia|done].
  - apply front_ok_insert; [|done]. unfold expanded, expand. cbn [snd]. cbv zeta.
    replace (Z.to_nat (- d)) with 0%nat by lia.
    destruct l as [|x l']; [specialize (Hn eq_refl); lia|done].
Qed.
End Expand.

(** The slot a packet goes to, when none with its number is stored. *)
Section Insert.
Context (l : list StoredPacket) (d : Z) (p : RtpPacketToSend) (st : Z).
Context (Hok : slots_ok l) (Hs : is_u16 (SequenceNumber p)).
Context (Hd : GetPacketIndex l (SequenceNumber p) = Some d).
Context (Hn : forall s, ~ stores l (SequenceNumber p) s).

Lemma empty_index : l = [] -> d = 0.
Proof. intros ->. cbn in Hd. congruence. Qed.

Lemma slot_free s q : expanded l d !! slot d = Some s -> packet_ s <> Some q.
Proof.
  intros Hi Hq. destruct (expanded_from l d _ s q Hi Hq) as [Hai Hl].
  apply (Hn s). exists (slot d - added d)%nat, q. split_and!; [done|done|].
  apply (index_number l _ d (slot d - added d)%nat s q); try done. unfold slot, added in *. lia.
Qed.

Lemma old_slot j s q : l !! j = Some s -> packet_ s = Some q -> (added d + j)%nat <> slot d.
Proof.
  intros Hj Hq He. apply (slot_free s q); [|done]. rewrite <- He. by apply expanded_to.
Qed.

Lemma insert_slots_from t :
  packet_ t = Some p -> exists b, slots_from b (<[slot d:=t]> (expanded l d)).
Proof.
  intros Ht. pose proof Hok as [Hf [b Hb]]. destruct l as [|s0 l'] eqn:El; rewrite <- El in *.
  - exists (SequenceNumber p - Z.of_nat (slot d)). apply (slots_from_insert _ _ _ _ p); [|done|].
    + intros j s q Hj Hq. destruct (expanded_from l d j s q Hj Hq) as [_ Hx]. by rewrite El in Hx.
    + rewrite Z.sub_add. symmetry. by apply u16_id.
  - rewrite El in Hf. destruct Hf as [p0 Hp0].
    pose proof (slots_ok_from _ _ _ _ _ El Hp0 Hb) as Hb0.
    exists (SequenceNumber p0 - Z.of_nat (added d)).
    apply (slots_from_insert _ _ _ _ p); [by apply expanded_slots_from|done|].
    destruct (GetPacketIndex_spec l s0 p0 l' (SequenceNumber p) El Hp0) as (d' & Hd' & _ & Hseq);
      [rewrite (Hb 0%nat s0 p0); [apply u16_range|by rewrite El|done]|done|].
    rewrite Hd in Hd'. injection Hd' as <-. rewrite Hseq. f_equal. unfold slot, added. lia.
Qed.

Lemma stores_insert t q s :
  packet_ t = Some p ->
  stores (<[slot d:=t]> (expanded l d)) q s <->
    (q = SequenceNumber p /\ s = t) \/ stores l q s.
Proof.
  intros Ht. split.
  - intros (j & r & Hj & Hr & Hq). apply list_lookup_insert_Some in Hj as [(<- & <- & _)|[_ Hj]].
    + left. split; [congruence|done].
    + right. destruct (expanded_from l d j s r Hj Hr) as [_ Hx]. by exists (j - added d)%nat, r.
  - intros [[-> ->]|(j & r & Hj & Hr & Hq)].
    + exists (slot d), p. split_and!; [|done|done]. apply list_lookup_insert_eq, slot_lt.
    + exists (added d + j)%nat, r. split_and!; [|done|done].
      rewrite list_lookup_insert_ne by (intros E; by apply (old_slot j s r)). by apply expanded_to.
Qed.

Lemma insert_spec :
  exists l', (let '(i, l) := expand d l in wr l i (new_stored p st)) = Some l' /\
    slots_ok l' /\
    (forall q s, stores l' q s <-> (q = SequenceNumber p /\ s = new_stored p st) \/ stores l q s) /\
    zlen l' = Z.max (- d) 0 + Z.max (zlen l) (d + 1) /\
    l' !! Z.to_nat (Z.max d 0) = Some (new_stored p st) /\
    (forall j s q, l !! j = Some s -> packet_ s = Some q ->
       l' !! (Z.to_nat (Z.max (- d) 0) + j)%nat = Some s).
Proof.
  rewrite expand_eq. pose proof (expanded_zlen l d) as Hz. pose proof (slot_lt l d) as Hlt.
  rewrite wr_Some by (unfold slot, zlen in *; lia). fold (slot d).
  eexists. split; [reflexivity|]. split; [|split; [|split; [|split]]].
  - split; [apply insert_front_ok; [apply Hok|apply empty_index|by eexists]|].
    by apply insert_slots_from.
  - intros q s. by apply stores_insert.
  - rewrite <- Hz. unfold zlen. by rewrite length_insert.
  - by apply list_lookup_insert_eq.
  - intros j s q Hj Hq. replace (Z.to_nat (Z.max (- d) 0)) with (added d) by (unfold added; lia).
    rewrite list_lookup_insert_ne by (intros E; by apply (old_slot j s q)). by apply expanded_to.
Qed.
End Insert.

(** ** The operations, on the map *)

Lemma remove_dead_abs now h :
  slots_ok (packet_history_ h) ->
  exists k, RemoveDeadPackets now h = Some (set_slots (drop k (packet_history_ h)) h) /\
    hist_ok (set_slots (drop k (packet_history_ h)) h) /\
    forall i s, packet_history_ h !! i = Some s -> is_Some (packet_ s) ->
      zlen (packet_history_ h) - Z.of_nat i <= kMaxCapacity ->
      pending_transmission_ s = true \/
        now < timestamp_add (send_time_ s) (packet_duration (rtt_ h)) -> (k <= i)%nat.
Proof.
  intros [Hf Hb]. unfold RemoveDeadPackets.
  destruct (remove_dead_spec (S (length (packet_history_ h))) now (packet_duration (rtt_ h))
    (number_to_store_ h) (packet_history_ h) Hf ltac:(lia)) as (k & -> & Hfk & Hz & Hs).
  cbn [mbind option_bind]. exists k. split; [done|]. split; [|exact Hs].
  split; [by apply slots_ok_drop|exact Hz].
Qed.

Lemma stores_drop l k q s : stores (drop k l) q s -> stores l q s.
Proof.
  intros (i & p & Hi & Hp & Hq). rewrite lookup_drop in Hi. by exists (k + i)%nat, p.
Qed.

Lemma abs_spec h q s : hist_ok h -> abs h !! q = Some s <-> stores (packet_history_ h) q s.
Proof. intros [Hok Hz]. apply stored_map_spec; auto with rtc. Qed.

(** A stored packet that is not to be forgotten yet. *)
Definition kept (now : Z) (h : RtpPacketHistory) (s : StoredPacket) : Prop :=
  pending_transmission_ s = true \/
  now < timestamp_add (send_time_ s) (packet_duration (rtt_ h)).

Lemma PutRtpPacket_abs now p st h :
  hist_ok h -> is_u16 (SequenceNumber p) ->
  exists h', PutRtpPacket now p st h = Some h' /\ hist_ok h' /\ rtt_ h' = rtt_ h /\
    abs h' ⊆ <[SequenceNumber p := new_stored p st]> (abs h) /\
    ((forall q s, abs h !! q = Some s -> u16 (SequenceNumber p - q) < 32768) ->
     forall q s, <[SequenceNumber p := new_stored p st]> (abs h) !! q = Some s ->
       kept now h s -> u16 (SequenceNumber p - q) < kMaxCapacity -> abs h' !! q = Some s).
Proof.
  intros [Hok Hz] Hs. set (seq := SequenceNumber p) in *. unfold PutRtpPacket.
  destruct (remove_dead_abs now h Hok) as (k & -> & [Hok1 Hz1] & Hk). cbn [mbind option_bind].
  set (l := packet_history_ h) in *. set (l1 := drop k l) in *.
  cbn [set_slots packet_history_] in *. cbv zeta. fold seq.
  destruct (GetPacketIndex_total l1 seq Hok1 Hs) as (d & Hd). rewrite Hd. cbn [mbind option_bind].
  destruct (remove_duplicate_spec l1 d seq Hok1 ltac:(auto with rtc) Hs Hd)
    as (d2 & l2 & -> & Hok2 & Hz2 & Hd2 & Hst2). cbn [mbind option_bind].
  destruct (insert_spec l2 d2 p st Hok2 Hs Hd2) as (l3 & Hl3 & Hok3 & Hst3 & Hz3 & Hnew & Hold);
    [intros s Hx; by apply Hst2 in Hx as [_ Hx]|].
  destruct (expand d2 l2) as [i l2']. rewrite Hl3. cbn [mbind option_bind].
  destruct (remove_dead_abs now (set_slots l3 (set_slots l1 h)) Hok3) as (k3 & -> & Hh3 & Hk3).
  eexists. split; [reflexivity|]. split; [exact Hh3|]. split; [done|].
  cbn [set_slots packet_history_ rtt_] in *.
  split.
  - apply map_subseteq_spec. intros q s Hq%abs_spec; [|exact Hh3].
    apply stores_drop, Hst3 in Hq. apply lookup_insert_Some.
    destruct Hq as [[-> ->]|Hq]; [by left|]. right.
    apply Hst2 in Hq as [Hq Hne]. split; [done|]. apply abs_spec; [by split|]. by eapply stores_drop.
  - intros Hnewest q s Hq Hkept Hwin. apply abs_spec; [exact Hh3|]. cbn [packet_history_].
    (* nothing stored is ahead of the new packet *)
    assert (0 <= d2 \/ l2 = []) as Hd20.
    { destruct l2 as [|s0 l2x]; [by right|]. left.
      pose proof Hok2 as [[p0 Hp0] [b Hb]].
      assert (is_u16 (SequenceNumber p0)) as Hu
        by (rewrite (Hb 0%nat s0 p0 eq_refl Hp0); apply u16_range).
      destruct (GetPacketIndex_spec _ s0 p0 l2x seq eq_refl Hp0 Hu Hs) as (d' & Hd' & Hr & Hseq).
      rewrite Hd2 in Hd'. injection Hd' as <-.
      assert (stores l1 (SequenceNumber p0) s0) as Hs0
        by (apply Hst2; by exists 0%nat, p0).
      apply stores_drop in Hs0.
      pose proof (Hnewest _ s0 (proj2 (abs_spec h _ _ (conj Hok Hz)) Hs0)) as Hn.
      rewrite Hseq in Hn. unfold is_u16 in *. ilia. }
    assert (l2 = [] -> d2 = 0) as Hnil by (intros ->; cbn in Hd2; congruence).
    assert (0 <= d2) as Hd0 by (destruct Hd20 as [?|Hx]; [done|rewrite (Hnil Hx); lia]).
    rewrite Z.max_r in Hz3, Hold by lia. rewrite Z.max_l in Hnew by lia. cbn [Nat.add] in Hold.
    change (Z.to_nat 0 + ?j)%nat with j in Hold.
    (* a packet of [l3] that is kept and not too far back *)
    assert (forall j t r, l3 !! j = Some t -> packet_ t = Some r -> SequenceNumber r = q ->
              zlen l3 - Z.of_nat j <= kMaxCapacity -> kept now h t -> stores (drop k3 l3) q t)
      as Hfin.
    { intros j t r Hj Hr Hrq Hc Hkt. pose proof (Hk3 j t Hj ltac:(eauto) Hc Hkt) as Hle.
      exists (j - k3)%nat, r. rewrite lookup_drop.
      by replace (k3 + (j - k3))%nat with j by lia. }
    apply lookup_insert_Some in Hq as [[<- <-]|[Hne Hq]].
    + apply (Hfin (Z.to_nat d2) _ p); try done. unfold kMaxCapacity in *. lia.
    + apply abs_spec in Hq as (i0 & r & Hi0 & Hr & Hrq); [|by split].
      assert (stores l2 q s) as (j & r' & Hj & Hr' & Hq').
      { apply Hst2. split; [|done]. pose proof (lookup_lt_Some _ _ _ Hi0).
        pose proof (Hk i0 s Hi0 ltac:(eauto) ltac:(fold l in Hz; lia) Hkept) as Hle.
        exists (i0 - k)%nat, r. unfold l1. rewrite lookup_drop.
        by replace (k + (i0 - k))%nat with i0 by lia. }
      apply (Hfin j s r'); [by eapply Hold|done|done| |done].
      destruct (Z.leb_spec (d2 + 1) (zlen l2)); [unfold kMaxCapacity in *; lia|].
      pose proof (lookup_lt_Some _ _ _ Hj). rewrite Hz3, Z.max_r by lia.
      destruct l2 as [|s0 l2x] eqn:El2; [done|]. rewrite <- El2 in *.
      pose proof Hok2 as [Hf2 [b Hb]]. rewrite El2 in Hf2. destruct Hf2 as [p0 Hp0].
      assert (is_u16 (SequenceNumber p0)) as Hu.
      { rewrite (Hb 0%nat s0 p0); [apply u16_range|by rewrite El2|done]. }
      destruct (GetPacketIndex_spec _ s0 p0 l2x seq El2 Hp0 Hu Hs) as (d' & Hd' & Hr2 & Hseq).
      rewrite Hd2 in Hd'. injection Hd' as <-.
      rewrite (slots_ok_from _ _ _ _ _ El2 Hp0 Hb j s r' Hj Hr') in Hq'.
      rewrite Hseq, <- Hq' in Hwin. unfold zlen, kMaxCapacity in *. ilia.
Qed.

(** Whether a request for the packet is answered. *)
Definition available (now : Z) (h : RtpPacketHistory) (s : StoredPacket) : bool :=
  negb (pending_transmission_ s) && VerifyRtt now s h.

Definition sent_state (now : Z) (s : StoredPacket) : StoredPacket :=
  mkStored (packet_ s) false now (u64 (times_retransmitted_ s + 1)).
Definition aborted_state (s : StoredPacket) : StoredPacket :=
  mkStored (packet_ s) false (send_time_ s) (times_retransmitted_ s).
Definition pending_state (s : StoredPacket) : StoredPacket :=
  mkStored (packet_ s) true (send_time_ s) (times_retransmitted_ s).

Lemma alter_insert (f : StoredPacket -> StoredPacket) (m : gmap Z StoredPacket) k s :
  m !! k = Some s -> alter f k m = <[k := f s]> m.
Proof.
  intros H. apply map_eq. intros j. destruct (decide (k = j)) as [->|Hn].
  - by rewrite lookup_alter_eq, lookup_insert_eq, H.
  - by rewrite lookup_alter_ne, lookup_insert_ne by done.
Qed.

Lemma alter_absent (f : StoredPacket -> StoredPacket) (m : gmap Z StoredPacket) k :
  m !! k = None -> alter f k m = m.
Proof.
  intros H. apply map_eq. intros j. destruct (decide (k = j)) as [->|Hn].
  - by rewrite lookup_alter_eq, H.
  - by rewrite lookup_alter_ne by done.
Qed.

Lemma MarkPacketAsSent_abs now seq h :
  hist_ok h -> is_u16 seq ->
  exists h', MarkPacketAsSent now seq h = Some h' /\ hist_ok h' /\ rtt_ h' = rtt_ h /\
    abs h' = alter (sent_state now) seq (abs h).
Proof.
  intros Hh Hs. unfold MarkPacketAsSent.
  destruct (GetStoredPacket_abs h seq Hh Hs) as ([[i s]|] & -> & Hr); cbn [mbind option_bind].
  - destruct Hr as (Hi & Hsl & Ha & p & Hp & Hq).
    destruct (update_found h seq i s (sent_state now s) p Hh Hi Hsl Hp Hq Hp) as (l & Hw & Hok & Hu).
    unfold sent_state in Hw. rewrite Hw. cbn [mbind option_bind].
    eexists. split_and!; [done|done|done|]. by rewrite (alter_insert _ _ _ _ Ha).
  - exists h. split_and!; [done|done|done|]. by rewrite alter_absent.
Qed.

Lemma MarkPacketAsAborted_abs seq h :
  hist_ok h -> is_u16 seq ->
  exists h', MarkPacketAsAborted seq h = Some h' /\ hist_ok h' /\ rtt_ h' = rtt_ h /\
    abs h' = alter aborted_state seq (abs h).
Proof.
  intros Hh Hs. unfold MarkPacketAsAborted.
  destruct (GetStoredPacket_abs h seq Hh Hs) as ([[i s]|] & -> & Hr); cbn [mbind option_bind].
  - destruct Hr as (Hi & Hsl & Ha & p & Hp & Hq).
    destruct (update_found h seq i s (aborted_state s) p Hh Hi Hsl Hp Hq Hp) as (l & Hw & Hok & Hu).
    unfold aborted_state in Hw. rewrite Hw. cbn [mbind option_bind].
    eexists. split_and!; [done|done|done|]. by rewrite (alter_insert _ _ _ _ Ha).
  - exists h. split_and!; [done|done|done|]. by rewrite alter_absent.
Qed.

Lemma GetPacketAndEncapsulate_abs {A} now seq
    (enc : RtpPacketToSend -> option (A * option RtpPacketToSend)) h :
  hist_ok h -> is_u16 seq ->
  (forall s p, abs h !! seq = Some s -> packet_ s = Some p -> is_Some (enc p)) ->
  exists a r h', GetPacketAndEncapsulate now seq enc h = Some (a, r, h') /\ hist_ok h' /\
    rtt_ h' = rtt_ h /\
    match abs h !! seq with
    | None => a = None /\ r = None /\ abs h' = abs h
    | Some s =>
        exists p, packet_ s = Some p /\ SequenceNumber p = seq /\
          (if available now h s then enc p = match a with Some a => Some (a, r) | None => None end
           else a = None /\ r = None) /\
          abs h' = (match r with Some _ => alter pending_state seq (abs h) | None => abs h end)
    end.
Proof.
  intros Hh Hs Henc. unfold GetPacketAndEncapsulate. cbv zeta.
  destruct (GetStoredPacket_abs h seq Hh Hs) as ([[i s]|] & -> & Hr); cbn [mbind option_bind].
  2: { exists None, None, h. rewrite Hr. done. }
  destruct Hr as (Hi & Hsl & Ha & p & Hp & Hq). rewrite Ha. unfold available.
  destruct (pending_transmission_ s); cbn [negb andb].
  { exists None, None, h. split_and!; [done..|]. exists p. done. }
  destruct (VerifyRtt now s h); cbn [negb].
  2: { exists None, None, h. split_and!; [done..|]. exists p. done. }
  rewrite Hp. cbn [mbind option_bind]. destruct (Henc s p Ha Hp) as [[a [e|]] Ee]; rewrite Ee; cbn [mbind option_bind].
  2: { exists (Some a), None, h. split_and!; [done..|]. exists p. split_and!; done. }
  assert (packet_ (pending_state s) = Some p) as Hp' by done.
  destruct (update_found h seq i s (pending_state s) p Hh Hi Hsl Hp Hq Hp') as (l & Hw & Hok & Hu).
  unfold pending_state in Hw. rewrite Hp in Hw. rewrite Hw. cbn [mbind option_bind].
  eexists _, _, _. split_and!; [reflexivity|done|done|]. exists p.
  split_and!; [done|done|done|]. by rewrite (alter_insert _ _ _ _ Ha).
Qed.

Lemma GetPacketAndMarkAsPending_abs now seq enc h :
  hist_ok h -> is_u16 seq ->
  exists r h', GetPacketAndMarkAsPending now seq enc h = Some (r, h') /\ hist_ok h' /\
    rtt_ h' = rtt_ h /\
    match abs h !! seq with
    | None => r = None /\ abs h' = abs h
    | Some s =>
        exists p, packet_ s = Some p /\ SequenceNumber p = seq /\
          r = (if available now h s then enc p else None) /\
          abs h' = (match r with Some _ => alter pending_state seq (abs h) | None => abs h end)
    end.
Proof.
  intros Hh Hs. unfold GetPacketAndMarkAsPending.
  destruct (GetPacketAndEncapsulate_abs now seq (fun p => Some (tt, enc p)) h Hh Hs) as (a & r & h' & -> & Hh' & Hrtt & H);
    [by eexists|].
  exists r, h'. split; [done|]. split; [done|]. split; [done|]. destruct (abs h !! seq) as [s|]; [|tauto].
  destruct H as (p & Hp & Hq & Ha & Habs). exists p. split_and!; [done..| |done].
  destruct (available now h s); [|tauto]. destruct a; [by injection Ha as <-|done].
Qed.

(** ** Runs *)

Inductive history_event :=
  | EvPut (now : Z) (p : RtpPacketToSend) (send_time : Z)
  | EvSetRtt (now rtt : Z)
  | EvGet (now seq : Z)
  | EvSent (now seq : Z)
  | EvAborted (seq : Z).

Definition history_step (h : RtpPacketHistory) (e : history_event) : option RtpPacketHistory :=
  match e with
  | EvPut now p st => PutRtpPacket now p st h
  | EvSetRtt now rtt => SetRtt now rtt h
  | EvGet now seq => '(_, h) ← GetPacketCopyAndMarkAsPending now seq h; Some h
  | EvSent now seq => MarkPacketAsSent now seq h
  | EvAborted seq => MarkPacketAsAborted seq h
  end.

Definition event_ok (e : history_event) : Prop :=
  match e with
  | EvPut _ p _ => is_u16 (SequenceNumber p)
  | EvSetRtt _ _ => True
  | EvGet _ seq | EvSent _ seq | EvAborted seq => is_u16 seq
  end.

Fixpoint history_run (h : RtpPacketHistory) (es : list history_event) : option RtpPacketHistory :=
  match es with
  | [] => Some h
  | e :: es' => h ← history_step h e; history_run h es'
  end.

Lemma history_step_ok h e :
  hist_ok h -> event_ok e -> exists h', history_step h e = Some h' /\ hist_ok h'.
Proof.
  intros Hh He. destruct e as [now p st|now rtt|now seq|now seq|seq]; cbn [history_step].
  - destruct (PutRtpPacket_abs now p st h Hh He) as (h' & -> & Hh' & _). by exists h'.
  - unfold SetRtt. destruct (remove_dead_abs now (mkHistory (packet_history_ h) rtt (number_to_store_ h)))
      as (k & -> & Hh' & _); [apply Hh|]. eexists. done.
  - unfold GetPacketCopyAndMarkAsPending.
    destruct (GetPacketAndMarkAsPending_abs now seq Some h Hh He) as (r & h' & -> & Hh' & _).
    by exists h'.
  - destruct (MarkPacketAsSent_abs now seq h Hh He) as (h' & -> & Hh' & _). by exists h'.
  - destruct (MarkPacketAsAborted_abs seq h Hh He) as (h' & -> & Hh' & _). by exists h'.
Qed.

Lemma history_run_ok es : forall h,
  hist_ok h -> Forall event_ok es -> exists h', history_run h es = Some h' /\ hist_ok h'.
Proof.
  induction es as [|e es IH]; intros h Hh He; [by exists h|].
  apply Forall_cons_1 in He as [He Hes]. cbn [history_run].
  destruct (history_step_ok h e Hh He) as (h' & -> & Hh'). by apply IH.
Qed.

Lemma new_history_ok : hist_ok new_history.
Proof.
  split; [|done]. split; [done|]. exists 0. intros i s p Hi _. done.
Qed.

(** ** Properties *)

(** C25. Whatever sequence of insertions, requests, completions and round trip
    times the history is given, at whatever times, it never touches a slot
    outside its deque or a packet that is not there, and it never holds more
    than its capacity of 10001 slots; its oldest slot always holds a packet and
    every packet sits in the slot of its sequence number. *)
Theorem history_run_safe (es : list history_event) :
  Forall event_ok es ->
  exists h, history_run new_history es = Some h /\
    zlen (packet_history_ h) <= kMaxCapacity /\ slots_ok (packet_history_ h).
Proof.
  intros He. destruct (history_run_ok es new_history new_history_ok He) as (h & Hr & Hok & Hz).
  by exists h.
Qed.

Definition sample_packet (seq : Z) : RtpPacketToSend := new_to_send (set_sequence_number_ seq new_packet).

Lemma history_run_safe_witness :
  exists h, history_run new_history
      [EvPut 0 (sample_packet 65535) 0; EvPut 5 (sample_packet 30000) 5; EvGet 6 65535;
       EvSetRtt 7 90000000; EvSent 9 65535; EvAborted 1] = Some h /\
    zlen (packet_history_ h) <= kMaxCapacity /\ slots_ok (packet_history_ h).
Proof.
  apply history_run_safe. unfold event_ok. repeat apply Forall_cons_2; try apply Forall_nil_2;
    unfold is_u16; cbn; try lia.
Defined.

(** C26. What the history promises a sender, as operations on the map from
    sequence numbers to the packets stored: a request gets the encapsulated
    packet exactly when one with that number is stored, is not already queued
    and was not retransmitted within the round trip time, and then marks it as
    queued; completion and abortion change the entry of their number and
    nothing else. *)
Theorem history_refines_map (now seq : Z) (enc : RtpPacketToSend -> option RtpPacketToSend)
    (h : RtpPacketHistory) :
  hist_ok h -> is_u16 seq ->
  (exists r h', GetPacketAndMarkAsPending now seq enc h = Some (r, h') /\ hist_ok h' /\
     match abs h !! seq with
     | None => r = None /\ abs h' = abs h
     | Some s =>
         exists p, packet_ s = Some p /\ SequenceNumber p = seq /\
           r = (if available now h s then enc p else None) /\
           abs h' = (match r with Some _ => alter pending_state seq (abs h) | None => abs h end)
     end) /\
  (exists h', MarkPacketAsSent now seq h = Some h' /\ hist_ok h' /\
     abs h' = alter (sent_state now) seq (abs h)) /\
  (exists h', MarkPacketAsAborted seq h = Some h' /\ hist_ok h' /\
     abs h' = alter aborted_state seq (abs h)).
Proof.
  intros Hh Hs. split; [|split].
  - destruct (GetPacketAndMarkAsPending_abs now seq enc h Hh Hs) as (r & h' & H1 & H2 & _ & H3).
    by exists r, h'.
  - destruct (MarkPacketAsSent_abs now seq h Hh Hs) as (h' & H1 & H2 & _ & H3). by exists h'.
  - destruct (MarkPacketAsAborted_abs seq h Hh Hs) as (h' & H1 & H2 & _ & H3). by exists h'.
Qed.

(** A history with one packet. *)
Definition sample_history : RtpPacketHistory :=
  mkHistory [new_stored (sample_packet 7) 0] 100000 kMaxCapacity.

Lemma sample_history_ok : hist_ok sample_history.
Proof.
  split; [|done]. split; [by eexists|]. exists 7. intros [|i] s p Hi Hp; [|done].
  injection Hi as <-. injection Hp as <-. done.
Defined.

Lemma history_refines_map_witness :
  (exists r h', GetPacketAndMarkAsPending 10 7 Some sample_history = Some (r, h') /\ hist_ok h' /\
     match abs sample_history !! 7 with
     | None => r = None /\ abs h' = abs sample_history
     | Some s =>
         exists p, packet_ s = Some p /\ SequenceNumber p = 7 /\
           r = (if available 10 sample_history s then Some p else None) /\
           abs h' = (match r with Some _ => alter pending_state 7 (abs sample_history)
                     | None => abs sample_history end)
     end) /\
  (exists h', MarkPacketAsSent 10 7 sample_history = Some h' /\ hist_ok h' /\
     abs h' = alter (sent_state 10) 7 (abs sample_history)) /\
  (exists h', MarkPacketAsAborted 7 sample_history = Some h' /\ hist_ok h' /\
     abs h' = alter aborted_state 7 (abs sample_history)).
Proof.
  refine (history_refines_map 10 7 Some sample_history sample_history_ok _). unfold is_u16. lia.
Defined.

(** What is kept: storing a packet adds no other and brings none back, and
    when no stored packet is ahead of it (media in order), the new packet and
    every stored one that is queued or younger than the minimum age stays
    available as long as it is among the last 10001 sequence numbers, whatever
    the gaps between them. *)
Theorem history_retains_window (now st : Z) (p : RtpPacketToSend) (h : RtpPacketHistory) :
  hist_ok h -> is_u16 (SequenceNumber p) ->
  exists h', PutRtpPacket now p st h = Some h' /\ hist_ok h' /\
    abs h' ⊆ <[SequenceNumber p := new_stored p st]> (abs h) /\
    ((forall q s, abs h !! q = Some s -> u16 (SequenceNumber p - q) < 32768) ->
     forall q s, <[SequenceNumber p := new_stored p st]> (abs h) !! q = Some s ->
       kept now h s -> u16 (SequenceNumber p - q) < kMaxCapacity -> abs h' !! q = Some s).
Proof.
  intros Hh Hs. destruct (PutRtpPacket_abs now p st h Hh Hs) as (h' & H1 & H2 & _ & H3).
  by exists h'.
Qed.

Lemma history_retains_window_witness :
  exists h', PutRtpPacket 10 (sample_packet 9) 10 sample_history = Some h' /\ hist_ok h' /\
    abs h' ⊆ <[9 := new_stored (sample_packet 9) 10]> (abs sample_history) /\
    ((forall q s, abs sample_history !! q = Some s -> u16 (9 - q) < 32768) ->
     forall q s, <[9 := new_stored (sample_packet 9) 10]> (abs sample_history) !! q = Some s ->
       kept 10 sample_history s -> u16 (9 - q) < kMaxCapacity -> abs h' !! q = Some s).
Proof.
  refine (history_retains_window 10 10 (sample_packet 9) sample_history sample_history_ok _).
  unfold is_u16. cbn. lia.
Defined.

(** A packet is not retransmitted twice for one request: after a request
    was answered the next one is refused until the pacer reports what became of
    it; after completion it is refused until a round trip time has passed and
    answered afterwards; after an abortion it is answered at once. *)
Theorem history_retransmits_once (now seq : Z) (h h1 : RtpPacketHistory) (e : RtpPacketToSend) :
  hist_ok h -> is_u16 seq -> IsFinite now = true -> IsFinite (rtt_ h) = true ->
  GetPacketAndMarkAsPending now seq Some h = Some (Some e, h1) ->
  (forall t, exists h2, GetPacketAndMarkAsPending t seq Some h1 = Some (None, h2)) /\
  (exists h2, MarkPacketAsSent now seq h1 = Some h2 /\
     forall t, IsFinite t = true -> now <= t ->
       (exists s, abs h !! seq = Some s /\ times_retransmitted_ s < 18446744073709551615 /\
                  0 <= times_retransmitted_ s) ->
       exists h3, GetPacketAndMarkAsPending t seq Some h2 =
         Some (if t - now <? rtt_ h then None else Some e, h3)) /\
  (exists h2, MarkPacketAsAborted seq h1 = Some h2 /\
     exists h3, GetPacketAndMarkAsPending now seq Some h2 = Some (Some e, h3)).
Proof.
  intros Hh Hs Hnow Hrtt Hg.
  destruct (GetPacketAndMarkAsPending_abs now seq Some h Hh Hs)
    as (r & h1' & Hg' & Hh1 & Hr1 & Hm). rewrite Hg in Hg'. injection Hg' as <- <-.
  destruct (abs h !! seq) as [s|] eqn:Ha; [|by destruct Hm].
  destruct Hm as (p & Hp & Hq & Hav & Ha1).
  destruct (available now h s) eqn:Hav'; [|done]. injection Hav as <-.
  assert (abs h1 !! seq = Some (pending_state s)) as Hl1
    by (by rewrite Ha1, lookup_alter_eq, Ha).
  split; [|split].
  - intros t. destruct (GetPacketAndMarkAsPending_abs t seq Some h1 Hh1 Hs)
      as (r2 & h2 & Hg2 & _ & _ & Hm2). rewrite Hl1 in Hm2.
    destruct Hm2 as (p2 & _ & _ & -> & _). by exists h2.
  - destruct (MarkPacketAsSent_abs now seq h1 Hh1 Hs) as (h2 & Hs2 & Hh2 & Hr2 & Ha2).
    exists h2. split; [done|]. intros t Ht Hle (s' & Hs' & Hn & Hn0). injection Hs' as <-.
    destruct (GetPacketAndMarkAsPending_abs t seq Some h2 Hh2 Hs)
      as (r3 & h3 & Hg3 & _ & _ & Hm3). rewrite Ha2, lookup_alter_eq, Hl1 in Hm3.
    destruct Hm3 as (p3 & Hp3 & _ & -> & _). cbn in Hp3. rewrite Hp in Hp3. injection Hp3 as <-.
    exists h3. rewrite Hg3. do 2 f_equal.
    unfold available, VerifyRtt. cbn [fmap option_fmap option_map sent_state pending_state
      pending_transmission_ times_retransmitted_ send_time_ negb andb].
    rewrite u64_id by (unfold is_u64; lia). rewrite (proj2 (Z.ltb_lt _ _)) by lia. cbn [andb].
    rewrite Hr2, Hr1. unfold timestamp_diff, IsFinite, IsInfinite in *. b2p.
    rewrite !(proj2 (Z.eqb_neq _ _)) by done. cbn [orb]. by destruct (t - now <? rtt_ h).
  - destruct (MarkPacketAsAborted_abs seq h1 Hh1 Hs) as (h2 & Hs2 & Hh2 & Hr2 & Ha2).
    exists h2. split; [done|].
    destruct (GetPacketAndMarkAsPending_abs now seq Some h2 Hh2 Hs)
      as (r3 & h3 & Hg3 & _ & _ & Hm3). rewrite Ha2, lookup_alter_eq, Hl1 in Hm3.
    destruct Hm3 as (p3 & Hp3 & _ & -> & _). cbn in Hp3. rewrite Hp in Hp3. injection Hp3 as <-.
    exists h3. rewrite Hg3. do 2 f_equal.
    unfold available, VerifyRtt in *. apply andb_prop in Hav' as [_ Hv].
    cbn [fmap option_fmap option_map aborted_state pending_state pending_transmission_
      times_retransmitted_ send_time_ negb andb]. by rewrite Hr2, Hr1, Hv.
Qed.

Lemma history_retransmits_once_witness :
  let h1 := mkHistory [pending_state (new_stored (sample_packet 7) 0)] 100000 kMaxCapacity in
  (forall t, exists h2, GetPacketAndMarkAsPending t 7 Some h1 = Some (None, h2)) /\
  (exists h2, MarkPacketAsSent 10 7 h1 = Some h2 /\
     forall t, IsFinite t = true -> 10 <= t ->
       (exists s, abs sample_history !! 7 = Some s /\
          times_retransmitted_ s < 18446744073709551615 /\ 0 <= times_retransmitted_ s) ->
       exists h3, GetPacketAndMarkAsPending t 7 Some h2 =
         Some (if t - 10 <? 100000 then None else Some (sample_packet 7), h3)) /\
  (exists h2, MarkPacketAsAborted 7 h1 = Some h2 /\
     exists h3, GetPacketAndMarkAsPending 10 7 Some h2 = Some (Some (sample_packet 7), h3)).
Proof.
  refine (history_retransmits_once 10 7 sample_history _ (sample_packet 7) sample_history_ok
    _ eq_refl eq_refl eq_refl).
  unfold is_u16. lia.
Defined.
