(* ===== verification/FeedbackTracker.v ===== *)
(** * The history of arrival times behind a congestion control feedback report

    [CongestionControlFeedbackTracker] of
    [src/qos/congestion_control_feedback_tracker.cc]: one per stream, it turns
    the packets received since the last report into the entries of the next
    one, for consecutive sequence numbers.  [packet_it] is the list it still has
    to visit, and reading through it at the end is [None].  The application data
    a received packet can carry is not modelled. *)

From Stdlib Require Import Sorted.
From stdpp Require Import gmap.
From S2P Require Import Prelude StdContainers SeqNum Units RtpPacket Ccfb.

(** src/rtp/rtp_packet/rtp_packet_received.h:75-79 [RtpPacketReceived] *)
Record RtpPacketReceived := mkReceived {
  rtp_received : RtpPacket;
  arrival_time_ : Z;
  ecn_ : EcnMarking;
  payload_type_frequency_ : Z;
  recovered_ : bool;
}.

(** src/qos/congestion_control_feedback_tracker.h:47-52 [CongestionControlFeedbackTracker::PacketInfo] *)
Record TrackedPacket := mkTracked {
  tracked_ssrc : Z;
  unwrapped_sequence_number : Z;
  arrival_time : Z;
  tracked_ecn : EcnMarking;
}.

(** src/qos/congestion_control_feedback_tracker.h:54-61 [CongestionControlFeedbackTracker] *)
Record CongestionControlFeedbackTracker := mkTracker {
  last_sequence_number_in_feedback_ : option Z;
  unwrapper_ : SeqNumUnwrapper;
  tracked_packets_ : list TrackedPacket;
  history_ : gmap Z TrackedPacket;
  history_order_ : list Z;
}.

Definition new_tracker : CongestionControlFeedbackTracker :=
  mkTracker None fresh_unwrapper [] ∅ [].

(** src/qos/congestion_control_feedback_tracker.h:59-59 [CongestionControlFeedbackTracker::kMaxHistorySize] *)
Definition kMaxHistorySize : Z := 16384.

(** The packet that was stored first leaves a full history. *)
(** src/qos/congestion_control_feedback_tracker.cc:45-50 [CongestionControlFeedbackTracker::ReceivedPacket] *)
Definition history_emplace (info : TrackedPacket) (history : gmap Z TrackedPacket)
    (order : list Z) : gmap Z TrackedPacket * list Z :=
  let seq := unwrapped_sequence_number info in
  let history := <[seq := info]> history in
  let order := order ++ [seq] in
  if kMaxHistorySize <? zlen order then
    match order with
    | seq_to_remove :: order' => (delete seq_to_remove history, order')
    | [] => (history, order)
    end
  else (history, order).

(** src/qos/congestion_control_feedback_tracker.cc:51-58 [CongestionControlFeedbackTracker::ReceivedPacket] *)
Definition history_merge (info it : TrackedPacket) : TrackedPacket :=
  mkTracked (tracked_ssrc it) (unwrapped_sequence_number it)
    (if arrival_time info <? arrival_time it then arrival_time info else arrival_time it)
    (if decide (tracked_ecn info = kCe) then kCe else tracked_ecn it).

(** src/qos/congestion_control_feedback_tracker.cc:25-61 [CongestionControlFeedbackTracker::ReceivedPacket] *)
Definition ReceivedPacket (packet : RtpPacketReceived) (t : CongestionControlFeedbackTracker)
    : CongestionControlFeedbackTracker :=
  let p := rtp_received packet in
  let '(seq, u) := Unwrap16 (unwrapper_ t) (sequence_number_ p) in
  let last :=
    match last_sequence_number_in_feedback_ t with
    | Some l => if seq <? l + 1 then Some (seq - 1) else Some l
    | None => None
    end in
  let info := mkTracked (ssrc_ p) seq (arrival_time_ packet) (ecn_ packet) in
  let '(history, order) :=
    match history_ t !! seq with
    | None => history_emplace info (history_ t) (history_order_ t)
    | Some it => (<[seq := history_merge info it]> (history_ t), history_order_ t)
    end in
  mkTracker last u (tracked_packets_ t ++ [info]) history order.

(** src/qos/congestion_control_feedback_tracker.cc:69-72 [CongestionControlFeedbackTracker::AddPacketsToFeedback] *)
Definition feedback_order (a b : TrackedPacket) : bool :=
  (unwrapped_sequence_number a <? unwrapped_sequence_number b) ||
  ((unwrapped_sequence_number a =? unwrapped_sequence_number b) &&
   (arrival_time a <? arrival_time b)).

(** The smaller offset, once there is one. *)
(** src/qos/congestion_control_feedback_tracker.cc:92-96 [CongestionControlFeedbackTracker::AddPacketsToFeedback] *)
Definition merge_offset (arrival_time_offset offset_current : Z) : Z :=
  if IsFinite arrival_time_offset then Z.min arrival_time_offset offset_current
  else offset_current.

(** src/qos/congestion_control_feedback_tracker.cc:103-123 [CongestionControlFeedbackTracker::AddPacketsToFeedback] *)
Fixpoint merge_duplicates (feedback_time sequence_number arrival_time_offset : Z)
    (ecn : EcnMarking) (packet_it : list TrackedPacket)
    : Z * EcnMarking * list TrackedPacket :=
  match packet_it with
  | [] => (arrival_time_offset, ecn, [])
  | p :: packet_it' =>
      if unwrapped_sequence_number p =? sequence_number then
        merge_duplicates feedback_time sequence_number
          (merge_offset arrival_time_offset (timestamp_diff feedback_time (arrival_time p)))
          (if decide (tracked_ecn p = kCe) then kCe else ecn) packet_it'
      else (arrival_time_offset, ecn, packet_it)
  end.

(** What the history knows about a sequence number. *)
(** src/qos/congestion_control_feedback_tracker.cc:82-88 [CongestionControlFeedbackTracker::AddPacketsToFeedback] *)
Definition from_history (feedback_time : Z) (hist : option TrackedPacket) : Z * EcnMarking :=
  match hist with
  | Some h => (timestamp_diff feedback_time (arrival_time h), tracked_ecn h)
  | None => (MinusInfinity, kNotEct)
  end.

(** src/qos/congestion_control_feedback_tracker.cc:90-124 [CongestionControlFeedbackTracker::AddPacketsToFeedback] *)
Definition visit_packets (feedback_time sequence_number arrival_time_offset : Z)
    (ecn : EcnMarking) (packet_it : list TrackedPacket)
    : option (Z * EcnMarking * list TrackedPacket) :=
  match packet_it with
  | [] => None
  | p :: packet_it' =>
      if sequence_number =? unwrapped_sequence_number p then
        Some (merge_duplicates feedback_time sequence_number
          (merge_offset arrival_time_offset (timestamp_diff feedback_time (arrival_time p)))
          (if decide (tracked_ecn p = kCe) then kCe
           else if decide (ecn = kNotEct) then tracked_ecn p else ecn) packet_it')
      else Some (arrival_time_offset, ecn, packet_it)
  end.

(** The [for] over the sequence numbers: [n] rounds are left. *)
(** src/qos/congestion_control_feedback_tracker.cc:80-127 [CongestionControlFeedbackTracker::AddPacketsToFeedback] *)
Fixpoint feedback_loop (n : nat) (feedback_time ssrc sequence_number : Z)
    (history : gmap Z TrackedPacket) (packet_it : list TrackedPacket)
    (packet_feedback : list PacketInfo) : option (list PacketInfo) :=
  match n with
  | O => Some packet_feedback
  | S n' =>
      let '(offset, ecn) := from_history feedback_time (history !! sequence_number) in
      '(offset, ecn, packet_it) ←
        visit_packets feedback_time sequence_number offset ecn packet_it;
      feedback_loop n' feedback_time ssrc (sequence_number + 1) history packet_it
        (packet_feedback ++ [mkInfo ssrc (u16 sequence_number) offset ecn])
  end.

(** src/qos/congestion_control_feedback_tracker.cc:63-130 [CongestionControlFeedbackTracker::AddPacketsToFeedback] *)
Definition AddPacketsToFeedback `{!StdSort} (feedback_time : Z)
    (packet_feedback : list PacketInfo) (t : CongestionControlFeedbackTracker)
    : option (list PacketInfo * CongestionControlFeedbackTracker) :=
  match std_sort feedback_order (tracked_packets_ t) with
  | [] => Some (packet_feedback, t)
  | front :: rest =>
      let packets := front :: rest in
      let back := List.last packets front in
      let last_sequence_number :=
        match last_sequence_number_in_feedback_ t with
        | None => unwrapped_sequence_number front - 1
        | Some l => l
        end in
      packet_feedback ← feedback_loop
        (Z.to_nat (unwrapped_sequence_number back - last_sequence_number)) feedback_time
        (tracked_ssrc front) (last_sequence_number + 1) (history_ t) packets packet_feedback;
      Some (packet_feedback,
            mkTracker (Some (unwrapped_sequence_number back)) (unwrapper_ t) []
              (history_ t) (history_order_ t))
  end.

(** ** The entry of a sequence number

    What one round of the loop computes, as a function of what the history has
    and of the copies received since the last report. *)

Definition any_ce (l : list TrackedPacket) : bool :=
  existsb (fun p => bool_decide (tracked_ecn p = kCe)) l.

Lemma any_ce_cons p l e :
  (if any_ce (p :: l) then kCe else e) =
  if any_ce l then kCe else if decide (tracked_ecn p = kCe) then kCe else e.
Proof.
  cbn. fold (any_ce l). case_bool_decide as E.
  - rewrite decide_True by done. by destruct (any_ce l).
  - by rewrite decide_False by done.
Qed.

(** The latest arrival. *)
Definition latest (a : Z) (l : list TrackedPacket) : Z :=
  fold_left (fun a p => Z.max a (arrival_time p)) l a.

Definition reported (ft : Z) (hist : option TrackedPacket) (copies : list TrackedPacket)
    : Z * EcnMarking :=
  match hist, copies with
  | None, [] => (MinusInfinity, kNotEct)
  | Some h, [] => (ft - arrival_time h, tracked_ecn h)
  | None, p :: cs =>
      (ft - latest (arrival_time p) cs, if any_ce copies then kCe else tracked_ecn p)
  | Some h, p :: cs =>
      (ft - latest (Z.max (arrival_time h) (arrival_time p)) cs,
       if any_ce copies then kCe
       else if decide (tracked_ecn h = kNotEct) then tracked_ecn p else tracked_ecn h)
  end.

Definition is_copy (k : Z) (p : TrackedPacket) : bool := unwrapped_sequence_number p =? k.

Definition copies (k : Z) (l : list TrackedPacket) : list TrackedPacket :=
  List.filter (is_copy k) l.

Lemma copies_cons k p l :
  copies k (p :: l) =
  if unwrapped_sequence_number p =? k then p :: copies k l else copies k l.
Proof. done. Qed.

Lemma latest_max a b l : latest (Z.max a b) l = Z.max a (latest b l).
Proof.
  unfold latest. revert a b. induction l as [|p l IH]; intros a b; cbn; [done|].
  by rewrite <- Z.max_assoc, IH.
Qed.

Lemma latest_time a l :
  is_time a -> Forall (fun p => is_time (arrival_time p)) l -> is_time (latest a l).
Proof.
  unfold latest. intros Ha H. revert a Ha.
  induction H as [|p l Hp Hl IH]; intros a Ha; cbn; [done|].
  apply IH. unfold is_time in *. lia.
Qed.

(** Ordered by sequence number. *)
Definition by_sequence : list TrackedPacket -> Prop :=
  StronglySorted (fun p q => unwrapped_sequence_number p <= unwrapped_sequence_number q).

Lemma copies_gone k l :
  Forall (fun p => k < unwrapped_sequence_number p) l -> copies k l = [].
Proof.
  induction 1 as [|p l Hp Hl IH]; cbn; [done|].
  unfold is_copy at 1. by replace (_ =? _) with false by lia.
Qed.

Lemma by_sequence_tail k p l :
  by_sequence (p :: l) -> k < unwrapped_sequence_number p ->
  Forall (fun q => k < unwrapped_sequence_number q) (p :: l).
Proof.
  intros H Hk. apply StronglySorted_inv in H as [_ H]. constructor; [done|].
  eapply List.Forall_impl; [|exact H]. cbn. lia.
Qed.

(** The copies are a prefix, which the inner loop consumes. *)
Lemma merge_duplicates_spec ft k l : forall a e,
  is_time ft -> is_time a -> Forall (fun p => is_time (arrival_time p)) l ->
  by_sequence l -> Forall (fun p => k <= unwrapped_sequence_number p) l ->
  exists rest, l = copies k l ++ rest /\
    Forall (fun p => k < unwrapped_sequence_number p) rest /\
    merge_duplicates ft k (ft - a) e l =
      (ft - latest a (copies k l), if any_ce (copies k l) then kCe else e, rest).
Proof.
  induction l as [|p l IH]; intros a e Hft Ha Ht Hs Hk; [by exists []|].
  inversion Ht as [|?? Hp Htl]; subst. inversion Hk as [|?? Hkp Hkl]; subst.
  pose proof Hs as Hs0. apply StronglySorted_inv in Hs0 as [Hsl _].
  rewrite copies_cons. cbn [merge_duplicates].
  destruct (Z.eqb_spec (unwrapped_sequence_number p) k) as [E|].
  - destruct (timestamp_diff_time ft a) as [_ Hfin]; [done..|].
    destruct (timestamp_diff_time ft (arrival_time p)) as [-> _]; [done..|].
    unfold merge_offset. rewrite Hfin.
    replace (Z.min (ft - a) (ft - arrival_time p)) with (ft - Z.max a (arrival_time p)) by lia.
    destruct (IH (Z.max a (arrival_time p))
      (if decide (tracked_ecn p = kCe) then kCe else e)) as (rest & Hl & Hr & Hm);
      [done|unfold is_time in *; lia|done..|].
    exists rest. rewrite Hm. split_and!; [|done|].
    + cbn [app]. by rewrite <- Hl.
    + by rewrite any_ce_cons.
  - pose proof (by_sequence_tail k p l Hs ltac:(lia)) as Hgt.
    exists (p :: l). inversion Hgt; subst. by rewrite copies_gone.
Qed.

(** One round. *)
Lemma visit_packets_spec ft k hist l :
  is_time ft -> (forall h, hist = Some h -> is_time (arrival_time h)) ->
  Forall (fun p => is_time (arrival_time p)) l -> by_sequence l ->
  Forall (fun p => k <= unwrapped_sequence_number p) l -> l <> [] ->
  exists rest, l = copies k l ++ rest /\
    Forall (fun p => k < unwrapped_sequence_number p) rest /\
    visit_packets ft k (from_history ft hist).1 (from_history ft hist).2 l =
      Some (reported ft hist (copies k l), rest).
Proof.
  intros Hft Hh Ht Hs Hk Hne. destruct l as [|p l]; [done|]. clear Hne.
  inversion Ht as [|?? Hp Htl]; subst. inversion Hk as [|?? Hkp Hkl]; subst.
  pose proof Hs as Hs0. apply StronglySorted_inv in Hs0 as [Hsl _].
  rewrite copies_cons. cbn [visit_packets]. rewrite (Z.eqb_sym k). destruct (Z.eqb_spec (unwrapped_sequence_number p) k) as [E|].
  - destruct (timestamp_diff_time ft (arrival_time p)) as [-> _]; [done..|].
    destruct hist as [h|]; cbn [from_history fst snd].
    + specialize (Hh h eq_refl). destruct (timestamp_diff_time ft (arrival_time h)) as [-> Hfin];
        [done..|]. unfold merge_offset. rewrite Hfin.
      replace (Z.min (ft - arrival_time h) (ft - arrival_time p)) with
        (ft - Z.max (arrival_time h) (arrival_time p)) by lia.
      destruct (merge_duplicates_spec ft k l (Z.max (arrival_time h) (arrival_time p))
        (if decide (tracked_ecn p = kCe) then kCe
         else if decide (tracked_ecn h = kNotEct) then tracked_ecn p else tracked_ecn h))
        as (rest & Hl & Hr & Hm); [done|unfold is_time in *; lia|done..|].
      exists rest. rewrite Hm. split_and!; [cbn; by rewrite <- Hl|done|].
      cbn [reported]. by rewrite any_ce_cons.
    + change (merge_offset MinusInfinity ?x) with x.
      destruct (merge_duplicates_spec ft k l (arrival_time p)
        (if decide (tracked_ecn p = kCe) then kCe
         else if decide (kNotEct = kNotEct) then tracked_ecn p else kNotEct))
        as (rest & Hl & Hr & Hm); [done..|].
      exists rest. rewrite Hm. split_and!; [cbn; by rewrite <- Hl|done|].
      cbn [reported]. by rewrite any_ce_cons.
  - pose proof (by_sequence_tail k p l Hs ltac:(lia)) as Hgt.
    exists (p :: l). inversion Hgt; subst. rewrite copies_gone by done.
    split_and!; [done..|]. destruct hist as [h|]; cbn [from_history fst snd reported]; [|done].
    destruct (timestamp_diff_time ft (arrival_time h)) as [-> _]; auto.
Qed.

(** ** The entries of a report *)

Fixpoint zseq (k : Z) (n : nat) : list Z :=
  match n with O => [] | S n' => k :: zseq (k + 1) n' end.

Lemma zseq_In k n j : In j (zseq k n) <-> k <= j < k + Z.of_nat n.
Proof. revert k. induction n as [|n IH]; intros k; cbn; [lia|]. rewrite IH. lia. Qed.

Lemma zseq_length k n : length (zseq k n) = n.
Proof. revert k. induction n; intros; cbn; auto. Qed.

Definition entries (ft : Z) (history : gmap Z TrackedPacket) (l : list TrackedPacket)
    (ks : list Z) : list (Z * EcnMarking) :=
  map (fun k => reported ft (history !! k) (copies k l)) ks.

Lemma copies_app k l l' : copies k (l ++ l') = copies k l ++ copies k l'.
Proof. apply List.filter_app. Qed.

Lemma copies_In k l p : In p (copies k l) <-> In p l /\ unwrapped_sequence_number p = k.
Proof. unfold copies, is_copy. rewrite List.filter_In. by rewrite Z.eqb_eq. Qed.

Lemma copies_other j k l : j <> k -> copies j (copies k l) = [].
Proof.
  intros Hj. induction l as [|p l IH]; [done|]. rewrite copies_cons.
  case_match eqn:E; [|done]. b2p. rewrite copies_cons.
  by replace (unwrapped_sequence_number p =? j) with false by lia.
Qed.

Lemma copies_perm k l l' : l ≡ₚ l' -> copies k l ≡ₚ copies k l'.
Proof.
  induction 1; rewrite ?copies_cons; repeat case_match; eauto using perm_skip, perm_swap.
  by etransitivity.
Qed.

Lemma feedback_loop_spec ft s h n : forall k it acc,
  is_time ft -> map_Forall (fun _ q => is_time (arrival_time q)) h ->
  Forall (fun p => is_time (arrival_time p)) it -> by_sequence it ->
  Forall (fun p => k <= unwrapped_sequence_number p) it ->
  (n <> O -> Exists (fun p => unwrapped_sequence_number p = k + Z.of_nat n - 1) it) ->
  feedback_loop n ft s k h it acc =
    Some (acc ++ expand_from s k (entries ft h it (zseq k n))).
Proof.
  induction n as [|n IH]; intros k it acc Hft Hh Ht Hs Hk Hn; cbn [feedback_loop].
  { by rewrite app_nil_r. }
  specialize (Hn ltac:(done)).
  destruct (visit_packets_spec ft k (h !! k) it) as (rest & Hl & Hr & Hv); try done.
  { intros q Hq. exact (Hh _ _ Hq). }
  { intros ->. by inversion Hn. }
  destruct (from_history ft (h !! k)) as [o e]. cbn [fst snd] in Hv. rewrite Hv.
  cbn [mbind option_bind]. destruct (reported ft (h !! k) (copies k it)) as [o' e'] eqn:Er.
  rewrite Hl in Hn, Ht, Hs.
  rewrite (IH (k + 1) rest); try done.
  - rewrite <- app_assoc. cbn [zseq]. unfold entries at 2. cbn [map]. rewrite Er.
    fold (entries ft h it (zseq (k + 1) n)).
    assert (entries ft h it (zseq (k + 1) n) = entries ft h rest (zseq (k + 1) n)) as ->; [|done].
    apply map_ext_in. intros j Hj. apply zseq_In in Hj.
    pose proof (copies_app j (copies k it) rest) as Hc.
    rewrite <- Hl, copies_other in Hc by lia. by rewrite Hc.
  - apply List.Forall_app in Ht. apply Ht.
  - clear -Hs. revert Hs. induction (copies k it) as [|p l IHl]; [done|].
    intros Hs. apply StronglySorted_inv in Hs as [Hs _]. by apply IHl.
  - eapply List.Forall_impl; [|exact Hr]. cbn. lia.
  - intros Hn0. apply List.Exists_app in Hn as [Hn|Hn].
    + apply List.Exists_exists in Hn as (p & Hp & Hu). apply copies_In in Hp. lia.
    + eapply List.Exists_impl; [|exact Hn]. cbn. lia.
Qed.

#[export] Instance feedback_order_weak : WeakOrder feedback_order.
Proof. split; unfold feedback_order; intros; lia. Qed.

Lemma feedback_order_sequence l : in_order feedback_order l -> by_sequence l.
Proof.
  induction 1 as [|p l Hl IH Hp]; constructor; [done|].
  eapply List.Forall_impl; [|exact Hp]. unfold feedback_order. cbn. intros q H. lia.
Qed.

Lemma by_sequence_last d l :
  by_sequence l ->
  Forall (fun p => unwrapped_sequence_number p <= unwrapped_sequence_number (List.last l d)) l.
Proof.
  induction l as [|p l IH]; intros H; [done|]. apply StronglySorted_inv in H as [Hl Hp].
  destruct l as [|q l]; [by repeat constructor|].
  change (List.last (p :: q :: l) d) with (List.last (q :: l) d). specialize (IH Hl).
  constructor; [|done]. apply Forall_inv in Hp. apply Forall_inv in IH. lia.
Qed.

Lemma last_In {A} (d x : A) l : In (List.last (x :: l) d) (x :: l).
Proof.
  revert x. induction l as [|y l IH]; intros x; [by left|].
  change (List.last (x :: y :: l) d) with (List.last (y :: l) d). right. apply IH.
Qed.

(** ** The invariant *)

Record tracker_ok (s : Z) (t : CongestionControlFeedbackTracker) : Prop := {
  tok_unwrapper : unwrapper_ok (W := 65536) (unwrapper_ t);
  tok_order : NoDup (history_order_ t);
  tok_bound : zlen (history_order_ t) <= kMaxHistorySize;
  tok_dom k : is_Some (history_ t !! k) <-> In k (history_order_ t);
  tok_history : map_Forall (fun k h => unwrapped_sequence_number h = k /\
                  is_time (arrival_time h)) (history_ t);
  tok_pending : Forall (fun p => is_time (arrival_time p) /\ tracked_ssrc p = s)
                  (tracked_packets_ t);
  tok_ahead l : last_sequence_number_in_feedback_ t = Some l ->
                Forall (fun p => l < unwrapped_sequence_number p) (tracked_packets_ t);
  tok_earliest k h : history_ t !! k = Some h -> copies k (tracked_packets_ t) <> [] ->
                Exists (fun p => arrival_time h <= arrival_time p)
                       (copies k (tracked_packets_ t));
}.

(** A packet of stream [s]. *)
Definition received_ok (s : Z) (packet : RtpPacketReceived) : Prop :=
  ssrc_ (rtp_received packet) = s /\ is_u16 (sequence_number_ (rtp_received packet)) /\
  is_time (arrival_time_ packet).

Lemma new_tracker_ok s : tracker_ok s new_tracker.
Proof.
  split; cbn; try done; try constructor.
  - intros [? H]. by rewrite lookup_empty in H.
  - done.
Qed.

Lemma history_emplace_spec info h order h' order' :
  NoDup order -> zlen order <= kMaxHistorySize ->
  (forall k, is_Some (h !! k) <-> In k order) ->
  h !! unwrapped_sequence_number info = None ->
  history_emplace info h order = (h', order') ->
  NoDup order' /\ zlen order' <= kMaxHistorySize /\
  (forall k, is_Some (h' !! k) <-> In k order') /\
  (forall k q, h' !! k = Some q ->
     k = unwrapped_sequence_number info /\ q = info \/
     k <> unwrapped_sequence_number info /\ h !! k = Some q).
Proof.
  intros Hnd Hb Hd Hn. unfold history_emplace.
  set (seq := unwrapped_sequence_number info) in *.
  assert (NoDup (order ++ [seq])) as Hnd'.
  { apply list.NoDup_app. split_and!; [done| |apply NoDup_singleton].
    intros x Hx Hs. apply list_elem_of_singleton in Hs as ->.
    apply list_elem_of_In, Hd in Hx. rewrite Hn in Hx. by destruct Hx. }
  assert (forall k, is_Some (<[seq:=info]> h !! k) <-> In k (order ++ [seq])) as Hd'.
  { intros k. rewrite lookup_insert_is_Some, Hd, in_app_iff. cbn.
    destruct (decide (seq = k)); tauto. }
  assert (forall k q, <[seq:=info]> h !! k = Some q ->
    k = seq /\ q = info \/ k <> seq /\ h !! k = Some q) as Hl'.
  { intros k q H. apply lookup_insert_Some in H as [[-> ->]|[? ?]]; [by left|right; auto]. }
  destruct (Z.ltb_spec kMaxHistorySize (zlen (order ++ [seq]))) as [Hlt|]; [|by intros [= <- <-]].
  destruct (order ++ [seq]) as [|k0 o] eqn:Eo; [by intros [= <- <-]|]. intros [= <- <-].
  assert (zlen o = zlen order) as Hz.
  { apply (f_equal zlen) in Eo. rewrite zlen_app, !zlen_cons, zlen_nil in Eo. lia. }
  apply list.NoDup_cons in Hnd' as [Hk0 Ho]. split_and!; [done|lia| |].
  - intros k. rewrite lookup_delete_is_Some, Hd'. cbn. rewrite list_elem_of_In in Hk0.
    split; [tauto|]. intros Hin. split; [by intros ->|by right].
  - intros k q H. apply lookup_delete_Some in H as [_ H]. auto.
Qed.

Lemma copies_snoc k l p :
  copies k (l ++ [p]) = copies k l ++ (if unwrapped_sequence_number p =? k then [p] else []).
Proof. rewrite copies_app, copies_cons. by case_match. Qed.

(** What receiving a packet does to the history. *)
Definition arrival_step (info : TrackedPacket) (h : gmap Z TrackedPacket) (order : list Z)
    : gmap Z TrackedPacket * list Z :=
  match h !! unwrapped_sequence_number info with
  | None => history_emplace info h order
  | Some it => (<[unwrapped_sequence_number info := history_merge info it]> h, order)
  end.

Lemma arrival_step_ok s t info h' order' :
  tracker_ok s t -> is_time (arrival_time info) ->
  arrival_step info (history_ t) (history_order_ t) = (h', order') ->
  NoDup order' /\ zlen order' <= kMaxHistorySize /\
  (forall k, is_Some (h' !! k) <-> In k order') /\
  (forall k q, h' !! k = Some q ->
     unwrapped_sequence_number q = k /\ is_time (arrival_time q) /\
     (k = unwrapped_sequence_number info /\ arrival_time q <= arrival_time info \/
      k <> unwrapped_sequence_number info /\ history_ t !! k = Some q)).
Proof.
  intros [_ Hnd Hb Hd Hh _ _ _] Ht. unfold arrival_step.
  destruct (history_ t !! _) as [it|] eqn:E.
  - intros [= <- <-]. pose proof (Hh _ _ E) as [Hit Htm]. split_and!; [done..| |].
    + intros k. rewrite lookup_insert_is_Some, <- Hd.
      destruct (decide (unwrapped_sequence_number info = k)) as [<-|]; [|tauto].
      rewrite E. split; [by eauto|by left].
    + intros k q H. apply lookup_insert_Some in H as [[<- <-]|[Hne H]].
      * cbn. destruct (Z.ltb_spec (arrival_time info) (arrival_time it)); split_and!;
          try done; left; split; try done; lia.
      * destruct (Hh _ _ H) as [? ?]. auto.
  - intros H. eapply history_emplace_spec in H as (H1 & H2 & H3 & H4); [|done..].
    split_and!; [done..|]. intros k q Hq. destruct (H4 k q Hq) as [[-> ->]|[Hne Hl]].
    + split_and!; [done..|]. left. lia.
    + destruct (Hh _ _ Hl). auto.
Qed.

(** The pending copies bound the history from above, packet by packet. *)
Lemma earliest_snoc s t info k q :
  tracker_ok s t ->
  k = unwrapped_sequence_number info /\ arrival_time q <= arrival_time info \/
  k <> unwrapped_sequence_number info /\ history_ t !! k = Some q ->
  copies k (tracked_packets_ t ++ [info]) <> [] ->
  Exists (fun p => arrival_time q <= arrival_time p) (copies k (tracked_packets_ t ++ [info])).
Proof.
  intros [_ _ _ _ _ _ _ He] H. rewrite copies_snoc. destruct H as [[-> Hle]|[Hne Hl]].
  - rewrite Z.eqb_refl. intros _. apply List.Exists_app. right. by constructor.
  - replace (unwrapped_sequence_number info =? k) with false by lia.
    rewrite app_nil_r. by apply He.
Qed.

(** The packet waits for the next report. *)
Lemma ReceivedPacket_pending packet t :
  exists info, tracked_packets_ (ReceivedPacket packet t) = tracked_packets_ t ++ [info] /\
    arrival_time info = arrival_time_ packet /\ tracked_ecn info = ecn_ packet /\
    unwrapped_sequence_number info
      = (Unwrap16 (unwrapper_ t) (sequence_number_ (rtp_received packet))).1.
Proof.
  unfold ReceivedPacket. destruct (Unwrap16 (unwrapper_ t) _) as [seq u]. cbn [fst].
  change (match history_ t !! seq with Some _ => _ | None => _ end)
    with (arrival_step (mkTracked (ssrc_ (rtp_received packet)) seq (arrival_time_ packet)
                          (ecn_ packet)) (history_ t) (history_order_ t)).
  destruct (arrival_step _ _ _). by eexists.
Qed.

Lemma ReceivedPacket_ok s packet t :
  received_ok s packet -> tracker_ok s t -> tracker_ok s (ReceivedPacket packet t).
Proof.
  intros (Hs & Hu & Ht) Hok. unfold ReceivedPacket.
  pose proof (Unwrap_ok (unwrapper_ t) _ Hu (tok_unwrapper _ _ Hok)) as Hun.
  destruct (Unwrap16 (unwrapper_ t) _) as [seq u]. destruct Hun as [Hun _].
  set (info := mkTracked _ _ _ _).
  change (match history_ t !! seq with Some _ => _ | None => _ end)
    with (arrival_step info (history_ t) (history_order_ t)).
  destruct (arrival_step _ _ _) as [h' o'] eqn:Eh.
  apply (arrival_step_ok s) in Eh as (H1 & H2 & H3 & H4); [|done..].
  split; cbn; try done.
  - intros k q Hq. destruct (H4 k q Hq) as (? & ? & _). done.
  - apply Forall_app. split; [apply Hok|]. by apply list.Forall_singleton.
  - intros l. pose proof (tok_ahead _ _ Hok) as Ha.
    destruct (last_sequence_number_in_feedback_ t) as [l0|]; [|done].
    specialize (Ha l0 eq_refl).
    destruct (Z.ltb_spec seq (l0 + 1)); intros [= <-]; apply Forall_app; split;
      try (apply list.Forall_singleton; cbn; lia); [|done].
    eapply List.Forall_impl; [|exact Ha]. cbn. lia.
  - intros k q Hq. destruct (H4 k q Hq) as (_ & _ & H). by apply (earliest_snoc s).
Qed.

(** ** The report *)

(** The entry of sequence number [k] in a report made at [ft]: when copies came
    since the last report, the arrival of the last of them; otherwise what the
    history has, or nothing. *)
Record entry_of (ft : Z) (t : CongestionControlFeedbackTracker) (k : Z)
    (entry : Z * EcnMarking) : Prop := {
  entry_pending p : In p (tracked_packets_ t) -> unwrapped_sequence_number p = k ->
    exists q, In q (tracked_packets_ t) /\ unwrapped_sequence_number q = k /\
      entry.1 = ft - arrival_time q /\ arrival_time p <= arrival_time q;
  entry_reported : copies k (tracked_packets_ t) = [] ->
    entry = match history_ t !! k with
            | Some h => (ft - arrival_time h, tracked_ecn h)
            | None => (MinusInfinity, kNotEct)
            end;
  entry_ce : entry.2 = kCe <->
    (exists p, In p (tracked_packets_ t) /\ unwrapped_sequence_number p = k /\
       tracked_ecn p = kCe) \/
    (exists h, history_ t !! k = Some h /\ tracked_ecn h = kCe);
}.

(** The first sequence number of the next report. *)
Definition report_first (t : CongestionControlFeedbackTracker) (first : Z) : Prop :=
  match last_sequence_number_in_feedback_ t with
  | Some l => first = l + 1
  | None => Exists (fun p => unwrapped_sequence_number p = first) (tracked_packets_ t)
  end /\
  Forall (fun p => first <= unwrapped_sequence_number p) (tracked_packets_ t).

Definition report_newest (t : CongestionControlFeedbackTracker) (newest : Z) : Prop :=
  Exists (fun p => unwrapped_sequence_number p = newest) (tracked_packets_ t) /\
  Forall (fun p => unwrapped_sequence_number p <= newest) (tracked_packets_ t).

Lemma latest_spec p0 cs :
  (exists q, In q (p0 :: cs) /\ latest (arrival_time p0) cs = arrival_time q) /\
  (forall p, In p (p0 :: cs) -> arrival_time p <= latest (arrival_time p0) cs).
Proof.
  revert p0. induction cs as [|p cs IH]; intros p0.
  - split; [exists p0; split; [by left|done]|]. intros p [->|[]]. reflexivity.
  - change (latest (arrival_time p0) (p :: cs)) with
      (latest (Z.max (arrival_time p0) (arrival_time p)) cs).
    rewrite latest_max. destruct (IH p) as [(q & Hq & E) Hb]. split.
    + destruct (Z.max_spec (arrival_time p0) (latest (arrival_time p) cs)) as [[_ ->]|[_ ->]].
      * exists q. split; [by right|done].
      * exists p0. split; [by left|done].
    + intros x [->|Hx]; [lia|]. specialize (Hb x Hx). lia.
Qed.

Lemma any_ce_spec l : any_ce l = true <-> exists p, In p l /\ tracked_ecn p = kCe.
Proof.
  unfold any_ce. rewrite existsb_exists. by setoid_rewrite bool_decide_eq_true.
Qed.

(** The history never knows of an arrival after the last pending one. *)
Lemma latest_history s t k h p cs :
  tracker_ok s t -> history_ t !! k = Some h -> copies k (tracked_packets_ t) ≡ₚ p :: cs ->
  latest (Z.max (arrival_time h) (arrival_time p)) cs = latest (arrival_time p) cs.
Proof.
  intros Hok Hh Hp. destruct (latest_spec p cs) as [_ Hb]. rewrite latest_max.
  pose proof (tok_earliest _ _ Hok k h Hh) as He.
  specialize (He ltac:(by intros H; rewrite H in Hp; apply Permutation_nil_cons in Hp)).
  apply List.Exists_exists in He as (q & Hq & Hle). rewrite Hp in Hq.
  specialize (Hb q Hq). lia.
Qed.

Lemma reported_entry s ft t k l :
  tracker_ok s t -> l ≡ₚ tracked_packets_ t ->
  entry_of ft t k (reported ft (history_ t !! k) (copies k l)).
Proof.
  intros Hok Hp. apply (copies_perm k) in Hp.
  assert (forall p, In p (tracked_packets_ t) /\ unwrapped_sequence_number p = k <->
                    In p (copies k l)) as Hin.
  { intros p. rewrite <- copies_In. by rewrite Hp. }
  split.
  - intros p H1 H2. pose proof (proj1 (Hin p) (conj H1 H2)) as Hin1.
    destruct (copies k l) as [|p0 cs] eqn:E; [done|].
    assert ((reported ft (history_ t !! k) (p0 :: cs)).1 = ft - latest (arrival_time p0) cs)
      as ->.
    { destruct (history_ t !! k) as [h|] eqn:Eh; cbn; [|done].
      f_equal. by eapply latest_history. }
    destruct (latest_spec p0 cs) as [(q & Hq & Eq) Hb]. exists q.
    pose proof (proj2 (Hin q) Hq) as [? ?]. split_and!; [done..|lia|]. specialize (Hb p Hin1). lia.
  - intros Hc. rewrite Hc in Hp. symmetry in Hp. apply Permutation_nil in Hp. rewrite Hp.
    by destruct (history_ t !! k).
  - transitivity (any_ce (copies k l) = true \/
      exists h, history_ t !! k = Some h /\ tracked_ecn h = kCe).
    + destruct (copies k l) as [|p0 cs] eqn:E, (history_ t !! k) as [h|] eqn:Eh;
        cbn [reported snd].
      * split; [by eauto|]. intros [H|(h' & [= <-] & H)]; done.
      * split; [done|]. by intros [H|(h' & ? & H)].
      * destruct (any_ce (p0 :: cs)) eqn:Ea; [by split; auto|].
        assert (tracked_ecn p0 <> kCe) as Hne.
        { intros H. cbn in Ea. by rewrite bool_decide_eq_true_2 in Ea. }
        case_decide as Hd; split; try done.
        -- intros [H|(h' & [= <-] & H)]; [done|congruence].
        -- by eauto.
        -- by intros [H|(h' & [= <-] & H)].
      * destruct (any_ce (p0 :: cs)) eqn:Ea; [by split; auto|].
        assert (tracked_ecn p0 <> kCe) as Hne.
        { intros H. cbn in Ea. by rewrite bool_decide_eq_true_2 in Ea. }
        split; [done|]. by intros [H|(h' & ? & H)].
    + rewrite any_ce_spec. setoid_rewrite <- Hin. split; intros [(p & Hx)|Hx]; auto;
        left; exists p; tauto.
Qed.

Lemma zseq_lookup k n j : k <= j < k + Z.of_nat n -> zseq k n !! Z.to_nat (j - k) = Some j.
Proof.
  revert k. induction n as [|n IH]; intros k H; [lia|]. cbn [zseq].
  destruct (Z.eq_dec j k) as [->|]; [by rewrite Z.sub_diag|].
  replace (Z.to_nat (j - k)) with (S (Z.to_nat (j - (k + 1)))) by lia.
  cbn. apply IH. lia.
Qed.

(** A report of stream [s] made at [ft]. *)
Record report_of_stream (s ft : Z) (t : CongestionControlFeedbackTracker)
    (first newest : Z) (infos : list (Z * EcnMarking)) : Prop := {
  report_starts : report_first t first;
  report_ends : report_newest t newest;
  report_length : zlen infos = newest - first + 1;
  report_entries k : first <= k <= newest ->
    exists e, infos !! Z.to_nat (k - first) = Some e /\ entry_of ft t k e;
}.

Section report.
Context {sorts : StdSort}.

Lemma AddPacketsToFeedback_ok s ft acc t :
  is_time ft -> tracker_ok s t -> tracked_packets_ t <> [] ->
  exists first newest infos t',
    AddPacketsToFeedback ft acc t = Some (acc ++ expand_from s first infos, t') /\
    report_of_stream s ft t first newest infos /\
    tracker_ok s t' /\ tracked_packets_ t' = [] /\
    last_sequence_number_in_feedback_ t' = Some newest /\ history_ t' = history_ t.
Proof.
  intros Hft Hok Hne. unfold AddPacketsToFeedback.
  pose proof (std_sort_perm feedback_order (tracked_packets_ t)) as Hp.
  pose proof (feedback_order_sequence _ (std_sort_order feedback_order (tracked_packets_ t))) as Hs.
  destruct (std_sort _ _) as [|front rest] eqn:E; [by apply Permutation_nil in Hp|].
  set (l := front :: rest) in *. set (back := List.last l front).
  set (lst := match last_sequence_number_in_feedback_ t with
              | Some z => z | None => unwrapped_sequence_number front - 1 end).
  pose proof (by_sequence_last front l Hs) as Hlast. fold back in Hlast.
  pose proof (last_In front front rest) as Hback. fold l in Hback. fold back in Hback.
  assert (Forall (fun p => lst + 1 <= unwrapped_sequence_number p) l) as Hfirst.
  { unfold lst. pose proof (tok_ahead _ _ Hok) as Ha.
    destruct (last_sequence_number_in_feedback_ t) as [z|].
    - rewrite Hp. eapply List.Forall_impl; [|exact (Ha z eq_refl)]. cbn. lia.
    - apply StronglySorted_inv in Hs as [_ Hs]. constructor; [lia|].
      eapply List.Forall_impl; [|exact Hs]. cbn. lia. }
  assert (lst + 1 <= unwrapped_sequence_number back) as Hle
    by (rewrite List.Forall_forall in Hfirst; auto).
  assert (tracked_ssrc front = s) as Hssrc.
  { pose proof (tok_pending _ _ Hok) as H. rewrite <- Hp in H. apply Forall_inv in H. apply H. }
  set (n := Z.to_nat (unwrapped_sequence_number back - lst)).
  rewrite (feedback_loop_spec ft _ (history_ t) n (lst + 1) l acc); [|done| | |done|done|].
  2: { intros k q Hq. by destruct (tok_history _ _ Hok k q Hq). }
  2: { rewrite Hp. eapply List.Forall_impl; [|exact (tok_pending _ _ Hok)]. by intros ? [? _]. }
  2: { intros _. apply List.Exists_exists. exists back. split; [done|]. unfold n. lia. }
  cbn [mbind option_bind]. rewrite Hssrc. eexists (lst + 1), (unwrapped_sequence_number back), _, _.
  split; [reflexivity|]. split_and!; try done.
  - split.
    + split; [|by rewrite <- Hp]. unfold lst.
      destruct (last_sequence_number_in_feedback_ t); [done|]. rewrite <- Hp.
      constructor. lia.
    + split; [rewrite <- Hp; apply List.Exists_exists; by exists back|by rewrite <- Hp].
    + unfold zlen, entries. rewrite length_map, zseq_length. unfold n. lia.
    + intros k Hk. unfold entries. eexists. rewrite list_lookup_fmap, zseq_lookup by lia.
      split; [reflexivity|]. by eapply reported_entry.
  - destruct Hok. by split.
Qed.

(** ** Runs *)

Inductive tracker_event :=
  | OnPacket (packet : RtpPacketReceived)
  | OnReport (feedback_time : Z).

Definition tracker_event_ok (s : Z) (e : tracker_event) : Prop :=
  match e with OnPacket packet => received_ok s packet | OnReport ft => is_time ft end.

Fixpoint tracker_run (evs : list tracker_event) (t : CongestionControlFeedbackTracker)
    : option (list (list PacketInfo) * CongestionControlFeedbackTracker) :=
  match evs with
  | [] => Some ([], t)
  | OnPacket packet :: evs' => tracker_run evs' (ReceivedPacket packet t)
  | OnReport ft :: evs' =>
      '(report, t) ← AddPacketsToFeedback ft [] t;
      '(reports, t) ← tracker_run evs' t;
      Some (report :: reports, t)
  end.

(** A report with nothing pending has nothing to say. *)
Lemma AddPacketsToFeedback_nil ft acc t :
  tracked_packets_ t = [] -> AddPacketsToFeedback ft acc t = Some (acc, t).
Proof.
  intros H. unfold AddPacketsToFeedback. rewrite H.
  pose proof (std_sort_perm feedback_order []) as Hp.
  symmetry in Hp. apply Permutation_nil in Hp. by rewrite Hp.
Qed.

Lemma tracker_run_ok s evs : forall t,
  Forall (tracker_event_ok s) evs -> tracker_ok s t ->
  exists reports t', tracker_run evs t = Some (reports, t') /\ tracker_ok s t'.
Proof.
  induction evs as [|[packet|ft] evs IH]; intros t He Ht; cbn [tracker_run]; [by eauto|..];
    inversion He as [|?? H1 H2]; subst.
  - apply IH; [done|]. by apply ReceivedPacket_ok.
  - destruct (tracked_packets_ t) as [|p ps] eqn:E.
    + rewrite AddPacketsToFeedback_nil by done. cbn [mbind option_bind].
      destruct (IH t) as (rs & t' & -> & Ht'); [done..|]. by eexists _, _.
    + destruct (AddPacketsToFeedback_ok s ft [] t) as (f & n & infos & t1 & -> & _ & H & _);
        [done|done|by rewrite E|]. cbn [mbind option_bind].
      destruct (IH t1) as (rs & t' & -> & Ht'); [done..|]. by eexists _, _.
Qed.
End report.

Lemma history_size s t : tracker_ok s t -> Z.of_nat (size (history_ t)) <= kMaxHistorySize.
Proof.
  intros Hok. transitivity (zlen (history_order_ t)); [|apply Hok]. unfold zlen.
  rewrite <- size_dom, <- (size_list_to_set (C := gset Z)) by apply Hok.
  apply inj_le, subseteq_size. intros k Hk. apply elem_of_dom in Hk.
  apply elem_of_list_to_set, list_elem_of_In. by apply (tok_dom _ _ Hok).
Qed.

(** ** Properties *)

(** Whatever packets of a stream arrive between the reports, in any order
    and with duplicates, the tracker never reads past its packets, its history
    stays within 16384 packets, and with packets pending the next report has
    exactly one entry for each sequence number from the one after the last
    report (or from the oldest pending packet, when that one is older) to the
    newest received: the arrival of the last pending copy, or what the history
    has of an earlier one, or "not received"; with CE when a copy was marked.
    Afterwards nothing is pending and the next report starts after the newest. *)
Theorem feedback_tracker_report {sorts : StdSort} (s : Z) (evs : list tracker_event) :
  Forall (tracker_event_ok s) evs ->
  exists reports t, tracker_run evs new_tracker = Some (reports, t) /\
    Z.of_nat (size (history_ t)) <= kMaxHistorySize /\
    forall ft acc, is_time ft -> tracked_packets_ t <> [] ->
      exists first newest infos t',
        AddPacketsToFeedback ft acc t = Some (acc ++ expand (mkRun s first infos), t') /\
        report_of_stream s ft t first newest infos /\
        tracked_packets_ t' = [] /\ last_sequence_number_in_feedback_ t' = Some newest.
Proof.
  intros He. destruct (tracker_run_ok s evs new_tracker He (new_tracker_ok s))
    as (reports & t & Hr & Ht).
  exists reports, t. split_and!; [done|by eapply history_size|].
  intros ft acc Hft Hne.
  destruct (AddPacketsToFeedback_ok s ft acc t Hft Ht Hne)
    as (first & newest & infos & t' & H1 & H2 & _ & H3 & H4 & _).
  by exists first, newest, infos, t'.
Qed.

Definition example_received (seq arrival : Z) (e : EcnMarking) : RtpPacketReceived :=
  mkReceived (set_ssrc_ 9 (set_sequence_number_ seq new_packet)) arrival e 0 false.

Definition example_events : list tracker_event :=
  [OnPacket (example_received 65534 1000 kEct1); OnPacket (example_received 0 3000 kEct1);
   OnReport 5000;
   OnPacket (example_received 65535 6000 kCe); OnPacket (example_received 1 7000 kEct1);
   OnPacket (example_received 1 6500 kNotEct)].

Lemma feedback_tracker_report_witness :
  exists reports t, tracker_run example_events new_tracker = Some (reports, t) /\
    reports = [[mkInfo 9 65534 4000 kEct1; mkInfo 9 65535 MinusInfinity kNotEct;
                mkInfo 9 0 2000 kEct1]] /\
    exists first newest infos t',
      AddPacketsToFeedback 8000 [] t = Some (expand (mkRun 9 first infos), t') /\
      expand (mkRun 9 first infos) =
        [mkInfo 9 65535 2000 kCe; mkInfo 9 0 5000 kEct1; mkInfo 9 1 1000 kEct1] /\
      report_of_stream 9 8000 t first newest infos.
Proof.
  destruct (feedback_tracker_report 9 example_events) as (reports & t & Hr & _ & H).
  { repeat (apply Forall_cons; [by (split_and! || idtac)|]); apply Forall_nil. }
  assert (('(r, t) ← tracker_run example_events new_tracker;
           '(report, _) ← AddPacketsToFeedback 8000 [] t;
           Some (r, zlen (tracked_packets_ t), report)) =
    Some ([[mkInfo 9 65534 4000 kEct1; mkInfo 9 65535 MinusInfinity kNotEct;
            mkInfo 9 0 2000 kEct1]], 3,
          [mkInfo 9 65535 2000 kCe; mkInfo 9 0 5000 kEct1; mkInfo 9 1 1000 kEct1]))
    as Hc by (vm_compute; reflexivity).
  rewrite Hr in Hc. cbn [mbind option_bind] in Hc.
  destruct (H 8000 []) as (first & newest & infos & t' & Ha & Hrep & _);
    [split; lia| |].
  { intros E. rewrite E in Hc. destruct (AddPacketsToFeedback _ _ _) as [[]|]; [|discriminate Hc].
    injection Hc as _ Hz _. discriminate Hz. }
  rewrite Ha in Hc. cbn [mbind option_bind app] in Hc. injection Hc as Hr1 _ He.
  exists reports, t. split; [exact Hr|]. split; [exact Hr1|].
  exists first, newest, infos, t'. exact (conj Ha (conj He Hrep)).
Defined.
