(* ===== verification/FeedbackGenerator.v ===== *)
(** * When congestion control feedback is sent

    [CongestionControlFeedbackGenerator] of
    [src/qos/congestion_control_feedback_generator.cc]: it keeps one tracker per
    stream, decides from the marker bits and a share of the send rate when the
    next report may leave, and builds the RFC 8888 packet it hands to the RTCP
    sender.  A handler returns the reports it sent.  [clock_now] is what
    [clock_->CurrentTime()] reads during the call. *)

From Stdlib Require Import SpecFloat Sorted.
From S2P Require Import Prelude StdContainers SeqNum Units Float32 Rtcp RtcpFeedback RtpPacket.
From S2P Require Import Ccfb FeedbackTracker.

(** ** The clock *)

(** src/common/api/clock/clock.cc:26-31 [WebrtcClock::ConvertTimestampToNtpTime] *)
Definition ConvertTimestampToNtpTime (monotonic_to_utc_offset_us timestamp : Z) : Z :=
  let ntp_time := MonotonicTimeUsToNtp monotonic_to_utc_offset_us timestamp in
  u64 (u32 (Z.shiftr ntp_time 32) * 0x100000000 + u32 ntp_time).

(** src/common/api/ntp/ntp_time_util.h:31-33 [CompactNtp] *)
Definition CompactNtpTime (ntp : Z) : Z :=
  let seconds := ntp / 0x100000000 in
  let fractions := ntp `mod` 0x100000000 in
  Z.lor (u32 (Z.shiftl seconds 16)) (Z.shiftr fractions 16).

(** ** State *)

Definition min_time_between_feedback_ : Z := 25000.
Definition max_time_to_wait_for_packet_with_marker_ : Z := 25000.
Definition max_time_between_feedback_ : Z := 250000.

(** src/qos/congestion_control_feedback_generator.h:73-84 [CongestionControlFeedbackGenerator] *)
Record CongestionControlFeedbackGenerator := mkGenerator {
  max_feedback_rate_ : Z;
  packet_overhead_ : Z;
  send_rate_debt_ : Z;
  feedback_trackers_ : list (Z * CongestionControlFeedbackTracker);
  last_feedback_sent_time_ : Z;
  first_arrival_time_since_feedback_ : option Z;
  marker_bit_seen_ : bool;
  next_possible_feedback_send_time_ : Z;
}.

(** src/qos/congestion_control_feedback_generator.cc:33-39 [CongestionControlFeedbackGenerator::CongestionControlFeedbackGenerator] *)
Definition new_generator : CongestionControlFeedbackGenerator :=
  mkGenerator 1000000 0 0 [] 0 None false 0.

(** ** Operations *)

(** src/qos/congestion_control_feedback_generator.cc:53-65 [CongestionControlFeedbackGenerator::NextFeedbackTime] *)
Definition NextFeedbackTime (clock_now : Z) (g : CongestionControlFeedbackGenerator) : Z :=
  match first_arrival_time_since_feedback_ g with
  | None => Z.max (timestamp_add clock_now min_time_between_feedback_)
                  (next_possible_feedback_send_time_ g)
  | Some first =>
      if negb (marker_bit_seen_ g) then
        Z.max (next_possible_feedback_send_time_ g)
              (timestamp_add first max_time_to_wait_for_packet_with_marker_)
      else next_possible_feedback_send_time_ g
  end.

(** src/qos/congestion_control_feedback_generator.cc:103-116 [CongestionControlFeedbackGenerator::CalculateNextPossibleSendTime] *)
Definition CalculateNextPossibleSendTime (feedback_size now : Z)
    (g : CongestionControlFeedbackGenerator) : CongestionControlFeedbackGenerator :=
  let time_since_last_sent := timestamp_diff now (last_feedback_sent_time_ g) in
  let debt_payed := rate_times_duration (max_feedback_rate_ g) time_since_last_sent in
  let debt := if send_rate_debt_ g <? debt_payed then 0
              else unit_sub (send_rate_debt_ g) debt_payed in
  let debt := unit_add debt (unit_add feedback_size (packet_overhead_ g)) in
  let delta := if max_feedback_rate_ g =? 0 then PlusInfinity
               else size_over_rate debt (max_feedback_rate_ g) in
  mkGenerator (max_feedback_rate_ g) (packet_overhead_ g) debt (feedback_trackers_ g) now
    (first_arrival_time_since_feedback_ g) (marker_bit_seen_ g)
    (timestamp_add now (clamp delta min_time_between_feedback_ max_time_between_feedback_)).

Section generator.
Context {sorts : StdSort} (monotonic_to_utc_offset_us : Z).

(** [for (auto& [unused, tracker] : feedback_trackers_)]. *)
(** src/qos/congestion_control_feedback_generator.cc:87-90 [CongestionControlFeedbackGenerator::SendFeedback] *)
Fixpoint collect_feedback (now : Z) (trackers : list (Z * CongestionControlFeedbackTracker))
    (rtcp_packet_info : list PacketInfo)
    : option (list PacketInfo * list (Z * CongestionControlFeedbackTracker)) :=
  match trackers with
  | [] => Some (rtcp_packet_info, [])
  | (ssrc, tracker) :: trackers' =>
      '(rtcp_packet_info, tracker) ← AddPacketsToFeedback now rtcp_packet_info tracker;
      '(rtcp_packet_info, trackers') ← collect_feedback now trackers' rtcp_packet_info;
      Some (rtcp_packet_info, (ssrc, tracker) :: trackers')
  end.

(** src/qos/congestion_control_feedback_generator.cc:85-101 [CongestionControlFeedbackGenerator::SendFeedback] *)
Definition SendFeedback (now : Z) (g : CongestionControlFeedbackGenerator)
    : option (Ccfb * CongestionControlFeedbackGenerator) :=
  let compact_ntp :=
    CompactNtpTime (ConvertTimestampToNtpTime monotonic_to_utc_offset_us now) in
  '(rtcp_packet_info, trackers) ← collect_feedback now (feedback_trackers_ g) [];
  let feedback := mkCcfb 0 rtcp_packet_info compact_ntp in
  Some (feedback,
        CalculateNextPossibleSendTime (CcfbBlockLength feedback) now
          (mkGenerator (max_feedback_rate_ g) (packet_overhead_ g) (send_rate_debt_ g)
             trackers (last_feedback_sent_time_ g) None false
             (next_possible_feedback_send_time_ g))).

(** src/qos/congestion_control_feedback_generator.cc:41-51 [CongestionControlFeedbackGenerator::OnReceivedPacket] *)
Definition OnReceivedPacket (clock_now : Z) (packet : RtpPacketReceived)
    (g : CongestionControlFeedbackGenerator)
    : option (list Ccfb * CongestionControlFeedbackGenerator) :=
  let p := rtp_received packet in
  let first := match first_arrival_time_since_feedback_ g with
               | None => Some (arrival_time_ packet)
               | Some first => Some first
               end in
  let trackers := map_update (ssrc_ p) (ReceivedPacket packet)
                    (map_emplace (ssrc_ p) new_tracker (feedback_trackers_ g)) in
  let g := mkGenerator (max_feedback_rate_ g) (packet_overhead_ g) (send_rate_debt_ g)
             trackers (last_feedback_sent_time_ g) first
             (marker_bit_seen_ g || marker_ p) (next_possible_feedback_send_time_ g) in
  if NextFeedbackTime clock_now g <? arrival_time_ packet then
    '(feedback, g) ← SendFeedback clock_now g;
    Some ([feedback], g)
  else Some ([], g).

(** src/qos/congestion_control_feedback_generator.cc:67-72 [CongestionControlFeedbackGenerator::Process] *)
Definition Process (clock_now now : Z) (g : CongestionControlFeedbackGenerator)
    : option (list Ccfb * Z * CongestionControlFeedbackGenerator) :=
  '(sent, g) ← if NextFeedbackTime clock_now g <=? now
               then '(feedback, g) ← SendFeedback now g; Some ([feedback], g)
               else Some ([], g);
  Some (sent, timestamp_diff (NextFeedbackTime clock_now g) now, g).

(** src/qos/congestion_control_feedback_generator.cc:74-78 [CongestionControlFeedbackGenerator::OnSendBandwidthEstimateChanged] *)
Definition OnSendBandwidthEstimateChanged (estimate : Z)
    (g : CongestionControlFeedbackGenerator) : option CongestionControlFeedbackGenerator :=
  rate ← llround (f64_mul (f64_of_Z estimate) (f64_literal 5 100));
  Some (mkGenerator rate (packet_overhead_ g) (send_rate_debt_ g) (feedback_trackers_ g)
          (last_feedback_sent_time_ g) (first_arrival_time_since_feedback_ g)
          (marker_bit_seen_ g) (next_possible_feedback_send_time_ g)).

(** src/qos/congestion_control_feedback_generator.cc:80-83 [CongestionControlFeedbackGenerator::SetTransportOverhead] *)
Definition SetTransportOverhead (overhead_per_packet : Z)
    (g : CongestionControlFeedbackGenerator) : CongestionControlFeedbackGenerator :=
  mkGenerator (max_feedback_rate_ g) overhead_per_packet (send_rate_debt_ g)
    (feedback_trackers_ g) (last_feedback_sent_time_ g)
    (first_arrival_time_since_feedback_ g) (marker_bit_seen_ g)
    (next_possible_feedback_send_time_ g).

(** ** The controller that owns it *)

(** src/qos/receive_side_congestion_controller.cc:82-86 [ReceiveSideCongestionController::OnReceivedPacket] *)
Definition ControllerOnReceivedPacket := OnReceivedPacket.

(** src/qos/receive_side_congestion_controller.cc:88-92 [ReceiveSideCongestionController::OnBitrateChanged] *)
Definition OnBitrateChanged (bitrate_bps : Z) := OnSendBandwidthEstimateChanged bitrate_bps.

(** src/qos/receive_side_congestion_controller.cc:94-98 [ReceiveSideCongestionController::MaybeProcess] *)
Definition MaybeProcess (clock_now : Z) (g : CongestionControlFeedbackGenerator)
    : option (list Ccfb * Z * CongestionControlFeedbackGenerator) :=
  '(sent, time_until, g) ← Process clock_now clock_now g;
  Some (sent, Z.max time_until 0, g).
End generator.

(** ** The feedback covers every stream *)

Lemma expand_from_u16 s infos : forall first,
  expand_from s (u16 first) infos = expand_from s first infos.
Proof.
  assert (forall a b, u16 a = u16 b -> expand_from s a infos = expand_from s b infos) as H.
  { induction infos as [|[o e] infos IH]; intros a b Hab; cbn; [done|].
    f_equal; [by rewrite Hab|]. apply IH. unfold u16 in *. zdm. }
  intros first. apply H. unfold u16. apply Zmod_mod.
Qed.

(** A run of a report is what the tracker of its stream had to say. *)
Record run_of (now : Z) (ssrc : Z) (t : CongestionControlFeedbackTracker) (r : Run) : Prop := {
  run_of_ssrc : run_ssrc r = ssrc;
  run_of_entries : exists first newest,
    run_first r = u16 first /\ report_of_stream ssrc now t first newest (run_infos r);
}.

Definition idle (x : Z * CongestionControlFeedbackTracker) : Prop := tracked_packets_ x.2 = [].

Definition trackers_ok (l : list (Z * CongestionControlFeedbackTracker)) : Prop :=
  keys_sorted l /\ Forall (fun x => is_u32 x.1 /\ tracker_ok x.1 x.2) l.

Lemma trackers_ok_cons k t l :
  trackers_ok ((k, t) :: l) <->
  is_u32 k /\ tracker_ok k t /\ Forall (fun x => k < x.1) l /\ trackers_ok l.
Proof.
  unfold trackers_ok. rewrite keys_sorted_cons, list.Forall_cons. cbn. tauto.
Qed.

Section collect.
Context {sorts : StdSort}.

(** Each busy stream has one run in the report, and its tracker is idle after. *)
Record collected (now : Z) (l l' : list (Z * CongestionControlFeedbackTracker))
    (runs : list Run) : Prop := {
  collected_keys : map fst l' = map fst l;
  collected_ok : trackers_ok l';
  collected_idle : Forall idle l';
  collected_busy k t : In (k, t) l -> tracked_packets_ t <> [] ->
    exists r, In r runs /\ run_of now k t r;
  collected_runs : Forall (fun r => exists t, In (run_ssrc r, t) l /\
    tracked_packets_ t <> [] /\ run_of now (run_ssrc r) t r) runs;
  collected_order : StronglySorted Z.lt (map run_ssrc runs);
}.

Lemma collect_feedback_ok now l : forall acc,
  is_time now -> trackers_ok l ->
  exists runs l', collect_feedback now l acc = Some (acc ++ flat_map expand runs, l') /\
    collected now l l' runs.
Proof.
  induction l as [|[k t] l IH]; intros acc Hnow Hok; cbn [collect_feedback].
  { exists [], []. rewrite app_nil_r. split; [done|].
    split; try done; try constructor. }
  apply trackers_ok_cons in Hok as (Hk & Ht & Hlt & Hl).
  destruct (decide (tracked_packets_ t = [])) as [E|E].
  - rewrite AddPacketsToFeedback_nil by done. cbn [mbind option_bind].
    destruct (IH acc Hnow Hl) as (runs & l' & -> & [C1 C2 C3 C4 C5 C6]).
    cbn [mbind option_bind]. exists runs, ((k, t) :: l'). split; [done|].
    assert (Forall (fun x => k < x.1) l') as Hlt'.
    { rewrite <- (List.Forall_map fst (Z.lt k)) in Hlt |- *. by rewrite C1. }
    split; try done.
    + cbn. by rewrite C1.
    + by apply trackers_ok_cons.
    + by constructor.
    + intros j u [[= -> ->]|Hin]; [done|]. by apply C4.
    + eapply List.Forall_impl; [|exact C5]. cbn. intros r (u & Hu & H). exists u. auto.
  - destruct (AddPacketsToFeedback_ok k now acc t Hnow Ht E)
      as (first & newest & infos & t' & -> & Hrep & Ht' & Hidle & _).
    cbn [mbind option_bind].
    destruct (IH (acc ++ expand_from k first infos) Hnow Hl)
      as (runs & l' & -> & [C1 C2 C3 C4 C5 C6]).
    cbn [mbind option_bind]. set (r := mkRun k (u16 first) infos).
    assert (run_of now k t r) as Hr by (split; [done|]; by exists first, newest).
    exists (r :: runs), ((k, t') :: l'). split.
    { rewrite <- app_assoc. cbn [flat_map]. unfold expand at 2. cbn.
      by rewrite expand_from_u16. }
    assert (Forall (fun x => k < x.1) l') as Hlt'.
    { rewrite <- (List.Forall_map fst (Z.lt k)) in Hlt |- *. by rewrite C1. }
    split.
    + cbn. by rewrite C1.
    + by apply trackers_ok_cons.
    + by constructor.
    + intros j u [[= <- <-]|Hin] Hne; [exists r; split; [by left|done]|].
      destruct (C4 j u Hin Hne) as (r' & Hr' & H). exists r'. split; [by right|done].
    + constructor; [exists t; split; [by left|done]|].
      eapply List.Forall_impl; [|exact C5]. cbn. intros q (u & Hu & H). exists u. auto.
    + cbn. constructor; [done|]. rewrite List.Forall_map.
      eapply List.Forall_impl; [|exact C5]. intros q (u & Hu & _).
      rewrite List.Forall_forall in Hlt. apply (Hlt _ Hu).
Qed.

End collect.

(** ** Runs

    The events a generator sees, each with the reading of the clock. *)

Inductive generator_event :=
  | GotPacket (packet : RtpPacketReceived)
  | GotBitrate (bitrate_bps : Z)
  | GotOverhead (overhead_per_packet : Z)
  | Polled.

Section runs.
Context {sorts : StdSort} (monotonic_to_utc_offset_us : Z).

Definition generator_step (clock_now : Z) (e : generator_event)
    (g : CongestionControlFeedbackGenerator)
    : option (list Ccfb * CongestionControlFeedbackGenerator) :=
  match e with
  | GotPacket packet =>
      ControllerOnReceivedPacket monotonic_to_utc_offset_us clock_now packet g
  | GotBitrate bitrate_bps => g ← OnBitrateChanged bitrate_bps g; Some ([], g)
  | GotOverhead overhead => Some ([], SetTransportOverhead overhead g)
  | Polled =>
      '(sent, _, g) ← MaybeProcess monotonic_to_utc_offset_us clock_now g; Some (sent, g)
  end.

(** The reports sent, each with the time. *)
Fixpoint generator_run (evs : list (Z * generator_event))
    (g : CongestionControlFeedbackGenerator)
    : option (list (Z * Ccfb) * CongestionControlFeedbackGenerator) :=
  match evs with
  | [] => Some ([], g)
  | (clock_now, e) :: evs' =>
      '(sent, g) ← generator_step clock_now e g;
      '(later, g) ← generator_run evs' g;
      Some (map (pair clock_now) sent ++ later, g)
  end.

Definition generator_event_ok (clock_now : Z) (e : generator_event) : Prop :=
  match e with
  | GotPacket packet =>
      is_u32 (ssrc_ (rtp_received packet)) /\ is_u16 (sequence_number_ (rtp_received packet)) /\
      is_time (arrival_time_ packet) /\ arrival_time_ packet <= clock_now
  | GotBitrate bitrate_bps => 0 <= bitrate_bps < 2147483648
  | GotOverhead _ | Polled => True
  end.

(** A clock that does not run backwards. *)
Fixpoint clocked (now : Z) (evs : list (Z * generator_event)) : Prop :=
  match evs with
  | [] => True
  | (t, e) :: evs' => now <= t /\ is_time t /\ generator_event_ok t e /\ clocked t evs'
  end.

(** ** The invariant *)

(** What is waiting for the next report. *)
Definition waiting_ok (now : Z) (first : option Z)
    (l : list (Z * CongestionControlFeedbackTracker)) : Prop :=
  match first with
  | Some f => is_time f /\ f <= now /\ Exists (fun x => ~ idle x) l
  | None => Forall idle l
  end.

Record generator_ok (now : Z) (g : CongestionControlFeedbackGenerator) : Prop := {
  gen_trackers : trackers_ok (feedback_trackers_ g);
  gen_waiting : waiting_ok now (first_arrival_time_since_feedback_ g) (feedback_trackers_ g);
  gen_marker : first_arrival_time_since_feedback_ g = None -> marker_bit_seen_ g = false;
  gen_last : 0 <= last_feedback_sent_time_ g <= now;
  gen_next : next_possible_feedback_send_time_ g = 0 /\ last_feedback_sent_time_ g = 0 \/
    last_feedback_sent_time_ g + 25000 <= next_possible_feedback_send_time_ g
      <= last_feedback_sent_time_ g + 250000;
}.

Lemma new_generator_ok now : 0 <= now -> generator_ok now new_generator.
Proof.
  intros H. split; cbn; try done; [|by left]. split; [apply keys_sorted_nil|by constructor].
Qed.

Lemma generator_ok_later now now' g :
  now <= now' -> generator_ok now g -> generator_ok now' g.
Proof.
  intros Hle [? Hw ? ? ?]. split; try done; [|lia]. unfold waiting_ok in *.
  case_match; [|done]. destruct Hw as (? & ? & ?). split_and!; [done|lia|done].
Qed.

(** A report leaves: its runs, and when the next one may. *)
Lemma SendFeedback_ok now g :
  is_time now -> generator_ok now g ->
  exists runs feedback g',
    SendFeedback monotonic_to_utc_offset_us now g = Some (feedback, g') /\
    packets_ feedback = flat_map expand runs /\ cc_sender_ssrc feedback = 0 /\
    collected now (feedback_trackers_ g) (feedback_trackers_ g') runs /\
    first_arrival_time_since_feedback_ g' = None /\ last_feedback_sent_time_ g' = now /\
    now + 25000 <= next_possible_feedback_send_time_ g' <= now + 250000 /\
    generator_ok now g'.
Proof.
  intros Hnow [Ht _ _ _ _]. unfold SendFeedback.
  destruct (collect_feedback_ok now (feedback_trackers_ g) [] Hnow Ht)
    as (runs & l' & -> & Hc). cbn [mbind option_bind app].
  eexists runs, _, _. split; [reflexivity|]. split_and!; try reflexivity; [exact Hc|..].
  1, 2: unfold CalculateNextPossibleSendTime; cbn;
    match goal with |- context [clamp ?v ?lo ?hi] =>
      pose proof (clamp_range v lo hi ltac:(done)) as Hcl end;
    unfold min_time_between_feedback_, max_time_between_feedback_ in *;
    rewrite timestamp_add_small by (unfold small, is_time in *; lia); lia.
  destruct Hc. split; cbn; try done; [unfold is_time in *; lia|]. right.
  match goal with |- context [clamp ?v ?lo ?hi] =>
    pose proof (clamp_range v lo hi ltac:(done)) as Hcl end.
  unfold min_time_between_feedback_, max_time_between_feedback_ in *.
  rewrite timestamp_add_small by (unfold small, is_time in *; lia). lia.
Qed.

(** A bitrate estimate is a 32-bit integer: its twentieth always has a value. *)
Lemma OnBitrateChanged_ok bitrate now g :
  0 <= bitrate < 2147483648 -> generator_ok now g ->
  exists g', OnBitrateChanged bitrate g = Some g' /\ generator_ok now g' /\
    feedback_trackers_ g' = feedback_trackers_ g /\
    next_possible_feedback_send_time_ g' = next_possible_feedback_send_time_ g /\
    first_arrival_time_since_feedback_ g' = first_arrival_time_since_feedback_ g.
Proof.
  intros Hb [? ? ? ? ?].
  assert (within (-53) 32 (f64_of_Z bitrate)) as H1
    by (apply (within_of_Z 53 1024 31); [lia|lia|change (2 ^ 31) with 2147483648; lia|
        unfold emin; lia|lia]).
  assert (within (-57) (-4) (f64_literal 5 100)) as H2
    by (right; eexists _, _; split; [vm_compute; reflexivity|split; [lia|vm_compute; congruence]]).
  pose proof (within_mul 53 1024 _ _ _ _ _ _ ltac:(lia) H1 H2 ltac:(lia) ltac:(lia)
    ltac:(unfold emin; lia) ltac:(lia)) as H3.
  destruct (llround_within _ _ _ H3 ltac:(lia) ltac:(lia)) as (v & Hv & _).
  unfold OnBitrateChanged, OnSendBandwidthEstimateChanged.
  change (llround (f64_mul (f64_of_Z bitrate) (f64_literal 5 100)) = Some v) in Hv.
  rewrite Hv. cbn [mbind option_bind]. eexists. split; [reflexivity|]. by split_and!; [split|..].
Qed.

(** A busy tracker makes a report that is not empty. *)
Lemma collected_busy_packets now l l' runs :
  collected now l l' runs -> Exists (fun x => ~ idle x) l -> flat_map expand runs <> [].
Proof.
  intros Hc He. apply List.Exists_exists in He as ([k t] & Hin & Hne).
  destruct (collected_busy _ _ _ _ Hc k t Hin Hne) as (r & Hr & [_ (f & n & _ & Hrep)]).
  destruct (report_starts _ _ _ _ _ _ Hrep) as [_ Hfirst].
  destruct (report_ends _ _ _ _ _ _ Hrep) as [Hn _].
  apply List.Exists_exists in Hn as (p & Hp & Hpn). rewrite List.Forall_forall in Hfirst.
  specialize (Hfirst p Hp). pose proof (report_length _ _ _ _ _ _ Hrep) as Hlen.
  intros E. assert (expand r = []) as Er.
  { destruct (expand r) as [|q qs] eqn:Er; [done|]. assert (In q (flat_map expand runs)) as Hq.
    { apply in_flat_map. exists r. rewrite Er. split; [done|by left]. }
    by rewrite E in Hq. }
  pose proof (expand_zlen r) as Hz. rewrite Er, zlen_nil in Hz. lia.
Qed.

Lemma trackers_received packet l :
  is_u32 (ssrc_ (rtp_received packet)) ->
  received_ok (ssrc_ (rtp_received packet)) packet -> trackers_ok l ->
  let l' := map_update (ssrc_ (rtp_received packet)) (ReceivedPacket packet)
              (map_emplace (ssrc_ (rtp_received packet)) new_tracker l) in
  trackers_ok l' /\ Exists (fun x => ~ idle x) l'.
Proof.
  set (k := ssrc_ (rtp_received packet)). intros Hk Hp [Hs Hf]. split.
  - split; [auto with rtc|]. apply map_update_Forall.
    + apply map_emplace_Forall; [done|]. split; [done|apply new_tracker_ok].
    + cbn. intros t [? Ht]. split; [done|]. by apply ReceivedPacket_ok.
  - pose proof (map_find_update k k (ReceivedPacket packet) (map_emplace k new_tracker l)) as H.
    rewrite Z.eqb_refl, map_find_emplace, Z.eqb_refl in H by done. cbn [fmap option_fmap option_map] in H.
    apply List.Exists_exists. eexists (_, _). split; [apply map_find_In; exact H|].
    unfold idle. cbn [snd]. destruct (ReceivedPacket_pending packet (default new_tracker (map_find k l)))
      as (info & -> & _). by destruct (tracked_packets_ _).
Qed.

(** A step sends nothing, or one report that is not empty, when it may. *)
Definition sends (now : Z) (g : CongestionControlFeedbackGenerator) (sent : list Ccfb)
    (g' : CongestionControlFeedbackGenerator) : Prop :=
  sent = [] /\ last_feedback_sent_time_ g' = last_feedback_sent_time_ g /\
    next_possible_feedback_send_time_ g' = next_possible_feedback_send_time_ g \/
  exists feedback, sent = [feedback] /\ packets_ feedback <> [] /\
    next_possible_feedback_send_time_ g <= now /\
    now + 25000 <= next_possible_feedback_send_time_ g' <= now + 250000 /\
    first_arrival_time_since_feedback_ g' = None.

Lemma SendFeedback_sends now g f :
  is_time now -> generator_ok now g -> first_arrival_time_since_feedback_ g = Some f ->
  next_possible_feedback_send_time_ g <= now ->
  exists feedback g', SendFeedback monotonic_to_utc_offset_us now g = Some (feedback, g') /\
    sends now g [feedback] g' /\ generator_ok now g'.
Proof.
  intros Hnow Hg Hf Hn. pose proof (gen_waiting _ _ Hg) as Hw. rewrite Hf in Hw.
  destruct (SendFeedback_ok now g Hnow Hg)
    as (runs & feedback & g' & HS & Hp & _ & Hc & Hfirst & Hl & Hnext & Hg').
  exists feedback, g'. split_and!; [done| |done]. right. exists feedback.
  split_and!; try done; try lia. rewrite Hp. eapply collected_busy_packets; [exact Hc|apply Hw].
Qed.

Lemma GeneratorReceived_ok now packet g :
  is_time now -> generator_event_ok now (GotPacket packet) -> generator_ok now g ->
  exists sent g', OnReceivedPacket monotonic_to_utc_offset_us now packet g = Some (sent, g') /\
    sends now g sent g' /\ generator_ok now g'.
Proof.
  intros Hnow (Hk & Hs & Ha & Hle) [Ht Hw Hm Hl Hn]. unfold OnReceivedPacket.
  destruct (trackers_received packet (feedback_trackers_ g) Hk) as [Ht' He']; [done..|].
  set (l' := map_update _ _ _) in *. set (first := match first_arrival_time_since_feedback_ g with
    | Some first => Some first | None => Some (arrival_time_ packet) end).
  assert (exists f, first = Some f /\ is_time f /\ f <= now) as (f & Ef & Hft & Hfn).
  { unfold first. unfold waiting_ok in Hw. destruct (first_arrival_time_since_feedback_ g) as [f0|].
    - destruct Hw as (? & ? & _). by exists f0.
    - by exists (arrival_time_ packet). }
  set (g1 := mkGenerator _ _ _ _ _ _ _ _).
  assert (generator_ok now g1) as Hg1 by (split; cbn; rewrite ?Ef; done).
  destruct (Z.ltb_spec (NextFeedbackTime now g1) (arrival_time_ packet)) as [Hlt|].
  - destruct (SendFeedback_sends now g1 f Hnow Hg1 Ef) as (fb & g2 & -> & Hsend & Hg2).
    { unfold NextFeedbackTime in Hlt. cbn [first_arrival_time_since_feedback_ g1] in Hlt.
      rewrite Ef in Hlt. repeat case_match; cbn in *; lia. }
    cbn [mbind option_bind]. by exists [fb], g2.
  - exists [], g1. split_and!; [done| |done]. by left.
Qed.

Lemma NextFeedbackTime_bounds now g :
  is_time now -> generator_ok now g ->
  NextFeedbackTime now g <= now + 250000 /\
  (NextFeedbackTime now g <= now -> exists f, first_arrival_time_since_feedback_ g = Some f /\
     next_possible_feedback_send_time_ g <= now) /\
  (forall f, first_arrival_time_since_feedback_ g = Some f ->
     f + 25000 <= now -> last_feedback_sent_time_ g + 250000 <= now ->
     NextFeedbackTime now g <= now).
Proof.
  intros Hnow [_ Hw Hm Hl Hn]. unfold NextFeedbackTime, waiting_ok in *.
  unfold min_time_between_feedback_, max_time_to_wait_for_packet_with_marker_.
  destruct (first_arrival_time_since_feedback_ g) as [f|].
  - destruct Hw as (Hf & Hfn & _).
    rewrite timestamp_add_small by (unfold small, is_time in *; lia).
    destruct (marker_bit_seen_ g); cbn; unfold is_time in *;
      split_and!; try lia; try (intros; exists f; split; [done|lia]); intros f' [= <-]; lia.
  - rewrite timestamp_add_small by (unfold small, is_time in *; lia).
    unfold is_time in *. split_and!; [lia|intros; lia|done].
Qed.

Lemma MaybeProcess_ok now g :
  is_time now -> generator_ok now g ->
  exists sent wait g', MaybeProcess monotonic_to_utc_offset_us now g = Some (sent, wait, g') /\
    sends now g sent g' /\ generator_ok now g' /\ 0 < wait <= 250000 /\
    (forall f, first_arrival_time_since_feedback_ g = Some f ->
       f + 25000 <= now -> last_feedback_sent_time_ g + 250000 <= now -> sent <> []).
Proof.
  intros Hnow Hg. unfold MaybeProcess, Process.
  destruct (NextFeedbackTime_bounds now g Hnow Hg) as (Hb & Hdue & Hdead).
  assert (forall g', generator_ok now g' -> now < NextFeedbackTime now g' <= now + 250000 ->
    0 < Z.max (timestamp_diff (NextFeedbackTime now g') now) 0 <= 250000) as Hwait.
  { intros g' _ Hn. rewrite timestamp_diff_small by (unfold small, is_time in *; lia). lia. }
  destruct (Z.leb_spec (NextFeedbackTime now g) now) as [Hle|Hgt].
  - destruct (Hdue Hle) as (f & Ef & Hn).
    destruct (SendFeedback_sends now g f Hnow Hg Ef Hn) as (fb & g' & -> & Hsend & Hg').
    cbn [mbind option_bind]. eexists _, _, _. split; [reflexivity|].
    destruct (NextFeedbackTime_bounds now g' Hnow Hg') as (Hb' & Hdue' & _).
    split_and!; [done..| | |done]; apply Hwait; try done; (split; [|done]);
      apply Z.nle_gt; intros Hc; destruct (Hdue' Hc) as (f' & Ef' & Hn');
      destruct Hsend as [[? _]|(? & _ & _ & _ & Hr & _)]; [done|lia|done|lia].
  - cbn [mbind option_bind]. eexists _, _, _. split; [reflexivity|].
    split_and!; [by left|done|apply Hwait; [done|lia]..|].
    intros f Ef H1 H2. specialize (Hdead f Ef H1 H2). lia.
Qed.

Lemma generator_step_ok now e g :
  is_time now -> generator_event_ok now e -> generator_ok now g ->
  exists sent g', generator_step now e g = Some (sent, g') /\
    sends now g sent g' /\ generator_ok now g'.
Proof.
  intros Hnow He Hg. destruct e as [packet|bitrate|overhead|]; cbn [generator_step].
  - by apply GeneratorReceived_ok.
  - destruct (OnBitrateChanged_ok bitrate now g He Hg) as (g' & Eg & Hg' & _ & Hn & Hf).
    rewrite Eg. cbn [mbind option_bind]. exists [], g'. split_and!; [done| |done]. left.
    split_and!; [done| |done]. clear -Eg. revert Eg.
    unfold OnBitrateChanged, OnSendBandwidthEstimateChanged.
    destruct (llround _); [|done]. by intros [= <-].
  - exists [], (SetTransportOverhead overhead g). split_and!; [done|by left|].
    destruct Hg. by split.
  - destruct (MaybeProcess_ok now g Hnow Hg) as (sent & wait & g' & -> & Hs & Hg' & _).
    cbn [mbind option_bind]. by exists sent, g'.
Qed.

(** Reports of at least one entry, [gap] apart, none before [lo]. *)
Fixpoint spaced (gap lo : Z) (l : list (Z * Ccfb)) : Prop :=
  match l with
  | [] => True
  | (t, feedback) :: l' => lo <= t /\ packets_ feedback <> [] /\ spaced gap (t + gap) l'
  end.

Lemma spaced_le gap a b l : a <= b -> spaced gap b l -> spaced gap a l.
Proof. destruct l as [|[t f] l]; cbn; [done|]. intros ? (? & ? & ?). split_and!; [lia|done..]. Qed.

Lemma generator_run_ok evs : forall now g,
  clocked now evs -> generator_ok now g ->
  exists sent g', generator_run evs g = Some (sent, g') /\
    spaced 25000 (next_possible_feedback_send_time_ g) sent /\
    (forall later, Forall (fun x => x.1 <= later) evs -> now <= later -> generator_ok later g').
Proof.
  induction evs as [|[t e] evs IH]; intros now g Hc Hg; cbn [generator_run].
  { exists [], g. split_and!; [done..|]. intros later _ H. by eapply generator_ok_later. }
  destruct Hc as (Hle & Ht & He & Hc).
  destruct (generator_step_ok t e g Ht He) as (sent & g1 & -> & Hsend & Hg1);
    [by eapply generator_ok_later|].
  cbn [mbind option_bind]. destruct (IH t g1 Hc Hg1) as (later & g' & -> & Hsp & Hok).
  cbn [mbind option_bind]. eexists _, _. split; [reflexivity|]. split.
  - destruct Hsend as [(-> & _ & Hn)|(f & -> & Hne & Hn & Hn' & _)]; cbn [map app].
    + by rewrite <- Hn.
    + cbn. split_and!; [done..|]. eapply spaced_le; [|exact Hsp]. lia.
  - intros l Hl _. inversion Hl; subst. by apply Hok.
Qed.
End runs.

(** ** What a report carries *)





(** ** What arrived since the last report *)

Section arrivals.
Context {sorts : StdSort} (monotonic_to_utc_offset_us : Z).















End arrivals.

(** ** Properties *)

(** Pacing of feedback.  For any interleaving of packets, bandwidth
    estimates and polls on a clock that does not run backwards, the generator
    never fails, every report it sends has at least one entry, and two reports
    are at least 25 ms apart.  A poll asks to be called again in more than zero
    and at most 250 ms, and it sends when a packet has waited 25 ms and the
    last report is 250 ms old, whatever the rate. *)
Theorem feedback_paced {sorts : StdSort} (offset now : Z)
    (evs : list (Z * generator_event)) :
  clocked 0 evs -> Forall (fun x => x.1 <= now) evs -> is_time now ->
  exists sent g, generator_run offset evs new_generator = Some (sent, g) /\
    spaced 25000 0 sent /\
    exists polled wait g', MaybeProcess offset now g = Some (polled, wait, g') /\
      spaced 25000 (next_possible_feedback_send_time_ g) (map (pair now) polled) /\
      0 < wait <= 250000 /\
      (forall f, first_arrival_time_since_feedback_ g = Some f ->
         f + 25000 <= now -> last_feedback_sent_time_ g + 250000 <= now -> polled <> []).
Proof.
  intros Hc Hev Hnow. destruct (generator_run_ok offset evs 0 new_generator Hc
    (new_generator_ok 0 ltac:(done))) as (sent & g & Hr & Hs & Hg).
  specialize (Hg now Hev ltac:(apply Hnow)).
  exists sent, g. split_and!; [done..|].
  destruct (MaybeProcess_ok offset now g Hnow Hg) as (polled & wait & g' & Hp & Hsend & _ & Hw & Hd).
  exists polled, wait, g'. split_and!; [done| |lia..|done].
  destruct Hsend as [(-> & _)|(f & -> & Hne & Hn & _)]; [done|by cbn].
Qed.

Definition example_packet (ssrc seq arrival : Z) (m : bool) (e : EcnMarking) : RtpPacketReceived :=
  mkReceived (set_ssrc_ ssrc (set_marker_ m (set_sequence_number_ seq new_packet))) arrival e 0 false.

Definition example_feed : list (Z * generator_event) :=
  [(1000000, GotPacket (example_packet 9 65535 1000000 false kEct1));
   (1002000, GotPacket (example_packet 7 10 1001000 true kEct1));
   (1003000, Polled); (1004000, GotBitrate 300000);
   (1010000, GotPacket (example_packet 9 1 1010000 false kCe)); (1020000, Polled)].

Lemma feedback_paced_witness :
  clocked 0 example_feed /\
  exists sent g, generator_run 0 example_feed new_generator = Some (sent, g) /\
    map fst sent = [1002000] /\ spaced 25000 0 sent.
Proof.
  assert (clocked 0 example_feed) as Hc
    by (cbn; unfold is_time, is_u32, is_u16; cbn; lia).
  split; [exact Hc|].
  destruct (feedback_paced 0 1300000 example_feed Hc) as (sent & g & Hr & Hs & _).
  { repeat (apply Forall_cons; [cbn; lia|]). apply Forall_nil. }
  { split; lia. }
  exists sent, g. split; [exact Hr|]. split; [|exact Hs].
  assert (('(sent, _) ← generator_run 0 example_feed new_generator; Some (map fst sent))
    = Some [1002000]) as Hm by (vm_compute; reflexivity).
  rewrite Hr in Hm. cbn [mbind option_bind] in Hm. injection Hm as Hm. exact Hm.
Defined.


