(* ===== verification/Nack.v ===== *)
(** * Negative acknowledgements

    The receiver's side of loss recovery: [NackRequester]
    ([src/qos/nack_requester.cc]) with the reordering histogram
    ([src/qos/histogram.cc]) and the retry schedule
    ([src/qos/video_recovery_timing.h]).

    [nack_list_] and [recovered_list_] are a [std::map] and a [std::set] ordered
    by [DescendingSeqNumComp]; here they are lists in that order, searched from
    the front.  That is what the containers do when their keys and the key
    searched lie within half the number space; the invariant below keeps the
    keys of [nack_list_] within 10000 of the newest number.  The clock is an
    argument. *)

From Stdlib Require Import SpecFloat Sorted.
From S2P Require Import Prelude StdContainers SeqNum Units Float32.

(** ** Retry schedule *)

(** src/qos/video_recovery_timing.h:21-34 [NackRetryRttMultiplier] *)
Definition NackRetryRttMultiplier (has_rtt_sample : bool) (successful_nack_count : Z) : Z :=
  if successful_nack_count <=? 0 then 1
  else if has_rtt_sample then (if successful_nack_count <=? 2 then 1 else 2)
  else Z.shiftl 1 (Z.min successful_nack_count 3).

(** src/qos/video_recovery_timing.h:36-38 [SoftFrameRecoveryDeadlineMs] *)
Definition SoftFrameRecoveryDeadlineMs (rtt_ms : Z) : Z := clamp (2 * rtt_ms + 30) 100 500.

(** src/qos/video_recovery_timing.h:40-47 [SoftFirConfirmationDelayMs] *)
Definition SoftFirConfirmationDelayMs (rtt_ms : Z) : Z := clamp rtt_ms 75 150.

(** src/qos/video_recovery_timing.h:49-55 [HardFrameRecoveryDeadlineMs] *)
Definition HardFrameRecoveryDeadlineMs (rtt_ms : Z) : Z := clamp (5 * rtt_ms + 80) 350 1000.

(** ** Histogram *)

(** src/qos/histogram.h:19-41 [Histogram] *)
Record Histogram := mkHistogram {
  values_ : list Z;
  buckets_ : list Z;
  index_ : Z;
  capacity_ : Z;      (* [values_.capacity()], as reserved *)
}.

(** src/qos/histogram.cc:17-21 [Histogram::Histogram] *)
Definition new_histogram (num_buckets max_num_values : Z) : Histogram :=
  mkHistogram [] (replicate (Z.to_nat num_buckets) 0) 0 max_num_values.

(** src/qos/histogram.cc:23-34 [Histogram::Add] *)
Definition HistogramAdd (value : Z) (h : Histogram) : option Histogram :=
  let value := Z.min value (zlen (buckets_ h) - 1) in
  '(values, buckets) ←
    (if index_ h <? zlen (values_ h) then
       old ← rd (values_ h) (index_ h);
       n ← rd (buckets_ h) old;
       buckets ← wr (buckets_ h) old (u64 (n - 1));
       values ← wr (values_ h) (index_ h) value;
       Some (values, buckets)
     else Some (values_ h ++ [value], buckets_ h));
  n ← rd buckets value;
  buckets ← wr buckets value (u64 (n + 1));
  Some (mkHistogram values buckets ((index_ h + 1) `mod` capacity_ h) (capacity_ h)).

(** src/qos/histogram.cc:39-43 [Histogram::InverseCdf] *)
Fixpoint inverse_cdf_loop (n : nat) (h : Histogram) (probability accumulated : spec_float)
    (bucket : Z) : option Z :=
  if f32_lt accumulated probability then
    match n with
    | O => Some bucket
    | S n' =>
        b ← rd (buckets_ h) bucket;
        inverse_cdf_loop n' h probability
          (f32_add accumulated (f32_div (f32_of_Z b) (f32_of_Z (zlen (values_ h)))))
          (bucket + 1)
    end
  else Some bucket.

(** src/qos/histogram.cc:36-45 [Histogram::InverseCdf] *)
Definition InverseCdf (h : Histogram) (probability : spec_float) : option Z :=
  inverse_cdf_loop (length (buckets_ h)) h probability (f32_of_Z 0) 0.

(** src/qos/histogram.cc:47-47 [Histogram::NumValues] *)
Definition NumValues (h : Histogram) : Z := zlen (values_ h).

(** ** Containers ordered by [DescendingSeqNumComp] *)

Abbreviation comp := (DescendingSeqNumComp 65536 0).

Section Ordered.
Context {V : Type}.
Implicit Types (l : list (Z * V)).

(** What is left from [lower_bound k] on, and from [upper_bound k] on. *)
Fixpoint from_lower_bound (k : Z) l : list (Z * V) :=
  match l with
  | [] => []
  | e :: l' => if comp e.1 k then from_lower_bound k l' else l
  end.

Fixpoint from_upper_bound (k : Z) l : list (Z * V) :=
  match l with
  | [] => []
  | e :: l' => if comp k e.1 then l else from_upper_bound k l'
  end.

(** The element with key [k]. *)
Fixpoint find_key (k : Z) l : option V :=
  match l with
  | [] => None
  | e :: l' => if e.1 =? k then Some e.2 else find_key k l'
  end.

Fixpoint erase_key (k : Z) l : list (Z * V) :=
  match l with
  | [] => []
  | e :: l' => if e.1 =? k then l' else e :: erase_key k l'
  end.

Fixpoint insert_or_assign (k : Z) (v : V) l : list (Z * V) :=
  match l with
  | [] => [(k, v)]
  | e :: l' =>
      if comp e.1 k then e :: insert_or_assign k v l'
      else if comp k e.1 then (k, v) :: l else (k, v) :: l'
  end.

(** Change the element with key [k]. *)
Fixpoint update_key (k : Z) (f : V -> V) l : list (Z * V) :=
  match l with
  | [] => []
  | e :: l' => if e.1 =? k then (k, f e.2) :: l' else e :: update_key k f l'
  end.
End Ordered.

(** ** The requester *)

(** src/qos/nack_requester.cc:20-20 [kMaxPacketAge] *)
Definition kMaxPacketAge : Z := 10000.
(** src/qos/nack_requester.cc:21-21 [kMaxNackPackets] *)
Definition kMaxNackPackets : Z := 1000.
(** src/qos/nack_requester.cc:22-22 [kDefaultRtt] *)
Definition kDefaultRtt : Z := 100000.
(** src/qos/nack_requester.cc:25-25 [kMaxNackRetries] *)
Definition kMaxNackRetries : Z := 100.
(** src/qos/nack_requester.cc:26-26 [kMaxReorderedPackets] *)
Definition kMaxReorderedPackets : Z := 128.
(** src/qos/nack_requester.cc:27-27 [kNumReorderingBuckets] *)
Definition kNumReorderingBuckets : Z := 10.
(** src/qos/nack_requester.cc:28-28 [kFailedSendRetryDelay] *)
Definition kFailedSendRetryDelay : Z := 20000.
(** src/qos/nack_requester.cc:30-30 [kDefaultSendNackDelay] *)
Definition kDefaultSendNackDelay : Z := 10000.

(** src/qos/nack_requester.h:31-42 [NackRequester::NackInfo] *)
Record NackInfo := mkNackInfo {
  ni_seq_num : Z;
  send_at_seq_num : Z;
  created_at_time : Z;
  sent_at_time : Z;
  last_send_attempt_time : Z;
  retries : Z;
  send_pending : bool;
}.

(** src/qos/nack_requester.cc:33-41 [NackRequester::NackInfo::NackInfo] *)
Definition new_nack_info (seq_num send_at created : Z) : NackInfo :=
  mkNackInfo seq_num send_at created MinusInfinity MinusInfinity 0 false.

(** src/qos/nack_requester.h:68-79 [NackRequester] *)
Record NackRequester := mkNack {
  nack_list_ : list (Z * NackInfo);
  recovered_list_ : list (Z * unit);
  reordering_histogram_ : Histogram;
  initialized_ : bool;
  nr_rtt_ : Z;
  has_rtt_sample_ : bool;
  keyframe_request_pending_ : bool;
  newest_seq_num_ : Z;
}.

(** src/qos/nack_requester.cc:43-51 [NackRequester::NackRequester] *)
Definition new_requester : NackRequester :=
  mkNack [] [] (new_histogram kNumReorderingBuckets kMaxReorderedPackets) false kDefaultRtt
    false false 0.

Definition set_nack_list (l : list (Z * NackInfo)) (st : NackRequester) : NackRequester :=
  mkNack l (recovered_list_ st) (reordering_histogram_ st) (initialized_ st) (nr_rtt_ st)
    (has_rtt_sample_ st) (keyframe_request_pending_ st) (newest_seq_num_ st).
Definition set_recovered (l : list (Z * unit)) (st : NackRequester) : NackRequester :=
  mkNack (nack_list_ st) l (reordering_histogram_ st) (initialized_ st) (nr_rtt_ st)
    (has_rtt_sample_ st) (keyframe_request_pending_ st) (newest_seq_num_ st).
Definition set_histogram (h : Histogram) (st : NackRequester) : NackRequester :=
  mkNack (nack_list_ st) (recovered_list_ st) h (initialized_ st) (nr_rtt_ st)
    (has_rtt_sample_ st) (keyframe_request_pending_ st) (newest_seq_num_ st).
Definition set_rtt (rtt : Z) (has_sample : bool) (st : NackRequester) : NackRequester :=
  mkNack (nack_list_ st) (recovered_list_ st) (reordering_histogram_ st) (initialized_ st) rtt
    has_sample (keyframe_request_pending_ st) (newest_seq_num_ st).
Definition set_keyframe (b : bool) (st : NackRequester) : NackRequester :=
  mkNack (nack_list_ st) (recovered_list_ st) (reordering_histogram_ st) (initialized_ st)
    (nr_rtt_ st) (has_rtt_sample_ st) b (newest_seq_num_ st).
Definition set_newest (s : Z) (st : NackRequester) : NackRequester :=
  mkNack (nack_list_ st) (recovered_list_ st) (reordering_histogram_ st) true
    (nr_rtt_ st) (has_rtt_sample_ st) (keyframe_request_pending_ st) s.

(** [TimeDelta::ms()] of a finite value. *)
Definition ms (us : Z) : Z := ToFraction 1000 us.

(** src/qos/nack_requester.cc:149-159 [NackRequester::UpdateRtt] *)
Definition UpdateRtt (rtt_ms : Z) (st : NackRequester) : NackRequester :=
  if (rtt_ms <=? 0) || (2000 <? rtt_ms) then st
  else if has_rtt_sample_ st
  then set_rtt (Z.quot (3 * ms (nr_rtt_ st) + rtt_ms) 4 * 1000) true st
  else set_rtt (rtt_ms * 1000) true st.

(** src/qos/nack_requester.cc:226-229 [NackRequester::UpdateReorderingStatistics] *)
Definition UpdateReorderingStatistics (seq_num : Z) (st : NackRequester)
    : option NackRequester :=
  let diff := ReverseDiff16 (newest_seq_num_ st) seq_num in
  h ← HistogramAdd diff (reordering_histogram_ st);
  Some (set_histogram h st).

(** 0.5 as a [float]. *)
Definition f32_half : spec_float := f32_div (f32_of_Z 1) (f32_of_Z 2).

(** src/qos/nack_requester.cc:231-234 [NackRequester::WaitNumberOfPackets] *)
Definition WaitNumberOfPackets (st : NackRequester) (probability : spec_float) : option Z :=
  if NumValues (reordering_histogram_ st) =? 0 then Some 0
  else InverseCdf (reordering_histogram_ st) probability.

(** src/qos/nack_requester.cc:175-181 [NackRequester::AddPacketsToNack] *)
(* The [for] from [seq_num] on; [n] numbers are left. *)
Fixpoint add_nacks_loop (n : nat) (now seq_num : Z) (st : NackRequester)
    : option NackRequester :=
  match n with
  | O => Some st
  | S n' =>
      match find_key seq_num (recovered_list_ st) with
      | Some _ => add_nacks_loop n' now (u16 (seq_num + 1)) st
      | None =>
          w ← WaitNumberOfPackets st f32_half;
          let st := set_nack_list
            (insert_or_assign seq_num (new_nack_info seq_num (u16 (seq_num + w)) now)
               (nack_list_ st)) st in
          add_nacks_loop n' now (u16 (seq_num + 1)) st
      end
  end.

(** src/qos/nack_requester.cc:161-182 [NackRequester::AddPacketsToNack] *)
Definition AddPacketsToNack (now seq_num_start seq_num_end : Z) (st : NackRequester)
    : option NackRequester :=
  let st := set_nack_list
    (from_lower_bound (u16 (seq_num_end - kMaxPacketAge)) (nack_list_ st)) st in
  let num_new_nacks := ForwardDiff16 seq_num_start seq_num_end in
  if kMaxNackPackets <? zlen (nack_list_ st) + num_new_nacks
  then Some (set_keyframe true (set_nack_list [] st))
  else add_nacks_loop (Z.to_nat num_new_nacks) now seq_num_start st.

(** src/qos/nack_requester.h:29-29 [NackRequester::NackFilterOptions] *)
Inductive NackFilterOptions := kSeqNumOnly | kTimeOnly.

(** src/qos/nack_requester.cc:197-213 [NackRequester::GetNackBatch] *)
Definition nack_due (options : NackFilterOptions) (now : Z) (st : NackRequester)
    (i : NackInfo) : bool :=
  let consider_seq_num := match options with kTimeOnly => false | _ => true end in
  let consider_timestamp := match options with kSeqNumOnly => false | _ => true end in
  let delay_timed_out := kDefaultSendNackDelay <=? timestamp_diff now (created_at_time i) in
  let retry_delay :=
    if 0 <? retries i
    then unit_mul (nr_rtt_ st) (NackRetryRttMultiplier (has_rtt_sample_ st) (retries i))
    else nr_rtt_ st in
  let nack_on_rtt_passed := retry_delay <=? timestamp_diff now (sent_at_time i) in
  let send_attempt_backoff_passed :=
    kFailedSendRetryDelay <=? timestamp_diff now (last_send_attempt_time i) in
  let nack_on_seq_num_passed :=
    IsInfinite (sent_at_time i) && AheadOrAt16 (newest_seq_num_ st) (send_at_seq_num i) in
  delay_timed_out && send_attempt_backoff_passed &&
  ((consider_seq_num && nack_on_seq_num_passed) || (consider_timestamp && nack_on_rtt_passed)).

Definition mark_pending (i : NackInfo) : NackInfo :=
  mkNackInfo (ni_seq_num i) (send_at_seq_num i) (created_at_time i) (sent_at_time i)
    (last_send_attempt_time i) (retries i) true.

(** src/qos/nack_requester.cc:191-222 [NackRequester::GetNackBatch] *)
Fixpoint nack_batch_loop (options : NackFilterOptions) (now : Z) (st : NackRequester)
    (l : list (Z * NackInfo)) : list Z * list (Z * NackInfo) :=
  match l with
  | [] => ([], [])
  | e :: l' =>
      let '(batch, rest) := nack_batch_loop options now st l' in
      if send_pending e.2 then (batch, e :: rest)
      else if nack_due options now st e.2
      then (ni_seq_num e.2 :: batch, (e.1, mark_pending e.2) :: rest)
      else (batch, e :: rest)
  end.

(** src/qos/nack_requester.cc:184-224 [NackRequester::GetNackBatch] *)
Definition GetNackBatch (options : NackFilterOptions) (now : Z) (st : NackRequester)
    : list Z * NackRequester :=
  let '(batch, l) := nack_batch_loop options now st (nack_list_ st) in
  (batch, set_nack_list l st).

(** src/qos/nack_requester.cc:55-57 [NackRequester::ProcessNacks] *)
Definition ProcessNacks (now : Z) (st : NackRequester) : list Z * NackRequester :=
  GetNackBatch kTimeOnly now st.

(** src/qos/nack_requester.cc:69-90 [NackRequester::OnReceivedPacket] *)
Definition on_out_of_order (now seq_num : Z) (is_recovered : bool) (st : NackRequester)
    : option NackRequester :=
  let st :=
    match find_key seq_num (nack_list_ st) with
    | Some i =>
        let st :=
          if is_recovered && (retries i =? 1) && negb (IsInfinite (sent_at_time i))
          then UpdateRtt (ms (timestamp_diff now (sent_at_time i))) st else st in
        set_nack_list (erase_key seq_num (nack_list_ st)) st
    | None => st
    end in
  if is_recovered then Some st else UpdateReorderingStatistics seq_num st.

(** src/qos/nack_requester.cc:59-108 [NackRequester::OnReceivedPacket] *)
Definition OnReceivedPacket (now seq_num : Z) (is_recovered : bool) (st : NackRequester)
    : option (list Z * NackRequester) :=
  if negb (initialized_ st) then Some ([], set_newest seq_num st) else
  if seq_num =? newest_seq_num_ st then Some ([], st) else
  if AheadOf16 (newest_seq_num_ st) seq_num then
    st ← on_out_of_order now seq_num is_recovered st;
    Some ([], st)
  else if is_recovered then
    let l := insert_or_assign seq_num tt (recovered_list_ st) in
    Some ([], set_recovered (from_lower_bound (u16 (seq_num - kMaxPacketAge)) l) st)
  else
    st ← AddPacketsToNack now (u16 (newest_seq_num_ st + 1)) seq_num st;
    Some (GetNackBatch kSeqNumOnly now (set_newest seq_num st)).

Definition attempt (sent_at : Z) (i : NackInfo) : NackInfo :=
  mkNackInfo (ni_seq_num i) (send_at_seq_num i) (created_at_time i) (sent_at_time i)
    sent_at (retries i) false.
Definition attempt_sent (sent_at : Z) (i : NackInfo) : NackInfo :=
  mkNackInfo (ni_seq_num i) (send_at_seq_num i) (created_at_time i) sent_at
    sent_at (retries i + 1) false.

(** src/qos/nack_requester.cc:113-130 [NackRequester::OnNackBatchSent] *)
Definition on_nack_sent (sent_at : Z) (send_successful : bool) (st : NackRequester)
    (sequence_number : Z) : NackRequester :=
  match find_key sequence_number (nack_list_ st) with
  | None => st
  | Some i =>
      if negb (send_pending i) then st
      else if negb send_successful
      then set_nack_list (update_key sequence_number (attempt sent_at) (nack_list_ st)) st
      else if kMaxNackRetries <=? retries i + 1
      then set_nack_list (erase_key sequence_number (nack_list_ st)) st
      else set_nack_list (update_key sequence_number (attempt_sent sent_at) (nack_list_ st)) st
  end.

(** src/qos/nack_requester.cc:110-131 [NackRequester::OnNackBatchSent] *)
Definition OnNackBatchSent (now : Z) (nack_batch : list Z) (send_successful : bool)
    (st : NackRequester) : NackRequester :=
  foldl (on_nack_sent now send_successful) st nack_batch.

(** src/qos/nack_requester.cc:133-137 [NackRequester::ConsumeKeyFrameRequest] *)
Definition ConsumeKeyFrameRequest (st : NackRequester) : bool * NackRequester :=
  (keyframe_request_pending_ st, set_keyframe false st).

(** src/qos/nack_requester.cc:139-143 [NackRequester::ClearUpTo] *)
Definition ClearUpTo (seq_num : Z) (st : NackRequester) : NackRequester :=
  set_recovered (from_upper_bound seq_num (recovered_list_ st))
    (set_nack_list (from_upper_bound seq_num (nack_list_ st)) st).

(** src/qos/nack_requester.cc:145-147 [NackRequester::HasPendingNacksUpTo] *)
Definition HasPendingNacksUpTo (seq_num : Z) (st : NackRequester) : bool :=
  negb (Nat.eqb (length (nack_list_ st)) (length (from_upper_bound seq_num (nack_list_ st)))).

(** src/qos/nack_requester.h:55-55 [NackRequester::HasPendingNacks] *)
Definition HasPendingNacks (st : NackRequester) : bool :=
  match nack_list_ st with [] => false | _ => true end.

(** ** Lemmas: the histogram *)

(** How often [v] occurs. *)
Fixpoint count (v : Z) (l : list Z) : Z :=
  match l with [] => 0 | x :: l' => Z.b2z (x =? v) + count v l' end.

Lemma count_app v l k : count v (l ++ k) = count v l + count v k.
Proof. induction l as [|x l IH]; cbn [count app]; lia. Qed.

Lemma count_cons v x l : count v (x :: l) = Z.b2z (x =? v) + count v l.
Proof. done. Qed.

Lemma count_le v l : 0 <= count v l <= zlen l.
Proof.
  induction l as [|x l IH]; [done|]. rewrite count_cons, zlen_cons.
  destruct (x =? v); cbn [Z.b2z]; lia.
Qed.

(** The counts are those of the values, all within the buckets. *)
Definition histogram_ok (h : Histogram) : Prop :=
  0 < zlen (buckets_ h) /\ 0 < capacity_ h < 4294967296 /\
  zlen (values_ h) <= capacity_ h /\ 0 <= index_ h < capacity_ h /\
  (zlen (values_ h) < capacity_ h -> index_ h = zlen (values_ h)) /\
  Forall (fun v => 0 <= v < zlen (buckets_ h)) (values_ h) /\
  forall v, 0 <= v < zlen (buckets_ h) ->
    rd (buckets_ h) v = Some (count v (values_ h)).

Lemma rd_insert {A} (m : list A) i j v w :
  0 <= i < zlen m -> 0 <= j -> rd m j = Some w ->
  rd (<[Z.to_nat i := v]> m) j = Some (if j =? i then v else w).
Proof.
  intros Hi Hj Hr. rewrite <- (Z2Nat.id j) in * by done. rewrite rd_nat in *.
  destruct (Z.eqb_spec (Z.of_nat (Z.to_nat j)) i) as [<-|Hn].
  - rewrite Nat2Z.id. apply list_lookup_insert_eq. by eapply lookup_lt_Some.
  - rewrite list_lookup_insert_ne; [done|lia].
Qed.

Lemma count_insert v l i o x :
  l !! i = Some o -> count v (<[i := x]> l) = count v l - Z.b2z (o =? v) + Z.b2z (x =? v).
Proof.
  intros Hi. rewrite <- (take_drop_middle l i o Hi) at 2.
  rewrite insert_take_drop by (by eapply lookup_lt_Some).
  rewrite !count_app, !count_cons. lia.
Qed.

(** Adding a value forgets the oldest once there are [capacity_] of them. *)
Lemma HistogramAdd_ok value h :
  histogram_ok h -> 0 <= value ->
  exists h', HistogramAdd value h = Some h' /\ histogram_ok h' /\
    zlen (buckets_ h') = zlen (buckets_ h) /\ capacity_ h' = capacity_ h /\
    values_ h' = if zlen (values_ h) <? capacity_ h
                 then values_ h ++ [Z.min value (zlen (buckets_ h) - 1)]
                 else <[Z.to_nat (index_ h) := Z.min value (zlen (buckets_ h) - 1)]> (values_ h).
Proof.
  intros (Hb & Hc & Hvc & Hi & Hnf & Hvs & Hcnt) Hv. unfold HistogramAdd. cbv zeta.
  set (x := Z.min value (zlen (buckets_ h) - 1)). assert (0 <= x < zlen (buckets_ h)) as Hx by lia.
  pose proof (zlen_nonneg (values_ h)) as Hvl.
  destruct (Z.ltb_spec (index_ h) (zlen (values_ h))) as [Hlt|Hge].
  - assert (zlen (values_ h) = capacity_ h) as Hfull by (destruct (Z.lt_ge_cases (zlen (values_ h)) (capacity_ h)); lia).
    rewrite (proj2 (Z.ltb_ge _ _)) by lia.
    destruct (rd_Some (values_ h) (index_ h)) as (o & Ho & Ho'); [lia|].
    pose proof (rd_Forall _ _ _ _ Hvs Ho) as Hor. cbn beta in Hor.
    rewrite Ho. cbn [mbind option_bind]. rewrite (Hcnt o Hor). cbn [mbind option_bind].
    rewrite !wr_Some by lia. cbn [mbind option_bind]. 
    pose proof (count_le o (values_ h)) as Hle.
    assert (1 <= count o (values_ h)) as H1.
    { rewrite <- (take_drop_middle _ _ _ Ho'), count_app, count_cons, Z.eqb_refl.
      pose proof (count_le o (take (Z.to_nat (index_ h)) (values_ h))).
      pose proof (count_le o (drop (S (Z.to_nat (index_ h))) (values_ h))). cbn [Z.b2z]. lia. }
    rewrite (u64_id (count o _ - 1)) by (unfold is_u64; lia).
    rewrite (rd_insert _ o x _ _ Hor ltac:(lia) (Hcnt x Hx)).
    cbn [mbind option_bind]. rewrite wr_Some by (unfold zlen; rewrite length_insert; exact Hx).
    cbn [mbind option_bind]. pose proof (count_le x (values_ h)).
    assert (u64 ((if x =? o then count o (values_ h) - 1 else count x (values_ h)) + 1) =
      count x (<[Z.to_nat (index_ h) := x]> (values_ h))) as Hnew.
    { rewrite (count_insert _ _ _ _ _ Ho'), Z.eqb_refl, (Z.eqb_sym o x).
      destruct (Z.eqb_spec x o) as [->|]; rewrite u64_id by (unfold is_u64; lia); cbn [Z.b2z]; lia. }
    eexists. split; [reflexivity|]. split; [|split; [cbn [buckets_]; by unfold zlen; rewrite !length_insert|done]].
    unfold histogram_ok. cbn [buckets_ values_ index_ capacity_].
    assert (zlen (<[Z.to_nat x := u64 ((if x =? o then count o (values_ h) - 1
                     else count x (values_ h)) + 1)]>
              (<[Z.to_nat o := count o (values_ h) - 1]> (buckets_ h))) = zlen (buckets_ h)) as ->
      by (unfold zlen; by rewrite !length_insert).
    assert (zlen (<[Z.to_nat (index_ h):=x]> (values_ h)) = zlen (values_ h)) as Hz
      by (unfold zlen; by rewrite length_insert).
    rewrite Hz. split_and!; try lia; try (apply mod_range; lia).
    + by apply Forall_insert.
    + intros v Hvr.
      pose proof (rd_insert _ o v (count o (values_ h) - 1) _ Hor ltac:(lia) (Hcnt v Hvr)) as Hr1.
      rewrite (rd_insert _ x v _ _ ltac:(unfold zlen; rewrite length_insert; exact Hx)
        ltac:(lia) Hr1).
      f_equal.
      destruct (Z.eqb_spec v x) as [->|Hne]; [exact Hnew|].
      rewrite (count_insert _ _ _ _ _ Ho'). rewrite (Z.eqb_sym o v), (Z.eqb_sym x v).
      rewrite (proj2 (Z.eqb_neq v x)) by done.
      destruct (Z.eqb_spec v o) as [->|]; cbn [Z.b2z]; lia.
  - assert (zlen (values_ h) < capacity_ h) as Hlt by lia.
    rewrite (proj2 (Z.ltb_lt _ _)) by lia. cbn [mbind option_bind].
    rewrite (Hcnt x Hx). cbn [mbind option_bind]. rewrite wr_Some by lia. cbn [mbind option_bind].
    pose proof (count_le x (values_ h)).
    eexists. split; [reflexivity|]. split; [|split; [cbn [buckets_]; by unfold zlen; rewrite !length_insert|done]].
    unfold histogram_ok. cbn [buckets_ values_ index_ capacity_].
    assert (zlen (<[Z.to_nat x := u64 (count x (values_ h) + 1)]> (buckets_ h)) =
            zlen (buckets_ h)) as -> by (unfold zlen; by rewrite !length_insert).
    rewrite zlen_app. change (zlen [x]) with 1.
    split_and!; try lia; try (apply mod_range; lia).
    + intros Hl. rewrite (Hnf Hlt), Z.mod_small by lia. done.
    + apply Forall_app. split; [done|]. by apply Forall_cons_2, Forall_nil_2.
    + intros v Hvr. rewrite (rd_insert _ x v _ _ Hx ltac:(lia) (Hcnt v Hvr)). f_equal.
      rewrite count_app, count_cons. change (count v []) with 0.
      rewrite (Z.eqb_sym x v). destruct (Z.eqb_spec v x) as [->|]; cbn [Z.b2z]; [|lia].
      rewrite u64_id by (unfold is_u64; lia). lia.
Qed.

(** The search of the buckets ends within them. *)
Lemma inverse_cdf_loop_total n h p acc bucket :
  0 <= bucket -> bucket + Z.of_nat n = zlen (buckets_ h) ->
  exists w, inverse_cdf_loop n h p acc bucket = Some w /\ bucket <= w <= zlen (buckets_ h).
Proof.
  revert acc bucket. induction n as [|n IH]; intros acc bucket H0 H1; cbn [inverse_cdf_loop].
  - case_if; eexists; (split; [reflexivity|lia]).
  - case_if; [|eexists; split; [reflexivity|lia]].
    destruct (rd_Some (buckets_ h) bucket) as (b & Hb & _); [lia|]. rewrite Hb.
    cbn [mbind option_bind].
    destruct (IH (f32_add acc (f32_div (f32_of_Z b) (f32_of_Z (zlen (values_ h))))) (bucket + 1))
      as (w & Hw & Hr); [lia|lia|]. exists w. split; [exact Hw|lia].
Qed.

Lemma InverseCdf_total h p :
  exists w, InverseCdf h p = Some w /\ 0 <= w <= zlen (buckets_ h).
Proof. apply inverse_cdf_loop_total; [lia|done]. Qed.

Lemma WaitNumberOfPackets_total st p : exists w, WaitNumberOfPackets st p = Some w.
Proof.
  unfold WaitNumberOfPackets. case_if; [by eexists|].
  destruct (InverseCdf_total (reordering_histogram_ st) p) as (w & Hw & _). by exists w.
Qed.

Lemma new_histogram_ok n m :
  0 < n -> 0 < m < 4294967296 -> histogram_ok (new_histogram n m).
Proof.
  intros Hn Hm. unfold histogram_ok, new_histogram. cbn [buckets_ values_ index_ capacity_].
  assert (zlen (replicate (Z.to_nat n) 0) = n) as -> by (unfold zlen; rewrite length_replicate; lia).
  change (zlen (@nil Z)) with 0. split_and!; try lia; [by constructor|].
  intros v Hv. rewrite <- (Z2Nat.id v), rd_nat by lia.
  apply lookup_replicate_2. lia.
Qed.

(** ** Lemmas: the ordered lists *)

(** How far a number is behind [newest]. *)
Definition behind (newest k : Z) : Z := u16 (newest - k).

Lemma behind_key newest k : is_u16 k -> u16 (newest - behind newest k) = k.
Proof. intros. unfold behind. ilia. Qed.

(** Within a window the container's order is that of the distances. *)
Lemma comp_behind newest a b :
  is_u16 a -> is_u16 b -> Z.abs (behind newest a - behind newest b) < 32768 ->
  comp a b = (behind newest b <? behind newest a).
Proof.
  intros Ha Hb Hd. unfold DescendingSeqNumComp.
  rewrite <- (behind_key newest a Ha) at 1. rewrite <- (behind_key newest b Hb) at 1.
  unfold u16 at 1 2. rewrite <- !Z.add_opp_r.
  rewrite (AheadOf_window (W:=65536)); [lia|].
  change (half 65536) with 32768. lia.
Qed.

(** From the oldest to the newest. *)
Definition descending (newest : Z) (ks : list Z) : Prop :=
  StronglySorted (fun a b => behind newest b < behind newest a) ks.

Lemma descending_app newest a b :
  descending newest (a ++ b) <->
  descending newest a /\ descending newest b /\
  Forall (fun x => Forall (fun y => behind newest y < behind newest x) b) a.
Proof.
  unfold descending. induction a as [|x a IH]; cbn.
  - split; [intros H; split_and!; [constructor|done|constructor]|tauto].
  - split.
    + intros H. apply StronglySorted_inv in H as [H1 H2]. apply IH in H1 as (H3 & H4 & H5).
      apply Forall_app in H2 as [H6 H7]. split_and!; [by constructor|done|by constructor].
    + intros (H1 & H2 & H3). apply StronglySorted_inv in H1 as [H4 H5].
      apply Forall_cons_1 in H3 as [H6 H7]. constructor; [by apply IH|by apply Forall_app].
Qed.

Section ordered.
Context {V : Type}.
Implicit Types (l : list (Z * V)).

Lemma from_lower_bound_suffix k l : exists p, l = p ++ from_lower_bound k l.
Proof.
  induction l as [|e l IH]; cbn; [by exists []|].
  case_if; [|by exists []]. destruct IH as [p Hp]. exists (e :: p). cbn. by rewrite <- Hp.
Qed.

Lemma from_upper_bound_suffix k l : exists p, l = p ++ from_upper_bound k l.
Proof.
  induction l as [|e l IH]; cbn; [by exists []|].
  case_if; [by exists []|]. destruct IH as [p Hp]. exists (e :: p). cbn. by rewrite <- Hp.
Qed.

(** [lower_bound] of a number [age] behind keeps what is at most that old. *)
Lemma from_lower_bound_age newest age l :
  is_u16 newest -> 0 <= age < 30000 -> descending newest (map fst l) ->
  Forall (fun e => is_u16 e.1 /\ behind newest e.1 < 30000) l ->
  from_lower_bound (u16 (newest - age)) l =
    List.filter (fun e => behind newest e.1 <=? age) l.
Proof.
  intros Hn Ha. induction l as [|e l IH]; intros Hs Hf; [done|].
  apply StronglySorted_inv in Hs as [Hs Hlt]. apply Forall_cons_1 in Hf as [[He1 He2] Hf].
  cbn [from_lower_bound List.filter].
  assert (behind newest (u16 (newest - age)) = age) as Hage by (unfold behind; ilia).
  assert (0 <= behind newest e.1) by apply u16_range.
  rewrite (comp_behind newest), Hage by (auto with rtc; lia).
  destruct (Z.ltb_spec age (behind newest e.1)).
  - rewrite (proj2 (Z.leb_gt _ _)) by lia. by apply IH.
  - rewrite (proj2 (Z.leb_le _ _)) by lia. f_equal.
    clear IH Hf Hs. induction l as [|f l IH]; [done|].
    apply Forall_cons_1 in Hlt as [Hf Hlt]. cbn [List.filter].
    rewrite (proj2 (Z.leb_le _ _)) by lia. f_equal. by apply IH.
Qed.

Lemma insert_or_assign_last k v l :
  Forall (fun e => comp e.1 k = true) l -> insert_or_assign k v l = l ++ [(k, v)].
Proof.
  induction l as [|e l IH]; intros Hf; [done|]. apply Forall_cons_1 in Hf as [He Hf].
  cbn. rewrite He. f_equal. by apply IH.
Qed.

Lemma find_key_In k l v : find_key k l = Some v -> In (k, v) l.
Proof.
  induction l as [|[j w] l IH]; cbn; [done|]. case_if; [|auto].
  intros [= ->]. left. by f_equal.
Qed.

Lemma find_key_None k l : find_key k l = None <-> ~ In k (map fst l).
Proof.
  induction l as [|e l IH]; cbn; [tauto|].
  destruct (Z.eqb_spec e.1 k); [split; [done|tauto]|]. rewrite IH. tauto.
Qed.

Lemma find_key_unique k l v :
  NoDup (map fst l) -> In (k, v) l -> find_key k l = Some v.
Proof.
  induction l as [|[j w] l IH]; cbn [map fst In find_key]; [done|].
  intros Hnd. apply list.NoDup_cons in Hnd as [Hn Hnd]. intros [[= -> ->]|Hin].
  - by rewrite Z.eqb_refl.
  - destruct (Z.eqb_spec j k) as [->|]; [|auto].
    destruct Hn. rewrite list_elem_of_In. by apply (in_map fst) in Hin.
Qed.

Lemma erase_key_filter k l :
  NoDup (map fst l) -> erase_key k l = List.filter (fun e => negb (e.1 =? k)) l.
Proof.
  induction l as [|[j w] l IH]; cbn [map fst erase_key List.filter]; [done|].
  intros Hnd. apply list.NoDup_cons in Hnd as [Hn Hnd].
  destruct (Z.eqb_spec j k) as [->|]; cbn [negb]; [|f_equal; auto].
  rewrite <- IH by done. clear IH Hnd. induction l as [|f l IH]; [done|].
  cbn [erase_key]. cbn [map] in Hn. rewrite not_elem_of_cons in Hn. destruct Hn as [Hf Hn].
  rewrite (proj2 (Z.eqb_neq _ _)) by done. f_equal. by apply IH.
Qed.

Lemma update_key_keys k f l : map fst (update_key k f l) = map fst l.
Proof.
  induction l as [|e l IH]; cbn; [done|].
  destruct (Z.eqb_spec e.1 k) as [<-|]; cbn; f_equal; auto.
Qed.

Lemma find_update_key j k f l :
  find_key j (update_key k f l) =
    if j =? k then option_map f (find_key j l) else find_key j l.
Proof.
  induction l as [|[i w] l IH]; cbn [update_key find_key fst snd]; [by destruct (j =? k)|].
  destruct (Z.eqb_spec i k) as [->|Hn]; cbn [find_key fst snd].
  - rewrite (Z.eqb_sym k j). by destruct (Z.eqb_spec j k).
  - rewrite IH. destruct (Z.eqb_spec i j) as [->|]; [|done].
    by rewrite (proj2 (Z.eqb_neq _ _)).
Qed.
End ordered.

(** Renaming the reference point. *)
Lemma behind_shift newest d k :
  is_u16 k -> 0 <= d -> behind newest k + d < 65536 ->
  behind (u16 (newest + d)) k = behind newest k + d.
Proof. unfold behind. intros. ilia. Qed.

Lemma descending_shift newest d ks :
  0 <= d -> Forall (fun k => is_u16 k /\ behind newest k + d < 65536) ks ->
  descending newest ks -> descending (u16 (newest + d)) ks.
Proof.
  intros Hd. unfold descending. induction ks as [|k ks IH]; intros Hf Hs; [constructor|].
  apply Forall_cons_1 in Hf as [[Hk1 Hk2] Hf]. apply StronglySorted_inv in Hs as [Hs Hlt].
  constructor; [by apply IH|]. rewrite Forall_forall in *. intros j Hj.
  destruct (Hf j Hj) as [Hj1 Hj2]. rewrite !behind_shift by done.
  specialize (Hlt j Hj). cbn beta in Hlt. lia.
Qed.

Lemma descending_NoDup newest ks : descending newest ks -> NoDup ks.
Proof.
  induction ks as [|k ks IH]; intros Hs; [constructor|].
  apply StronglySorted_inv in Hs as [Hs Hlt]. constructor; [|by apply IH].
  intros Hin. rewrite list.Forall_forall in Hlt. specialize (Hlt k Hin). lia.
Qed.

Lemma descending_filter {V} newest (P : Z * V -> bool) l :
  descending newest (map fst l) -> descending newest (map fst (List.filter P l)).
Proof.
  unfold descending. induction l as [|e l IH]; intros Hs; [constructor|].
  apply StronglySorted_inv in Hs as [Hs Hlt]. cbn [List.filter].
  destruct (P e); [|by apply IH]. cbn [map]. constructor; [by apply IH|].
  rewrite Forall_forall in *. intros j Hj. apply Hlt.
  apply in_map_iff in Hj as (f & <- & Hf).
  apply filter_In in Hf as [Hf _]. by apply in_map.
Qed.

Lemma Forall_filter {A} (P : A -> Prop) f l : Forall P l -> Forall P (List.filter f l).
Proof.
  induction 1 as [|x l Hx Hl IH]; cbn; [constructor|]. destruct (f x); [by constructor|done].
Qed.

Lemma zlen_filter {A} f (l : list A) : zlen (List.filter f l) <= zlen l.
Proof.
  induction l as [|x l IH]; cbn; [done|]. destruct (f x); rewrite ?zlen_cons; lia.
Qed.

Lemma Forall_update_key {V} (P : Z * V -> Prop) k f l :
  Forall P l -> (forall v, P (k, v) -> P (k, f v)) -> Forall P (update_key k f l).
Proof.
  intros Hf Hk. induction Hf as [|[j w] l Hx Hl IH]; cbn; [constructor|].
  destruct (Z.eqb_spec j k) as [->|]; constructor; auto.
Qed.

(** The [n] numbers from [seq_num] on. *)
Fixpoint numbers (n : nat) (seq_num : Z) : list Z :=
  match n with
  | O => []
  | S n' => seq_num :: numbers n' (u16 (seq_num + 1))
  end.

(** Those of them that were not recovered. *)
Definition missing (st : NackRequester) (n : nat) (seq_num : Z) : list Z :=
  List.filter (fun k => match find_key k (recovered_list_ st) with Some _ => false | None => true end)
    (numbers n seq_num).

Lemma numbers_length n s : length (numbers n s) = n.
Proof. revert s. induction n; intros; cbn; [done|f_equal; auto]. Qed.

Lemma numbers_behind n s newest :
  is_u16 s -> Z.of_nat n < 30000 -> newest = u16 (s + Z.of_nat n) ->
  Forall (fun k => is_u16 k /\ 1 <= behind newest k <= Z.of_nat n) (numbers n s) /\
  descending newest (numbers n s).
Proof.
  revert s. induction n as [|n IH]; intros s Hs Hn Hnew; cbn [numbers];
    [split; constructor|].
  destruct (IH (u16 (s + 1))) as [IH1 IH2]; [auto with rtc|lia|subst newest; ilia|].
  assert (behind newest s = Z.of_nat (S n)) as Hb by (subst newest; unfold behind; ilia).
  split.
  - constructor; [split; [done|lia]|]. eapply Forall_impl; [|exact IH1].
    cbn beta. intros k [Hk1 Hk2]. split; [done|lia].
  - constructor; [exact IH2|]. eapply Forall_impl; [|exact IH1]. cbn beta. lia.
Qed.

(** ** Lemmas: the invariant of the requester *)

Definition entry_ok (newest : Z) (e : Z * NackInfo) : Prop :=
  is_u16 e.1 /\ ni_seq_num e.2 = e.1 /\ 1 <= behind newest e.1 <= kMaxPacketAge /\
  0 <= retries e.2 < kMaxNackRetries.

(** At most 1000 entries, each under its own number, ordered by age, none older
    than 10000; a round-trip time between 1 ms and 2 s. *)
Definition nack_ok (st : NackRequester) : Prop :=
  is_u16 (newest_seq_num_ st) /\
  descending (newest_seq_num_ st) (map fst (nack_list_ st)) /\
  Forall (entry_ok (newest_seq_num_ st)) (nack_list_ st) /\
  zlen (nack_list_ st) <= kMaxNackPackets /\
  (initialized_ st = false -> nack_list_ st = []) /\
  histogram_ok (reordering_histogram_ st) /\
  exists r, nr_rtt_ st = r * 1000 /\ 1 <= r <= 2000.

Lemma new_requester_ok : nack_ok new_requester.
Proof.
  unfold nack_ok. split_and!; [done|constructor|constructor|done|done| |].
  - by apply new_histogram_ok.
  - exists 100. split; [done|lia].
Qed.

(** Shrinking the list or rewriting entries under their keys. *)
Lemma set_nack_list_ok l st :
  nack_ok st -> descending (newest_seq_num_ st) (map fst l) ->
  Forall (entry_ok (newest_seq_num_ st)) l -> zlen l <= zlen (nack_list_ st) ->
  nack_ok (set_nack_list l st).
Proof.
  intros (H1 & H2 & H3 & H4 & H5 & H6 & H7) Hd Hf Hl. unfold nack_ok.
  cbn [set_nack_list nack_list_ newest_seq_num_ initialized_ reordering_histogram_ nr_rtt_].
  split_and!; try done; [lia|]. intros Hi. rewrite (H5 Hi) in Hl.
  destruct l; [done|]. rewrite zlen_cons in Hl. pose proof (zlen_nonneg l).
  change (zlen []) with 0 in Hl. lia.
Qed.

Lemma filter_ok P st :
  nack_ok st -> nack_ok (set_nack_list (List.filter P (nack_list_ st)) st).
Proof.
  intros H. pose proof H as (H1 & H2 & H3 & H4 & _).
  apply set_nack_list_ok; [done|by apply descending_filter|by apply Forall_filter|].
  apply zlen_filter.
Qed.

Lemma suffix_ok p l st :
  nack_ok st -> nack_list_ st = p ++ l -> nack_ok (set_nack_list l st).
Proof.
  intros H Hl. pose proof H as (H1 & H2 & H3 & H4 & _). rewrite Hl in *.
  apply set_nack_list_ok; [done| | |].
  - rewrite map_app in H2. by apply descending_app in H2 as (_ & H2 & _).
  - by apply Forall_app in H3 as [_ H3].
  - rewrite Hl, zlen_app. pose proof (zlen_nonneg p). lia.
Qed.

Lemma erase_ok k st :
  nack_ok st -> nack_ok (set_nack_list (erase_key k (nack_list_ st)) st).
Proof.
  intros H. rewrite erase_key_filter; [by apply filter_ok|].
  destruct H as (_ & H2 & _). by eapply descending_NoDup.
Qed.

Lemma set_rtt_ok r b st :
  nack_ok st -> 1 <= r <= 2000 -> nack_ok (set_rtt (r * 1000) b st).
Proof.
  intros (H1 & H2 & H3 & H4 & H5 & H6 & H7) Hr. unfold nack_ok, set_rtt. cbn.
  split_and!; try done. by exists r.
Qed.

Lemma ms_millis r : ms (r * 1000) = r.
Proof.
  unfold ms, ToFraction. rewrite DivideRoundToNearest_floor by lia.
  zdm.
Qed.

Lemma UpdateRtt_ok rtt_ms st : nack_ok st -> nack_ok (UpdateRtt rtt_ms st).
Proof.
  intros H. unfold UpdateRtt. case_if; [done|].
  case_if; [|apply set_rtt_ok; [done|lia]].
  destruct H as (H1 & H2 & H3 & H4 & H5 & H6 & r & Hr & Hr'). rewrite Hr, ms_millis.
  apply set_rtt_ok; [|rewrite Z.quot_div_nonneg by lia; zdm].
  unfold nack_ok. split_and!; try done. by exists r.
Qed.

Lemma UpdateReorderingStatistics_ok s st :
  nack_ok st -> exists st', UpdateReorderingStatistics s st = Some st' /\ nack_ok st' /\
    nack_list_ st' = nack_list_ st /\ newest_seq_num_ st' = newest_seq_num_ st /\
    recovered_list_ st' = recovered_list_ st.
Proof.
  intros (H1 & H2 & H3 & H4 & H5 & H6 & H7). unfold UpdateReorderingStatistics.
  destruct (HistogramAdd_ok (ReverseDiff16 (newest_seq_num_ st) s) (reordering_histogram_ st))
    as (h & Hh & Hok & _); [done|apply u16_range|].
  rewrite Hh. cbn [mbind option_bind]. eexists. split; [reflexivity|]. done.
Qed.

(** ** Lemmas: gaps *)

Definition missing_entry (now w k : Z) : Z * NackInfo := (k, new_nack_info k (u16 (k + w)) now).

Lemma add_nacks_loop_spec n now seq_num newest w st :
  is_u16 seq_num -> Z.of_nat n < 20000 -> WaitNumberOfPackets st f32_half = Some w ->
  newest = u16 (seq_num + Z.of_nat n) ->
  Forall (fun e => is_u16 e.1 /\ Z.of_nat n < behind newest e.1 < 30000) (nack_list_ st) ->
  add_nacks_loop n now seq_num st =
    Some (set_nack_list (nack_list_ st ++ map (missing_entry now w) (missing st n seq_num)) st).
Proof.
  revert seq_num st. induction n as [|n IH]; intros s st Hs Hn Hw Hnew Hf.
  - cbn. rewrite app_nil_r. by destruct st.
  - cbn [add_nacks_loop]. unfold missing. cbn [numbers List.filter].
    assert (behind newest s = Z.of_nat (S n)) as Hb by (subst newest; unfold behind; ilia).
    assert (newest = u16 (u16 (s + 1) + Z.of_nat n)) as Hnew' by (subst newest; ilia).
    destruct (find_key s (recovered_list_ st)) eqn:Hr.
    + rewrite IH; [done|auto with rtc|lia|done|done|].
      eapply List.Forall_impl; [|exact Hf]. cbn beta. intros e [He1 He2]. split; [done|lia].
    + rewrite Hw. cbn [mbind option_bind].
      rewrite insert_or_assign_last.
      2:{ eapply List.Forall_impl; [|exact Hf]. cbn beta. intros e [He1 He2].
          rewrite (comp_behind newest) by (done || lia). lia. }
      rewrite IH; [|auto with rtc|lia|exact Hw|done|].
      * cbn [set_nack_list nack_list_ recovered_list_]. unfold missing. cbn [map recovered_list_].
        by rewrite <- app_assoc.
      * cbn [set_nack_list nack_list_]. apply Forall_app. split.
        -- eapply List.Forall_impl; [|exact Hf]. cbn beta. intros e [He1 He2]. split; [done|lia].
        -- constructor; [|constructor]. cbn [fst]. split; [done|lia].
Qed.

(** The entries still young enough when [seq_num] arrives. *)
Definition kept (seq_num : Z) (st : NackRequester) : list (Z * NackInfo) :=
  List.filter (fun e => behind seq_num e.1 <=? kMaxPacketAge) (nack_list_ st).

Lemma rebase_entries st d :
  nack_ok st -> 0 <= d <= 1001 ->
  Forall (fun e => is_u16 e.1 /\
    behind (u16 (newest_seq_num_ st + d)) e.1 = behind (newest_seq_num_ st) e.1 + d) (nack_list_ st) /\
  descending (u16 (newest_seq_num_ st + d)) (map fst (nack_list_ st)).
Proof.
  intros (H1 & H2 & H3 & _) Hd. split.
  - eapply List.Forall_impl; [|exact H3]. intros e (He1 & _ & He2 & _). split; [done|].
    unfold kMaxPacketAge in He2. apply behind_shift; [done|lia|lia].
  - apply descending_shift; [lia| |done]. apply Forall_map.
    eapply List.Forall_impl; [|exact H3]. intros e (He1 & _ & He2 & _).
    unfold kMaxPacketAge in He2. cbn beta. split; [done|lia].
Qed.

(** Too large a gap empties the list and asks for a key frame; otherwise every
    number of the gap that was not recovered gets an entry. *)
Lemma AddPacketsToNack_spec now seq_num w st :
  nack_ok st -> is_u16 seq_num -> seq_num <> newest_seq_num_ st ->
  WaitNumberOfPackets st f32_half = Some w ->
  let d := u16 (seq_num - newest_seq_num_ st) in
  AddPacketsToNack now (u16 (newest_seq_num_ st + 1)) seq_num st =
    if kMaxNackPackets <? zlen (kept seq_num st) + (d - 1)
    then Some (set_keyframe true (set_nack_list [] st))
    else Some (set_nack_list (kept seq_num st ++
      map (missing_entry now w)
          (missing st (Z.to_nat (d - 1)) (u16 (newest_seq_num_ st + 1)))) st).
Proof.
  intros Hok Hs Hne Hw d. pose proof Hok as (Hn & Hd & Hf & Hl & _).
  assert (1 <= d < 65536) as Hdr by (subst d; ilia).
  assert (ForwardDiff16 (u16 (newest_seq_num_ st + 1)) seq_num = d - 1) as Hfd
    by (rewrite ForwardDiff16_eq; subst d; ilia).
  unfold AddPacketsToNack. cbv zeta. rewrite Hfd. cbn [set_nack_list nack_list_].
  destruct (Z.le_gt_cases d 1001) as [Hd1|Hd1].
  - assert (seq_num = u16 (newest_seq_num_ st + d)) as Hnew by (subst d; ilia).
    destruct (rebase_entries st d Hok) as [Hr1 Hr2]; [lia|]. rewrite <- Hnew in Hr1, Hr2.
    assert (Forall (fun e : Z * NackInfo => is_u16 e.1 /\ d + 1 <= behind seq_num e.1 < 30000)
              (nack_list_ st)) as Hr3.
    { rewrite list.Forall_forall in Hr1, Hf |- *. intros e He. destruct (Hr1 e He) as [Hr4 ->].
      destruct (Hf e He) as (_ & _ & He2 & _). unfold kMaxPacketAge in He2. split; [done|lia]. }
    assert (from_lower_bound (u16 (seq_num - kMaxPacketAge)) (nack_list_ st) = kept seq_num st)
      as Hkept.
    { apply from_lower_bound_age; [done|unfold kMaxPacketAge; lia|done|].
      eapply List.Forall_impl; [|exact Hr3]. cbn beta. intros e [? ?]. split; [done|lia]. }
    rewrite Hkept. case_if; [done|].
    rewrite (add_nacks_loop_spec _ _ _ seq_num w); [done|auto with rtc|lia|exact Hw|subst d; ilia|].
    apply Forall_filter. eapply List.Forall_impl; [|exact Hr3]. cbn beta.
    intros e [? ?]. split; [done|lia].
  - rewrite !(proj2 (Z.ltb_lt _ _)).
    + done.
    + pose proof (zlen_nonneg (kept seq_num st)). unfold kMaxNackPackets. lia.
    + pose proof (zlen_nonneg (from_lower_bound (u16 (seq_num - kMaxPacketAge)) (nack_list_ st))).
      unfold kMaxNackPackets. lia.
Qed.

(** The list after a packet arrives ahead of the others. *)
Definition after_gap (now seq_num w : Z) (st : NackRequester) : list (Z * NackInfo) :=
  kept seq_num st ++ map (missing_entry now w)
    (missing st (Z.to_nat (u16 (seq_num - newest_seq_num_ st) - 1)) (u16 (newest_seq_num_ st + 1))).

Lemma missing_zlen st n s : zlen (missing st n s) <= Z.of_nat n.
Proof.
  unfold missing. pose proof (zlen_filter (fun k => match find_key k (recovered_list_ st) with
    Some _ => false | None => true end) (numbers n s)) as H.
  unfold zlen at 2 in H. by rewrite numbers_length in H.
Qed.

Lemma missing_behind st n s newest :
  is_u16 s -> Z.of_nat n < 30000 -> newest = u16 (s + Z.of_nat n) ->
  Forall (fun k => is_u16 k /\ 1 <= behind newest k <= Z.of_nat n) (missing st n s) /\
  descending newest (missing st n s).
Proof.
  intros Hs Hn Hnew. destruct (numbers_behind n s newest Hs Hn Hnew) as [H1 H2]. split.
  - by apply Forall_filter.
  - unfold missing, descending. clear H1. induction H2 as [|x l Hx IH Hlt]; cbn [List.filter]; [constructor|].
    destruct (find_key x (recovered_list_ st)); [exact IH|]. constructor; [exact IH|]. by apply Forall_filter.
Qed.

Lemma after_gap_ok now seq_num w st :
  nack_ok st -> initialized_ st = true -> is_u16 seq_num -> seq_num <> newest_seq_num_ st ->
  zlen (kept seq_num st) + (u16 (seq_num - newest_seq_num_ st) - 1) <= kMaxNackPackets ->
  nack_ok (set_newest seq_num (set_nack_list (after_gap now seq_num w st) st)).
Proof.
  intros Hok Hi Hs Hne. set (d := u16 (seq_num - newest_seq_num_ st)). intros Hsz.
  assert (1 <= d < 65536) as Hdr by (pose proof Hok as [Hn _]; subst d; ilia).
  assert (d <= 1001) as Hd1 by (pose proof (zlen_nonneg (kept seq_num st)); unfold kMaxNackPackets in Hsz; lia).
  assert (seq_num = u16 (newest_seq_num_ st + d)) as Hnew by (pose proof Hok as [Hn _]; subst d; ilia).
  destruct (rebase_entries st d Hok) as [Hr1 Hr2]; [lia|]. rewrite <- Hnew in Hr1, Hr2.
  pose proof Hok as (Hn & Hd & Hf & Hl & H5 & H6 & H7).
  destruct (missing_behind st (Z.to_nat (d - 1)) (u16 (newest_seq_num_ st + 1)) seq_num) as [Hm1 Hm2];
    [auto with rtc|lia|subst d; ilia|].
  pose proof (missing_zlen st (Z.to_nat (d - 1)) (u16 (newest_seq_num_ st + 1))) as Hm3.
  set (ms := missing st (Z.to_nat (d - 1)) (u16 (newest_seq_num_ st + 1))) in *.
  assert (after_gap now seq_num w st = kept seq_num st ++ map (missing_entry now w) ms) as -> by done.
  assert (map fst (map (missing_entry now w) ms) = ms) as Hmap
    by (rewrite map_map; cbn; apply map_id).
  assert (Forall (fun e : Z * NackInfo => entry_ok seq_num e /\ d < behind seq_num e.1) (kept seq_num st)) as Hk.
  { unfold kept. rewrite list.Forall_forall in Hr1, Hf |- *. intros e He.
    apply list_elem_of_In, filter_In in He as [He Ha]. apply list_elem_of_In in He. b2p.
    destruct (Hr1 e He) as [Hr4 Hr5]. destruct (Hf e He) as (He1 & He2 & He3 & He4).
    split; [|lia]. unfold entry_ok. split_and!; try done; lia. }
  unfold nack_ok.
  cbn [set_nack_list set_newest nack_list_ newest_seq_num_ initialized_ reordering_histogram_ nr_rtt_].
  split; [done|]. split; [|split; [|split; [|split; [done|done]]]].
  - rewrite map_app, Hmap. apply descending_app. split_and!; [by apply descending_filter|done|].
    apply Forall_map. eapply List.Forall_impl; [|exact Hk]. cbn beta. intros e [_ He].
    eapply List.Forall_impl; [|exact Hm1]. cbn beta. lia.
  - apply Forall_app. split; [eapply List.Forall_impl; [|exact Hk]; by intros ? []|].
    apply Forall_map. eapply List.Forall_impl; [|exact Hm1]. intros k [Hk1 Hk2].
    unfold entry_ok, kMaxPacketAge, kMaxNackRetries. cbn. split_and!; try done; lia.
  - rewrite zlen_app. unfold zlen at 2. rewrite length_map. fold (zlen ms). lia.
Qed.

(** ** Lemmas: batches *)

(** The entries a batch asks for. *)
Definition requested (options : NackFilterOptions) (now : Z) (st : NackRequester)
    (e : Z * NackInfo) : bool :=
  negb (send_pending e.2) && nack_due options now st e.2.

Lemma GetNackBatch_eq options now st :
  GetNackBatch options now st =
    (map (fun e => ni_seq_num e.2) (List.filter (requested options now st) (nack_list_ st)),
     set_nack_list (map (fun e => if requested options now st e then (e.1, mark_pending e.2) else e)
       (nack_list_ st)) st).
Proof.
  unfold GetNackBatch. generalize (nack_list_ st) as l. intros l.
  assert (nack_batch_loop options now st l =
    (map (fun e => ni_seq_num e.2) (List.filter (requested options now st) l),
     map (fun e => if requested options now st e then (e.1, mark_pending e.2) else e) l)) as ->; [|done].
  induction l as [|e l IH]; [done|]. cbn [nack_batch_loop List.filter map]. rewrite IH.
  change (requested options now st e) with (negb (send_pending e.2) && nack_due options now st e.2).
  destruct (send_pending e.2); cbn [negb andb]; [done|].
  by destruct (nack_due options now st e.2).
Qed.

Lemma GetNackBatch_ok options now st : nack_ok st -> nack_ok (GetNackBatch options now st).2.
Proof.
  intros H. rewrite GetNackBatch_eq. cbn [snd]. pose proof H as (H1 & H2 & H3 & _).
  apply set_nack_list_ok; [done| | |].
  - rewrite map_map. erewrite map_ext; [exact H2|]. intros e. by destruct (requested _ _ _ e).
  - apply Forall_map. eapply List.Forall_impl; [|exact H3]. cbn beta. intros e He.
    by destruct (requested _ _ _ e).
  - unfold zlen. by rewrite length_map.
Qed.

Lemma find_key_entry k i st :
  nack_ok st -> find_key k (nack_list_ st) = Some i -> entry_ok (newest_seq_num_ st) (k, i).
Proof.
  intros (_ & _ & H3 & _) Hf. rewrite list.Forall_forall in H3. apply H3.
  apply list_elem_of_In. by apply find_key_In.
Qed.

Lemma update_ok k f st :
  nack_ok st ->
  (forall i, find_key k (nack_list_ st) = Some i -> entry_ok (newest_seq_num_ st) (k, f i)) ->
  nack_ok (set_nack_list (update_key k f (nack_list_ st)) st).
Proof.
  intros H Hf. pose proof H as (H1 & H2 & H3 & _).
  apply set_nack_list_ok; [done|by rewrite update_key_keys| |].
  - apply descending_NoDup in H2. clear H. revert H2 Hf.
    induction H3 as [|[j w] l Hx Hl IH]; cbn [map fst update_key find_key snd]; intros Hnd Hf; [constructor|].
    destruct (Z.eqb_spec j k) as [->|Hjk]; constructor; auto.
    apply list.NoDup_cons in Hnd as [_ Hnd]. by apply IH.
  - unfold zlen. by rewrite <- (length_map fst (update_key _ _ _)), update_key_keys, length_map.
Qed.

Lemma on_nack_sent_ok now b st k : nack_ok st -> nack_ok (on_nack_sent now b st k).
Proof.
  intros H. unfold on_nack_sent. destruct (find_key k (nack_list_ st)) as [i|] eqn:Hk; [|done].
  pose proof (find_key_entry k i st H Hk) as (E1 & E2 & E3 & E4). cbn [fst snd] in *.
  case_if; [done|]. case_if; [apply update_ok; [done|]|case_if; [by apply erase_ok|apply update_ok; [done|]]].
  - intros j Hj. rewrite Hk in Hj. by injection Hj as <-.
  - intros j Hj. rewrite Hk in Hj. injection Hj as <-. unfold entry_ok. cbn. split_and!; try done; lia.
Qed.

Lemma OnNackBatchSent_ok now batch b st : nack_ok st -> nack_ok (OnNackBatchSent now batch b st).
Proof.
  unfold OnNackBatchSent. revert st. induction batch as [|k l IH]; intros st H; [done|].
  cbn. by apply IH, on_nack_sent_ok.
Qed.

Lemma set_newest_fresh_ok s st :
  nack_ok st -> initialized_ st = false -> is_u16 s -> nack_ok (set_newest s st).
Proof.
  intros (H1 & H2 & H3 & H4 & H5 & H6 & H7) Hi Hs. unfold nack_ok.
  cbn [set_newest nack_list_ newest_seq_num_ initialized_ reordering_histogram_ nr_rtt_].
  rewrite (H5 Hi). split_and!; try done; constructor.
Qed.

Lemma on_out_of_order_ok now s b st :
  nack_ok st -> exists st', on_out_of_order now s b st = Some st' /\ nack_ok st' /\
    nack_list_ st' = erase_key s (nack_list_ st) /\ newest_seq_num_ st' = newest_seq_num_ st.
Proof.
  intros H. unfold on_out_of_order. cbv zeta.
  match goal with |- context [if b then Some ?x else _] => set (st1 := x) end.
  assert (nack_ok st1 /\ nack_list_ st1 = erase_key s (nack_list_ st) /\
          newest_seq_num_ st1 = newest_seq_num_ st) as (Ho & Hl & Hn).
  { subst st1. destruct (find_key s (nack_list_ st)) as [i|] eqn:Hk.
    - match goal with |- context [erase_key s (nack_list_ ?x)] => set (st2 := x) end.
      assert (nack_ok st2 /\ nack_list_ st2 = nack_list_ st /\ newest_seq_num_ st2 = newest_seq_num_ st)
        as (Ho & Hl & Hn).
      { subst st2. case_if; [|done]. split; [by apply UpdateRtt_ok|].
        unfold UpdateRtt. case_if; [done|]. by case_if. }
      split_and!; [by apply erase_ok|cbn; by rewrite Hl|done].
    - split_and!; [done| |done]. apply find_key_None in Hk.
      induction (nack_list_ st) as [|e l IH]; [done|]. cbn [map In] in Hk. cbn [erase_key].
      rewrite (proj2 (Z.eqb_neq _ _)) by tauto. f_equal. apply IH. tauto. }
  destruct b; [by exists st1|].
  destruct (UpdateReorderingStatistics_ok s st1 Ho) as (st' & -> & Ho' & Hl' & Hn' & _).
  exists st'. split_and!; try done; congruence.
Qed.

Lemma OnReceivedPacket_ok now s b st :
  nack_ok st -> is_u16 s ->
  exists batch st', OnReceivedPacket now s b st = Some (batch, st') /\ nack_ok st'.
Proof.
  intros H Hs. unfold OnReceivedPacket.
  destruct (initialized_ st) eqn:Hi; cbn [negb].
  2:{ do 2 eexists. split; [reflexivity|by apply set_newest_fresh_ok]. }
  case_if; [by do 2 eexists|]. case_if.
  - destruct (on_out_of_order_ok now s b st H) as (st' & -> & Ho & _). cbn. by do 2 eexists.
  - destruct b; [by do 2 eexists|].
    destruct (WaitNumberOfPackets_total st f32_half) as [w Hw].
    rewrite (AddPacketsToNack_spec _ _ w) by done. fold (after_gap now s w st).
    set (d := u16 (s - newest_seq_num_ st)).
    destruct (Z.ltb_spec kMaxNackPackets (zlen (kept s st) + (d - 1))); cbn [mbind option_bind];
      match goal with |- context [GetNackBatch ?o ?t ?x] =>
        pose proof (GetNackBatch_ok o t x) as Hg; destruct (GetNackBatch o t x) as [bt st'] end;
      exists bt, st'; (split; [done|]); apply Hg; clear Hg.
    + destruct H as (H1 & H2 & H3 & H4 & H5 & H6 & H7). unfold nack_ok. cbn.
      split_and!; try done; constructor.
    + by apply after_gap_ok.
Qed.

Lemma find_erase_key {V} k j (l : list (Z * V)) :
  NoDup (map fst l) ->
  find_key k (erase_key j l) = if k =? j then None else find_key k l.
Proof.
  intros Hnd. rewrite erase_key_filter by done. destruct (Z.eqb_spec k j) as [->|Hn].
  - apply find_key_None. intros Hin. apply in_map_iff in Hin as (e & <- & He).
    apply filter_In in He as [_ He]. by rewrite Z.eqb_refl in He.
  - clear Hnd. induction l as [|e l IH]; [done|]. cbn [List.filter find_key].
    destruct (Z.eqb_spec e.1 j) as [He|He]; cbn [negb find_key].
    + rewrite (proj2 (Z.eqb_neq e.1 k)) by congruence. exact IH.
    + by rewrite IH.
Qed.

(** What the outcome of a transmission makes of a requested entry. *)
Definition sent_entry (sent_at : Z) (ok : bool) (i : NackInfo) : option NackInfo :=
  if negb (send_pending i) then Some i
  else if negb ok then Some (attempt sent_at i)
  else if kMaxNackRetries <=? retries i + 1 then None
  else Some (attempt_sent sent_at i).

Lemma on_nack_sent_find t ok st j k :
  nack_ok st ->
  find_key k (nack_list_ (on_nack_sent t ok st j)) =
    if k =? j then i ← find_key k (nack_list_ st); sent_entry t ok i
    else find_key k (nack_list_ st).
Proof.
  intros H. assert (NoDup (map fst (nack_list_ st))) as Hnd
    by (destruct H as (_ & H & _); by eapply descending_NoDup).
  unfold on_nack_sent, sent_entry.
  destruct (Z.eqb_spec k j) as [->|Hn].
  - destruct (find_key j (nack_list_ st)) as [i|] eqn:Hi; [|by rewrite Hi]. cbn [mbind option_bind].
    destruct (send_pending i); cbn [negb]; [|by rewrite Hi].
    destruct ok; cbn [negb]; [case_if|]; cbn [set_nack_list nack_list_];
      rewrite ?find_erase_key, ?find_update_key, Z.eqb_refl by done; [done| |]; by rewrite Hi.
  - destruct (find_key j (nack_list_ st)) as [i|]; [|done].
    case_if; [done|]. case_if; [|case_if]; cbn [set_nack_list nack_list_];
      rewrite ?find_erase_key, ?find_update_key by done;
      by rewrite (proj2 (Z.eqb_neq k j)) by done.
Qed.

Lemma sent_entry_twice t ok i i' :
  sent_entry t ok i = Some i' -> sent_entry t ok i' = Some i'.
Proof.
  unfold sent_entry. destruct (send_pending i) eqn:Hp; cbn [negb]; [|intros [= <-]; by rewrite Hp].
  destruct ok; cbn [negb]; [case_if; [done|]|]; intros [= <-]; done.
Qed.

Lemma OnNackBatchSent_find t ok batch st k :
  nack_ok st ->
  find_key k (nack_list_ (OnNackBatchSent t batch ok st)) =
    if bool_decide (k ∈ batch) then i ← find_key k (nack_list_ st); sent_entry t ok i
    else find_key k (nack_list_ st).
Proof.
  unfold OnNackBatchSent. revert st. induction batch as [|j l IH]; intros st H; cbn [foldl].
  - by rewrite bool_decide_false by apply not_elem_of_nil.
  - rewrite IH by (by apply on_nack_sent_ok). rewrite on_nack_sent_find by done.
    destruct (Z.eqb_spec k j) as [->|Hn].
    + rewrite (bool_decide_true (j ∈ j :: l)) by set_solver.
      destruct (find_key j (nack_list_ st)) as [i|]; cbn [mbind option_bind]; [|by case_if].
      destruct (sent_entry t ok i) as [i'|] eqn:Hs; cbn [mbind option_bind]; [|by case_if].
      case_if; [by eapply sent_entry_twice|done].
    + rewrite (bool_decide_ext (k ∈ j :: l) (k ∈ l)); [done|].
      rewrite elem_of_cons. tauto.
Qed.

Lemma OnNackBatchSent_rtt t ok batch st :
  let st' := OnNackBatchSent t batch ok st in
  nr_rtt_ st' = nr_rtt_ st /\ has_rtt_sample_ st' = has_rtt_sample_ st.
Proof.
  unfold OnNackBatchSent. revert st. induction batch as [|j l IH]; intros st; [done|]. cbn [foldl].
  destruct (IH (on_nack_sent t ok st j)) as [-> ->]. unfold on_nack_sent.
  destruct (find_key j (nack_list_ st)); [|done]. repeat case_if; done.
Qed.

Lemma GetNackBatch_find options now st k :
  nack_ok st ->
  find_key k (nack_list_ (GetNackBatch options now st).2) =
    (i ← find_key k (nack_list_ st);
     Some (if requested options now st (k, i) then mark_pending i else i)).
Proof.
  intros _. rewrite GetNackBatch_eq. cbn [snd set_nack_list nack_list_].
  generalize (nack_list_ st) as l. intros l. induction l as [|[j i] l IH]; [done|].
  cbn [map find_key fst snd]. destruct (Z.eqb_spec j k) as [->|Hn].
  - cbn [mbind option_bind].
    destruct (requested options now st (k, i)); cbn [find_key fst snd]; by rewrite Z.eqb_refl.
  - destruct (requested options now st (j, i)); cbn [find_key fst snd];
      by rewrite (proj2 (Z.eqb_neq _ _)).
Qed.

(** A batch holds the keys of the entries requested. *)
Lemma GetNackBatch_batch options now st k :
  nack_ok st ->
  k ∈ (GetNackBatch options now st).1 <->
  exists i, find_key k (nack_list_ st) = Some i /\ requested options now st (k, i) = true.
Proof.
  intros H. pose proof H as (_ & H2 & H3 & _). rewrite GetNackBatch_eq. cbn [fst].
  rewrite list_elem_of_In, in_map_iff. apply descending_NoDup in H2.
  rewrite list.Forall_forall in H3. split.
  - intros ([j i] & <- & Hin). apply filter_In in Hin as [Hin Hr]. cbn [snd].
    destruct (H3 (j, i)) as (_ & Hs & _); [by apply list_elem_of_In|]. cbn [fst snd] in Hs. rewrite Hs.
    exists i. split; [by apply find_key_unique|done].
  - intros (i & Hf & Hr). exists (k, i). apply find_key_In in Hf. cbn [snd].
    destruct (H3 (k, i)) as (_ & Hs & _); [by apply list_elem_of_In|]. split; [done|].
    by apply filter_In.
Qed.

(** ** Properties *)

(** What the receiver's connection does with its requester. *)
Inductive NackOp :=
  | NackReceived (now seq_num : Z) (is_recovered : bool)
  | NackProcess (now : Z)
  | NackBatchSent (now : Z) (batch : list Z) (send_successful : bool)
  | NackRtt (rtt_ms : Z)
  | NackClear (seq_num : Z)
  | NackKeyFrame.

Definition nack_step (st : NackRequester) (op : NackOp) : option (list Z * NackRequester) :=
  match op with
  | NackReceived now s b => OnReceivedPacket now s b st
  | NackProcess now => Some (ProcessNacks now st)
  | NackBatchSent now batch ok => Some ([], OnNackBatchSent now batch ok st)
  | NackRtt r => Some ([], UpdateRtt r st)
  | NackClear s => Some ([], ClearUpTo s st)
  | NackKeyFrame => Some ([], (ConsumeKeyFrameRequest st).2)
  end.

Definition nack_op_ok (op : NackOp) : Prop :=
  match op with NackReceived _ s _ => is_u16 s | NackClear s => is_u16 s | _ => True end.

(** A run and the batches it asked for. *)
Fixpoint nack_run (st : NackRequester) (ops : list NackOp)
    : option (list (list Z) * NackRequester) :=
  match ops with
  | [] => Some ([], st)
  | op :: ops' =>
      '(b, st1) ← nack_step st op;
      '(bs, st2) ← nack_run st1 ops';
      Some (b :: bs, st2)
  end.

Lemma nack_step_ok st op :
  nack_ok st -> nack_op_ok op -> exists b st', nack_step st op = Some (b, st') /\ nack_ok st'.
Proof.
  intros H Hop. destruct op; cbn [nack_step nack_op_ok] in *.
  - by apply OnReceivedPacket_ok.
  - pose proof (GetNackBatch_ok kTimeOnly now st H). unfold ProcessNacks.
    destruct (GetNackBatch kTimeOnly now st). by do 2 eexists.
  - do 2 eexists. split; [reflexivity|by apply OnNackBatchSent_ok].
  - do 2 eexists. split; [reflexivity|by apply UpdateRtt_ok].
  - do 2 eexists. split; [reflexivity|]. unfold ClearUpTo.
    destruct (from_upper_bound_suffix seq_num (nack_list_ st)) as [p Hp].
    exact (suffix_ok p _ st H Hp).
  - do 2 eexists. split; [reflexivity|exact H].
Qed.

(** C30. Whatever packets arrive, in whatever order and at whatever times, and
    whatever becomes of its requests, the requester never reads outside its
    histogram's arrays, and keeps its invariant: at most 1000 missing packets,
    each at most 10000 behind the newest and asked for fewer than 100 times,
    in the order its containers rely on, and a round-trip time between 1 ms
    and 2 s. *)
Theorem nack_run_safe (ops : list NackOp) :
  Forall nack_op_ok ops ->
  exists batches st, nack_run new_requester ops = Some (batches, st) /\ nack_ok st.
Proof.
  generalize new_requester_ok. generalize new_requester as st.
  induction ops as [|op ops IH]; intros st H Hf; cbn [nack_run]; [by do 2 eexists|].
  apply Forall_cons_1 in Hf as [Hop Hf].
  destruct (nack_step_ok st op H Hop) as (b & st1 & -> & H1). cbn [mbind option_bind].
  destruct (IH st1 H1 Hf) as (bs & st2 & -> & H2). cbn [mbind option_bind]. by do 2 eexists.
Qed.

Lemma nack_run_safe_witness :
  exists batches st, nack_run new_requester
    [NackReceived 0 65534 false; NackReceived 1000 1 false; NackProcess 20000;
     NackBatchSent 20000 [65535; 0] true; NackReceived 90000 65535 true]
    = Some (batches, st) /\ nack_ok st.
Proof.
  apply nack_run_safe.
  repeat first [apply Forall_nil_2 | apply Forall_cons_2]; cbn; unfold is_u16; lia || done.
Defined.

(** A packet ahead of the newest one makes the requester miss exactly the
    packets in between that were not recovered: they join the entries at most
    10000 old, in order, unless that would be more than 1000, when it drops
    them all and asks for a key frame.  What it requests at once is among
    them. *)
Theorem nack_gap_recorded (now seq_num : Z) (st : NackRequester) :
  nack_ok st -> initialized_ st = true -> is_u16 seq_num ->
  seq_num <> newest_seq_num_ st -> AheadOf16 (newest_seq_num_ st) seq_num = false ->
  let gap := u16 (seq_num - newest_seq_num_ st) - 1 in
  let overflow := kMaxNackPackets <? zlen (kept seq_num st) + gap in
  exists batch st', OnReceivedPacket now seq_num false st = Some (batch, st') /\
    newest_seq_num_ st' = seq_num /\
    keyframe_request_pending_ st' = overflow || keyframe_request_pending_ st /\
    map fst (nack_list_ st') =
      (if overflow then []
       else map fst (kept seq_num st) ++
            missing st (Z.to_nat gap) (u16 (newest_seq_num_ st + 1))) /\
    forall k, k ∈ batch -> k ∈ map fst (nack_list_ st').
Proof.
  intros H Hi Hs Hne Hah gap overflow. destruct (WaitNumberOfPackets_total st f32_half) as [w Hw].
  unfold OnReceivedPacket. rewrite Hi. cbn [negb].
  rewrite (proj2 (Z.eqb_neq _ _)) by done. rewrite Hah, (AddPacketsToNack_spec _ _ w) by done.
  fold (after_gap now seq_num w st). cbv zeta. fold gap. fold overflow.
  assert (forall o t x, GetNackBatch o t x = ((GetNackBatch o t x).1, (GetNackBatch o t x).2)) as Hp
    by (intros; apply surjective_pairing).
  set (st1 := set_newest seq_num (if overflow then set_keyframe true (set_nack_list [] st)
                                  else set_nack_list (after_gap now seq_num w st) st)).
  assert (nack_ok st1) as Hok.
  { subst st1 overflow. case_if; [|by apply after_gap_ok].
    destruct H as (H1 & H2 & H3 & H4 & H5 & H6 & H7). unfold nack_ok. cbn.
    split_and!; try done; constructor. }
  exists (GetNackBatch kSeqNumOnly now st1).1, (GetNackBatch kSeqNumOnly now st1).2.
  split; [by subst st1; destruct overflow; cbn [mbind option_bind]; rewrite Hp|].
  assert (map fst (nack_list_ (GetNackBatch kSeqNumOnly now st1).2) = map fst (nack_list_ st1)) as Hk.
  { rewrite GetNackBatch_eq. cbn [snd set_nack_list nack_list_]. rewrite map_map.
    apply map_ext. intros e. by destruct (requested _ _ _ e). }
  rewrite Hk. split; [|split; [|split]].
  - rewrite GetNackBatch_eq. by subst st1; destruct overflow.
  - rewrite GetNackBatch_eq. by subst st1; destruct overflow.
  - subst st1. destruct overflow; [done|]. cbn [set_newest set_nack_list nack_list_].
    unfold after_gap. rewrite map_app, map_map. cbn. by rewrite map_id.
  - intros k Hin. apply GetNackBatch_batch in Hin as (i & Hf & _); [|done].
    apply find_key_In, (in_map fst) in Hf. by apply list_elem_of_In.
Qed.

Lemma nack_gap_recorded_witness :
  exists batch st', OnReceivedPacket 1000 1 false (set_newest 65534 new_requester) = Some (batch, st') /\
    map fst (nack_list_ st') = [65535; 0].
Proof.
  destruct (nack_gap_recorded 1000 1 (set_newest 65534 new_requester)) as (b & st' & H1 & _ & _ & H2 & _).
  - apply set_newest_fresh_ok; [exact new_requester_ok|done|unfold is_u16; lia].
  - done.
  - unfold is_u16; lia.
  - done.
  - vm_compute. reflexivity.
  - exists b, st'. split; [exact H1|]. rewrite H2. vm_compute. reflexivity.
Defined.

(** A packet behind the newest one, retransmitted or merely late, takes
    exactly its own entry off the list and asks for nothing.  It can move the
    round-trip time only when it is a retransmission of a packet that was
    requested exactly once (Karn's rule). *)
Theorem nack_arrival_forgets (now seq_num : Z) (is_recovered : bool) (st : NackRequester) :
  nack_ok st -> initialized_ st = true -> AheadOf16 (newest_seq_num_ st) seq_num = true ->
  exists st', OnReceivedPacket now seq_num is_recovered st = Some ([], st') /\
    newest_seq_num_ st' = newest_seq_num_ st /\
    nack_list_ st' = List.filter (fun e => negb (e.1 =? seq_num)) (nack_list_ st) /\
    (nr_rtt_ st' <> nr_rtt_ st -> is_recovered = true /\
      exists i, find_key seq_num (nack_list_ st) = Some i /\ retries i = 1).
Proof.
  intros H Hi Hah. unfold OnReceivedPacket. rewrite Hi. cbn [negb].
  destruct (Z.eqb_spec seq_num (newest_seq_num_ st)) as [->|Hne].
  { by rewrite AheadOf_irrefl in Hah. }
  rewrite Hah. destruct (on_out_of_order_ok now seq_num is_recovered st H) as (st' & Ho & _ & Hl & Hn).
  rewrite Ho. cbn [mbind option_bind]. exists st'. split_and!; [done|done| |].
  - rewrite Hl. apply erase_key_filter. destruct H as (_ & H & _). by eapply descending_NoDup.
  - intros Hr. unfold on_out_of_order in Ho. cbv zeta in Ho.
    destruct (find_key seq_num (nack_list_ st)) as [i|] eqn:Hf.
    + destruct is_recovered; cbn [andb] in Ho.
      * destruct (Z.eqb_spec (retries i) 1) as [H1|H1]; [split; [done|by exists i]|].
        cbn [andb] in Ho. by injection Ho as <-.
      * unfold UpdateReorderingStatistics in Ho. destruct (HistogramAdd _ _); cbn [mbind option_bind] in Ho; [|done].
        by injection Ho as <-.
    + destruct is_recovered; [by injection Ho as <-|].
      unfold UpdateReorderingStatistics in Ho. destruct (HistogramAdd _ _); cbn [mbind option_bind] in Ho; [|done].
      by injection Ho as <-.
Qed.

(** A requester that has seen packets 65534 and 1. *)
Definition gap_example : NackRequester :=
  set_nack_list (after_gap 1000 1 0 (set_newest 65534 new_requester)) (set_newest 1 new_requester).

Lemma gap_example_ok : nack_ok gap_example.
Proof.
  apply (after_gap_ok 1000 1 0 (set_newest 65534 new_requester));
    [apply set_newest_fresh_ok; [exact new_requester_ok|done|]| | | |];
    unfold is_u16; vm_compute; done || lia.
Qed.

Lemma nack_arrival_forgets_witness :
  exists st', OnReceivedPacket 90000 65535 true gap_example = Some ([], st') /\
    map fst (nack_list_ st') = [0].
Proof.
  destruct (nack_arrival_forgets 90000 65535 true gap_example) as (st' & H1 & _ & H2 & _).
  - exact gap_example_ok.
  - reflexivity.
  - vm_compute. reflexivity.
  - exists st'. split; [exact H1|]. rewrite H2. vm_compute. reflexivity.
Defined.

(** A packet asked for is not asked for again while its request is on its
    way to the network; once the outcome is known, not for 20 ms; and after a
    request that was sent, only by the periodic check, when the round-trip
    time multiplied by the retry schedule has passed. *)
Theorem nack_request_backoff (o o' : NackFilterOptions) (t0 t1 t2 k : Z) (ok : bool)
    (st : NackRequester) :
  nack_ok st -> IsFinite t1 = true ->
  let '(b, st1) := GetNackBatch o t0 st in
  k ∈ b ->
  ~ k ∈ (GetNackBatch o' t2 st1).1 /\
  (let st2 := OnNackBatchSent t1 b ok st1 in
   k ∈ (GetNackBatch o' t2 st2).1 ->
   kFailedSendRetryDelay <= timestamp_diff t2 t1 /\
   (ok = true -> o' = kTimeOnly /\
    exists i, find_key k (nack_list_ st) = Some i /\
      nr_rtt_ st * NackRetryRttMultiplier (has_rtt_sample_ st) (retries i + 1)
        <= timestamp_diff t2 t1)).
Proof.
  intros H Ht1. destruct (GetNackBatch o t0 st) as [b st1] eqn:Hg. intros Hk.
  pose proof (GetNackBatch_ok o t0 st H) as H1. pose proof (GetNackBatch_find o t0 st k H) as Hf1.
  rewrite Hg in H1, Hf1. cbn [snd] in H1, Hf1.
  assert (k ∈ (GetNackBatch o t0 st).1) as Hkb by (by rewrite Hg).
  apply GetNackBatch_batch in Hkb as (i & Hi & Hr); [|done].
  rewrite Hi in Hf1. cbn [mbind option_bind] in Hf1. rewrite Hr in Hf1.
  assert (nr_rtt_ st1 = nr_rtt_ st /\ has_rtt_sample_ st1 = has_rtt_sample_ st) as [Hrtt Hs].
  { rewrite GetNackBatch_eq in Hg. by injection Hg as _ <-. }
  split.
  - intros (j & Hj & Hr')%GetNackBatch_batch; [|done]. rewrite Hf1 in Hj. by injection Hj as <-.
  - cbv zeta. intros (j & Hj & Hr')%GetNackBatch_batch; [|by apply OnNackBatchSent_ok].
    rewrite OnNackBatchSent_find, bool_decide_true, Hf1 in Hj by done.
    cbn [mbind option_bind] in Hj. unfold sent_entry in Hj. cbn [mark_pending send_pending negb] in Hj.
    unfold requested, nack_due in Hr'. cbv zeta in Hr'.
    destruct (OnNackBatchSent_rtt t1 ok b st1) as [Hn1 Hn2]. rewrite Hn1, Hn2, Hrtt, Hs in Hr'.
    apply andb_prop in Hr' as [_ Hr']. apply andb_prop in Hr' as [Hr' Hr3].
    apply andb_prop in Hr' as [_ Hr2]. cbn [snd] in *.
    apply Z.leb_le in Hr2. unfold IsFinite in Ht1. apply negb_true_iff in Ht1.
    assert (0 <= retries i) as Hret.
    { destruct (find_key_entry k i st H Hi) as (_ & _ & _ & ?). cbn [snd] in *. lia. }
    destruct ok; cbn [negb] in Hj.
    + destruct (kMaxNackRetries <=? retries (mark_pending i) + 1); [done|]. injection Hj as <-.
      cbn [attempt_sent mark_pending last_send_attempt_time sent_at_time retries created_at_time
        send_at_seq_num] in Hr2, Hr3.
      split; [exact Hr2|]. intros _. rewrite Ht1 in Hr3. cbn [andb] in Hr3.
      rewrite andb_false_r, orb_false_l in Hr3.
      rewrite (proj2 (Z.ltb_lt _ _)) in Hr3 by lia.
      apply andb_prop in Hr3 as [Ho Hr3]. apply Z.leb_le in Hr3.
      split; [by destruct o'|]. exists i. by split.
    + injection Hj as <-. by split.
Qed.

Lemma nack_request_backoff_witness :
  let '(b, st1) := GetNackBatch kTimeOnly 20000 gap_example in
  b = [65535; 0] /\
  65535 ∈ (GetNackBatch kTimeOnly 220000 (OnNackBatchSent 20000 b true st1)).1 /\
  kFailedSendRetryDelay <= timestamp_diff 220000 20000.
Proof.
  pose proof (nack_request_backoff kTimeOnly kTimeOnly 20000 20000 220000 65535 true gap_example
    gap_example_ok ltac:(vm_compute; reflexivity)) as H.
  assert (GetNackBatch kTimeOnly 20000 gap_example =
    ([65535; 0], (GetNackBatch kTimeOnly 20000 gap_example).2)) as E by (vm_compute; reflexivity).
  rewrite E in H |- *. destruct (H ltac:(by apply elem_of_cons; left)) as [_ H2].
  assert (65535 ∈ (GetNackBatch kTimeOnly 220000 (OnNackBatchSent 20000 [65535; 0] true
    (GetNackBatch kTimeOnly 20000 gap_example).2)).1) as Hin
    by (apply list_elem_of_In; vm_compute; auto).
  split_and!; [reflexivity|exact Hin|]. exact (proj1 (H2 Hin)).
Defined.
