(* ===== verification/FrameRelease.v ===== *)
(** * When the video receiver gives a frame away, and when it gives a frame up

    The frames of [RtpVideoReceiver] ([src/transport/channel/rtp_video_receiver.cpp])
    that wait to be delivered, guarded by [pending_frames_mtx_]: each is tracked
    from its first packet, becomes complete when its last packet arrives, and
    leaves through the loop of [Process], in the order of the RTP timestamps.

    [pending_frames_] is the [std::map] in its order, [RtpTimestampLess], which
    wraps: the list is what the map holds as long as the timestamps that wait
    lie within half their range of each other, more than six hours of video. *)

From Stdlib Require Import Sorted.
From S2P Require Import Prelude Units SeqNum StdContainers Nack.

(** The bytes of a frame and the times that go with it. *)
(** src/frame/received_frame.h:13-39 [ReceivedFrame] *)
Record ReceivedFrame := mkReceivedFrame {
  frame_bytes : list Z;
  received_timestamp_us_ : Z;
  captured_timestamp_us_ : Z;
}.

(** src/transport/channel/rtp_video_receiver.h:156-164 [RtpVideoReceiver::PendingFrame] *)
Record PendingFrame := mkPendingFrame {
  frame : option ReceivedFrame;
  is_complete : bool;
  arrival_time : Z;
  is_keyframe : bool;
  last_sequence_number : option Z;
  recovery_escalated : bool;
  soft_fir_requested : bool;
}.

Definition new_pending_frame : PendingFrame := mkPendingFrame None false 0 false None false false.

(** src/transport/channel/rtp_video_receiver.h:165-169 [RtpVideoReceiver::RtpTimestampLess] *)
Definition RtpTimestampLess (lhs rhs : Z) : bool := negb (lhs =? rhs) && AheadOf32 rhs lhs.

(** src/transport/channel/rtp_video_receiver.h:170-173 [RtpVideoReceiver] *)
Record PendingFrames := mkPending {
  pending_frames_ : list (Z * PendingFrame);
  awaiting_keyframe_ : bool;
  last_discarded_frame_ts_ : option Z;
  last_complete_frame_ts_ : option Z;
}.

Definition no_pending_frames : PendingFrames := mkPending [] false None None.

Definition set_frames (l : list (Z * PendingFrame)) (s : PendingFrames) : PendingFrames :=
  mkPending l (awaiting_keyframe_ s) (last_discarded_frame_ts_ s) (last_complete_frame_ts_ s).
Definition set_awaiting (b : bool) (s : PendingFrames) : PendingFrames :=
  mkPending (pending_frames_ s) b (last_discarded_frame_ts_ s) (last_complete_frame_ts_ s).
Definition set_last_complete (ts : Z) (s : PendingFrames) : PendingFrames :=
  mkPending (pending_frames_ s) (awaiting_keyframe_ s) (last_discarded_frame_ts_ s) (Some ts).

(** ** The map *)

Fixpoint pending_find (ts : Z) (l : list (Z * PendingFrame)) : option PendingFrame :=
  match l with
  | [] => None
  | (k, f) :: l => if k =? ts then Some f else pending_find ts l
  end.

(** [pending_frames_[timestamp] = f]. *)
Fixpoint pending_insert (ts : Z) (f : PendingFrame) (l : list (Z * PendingFrame))
    : list (Z * PendingFrame) :=
  match l with
  | [] => [(ts, f)]
  | (k, g) :: l =>
      if k =? ts then (ts, f) :: l
      else if RtpTimestampLess ts k then (ts, f) :: (k, g) :: l
      else (k, g) :: pending_insert ts f l
  end.

(** ** Tracking frames *)

(** src/transport/channel/rtp_video_receiver.cpp:174-182 [RtpVideoReceiver::TrackPendingFramePacket] *)
Definition track_packet (now_ms sequence_number : Z) (f : PendingFrame) : PendingFrame :=
  let arrival := if arrival_time f =? 0 then now_ms else arrival_time f in
  let last :=
    match last_sequence_number f with
    | Some last => if AheadOf16 sequence_number last then Some sequence_number else Some last
    | None => Some sequence_number
    end in
  mkPendingFrame (frame f) (is_complete f) arrival (is_keyframe f) last (recovery_escalated f)
    (soft_fir_requested f).

(** src/transport/channel/rtp_video_receiver.cpp:171-183 [RtpVideoReceiver::TrackPendingFramePacket] *)
Definition TrackPendingFramePacket (now_ms timestamp sequence_number : Z) (s : PendingFrames)
    : PendingFrames :=
  let f := default new_pending_frame (pending_find timestamp (pending_frames_ s)) in
  set_frames (pending_insert timestamp (track_packet now_ms sequence_number f) (pending_frames_ s)) s.

(** src/transport/channel/rtp_video_receiver.cpp:213-231 [RtpVideoReceiver::CommitPendingFrame] *)
Definition CommitPendingFrame (now_ms timestamp : Z) (received : ReceivedFrame) (key : bool)
    (end_sequence_number : Z) (require_existing_entry : bool) (s : PendingFrames) : PendingFrames :=
  let commit f :=
    let first_arrival_time := if negb (arrival_time f =? 0) then arrival_time f else now_ms in
    set_frames (pending_insert timestamp
      (mkPendingFrame (Some received) true first_arrival_time key (Some end_sequence_number) false false)
      (pending_frames_ s)) s in
  match pending_find timestamp (pending_frames_ s) with
  | Some f => commit f
  | None => if require_existing_entry then s else commit new_pending_frame
  end.

(** src/transport/channel/rtp_video_receiver.cpp:1037-1046 [RtpVideoReceiver::IsFrameTimestampObsolete] *)
Definition IsFrameTimestampObsolete (timestamp : Z) (s : PendingFrames) : bool :=
  let already_completed :=
    match last_complete_frame_ts_ s with Some ts => negb (AheadOf32 timestamp ts) | None => false end in
  let already_discarded :=
    match last_discarded_frame_ts_ s with Some ts => negb (AheadOf32 timestamp ts) | None => false end in
  already_completed || already_discarded.

(** src/transport/channel/rtp_video_receiver.cpp:1048-1053 [RtpVideoReceiver::MarkFrameDiscardedLocked] *)
Definition MarkFrameDiscardedLocked (timestamp : Z) (s : PendingFrames) : PendingFrames :=
  let discarded :=
    match last_discarded_frame_ts_ s with
    | Some ts => if AheadOf32 timestamp ts then Some timestamp else Some ts
    | None => Some timestamp
    end in
  mkPending (pending_frames_ s) (awaiting_keyframe_ s) discarded (last_complete_frame_ts_ s).

(** ** The deadlines *)

(** src/transport/channel/rtp_video_receiver.h:100-104 [RtpVideoReceiver::FrameRecoveryTiming] *)
Record FrameRecoveryTiming := mkTiming {
  soft_deadline_ms : Z;
  soft_fir_confirmation_delay_ms : Z;
  hard_deadline_ms : Z;
}.

(** src/transport/channel/rtp_video_receiver.cpp:832-857 [RtpVideoReceiver::GetFrameRecoveryTiming] *)
Definition GetFrameRecoveryTiming (rtx_enabled : bool) (nack : NackRequester) : FrameRecoveryTiming :=
  if negb rtx_enabled then mkTiming 80 0 200
  else if negb (has_rtt_sample_ nack) then mkTiming 200 100 600
  else
    let rtt_ms := Z.max (ms (nr_rtt_ nack)) 1 in
    mkTiming (SoftFrameRecoveryDeadlineMs rtt_ms) (SoftFirConfirmationDelayMs rtt_ms)
      (HardFrameRecoveryDeadlineMs rtt_ms).

(** ** One round of [Process] *)

(** What a round decides, in the variables of the loop; [dropped_frame] is
    whether there is a [dropped_timestamp]. *)
(** src/transport/channel/rtp_video_receiver.cpp:1066-1073 [RtpVideoReceiver::Process] *)
Record Released := mkReleased {
  completed_frame : option ReceivedFrame;
  dropped_timestamp : option Z;
  recovery_timed_out : bool;
  soft_stall_started : bool;
  request_soft_fir : bool;
  completed_keyframe : bool;
  soft_fir_avoided : bool;
}.

(** src/transport/channel/rtp_video_receiver.cpp:1087-1092 [RtpVideoReceiver::Process] *)
Definition blocking_nacks (f : PendingFrame) (nack : NackRequester) : bool :=
  match last_sequence_number f with
  | Some seq => HasPendingNacksUpTo seq nack
  | None => HasPendingNacks nack
  end.

(** src/transport/channel/rtp_video_receiver.cpp:1093-1095 [RtpVideoReceiver::Process] *)
Definition older_than_decoded (ts : Z) (s : PendingFrames) : bool :=
  match last_complete_frame_ts_ s with Some last => negb (AheadOf32 ts last) | None => false end.

(** A complete key frame among the frames behind the first. *)
(** src/transport/channel/rtp_video_receiver.cpp:1096-1107 [RtpVideoReceiver::Process] *)
Definition newer_complete_keyframe (f : PendingFrame) (rest : list (Z * PendingFrame))
    (s : PendingFrames) : bool :=
  (awaiting_keyframe_ s || recovery_escalated f) && negb (is_complete f && is_keyframe f) &&
  existsb (fun e => is_complete e.2 && is_keyframe e.2) rest.

Definition clear_nacks (f : PendingFrame) (nack : NackRequester) : NackRequester :=
  match last_sequence_number f with Some seq => ClearUpTo seq nack | None => nack end.

Definition drop_first (ts : Z) (timed_out : bool) : Released :=
  mkReleased None (Some ts) timed_out false false false false.

(** src/transport/channel/rtp_video_receiver.cpp:1122-1130 [RtpVideoReceiver::Process] *)
Definition deliver_first (f : PendingFrame) (key : bool) : Released :=
  mkReleased (frame f) None false false false key (recovery_escalated f && negb (soft_fir_requested f)).

Definition escalate (stall fir : bool) (f : PendingFrame) : PendingFrame :=
  mkPendingFrame (frame f) (is_complete f) (arrival_time f) (is_keyframe f) (last_sequence_number f)
    (recovery_escalated f || stall) (soft_fir_requested f || fir).

(** The critical section; [None] is [break]. *)
(** src/transport/channel/rtp_video_receiver.cpp:1074-1179 [RtpVideoReceiver::Process] *)
Definition release_round (timing : FrameRecoveryTiming) (now_ms : Z) (nack : NackRequester)
    (s : PendingFrames) : option (Released * NackRequester * PendingFrames) :=
  match pending_frames_ s with
  | [] => None
  | (ts, f) :: rest =>
      let frame_age_ms := now_ms - arrival_time f in
      let without := set_frames rest s in
      if older_than_decoded ts s then Some (drop_first ts false, nack, without)
      else if newer_complete_keyframe f rest s
      then Some (drop_first ts false, nack, set_awaiting true without)
      else if is_complete f && awaiting_keyframe_ s && is_keyframe f
      then Some (deliver_first f true, clear_nacks f nack,
                 set_last_complete ts (set_awaiting false without))
      else if is_complete f && awaiting_keyframe_ s
      then Some (drop_first ts false, nack, without)
      else if is_complete f && negb (blocking_nacks f nack)
      then Some (deliver_first f (is_keyframe f), nack, set_last_complete ts without)
      else if hard_deadline_ms timing <? frame_age_ms
      then Some (drop_first ts true, clear_nacks f nack,
                 MarkFrameDiscardedLocked ts (set_awaiting true without))
      else if negb (recovery_escalated f) && (soft_deadline_ms timing <? frame_age_ms)
      then Some (mkReleased None None false true false false false, nack,
                 set_frames ((ts, escalate true false f) :: rest) s)
      else if recovery_escalated f && negb (soft_fir_requested f) &&
              (soft_deadline_ms timing + soft_fir_confirmation_delay_ms timing <? frame_age_ms)
      then Some (mkReleased None None false false true false false, nack,
                 set_frames ((ts, escalate false true f) :: rest) s)
      else None
  end.

(** [Process] returns after these, with [false]. *)
Definition ends_process (r : Released) : bool :=
  recovery_timed_out r || soft_stall_started r || request_soft_fir r.

(** ** Runs

    What the two threads do to the frames, each under the lock: the packet
    thread tracks and commits, and may ask for a key frame; the worker thread
    runs a round of [Process], with the NACK state of that moment. *)

Inductive FrameOp :=
  | TrackOp (now_ms timestamp sequence_number : Z)
  | CommitOp (now_ms timestamp : Z) (received : ReceivedFrame) (key : bool)
      (end_sequence_number : Z) (require_existing_entry : bool)
  | AwaitOp
  | RoundOp (timing : FrameRecoveryTiming) (now_ms : Z) (nack : NackRequester).

(** A frame that is given to the decoder. *)
Record Delivery := mkDelivery {
  d_timestamp : Z;
  d_frame : option ReceivedFrame;
  d_key : bool;
}.

Definition round_delivery (s : PendingFrames) (r : Released) (s' : PendingFrames) : list Delivery :=
  match completed_frame r, last_complete_frame_ts_ s' with
  | Some f, Some ts => [mkDelivery ts (Some f) (completed_keyframe r)]
  | _, _ => []
  end.

Definition frame_step (op : FrameOp) (s : PendingFrames) : list Delivery * PendingFrames :=
  match op with
  | TrackOp now ts seq => ([], TrackPendingFramePacket now ts seq s)
  | CommitOp now ts f key last require => ([], CommitPendingFrame now ts f key last require s)
  | AwaitOp => ([], set_awaiting true s)
  | RoundOp timing now nack =>
      match release_round timing now nack s with
      | Some (r, _, s') => (round_delivery s r s', s')
      | None => ([], s)
      end
  end.

Fixpoint frame_run (ops : list FrameOp) (s : PendingFrames) : list Delivery * PendingFrames :=
  match ops with
  | [] => ([], s)
  | op :: ops =>
      let '(ds, s) := frame_step op s in
      let '(ds', s) := frame_run ops s in
      (ds ++ ds', s)
  end.

(** ** Lemmas: one round *)

(** The ways a round can go. *)
Inductive round_case (timing : FrameRecoveryTiming) (now : Z) (nack : NackRequester)
    (s : PendingFrames) (ts : Z) (f : PendingFrame) (rest : list (Z * PendingFrame))
    : Released -> NackRequester -> PendingFrames -> Prop :=
  | RoundDelivers key nack' :
      is_complete f = true -> older_than_decoded ts s = false -> key = is_keyframe f ->
      (awaiting_keyframe_ s = true -> key = true) ->
      (awaiting_keyframe_ s = false -> blocking_nacks f nack = false /\ nack' = nack) ->
      round_case timing now nack s ts f rest (deliver_first f key) nack'
        (set_last_complete ts (set_awaiting false (set_frames rest s)))
  | RoundDrops awaiting :
      (awaiting_keyframe_ s = true -> awaiting = true) ->
      older_than_decoded ts s = true \/ newer_complete_keyframe f rest s = true /\ awaiting = true \/
        is_complete f = true /\ awaiting = true ->
      round_case timing now nack s ts f rest (drop_first ts false) nack
        (set_awaiting awaiting (set_frames rest s))
  | RoundTimesOut :
      older_than_decoded ts s = false -> hard_deadline_ms timing < now - arrival_time f ->
      (is_complete f = true -> blocking_nacks f nack = true) ->
      round_case timing now nack s ts f rest (drop_first ts true) (clear_nacks f nack)
        (MarkFrameDiscardedLocked ts (set_awaiting true (set_frames rest s)))
  | RoundWarns r stall fir :
      completed_frame r = None -> dropped_timestamp r = None -> ends_process r = true ->
      recovery_timed_out r = false ->
      now - arrival_time f <= hard_deadline_ms timing ->
      round_case timing now nack s ts f rest r nack (set_frames ((ts, escalate stall fir f) :: rest) s).

Lemma set_awaiting_same s : set_awaiting (awaiting_keyframe_ s) s = s.
Proof. by destruct s. Qed.

Ltac if_in H := lazymatch type of H with context [if ?b then _ else _] => destruct b end.

Lemma release_round_cases timing now nack s r nack' s' :
  release_round timing now nack s = Some (r, nack', s') ->
  exists ts f rest, pending_frames_ s = (ts, f) :: rest /\
    round_case timing now nack s ts f rest r nack' s'.
Proof.
  unfold release_round. destruct (pending_frames_ s) as [|[ts f] rest]; [done|]. intros H.
  exists ts, f, rest. split; [done|].
  destruct (older_than_decoded ts s) eqn:Ho.
  { injection H as <- <- <-. rewrite <- (set_awaiting_same (set_frames rest s)).
    apply RoundDrops; [done|by left]. }
  destruct (newer_complete_keyframe f rest s) eqn:Hk; [injection H as <- <- <-; apply RoundDrops; [done|right; left; by split]|].
  destruct (is_complete f) eqn:Hc; cbn [andb] in H.
  - destruct (awaiting_keyframe_ s) eqn:Ha; cbn [andb] in H.
    + destruct (is_keyframe f) eqn:Hkey; injection H as <- <- <-; [by apply RoundDelivers; rewrite ?Ha|].
      rewrite <- (set_awaiting_same (set_frames rest s)).
      apply RoundDrops; [done|right; right; split; [done|exact Ha]].
    + destruct (blocking_nacks f nack) eqn:Hb; cbn [negb andb] in H.
      * destruct (Z.ltb_spec (hard_deadline_ms timing) (now - arrival_time f));
          [injection H as <- <- <-; by apply RoundTimesOut|].
        if_in H; [injection H as <- <- <-; by apply RoundWarns|].
        if_in H; [injection H as <- <- <-; by apply RoundWarns|done].
      * injection H as <- <- <-.
        assert (set_last_complete ts (set_frames rest s) =
          set_last_complete ts (set_awaiting false (set_frames rest s))) as ->
          by (unfold set_last_complete, set_awaiting, set_frames; cbn; by rewrite Ha).
        apply RoundDelivers; try done; by rewrite Ha.
  - destruct (Z.ltb_spec (hard_deadline_ms timing) (now - arrival_time f));
      [injection H as <- <- <-; by apply RoundTimesOut; rewrite ?Hc|].
    if_in H; [injection H as <- <- <-; by apply RoundWarns|].
    if_in H; [injection H as <- <- <-; by apply RoundWarns|done].
Qed.

(** A complete key frame that waits behind a damaged one is not held back; a
    round that neither ends [Process] nor breaks takes the first frame out. *)
Lemma release_round_shrinks timing now nack s r nack' s' :
  release_round timing now nack s = Some (r, nack', s') ->
  if ends_process r && negb (recovery_timed_out r)
  then length (pending_frames_ s') = length (pending_frames_ s)
  else pending_frames_ s' = tail (pending_frames_ s) /\ pending_frames_ s <> [].
Proof.
  intros (ts & f & rest & E & C)%release_round_cases. rewrite E.
  destruct C as [key nack' _ _ _ _ _| | |r stall fir _ _ He Ht _]; cbn; try done. by rewrite He, Ht.
Qed.

(** ** Lemmas: the order of the frames that wait *)

Definition frame_keys (s : PendingFrames) : list Z := map fst (pending_frames_ s).

(** Timestamps within half of their range from [r]. *)
Definition in_window (r : Z) (ks : list Z) : Prop :=
  Forall (fun k => is_u32 k /\ u32 (k - r) < 2147483648) ks.

Lemma less_in_window r a b :
  is_u32 a /\ u32 (a - r) < 2147483648 -> is_u32 b /\ u32 (b - r) < 2147483648 ->
  RtpTimestampLess a b = (u32 (a - r) <? u32 (b - r)).
Proof.
  intros [Ha Ha'] [Hb Hb']. unfold RtpTimestampLess.
  assert (forall k, is_u32 k -> k = (r + u32 (k - r)) mod 4294967296) as Hk.
  { intros k Hk. unfold u32. rewrite Zplus_mod_idemp_r. replace (r + (k - r)) with k by lia.
    symmetry. by apply Z.mod_small. }
  pose proof (u32_range (a - r)) as Ra. pose proof (u32_range (b - r)) as Rb. unfold is_u32 in Ra, Rb.
  destruct (Z.eqb_spec a b) as [->|Hne]; [cbn; lia|]. cbn [negb andb].
  pose proof (AheadOf_window (W:=4294967296) r (u32 (b - r)) (u32 (a - r))) as E.
  rewrite <- (Hk a Ha), <- (Hk b Hb) in E. apply E. change (half 4294967296) with 2147483648. lia.
Qed.

Definition frames_sorted (s : PendingFrames) : Prop :=
  StronglySorted (fun a b => RtpTimestampLess a b = true) (frame_keys s).

Lemma elem_of_insert ts f l e : e ∈ pending_insert ts f l -> e = (ts, f) \/ e ∈ l.
Proof.
  induction l as [|[k g] l IH]; cbn [pending_insert]; [intros ->%list_elem_of_singleton; by left|].
  destruct (Z.eqb_spec k ts) as [->|].
  - intros [->|H]%elem_of_cons; [by left|right; by right].
  - destruct (RtpTimestampLess ts k).
    + intros [->|H]%elem_of_cons; [by left|by right].
    + intros [->|H]%elem_of_cons; [right; by left|].
      destruct (IH H) as [->|]; [by left|right; by right].
Qed.

Lemma insert_keys ts f l k : k ∈ map fst (pending_insert ts f l) -> k = ts \/ k ∈ map fst l.
Proof.
  intros ([k' g] & -> & [[= -> ->]|H]%elem_of_insert)%list_elem_of_fmap; [by left|right].
  apply list_elem_of_fmap. by exists (k', g).
Qed.

Lemma insert_sorted r ts f l :
  in_window r (ts :: map fst l) ->
  StronglySorted (fun a b => RtpTimestampLess a b = true) (map fst l) ->
  StronglySorted (fun a b => RtpTimestampLess a b = true) (map fst (pending_insert ts f l)).
Proof.
  intros Hw. apply Forall_cons_1 in Hw as [Ht Hw]. induction l as [|[k g] l IH]; intros Hs; cbn [pending_insert map fst].
  - constructor; [done|constructor].
  - cbn [map fst] in *. apply Forall_cons_1 in Hw as [Hk Hw]. inversion Hs as [|? ? Hs' Hle]; subst.
    destruct (Z.eqb_spec k ts) as [->|Hne]; [done|].
    destruct (RtpTimestampLess ts k) eqn:Hlt; cbn [map fst].
    + constructor; [done|]. constructor; [done|]. rewrite list.Forall_forall in Hle, Hw |- *.
      intros x Hx. specialize (Hle x Hx). cbn beta in Hle. specialize (Hw x Hx).
      rewrite (less_in_window r) in Hle, Hlt |- * by done. lia.
    + constructor; [by apply IH|]. apply list.Forall_forall. intros x [->|Hx]%insert_keys.
      * rewrite (less_in_window r) in Hlt |- * by done. apply Z.ltb_ge in Hlt. apply Z.ltb_lt.
        enough (u32 (k - r) <> u32 (ts - r)) by lia. intros E. apply Hne.
        destruct Hk as [Hk _], Ht as [Ht _]. unfold u32, is_u32 in *. revert E. clear -Hk Ht. zdm.
      * rewrite list.Forall_forall in Hle. by apply Hle.
Qed.

(** ** Lemmas: runs *)

(** The timestamps that are added to those waiting stay in some window. *)
Definition op_in_window (op : FrameOp) (s : PendingFrames) : Prop :=
  match op with
  | TrackOp _ ts _ | CommitOp _ ts _ _ _ _ => exists r, in_window r (ts :: frame_keys s)
  | AwaitOp | RoundOp _ _ _ => True
  end.

Fixpoint run_in_window (ops : list FrameOp) (s : PendingFrames) : Prop :=
  match ops with
  | [] => True
  | op :: ops => op_in_window op s /\ run_in_window ops (frame_step op s).2
  end.

Definition committed (ops : list FrameOp) (ts : Z) (f : ReceivedFrame) (key : bool) : Prop :=
  exists now last require, CommitOp now ts f key last require ∈ ops.

(** Complete frames hold what was committed for them. *)
Definition frames_committed (ops : list FrameOp) (s : PendingFrames) : Prop :=
  forall ts f, (ts, f) ∈ pending_frames_ s -> is_complete f = true ->
    exists b, frame f = Some b /\ committed ops ts b (is_keyframe f).

Lemma pending_find_in ts l f : pending_find ts l = Some f -> (ts, f) ∈ l.
Proof.
  induction l as [|[k g] l IH]; cbn [pending_find]; [done|].
  destruct (Z.eqb_spec k ts) as [->|]; [intros [= ->]; left|intros H; right; by apply IH].
Qed.

Lemma CommitPendingFrame_cases now ts b key last require s :
  CommitPendingFrame now ts b key last require s = s \/
  exists f, CommitPendingFrame now ts b key last require s = set_frames (pending_insert ts f (pending_frames_ s)) s /\
    frame f = Some b /\ is_complete f = true /\ is_keyframe f = key.
Proof.
  unfold CommitPendingFrame. destruct (pending_find ts (pending_frames_ s)).
  - right. by eexists.
  - destruct require; [by left|right; by eexists].
Qed.

(** A step keeps what each complete frame holds, the order, and the last
    delivery; what it delivers is ahead of that. *)
Lemma step_committed pre op s :
  frames_committed pre s -> frames_committed (pre ++ [op]) (frame_step op s).2.
Proof.
  intros H. assert (forall ts f, (ts, f) ∈ pending_frames_ s -> is_complete f = true ->
    exists b, frame f = Some b /\ committed (pre ++ [op]) ts b (is_keyframe f)) as Hold.
  { intros ts f Hin Hc. destruct (H ts f Hin Hc) as (b & Hb & n & l & r & Hop). exists b. split; [done|].
    exists n, l, r. apply elem_of_app. by left. }
  destruct op as [n ts seq|n ts b key last require| |timing now nack]; cbn [frame_step snd]; try exact Hold.
  - intros k f [E|Hin]%elem_of_insert Hc; [|by apply Hold]. injection E as -> ->. cbn in Hc |- *.
    destruct (pending_find ts (pending_frames_ s)) as [f|] eqn:Hf; [|done].
    apply pending_find_in in Hf. by apply (Hold ts f).
  - destruct (CommitPendingFrame_cases n ts b key last require s) as [->|(f & -> & Hf & _ & Hk)]; [exact Hold|].
    intros k g [E|Hin]%elem_of_insert Hc; [|by apply Hold]. injection E as -> ->.
    exists b. split; [done|]. rewrite Hk. exists n, last, require. apply elem_of_app. right. left.
  - destruct (release_round timing now nack s) as [[[r nack'] s']|] eqn:E; [|exact Hold]. cbn [snd].
    apply release_round_cases in E as (ts & f & rest & E & C).
    assert (forall k g, (k, g) ∈ rest -> is_complete g = true ->
      exists b, frame g = Some b /\ committed (pre ++ [RoundOp timing now nack]) k b (is_keyframe g)) as Hrest
      by (intros k g Hin; apply Hold; rewrite E; by right).
    destruct C; try exact Hrest.
    intros k g [E1|Hin]%elem_of_cons Hc; [|by apply Hrest]. injection E1 as -> ->. cbn in *.
    apply (Hold ts f); [rewrite E; left|done].
Qed.

Lemma step_sorted op s : op_in_window op s -> frames_sorted s -> frames_sorted (frame_step op s).2.
Proof.
  intros Hw Hs. destruct op as [n ts seq|n ts b key last require| |timing now nack]; cbn [frame_step snd]; try exact Hs.
  - destruct Hw as [r Hw]. by eapply insert_sorted.
  - destruct Hw as [r Hw]. destruct (CommitPendingFrame_cases n ts b key last require s) as [->|(f & -> & _)]; [done|].
    by eapply insert_sorted.
  - destruct (release_round timing now nack s) as [[[r nack'] s']|] eqn:E; [|exact Hs]. cbn [snd].
    apply release_round_cases in E as (ts & f & rest & E & C). unfold frames_sorted, frame_keys in *.
    rewrite E in Hs. destruct C; cbn in *; try exact Hs; by inversion Hs.
Qed.

Lemma step_deliveries pre op s :
  frames_committed pre s ->
  match (frame_step op s).1 with
  | [] => last_complete_frame_ts_ (frame_step op s).2 = last_complete_frame_ts_ s /\
      (awaiting_keyframe_ s = true -> awaiting_keyframe_ (frame_step op s).2 = true)
  | [d] => last_complete_frame_ts_ (frame_step op s).2 = Some (d_timestamp d) /\
      match last_complete_frame_ts_ s with Some last => AheadOf32 (d_timestamp d) last = true | None => True end /\
      (awaiting_keyframe_ s = true -> d_key d = true) /\
      exists b, d_frame d = Some b /\ committed pre (d_timestamp d) b (d_key d)
  | _ => False
  end.
Proof.
  intros H. destruct op as [n ts seq|n ts b key last require| |timing now nack]; cbn [frame_step fst snd]; try done.
  - destruct (CommitPendingFrame_cases n ts b key last require s) as [->|(f & -> & _)]; done.
  - destruct (release_round timing now nack s) as [[[r nack'] s']|] eqn:E; [|done]. cbn [fst snd].
    apply release_round_cases in E as (ts & f & rest & E & C).
    destruct C as [key nack' Hc Ho Hk Ha _|awaiting Hw _|_ _ _|r stall fir Hn _ _ _ _]; unfold round_delivery;
      [|cbn; done|cbn; done|by rewrite Hn].
    destruct (H ts f) as (b & Hb & Hcm); [rewrite E; left|done|].
    cbn [completed_frame deliver_first completed_keyframe last_complete_frame_ts_ set_last_complete]. rewrite Hb.
    cbn [d_timestamp d_frame d_key]. split; [done|]. subst key. split; [|split; [exact Ha|by exists b]].
    unfold older_than_decoded in Ho. destruct (last_complete_frame_ts_ s); [|done]. by apply negb_false_iff in Ho.
Qed.

Fixpoint in_order (last : option Z) (ds : list Delivery) : Prop :=
  match ds with
  | [] => True
  | d :: ds => match last with Some l => AheadOf32 (d_timestamp d) l = true | None => True end /\
               in_order (Some (d_timestamp d)) ds
  end.

Definition as_committed (ops : list FrameOp) (d : Delivery) : Prop :=
  exists b, d_frame d = Some b /\ committed ops (d_timestamp d) b (d_key d).

Lemma committed_app pre ops ts b key : committed pre ts b key -> committed (pre ++ ops) ts b key.
Proof. intros (n & l & r & H). exists n, l, r. apply elem_of_app. by left. Qed.

Lemma frame_run_ok pre ops s :
  frames_committed pre s -> frames_sorted s -> run_in_window ops s ->
  let '(ds, s') := frame_run ops s in
  in_order (last_complete_frame_ts_ s) ds /\ Forall (as_committed (pre ++ ops)) ds /\
  frames_committed (pre ++ ops) s' /\ frames_sorted s'.
Proof.
  revert pre s. induction ops as [|op ops IH]; intros pre s Hc Hs Hw; cbn [frame_run].
  - rewrite app_nil_r. split_and!; [done|constructor|done|done].
  - destruct Hw as [Hw Hws]. pose proof (step_committed pre op s Hc) as Hc'. pose proof (step_sorted op s Hw Hs) as Hs'.
    pose proof (step_deliveries pre op s Hc) as Hd.
    destruct (frame_step op s) as [ds1 s1]. cbn [fst snd] in *.
    specialize (IH (pre ++ [op]) s1 Hc' Hs' Hws). destruct (frame_run ops s1) as [ds2 s2].
    rewrite <- app_assoc in IH. cbn [app] in IH. destruct IH as (Ho & Hf & Hrest).
    destruct ds1 as [|d [|d' ds1]]; [|destruct Hd as (Hl & Hahead & _ & b & Hb & Hcm)|done]; cbn [app].
    + destruct Hd as [Hl _]. rewrite Hl in Ho. split; [exact Ho|]. split; [exact Hf|exact Hrest].
    + rewrite Hl in Ho. split; [by split|]. split; [|exact Hrest]. constructor; [|done].
      exists b. split; [done|]. by apply committed_app.
Qed.

Lemma frame_run_app ops1 ops2 s :
  frame_run (ops1 ++ ops2) s =
    let '(ds1, s1) := frame_run ops1 s in let '(ds2, s2) := frame_run ops2 s1 in (ds1 ++ ds2, s2).
Proof.
  revert s. induction ops1 as [|op ops1 IH]; intros s; cbn [app frame_run].
  - by destruct (frame_run ops2 s).
  - destruct (frame_step op s) as [d s1]. rewrite IH. destruct (frame_run ops1 s1) as [ds1 s2].
    destruct (frame_run ops2 s2). by rewrite app_assoc.
Qed.

Lemma frames_committed_run pre ops s : frames_committed pre s -> frames_committed (pre ++ ops) (frame_run ops s).2.
Proof.
  revert pre s. induction ops as [|op ops IH]; intros pre s H; cbn [frame_run]; [by rewrite app_nil_r|].
  apply (step_committed pre op) in H. destruct (frame_step op s) as [ds s1]. cbn [snd] in H.
  apply (IH (pre ++ [op])) in H. rewrite <- app_assoc in H. by destruct (frame_run ops s1).
Qed.

Lemma awaiting_run pre ops s :
  frames_committed pre s -> awaiting_keyframe_ s = true ->
  match (frame_run ops s).1 with
  | [] => awaiting_keyframe_ (frame_run ops s).2 = true
  | d :: _ => d_key d = true
  end.
Proof.
  revert pre s. induction ops as [|op ops IH]; intros pre s Hc Ha; cbn [frame_run]; [done|].
  pose proof (step_deliveries pre op s Hc) as Hd. pose proof (step_committed pre op s Hc) as Hc'.
  destruct (frame_step op s) as [ds1 s1]. cbn [fst snd] in *.
  specialize (IH (pre ++ [op]) s1 Hc'). destruct (frame_run ops s1) as [ds2 s2]. cbn [fst snd] in *.
  destruct ds1 as [|d [|d' ds1]]; [|cbn; by apply Hd|done]. destruct Hd as [_ Hd]. exact (IH (Hd Ha)).
Qed.

Lemma nothing_committed : frames_committed [] no_pending_frames.
Proof. intros ts f Hin. by apply elem_of_nil in Hin. Qed.

(** The first frame gives way to a complete key frame behind it. *)
Definition gives_way (s : PendingFrames) : bool :=
  match pending_frames_ s with
  | (ts, f) :: rest => negb (older_than_decoded ts s) && newer_complete_keyframe f rest s
  | [] => false
  end.

(** The steps after which the picture at the decoder is damaged: a frame is given
    up at its hard deadline, gives way to a key frame, or [RequestKeyFrame] is
    called. *)
Definition damages (op : FrameOp) (s : PendingFrames) : bool :=
  match op with
  | AwaitOp => true
  | RoundOp timing now nack =>
      gives_way s || match release_round timing now nack s with Some (r, _, _) => recovery_timed_out r | None => false end
  | _ => false
  end.

Lemma damages_awaits op s : damages op s = true -> awaiting_keyframe_ (frame_step op s).2 = true.
Proof.
  destruct op as [| | |timing now nack]; cbn [damages frame_step]; try done. intros [Hg|Ht]%orb_prop.
  - unfold gives_way in Hg. unfold release_round. destruct (pending_frames_ s) as [|[ts f] rest]; [done|].
    apply andb_prop in Hg as [Ho%negb_true_iff Hk]. by rewrite Ho, Hk.
  - destruct (release_round timing now nack s) as [[[r nack'] s']|] eqn:E; [|done]. cbn [snd].
    apply release_round_cases in E as (ts & f & rest & E & C). destruct C as [| | |r stall fir _ _ _ Hr]; try done.
    by rewrite Hr in Ht.
Qed.

(** A soft request for a key frame is no damage: the frame waits on, and may
    still be completed and delivered. *)
Lemma soft_request_waits timing now nack s r nack' s' :
  release_round timing now nack s = Some (r, nack', s') -> request_soft_fir r = true ->
  awaiting_keyframe_ s' = awaiting_keyframe_ s /\ frame_keys s' = frame_keys s.
Proof.
  intros E Hr. apply release_round_cases in E as (ts & f & rest & E & C). unfold frame_keys. rewrite E.
  by destruct C.
Qed.

(** ** Properties *)

(** C35. Frames come out in order and as they were put together.  Let the packet
    thread and the worker thread do what they may, in any interleaving, as long
    as a timestamp that is tracked or committed lies within half of the 32-bit
    range of those that wait then (more than six hours of video; outside of it
    [RtpTimestampLess] is no order, and what the [std::map] does is not defined).
    Then each frame delivered is ahead of the one before, and is one that was
    committed under that timestamp, with that key flag; and the frames that wait
    are always in the order of their timestamps, across the wrap. *)
Theorem frames_delivered_in_order (ops : list FrameOp) :
  run_in_window ops no_pending_frames ->
  let '(ds, s) := frame_run ops no_pending_frames in
  in_order None ds /\ Forall (as_committed ops) ds /\ frames_sorted s.
Proof.
  intros Hw. pose proof (frame_run_ok [] ops no_pending_frames nothing_committed) as H.
  specialize (H ltac:(constructor) Hw). destruct (frame_run ops no_pending_frames) as [ds s]. cbn [app] in H.
  by destruct H as (? & ? & _ & ?).
Qed.

(** Two frames around the wrap of the timestamps, the later one put together
    first; the third is lost and given up. *)
Definition sample_frame (b : Z) : ReceivedFrame := mkReceivedFrame [b] 0 0.
Definition sample_timing : FrameRecoveryTiming := mkTiming 80 0 200.
Definition sample_round (now : Z) : FrameOp := RoundOp sample_timing now new_requester.
Definition sample_release : list FrameOp :=
  [TrackOp 1 4294967000 65535; TrackOp 2 704 1; CommitOp 3 704 (sample_frame 2) false 1 true;
   sample_round 4; CommitOp 5 4294967000 (sample_frame 1) true 0 true; sample_round 6; sample_round 7;
   TrackOp 8 4000 2; sample_round 300].

Lemma frames_delivered_in_order_witness :
  let '(ds, s) := frame_run sample_release no_pending_frames in
  in_order None ds /\ Forall (as_committed sample_release) ds /\ frames_sorted s.
Proof.
  apply (frames_delivered_in_order sample_release).
  cbn -[in_window]. split_and!; try exact I; exists 4294967000;
    match goal with |- in_window ?r ?l => let l' := eval vm_compute in l in change (in_window r l') end; unfold in_window;
    repeat first [apply Forall_nil_2|apply Forall_cons_2; [split; [unfold is_u32; lia|reflexivity]|]].
Defined.

Example sample_release_delivers :
  map d_timestamp (frame_run sample_release no_pending_frames).1 = [4294967000; 704].
Proof. vm_compute. reflexivity. Qed.

(** C36. After damage the decoder restarts on a key frame: once a frame has been
    given up at its hard deadline, or has given way to a complete key frame
    behind it, or [RequestKeyFrame] was called (a payload was invalid, or the
    NACK list overflowed), the next frame delivered is a key frame, whatever
    happens in between (with timestamps within half of their range, for which
    the list here is the [std::map]), and as long as none is delivered the receiver
    waits for one.  The request that [Process] makes at the soft deadline is not
    among these: it asks the sender for a key frame, but the frame that is late
    waits on and is delivered if it is completed. *)
Theorem keyframe_after_damage (ops1 ops2 : list FrameOp) (op : FrameOp) :
  let s := (frame_run ops1 no_pending_frames).2 in
  damages op s = true ->
  match (frame_run ops2 (frame_step op s).2).1 with
  | [] => awaiting_keyframe_ (frame_run ops2 (frame_step op s).2).2 = true
  | d :: _ => d_key d = true
  end.
Proof.
  intros s Hd. apply (awaiting_run (ops1 ++ [op])); [|by apply damages_awaits].
  apply step_committed. apply (frames_committed_run [] ops1), nothing_committed.
Qed.

(** After the frame above is given up, a frame that is no key frame is dropped. *)
Lemma keyframe_after_damage_witness :
  let s := (frame_run (removelast sample_release) no_pending_frames).2 in
  let ops := [TrackOp 301 7000 3; CommitOp 301 7000 (sample_frame 3) false 3 true; sample_round 302;
              TrackOp 303 10000 4; CommitOp 303 10000 (sample_frame 4) true 4 true; sample_round 304] in
  match (frame_run ops (frame_step (sample_round 300) s).2).1 with
  | [] => awaiting_keyframe_ (frame_run ops (frame_step (sample_round 300) s).2).2 = true
  | d :: _ => d_key d = true
  end.
Proof. apply (keyframe_after_damage (removelast sample_release)). vm_compute. reflexivity. Defined.
