(* ===== verification/FrameAssembly.v ===== *)
(** * Putting video frames together

    The packets of [RtpVideoReceiver] ([src/transport/channel/rtp_video_receiver.cpp])
    that wait for the rest of their frame, guarded by [frame_assembly_mtx_]: a
    fragment is kept under its sequence number; the first and the last packet of
    a frame mark its range; when all packets of the range are there with the
    timestamp of the frame, their payloads are copied into one buffer and the
    frame is committed to [FrameRelease.v].

    Every read of the clock is an argument, in a record of the readings of one
    call; so is the byte that fills a buffer fresh from [new].  [None] is a copy
    outside the buffer or the payload of a packet, or a packet that is not
    there. *)

From stdpp Require Import gmap.
From S2P Require Import Prelude Units SeqNum RtpPacket RtpTimestamp Packetizer Av1.
From S2P Require Import FrameRelease.

(** src/transport/channel/rtp_video_receiver.cpp:21-21 [kMaxPacketsPerFrame] *)
Definition kMaxPacketsPerFrame : Z := 4096.
(** src/transport/channel/rtp_video_receiver.cpp:16-16 [NV12_BUFFER_SIZE] *)
Definition NV12_BUFFER_SIZE : Z := 1280 * 720 * 3 / 2.

(** src/transport/channel/rtp_video_receiver.cpp:27-32 [FramePacketCount] *)
Definition FramePacketCount (start_sequence_number end_sequence_number : Z) : Z :=
  let packet_count := u32 (u16 (end_sequence_number - start_sequence_number) + 1) in
  if packet_count <=? kMaxPacketsPerFrame then packet_count else 0.

(** src/transport/channel/rtp_video_receiver.cpp:34-36 [SequenceNumberAt] *)
Definition SequenceNumberAt (start_sequence_number offset : Z) : Z := u16 (start_sequence_number + offset).

(** The start code of an IDR unit somewhere in a byte stream. *)
(** src/transport/channel/rtp_video_receiver.cpp:38-58 [IsH264KeyFrame] *)
Fixpoint IsH264KeyFrame (data : list Z) : bool :=
  match data with
  | [] => false
  | _ :: data' =>
      match data with
      | b0 :: b1 :: b2 :: b3 :: rest =>
          let nal :=
            if (b0 =? 0) && (b1 =? 0) && (b2 =? 1) then Some b3
            else match rest with
                 | b4 :: _ => if (b0 =? 0) && (b1 =? 0) && (b2 =? 0) && (b3 =? 1) then Some b4 else None
                 | [] => None
                 end in
          match nal with
          | Some b => if Z.land b 0x1f =? 5 then true else IsH264KeyFrame data'
          | None => IsH264KeyFrame data'
          end
      | _ => false
      end
  end.

(** ** State *)

(** src/transport/channel/rtp_video_receiver.h:144-148 [RtpVideoReceiver] *)
Record FrameAssembly := mkAssembly {
  incomplete_h264_frame_list_ : gmap Z RtpPacketH264;
  incomplete_av1_frame_list_ : gmap Z RtpPacketAv1;
  nv12_data_ : option (list Z);
  frame_buffer_capacity_ : Z;
  fua_start_sequence_numbers_ : gmap Z Z;
  fua_end_sequence_numbers_ : gmap Z Z;
}.

Definition no_packets : FrameAssembly := mkAssembly ∅ ∅ None 0 ∅ ∅.

Definition set_h264_list (l : gmap Z RtpPacketH264) (a : FrameAssembly) : FrameAssembly :=
  mkAssembly l (incomplete_av1_frame_list_ a) (nv12_data_ a) (frame_buffer_capacity_ a)
    (fua_start_sequence_numbers_ a) (fua_end_sequence_numbers_ a).
Definition set_av1_list (l : gmap Z RtpPacketAv1) (a : FrameAssembly) : FrameAssembly :=
  mkAssembly (incomplete_h264_frame_list_ a) l (nv12_data_ a) (frame_buffer_capacity_ a)
    (fua_start_sequence_numbers_ a) (fua_end_sequence_numbers_ a).
Definition set_frame_buffer (b : list Z) (capacity : Z) (a : FrameAssembly) : FrameAssembly :=
  mkAssembly (incomplete_h264_frame_list_ a) (incomplete_av1_frame_list_ a) (Some b) capacity
    (fua_start_sequence_numbers_ a) (fua_end_sequence_numbers_ a).
Definition set_markers (starts ends : gmap Z Z) (a : FrameAssembly) : FrameAssembly :=
  mkAssembly (incomplete_h264_frame_list_ a) (incomplete_av1_frame_list_ a) (nv12_data_ a)
    (frame_buffer_capacity_ a) starts ends.

(** The packets that wait, the clock of the stream, and the frames. *)
Record VideoFrames := mkVideoFrames {
  assembly : FrameAssembly;
  rtp_timestamp_mapper_ : RtpTimestampMapper;
  pending : PendingFrames;
}.

Definition set_assembly (a : FrameAssembly) (v : VideoFrames) : VideoFrames :=
  mkVideoFrames a (rtp_timestamp_mapper_ v) (pending v).
Definition set_mapper (m : RtpTimestampMapper) (v : VideoFrames) : VideoFrames :=
  mkVideoFrames (assembly v) m (pending v).
Definition set_pending (p : PendingFrames) (v : VideoFrames) : VideoFrames :=
  mkVideoFrames (assembly v) (rtp_timestamp_mapper_ v) p.

(** What the clock shows when a packet is tracked, when its frame is complete,
    and when the frame is committed; and what a new buffer holds. *)
Record Readings := mkReadings {
  track_ms : Z;
  frame_us : Z;
  commit_ms : Z;
  fill : Z;
}.

(** ** Frames *)

(** src/transport/channel/rtp_video_receiver.cpp:233-236 [RtpVideoReceiver::ClearFrameMarkers] *)
Definition ClearFrameMarkers (timestamp : Z) (a : FrameAssembly) : FrameAssembly :=
  set_markers (delete timestamp (fua_start_sequence_numbers_ a))
    (delete timestamp (fua_end_sequence_numbers_ a)) a.

(** src/transport/channel/rtp_video_receiver.cpp:185-211 [RtpVideoReceiver::GetFrameSequenceRange] *)
Definition GetFrameSequenceRange (timestamp : Z) (a : FrameAssembly) : option (Z * Z * Z) :=
  match fua_start_sequence_numbers_ a !! timestamp, fua_end_sequence_numbers_ a !! timestamp with
  | Some start_sequence_number, Some end_sequence_number =>
      let packet_count := FramePacketCount start_sequence_number end_sequence_number in
      if packet_count =? 0 then None
      else Some (start_sequence_number, end_sequence_number, packet_count)
  | _, _ => None
  end.

(** src/transport/channel/rtp_video_receiver.cpp:238-246 [RtpVideoReceiver::EnsureFrameBufferCapacity] *)
Definition EnsureFrameBufferCapacity (fill required_capacity : Z) (a : FrameAssembly) : FrameAssembly :=
  let fresh :=
    let capacity := Z.max required_capacity NV12_BUFFER_SIZE in
    set_frame_buffer (replicate (Z.to_nat capacity) fill) capacity a in
  match nv12_data_ a with
  | Some _ => if required_capacity <=? frame_buffer_capacity_ a then a else fresh
  | None => fresh
  end.

(** src/transport/channel/rtp_video_receiver.cpp:248-256 [RtpVideoReceiver::CreateReceivedFrame] *)
Definition CreateReceivedFrame (received_time_us : Z) (data : list Z) (timestamp : Z)
    (m : RtpTimestampMapper) : ReceivedFrame * RtpTimestampMapper :=
  let '(captured, m) := ToLocalTimeUs timestamp received_time_us m in
  (mkReceivedFrame data received_time_us captured, m).

(** The sequence numbers of a frame. *)
Definition frame_range (start_seq packet_count : Z) : list Z :=
  map (fun offset => SequenceNumberAt start_seq (Z.of_nat offset)) (seq 0 (Z.to_nat packet_count)).

(** All packets of the range are there, with the timestamp of the frame. *)
(** src/transport/channel/rtp_video_receiver.cpp:635-642 [RtpVideoReceiver::CheckIsH264FrameCompleted] *)
Definition range_received {P} (packet_of : P -> RtpPacket) (timestamp : Z) (range : list Z)
    (l : gmap Z P) : bool :=
  forallb (fun sequence_number =>
    match l !! sequence_number with
    | Some p => timestamp_ (packet_of p) =? timestamp
    | None => false
    end) range.

(** ** H.264 *)

(** src/transport/channel/rtp_video_receiver.cpp:650-658 [RtpVideoReceiver::PopCompleteFrame] *)
Fixpoint h264_frame_size (range : list Z) (l : gmap Z RtpPacketH264) : Z :=
  match range with
  | [] => 0
  | seq :: range =>
      match l !! seq with Some p => payload_size_ (h264_packet p) | None => 0 end +
      h264_frame_size range l
  end.

(** src/transport/channel/rtp_video_receiver.cpp:672-682 [RtpVideoReceiver::PopCompleteFrame] *)
Fixpoint copy_h264 (range : list Z) (dest : Z) (buffer : list Z) (l : gmap Z RtpPacketH264)
    : option (Z * list Z * gmap Z RtpPacketH264) :=
  match range with
  | [] => Some (dest, buffer, l)
  | seq :: range =>
      match l !! seq with
      | Some p =>
          payload ← Payload (h264_packet p);
          buffer ← wrs buffer dest payload;
          copy_h264 range (dest + payload_size_ (h264_packet p)) buffer (delete seq l)
      | None => copy_h264 range dest buffer l
      end
  end.

Definition nal_header (p : RtpPacketH264) (nal_unit_type : Z) : Z :=
  u8 (Z.lor (Z.lor (Z.shiftl (forbidden_bit (fu_indicator_ p)) 7)
                   (Z.shiftl (nal_reference_idc (fu_indicator_ p)) 5)) nal_unit_type).

(** src/transport/channel/rtp_video_receiver.cpp:663-671 [RtpVideoReceiver::PopCompleteFrame] *)
Definition start_frame (start_seq : Z) (buffer : list Z) (l : gmap Z RtpPacketH264)
    : option (Z * list Z) :=
  match l !! start_seq with
  | Some first => buffer ← wr buffer 0 (nal_header first (fh_nal_unit_type (fu_header_ first))); Some (1, buffer)
  | None => Some (0, buffer)
  end.

(** src/transport/channel/rtp_video_receiver.cpp:647-692 [RtpVideoReceiver::PopCompleteFrame] *)
Definition PopCompleteFrame (r : Readings) (start_seq end_seq packet_count timestamp : Z)
    (v : VideoFrames) : option VideoFrames :=
  let range := frame_range start_seq packet_count in
  let required_capacity := h264_frame_size range (incomplete_h264_frame_list_ (assembly v)) + 1 in
  let a := EnsureFrameBufferCapacity (fill r) required_capacity (assembly v) in
  buffer ← nv12_data_ a;
  '(dest, buffer) ← start_frame start_seq buffer (incomplete_h264_frame_list_ a);
  '(dest, buffer, l) ← copy_h264 range dest buffer (incomplete_h264_frame_list_ a);
  data ← rd_range buffer 0 dest;
  let '(received, m) := CreateReceivedFrame (frame_us r) data timestamp (rtp_timestamp_mapper_ v) in
  let a := ClearFrameMarkers timestamp
             (set_h264_list l (set_frame_buffer buffer (frame_buffer_capacity_ a) a)) in
  Some (mkVideoFrames a m
    (CommitPendingFrame (commit_ms r) timestamp received (IsH264KeyFrame (frame_bytes received)) end_seq
       true (pending v))).

(** The marks of the first and the last packet of a frame. *)
(** src/transport/channel/rtp_video_receiver.cpp:622-628 [RtpVideoReceiver::CheckIsH264FrameCompleted] *)
Definition mark_range (is_start is_end : bool) (timestamp seq : Z) (a : FrameAssembly) : FrameAssembly :=
  set_markers
    (if is_start then <[timestamp := seq]> (fua_start_sequence_numbers_ a) else fua_start_sequence_numbers_ a)
    (if is_end then <[timestamp := seq]> (fua_end_sequence_numbers_ a) else fua_end_sequence_numbers_ a) a.

(** src/transport/channel/rtp_video_receiver.cpp:613-645 [RtpVideoReceiver::CheckIsH264FrameCompleted] *)
Definition CheckIsH264FrameCompleted (r : Readings) (p : RtpPacketH264) (is_start is_end : bool)
    (v : VideoFrames) : option (bool * VideoFrames) :=
  let timestamp := timestamp_ (h264_packet p) in
  let seq := sequence_number_ (h264_packet p) in
  let v := set_pending (TrackPendingFramePacket (track_ms r) timestamp seq (pending v)) v in
  let v := set_assembly (mark_range is_start is_end timestamp seq (assembly v)) v in
  match GetFrameSequenceRange timestamp (assembly v) with
  | None => Some (false, v)
  | Some (start_seq, end_seq, packet_count) =>
      if range_received h264_packet timestamp (frame_range start_seq packet_count)
           (incomplete_h264_frame_list_ (assembly v))
      then v ← PopCompleteFrame r start_seq end_seq packet_count timestamp v; Some (true, v)
      else Some (false, v)
  end.

(** [fec_enable_] is never set. *)
(** src/transport/channel/rtp_video_receiver.cpp:465-493 [RtpVideoReceiver::ProcessH264RtpPacket] *)
Definition ProcessH264RtpPacket (r : Readings) (p : RtpPacketH264) (v : VideoFrames)
    : option VideoFrames :=
  let nalu_type := NalUnitType p in
  let timestamp := timestamp_ (h264_packet p) in
  let seq := sequence_number_ (h264_packet p) in
  if nalu_type =? nal_unit_type_value NALU then
    payload ← Payload (h264_packet p);
    let bytestream := nal_header p (NalUnitType p) :: payload in
    let '(received, m) := CreateReceivedFrame (frame_us r) bytestream timestamp (rtp_timestamp_mapper_ v) in
    Some (mkVideoFrames (assembly v) m
      (CommitPendingFrame (commit_ms r) timestamp received (IsH264KeyFrame (frame_bytes received)) seq
         false (pending v)))
  else if nalu_type =? nal_unit_type_value FU_A then
    let v := set_assembly (set_h264_list (<[seq := p]> (incomplete_h264_frame_list_ (assembly v)))
               (assembly v)) v in
    '(_, v) ← CheckIsH264FrameCompleted r p (FuAStart p) (FuAEnd p) v;
    Some v
  else Some v.

(** ** AV1 *)

(** src/transport/channel/rtp_video_receiver.cpp:726-731 [RtpVideoReceiver::CheckIsAv1FrameCompleted] *)
Fixpoint av1_frame_size (range : list Z) (l : gmap Z RtpPacketAv1) : option Z :=
  match range with
  | [] => Some 0
  | seq :: range =>
      p ← l !! seq;
      n ← av1_frame_size range l;
      Some (payload_size_ (av1_packet p) + n)
  end.

(** src/transport/channel/rtp_video_receiver.cpp:735-743 [RtpVideoReceiver::CheckIsAv1FrameCompleted] *)
Fixpoint copy_av1 (range : list Z) (dest : Z) (buffer : list Z) (l : gmap Z RtpPacketAv1)
    : option (list Z * gmap Z RtpPacketAv1) :=
  match range with
  | [] => Some (buffer, l)
  | seq :: range =>
      p ← l !! seq;
      payload ← Payload (av1_packet p);
      buffer ← wrs buffer dest payload;
      copy_av1 range (dest + payload_size_ (av1_packet p)) buffer (delete seq l)
  end.

(** src/transport/channel/rtp_video_receiver.cpp:723-751 [RtpVideoReceiver::CheckIsAv1FrameCompleted] *)
Definition pop_av1 (r : Readings) (start_seq end_seq packet_count timestamp : Z) (v : VideoFrames)
    : option VideoFrames :=
  let range := frame_range start_seq packet_count in
  first ← incomplete_av1_frame_list_ (assembly v) !! start_seq;
  complete_frame_size ← av1_frame_size range (incomplete_av1_frame_list_ (assembly v));
  let a := EnsureFrameBufferCapacity (fill r) complete_frame_size (assembly v) in
  buffer ← nv12_data_ a;
  '(buffer, l) ← copy_av1 range 0 buffer (incomplete_av1_frame_list_ a);
  data ← rd_range buffer 0 complete_frame_size;
  let '(received, m) := CreateReceivedFrame (frame_us r) data timestamp (rtp_timestamp_mapper_ v) in
  let a := ClearFrameMarkers timestamp
             (set_av1_list l (set_frame_buffer buffer (frame_buffer_capacity_ a) a)) in
  Some (mkVideoFrames a m
    (CommitPendingFrame (commit_ms r) timestamp received (IsKeyFrame first) end_seq true (pending v))).

(** src/transport/channel/rtp_video_receiver.cpp:694-752 [RtpVideoReceiver::CheckIsAv1FrameCompleted] *)
Definition CheckIsAv1FrameCompleted (r : Readings) (p : RtpPacketAv1) (v : VideoFrames)
    : option (bool * VideoFrames) :=
  let timestamp := timestamp_ (av1_packet p) in
  let seq := sequence_number_ (av1_packet p) in
  let v := set_pending (TrackPendingFramePacket (track_ms r) timestamp seq (pending v)) v in
  let v := set_assembly (mark_range (Av1FrameStart p) (Av1FrameEnd p) timestamp seq (assembly v)) v in
  match GetFrameSequenceRange timestamp (assembly v) with
  | None => Some (false, v)
  | Some (start_seq, end_seq, packet_count) =>
      if range_received av1_packet timestamp (frame_range start_seq packet_count)
           (incomplete_av1_frame_list_ (assembly v))
      then v ← pop_av1 r start_seq end_seq packet_count timestamp v; Some (true, v)
      else Some (false, v)
  end.

(** src/transport/channel/rtp_video_receiver.cpp:605-611 [RtpVideoReceiver::ProcessAv1RtpPacket] *)
Definition ProcessAv1RtpPacket (r : Readings) (p : RtpPacketAv1) (v : VideoFrames) : option VideoFrames :=
  let seq := sequence_number_ (av1_packet p) in
  let v := set_assembly (set_av1_list (<[seq := p]> (incomplete_av1_frame_list_ (assembly v)))
             (assembly v)) v in
  '(_, v) ← CheckIsAv1FrameCompleted r p v;
  Some v.

(** ** Dropping a frame *)

(** src/transport/channel/rtp_video_receiver.cpp:1015-1035 [RtpVideoReceiver::DropFrameAssembly] *)
Definition DropFrameAssembly (timestamp : Z) (a : FrameAssembly) : FrameAssembly :=
  let a := ClearFrameMarkers timestamp a in
  let a := set_h264_list
    (filter (fun e => timestamp_ (h264_packet e.2) <> timestamp) (incomplete_h264_frame_list_ a)) a in
  set_av1_list
    (filter (fun e => timestamp_ (av1_packet e.2) <> timestamp) (incomplete_av1_frame_list_ a)) a.
