(* ===== verification/FrameAssemblyOk.v ===== *)
(** * Correctness of the frame assembly

    Both codecs keep their packets and put their frames together in the same
    way; [FrameCodec] is what they have in common, and the theorems about
    arrival orders are proved against it: whatever order the packets of the
    frames arrive in, with losses and duplicates, a frame is committed when its
    last missing packet is there, with the bytes that were sent. *)

From stdpp Require Import gmap.
From S2P Require Import Prelude Units SeqNum RtpPacket RtpTimestamp Packetizer Av1.
From S2P Require Import FrameRelease FrameAssembly.

(** ** Lemmas: the range of a frame *)

Lemma frame_range_lookup start n i k :
  frame_range start n !! i = Some k <-> (i < Z.to_nat n)%nat /\ k = SequenceNumberAt start (Z.of_nat i).
Proof.
  unfold frame_range. rewrite list_lookup_fmap_Some. split.
  - intros (x & -> & Hx). apply lookup_seq in Hx as [-> Hi]. by split.
  - intros [Hi ->]. exists i. split; [done|]. by apply lookup_seq_lt.
Qed.

Lemma frame_range_length start n : length (frame_range start n) = Z.to_nat n.
Proof. unfold frame_range. by rewrite length_map, length_seq. Qed.

Lemma SequenceNumberAt_inj start i j :
  0 <= i < 65536 -> 0 <= j < 65536 -> SequenceNumberAt start i = SequenceNumberAt start j -> i = j.
Proof. unfold SequenceNumberAt, u16. intros Hi Hj H. revert H. zdm. Qed.

Lemma frame_range_NoDup start n : n <= 65536 -> NoDup (frame_range start n).
Proof.
  intros Hn. apply NoDup_alt. intros i j k [Hi ->]%frame_range_lookup [Hj E]%frame_range_lookup.
  apply SequenceNumberAt_inj in E; lia.
Qed.

(** The count that the markers of a frame give. *)
Lemma FramePacketCount_range start n :
  0 < n <= kMaxPacketsPerFrame -> FramePacketCount start (SequenceNumberAt start (n - 1)) = n.
Proof.
  unfold kMaxPacketsPerFrame, FramePacketCount, SequenceNumberAt. intros Hn.
  assert (u16 (u16 (start + (n - 1)) - start) = n - 1) as ->.
  { unfold u16. rewrite Zminus_mod_idemp_l. replace (start + (n - 1) - start) with (n - 1) by lia.
    apply Z.mod_small. lia. }
  rewrite u32_id by (unfold is_u32; lia). unfold kMaxPacketsPerFrame. case_match; b2p; lia.
Qed.

(** ** Lemmas: copying *)

Lemma wrs_front {A} (pre mid d : list A) :
  zlen d <= zlen mid -> wrs (pre ++ mid) (zlen pre) d = Some (pre ++ d ++ drop (length d) mid).
Proof.
  intros H. rewrite <- (take_drop (length d) mid) at 1. apply wrs_app.
  rewrite length_take. unfold zlen in H. lia.
Qed.

Lemma Payload_size p d : Payload p = Some d -> payload_size_ p = zlen d.
Proof.
  unfold Payload. intros (H1 & H2 & H3 & ->)%rd_range_inv. unfold zlen in *.
  rewrite length_take, length_drop. lia.
Qed.

Definition erase_range {P} (range : list Z) (l : gmap Z P) : gmap Z P :=
  fold_left (fun l k => delete k l) range l.

Lemma erase_range_lookup {P} range (l : gmap Z P) k :
  erase_range range l !! k = if decide (k ∈ range) then None else l !! k.
Proof.
  revert l. induction range as [|x range IH]; intros l; cbn [erase_range fold_left].
  - by rewrite decide_False by (apply not_elem_of_nil).
  - fold (erase_range range (delete x l)). rewrite IH. destruct (decide (k ∈ range)).
    + by rewrite decide_True by (by right).
    + destruct (decide (k = x)) as [->|]; [by rewrite lookup_delete_eq, decide_True by left|].
      rewrite lookup_delete_ne by done. by rewrite decide_False by (intros [|]%elem_of_cons; done).
Qed.

(** The packets of a range, and what they carry. *)
Definition stored {P} (packet_of : P -> RtpPacket) (l : gmap Z P) (range : list Z) (ps : list P)
    (ds : list (list Z)) : Prop :=
  Forall2 (fun k p => l !! k = Some p) range ps /\ Forall2 (fun p d => Payload (packet_of p) = Some d) ps ds.

Lemma stored_tail {P} (packet_of : P -> RtpPacket) l k range p ps d ds :
  NoDup (k :: range) -> stored packet_of l (k :: range) (p :: ps) (d :: ds) ->
  l !! k = Some p /\ Payload (packet_of p) = Some d /\ stored packet_of (delete k l) range ps ds.
Proof.
  intros [Hk _]%list.NoDup_cons [H1 H2]. inversion H1 as [|? ? ? ? Hp H1']; subst. inversion H2 as [|? ? ? ? Hd H2']; subst.
  split; [done|]. split; [done|]. split; [|done]. clear -Hk H1'.
  assert (Forall (fun x => x <> k) range) as Hne
    by (apply list.Forall_forall; intros x Hx ->; done).
  induction H1' as [|x y range ps Hx _ IH]; [constructor|].
  apply Forall_cons_1 in Hne as [Hxk Hne].
  constructor; [by rewrite lookup_delete_ne|]. apply IH; [|done]. intros Hin. apply Hk. by right.
Qed.

Lemma zlen_concat (ds : list (list Z)) : zlen (concat ds) = zsum zlen ds.
Proof. induction ds as [|d ds IH]; [done|]. cbn [concat zsum]. by rewrite zlen_app, IH. Qed.

Lemma copy_h264_stored range ps ds l pre mid :
  NoDup range -> stored h264_packet l range ps ds -> zlen (concat ds) <= zlen mid ->
  copy_h264 range (zlen pre) (pre ++ mid) l =
    Some (zlen (pre ++ concat ds), pre ++ concat ds ++ drop (length (concat ds)) mid, erase_range range l).
Proof.
  revert ps ds l pre mid. induction range as [|k range IH]; intros ps ds l pre mid Hnd Hs Hz.
  - destruct Hs as [H1 H2]. inversion H1; subst. inversion H2; subst. cbn. by rewrite app_nil_r.
  - destruct Hs as [H1 H2]. inversion H1 as [|? p ? ps' _ _]; subst. inversion H2 as [|? d ? ds' _ _]; subst.
    destruct (stored_tail _ _ _ _ _ _ _ _ Hnd (conj H1 H2)) as (Hp & Hd & Hs). apply list.NoDup_cons in Hnd as [_ Hnd].
    cbn [concat] in *. rewrite zlen_app in Hz. pose proof (zlen_nonneg (concat ds')).
    cbn [copy_h264]. rewrite Hp, Hd. cbn [mbind option_bind]. rewrite wrs_front by lia. cbn [mbind option_bind].
    rewrite (Payload_size _ _ Hd), <- zlen_app, app_assoc.
    rewrite (IH ps' ds' (delete k l) (pre ++ d) (drop (length d) mid) Hnd Hs)
      by (unfold zlen in *; rewrite length_drop; lia).
    rewrite drop_drop, length_app, <- !app_assoc. do 4 f_equal.
Qed.

Lemma copy_av1_stored range ps ds l pre mid :
  NoDup range -> stored av1_packet l range ps ds -> zlen (concat ds) <= zlen mid ->
  copy_av1 range (zlen pre) (pre ++ mid) l =
    Some (pre ++ concat ds ++ drop (length (concat ds)) mid, erase_range range l).
Proof.
  revert ps ds l pre mid. induction range as [|k range IH]; intros ps ds l pre mid Hnd Hs Hz.
  - destruct Hs as [H1 H2]. inversion H1; subst. inversion H2; subst. done.
  - destruct Hs as [H1 H2]. inversion H1 as [|? p ? ps' _ _]; subst. inversion H2 as [|? d ? ds' _ _]; subst.
    destruct (stored_tail _ _ _ _ _ _ _ _ Hnd (conj H1 H2)) as (Hp & Hd & Hs). apply list.NoDup_cons in Hnd as [_ Hnd].
    cbn [concat] in *. rewrite zlen_app in Hz. pose proof (zlen_nonneg (concat ds')).
    cbn [copy_av1]. rewrite Hp. cbn [mbind option_bind]. rewrite Hd. cbn [mbind option_bind].
    rewrite wrs_front by lia. cbn [mbind option_bind].
    rewrite (Payload_size _ _ Hd), <- zlen_app, app_assoc.
    rewrite (IH ps' ds' (delete k l) (pre ++ d) (drop (length d) mid) Hnd Hs)
      by (unfold zlen in *; rewrite length_drop; lia).
    rewrite drop_drop, length_app, <- !app_assoc. done.
Qed.

Lemma h264_frame_size_stored range ps ds l :
  stored h264_packet l range ps ds -> h264_frame_size range l = zlen (concat ds).
Proof.
  rewrite zlen_concat. intros [H1 H2]. revert ds H2.
  induction H1 as [|k p range ps Hp _ IH]; intros ds H2; inversion H2 as [|? d ? ds' Hd H2']; subst; [done|].
  cbn [h264_frame_size zsum]. by rewrite Hp, (Payload_size _ _ Hd), (IH _ H2').
Qed.

Lemma av1_frame_size_stored range ps ds l :
  stored av1_packet l range ps ds -> av1_frame_size range l = Some (zlen (concat ds)).
Proof.
  rewrite zlen_concat. intros [H1 H2]. revert ds H2.
  induction H1 as [|k p range ps Hp _ IH]; intros ds H2; inversion H2 as [|? d ? ds' Hd H2']; subst; [done|].
  cbn [av1_frame_size zsum]. rewrite Hp. cbn [mbind option_bind]. rewrite (IH _ H2'). cbn [mbind option_bind].
  by rewrite (Payload_size _ _ Hd).
Qed.

(** The buffer is as large as its capacity says. *)
Definition buffer_ok (a : FrameAssembly) : Prop :=
  match nv12_data_ a with Some b => zlen b = frame_buffer_capacity_ a | None => True end.

(** And the first packets of frames are marked with 16-bit numbers. *)
Definition assembly_ok (a : FrameAssembly) : Prop :=
  buffer_ok a /\ forall ts k, fua_start_sequence_numbers_ a !! ts = Some k -> is_u16 k.

Lemma EnsureFrameBufferCapacity_ok fill n a :
  buffer_ok a ->
  exists b c, EnsureFrameBufferCapacity fill n a = set_frame_buffer b c a /\ zlen b = c /\ n <= c.
Proof.
  intros H. unfold EnsureFrameBufferCapacity, buffer_ok in *.
  assert (exists b c, set_frame_buffer (replicate (Z.to_nat (Z.max n NV12_BUFFER_SIZE)) fill) (Z.max n NV12_BUFFER_SIZE) a =
    set_frame_buffer b c a /\ zlen b = c /\ n <= c) as Hfresh.
  { eexists _, _. split; [done|]. unfold zlen. rewrite length_replicate.
    assert (0 < NV12_BUFFER_SIZE) by done. lia. }
  destruct (nv12_data_ a) as [b|] eqn:Hb; [|exact Hfresh].
  destruct (Z.leb_spec n (frame_buffer_capacity_ a)); [|exact Hfresh].
  exists b, (frame_buffer_capacity_ a). split; [|done]. destruct a; cbn in *. by rewrite Hb.
Qed.

(** ** What the codecs have in common *)

(** A packet is a part of a frame, a frame of its own, or of no use. *)
Inductive PacketKind := Fragment | Whole | Ignored.

(** How packets of a codec mark and carry frames, where they wait, and the
    method that takes one in. *)
Class FrameCodec (P : Type) := {
  codec_rtp : P -> RtpPacket;
  codec_kind : P -> PacketKind;
  codec_start : P -> bool;
  codec_end : P -> bool;
  codec_waiting : FrameAssembly -> gmap Z P;
  codec_join : list P -> list (list Z) -> list Z;
  codec_whole : P -> list Z -> list Z;
  codec_key : list P -> list Z -> bool;
  codec_process : Readings -> P -> VideoFrames -> option VideoFrames;
}.

Section interface.
Context {P : Type} {codec : FrameCodec P}.

Definition codec_ts (p : P) : Z := timestamp_ (codec_rtp p).
Definition codec_seq (p : P) : Z := sequence_number_ (codec_rtp p).

Definition readable (l : gmap Z P) : Prop :=
  forall k p, l !! k = Some p -> is_Some (Payload (codec_rtp p)).

(** The state after a packet that completes no frame. *)
Definition keeps (l : gmap Z P) (marked : FrameAssembly) (tracked : PendingFrames) (v v' : VideoFrames) : Prop :=
  codec_waiting (assembly v') = l /\
  fua_start_sequence_numbers_ (assembly v') = fua_start_sequence_numbers_ marked /\
  fua_end_sequence_numbers_ (assembly v') = fua_end_sequence_numbers_ marked /\
  rtp_timestamp_mapper_ v' = rtp_timestamp_mapper_ v /\ pending v' = tracked.

(** The state after the packet that completes the frame of a range. *)
Definition completes (r : Readings) (ts last : Z) (range : list Z) (l : gmap Z P) (marked : FrameAssembly)
    (tracked : PendingFrames) (v v' : VideoFrames) : Prop :=
  exists ps ds received, stored codec_rtp l range ps ds /\
    CreateReceivedFrame (frame_us r) (codec_join ps ds) ts (rtp_timestamp_mapper_ v) =
      (received, rtp_timestamp_mapper_ v') /\
    codec_waiting (assembly v') = erase_range range l /\
    fua_start_sequence_numbers_ (assembly v') = delete ts (fua_start_sequence_numbers_ marked) /\
    fua_end_sequence_numbers_ (assembly v') = delete ts (fua_end_sequence_numbers_ marked) /\
    pending v' = CommitPendingFrame (commit_ms r) ts received (codec_key ps (codec_join ps ds)) last true tracked.

(** What taking a part of a frame in does. *)
Definition assembles (r : Readings) (p : P) (v v' : VideoFrames) : Prop :=
  let ts := codec_ts p in
  let l := <[codec_seq p := p]> (codec_waiting (assembly v)) in
  let marked := mark_range (codec_start p) (codec_end p) ts (codec_seq p) (assembly v) in
  let tracked := TrackPendingFramePacket (track_ms r) ts (codec_seq p) (pending v) in
  assembly_ok (assembly v') /\
  match GetFrameSequenceRange ts marked with
  | Some (first, last, n) =>
      if range_received codec_rtp ts (frame_range first n) l
      then completes r ts last (frame_range first n) l marked tracked v v'
      else keeps l marked tracked v v'
  | None => keeps l marked tracked v v'
  end.

(** What taking a frame of one packet in does. *)
Definition commits (r : Readings) (p : P) (v v' : VideoFrames) : Prop :=
  exists d received, Payload (codec_rtp p) = Some d /\
    CreateReceivedFrame (frame_us r) (codec_whole p d) (codec_ts p) (rtp_timestamp_mapper_ v) =
      (received, rtp_timestamp_mapper_ v') /\
    assembly v' = assembly v /\
    pending v' = CommitPendingFrame (commit_ms r) (codec_ts p) received (codec_key [p] (codec_whole p d))
      (codec_seq p) false (pending v).

Definition takes (r : Readings) (p : P) (v v' : VideoFrames) : Prop :=
  match codec_kind p with
  | Fragment => assembles r p v v'
  | Whole => commits r p v v'
  | Ignored => v' = v
  end.

(** The packets of a range that has been received. *)
Lemma received_stored ts range (l : gmap Z P) :
  readable l -> range_received codec_rtp ts range l = true -> exists ps ds, stored codec_rtp l range ps ds.
Proof.
  intros Hr H. induction range as [|k range IH]; [by exists [], []; split; constructor|].
  cbn [range_received forallb] in H. apply andb_prop in H as [Hk H].
  destruct (IH H) as (ps & ds & H1 & H2). destruct (l !! k) as [p|] eqn:Hp; [|done].
  destruct (Hr k p Hp) as [d Hd]. exists (p :: ps), (d :: ds). by split; constructor.
Qed.
End interface.

(** The contract of the method, and of [DropFrameAssembly]. *)
Class FrameCodecLaws (P : Type) {codec : FrameCodec P} := {
  codec_process_ok : forall r p v,
    assembly_ok (assembly v) -> is_u16 (codec_seq p) ->
    readable (codec_waiting (assembly v)) -> is_Some (Payload (codec_rtp p)) ->
    exists v', codec_process r p v = Some v' /\ takes r p v v';
  codec_drop_ok : forall ts a,
    codec_waiting (DropFrameAssembly ts a) =
      filter (fun e => timestamp_ (codec_rtp e.2) <> ts) (codec_waiting a);
  codec_empty : codec_waiting no_packets = ∅;
}.

Lemma readable_insert {P} {codec : FrameCodec P} k p (l : gmap Z P) :
  readable l -> is_Some (Payload (codec_rtp p)) -> readable (<[k := p]> l).
Proof. intros H Hp k' q [[<- <-]|[_ Hq]]%lookup_insert_Some; [done|by apply (H k')]. Qed.

Lemma FramePacketCount_max a b : 0 <= FramePacketCount a b <= kMaxPacketsPerFrame.
Proof.
  unfold FramePacketCount, kMaxPacketsPerFrame. pose proof (u32_range (u16 (b - a) + 1)) as H.
  unfold is_u32 in H. case_match; b2p; lia.
Qed.

(** The range of a frame holds at least a packet, and at most the limit. *)
Lemma GetFrameSequenceRange_size ts a first last n :
  GetFrameSequenceRange ts a = Some (first, last, n) -> 0 < n <= kMaxPacketsPerFrame.
Proof.
  unfold GetFrameSequenceRange. repeat case_match; try done. intros [= <- <- <-]. b2p.
  match goal with |- _ < FramePacketCount ?a ?b <= _ => pose proof (FramePacketCount_max a b) end. lia.
Qed.

(** ** H.264 *)

#[export] Instance h264_codec : FrameCodec RtpPacketH264 := {
  codec_rtp := h264_packet;
  codec_kind p :=
    if NalUnitType p =? nal_unit_type_value NALU then Whole
    else if NalUnitType p =? nal_unit_type_value FU_A then Fragment else Ignored;
  codec_start := FuAStart;
  codec_end := FuAEnd;
  codec_waiting := incomplete_h264_frame_list_;
  codec_join ps ds :=
    match ps with
    | p :: _ => nal_header p (fh_nal_unit_type (fu_header_ p)) :: concat ds
    | [] => concat ds
    end;
  codec_whole p d := nal_header p (NalUnitType p) :: d;
  codec_key _ data := IsH264KeyFrame data;
  codec_process := ProcessH264RtpPacket;
}.

Lemma frame_range_cons first n :
  is_u16 first -> 0 < n -> exists range, frame_range first n = first :: range.
Proof.
  intros H Hn. assert (frame_range first n !! 0%nat = Some first) as E.
  { apply frame_range_lookup. split; [lia|]. unfold SequenceNumberAt. rewrite Z.add_0_r. symmetry. by apply u16_id. }
  destruct (frame_range first n) as [|k range]; [done|]. injection E as ->. by exists range.
Qed.

(** Reading back what was written at the front of the buffer. *)
Lemma rd_range_front {A} (d rest : list A) : rd_range (d ++ rest) 0 (zlen d) = Some d.
Proof. apply (rd_range_mid [] d rest). Qed.

Lemma CreateReceivedFrame_bytes us data ts m :
  frame_bytes (CreateReceivedFrame us data ts m).1 = data.
Proof. unfold CreateReceivedFrame. by destruct (ToLocalTimeUs _ _ _). Qed.

Lemma pop_h264_ok r first last n ts v ps ds :
  assembly_ok (assembly v) -> is_u16 first -> 0 < n <= kMaxPacketsPerFrame ->
  stored h264_packet (incomplete_h264_frame_list_ (assembly v)) (frame_range first n) ps ds ->
  exists v', PopCompleteFrame r first last n ts v = Some v' /\ assembly_ok (assembly v') /\
    completes r ts last (frame_range first n) (incomplete_h264_frame_list_ (assembly v)) (assembly v) (pending v) v v'.
Proof.
  intros [Hb Hm] Hf Hn Hs. unfold kMaxPacketsPerFrame in Hn. unfold PopCompleteFrame.
  rewrite (h264_frame_size_stored _ _ _ _ Hs).
  destruct (EnsureFrameBufferCapacity_ok (fill r) (zlen (concat ds) + 1) _ Hb) as (b & c & -> & Hc & Hle).
  pose proof (frame_range_NoDup first n ltac:(lia)) as Hnd.
  destruct (frame_range_cons first n Hf ltac:(lia)) as [range E]. pose proof Hs as [Hps _].
  rewrite E in Hps. inversion Hps as [|? p ? ps' Hp Hps']; subst. clear Hps Hps'.
  unfold zlen in Hle. destruct b as [|x b]; cbn [length] in Hle; [lia|].
  cbn [nv12_data_ set_frame_buffer incomplete_h264_frame_list_ mbind option_bind].
  unfold start_frame. rewrite Hp. set (h := nal_header p _).
  replace (wr (x :: b) 0 h) with (Some ([h] ++ b)) by (rewrite wr_Some; [done|unfold zlen; cbn [length]; lia]).
  cbn [mbind option_bind].
  pose proof (copy_h264_stored _ _ _ (incomplete_h264_frame_list_ (assembly v)) [h] b Hnd Hs) as Hcopy.
  change (zlen [h]) with 1 in Hcopy. rewrite Hcopy by (unfold zlen in *; lia). cbn [mbind option_bind].
  rewrite app_assoc, rd_range_front. cbn [mbind option_bind].
  destruct (CreateReceivedFrame _ _ _ _) as [received m] eqn:Hcr.
  eexists. split; [reflexivity|]. split.
  - split.
    + unfold buffer_ok, zlen. cbn. rewrite ?length_app, length_drop. lia.
    + intros t k Hk. cbn in Hk. apply lookup_delete_Some in Hk as [_ Hk]. by apply (Hm t).
  - exists (p :: ps'), ds, received. split; [exact Hs|]. split; [exact Hcr|].
    pose proof (CreateReceivedFrame_bytes (frame_us r) ([h] ++ concat ds) ts (rtp_timestamp_mapper_ v)) as Hbytes.
    rewrite Hcr in Hbytes. cbn [fst] in Hbytes. cbn. rewrite Hbytes. split_and!; done.
Qed.

(** ** AV1 *)

#[export] Instance av1_codec : FrameCodec RtpPacketAv1 := {
  codec_rtp := av1_packet;
  codec_kind _ := Fragment;
  codec_start := Av1FrameStart;
  codec_end := Av1FrameEnd;
  codec_waiting := incomplete_av1_frame_list_;
  codec_join _ ds := concat ds;
  codec_whole _ d := d;
  codec_key ps _ := match ps with p :: _ => IsKeyFrame p | [] => false end;
  codec_process := ProcessAv1RtpPacket;
}.

Lemma pop_av1_ok r first last n ts v ps ds :
  assembly_ok (assembly v) -> is_u16 first -> 0 < n <= kMaxPacketsPerFrame ->
  stored av1_packet (incomplete_av1_frame_list_ (assembly v)) (frame_range first n) ps ds ->
  exists v', pop_av1 r first last n ts v = Some v' /\ assembly_ok (assembly v') /\
    completes r ts last (frame_range first n) (incomplete_av1_frame_list_ (assembly v)) (assembly v) (pending v) v v'.
Proof.
  intros [Hb Hm] Hf Hn Hs. unfold kMaxPacketsPerFrame in Hn. unfold pop_av1.
  pose proof (frame_range_NoDup first n ltac:(lia)) as Hnd.
  destruct (frame_range_cons first n Hf ltac:(lia)) as [range E]. pose proof Hs as [Hps _].
  rewrite E in Hps. inversion Hps as [|? p ? ps' Hp Hps']; subst. clear Hps Hps'.
  rewrite Hp, (av1_frame_size_stored _ _ _ _ Hs). cbn [mbind option_bind].
  destruct (EnsureFrameBufferCapacity_ok (fill r) (zlen (concat ds)) _ Hb) as (b & c & -> & Hc & Hle).
  cbn [nv12_data_ set_frame_buffer incomplete_av1_frame_list_ mbind option_bind].
  pose proof (copy_av1_stored _ _ _ (incomplete_av1_frame_list_ (assembly v)) [] b Hnd Hs) as Hcopy.
  change (zlen []) with 0 in Hcopy. cbn [app] in Hcopy. rewrite Hcopy by lia. cbn [mbind option_bind].
  rewrite rd_range_front. cbn [mbind option_bind].
  destruct (CreateReceivedFrame _ _ _ _) as [received m] eqn:Hcr.
  eexists. split; [reflexivity|]. split.
  - split.
    + unfold buffer_ok, zlen in *. cbn. rewrite ?length_app, length_drop. lia.
    + intros t k Hk. cbn in Hk. apply lookup_delete_Some in Hk as [_ Hk]. by apply (Hm t).
  - exists (p :: ps'), ds, received. split; [exact Hs|]. split; [exact Hcr|]. cbn. split_and!; done.
Qed.

(** ** The two codecs keep the contract *)

Lemma mark_range_start s e ts seq a t k :
  is_u16 seq -> (forall t k, fua_start_sequence_numbers_ a !! t = Some k -> is_u16 k) ->
  fua_start_sequence_numbers_ (mark_range s e ts seq a) !! t = Some k -> is_u16 k.
Proof.
  intros Hs Ha. cbn. destruct s; [|by apply Ha].
  intros [[_ <-]|[_ H]]%lookup_insert_Some; [done|by apply (Ha t)].
Qed.

Lemma GetFrameSequenceRange_first ts a first last n :
  GetFrameSequenceRange ts a = Some (first, last, n) -> fua_start_sequence_numbers_ a !! ts = Some first.
Proof. unfold GetFrameSequenceRange. repeat case_match; try done. by intros [= <- _ _]. Qed.

#[export] Instance h264_laws : FrameCodecLaws RtpPacketH264.
Proof.
  split; [|done|done]. intros r p v [Hb Hm] Hu Hr Hp. unfold takes.
  cbn [codec_process codec_kind h264_codec]. unfold ProcessH264RtpPacket.
  destruct (NalUnitType p =? nal_unit_type_value NALU) eqn:Hn.
  { destruct Hp as [d Hd]. cbn [codec_rtp h264_codec] in Hd. rewrite Hd. cbn [mbind option_bind].
    destruct (CreateReceivedFrame _ _ _ _) as [received m] eqn:Hc. eexists. split; [reflexivity|].
    exists d, received. split_and!; [exact Hd|exact Hc|done|].
    pose proof (CreateReceivedFrame_bytes (frame_us r) (nal_header p (NalUnitType p) :: d) (timestamp_ (h264_packet p))
      (rtp_timestamp_mapper_ v)) as Hbytes. rewrite Hc in Hbytes. cbn [fst] in Hbytes. cbn. by rewrite Hbytes. }
  destruct (NalUnitType p =? nal_unit_type_value FU_A) eqn:Hfr; [|by exists v].
  cbn -[CheckIsH264FrameCompleted set_assembly set_h264_list]. unfold CheckIsH264FrameCompleted, assembles.
  set (l := <[_ := p]> _). set (marked := mark_range _ _ _ _ (assembly v)).
  set (tracked := TrackPendingFramePacket _ _ _ (pending v)).
  set (v1 := mkVideoFrames (set_h264_list l marked) (rtp_timestamp_mapper_ v) tracked).
  assert (assembly_ok (assembly v1)) as Hok.
  { split; [exact Hb|]. intros t k. by apply mark_range_start. }
  change (set_assembly _ _) with v1.
  change (GetFrameSequenceRange (codec_ts p) marked) with (GetFrameSequenceRange (codec_ts p) (assembly v1)).
  change (timestamp_ (h264_packet p)) with (codec_ts p).
  destruct (GetFrameSequenceRange (codec_ts p) (assembly v1)) as [[[first last] n]|] eqn:E;
    [|exists v1; split; [reflexivity|split; [exact Hok|by split_and!]]].
  destruct (range_received h264_packet _ _ _) eqn:Hrec;
    change (range_received codec_rtp (codec_ts p) (frame_range first n) l) with
      (range_received h264_packet (codec_ts p) (frame_range first n) (incomplete_h264_frame_list_ (assembly v1)));
    rewrite Hrec; [|exists v1; split; [reflexivity|split; [exact Hok|by split_and!]]].
  destruct (received_stored (codec:=h264_codec) (codec_ts p) (frame_range first n) l) as (ps & ds & Hs);
    [by apply readable_insert|exact Hrec|].
  destruct (pop_h264_ok r first last n (codec_ts p) v1 ps ds Hok) as (v' & -> & Hok' & Hc);
    [destruct Hok as [_ Hok]; apply (Hok (codec_ts p)), (GetFrameSequenceRange_first _ _ _ _ _ E)
    |by apply GetFrameSequenceRange_size in E|exact Hs|].
  exists v'. split; [reflexivity|]. split; [exact Hok'|exact Hc].
Qed.

#[export] Instance av1_laws : FrameCodecLaws RtpPacketAv1.
Proof.
  split; [|done|done]. intros r p v [Hb Hm] Hu Hr Hp.
  cbn [codec_process av1_codec]. unfold ProcessAv1RtpPacket, CheckIsAv1FrameCompleted, takes. cbn [codec_kind av1_codec]. unfold assembles.
  set (l := <[_ := p]> _). set (marked := mark_range _ _ _ _ (assembly v)).
  set (tracked := TrackPendingFramePacket _ _ _ (pending v)).
  set (v1 := mkVideoFrames (set_av1_list l marked) (rtp_timestamp_mapper_ v) tracked).
  assert (assembly_ok (assembly v1)) as Hok.
  { split; [exact Hb|]. intros t k. by apply mark_range_start. }
  change (set_assembly _ (set_pending _ _)) with v1.
  change (GetFrameSequenceRange (codec_ts p) marked) with (GetFrameSequenceRange (codec_ts p) (assembly v1)).
  change (timestamp_ (av1_packet p)) with (codec_ts p).
  destruct (GetFrameSequenceRange (codec_ts p) (assembly v1)) as [[[first last] n]|] eqn:E;
    [|exists v1; split; [reflexivity|split; [exact Hok|by split_and!]]].
  destruct (range_received av1_packet _ _ _) eqn:Hrec;
    change (range_received codec_rtp (codec_ts p) (frame_range first n) l) with
      (range_received av1_packet (codec_ts p) (frame_range first n) (incomplete_av1_frame_list_ (assembly v1)));
    rewrite Hrec; [|exists v1; split; [reflexivity|split; [exact Hok|by split_and!]]].
  destruct (received_stored (codec:=av1_codec) (codec_ts p) (frame_range first n) l) as (ps & ds & Hs);
    [by apply readable_insert|exact Hrec|].
  destruct (pop_av1_ok r first last n (codec_ts p) v1 ps ds Hok) as (v' & -> & Hok' & Hc);
    [destruct Hok as [_ Hok]; apply (Hok (codec_ts p)), (GetFrameSequenceRange_first _ _ _ _ _ E)
    |by apply GetFrameSequenceRange_size in E|exact Hs|].
  exists v'. split; [reflexivity|]. split; [exact Hok'|exact Hc].
Qed.
