(* ===== verification/FrameArrival.v ===== *)
(** * Frames survive the network

    The packets of frames arrive at the video receiver in any order, with
    losses, duplicates and packets of other frames, while the worker thread
    delivers frames and gives frames up.  For every codec that keeps the
    contract of [FrameCodecLaws]: the bytes delivered under a timestamp are
    those that were sent under it, and a frame is complete as soon as all its
    packets have arrived. *)

From stdpp Require Import gmap.
From S2P Require Import Prelude Units SeqNum RtpPacket RtpTimestamp Packetizer Av1 Nack.
From S2P Require Import FrameRelease FrameAssembly FrameAssemblyOk.

(** ** Lemmas: the map of frames *)

Lemma pending_find_insert ts f l k :
  pending_find k (pending_insert ts f l) = if decide (k = ts) then Some f else pending_find k l.
Proof.
  induction l as [|[k' g] l IH]; cbn [pending_insert pending_find].
  - destruct (Z.eqb_spec ts k) as [->|]; [by rewrite decide_True|by rewrite decide_False by congruence].
  - destruct (Z.eqb_spec k' ts) as [->|Hne]; cbn [pending_find].
    { destruct (Z.eqb_spec ts k) as [->|]; [by rewrite decide_True|by rewrite decide_False by congruence]. }
    destruct (RtpTimestampLess ts k'); cbn [pending_find].
    { destruct (Z.eqb_spec ts k) as [->|]; [by rewrite decide_True|by rewrite decide_False by congruence]. }
    rewrite IH. destruct (Z.eqb_spec k' k) as [->|]; [by rewrite decide_False|done].
Qed.

Lemma forallb_false {A} (f : A -> bool) l : forallb f l = false -> exists x, x ∈ l /\ f x = false.
Proof.
  induction l as [|x l IH]; cbn [forallb]; [done|]. intros H. destruct (f x) eqn:E; [|exists x; split; [left|done]].
  destruct (IH H) as (y & Hy & Hf). exists y. split; [by right|done].
Qed.

(** ** What was sent, and what happens to it *)

Section arrivals.
Context {P : Type} {codec : FrameCodec P} {laws : FrameCodecLaws P}.
Implicit Types (v : VideoFrames) (p : P).

(** A frame: its packets with their payloads. *)
Record SentFrame := mkSent {
  sf_timestamp : Z;
  sf_start : Z;
  sf_packets : list (P * list Z);
}.

Definition sent_count (f : SentFrame) : Z := zlen (sf_packets f).
Definition sent_last (f : SentFrame) : Z := SequenceNumberAt (sf_start f) (sent_count f - 1).
Definition sent_bytes (f : SentFrame) : list Z :=
  match sf_packets f with
  | [(p, d)] => match codec_kind p with Whole => codec_whole p d | _ => codec_join [p] [d] end
  | _ => codec_join (map fst (sf_packets f)) (map snd (sf_packets f))
  end.
Definition sent_key (f : SentFrame) : bool := codec_key (map fst (sf_packets f)) (sent_bytes f).

(** A frame in parts, of which exactly the first and the last are marked; or a
    frame of one packet. *)
Definition in_parts (f : SentFrame) : Prop :=
  forall i p d, sf_packets f !! i = Some (p, d) ->
    codec_kind p = Fragment /\ codec_start p = Nat.eqb i 0 /\ codec_end p = Nat.eqb (S i) (length (sf_packets f)).
Definition in_one (f : SentFrame) : Prop := exists p d, sf_packets f = [(p, d)] /\ codec_kind p = Whole.

(** The packets are numbered one after the other and carry the timestamp of the
    frame. *)
Definition sent_ok (f : SentFrame) : Prop :=
  is_u16 (sf_start f) /\ 0 < sent_count f <= kMaxPacketsPerFrame /\
  (forall i p d, sf_packets f !! i = Some (p, d) ->
    codec_ts p = sf_timestamp f /\ codec_seq p = SequenceNumberAt (sf_start f) (Z.of_nat i) /\
    Payload (codec_rtp p) = Some d) /\
  (in_parts f \/ in_one f).

(** Then what is known of a part of a frame. *)
Lemma sent_part f i p d :
  sent_ok f -> sf_packets f !! i = Some (p, d) -> codec_kind p = Fragment ->
  in_parts f /\ codec_start p = Nat.eqb i 0 /\ codec_end p = Nat.eqb (S i) (length (sf_packets f)).
Proof.
  intros (_ & _ & _ & [H|(q & e & E & Hk)]) Hi Hf; [split; [done|by apply H in Hi as (_ & ?)]|].
  rewrite E in Hi. apply list_lookup_singleton_Some in Hi as [_ [= <- <-]]. congruence.
Qed.

Lemma sent_parts_bytes f : in_parts f -> sent_bytes f = codec_join (map fst (sf_packets f)) (map snd (sf_packets f)).
Proof.
  intros H. unfold sent_bytes. destruct (sf_packets f) as [|[p d] [|]] eqn:E; try done.
  destruct (H 0%nat p d) as [-> _]; [by rewrite E|done].
Qed.

(** What the two threads do: the packet thread takes a packet in, drops what it
    has of a frame, and may ask for a key frame; the worker runs a round. *)
Inductive ReceiverOp :=
  | Arrives (r : Readings) (p : P)
  | Drops (timestamp : Z)
  | Asks
  | Rounds (timing : FrameRecoveryTiming) (now_ms : Z) (nack : NackRequester).

Definition receiver_step (op : ReceiverOp) (v : VideoFrames) : option (list Delivery * VideoFrames) :=
  match op with
  | Arrives r p => v ← codec_process r p v; Some ([], v)
  | Drops ts => Some ([], set_assembly (DropFrameAssembly ts (assembly v)) v)
  | Asks => let '(ds, s) := frame_step AwaitOp (pending v) in Some (ds, set_pending s v)
  | Rounds timing now nack =>
      let '(ds, s) := frame_step (RoundOp timing now nack) (pending v) in Some (ds, set_pending s v)
  end.

Fixpoint receiver_run (ops : list ReceiverOp) (v : VideoFrames) : option (list Delivery * VideoFrames) :=
  match ops with
  | [] => Some ([], v)
  | op :: ops =>
      '(ds, v) ← receiver_step op v;
      '(ds', v) ← receiver_run ops v;
      Some (ds ++ ds', v)
  end.

Definition new_video_frames (m : RtpTimestampMapper) : VideoFrames :=
  mkVideoFrames no_packets m no_pending_frames.

(** A packet that was parsed; and if it has the timestamp of the frame, it is
    one of the frame. *)
Definition arrival_ok (p : P) : Prop := is_u16 (codec_seq p) /\ is_Some (Payload (codec_rtp p)).
Definition genuine (f : SentFrame) (p : P) : Prop :=
  codec_ts p = sf_timestamp f -> exists i d, sf_packets f !! i = Some (p, d).

Definition op_genuine (f : SentFrame) (op : ReceiverOp) : Prop :=
  match op with Arrives _ p => arrival_ok p /\ genuine f p | _ => True end.

Definition frame_sent (f : SentFrame) (g : PendingFrame) : Prop :=
  exists b, frame g = Some b /\ frame_bytes b = sent_bytes f /\ is_keyframe g = sent_key f.

Definition delivery_sent (f : SentFrame) (d : Delivery) : Prop :=
  d_timestamp d = sf_timestamp f ->
  exists b, d_frame d = Some b /\ frame_bytes b = sent_bytes f /\ d_key d = sent_key f.

(** What the receiver holds of a frame is of that frame. *)
Definition marks_true (f : SentFrame) (a : FrameAssembly) : Prop :=
  (forall k, fua_start_sequence_numbers_ a !! sf_timestamp f = Some k -> k = sf_start f) /\
  (forall k, fua_end_sequence_numbers_ a !! sf_timestamp f = Some k -> k = sent_last f).
Definition stored_true (f : SentFrame) (l : gmap Z P) : Prop :=
  forall k p, l !! k = Some p -> codec_ts p = sf_timestamp f ->
    exists i d, sf_packets f !! i = Some (p, d) /\ k = SequenceNumberAt (sf_start f) (Z.of_nat i).
Definition pending_true (f : SentFrame) (s : PendingFrames) : Prop :=
  forall g, (sf_timestamp f, g) ∈ pending_frames_ s -> is_complete g = true -> frame_sent f g.

Record holds (f : SentFrame) (v : VideoFrames) : Prop := mkHolds {
  holds_assembly : assembly_ok (assembly v);
  holds_readable : readable (codec_waiting (assembly v));
  holds_marks : marks_true f (assembly v);
  holds_stored : stored_true f (codec_waiting (assembly v));
  holds_pending : pending_true f (pending v);
}.

(** ** Lemmas: the range of the frame *)

Lemma marked_true f a p :
  sent_ok f -> codec_kind p = Fragment -> genuine f p -> marks_true f a ->
  marks_true f (mark_range (codec_start p) (codec_end p) (codec_ts p) (codec_seq p) a).
Proof.
  intros Hok Hk Hg [Hs He]. pose proof Hok as (Hu & Hn & Hf & _). split; intros k; cbn.
  - destruct (codec_start p) eqn:E; [|apply Hs]. intros [[Ht <-]|[_ H]]%lookup_insert_Some; [|by apply Hs].
    destruct (Hg Ht) as (i & d & Hi). destruct (sent_part f i p d Hok Hi Hk) as (_ & Hst & _).
    apply Hf in Hi as (_ & -> & _). rewrite E in Hst.
    symmetry in Hst. apply Nat.eqb_eq in Hst as ->. unfold SequenceNumberAt. rewrite Z.add_0_r. by apply u16_id.
  - destruct (codec_end p) eqn:E; [|apply He]. intros [[Ht <-]|[_ H]]%lookup_insert_Some; [|by apply He].
    destruct (Hg Ht) as (i & d & Hi). destruct (sent_part f i p d Hok Hi Hk) as (_ & _ & Hen).
    apply Hf in Hi as (_ & -> & _). rewrite E in Hen. symmetry in Hen. apply Nat.eqb_eq in Hen. unfold sent_last, sent_count, zlen. f_equal. lia.
Qed.

Lemma sent_range f a first last n :
  sent_ok f -> marks_true f a -> GetFrameSequenceRange (sf_timestamp f) a = Some (first, last, n) ->
  first = sf_start f /\ last = sent_last f /\ n = sent_count f.
Proof.
  intros (Hu & Hn & _ & _) [Hs He]. unfold GetFrameSequenceRange.
  destruct (fua_start_sequence_numbers_ a !! _) as [k|]; [|done].
  destruct (fua_end_sequence_numbers_ a !! _) as [k'|]; [|done].
  rewrite (Hs k eq_refl), (He k' eq_refl). unfold sent_last. rewrite FramePacketCount_range by done.
  case_match; [done|]. by intros [= <- <- <-].
Qed.

(** The packets of the range, and their payloads, are those of the frame. *)
Lemma stored_sent f l ps ds :
  sent_ok f -> stored_true f l ->
  range_received codec_rtp (sf_timestamp f) (frame_range (sf_start f) (sent_count f)) l = true ->
  stored codec_rtp l (frame_range (sf_start f) (sent_count f)) ps ds ->
  ps = map fst (sf_packets f) /\ ds = map snd (sf_packets f).
Proof.
  intros (Hu & Hn & Hf & _) Hl Hr [H1 H2]. unfold kMaxPacketsPerFrame in Hn.
  assert (forall i p, ps !! i = Some p -> exists d, sf_packets f !! i = Some (p, d)) as Hps.
  { intros i p Hi. destruct (Forall2_lookup_r _ _ _ _ _ H1 Hi) as (k & Hk & Hp).
    unfold range_received in Hr. rewrite forallb_forall in Hr.
    assert (In k (frame_range (sf_start f) (sent_count f))) as Hin by (apply list_elem_of_In, list_elem_of_lookup; by exists i).
    specialize (Hr k Hin). rewrite Hp in Hr. b2p. destruct (Hl k p Hp Hr) as (j & d & Hj & Hk').
    apply frame_range_lookup in Hk as [Hi' ->]. pose proof (lookup_lt_Some _ _ _ Hj) as Hlt. unfold sent_count, zlen in *.
    apply SequenceNumberAt_inj in Hk'; [|lia|lia]. apply Nat2Z.inj in Hk' as <-. by exists d. }
  pose proof (List.Forall2_length H1) as Hlen. rewrite frame_range_length in Hlen.
  pose proof (List.Forall2_length H2) as Hlen2. unfold sent_count, zlen in Hlen.
  split; apply list_eq_same_length with (n:=length (sf_packets f)); rewrite ?length_map; try lia;
    intros i x y Hi Hx Hy; apply list_lookup_fmap_Some in Hy as ((p & d) & -> & Hpd); cbn [fst snd].
  - destruct (Hps i x Hx) as [d' Hd']. congruence.
  - destruct (Forall2_lookup_r _ _ _ _ _ H2 Hx) as (p' & Hp' & Hpay). destruct (Hps i p' Hp') as [d' Hd'].
    rewrite Hpd in Hd'. injection Hd' as <- <-. apply Hf in Hpd as (_ & _ & Hpay'). congruence.
Qed.

(** ** Lemmas: a packet comes in *)

Definition arrived_list p v : gmap Z P := <[codec_seq p := p]> (codec_waiting (assembly v)).
Definition marked_by p v : FrameAssembly :=
  mark_range (codec_start p) (codec_end p) (codec_ts p) (codec_seq p) (assembly v).
Definition tracked_by r p v : PendingFrames :=
  TrackPendingFramePacket (track_ms r) (codec_ts p) (codec_seq p) (pending v).

(** A packet leaves at most itself and its marks, and may complete its frame. *)
Lemma assembles_cases r p v v' :
  assembles r p v v' ->
  assembly_ok (assembly v') /\
  (forall k q, codec_waiting (assembly v') !! k = Some q -> arrived_list p v !! k = Some q) /\
  (forall t k, fua_start_sequence_numbers_ (assembly v') !! t = Some k ->
    fua_start_sequence_numbers_ (marked_by p v) !! t = Some k) /\
  (forall t k, fua_end_sequence_numbers_ (assembly v') !! t = Some k ->
    fua_end_sequence_numbers_ (marked_by p v) !! t = Some k) /\
  (pending v' = tracked_by r p v \/
   exists first last n ps ds received,
     GetFrameSequenceRange (codec_ts p) (marked_by p v) = Some (first, last, n) /\
     range_received codec_rtp (codec_ts p) (frame_range first n) (arrived_list p v) = true /\
     stored codec_rtp (arrived_list p v) (frame_range first n) ps ds /\
     frame_bytes received = codec_join ps ds /\
     pending v' = CommitPendingFrame (commit_ms r) (codec_ts p) received
       (codec_key ps (codec_join ps ds)) last true (tracked_by r p v)).
Proof.
  unfold assembles. fold (arrived_list p v) (marked_by p v) (tracked_by r p v). intros [Hok H].
  split; [exact Hok|]. destruct (GetFrameSequenceRange _ _) as [[[first last] n]|] eqn:Er.
  - destruct (range_received _ _ _ _) eqn:Hr.
    + destruct H as (ps & ds & received & Hs & Hc & Hw & Hst & Hen & Hp). rewrite Hw, Hst, Hen. split_and!.
      * intros k q. rewrite erase_range_lookup. by case_decide.
      * intros t k [_ Hk]%lookup_delete_Some. exact Hk.
      * intros t k [_ Hk]%lookup_delete_Some. exact Hk.
      * right. exists first, last, n, ps, ds, received. split_and!; try done.
        pose proof (CreateReceivedFrame_bytes (frame_us r) (codec_join ps ds) (codec_ts p) (rtp_timestamp_mapper_ v)) as Hb.
        by rewrite Hc in Hb.
    + destruct H as (-> & -> & -> & _ & ->). split_and!; try done. by left.
  - destruct H as (-> & -> & -> & _ & ->). split_and!; try done. by left.
Qed.

Lemma arrived_true f p v :
  sent_ok f -> genuine f p -> stored_true f (codec_waiting (assembly v)) -> stored_true f (arrived_list p v).
Proof.
  intros (_ & _ & Hf & _) Hg Hs k q. unfold arrived_list. intros [[<- <-]|[_ Hq]]%lookup_insert_Some; [|by apply Hs].
  intros Ht. destruct (Hg Ht) as (i & d & Hi). exists i, d. split; [done|]. by apply Hf in Hi as (_ & -> & _).
Qed.

Lemma tracked_true f r p v : pending_true f (pending v) -> pending_true f (tracked_by r p v).
Proof.
  intros H g [[= Ht Hg]|Hin]%elem_of_insert Hc; [|by apply H]. subst g. cbn in Hc |- *.
  rewrite <- Ht in Hc |- *. destruct (pending_find _ _) as [g|] eqn:Hg; [|done].
  apply pending_find_in in Hg. destruct (H g Hg Hc) as (b & Hb). by exists b.
Qed.

(** A commit of the frame with what was sent; or of another frame. *)
Lemma committed_true f now ts received key last require s :
  pending_true f s ->
  (ts = sf_timestamp f -> frame_bytes received = sent_bytes f /\ key = sent_key f) ->
  pending_true f (CommitPendingFrame now ts received key last require s).
Proof.
  intros H Hc. destruct (CommitPendingFrame_cases now ts received key last require s) as [->|(h & -> & Hh & _ & Hk')]; [exact H|].
  intros g [[= Ht Hg]|Hin]%elem_of_insert Hcg; [|by apply H]. subst g. destruct (Hc (eq_sym Ht)) as [Hb Hk].
  exists received. rewrite Hk'. by split_and!.
Qed.

Lemma holds_fragment f r p v v' :
  sent_ok f -> holds f v -> arrival_ok p -> genuine f p -> codec_kind p = Fragment -> assembles r p v v' -> holds f v'.
Proof.
  intros Hf [Ha Hr Hm Hs Hp] (Hu & Hpay) Hg Hk Has.
  apply assembles_cases in Has as (Hok & Hw & Hst & Hen & Hcase).
  assert (marks_true f (marked_by p v)) as Hm' by (by apply marked_true). pose proof (arrived_true f p v Hf Hg Hs) as Hs'.
  constructor; [exact Hok| | |..].
  - intros k q Hq. apply (readable_insert (codec_seq p) p _ Hr Hpay k). by apply Hw.
  - destruct Hm' as [H1 H2]. split; intros k Hq; [by apply H1, Hst|by apply H2, Hen].
  - intros k q Hq. apply Hs'. by apply Hw.
  - destruct Hcase as [->|(first & last & n & ps & ds & received & Er & Hrec & Hsto & Hb & ->)]; [by apply tracked_true|].
    apply committed_true; [by apply tracked_true|]. intros Ht. destruct (Hg Ht) as (i & d & Hi).
    destruct (sent_part f i p d Hf Hi Hk) as [Hparts _]. unfold sent_key. rewrite (sent_parts_bytes f Hparts). rewrite Ht in *.
    apply (sent_range f) in Er as (-> & -> & ->); [|done|exact Hm'].
    destruct (stored_sent f _ ps ds Hf Hs' Hrec Hsto) as [-> ->]. done.
Qed.

(** A packet that is a frame of its own. *)
Lemma genuine_whole f p : sent_ok f -> genuine f p -> codec_kind p = Whole -> codec_ts p = sf_timestamp f ->
  exists d, sf_packets f = [(p, d)] /\ Payload (codec_rtp p) = Some d.
Proof.
  intros (_ & _ & Hf & Hc) Hg Hk Ht. destruct (Hg Ht) as (i & d & Hi). exists d. split; [|by apply Hf in Hi as (_ & _ & ?)].
  destruct Hc as [Hc|(q & e & E & _)]; [apply Hc in Hi as [? _]; congruence|].
  rewrite E in Hi. apply list_lookup_singleton_Some in Hi as [_ [= <- <-]]. done.
Qed.

Lemma holds_whole f r p v v' :
  sent_ok f -> holds f v -> genuine f p -> codec_kind p = Whole -> commits r p v v' -> holds f v'.
Proof.
  intros Hf [Ha Hr Hm Hs Hp] Hg Hk (d & received & Hpay & Hc & Hasm & Hpend).
  constructor; rewrite ?Hasm; try done. rewrite Hpend. apply committed_true; [exact Hp|]. intros Ht.
  destruct (genuine_whole f p Hf Hg Hk Ht) as (d' & E & Hd'). assert (d' = d) as -> by congruence.
  pose proof (CreateReceivedFrame_bytes (frame_us r) (codec_whole p d) (codec_ts p) (rtp_timestamp_mapper_ v)) as Hb.
  rewrite Hc in Hb. unfold sent_key, sent_bytes. rewrite E, Hk. done.
Qed.

Lemma holds_arrives f r p v :
  sent_ok f -> holds f v -> arrival_ok p -> genuine f p ->
  exists v', codec_process r p v = Some v' /\ takes r p v v' /\ holds f v'.
Proof.
  intros Hf Hv Hok Hg. destruct (codec_process_ok r p v (holds_assembly _ _ Hv) (proj1 Hok) (holds_readable _ _ Hv) (proj2 Hok))
    as (v' & E & Ht). exists v'. split; [done|]. split; [done|]. unfold takes in Ht. destruct (codec_kind p) eqn:Hk.
  - by eapply holds_fragment.
  - by eapply holds_whole.
  - by subst v'.
Qed.

(** ** Lemmas: a step of either thread *)

Lemma holds_drop f ts v :
  holds f v -> holds f (set_assembly (DropFrameAssembly ts (assembly v)) v).
Proof.
  intros [[Hb Ha] Hr [Hst Hen] Hs Hp]. constructor; cbn [assembly set_assembly pending]; [| | |..].
  - split; [exact Hb|]. intros t k Hk. cbn in Hk. apply lookup_delete_Some in Hk as [_ Hk]. by apply (Ha t).
  - intros k q. rewrite codec_drop_ok. intros [Hq _]%map_lookup_filter_Some. by apply (Hr k).
  - split; intros k Hk; cbn in Hk; apply lookup_delete_Some in Hk as [_ Hk]; auto.
  - intros k q. rewrite codec_drop_ok. intros [Hq _]%map_lookup_filter_Some. by apply Hs.
  - exact Hp.
Qed.

Lemma holds_round f timing now nack v :
  holds f v ->
  let '(ds, s) := frame_step (RoundOp timing now nack) (pending v) in
  Forall (delivery_sent f) ds /\ holds f (set_pending s v).
Proof.
  intros [Ha Hr Hm Hs Hp]. cbn [frame_step].
  assert (forall s, pending_true f s -> holds f (set_pending s v)) as Hset by (intros s Hs'; by constructor).
  destruct (release_round timing now nack (pending v)) as [[[r nack'] s]|] eqn:E;
    [|split; [constructor|by apply Hset]].
  apply release_round_cases in E as (ts & g & rest & E & C).
  assert (forall awaiting complete discarded, pending_true f (mkPending rest awaiting complete discarded)) as Hrest
    by (intros a c d x Hx; apply Hp; rewrite E; by right).
  destruct C as [key nack' Hc Ho -> _ _|awaiting _ _|_ _ _|r stall fir Hn _ _ _ _]; unfold round_delivery.
  - split; [|apply Hset, Hrest]. cbn.
    destruct (frame g) as [b|] eqn:Hb; [|constructor]. constructor; [|constructor].
    intros Ht. cbn in Ht. subst ts. destruct (Hp g) as (b' & Hb' & H1 & H2); [rewrite E; left|done|].
    exists b'. split; [cbn; congruence|]. by split.
  - split; [constructor|apply Hset, Hrest].
  - split; [constructor|apply Hset, Hrest].
  - rewrite Hn. split; [constructor|]. apply Hset. intros x [[= Ht Hx]|Hin]%elem_of_cons Hcx; [|by apply (Hrest false None None)].
    subst x. cbn in Hcx |- *. destruct (Hp g) as (b & Hb); [rewrite E, Ht; left|done|]. by exists b.
Qed.

Lemma holds_step f op v :
  sent_ok f -> holds f v -> op_genuine f op ->
  exists ds v', receiver_step op v = Some (ds, v') /\ Forall (delivery_sent f) ds /\ holds f v'.
Proof.
  intros Hf Hv Hop. destruct op as [r p|ts| |timing now nack]; cbn [receiver_step op_genuine] in *.
  - destruct Hop as [Hok Hg]. destruct (holds_arrives f r p v Hf Hv Hok Hg) as (v' & -> & _ & Hv').
    exists [], v'. split; [done|]. split; [constructor|done].
  - eexists [], _. split; [done|]. split; [constructor|]. by apply holds_drop.
  - cbn. eexists [], _. split; [done|]. split; [constructor|]. destruct Hv. by constructor.
  - pose proof (holds_round f timing now nack v Hv) as H.
    destruct (frame_step (RoundOp timing now nack) (pending v)) as [ds s]. by exists ds, (set_pending s v).
Qed.

Lemma holds_run f ops v :
  sent_ok f -> holds f v -> Forall (op_genuine f) ops ->
  exists ds v', receiver_run ops v = Some (ds, v') /\ Forall (delivery_sent f) ds /\ holds f v'.
Proof.
  intros Hf. revert v. induction ops as [|op ops IH]; intros v Hv Hops; cbn [receiver_run].
  - exists [], v. split; [done|]. split; [constructor|done].
  - apply Forall_cons_1 in Hops as [Hop Hops].
    destruct (holds_step f op v Hf Hv Hop) as (ds & v1 & -> & Hds & Hv1). cbn [mbind option_bind].
    destruct (IH v1 Hv1 Hops) as (ds' & v2 & -> & Hds' & Hv2). cbn [mbind option_bind].
    exists (ds ++ ds'), v2. split; [done|]. split; [by apply Forall_app|done].
Qed.

Lemma holds_new f m : holds f (new_video_frames m).
Proof.
  constructor; cbn.
  - by split.
  - intros k q. by rewrite codec_empty, lookup_empty.
  - by split.
  - intros k q. by rewrite codec_empty, lookup_empty.
  - intros g Hg. by apply elem_of_nil in Hg.
Qed.

(** ** Lemmas: a frame becomes complete *)

(** The packets that arrived. *)
Definition came (ops : list ReceiverOp) (p : P) : Prop := exists r, Arrives r p ∈ ops.

Definition complete_in (f : SentFrame) (s : PendingFrames) : Prop :=
  exists g, pending_find (sf_timestamp f) (pending_frames_ s) = Some g /\ is_complete g = true.

(** Those of the frame that arrived are stored and marked. *)
Definition gathered (f : SentFrame) (ops : list ReceiverOp) (l : gmap Z P) (a : FrameAssembly) : Prop :=
  forall i p d, sf_packets f !! i = Some (p, d) -> came ops p ->
    l !! SequenceNumberAt (sf_start f) (Z.of_nat i) = Some p /\
    (i = 0%nat -> fua_start_sequence_numbers_ a !! sf_timestamp f = Some (sf_start f)) /\
    (S i = length (sf_packets f) -> fua_end_sequence_numbers_ a !! sf_timestamp f = Some (sent_last f)).

Definition lacks (f : SentFrame) (ops : list ReceiverOp) : Prop :=
  exists i p d, sf_packets f !! i = Some (p, d) /\ ~ came ops p.

(** Packets of other frames have numbers of their own. *)
Definition apart (f : SentFrame) (p : P) : Prop :=
  codec_ts p <> sf_timestamp f -> codec_seq p ∉ frame_range (sf_start f) (sent_count f).

Lemma complete_tracked f r p v : complete_in f (pending v) -> complete_in f (tracked_by r p v).
Proof.
  intros (g & Hg & Hc). unfold complete_in, tracked_by, TrackPendingFramePacket. cbn [pending_frames_ set_frames].
  rewrite pending_find_insert. case_decide as Ht; [|by exists g].
  eexists. split; [done|]. by rewrite <- Ht, Hg.
Qed.

Lemma complete_commit f now ts received key last require s :
  complete_in f s \/ (ts = sf_timestamp f /\ (is_Some (pending_find ts (pending_frames_ s)) \/ require = false)) ->
  complete_in f (CommitPendingFrame now ts received key last require s).
Proof.
  intros H. unfold complete_in, CommitPendingFrame.
  assert (forall g, is_complete g = true -> exists g', pending_find (sf_timestamp f)
    (pending_frames_ (set_frames (pending_insert ts g (pending_frames_ s)) s)) = Some g' /\ is_complete g' = true) as Hi.
  { intros g Hg. cbn [pending_frames_ set_frames]. rewrite pending_find_insert. case_decide as Ht; [by eexists|].
    destruct H as [H|[E _]]; [exact H|congruence]. }
  destruct (pending_find ts (pending_frames_ s)) as [g|] eqn:Hg; [by apply Hi|].
  destruct require; [|by apply Hi]. destruct H as [H|[_ [[? ?]|?]]]; [exact H|done..].
Qed.

Lemma tracked_find r p v : is_Some (pending_find (codec_ts p) (pending_frames_ (tracked_by r p v))).
Proof.
  unfold tracked_by, TrackPendingFramePacket. cbn [pending_frames_ set_frames].
  rewrite pending_find_insert, decide_True by done. by eexists.
Qed.

Lemma sent_index f i j p d p' d' :
  sent_ok f -> sf_packets f !! i = Some (p, d) -> sf_packets f !! j = Some (p', d') ->
  codec_seq p = codec_seq p' -> i = j.
Proof.
  intros (_ & Hn & Hf & _) Hi Hj. pose proof (lookup_lt_Some _ _ _ Hi). pose proof (lookup_lt_Some _ _ _ Hj).
  apply Hf in Hi as (_ & -> & _). apply Hf in Hj as (_ & -> & _). unfold sent_count, zlen, kMaxPacketsPerFrame in Hn.
  intros E. apply SequenceNumberAt_inj in E; lia.
Qed.

Lemma came_snoc ops r p q : came (ops ++ [Arrives r p]) q -> came ops q \/ q = p.
Proof.
  intros (r' & [H|H]%elem_of_app); [left; by exists r'|right].
  apply list_elem_of_singleton in H. by injection H.
Qed.

(** A packet of the frame is stored and marked. *)
Lemma gathered_own f ops r p v :
  sent_ok f -> genuine f p -> codec_kind p = Fragment -> codec_ts p = sf_timestamp f -> marks_true f (marked_by p v) ->
  gathered f ops (codec_waiting (assembly v)) (assembly v) ->
  gathered f (ops ++ [Arrives r p]) (arrived_list p v) (marked_by p v).
Proof.
  intros Hf Hg Hk Ht [Hs He] H j q d Hj Hc. destruct (Hg Ht) as (i & d' & Hi). pose proof Hf as (_ & _ & Hp & _).
  destruct (proj1 (sent_part f i p d' Hf Hi Hk) j q d Hj) as (_ & Hqst & Hqen).
  pose proof (Hp j q d Hj) as (Hqt & Hqs & _). pose proof (Hp i p d' Hi) as (_ & Hps & _).
  rewrite <- Hqs. unfold arrived_list. unfold marked_by in *. cbn in Hs, He |- *. rewrite Ht in *.
  destruct (decide (codec_seq p = codec_seq q)) as [E|E].
  - pose proof (sent_index f i j p d' q d Hf Hi Hj E) as ->. rewrite Hi in Hj. injection Hj as -> ->.
    split; [apply lookup_insert_eq|]. split; intros Hj.
    + rewrite Hqst in Hs |- *. subst. cbn in Hs |- *. rewrite lookup_insert_eq in Hs |- *. f_equal. by apply Hs.
    + rewrite Hqen, Hj, Nat.eqb_refl in He |- *. rewrite lookup_insert_eq in He |- *. f_equal. by apply He.
  - apply came_snoc in Hc as [Hc | ->]; [|done]. destruct (H j q d Hj Hc) as (Hw & Hst & Hen). rewrite Hqs in E |- *.
    split; [by rewrite lookup_insert_ne|]. split; intros Hj'.
    + specialize (Hst Hj'). destruct (codec_start p); [|done]. rewrite lookup_insert_eq in Hs |- *. f_equal. by apply Hs.
    + specialize (Hen Hj'). destruct (codec_end p); [|done]. rewrite lookup_insert_eq in He |- *. f_equal. by apply He.
Qed.

(** A packet of another frame changes nothing. *)
Lemma gathered_other f ops r p v :
  sent_ok f -> apart f p -> codec_ts p <> sf_timestamp f ->
  gathered f ops (codec_waiting (assembly v)) (assembly v) ->
  gathered f (ops ++ [Arrives r p]) (arrived_list p v) (marked_by p v).
Proof.
  intros Hf Ha Ht H j q d Hj Hc. pose proof Hf as (_ & Hn & Hp & _).
  pose proof (Hp j q d Hj) as (Hqt & Hqs & _).
  apply came_snoc in Hc as [Hc | ->]; [|done]. destruct (H j q d Hj Hc) as (Hw & Hst & Hen).
  assert (codec_seq p <> SequenceNumberAt (sf_start f) (Z.of_nat j)) as Hne.
  { intros E. apply (Ha Ht). rewrite E. apply list_elem_of_lookup. exists j. apply frame_range_lookup.
    split; [|done]. apply lookup_lt_Some in Hj. unfold sent_count, zlen. lia. }
  unfold arrived_list, marked_by. cbn. split; [by rewrite lookup_insert_ne|].
  split; intros Hj'; [specialize (Hst Hj'); destruct (codec_start p)|specialize (Hen Hj'); destruct (codec_end p)];
    by rewrite ?lookup_insert_ne.
Qed.

(** When the range is not known or not received, a packet has not arrived. *)
Lemma unfinished f ops l a :
  sent_ok f -> marks_true f a -> gathered f ops l a ->
  match GetFrameSequenceRange (sf_timestamp f) a with
  | Some (first, _, n) => range_received codec_rtp (sf_timestamp f) (frame_range first n) l = false
  | None => True
  end -> lacks f ops.
Proof.
  intros Hf Hm H Hr. pose proof Hf as (Hu & Hn & Hp & _). unfold sent_count, zlen in Hn.
  assert (forall i, (i < length (sf_packets f))%nat -> exists p d, sf_packets f !! i = Some (p, d)) as Hat.
  { intros i Hi. apply lookup_lt_is_Some in Hi as [[p d] Hi]. by exists p, d. }
  destruct (GetFrameSequenceRange (sf_timestamp f) a) as [[[first last] n]|] eqn:E.
  - apply (sent_range f) in E as (-> & -> & ->); [|done|exact Hm].
    apply forallb_false in Hr as (k & Hk & Hbad).
    apply list_elem_of_lookup in Hk as (i & Hk). apply frame_range_lookup in Hk as [Hi ->].
    destruct (Hat i) as (p & d & Hpd); [unfold sent_count, zlen in Hi; lia|].
    exists i, p, d. split; [done|]. intros Hc. destruct (H i p d Hpd Hc) as (Hl & _). rewrite Hl in Hbad.
    apply Hp in Hpd as (Ht & _). unfold codec_ts in Ht. rewrite Ht, Z.eqb_refl in Hbad. done.
  - clear Hr. destruct Hm as [Hs He]. unfold GetFrameSequenceRange in E.
    destruct (fua_start_sequence_numbers_ a !! _) as [k|] eqn:Es.
    + destruct (fua_end_sequence_numbers_ a !! _) as [k'|] eqn:Ee.
      * rewrite (Hs k eq_refl), (He k' eq_refl) in E. unfold sent_last in E.
        rewrite FramePacketCount_range in E by (unfold sent_count, zlen; lia).
        unfold sent_count, zlen in E. case_match; [b2p; lia|done].
      * destruct (Hat (length (sf_packets f) - 1)%nat) as (p & d & Hpd); [lia|].
        exists (length (sf_packets f) - 1)%nat, p, d. split; [done|]. intros Hc.
        destruct (H _ p d Hpd Hc) as (_ & _ & He'). rewrite Ee in He'. specialize (He' ltac:(lia)). done.
    + destruct (Hat 0%nat) as (p & d & Hpd); [lia|]. exists 0%nat, p, d. split; [done|]. intros Hc.
      destruct (H _ p d Hpd Hc) as (_ & Hs' & _). rewrite Es in Hs'. by specialize (Hs' eq_refl).
Qed.

(** While the frame is not complete, its packets gather. *)
Definition gathers (f : SentFrame) (ops : list ReceiverOp) (v : VideoFrames) : Prop :=
  complete_in f (pending v) \/
  (gathered f ops (codec_waiting (assembly v)) (assembly v) /\ lacks f ops).

Lemma gathers_own f ops r p v v' :
  sent_ok f -> holds f v -> genuine f p -> codec_kind p = Fragment -> codec_ts p = sf_timestamp f ->
  gathered f ops (codec_waiting (assembly v)) (assembly v) -> assembles r p v v' ->
  gathers f (ops ++ [Arrives r p]) v'.
Proof.
  intros Hf Hh Hg Hk Ht H Ha. assert (marks_true f (marked_by p v)) as Hm by (by apply marked_true; [..|apply Hh]).
  pose proof (gathered_own f ops r p v Hf Hg Hk Ht Hm H) as Hg'.
  pose proof (unfinished f _ _ _ Hf Hm Hg') as Hun. unfold assembles in Ha.
  fold (arrived_list p v) (marked_by p v) (tracked_by r p v) in Ha. rewrite Ht in Ha. destruct Ha as [_ Ha].
  destruct (GetFrameSequenceRange (sf_timestamp f) (marked_by p v)) as [[[first last] n]|].
  - destruct (range_received _ _ _ _).
    + left. destruct Ha as (ps & ds & received & _ & _ & _ & _ & _ & ->). apply complete_commit. right.
      split; [done|]. left. rewrite <- Ht. apply tracked_find.
    + right. destruct Ha as (Hw & Hst & Hen & _). split; [|by apply Hun]. unfold gathered. by rewrite Hw, Hst, Hen.
  - right. destruct Ha as (Hw & Hst & Hen & _). split; [|by apply Hun]. unfold gathered. by rewrite Hw, Hst, Hen.
Qed.

Lemma lacks_other f ops r p :
  sent_ok f -> codec_ts p <> sf_timestamp f -> lacks f ops -> lacks f (ops ++ [Arrives r p]).
Proof.
  intros (_ & _ & Hp & _) Ht (i & q & d & Hi & Hc). exists i, q, d. split; [done|].
  intros [H | ->]%came_snoc; [done|]. by apply Hp in Hi as (E & _).
Qed.

Lemma gathers_other f ops r p v v' :
  sent_ok f -> apart f p -> codec_ts p <> sf_timestamp f ->
  gathered f ops (codec_waiting (assembly v)) (assembly v) -> lacks f ops -> assembles r p v v' ->
  gathers f (ops ++ [Arrives r p]) v'.
Proof.
  intros Hf Hap Ht H Hl Ha. pose proof (gathered_other f ops r p v Hf Hap Ht H) as Hg.
  right. split; [|by apply lacks_other]. unfold assembles in Ha.
  fold (arrived_list p v) (marked_by p v) (tracked_by r p v) in Ha. destruct Ha as [_ Ha].
  destruct (GetFrameSequenceRange _ _) as [[[first last] n]|];
    [destruct (range_received _ _ _ _) eqn:Hr|];
    [|destruct Ha as (Hw & Hst & Hen & _); unfold gathered; by rewrite Hw, Hst, Hen..].
  destruct Ha as (ps & ds & received & _ & _ & Hw' & Hst' & Hen' & _). intros i q d Hi Hc.
  rewrite Hw', Hst', Hen'. destruct (Hg i q d Hi Hc) as (Hw & Hst & Hen). destruct Hf as (_ & _ & Hp & _). apply Hp in Hi as (Hqt & _).
  split; [|by rewrite !lookup_delete_ne].
  rewrite erase_range_lookup, decide_False; [exact Hw|]. intros Hin%list_elem_of_In.
  unfold range_received in Hr. rewrite forallb_forall in Hr. specialize (Hr _ Hin). rewrite Hw in Hr. b2p.
  apply Ht. rewrite <- Hqt. symmetry. exact Hr.
Qed.

(** The own packet of a frame of one packet, and a packet without effect. *)
Lemma gathers_whole f ops r p v v' :
  sent_ok f -> codec_kind p = Whole -> gathers f ops v -> commits r p v v' -> gathers f (ops ++ [Arrives r p]) v'.
Proof.
  intros Hf Hk Hv (d & received & _ & _ & Hasm & Hpend). unfold gathers. rewrite Hasm, Hpend.
  destruct (decide (codec_ts p = sf_timestamp f)) as [Ht|Ht]; [left; apply complete_commit; right; auto|].
  destruct Hv as [Hc|[H Hl]]; [left; apply complete_commit; by left|]. right. split; [|by apply lacks_other].
  intros i q e Hi [Hc | ->]%came_snoc; [by apply (H i q e)|]. destruct Hf as (_ & _ & Hp & _). by apply Hp in Hi as [? _].
Qed.

Lemma gathers_ignored f ops r p v :
  sent_ok f -> codec_kind p = Ignored -> genuine f p -> gathers f ops v -> gathers f (ops ++ [Arrives r p]) v.
Proof.
  intros Hf Hk Hg [Hc|[H Hl]]; [by left|].
  assert (codec_ts p <> sf_timestamp f) as Ht.
  { intros Ht. destruct (Hg Ht) as (i & d & Hi). destruct Hf as (_ & _ & _ & [Hp|(q & e & E & Hq)]).
    - apply Hp in Hi as [? _]. congruence.
    - rewrite E in Hi. apply list_lookup_singleton_Some in Hi as [_ [= <- <-]]. congruence. }
  right. split; [|by apply lacks_other].
  intros i q e Hi [Hc | ->]%came_snoc; [by apply (H i q e)|]. destruct Hf as (_ & _ & Hp & _). by apply Hp in Hi as [? _].
Qed.

Lemma gathers_step f ops r p v v' :
  sent_ok f -> holds f v -> genuine f p -> apart f p -> gathers f ops v -> takes r p v v' ->
  gathers f (ops ++ [Arrives r p]) v'.
Proof.
  intros Hf Hh Hg Hap Hv Ht. unfold takes in Ht. destruct (codec_kind p) eqn:Hk; [|by eapply gathers_whole|subst v'; by apply gathers_ignored].
  destruct Hv as [Hc|[H Hl]].
  - left. apply assembles_cases in Ht as (_ & _ & _ & _ & Hcase). pose proof (complete_tracked f r p v Hc) as Hc'.
    destruct Hcase as [->|(first & last & n & ps & ds & received & _ & _ & _ & _ & ->)]; [done|].
    apply complete_commit. by left.
  - destruct (decide (codec_ts p = sf_timestamp f)); [by eapply gathers_own|by eapply gathers_other].
Qed.

Definition arrival_of (f : SentFrame) (op : ReceiverOp) : Prop :=
  match op with Arrives _ p => arrival_ok p /\ genuine f p /\ apart f p | _ => False end.

Lemma gathers_run f pre ops v :
  sent_ok f -> holds f v -> Forall (arrival_of f) ops -> gathers f pre v ->
  exists v', receiver_run ops v = Some ([], v') /\ holds f v' /\ gathers f (pre ++ ops) v'.
Proof.
  intros Hf. revert pre v. induction ops as [|op ops IH]; intros pre v Hv Hops Hg; cbn [receiver_run].
  - exists v. by rewrite app_nil_r.
  - apply Forall_cons_1 in Hops as [Hop Hops]. destruct op as [r p| | |]; try done. destruct Hop as (Hok & Hge & Hap).
    cbn [receiver_step]. destruct (holds_arrives f r p v Hf Hv Hok Hge) as (v1 & -> & Ha & Hv1). cbn [mbind option_bind].
    destruct (IH (pre ++ [Arrives r p]) v1 Hv1 Hops) as (v2 & -> & Hv2 & Hg2); [exact (gathers_step f pre r p v v1 Hf Hv Hge Hap Hg Ha)|].
    exists v2. rewrite <- app_assoc in Hg2. by split_and!.
Qed.

Lemma gathers_new f m : sent_ok f -> gathers f [] (new_video_frames m).
Proof.
  intros (_ & Hn & _ & _). unfold sent_count, zlen in Hn.
  assert (forall p, ~ came [] p) as Hno by (intros p (r & Hr); by apply elem_of_nil in Hr).
  right. split; [intros i p d _ Hc; by apply Hno in Hc|].
  destruct (sf_packets f) as [|[p d] l] eqn:E; [cbn in Hn; lia|]. exists 0%nat, p, d. split; [by rewrite E|apply Hno].
Qed.
(** The packets of the frame itself. *)
Lemma own_arrival f r p d : sent_ok f -> (p, d) ∈ sf_packets f -> arrival_of f (Arrives r p).
Proof.
  intros (_ & _ & Hp & _) Hin. apply list_elem_of_lookup in Hin as (i & Hi).
  pose proof (Hp i p d Hi) as (Ht & Hs & Hpay). split; [|split].
  - split; [rewrite Hs; apply u16_range|by exists d].
  - intros _. by exists i, d.
  - intros Hne. done.
Qed.

Lemma own_arrivals f r ps :
  sent_ok f -> Forall (fun p => p ∈ map fst (sf_packets f)) ps -> Forall (arrival_of f) (map (Arrives r) ps).
Proof.
  intros Hf H. induction H as [|p ps Hp _ IH]; [constructor|]. constructor; [|exact IH].
  apply list_elem_of_fmap in Hp as ((q & d) & -> & Hin). by eapply own_arrival.
Qed.

Lemma arrival_genuine f ops : Forall (arrival_of f) ops -> Forall (op_genuine f) ops.
Proof.
  intros H. eapply List.Forall_impl; [|exact H]. intros [r p| | |]; cbn; try done. by intros (? & ? & ?).
Qed.

Lemma completes_when_all_came f ops m :
  sent_ok f -> Forall (arrival_of f) ops -> (forall i p d, sf_packets f !! i = Some (p, d) -> came ops p) ->
  exists v g, receiver_run ops (new_video_frames m) = Some ([], v) /\
    pending_find (sf_timestamp f) (pending_frames_ (pending v)) = Some g /\ is_complete g = true /\
    frame_sent f g.
Proof.
  intros Hf Hops Hall.
  destruct (gathers_run f [] ops _ Hf (holds_new f m) Hops (gathers_new f m Hf)) as (v & Hv & Hh & Hg).
  destruct Hg as [(g & Hfind & Hc)|[_ (i & p & d & Hi & Hno)]]; [|by apply Hall in Hi].
  exists v, g. split_and!; [done..|]. apply (holds_pending _ _ Hh); [|done]. by apply pending_find_in.
Qed.

(** ** Properties *)

(** C4. Frames are delivered as they were sent: for any frame, in parts or in one
    packet, whose packets are the only ones with its timestamp, and any run of a
    new receiver in which packets of any kind arrive in any order, are lost,
    repeated or belong to other frames, frames are dropped at any time and the
    worker delivers or gives up frames at any time, the receiver never reads or
    writes outside its buffers, and what it delivers under the timestamp of the
    frame is the bytes sent, with the key flag they have. *)
Theorem delivered_as_sent (f : SentFrame) (ops : list ReceiverOp) (m : RtpTimestampMapper) :
  sent_ok f -> Forall (op_genuine f) ops ->
  exists ds v, receiver_run ops (new_video_frames m) = Some (ds, v) /\ Forall (delivery_sent f) ds.
Proof.
  intros Hf Hops. destruct (holds_run f ops _ Hf (holds_new f m) Hops) as (ds & v & Hr & Hds & _).
  by exists ds, v.
Qed.

(** C5. A frame, in parts or in one packet, is complete as soon as all its packets
    have arrived at a new receiver, before the worker runs: in whatever order and
    however often they come, and whatever packets of other frames, of any kind,
    come in between, as long as those have timestamps and sequence numbers of
    their own. *)
Theorem complete_when_arrived (f : SentFrame) (ops : list ReceiverOp) (m : RtpTimestampMapper) :
  sent_ok f -> Forall (arrival_of f) ops -> (forall i p d, sf_packets f !! i = Some (p, d) -> came ops p) ->
  exists v g, receiver_run ops (new_video_frames m) = Some ([], v) /\
    pending_find (sf_timestamp f) (pending_frames_ (pending v)) = Some g /\ is_complete g = true /\
    frame_sent f g.
Proof. apply completes_when_all_came. Qed.
End arrivals.

Arguments SentFrame P : clear implicits.
Arguments ReceiverOp P : clear implicits.

(** ** The frames of a packetizer

    The packets of a train as the receiver reads them, with their payloads. *)

Definition wire_sent {P} (st : Packetizer) (ts : Z) (read : nat -> RtpPacket -> P)
    (pkts : list RtpPacket) (ds : list (list Z)) : SentFrame P :=
  mkSent ts (u16 (pz_sequence_number st + 1)) (zip (imap read pkts) ds).

Section wire.
Context {P : Type} {codec : FrameCodec P}.
Context (st : Packetizer) (ts : Z) (read : nat -> RtpPacket -> P) (pkts : list RtpPacket) (ds : list (list Z)).
Context (Hlen : length ds = length pkts).

Lemma wire_sent_packets :
  map fst (sf_packets (wire_sent st ts read pkts ds)) = imap read pkts /\
  map snd (sf_packets (wire_sent st ts read pkts ds)) = ds.
Proof. cbn [wire_sent sf_packets]. split; [apply fst_zip|apply snd_zip]; rewrite length_imap; lia. Qed.

Lemma wire_sent_length : length (sf_packets (wire_sent st ts read pkts ds)) = length pkts.
Proof. destruct wire_sent_packets as [_ H]. rewrite <- Hlen. apply (f_equal length) in H. by rewrite length_map in H. Qed.

Lemma wire_sent_at i h d :
  sf_packets (wire_sent st ts read pkts ds) !! i = Some (h, d) ->
  exists p, pkts !! i = Some p /\ h = read i p /\ ds !! i = Some d.
Proof.
  cbn [wire_sent sf_packets]. rewrite lookup_zip_with_Some. intros (h' & d' & [= -> ->] & Hh & Hd).
  rewrite list_lookup_imap in Hh. destruct (pkts !! i) as [p|]; [|done]. injection Hh as <-. by exists p.
Qed.

(** What reading a packet keeps, and what it tells. *)
Definition reads (i : nat) (p : RtpPacket) (d : list Z) : Prop :=
  let h := read i p in
  codec_ts h = timestamp_ p /\ codec_seq h = sequence_number_ p /\ Payload (codec_rtp h) = Some d.

Definition reads_kind (i : nat) (p : RtpPacket) : Prop :=
  let h := read i p in
  codec_kind h = Fragment /\ codec_start h = Nat.eqb i 0 /\ codec_end h = Nat.eqb (S i) (length pkts) \/
  codec_kind h = Whole /\ length pkts = 1%nat.

Lemma wire_sent_ok :
  0 < zlen pkts <= kMaxPacketsPerFrame ->
  (forall i p d, pkts !! i = Some p -> ds !! i = Some d ->
    packet_of_train st ts (length pkts) i p /\ reads i p d /\ reads_kind i p) ->
  sent_ok (wire_sent st ts read pkts ds).
Proof.
  intros Hn H. split; [apply u16_range|]. split; [unfold sent_count, zlen; rewrite wire_sent_length; exact Hn|]. split.
  - intros i h d Hi. apply wire_sent_at in Hi as (p & Hp & -> & Hd).
    destruct (H i p d Hp Hd) as [(Hseq & Hst & _) [(Ht & Hs & Hpay) _]].
    rewrite Ht, Hs. split; [exact Hst|]. split; [|done].
    rewrite Hseq. cbn [wire_sent sf_start]. unfold SequenceNumberAt, u16. rewrite Zplus_mod_idemp_l. f_equal. lia.
  - assert (forall i h d, sf_packets (wire_sent st ts read pkts ds) !! i = Some (h, d) ->
      codec_kind h = Fragment /\ codec_start h = Nat.eqb i 0 /\ codec_end h = Nat.eqb (S i) (length pkts) \/
      codec_kind h = Whole /\ length pkts = 1%nat) as Hkind.
    { intros i h d Hi. apply wire_sent_at in Hi as (p & Hp & -> & Hd). by destruct (H i p d Hp Hd) as (_ & _ & Hk). }
    pose proof wire_sent_length as Hl. unfold in_parts, in_one. rewrite Hl.
    destruct (sf_packets (wire_sent st ts read pkts ds)) as [|[h d] l] eqn:E; [left; by intros i p d|].
    destruct (Hkind 0%nat h d eq_refl) as [_|[Hk H1]].
    + destruct (decide (length pkts = 1%nat)) as [H1|H1].
      * destruct l; [|cbn in Hl; lia]. destruct (Hkind 0%nat h d eq_refl) as [Hk|[Hk _]]; [left|right; by exists h, d].
        intros i p e Hi. apply list_lookup_singleton_Some in Hi as [-> [= <- <-]]. exact Hk.
      * left. intros i p e Hi. destruct (Hkind i p e Hi) as [Hk|[_ ?]]; done.
    + right. destruct l; [|cbn in Hl; lia]. by exists h, d.
Qed.

(** Once they all have arrived, the frame is there. *)
Lemma wire_arrives {laws : FrameCodecLaws P} ops m :
  sent_ok (wire_sent st ts read pkts ds) -> Forall (arrival_of (wire_sent st ts read pkts ds)) ops ->
  Forall (came ops) (imap read pkts) ->
  exists v g b, receiver_run ops (new_video_frames m) = Some ([], v) /\
    pending_find ts (pending_frames_ (pending v)) = Some g /\ is_complete g = true /\ frame g = Some b /\
    frame_bytes b = sent_bytes (wire_sent st ts read pkts ds) /\ is_keyframe g = sent_key (wire_sent st ts read pkts ds).
Proof.
  intros Hok Hops Hall. destruct wire_sent_packets as [Hfst Hsnd].
  destruct (completes_when_all_came _ ops m Hok Hops) as (v & g & Hr & Hg & Hc & b & Hfb & Hbytes & Hkey).
  - intros i h d Hi. apply (Forall_lookup_1 _ _ i h Hall). rewrite <- Hfst, list_lookup_fmap, Hi. done.
  - exists v, g, b. by split_and!.
Qed.

Lemma wire_parts_bytes : (forall i p, pkts !! i = Some p -> codec_kind (read i p) = Fragment) ->
  sent_bytes (wire_sent st ts read pkts ds) = codec_join (imap read pkts) ds /\
  sent_key (wire_sent st ts read pkts ds) = codec_key (imap read pkts) (codec_join (imap read pkts) ds).
Proof.
  intros H. assert (sent_bytes (wire_sent st ts read pkts ds) = codec_join (imap read pkts) ds) as E.
  { destruct wire_sent_packets as [Hfst Hsnd]. unfold sent_bytes. rewrite Hfst, Hsnd.
    destruct (sf_packets (wire_sent st ts read pkts ds)) as [|[h d] [|]] eqn:E; try done.
    destruct (wire_sent_at 0 h d) as (p & Hp & -> & _); [by rewrite E|]. rewrite (H 0%nat p Hp).
    cbn [map fst snd] in Hfst, Hsnd. by rewrite <- Hfst, <- Hsnd. }
  unfold sent_key. by rewrite E, (proj1 wire_sent_packets).
Qed.
End wire.

(** ** H.264 *)

Definition h264_packets (st : Packetizer) (payload : list Z) (ts : Z) : list RtpPacket :=
  packets (train st ts (length (h264_payloads payload)) (h264_payloads payload)).

Definition h264_sent (st : Packetizer) (payload : list Z) (ts osn : Z) (hdr : FU_HEADER) : SentFrame RtpPacketH264 :=
  wire_sent st ts (fun i p => depacketized payload osn hdr p i) (h264_packets st payload ts) (h264_fragments payload).

Lemma h264_packets_length st payload ts :
  length (h264_fragments payload) = length (h264_packets st payload ts) /\
  length (h264_packets st payload ts) = length (h264_payloads payload).
Proof. unfold h264_packets. by rewrite h264_fragments_length, packets_length, train_length. Qed.

Section h264.
Context (st : Packetizer) (payload : list Z) (ts osn : Z) (hdr : FU_HEADER).
Context (Hok : pz_ok st) (Hpt : pz_payload_type st <> payload_type_value RTX) (Hts : is_u32 ts).
Context (Hb : bytes payload) (Hz : zlen payload <= kMaxPacketsPerFrame * MAX_NALU_LEN).

Lemma h264_packet_count : 0 < zlen (h264_packets st payload ts) <= kMaxPacketsPerFrame.
Proof.
  unfold zlen. destruct (h264_packets_length st payload ts) as [<- _]. unfold h264_fragments. pose proof (zlen_nonneg payload).
  destruct (Z.leb_spec (zlen payload) MAX_NALU_LEN); [by vm_compute|]. rewrite chunks_length.
  pose proof (packet_count_spec (zlen payload) ltac:(lia)).
  unfold MAX_NALU_LEN, kMaxPacketsPerFrame in *. lia.
Qed.

Lemma h264_one_packet : zlen payload <= MAX_NALU_LEN -> length (h264_packets st payload ts) = 1%nat.
Proof.
  intros H. destruct (h264_packets_length st payload ts) as [<- _]. unfold h264_fragments.
  by replace (zlen payload <=? MAX_NALU_LEN) with true by lia.
Qed.

Lemma h264_sent_ok : sent_ok (h264_sent st payload ts osn hdr).
Proof.
  destruct (h264_packets_length st payload ts) as [Hl Hn].
  apply wire_sent_ok; [exact Hl|exact h264_packet_count|]. intros i p d Hp Hd. rewrite Hn.
  destruct (h264_packet_received st payload ts osn (mkFuIndicator 0 0 0) hdr i p d Hok Hpt Hts Hb) as (Htr & _ & Hq);
    [unfold MAX_NALU_LEN, kMaxPacketsPerFrame in *; lia|done|done|].
  split; [exact Htr|]. unfold reads, reads_kind, codec_ts, codec_seq. pose proof h264_one_packet as H1. rewrite Hn in H1 |- *.
  cbn [codec_rtp codec_kind codec_start codec_end h264_codec]. unfold depacketized in *.
  destruct (Z.leb_spec (zlen payload) MAX_NALU_LEN); cbn [h264_packet] in *.
  - split; [done|]. right. split; [done|by apply H1].
  - split; [done|]. left. split_and!; try done; unfold FuAStart, FuAEnd; cbn [fu_header_ fu_start fu_end];
      [by destruct (Nat.eqb i 0)|by destruct (Nat.eqb (S i) (length (h264_payloads payload)))].
Qed.

(** The byte that the receiver puts in front. *)
Definition h264_extra_byte : Z := if zlen payload <=? MAX_NALU_LEN then 33 else 28.

Lemma h264_sent_joined : sent_bytes (h264_sent st payload ts osn hdr) = h264_extra_byte :: payload.
Proof.
  pose proof h264_packet_count as Hn. destruct (h264_packets_length st payload ts) as [Hl _]. unfold h264_extra_byte.
  destruct (Z.leb_spec (zlen payload) MAX_NALU_LEN) as [H|H].
  - pose proof (h264_one_packet H) as H1. unfold h264_sent, wire_sent, sent_bytes, h264_fragments. cbn [sf_packets].
    replace (zlen payload <=? MAX_NALU_LEN) with true by lia.
    destruct (h264_packets st payload ts) as [|p [|]]; [done| |done].
    cbn [imap zip zip_with]. unfold depacketized. by replace (zlen payload <=? MAX_NALU_LEN) with true by lia.
  - unfold h264_sent. destruct (wire_parts_bytes st ts (fun i p => depacketized payload osn hdr p i)
      (h264_packets st payload ts) (h264_fragments payload) Hl) as [-> _].
    + intros i p _. unfold depacketized. by replace (zlen payload <=? MAX_NALU_LEN) with false by lia.
    + cbn [codec_join h264_codec]. rewrite concat_h264_fragments.
      destruct (h264_packets st payload ts) as [|p l]; [unfold zlen in Hn; cbn [length] in Hn; lia|].
      cbn [imap]. unfold depacketized. by replace (zlen payload <=? MAX_NALU_LEN) with false by lia.
Qed.
End h264.

(** C6. From the H.264 encoder to the frame list: a frame of any length (up to
    4096 packets), cut up by [BuildH264] and read by the receiver whatever its
    objects held, is complete once its packets have arrived at a new receiver,
    in any order and any number of times, among any packets of other frames, in
    parts or in one, that have other timestamps and sequence numbers; it holds
    the bytes of the encoder, behind one header byte that the receiver adds: 33
    when the frame was sent in one packet, else 28. *)
Theorem h264_frame_arrives (st : Packetizer) (payload : list Z) (ts osn : Z) (ind : FU_INDICATOR)
    (hdr : FU_HEADER) (ops : list (ReceiverOp RtpPacketH264)) (m : RtpTimestampMapper) :
  pz_ok st -> pz_payload_type st <> payload_type_value RTX -> is_u32 ts -> bytes payload ->
  zlen payload <= kMaxPacketsPerFrame * MAX_NALU_LEN ->
  exists pkts st' hs, BuildH264 st payload (zlen payload) ts = Some (pkts, st') /\
    Forall2 (fun p h => Build new_packet (buffer_ p) (zlen (buffer_ p)) = Some (true, p) /\
                        GetFrameHeaderInfo (received osn ind hdr p) = Some (true, h)) pkts hs /\
    (Forall (arrival_of (h264_sent st payload ts osn hdr)) ops -> Forall (came ops) hs ->
     exists v g b, receiver_run ops (new_video_frames m) = Some ([], v) /\
       pending_find ts (pending_frames_ (pending v)) = Some g /\ is_complete g = true /\
       frame g = Some b /\ frame_bytes b = (if zlen payload <=? MAX_NALU_LEN then 33 else 28) :: payload).
Proof.
  intros Hok Hpt Hts Hb Hz. assert (zlen payload < 4294967296) as Hz'
    by (unfold MAX_NALU_LEN, kMaxPacketsPerFrame in Hz; lia).
  rewrite BuildH264_train by done. destruct (h264_packets_length st payload ts) as [Hl _].
  eexists _, _, (imap (fun i p => depacketized payload osn hdr p i) (h264_packets st payload ts)).
  split; [reflexivity|]. split.
  - apply Forall2_same_length_lookup. split; [by rewrite length_imap|]. fold (h264_packets st payload ts).
    intros i p h Hp Hh. rewrite list_lookup_imap, Hp in Hh. injection Hh as <-.
    destruct (lookup_lt_is_Some_2 (h264_fragments payload) i) as [d Hd]; [rewrite Hl; by eapply lookup_lt_Some|].
    destruct (h264_packet_received st payload ts osn ind hdr i p d Hok Hpt Hts Hb Hz' Hp Hd)
      as ((_ & _ & _ & _ & _ & _ & Hbuild) & Hg & _). by split.
  - intros Hops Hall.
    destruct (wire_arrives st ts _ _ _ Hl ops m (h264_sent_ok st payload ts osn hdr Hok Hpt Hts Hb Hz) Hops Hall)
      as (v & g & b & Hr & Hg & Hc & Hfb & Hbytes & _).
    exists v, g, b. fold (h264_sent st payload ts osn hdr) in Hbytes. rewrite h264_sent_joined in Hbytes by done. by split_and!.
Qed.

(** ** AV1 *)

Section av1.
Context (st : Packetizer) (us : list ObuUnit) (ts : Z).
Context (Hok : pz_ok st) (Hts : is_u32 ts) (Hus : units_ok us).

Definition av1_pieces : list (list Z) := frame_pieces (map obu_of_unit us).
Definition av1_wire : list (list Z) :=
  av1_payloads (current_frame_is_key_frame st) (length av1_pieces) av1_pieces.
Definition av1_packets : list RtpPacket := packets (train st ts (length av1_wire) av1_wire).
Definition av1_read (i : nat) (p : RtpPacket) : RtpPacketAv1 :=
  depacketized_av1 (current_frame_is_key_frame st) (length av1_pieces) i p.
Definition av1_sent : SentFrame RtpPacketAv1 := wire_sent st ts av1_read av1_packets av1_pieces.

Lemma av1_packets_length : length av1_pieces = length av1_packets /\ length av1_wire = length av1_packets.
Proof.
  unfold av1_packets. rewrite packets_length, train_length. split; [|done].
  unfold av1_wire, av1_payloads. by rewrite length_imap.
Qed.

Lemma av1_sent_ok : 0 < zlen av1_packets <= kMaxPacketsPerFrame -> sent_ok av1_sent.
Proof.
  intros Hn. destruct av1_packets_length as [Hl Hw]. apply wire_sent_ok; [exact Hl|exact Hn|].
  intros i p d Hp Hd.
  destruct (av1_packet_received st (map obu_of_unit us) ts 0 0 0 0 0 i p d Hok Hts (units_obus_ok us Hus) Hp Hd)
    as (Htr & _ & Hq). fold av1_pieces av1_wire in Htr. rewrite Hw in Htr. split; [exact Htr|].
  destruct (depacketized_av1_flags (current_frame_is_key_frame st) (length av1_pieces) i p) as (Hs & He & _).
  unfold reads, reads_kind. rewrite <- Hl. split; [by split_and!|]. left. by split_and!.
Qed.
End av1.

(** C7. From the AV1 encoder to the frame list: the same for the units of an AV1
    frame cut up by [BuildAv1]; what the frame holds is exactly the bytes of the
    encoder, and it is a key frame if the encoder said so. *)
Theorem av1_frame_arrives (st : Packetizer) (us : list ObuUnit) (ts a z y w n : Z)
    (ops : list (ReceiverOp RtpPacketAv1)) (m : RtpTimestampMapper) :
  pz_ok st -> is_u32 ts -> units_ok us -> 0 < zlen (av1_packets st us ts) <= kMaxPacketsPerFrame ->
  let frame_data := flat_map unit_bytes us in
  exists pkts st' hs, BuildAv1 st frame_data (zlen frame_data) ts = Some (pkts, st') /\
    Forall2 (fun p h => Build new_packet (buffer_ p) (zlen (buffer_ p)) = Some (true, p) /\
                        GetFrameHeaderInfoAv1 (received_av1 a z y w n p) = Some (true, h)) pkts hs /\
    (Forall (arrival_of (av1_sent st us ts)) ops -> Forall (came ops) hs ->
     exists v g b, receiver_run ops (new_video_frames m) = Some ([], v) /\
       pending_find ts (pending_frames_ (pending v)) = Some g /\ is_complete g = true /\
       frame g = Some b /\ frame_bytes b = frame_data /\ is_keyframe g = current_frame_is_key_frame st).
Proof.
  intros Hok Hts Hus Hn frame_data. pose proof (units_obus_ok us Hus) as Ho.
  rewrite (BuildAv1_train st frame_data (map obu_of_unit us) ts Hok Hts Ho (ParseObus_units us Hus)).
  destruct (av1_packets_length st us ts) as [Hl Hw].
  eexists _, _, (imap (av1_read st us) (av1_packets st us ts)). split; [reflexivity|]. split.
  - apply Forall2_same_length_lookup. split; [by rewrite length_imap|]. fold (av1_pieces us) (av1_wire st us) (av1_packets st us ts).
    intros i p h Hp Hh. rewrite list_lookup_imap, Hp in Hh. injection Hh as <-.
    destruct (lookup_lt_is_Some_2 (av1_pieces us) i) as [d Hd]; [rewrite Hl; by eapply lookup_lt_Some|].
    destruct (av1_packet_received st (map obu_of_unit us) ts a z y w n i p d Hok Hts Ho Hp Hd)
      as ((_ & _ & _ & _ & _ & _ & Hbuild) & Hg & _). by split.
  - intros Hops Hall.
    destruct (wire_arrives st ts _ _ _ Hl ops m (av1_sent_ok st us ts Hok Hts Hus Hn) Hops Hall)
      as (v & g & b & Hr & Hg & Hc & Hfb & Hbytes & Hkey).
    destruct (wire_parts_bytes st ts (av1_read st us) (av1_packets st us ts) (av1_pieces us) Hl) as [Hpb Hpk]; [done|].
    rewrite Hpb in Hbytes. rewrite Hpk in Hkey.
    exists v, g, b. split_and!; try done.
    + rewrite Hbytes. cbn [codec_join av1_codec]. unfold av1_pieces. rewrite concat_frame_pieces. apply concat_units.
    + rewrite Hkey. destruct (av1_packets st us ts) as [|p l]; [unfold zlen in Hn; cbn [length] in Hn; lia|].
      cbn [imap codec_key av1_codec]. destruct (depacketized_av1_flags (current_frame_is_key_frame st) (length (av1_pieces us)) 0 p) as (_ & _ & H).
      unfold av1_read. rewrite H. by rewrite andb_true_r.
Qed.

(** ** Samples

    The packets come in the opposite order, and then all a second time; in the
    first run the worker then delivers the frame, and it is dropped. *)

Definition sample_readings : Readings := mkReadings 1 1000 1 0.
Definition backwards {P} (f : SentFrame P) : list (ReceiverOp P) :=
  map (Arrives sample_readings) (rev (map fst (sf_packets f)) ++ map fst (sf_packets f)).

Lemma backwards_of {P} {codec : FrameCodec P} (f : SentFrame P) :
  sent_ok f -> Forall (arrival_of f) (backwards f).
Proof.
  intros Hf. apply own_arrivals; [exact Hf|]. apply list.Forall_forall. intros p [Hp|Hp]%elem_of_app; [|exact Hp].
  apply list_elem_of_In. apply in_rev. by apply list_elem_of_In.
Qed.

Lemma backwards_came {P} {codec : FrameCodec P} (f : SentFrame P) : Forall (came (backwards f)) (map fst (sf_packets f)).
Proof.
  apply list.Forall_forall. intros p Hp. exists sample_readings. unfold backwards.
  apply list_elem_of_fmap. exists p. split; [done|]. apply elem_of_app. by right.
Qed.

Definition sample_header : FU_HEADER := mkFuHeader 1 1 1 1.
Definition sample_h264_frame : SentFrame RtpPacketH264 :=
  h264_sent sample_packetizer (replicate 2301 5) 9000 0 sample_header.

Lemma sample_h264_frame_ok : sent_ok sample_h264_frame.
Proof.
  apply h264_sent_ok; [exact sample_packetizer_ok|discriminate|unfold is_u32; lia| |].
  - apply Forall_replicate. unfold is_u8. lia.
  - unfold zlen. rewrite length_replicate. unfold MAX_NALU_LEN, kMaxPacketsPerFrame. lia.
Qed.

(** A frame in one packet, which is sent next. *)
Definition sample_small_frame : SentFrame RtpPacketH264 :=
  h264_sent (advance 3 sample_packetizer) [0; 0; 1; 65; 7] 12000 0 sample_header.

Lemma sample_small_frame_ok : sent_ok sample_small_frame.
Proof.
  apply h264_sent_ok; [apply pz_ok_advance, sample_packetizer_ok|discriminate|unfold is_u32; lia| |by vm_compute].
  repeat (constructor; [unfold is_u8; lia|]). constructor.
Qed.

(** Its packet comes among those of the other frame. *)
Definition interleaved : list (ReceiverOp RtpPacketH264) := backwards sample_small_frame ++ backwards sample_h264_frame.

Lemma interleaved_arrivals : Forall (arrival_of sample_h264_frame) interleaved.
Proof.
  apply Forall_app. split; [|apply backwards_of, sample_h264_frame_ok]. apply Forall_map, list.Forall_forall.
  assert (forall p, p ∈ map fst (sf_packets sample_small_frame) -> arrival_of sample_h264_frame (Arrives sample_readings p)) as H.
  { intros p ((q & d) & -> & Hin)%list_elem_of_fmap. cbn [fst].
    destruct (own_arrival _ sample_readings q d sample_small_frame_ok Hin) as (Hok & _ & _).
    apply list_elem_of_lookup in Hin as (i & Hi). pose proof sample_small_frame_ok as (_ & _ & Hp & _).
    destruct (Hp i q d Hi) as (Ht & Hs & _). apply lookup_lt_Some in Hi. destruct i; [|vm_compute in Hi; lia].
    split; [exact Hok|]. split; [intros E; rewrite Ht in E; discriminate|]. intros _. rewrite Hs.
    apply (bool_decide_unpack _). by vm_compute. }
  intros p [Hp|Hp]%elem_of_app; apply H; [|exact Hp]. apply list_elem_of_In, in_rev. by apply list_elem_of_In.
Qed.

Lemma delivered_as_sent_witness :
  let ops := interleaved ++
               [Rounds (mkTiming 80 0 200) 2 new_requester; Drops 9000; Asks; Rounds (mkTiming 80 0 200) 500 new_requester] in
  exists ds v, receiver_run ops (new_video_frames (new_mapper 90000)) = Some (ds, v) /\
    Forall (delivery_sent sample_h264_frame) ds.
Proof.
  apply delivered_as_sent; [exact sample_h264_frame_ok|]. apply Forall_app. split.
  - apply arrival_genuine, interleaved_arrivals.
  - repeat constructor.
Defined.

Lemma complete_when_arrived_witness :
  exists v g, receiver_run interleaved (new_video_frames (new_mapper 90000)) = Some ([], v) /\
    pending_find (sf_timestamp sample_h264_frame) (pending_frames_ (pending v)) = Some g /\ is_complete g = true /\
    frame_sent sample_h264_frame g.
Proof.
  apply complete_when_arrived; [exact sample_h264_frame_ok|exact interleaved_arrivals|].
  intros i p d Hi. destruct (Forall_lookup_1 _ _ i p (backwards_came sample_h264_frame)) as (r & Hr);
    [by rewrite list_lookup_fmap, Hi|]. exists r. apply elem_of_app. by right.
Defined.

Lemma h264_frame_arrives_witness :
  let payload := replicate 2301 5 in
  exists pkts st' hs, BuildH264 sample_packetizer payload (zlen payload) 9000 = Some (pkts, st') /\
    Forall2 (fun p h => Build new_packet (buffer_ p) (zlen (buffer_ p)) = Some (true, p) /\
      GetFrameHeaderInfo (received 0 (mkFuIndicator 1 1 1) sample_header p) = Some (true, h)) pkts hs /\
    (Forall (arrival_of sample_h264_frame) (backwards sample_h264_frame) -> Forall (came (backwards sample_h264_frame)) hs ->
     exists v g b, receiver_run (backwards sample_h264_frame) (new_video_frames (new_mapper 90000)) = Some ([], v) /\
       pending_find 9000 (pending_frames_ (pending v)) = Some g /\ is_complete g = true /\
       frame g = Some b /\ frame_bytes b = (if zlen payload <=? MAX_NALU_LEN then 33 else 28) :: payload).
Proof.
  apply (h264_frame_arrives sample_packetizer (replicate 2301 5) 9000 0 (mkFuIndicator 1 1 1) sample_header
    (backwards sample_h264_frame) (new_mapper 90000)).
  - exact sample_packetizer_ok.
  - discriminate.
  - unfold is_u32. lia.
  - apply Forall_replicate. unfold is_u8. lia.
  - unfold zlen. rewrite length_replicate. unfold MAX_NALU_LEN, kMaxPacketsPerFrame. lia.
Defined.

Definition sample_av1_packetizer : Packetizer := SetIsKeyFrame true sample_packetizer.
Lemma sample_av1_packetizer_ok : pz_ok sample_av1_packetizer.
Proof. exact sample_packetizer_ok. Qed.

Lemma av1_frame_arrives_witness :
  let frame_data := flat_map unit_bytes sample_units in
  let ops := backwards (av1_sent sample_av1_packetizer sample_units 3000) in
  exists pkts st' hs, BuildAv1 sample_av1_packetizer frame_data (zlen frame_data) 3000 = Some (pkts, st') /\
    Forall2 (fun p h => Build new_packet (buffer_ p) (zlen (buffer_ p)) = Some (true, p) /\
                        GetFrameHeaderInfoAv1 (received_av1 0 1 1 3 1 p) = Some (true, h)) pkts hs /\
    (Forall (arrival_of (av1_sent sample_av1_packetizer sample_units 3000)) ops -> Forall (came ops) hs ->
     exists v g b, receiver_run ops (new_video_frames (new_mapper 90000)) = Some ([], v) /\
       pending_find 3000 (pending_frames_ (pending v)) = Some g /\ is_complete g = true /\
       frame g = Some b /\ frame_bytes b = frame_data /\
       is_keyframe g = current_frame_is_key_frame sample_av1_packetizer).
Proof.
  apply (av1_frame_arrives sample_av1_packetizer sample_units 3000 0 1 1 3 1).
  - exact sample_av1_packetizer_ok.
  - unfold is_u32. lia.
  - exact sample_units_ok.
  - vm_compute. by split.
Defined.
