(* ===== verification/PacketQueue.v ===== *)
(** * The prioritized packet queue

    [PrioritizedPacketQueue] of [src/qos/prioritized_packet_queue.cc], which the
    pacer takes its packets from: five priority levels, at each level one queue
    per stream, served in turn; with the totals and the time accounting that the
    pacer reads, and the dropping of packets that waited too long.

    A [StreamQueue*] is the SSRC it is stored under, and following a pointer to
    a queue that is not stored any more is [None]; so is reading the front of an
    empty queue, or erasing a list node twice.  [enqueue_times_] pairs each node
    of the list with its identity, which is what an iterator holds.  A packet
    pointer is never null: [Push] has read through it. *)

From stdpp Require Import fin_maps.
From S2P Require Import Prelude Units RtpPacket RtpToSend.

(** src/qos/prioritized_packet_queue.cc:34-63 [GetPriorityForType] *)
Definition GetPriorityForType (type : RtpPacketMediaType) (original : option OriginalType) : Z :=
  let kAudioPrioLevel := 0 in
  match type with
  | kAudio => kAudioPrioLevel
  | kRetransmission =>
      match original with
      | Some kOriginalVideo => kAudioPrioLevel + 2
      | _ => kAudioPrioLevel + 1
      end
  | kVideo | kForwardErrorCorrection => kAudioPrioLevel + 3
  | kPadding => kAudioPrioLevel + 4
  end.

(** src/qos/prioritized_packet_queue.h:106-106 [PrioritizedPacketQueue::kNumPriorityLevels] *)
Definition kNumPriorityLevels : nat := 5.

(** [Timestamp - TimeDelta]. *)
(** src/common/api/units/timestamp.h:81-88 [Timestamp::operator-] *)
Definition timestamp_sub (a delta : Z) : Z :=
  if (a =? PlusInfinity) || (delta =? MinusInfinity) then PlusInfinity
  else if (a =? MinusInfinity) || (delta =? PlusInfinity) then MinusInfinity
  else a - delta.

(** ** The queue of a stream *)

(** src/qos/prioritized_packet_queue.h:108-115 [PrioritizedPacketQueue::QueuedPacket] *)
Record QueuedPacket := mkQueued {
  packet : RtpPacketToSend;
  enqueue_time : Z;
  enqueue_time_iterator : Z;
}.

(** src/qos/prioritized_packet_queue.cc:83-85 [PrioritizedPacketQueue::QueuedPacket::PacketSize] *)
Definition PacketSize (p : QueuedPacket) : Z :=
  payload_size_ (rtp_packet (packet p)) + padding_size_ (rtp_packet (packet p)).

(** src/qos/prioritized_packet_queue.h:142-146 [PrioritizedPacketQueue::StreamQueue] *)
Record StreamQueue := mkStream {
  sq_packets : list (list QueuedPacket);
  last_enqueue_time_ : Z;
  num_keyframe_packets_ : Z;
}.

(** src/qos/prioritized_packet_queue.cc:87-88 [PrioritizedPacketQueue::StreamQueue::StreamQueue] *)
Definition new_stream (creation_time : Z) : StreamQueue :=
  mkStream (replicate kNumPriorityLevels []) creation_time 0.

(** src/qos/prioritized_packet_queue.cc:90-98 [PrioritizedPacketQueue::StreamQueue::EnqueuePacket] *)
Definition EnqueuePacket (p : QueuedPacket) (priority_level : Z) (sq : StreamQueue)
    : option (bool * StreamQueue) :=
  let num := if is_key_frame_ (packet p) then num_keyframe_packets_ sq + 1
             else num_keyframe_packets_ sq in
  ps ← rd (sq_packets sq) priority_level;
  l ← wr (sq_packets sq) priority_level (ps ++ [p]);
  Some (match ps with [] => true | _ => false end, mkStream l (last_enqueue_time_ sq) num).

(** src/qos/prioritized_packet_queue.cc:100-113 [PrioritizedPacketQueue::StreamQueue::DequeuePacket] *)
Definition DequeuePacket (priority_level : Z) (sq : StreamQueue)
    : option (QueuedPacket * StreamQueue) :=
  ps ← rd (sq_packets sq) priority_level;
  match ps with
  | [] => None
  | p :: ps =>
      l ← wr (sq_packets sq) priority_level ps;
      let num := if is_key_frame_ (packet p) then num_keyframe_packets_ sq - 1
                 else num_keyframe_packets_ sq in
      Some (p, mkStream l (last_enqueue_time_ sq) num)
  end.

(** src/qos/prioritized_packet_queue.cc:115-118 [PrioritizedPacketQueue::StreamQueue::HasPacketsAtPrio] *)
Definition HasPacketsAtPrio (priority_level : Z) (sq : StreamQueue) : option bool :=
  ps ← rd (sq_packets sq) priority_level;
  Some (match ps with [] => false | _ => true end).

(** src/qos/prioritized_packet_queue.cc:120-127 [PrioritizedPacketQueue::StreamQueue::IsEmpty] *)
Definition IsEmpty (sq : StreamQueue) : bool :=
  forallb (fun ps => match ps with [] => true | _ => false end) (sq_packets sq).

(** src/qos/prioritized_packet_queue.cc:129-132 [PrioritizedPacketQueue::StreamQueue::LeadingPacketEnqueueTime] *)
Definition StreamLeadingPacketEnqueueTime (priority_level : Z) (sq : StreamQueue) : option Z :=
  ps ← rd (sq_packets sq) priority_level;
  match ps with [] => None | p :: _ => Some (enqueue_time p) end.

(** src/qos/prioritized_packet_queue.cc:138-147 [PrioritizedPacketQueue::StreamQueue::DequeueAll] *)
Definition DequeueAll (sq : StreamQueue) : list (list QueuedPacket) * StreamQueue :=
  (sq_packets sq, mkStream (replicate kNumPriorityLevels []) (last_enqueue_time_ sq) 0).

(** src/qos/prioritized_packet_queue.h:138-138 [PrioritizedPacketQueue::StreamQueue::has_keyframe_packets] *)
Definition has_keyframe_packets (sq : StreamQueue) : bool := 0 <? num_keyframe_packets_ sq.

(** ** The totals *)

(** The members that the packets of all streams add up to. *)
(** src/qos/prioritized_packet_queue.h:163-195 [PrioritizedPacketQueue] *)
Record QueueTotals := mkTotals {
  queue_time_sum_ : Z;
  pause_time_sum_ : Z;
  size_packets_ : Z;
  size_packets_per_media_type_ : list Z;
  size_payload_ : Z;
  last_update_time_ : Z;
  paused_ : bool;
  enqueue_times_ : list (Z * Z);     (* node, time *)
  next_node : Z;                     (* identity of the next node allocated *)
}.

(** src/qos/prioritized_packet_queue.h:160-195 [PrioritizedPacketQueue] *)
Record PrioritizedPacketQueue := mkPQ {
  prioritize_audio_retransmission_ : bool;
  time_to_live_per_prio_ : list Z;
  totals : QueueTotals;
  last_culling_time_ : Z;
  streams_ : gmap Z StreamQueue;
  streams_by_prio_ : list (list Z);
  top_active_prio_level_ : Z;
}.

Definition set_totals (t : QueueTotals) (q : PrioritizedPacketQueue) : PrioritizedPacketQueue :=
  mkPQ (prioritize_audio_retransmission_ q) (time_to_live_per_prio_ q) t (last_culling_time_ q)
    (streams_ q) (streams_by_prio_ q) (top_active_prio_level_ q).
Definition set_streams (m : gmap Z StreamQueue) (q : PrioritizedPacketQueue)
    : PrioritizedPacketQueue :=
  mkPQ (prioritize_audio_retransmission_ q) (time_to_live_per_prio_ q) (totals q)
    (last_culling_time_ q) m (streams_by_prio_ q) (top_active_prio_level_ q).
Definition set_by_prio (l : list (list Z)) (q : PrioritizedPacketQueue)
    : PrioritizedPacketQueue :=
  mkPQ (prioritize_audio_retransmission_ q) (time_to_live_per_prio_ q) (totals q)
    (last_culling_time_ q) (streams_ q) l (top_active_prio_level_ q).
Definition set_top (i : Z) (q : PrioritizedPacketQueue) : PrioritizedPacketQueue :=
  mkPQ (prioritize_audio_retransmission_ q) (time_to_live_per_prio_ q) (totals q)
    (last_culling_time_ q) (streams_ q) (streams_by_prio_ q) i.
Definition set_culling (t : Z) (q : PrioritizedPacketQueue) : PrioritizedPacketQueue :=
  mkPQ (prioritize_audio_retransmission_ q) (time_to_live_per_prio_ q) (totals q) t
    (streams_ q) (streams_by_prio_ q) (top_active_prio_level_ q).

(** src/qos/prioritized_packet_queue.h:33-38 [PacketQueueTTL] *)
Record PacketQueueTTL := mkTTL {
  audio_retransmission : Z;
  video_retransmission : Z;
  video : Z;
}.

(** src/qos/prioritized_packet_queue.cc:67-81 [PrioritizedPacketQueue::ToTtlPerPrio] *)
Definition ToTtlPerPrio (ttl : PacketQueueTTL) : list Z :=
  let l := replicate kNumPriorityLevels PlusInfinity in
  let l := <[Z.to_nat (GetPriorityForType kRetransmission (Some kOriginalAudio)) :=
             audio_retransmission ttl]> l in
  let l := <[Z.to_nat (GetPriorityForType kRetransmission (Some kOriginalVideo)) :=
             video_retransmission ttl]> l in
  <[Z.to_nat (GetPriorityForType kVideo None) := video ttl]> l.

(** src/qos/prioritized_packet_queue.cc:149-162 [PrioritizedPacketQueue::PrioritizedPacketQueue] *)
Definition new_queue (creation_time : Z) (prioritize_audio_retransmission : bool)
    (packet_queue_ttl : PacketQueueTTL) : PrioritizedPacketQueue :=
  mkPQ prioritize_audio_retransmission (ToTtlPerPrio packet_queue_ttl)
    (mkTotals 0 0 0 (replicate 5 0) 0 creation_time false [] 0)
    creation_time ∅ (replicate kNumPriorityLevels []) (-1).

(** src/qos/prioritized_packet_queue.cc:306-320 [PrioritizedPacketQueue::UpdateAverageQueueTime] *)
Definition UpdateAverageQueueTime (now : Z) (t : QueueTotals) : QueueTotals :=
  if now =? last_update_time_ t then t else
  let delta := timestamp_diff now (last_update_time_ t) in
  if paused_ t then
    mkTotals (queue_time_sum_ t) (unit_add (pause_time_sum_ t) delta) (size_packets_ t)
      (size_packets_per_media_type_ t) (size_payload_ t) now (paused_ t) (enqueue_times_ t)
      (next_node t)
  else
    mkTotals (unit_add (queue_time_sum_ t) (unit_mul delta (size_packets_ t)))
      (pause_time_sum_ t) (size_packets_ t)
      (size_packets_per_media_type_ t) (size_payload_ t) now (paused_ t) (enqueue_times_ t)
      (next_node t).

(** src/qos/prioritized_packet_queue.cc:322-325 [PrioritizedPacketQueue::SetPauseState] *)
Definition SetPauseState (paused : bool) (now : Z) (q : PrioritizedPacketQueue)
    : PrioritizedPacketQueue :=
  let t := UpdateAverageQueueTime now (totals q) in
  set_totals (mkTotals (queue_time_sum_ t) (pause_time_sum_ t) (size_packets_ t)
    (size_packets_per_media_type_ t) (size_payload_ t) (last_update_time_ t) paused
    (enqueue_times_ t) (next_node t)) q.

(** [std::list::erase] of a node. *)
Fixpoint erase_node (node : Z) (l : list (Z * Z)) : option (list (Z * Z)) :=
  match l with
  | [] => None
  | e :: l' => if e.1 =? node then Some l' else l' ← erase_node node l'; Some (e :: l')
  end.

(** src/qos/prioritized_packet_queue.cc:375-404 [PrioritizedPacketQueue::DequeuePacketInternal] *)
Definition DequeuePacketInternal (p : QueuedPacket) (t : QueueTotals)
    : option (RtpPacketToSend * QueueTotals) :=
  packet_type ← packet_type_ (packet p);
  n ← rd (size_packets_per_media_type_ t) (media_type_index packet_type);
  per_type ← wr (size_packets_per_media_type_ t) (media_type_index packet_type) (n - 1);
  let time_in_non_paused_state :=
    unit_sub (timestamp_diff (last_update_time_ t) (enqueue_time p)) (pause_time_sum_ t) in
  times ← erase_node (enqueue_time_iterator p) (enqueue_times_ t);
  Some (set_time_in_send_queue time_in_non_paused_state (packet p),
    mkTotals (unit_sub (queue_time_sum_ t) time_in_non_paused_state) (pause_time_sum_ t)
      (size_packets_ t - 1) per_type (unit_sub (size_payload_ t) (PacketSize p))
      (last_update_time_ t) (paused_ t) times (next_node t)).

(** ** Purging *)

(** The inner [while]: the front packets of stream [ssrc] that are too old. *)
(** src/qos/prioritized_packet_queue.cc:438-446 [PrioritizedPacketQueue::PurgeOldPacketsAtPriorityLevel] *)
Fixpoint purge_stream (fuel : nat) (prio_level now time_to_live ssrc : Z)
    (q : PrioritizedPacketQueue) : option PrioritizedPacketQueue :=
  match fuel with
  | O => None
  | S fuel' =>
      sq ← streams_ q !! ssrc;
      has ← HasPacketsAtPrio prio_level sq;
      if (has : bool) then
        leading ← StreamLeadingPacketEnqueueTime prio_level sq;
        if time_to_live <? timestamp_diff now leading then
          '(p, sq) ← DequeuePacket prio_level sq;
          '(_, t) ← DequeuePacketInternal p (totals q);
          purge_stream fuel' prio_level now time_to_live ssrc
            (set_totals t (set_streams (<[ssrc := sq]> (streams_ q)) q))
        else Some q
      else Some q
  end.

(** The outer [while]; the streams that keep packets stay in the queue. *)
(** src/qos/prioritized_packet_queue.cc:434-452 [PrioritizedPacketQueue::PurgeOldPacketsAtPriorityLevel] *)
Fixpoint purge_streams (prio_level now time_to_live : Z) (queues : list Z)
    (q : PrioritizedPacketQueue) : option (list Z * PrioritizedPacketQueue) :=
  match queues with
  | [] => Some ([], q)
  | ssrc :: queues =>
      q ← purge_stream (S (Z.to_nat (size_packets_ (totals q)))) prio_level now time_to_live ssrc q;
      sq ← streams_ q !! ssrc;
      has ← HasPacketsAtPrio prio_level sq;
      '(rest, q) ← purge_streams prio_level now time_to_live queues q;
      Some (if (has : bool) then ssrc :: rest else rest, q)
  end.

(** src/qos/prioritized_packet_queue.cc:427-453 [PrioritizedPacketQueue::PurgeOldPacketsAtPriorityLevel] *)
Definition PurgeOldPacketsAtPriorityLevel (prio_level now : Z) (q : PrioritizedPacketQueue)
    : option PrioritizedPacketQueue :=
  time_to_live ← rd (time_to_live_per_prio_ q) prio_level;
  if IsInfinite time_to_live then Some q else
  queues ← rd (streams_by_prio_ q) prio_level;
  '(queues, q) ← purge_streams prio_level now time_to_live queues q;
  l ← wr (streams_by_prio_ q) prio_level queues;
  Some (set_by_prio l q).

(** The [for] of [MaybeUpdateTopPrioLevel] from level [i] on. *)
(** src/qos/prioritized_packet_queue.cc:413-419 [PrioritizedPacketQueue::MaybeUpdateTopPrioLevel] *)
Fixpoint find_top (n : nat) (i : Z) (q : PrioritizedPacketQueue)
    : option PrioritizedPacketQueue :=
  match n with
  | O => Some q
  | S n' =>
      q ← PurgeOldPacketsAtPriorityLevel i (last_update_time_ (totals q)) q;
      queues ← rd (streams_by_prio_ q) i;
      match queues with
      | [] => find_top n' (i + 1) q
      | _ => Some (set_top i q)
      end
  end.

(** src/qos/prioritized_packet_queue.cc:406-425 [PrioritizedPacketQueue::MaybeUpdateTopPrioLevel] *)
Definition MaybeUpdateTopPrioLevel (q : PrioritizedPacketQueue)
    : option PrioritizedPacketQueue :=
  active ← (if top_active_prio_level_ q =? -1 then Some false
            else queues ← rd (streams_by_prio_ q) (top_active_prio_level_ q);
                 Some (match queues with [] => false | _ => true end));
  if (active : bool) then Some q else
  q ← find_top kNumPriorityLevels 0 q;
  Some (if size_packets_ (totals q) =? 0 then set_top (-1) q else q).

(** ** The operations *)

(** src/qos/prioritized_packet_queue.cc:203-203 [PrioritizedPacketQueue::Push] *)
Definition kTimeout : Z := 500000.

(** src/qos/prioritized_packet_queue.cc:203-214 [PrioritizedPacketQueue::Push] *)
Definition cull_streams (enqueue_time : Z) (q : PrioritizedPacketQueue) : PrioritizedPacketQueue :=
  if kTimeout <? timestamp_diff enqueue_time (last_culling_time_ q) then
    set_culling enqueue_time
      (set_streams (filter (fun e => negb (IsEmpty e.2 &&
          (timestamp_add (last_enqueue_time_ e.2) kTimeout <? enqueue_time)) = true)
        (streams_ q)) q)
  else q.

(** src/qos/prioritized_packet_queue.cc:181-194 [PrioritizedPacketQueue::Push] *)
Definition count_in (enqueue_time node : Z) (type : RtpPacketMediaType) (p : RtpPacketToSend)
    (t : QueueTotals) : option (QueuedPacket * QueueTotals) :=
  let t := UpdateAverageQueueTime enqueue_time t in
  let queued := mkQueued p (timestamp_sub enqueue_time (pause_time_sum_ t)) node in
  n ← rd (size_packets_per_media_type_ t) (media_type_index type);
  per_type ← wr (size_packets_per_media_type_ t) (media_type_index type) (n + 1);
  Some (queued, mkTotals (queue_time_sum_ t) (pause_time_sum_ t) (size_packets_ t + 1) per_type
    (unit_add (size_payload_ t) (PacketSize queued)) (last_update_time_ t) (paused_ t)
    (enqueue_times_ t) (next_node t)).

(** src/qos/prioritized_packet_queue.cc:195-198 [PrioritizedPacketQueue::Push] *)
Definition enqueue (queued : QueuedPacket) (prio_level ssrc : Z) (q : PrioritizedPacketQueue)
    : option PrioritizedPacketQueue :=
  sq ← streams_ q !! ssrc;
  '(first, sq) ← EnqueuePacket queued prio_level sq;
  let q := set_streams (<[ssrc := sq]> (streams_ q)) q in
  if (first : bool) then
    queues ← rd (streams_by_prio_ q) prio_level;
    l ← wr (streams_by_prio_ q) prio_level (queues ++ [ssrc]);
    Some (set_by_prio l q)
  else Some q.

(** src/qos/prioritized_packet_queue.cc:164-215 [PrioritizedPacketQueue::Push] *)
Definition Push (enqueue_time : Z) (p : RtpPacketToSend) (q : PrioritizedPacketQueue)
    : option PrioritizedPacketQueue :=
  let q := match streams_ q !! Ssrc p with
           | Some _ => q
           | None => set_streams (<[Ssrc p := new_stream enqueue_time]> (streams_ q)) q
           end in
  let t := totals q in
  let node := next_node t in
  let q := set_totals (mkTotals (queue_time_sum_ t) (pause_time_sum_ t) (size_packets_ t)
    (size_packets_per_media_type_ t) (size_payload_ t) (last_update_time_ t) (paused_ t)
    (enqueue_times_ t ++ [(node, enqueue_time)]) (node + 1)) q in
  packet_type ← packet_type_ p;
  let prio_level := GetPriorityForType packet_type
    (if prioritize_audio_retransmission_ q then original_packet_type_ p else None) in
  q ← PurgeOldPacketsAtPriorityLevel prio_level enqueue_time q;
  '(queued, t) ← count_in enqueue_time node packet_type p (totals q);
  q ← enqueue queued prio_level (Ssrc p) (set_totals t q);
  let q := if (top_active_prio_level_ q <? 0) || (prio_level <? top_active_prio_level_ q)
           then set_top prio_level q else q in
  Some (cull_streams enqueue_time q).

(** src/qos/prioritized_packet_queue.cc:217-236 [PrioritizedPacketQueue::Pop] *)
Definition Pop (q : PrioritizedPacketQueue)
    : option (option RtpPacketToSend * PrioritizedPacketQueue) :=
  if size_packets_ (totals q) =? 0 then Some (None, q) else
  let top := top_active_prio_level_ q in
  queues ← rd (streams_by_prio_ q) top;
  match queues with
  | [] => None
  | ssrc :: queues =>
      sq ← streams_ q !! ssrc;
      '(p, sq) ← DequeuePacket top sq;
      '(sent, t) ← DequeuePacketInternal p (totals q);
      l ← wr (streams_by_prio_ q) top queues;
      let q := set_by_prio l (set_totals t (set_streams (<[ssrc := sq]> (streams_ q)) q)) in
      has ← HasPacketsAtPrio top sq;
      q ← (if (has : bool) then
             l ← wr (streams_by_prio_ q) top (queues ++ [ssrc]);
             Some (set_by_prio l q)
           else MaybeUpdateTopPrioLevel q);
      Some (Some sent, q)
  end.

(** The packets of level [i], from the front. *)
Fixpoint dequeue_all (ps : list QueuedPacket) (t : QueueTotals) : option QueueTotals :=
  match ps with
  | [] => Some t
  | p :: ps => '(_, t) ← DequeuePacketInternal p t; dequeue_all ps t
  end.

(** The [for] over the levels. *)
(** src/qos/prioritized_packet_queue.cc:334-362 [PrioritizedPacketQueue::RemovePacketsForSsrc] *)
Fixpoint remove_levels (packets_by_prio : list (list QueuedPacket)) (i ssrc : Z)
    (q : PrioritizedPacketQueue) : option PrioritizedPacketQueue :=
  match packets_by_prio with
  | [] => Some q
  | [] :: rest => remove_levels rest (i + 1) ssrc q
  | ps :: rest =>
      t ← dequeue_all ps (totals q);
      queues ← rd (streams_by_prio_ q) i;
      l ← (if zlen queues =? 1
           then wr (streams_by_prio_ q) i (tail queues)
           else wr (streams_by_prio_ q) i (List.filter (fun s => negb (s =? ssrc)) queues));
      remove_levels rest (i + 1) ssrc (set_by_prio l (set_totals t q))
  end.

(** src/qos/prioritized_packet_queue.cc:327-365 [PrioritizedPacketQueue::RemovePacketsForSsrc] *)
Definition RemovePacketsForSsrc (ssrc : Z) (q : PrioritizedPacketQueue)
    : option PrioritizedPacketQueue :=
  q ← match streams_ q !! ssrc with
      | None => Some q
      | Some sq =>
          let '(packets_by_prio, sq) := DequeueAll sq in
          remove_levels packets_by_prio 0 ssrc (set_streams (<[ssrc := sq]> (streams_ q)) q)
      end;
  MaybeUpdateTopPrioLevel q.

(** The front packet of the first stream of a level. *)
Definition leading_time (priority_level none : Z) (q : PrioritizedPacketQueue) : option Z :=
  queues ← rd (streams_by_prio_ q) priority_level;
  match queues with
  | [] => Some none
  | ssrc :: _ => sq ← streams_ q !! ssrc; StreamLeadingPacketEnqueueTime priority_level sq
  end.

(** src/qos/prioritized_packet_queue.cc:251-259 [PrioritizedPacketQueue::LeadingPacketEnqueueTime] *)
Definition LeadingPacketEnqueueTime (type : RtpPacketMediaType) (q : PrioritizedPacketQueue)
    : option Z :=
  leading_time (GetPriorityForType type None) MinusInfinity q.

(** src/qos/prioritized_packet_queue.cc:261-292 [PrioritizedPacketQueue::LeadingPacketEnqueueTimeForRetransmission] *)
Definition LeadingPacketEnqueueTimeForRetransmission (q : PrioritizedPacketQueue) : option Z :=
  if negb (prioritize_audio_retransmission_ q)
  then leading_time (GetPriorityForType kRetransmission None) PlusInfinity q
  else
    next_audio ← leading_time (GetPriorityForType kRetransmission (Some kOriginalAudio))
                   PlusInfinity q;
    next_video ← leading_time (GetPriorityForType kRetransmission (Some kOriginalVideo))
                   PlusInfinity q;
    Some (Z.min next_audio next_video).

(** src/qos/prioritized_packet_queue.cc:294-297 [PrioritizedPacketQueue::OldestEnqueueTime] *)
Definition OldestEnqueueTime (q : PrioritizedPacketQueue) : Z :=
  match enqueue_times_ (totals q) with [] => MinusInfinity | e :: _ => e.2 end.

(** src/qos/prioritized_packet_queue.cc:299-304 [PrioritizedPacketQueue::AverageQueueTime] *)
Definition AverageQueueTime (q : PrioritizedPacketQueue) : Z :=
  if size_packets_ (totals q) =? 0 then 0
  else unit_div (queue_time_sum_ (totals q)) (size_packets_ (totals q)).

(** src/qos/prioritized_packet_queue.cc:367-373 [PrioritizedPacketQueue::HasKeyframePackets] *)
Definition HasKeyframePackets (ssrc : Z) (q : PrioritizedPacketQueue) : bool :=
  match streams_ q !! ssrc with Some sq => has_keyframe_packets sq | None => false end.
