(* ===== verification/PacketQueueOk.v ===== *)
(** * The packet queue implements a priority round robin

    [PacketQueue.v] against its specification: at each level a list of streams,
    each with its packets first in first out.  [levels] reads the specification
    off the queue, [queue_ok] is the invariant (shape of the tables, totals, the
    active level), and there is one lemma per operation. *)

From stdpp Require Import fin_maps.
From Stdlib Require Import Sorted.
From S2P Require Import Prelude Units RtpPacket RtpToSend PacketQueue.

(** ** Lemmas: sums over the packets *)

Lemma timestamp_sub_small a b : small a -> small b -> timestamp_sub a b = a - b.
Proof. intros Ha Hb. unfold timestamp_sub. finite_tests. Qed.

(** How many packets are of a type. *)
Definition of_type (ty : RtpPacketMediaType) (p : QueuedPacket) : Z :=
  Z.b2z (bool_decide (packet_type_ (packet p) = Some ty)).

Definition media_types : list RtpPacketMediaType :=
  [kAudio; kVideo; kRetransmission; kForwardErrorCorrection; kPadding].

Definition per_type (l : list QueuedPacket) : list Z :=
  map (fun ty => zsum (of_type ty) l) media_types.

Lemma per_type_rd ty l : rd (per_type l) (media_type_index ty) = Some (zsum (of_type ty) l).
Proof. by destruct ty. Qed.

(** The slot of a packet's type, one up and one down. *)
Lemma per_type_wr ty p l :
  packet_type_ (packet p) = Some ty ->
  wr (per_type l) (media_type_index ty) (zsum (of_type ty) l + 1) = Some (per_type (p :: l)) /\
  wr (per_type (p :: l)) (media_type_index ty) (zsum (of_type ty) (p :: l) - 1) = Some (per_type l).
Proof.
  intros Hp.
  assert (forall ty', of_type ty' p = Z.b2z (media_type_index ty =? media_type_index ty')) as Ho.
  { intros ty'. unfold of_type. rewrite Hp. f_equal.
    destruct ty, ty'; (apply bool_decide_eq_true_2; reflexivity) || by apply bool_decide_eq_false_2. }
  unfold per_type, media_types.
  split; (destruct ty; cbn [map zsum]; rewrite !Ho; cbn [media_type_index];
    (rewrite wr_Some by (split; [done|reflexivity]));
    cbv [insert list_insert Z.to_nat Pos.to_nat Pos.iter_op Nat.add Z.eqb Pos.eqb Z.b2z];
    repeat first [lia | f_equal]).
Qed.

(** Erasing a node that is there. *)
Lemma erase_node_ok node l :
  node ∈ map fst l -> exists l', erase_node node l = Some l' /\ map fst l ≡ₚ node :: map fst l'.
Proof.
  induction l as [|e l IH]; cbn [map erase_node]; intros Hin; [by apply not_elem_of_nil in Hin|].
  destruct (Z.eqb_spec e.1 node) as [->|Hn]; [by exists l|].
  apply elem_of_cons in Hin as [Heq|Hin]; [congruence|]. destruct (IH Hin) as (l' & -> & Hp).
  exists (e :: l'). split; [done|]. cbn [map]. rewrite Hp. apply Permutation_swap.
Qed.

(** ** Lemmas: the accounting *)

(** A queue of at most half a million packets, in use for at most fifty days. *)
Definition kMaxQueued : Z := 500000.
Definition kMaxTime : Z := 4320000000000.

(** The time a packet has waited while the queue was not paused. *)
Definition waiting (t : QueueTotals) (p : QueuedPacket) : Z :=
  last_update_time_ t - enqueue_time p - pause_time_sum_ t.

Definition packet_ok (p : QueuedPacket) : Prop :=
  is_Some (packet_type_ (packet p)) /\ 0 <= PacketSize p < 4294967296.

(** The totals are those of the packets [l]; [pending] are nodes whose packet is
    not in the queue yet. *)
Record acct (pending : list Z) (l : list QueuedPacket) (t : QueueTotals) : Prop := {
  acct_count : size_packets_ t = zlen l;
  acct_max : zlen l <= kMaxQueued;
  acct_bytes : size_payload_ t = zsum PacketSize l;
  acct_type : size_packets_per_media_type_ t = per_type l;
  acct_time : queue_time_sum_ t = zsum (waiting t) l;
  acct_waiting : Forall (fun p => 0 <= waiting t p <= last_update_time_ t) l;
  acct_clock : 0 <= pause_time_sum_ t /\ pause_time_sum_ t <= last_update_time_ t /\
               last_update_time_ t <= kMaxTime;
  acct_nodes : map fst (enqueue_times_ t) ≡ₚ pending ++ map enqueue_time_iterator l;
  acct_fresh : NoDup (map fst (enqueue_times_ t)) /\
               Forall (fun n => n < next_node t) (map fst (enqueue_times_ t));
  acct_ok : Forall packet_ok l;
}.

Lemma acct_perm pending l k t : l ≡ₚ k -> acct pending l t -> acct pending k t.
Proof.
  intros Hp [H1 H2 H3 H4 H5 H6 H7 H8 H9 H10]. split; try done.
  - by rewrite <- (zlen_perm _ _ Hp).
  - by rewrite <- (zlen_perm _ _ Hp).
  - by rewrite <- (zsum_perm _ _ _ Hp).
  - rewrite H4. unfold per_type. apply map_ext. intros. by apply zsum_perm.
  - by rewrite <- (zsum_perm _ _ _ Hp).
  - by rewrite <- Hp.
  - by rewrite <- Hp.
  - by rewrite <- Hp.
Qed.

(** What dequeuing leaves alone. *)
Definition same_clock (t t' : QueueTotals) : Prop :=
  last_update_time_ t' = last_update_time_ t /\ pause_time_sum_ t' = pause_time_sum_ t /\
  paused_ t' = paused_ t /\ next_node t' = next_node t.

Lemma acct_small pending l t :
  acct pending l t ->
  small (queue_time_sum_ t) /\ small (pause_time_sum_ t) /\ small (last_update_time_ t) /\
  small (size_payload_ t) /\ 0 <= zlen l <= kMaxQueued /\ 0 <= queue_time_sum_ t <= zlen l * kMaxTime.
Proof.
  intros [H1 H2 H3 H4 H5 H6 H7 H8 H9 H10]. pose proof (zlen_nonneg l).
  assert (0 <= zsum (waiting t) l <= zlen l * kMaxTime) as Hw.
  { apply zsum_bound. eapply List.Forall_impl; [|exact H6]. intros p Hp. cbn beta in Hp. lia. }
  assert (0 <= zsum PacketSize l <= zlen l * 4294967296) as Hb.
  { apply zsum_bound. eapply List.Forall_impl; [|exact H10]. intros p [_ Hp]. lia. }
  unfold small, kMaxQueued, kMaxTime in *. rewrite H3, H5. lia.
Qed.

Lemma waiting_same t t' p : same_clock t t' -> waiting t' p = waiting t p.
Proof. intros (H1 & H2 & _). unfold waiting. by rewrite H1, H2. Qed.

Lemma zsum_ext {A} (f g : A -> Z) l : (forall x, f x = g x) -> zsum f l = zsum g l.
Proof. intros H. induction l as [|x l IH]; cbn [zsum]; [done|]. by rewrite H, IH. Qed.

Lemma DequeuePacketInternal_ok pending p l t :
  acct pending (p :: l) t ->
  exists t', DequeuePacketInternal p t =
      Some (set_time_in_send_queue (waiting t p) (packet p), t') /\
    acct pending l t' /\ same_clock t t'.
Proof.
  intros H. pose proof (acct_small _ _ _ H) as (S1 & S2 & S3 & S4 & S5 & S6).
  destruct H as [H1 H2 H3 H4 H5 H6 H7 H8 [H9 H9'] H10].
  apply Forall_cons_1 in H6 as [H6p H6]. cbn beta in H6p. apply Forall_cons_1 in H10 as [[[ty Hty] Hsz] H10].
  rewrite zlen_cons in *. cbn [zsum] in H3, H5.
  unfold DequeuePacketInternal. rewrite Hty. cbn [mbind option_bind].
  rewrite H4, per_type_rd. cbn [mbind option_bind].
  destruct (per_type_wr ty p l Hty) as [_ ->]. cbn [mbind option_bind].
  destruct (erase_node_ok (enqueue_time_iterator p) (enqueue_times_ t)) as (l' & -> & Hl').
  { rewrite H8. cbn [map]. apply elem_of_app. right. apply elem_of_cons. by left. }
  cbn [mbind option_bind].
  assert (small (enqueue_time p)) as Se by (unfold waiting, small, kMaxTime in *; lia).
  rewrite (timestamp_diff_small (last_update_time_ t) (enqueue_time p)) by assumption.
  assert (small (last_update_time_ t - enqueue_time p)) as Sd by (unfold waiting, small, kMaxTime in *; lia).
  rewrite (unit_sub_small (last_update_time_ t - enqueue_time p)) by assumption.
  fold (waiting t p).
  assert (small (waiting t p)) as Sw by (unfold small, kMaxTime in *; lia).
  assert (small (PacketSize p)) as Sp by (unfold small in *; lia).
  rewrite (unit_sub_small (queue_time_sum_ t)), (unit_sub_small (size_payload_ t)) by assumption.
  eexists. split; [reflexivity|].
  assert (map fst l' ≡ₚ pending ++ map enqueue_time_iterator l) as Hn.
  { apply (Permutation_cons_inv (a:=enqueue_time_iterator p)). rewrite <- Hl', H8. cbn [map].
    by rewrite Permutation_middle. }
  rewrite Hl' in H9, H9'. apply list.NoDup_cons in H9 as [_ H9]. apply Forall_cons_1 in H9' as [_ H9'].
  split; [|done].
  split; cbn [size_packets_ size_payload_ size_packets_per_media_type_ queue_time_sum_
    pause_time_sum_ last_update_time_ enqueue_times_ next_node]; try done; try lia.
  change (queue_time_sum_ t - waiting t p = zsum (waiting t) l). lia.
Qed.

(** ** Lemmas: the shape of the queue *)

(** The abstract queue: at each level the streams with packets, in the order
    they will be served, each with its packets, first in first out. *)
Abbreviation Level := (list (Z * list QueuedPacket)).

Definition fifo (q : PrioritizedPacketQueue) (i : nat) (ssrc : Z) : list QueuedPacket :=
  match streams_ q !! ssrc with
  | Some sq => default [] (sq_packets sq !! i)
  | None => []
  end.

Definition level_of (q : PrioritizedPacketQueue) (i : nat) (ss : list Z) : Level :=
  map (fun s => (s, fifo q i s)) ss.

Definition levels (q : PrioritizedPacketQueue) : list Level :=
  imap (level_of q) (streams_by_prio_ q).

Definition flat (lv : Level) : list QueuedPacket := flat_map snd lv.
Definition all (a : list Level) : list QueuedPacket := flat_map flat a.

Lemma levels_lookup q i :
  levels q !! i = level_of q i <$> streams_by_prio_ q !! i.
Proof. unfold levels. by rewrite list_lookup_imap. Qed.

Lemma levels_insert q q' i ss' :
  streams_by_prio_ q' = <[i := ss']> (streams_by_prio_ q) ->
  (i < length (streams_by_prio_ q))%nat ->
  (forall j t, j <> i -> fifo q' j t = fifo q j t) ->
  levels q' = <[i := level_of q' i ss']> (levels q).
Proof.
  intros Hb Hi Hf. apply list_eq. intros j. rewrite levels_lookup, Hb.
  destruct (decide (j = i)) as [->|Hn].
  - rewrite !list_lookup_insert_eq; [done| |done]. unfold levels. by rewrite length_imap.
  - rewrite !list_lookup_insert_ne by done. rewrite levels_lookup.
    destruct (streams_by_prio_ q !! j) as [ss|]; [|done]. cbn. f_equal.
    unfold level_of. apply map_ext. intros t. by rewrite Hf.
Qed.

Lemma all_split a i lv : a !! i = Some lv -> all a ≡ₚ flat lv ++ all (delete i a).
Proof.
  intros Hi. rewrite <- (take_drop_middle a i lv Hi) at 1.
  rewrite delete_take_drop. unfold all. rewrite !flat_map_app. cbn [flat_map].
  rewrite !app_assoc. apply Permutation_app_tail. apply Permutation_app_comm.
Qed.

Lemma all_insert a i lv' :
  (i < length a)%nat -> all (<[i := lv']> a) ≡ₚ flat lv' ++ all (delete i a).
Proof.
  intros Hi. rewrite (all_split _ i lv') by (by apply list_lookup_insert_eq).
  by rewrite !delete_take_drop, take_insert_ge, drop_insert_lt by lia.
Qed.

Definition is_key (p : QueuedPacket) : Z := Z.b2z (is_key_frame_ (packet p)).

(** A stored queue has five deques and counts their key frame packets. *)
Definition stream_ok (sq : StreamQueue) : Prop :=
  length (sq_packets sq) = kNumPriorityLevels /\
  num_keyframe_packets_ sq = zsum is_key (concat (sq_packets sq)).

Lemma zsum_concat_insert {A} (f : A -> Z) (ll : list (list A)) i l l' :
  ll !! i = Some l -> zsum f (concat (<[i := l']> ll)) = zsum f (concat ll) - zsum f l + zsum f l'.
Proof.
  intros Hi. rewrite <- (take_drop_middle ll i l Hi) at 2.
  rewrite insert_take_drop by (by eapply lookup_lt_Some).
  rewrite !concat_app. cbn [concat]. rewrite !zsum_app. lia.
Qed.

Lemma rd_at {A} (l : list A) (i : nat) x : l !! i = Some x -> rd l (Z.of_nat i) = Some x.
Proof. intros. by rewrite rd_nat. Qed.

Lemma wr_nat {A} (l : list A) (i : nat) v :
  (i < length l)%nat -> wr l (Z.of_nat i) v = Some (<[i := v]> l).
Proof. intros. rewrite wr_Some by len. by rewrite Nat2Z.id. Qed.

Lemma DequeuePacket_ok sq i p ps :
  stream_ok sq -> sq_packets sq !! i = Some (p :: ps) ->
  exists sq', DequeuePacket (Z.of_nat i) sq = Some (p, sq') /\
    sq_packets sq' = <[i := ps]> (sq_packets sq) /\ stream_ok sq' /\
    last_enqueue_time_ sq' = last_enqueue_time_ sq.
Proof.
  intros [Hl Hk] Hi. unfold DequeuePacket. rewrite (rd_at _ _ _ Hi). cbn [mbind option_bind].
  rewrite wr_nat by (by eapply lookup_lt_Some). cbn [mbind option_bind].
  eexists. split; [reflexivity|]. split; [done|]. split; [|done]. split; cbn [sq_packets num_keyframe_packets_].
  - by rewrite length_insert.
  - rewrite (zsum_concat_insert _ _ _ _ _ Hi), <- Hk. cbn [zsum]. unfold is_key at 1.
    destruct (is_key_frame_ (packet p)); cbn [Z.b2z]; lia.
Qed.

Lemma EnqueuePacket_ok sq i p ps :
  stream_ok sq -> sq_packets sq !! i = Some ps ->
  exists sq', EnqueuePacket p (Z.of_nat i) sq =
      Some (match ps with [] => true | _ => false end, sq') /\
    sq_packets sq' = <[i := ps ++ [p]]> (sq_packets sq) /\ stream_ok sq'.
Proof.
  intros [Hl Hk] Hi. unfold EnqueuePacket. rewrite (rd_at _ _ _ Hi). cbn [mbind option_bind].
  rewrite wr_nat by (by eapply lookup_lt_Some). cbn [mbind option_bind].
  eexists. split; [reflexivity|]. split; [done|]. split; cbn [sq_packets num_keyframe_packets_].
  - by rewrite length_insert.
  - rewrite (zsum_concat_insert _ _ _ _ _ Hi), <- Hk, zsum_app. cbn [zsum]. unfold is_key.
    destruct (is_key_frame_ (packet p)); cbn [Z.b2z]; lia.
Qed.

(** ** Lemmas: purging *)

(** What is left of a deque once its expired front is dropped. *)
Fixpoint unexpired (time_to_live now : Z) (ps : list QueuedPacket) : list QueuedPacket :=
  match ps with
  | [] => []
  | p :: ps' =>
      if time_to_live <? timestamp_diff now (enqueue_time p)
      then unexpired time_to_live now ps' else ps
  end.

Lemma set_same t m q : t = totals q -> m = streams_ q -> set_totals t (set_streams m q) = q.
Proof. intros -> ->. by destruct q. Qed.

Lemma purge_stream_ok fuel i now ttl s q sq ps other pending :
  streams_ q !! s = Some sq -> stream_ok sq -> sq_packets sq !! i = Some ps ->
  acct pending (ps ++ other) (totals q) -> (length ps < fuel)%nat ->
  exists sq' t', purge_stream fuel (Z.of_nat i) now ttl s q =
      Some (set_totals t' (set_streams (<[s := sq']> (streams_ q)) q)) /\
    sq_packets sq' = <[i := unexpired ttl now ps]> (sq_packets sq) /\ stream_ok sq' /\
    acct pending (unexpired ttl now ps ++ other) t' /\ same_clock (totals q) t'.
Proof.
  revert q sq ps. induction fuel as [|fuel IH]; intros q sq ps Hs Hok Hi Ha Hf; [lia|].
  cbn [purge_stream]. rewrite Hs. cbn [mbind option_bind].
  unfold HasPacketsAtPrio, StreamLeadingPacketEnqueueTime. rewrite (rd_at _ _ _ Hi).
  cbn [mbind option_bind].
  assert (exists sq' t', Some q = Some (set_totals t' (set_streams (<[s := sq']> (streams_ q)) q)) /\
    sq_packets sq' = <[i := ps]> (sq_packets sq) /\ stream_ok sq' /\
    acct pending (ps ++ other) t' /\ same_clock (totals q) t') as Hstop.
  { exists sq, (totals q). rewrite insert_id by done. rewrite set_same by done.
    split_and!; try done. by rewrite list_insert_id. }
  destruct ps as [|p ps]; [exact Hstop|]. cbn [mbind option_bind unexpired].
  destruct (ttl <? timestamp_diff now (enqueue_time p)); [|exact Hstop]. clear Hstop.
  destruct (DequeuePacket_ok sq i p ps Hok Hi) as (sq1 & -> & Hp1 & Hok1 & _). cbn [mbind option_bind].
  destruct (DequeuePacketInternal_ok pending p (ps ++ other) (totals q) Ha) as (t1 & -> & Ha1 & Hc1).
  cbn [mbind option_bind].
  assert (i < length (sq_packets sq))%nat as Hlt by (by eapply lookup_lt_Some).
  destruct (IH (set_totals t1 (set_streams (<[s := sq1]> (streams_ q)) q)) sq1 ps)
    as (sq2 & t2 & -> & Hp2 & Hok2 & Ha2 & Hc2).
  - apply lookup_insert_eq.
  - done.
  - rewrite Hp1. by apply list_lookup_insert_eq.
  - done.
  - cbn [length] in Hf. lia.
  - exists sq2, t2. split_and!; try done.
    + cbn. rewrite insert_insert_eq. done.
    + rewrite Hp2, Hp1. apply list_insert_insert_eq.
    + destruct Hc1 as (? & ? & ? & ?), Hc2 as (? & ? & ? & ?). cbn in *. split_and!; congruence.
Qed.

(** One deque of one stream replaced. *)
Lemma fifo_insert q q' i s sq sq' ps' :
  streams_ q !! s = Some sq -> length (sq_packets sq) = kNumPriorityLevels ->
  (i < kNumPriorityLevels)%nat -> sq_packets sq' = <[i := ps']> (sq_packets sq) ->
  streams_ q' = <[s := sq']> (streams_ q) ->
  forall j x, fifo q' j x = if decide (j = i /\ x = s) then ps' else fifo q j x.
Proof.
  intros Hs Hl Hi Hp Hm j x. unfold fifo. rewrite Hm.
  destruct (decide (x = s)) as [->|Hn].
  - rewrite lookup_insert_eq, Hp, Hs. destruct (decide (j = i)) as [->|Hj].
    + rewrite decide_True by done. rewrite list_lookup_insert_eq by (by rewrite Hl). done.
    + rewrite decide_False by tauto. by rewrite list_lookup_insert_ne.
  - rewrite lookup_insert_ne by done. by rewrite decide_False by tauto.
Qed.

(** A deque with packets belongs to a stored stream. *)
Lemma fifo_stored q i s :
  fifo q i s <> [] ->
  exists sq, streams_ q !! s = Some sq /\ sq_packets sq !! i = Some (fifo q i s).
Proof.
  unfold fifo. destruct (streams_ q !! s) as [sq|]; [|done].
  destruct (sq_packets sq !! i) as [ps|] eqn:Hi; [|done]. intros _. by exists sq.
Qed.

Definition nonempty {A} (l : list A) : bool := match l with [] => false | _ => true end.

Lemma nonempty_true {A} (l : list A) : nonempty l = true <-> l <> [].
Proof. by destruct l. Qed.

Definition streams_ok (q : PrioritizedPacketQueue) : Prop :=
  forall s sq, streams_ q !! s = Some sq -> stream_ok sq.

Definition purged (ttl now : Z) (q : PrioritizedPacketQueue) (i : nat) (ss : list Z) : Level :=
  map (fun s => (s, unexpired ttl now (fifo q i s))) ss.

Lemma purge_streams_ok i now ttl qs q other pending :
  (i < kNumPriorityLevels)%nat -> NoDup qs -> streams_ok q ->
  (forall s, s ∈ qs -> fifo q i s <> []) ->
  acct pending (flat (level_of q i qs) ++ other) (totals q) ->
  exists m' t', let q' := set_totals t' (set_streams m' q) in
    purge_streams (Z.of_nat i) now ttl qs q =
      Some (List.filter (fun s => nonempty (unexpired ttl now (fifo q i s))) qs, q') /\
    streams_ok q' /\
    (forall j s, fifo q' j s =
       if decide (j = i /\ s ∈ qs) then unexpired ttl now (fifo q i s) else fifo q j s) /\
    acct pending (flat (purged ttl now q i qs) ++ other) t' /\ same_clock (totals q) t' /\
    dom m' = dom (streams_ q).
Proof.
  intros Hi. revert q other. induction qs as [|s qs IH]; intros q other Hnd Hok Hin Ha.
  - exists (streams_ q), (totals q). cbv zeta. rewrite set_same by done.
    split_and!; try done. intros j s. by rewrite decide_False by (intros [_ H]; by apply not_elem_of_nil in H).
  - apply list.NoDup_cons in Hnd as [Hns Hnd].
    destruct (fifo_stored q i s) as (sq & Hs & Hps); [apply Hin; set_solver|].
    cbn [level_of map flat flat_map fst snd] in Ha. rewrite <- app_assoc in Ha.
    cbn [purge_streams].
    destruct (purge_stream_ok (S (Z.to_nat (size_packets_ (totals q)))) i now ttl s q sq (fifo q i s)
      (flat (level_of q i qs) ++ other) pending Hs (Hok _ _ Hs) Hps Ha) as (sq1 & t1 & -> & Hp1 & Hok1 & Ha1 & Hc1).
    { destruct Ha as [Hz _ _ _ _ _ _ _ _ _]. rewrite Hz. len. }
    cbn [mbind option_bind]. set (q1 := set_totals t1 (set_streams (<[s := sq1]> (streams_ q)) q)).
    assert (forall j x, fifo q1 j x = if decide (j = i /\ x = s) then unexpired ttl now (fifo q i s)
              else fifo q j x) as Hf1.
    { by apply (fifo_insert q q1 i s sq sq1); [| destruct (Hok _ _ Hs) | | |]. }
    assert (forall x, x ∈ qs -> fifo q1 i x = fifo q i x) as Hf2.
    { intros x Hx. rewrite Hf1, decide_False; [done|]. intros [_ ->]. done. }
    assert (streams_ q1 !! s = Some sq1) as Hs1 by apply lookup_insert_eq.
    rewrite Hs1. cbn [mbind option_bind]. unfold HasPacketsAtPrio.
    rewrite (rd_at (sq_packets sq1) i (unexpired ttl now (fifo q i s))).
    2:{ rewrite Hp1. apply list_lookup_insert_eq. by eapply lookup_lt_Some. }
    cbn [mbind option_bind].
    assert (level_of q1 i qs = level_of q i qs) as Hlv.
    { unfold level_of. apply map_ext_in. intros x Hx. by rewrite Hf2 by (by apply list_elem_of_In). }
    destruct (IH q1 (unexpired ttl now (fifo q i s) ++ other) Hnd) as (m' & t' & Hrun & Hok' & Hf' & Ha' & Hc' & Hd').
    + intros x sqx. cbn. intros Hx. apply lookup_insert_Some in Hx as [[_ <-]|[_ Hx]]; [done|by eapply Hok].
    + intros x Hx. rewrite Hf2 by done. apply Hin. set_solver.
    + eapply acct_perm; [|exact Ha1]. rewrite Hlv. rewrite !app_assoc.
      apply Permutation_app_tail, Permutation_app_comm.
    + rewrite Hrun. cbn [mbind option_bind].
      assert (forall x, x ∈ qs -> unexpired ttl now (fifo q1 i x) = unexpired ttl now (fifo q i x)) as Hu
        by (intros x Hx; by rewrite Hf2).
      exists m', t'. split; [|split; [|split; [|split; [|split]]]].
      * cbn [List.filter].
        rewrite (filter_ext_in _ (fun x => nonempty (unexpired ttl now (fifo q i x))) qs)
          by (intros x Hx%list_elem_of_In; by rewrite Hu).
        unfold q1. cbn. by destruct (unexpired ttl now (fifo q i s)).
      * exact Hok'.
      * intros j x. specialize (Hf' j x).
        change (set_totals t' (set_streams m' q1)) with (set_totals t' (set_streams m' q)) in Hf'.
        rewrite Hf'.
        rewrite !Hf1. destruct (decide (j = i /\ x ∈ qs)) as [[-> Hx]|Hn1].
        -- rewrite decide_False by (intros [_ ->]; done).
           by rewrite decide_True by (rewrite elem_of_cons; tauto).
        -- destruct (decide (j = i /\ x = s)) as [[-> ->]|Hn2].
           ++ by rewrite decide_True by (rewrite elem_of_cons; tauto).
           ++ rewrite decide_False; [done|]. rewrite elem_of_cons. tauto.
      * eapply acct_perm; [|exact Ha'].
        assert (purged ttl now q1 i qs = purged ttl now q i qs) as ->.
        { unfold purged. apply map_ext_in. intros x Hx. by rewrite Hu by (by apply list_elem_of_In). }
        cbn [purged map flat flat_map snd]. rewrite <- app_assoc, !app_assoc.
        apply Permutation_app_tail, Permutation_app_comm.
      * destruct Hc1 as (? & ? & ? & ?), Hc' as (? & ? & ? & ?). cbn in *. split_and!; congruence.
      * rewrite Hd'. cbn. by apply dom_insert_lookup_L; exists sq.
Qed.

(** The level a packet is queued at. *)
Definition priority (q : PrioritizedPacketQueue) (p : RtpPacketToSend) : Z :=
  match packet_type_ p with
  | Some ty =>
      GetPriorityForType ty
        (if prioritize_audio_retransmission_ q then original_packet_type_ p else None)
  | None => -1
  end.

(** Every deque holds packets of its stream and level; the round of a level
    holds exactly the streams with packets there, each once. *)
Record shape (q : PrioritizedPacketQueue) : Prop := {
  sh_levels : length (streams_by_prio_ q) = kNumPriorityLevels;
  sh_ttl : length (time_to_live_per_prio_ q) = kNumPriorityLevels;
  sh_streams : streams_ok q;
  sh_round : forall i ss, streams_by_prio_ q !! i = Some ss ->
    NoDup ss /\ forall s, s ∈ ss <-> fifo q i s <> [];
  sh_own : forall i s,
    Forall (fun p => Ssrc (packet p) = s /\ priority q (packet p) = Z.of_nat i) (fifo q i s);
}.

(** What an operation on the packets leaves alone. *)
Definition same_setup (q q' : PrioritizedPacketQueue) : Prop :=
  prioritize_audio_retransmission_ q' = prioritize_audio_retransmission_ q /\
  time_to_live_per_prio_ q' = time_to_live_per_prio_ q.

Lemma same_setup_trans q1 q2 q3 : same_setup q1 q2 -> same_setup q2 q3 -> same_setup q1 q3.
Proof. intros (? & ?) (? & ?). split; congruence. Qed.

Lemma same_clock_trans t1 t2 t3 : same_clock t1 t2 -> same_clock t2 t3 -> same_clock t1 t3.
Proof. intros (? & ? & ? & ?) (? & ? & ? & ?). split_and!; congruence. Qed.

(** A level without its expired packets. *)
Definition purge_level (ttl now : Z) (lv : Level) : Level :=
  if IsInfinite ttl then lv
  else List.filter (fun e => nonempty e.2) (map (fun e => (e.1, unexpired ttl now e.2)) lv).

Lemma flat_filter lv : flat (List.filter (fun e => nonempty e.2) lv) = flat lv.
Proof.
  induction lv as [|[s ps] lv IH]; [done|]. cbn [List.filter snd flat flat_map].
  fold (flat lv). rewrite <- IH. by destruct ps.
Qed.

Lemma filter_map_comm {A B} (f : A -> B) g l :
  List.filter g (map f l) = map f (List.filter (fun x => g (f x)) l).
Proof. induction l as [|x l IH]; cbn; [done|]. rewrite IH. by destruct (g (f x)). Qed.

Lemma unexpired_suffix ttl now ps : exists k, ps = k ++ unexpired ttl now ps.
Proof.
  induction ps as [|p ps [k IH]]; cbn [unexpired]; [by exists []|].
  case_if; [|by exists []]. exists (p :: k). cbn. by rewrite <- IH.
Qed.

Lemma unexpired_Forall (P : QueuedPacket -> Prop) ttl now ps :
  Forall P ps -> Forall P (unexpired ttl now ps).
Proof.
  intros H. destruct (unexpired_suffix ttl now ps) as [k Hk]. rewrite Hk in H.
  by apply Forall_app in H as [_ H].
Qed.

Lemma alter_at {A} (f : A -> A) i (l : list A) x :
  l !! i = Some x -> alter f i l = <[i := f x]> l.
Proof.
  intros Hi. apply list_eq. intros j. destruct (decide (j = i)) as [->|Hn].
  - rewrite list_lookup_insert_eq by (by eapply lookup_lt_Some).
    by rewrite list_lookup_alter_eq, Hi.
  - by rewrite list_lookup_insert_ne, list_lookup_alter_ne.
Qed.

Lemma NoDup_List_filter {A} (f : A -> bool) l : NoDup l -> NoDup (List.filter f l).
Proof.
  induction 1 as [|x l Hx Hl IH]; cbn; [constructor|]. destruct (f x); [|done].
  constructor; [|done]. rewrite list_elem_of_In, filter_In, <- list_elem_of_In. tauto.
Qed.

Lemma elem_of_List_filter {A} (f : A -> bool) l x : x ∈ List.filter f l <-> f x = true /\ x ∈ l.
Proof. rewrite !list_elem_of_In, filter_In. tauto. Qed.

(** The round of a level after a purge. *)
Lemma purged_level q q' i ss ttl now :
  IsInfinite ttl = false ->
  (forall s, s ∈ ss -> fifo q' i s = unexpired ttl now (fifo q i s)) ->
  level_of q' i (List.filter (fun s => nonempty (unexpired ttl now (fifo q i s))) ss) =
    purge_level ttl now (level_of q i ss).
Proof.
  intros Ht Hf. unfold purge_level, level_of. rewrite Ht, map_map, filter_map_comm. cbn [fst snd].
  apply map_ext_in. intros s Hs. rewrite Hf; [done|]. apply list_elem_of_In in Hs.
  by apply elem_of_List_filter in Hs as [_ Hs].
Qed.

Lemma flat_purged ttl now q i ss :
  IsInfinite ttl = false ->
  flat (purge_level ttl now (level_of q i ss)) = flat (purged ttl now q i ss).
Proof.
  intros Ht. unfold purge_level. rewrite Ht, flat_filter. f_equal. unfold level_of.
  by rewrite map_map.
Qed.

Lemma PurgeOldPackets_ok i now q pending ttl :
  shape q -> acct pending (all (levels q)) (totals q) ->
  time_to_live_per_prio_ q !! i = Some ttl ->
  exists q', PurgeOldPacketsAtPriorityLevel (Z.of_nat i) now q = Some q' /\
    shape q' /\ acct pending (all (levels q')) (totals q') /\
    levels q' = alter (purge_level ttl now) i (levels q) /\
    same_clock (totals q) (totals q') /\ same_setup q q' /\
    top_active_prio_level_ q' = top_active_prio_level_ q /\
    dom (streams_ q') = dom (streams_ q).
Proof.
  intros Hsh Ha Ht. pose proof Hsh as [Hl Htl Hs Hr Ho].
  unfold PurgeOldPacketsAtPriorityLevel. rewrite (rd_at _ _ _ Ht). cbn [mbind option_bind].
  assert (i < kNumPriorityLevels)%nat as Hi by (rewrite <- Htl; by eapply lookup_lt_Some).
  destruct (lookup_lt_is_Some_2 (streams_by_prio_ q) i) as [ss Hss]; [by rewrite Hl|].
  assert (levels q !! i = Some (level_of q i ss)) as Hlv by (by rewrite levels_lookup, Hss).
  rewrite (alter_at _ _ _ _ Hlv).
  destruct (IsInfinite ttl) eqn:Hinf.
  { exists q. unfold purge_level. rewrite Hinf, list_insert_id by done. split_and!; done. }
  rewrite (rd_at _ _ _ Hss). cbn [mbind option_bind]. destruct (Hr i ss Hss) as [Hnd Hin].
  destruct (purge_streams_ok i now ttl ss q (all (delete i (levels q))) pending Hi Hnd Hs)
    as (m' & t' & -> & Hs' & Hf' & Ha' & Hc' & Hd').
  { intros s. apply Hin. }
  { eapply acct_perm; [|exact Ha]. by apply all_split. }
  cbn [mbind option_bind]. rewrite wr_nat by (cbn; by rewrite Hl). cbn [mbind option_bind].
  set (kept := List.filter (fun s => nonempty (unexpired ttl now (fifo q i s))) ss).
  set (q' := set_by_prio (<[i := kept]> (streams_by_prio_ q)) (set_totals t' (set_streams m' q))).
  change (fifo (set_totals t' (set_streams m' q))) with (fifo q') in Hf'.
  assert (levels q' = <[i := purge_level ttl now (level_of q i ss)]> (levels q)) as Hlv'.
  { rewrite <- (purged_level q q') by (done || (intros s Hx; by rewrite Hf', decide_True)).
    apply levels_insert; [done|by rewrite Hl|]. intros j t Hj. by rewrite Hf', decide_False by tauto. }
  exists q'. split; [done|]. split; [|split; [|split_and!; done]].
  - split; [by cbn; rewrite length_insert|done|exact Hs'| |].
    + intros j ss' Hj. cbn in Hj. destruct (decide (j = i)) as [->|Hn].
      * rewrite list_lookup_insert_eq in Hj by (by rewrite Hl). injection Hj as <-.
        split; [by apply NoDup_List_filter|]. intros s. rewrite Hf'. unfold kept.
        destruct (decide (i = i /\ s ∈ ss)) as [[_ Hx]|Hx];
          rewrite elem_of_List_filter, nonempty_true; [tauto|].
        assert (~ s ∈ ss) as Hx' by tauto. rewrite Hin in Hx'. tauto.
      * rewrite list_lookup_insert_ne in Hj by done. destruct (Hr j ss' Hj) as [Hnd' Hin'].
        split; [done|]. intros s. by rewrite Hf', decide_False by tauto.
    + intros j s. rewrite Hf'. change (priority q') with (priority q).
      destruct (decide (j = i /\ s ∈ ss)) as [[-> _]|_]; [apply unexpired_Forall|]; apply Ho.
  - rewrite Hlv'. eapply acct_perm; [|exact Ha'].
    rewrite all_insert by (unfold levels; rewrite length_imap; by rewrite Hl).
    by rewrite flat_purged.
Qed.

(** ** Lemmas: counting a packet in *)

Lemma UpdateAverageQueueTime_ok pending l now t :
  acct pending l t -> last_update_time_ t <= now <= kMaxTime ->
  let t' := UpdateAverageQueueTime now t in
  acct pending l t' /\ last_update_time_ t' = now /\ next_node t' = next_node t /\
  paused_ t' = paused_ t /\
  pause_time_sum_ t' = pause_time_sum_ t + (if paused_ t then now - last_update_time_ t else 0).
Proof.
  intros H Hnow. pose proof (acct_small _ _ _ H) as (S1 & S2 & S3 & S4 & S5 & S6).
  cbv zeta. unfold UpdateAverageQueueTime.
  destruct (Z.eqb_spec now (last_update_time_ t)) as [->|Hne].
  { split_and!; try done. destruct (paused_ t); lia. }
  destruct H as [H1 H2 H3 H4 H5 H6 (H7 & H7' & H7'') H8 H9 H10].
  assert (small now) as Sn by (unfold small, kMaxTime in *; lia).
  rewrite (timestamp_diff_small now (last_update_time_ t)) by assumption.
  assert (small (now - last_update_time_ t)) as Sd by (unfold small, kMaxTime in *; lia).
  destruct (paused_ t) eqn:Hp.
  - rewrite (unit_add_small (pause_time_sum_ t)) by assumption.
    split; [|split_and!; done].
    assert (forall p, last_update_time_ t - enqueue_time p - pause_time_sum_ t =
      now - enqueue_time p - (pause_time_sum_ t + (now - last_update_time_ t))) as Hw by (intros; lia).
    split; unfold waiting in *; cbn [size_packets_ size_payload_ size_packets_per_media_type_
      queue_time_sum_ pause_time_sum_ last_update_time_ enqueue_times_ next_node]; try done; try lia.
    + rewrite H5. apply zsum_ext. intros p. apply Hw.
    + eapply List.Forall_impl; [|exact H6]. intros p. cbn beta. lia.
  - unfold unit_mul. rewrite H1.
    assert (0 <= (now - last_update_time_ t) * zlen l <= kMaxTime * kMaxQueued) as Hm
      by (unfold kMaxTime, kMaxQueued in *; nia).
    rewrite unit_add_small by (assumption || (unfold small, kMaxTime, kMaxQueued in *; lia)).
    split; [|split_and!; try done; cbn [pause_time_sum_]; lia].
    split; unfold waiting in *; cbn [size_packets_ size_payload_ size_packets_per_media_type_
      queue_time_sum_ pause_time_sum_ last_update_time_ enqueue_times_ next_node]; try done; try lia.
    + rewrite H5. symmetry. apply zsum_shift. intros p. lia.
    + eapply List.Forall_impl; [|exact H6]. intros p. cbn beta. lia.
Qed.

Lemma count_in_ok l now node ty p t :
  acct [node] l t -> last_update_time_ t <= now <= kMaxTime -> zlen l < kMaxQueued ->
  packet_type_ p = Some ty -> 0 <= payload_size_ (rtp_packet p) + padding_size_ (rtp_packet p) < 4294967296 ->
  exists t', let pause := pause_time_sum_ t + (if paused_ t then now - last_update_time_ t else 0) in
    count_in now node ty p t = Some (mkQueued p (now - pause) node, t') /\
    acct [] (mkQueued p (now - pause) node :: l) t' /\ last_update_time_ t' = now /\
    pause_time_sum_ t' = pause /\ paused_ t' = paused_ t /\ next_node t' = next_node t.
Proof.
  intros H Hnow Hmax Hty Hsz. unfold count_in. cbv zeta.
  destruct (UpdateAverageQueueTime_ok _ _ _ _ H Hnow) as (H' & Hl & Hn & Hp & Hps).
  set (t1 := UpdateAverageQueueTime now t) in *. rewrite <- Hps.
  pose proof (acct_small _ _ _ H') as (S1 & S2 & S3 & S4 & S5 & S6). rewrite Hl in S3.
  destruct H' as [H1 H2 H3 H4 H5 H6 (H7 & H7' & H7'') H8 H9 H10].
  rewrite (timestamp_sub_small now (pause_time_sum_ t1)) by assumption.
  rewrite H4, per_type_rd. cbn [mbind option_bind].
  set (qp := mkQueued p (now - pause_time_sum_ t1) node).
  destruct (per_type_wr ty qp l Hty) as [-> _]. cbn [mbind option_bind].
  assert (small (PacketSize qp)) as Sp by (unfold small, PacketSize; cbn; lia).
  rewrite (unit_add_small (size_payload_ t1)) by assumption.
  eexists. split; [reflexivity|]. split; [|split_and!; done].
  assert (last_update_time_ t1 - enqueue_time qp - pause_time_sum_ t1 = 0) as Hw by (cbn; lia).
  split; unfold waiting in *; cbn [size_packets_ size_payload_ size_packets_per_media_type_
      queue_time_sum_ pause_time_sum_ last_update_time_ enqueue_times_ next_node zsum];
    rewrite ?zlen_cons; try done; try lia.
  - constructor; [rewrite Hw; lia|exact H6].
  - constructor; [|exact H10]. split; [by exists ty|exact Hsz].
Qed.

(** ** Lemmas: the active level *)

(** The first level with packets, [-1] when there is none. *)
Fixpoint first_active (i : Z) (a : list Level) : Z :=
  match a with
  | [] => -1
  | [] :: a' => first_active (i + 1) a'
  | _ => i
  end.
Definition top_of (a : list Level) : Z := first_active 0 a.

Lemma first_active_at a i k lv :
  a !! k = Some lv -> lv <> [] -> (forall j, (j < k)%nat -> a !! j = Some []) ->
  first_active i a = i + Z.of_nat k.
Proof.
  revert a i. induction k as [|k IH]; intros [|lv0 a] i Hk Hlv Hj; try done.
  - injection Hk as ->. cbn. destruct lv; [done|lia].
  - pose proof (Hj 0%nat ltac:(lia)) as H0. injection H0 as ->. cbn.
    rewrite (IH a (i + 1)); [lia|done|done|]. intros j Hjk. apply (Hj (S j)). lia.
Qed.

Lemma first_active_cases a i :
  0 <= i ->
  (first_active i a = -1 /\ forall j lv, a !! j = Some lv -> lv = []) \/
  (exists k e lv, first_active i a = i + Z.of_nat k /\ a !! k = Some (e :: lv) /\
     forall j, (j < k)%nat -> a !! j = Some []).
Proof.
  revert i. induction a as [|[|e lv] a IH]; intros i Hi; cbn.
  - left. split; [done|]. intros j lv Hj. by rewrite lookup_nil in Hj.
  - destruct (IH (i + 1) ltac:(lia)) as [[H1 H2]|(k & e & lv & H1 & H2 & H3)].
    + left. split; [done|]. intros [|j] lv Hj; [by injection Hj as <-|by eapply H2].
    + right. exists (S k), e, lv. split; [lia|]. split; [done|].
      intros [|j] Hj; [done|]. apply H3. lia.
  - right. exists 0%nat, e, lv. split; [lia|]. split; [done|]. lia.
Qed.

(** Levels are purged from the first on until one has packets. *)
Fixpoint settle (n i : nat) (ttls : list Z) (now : Z) (a : list Level) : list Level :=
  match n with
  | O => a
  | S n' =>
      let a' := match ttls !! i with
                | Some ttl => alter (purge_level ttl now) i a
                | None => a
                end in
      match a' !! i with
      | Some (_ :: _) => a'
      | _ => settle n' (S i) ttls now a'
      end
  end.

Lemma all_nil a : all a = [] <-> Forall (fun lv => flat lv = []) a.
Proof.
  unfold all. induction a as [|lv a IH]; cbn [flat_map]; [split; [constructor|done]|].
  rewrite app_nil, IH. split; [intros []; by constructor|by inversion 1].
Qed.

(** A level without packets has no streams. *)
Lemma level_nil q i lv :
  shape q -> levels q !! i = Some lv -> flat lv = [] -> lv = [].
Proof.
  intros [_ _ _ Hr _] Hi Hf. rewrite levels_lookup in Hi.
  destruct (streams_by_prio_ q !! i) as [ss|] eqn:Hss; [|done]. injection Hi as <-.
  destruct (Hr i ss Hss) as [_ Hin]. destruct ss as [|s ss]; [done|].
  cbn in Hf. apply app_nil in Hf as [Hf _]. exfalso. apply (proj1 (Hin s)); [|done].
  apply elem_of_cons. by left.
Qed.

Lemma levels_length q : length (levels q) = length (streams_by_prio_ q).
Proof. unfold levels. apply length_imap. Qed.

Lemma top_of_nil q : shape q -> top_of (levels q) = -1 <-> all (levels q) = [].
Proof.
  intros Hsh. unfold top_of. rewrite all_nil, list.Forall_forall.
  destruct (first_active_cases (levels q) 0) as [[H1 H2]|(k & e & lv & H1 & H2 & _)]; [lia| |].
  - split; [|done]. intros _ lv Hin. apply list_elem_of_lookup in Hin as [j Hj].
    by rewrite (H2 _ _ Hj).
  - split; [lia|]. intros Hf. specialize (Hf (e :: lv) ltac:(by eapply list_elem_of_lookup_2)).
    apply (level_nil q k) in Hf; done.
Qed.

Lemma shape_set_top i q : shape q -> shape (set_top i q).
Proof. intros [H1 H2 H3 H4 H5]. by split. Qed.

(** The round of level [i], and whether it is empty. *)
Lemma level_round q i lv :
  levels q !! i = Some lv ->
  exists ss, streams_by_prio_ q !! i = Some ss /\ lv = level_of q i ss /\
    rd (streams_by_prio_ q) (Z.of_nat i) = Some ss.
Proof.
  intros Hi. rewrite levels_lookup in Hi.
  destruct (streams_by_prio_ q !! i) as [ss|] eqn:Hss; [|done]. injection Hi as <-.
  exists ss. split_and!; [done|done|by apply rd_at].
Qed.

Lemma shape_level q i : shape q -> (i < kNumPriorityLevels)%nat -> exists lv, levels q !! i = Some lv.
Proof. intros [H _ _ _ _] Hi. apply lookup_lt_is_Some_2. by rewrite levels_length, H. Qed.

(** What an operation on the packets guarantees. *)
Definition served (pending : list Z) (q q' : PrioritizedPacketQueue) : Prop :=
  shape q' /\ acct pending (all (levels q')) (totals q') /\
  same_clock (totals q) (totals q') /\ same_setup q q' /\ dom (streams_ q') = dom (streams_ q).

Lemma served_trans pending q1 q2 q3 :
  served pending q1 q2 -> served pending q2 q3 -> served pending q1 q3.
Proof.
  intros (_ & _ & C1 & S1 & D1) (H1 & H2 & C2 & S2 & D2). split_and!; [done|done| | |congruence].
  - by eapply same_clock_trans.
  - by eapply same_setup_trans.
Qed.

Lemma find_top_ok n i q pending :
  shape q -> acct pending (all (levels q)) (totals q) -> (i + n = kNumPriorityLevels)%nat ->
  (forall j, (j < i)%nat -> levels q !! j = Some []) ->
  exists q', find_top n (Z.of_nat i) q = Some q' /\ served pending q q' /\
    levels q' = settle n i (time_to_live_per_prio_ q) (last_update_time_ (totals q)) (levels q) /\
    (top_of (levels q') <> -1 -> top_active_prio_level_ q' = top_of (levels q')).
Proof.
  revert i q. induction n as [|n IH]; intros i q Hsh Ha Hi Hj; cbn [find_top settle].
  - exists q. split; [done|]. split; [by split_and!|]. split; [done|]. intros Ht. exfalso.
    destruct (first_active_cases (levels q) 0) as [[H1 _]|(k & e & lv & H1 & H2 & _)]; [lia|done|].
    assert (k < i)%nat as Hk.
    { apply lookup_lt_Some in H2. rewrite levels_length, (sh_levels q Hsh) in H2. lia. }
    by rewrite (Hj k Hk) in H2.
  - destruct (lookup_lt_is_Some_2 (time_to_live_per_prio_ q) i) as [ttl Httl];
      [rewrite (sh_ttl q Hsh); lia|].
    destruct (PurgeOldPackets_ok i (last_update_time_ (totals q)) q pending ttl Hsh Ha Httl)
      as (q1 & -> & Hsh1 & Ha1 & Hl1 & Hc1 & Hs1 & Ht1 & Hd1).
    cbn [mbind option_bind]. rewrite Httl, <- Hl1.
    assert (served pending q q1) as Hv1 by (by split_and!).
    destruct (shape_level q1 i Hsh1) as [lv Hlv]; [lia|].
    destruct (level_round q1 i lv Hlv) as (ss & Hss & Hlvs & ->). cbn [mbind option_bind]. rewrite Hlv, Hlvs.
    assert (forall j, (j < i)%nat -> levels q1 !! j = Some []) as Hj1.
    { intros j Hji. rewrite Hl1, list_lookup_alter_ne by lia. by apply Hj. }
    destruct ss as [|s ss]; cbn [level_of map].
    + replace (Z.of_nat i + 1) with (Z.of_nat (S i)) by lia.
      destruct (IH (S i) q1 Hsh1 Ha1) as (q' & -> & Hv' & Hl' & Ht'); [lia| |].
      { intros j Hji. destruct (decide (j = i)) as [->|Hn]; [by rewrite Hlv, Hlvs|]. apply Hj1. lia. }
      exists q'. split; [done|]. split; [by eapply served_trans|]. split; [|done].
      rewrite Hl'. destruct Hs1 as (_ & ->), Hc1 as (-> & _). done.
    + exists (set_top (Z.of_nat i) q1). split; [done|]. split; [|split; [done|]].
      * destruct Hv1 as (? & ? & ? & ? & ?). split_and!; try done. by apply shape_set_top.
      * intros _. unfold top_of.
        rewrite (first_active_at _ 0 i (level_of q1 i (s :: ss))); [cbn; lia| |done|exact Hj1].
        change (levels (set_top (Z.of_nat i) q1)) with (levels q1). by rewrite Hlv, Hlvs.
Qed.

(** The levels after the active one may have run empty. *)
Definition resettle (ttls : list Z) (now top : Z) (a : list Level) : list Level :=
  if negb (top =? -1) && nonempty (default [] (a !! Z.to_nat top)) then a
  else settle kNumPriorityLevels 0 ttls now a.

Definition top_reached (q : PrioritizedPacketQueue) : Prop :=
  top_active_prio_level_ q = -1 \/
  exists k, top_active_prio_level_ q = Z.of_nat k /\ (k < kNumPriorityLevels)%nat /\
    forall j, (j < k)%nat -> levels q !! j = Some [].

Lemma MaybeUpdateTopPrioLevel_ok q pending :
  shape q -> acct pending (all (levels q)) (totals q) -> top_reached q ->
  exists q', MaybeUpdateTopPrioLevel q = Some q' /\ served pending q q' /\
    levels q' = resettle (time_to_live_per_prio_ q) (last_update_time_ (totals q))
                  (top_active_prio_level_ q) (levels q) /\
    top_active_prio_level_ q' = top_of (levels q').
Proof.
  intros Hsh Ha Ht. unfold MaybeUpdateTopPrioLevel, resettle.
  assert (exists q', find_top kNumPriorityLevels 0 q = Some q' /\ served pending q q' /\
    levels q' = settle kNumPriorityLevels 0 (time_to_live_per_prio_ q) (last_update_time_ (totals q))
                  (levels q) /\
    (top_of (levels q') <> -1 -> top_active_prio_level_ q' = top_of (levels q'))) as Hfind.
  { apply (find_top_ok kNumPriorityLevels 0 q pending Hsh Ha); [done|lia]. }
  assert (exists q', (q1 ← find_top kNumPriorityLevels 0 q;
      Some (if size_packets_ (totals q1) =? 0 then set_top (-1) q1 else q1)) = Some q' /\
    served pending q q' /\
    levels q' = settle kNumPriorityLevels 0 (time_to_live_per_prio_ q) (last_update_time_ (totals q))
                  (levels q) /\
    top_active_prio_level_ q' = top_of (levels q')) as Hslow.
  { destruct Hfind as (q1 & -> & Hv1 & Hl1 & Ht1). cbn [mbind option_bind].
    pose proof Hv1 as (Hsh1 & Ha1 & Hc1 & Hs1 & Hd1). rewrite (acct_count _ _ _ Ha1).
    destruct (Z.eqb_spec (zlen (all (levels q1))) 0) as [Hz|Hz].
    - exists (set_top (-1) q1). split; [done|]. split; [split_and!; try done; by apply shape_set_top|].
      split; [done|]. symmetry. apply (top_of_nil q1 Hsh1). by apply length_zero_iff_nil, Nat2Z.inj.
    - exists q1. split_and!; try done. apply Ht1. rewrite (top_of_nil q1 Hsh1). intros Hn.
      by rewrite Hn in Hz. }
  destruct Ht as [->|(k & Htk & Hk & Hj)].
  { cbn [Z.eqb Pos.eqb negb andb mbind option_bind]. exact Hslow. }
  rewrite Htk. rewrite (proj2 (Z.eqb_neq _ _)) by lia. cbn [negb andb]. rewrite Nat2Z.id.
  destruct (shape_level q k Hsh Hk) as [lv Hlv].
  destruct (level_round q k lv Hlv) as (ss & Hss & Hlvs & ->). cbn [mbind option_bind].
  rewrite Hlv. cbn [default from_option id]. rewrite Hlvs.
  destruct ss as [|s ss]; [exact Hslow|]. cbn [level_of map nonempty].
  exists q. split; [done|]. split; [by split_and!|]. split; [done|]. rewrite Htk. symmetry.
  apply (first_active_at _ 0 k lv); [done|by rewrite Hlvs|done].
Qed.

(** One deque and the round of its level replaced. *)
Lemma shape_update q q' k s sq sq' ps' ss' :
  shape q -> same_setup q q' -> streams_ q !! s = Some sq ->
  streams_ q' = <[s := sq']> (streams_ q) -> sq_packets sq' = <[k := ps']> (sq_packets sq) ->
  stream_ok sq' -> streams_by_prio_ q' = <[k := ss']> (streams_by_prio_ q) ->
  (k < kNumPriorityLevels)%nat -> NoDup ss' ->
  (forall x, x ∈ ss' <-> if decide (x = s) then ps' <> [] else fifo q k x <> []) ->
  Forall (fun p => Ssrc (packet p) = s /\ priority q (packet p) = Z.of_nat k) ps' ->
  shape q' /\
  levels q' = <[k := map (fun x => (x, if decide (x = s) then ps' else fifo q k x)) ss']> (levels q).
Proof.
  intros [Hl Htl Hs Hr Ho] (S1 & S2) Hsq Hm Hp Hok Hb Hk Hnd Hin Hown.
  destruct (Hs _ _ Hsq) as [Hlen _].
  pose proof (fifo_insert q q' k s sq sq' ps' Hsq Hlen Hk Hp Hm) as Hf.
  assert (forall x, fifo q' k x = if decide (x = s) then ps' else fifo q k x) as Hfk.
  { intros x. rewrite Hf. destruct (decide (x = s)).
    - by rewrite decide_True.
    - by rewrite decide_False by tauto. }
  split; [split|].
  - by rewrite Hb, length_insert.
  - by rewrite S2.
  - intros x sqx. rewrite Hm. intros Hx. apply lookup_insert_Some in Hx as [[_ <-]|[_ Hx]]; [done|by eapply Hs].
  - intros j ss Hj. rewrite Hb in Hj. destruct (decide (j = k)) as [->|Hn].
    + rewrite list_lookup_insert_eq in Hj by (by rewrite Hl). injection Hj as <-.
      split; [done|]. intros x. rewrite Hfk, Hin. by destruct (decide (x = s)).
    + rewrite list_lookup_insert_ne in Hj by done. destruct (Hr j ss Hj) as [Hnd' Hin'].
      split; [done|]. intros x. by rewrite Hf, decide_False by tauto.
  - intros j x. rewrite Hf. assert (forall p, priority q' p = priority q p) as Hpr
      by (intros p; unfold priority; by rewrite S1).
    destruct (decide (j = k /\ x = s)) as [[-> ->]|_].
    + eapply List.Forall_impl; [|exact Hown]. intros p. by rewrite Hpr.
    + eapply List.Forall_impl; [|apply Ho]. intros p. by rewrite Hpr.
  - rewrite (levels_insert q q' k ss'); [|done|by rewrite Hl|].
    + f_equal. unfold level_of. apply map_ext. intros x. by rewrite Hfk.
    + intros j t Hj. by rewrite Hf, decide_False by tauto.
Qed.

Lemma map_skip q k s ps ss :
  ~ s ∈ ss ->
  map (fun x => (x, if decide (x = s) then ps else fifo q k x)) ss = level_of q k ss.
Proof.
  intros Hs. unfold level_of. apply map_ext_in. intros x Hx%list_elem_of_In.
  rewrite decide_False; [done|]. by intros ->.
Qed.

(** ** Lemmas: popping *)

(** The queue between operations. *)
Definition queue_ok (q : PrioritizedPacketQueue) : Prop :=
  shape q /\ acct [] (all (levels q)) (totals q) /\
  top_active_prio_level_ q = top_of (levels q).

(** The first packet of the first stream of the first level with packets; the
    stream goes to the end of its round if it has more. *)
Definition abs_pop (ttls : list Z) (now : Z) (a : list Level)
    : option (QueuedPacket * list Level) :=
  let i := Z.to_nat (top_of a) in
  match a !! i with
  | Some ((s, p :: ps) :: rest) =>
      Some (p, match ps with
               | [] => resettle ttls now (top_of a) (<[i := rest]> a)
               | _ => <[i := rest ++ [(s, ps)]]> a
               end)
  | _ => None
  end.

Lemma top_of_cases a :
  (top_of a = -1 /\ forall j lv, a !! j = Some lv -> lv = []) \/
  (exists k e lv, top_of a = Z.of_nat k /\ a !! k = Some (e :: lv) /\
     forall j, (j < k)%nat -> a !! j = Some []).
Proof. apply (first_active_cases a 0). lia. Qed.

Lemma Pop_ok q :
  queue_ok q ->
  match abs_pop (time_to_live_per_prio_ q) (last_update_time_ (totals q)) (levels q) with
  | None => Pop q = Some (None, q) /\ all (levels q) = []
  | Some (p, a') =>
      exists q', Pop q = Some (Some (set_time_in_send_queue (waiting (totals q) p) (packet p)), q') /\
        queue_ok q' /\ levels q' = a' /\ same_clock (totals q) (totals q') /\ same_setup q q'
  end.
Proof.
  intros (Hsh & Ha & Ht). unfold abs_pop, Pop. rewrite (acct_count _ _ _ Ha).
  destruct (top_of_cases (levels q)) as [[Htop Hnil]|(k & [s0 ps0] & lv & Htop & Hlv & Hj)].
  { rewrite Htop. change (Z.to_nat (-1)) with 0%nat.
    destruct (shape_level q 0 Hsh) as [lv Hlv]; [unfold kNumPriorityLevels; lia|].
    rewrite Hlv. rewrite (Hnil _ _ Hlv). apply (top_of_nil q Hsh) in Htop. by rewrite Htop. }
  assert (k < kNumPriorityLevels)%nat as Hk.
  { apply lookup_lt_Some in Hlv. by rewrite levels_length, (sh_levels q Hsh) in Hlv. }
  destruct (Z.eqb_spec (zlen (all (levels q))) 0) as [Hz|_].
  { exfalso. assert (all (levels q) = []) as He by (by apply length_zero_iff_nil, Nat2Z.inj).
    apply (top_of_nil q Hsh) in He. lia. }
  rewrite Ht, Htop, Nat2Z.id, Hlv.
  destruct (level_round q k _ Hlv) as (ss & Hss & Hlvs & ->). cbn [mbind option_bind].
  destruct ss as [|s qs]; [done|]. cbn [level_of map] in Hlvs. injection Hlvs as -> Hps Hlvs.
  destruct (sh_round q Hsh k _ Hss) as [Hnd Hin]. pose proof (sh_own q Hsh k s) as Hown.
  assert (fifo q k s <> []) as Hne by (apply Hin, elem_of_cons; by left).
  destruct (fifo_stored q k s Hne) as (sq & Hsq & Hsqp). rewrite Hsq. cbn [mbind option_bind].
  rewrite Hps. destruct (fifo q k s) as [|p ps] eqn:Hfifo; [done|].
  destruct (DequeuePacket_ok sq k p ps (sh_streams q Hsh _ _ Hsq) Hsqp) as (sq' & -> & Hp' & Hok' & _).
  cbn [mbind option_bind].
  assert (all (levels q) ≡ₚ p :: (ps ++ flat lv ++ all (delete k (levels q)))) as Hall.
  { rewrite (all_split _ _ _ Hlv), Hps. cbn [flat flat_map snd]. by rewrite <- !app_assoc. }
  destruct (DequeuePacketInternal_ok [] p _ (totals q) (acct_perm _ _ _ _ Hall Ha)) as (t & -> & Ha' & Hc').
  cbn [mbind option_bind]. rewrite wr_nat by (by rewrite (sh_levels q Hsh)). cbn [mbind option_bind].
  unfold HasPacketsAtPrio. rewrite (rd_at (sq_packets sq') k ps).
  2:{ rewrite Hp'. apply list_lookup_insert_eq. by eapply lookup_lt_Some. }
  cbn [mbind option_bind]. apply list.NoDup_cons in Hnd as [Hsn Hnd].
  apply Forall_cons_1 in Hown as [_ Hown].
  set (q1 := set_by_prio (<[k := qs]> (streams_by_prio_ q))
               (set_totals t (set_streams (<[s := sq']> (streams_ q)) q))).
  assert (lv = level_of q k qs) as -> by exact Hlvs.
  destruct ps as [|p2 ps].
  - destruct (shape_update q q1 k s sq sq' [] qs) as [Hsh1 Hl1]; try done.
    { intros x. destruct (decide (x = s)) as [->|Hx]; [tauto|]. rewrite <- Hin, elem_of_cons. tauto. }
    rewrite map_skip in Hl1 by done.
    destruct (MaybeUpdateTopPrioLevel_ok q1 [] Hsh1) as (q' & -> & (Hsh' & Ha2 & Hc2 & Hs2 & _) & Hl2 & Ht2).
    + rewrite Hl1. eapply acct_perm; [|exact Ha']. symmetry. cbn [app].
      apply all_insert. by rewrite levels_length, (sh_levels q Hsh).
    + right. exists k. split; [cbn; by rewrite Ht|]. split; [done|]. intros j Hjk.
      rewrite Hl1, list_lookup_insert_ne by lia. by apply Hj.
    + cbn [mbind option_bind]. exists q'. split; [done|]. split; [by split_and!|].
      assert (last_update_time_ (totals q1) = last_update_time_ (totals q)) as Hlast by apply Hc'.
      split; [rewrite Hl2, Hl1, Hlast; change (top_active_prio_level_ q1) with (top_active_prio_level_ q);
              by rewrite Ht, Htop|].
      split; [by apply (same_clock_trans _ t)|done].
  - rewrite wr_nat by (cbn; by rewrite length_insert, (sh_levels q Hsh)). cbn [mbind option_bind].
    set (q2 := set_by_prio (<[k := qs ++ [s]]> (streams_by_prio_ q1)) q1).
    destruct (shape_update q q2 k s sq sq' (p2 :: ps) (qs ++ [s])) as [Hsh2 Hl2]; try done.
    { cbn. by rewrite list_insert_insert_eq. }
    { apply list.NoDup_app. split_and!; [done| |by apply NoDup_singleton].
      intros x Hx ->%list_elem_of_singleton. done. }
    { intros x. rewrite elem_of_app, list_elem_of_singleton.
      destruct (decide (x = s)) as [->|Hx]; [split; [done|by right]|].
      rewrite <- Hin, elem_of_cons. tauto. }
    rewrite map_app, map_skip in Hl2 by done. cbn [map] in Hl2. rewrite decide_True in Hl2 by done.
    exists q2. split; [done|]. split; [|split_and!; done].
    split_and!; [done| |].
    + rewrite Hl2. eapply acct_perm; [|exact Ha']. symmetry.
      rewrite all_insert by (by rewrite levels_length, (sh_levels q Hsh)).
      unfold flat. rewrite flat_map_app. cbn [flat_map snd]. rewrite app_nil_r, <- app_assoc.
      rewrite !app_assoc. apply Permutation_app_tail, Permutation_app_comm.
    + change (top_active_prio_level_ q2) with (top_active_prio_level_ q). rewrite Ht, Htop. symmetry.
      apply (first_active_at _ 0 k (level_of q k qs ++ [(s, p2 :: ps)])).
      * rewrite Hl2. apply list_lookup_insert_eq. by rewrite levels_length, (sh_levels q Hsh).
      * by destruct (level_of q k qs).
      * intros j Hjk. rewrite Hl2, list_lookup_insert_ne by lia. by apply Hj.
Qed.

(** ** Lemmas: pushing *)

(** Streams added or dropped without touching any packet. *)
Lemma shape_streams q q' :
  shape q -> same_setup q q' -> streams_by_prio_ q' = streams_by_prio_ q ->
  streams_ok q' -> (forall i s, fifo q' i s = fifo q i s) ->
  shape q' /\ levels q' = levels q.
Proof.
  intros [Hl Htl Hs Hr Ho] (S1 & S2) Hb Hok Hf. split; [split|].
  - by rewrite Hb.
  - by rewrite S2.
  - done.
  - intros i ss Hi. rewrite Hb in Hi. destruct (Hr i ss Hi) as [Hnd Hin]. split; [done|].
    intros s. by rewrite Hf.
  - intros i s. rewrite Hf. unfold priority. rewrite S1. apply Ho.
  - unfold levels. rewrite Hb. apply imap_ext. intros i ss _. unfold level_of.
    apply map_ext. intros s. by rewrite Hf.
Qed.

Lemma new_stream_ok t : stream_ok (new_stream t).
Proof. by split. Qed.

(** The stream of a packet is there once it is pushed. *)
Lemma emplace_ok ssrc t q :
  shape q ->
  let q' := match streams_ q !! ssrc with
            | Some _ => q
            | None => set_streams (<[ssrc := new_stream t]> (streams_ q)) q
            end in
  shape q' /\ levels q' = levels q /\ is_Some (streams_ q' !! ssrc) /\ same_setup q q' /\
  totals q' = totals q /\ top_active_prio_level_ q' = top_active_prio_level_ q.
Proof.
  intros Hsh. cbv zeta. destruct (streams_ q !! ssrc) as [sq|] eqn:Hs.
  { split_and!; try done. }
  set (q' := set_streams _ q).
  destruct (shape_streams q q' Hsh) as [Hsh' Hl']; [done|done| | |].
  - intros x sqx Hx. cbn in Hx. apply lookup_insert_Some in Hx as [[_ <-]|[_ Hx]];
      [apply new_stream_ok|by eapply (sh_streams q Hsh)].
  - intros i x. unfold fifo. cbn. destruct (decide (x = ssrc)) as [->|Hn].
    + rewrite lookup_insert_eq, Hs. by do 5 (destruct i as [|i]; [done|]).
    + by rewrite lookup_insert_ne.
  - split_and!; try done. eexists. apply lookup_insert_eq.
Qed.

Lemma IsEmpty_fifo sq i : IsEmpty sq = true -> default [] (sq_packets sq !! i) = [].
Proof.
  unfold IsEmpty. rewrite forallb_forall. intros H.
  destruct (sq_packets sq !! i) as [ps|] eqn:Hi; [|done]. cbn.
  apply list_elem_of_lookup_2, list_elem_of_In, H in Hi. by destruct ps.
Qed.

Lemma cull_streams_ok now q :
  shape q ->
  let q' := cull_streams now q in
  shape q' /\ levels q' = levels q /\ same_setup q q' /\ totals q' = totals q /\
  top_active_prio_level_ q' = top_active_prio_level_ q.
Proof.
  intros Hsh. cbv zeta. unfold cull_streams. case_if; [|done].
  set (q' := set_culling _ _).
  destruct (shape_streams q q' Hsh) as [Hsh' Hl']; [done|done| | |].
  - intros x sqx Hx. cbn in Hx. apply map_lookup_filter_Some in Hx as [Hx _].
    by eapply (sh_streams q Hsh).
  - intros i x. unfold fifo. cbn.
    destruct (filter _ (streams_ q) !! x) as [sq|] eqn:Hx.
    + apply map_lookup_filter_Some in Hx as [-> _]. done.
    + apply map_lookup_filter_None in Hx as [->|Hx]; [done|].
      destruct (streams_ q !! x) as [sq|] eqn:Hs; [|done]. specialize (Hx sq eq_refl). cbn in Hx.
      symmetry. apply IsEmpty_fifo. by destruct (IsEmpty sq).
  - done.
Qed.

(** A packet joins the deque of its stream, or opens one at the end of the
    round. *)
Fixpoint enlist (s : Z) (p : QueuedPacket) (lv : Level) : Level :=
  match lv with
  | [] => [(s, [p])]
  | e :: lv' => if e.1 =? s then (s, e.2 ++ [p]) :: lv' else e :: enlist s p lv'
  end.

Lemma flat_enlist s p lv : flat (enlist s p lv) ≡ₚ p :: flat lv.
Proof.
  induction lv as [|[x ps] lv IH]; [done|]. cbn [enlist fst snd].
  destruct (x =? s); cbn [flat flat_map snd]; fold (flat lv) (flat (enlist s p lv)).
  - rewrite <- app_assoc. cbn. by rewrite Permutation_middle.
  - rewrite IH. by rewrite Permutation_middle.
Qed.

Lemma enlist_ne s p lv : enlist s p lv <> [].
Proof. destruct lv as [|e lv]; cbn; [done|]. by destruct (e.1 =? s). Qed.

Lemma enlist_level q k s p ss :
  NoDup ss -> (s ∈ ss <-> fifo q k s <> []) ->
  enlist s p (level_of q k ss) =
    map (fun x => (x, if decide (x = s) then fifo q k s ++ [p] else fifo q k x))
      (match fifo q k s with [] => ss ++ [s] | _ => ss end).
Proof.
  intros Hnd Hin. destruct (decide (s ∈ ss)) as [Hs|Hs].
  - assert (match fifo q k s with [] => ss ++ [s] | _ => ss end = ss) as ->
      by (destruct (fifo q k s); [tauto|done]).
    clear Hin. induction Hnd as [|x ss Hx Hnd IH]; [by apply not_elem_of_nil in Hs|].
    cbn [level_of map enlist fst snd]. destruct (Z.eqb_spec x s) as [->|Hne].
    + rewrite decide_True by done. f_equal. symmetry. by apply map_skip.
    + rewrite decide_False by done. f_equal. apply IH. apply elem_of_cons in Hs as [->|]; done.
  - assert (fifo q k s = []) as -> by (destruct (fifo q k s); [done|exfalso; apply Hs, Hin; done]).
    rewrite map_app, map_skip by done. cbn [map app]. rewrite decide_True by done.
    clear Hin Hnd. induction ss as [|x ss IH]; [done|]. rewrite not_elem_of_cons in Hs.
    destruct Hs as [Hx Hs]. cbn [level_of map enlist fst app].
    rewrite (proj2 (Z.eqb_neq x s)) by done. f_equal. by apply IH.
Qed.

Lemma enqueue_ok k s qp q :
  shape q -> is_Some (streams_ q !! s) -> (k < kNumPriorityLevels)%nat ->
  Ssrc (packet qp) = s -> priority q (packet qp) = Z.of_nat k ->
  exists q', enqueue qp (Z.of_nat k) s q = Some q' /\ shape q' /\
    levels q' = alter (enlist s qp) k (levels q) /\ totals q' = totals q /\ same_setup q q' /\
    top_active_prio_level_ q' = top_active_prio_level_ q.
Proof.
  intros Hsh [sq Hsq] Hk Hssrc Hprio. unfold enqueue. rewrite Hsq. cbn [mbind option_bind].
  pose proof (sh_streams q Hsh _ _ Hsq) as Hok. pose proof Hok as [Hlen _].
  destruct (lookup_lt_is_Some_2 (sq_packets sq) k) as [ps Hps]; [by rewrite Hlen|].
  assert (fifo q k s = ps) as Hf by (unfold fifo; by rewrite Hsq, Hps).
  destruct (EnqueuePacket_ok sq k qp ps Hok Hps) as (sq' & -> & Hp' & Hok').
  cbn [mbind option_bind].
  destruct (shape_level q k Hsh Hk) as [lv Hlv].
  destruct (level_round q k lv Hlv) as (ss & Hss & Hlvs & Hrd).
  destruct (sh_round q Hsh k ss Hss) as [Hnd Hin].
  pose proof (sh_own q Hsh k s) as Hown. rewrite Hf in Hown.
  rewrite (alter_at _ _ _ _ Hlv), Hlvs, enlist_level, Hf by done.
  set (q1 := set_streams (<[s := sq']> (streams_ q)) q).
  assert (forall q' ss', streams_ q' = streams_ q1 -> same_setup q q' ->
      streams_by_prio_ q' = <[k := ss']> (streams_by_prio_ q) -> NoDup ss' ->
      (forall x, x ∈ ss' <-> if decide (x = s) then ps ++ [qp] <> [] else fifo q k x <> []) ->
      shape q' /\ levels q' =
        <[k := map (fun x => (x, if decide (x = s) then ps ++ [qp] else fifo q k x)) ss']> (levels q)) as Hup.
  { intros q' ss' H1 H2 H3 H4 H5. apply (shape_update q q' k s sq sq'); try done.
    apply Forall_app. split; [done|]. constructor; [done|constructor]. }
  assert (ps ++ [qp] <> []) as Hne by (by destruct ps).
  destruct ps as [|p0 ps].
  - change (streams_by_prio_ q1) with (streams_by_prio_ q). rewrite Hrd. cbn [mbind option_bind].
    rewrite wr_nat by (by rewrite (sh_levels q Hsh)). cbn [mbind option_bind].
    assert (~ s ∈ ss) as Hs by (rewrite Hin, Hf; tauto).
    set (q2 := set_by_prio _ q1). destruct (Hup q2 (ss ++ [s])) as [Hsh2 Hl2]; try done.
    + apply list.NoDup_app. split_and!; [done| |by apply NoDup_singleton].
      intros x Hx ->%list_elem_of_singleton. done.
    + intros x. rewrite elem_of_app, list_elem_of_singleton.
      destruct (decide (x = s)) as [->|Hx]; [split; [done|by right]|]. rewrite <- Hin. tauto.
    + exists q2. by split_and!.
  - destruct (Hup q1 ss) as [Hsh2 Hl2]; try done.
    + cbn. by rewrite list_insert_id.
    + intros x. destruct (decide (x = s)) as [->|Hx]; [|apply Hin].
      rewrite Hin, Hf. split; intros _; [exact Hne|done].
    + exists q1. by split_and!.
Qed.

(** A purge and a new packet at level [k] move the active level there if it was
    below, or if there was none. *)
Lemma top_of_push a k f g :
  (k < length a)%nat -> (forall lv, g lv <> []) ->
  (if (top_of a <? 0) || (Z.of_nat k <? top_of a) then Z.of_nat k else top_of a) =
  top_of (alter g k (alter f k a)).
Proof.
  intros Hk Hg. destruct (lookup_lt_is_Some_2 a k Hk) as [lv Hlv].
  assert (alter g k (alter f k a) !! k = Some (g (f lv))) as Hat
    by (by rewrite !list_lookup_alter_eq, Hlv).
  assert (forall j, j <> k -> alter g k (alter f k a) !! j = a !! j) as Hother
    by (intros j Hj; by rewrite !list_lookup_alter_ne).
  assert ((forall j, (j < k)%nat -> a !! j = Some []) ->
          Z.of_nat k = top_of (alter g k (alter f k a))) as Hfirst.
  { intros Hj. symmetry. apply (first_active_at _ 0 k (g (f lv))); [done|done|].
    intros j Hjk. rewrite Hother by lia. by apply Hj. }
  destruct (top_of_cases a) as [[-> Hnil]|(m & e & lvm & -> & Hm & Hj)].
  - cbn. apply Hfirst. intros j Hj.
    destruct (lookup_lt_is_Some_2 a j ltac:(lia)) as [lvj Hlvj]. by rewrite Hlvj, (Hnil _ _ Hlvj).
  - rewrite (proj2 (Z.ltb_ge _ _)) by lia. cbn [orb].
    destruct (Z.ltb_spec (Z.of_nat k) (Z.of_nat m)).
    + apply Hfirst. intros j Hjk. apply Hj. lia.
    + destruct (decide (m = k)) as [->|Hn]; [by apply Hfirst|].
      symmetry. apply (first_active_at _ 0 m (e :: lvm)); [by rewrite Hother|done|].
      intros j Hjm. rewrite Hother by lia. by apply Hj.
Qed.

(** The packet as it is queued: its time of arrival less the pauses so far. *)
Definition paused_until (now : Z) (t : QueueTotals) : Z :=
  pause_time_sum_ t + (if paused_ t then now - last_update_time_ t else 0).
Definition queued (now : Z) (p : RtpPacketToSend) (t : QueueTotals) : QueuedPacket :=
  mkQueued p (now - paused_until now t) (next_node t).

(** Expired packets of the level are dropped, then the packet joins its stream. *)
Definition abs_push (ttls : list Z) (now : Z) (k : nat) (p : QueuedPacket) (a : list Level)
    : list Level :=
  alter (enlist (Ssrc (packet p)) p) k
    (match ttls !! k with Some ttl => alter (purge_level ttl now) k a | None => a end).

Lemma priority_range q p ty :
  packet_type_ p = Some ty ->
  exists k, priority q p = Z.of_nat k /\ (k < kNumPriorityLevels)%nat /\ Z.to_nat (priority q p) = k.
Proof.
  intros Hty. unfold priority. rewrite Hty. generalize (if prioritize_audio_retransmission_ q then
    original_packet_type_ p else None). intros o. unfold kNumPriorityLevels.
  destruct ty; [exists 0%nat|exists 3%nat| |exists 3%nat|exists 4%nat]; try (cbn; lia).
  destruct o as [[]|]; [exists 1%nat|exists 2%nat|exists 1%nat]; cbn; lia.
Qed.

Lemma flat_purge_level ttl now lv : flat (purge_level ttl now lv) ⊆+ flat lv.
Proof.
  unfold purge_level. destruct (IsInfinite ttl); [done|]. rewrite flat_filter.
  induction lv as [|[s ps] lv IH]; [done|]. cbn [map flat flat_map fst snd].
  destruct (unexpired_suffix ttl now ps) as [k Hk]. rewrite Hk at 2. rewrite <- app_assoc.
  apply submseteq_inserts_l. by apply submseteq_skips_l.
Qed.

Lemma acct_add_node pending l t now :
  acct pending l t ->
  acct (next_node t :: pending) l
    (mkTotals (queue_time_sum_ t) (pause_time_sum_ t) (size_packets_ t)
      (size_packets_per_media_type_ t) (size_payload_ t) (last_update_time_ t) (paused_ t)
      (enqueue_times_ t ++ [(next_node t, now)]) (next_node t + 1)).
Proof.
  intros [H1 H2 H3 H4 H5 H6 H7 H8 [H9 H9'] H10].
  split; cbn [size_packets_ size_payload_ size_packets_per_media_type_ queue_time_sum_
    pause_time_sum_ last_update_time_ enqueue_times_ next_node]; try done.
  - rewrite map_app. cbn [map fst]. rewrite H8. cbn [app]. symmetry. apply Permutation_cons_append.
  - rewrite map_app. cbn [map fst]. split.
    + apply list.NoDup_app. split_and!; [done| |by apply NoDup_singleton].
      intros x Hx ->%list_elem_of_singleton. rewrite list.Forall_forall in H9'.
      specialize (H9' _ Hx). lia.
    + apply Forall_app. split; [|by constructor; [lia|constructor]].
      eapply List.Forall_impl; [|exact H9']. cbn beta. lia.
Qed.

Lemma alter_none {A} (f : A -> A) k (a : list A) : a !! k = None -> alter f k a = a.
Proof.
  intros Hk. apply list_eq. intros j. destruct (decide (j = k)) as [->|Hn].
  - by rewrite list_lookup_alter_eq, Hk.
  - by rewrite list_lookup_alter_ne.
Qed.

Lemma zlen_submseteq {A} (l k : list A) : l ⊆+ k -> zlen l <= zlen k.
Proof. intros H. apply submseteq_length in H. unfold zlen. lia. Qed.

Lemma all_alter_purge a k ttl now : all (alter (purge_level ttl now) k a) ⊆+ all a.
Proof.
  destruct (a !! k) as [lv|] eqn:Hk.
  - rewrite (alter_at _ _ _ _ Hk), (all_insert a k _ (lookup_lt_Some _ _ _ Hk)), (all_split a k lv Hk).
    apply submseteq_skips_r, flat_purge_level.
  - by rewrite (alter_none _ _ _ Hk).
Qed.

Lemma Push_ok now p q :
  queue_ok q -> is_Some (packet_type_ p) ->
  0 <= payload_size_ (rtp_packet p) + padding_size_ (rtp_packet p) < 4294967296 ->
  last_update_time_ (totals q) <= now <= kMaxTime -> zlen (all (levels q)) < kMaxQueued ->
  exists q', Push now p q = Some q' /\ queue_ok q' /\
    levels q' = abs_push (time_to_live_per_prio_ q) now (Z.to_nat (priority q p))
                  (queued now p (totals q)) (levels q) /\
    last_update_time_ (totals q') = now /\ pause_time_sum_ (totals q') = paused_until now (totals q) /\
    paused_ (totals q') = paused_ (totals q) /\ same_setup q q'.
Proof.
  intros (Hsh & Ha & Ht) [ty Hty] Hsz Hnow Hmax. unfold Push.
  destruct (emplace_ok (Ssrc p) now q Hsh) as (Hsh0 & Hl0 & Hs0 & Hset0 & Htot0 & Htop0).
  set (q0 := match streams_ q !! Ssrc p with Some _ => q | None => _ end) in *.
  cbv zeta. rewrite Htot0.
  set (q1 := set_totals (mkTotals _ _ _ _ _ _ _ (enqueue_times_ (totals q) ++ _) _) q0).
  rewrite Hty. cbn [mbind option_bind].
  assert (GetPriorityForType ty (if prioritize_audio_retransmission_ q1 then original_packet_type_ p
    else None) = priority q p) as ->.
  { unfold priority. rewrite Hty. change (prioritize_audio_retransmission_ q1) with
      (prioritize_audio_retransmission_ q0). destruct Hset0 as [-> _]. done. }
  destruct (priority_range q p ty Hty) as (k & Hk & Hk5 & ->). rewrite Hk.
  assert (shape q1 /\ levels q1 = levels q0) as [Hsh1 Hl1].
  { apply (shape_streams q0 q1); try done. apply (sh_streams q0 Hsh0). }
  assert (acct [next_node (totals q)] (all (levels q1)) (totals q1)) as Ha1.
  { rewrite Hl1, Hl0. by apply (acct_add_node []). }
  destruct (lookup_lt_is_Some_2 (time_to_live_per_prio_ q1) k) as [ttl Httl];
    [by rewrite (sh_ttl q1 Hsh1)|].
  destruct (PurgeOldPackets_ok k now q1 _ ttl Hsh1 Ha1 Httl)
    as (q2 & -> & Hsh2 & Ha2 & Hl2 & Hc2 & Hs2 & Ht2 & Hd2).
  cbn [mbind option_bind]. destruct Hc2 as (Hc2a & Hc2b & Hc2c & Hc2d).
  destruct (count_in_ok (all (levels q2)) now (next_node (totals q)) ty p (totals q2) Ha2)
    as (t3 & -> & Ha3 & Hc3a & Hc3b & Hc3c & Hc3d); try done.
  { by rewrite Hc2a. }
  { rewrite Hl2, Hl1, Hl0. pose proof (zlen_submseteq _ _ (all_alter_purge (levels q) k ttl now)). lia. }
  cbn [mbind option_bind]. rewrite Hc2a, Hc2b, Hc2c in *.
  change (pause_time_sum_ (totals q1) + (if paused_ (totals q1) then now - last_update_time_ (totals q1)
    else 0)) with (paused_until now (totals q)) in *.
  fold (queued now p (totals q)) in *.
  assert (same_setup q q2) as Hset2.
  { apply (same_setup_trans q q0); [done|]. exact Hs2. }
  destruct (shape_streams q2 (set_totals t3 q2) Hsh2) as [Hsh3 Hl3]; try done.
  { apply (sh_streams q2 Hsh2). }
  destruct (enqueue_ok k (Ssrc p) (queued now p (totals q)) (set_totals t3 q2))
    as (q4 & -> & Hsh4 & Hl4 & Htot4 & Hset4 & Htop4); try done.
  { cbn. apply elem_of_dom. rewrite Hd2. by apply elem_of_dom. }
  { rewrite <- Hk. unfold priority. cbn. destruct Hset2 as [-> _]. done. }
  cbn [mbind option_bind]. cbv zeta.
  set (q5 := if (top_active_prio_level_ q4 <? 0) || _ then set_top (Z.of_nat k) q4 else q4).
  assert (shape q5 /\ levels q5 = levels q4 /\ totals q5 = totals q4 /\ same_setup q4 q5 /\
    top_active_prio_level_ q5 = if (top_active_prio_level_ q4 <? 0) || (Z.of_nat k <? top_active_prio_level_ q4)
      then Z.of_nat k else top_active_prio_level_ q4) as (Hsh5 & Hl5 & Htot5 & Hset5 & Htop5).
  { subst q5. case_if; [split_and!; try done; by apply shape_set_top|by split_and!]. }
  destruct (cull_streams_ok now q5 Hsh5) as (Hsh6 & Hl6 & Hset6 & Htot6 & Htop6).
  set (q6 := cull_streams now q5) in *.
  assert (levels q6 = alter (enlist (Ssrc p) (queued now p (totals q))) k
    (alter (purge_level ttl now) k (levels q))) as Hl.
  { by rewrite Hl6, Hl5, Hl4, Hl3, Hl2, Hl1, Hl0. }
  assert (totals q6 = t3) as Htot by (rewrite Htot6, Htot5, Htot4; done).
  assert (time_to_live_per_prio_ q !! k = Some ttl) as Httlq.
  { rewrite <- Httl. change (time_to_live_per_prio_ q1) with (time_to_live_per_prio_ q0).
    by destruct Hset0 as [_ ->]. }
  exists q6. split; [done|]. split; [|rewrite Htot; split_and!; try done].
  - split; [done|]. split.
    + rewrite Htot, Hl. eapply acct_perm; [|exact Ha3]. symmetry.
      destruct (lookup_lt_is_Some_2 (levels q2) k) as [lv Hlv];
        [by rewrite levels_length, (sh_levels q2 Hsh2)|].
      rewrite <- Hl0, <- Hl1, <- Hl2, (alter_at _ _ _ _ Hlv).
      rewrite all_insert by (by eapply lookup_lt_Some). rewrite flat_enlist.
      by rewrite (all_split _ _ _ Hlv).
    + rewrite Htop6, Htop5, Htop4, Hl. cbn [top_active_prio_level_ set_totals]. rewrite Ht2.
      change (top_active_prio_level_ q1) with (top_active_prio_level_ q0). rewrite Htop0, Ht.
      apply top_of_push; [by rewrite levels_length, (sh_levels q Hsh)|apply enlist_ne].
  - unfold abs_push. by rewrite Httlq.
  - apply (same_setup_trans q q2); [done|]. apply (same_setup_trans q2 q4); [exact Hset4|].
    by apply (same_setup_trans q4 q5).
Qed.

(** ** Lemmas: removing a stream *)

Definition drop_stream (ssrc : Z) (lv : Level) : Level :=
  List.filter (fun e => negb (e.1 =? ssrc)) lv.

Lemma dequeue_all_ok pending ps l t :
  acct pending (ps ++ l) t ->
  exists t', dequeue_all ps t = Some t' /\ acct pending l t' /\ same_clock t t'.
Proof.
  revert t. induction ps as [|p ps IH]; intros t H; cbn [dequeue_all].
  - exists t. by split_and!.
  - destruct (DequeuePacketInternal_ok pending p (ps ++ l) t H) as (t1 & -> & H1 & C1).
    cbn [mbind option_bind]. destruct (IH t1 H1) as (t' & -> & H' & C').
    exists t'. split_and!; [done|done|by eapply same_clock_trans..].
Qed.

Definition unregister (ssrc : Z) (ss : list Z) : list Z :=
  List.filter (fun s => negb (s =? ssrc)) ss.

(** The rounds once the first [i] levels are done. *)
Definition unregistered (ssrc : Z) (i : nat) (b : list (list Z)) : list (list Z) :=
  map (unregister ssrc) (take i b) ++ drop i b.

Lemma unregister_absent ssrc ss : ~ ssrc ∈ ss -> unregister ssrc ss = ss.
Proof.
  induction ss as [|s ss IH]; [done|]. rewrite not_elem_of_cons. intros [Hs Hss].
  unfold unregister. cbn [List.filter]. rewrite (proj2 (Z.eqb_neq _ _)) by done. cbn [negb].
  f_equal. by apply IH.
Qed.

Lemma unregistered_lookup ssrc i b : unregistered ssrc i b !! i = b !! i.
Proof.
  unfold unregistered. destruct (decide (i < length b)%nat) as [Hi|Hi].
  - rewrite lookup_app_r; rewrite length_map, length_take_le by lia; [|lia].
    by rewrite Nat.sub_diag, lookup_drop, Nat.add_0_r.
  - rewrite !lookup_ge_None_2; [done|lia|]. rewrite length_app, length_map, length_take, length_drop. lia.
Qed.

Lemma unregistered_step ssrc i b ss :
  b !! i = Some ss ->
  <[i := unregister ssrc ss]> (unregistered ssrc i b) = unregistered ssrc (S i) b.
Proof.
  intros Hi. unfold unregistered. pose proof (lookup_lt_Some _ _ _ Hi) as Hlt.
  rewrite (take_S_r _ _ _ Hi), map_app, (drop_S _ _ _ Hi). cbn [map].
  replace i with (length (map (unregister ssrc) (take i b)) + 0)%nat at 1
    by (rewrite length_map, length_take_le; lia).
  rewrite insert_app_r. cbn. by rewrite <- app_assoc.
Qed.

Lemma unregistered_length ssrc i b : length (unregistered ssrc i b) = length b.
Proof. unfold unregistered. rewrite length_app, length_map, length_take, length_drop. lia. Qed.

(** What [RemovePacketsForSsrc] does to a round, in either of its two ways. *)
Lemma unregister_either ssrc ss :
  ssrc ∈ ss ->
  (if zlen ss =? 1 then tail ss else List.filter (fun s => negb (s =? ssrc)) ss) =
  unregister ssrc ss.
Proof.
  intros Hin. destruct (Z.eqb_spec (zlen ss) 1) as [H1|]; [|done].
  destruct ss as [|s [|s' ss]]; [done| |unfold zlen in H1; cbn in H1; lia].
  apply list_elem_of_singleton in Hin as ->. cbn. by rewrite Z.eqb_refl.
Qed.

Lemma remove_levels_ok ssrc b pss i q others pending :
  streams_by_prio_ q = unregistered ssrc i b -> length b = (i + length pss)%nat ->
  (forall j ss, b !! (i + j)%nat = Some ss -> ssrc ∈ ss <-> default [] (pss !! j) <> []) ->
  acct pending (concat pss ++ others) (totals q) ->
  exists t', remove_levels pss (Z.of_nat i) ssrc q =
      Some (set_by_prio (map (unregister ssrc) b) (set_totals t' q)) /\
    acct pending others t' /\ same_clock (totals q) t'.
Proof.
  revert i q. induction pss as [|ps pss IH]; intros i q Hb Hl Hin Ha; cbn [remove_levels].
  - exists (totals q). split; [|by split_and!]. f_equal.
    assert (unregistered ssrc i b = map (unregister ssrc) b) as Hu.
    { unfold unregistered. rewrite firstn_all2, skipn_all2 by (cbn in Hl; lia). apply app_nil_r. }
    rewrite <- Hu, <- Hb. by destruct q.
  - cbn [length] in Hl.
    destruct (lookup_lt_is_Some_2 b i) as [ss Hss]; [lia|].
    specialize (Hin 0%nat) as Hin0. rewrite Nat.add_0_r in Hin0. specialize (Hin0 ss Hss). cbn in Hin0.
    assert (forall j ss', b !! (S i + j)%nat = Some ss' ->
      ssrc ∈ ss' <-> default [] (pss !! j) <> []) as HinS.
    { intros j ss' Hj. apply (Hin (S j)). by rewrite Nat.add_succ_r. }
    assert (unregister ssrc ss = ss -> unregistered ssrc i b = unregistered ssrc (S i) b) as Hsame.
    { intros Hu. rewrite <- (unregistered_step ssrc i b ss Hss), Hu.
      by rewrite list_insert_id by (by rewrite unregistered_lookup). }
    replace (Z.of_nat i + 1) with (Z.of_nat (S i)) by lia.
    destruct ps as [|p ps].
    + apply IH; [|lia|done|done]. rewrite Hb. apply Hsame, unregister_absent. tauto.
    + cbn [concat] in Ha. rewrite <- app_assoc in Ha.
      destruct (dequeue_all_ok _ _ _ _ Ha) as (t & -> & Ha' & Hc). cbn [mbind option_bind].
      rewrite Hb, (rd_at _ i ss) by (by rewrite unregistered_lookup). cbn [mbind option_bind].
      assert ((if zlen ss =? 1 then wr (unregistered ssrc i b) (Z.of_nat i) (tail ss)
        else wr (unregistered ssrc i b) (Z.of_nat i) (List.filter (fun s => negb (s =? ssrc)) ss)) =
        Some (unregistered ssrc (S i) b)) as ->.
      { rewrite <- (unregistered_step ssrc i b ss Hss), <- (unregister_either ssrc ss) by (by apply Hin0).
        case_if; by rewrite wr_nat by (rewrite unregistered_length; lia). }
      cbn [mbind option_bind].
      destruct (IH (S i) (set_by_prio (unregistered ssrc (S i) b) (set_totals t q)))
        as (t' & -> & Ha'' & Hc'); [done|lia|done|done|].
      exists t'. split_and!; [done|done|by apply (same_clock_trans _ t)..].
Qed.

Lemma drop_stream_cons ssrc e lv :
  drop_stream ssrc (e :: lv) =
    if e.1 =? ssrc then drop_stream ssrc lv else e :: drop_stream ssrc lv.
Proof. unfold drop_stream. cbn. by destruct (e.1 =? ssrc). Qed.

Lemma flat_cons e lv : flat (e :: lv) = e.2 ++ flat lv.
Proof. done. Qed.

Lemma drop_stream_level q i ss ssrc :
  drop_stream ssrc (level_of q i ss) = level_of q i (unregister ssrc ss).
Proof. unfold drop_stream, level_of. by rewrite filter_map_comm. Qed.

(** A level is the packets of one of its streams and the rest. *)
Lemma flat_drop_stream q i ss ssrc :
  NoDup ss -> (ssrc ∈ ss <-> fifo q i ssrc <> []) ->
  flat (level_of q i ss) ≡ₚ fifo q i ssrc ++ flat (drop_stream ssrc (level_of q i ss)).
Proof.
  intros Hnd. induction Hnd as [|s ss Hs Hnd IH]; intros Hin.
  - destruct (fifo q i ssrc) as [|p ps]; [done|]. exfalso.
    apply (not_elem_of_nil ssrc). by apply Hin.
  - change (level_of q i (s :: ss)) with ((s, fifo q i s) :: level_of q i ss).
    rewrite drop_stream_cons, !flat_cons. cbn [fst snd].
    destruct (Z.eqb_spec s ssrc) as [->|Hne].
    + by rewrite drop_stream_level, unregister_absent.
    + rewrite flat_cons. cbn [snd].
      rewrite elem_of_cons in Hin.
      rewrite IH by (rewrite <- Hin; split; [by right|by intros [->|]]).
      rewrite !app_assoc. apply Permutation_app_tail, Permutation_app_comm.
Qed.

(** The five deques of a stream and the rest of the queue. *)
Lemma all_drop_stream q ssrc :
  shape q ->
  all (levels q) ≡ₚ
    concat (imap (fun i _ => fifo q i ssrc) (levels q)) ++ all (map (drop_stream ssrc) (levels q)).
Proof.
  intros Hsh. assert (forall k l, (forall i lv, l !! i = Some lv -> levels q !! (k + i)%nat = Some lv) ->
    all l ≡ₚ concat (imap (fun i _ => fifo q (k + i) ssrc) l) ++ all (map (drop_stream ssrc) l)) as H.
  { intros k l. revert k. induction l as [|lv l IH]; intros k Hk; [done|].
    rewrite imap_cons. cbn [concat map]. unfold all in *. cbn [flat_map].
    rewrite (IH (S k)) by (intros i lv' Hi; rewrite Nat.add_succ_comm; by apply Hk).
    specialize (Hk 0%nat lv eq_refl). rewrite Nat.add_0_r in *.
    destruct (level_round q k lv Hk) as (ss & Hss & -> & _).
    destruct (sh_round q Hsh k ss Hss) as [Hnd Hin].
    rewrite (flat_drop_stream q k ss ssrc Hnd (Hin ssrc)) at 1.
    assert (imap ((fun i (_ : Level) => fifo q (k + i) ssrc) ∘ S) l =
            imap (fun i _ => fifo q (S k + i) ssrc) l) as Himap
      by (apply imap_ext; intros i x _; cbn; by rewrite Nat.add_succ_r).
    rewrite Himap.
    rewrite <- !app_assoc. apply Permutation_app_head.
    rewrite !app_assoc. apply Permutation_app_tail, Permutation_app_comm. }
  apply (H 0%nat). done.
Qed.

Lemma stream_deques q ssrc sq :
  shape q -> streams_ q !! ssrc = Some sq ->
  imap (fun i (_ : Level) => fifo q i ssrc) (levels q) = sq_packets sq.
Proof.
  intros Hsh Hs. destruct (sh_streams q Hsh _ _ Hs) as [Hl _]. apply list_eq. intros i.
  rewrite list_lookup_imap. unfold fifo. rewrite Hs.
  destruct (sq_packets sq !! i) as [ps|] eqn:Hi.
  - destruct (shape_level q i Hsh) as [lv ->]; [|done].
    rewrite <- Hl. by eapply lookup_lt_Some.
  - rewrite lookup_ge_None in Hi. rewrite lookup_ge_None_2; [done|].
    rewrite levels_length, (sh_levels q Hsh). by rewrite <- Hl.
Qed.

Lemma top_reached_of q : shape q -> top_active_prio_level_ q = top_of (levels q) -> top_reached q.
Proof.
  intros Hsh Ht. unfold top_reached. rewrite Ht.
  destruct (top_of_cases (levels q)) as [[H _]|(k & e & lv & H & Hk & Hj)]; [by left|].
  right. exists k. split; [done|]. split; [|done].
  apply lookup_lt_Some in Hk. by rewrite levels_length, (sh_levels q Hsh) in Hk.
Qed.

(** The stream's entry goes from every level. *)
Definition abs_remove (ttls : list Z) (now ssrc : Z) (a : list Level) : list Level :=
  resettle ttls now (top_of a) (map (drop_stream ssrc) a).

(** The queue with the deques of a stream emptied and its entries gone. *)
Lemma shape_removed q q' ssrc sq :
  shape q -> same_setup q q' -> streams_ q !! ssrc = Some sq ->
  streams_ q' = <[ssrc := (DequeueAll sq).2]> (streams_ q) ->
  streams_by_prio_ q' = map (unregister ssrc) (streams_by_prio_ q) ->
  shape q' /\ levels q' = map (drop_stream ssrc) (levels q).
Proof.
  intros Hsh (S1 & S2) Hs Hm Hb. pose proof Hsh as [Hl Htl Hok Hr Ho].
  assert (forall i x, fifo q' i x = if decide (x = ssrc) then [] else fifo q i x) as Hf.
  { intros i x. unfold fifo. rewrite Hm. destruct (decide (x = ssrc)) as [->|Hn].
    - rewrite lookup_insert_eq. cbn. by do 5 (destruct i as [|i]; [done|]).
    - by rewrite lookup_insert_ne. }
  assert (forall x ss, x ∈ unregister ssrc ss <-> x <> ssrc /\ x ∈ ss) as Hu.
  { intros x ss. unfold unregister. rewrite elem_of_List_filter, negb_true_iff, Z.eqb_neq. done. }
  split; [split|].
  - by rewrite Hb, length_map.
  - by rewrite S2.
  - intros x sqx Hx. rewrite Hm in Hx. apply lookup_insert_Some in Hx as [[_ <-]|[_ Hx]];
      [by split|by eapply Hok].
  - intros i ss Hi. rewrite Hb, list_lookup_fmap in Hi.
    destruct (streams_by_prio_ q !! i) as [ss0|] eqn:Hss; [|done]. injection Hi as <-.
    destruct (Hr i ss0 Hss) as [Hnd Hin]. split; [by apply NoDup_List_filter|].
    intros x. rewrite Hu, Hf, Hin. destruct (decide (x = ssrc)); tauto.
  - intros i x. rewrite Hf. destruct (decide (x = ssrc)); [constructor|].
    unfold priority. rewrite S1. apply Ho.
  - apply list_eq. intros i. rewrite levels_lookup, Hb, !list_lookup_fmap, levels_lookup.
    destruct (streams_by_prio_ q !! i) as [ss|] eqn:Hss; [|done]. cbn. f_equal.
    rewrite drop_stream_level. unfold level_of. apply map_ext_in.
    intros x Hx%list_elem_of_In. apply Hu in Hx as [Hx _]. by rewrite Hf, decide_False.
Qed.

Lemma drop_stream_none q ssrc :
  shape q -> streams_ q !! ssrc = None -> map (drop_stream ssrc) (levels q) = levels q.
Proof.
  intros Hsh Hs. apply list_eq. intros i. rewrite list_lookup_fmap.
  destruct (levels q !! i) as [lv|] eqn:Hlv; [|done]. cbn. f_equal.
  destruct (level_round q i lv Hlv) as (ss & Hss & -> & _).
  rewrite drop_stream_level, unregister_absent; [done|].
  destruct (sh_round q Hsh i ss Hss) as [_ Hin]. rewrite Hin. unfold fifo. rewrite Hs. tauto.
Qed.

Lemma RemovePacketsForSsrc_ok ssrc q :
  queue_ok q ->
  exists q', RemovePacketsForSsrc ssrc q = Some q' /\ queue_ok q' /\
    levels q' = abs_remove (time_to_live_per_prio_ q) (last_update_time_ (totals q)) ssrc (levels q) /\
    same_clock (totals q) (totals q') /\ same_setup q q'.
Proof.
  intros (Hsh & Ha & Ht). unfold RemovePacketsForSsrc, abs_remove.
  assert (exists q1, (match streams_ q !! ssrc with
      | None => Some q
      | Some sq => let '(packets_by_prio, sq) := DequeueAll sq in
          remove_levels packets_by_prio 0 ssrc (set_streams (<[ssrc := sq]> (streams_ q)) q)
      end) = Some q1 /\ shape q1 /\ acct [] (all (levels q1)) (totals q1) /\
      levels q1 = map (drop_stream ssrc) (levels q) /\ same_clock (totals q) (totals q1) /\
      same_setup q q1 /\ top_active_prio_level_ q1 = top_active_prio_level_ q) as
    (q1 & -> & Hsh1 & Ha1 & Hl1 & Hc1 & Hs1 & Ht1).
  { destruct (streams_ q !! ssrc) as [sq|] eqn:Hs.
    - cbn [DequeueAll].
      destruct (remove_levels_ok ssrc (streams_by_prio_ q) (sq_packets sq) 0
        (set_streams (<[ssrc := (DequeueAll sq).2]> (streams_ q)) q)
        (all (map (drop_stream ssrc) (levels q))) []) as (t' & Hrun & Ha' & Hc').
      + done.
      + destruct (sh_streams q Hsh _ _ Hs) as [-> _]. apply (sh_levels q Hsh).
      + intros j ss Hj. destruct (sh_round q Hsh j ss Hj) as [_ Hin]. rewrite Hin. unfold fifo.
        by rewrite Hs.
      + rewrite <- (stream_deques q ssrc sq Hsh Hs). eapply acct_perm; [|exact Ha].
        by apply all_drop_stream.
      + match type of Hrun with _ = Some ?x => set (q1 := x) in Hrun end.
        destruct (shape_removed q q1 ssrc sq Hsh) as [Hsh1 Hl1]; try done.
        exists q1. split; [exact Hrun|]. split_and!; try done. by rewrite Hl1.
    - exists q. split_and!; try done. symmetry. by apply drop_stream_none. }
  cbn [mbind option_bind].
  destruct (MaybeUpdateTopPrioLevel_ok q1 [] Hsh1 Ha1) as (q2 & -> & (Hsh2 & Ha2 & Hc2 & Hs2 & _) & Hl2 & Ht2).
  { pose proof (top_reached_of q Hsh Ht) as Hreach. unfold top_reached. rewrite Ht1.
    destruct Hreach as [Hr|(k & Hk & Hk5 & Hj)]; [by left|]. right. exists k. split_and!; [done|done|].
    intros j Hjk. by rewrite Hl1, list_lookup_fmap, Hj. }
  exists q2. split; [done|]. split; [by split_and!|]. split; [|split].
  - rewrite Hl2, Hl1, Ht1, Ht. destruct Hc1 as (-> & _), Hs1 as (_ & ->). done.
  - by eapply same_clock_trans.
  - by eapply same_setup_trans.
Qed.

(** ** Lemmas: time *)

Lemma queue_ok_totals t q :
  queue_ok q -> acct [] (all (levels q)) t -> queue_ok (set_totals t q).
Proof.
  intros (Hsh & _ & Ht) Ha.
  destruct (shape_streams q (set_totals t q) Hsh) as [Hsh' Hl']; try done.
  apply (sh_streams q Hsh).
Qed.

Lemma levels_totals t q : levels (set_totals t q) = levels q.
Proof. done. Qed.

Lemma SetPauseState_ok b now q :
  queue_ok q -> last_update_time_ (totals q) <= now <= kMaxTime ->
  queue_ok (SetPauseState b now q) /\ levels (SetPauseState b now q) = levels q /\
  last_update_time_ (totals (SetPauseState b now q)) = now.
Proof.
  intros H Hnow. pose proof H as (Hsh & Ha & _).
  destruct (UpdateAverageQueueTime_ok _ _ _ _ Ha Hnow) as (Ha' & Hl & _).
  split_and!; [|done|done]. unfold SetPauseState. apply queue_ok_totals; [done|].
  destruct Ha' as [H1 H2 H3 H4 H5 H6 H7 H8 H9 H10]. by split.
Qed.

(** ** Lemmas: what stays in the queue *)

Lemma all_settle n i ttls now a : all (settle n i ttls now a) ⊆+ all a.
Proof.
  revert i a. induction n as [|n IH]; intros i a; cbn [settle]; [done|].
  set (a' := match ttls !! i with Some _ => _ | None => a end).
  assert (all a' ⊆+ all a) as Ha by (subst a'; destruct (ttls !! i); [apply all_alter_purge|done]).
  destruct (a' !! i) as [[|]|]; try exact Ha; rewrite (IH (S i) a'); exact Ha.
Qed.

Lemma all_resettle ttls now top a : all (resettle ttls now top a) ⊆+ all a.
Proof. unfold resettle. case_if; [done|apply all_settle]. Qed.

Lemma abs_pop_sub ttls now a p a' : abs_pop ttls now a = Some (p, a') -> p :: all a' ⊆+ all a.
Proof.
  unfold abs_pop. set (i := Z.to_nat (top_of a)).
  destruct (a !! i) as [[|[s [|p0 ps]] rest]|] eqn:Hi; try done.
  intros [= <- <-]. rewrite (all_split a i _ Hi).
  pose proof (lookup_lt_Some _ _ _ Hi) as Hlt. cbn [flat flat_map snd app]. fold (flat rest).
  apply submseteq_skip. destruct ps as [|p1 ps].
  - rewrite all_resettle. by rewrite (all_insert a i rest Hlt).
  - rewrite (all_insert a i _ Hlt). unfold flat at 1. rewrite flat_map_app. fold (flat rest).
    cbn [flat_map snd]. rewrite app_nil_r. apply submseteq_skips_r.
    by rewrite (Permutation_app_comm (flat rest)).
Qed.

Lemma abs_push_sub ttls now k p a : all (abs_push ttls now k p a) ⊆+ p :: all a.
Proof.
  unfold abs_push. set (a' := match ttls !! k with Some _ => _ | None => a end).
  assert (all a' ⊆+ all a) as Ha by (subst a'; destruct (ttls !! k); [apply all_alter_purge|done]).
  destruct (a' !! k) as [lv|] eqn:Hk.
  - rewrite (alter_at _ _ _ _ Hk), (all_insert _ _ _ (lookup_lt_Some _ _ _ Hk)), flat_enlist.
    cbn [app]. apply submseteq_skip. by rewrite <- (all_split _ _ _ Hk).
  - rewrite (alter_none _ _ _ Hk). by apply submseteq_cons.
Qed.

Lemma abs_remove_sub ttls now ssrc a q :
  shape q -> a = levels q -> all (abs_remove ttls now ssrc a) ⊆+ all a.
Proof.
  intros Hsh ->. unfold abs_remove. rewrite all_resettle, (all_drop_stream q ssrc Hsh).
  by apply submseteq_inserts_l.
Qed.

(** ** Runs *)

(** What the pacer does with its queue. *)
Inductive QueueEvent :=
  | QPush (now : Z) (p : RtpPacketToSend)
  | QPop
  | QTime (now : Z)
  | QPause (paused : bool) (now : Z)
  | QRemove (ssrc : Z).

Definition queue_step (q : PrioritizedPacketQueue) (e : QueueEvent)
    : option (list RtpPacketToSend * PrioritizedPacketQueue) :=
  match e with
  | QPush now p => q ← Push now p q; Some ([], q)
  | QPop => '(p, q) ← Pop q; Some (match p with Some p => [p] | None => [] end, q)
  | QTime now => Some ([], set_totals (UpdateAverageQueueTime now (totals q)) q)
  | QPause b now => Some ([], SetPauseState b now q)
  | QRemove ssrc => q ← RemovePacketsForSsrc ssrc q; Some ([], q)
  end.

Fixpoint queue_run (q : PrioritizedPacketQueue) (es : list QueueEvent)
    : option (list RtpPacketToSend * PrioritizedPacketQueue) :=
  match es with
  | [] => Some ([], q)
  | e :: es =>
      '(ps, q) ← queue_step q e;
      '(ps', q) ← queue_run q es;
      Some (ps ++ ps', q)
  end.

Definition event_time (last : Z) (e : QueueEvent) : Z :=
  match e with QPush now _ | QTime now | QPause _ now => now | _ => last end.

(** Packets have a type and a size; time does not go backwards. *)
Fixpoint events_ok (last : Z) (es : list QueueEvent) : Prop :=
  match es with
  | [] => True
  | e :: es =>
      last <= event_time last e <= kMaxTime /\
      match e with
      | QPush _ p => is_Some (packet_type_ p) /\
          0 <= payload_size_ (rtp_packet p) + padding_size_ (rtp_packet p) < 4294967296
      | _ => True
      end /\ events_ok (event_time last e) es
  end.

Lemma new_queue_ok creation audio ttl :
  0 <= creation <= kMaxTime -> queue_ok (new_queue creation audio ttl).
Proof.
  intros Hc. assert (forall i s, fifo (new_queue creation audio ttl) i s = []) as Hf.
  { intros i s. unfold fifo. cbn. by rewrite lookup_empty. }
  assert (shape (new_queue creation audio ttl)) as Hsh.
  { split; [done|done| | |].
    - intros s sq. cbn. by rewrite lookup_empty.
    - intros i ss Hi. cbn in Hi.
      assert (ss = []) as -> by (do 5 (destruct i as [|i]; [by injection Hi as <-|]); done).
      split; [constructor|]. intros s. rewrite Hf. split; [by intros ?%not_elem_of_nil|done].
    - intros i s. rewrite Hf. constructor. }
  split; [done|]. split; [|done].
  change (all (levels (new_queue creation audio ttl))) with (@nil QueuedPacket).
  split; cbn; try done; try lia; try constructor.
  all: constructor.
Qed.

Lemma queue_step_ok last e es q :
  queue_ok q -> last_update_time_ (totals q) <= last -> events_ok last (e :: es) ->
  zlen (all (levels q)) < kMaxQueued ->
  exists ps q', queue_step q e = Some (ps, q') /\ queue_ok q' /\
    last_update_time_ (totals q') <= event_time last e /\
    zlen (all (levels q')) <= zlen (all (levels q)) + 1.
Proof.
  intros H Hlast (Htime & Hp & _) Hmax. pose proof H as (Hsh & Ha & Ht).
  destruct e as [now p| |now|b now|ssrc]; cbn [queue_step event_time] in *.
  - destruct Hp as [Hty Hsz]. destruct (Push_ok now p q H Hty Hsz) as (q' & -> & H' & Hl' & Hu' & _); [lia|done|].
    cbn [mbind option_bind]. do 2 eexists. split; [done|]. split; [done|]. split; [lia|].
    rewrite Hl'. pose proof (zlen_submseteq _ _ (abs_push_sub (time_to_live_per_prio_ q) now
      (Z.to_nat (priority q p)) (queued now p (totals q)) (levels q))) as Hz. rewrite zlen_cons in Hz. lia.
  - pose proof (Pop_ok q H) as Hpop.
    destruct (abs_pop (time_to_live_per_prio_ q) _ (levels q)) as [[p a']|] eqn:Hab.
    + destruct Hpop as (q' & -> & H' & Hl' & (Hc & _) & _). cbn [mbind option_bind].
      do 2 eexists. split; [done|]. split; [done|]. rewrite Hc, Hl'.
      apply abs_pop_sub, zlen_submseteq in Hab. rewrite zlen_cons in Hab. lia.
    + destruct Hpop as [-> _]. cbn [mbind option_bind]. do 2 eexists. split; [done|].
      split; [done|]. lia.
  - destruct (UpdateAverageQueueTime_ok _ _ now _ Ha) as (Ha' & Hl & _); [lia|].
    do 2 eexists. split; [done|]. split; [by apply queue_ok_totals|]. split; [cbn; lia|].
    rewrite levels_totals. lia.
  - destruct (SetPauseState_ok b now q H) as (H' & Hl' & Hu'); [lia|].
    do 2 eexists. split; [done|]. split; [done|]. rewrite Hl', Hu'. lia.
  - destruct (RemovePacketsForSsrc_ok ssrc q H) as (q' & -> & H' & Hl' & (Hc & _) & _).
    cbn [mbind option_bind]. do 2 eexists. split; [done|]. split; [done|]. rewrite Hc. split; [lia|].
    rewrite Hl'. pose proof (zlen_submseteq _ _ (abs_remove_sub (time_to_live_per_prio_ q)
      (last_update_time_ (totals q)) ssrc _ q Hsh eq_refl)). lia.
Qed.

Lemma queue_run_ok last es q :
  queue_ok q -> last_update_time_ (totals q) <= last -> events_ok last es ->
  zlen (all (levels q)) + zlen es <= kMaxQueued ->
  exists sent q', queue_run q es = Some (sent, q') /\ queue_ok q'.
Proof.
  revert last q. induction es as [|e es IH]; intros last q H Hl He Hn; cbn [queue_run].
  - by do 2 eexists.
  - rewrite zlen_cons in Hn. pose proof (zlen_nonneg es).
    destruct (queue_step_ok last e es q H Hl He) as (ps & q1 & -> & H1 & Hl1 & Hn1); [lia|].
    cbn [mbind option_bind]. destruct He as (_ & _ & He).
    destruct (IH _ q1 H1 Hl1 He) as (sent & q2 & -> & H2); [lia|]. cbn [mbind option_bind].
    by do 2 eexists.
Qed.

(** ** Lemmas: draining *)

(** Pop up to [n] times, stopping when the queue is empty. *)
Fixpoint drain (n : nat) (q : PrioritizedPacketQueue)
    : option (list RtpPacketToSend * PrioritizedPacketQueue) :=
  match n with
  | O => Some ([], q)
  | S n' =>
      '(r, q) ← Pop q;
      match r with
      | None => Some ([], q)
      | Some p => '(ps, q) ← drain n' q; Some (p :: ps, q)
      end
  end.

(** The packet as the pacer receives it. *)
Definition sent (t : QueueTotals) (p : QueuedPacket) : RtpPacketToSend :=
  set_time_in_send_queue (waiting t p) (packet p).

(** Packets never expire. *)
Definition no_expiry (q : PrioritizedPacketQueue) : Prop :=
  Forall (fun ttl => IsInfinite ttl = true) (time_to_live_per_prio_ q).

Lemma settle_no_expiry n i ttls now a :
  Forall (fun ttl => IsInfinite ttl = true) ttls -> settle n i ttls now a = a.
Proof.
  intros Hf. revert i. induction n as [|n IH]; intros i; cbn [settle]; [done|].
  assert ((match ttls !! i with Some ttl => alter (purge_level ttl now) i a | None => a end) = a) as ->.
  { destruct (ttls !! i) as [ttl|] eqn:Hi; [|done]. apply list_eq. intros j.
    rewrite list.Forall_forall in Hf. specialize (Hf ttl ltac:(by eapply list_elem_of_lookup_2)).
    destruct (decide (j = i)) as [->|Hn].
    - rewrite list_lookup_alter_eq. destruct (a !! i); [|done]. cbn. unfold purge_level. by rewrite Hf.
    - by rewrite list_lookup_alter_ne. }
  rewrite IH. by destruct (a !! i) as [[|]|].
Qed.

(** The packets of a stream at a level, read off the level. *)
Fixpoint deque (s : Z) (lv : Level) : list QueuedPacket :=
  match lv with [] => [] | e :: lv' => if e.1 =? s then e.2 else deque s lv' end.

Lemma deque_level q i s lv : shape q -> levels q !! i = Some lv -> deque s lv = fifo q i s.
Proof.
  intros Hsh Hi. destruct (level_round q i lv Hi) as (ss & Hss & -> & _).
  destruct (sh_round q Hsh i ss Hss) as [_ Hin]. specialize (Hin s).
  assert (forall l, deque s (level_of q i l) = if bool_decide (s ∈ l) then fifo q i s else []) as Hd.
  { induction l as [|x l IH]; [done|]. cbn [level_of map deque fst snd].
    destruct (Z.eqb_spec x s) as [->|Hn].
    - rewrite bool_decide_true; [done|]. apply elem_of_cons. by left.
    - fold (level_of q i l). rewrite IH.
      rewrite (bool_decide_ext (s ∈ x :: l) (s ∈ l)); [done|]. rewrite elem_of_cons.
      split; [by intros [->|]|by right]. }
  rewrite Hd. case_bool_decide as Hs; [done|]. rewrite Hin in Hs.
  destruct (fifo q i s); [done|]. by destruct Hs.
Qed.

Lemma deque_app_last s x ps lv :
  deque s (lv ++ [(x, ps)]) =
    if bool_decide (s ∈ map fst lv) then deque s lv else if x =? s then ps else [].
Proof.
  induction lv as [|[y qs] lv IH]; cbn [app deque map fst snd].
  - by rewrite bool_decide_false by apply not_elem_of_nil.
  - destruct (Z.eqb_spec y s) as [->|Hn].
    + rewrite bool_decide_true; [done|]. apply elem_of_cons. by left.
    + rewrite IH. rewrite (bool_decide_ext (s ∈ y :: map fst lv) (s ∈ map fst lv)); [done|].
      rewrite elem_of_cons. split; [by intros [->|]|by right].
Qed.

Lemma deque_absent s lv : ~ s ∈ map fst lv -> deque s lv = [].
Proof.
  induction lv as [|e lv IH]; cbn [map deque]; [done|]. rewrite not_elem_of_cons. intros [H1 H2].
  rewrite (proj2 (Z.eqb_neq _ _)) by congruence. by apply IH.
Qed.

Lemma level_keys q i lv : shape q -> levels q !! i = Some lv -> NoDup (map fst lv).
Proof.
  intros Hsh Hi. destruct (level_round q i lv Hi) as (ss & Hss & -> & _).
  destruct (sh_round q Hsh i ss Hss) as [Hnd _]. unfold level_of. rewrite map_map. cbn.
  by rewrite map_id.
Qed.

(** What a pop does when the level it serves keeps packets, or nothing expires. *)
Lemma pop_level q k s p ps rest :
  queue_ok q -> top_of (levels q) = Z.of_nat k ->
  levels q !! k = Some ((s, p :: ps) :: rest) ->
  (no_expiry q \/ rest <> [] \/ ps <> []) ->
  exists q', Pop q = Some (Some (sent (totals q) p), q') /\ queue_ok q' /\
    levels q' = <[k := rest ++ (if nonempty ps then [(s, ps)] else [])]> (levels q) /\
    same_clock (totals q) (totals q') /\ same_setup q q'.
Proof.
  intros H Ht Hk Hor. pose proof (Pop_ok q H) as Hp. unfold abs_pop in Hp.
  rewrite Ht, Nat2Z.id, Hk in Hp. destruct Hp as (q' & Hpop & H' & Hl' & Hc & Hs).
  exists q'. split_and!; try done. rewrite Hl'. destruct ps as [|p2 ps]; [|done].
  cbn [nonempty]. rewrite app_nil_r. unfold resettle.
  rewrite (proj2 (Z.eqb_neq _ _)) by lia. rewrite Nat2Z.id.
  rewrite list_lookup_insert_eq by (by eapply lookup_lt_Some).
  destruct rest as [|e rest]; [|done]. cbn [negb andb default from_option nonempty id].
  apply settle_no_expiry.
  destruct Hor as [Hn|[?|?]]; [exact Hn|done|done].
Qed.

(** The top of the queue when it is not empty. *)
Lemma top_entry q :
  queue_ok q -> all (levels q) <> [] ->
  exists k s p ps rest, top_of (levels q) = Z.of_nat k /\
    levels q !! k = Some ((s, p :: ps) :: rest) /\ (k < kNumPriorityLevels)%nat /\
    forall j, (j < k)%nat -> levels q !! j = Some [].
Proof.
  intros (Hsh & Ha & _) Hne.
  destruct (top_of_cases (levels q)) as [[Ht _]|(k & [s ps] & rest & Ht & Hk & Hj)].
  { by apply (top_of_nil q Hsh) in Ht. }
  destruct (level_round q k _ Hk) as (ss & Hss & Hlv & _). destruct ss as [|s' ss]; [done|].
  cbn in Hlv. injection Hlv as -> -> ->.
  destruct (sh_round q Hsh k _ Hss) as [_ Hin].
  assert (fifo q k s' <> []) as Hf by (apply Hin, elem_of_cons; by left).
  destruct (fifo q k s') as [|p ps] eqn:Hfifo; [done|].
  exists k, s', p, ps, (level_of q k ss). split_and!; try done.
  rewrite <- (sh_levels q Hsh), <- levels_length. by eapply lookup_lt_Some.
Qed.

(** One pop takes the front of one deque and leaves the others. *)
Lemma pop_fifo q :
  queue_ok q -> no_expiry q -> all (levels q) <> [] ->
  exists k s p ps q', top_of (levels q) = Z.of_nat k /\ (k < kNumPriorityLevels)%nat /\
    (forall j x, (j < k)%nat -> fifo q j x = []) /\
    Pop q = Some (Some (sent (totals q) p), q') /\ queue_ok q' /\ no_expiry q' /\
    same_setup q q' /\ S (length (all (levels q'))) = length (all (levels q)) /\
    fifo q k s = p :: ps /\ Ssrc (packet p) = s /\ priority q (packet p) = Z.of_nat k /\
    forall j x, fifo q' j x = if decide (j = k /\ x = s) then ps else fifo q j x.
Proof.
  intros H Hn Hne. pose proof H as (Hsh & Ha & _).
  destruct (top_entry q H Hne) as (k & s & p & ps & rest & Ht & Hk & Hk5 & Hj).
  destruct (pop_level q k s p ps rest H Ht Hk (or_introl Hn)) as (q' & Hp & H' & Hl' & Hc & Hs).
  pose proof (lookup_lt_Some _ _ _ Hk) as Hlt. pose proof H' as (Hsh' & _).
  pose proof (deque_level q k s _ Hsh Hk) as Hf. cbn in Hf. rewrite Z.eqb_refl in Hf.
  assert (forall x, deque x (rest ++ (if nonempty ps then [(s, ps)] else [])) =
    if decide (x = s) then ps else deque x ((s, p :: ps) :: rest)) as Hd.
  { pose proof (level_keys q k _ Hsh Hk) as Hnd. apply list.NoDup_cons in Hnd as [Hs1 _].
    intros x. cbn [deque fst snd]. destruct (decide (x = s)) as [->|Hx].
    - destruct ps as [|p2 ps]; cbn [nonempty]; [rewrite app_nil_r; by apply deque_absent|].
      rewrite deque_app_last, bool_decide_false by done. by rewrite Z.eqb_refl.
    - rewrite (proj2 (Z.eqb_neq s x)) by congruence.
      destruct (nonempty ps); [|by rewrite app_nil_r].
      rewrite deque_app_last. case_bool_decide as Hx'; [done|].
      rewrite (proj2 (Z.eqb_neq s x)) by congruence. symmetry. by apply deque_absent. }
  exists k, s, p, ps, q'.
  pose proof (sh_own q Hsh k s) as Hown. rewrite <- Hf in Hown. apply Forall_cons_1 in Hown as [[Ho1 Ho2] _].
  split_and!; try done.
  - intros j x Hjk. rewrite <- (deque_level q j x _ Hsh (Hj j Hjk)). done.
  - unfold no_expiry. by destruct Hs as [_ ->].
  - rewrite Hl', (Permutation_length (all_insert _ k _ Hlt)), (Permutation_length (all_split _ k _ Hk)).
    rewrite !length_app. unfold flat. rewrite flat_map_app, length_app. cbn [flat_map snd].
    rewrite length_app. cbn [length]. destruct ps; cbn [nonempty flat_map snd]; rewrite ?app_nil_r; cbn; lia.
  - intros j x. destruct (decide (j = k)) as [->|Hjk].
    + rewrite <- (deque_level q' k x (rest ++ (if nonempty ps then [(s, ps)] else [])) Hsh'), Hd.
      2:{ rewrite Hl'. by apply list_lookup_insert_eq. }
      rewrite (deque_level q k x _ Hsh Hk). destruct (decide (x = s)) as [->|Hx].
      * by rewrite decide_True.
      * by rewrite decide_False by tauto.
    + rewrite decide_False by tauto. destruct (levels q !! j) as [lv|] eqn:Hlv.
      * rewrite <- (deque_level q j x lv Hsh Hlv), <- (deque_level q' j x lv Hsh'); [done|].
        by rewrite Hl', list_lookup_insert_ne.
      * assert (forall q0, shape q0 -> fifo q0 j x = []) as Hnil; [|by rewrite !Hnil].
        intros q0 Hsh0. destruct (fifo q0 j x) as [|p0 l0] eqn:Hf0; [done|].
        destruct (fifo_stored q0 j x) as (sq & Hsq & Hps); [by rewrite Hf0|].
        apply lookup_lt_Some in Hps. destruct (sh_streams q0 Hsh0 _ _ Hsq) as [Hl5 _].
        rewrite Hl5 in Hps. destruct (shape_level q j Hsh Hps) as [lv Hlv']. congruence.
Qed.

Lemma fifo_all_nil q i s : shape q -> all (levels q) = [] -> fifo q i s = [].
Proof.
  intros Hsh Hn. destruct (fifo q i s) as [|p ps] eqn:Hf; [done|]. exfalso.
  destruct (fifo_stored q i s) as (sq & Hsq & Hps); [by rewrite Hf|].
  apply lookup_lt_Some in Hps. destruct (sh_streams q Hsh _ _ Hsq) as [Hl _]. rewrite Hl in Hps.
  destruct (shape_level q i Hsh Hps) as [lv Hlv]. pose proof Hlv as Hlv'.
  apply all_nil in Hn. rewrite list.Forall_forall in Hn.
  apply (level_nil q i lv Hsh) in Hlv'; [subst lv|by apply Hn, list_elem_of_lookup_2 with i].
  rewrite <- (deque_level q i s _ Hsh Hlv) in Hf. done.
Qed.

(** The packets of one stream and level among those sent. *)
Definition of_stream (q : PrioritizedPacketQueue) (i : nat) (s : Z) (x : RtpPacketToSend) : bool :=
  (Ssrc x =? s) && (priority q x =? Z.of_nat i).

Lemma drain_ok n q :
  queue_ok q -> no_expiry q -> length (all (levels q)) = n ->
  exists out q', drain n q = Some (out, q') /\ all (levels q') = [] /\
    Forall (fun x => exists j, priority q x = Z.of_nat j) out /\
    StronglySorted (fun x y => priority q x <= priority q y) out /\
    forall i s, map rtp_packet (List.filter (of_stream q i s) out) =
                map (fun p => rtp_packet (packet p)) (fifo q i s).
Proof.
  revert q. induction n as [|n IH]; intros q H Hn Hlen; cbn [drain].
  - exists [], q. apply length_zero_iff_nil in Hlen. split_and!; [done|done|constructor|constructor|].
    intros i s. rewrite (fifo_all_nil q i s); [done|by destruct H|done].
  - assert (all (levels q) <> []) as Hne by (intros He; by rewrite He in Hlen).
    destruct (pop_fifo q H Hn Hne) as (k & s & p & ps & q1 & Ht & Hk & Hlow & -> & H1 & Hn1 & Hs1 & Hl1 &
      Hf & Hss & Hpr & Hf1). cbn [mbind option_bind].
    destruct (IH q1 H1 Hn1) as (out & q2 & -> & He2 & Hj2 & Hsort & Hfl); [lia|]. cbn [mbind option_bind].
    assert (forall x, priority q1 x = priority q x) as Hpq
      by (intros x; unfold priority; by destruct Hs1 as [-> _]).
    assert (forall i s', of_stream q1 i s' = of_stream q i s') as Hof
      by (intros i s'; unfold of_stream; done || (destruct Hs1 as [Hs1 _]; unfold priority; by rewrite Hs1)).
    exists (sent (totals q) p :: out), q2. split_and!; [done|done| | |].
    + constructor; [by exists k|]. eapply List.Forall_impl; [|exact Hj2]. intros x [j Hx].
      exists j. by rewrite <- Hpq.
    + constructor.
      * clear - Hsort Hpq. induction Hsort as [|x l Hl IHl Hx]; [constructor|]. constructor; [done|].
        eapply List.Forall_impl; [|exact Hx]. intros y. by rewrite !Hpq.
      * rewrite list.Forall_forall in Hj2 |- *. intros x Hx. destruct (Hj2 x Hx) as [j Hj].
        change (priority q (sent (totals q) p)) with (priority q (packet p)). rewrite Hpr, <- Hpq, Hj.
        destruct (decide (j < k)%nat) as [Hjk|]; [exfalso|lia].
        specialize (Hfl j (Ssrc x)). rewrite Hf1 in Hfl.
        rewrite decide_False, (Hlow j (Ssrc x) Hjk) in Hfl by lia.
        assert (x ∈ List.filter (of_stream q1 j (Ssrc x)) out) as Hin.
        { apply elem_of_List_filter. split; [|done]. unfold of_stream. by rewrite Hj, !Z.eqb_refl. }
        destruct (List.filter (of_stream q1 j (Ssrc x)) out); [by apply not_elem_of_nil in Hin|done].
    + intros i s'. specialize (Hfl i s'). rewrite Hof, Hf1 in Hfl. cbn [List.filter].
      unfold of_stream at 1. change (Ssrc (sent (totals q) p)) with (Ssrc (packet p)).
      change (priority q (sent (totals q) p)) with (priority q (packet p)). rewrite Hss, Hpr.
      destruct (Z.eqb_spec s s') as [<-|Hne1], (Z.eqb_spec (Z.of_nat k) (Z.of_nat i)) as [Hik|Hne2];
        cbn [andb map].
      * apply Nat2Z.inj in Hik as <-. rewrite decide_True in Hfl by done. by rewrite Hfl, Hf.
      * rewrite decide_False in Hfl by (intros [-> _]; done). exact Hfl.
      * rewrite decide_False in Hfl by (intros [_ ->]; done). exact Hfl.
      * rewrite decide_False in Hfl by (intros [_ ->]; done). exact Hfl.
Qed.

(** The top level stays the top while it has packets. *)
Lemma top_of_insert a k lv :
  top_of a = Z.of_nat k -> (k < length a)%nat -> lv <> [] -> top_of (<[k := lv]> a) = Z.of_nat k.
Proof.
  intros Ht Hk Hlv. destruct (top_of_cases a) as [[H _]|(m & e & lv' & H & _ & Hj)]; [lia|].
  assert (m = k) as -> by lia. apply (first_active_at _ 0 k lv); [|done|].
  - by apply list_lookup_insert_eq.
  - intros j Hjk. rewrite list_lookup_insert_ne by lia. by apply Hj.
Qed.

Lemma sent_same t t' p : same_clock t t' -> sent t' p = sent t p.
Proof. intros Hc. unfold sent. by rewrite (waiting_same t t' p Hc). Qed.

Lemma round_ok k lv rest q :
  queue_ok q -> top_of (levels q) = Z.of_nat k -> levels q !! k = Some (lv ++ rest) ->
  Forall (fun e => e.2 <> []) lv ->
  exists out q', drain (length lv) q = Some (out, q') /\ queue_ok q' /\
    Forall2 (fun x e => exists p ps, e.2 = p :: ps /\ x = sent (totals q) p) out lv.
Proof.
  revert rest q. induction lv as [|[s qs] lv IH]; intros rest q H Ht Hk Hf; cbn [length drain].
  - exists [], q. by split_and!.
  - apply Forall_cons_1 in Hf as [Hqs Hf]. cbn [snd] in Hqs. destruct qs as [|p ps]; [done|].
    cbn [app] in Hk. pose proof (lookup_lt_Some _ _ _ Hk) as Hlt.
    destruct (decide (lv = [] /\ rest = [] /\ ps = [])) as [(-> & -> & ->)|Hmore].
    + pose proof (Pop_ok q H) as Hp. unfold abs_pop in Hp. rewrite Ht, Nat2Z.id, Hk in Hp. cbn [app] in Hp.
      destruct Hp as (q' & -> & H' & _). cbn [mbind option_bind length drain].
      exists [sent (totals q) p], q'. split; [done|]. split; [done|]. constructor; [|constructor].
      by exists p, [].
    + destruct (pop_level q k s p ps (lv ++ rest) H Ht Hk) as (q1 & -> & H1 & Hl1 & Hc1 & _).
      { right. destruct lv; [destruct rest; [right; intros ->; by apply Hmore|by left]|by left]. }
      cbn [mbind option_bind].
      assert ((lv ++ rest) ++ (if nonempty ps then [(s, ps)] else []) <> []) as Hne.
      { destruct lv; [destruct rest; [destruct ps; [exfalso; by apply Hmore|done]|done]|done]. }
      destruct (IH (rest ++ (if nonempty ps then [(s, ps)] else [])) q1) as (out & q2 & -> & H2 & Hf2);
        [done|by rewrite Hl1, (top_of_insert _ k)| |done|].
      { rewrite Hl1, app_assoc. by apply list_lookup_insert_eq. }
      cbn [mbind option_bind]. exists (sent (totals q) p :: out), q2. split; [done|]. split; [done|].
      constructor; [by exists p, ps|]. eapply Forall2_impl; [|exact Hf2].
      intros x e (p' & ps' & He & ->). exists p', ps'. split; [done|]. by apply sent_same.
Qed.

(** ** Properties *)

(** Whatever the pacer does with the queue, as long as packets have a type
    and a size and time does not go backwards, the queue follows no dangling
    pointer to a stream, reads no empty deque and erases no list node twice, and
    its invariant holds: the round of each level lists exactly the streams with
    packets there, each once; the counters of packets, of packets per media
    type, of payload bytes and of key frames are those of the packets stored;
    the sum of queueing times is the sum of the times they have waited unpaused;
    and the active level is the first with packets. *)
Theorem queue_run_safe (creation : Z) (audio : bool) (ttl : PacketQueueTTL)
    (es : list QueueEvent) :
  0 <= creation <= kMaxTime -> events_ok creation es -> zlen es <= kMaxQueued ->
  exists out q, queue_run (new_queue creation audio ttl) es = Some (out, q) /\ queue_ok q.
Proof.
  intros Hc He Hn. apply (queue_run_ok creation); [by apply new_queue_ok|done|done|].
  change (zlen (all (levels (new_queue creation audio ttl)))) with 0. lia.
Qed.

(** C29. The queue refines a table of five levels, each a list of streams in the
    order they are served, each stream a list of packets: pushing drops the
    expired packets of the level and appends the packet to its stream, or
    appends the stream; popping takes the first packet of the first stream of
    the first level with packets and moves the stream to the end, purging
    expired packets when it has to look for the next level; removing a source
    takes its entry from every level. *)
Theorem queue_refines (q : PrioritizedPacketQueue) :
  queue_ok q ->
  (forall now p, is_Some (packet_type_ p) ->
     0 <= payload_size_ (rtp_packet p) + padding_size_ (rtp_packet p) < 4294967296 ->
     last_update_time_ (totals q) <= now <= kMaxTime -> zlen (all (levels q)) < kMaxQueued ->
     exists q', Push now p q = Some q' /\ queue_ok q' /\
       levels q' = abs_push (time_to_live_per_prio_ q) now (Z.to_nat (priority q p))
                     (queued now p (totals q)) (levels q)) /\
  (match abs_pop (time_to_live_per_prio_ q) (last_update_time_ (totals q)) (levels q) with
   | None => Pop q = Some (None, q) /\ all (levels q) = []
   | Some (p, a') => exists q', Pop q = Some (Some (sent (totals q) p), q') /\ queue_ok q' /\
       levels q' = a'
   end) /\
  (forall ssrc, exists q', RemovePacketsForSsrc ssrc q = Some q' /\ queue_ok q' /\
     levels q' = abs_remove (time_to_live_per_prio_ q) (last_update_time_ (totals q)) ssrc (levels q)).
Proof.
  intros H. split_and!.
  - intros now p Hty Hsz Hnow Hmax.
    destruct (Push_ok now p q H Hty Hsz Hnow Hmax) as (q' & Hp & H' & Hl & _). by exists q'.
  - pose proof (Pop_ok q H) as Hp.
    destruct (abs_pop _ _ _) as [[p a']|]; [|done]. destruct Hp as (q' & Hp & H' & Hl & _). by exists q'.
  - intros ssrc. destruct (RemovePacketsForSsrc_ok ssrc q H) as (q' & Hp & H' & Hl & _). by exists q'.
Qed.

(** Round robin: when [n] streams have packets at the active level, the next
    [n] packets popped are the first packet of each, in the order of the round,
    so no stream waits for more than one packet of each other stream. *)
Theorem queue_round_robin (q : PrioritizedPacketQueue) (k : nat) (ss : list Z) :
  queue_ok q -> top_active_prio_level_ q = Z.of_nat k -> streams_by_prio_ q !! k = Some ss ->
  exists out q', drain (length ss) q = Some (out, q') /\ queue_ok q' /\
    Forall2 (fun x s => exists p ps, fifo q k s = p :: ps /\ x = sent (totals q) p) out ss.
Proof.
  intros H Ht Hss. pose proof H as (Hsh & _ & Ht'). rewrite Ht' in Ht.
  destruct (sh_round q Hsh k ss Hss) as [_ Hin].
  destruct (round_ok k (level_of q k ss) [] q H Ht) as (out & q' & Hd & H' & Hf).
  - by rewrite app_nil_r, levels_lookup, Hss.
  - apply Forall_map. rewrite list.Forall_forall. intros s Hs. cbn. by apply Hin.
  - unfold level_of in Hd, Hf. rewrite length_map in Hd. exists out, q'. split_and!; [done|done|].
    clear Hd Hss Hin. revert out Hf. induction ss as [|s ss IH]; intros out Hf; inversion Hf; subst;
      constructor; [done|by apply IH].
Qed.

(** Nothing is lost: when packets do not expire, as many pops as there are
    packets empty the queue.  They give every packet once, in the order of the
    priorities, and those of one stream at one level in the order they were
    pushed. *)
Theorem queue_drains (q : PrioritizedPacketQueue) :
  queue_ok q -> no_expiry q ->
  exists out q', drain (length (all (levels q))) q = Some (out, q') /\ all (levels q') = [] /\
    StronglySorted (fun x y => priority q x <= priority q y) out /\
    forall i s, map rtp_packet (List.filter (of_stream q i s) out) =
                map (fun p => rtp_packet (packet p)) (fifo q i s).
Proof.
  intros H Hn. destruct (drain_ok _ q H Hn eq_refl) as (out & q' & Hd & He & _ & Hs & Hf).
  by exists out, q'.
Qed.

(** A queue with two video streams, an audio packet and a pause. *)
Definition sample_packet_of (ssrc : Z) (ty : RtpPacketMediaType) : RtpPacketToSend :=
  mkToSend (set_buffer_ (replicate 112 0) (set_payload_size_ 100 (set_ssrc_ ssrc new_packet))) 0 (Some ty) None None None false None
    false false false false false None String.EmptyString.

Definition sample_events : list QueueEvent :=
  [QPush 1000 (sample_packet_of 7 kVideo); QPush 2000 (sample_packet_of 7 kVideo);
   QPause true 3000; QPush 5000 (sample_packet_of 8 kVideo); QPause false 6000;
   QPush 7000 (sample_packet_of 9 kAudio)].

Definition no_ttl : PacketQueueTTL := mkTTL PlusInfinity PlusInfinity PlusInfinity.

Definition sample_queue : PrioritizedPacketQueue :=
  match queue_run (new_queue 0 false no_ttl) sample_events with
  | Some (_, q) => q
  | None => new_queue 0 false no_ttl
  end.

Lemma sample_events_ok : events_ok 0 sample_events.
Proof. cbn. unfold kMaxTime. repeat split; eauto; lia. Qed.

Lemma sample_queue_ok : queue_ok sample_queue.
Proof.
  destruct (queue_run_ok 0 sample_events (new_queue 0 false no_ttl)) as (out & q & Hr & Hq).
  - apply new_queue_ok. unfold kMaxTime. lia.
  - done.
  - exact sample_events_ok.
  - done.
  - unfold sample_queue. by rewrite Hr.
Qed.

Lemma queue_run_safe_witness :
  exists out q, queue_run (new_queue 0 false no_ttl) sample_events = Some (out, q) /\ queue_ok q.
Proof.
  apply queue_run_safe; [unfold kMaxTime; lia|exact sample_events_ok|done].
Defined.

Lemma queue_refines_witness :
  exists p q', Pop sample_queue = Some (Some p, q') /\ queue_ok q' /\ Ssrc p = 9.
Proof.
  destruct (queue_refines sample_queue sample_queue_ok) as (_ & H & _).
  assert (option_map (fun r => Ssrc (packet r.1)) (abs_pop (time_to_live_per_prio_ sample_queue)
    (last_update_time_ (totals sample_queue)) (levels sample_queue)) = Some 9) as E
    by (vm_compute; reflexivity).
  destruct (abs_pop _ _ _) as [[p a']|]; [|discriminate]. injection E as E.
  destruct H as (q' & Hp & Hq & _). exists (sent (totals sample_queue) p), q'.
  split; [exact Hp|]. split; [exact Hq|exact E].
Defined.

(** The audio packet gone, the two video streams take turns. *)
Definition sample_video : PrioritizedPacketQueue :=
  match Pop sample_queue with Some (_, q) => q | None => sample_queue end.

Lemma sample_video_ok : queue_ok sample_video.
Proof.
  pose proof (Pop_ok sample_queue sample_queue_ok) as H. unfold sample_video.
  destruct (abs_pop _ _ _) as [[p a']|].
  - destruct H as (q' & -> & Hq & _). exact Hq.
  - destruct H as [-> _]. exact sample_queue_ok.
Qed.

Lemma queue_round_robin_witness :
  exists out q', drain 2 sample_video = Some (out, q') /\ map Ssrc out = [7; 8].
Proof.
  destruct (queue_round_robin sample_video 3 [7; 8] sample_video_ok) as (out & q' & Hd & _ & Hf).
  - vm_compute. reflexivity.
  - vm_compute. reflexivity.
  - exists out, q'. split; [exact Hd|].
    assert (match drain 2 sample_video with Some (o, _) => map Ssrc o | None => [] end = [7; 8]) as E
      by (vm_compute; reflexivity).
    cbn [length] in Hd. rewrite Hd in E. exact E.
Defined.

Lemma queue_drains_witness :
  exists out q', drain 4 sample_queue = Some (out, q') /\ all (levels q') = [] /\
    map Ssrc out = [9; 7; 8; 7].
Proof.
  destruct (queue_drains sample_queue sample_queue_ok) as (out & q' & Hd & He & _).
  - vm_compute. repeat constructor.
  - exists out, q'. change (length (all (levels sample_queue))) with 4%nat in Hd.
    split; [exact Hd|]. split; [exact He|].
    assert (match drain 4 sample_queue with Some (o, _) => map Ssrc o | None => [] end = [9; 7; 8; 7]) as E
      by (vm_compute; reflexivity).
    rewrite Hd in E. exact E.
Defined.
