(* ===== verification/ReceiverStats.v ===== *)
(** * Reception statistics of a video stream

    What [RtpVideoReceiver] ([src/transport/channel/rtp_video_receiver.cpp])
    counts of the media packets that come in, under [receiver_stats_mtx_], and
    the receiver reports it makes of it: losses, the highest sequence number,
    the interarrival jitter, and the times of the last sender report.  Readings
    of the clocks are arguments. *)

From S2P Require Import Prelude Units Rtcp RtpTimestamp.

(** src/common/api/rtp_rtcp/rtp_rtcp_typedef.h:37-37 [kVideoPayloadTypeFrequency] *)
Definition kVideoPayloadTypeFrequency : Z := 90000.

(** src/transport/channel/rtp_video_receiver.h:244-268 [RtpVideoReceiver] *)
Record ReceiverStats := mkStats {
  st_fraction_lost_ : Z;
  st_cumulative_lost_ : Z;
  st_jitter_ : Z;
  st_extended_high_seq_num_ : Z;              (* uint16_t *)
  cumulative_loss_ : Z;                       (* int32_t *)
  last_report_cumulative_loss_ : Z;           (* int32_t *)
  cumulative_loss_rtcp_offset_ : Z;           (* int32_t *)
  last_receive_time_ : option Z;
  last_payload_type_frequency_ : Z;
  last_extended_high_seq_num_ : Z;            (* uint16_t *)
  jitter_q4_ : Z;                             (* uint32_t *)
  last_received_timestamp_ : Z;
  has_received_media_packet_ : bool;
  last_remote_ntp_timestamp : Z;
  last_remote_rtp_timestamp : Z;
  last_arrival_timestamp : Z;
  last_arrival_ntp_timestamp : Z;
  packets_sent : Z;
  bytes_sent : Z;
  reports_count : Z;
}.

Definition new_stats : ReceiverStats :=
  mkStats 0 0 0 0 0 0 0 None 0 0 0 0 false 0 0 0 0 0 0 0.

(** The members that an arrival changes. *)
Definition set_losses (loss high last_high : Z) (s : ReceiverStats) : ReceiverStats :=
  mkStats (st_fraction_lost_ s) (st_cumulative_lost_ s) (st_jitter_ s) high loss
    (last_report_cumulative_loss_ s) (cumulative_loss_rtcp_offset_ s) (last_receive_time_ s)
    (last_payload_type_frequency_ s) last_high (jitter_q4_ s) (last_received_timestamp_ s)
    (has_received_media_packet_ s) (last_remote_ntp_timestamp s) (last_remote_rtp_timestamp s)
    (last_arrival_timestamp s) (last_arrival_ntp_timestamp s) (packets_sent s) (bytes_sent s) (reports_count s).
Definition set_jitter (jitter q4 frequency : Z) (s : ReceiverStats) : ReceiverStats :=
  mkStats (st_fraction_lost_ s) (st_cumulative_lost_ s) jitter (st_extended_high_seq_num_ s) (cumulative_loss_ s)
    (last_report_cumulative_loss_ s) (cumulative_loss_rtcp_offset_ s) (last_receive_time_ s)
    frequency (last_extended_high_seq_num_ s) q4 (last_received_timestamp_ s)
    (has_received_media_packet_ s) (last_remote_ntp_timestamp s) (last_remote_rtp_timestamp s)
    (last_arrival_timestamp s) (last_arrival_ntp_timestamp s) (packets_sent s) (bytes_sent s) (reports_count s).
Definition set_received (time timestamp : Z) (s : ReceiverStats) : ReceiverStats :=
  mkStats (st_fraction_lost_ s) (st_cumulative_lost_ s) (st_jitter_ s) (st_extended_high_seq_num_ s)
    (cumulative_loss_ s) (last_report_cumulative_loss_ s) (cumulative_loss_rtcp_offset_ s) (Some time)
    (last_payload_type_frequency_ s) (last_extended_high_seq_num_ s) (jitter_q4_ s) timestamp
    true (last_remote_ntp_timestamp s) (last_remote_rtp_timestamp s)
    (last_arrival_timestamp s) (last_arrival_ntp_timestamp s) (packets_sent s) (bytes_sent s) (reports_count s).

(** ** Arrivals *)

(** src/transport/channel/rtp_video_receiver.cpp:1234-1263 [RtpVideoReceiver::ReviseFrequencyAndJitter] *)
Definition ReviseFrequencyAndJitter (payload_type_frequency : Z) (s : ReceiverStats) : ReceiverStats :=
  if payload_type_frequency =? last_payload_type_frequency_ s then s
  else if payload_type_frequency =? 0 then s
  else
    let q4 :=
      if negb (last_payload_type_frequency_ s =? 0)
      then u32 (s32 (u64 (jitter_q4_ s * u64 payload_type_frequency) / u64 (last_payload_type_frequency_ s)))
      else jitter_q4_ s in
    set_jitter (st_jitter_ s) q4 payload_type_frequency s.

(** The packet is counted. *)
(** src/transport/channel/rtp_video_receiver.cpp:333-346 [RtpVideoReceiver::InsertRtpPacket] *)
Definition count_arrival (sequence_number : Z) (s : ReceiverStats) : ReceiverStats :=
  let loss := s32 (cumulative_loss_ s - 1) in
  let '(high, last_high) :=
    match last_receive_time_ s with
    | None => (u16 (sequence_number - 1), u16 (sequence_number - 1))
    | Some _ => (st_extended_high_seq_num_ s, last_extended_high_seq_num_ s)
    end in
  set_losses (s32 (loss + (sequence_number - high))) sequence_number last_high s.

(** The time since the packet before, in samples, less the distance of the
    timestamps. *)
(** src/transport/channel/rtp_video_receiver.cpp:349-355 [RtpVideoReceiver::InsertRtpPacket] *)
Definition time_diff (now last_receive_time timestamp frequency last_timestamp : Z) : Z :=
  let receive_diff := timestamp_diff now last_receive_time in
  let receive_diff_rtp := u32 (ToFraction 1000000 (unit_mul receive_diff frequency)) in
  s32 (u32 (receive_diff_rtp - u32 (timestamp - last_timestamp))).

(** src/transport/channel/rtp_video_receiver.cpp:362-368 [RtpVideoReceiver::InsertRtpPacket] *)
Definition jitter_step (time_diff_samples q4 : Z) : Z :=
  if (time_diff_samples <? 5 * kVideoPayloadTypeFrequency) && (-5 * kVideoPayloadTypeFrequency <? time_diff_samples)
  then
    let jitter_diff_q4 := s32 (u32 (Z.shiftl (Z.abs time_diff_samples) 4 - q4)) in
    u32 (q4 + Z.shiftr (jitter_diff_q4 + 8) 4)
  else q4.

(** src/transport/channel/rtp_video_receiver.cpp:348-372 [RtpVideoReceiver::InsertRtpPacket] *)
Definition update_jitter (now last_receive_time timestamp frequency : Z) (s : ReceiverStats) : ReceiverStats :=
  if timestamp =? last_received_timestamp_ s then s else
  let d := time_diff now last_receive_time timestamp frequency (last_received_timestamp_ s) in
  let s := ReviseFrequencyAndJitter frequency s in
  let q4 := jitter_step d (jitter_q4_ s) in
  set_jitter (Z.shiftr q4 4) q4 (last_payload_type_frequency_ s) s.

(** src/transport/channel/rtp_video_receiver.cpp:331-377 [RtpVideoReceiver::InsertRtpPacket] *)
Definition OnMediaPacket (now sequence_number timestamp frequency : Z) (s : ReceiverStats) : ReceiverStats :=
  let last := default now (last_receive_time_ s) in
  set_received now timestamp (update_jitter now last timestamp frequency (count_arrival sequence_number s)).

(** ** Reports *)

(** Up to the block; [now] is the compact NTP time. *)
(** src/transport/channel/rtp_video_receiver.cpp:1271-1315 [RtpVideoReceiver::SendRR] *)
Definition make_report (now remote_ssrc : Z) (s : ReceiverStats) : RtcpReportBlock * ReceiverStats :=
  let exp_since_last := st_extended_high_seq_num_ s - last_extended_high_seq_num_ s in
  let lost_since_last := s32 (cumulative_loss_ s - last_report_cumulative_loss_ s) in
  let fraction_lost :=
    if (0 <? exp_since_last) && (0 <? lost_since_last)
    then u8 (Z.quot (s32 (255 * lost_since_last)) exp_since_last) else 0 in
  let cumulative_lost := s32 (cumulative_loss_ s + cumulative_loss_rtcp_offset_ s) in
  let '(cumulative_lost, offset) :=
    if cumulative_lost <? 0 then (0, s32 (- cumulative_loss_ s))
    else (cumulative_lost, cumulative_loss_rtcp_offset_ s) in
  let cumulative_lost := if 0x7fffff <? cumulative_lost then 0x7fffff else cumulative_lost in
  let delay_since_last_sr :=
    if negb (last_remote_ntp_timestamp s =? 0) then u32 (now - last_arrival_ntp_timestamp s) else 0 in
  let block := mkBlock 0 remote_ssrc fraction_lost 0 (st_extended_high_seq_num_ s) (st_jitter_ s)
    (last_remote_ntp_timestamp s) delay_since_last_sr 0 0 0 0 0 in
  ((SetCumulativeLost block cumulative_lost).2,
   mkStats fraction_lost cumulative_lost (st_jitter_ s) (st_extended_high_seq_num_ s) (cumulative_loss_ s)
     (cumulative_loss_ s) offset (last_receive_time_ s) (last_payload_type_frequency_ s)
     (st_extended_high_seq_num_ s) (jitter_q4_ s) (last_received_timestamp_ s)
     (has_received_media_packet_ s) (last_remote_ntp_timestamp s) (last_remote_rtp_timestamp s)
     (last_arrival_timestamp s) (last_arrival_ntp_timestamp s) (packets_sent s) (bytes_sent s) (reports_count s)).

(** The report that is sent. *)
(** src/transport/channel/rtp_video_receiver.cpp:1265-1319 [RtpVideoReceiver::SendRR] *)
Definition SendRR (now_ntp ssrc remote_ssrc garbage : Z) (s : ReceiverStats)
    : option (option (list Z) * ReceiverStats) :=
  let '(block, s) := make_report (CompactNtp now_ntp) remote_ssrc s in
  '(buffer, _) ← BuildRR (mkRR ssrc empty_header [block] [] 0) garbage;
  Some (buffer, s).

(** The clock of the stream is set, and the times are noted. *)
(** src/transport/channel/rtp_video_receiver.cpp:1447-1468 [RtpVideoReceiver::OnSenderReport] *)
Definition OnSenderReport (offset utc_us now_us now_ntp remote_ssrc : Z) (report : SenderReport)
    (m : RtpTimestampMapper) (s : ReceiverStats) : RtpTimestampMapper * ReceiverStats :=
  let info := sender_info_ report in
  let ntp_timestamp := NtpTimestamp info in
  if negb (sr_sender_ssrc_ report =? remote_ssrc) || (ntp_timestamp =? 0) then (m, s) else
  (UpdateFromSenderReport (rtp_ts info) (NtpToMonotonicTimeUs offset utc_us ntp_timestamp) m,
   mkStats (st_fraction_lost_ s) (st_cumulative_lost_ s) (st_jitter_ s) (st_extended_high_seq_num_ s)
     (cumulative_loss_ s) (last_report_cumulative_loss_ s) (cumulative_loss_rtcp_offset_ s)
     (last_receive_time_ s) (last_payload_type_frequency_ s) (last_extended_high_seq_num_ s) (jitter_q4_ s)
     (last_received_timestamp_ s) (has_received_media_packet_ s)
     (CompactNtpTimestamp info) (rtp_ts info) (u32 (ToFraction 1000 now_us)) (CompactNtp now_ntp)
     (sender_packet_count info) (sender_octet_count info) (u32 (reports_count s + 1))).

(** ** Runs *)

Inductive StatsOp :=
  | Arrived (now sequence_number timestamp : Z)
  | Reported (now remote_ssrc : Z)
  | SenderReported (offset utc_us now_us now_ntp remote_ssrc : Z) (report : SenderReport).

Definition stats_step (s : ReceiverStats) (op : StatsOp) : ReceiverStats :=
  match op with
  | Arrived now seq ts => OnMediaPacket now seq ts kVideoPayloadTypeFrequency s
  | Reported now remote_ssrc => (make_report now remote_ssrc s).2
  | SenderReported offset utc now_us now_ntp remote_ssrc report =>
      (OnSenderReport offset utc now_us now_ntp remote_ssrc report (new_mapper 90000) s).2
  end.

Definition stats_after (ops : list StatsOp) : ReceiverStats := foldl stats_step new_stats ops.

Lemma stats_after_snoc ops op : stats_after (ops ++ [op]) = stats_step (stats_after ops) op.
Proof. unfold stats_after. by rewrite foldl_app. Qed.

(** ** What there is to count: the reference

    The numbers that have arrived, those that had when the last report was made,
    and by how much more than expected had come in at the time of a report. *)

Record Tally := mkTally {
  all : list Z;
  told : list Z;
  surplus : Z;
}.

(** Before the first number, the last number, and what is missing in between. *)
Definition base (ps : list Z) : Z := match ps with [] => 0 | p :: _ => u16 (p - 1) end.
Definition high (ps : list Z) : Z := List.last ps 0.
Definition missing (ps : list Z) : Z := high ps - base ps - zlen ps.

Definition tally_step (t : Tally) (op : StatsOp) : Tally :=
  match op with
  | Arrived _ seq _ => mkTally (all t ++ [seq]) (told t) (surplus t)
  | Reported _ _ => mkTally (all t) (all t) (Z.max (surplus t) (- missing (all t)))
  | SenderReported _ _ _ _ _ _ => t
  end.

Definition tally (ops : list StatsOp) : Tally := foldl tally_step (mkTally [] [] 0) ops.

(** Where the interval of the next report starts. *)
Definition told_high (t : Tally) : Z := match told t with [] => base (all t) | _ => high (told t) end.

(** What the next report says of the losses since the last one, in 255ths. *)
Definition fraction (t : Tally) : Z :=
  let expected := high (all t) - told_high t in
  let lost := expected - (zlen (all t) - zlen (told t)) in
  if (0 <? expected) && (0 <? lost) then 255 * lost / expected else 0.

Definition stats_op_ok (op : StatsOp) : Prop := match op with Arrived _ seq _ => is_u16 seq | _ => True end.

Definition count_limit : Z := 1073741824.

Record counts (t : Tally) (s : ReceiverStats) : Prop := {
  c_first : last_receive_time_ s = None <-> all t = [];
  c_loss : cumulative_loss_ s = missing (all t);
  c_high : all t <> [] -> st_extended_high_seq_num_ s = high (all t);
  c_told_loss : last_report_cumulative_loss_ s = missing (told t);
  c_told_high : all t <> [] -> last_extended_high_seq_num_ s = told_high t;
  c_told : exists l, all t = told t ++ l;
  c_offset : cumulative_loss_rtcp_offset_ s = surplus t;
  c_surplus : 0 <= surplus t <= 65536 + zlen (all t);
  c_seqs : Forall is_u16 (all t);
}.

Lemma s32_id x : - 2147483648 <= x < 2147483648 -> s32 x = x.
Proof. unfold s32. intros H. rewrite Z.mod_small by lia. lia. Qed.

Lemma high_range ps : Forall is_u16 ps -> is_u16 (high ps).
Proof.
  intros H. unfold high. destruct ps as [|p ps] using rev_ind; [done|].
  rewrite List.last_last. by apply Forall_app in H as [_ H%Forall_inv].
Qed.

Lemma base_range ps : is_u16 (base ps).
Proof. destruct ps; [done|apply u16_range]. Qed.

Lemma missing_range ps : Forall is_u16 ps -> -65535 - zlen ps <= missing ps <= 65535 - zlen ps.
Proof. intros H. pose proof (high_range ps H). pose proof (base_range ps). unfold missing, is_u16 in *. lia. Qed.

Lemma base_snoc ps p : base (ps ++ [p]) = match ps with [] => u16 (p - 1) | _ => base ps end.
Proof. by destruct ps. Qed.

Lemma missing_snoc ps p :
  missing (ps ++ [p]) = match ps with [] => p - u16 (p - 1) - 1 | _ => missing ps + (p - high ps) - 1 end.
Proof.
  unfold missing, high. rewrite List.last_last, zlen_app, base_snoc. change (zlen [p]) with 1.
  destruct ps; [change (zlen (@nil Z)) with 0|]; lia.
Qed.

Lemma jitter_keeps now last ts freq s :
  let s' := update_jitter now last ts freq s in
  last_receive_time_ s' = last_receive_time_ s /\ cumulative_loss_ s' = cumulative_loss_ s /\
  st_extended_high_seq_num_ s' = st_extended_high_seq_num_ s /\
  last_report_cumulative_loss_ s' = last_report_cumulative_loss_ s /\
  last_extended_high_seq_num_ s' = last_extended_high_seq_num_ s /\
  cumulative_loss_rtcp_offset_ s' = cumulative_loss_rtcp_offset_ s.
Proof.
  unfold update_jitter, ReviseFrequencyAndJitter. cbv zeta. destruct (ts =? _); [done|].
  destruct (freq =? last_payload_type_frequency_ s); [done|]. by destruct (freq =? 0).
Qed.

Lemma counts_arrived t s now seq ts :
  counts t s -> is_u16 seq -> zlen (all t) < count_limit ->
  counts (mkTally (all t ++ [seq]) (told t) (surplus t)) (OnMediaPacket now seq ts kVideoPayloadTypeFrequency s).
Proof.
  intros [H1 H2 H3 H4 H5 (l & H6) H7 H8 H9] Hs Hlim. unfold OnMediaPacket.
  set (s1 := count_arrival seq s).
  destruct (jitter_keeps now (default now (last_receive_time_ s)) ts kVideoPayloadTypeFrequency s1)
    as (E1 & E2 & E3 & E4 & E5 & E6).
  set (s2 := update_jitter _ _ _ _ s1) in *.
  pose proof (missing_range _ H9) as Hm. pose proof (zlen_nonneg (all t)) as Hz.
  pose proof (high_range _ H9) as Hh. pose proof (u16_range (seq - 1)) as Hb.
  unfold count_limit, is_u16 in *.
  assert (s32 (cumulative_loss_ s - 1) = missing (all t) - 1) as El by (rewrite H2; apply s32_id; lia).
  assert (all t = [] -> told t = []) as Htold by (intros E; rewrite E in H6; by destruct (told t)).
  split; cbn [all told surplus set_received last_receive_time_ cumulative_loss_ st_extended_high_seq_num_
    last_report_cumulative_loss_ last_extended_high_seq_num_ cumulative_loss_rtcp_offset_].
  - split; [done|]. by destruct (all t).
  - rewrite E2. subst s1. unfold count_arrival. rewrite El, missing_snoc.
    destruct (last_receive_time_ s) as [last|] eqn:El1; cbn [set_losses cumulative_loss_].
    + destruct (all t) as [|p ps] eqn:Ea; [discriminate (proj2 H1 eq_refl)|].
      rewrite H3 by done. rewrite s32_id by (cbn in *; lia). lia.
    + rewrite (proj1 H1 eq_refl) in *. change (missing []) with 0 in *.
      rewrite s32_id by lia. lia.
  - intros _. rewrite E3. subst s1. unfold count_arrival, high. rewrite List.last_last.
    by destruct (last_receive_time_ s).
  - rewrite E4, <- H4. subst s1. unfold count_arrival. by destruct (last_receive_time_ s).
  - intros _. rewrite E5. subst s1. unfold count_arrival, told_high. cbn [all told]. rewrite base_snoc.
    destruct (last_receive_time_ s) as [last|] eqn:El1; cbn [set_losses last_extended_high_seq_num_].
    + destruct (all t) as [|p ps] eqn:Ea; [discriminate (proj2 H1 eq_refl)|].
      rewrite H5 by done. unfold told_high. by rewrite Ea.
    + rewrite (Htold (proj1 H1 eq_refl)). by rewrite (proj1 H1 eq_refl).
  - exists (l ++ [seq]). by rewrite H6, <- app_assoc.
  - rewrite E6, <- H7. subst s1. unfold count_arrival. by destruct (last_receive_time_ s).
  - rewrite zlen_app. change (zlen [seq]) with 1. lia.
  - apply Forall_app. split; [done|]. by apply Forall_cons_2.
Qed.

(** What the next report says, from the tally. *)
Definition says (t : Tally) (b : RtcpReportBlock) : Prop :=
  fraction_lost_ b = fraction t /\ 0 <= fraction t <= 255 /\
  extended_high_seq_num_ b = high (all t) /\
  cumulative_lost_ b = Z.min 0x7fffff (missing (all t) + Z.max (surplus t) (- missing (all t))).

Lemma missing_since t :
  all t <> [] -> (exists l, all t = told t ++ l) ->
  missing (all t) - missing (told t) = high (all t) - told_high t - (zlen (all t) - zlen (told t)).
Proof.
  intros Hne (l & E). unfold missing, told_high. destruct (told t) as [|p ps] eqn:Et.
  - change (high []) with 0. change (base []) with 0. change (zlen (@nil Z)) with 0. lia.
  - rewrite E. change (base ((p :: ps) ++ l)) with (base (p :: ps)). lia.
Qed.

Lemma fraction_range t : (exists l, all t = told t ++ l) -> 0 <= fraction t <= 255.
Proof.
  intros (l & E). assert (zlen (told t) <= zlen (all t)) by (rewrite E, zlen_app; pose proof (zlen_nonneg l); lia).
  unfold fraction. cbv zeta. set (e := high (all t) - told_high t). set (d := zlen (all t) - zlen (told t)).
  destruct (Z.ltb_spec 0 e); cbn [andb]; [|lia]. destruct (Z.ltb_spec 0 (e - d)); [|lia].
  split; [apply Z.div_pos; lia|]. apply Z.div_le_upper_bound; lia.
Qed.

Lemma fraction_made t s :
  counts t s -> all t <> [] -> zlen (all t) <= count_limit ->
  (if (0 <? st_extended_high_seq_num_ s - last_extended_high_seq_num_ s) &&
      (0 <? s32 (cumulative_loss_ s - last_report_cumulative_loss_ s))
   then u8 (Z.quot (s32 (255 * s32 (cumulative_loss_ s - last_report_cumulative_loss_ s)))
              (st_extended_high_seq_num_ s - last_extended_high_seq_num_ s)) else 0) = fraction t.
Proof.
  intros [H1 H2 H3 H4 H5 H6 H7 H8 H9] Hne Hlim. rewrite H2, H3, H4, H5 by done.
  pose proof (missing_since t Hne H6) as Hm. pose proof (fraction_range t H6) as Hr.
  unfold fraction in *. cbv zeta in *. destruct H6 as (l & E).
  assert (zlen (told t) <= zlen (all t)) by (rewrite E, zlen_app; pose proof (zlen_nonneg l); lia).
  pose proof (missing_range _ H9) as Ha. pose proof (zlen_nonneg (told t)).
  assert (Forall is_u16 (told t)) as H9' by (rewrite E in H9; apply Forall_app in H9 as [H9 _]; exact H9).
  pose proof (missing_range _ H9') as Ht.
  unfold count_limit in *. rewrite Hm in *. rewrite s32_id by lia.
  pose proof (high_range _ H9) as Hh.
  assert (0 <= told_high t < 65536) as Htl.
  { unfold told_high. destruct (told t) eqn:Et; [apply base_range|].
    by apply high_range. }
  unfold is_u16 in *. set (e := high (all t) - told_high t) in *. set (d := zlen (all t) - zlen (told t)) in *.
  destruct (Z.ltb_spec 0 e); cbn [andb] in *; [|done]. destruct (Z.ltb_spec 0 (e - d)); [|done].
  rewrite s32_id by lia. rewrite Z.quot_div_nonneg by lia. unfold u8. apply Z.mod_small. lia.
Qed.

Lemma counts_reported t s now remote_ssrc :
  counts t s -> zlen (all t) <= count_limit ->
  counts (mkTally (all t) (all t) (Z.max (surplus t) (- missing (all t)))) (make_report now remote_ssrc s).2 /\
  (all t <> [] -> says t (make_report now remote_ssrc s).1).
Proof.
  intros Hc Hlim. destruct (Hc) as [H1 H2 H3 H4 H5 H6 H7 H8 H9]. pose proof (missing_range _ H9) as Hm.
  pose proof (zlen_nonneg (all t)) as Hz. unfold count_limit in *.
  assert (s32 (cumulative_loss_ s + cumulative_loss_rtcp_offset_ s) = missing (all t) + surplus t) as Es
    by (rewrite H2, H7; apply s32_id; lia).
  assert (s32 (- cumulative_loss_ s) = - missing (all t)) as En by (rewrite H2; apply s32_id; lia).
  split.
  - unfold make_report. rewrite Es, En.
    destruct (Z.ltb_spec (missing (all t) + surplus t) 0); split; cbn; rewrite ?zlen_nil; try done; try lia;
      try (by exists []; rewrite app_nil_r).
    all: try (intros Hne; rewrite H3 by done; unfold told_high; by destruct (all t)).
  - intros Hne. pose proof (fraction_made t s Hc Hne Hlim) as Hf. pose proof (fraction_range t H6) as Hr.
    unfold make_report. cbv zeta. rewrite Hf, Es, En. clear Hf.
    unfold SetCumulativeLost. change (Z.shiftl 1 23) with 8388608.
    assert (forall x, 0 <= x -> ((8388608 <=? (if 0x7fffff <? x then 0x7fffff else x)) ||
        ((if 0x7fffff <? x then 0x7fffff else x) <? -8388608)) = false) as Hx.
    { intros x Hx. destruct (Z.ltb_spec 0x7fffff x); [done|]. rewrite (proj2 (Z.leb_gt _ _)), (proj2 (Z.ltb_ge _ _)) by lia. done. }
    destruct (Z.ltb_spec (missing (all t) + surplus t) 0); rewrite Hx by lia; unfold says; cbn;
      (split_and!; [done|lia|lia|by apply H3|]).
    + lia.
    + destruct (Z.ltb_spec 0x7fffff (missing (all t) + surplus t)); lia.
Qed.

Lemma counts_new : counts (mkTally [] [] 0) new_stats.
Proof. split; try done; by exists []. Qed.

Lemma counts_run ops :
  Forall stats_op_ok ops -> zlen (all (tally ops)) <= count_limit -> counts (tally ops) (stats_after ops).
Proof.
  induction ops as [|op ops IH] using rev_ind; intros Hok Hlim; [apply counts_new|].
  apply Forall_app in Hok as [Hok Hop%Forall_inv]. rewrite stats_after_snoc.
  unfold tally in *. rewrite foldl_app in *. cbn [foldl] in *. fold (tally ops) in *.
  destruct op as [now seq ts|now remote|offset utc now_us now_ntp remote report]; cbn [tally_step stats_step] in *.
  - cbn [all] in Hlim. rewrite zlen_app in Hlim. change (zlen [seq]) with 1 in Hlim.
    apply counts_arrived; [|done|unfold count_limit in *; lia]. apply IH; [done|unfold count_limit in *; lia].
  - cbn [all] in Hlim. by apply counts_reported; [apply IH|].
  - specialize (IH Hok Hlim). unfold OnSenderReport. destruct (_ || _); [done|]. by destruct IH.
Qed.

(** ** Lemmas: the jitter *)

(** Five seconds of video, in sixteenths of a sample. *)
Definition jitter_limit : Z := 7200000.

Definition jitter_ok (s : ReceiverStats) : Prop :=
  0 <= jitter_q4_ s <= jitter_limit /\ st_jitter_ s = jitter_q4_ s / 16 /\
  (last_payload_type_frequency_ s = 0 \/ last_payload_type_frequency_ s = kVideoPayloadTypeFrequency).

Lemma jitter_step_spec d q :
  0 <= q <= jitter_limit ->
  jitter_step d q = (if Z.abs d <? 450000 then q + Z.abs d - (q + 7) / 16 else q) /\
  0 <= jitter_step d q <= jitter_limit.
Proof.
  intros Hq. unfold jitter_step, jitter_limit, kVideoPayloadTypeFrequency in *.
  change (5 * 90000) with 450000. change (-5 * 90000) with (-450000).
  replace ((d <? 450000) && (-450000 <? d)) with (Z.abs d <? 450000)
    by (destruct (Z.ltb_spec (Z.abs d) 450000), (Z.ltb_spec d 450000), (Z.ltb_spec (-450000) d); cbn; lia).
  destruct (Z.ltb_spec (Z.abs d) 450000) as [Hd|]; [|done].
  rewrite Z.shiftl_mul_pow2, Z.shiftr_div_pow2 by lia. change (2 ^ 4) with 16.
  assert (s32 (u32 (Z.abs d * 16 - q)) = Z.abs d * 16 - q) as ->.
  { unfold s32, u32. rewrite Zplus_mod_idemp_l, Z.mod_small by lia. lia. }
  replace (Z.abs d * 16 - q + 8) with (- q + 8 + Z.abs d * 16) by ring. rewrite Z.div_add by lia.
  assert ((- q + 8) / 16 = - ((q + 7) / 16)) as E by (zdm; lia).
  rewrite E. rewrite u32_id by (unfold is_u32; zdm; lia). split; zdm; lia.
Qed.

Lemma update_jitter_ok now last ts s :
  jitter_ok s -> ts <> last_received_timestamp_ s ->
  let d := time_diff now last ts kVideoPayloadTypeFrequency (last_received_timestamp_ s) in
  let s' := update_jitter now last ts kVideoPayloadTypeFrequency s in
  jitter_ok s' /\
  jitter_q4_ s' = (if Z.abs d <? 450000 then jitter_q4_ s + Z.abs d - (jitter_q4_ s + 7) / 16 else jitter_q4_ s).
Proof.
  intros (Hq & Hj & Hf) Hts d s'. subst s'. unfold update_jitter. rewrite (proj2 (Z.eqb_neq _ _)) by done.
  assert (jitter_q4_ (ReviseFrequencyAndJitter kVideoPayloadTypeFrequency s) = jitter_q4_ s /\
          last_payload_type_frequency_ (ReviseFrequencyAndJitter kVideoPayloadTypeFrequency s) =
            kVideoPayloadTypeFrequency) as [E1 E2].
  { unfold ReviseFrequencyAndJitter. destruct Hf as [E|E]; rewrite E; by split. }
  cbv zeta. rewrite E1, E2. fold d. destruct (jitter_step_spec d (jitter_q4_ s) Hq) as [E Hb].
  split; [|exact E]. split; [exact Hb|]. split; [|by right]. cbn. rewrite Z.shiftr_div_pow2 by lia. done.
Qed.

Lemma stats_step_jitter s op : jitter_ok s -> jitter_ok (stats_step s op).
Proof.
  intros H. destruct op as [now seq ts|now remote|offset utc now_us now_ntp remote report]; cbn [stats_step].
  - unfold OnMediaPacket. set (s1 := count_arrival seq s).
    assert (jitter_ok s1) as H1 by (subst s1; unfold count_arrival; by destruct (last_receive_time_ s)).
    assert (jitter_ok (update_jitter now (default now (last_receive_time_ s)) ts kVideoPayloadTypeFrequency s1)) as H2.
    { destruct (decide (ts = last_received_timestamp_ s1)) as [->|Hne]; [|by apply update_jitter_ok].
      unfold update_jitter. by rewrite Z.eqb_refl. }
    exact H2.
  - unfold make_report. by destruct (_ <? 0).
  - unfold OnSenderReport. by destruct (_ || _).
Qed.

Lemma jitter_run ops : jitter_ok (stats_after ops).
Proof.
  induction ops as [|op ops IH] using rev_ind; [by repeat split; auto|].
  rewrite stats_after_snoc. by apply stats_step_jitter.
Qed.

(** ** Lemmas: what did not come *)

(** The packets from the first to the last number that did not come. *)
Definition lost (came : list Z) : Z :=
  match came with
  | [] => 0
  | first :: _ => zlen (filter (fun n => n ∉ came) (seqZ first (List.last came 0 - first + 1)))
  end.

(** No wrap: the first number is the lowest, and not 0. *)
Definition from_first (came : list Z) : Prop := match came with [] => True | first :: _ => 0 < first /\ Forall (Z.le first) came end.

(** None was overtaken that the last would have to wait for. *)
Definition newest_last (came : list Z) : Prop := Forall (fun n => n <= List.last came 0) came.

(** What had come when a report was made. *)
Definition at_reports (P : list Z -> Prop) (ops : list StatsOp) : Prop :=
  forall before now remote_ssrc after, ops = before ++ Reported now remote_ssrc :: after -> P (all (tally before)).

Lemma missing_lost came :
  base.NoDup came -> Forall is_u16 came -> from_first came -> newest_last came -> missing came = lost came.
Proof.
  intros Hd Hu Hf Hn. unfold newest_last in Hn. destruct came as [|first ps]; [done|]. destruct Hf as [Hpos Hlow]. unfold missing, lost, base, high.
  set (came := first :: ps) in *. set (last := List.last came 0) in *.
  assert (u16 (first - 1) = first - 1) as -> by (apply Forall_cons_1 in Hu as [Hu _]; unfold is_u16, u16 in *; apply Z.mod_small; lia).
  assert (first <= last) as Hle by (apply Forall_cons_1 in Hn as [Hn _]; exact Hn).
  set (range := seqZ first (last - first + 1)).
  assert (filter (fun n => n ∈ came) range ≡ₚ came) as Hin.
  { apply NoDup_Permutation; [apply list.NoDup_filter, NoDup_seqZ|done|]. intros n. rewrite list_elem_of_filter. unfold range. rewrite elem_of_seqZ.
    rewrite list.Forall_forall in Hlow, Hn. split; [by intros [? _]|]. intros H. split; [done|]. specialize (Hlow n H). specialize (Hn n H).
    cbn beta in *. fold last in Hn. lia. }
  assert (zlen range = last - first + 1) as Er by (unfold zlen, range; rewrite length_seqZ; lia).
  assert (zlen (filter (fun n => n ∈ came) range) + zlen (filter (fun n => n ∉ came) range) = zlen range) as Es.
  { unfold zlen. rewrite <- Nat2Z.inj_add, <- length_app. f_equal. apply Permutation_length, filter_app_complement. }
  apply Permutation_length in Hin. unfold zlen in *. lia.
Qed.

Lemma lost_nonneg came : 0 <= lost came.
Proof. destruct came; [done|apply zlen_nonneg]. Qed.

Lemma from_first_app a b : from_first (a ++ b) -> from_first a.
Proof. destruct a; [done|]. intros [H1 H2]. split; [done|]. by apply list.Forall_app in H2 as [H2 _]. Qed.

(** The numbers at the time of the last report were those of a report. *)
Lemma told_reported (P : list Z -> Prop) ops : P [] -> at_reports P ops -> P (told (tally ops)).
Proof.
  intros H0. induction ops as [|op ops IH] using rev_ind; intros Hp; [done|]. unfold tally in *. rewrite foldl_app. cbn [foldl].
  fold (tally ops) in *. assert (at_reports P ops) as Hp'.
  { intros before now r after ->. apply (Hp before now r (after ++ [op])). by rewrite <- app_assoc. }
  destruct op as [now seq ts|now r|]; cbn [tally_step told]; try by apply IH. by apply (Hp ops now r []).
Qed.

Lemma told_prefix ops : exists l, all (tally ops) = told (tally ops) ++ l.
Proof.
  induction ops as [|op ops [l IH]] using rev_ind; [by exists []|]. unfold tally in *. rewrite foldl_app. cbn [foldl]. fold (tally ops) in *.
  destruct op as [now seq ts|now r|]; cbn [tally_step all told]; [|exists []; by rewrite app_nil_r|by exists l].
  exists (l ++ [seq]). by rewrite IH, <- app_assoc.
Qed.

(** No report sees more packets than were expected. *)
Lemma no_surplus ops :
  base.NoDup (all (tally ops)) -> Forall is_u16 (all (tally ops)) -> from_first (all (tally ops)) -> at_reports newest_last ops ->
  surplus (tally ops) = 0.
Proof.
  induction ops as [|op ops IH] using rev_ind; intros Hd Hu Hf Hp; [done|]. unfold tally in *. rewrite foldl_app in *. cbn [foldl] in *.
  fold (tally ops) in *. assert (at_reports newest_last ops) as Hp'.
  { intros before now r after ->. apply (Hp before now r (after ++ [op])). by rewrite <- app_assoc. }
  destruct op as [now seq ts|now r|]; cbn [tally_step surplus all] in *.
  - apply list.NoDup_app in Hd as (Hd & _). apply list.Forall_app in Hu as [Hu _]. apply from_first_app in Hf. by apply IH.
  - specialize (Hp ops now r [] eq_refl). rewrite (IH Hd Hu Hf Hp'), (missing_lost _ Hd Hu Hf Hp). pose proof (lost_nonneg (all (tally ops))). lia.
  - by apply IH.
Qed.

Lemma tally_u16 ops : Forall stats_op_ok ops -> Forall is_u16 (all (tally ops)).
Proof.
  induction ops as [|op ops IH] using rev_ind; intros Hok; [constructor|]. unfold tally in *. rewrite foldl_app. cbn [foldl]. fold (tally ops) in *.
  apply list.Forall_app in Hok as [Hok Hop%Forall_inv]. destruct op as [now seq ts|now r|]; cbn [tally_step all]; try by apply IH.
  apply list.Forall_app. split; [by apply IH|]. by constructor.
Qed.

(** ** Properties *)

(** C37. A receiver report counts the packets that did not come, while the
    numbers do not wrap: the first packet to arrive has the lowest number, and
    that is not 0; no packet arrives twice; and when a report is made the last
    packet to arrive has the highest number (others may come out of order in
    between).  Then the report carries that number; as cumulative loss, how many
    of the numbers from the first to it have not arrived; and as fraction lost,
    by how much that count has grown since the last report, as a share of the
    numbers that have been added since (in 255ths, rounded down; none if it has
    not grown).  (Across a wrap losses are forgotten: rtp_video_receiver.cpp:345,
    and [losses_forgotten_at_wrap] below.) *)
Theorem receiver_report_counts (ops : list StatsOp) (now remote_ssrc : Z) :
  let came := all (tally ops) in
  let before := told (tally ops) in
  let report := (make_report now remote_ssrc (stats_after ops)).1 in
  let added := List.last came 0 - match before with [] => hd 0 came - 1 | _ => List.last before 0 end in
  let grown := lost came - lost before in
  Forall stats_op_ok ops -> base.NoDup came -> from_first came -> newest_last came -> at_reports newest_last ops -> came <> [] ->
  extended_high_seq_num_ report = List.last came 0 /\ cumulative_lost_ report = lost came /\
  fraction_lost_ report = (if 0 <? grown then 255 * grown / added else 0) /\ 0 <= fraction_lost_ report <= 255.
Proof.
  intros came before report added grown Hok Hd Hf Hn Hr Hne. pose proof (tally_u16 ops Hok) as Hu. fold came in Hu.
  pose proof (missing_lost came Hd Hu Hf Hn) as Hm. pose proof (lost_nonneg came) as Hl.
  assert (is_u16 (high came)) as Hh by (by apply high_range). pose proof (base_range came) as Hb.
  assert (zlen came <= count_limit) as Hlim by (unfold count_limit, missing, is_u16 in *; lia).
  pose proof (counts_run ops Hok Hlim) as Hc. destruct (proj2 (counts_reported (tally ops) _ now remote_ssrc Hc Hlim) Hne) as (F1 & F2 & F3 & F4).
  fold report in F1, F3, F4. fold came in F3, F4. rewrite (no_surplus ops Hd Hu Hf Hr), Hm in F4.
  assert (zlen came > 0) as Hz by (destruct came; [done|]; rewrite zlen_cons; pose proof (zlen_nonneg came); lia).
  split; [exact F3|]. split; [unfold missing, is_u16 in *; lia|]. rewrite F1. split; [|done].
  destruct (told_prefix ops) as [l El]. fold came before in El.
  assert (missing before = lost before) as Hmb.
  { rewrite El in Hd, Hu, Hf. apply list.NoDup_app in Hd as (Hd & _). apply list.Forall_app in Hu as [Hu _]. apply from_first_app in Hf.
    apply missing_lost; try done. apply told_reported; [constructor|done]. }
  pose proof (missing_since (tally ops) Hne (ex_intro _ l El)) as Hs. fold came before in Hs. rewrite Hm, Hmb in Hs. fold grown in Hs.
  assert (high came - told_high (tally ops) = added) as Ha.
  { unfold told_high, added, high. fold came before. destruct before; [|done]. unfold base. destruct came as [|first ps]; [done|].
    destruct Hf as [Hpos _]. apply Forall_cons_1 in Hu as [Hu _]. unfold u16, is_u16 in *. rewrite Z.mod_small by lia. done. }
  unfold fraction. fold came before. rewrite Ha in *. rewrite <- Hs. assert (zlen before <= zlen came)
    by (rewrite El, zlen_app; pose proof (zlen_nonneg l); lia).
  destruct (Z.ltb_spec 0 grown); [|by rewrite andb_false_r]. by rewrite (proj2 (Z.ltb_lt 0 added)) by lia.
Qed.

(** Packet 12 is overtaken by 14 and 16, 13 and 15 do not come; a report is made
    after 11 and one after 16. *)
Definition sample_arrivals : list StatsOp :=
  [Arrived 1000 10 90; Arrived 2000 11 180; Reported 7 5; Arrived 3000 14 270; Arrived 3500 12 200; Arrived 4000 16 360].

Lemma receiver_report_counts_witness :
  let report := (make_report 9 5 (stats_after sample_arrivals)).1 in
  extended_high_seq_num_ report = 16 /\ cumulative_lost_ report = 2 /\ fraction_lost_ report = 102.
Proof.
  pose proof (receiver_report_counts sample_arrivals 9 5) as H.
  destruct H as (H1 & H2 & H3 & _).
  - repeat apply Forall_cons_2; try apply Forall_nil_2; cbn; unfold is_u16; lia.
  - apply (bool_decide_unpack _). vm_compute. exact I.
  - split; [lia|]. repeat (constructor; [cbn; lia|]). constructor.
  - unfold newest_last. repeat (constructor; [vm_compute; congruence|]). constructor.
  - intros before now r after E. destruct before as [|? [|? [|? before]]]; try discriminate E.
    + injection E as <- <- _ _ _. unfold newest_last. repeat (constructor; [vm_compute; congruence|]). constructor.
    + do 3 (destruct before as [|? before]; [discriminate E|]). destruct before; discriminate E.
  - discriminate.
  - exact (conj H1 (conj H2 H3)).
Defined.

(** A wrap is not taken account of: two losses are reported,
    the numbers wrap, and the next report says that nothing was lost. *)
Example losses_forgotten_at_wrap :
  let ops := [Arrived 1000 65530 90; Arrived 2000 65533 180] in
  cumulative_lost_ (make_report 7 5 (stats_after ops)).1 = 2 /\
  cumulative_lost_ (make_report 8 5 (stats_after (ops ++
    [Reported 7 5; Arrived 3000 65534 270; Arrived 4000 65535 360; Arrived 5000 3 450]))).1 = 0.
Proof. by split. Qed.

(** The jitter estimate is the filter of RFC 3550 and stays in range: after
    any arrivals and reports, it is at most five seconds and the unsigned
    arithmetic has not wrapped; a packet with a new timestamp moves the estimate,
    in sixteenths, by the deviation less a sixteenth of what it was, rounded,
    and not at all when the deviation is five seconds or more. *)
Theorem jitter_estimate (ops : list StatsOp) (now seq ts : Z) :
  let s := stats_after ops in
  let s' := OnMediaPacket now seq ts kVideoPayloadTypeFrequency s in
  let d := time_diff now (default now (last_receive_time_ s)) ts kVideoPayloadTypeFrequency (last_received_timestamp_ s) in
  0 <= jitter_q4_ s <= 16 * 450000 /\ st_jitter_ s = jitter_q4_ s / 16 /\
  (ts <> last_received_timestamp_ s ->
   jitter_q4_ s' = if Z.abs d <? 450000 then jitter_q4_ s + Z.abs d - (jitter_q4_ s + 7) / 16 else jitter_q4_ s).
Proof.
  intros s s' d. pose proof (jitter_run ops) as Hj. fold s in Hj.
  destruct (Hj) as (Hq & Hd & _). split; [exact Hq|]. split; [exact Hd|]. intros Hts.
  set (s1 := count_arrival seq s).
  assert (jitter_ok s1 /\ jitter_q4_ s1 = jitter_q4_ s /\ last_received_timestamp_ s1 = last_received_timestamp_ s)
    as (Hj1 & E1 & E2) by (subst s1; unfold count_arrival; destruct (last_receive_time_ s); done).
  destruct (update_jitter_ok now (default now (last_receive_time_ s)) ts s1 Hj1) as [_ E]; [by rewrite E2|].
  rewrite E1, E2 in E. exact E.
Qed.

Lemma jitter_estimate_witness :
  jitter_q4_ (OnMediaPacket 40000 12 3000 kVideoPayloadTypeFrequency (stats_after [Arrived 1000 10 90; Arrived 2000 11 180])) =
    jitter_q4_ (stats_after [Arrived 1000 10 90; Arrived 2000 11 180]) + 600 -
      (jitter_q4_ (stats_after [Arrived 1000 10 90; Arrived 2000 11 180]) + 7) / 16.
Proof. exact (proj2 (proj2 (jitter_estimate [Arrived 1000 10 90; Arrived 2000 11 180] 40000 12 3000)) ltac:(discriminate)). Defined.
