(* ===== verification/VideoReceiver.v ===== *)
(** * The video receiver

    [RtpVideoReceiver] of [src/transport/channel/rtp_video_receiver.cpp] as a
    whole: what it does with a packet ([InsertRtpPacket], called by the
    transport), what its worker does every five milliseconds ([Process]), and
    the requests it sends for lost packets and for key frames.  The frames, the
    NACK state and the statistics are the components of the files before this
    one.

    What it calls is an interface: the clock, the RTCP sender, the congestion
    controller's receiving side and the consumer of frames.  Each method is what
    its thread does when it is not interrupted; the interleavings that matter
    for the frames are the subject of [FrameRelease.v] and [FrameArrival.v].
    The counters that are only logged are left out. *)

From stdpp Require Import gmap.
From S2P Require Import Prelude StateMonad Units SeqNum Rtcp RtpPacket RtpTimestamp Packetizer Av1.
From S2P Require Import Nack FeedbackTracker Ccfb FrameRelease FrameAssembly ReceiverStats.

(** ** What the receiver calls *)

Class ReceiverWorld (W : Type) := {
  (** [clock_->CurrentTime()]. *)
  current_time : W -> Z * W;
  (** The readings while a packet is taken in. *)
  readings : W -> Readings * W;
  (** [AppendPacket] and [Send] of the RTCP sender, for a NACK and for a FIR. *)
  send_nack : Z -> Z -> list Z -> W -> bool * W;
  send_fir : Z -> Z -> Z -> W -> bool * W;
  (** [on_receive_complete_frame_]. *)
  receive_frame : ReceivedFrame -> W -> W;
  (** [receive_side_congestion_controller_.OnReceivedPacket]. *)
  congestion_packet : RtpPacketReceived -> W -> W;
}.

(** ** State *)

(** src/transport/channel/rtp_video_receiver.h:203-270 [RtpVideoReceiver] *)
Record VideoReceiver := mkVideoReceiver {
  vr_ssrc_ : Z;
  remote_ssrc_ : Z;
  rtx_ssrc_ : Z;
  media_payload_type_ : Z;
  vr_ast_ext_id_ : option Z;
  rtcp_stop_ : bool;
  is_running_ : bool;
  frames : VideoFrames;
  nack_ : NackRequester;
  stats : ReceiverStats;
  fir_pending_ : bool;                  (* keyframe_request_pending_ *)
  keyframe_request_started_ms_ : Z;
  next_keyframe_request_ms_ : Z;
  sequence_number_fir_ : Z;
}.

Definition set_vr_frames (v : VideoFrames) (s : VideoReceiver) : VideoReceiver :=
  mkVideoReceiver (vr_ssrc_ s) (remote_ssrc_ s) (rtx_ssrc_ s) (media_payload_type_ s) (vr_ast_ext_id_ s)
    (rtcp_stop_ s) (is_running_ s) v (nack_ s) (stats s) (fir_pending_ s) (keyframe_request_started_ms_ s)
    (next_keyframe_request_ms_ s) (sequence_number_fir_ s).
Definition set_vr_nack (n : NackRequester) (s : VideoReceiver) : VideoReceiver :=
  mkVideoReceiver (vr_ssrc_ s) (remote_ssrc_ s) (rtx_ssrc_ s) (media_payload_type_ s) (vr_ast_ext_id_ s)
    (rtcp_stop_ s) (is_running_ s) (frames s) n (stats s) (fir_pending_ s) (keyframe_request_started_ms_ s)
    (next_keyframe_request_ms_ s) (sequence_number_fir_ s).
Definition set_vr_stats (t : ReceiverStats) (s : VideoReceiver) : VideoReceiver :=
  mkVideoReceiver (vr_ssrc_ s) (remote_ssrc_ s) (rtx_ssrc_ s) (media_payload_type_ s) (vr_ast_ext_id_ s)
    (rtcp_stop_ s) (is_running_ s) (frames s) (nack_ s) t (fir_pending_ s) (keyframe_request_started_ms_ s)
    (next_keyframe_request_ms_ s) (sequence_number_fir_ s).
Definition set_fir (pending : bool) (started next seq : Z) (s : VideoReceiver) : VideoReceiver :=
  mkVideoReceiver (vr_ssrc_ s) (remote_ssrc_ s) (rtx_ssrc_ s) (media_payload_type_ s) (vr_ast_ext_id_ s)
    (rtcp_stop_ s) (is_running_ s) (frames s) (nack_ s) (stats s) pending started next seq.
Definition set_config (remote rtx payload_type : Z) (s : VideoReceiver) : VideoReceiver :=
  mkVideoReceiver (vr_ssrc_ s) remote rtx payload_type (vr_ast_ext_id_ s)
    (rtcp_stop_ s) (is_running_ s) (frames s) (nack_ s) (stats s) (fir_pending_ s) (keyframe_request_started_ms_ s)
    (next_keyframe_request_ms_ s) (sequence_number_fir_ s).
Definition set_stopped (s : VideoReceiver) : VideoReceiver :=
  mkVideoReceiver (vr_ssrc_ s) (remote_ssrc_ s) (rtx_ssrc_ s) (media_payload_type_ s) (vr_ast_ext_id_ s)
    true false (frames s) (nack_ s) (stats s) (fir_pending_ s) (keyframe_request_started_ms_ s)
    (next_keyframe_request_ms_ s) (sequence_number_fir_ s).

Definition set_frames_pending (p : PendingFrames) (s : VideoReceiver) : VideoReceiver :=
  set_vr_frames (set_pending p (frames s)) s.

(** src/transport/channel/rtp_video_receiver.cpp:65-101 [RtpVideoReceiver::RtpVideoReceiver] *)
Definition new_receiver (ssrc : Z) (ast_ext_id : option Z) : VideoReceiver :=
  mkVideoReceiver ssrc 0 0 (payload_type_value H264) ast_ext_id false true
    (mkVideoFrames no_packets (new_mapper kVideoPayloadTypeFrequency) no_pending_frames) new_requester new_stats
    false 0 0 0.

(** src/transport/channel/rtp_video_receiver.h:120-120 [RtpVideoReceiver::RtxEnabled] *)
Definition RtxEnabled (s : VideoReceiver) : bool := negb (rtx_ssrc_ s =? 0).

(** src/transport/channel/rtp_video_receiver.h:56-64 [RtpVideoReceiver::SetMediaConfig] *)
Definition SetMediaConfig (remote_ssrc rtx_ssrc media_payload_type : Z) (s : VideoReceiver) : VideoReceiver :=
  let s :=
    if negb (remote_ssrc_ s =? remote_ssrc)
    then set_vr_frames (set_mapper (ResetMapper (rtp_timestamp_mapper_ (frames s))) (frames s)) s else s in
  set_config remote_ssrc (if negb (rtx_ssrc =? remote_ssrc) then rtx_ssrc else 0) media_payload_type s.

(** src/transport/channel/rtp_video_receiver.cpp:1321-1332 [RtpVideoReceiver::StopRtcp] *)
Definition StopRtcp (s : VideoReceiver) : VideoReceiver := set_stopped s.

(** src/transport/channel/rtp_video_receiver.cpp:859-867 [RtpVideoReceiver::OnRttUpdate] *)
Definition VrOnRttUpdate (rtt_ms : Z) (s : VideoReceiver) : VideoReceiver :=
  if negb (RtxEnabled s) then s else set_vr_nack (UpdateRtt rtt_ms (nack_ s)) s.

(** ** RTX *)

Definition kUndefinedPayloadType : Z := 0.

(** The bytes of the original packet. *)
(** src/transport/channel/rtp_video_receiver.cpp:141-166 [RtpVideoReceiver::RestoreMediaPacketFromRtx] *)
Definition restored_bytes (media_ssrc media_payload_type original_sequence_number : Z) (rtx : RtpPacket)
    : option (list Z) :=
  header ← rd_range (buffer_ rtx) 0 (payload_offset_ rtx);
  payload ← rd_range (buffer_ rtx) (payload_offset_ rtx + 2) (payload_size_ rtx - 2);
  padding ← (if 0 <? padding_size_ rtx
             then rd_range (buffer_ rtx) (size_ rtx - padding_size_ rtx) (padding_size_ rtx) else Some []);
  let media := header ++ payload ++ padding in
  b1 ← rd media 1;
  media ← wr media 1 (u8 (Z.lor (Z.land b1 0x80) (u8 media_payload_type)));
  media ← wr media 2 (u8 (Z.shiftr original_sequence_number 8));
  media ← wr media 3 (u8 original_sequence_number);
  media ← wr media 8 (u8 (Z.shiftr media_ssrc 24));
  media ← wr media 9 (u8 (Z.shiftr media_ssrc 16));
  media ← wr media 10 (u8 (Z.shiftr media_ssrc 8));
  wr media 11 (u8 media_ssrc).

(** [None] inside: it returns false. *)
(** src/transport/channel/rtp_video_receiver.cpp:130-169 [RtpVideoReceiver::RestoreMediaPacketFromRtx] *)
Definition RestoreMediaPacketFromRtx (rtx : RtpPacket) (s : VideoReceiver) : option (option RtpPacket) :=
  let media_ssrc := remote_ssrc_ s in
  if negb (payload_type_ rtx =? payload_type_value RTX) || (payload_size_ rtx <? 2) ||
     (payload_offset_ rtx <? kFixedHeaderSize) || (media_ssrc =? 0) ||
     (media_payload_type_ s =? kUndefinedPayloadType) || (media_payload_type_ s =? payload_type_value RTX)
  then Some None
  else
    b0 ← rd (buffer_ rtx) (payload_offset_ rtx);
    b1 ← rd (buffer_ rtx) (payload_offset_ rtx + 1);
    let original_sequence_number := u16 (Z.lor (Z.shiftl b0 8) b1) in
    media ← restored_bytes media_ssrc (media_payload_type_ s) original_sequence_number rtx;
    '(ok, p) ← Build new_packet media (zlen media);
    Some (if ok : bool then Some p else None).

(** The media packet in what came in, and whether it came by RTX. *)
(** src/transport/channel/rtp_video_receiver.cpp:258-280 [RtpVideoReceiver::InsertRtpPacket] *)
Definition media_packet_of (rtp_packet : RtpPacket) (s : VideoReceiver) : option (option (RtpPacket * bool)) :=
  let is_recovered := payload_type_ rtp_packet =? payload_type_value RTX in
  if is_recovered && ((rtx_ssrc_ s =? 0) || negb (ssrc_ rtp_packet =? rtx_ssrc_ s)) then Some None
  else if is_recovered then
    r ← RestoreMediaPacketFromRtx rtp_packet s;
    Some (match r with Some p => Some (p, true) | None => None end)
  else Some (Some (rtp_packet, false)).

Section methods.
Context {W : Type} {world : ReceiverWorld W}.

(** A method: it works on the receiver and the world. *)
Definition R (A : Type) : Type := M (VideoReceiver * W) A.

Definition member {A} (f : VideoReceiver -> A) : R A := gets (fun s => f s.1).
Definition update (f : VideoReceiver -> VideoReceiver) : R unit := modify (fun s => (f s.1, s.2)).
Definition outside {A} (f : W -> A * W) : R A := fun s => let '(a, w) := f s.2 in Some (a, (s.1, w)).
Definition tell (f : W -> W) : R unit := modify (fun s => (s.1, f s.2)).
Definition now_ms : R Z := now ← outside current_time; mret (ms now).

(** ** Requests *)

(** src/transport/channel/rtp_video_receiver.cpp:25-25 [kMaxNackIdsPerRtcpPacket] *)
Definition kMaxNackIdsPerRtcpPacket : nat := 256.

(** src/transport/channel/rtp_video_receiver.cpp:1358-1371 [RtpVideoReceiver::SendNack] *)
Definition SendNack (nack_list : list Z) : R bool :=
  s ← member id;
  if negb (RtxEnabled s) || bool_decide (nack_list = []) || rtcp_stop_ s then mret false
  else outside (send_nack (vr_ssrc_ s) (remote_ssrc_ s) nack_list).

Fixpoint send_batches (n : nat) (nack_batch : list Z) : R unit :=
  match n, nack_batch with
  | S n, _ :: _ =>
      let datagram_batch := take kMaxNackIdsPerRtcpPacket nack_batch in
      send_successful ← SendNack datagram_batch;
      now ← outside current_time;
      update (fun s => set_vr_nack (OnNackBatchSent now datagram_batch send_successful (nack_ s)) s);;
      send_batches n (drop kMaxNackIdsPerRtcpPacket nack_batch)
  | _, _ => mret tt
  end.

(** Each step of the loop takes at least one of the ids. *)
(** src/transport/channel/rtp_video_receiver.cpp:1373-1397 [RtpVideoReceiver::SendPreparedNackBatch] *)
Definition SendPreparedNackBatch (nack_batch : list Z) : R unit := send_batches (length nack_batch) nack_batch.

(** src/transport/channel/rtp_video_receiver.cpp:817-830 [RtpVideoReceiver::ProcessPendingNacks] *)
Definition ProcessPendingNacks : R unit :=
  s ← member id;
  if negb (RtxEnabled s) then mret tt else
  now ← outside current_time;
  let '(nack_batch, n) := ProcessNacks now (nack_ s) in
  update (set_vr_nack n);;
  SendPreparedNackBatch nack_batch.

(** src/transport/channel/rtp_video_receiver.cpp:1410-1410 [RtpVideoReceiver::SendKeyFrameRequest] *)
Definition kFirRetryIntervalMs : Z := 1500.
(** src/transport/channel/rtp_video_receiver.cpp:1411-1411 [RtpVideoReceiver::SendKeyFrameRequest] *)
Definition kFailedFirRetryIntervalMs : Z := 500.

(** What remains of a request that was made at [now_ms], successfully or not. *)
(** src/transport/channel/rtp_video_receiver.cpp:1427-1442 [RtpVideoReceiver::SendKeyFrameRequest] *)
Definition fir_outcome (now_ms : Z) (sent request_already_pending : bool) (s : VideoReceiver) : VideoReceiver :=
  if negb sent
  then set_fir (fir_pending_ s) (keyframe_request_started_ms_ s) (now_ms + kFailedFirRetryIntervalMs)
         (sequence_number_fir_ s) s
  else
    let s := if negb request_already_pending
             then set_fir true now_ms (next_keyframe_request_ms_ s) (sequence_number_fir_ s) s else s in
    set_fir (fir_pending_ s) (keyframe_request_started_ms_ s) (now_ms + kFirRetryIntervalMs)
      (sequence_number_fir_ s) s.

(** src/transport/channel/rtp_video_receiver.cpp:1399-1443 [RtpVideoReceiver::SendKeyFrameRequest] *)
Definition SendKeyFrameRequest (enter_awaiting_state : bool) : R bool :=
  (if enter_awaiting_state
   then update (fun s => set_frames_pending (set_awaiting true (pending (frames s))) s) else mret tt);;
  now ← now_ms;
  s ← member id;
  if now <? next_keyframe_request_ms_ s then mret false else
  let request_already_pending := fir_pending_ s in
  let seq := u8 (sequence_number_fir_ s + 1) in
  update (set_fir (fir_pending_ s) (keyframe_request_started_ms_ s) (next_keyframe_request_ms_ s) seq);;
  sent ← outside (send_fir (vr_ssrc_ s) (remote_ssrc_ s) seq);
  update (fir_outcome now sent request_already_pending);;
  mret sent.

(** src/transport/channel/rtp_video_receiver.cpp:1445-1445 [RtpVideoReceiver::RequestKeyFrame] *)
Definition RequestKeyFrame : R unit := SendKeyFrameRequest true;; mret tt.

(** src/transport/channel/rtp_video_receiver.cpp:963-988 [RtpVideoReceiver::MaybeRetryKeyFrameRequest] *)
Definition MaybeRetryKeyFrameRequest : R unit :=
  p ← member (fun s => pending (frames s));
  if awaiting_keyframe_ p && existsb (fun e => is_complete e.2 && is_keyframe e.2) (pending_frames_ p)
  then mret tt
  else if negb (awaiting_keyframe_ p) then mret tt
  else
    now ← now_ms;
    next ← member next_keyframe_request_ms_;
    if next <=? now then SendKeyFrameRequest false;; mret tt else mret tt.

(** src/transport/channel/rtp_video_receiver.cpp:990-1013 [RtpVideoReceiver::OnCompleteKeyFrame] *)
Definition OnCompleteKeyFrame (s : VideoReceiver) : VideoReceiver :=
  if negb (fir_pending_ s) then s
  else set_fir false 0 (next_keyframe_request_ms_ s) (sequence_number_fir_ s) s.

(** ** The worker *)

(** What follows the critical section of a round: whether to go on, and if not,
    what [Process] returns. *)
(** src/transport/channel/rtp_video_receiver.cpp:1181-1229 [RtpVideoReceiver::Process] *)
Definition after_round (now : Z) (r : Released) : R (option bool) :=
  (match dropped_timestamp r with
   | Some ts => update (fun s => set_vr_frames (set_assembly (DropFrameAssembly ts (assembly (frames s))) (frames s)) s)
   | None => mret tt
   end);;
  next ← member next_keyframe_request_ms_;
  if recovery_timed_out r then
    (if next <=? now then SendKeyFrameRequest false;; mret tt else mret tt);; mret (Some false)
  else if soft_stall_started r then mret (Some false)
  else if request_soft_fir r then
    (if next <=? now then SendKeyFrameRequest false;; mret tt else mret tt);; mret (Some false)
  else if bool_decide (is_Some (dropped_timestamp r)) then mret None
  else
    match completed_frame r with
    | None => mret None
    | Some f =>
        (if completed_keyframe r then update OnCompleteKeyFrame else mret tt);;
        tell (receive_frame f);;
        mret None
    end.

(** src/transport/channel/rtp_video_receiver.cpp:1065-1231 [RtpVideoReceiver::Process] *)
Fixpoint release_loop (rounds : nat) (timing : FrameRecoveryTiming) : R bool :=
  match rounds with
  | O => lift None
  | S rounds =>
      now ← now_ms;
      s ← member id;
      match release_round timing now (nack_ s) (pending (frames s)) with
      | None => mret true
      | Some (r, n, p) =>
          update (fun s => set_vr_nack n (set_frames_pending p s));;
          again ← after_round now r;
          match again with
          | None => release_loop rounds timing
          | Some result => mret result
          end
      end
  end.

(** A round that goes on takes a frame out, so the frames that wait, and one
    more, are rounds enough. *)
(** src/transport/channel/rtp_video_receiver.cpp:1055-1232 [RtpVideoReceiver::Process] *)
Definition Process : R bool :=
  running ← member is_running_;
  if negb running then mret false else
  ProcessPendingNacks;;
  MaybeRetryKeyFrameRequest;;
  timing ← member (fun s => GetFrameRecoveryTiming (RtxEnabled s) (nack_ s));
  waiting ← member (fun s => length (pending_frames_ (pending (frames s))));
  release_loop (S waiting) timing.

(** ** Packets *)

(** The packet as the congestion controller gets it; [None] inside: it does not
    parse. *)
(** src/transport/channel/rtp_video_receiver.cpp:300-310 [RtpVideoReceiver::InsertRtpPacket] *)
Definition received_packet (arrival : Z) (is_recovered : bool) (ast : option Z) (media : RtpPacket)
    : option (option RtpPacketReceived) :=
  '(ok, p) ← Build new_packet (buffer_ media) (size_ media);
  Some (if ok : bool
        then Some (mkReceived (set_abs_send_time_ext_id_ ast p) arrival kEct0 kVideoPayloadTypeFrequency is_recovered)
        else None).

(** Sequence tracking. *)
(** src/transport/channel/rtp_video_receiver.cpp:407-420 [RtpVideoReceiver::InsertRtpPacket] *)
Definition track_sequence (sequence_number : Z) (is_recovered : bool) : R unit :=
  now ← outside current_time;
  s ← member id;
  '(nack_batch, n) ← lift (OnReceivedPacket now sequence_number is_recovered (nack_ s));
  let '(request_keyframe, n) := ConsumeKeyFrameRequest n in
  update (set_vr_nack n);;
  SendPreparedNackBatch nack_batch;;
  (if request_keyframe : bool then RequestKeyFrame else mret tt).

(** src/transport/channel/rtp_video_receiver.cpp:426-462 [RtpVideoReceiver::InsertRtpPacket] *)
Definition depacketize (payload_type : Z) (media : RtpPacket) : R unit :=
  if payload_type =? payload_type_value AV1 then
    '(ok, p) ← lift (Build new_packet (buffer_ media) (size_ media));
    '(ok, h) ← lift (if ok : bool then GetFrameHeaderInfoAv1 (mkAv1 p 0 0 0 0 0)
                     else Some (false, mkAv1 p 0 0 0 0 0));
    if negb ok then RequestKeyFrame else
    r ← outside readings;
    s ← member id;
    v ← lift (ProcessAv1RtpPacket r h (frames s));
    update (set_vr_frames v)
  else if payload_type =? payload_type_value H264 then
    '(ok, p) ← lift (Build new_packet (buffer_ media) (size_ media));
    let fresh := mkH264 p 0 (mkFuIndicator 0 0 0) (mkFuHeader 0 0 0 0) false in
    '(ok, h) ← lift (if ok : bool then GetFrameHeaderInfo fresh else Some (false, fresh));
    if negb ok then RequestKeyFrame else
    r ← outside readings;
    s ← member id;
    v ← lift (ProcessH264RtpPacket r h (frames s));
    update (set_vr_frames v)
  else mret tt.

(** From the statistics on. *)
(** src/transport/channel/rtp_video_receiver.cpp:331-462 [RtpVideoReceiver::InsertRtpPacket] *)
Definition count_and_assemble (media : RtpPacket) (is_recovered : bool) (rp : RtpPacketReceived) : R unit :=
  s ← member id;
  let payload_type := payload_type_ media in
  let is_media_payload := payload_type =? media_payload_type_ s in
  let is_media_padding := negb is_recovered && (payload_type =? u8 (media_payload_type_ s - 1)) in
  (if negb is_recovered then
     now ← outside current_time;
     update (fun s => set_vr_stats (OnMediaPacket now (sequence_number_ media) (timestamp_ (rtp_received rp))
                                      (payload_type_frequency_ rp) (stats s)) s)
   else mret tt);;
  if negb is_media_payload && negb is_media_padding then mret tt else
  (if negb is_recovered then tell (congestion_packet rp) else mret tt);;
  (if RtxEnabled s then track_sequence (sequence_number_ media) is_recovered else mret tt);;
  if is_media_padding then mret tt else depacketize payload_type media.

(** src/transport/channel/rtp_video_receiver.cpp:258-463 [RtpVideoReceiver::InsertRtpPacket] *)
Definition InsertRtpPacket (rtp_packet : RtpPacket) : R unit :=
  s ← member id;
  found ← lift (media_packet_of rtp_packet s);
  match found with
  | None => mret tt
  | Some (media, is_recovered) =>
      let is_media_payload := payload_type_ media =? media_payload_type_ s in
      if is_media_payload && IsFrameTimestampObsolete (timestamp_ media) (pending (frames s)) then
        (if is_recovered : bool
         then now ← outside current_time;
              '(_, n) ← lift (OnReceivedPacket now (sequence_number_ media) true (nack_ s));
              update (set_vr_nack n)
         else mret tt)
      else
        arrival ← outside current_time;
        received ← lift (received_packet arrival is_recovered (vr_ast_ext_id_ s) media);
        match received with
        | None => mret tt
        | Some rp =>
            if negb is_recovered && negb (ssrc_ media =? remote_ssrc_ s) &&
               (payload_type_ media =? u8 (media_payload_type_ s - 1))
            then tell (congestion_packet rp)
            else count_and_assemble media is_recovered rp
        end
  end.
End methods.
