(* ===== verification/VideoReceiverOk.v ===== *)
(** * The video receiver survives whatever arrives

    Every method of [VideoReceiver.v] succeeds and keeps the receiver's
    invariant, whatever bytes the packets are made of and whatever the world
    answers: no access outside a packet or a buffer, no missing-packet list
    beyond its bounds, and a worker that comes to an end. *)

From stdpp Require Import gmap.
From S2P Require Import Prelude StateMonad Units SeqNum ByteIO Rtcp RtpPacket RtpTimestamp Packetizer Av1.
From S2P Require Import Nack FeedbackTracker FrameRelease FrameAssembly FrameAssemblyOk FrameArrival ReceiverStats VideoReceiver.

(** ** Packets *)

(** What [Build] leaves behind when it accepts. *)
Definition media_ok (p : RtpPacket) : Prop :=
  bytes (buffer_ p) /\ size_ p = zlen (buffer_ p) /\ parsed_in p (buffer_ p) (size_ p).

Lemma bytes_rd_range m i n l : bytes m -> rd_range m i n = Some l -> bytes l.
Proof. intros Hb (_ & _ & _ & ->)%rd_range_inv. by apply bytes_take, bytes_drop. Qed.

Lemma rd_range_safe m i n :
  bytes m -> 0 <= i -> 0 <= n -> i + n <= zlen m ->
  exists l, rd_range m i n = Some l /\ zlen l = n /\ bytes l.
Proof.
  intros Hb Hi Hn Hz. rewrite rd_range_Some by done. eexists. split; [done|]. split.
  - unfold zlen in *. rewrite length_take, length_drop. lia.
  - by apply bytes_take, bytes_drop.
Qed.

Lemma bytes_wr m i v m' : bytes m -> is_u8 v -> wr m i v = Some m' -> bytes m'.
Proof.
  unfold wr. intros Hb Hv. destruct (_ && _); [|done]. intros [= <-]. by apply Forall_insert.
Qed.

Lemma Build_safe p0 buffer :
  bytes buffer -> exists ok p, Build p0 buffer (zlen buffer) = Some (ok, p) /\ (ok = true -> media_ok p).
Proof.
  intros Hb. unfold Build. destruct (Parse_rtp_safe p0 buffer Hb) as (ok & p & -> & Hok). cbn [mbind option_bind].
  destruct ok; cbn [negb]; [|by eexists _, _]. rewrite rd_range_all. cbn [mbind option_bind].
  eexists _, _. split; [done|]. intros _. specialize (Hok eq_refl).
  split; [exact Hb|]. split; [done|exact Hok].
Qed.

Lemma rebuild_safe p0 p :
  media_ok p -> exists ok q, Build p0 (buffer_ p) (size_ p) = Some (ok, q) /\ (ok = true -> media_ok q).
Proof. intros (Hb & -> & _). by apply Build_safe. Qed.

(** Where the parts of a packet lie. *)
Lemma media_parts p :
  media_ok p -> 12 <= payload_offset_ p /\ 0 <= payload_size_ p /\ 0 <= padding_size_ p /\
    payload_offset_ p + payload_size_ p + padding_size_ p = zlen (buffer_ p).
Proof.
  intros (_ & Hs & (_ & Hc & _ & Ho & Hsum & Hp & Hpad & _)). rewrite Hs in Hsum. lia.
Qed.

Lemma media_payload p n :
  media_ok p -> 0 <= n <= payload_size_ p -> is_Some (Payload (add_offset_to_payload n p)) /\ is_Some (Payload p).
Proof.
  intros Hp Hn. destruct (media_parts p Hp) as (H1 & H2 & H3 & H4). pose proof (zlen_nonneg (buffer_ p)) as Hz.
  split; unfold Payload.
  - cbn. assert (0 <= u64 (payload_size_ p - n) <= payload_size_ p - n) as Hu
      by (unfold u64; split; [apply Z.mod_pos_bound; lia|apply Z.mod_le; lia]).
    rewrite rd_range_Some by lia. by eexists.
  - rewrite rd_range_Some by lia. by eexists.
Qed.

Lemma byte_at p i :
  media_ok p -> 0 <= i < payload_size_ p -> exists b, rd (buffer_ p) (payload_offset_ p + i) = Some b /\ is_u8 b.
Proof.
  intros Hp Hi. destruct (media_parts p Hp) as (H1 & H2 & H3 & H4).
  destruct (rd_Some (buffer_ p) (payload_offset_ p + i)) as (b & Hb & _); [lia|]. exists b. split; [done|].
  destruct Hp as (Hp & _). by apply (rd_Forall _ _ _ _ Hp Hb).
Qed.

Lemma restored_bytes_safe media_ssrc pt osn rtx :
  media_ok rtx -> 2 <= payload_size_ rtx ->
  exists media, restored_bytes media_ssrc pt osn rtx = Some media /\ bytes media.
Proof.
  intros Hr Hp. destruct (media_parts rtx Hr) as (H1 & H2 & H3 & H4). destruct Hr as (Hb & Hs & _).
  unfold restored_bytes.
  destruct (rd_range_safe (buffer_ rtx) 0 (payload_offset_ rtx)) as (header & -> & Hhz & Hh); [done|lia..|].
  destruct (rd_range_safe (buffer_ rtx) (payload_offset_ rtx + 2) (payload_size_ rtx - 2))
    as (payload & -> & _ & Hpl); [done|lia..|].
  assert (exists padding, (if 0 <? padding_size_ rtx
     then rd_range (buffer_ rtx) (size_ rtx - padding_size_ rtx) (padding_size_ rtx) else Some []) = Some padding /\
     bytes padding) as (padding & -> & Hpad).
  { destruct (0 <? padding_size_ rtx); [|exists []; split; [done|by constructor]].
    destruct (rd_range_safe (buffer_ rtx) (size_ rtx - padding_size_ rtx) (padding_size_ rtx))
      as (padding & -> & _ & Hpad); [done|lia..|]. by exists padding. }
  cbn [mbind option_bind]. set (m0 := header ++ payload ++ padding).
  assert (bytes m0 /\ 12 <= zlen m0) as [Hm0 Hz0].
  { split; [apply bytes_app; split; [done|]; apply bytes_app; by split|]. unfold m0. rewrite zlen_app.
    pose proof (zlen_nonneg (payload ++ padding)). lia. }
  destruct (rd_Some m0 1 ltac:(lia)) as [b1 [Hb1 _]]. rewrite Hb1. cbn [mbind option_bind].
  clearbody m0. clear - Hm0 Hz0.
  repeat match goal with
  | |- exists _, mbind _ (wr ?m ?i ?v) = _ /\ _ =>
      rewrite (wr_Some m i v) by lia; cbn [mbind option_bind];
      let Hb := fresh in let Hz := fresh in
      assert (bytes (<[Z.to_nat i := v]> m)) as Hb by (apply Forall_insert; [done|apply u8_range]);
      assert (12 <= zlen (<[Z.to_nat i := v]> m)) as Hz by (unfold zlen; rewrite length_insert; exact Hz0);
      clear Hm0 Hz0; rename Hb into Hm0; rename Hz into Hz0;
      generalize dependent (<[Z.to_nat i := v]> m); clear m; intros m Hm0 Hz0
  end.
  rewrite wr_Some by lia. eexists. split; [done|]. apply Forall_insert; [done|apply u8_range].
Qed.

Lemma Restore_safe rtx s :
  media_ok rtx -> exists r, RestoreMediaPacketFromRtx rtx s = Some r /\ forall p, r = Some p -> media_ok p.
Proof.
  intros Hr. unfold RestoreMediaPacketFromRtx. cbv zeta.
  destruct (negb (payload_type_ rtx =? payload_type_value RTX)); cbn [orb]; [by exists None|].
  destruct (Z.ltb_spec (payload_size_ rtx) 2) as [|Hp]; cbn [orb]; [by exists None|].
  destruct (_ || _ || _ || _); [by exists None|].
  destruct (byte_at rtx 0 Hr ltac:(lia)) as (b0 & Hb0 & _). rewrite Z.add_0_r in Hb0. rewrite Hb0.
  destruct (byte_at rtx 1 Hr ltac:(lia)) as (b1 & Hb1 & _). rewrite Hb1. cbn [mbind option_bind].
  destruct (restored_bytes_safe (remote_ssrc_ s) (media_payload_type_ s) (u16 (Z.lor (Z.shiftl b0 8) b1)) rtx Hr Hp)
    as (media & -> & Hm). cbn [mbind option_bind].
  destruct (Build_safe new_packet media Hm) as (ok & p & -> & Hok). cbn [mbind option_bind].
  destruct ok; [|by exists None]. exists (Some p). split; [done|]. intros q [= <-]. by apply Hok.
Qed.

Lemma media_packet_safe p s :
  media_ok p -> exists r, media_packet_of p s = Some r /\ forall q b, r = Some (q, b) -> media_ok q.
Proof.
  intros Hp. unfold media_packet_of. cbv zeta. destruct (_ && _); [by exists None|].
  destruct (payload_type_ p =? payload_type_value RTX).
  - destruct (Restore_safe p s Hp) as ([q|] & -> & Hq); cbn [mbind option_bind]; [|by exists None].
    exists (Some (q, true)). split; [done|]. intros q' b [= <- <-]. by apply Hq.
  - exists (Some (p, false)). split; [done|]. by intros q' b [= <- <-].
Qed.

Lemma received_safe arrival b ast p : media_ok p -> is_Some (received_packet arrival b ast p).
Proof.
  intros Hp. unfold received_packet. destruct (rebuild_safe new_packet p Hp) as (ok & q & -> & _). by eexists.
Qed.

(** ** The codec headers *)

Lemma h264_header_safe p :
  media_ok p ->
  exists ok h, GetFrameHeaderInfo (mkH264 p 0 (mkFuIndicator 0 0 0) (mkFuHeader 0 0 0 0) false) = Some (ok, h) /\
    (ok = true -> sequence_number_ (h264_packet h) = sequence_number_ p /\ is_Some (Payload (h264_packet h))).
Proof.
  intros Hp. unfold GetFrameHeaderInfo. cbn [fu_info_got_ h264_packet osn_ fu_indicator_ fu_header_]. cbv zeta.
  set (is_rtx := payload_type_ p =? payload_type_value RTX). set (offset := if is_rtx then 2 else 0).
  assert (0 <= offset) as Hoff by (unfold offset; destruct is_rtx; lia).
  destruct (is_rtx && (payload_size_ p <? 2)) eqn:E; [by eexists _, _|].
  assert (exists osn, (if is_rtx then b0 ← rd (buffer_ p) (payload_offset_ p + 0); b1 ← rd (buffer_ p) (payload_offset_ p + 1);
     Some (u16 (Z.lor (Z.shiftl b0 8) b1)) else Some 0) = Some osn) as (osn & ->).
  { destruct is_rtx; [|by eexists]. cbn [andb] in E. apply Z.ltb_ge in E.
    destruct (byte_at p 0 Hp ltac:(lia)) as (b0 & -> & _). destruct (byte_at p 1 Hp ltac:(lia)) as (b1 & -> & _).
    by eexists. }
  cbn [mbind option_bind]. destruct (Z.leb_spec (payload_size_ p) offset) as [|Hlt]; [by eexists _, _|].
  destruct (byte_at p offset Hp ltac:(lia)) as (b & -> & _). cbn [mbind option_bind].
  destruct (_ =? nal_unit_type_value NALU).
  { eexists _, _. split; [done|]. intros _. split; [done|]. apply (media_payload p (1 + offset) Hp). lia. }
  destruct (_ =? nal_unit_type_value FU_A).
  - destruct (Z.leb_spec (payload_size_ p) (offset + 1)) as [|Hlt1]; [by eexists _, _|].
    destruct (byte_at p (offset + 1) Hp ltac:(lia)) as (b1 & -> & _). cbn [mbind option_bind].
    eexists _, _. split; [done|]. intros _. split; [done|]. apply (media_payload p (2 + offset) Hp). lia.
  - eexists _, _. split; [done|]. intros _. split; [done|]. apply (media_payload p 0 Hp). lia.
Qed.

Lemma av1_header_safe p :
  media_ok p ->
  exists ok h, GetFrameHeaderInfoAv1 (mkAv1 p 0 0 0 0 0) = Some (ok, h) /\
    (ok = true -> sequence_number_ (av1_packet h) = sequence_number_ p /\ is_Some (Payload (av1_packet h))).
Proof.
  intros Hp. unfold GetFrameHeaderInfoAv1. cbn [av1_packet].
  destruct (Z.ltb_spec (payload_size_ p) 1) as [|H]; [by eexists _, _|].
  destruct (byte_at p 0 Hp ltac:(lia)) as (b & Hb & _). rewrite Z.add_0_r in Hb. rewrite Hb. cbn [mbind option_bind].
  eexists _, _. split; [done|]. intros _. split; [done|]. apply (media_payload p 1 Hp). lia.
Qed.

(** ** The frames *)

(** What the packet thread relies on. *)
Definition frames_ok (v : VideoFrames) : Prop :=
  assembly_ok (assembly v) /\ readable (incomplete_h264_frame_list_ (assembly v)) /\
  readable (incomplete_av1_frame_list_ (assembly v)).

Lemma process_readable {P} {codec : FrameCodec P} {laws : FrameCodecLaws P} r p v :
  assembly_ok (assembly v) -> readable (codec_waiting (assembly v)) ->
  is_u16 (codec_seq p) -> is_Some (Payload (codec_rtp p)) ->
  exists v', codec_process r p v = Some v' /\ assembly_ok (assembly v') /\ readable (codec_waiting (assembly v')).
Proof.
  intros Ha Hr Hu Hp. destruct (codec_process_ok r p v Ha Hu Hr Hp) as (v' & Hv & Has). exists v'.
  unfold takes in Has. destruct (codec_kind p); [|destruct Has as (_ & _ & _ & _ & -> & _); done|by subst v'].
  apply assembles_cases in Has as (Hok & Hw & _). split; [done|]. split; [done|].
  intros k q Hq. apply (readable_insert (codec_seq p) p _ Hr Hp k). by apply Hw.
Qed.

Lemma Ensure_lists fill n a :
  incomplete_h264_frame_list_ (EnsureFrameBufferCapacity fill n a) = incomplete_h264_frame_list_ a /\
  incomplete_av1_frame_list_ (EnsureFrameBufferCapacity fill n a) = incomplete_av1_frame_list_ a.
Proof. unfold EnsureFrameBufferCapacity. destruct (nv12_data_ a); [|done]. by destruct (_ <=? _). Qed.

(** Neither codec touches the packets of the other. *)
Lemma h264_other r p v v' :
  ProcessH264RtpPacket r p v = Some v' ->
  incomplete_av1_frame_list_ (assembly v') = incomplete_av1_frame_list_ (assembly v).
Proof.
  unfold ProcessH264RtpPacket. destruct (_ =? nal_unit_type_value NALU).
  { destruct (Payload _); cbn [mbind option_bind]; [|done]. destruct (CreateReceivedFrame _ _ _ _).
    by intros [= <-]. }
  destruct (_ =? nal_unit_type_value FU_A); [|by intros [= <-]].
  unfold CheckIsH264FrameCompleted.
  destruct (GetFrameSequenceRange _ _) as [[[first last] n]|]; cbn [mbind option_bind]; [|by intros [= <-]].
  destruct (range_received _ _ _ _); cbn [mbind option_bind]; [|by intros [= <-]].
  unfold PopCompleteFrame. set (a := EnsureFrameBufferCapacity _ _ _).
  destruct (nv12_data_ a); cbn [mbind option_bind]; [|done].
  destruct (start_frame _ _ _) as [[dest buffer]|]; cbn [mbind option_bind]; [|done].
  destruct (copy_h264 _ _ _ _) as [[[dest' buffer'] l']|]; cbn [mbind option_bind]; [|done].
  destruct (rd_range _ _ _); cbn [mbind option_bind]; [|done]. destruct (CreateReceivedFrame _ _ _ _).
  intros [= <-]. cbn. unfold a. by rewrite (proj2 (Ensure_lists _ _ _)).
Qed.

Lemma av1_other r p v v' :
  ProcessAv1RtpPacket r p v = Some v' ->
  incomplete_h264_frame_list_ (assembly v') = incomplete_h264_frame_list_ (assembly v).
Proof.
  unfold ProcessAv1RtpPacket, CheckIsAv1FrameCompleted.
  destruct (GetFrameSequenceRange _ _) as [[[first last] n]|]; cbn [mbind option_bind]; [|by intros [= <-]].
  destruct (range_received _ _ _ _); cbn [mbind option_bind]; [|by intros [= <-]].
  unfold pop_av1. destruct (_ !! first); cbn [mbind option_bind]; [|done].
  destruct (av1_frame_size _ _) as [size|]; cbn [mbind option_bind]; [|done].
  set (a := EnsureFrameBufferCapacity _ _ _).
  destruct (nv12_data_ a); cbn [mbind option_bind]; [|done].
  destruct (copy_av1 _ _ _ _) as [[buffer' l']|]; cbn [mbind option_bind]; [|done].
  destruct (rd_range _ _ _); cbn [mbind option_bind]; [|done]. destruct (CreateReceivedFrame _ _ _ _).
  intros [= <-]. cbn. unfold a. by rewrite (proj1 (Ensure_lists _ _ _)).
Qed.

Lemma h264_process_safe r h v :
  frames_ok v -> is_u16 (sequence_number_ (h264_packet h)) -> is_Some (Payload (h264_packet h)) ->
  exists v', ProcessH264RtpPacket r h v = Some v' /\ frames_ok v'.
Proof.
  intros (Ha & Hr & Hr') Hu Hp.
  destruct (process_readable r h v Ha Hr Hu Hp) as (v' & E & Ha' & Hw). exists v'. split; [done|].
  split; [done|]. split; [done|]. by rewrite (h264_other r h v v' E).
Qed.

Lemma av1_process_safe r h v :
  frames_ok v -> is_u16 (sequence_number_ (av1_packet h)) -> is_Some (Payload (av1_packet h)) ->
  exists v', ProcessAv1RtpPacket r h v = Some v' /\ frames_ok v'.
Proof.
  intros (Ha & Hr & Hr') Hu Hp.
  destruct (process_readable r h v Ha Hr' Hu Hp) as (v' & E & Ha' & Hw). exists v'. split; [done|].
  split; [done|]. split; [by rewrite (av1_other r h v v' E)|done].
Qed.

Lemma drop_safe ts v : frames_ok v -> frames_ok (set_assembly (DropFrameAssembly ts (assembly v)) v).
Proof.
  intros ([Hb Ha] & Hr & Hr'). split; [|split].
  - split; [exact Hb|]. intros t k Hk. cbn in Hk. apply lookup_delete_Some in Hk as [_ Hk]. by apply (Ha t).
  - intros k q [Hq _]%map_lookup_filter_Some. by apply (Hr k).
  - intros k q [Hq _]%map_lookup_filter_Some. by apply (Hr' k).
Qed.

(** ** The methods *)

Section methods.
Context {W : Type} {world : ReceiverWorld W}.

Definition receiver_ok (s : VideoReceiver) : Prop := frames_ok (frames s) /\ nack_ok (nack_ s).

(** A method succeeds from every good state, and leaves one. *)
Definition safe {A} (m : R (W := W) A) : Prop := forall s, receiver_ok s.1 -> wp m s (fun _ s' => receiver_ok s'.1).

Lemma safe_ret {A} (a : A) : safe (mret a).
Proof. intros s Hs. by apply wp_ret. Qed.

Lemma safe_bind {A B} (m : R (W := W) A) (f : A -> R (W := W) B) : safe m -> (forall a, safe (f a)) -> safe (m ≫= f).
Proof. intros Hm Hf s Hs. apply wp_bind. wp_call Hm; [done|]. intros a s'. apply Hf. Qed.

Lemma safe_outside {A} (f : W -> A * W) : safe (outside f).
Proof. intros [s w] Hs. unfold outside, wp. cbn. destruct (f w) as [a w']. by eexists _, _. Qed.

Lemma safe_tell (f : W -> W) : safe (tell f).
Proof. intros [s w] Hs. by apply wp_modify. Qed.

Lemma safe_member {A} (f : VideoReceiver -> A) : safe (member f).
Proof. intros s Hs. by apply wp_gets. Qed.

Lemma safe_update f : (forall s, receiver_ok s -> receiver_ok (f s)) -> safe (update f).
Proof. intros H [s w] Hs. apply wp_modify. by apply H. Qed.

(** A method that reads the state first. *)
Lemma safe_read {A} (f : VideoReceiver -> R (W := W) A) :
  (forall s, receiver_ok s -> safe (f s)) -> safe (s ← member id; f s).
Proof. intros H [s w] Hs. apply wp_bind, wp_gets. by apply (H s Hs). Qed.

Lemma safe_if {A} (b : bool) (m n : R (W := W) A) : safe m -> safe n -> safe (if b then m else n).
Proof. by destruct b. Qed.

(** A computation that is known to succeed. *)
Lemma safe_lift {A B} (o : option A) a (f : A -> R (W := W) B) : o = Some a -> safe (f a) -> safe (x ← lift o; f x).
Proof. intros E H s Hs. apply wp_bind. eapply wp_lift; [exact E|]. by apply H. Qed.

Lemma safe_now : safe now_ms.
Proof. apply safe_bind; [apply safe_outside|]. intros a. apply safe_ret. Qed.

Lemma set_nack_ok n s : nack_ok n -> receiver_ok s -> receiver_ok (set_vr_nack n s).
Proof. intros Hn [Hf _]. by split. Qed.

Create HintDb safe.
Hint Resolve safe_ret safe_outside safe_tell safe_member safe_now : safe.
Hint Resolve set_nack_ok : safe.

Lemma SendNack_safe l : safe (SendNack l).
Proof. apply safe_read. intros s _. apply safe_if; auto with safe. Qed.

Lemma send_batches_safe n : forall l, safe (send_batches n l).
Proof.
  induction n as [|n IH]; intros [|x l]; cbn [send_batches]; auto with safe.
  apply safe_bind; [apply SendNack_safe|]. intros ok. apply safe_bind; [auto with safe|]. intros now.
  apply safe_bind; [|intros _; apply IH]. apply safe_update. intros s Hs.
  apply set_nack_ok; [|done]. by apply OnNackBatchSent_ok, Hs.
Qed.

Lemma SendKeyFrameRequest_safe b : safe (SendKeyFrameRequest b).
Proof.
  unfold SendKeyFrameRequest. apply safe_bind; [apply safe_if; [apply safe_update; by intros s Hs|auto with safe]|].
  intros _. apply safe_bind; [auto with safe|]. intros now. apply safe_read. intros s _.
  apply safe_if; [auto with safe|]. apply safe_bind; [by apply safe_update|]. intros _.
  apply safe_bind; [auto with safe|]. intros sent. apply safe_bind; [|auto with safe].
  apply safe_update. intros s' Hs'. unfold fir_outcome. destruct (negb sent); [done|]. by destruct (negb _).
Qed.

Lemma RequestKeyFrame_safe : safe RequestKeyFrame.
Proof. apply safe_bind; [apply SendKeyFrameRequest_safe|auto with safe]. Qed.

Lemma retry_safe (b : bool) : safe (if b then SendKeyFrameRequest false;; mret tt else mret tt).
Proof. apply safe_if; [apply safe_bind; [apply SendKeyFrameRequest_safe|]|]; auto with safe. Qed.

Lemma MaybeRetry_safe : safe MaybeRetryKeyFrameRequest.
Proof.
  apply safe_bind; [auto with safe|]. intros p. apply safe_if; [auto with safe|]. apply safe_if; [auto with safe|].
  apply safe_bind; [auto with safe|]. intros now. apply safe_bind; [auto with safe|]. intros next. apply retry_safe.
Qed.

Lemma ProcessPendingNacks_safe : safe ProcessPendingNacks.
Proof.
  apply safe_read. intros s Hs. apply safe_if; [auto with safe|]. apply safe_bind; [auto with safe|]. intros now.
  pose proof (GetNackBatch_ok kTimeOnly now (nack_ s) ltac:(apply Hs)) as Hn. unfold ProcessNacks.
  destruct (GetNackBatch kTimeOnly now (nack_ s)) as [batch n].
  apply safe_bind; [apply safe_update; auto with safe|]. intros _. apply send_batches_safe.
Qed.

Lemma track_sequence_safe seq b : is_u16 seq -> safe (track_sequence seq b).
Proof.
  intros Hs. unfold track_sequence. apply safe_bind; [auto with safe|]. intros now. apply safe_read. intros s [_ Hn].
  destruct (OnReceivedPacket_ok now seq b (nack_ s) Hn Hs) as (batch & n & E & Hn').
  eapply safe_lift; [exact E|]. cbn [ConsumeKeyFrameRequest]. apply safe_bind; [apply safe_update; auto with safe|]. intros _.
  apply safe_bind; [apply send_batches_safe|]. intros _. apply safe_if; [apply RequestKeyFrame_safe|auto with safe].
Qed.

Lemma set_frames_ok v s : frames_ok v -> receiver_ok s -> receiver_ok (set_vr_frames v s).
Proof. intros Hv [_ Hn]. by split. Qed.

Lemma depacketize_safe pt p : media_ok p -> safe (depacketize pt p).
Proof.
  intros Hp. unfold depacketize.
  destruct (rebuild_safe new_packet p Hp) as (ok & q & E & Hq).
  assert (ok = true -> is_u16 (sequence_number_ q)) as Hseq by (intros Ho; apply (Hq Ho)).
  destruct (pt =? payload_type_value AV1); [|destruct (pt =? payload_type_value H264); [|auto with safe]];
    (eapply safe_lift; [exact E|]; cbn beta iota zeta).
  - assert (exists ok' h, (if ok : bool then GetFrameHeaderInfoAv1 (mkAv1 q 0 0 0 0 0) else Some (false, mkAv1 q 0 0 0 0 0)) =
      Some (ok', h) /\ (ok' = true -> is_u16 (sequence_number_ (av1_packet h)) /\ is_Some (Payload (av1_packet h))))
      as (ok' & h & E' & Hh).
    { destruct ok; [|by eexists _, _]. destruct (av1_header_safe q (Hq eq_refl)) as (ok' & h & -> & Hh).
      exists ok', h. split; [done|]. intros Ho. destruct (Hh Ho) as [-> Hpay]. auto. }
    eapply safe_lift; [exact E'|]. cbn beta iota. destruct ok'; cbn [negb]; [|apply RequestKeyFrame_safe].
    apply safe_bind; [auto with safe|]. intros r. apply safe_read. intros s [Hf _].
    destruct (Hh eq_refl) as [Hu Hpay]. destruct (av1_process_safe r h (frames s) Hf Hu Hpay) as (v & Ev & Hv).
    eapply safe_lift; [exact Ev|]. apply safe_update. intros s'. by apply set_frames_ok.
  - assert (exists ok' h, (if ok : bool then GetFrameHeaderInfo (mkH264 q 0 (mkFuIndicator 0 0 0) (mkFuHeader 0 0 0 0) false)
        else Some (false, mkH264 q 0 (mkFuIndicator 0 0 0) (mkFuHeader 0 0 0 0) false)) =
      Some (ok', h) /\ (ok' = true -> is_u16 (sequence_number_ (h264_packet h)) /\ is_Some (Payload (h264_packet h))))
      as (ok' & h & E' & Hh).
    { destruct ok; [|by eexists _, _]. destruct (h264_header_safe q (Hq eq_refl)) as (ok' & h & -> & Hh).
      exists ok', h. split; [done|]. intros Ho. destruct (Hh Ho) as [-> Hpay]. auto. }
    eapply safe_lift; [exact E'|]. cbn beta iota. destruct ok'; cbn [negb]; [|apply RequestKeyFrame_safe].
    apply safe_bind; [auto with safe|]. intros r. apply safe_read. intros s [Hf _].
    destruct (Hh eq_refl) as [Hu Hpay]. destruct (h264_process_safe r h (frames s) Hf Hu Hpay) as (v & Ev & Hv).
    eapply safe_lift; [exact Ev|]. apply safe_update. intros s'. by apply set_frames_ok.
Qed.

Lemma count_and_assemble_safe p b rp : media_ok p -> safe (count_and_assemble p b rp).
Proof.
  intros Hp. apply safe_read. intros s _.
  apply safe_bind.
  { apply safe_if; [|auto with safe]. apply safe_bind; [auto with safe|]. intros now. by apply safe_update. }
  intros _. apply safe_if; [auto with safe|].
  apply safe_bind; [apply safe_if; auto with safe|]. intros _.
  apply safe_bind; [apply safe_if; [apply track_sequence_safe, Hp|auto with safe]|]. intros _.
  apply safe_if; [auto with safe|]. by apply depacketize_safe.
Qed.

Lemma InsertRtpPacket_safe p : media_ok p -> safe (InsertRtpPacket p).
Proof.
  intros Hp. apply safe_read. intros s Hs0. destruct (media_packet_safe p s Hp) as (r & E & Hr).
  eapply safe_lift; [exact E|]. destruct r as [[q b]|]; [|auto with safe]. specialize (Hr q b eq_refl).
  apply safe_if.
  - apply safe_if; [|auto with safe]. apply safe_bind; [auto with safe|]. intros now.
    destruct Hs0 as [_ Hn]. assert (is_u16 (sequence_number_ q)) as Hu by apply Hr.
    destruct (OnReceivedPacket_ok now (sequence_number_ q) true (nack_ s) Hn Hu) as (batch & n & En & Hn').
    eapply safe_lift; [exact En|]. apply safe_update. auto with safe.
  - apply safe_bind; [auto with safe|]. intros arrival.
    destruct (received_safe arrival b (vr_ast_ext_id_ s) q Hr) as [rp Er]. eapply safe_lift; [exact Er|].
    destruct rp as [rp|]; [|auto with safe]. apply safe_if; [auto with safe|]. by apply count_and_assemble_safe.
Qed.

(** ** The worker comes to an end *)

Definition waiting (s : VideoReceiver) : nat := length (pending_frames_ (pending (frames s))).

Lemma wp_safe {A} (m : R (W := W) A) s (Q : A -> VideoReceiver * W -> Prop) :
  safe m -> receiver_ok s.1 -> (forall a s', receiver_ok s'.1 -> Q a s') -> wp m s Q.
Proof. intros Hm Hs HQ. eapply wp_mono; [by apply Hm|]. intros a s'. apply HQ. Qed.

(** Going on leaves the frames that wait as they are. *)
Lemma after_round_ok now r s :
  receiver_ok s.1 ->
  wp (after_round now r) s (fun again s' => receiver_ok s'.1 /\
    (again = None -> ends_process r = false /\ waiting s'.1 = waiting s.1)).
Proof.
  intros Hs. unfold after_round. apply wp_bind.
  apply (wp_mono _ _ (fun _ s' => receiver_ok s'.1 /\ waiting s'.1 = waiting s.1)).
  { destruct (dropped_timestamp r); [apply wp_modify|apply wp_ret; by split].
    split; [|done]. destruct Hs as [Hf Hn]. split; [by apply drop_safe|done]. }
  intros _ s1 [Hs1 Hw]. apply wp_bind, wp_gets. unfold ends_process.
  destruct (recovery_timed_out r); cbn [orb].
  { apply wp_bind. eapply wp_safe; [apply retry_safe|done|]. intros _ s2 Hs2. apply wp_ret. by split. }
  destruct (soft_stall_started r); cbn [orb]; [apply wp_ret; by split|].
  destruct (request_soft_fir r); cbn [orb].
  { apply wp_bind. eapply wp_safe; [apply retry_safe|done|]. intros _ s2 Hs2. apply wp_ret. by split. }
  case_bool_decide; [apply wp_ret; by split|].
  destruct (completed_frame r); [|apply wp_ret; by split]. apply wp_bind.
  apply (wp_mono _ _ (fun _ s' => receiver_ok s'.1 /\ waiting s'.1 = waiting s.1)).
  { destruct (completed_keyframe r); [apply wp_modify|apply wp_ret; by split].
    unfold OnCompleteKeyFrame. destruct (negb _); by split. }
  intros _ s2 [Hs2 Hw2]. apply wp_bind, wp_modify, wp_ret. by split.
Qed.

Lemma round_nack_ok timing now n p r n' p' :
  nack_ok n -> release_round timing now n p = Some (r, n', p') -> nack_ok n'.
Proof.
  assert (forall f, nack_ok n -> nack_ok (clear_nacks f n)) as Hclear.
  { intros f Hn. unfold clear_nacks. destruct (last_sequence_number f) as [q|]; [|done].
    unfold ClearUpTo. destruct (from_upper_bound_suffix q (nack_list_ n)) as [l Hl].
    exact (suffix_ok l _ n Hn Hl). }
  intros Hn. unfold release_round. destruct (pending_frames_ p) as [|[ts f] rest]; [done|].
  repeat match goal with |- context [if ?b then _ else _] => destruct b end; intros E; try discriminate;
    injection E as _ <- _; auto.
Qed.

Lemma release_loop_ok timing n : forall s,
  receiver_ok s.1 -> (waiting s.1 < n)%nat -> wp (release_loop n timing) s (fun _ s' => receiver_ok s'.1).
Proof.
  induction n as [|n IH]; intros s Hs Hn; [lia|]. cbn [release_loop]. apply wp_bind.
  assert (wp now_ms s (fun _ s' => s'.1 = s.1)) as Hnow.
  { destruct s as [s w]. unfold wp, now_ms, outside, mbind, M_bind. cbn.
    destruct (current_time w) as [t w']. by eexists _, _. }
  wp_call Hnow. intros now s1 E1. rewrite <- E1 in Hs, Hn. clear s E1 Hnow.
  apply wp_bind, wp_gets. cbn [id].
  destruct (release_round timing now (nack_ s1.1) (pending (frames s1.1))) as [[[r nack'] p']|] eqn:E; [|by apply wp_ret].
  apply wp_bind, wp_modify. cbn beta.
  set (s2 := set_vr_nack nack' (set_frames_pending p' s1.1)).
  assert (receiver_ok s2) as Hs2 by (destruct Hs as [Hf Hk]; split; [exact Hf|exact (round_nack_ok _ _ _ _ _ _ _ Hk E)]).
  apply wp_bind. eapply wp_mono; [apply (after_round_ok now r (s2, s1.2) Hs2)|].
  intros [result|] s3 [Hs3 Hgo]; [by apply wp_ret|]. destruct (Hgo eq_refl) as [He Hw]. apply IH; [done|].
  apply release_round_shrinks in E. rewrite He in E. cbn [andb] in E. destruct E as [Et Hne].
  rewrite Hw. unfold waiting in *. cbn [fst s2 frames set_vr_nack set_frames_pending set_vr_frames set_pending pending].
  rewrite Et. destruct (pending_frames_ (pending (frames s1.1))); [done|]. cbn in *. lia.
Qed.

Lemma Process_safe : safe Process.
Proof.
  apply safe_bind; [auto with safe|]. intros running. apply safe_if; [auto with safe|].
  apply safe_bind; [apply ProcessPendingNacks_safe|]. intros _.
  apply safe_bind; [apply MaybeRetry_safe|]. intros _. apply safe_bind; [auto with safe|]. intros timing.
  intros s Hs. apply wp_bind, wp_gets. apply release_loop_ok; [done|]. unfold waiting. lia.
Qed.

(** ** Runs *)

(** The calls of the other threads. *)
Inductive ReceiverCall :=
  | CallInsert (datagram : list Z)
  | CallProcess
  | CallKeyFrame
  | CallRtt (rtt_ms : Z)
  | CallConfig (remote_ssrc rtx_ssrc media_payload_type : Z)
  | CallSenderReport (offset utc_us now_us now_ntp : Z) (report : SenderReport)
  | CallStop.

(** A datagram that is no RTP packet does not reach the receiver. *)
Definition receiver_call (c : ReceiverCall) : R (W := W) unit :=
  match c with
  | CallInsert datagram =>
      '(ok, p) ← lift (Build new_packet datagram (zlen datagram));
      if ok : bool then InsertRtpPacket p else mret tt
  | CallProcess => Process;; mret tt
  | CallKeyFrame => RequestKeyFrame
  | CallRtt rtt => update (VrOnRttUpdate rtt)
  | CallConfig remote rtx pt => update (SetMediaConfig remote rtx pt)
  | CallSenderReport offset utc now_us now_ntp report =>
      update (fun s =>
        let '(m, t) := OnSenderReport offset utc now_us now_ntp (remote_ssrc_ s) report
                         (rtp_timestamp_mapper_ (frames s)) (stats s) in
        set_vr_stats t (set_vr_frames (set_mapper m (frames s)) s))
  | CallStop => update StopRtcp
  end.

Definition call_ok (c : ReceiverCall) : Prop :=
  match c with CallInsert datagram => bytes datagram | _ => True end.

Lemma receiver_call_safe c : call_ok c -> safe (receiver_call c).
Proof.
  intros Hc. destruct c as [datagram| | |rtt|remote rtx pt|offset utc now_us now_ntp report|]; cbn [receiver_call call_ok] in *.
  - destruct (Build_safe new_packet datagram Hc) as (ok & p & E & Hp). eapply safe_lift; [exact E|].
    destruct ok; [apply InsertRtpPacket_safe; auto|auto with safe].
  - apply safe_bind; [apply Process_safe|auto with safe].
  - apply RequestKeyFrame_safe.
  - apply safe_update. intros s Hs. unfold VrOnRttUpdate. destruct (negb _); [done|].
    apply set_nack_ok; [|done]. apply UpdateRtt_ok, Hs.
  - apply safe_update. intros s Hs. unfold SetMediaConfig. by destruct (negb (remote_ssrc_ s =? remote)).
  - apply safe_update. intros s Hs. by destruct (OnSenderReport _ _ _ _ _ _ _ _).
  - by apply safe_update.
Qed.

Lemma new_receiver_ok ssrc ast : receiver_ok (new_receiver ssrc ast).
Proof.
  split; [|apply new_requester_ok]. split; [split; [done|]|split; [by intros k p|by intros k p]]. by intros t k.
Qed.
End methods.

(** ** Properties *)

(** C11. The video receiver survives its peer and its network: whatever
    datagrams arrive, with whatever headers, extensions, RTX contents and codec
    payloads, in whatever order with the other calls, and whatever the clock
    shows and the transport answers, no call reads or writes outside a packet,
    a frame buffer or a table, every call comes to an end, and the list of
    missing packets stays within its limit of 1000. *)
Theorem video_receiver_total {W} {world : ReceiverWorld W} (ssrc : Z) (ast : option Z) (calls : list ReceiverCall) (w : W) :
  Forall call_ok calls ->
  exists s w', for_each receiver_call calls (new_receiver ssrc ast, w) = Some (tt, (s, w')) /\
    nack_ok (nack_ s) /\ zlen (nack_list_ (nack_ s)) <= kMaxNackPackets.
Proof.
  intros Hc. rewrite List.Forall_forall in Hc.
  destruct (wp_for_each receiver_call (fun s => receiver_ok s.1) calls (new_receiver ssrc ast, w))
    as ([] & [s w'] & E & Hs).
  - intros c s Hin Hs. apply list_elem_of_In in Hin. by apply (receiver_call_safe c (Hc c Hin)).
  - apply new_receiver_ok.
  - exists s, w'. split; [exact E|]. destruct Hs as [_ Hn]. split; [done|]. by destruct Hn as (_ & _ & _ & Hz & _).
Qed.

(** A world without time, whose transport always sends. *)
Definition silent_world : ReceiverWorld unit := {|
  current_time w := (1000000, w);
  readings w := (mkReadings 1 1000 1 0, w);
  send_nack _ _ _ w := (true, w);
  send_fir _ _ _ w := (true, w);
  receive_frame _ w := w;
  congestion_packet _ w := w;
|}.

Lemma video_receiver_total_witness :
  exists s w', for_each (receiver_call (world := silent_world))
      [CallConfig 7 8 96; CallInsert [128; 96; 0; 1; 0; 0; 0; 5; 0; 0; 0; 7; 28]; CallInsert [1; 2]; CallProcess]
      (new_receiver 1 None, tt) = Some (tt, (s, w')) /\
    nack_ok (nack_ s) /\ zlen (nack_list_ (nack_ s)) <= kMaxNackPackets.
Proof.
  apply video_receiver_total. repeat apply Forall_cons_2; try apply Forall_nil_2; cbn; try done; forall_lit.
Defined.
