(* ===== verification/VideoSend.v ===== *)
(** * The sender of a video channel

    [VideoChannelSend] of [src/transport/channel/video_channel_send.cpp]: frames
    become packets for the pacer, sent packets go to the history, requests for
    lost packets are collected in a set and answered by a task on a queue of
    its own, and a sender report goes out at most once a second.

    Three threads meet here: the transport's ([OnReceiveNack], [OnRttUpdate]),
    the pacer's ([OnSentRtpPacket], [OnRtpPacketSendFailed]) and the worker of
    the task queue, the only one that touches the history.  Each definition is
    what one thread does without giving a lock away; the steps of
    [NackPipeline.v] put them together.  The pacer is an interface.  Readings of
    the clock are arguments.  [None] is an access that the history or the
    builder of RTX packets must not make. *)

From Stdlib Require Import Sorted.
From stdpp Require Import gmap.
From S2P Require Import Prelude Units Rtcp RtpPacket RtpToSend RtpTimestamp Packetizer Av1 PacketHistory.

(** ** The task queue

    One worker, tasks without delay: the order of the execution times, and of
    the numbers given to the tasks where these are equal, is the order in which
    the tasks were posted. *)

Inductive HistoryTask :=
  | TaskSent (packet : RtpPacketToSend)
  | TaskPut (packet : RtpPacketToSend)
  | TaskAborted (sequence_number : Z)
  | TaskRtt (rtt_ms : Z)
  | TaskNacks.

(** src/common/task_queue.h:191-199 [TaskQueue] *)
Record TaskQueue := mkTaskQueue {
  tasks : list HistoryTask;
  stop_ : bool;
}.

(** src/common/task_queue.h:81-99 [TaskQueue::PostDelayedTaskAt] *)
Definition PostTask (t : HistoryTask) (q : TaskQueue) : bool * TaskQueue :=
  if stop_ q then (false, q) else (true, mkTaskQueue (tasks q ++ [t]) false).

(** src/common/task_queue.h:57-64 [TaskQueue::ClearTasks] *)
Definition ClearTasks (q : TaskQueue) : TaskQueue := mkTaskQueue [] (stop_ q).

(** src/common/task_queue.h:66-78 [TaskQueue::Stop] *)
Definition StopQueue (q : TaskQueue) : TaskQueue := mkTaskQueue (tasks q) true.

(** ** The pacer, as this channel sees it *)

Class PacerQueue (W : Type) := {
  (** [EnqueueRtpPacket]: negative when the pacer is shut down. *)
  enqueue_rtp_packet : RtpPacketToSend -> W -> Z * W;
  (** [EnqueueRtpPackets], with the capture time and the name of the stream. *)
  enqueue_rtp_packets : list RtpPacketToSend -> Z -> String.string -> W -> W;
}.

(** ** State *)

(** src/transport/channel/video_channel_send.h:92-120 [VideoChannelSend] *)
Record VideoChannelSend := mkVideoSend {
  channel_name_ : String.string;
  vs_ssrc_ : Z;
  vs_rtx_ssrc_ : Z;
  rtx_enabled_ : bool;
  rtp_packetizer_ : option (PacketizerKind * Packetizer);
  padding_packetizer_ : option (PacketizerKind * Packetizer);
  rtp_timestamp_generator_ : RtpTimestampGenerator;
  rtp_packet_history_ : RtpPacketHistory;
  pending_nack_sequence_numbers_ : gset Z;
  nack_task_scheduled_ : bool;
  history_shutdown_ : bool;
  last_sender_report_time_us_ : Z;
  sender_packet_count_ : Z;
  sender_octet_count_ : Z;
  task_queue_history_ : TaskQueue;
}.

Definition set_packetizer (k : option (PacketizerKind * Packetizer)) (s : VideoChannelSend) : VideoChannelSend :=
  mkVideoSend (channel_name_ s) (vs_ssrc_ s) (vs_rtx_ssrc_ s) (rtx_enabled_ s) k (padding_packetizer_ s)
    (rtp_timestamp_generator_ s) (rtp_packet_history_ s) (pending_nack_sequence_numbers_ s)
    (nack_task_scheduled_ s) (history_shutdown_ s) (last_sender_report_time_us_ s)
    (sender_packet_count_ s) (sender_octet_count_ s) (task_queue_history_ s).
Definition set_padding_packetizer (k : option (PacketizerKind * Packetizer)) (s : VideoChannelSend) : VideoChannelSend :=
  mkVideoSend (channel_name_ s) (vs_ssrc_ s) (vs_rtx_ssrc_ s) (rtx_enabled_ s) (rtp_packetizer_ s) k
    (rtp_timestamp_generator_ s) (rtp_packet_history_ s) (pending_nack_sequence_numbers_ s)
    (nack_task_scheduled_ s) (history_shutdown_ s) (last_sender_report_time_us_ s)
    (sender_packet_count_ s) (sender_octet_count_ s) (task_queue_history_ s).
Definition set_generator (g : RtpTimestampGenerator) (s : VideoChannelSend) : VideoChannelSend :=
  mkVideoSend (channel_name_ s) (vs_ssrc_ s) (vs_rtx_ssrc_ s) (rtx_enabled_ s) (rtp_packetizer_ s) (padding_packetizer_ s)
    g (rtp_packet_history_ s) (pending_nack_sequence_numbers_ s)
    (nack_task_scheduled_ s) (history_shutdown_ s) (last_sender_report_time_us_ s)
    (sender_packet_count_ s) (sender_octet_count_ s) (task_queue_history_ s).
Definition set_history (h : RtpPacketHistory) (s : VideoChannelSend) : VideoChannelSend :=
  mkVideoSend (channel_name_ s) (vs_ssrc_ s) (vs_rtx_ssrc_ s) (rtx_enabled_ s) (rtp_packetizer_ s) (padding_packetizer_ s)
    (rtp_timestamp_generator_ s) h (pending_nack_sequence_numbers_ s)
    (nack_task_scheduled_ s) (history_shutdown_ s) (last_sender_report_time_us_ s)
    (sender_packet_count_ s) (sender_octet_count_ s) (task_queue_history_ s).
Definition set_nacks (n : gset Z) (scheduled : bool) (s : VideoChannelSend) : VideoChannelSend :=
  mkVideoSend (channel_name_ s) (vs_ssrc_ s) (vs_rtx_ssrc_ s) (rtx_enabled_ s) (rtp_packetizer_ s) (padding_packetizer_ s)
    (rtp_timestamp_generator_ s) (rtp_packet_history_ s) n scheduled
    (history_shutdown_ s) (last_sender_report_time_us_ s)
    (sender_packet_count_ s) (sender_octet_count_ s) (task_queue_history_ s).
Definition set_shutdown (b : bool) (s : VideoChannelSend) : VideoChannelSend :=
  mkVideoSend (channel_name_ s) (vs_ssrc_ s) (vs_rtx_ssrc_ s) (rtx_enabled_ s) (rtp_packetizer_ s) (padding_packetizer_ s)
    (rtp_timestamp_generator_ s) (rtp_packet_history_ s) (pending_nack_sequence_numbers_ s)
    (nack_task_scheduled_ s) b (last_sender_report_time_us_ s)
    (sender_packet_count_ s) (sender_octet_count_ s) (task_queue_history_ s).
Definition set_report_state (time packets octets : Z) (s : VideoChannelSend) : VideoChannelSend :=
  mkVideoSend (channel_name_ s) (vs_ssrc_ s) (vs_rtx_ssrc_ s) (rtx_enabled_ s) (rtp_packetizer_ s) (padding_packetizer_ s)
    (rtp_timestamp_generator_ s) (rtp_packet_history_ s) (pending_nack_sequence_numbers_ s)
    (nack_task_scheduled_ s) (history_shutdown_ s) time packets octets (task_queue_history_ s).
Definition set_queue (q : TaskQueue) (s : VideoChannelSend) : VideoChannelSend :=
  mkVideoSend (channel_name_ s) (vs_ssrc_ s) (vs_rtx_ssrc_ s) (rtx_enabled_ s) (rtp_packetizer_ s) (padding_packetizer_ s)
    (rtp_timestamp_generator_ s) (rtp_packet_history_ s) (pending_nack_sequence_numbers_ s)
    (nack_task_scheduled_ s) (history_shutdown_ s) (last_sender_report_time_us_ s)
    (sender_packet_count_ s) (sender_octet_count_ s) q.

Definition post (t : HistoryTask) (s : VideoChannelSend) : VideoChannelSend :=
  set_queue (PostTask t (task_queue_history_ s)).2 s.

(** src/transport/channel/video_channel_send.cpp:54-67 [VideoChannelSend::Initialize] *)
Definition Initialize (channel_name : String.string) (ssrc rtx_ssrc payload_type : Z) (rtx_enabled : bool) (base_timestamp : Z)
    (abs_send_time_ext_id : option Z) : VideoChannelSend :=
  let create id := let '(k, p) := Packetizer.Create payload_type id in
                   Some (k, SetAbsoluteSendTimeExtensionId abs_send_time_ext_id p) in
  mkVideoSend channel_name ssrc rtx_ssrc rtx_enabled (create ssrc)
    (create (if rtx_enabled then rtx_ssrc else ssrc))
    (new_timestamp_generator 90000 base_timestamp) new_history ∅ false false 0 0 0
    (mkTaskQueue [] false).

(** src/transport/channel/video_channel_send.cpp:69-78 [VideoChannelSend::SetAbsoluteSendTimeExtensionId] *)
Definition SetExtensionId (id : option Z) (s : VideoChannelSend) : VideoChannelSend :=
  let update := fmap (fun kp : PacketizerKind * Packetizer => (kp.1, SetAbsoluteSendTimeExtensionId id kp.2)) in
  set_padding_packetizer (update (padding_packetizer_ s)) (set_packetizer (update (rtp_packetizer_ s)) s).

(** ** Frames *)

(** Which class's [Build]. *)
Definition BuildFrame (kind : PacketizerKind) (st : Packetizer) (payload : list Z) (timestamp : Z)
    : option (list RtpPacket * Packetizer) :=
  match kind with
  | KindH264 => BuildH264 st payload (zlen payload) timestamp
  | KindAv1 => BuildAv1 st payload (zlen payload) timestamp
  | KindGeneric => BuildGeneric st payload (zlen payload) timestamp
  end.

Definition mark_video (is_key_frame first : bool) (p : RtpPacketToSend) : RtpPacketToSend :=
  mkToSend (rtp_packet p) (capture_time_ p) (packet_type_ p) (original_packet_type_ p) (original_ssrc_ p)
    (transport_sequence_number_ p) (allow_retransmission_ p) (retransmitted_sequence_number_ p)
    first is_key_frame (fec_protect_packet_ p) (is_red_ p) (send_as_ect1_ p) (time_in_send_queue_ p) (stream_name_ p).

(** [SetIsKeyFrame] does nothing but in the AV1 packetizer. *)
(** src/transport/channel/video_channel_send.cpp:297-325 [VideoChannelSend::SendVideo] *)
Definition SendVideo {W} `{PacerQueue W} (frame : list Z) (is_key_frame : bool) (captured_us : Z)
    (s : VideoChannelSend) (w : W) : option (VideoChannelSend * W) :=
  match rtp_packetizer_ s with
  | None => Some (s, w)
  | Some (kind, pz) =>
      let pz := match kind with KindAv1 => SetIsKeyFrame is_key_frame pz | _ => pz end in
      let '(timestamp, g) := TimestampForCaptureTimeUs captured_us (rtp_timestamp_generator_ s) in
      '(rtp_packets, pz) ← BuildFrame kind pz frame timestamp;
      let packets := imap (fun index p => mark_video is_key_frame (Nat.eqb index 0) (new_to_send p)) rtp_packets in
      Some (set_generator g (set_packetizer (Some (kind, pz)) s), enqueue_rtp_packets packets captured_us (channel_name_ s) w)
  end.

(** The packetizers other than that for H.264 build none. *)
(** src/rtp/rtp_packetizer/rtp_packetizer_av1.h:24-28 [RtpPacketizerAv1::BuildPadding] *)
Definition BuildPaddingOf (kind : PacketizerKind) (st : Packetizer) (payload_size timestamp : Z)
    : option (list RtpPacket * Packetizer) :=
  match kind with
  | KindH264 => BuildPadding st payload_size timestamp
  | KindAv1 | KindGeneric => Some ([], st)
  end.

(** src/transport/channel/video_channel_send.cpp:271-280 [VideoChannelSend::GeneratePadding] *)
Definition GeneratePadding (payload_size padding_time_us : Z) (s : VideoChannelSend)
    : option (list RtpPacket * VideoChannelSend) :=
  match padding_packetizer_ s with
  | None => Some ([], s)
  | Some (kind, pz) =>
      let timestamp := TimestampForPaddingTimeUs padding_time_us (rtp_timestamp_generator_ s) in
      '(pkts, pz) ← BuildPaddingOf kind pz payload_size timestamp;
      Some (pkts, set_padding_packetizer (Some (kind, pz)) s)
  end.

(** ** Sender reports *)

(** src/transport/channel/video_channel_send.cpp:12-12 [kSenderReportIntervalUs] *)
Definition kSenderReportIntervalUs : Z := 1000000.

(** The report that is sent, or none; [offset] is the clock's offset to UTC. *)
(** src/transport/channel/video_channel_send.cpp:102-138 [VideoChannelSend::MaybeSendSenderReport] *)
Definition MaybeSendSenderReport (now_us offset : Z) (packet : RtpPacketToSend) (s : VideoChannelSend)
    : option SenderInfo * VideoChannelSend :=
  if negb (Ssrc packet =? vs_ssrc_ s) || bool_decide (is_Some (retransmitted_sequence_number_ packet)) ||
     negb (bool_decide (packet_type_ packet = Some kVideo))
  then (None, s)
  else
    let packets := u32 (sender_packet_count_ s + 1) in
    let octets := u32 (sender_octet_count_ s + u32 (payload_size_ (rtp_packet packet))) in
    if negb (last_sender_report_time_us_ s =? 0) &&
       (now_us - last_sender_report_time_us_ s <? kSenderReportIntervalUs)
    then (None, set_report_state (last_sender_report_time_us_ s) packets octets s)
    else
      let info := SetNtpTimestamp (mkSenderInfo (vs_ssrc_ s) 0 0
                    (TimestampForPaddingTimeUs now_us (rtp_timestamp_generator_ s)) packets octets)
                    (MonotonicTimeUsToNtp offset now_us) in
      (Some info, set_report_state now_us packets octets s).

(** src/transport/channel/video_channel_send.cpp:80-100 [VideoChannelSend::OnSentRtpPacket] *)
Definition OnSentRtpPacket (now_us offset : Z) (packet : RtpPacketToSend) (s : VideoChannelSend)
    : option SenderInfo * VideoChannelSend :=
  let '(report, s) := MaybeSendSenderReport now_us offset packet s in
  if history_shutdown_ s then (report, s) else (report, post (TaskSent packet) s).

(** src/transport/channel/video_channel_send.cpp:140-166 [VideoChannelSend::OnRtpPacketSendFailed] *)
Definition OnRtpPacketSendFailed (packet : RtpPacketToSend) (s : VideoChannelSend) : VideoChannelSend :=
  if history_shutdown_ s then s else
  match retransmitted_sequence_number_ packet with
  | Some seq => post (TaskAborted seq) s
  | None =>
      if bool_decide (packet_type_ packet = Some kVideo) then post (TaskPut packet) s else s
  end.

(** src/transport/channel/video_channel_send.cpp:210-221 [VideoChannelSend::OnRttUpdate] *)
Definition VsOnRttUpdate (rtt_ms : Z) (s : VideoChannelSend) : VideoChannelSend :=
  if (rtt_ms <=? 0) || (2000 <? rtt_ms) || history_shutdown_ s then s else post (TaskRtt rtt_ms) s.

(** ** Retransmission *)

(** The set of waiting requests: the loop stops when the set is full. *)
(** src/transport/channel/video_channel_send.cpp:190-196 [VideoChannelSend::OnReceiveNack] *)
Fixpoint insert_nacks (ids : list Z) (n : gset Z) : gset Z :=
  match ids with
  | [] => n
  | id :: ids =>
      if kMaxCapacity <=? Z.of_nat (size n) then n else insert_nacks ids ({[id]} ∪ n)
  end.

(** Up to the end of the lock: whether to schedule the task. *)
(** src/transport/channel/video_channel_send.cpp:168-201 [VideoChannelSend::OnReceiveNack] *)
Definition nacks_received (ids : list Z) (s : VideoChannelSend) : bool * VideoChannelSend :=
  if negb (rtx_enabled_ s) || bool_decide (ids = []) || history_shutdown_ s then (false, s) else
  let n := insert_nacks ids (pending_nack_sequence_numbers_ s) in
  if negb (nack_task_scheduled_ s) && negb (bool_decide (n = ∅))
  then (true, set_nacks n true s)
  else (false, set_nacks n (nack_task_scheduled_ s) s).

(** The task is posted; a queue that is stopped takes none. *)
(** src/transport/channel/video_channel_send.cpp:203-208 [VideoChannelSend::OnReceiveNack] *)
Definition schedule_nacks (s : VideoChannelSend) : VideoChannelSend :=
  let '(posted, q) := PostTask TaskNacks (task_queue_history_ s) in
  let s := set_queue q s in
  if posted then s else set_nacks (pending_nack_sequence_numbers_ s) false s.

(** src/transport/channel/video_channel_send.cpp:224-224 [VideoChannelSend::ProcessPendingNacks] *)
Definition kMaxNacksPerTask : nat := 512.

(** The order in which an [std::unordered_set] is walked through is not
    specified. *)
Class SetOrder := {
  set_order : gset Z -> list Z;
  set_order_perm n : set_order n ≡ₚ elements n;
}.

(** The first part of the task: what to answer, unless all is over. *)
(** src/transport/channel/video_channel_send.cpp:228-242 [VideoChannelSend::ProcessPendingNacks] *)
Definition take_nacks `{SetOrder} (s : VideoChannelSend) : option (list Z) * VideoChannelSend :=
  if history_shutdown_ s then (None, set_nacks ∅ false s) else
  let packet_ids := take kMaxNacksPerTask (set_order (pending_nack_sequence_numbers_ s)) in
  (Some packet_ids,
   set_nacks (pending_nack_sequence_numbers_ s ∖ list_to_set packet_ids) (nack_task_scheduled_ s) s).

(** The last part: whether to post the task again. *)
(** src/transport/channel/video_channel_send.cpp:253-262 [VideoChannelSend::ProcessPendingNacks] *)
Definition nacks_left (s : VideoChannelSend) : bool * VideoChannelSend :=
  if history_shutdown_ s || bool_decide (pending_nack_sequence_numbers_ s = ∅)
  then (false, set_nacks ∅ false s)
  else (true, s).

(** The packet that goes out instead of the stored one. *)
(** src/transport/channel/video_channel_send.cpp:335-351 [VideoChannelSend::ReSendPacket] *)
Definition encapsulate_rtx (rtx_ssrc : Z) (stored : RtpPacketToSend)
    : option (Z * option RtpPacketToSend) :=
  let packet_size := s32 (size_ (rtp_packet stored)) in
  let original_sequence_number := SequenceNumber stored in
  let p := set_payload_type_ (payload_type_value RTX) (set_ssrc_ rtx_ssrc (rtp_packet stored)) in
  '(built, p) ← BuildRtxPacket p (Some original_sequence_number);
  if (built : bool)
  then Some (packet_size, Some (mkToSend p (capture_time_ stored) (packet_type_ stored)
         (original_packet_type_ stored) (Some (Ssrc stored)) (transport_sequence_number_ stored)
         (allow_retransmission_ stored) (Some original_sequence_number)
         (is_first_packet_of_frame_ stored) (is_key_frame_ stored) (fec_protect_packet_ stored)
         (is_red_ stored) (send_as_ect1_ stored) (time_in_send_queue_ stored)
         (stream_name_ stored)))
  else Some (packet_size, None).

Definition without_fec (p : RtpPacketToSend) : RtpPacketToSend :=
  mkToSend (rtp_packet p) (capture_time_ p) (packet_type_ p) (original_packet_type_ p) (original_ssrc_ p)
    (transport_sequence_number_ p) (allow_retransmission_ p) (retransmitted_sequence_number_ p)
    (is_first_packet_of_frame_ p) (is_key_frame_ p) false (is_red_ p) (send_as_ect1_ p) (time_in_send_queue_ p) (stream_name_ p).

(** src/transport/channel/video_channel_send.cpp:327-369 [VideoChannelSend::ReSendPacket] *)
Definition ReSendPacket {W} `{PacerQueue W} (now packet_id : Z) (s : VideoChannelSend) (w : W)
    : option (Z * VideoChannelSend * W) :=
  if negb (rtx_enabled_ s) then Some (-1, s, w) else
  '(packet_size, packet, h) ← GetPacketAndEncapsulate now packet_id (encapsulate_rtx (vs_rtx_ssrc_ s))
                                (rtp_packet_history_ s);
  let s := set_history h s in
  if default 0 packet_size =? 0 then Some (0, s, w) else
  match packet with
  | None => Some (-1, s, w)
  | Some packet =>
      let packet := without_fec (set_packet_type kRetransmission packet) in
      let '(enqueue_result, w) := enqueue_rtp_packet packet w in
      if enqueue_result <? 0
      then h ← MarkPacketAsAborted packet_id (rtp_packet_history_ s);
           Some (enqueue_result, set_history h s, w)
      else Some (enqueue_result, s, w)
  end.

(** What the worker does with a task that is not the answering of requests. *)
(** src/transport/channel/video_channel_send.cpp:91-99 [VideoChannelSend::OnSentRtpPacket] *)
Definition run_task (now : Z) (t : HistoryTask) (s : VideoChannelSend) : option VideoChannelSend :=
  let h := rtp_packet_history_ s in
  match t with
  | TaskSent p =>
      match retransmitted_sequence_number_ p with
      | Some seq => h ← MarkPacketAsSent now seq h; Some (set_history h s)
      | None =>
          if negb (payload_type_ (rtp_packet p) =? payload_type_value H264 - 1)
          then h ← PutRtpPacket now p now h; Some (set_history h s)
          else Some s
      end
  | TaskPut p => h ← PutRtpPacket now p now h; Some (set_history h s)
  | TaskAborted seq => h ← MarkPacketAsAborted seq h; Some (set_history h s)
  | TaskRtt rtt_ms =>
      if history_shutdown_ s then Some s else h ← SetRtt now (rtt_ms * 1000) h; Some (set_history h s)
  | TaskNacks => Some s
  end.

(** ** Sender reports over a run *)

Definition counted (s : VideoChannelSend) (p : RtpPacketToSend) : bool :=
  (Ssrc p =? vs_ssrc_ s) && negb (bool_decide (is_Some (retransmitted_sequence_number_ p))) &&
  bool_decide (packet_type_ p = Some kVideo).

(** The pacer reports packets with the times at which they went out; the
    reports that follow, with their times. *)
Fixpoint sent_run (offset : Z) (sent : list (Z * RtpPacketToSend)) (s : VideoChannelSend)
    : list (Z * SenderInfo) * VideoChannelSend :=
  match sent with
  | [] => ([], s)
  | (now, p) :: sent =>
      let '(report, s) := OnSentRtpPacket now offset p s in
      let '(reports, s) := sent_run offset sent s in
      (match report with Some i => (now, i) :: reports | None => reports end, s)
  end.

(** What a report at [now] says of the packets [ps]. *)
Definition report_of (offset now : Z) (s : VideoChannelSend) (ps : list RtpPacketToSend) : SenderInfo :=
  SetNtpTimestamp
    (mkSenderInfo (vs_ssrc_ s) 0 0 (TimestampForPaddingTimeUs now (rtp_timestamp_generator_ s))
       (u32 (sender_packet_count_ s + zlen ps))
       (u32 (sender_octet_count_ s + zsum (fun p => payload_size_ (rtp_packet p)) ps)))
    (MonotonicTimeUsToNtp offset now).

Definition reports_only (s s' : VideoChannelSend) : Prop :=
  vs_ssrc_ s' = vs_ssrc_ s /\ rtp_timestamp_generator_ s' = rtp_timestamp_generator_ s.

Definition due (now : Z) (s : VideoChannelSend) : bool :=
  (last_sender_report_time_us_ s =? 0) || (kSenderReportIntervalUs <=? now - last_sender_report_time_us_ s).

Lemma OnSent_spec now offset p s r s' :
  OnSentRtpPacket now offset p s = (r, s') ->
  reports_only s s' /\
  sender_packet_count_ s' = (if counted s p then u32 (sender_packet_count_ s + 1) else sender_packet_count_ s) /\
  sender_octet_count_ s' = (if counted s p then u32 (sender_octet_count_ s + payload_size_ (rtp_packet p))
                            else sender_octet_count_ s) /\
  (r, last_sender_report_time_us_ s') =
    (if counted s p && due now s then (Some (report_of offset now s [p]), now)
     else (None, last_sender_report_time_us_ s)).
Proof.
  assert (forall s (r0 : option SenderInfo), (if history_shutdown_ s then (r0, s) else (r0, post (TaskSent p) s)) =
    (r0, if history_shutdown_ s then s else post (TaskSent p) s)) as Hsplit by (intros t r0; by destruct (history_shutdown_ t)).
  assert (forall a b, u32 (a + u32 b) = u32 (a + b)) as Hu by (intros; unfold u32; by rewrite Zplus_mod_idemp_r).
  unfold OnSentRtpPacket, MaybeSendSenderReport, counted, due.
  replace (negb (Ssrc p =? vs_ssrc_ s) || _ || _)
    with (negb ((Ssrc p =? vs_ssrc_ s) && negb (bool_decide (is_Some (retransmitted_sequence_number_ p))) &&
      bool_decide (packet_type_ p = Some kVideo))) by (by rewrite !negb_andb, negb_involutive).
  rewrite Hu. destruct (_ && _ && _); cbn [negb andb].
  - replace (negb (last_sender_report_time_us_ s =? 0) && _)
      with (negb ((last_sender_report_time_us_ s =? 0) ||
                  (kSenderReportIntervalUs <=? now - last_sender_report_time_us_ s)))
      by (by rewrite negb_orb, <- Z.ltb_antisym).
    destruct (_ || _); cbn [negb]; rewrite Hsplit; intros E; injection E as <- <-; cbn [history_shutdown_ set_report_state];
      (destruct (history_shutdown_ s); cbn -[u32]; split_and!; try done);
      unfold report_of; cbn [zsum]; by rewrite Z.add_0_r.
  - rewrite Hsplit. intros E. injection E as <- <-. by destruct (history_shutdown_ s).
Qed.

Definition last_times (s : VideoChannelSend) : list Z :=
  if last_sender_report_time_us_ s =? 0 then [] else [last_sender_report_time_us_ s].

Definition spaced : list Z -> Prop := Sorted (fun a b => a + kSenderReportIntervalUs <= b).

Lemma counted_ext s s' p : reports_only s s' -> counted s' p = counted s p.
Proof. intros [E _]. unfold counted. by rewrite E. Qed.

Lemma report_of_next offset t s s' p ps :
  reports_only s s' ->
  sender_packet_count_ s' = (if counted s p then u32 (sender_packet_count_ s + 1) else sender_packet_count_ s) ->
  sender_octet_count_ s' = (if counted s p then u32 (sender_octet_count_ s + payload_size_ (rtp_packet p))
                            else sender_octet_count_ s) ->
  report_of offset t s' (List.filter (counted s') ps) = report_of offset t s (List.filter (counted s) (p :: ps)).
Proof.
  intros Hr Hc Ho. rewrite (List.filter_ext (counted s') (counted s)) by (intros x; by apply counted_ext).
  destruct Hr as [E1 E2]. unfold report_of. rewrite E1, E2, Hc, Ho. cbn [List.filter].
  destruct (counted s p); [|done]. rewrite zlen_cons. cbn [zsum].
  assert (forall a b c, u32 (u32 (a + b) + c) = u32 (a + (b + c))) as Hu
    by (intros; unfold u32; rewrite Zplus_mod_idemp_l; f_equal; lia).
  by rewrite !Hu.
Qed.

(** What a run promises, from the time of the last report on. *)
Definition reports_true (offset : Z) (s : VideoChannelSend) (sent : list (Z * RtpPacketToSend))
    (reports : list (Z * SenderInfo)) : Prop :=
  spaced (last_times s ++ map fst reports) /\
  (forall t i, In (t, i) reports -> exists pre p post, sent = pre ++ (t, p) :: post /\
     counted s p = true /\ i = report_of offset t s (List.filter (counted s) (map snd pre ++ [p]))) /\
  (forall t p, In (t, p) sent -> counted s p = true ->
     exists t', In t' (last_times s ++ map fst reports) /\ t' <= t < t' + kSenderReportIntervalUs).

Lemma reports_step offset now p s r s' sent reports :
  OnSentRtpPacket now offset p s = (r, s') -> 0 < now ->
  last_sender_report_time_us_ s <= now -> reports_true offset s' sent reports ->
  reports_true offset s ((now, p) :: sent) (match r with Some i => (now, i) :: reports | None => reports end).
Proof.
  intros E Hnow Hle (H1 & H2 & H3). destruct (OnSent_spec _ _ _ _ _ _ E) as (Hr & Hc & Ho & Hl).
  assert (forall t i, In (t, i) reports -> exists pre q post, (now, p) :: sent = pre ++ (t, q) :: post /\
     counted s q = true /\ i = report_of offset t s (List.filter (counted s) (map snd pre ++ [q]))) as Hold.
  { intros t i Hi. destruct (H2 t i Hi) as (pre & q & post & -> & Hq & ->).
    exists ((now, p) :: pre), q, post. split_and!; [done|by rewrite <- (counted_ext s s')|].
    by apply report_of_next. }
  unfold due in Hl. destruct (counted s p) eqn:Ep; cbn [andb] in Hl.
  - destruct ((_ =? 0) || _) eqn:Ed; injection Hl as -> El.
    + assert (last_times s' = [now]) as Elt by (unfold last_times; rewrite El; destruct (Z.eqb_spec now 0); [lia|done]).
      rewrite Elt in H1, H3. split_and!.
      * unfold last_times. destruct (Z.eqb_spec (last_sender_report_time_us_ s) 0); [done|].
        cbn [orb] in Ed. apply Z.leb_le in Ed. constructor; [done|]. constructor. cbn [fst]. lia.
      * intros t i [Hi|Hi]; [|by apply Hold]. injection Hi as <- <-. exists [], p, sent.
        split_and!; [done|done|]. cbn [map app List.filter]. by rewrite Ep.
      * intros t q [Hq|Hq] Hcq; [injection Hq as <- <-; exists now|].
        { split; [apply in_app_iff; right; by left|]. unfold kSenderReportIntervalUs. lia. }
        rewrite <- (counted_ext s s') in Hcq by done. destruct (H3 t q Hq Hcq) as (t' & Ht & Hb).
        exists t'. split; [apply in_app_iff; by right|done].
    + apply orb_false_iff in Ed as [Ed1 Ed2]. apply Z.leb_gt in Ed2.
      assert (last_times s' = last_times s) as Elt by (unfold last_times; by rewrite El).
      rewrite Elt in H1, H3. split_and!; [done|done|].
      intros t q [Hq|Hq] Hcq; [injection Hq as <- <-|].
      * exists (last_sender_report_time_us_ s). unfold last_times. rewrite Ed1. split; [by left|]. lia.
      * rewrite <- (counted_ext s s') in Hcq by done. by apply (H3 t q).
  - injection Hl as -> El.
    assert (last_times s' = last_times s) as Elt by (unfold last_times; by rewrite El).
    rewrite Elt in H1, H3. split_and!; [done|done|].
    intros t q [Hq|Hq] Hcq; [injection Hq as <- <-; congruence|].
    rewrite <- (counted_ext s s') in Hcq by done. by apply (H3 t q).
Qed.

Lemma sent_run_true offset sent : forall s,
  StronglySorted Z.le (last_sender_report_time_us_ s :: map fst sent) -> Forall (Z.lt 0) (map fst sent) ->
  reports_true offset s sent (sent_run offset sent s).1.
Proof.
  induction sent as [|[now p] sent IH]; intros s Hs Hpos; cbn [sent_run].
  - cbn. split_and!; [|by intros t i []|by intros t q []].
    unfold last_times. destruct (_ =? 0); cbn; repeat constructor.
  - apply StronglySorted_inv in Hs as [Hs Hle]. cbn [map fst] in *.
    apply Forall_cons_1 in Hpos as [Hnow Hpos]. apply Forall_cons_1 in Hle as [Hle Hle'].
    destruct (OnSentRtpPacket now offset p s) as [r s'] eqn:E.
    destruct (OnSent_spec _ _ _ _ _ _ E) as (_ & _ & _ & Hl).
    assert (reports_true offset s' sent (sent_run offset sent s').1) as H.
    { apply IH; [|done]. apply StronglySorted_inv in Hs as [Hs Hge].
      constructor; [done|]. destruct (_ && _); injection Hl as _ ->; [|done]. done. }
    pose proof (reports_step _ _ _ _ _ _ _ _ E Hnow Hle H) as H'.
    destruct (sent_run offset sent s') as [reports s'']. by destruct r.
Qed.

(** The sender reports of a stream, over any run of packets that went out
    at nondecreasing positive times: two reports are at least a second apart;
    each goes out with a media packet of the stream and counts exactly the media
    packets and payload octets sent until then, modulo 2^32, with the RTP and
    NTP times of that moment; and no media packet goes out without a report in
    the second before it. *)
Theorem sender_reports_paced (name : String.string) (offset ssrc rtx_ssrc payload_type base : Z) (rtx : bool) (ext : option Z)
    (sent : list (Z * RtpPacketToSend)) :
  let s := Initialize name ssrc rtx_ssrc payload_type rtx base ext in
  let reports := (sent_run offset sent s).1 in
  StronglySorted Z.le (map fst sent) -> Forall (Z.lt 0) (map fst sent) ->
  Sorted (fun a b => a + kSenderReportIntervalUs <= b) (map fst reports) /\
  (forall t i, In (t, i) reports -> exists pre p post, sent = pre ++ (t, p) :: post /\
     counted s p = true /\ i = report_of offset t s (List.filter (counted s) (map snd pre ++ [p]))) /\
  (forall t p, In (t, p) sent -> counted s p = true ->
     exists t', In t' (map fst reports) /\ t' <= t < t' + kSenderReportIntervalUs).
Proof.
  intros s reports Hs Hpos. apply (sent_run_true offset sent s); [|done].
  constructor; [done|]. eapply List.Forall_impl; [|exact Hpos]. intros x Hx. cbn. lia.
Qed.

Definition sample_video (seq : Z) : RtpPacketToSend :=
  mark_video false true (set_packet_type kVideo
    (new_to_send (set_ssrc_ 7 (set_sequence_number_ seq new_packet)))).

Lemma sender_reports_paced_witness :
  let s := Initialize String.EmptyString 7 8 96 true 0 None in
  let sent := [(5, sample_video 1); (6, sample_video 2); (1000005, sample_video 3)] in
  let reports := (sent_run 0 sent s).1 in
  map (fun r => (r.1, sender_packet_count r.2)) reports = [(5, 1); (1000005, 3)] /\
  Sorted (fun a b => a + kSenderReportIntervalUs <= b) (map fst reports) /\
  (forall t i, In (t, i) reports -> exists pre p post, sent = pre ++ (t, p) :: post /\
     counted s p = true /\ i = report_of 0 t s (List.filter (counted s) (map snd pre ++ [p]))) /\
  (forall t p, In (t, p) sent -> counted s p = true ->
     exists t', In t' (map fst reports) /\ t' <= t < t' + kSenderReportIntervalUs).
Proof.
  intros s sent reports. split; [vm_compute; reflexivity|].
  refine (sender_reports_paced String.EmptyString 0 7 8 96 0 true None sent _ _); cbn [sent map fst];
    repeat (apply SSorted_cons || apply SSorted_nil || apply Forall_cons_2 || apply Forall_nil_2); lia.
Defined.
