(* ===== verification/VideoStream.v ===== *)
(** * The packets of a video stream are numbered without gaps

    [VideoChannelSend] of [src/transport/channel/video_channel_send.cpp] with the
    packetizers that it creates: whatever frames it is given, however often the
    extension changes and padding is asked for in between, the packets that go
    to the pacer carry consecutive numbers, and each frame is marked. *)

From stdpp Require Import gmap.
From S2P Require Import Prelude Units Rtcp RtpPacket RtpToSend RtpTimestamp Packetizer Av1 PacketHistory VideoSend.

(** ** What is asked of the channel *)

Inductive ChannelCall :=
  | CallSendVideo (frame : list Z) (is_key_frame : bool) (captured_us : Z)
  | CallPadding (payload_size padding_time_us : Z)
  | CallExtension (id : option Z).

(** The pacer keeps what it is given: for each frame its packets and its time. *)
Definition Batches : Type := list (list RtpPacketToSend * Z).
#[export] Instance batching_pacer : PacerQueue Batches :=
  {| enqueue_rtp_packet p w := (0, w ++ [([p], 0)]); enqueue_rtp_packets ps captured _ w := w ++ [(ps, captured)] |}.

Definition channel_call (c : ChannelCall) (s : VideoChannelSend) (w : Batches)
    : option (list RtpPacket * VideoChannelSend * Batches) :=
  match c with
  | CallSendVideo frame key captured => '(s, w) ← SendVideo frame key captured s w; Some ([], s, w)
  | CallPadding size time => '(pkts, s) ← GeneratePadding size time s; Some (pkts, s, w)
  | CallExtension id => Some ([], SetExtensionId id s, w)
  end.

Fixpoint channel_run (cs : list ChannelCall) (s : VideoChannelSend) (w : Batches)
    : option (list RtpPacket * VideoChannelSend * Batches) :=
  match cs with
  | [] => Some ([], s, w)
  | c :: cs =>
      '(padding, s, w) ← channel_call c s w;
      '(padding', s, w) ← channel_run cs s w;
      Some (padding ++ padding', s, w)
  end.

Definition call_fits (c : ChannelCall) : Prop :=
  match c with
  | CallSendVideo frame _ _ => bytes frame /\ zlen frame < 2147483648
  | CallPadding size _ => 0 <= size < 4294967296
  | CallExtension id => True
  end.

Definition frame_times (cs : list ChannelCall) : list (Z * bool) :=
  omap (fun c => match c with CallSendVideo _ key captured => Some (captured, key) | _ => None end) cs.

(** ** What comes out *)

(** Packets with the numbers from [k] on. *)
Definition numbered (ssrc payload_type k : Z) (ps : list RtpPacket) : Prop :=
  forall i p, ps !! i = Some p ->
    sequence_number_ p = u16 (k + Z.of_nat i + 1) /\ ssrc_ p = ssrc /\ payload_type_ p = payload_type /\
    Build new_packet (buffer_ p) (zlen (buffer_ p)) = Some (true, p).

(** The packets of one frame. *)
Definition one_frame (key : bool) (ps : list RtpPacketToSend) : Prop :=
  (exists ts, forall i p, ps !! i = Some p ->
    timestamp_ (rtp_packet p) = ts /\ marker_ (rtp_packet p) = Nat.eqb (S i) (length ps) /\
    is_first_packet_of_frame_ p = Nat.eqb i 0 /\ is_key_frame_ p = key /\ zlen (buffer_ (rtp_packet p)) <= 1172).

Lemma numbered_app ssrc pt k ps qs : numbered ssrc pt k ps -> numbered ssrc pt (k + zlen ps) qs -> numbered ssrc pt k (ps ++ qs).
Proof.
  intros Hp Hq i p Hi. apply lookup_app_Some in Hi as [Hi|[Hl Hi]]; [by apply Hp|].
  destruct (Hq _ _ Hi) as (-> & H). split; [|exact H]. f_equal. unfold zlen. lia.
Qed.

Lemma numbered_u16 ssrc pt j k ps : u16 j = u16 k -> numbered ssrc pt j ps -> numbered ssrc pt k ps.
Proof.
  intros E H i p Hi. destruct (H i p Hi) as (-> & ?). split; [|done]. unfold u16 in *.
  rewrite <- !(Z.add_assoc _ _ 1), <- (Zplus_mod_idemp_l j), E, Zplus_mod_idemp_l. done.
Qed.

(** ** The packetizers *)

(** A packetizer of the stream that has numbered [k] packets. *)
Definition numbering (ssrc pt k : Z) (kp : option (PacketizerKind * Packetizer)) : Prop :=
  exists kind st, kp = Some (kind, st) /\ pz_ok st /\ pz_ssrc st = ssrc /\ pz_payload_type st = pt /\ pz_sequence_number st = u16 k.

Lemma BuildFrame_train kind : TrainBuilder (BuildFrame kind).
Proof. destruct kind; [exact H264_train|exact Av1_train|exact Generic_train]. Qed.

Lemma numbering_created pt ssrc ext : 0 < pt < 128 -> is_u32 ssrc ->
  numbering ssrc pt 0 (let '(k, p) := Packetizer.Create pt ssrc in Some (k, SetAbsoluteSendTimeExtensionId ext p)).
Proof.
  intros Hpt Hs. destruct (Packetizer.Create pt ssrc) as [k p] eqn:E.
  assert (pz_payload_type p = pt /\ pz_ssrc p = ssrc /\ pz_sequence_number p = 0) as (E1 & E2 & E3).
  { unfold Packetizer.Create in E. repeat case_match; simplify_eq; b2p; done. }
  exists k, (SetAbsoluteSendTimeExtensionId ext p). split; [done|]. rewrite <- E1, <- E2 in *. split; [|done].
  unfold pz_ok, SetAbsoluteSendTimeExtensionId. cbn. rewrite E3. split_and!; [lia..|unfold is_u16; lia|unfold is_u16; lia|done|].
  destruct ext as [id|]; [|done]. destruct (IsValidOneByteExtensionId id) eqn:Ei; [|done]. cbn.
  unfold IsValidOneByteExtensionId in Ei. lia.
Qed.

Lemma numbering_extension ssrc pt k ext kp : numbering ssrc pt k kp ->
  numbering ssrc pt k (fmap (fun kp : PacketizerKind * Packetizer => (kp.1, SetAbsoluteSendTimeExtensionId ext kp.2)) kp).
Proof.
  intros (kind & st & -> & (H1 & H2 & H3 & _) & H). exists kind, (SetAbsoluteSendTimeExtensionId ext st). split; [done|].
  split; [|done]. split_and!; try done; cbn; try lia. destruct ext as [id|]; [|done].
  destruct (IsValidOneByteExtensionId id) eqn:Ei; [|done]. cbn. unfold IsValidOneByteExtensionId in Ei. lia.
Qed.

Lemma numbering_key ssrc pt k kind st key : numbering ssrc pt k (Some (kind, st)) ->
  numbering ssrc pt k (Some (kind, match kind with KindAv1 => SetIsKeyFrame key st | _ => st end)).
Proof. intros (kind' & st' & [= <- <-] & H). eexists kind, _. split; [done|]. by destruct kind. Qed.

Lemma numbering_advance ssrc pt k n kind st : numbering ssrc pt k (Some (kind, st)) ->
  numbering ssrc pt (k + Z.of_nat n) (Some (kind, advance n st)).
Proof.
  intros (kind' & st' & [= <- <-] & Hok & H1 & H2 & H3). exists kind, (advance n st). split; [done|].
  split; [by apply pz_ok_advance|]. split; [done|]. split; [done|]. cbn. rewrite H3. ilia.
Qed.

(** ** The channel *)

Definition media (w : Batches) : list RtpPacket := map rtp_packet (concat (map fst w)).

Lemma media_app v w : media (v ++ w) = media v ++ media w.
Proof. unfold media. by rewrite map_app, concat_app, map_app. Qed.

Section channel.
Context (ssrc padding_ssrc pt : Z) (Hssrc : is_u32 ssrc) (Hpadding : is_u32 padding_ssrc) (Hpt : 0 < pt < 128).

(** The channel after [m] media packets and [n] packets of padding. *)
Definition channel_at (m n : Z) (s : VideoChannelSend) : Prop :=
  numbering ssrc pt m (rtp_packetizer_ s) /\ numbering padding_ssrc pt n (padding_packetizer_ s) /\
  is_u32 (generator_base_timestamp_ (rtp_timestamp_generator_ s)).

Definition frame_of_batch (b : list RtpPacketToSend * Z) (t : Z * bool) : Prop := b.2 = t.1 /\ one_frame t.2 b.1.

Lemma timestamp_u32 first time g : is_u32 (generator_base_timestamp_ g) -> is_u32 (TimestampForTimeUsLocked first time g).
Proof.
  intros H. unfold TimestampForTimeUsLocked, ExtrapolateRtpTimestamp. case_if; [done|]. case_if; apply u32_range.
Qed.

Lemma SendVideo_numbered frame key captured m n s (w : Batches) :
  channel_at m n s -> bytes frame -> zlen frame < 2147483648 ->
  exists s' ps, SendVideo frame key captured s w = Some (s', w ++ [(ps, captured)]) /\
    numbered ssrc pt m (map rtp_packet ps) /\ one_frame key ps /\ channel_at (m + zlen ps) n s'.
Proof.
  intros ((kind & st & Hk & Hm) & Hn & Hts) Hb Hz. unfold SendVideo. rewrite Hk.
  assert (numbering ssrc pt m (Some (kind, st))) as Hst by (by exists kind, st).
  apply (numbering_key _ _ _ _ _ key) in Hst. set (pz := match kind with KindAv1 => _ | _ => _ end) in *.
  pose proof Hst as (kind' & pz' & [= <- <-] & Hok & Hss & Hpp & Hseq).
  destruct (TimestampForCaptureTimeUs captured (rtp_timestamp_generator_ s)) as [ts g] eqn:Et.
  assert (is_u32 ts /\ generator_base_timestamp_ g = generator_base_timestamp_ (rtp_timestamp_generator_ s)) as [Hts' Hg].
  { unfold TimestampForCaptureTimeUs in Et. destruct (first_capture_time_us_ _); injection Et as <- <-; [|done].
    split; [by apply timestamp_u32|done]. }
  destruct (build_train (TrainBuilder := BuildFrame_train kind) pz frame ts Hok Hts' Hb Hz) as (pls & E & Hpls).
  rewrite E. cbn [mbind option_bind]. set (ps := imap _ _). eexists _, ps. split; [reflexivity|].
  assert (forall i p, ps !! i = Some p -> exists q, packet_of_train pz ts (length pls) i q /\ rtp_packet p = q /\
    is_first_packet_of_frame_ p = Nat.eqb i 0 /\ is_key_frame_ p = key) as Hps.
  { intros i p Hi. unfold ps in Hi. rewrite list_lookup_imap in Hi. apply fmap_Some in Hi as (q & Hq & ->).
    exists q. split; [by eapply train_packet|done]. }
  assert (length ps = length pls) as Hlen by (unfold ps; by rewrite length_imap, packets_length, train_length).
  split_and!.
  - intros i p Hi. rewrite list_lookup_fmap in Hi. apply fmap_Some in Hi as (q & Hq & ->).
    destruct (Hps i q Hq) as (r & (H1 & _ & H2 & H3 & _ & _ & H4) & -> & _). rewrite H1, Hseq.
    split; [|split_and!; congruence || done]. ilia.
  - exists ts. intros i p Hi. destruct (Hps i p Hi) as (r & (_ & H1 & _ & _ & H2 & H3 & _) & -> & H4 & H5). rewrite Hlen. by split_and!.
  - split; [|split; [exact Hn|cbn; by rewrite Hg]]. cbn. unfold zlen. rewrite Hlen. by apply numbering_advance.
Qed.

Lemma GeneratePadding_numbered size time m n s : channel_at m n s -> 0 <= size < 4294967296 ->
  exists ps s', GeneratePadding size time s = Some (ps, s') /\ numbered padding_ssrc (pt - 1) n ps /\ channel_at m (n + zlen ps) s'.
Proof.
  intros (Hm & (kind & st & Hk & Hok & Hss & Hpp & Hseq) & Hts) Hz. unfold GeneratePadding. rewrite Hk.
  set (ts := TimestampForPaddingTimeUs _ _). assert (is_u32 ts) as Hts'.
  { unfold ts, TimestampForPaddingTimeUs. destruct (first_capture_time_us_ _); [by apply timestamp_u32|done]. }
  assert (numbering padding_ssrc pt n (Some (kind, st))) as Hst by (by exists kind, st).
  assert (exists ps, BuildPaddingOf kind st size ts = Some (ps, advance (length ps) st) /\ numbered padding_ssrc (pt - 1) n ps) as (ps & E & H).
  { destruct (BuildPadding_packets st size ts Hok Hts' Hz) as (ps & E & _ & H).
    destruct kind; cbn [BuildPaddingOf]; [exists ps|exists []..]; try (rewrite pz_set_seq_id by apply Hok; split; [done|by intros i p]).
    split; [exact E|]. intros i p Hi. destruct (H i p Hi) as (H1 & H2 & _ & _ & H3 & H4).
    rewrite H3, Hseq. split; [ilia|]. split_and!; congruence || done. }
  rewrite E. cbn [mbind option_bind]. eexists ps, _. split; [reflexivity|]. split; [exact H|].
  split; [exact Hm|]. split; [|exact Hts]. by apply numbering_advance.
Qed.

Lemma call_numbered c m n s w : channel_at m n s -> call_fits c ->
  exists padding s' new, channel_call c s w = Some (padding, s', w ++ new) /\
    numbered ssrc pt m (media new) /\ numbered padding_ssrc (pt - 1) n padding /\
    Forall2 frame_of_batch new (frame_times [c]) /\ channel_at (m + zlen (media new)) (n + zlen padding) s'.
Proof.
  intros Hs Hc. destruct c as [frame key captured|size time|id]; cbn [channel_call call_fits] in *.
  - destruct Hc as [Hb Hz]. destruct (SendVideo_numbered frame key captured m n s w Hs Hb Hz) as (s' & ps & -> & Hps & Hf & Hs').
    exists [], s', [(ps, captured)]. unfold media. cbn [map fst concat]. rewrite app_nil_r. split_and!; try done.
    + by repeat constructor.
    + unfold zlen. rewrite length_map. by rewrite Z.add_0_r.
  - destruct (GeneratePadding_numbered size time m n s Hs Hc) as (ps & s' & -> & Hps & Hs').
    exists ps, s', []. rewrite app_nil_r. split_and!; try done. by rewrite Z.add_0_r.
  - exists [], (SetExtensionId id s), []. rewrite app_nil_r. split_and!; try done.
    rewrite !Z.add_0_r. destruct Hs as (Hm & Hn & Hts). split; [|split; [|exact Hts]]; by apply numbering_extension.
Qed.

Lemma run_numbered cs : forall m n s w, channel_at m n s -> Forall call_fits cs ->
  exists padding s' new, channel_run cs s w = Some (padding, s', w ++ new) /\
    numbered ssrc pt m (media new) /\ numbered padding_ssrc (pt - 1) n padding /\ Forall2 frame_of_batch new (frame_times cs).
Proof.
  induction cs as [|c cs IH]; intros m n s w Hs Hc; cbn [channel_run].
  - exists [], s, []. rewrite app_nil_r. by split_and!.
  - apply Forall_cons_1 in Hc as [Hc Hcs]. destruct (call_numbered c m n s w Hs Hc) as (p1 & s1 & w1 & -> & H1 & H2 & H3 & H4).
    cbn [mbind option_bind]. destruct (IH _ _ _ (w ++ w1) H4 Hcs) as (p2 & s2 & w2 & -> & H5 & H6 & H7).
    exists (p1 ++ p2), s2, (w1 ++ w2). rewrite app_assoc, media_app. split_and!; [done|by apply numbered_app..|].
    change (frame_times (c :: cs)) with (frame_times ([c] ++ cs)). unfold frame_times. rewrite omap_app. by apply Forall2_app.
Qed.
End channel.

(** C12. The media packets of a video channel are numbered without gaps: from its
    creation, for any codec, through whatever frames it is given and whatever
    changes of the extension and requests for padding come in between, packet
    number [i] that goes to the pacer has sequence number [i + 1] modulo [2^16],
    the channel's SSRC and payload type, and parses back from its bytes to
    itself; those of a frame share one timestamp and fit into 1172 bytes, the
    first is marked as the first and the last has the RTP marker.  The packets of
    padding are numbered in the same way on the stream for retransmissions, or,
    without one, under the channel's own SSRC. *)
Theorem video_stream_numbered name ssrc rtx_ssrc pt rtx base ext (cs : list ChannelCall) :
  is_u32 ssrc -> is_u32 rtx_ssrc -> 0 < pt < 128 -> is_u32 base -> Forall call_fits cs ->
  exists padding s batches, channel_run cs (Initialize name ssrc rtx_ssrc pt rtx base ext) [] = Some (padding, s, batches) /\
    numbered ssrc pt 0 (media batches) /\ numbered (if rtx then rtx_ssrc else ssrc) (pt - 1) 0 padding /\
    Forall2 frame_of_batch batches (frame_times cs).
Proof.
  intros Hs Hr Hpt Hb Hcs. eapply (run_numbered ssrc (if rtx then rtx_ssrc else ssrc) pt) with (w := []); [..|exact Hcs]; try done.
  { by destruct rtx. }
  split; [by apply numbering_created|]. split; [apply numbering_created; [done|by destruct rtx]|exact Hb].
Qed.

(** A short frame, padding, a longer one: four packets, and two of padding. *)
Definition sample_calls : list ChannelCall :=
  [CallSendVideo [0; 0; 1; 65] true 1000; CallPadding 1200 2000; CallExtension (Some 3); CallSendVideo (replicate 2301 7) false 34333].

Lemma video_stream_numbered_witness :
  exists padding s batches, channel_run sample_calls (Initialize String.EmptyString 7 8 96 true 0 None) [] = Some (padding, s, batches) /\
    numbered 7 96 0 (media batches) /\ numbered 8 95 0 padding /\ Forall2 frame_of_batch batches (frame_times sample_calls).
Proof.
  apply (video_stream_numbered String.EmptyString 7 8 96 true 0 None sample_calls); try (unfold is_u32; lia).
  constructor; [|constructor; [by cbn|constructor; [done|constructor; [|constructor]]]].
  - split; [repeat (constructor; [unfold is_u8; lia|]); constructor|done].
  - split; [apply Forall_replicate; unfold is_u8; lia|done].
Defined.

Example sample_numbers :
  (fun '(padding, _, batches) => (map sequence_number_ (media batches), map sequence_number_ padding)) <$>
    channel_run sample_calls (Initialize String.EmptyString 7 8 96 true 0 None) [] = Some ([1; 2; 3; 4], [1; 2]).
Proof. vm_compute. reflexivity. Qed.
