(* ===== verification/NackPipeline.v ===== *)
(** * Requests for lost packets are answered, each once

    The transport's thread collects requests in a set, a task on the history's
    queue answers them, and a flag says whether that task is on its way
    ([OnReceiveNack] and [ProcessPendingNacks] of
    [src/transport/channel/video_channel_send.cpp]).  The threads meet between
    the sections that hold the lock: after the decision to post the task and
    before it is posted, between the answers, and before the task is posted
    again.  The step relation has a rule for each section. *)

From stdpp Require Import gmap.
From S2P Require Import Prelude Units RtpPacket RtpToSend RtpTimestamp Packetizer PacketHistory.
From S2P Require Import VideoSend.

(** What the worker of the task queue is in the middle of. *)
Inductive Worker :=
  | Waiting
  | Resending (ids : list Z)
  | Reposting.

Section pipeline.
Context {W : Type} {pacer_queue : PacerQueue W} {order : SetOrder}.

(** The sender, the threads that are about to post the task, the worker, and
    the pacer. *)
Record Pipeline := mkPipeline {
  sender : VideoChannelSend;
  posting : nat;
  worker : Worker;
  pacer : W;
}.

Definition with_sender (s : VideoChannelSend) (p : Pipeline) : Pipeline :=
  mkPipeline s (posting p) (worker p) (pacer p).

(** ** The worker

    One step: the requests it has answered, and the state. *)

(** src/transport/channel/video_channel_send.cpp:244-269 [VideoChannelSend::ProcessPendingNacks] *)
Definition worker_step (now : Z) (p : Pipeline) : option (list Z * Pipeline) :=
  let s := sender p in
  match worker p with
  | Waiting =>
      match tasks (task_queue_history_ s) with
      | [] => Some ([], p)
      | t :: rest =>
          let s := set_queue (mkTaskQueue rest (stop_ (task_queue_history_ s))) s in
          match t with
          | TaskNacks =>
              match take_nacks s with
              | (Some ids, s) => Some ([], mkPipeline s (posting p) (Resending ids) (pacer p))
              | (None, s) => Some ([], mkPipeline s (posting p) Waiting (pacer p))
              end
          | _ => s ← run_task now t s; Some ([], with_sender s p)
          end
      end
  | Resending (id :: ids) =>
      if history_shutdown_ s then Some ([], mkPipeline s (posting p) (Resending []) (pacer p)) else
      '(_, s, w) ← ReSendPacket now id s (pacer p);
      Some ([id], mkPipeline s (posting p) (Resending ids) w)
  | Resending [] =>
      let '(reschedule, s) := nacks_left s in
      Some ([], mkPipeline s (posting p) (if reschedule : bool then Reposting else Waiting) (pacer p))
  | Reposting => Some ([], mkPipeline (schedule_nacks s) (posting p) Waiting (pacer p))
  end.

Fixpoint worker_run (n : nat) (now : nat -> Z) (p : Pipeline) : option (list Z * Pipeline) :=
  match n with
  | O => Some ([], p)
  | S n =>
      '(ids, p) ← worker_step (now O) p;
      '(ids', p) ← worker_run n (fun i => now (S i)) p;
      Some (ids ++ ids', p)
  end.

(** ** The other threads *)

(** A packet that a packetizer made: the frame it serializes has no padding. *)
Definition media (p : RtpPacketToSend) : Prop :=
  exists f q, rtp_packet p = built f q /\ frame_ok f /\ f_padding f = None /\ zlen (encode f) < 65536.

(** What the pacer reports: an answer to a request, padding, or media. *)
Definition sendable (p : RtpPacketToSend) : Prop :=
  match retransmitted_sequence_number_ p with
  | Some seq => is_u16 seq
  | None => packet_type_ p = Some kPadding /\ payload_type_ (rtp_packet p) = payload_type_value H264 - 1 \/
            media p
  end.

Inductive step : Pipeline -> Pipeline -> Prop :=
  | StepNack ids p : Forall is_u16 ids ->
      step p (let '(schedule, s) := nacks_received ids (sender p) in
              mkPipeline s (if schedule : bool then S (posting p) else posting p) (worker p) (pacer p))
  | StepPost n p : posting p = S n ->
      step p (mkPipeline (schedule_nacks (sender p)) n (worker p) (pacer p))
  | StepWorker now ids p p' : worker_step now p = Some (ids, p') -> step p p'
  | StepSent now offset packet p : sendable packet ->
      step p (with_sender (OnSentRtpPacket now offset packet (sender p)).2 p)
  | StepFailed packet p : sendable packet ->
      step p (with_sender (OnRtpPacketSendFailed packet (sender p)) p)
  | StepRtt rtt p : step p (with_sender (VsOnRttUpdate rtt (sender p)) p)
  | StepShutdown p : step p (with_sender (set_shutdown true (sender p)) p)
  | StepForget p : history_shutdown_ (sender p) = true ->
      step p (with_sender (set_nacks ∅ false (sender p)) p)
  | StepClear p : history_shutdown_ (sender p) = true ->
      step p (with_sender (set_queue (ClearTasks (task_queue_history_ (sender p))) (sender p)) p)
  | StepStop p : history_shutdown_ (sender p) = true ->
      step p (with_sender (set_queue (StopQueue (task_queue_history_ (sender p))) (sender p)) p).

(** ** The invariant *)

Definition is_nack_task (t : HistoryTask) : bool := match t with TaskNacks => true | _ => false end.

Definition nack_tasks (q : TaskQueue) : nat := length (List.filter is_nack_task (tasks q)).

(** The requests on their way that are not being answered yet. *)
Definition underway (p : Pipeline) : nat :=
  (posting p + nack_tasks (task_queue_history_ (sender p)) +
   match worker p with Reposting => 1 | _ => 0 end)%nat.

Definition answering (p : Pipeline) : nat := match worker p with Resending _ => 1 | _ => 0 end.

Definition task_ok (t : HistoryTask) : Prop :=
  match t with TaskSent p => sendable p | TaskPut p => media p | TaskAborted seq => is_u16 seq | _ => True end.

Definition stored_ok (h : RtpPacketHistory) : Prop :=
  forall seq s p, abs h !! seq = Some s -> packet_ s = Some p -> media p.

(** The flag says exactly whether the task is on its way, which it is whenever
    requests wait. *)
Definition flag_true (p : Pipeline) : Prop :=
  let s := sender p in
  stop_ (task_queue_history_ s) = false /\
  Nat.b2n (nack_task_scheduled_ s) = (underway p + answering p)%nat /\
  (pending_nack_sequence_numbers_ s <> ∅ -> nack_task_scheduled_ s = true) /\
  ((0 < underway p)%nat -> pending_nack_sequence_numbers_ s <> ∅).

Record pipeline_ok (p : Pipeline) : Prop := {
  ok_history : hist_ok (rtp_packet_history_ (sender p));
  ok_stored : stored_ok (rtp_packet_history_ (sender p));
  ok_rtx : is_u32 (vs_rtx_ssrc_ (sender p));
  ok_tasks : Forall task_ok (tasks (task_queue_history_ (sender p)));
  ok_waiting : set_Forall is_u16 (pending_nack_sequence_numbers_ (sender p));
  ok_size : Z.of_nat (size (pending_nack_sequence_numbers_ (sender p))) <= kMaxCapacity;
  ok_worker : match worker p with Resending ids => Forall is_u16 ids | _ => True end;
  ok_flag : history_shutdown_ (sender p) = false -> flag_true p;
}.

(** ** Lemmas: the history *)

Lemma media_seq p : media p -> is_u16 (SequenceNumber p).
Proof. intros (f & q & E & (_ & H & _) & _). unfold SequenceNumber. rewrite E. exact H. Qed.

(** The packet that carries a stored one again. *)
Definition rtx_of (rtx_ssrc : Z) (f : RtpFrame) (q : RtpPacket) (stored : RtpPacketToSend) : RtpPacketToSend :=
  mkToSend (built (rtx_frame (f_sequence_number f) (relabel 127 rtx_ssrc f))
              (set_payload_type_ 127 (set_payload_type_ 127 (set_ssrc_ rtx_ssrc (built f q)))))
    (capture_time_ stored) (packet_type_ stored)
    (original_packet_type_ stored) (Some (f_ssrc f)) (transport_sequence_number_ stored)
    (allow_retransmission_ stored) (Some (f_sequence_number f))
    (is_first_packet_of_frame_ stored) (is_key_frame_ stored) (fec_protect_packet_ stored)
    (is_red_ stored) (send_as_ect1_ stored) (time_in_send_queue_ stored) (stream_name_ stored).

Lemma encapsulate_built rtx_ssrc stored f q :
  is_u32 rtx_ssrc -> rtp_packet stored = built f q -> frame_ok f -> f_padding f = None -> zlen (encode f) < 65536 ->
  encapsulate_rtx rtx_ssrc stored = Some (zlen (encode f), Some (rtx_of rtx_ssrc f q stored)).
Proof.
  intros Hr E Hf Hp Hz. unfold encapsulate_rtx, SequenceNumber, Ssrc. rewrite E. pose proof Hf as (_ & Hs & _).
  change (sequence_number_ (built f q)) with (f_sequence_number f).
  change (ssrc_ (built f q)) with (f_ssrc f). change (size_ (built f q)) with (zlen (encode f)).
  rewrite BuildRtxPacket_relabel by (done || (cbn; lia)). cbn [mbind option_bind].
  unfold rtx_of. do 2 f_equal. unfold s32. pose proof (zlen_nonneg (encode f)). rewrite Z.mod_small by lia. lia.
Qed.

Lemma BuildRtx_total rtx_ssrc stored :
  is_u32 rtx_ssrc -> media stored -> is_Some (encapsulate_rtx rtx_ssrc stored).
Proof.
  intros Hr (f & q & E & Hf & Hp & Hz). rewrite (encapsulate_built rtx_ssrc stored f q) by done. by eexists.
Qed.

Lemma stored_alter (g : StoredPacket -> StoredPacket) k h h' :
  (forall s, packet_ (g s) = packet_ s) -> stored_ok h ->
  abs h' = alter g k (abs h) -> stored_ok h'.
Proof.
  intros Hg H E seq s p Hs Hp. rewrite E in Hs.
  apply lookup_alter_Some in Hs as [(<- & s' & Hs & ->)|[_ Hs]].
  - rewrite Hg in Hp. by apply (H k s').
  - by apply (H seq s).
Qed.

Lemma stored_subset h h' : stored_ok h -> abs h' ⊆ abs h -> stored_ok h'.
Proof. intros H E seq s p Hs Hp. apply (H seq s p); [|done]. by apply (lookup_weaken _ _ _ _ Hs E). Qed.

Lemma Put_stored now p st h :
  hist_ok h -> stored_ok h -> media p ->
  exists h', PutRtpPacket now p st h = Some h' /\ hist_ok h' /\ stored_ok h'.
Proof.
  intros Hh Hs Hp. destruct (PutRtpPacket_abs now p st h Hh (media_seq p Hp)) as (h' & -> & Hh' & _ & E & _).
  exists h'. split_and!; [done|done|]. intros seq s q Hl Hq. apply (lookup_weaken _ _ _ _ Hl) in E.
  apply lookup_insert_Some in E as [[_ <-]|[_ E]].
  - by injection Hq as <-.
  - by apply (Hs seq s).
Qed.

Lemma SetRtt_stored now rtt h :
  hist_ok h -> stored_ok h -> exists h', SetRtt now rtt h = Some h' /\ hist_ok h' /\ stored_ok h'.
Proof.
  intros Hh Hs. unfold SetRtt.
  destruct (remove_dead_abs now (mkHistory (packet_history_ h) rtt (number_to_store_ h)))
    as (k & -> & Hh' & _); [apply Hh|].
  eexists. split_and!; [done|done|]. intros seq s q Hl Hq. apply (Hs seq s q); [|done].
  apply (abs_spec _ seq s Hh') in Hl. apply (abs_spec _ seq s Hh). exact (stores_drop _ _ _ _ Hl).
Qed.

Lemma Sent_stored now seq h :
  hist_ok h -> stored_ok h -> is_u16 seq ->
  exists h', MarkPacketAsSent now seq h = Some h' /\ hist_ok h' /\ stored_ok h'.
Proof.
  intros Hh Hs Hq. destruct (MarkPacketAsSent_abs now seq h Hh Hq) as (h' & -> & Hh' & _ & E).
  exists h'. split_and!; [done|done|]. by apply (stored_alter (sent_state now) seq h).
Qed.

Lemma Aborted_stored seq h :
  hist_ok h -> stored_ok h -> is_u16 seq ->
  exists h', MarkPacketAsAborted seq h = Some h' /\ hist_ok h' /\ stored_ok h'.
Proof.
  intros Hh Hs Hq. destruct (MarkPacketAsAborted_abs seq h Hh Hq) as (h' & -> & Hh' & _ & E).
  exists h'. split_and!; [done|done|]. by apply (stored_alter aborted_state seq h).
Qed.

Lemma run_task_ok now t s :
  hist_ok (rtp_packet_history_ s) -> stored_ok (rtp_packet_history_ s) -> task_ok t ->
  exists h', run_task now t s = Some (set_history h' s) /\ hist_ok h' /\ stored_ok h'.
Proof.
  intros Hh Hs Ht.
  assert (exists h', Some s = Some (set_history h' s) /\ hist_ok h' /\ stored_ok h') as Hsame
    by (exists (rtp_packet_history_ s); split_and!; [by destruct s|done|done]).
  destruct t as [p|p|seq|rtt|]; cbn [run_task task_ok] in *; [| | | |done].
  - unfold sendable in Ht. destruct (retransmitted_sequence_number_ p) as [seq|].
    + destruct (Sent_stored now seq _ Hh Hs Ht) as (h' & -> & H). by exists h'.
    + destruct (Z.eqb_spec (payload_type_ (rtp_packet p)) (payload_type_value H264 - 1)) as [|Hne]; [done|].
      destruct Ht as [[_ Ht]|Ht]; [done|]. cbn [negb].
      destruct (Put_stored now p now _ Hh Hs Ht) as (h' & -> & H). by exists h'.
  - destruct (Put_stored now p now _ Hh Hs Ht) as (h' & -> & H). by exists h'.
  - destruct (Aborted_stored seq _ Hh Hs Ht) as (h' & -> & H). by exists h'.
  - destruct (history_shutdown_ s); [done|].
    destruct (SetRtt_stored now (rtt * 1000) _ Hh Hs) as (h' & -> & H). by exists h'.
Qed.

Lemma ReSendPacket_ok now id s (w : W) :
  hist_ok (rtp_packet_history_ s) -> stored_ok (rtp_packet_history_ s) ->
  is_u32 (vs_rtx_ssrc_ s) -> is_u16 id ->
  exists z h' w', ReSendPacket now id s w = Some (z, set_history h' s, w') /\ hist_ok h' /\ stored_ok h'.
Proof.
  intros Hh Hs Hr Hq. unfold ReSendPacket.
  destruct (rtx_enabled_ s) eqn:Ert; cbn [negb];
    [|exists (-1), (rtp_packet_history_ s), w; split_and!; [by destruct s|done|done]].
  destruct (GetPacketAndEncapsulate_abs now id (encapsulate_rtx (vs_rtx_ssrc_ s)) _ Hh Hq)
    as (a & r & h' & -> & Hh' & _ & Hm).
  { intros t p Ht Hp. apply BuildRtx_total; [done|]. by apply (Hs id t p). }
  assert (stored_ok h') as Hs'.
  { destruct (abs (rtp_packet_history_ s) !! id) as [t|].
    - destruct Hm as (p & _ & _ & _ & E). destruct r; [|by apply (stored_subset _ _ Hs); rewrite E].
      by apply (stored_alter pending_state id (rtp_packet_history_ s)).
    - destruct Hm as (_ & _ & E). by apply (stored_subset _ _ Hs); rewrite E. }
  cbn [mbind option_bind]. destruct (default 0 a =? 0); [by exists 0, h', w|].
  destruct r as [e|]; [|by exists (-1), h', w].
  destruct (enqueue_rtp_packet _ w) as [z w']. destruct (z <? 0); [|by exists z, h', w'].
  destruct (Aborted_stored id h' Hh' Hs' Hq) as (h'' & E & Hh'' & Hs'').
  change (rtp_packet_history_ (set_history h' s)) with h'. rewrite E. by exists z, h'', w'.
Qed.

(** ** Lemmas: the steps *)

Lemma insert_nacks_spec ids : forall n,
  Forall is_u16 ids -> set_Forall is_u16 n -> Z.of_nat (size n) <= kMaxCapacity ->
  n ⊆ insert_nacks ids n /\ set_Forall is_u16 (insert_nacks ids n) /\
  Z.of_nat (size (insert_nacks ids n)) <= kMaxCapacity.
Proof.
  induction ids as [|id ids IH]; intros n Hi Hn Hz; cbn [insert_nacks]; [done|].
  apply Forall_cons_1 in Hi as [Hi His].
  destruct (Z.leb_spec kMaxCapacity (Z.of_nat (size n))) as [|Hlt]; [done|].
  destruct (IH ({[id]} ∪ n) His) as (H1 & H2 & H3).
  - intros x [->%elem_of_singleton|Hx]%elem_of_union; [done|by apply Hn].
  - destruct (decide (id ∈ n)) as [Hin|Hin].
    + rewrite subseteq_union_1_L by (by apply singleton_subseteq_l). lia.
    + rewrite size_union by (by apply disjoint_singleton_l). rewrite size_singleton. lia.
  - split_and!; [set_solver +H1|done|done].
Qed.

Lemma taken_u16 n : set_Forall is_u16 n -> Forall is_u16 (take kMaxNacksPerTask (set_order n)).
Proof.
  intros H. apply Forall_take. apply list.Forall_forall. intros x Hx. apply H.
  rewrite set_order_perm in Hx. by apply elem_of_elements.
Qed.

Lemma size_diff (n : gset Z) l : (size (n ∖ list_to_set l : gset Z) <= size n)%nat.
Proof. by apply subseteq_size, subseteq_difference_l. Qed.

Lemma nack_tasks_app l l' : length (List.filter is_nack_task (l ++ l')) =
  (length (List.filter is_nack_task l) + length (List.filter is_nack_task l'))%nat.
Proof. by rewrite List.filter_app, length_app. Qed.

(** The flag when the sections of the code change it. *)
Ltac flag_solve :=
  intros _; unfold flag_true, underway, answering, nack_tasks in *;
  cbn [negb andb snd sender posting worker pacer with_sender set_nacks set_queue set_history task_queue_history_
    pending_nack_sequence_numbers_ nack_task_scheduled_ tasks stop_ rtp_packet_history_] in *;
  rewrite ?nack_tasks_app in *; cbn [List.filter is_nack_task length Nat.b2n] in *;
  split_and!; intros; try done; try lia.

Lemma nacks_received_ok ids p :
  Forall is_u16 ids -> pipeline_ok p ->
  pipeline_ok (let '(schedule, s) := nacks_received ids (sender p) in
     mkPipeline s (if schedule : bool then S (posting p) else posting p) (worker p) (pacer p)).
Proof.
  intros Hi Hp. destruct (Hp) as [H1 H2 H3 H4 H5 H6 H7 H8].
  destruct (insert_nacks_spec ids _ Hi H5 H6) as (Hn & Hu & Hz).
  unfold nacks_received. set (n := insert_nacks _ _) in *.
  destruct (negb _ || _ || history_shutdown_ (sender p)) eqn:E; [by split|].
  apply orb_false_iff in E as [_ E]. specialize (H8 E). destruct H8 as (Hstop & Hf & Hw & Hu').
  destruct (nack_task_scheduled_ (sender p)) eqn:Es; cbn [negb andb].
  - split; try done. flag_solve. unfold underway, nack_tasks in Hu'. set_solver.
  - cbn [Nat.b2n] in Hf. destruct (decide (n = ∅)) as [En|En].
    + rewrite bool_decide_eq_true_2 by done. split; try done. flag_solve.
    + rewrite bool_decide_eq_false_2 by done. split; try done. flag_solve.
Qed.

Lemma schedule_nacks_ok (n : nat) (k : Worker) p :
  (posting p = S n /\ k = worker p) \/ (worker p = Reposting /\ k = Waiting /\ n = posting p) ->
  pipeline_ok p -> pipeline_ok (mkPipeline (schedule_nacks (sender p)) n k (pacer p)).
Proof.
  intros Hk [H1 H2 H3 H4 H5 H6 H7 H8]. unfold schedule_nacks, PostTask.
  assert (match k with Resending ids => Forall is_u16 ids | _ => True end) as Hkw
    by (destruct Hk as [[_ ->]|(_ & -> & _)]; done).
  destruct (stop_ (task_queue_history_ (sender p))) eqn:E.
  - split; try done. intros Hs. destruct (H8 Hs) as (Hstop & _). congruence.
  - split; try done; [apply Forall_app; split; [done|by repeat constructor]|].
    intros Hs. destruct (H8 Hs) as (Hstop & Hf & Hw & Hu).
    destruct Hk as [[Hn ->]|(Hn & -> & ->)]; revert Hs; flag_solve; rewrite Hn in *; lia || auto with lia.
Qed.

(** The flag as it stands, with the parts of [underway] and [answering]. *)
Ltac flag_known H8 :=
  let Hstop := fresh "Hstop" in let Hf := fresh "Hf" in let Hw := fresh "Hw" in let Hu := fresh "Hu" in
  destruct H8 as (Hstop & Hf & Hw & Hu); [done|];
  unfold underway, answering, nack_tasks in Hf, Hu.

Lemma take_nacks_ok p rest :
  pipeline_ok p -> worker p = Waiting -> tasks (task_queue_history_ (sender p)) = TaskNacks :: rest ->
  let '(ids, s) := take_nacks (set_queue (mkTaskQueue rest (stop_ (task_queue_history_ (sender p)))) (sender p)) in
  pipeline_ok (mkPipeline s (posting p) (match ids with Some ids => Resending ids | None => Waiting end) (pacer p)).
Proof.
  intros [H1 H2 H3 H4 H5 H6 H7 H8] Ew Et. rewrite Et in H4. apply Forall_cons_1 in H4 as [_ Hrest].
  unfold take_nacks. destruct (history_shutdown_ _) eqn:Es; cbn in Es.
  { split; try done. cbn. congruence. }
  split; try done.
  - intros x Hx. apply H5. apply elem_of_difference in Hx. apply Hx.
  - etrans; [apply inj_le, size_diff | exact H6].
  - by apply taken_u16.
  - flag_known H8. rewrite Et, Ew in Hf, Hu. cbn [List.filter is_nack_task length] in Hf, Hu.
    destruct (nack_task_scheduled_ (sender p)) eqn:Hsch; [|cbn in Hf; lia].
    flag_solve. rewrite Hsch. cbn [Nat.b2n]. lia.
Qed.

Lemma other_task_ok now t p rest :
  pipeline_ok p -> worker p = Waiting -> tasks (task_queue_history_ (sender p)) = t :: rest ->
  is_nack_task t = false ->
  exists s, run_task now t (set_queue (mkTaskQueue rest (stop_ (task_queue_history_ (sender p)))) (sender p)) = Some s /\
    pipeline_ok (with_sender s p).
Proof.
  intros [H1 H2 H3 H4 H5 H6 H7 H8] Ew Et En. rewrite Et in H4. apply Forall_cons_1 in H4 as [Ht Hrest].
  destruct (run_task_ok now t (set_queue (mkTaskQueue rest (stop_ (task_queue_history_ (sender p)))) (sender p)))
    as (h' & Er & Hh' & Hs'); [done..|].
  eexists. split; [exact Er|]. split; try done.
  intros Es. cbn in Es. flag_known H8. rewrite Et in Hf, Hu. cbn [List.filter] in Hf, Hu.
  rewrite En in Hf, Hu. revert Es. flag_solve; tauto.
Qed.

Lemma nacks_left_ok p :
  pipeline_ok p -> worker p = Resending [] ->
  let '(reschedule, s) := nacks_left (sender p) in
  pipeline_ok (mkPipeline s (posting p) (if reschedule : bool then Reposting else Waiting) (pacer p)).
Proof.
  intros [H1 H2 H3 H4 H5 H6 H7 H8] Ew. unfold nacks_left.
  destruct (history_shutdown_ (sender p)) eqn:Es; cbn [orb].
  { split; try done. cbn. congruence. }
  flag_known H8. rewrite Ew in Hf, Hu.
  destruct (decide (pending_nack_sequence_numbers_ (sender p) = ∅)) as [En|En].
  - rewrite bool_decide_eq_true_2 by done. split; try done.
    destruct (nack_task_scheduled_ (sender p)) eqn:Hsch; [|cbn in Hf; lia]. flag_solve.
  - rewrite bool_decide_eq_false_2 by done. split; try done. flag_solve; tauto.
Qed.

Lemma resend_step_ok now p id ids :
  pipeline_ok p -> worker p = Resending (id :: ids) -> history_shutdown_ (sender p) = false ->
  exists z s w, ReSendPacket now id (sender p) (pacer p) = Some (z, s, w) /\
    pipeline_ok (mkPipeline s (posting p) (Resending ids) w).
Proof.
  intros [H1 H2 H3 H4 H5 H6 H7 H8] Ew Es. rewrite Ew in H7. apply Forall_cons_1 in H7 as [Hid Hids].
  destruct (ReSendPacket_ok now id (sender p) (pacer p) H1 H2 H3 Hid) as (z & h' & w' & E & Hh' & Hs').
  do 3 eexists. split; [exact E|]. split; try done.
  flag_known H8. rewrite Ew in Hf, Hu. flag_solve; tauto.
Qed.

Lemma worker_step_ok now p :
  pipeline_ok p -> exists ids p', worker_step now p = Some (ids, p') /\ pipeline_ok p'.
Proof.
  intros Hp. unfold worker_step. destruct (worker p) as [|[|id ids]|] eqn:Ew.
  - destruct (tasks (task_queue_history_ (sender p))) as [|t rest] eqn:Et; [by eauto|].
    destruct (is_nack_task t) eqn:En.
    + destruct t; try done. pose proof (take_nacks_ok p rest Hp Ew Et) as H.
      destruct (take_nacks _) as [[ids|] s]; eauto.
    + destruct (other_task_ok now t p rest Hp Ew Et En) as (s & Er & H).
      destruct t; try done; rewrite Er; eauto.
  - pose proof (nacks_left_ok p Hp Ew) as H. destruct (nacks_left _); eauto.
  - destruct (history_shutdown_ (sender p)) eqn:Es.
    + do 2 eexists. split; [done|]. destruct Hp. split; try done; [by constructor|].
      cbn. congruence.
    + destruct (resend_step_ok now p id ids Hp Ew Es) as (z & s & w & -> & H). cbn [mbind option_bind]. eauto.
  - do 2 eexists. split; [done|]. apply schedule_nacks_ok; [|done]. by right.
Qed.

(** Posting a task that is not the answering of requests. *)
Lemma post_ok t p :
  task_ok t -> is_nack_task t = false -> pipeline_ok p -> pipeline_ok (with_sender (post t (sender p)) p).
Proof.
  intros Ht En [H1 H2 H3 H4 H5 H6 H7 H8]. unfold post, PostTask.
  destruct (stop_ (task_queue_history_ (sender p))) eqn:Es.
  - by split.
  - split; try done; [apply Forall_app; split; [done|by repeat constructor]|].
    intros Hs. cbn in Hs. flag_known H8. revert Hs. cbn [List.filter] in *. flag_solve; rewrite ?En in *; cbn [length] in *; try tauto; try lia.
    apply Hu. lia.
Qed.

(** The counters of the sender reports are no concern of this pipeline. *)
Lemma report_ok now offset packet p :
  pipeline_ok p -> pipeline_ok (with_sender (MaybeSendSenderReport now offset packet (sender p)).2 p).
Proof.
  intros [H1 H2 H3 H4 H5 H6 H7 H8]. unfold MaybeSendSenderReport.
  destruct (_ || _ || _); [by split|]. destruct (_ && _); by split.
Qed.

Lemma closed_ok s p :
  pipeline_ok p -> history_shutdown_ s = true ->
  rtp_packet_history_ s = rtp_packet_history_ (sender p) -> vs_rtx_ssrc_ s = vs_rtx_ssrc_ (sender p) ->
  Forall task_ok (tasks (task_queue_history_ s)) ->
  pending_nack_sequence_numbers_ s ⊆ pending_nack_sequence_numbers_ (sender p) ->
  pipeline_ok (with_sender s p).
Proof.
  intros [H1 H2 H3 H4 H5 H6 H7 H8] Hs Eh Er Ht Hn.
  split; cbn [with_sender sender posting worker pacer]; rewrite ?Eh, ?Er; try done.
  - intros x Hx. by apply H5, Hn.
  - etrans; [apply inj_le, subseteq_size, Hn|done].
  - congruence.
Qed.

Lemma step_ok p p' : pipeline_ok p -> step p p' -> pipeline_ok p'.
Proof.
  intros Hp Hs. destruct Hs as [ids p Hids|n p Hn|now ids p p' Hw|now offset packet p Hq|packet p Hq|rtt p|p|p Hs|p Hs|p Hs].
  - by apply nacks_received_ok.
  - apply schedule_nacks_ok; [by left|done].
  - destruct (worker_step_ok now p Hp) as (ids' & p'' & E & H). rewrite Hw in E. by injection E as <- <-.
  - unfold OnSentRtpPacket. pose proof (report_ok now offset packet p Hp) as Hr.
    destruct (MaybeSendSenderReport now offset packet (sender p)) as [report s]. cbn [snd] in *.
    destruct (history_shutdown_ s); [done|].
    exact (post_ok (TaskSent packet) (with_sender s p) Hq eq_refl Hr).
  - unfold OnRtpPacketSendFailed. destruct (history_shutdown_ _); [by destruct p|].
    unfold sendable in Hq. destruct (retransmitted_sequence_number_ packet); [by apply post_ok|].
    case_bool_decide as Ev; [|by destruct p]. apply post_ok; [|done|done].
    destruct Hq as [[Hq _]|Hq]; [congruence|done].
  - unfold VsOnRttUpdate. destruct (_ || _); [by destruct p|]. by apply post_ok.
  - apply closed_ok; try done. apply Hp.
  - apply closed_ok; try done. apply Hp.
  - by apply closed_ok.
  - apply closed_ok; try done. apply Hp.
Qed.

(** ** Lemmas: the worker on its own *)

(** The requests that are not answered yet. *)
Definition requests (p : Pipeline) : list Z :=
  match worker p with Resending ids => ids | _ => [] end ++ elements (pending_nack_sequence_numbers_ (sender p)).

(** A bound on the steps until the worker has nothing to do. *)
Definition effort (p : Pipeline) : nat :=
  (length (tasks (task_queue_history_ (sender p))) + 4 * size (pending_nack_sequence_numbers_ (sender p)) +
   match worker p with Waiting => 0 | Resending ids => 3 + length ids | Reposting => 2 end)%nat.

Definition idle (p : Pipeline) : Prop :=
  worker p = Waiting /\ tasks (task_queue_history_ (sender p)) = [].

Lemma taken_split n k :
  take k (set_order n) ++ elements (n ∖ list_to_set (take k (set_order n)) : gset Z) ≡ₚ elements n.
Proof.
  assert (NoDup (set_order n)) as Hnd by (rewrite set_order_perm; apply NoDup_elements).
  rewrite <- (take_drop k (set_order n)) in Hnd. apply list.NoDup_app in Hnd as (Ht & _ & _).
  etrans; [apply Permutation_app_tail; symmetry; exact (elements_list_to_set (C := gset Z) _ Ht)|].
  rewrite <- elements_disj_union by (by apply disjoint_difference_r1).
  apply elements_proper. intros x. rewrite elem_of_union, elem_of_difference, elem_of_list_to_set.
  destruct (decide (x ∈ take k (set_order n))) as [Hx|Hx]; [|tauto].
  split; [intros _|tauto]. apply elem_of_elements. rewrite <- set_order_perm.
  by apply (subseteq_take k).
Qed.

Lemma taken_size n k :
  (size (n ∖ list_to_set (take k (set_order n)) : gset Z) + length (take k (set_order n)) = size n)%nat.
Proof.
  pose proof (Permutation_length (taken_split n k)) as E. rewrite length_app in E.
  change (length (elements ?x)) with (size x) in E. rewrite Nat.add_comm. exact E.
Qed.

Lemma taken_some n : n <> ∅ -> (1 <= length (take kMaxNacksPerTask (set_order n)))%nat.
Proof.
  intros Hn. rewrite length_take, set_order_perm. change (length (elements n)) with (size n).
  pose proof (size_non_empty_iff n) as [_ H]. unfold kMaxNacksPerTask. specialize (H ltac:(set_solver)). lia.
Qed.

Definition progress (p : Pipeline) (ids : list Z) (p' : Pipeline) : Prop :=
  history_shutdown_ (sender p') = false /\ posting p' = posting p /\
  requests p ≡ₚ ids ++ requests p' /\ (p' = p /\ idle p \/ (effort p' < effort p)%nat).

Lemma ReSendPacket_keeps now id s (w : W) z s' w' :
  ReSendPacket now id s w = Some (z, s', w') -> exists h, s' = set_history h s.
Proof.
  unfold ReSendPacket. destruct (negb _); [intros E; injection E as _ <- _; exists (rtp_packet_history_ s); by destruct s|].
  destruct (GetPacketAndEncapsulate _ _ _ _) as [[[a r] h]|]; cbn [mbind option_bind]; [|done].
  destruct (_ =? 0); [intros E; injection E as _ <- _; by exists h|].
  destruct r as [e|]; [|intros E; injection E as _ <- _; by exists h].
  destruct (enqueue_rtp_packet _ w) as [z0 w0].
  destruct (z0 <? 0); [|intros E; injection E as _ <- _; by exists h].
  destruct (MarkPacketAsAborted _ _) as [h'|]; cbn [mbind option_bind]; [|done].
  intros E. injection E as _ <- _. by exists h'.
Qed.

Lemma run_task_keeps now t s s' : run_task now t s = Some s' -> exists h, s' = set_history h s.
Proof.
  assert (exists h, s = set_history h s) as Hsame by (exists (rtp_packet_history_ s); by destruct s).
  destruct t as [p|p|seq|rtt|]; cbn [run_task].
  - destruct (retransmitted_sequence_number_ p); [|destruct (negb _)];
      try (destruct (_ now _ (rtp_packet_history_ s)) as [h|]; cbn [mbind option_bind]; [|done]);
      try (destruct (_ now _ now (rtp_packet_history_ s)) as [h|]; cbn [mbind option_bind]; [|done]);
      intros E; injection E as <-; eauto.
  - destruct (PutRtpPacket _ _ _ _) as [h|]; cbn [mbind option_bind]; [|done]. intros E. injection E as <-. eauto.
  - destruct (MarkPacketAsAborted _ _) as [h|]; cbn [mbind option_bind]; [|done]. intros E. injection E as <-. eauto.
  - destruct (history_shutdown_ s); [intros E; by injection E as <-|].
    destruct (SetRtt _ _ _) as [h|]; cbn [mbind option_bind]; [|done]. intros E. injection E as <-. eauto.
  - intros E. by injection E as <-.
Qed.

Lemma worker_progress now p ids p' :
  pipeline_ok p -> history_shutdown_ (sender p) = false -> worker_step now p = Some (ids, p') ->
  progress p ids p'.
Proof.
  intros Hp Ho. destruct (ok_flag p Hp Ho) as (Hstop & Hf & Hw & Hu). unfold underway, nack_tasks in Hu.
  unfold worker_step, progress, requests, effort, idle.
  destruct (worker p) as [|[|id ids0]|] eqn:Ew.
  - destruct (tasks (task_queue_history_ (sender p))) as [|t rest] eqn:Et.
    { intros E. injection E as <- <-. rewrite Ew, Et. split_and!; try done. by left. }
    destruct (is_nack_task t) eqn:En.
    + destruct t; try done. unfold take_nacks. cbn [set_queue history_shutdown_]. rewrite Ho.
      intros E. injection E as <- <-. cbn -[size]. split_and!; [done|done| |right].
      * symmetry. apply taken_split.
      * pose proof (taken_size (pending_nack_sequence_numbers_ (sender p)) kMaxNacksPerTask) as Hz.
        pose proof (taken_some _ (Hu ltac:(cbn; lia))) as Hs. unfold kMaxNacksPerTask in *. lia.
    + intros E.
      assert (run_task now t (set_queue (mkTaskQueue rest (stop_ (task_queue_history_ (sender p)))) (sender p)) =
        Some (sender p') /\ ids = [] /\ p' = with_sender (sender p') p) as (Er & -> & ->).
      { destruct t; try done; (destruct (run_task _ _ _); [by injection E as <- <-|done]). }
      destruct (run_task_keeps _ _ _ _ Er) as (h & ->). cbn -[size]. rewrite Ew.
      split_and!; [done|done|done|right; lia].
  - unfold nacks_left. rewrite Ho. cbn [orb]. case_bool_decide as Hn; intros E; injection E as <- <-;
      cbn -[size]; rewrite ?Hn; split_and!; try done; right; lia.
  - rewrite Ho. destruct (ReSendPacket now id (sender p) (pacer p)) as [[[z s] w]|] eqn:Er; [|done].
    cbn [mbind option_bind]. intros E. injection E as <- <-.
    destruct (ReSendPacket_keeps _ _ _ _ _ _ _ Er) as (h & ->).
    cbn -[size]. split_and!; [done|done|done|right; lia].
  - intros E. injection E as <- <-. unfold schedule_nacks, PostTask. rewrite Hstop. cbn -[size].
    rewrite length_app. cbn [length]. split_and!; [done|done|done|right; lia].
Qed.

Lemma idle_done p :
  pipeline_ok p -> history_shutdown_ (sender p) = false -> posting p = O -> idle p ->
  pending_nack_sequence_numbers_ (sender p) = ∅ /\ nack_task_scheduled_ (sender p) = false.
Proof.
  intros Hp Ho Hpost [Hi Ht]. destruct (ok_flag p Hp Ho) as (_ & Hf & Hw & _).
  unfold underway, answering, nack_tasks in Hf. rewrite Hpost, Hi, Ht in Hf. cbn in Hf.
  destruct (nack_task_scheduled_ (sender p)); [done|]. split; [|done].
  destruct (decide (pending_nack_sequence_numbers_ (sender p) = ∅)) as [|Hn]; [done|].
  by specialize (Hw Hn).
Qed.

Lemma worker_drains n : forall now p,
  pipeline_ok p -> history_shutdown_ (sender p) = false -> posting p = O -> (effort p <= n)%nat ->
  exists log p', worker_run n now p = Some (log, p') /\ requests p ≡ₚ log /\ idle p' /\
    pending_nack_sequence_numbers_ (sender p') = ∅ /\ nack_task_scheduled_ (sender p') = false.
Proof.
  induction n as [|n IH]; intros now p Hp Ho Hpost He.
  - assert (idle p) as Hi.
    { unfold effort in He. split; [destruct (worker p); lia || done|].
      destruct (tasks _); [done|cbn in He; lia]. }
    destruct (idle_done p Hp Ho Hpost Hi) as [Hn Hs].
    exists [], p. split_and!; try done. unfold requests. destruct Hi as [-> _]. by rewrite Hn.
  - destruct (worker_step_ok (now O) p Hp) as (ids & p1 & E & Hp1).
    destruct (worker_progress _ _ _ _ Hp Ho E) as (Ho1 & Hpost1 & Hreq & Hdec).
    destruct (IH (fun i => now (S i)) p1 Hp1 Ho1) as (log & p' & E' & Hreq' & H'); [congruence| |].
    + destruct Hdec as [[-> Hi]|Hdec]; [|lia].
      destruct (idle_done p Hp Ho Hpost Hi) as [Hn _]. unfold effort. destruct Hi as [-> ->].
      rewrite Hn, size_empty. cbn. lia.
    + exists (ids ++ log), p'. cbn [worker_run]. rewrite E. cbn [mbind option_bind]. rewrite E'.
      split_and!; [done| |apply H'..]. by rewrite Hreq, Hreq'.
Qed.

(** ** Properties *)

(** A channel that was set up and has not sent anything. *)
Definition initial (name : String.string) (ssrc rtx_ssrc payload_type : Z) (rtx_enabled : bool) (base_timestamp : Z)
    (ext : option Z) (w : W) : Pipeline :=
  mkPipeline (Initialize name ssrc rtx_ssrc payload_type rtx_enabled base_timestamp ext) O Waiting w.

Definition reachable (p : Pipeline) : Prop :=
  exists name ssrc rtx_ssrc payload_type rtx_enabled base ext w, is_u32 rtx_ssrc /\
    rtc step (initial name ssrc rtx_ssrc payload_type rtx_enabled base ext w) p.

Lemma reachable_ok p : reachable p -> pipeline_ok p.
Proof.
  intros (name & ssrc & rtx_ssrc & pt & rtx & base & ext & w & Hr & Hs).
  assert (pipeline_ok (initial name ssrc rtx_ssrc pt rtx base ext w)) as H0.
  { unfold initial, Initialize. split; cbn [sender posting worker pacer]; try done.
    - apply new_history_ok.
    - intros _. unfold flag_true, underway, answering, nack_tasks. cbn. split_and!; [done|done|done|lia]. }
  revert H0. generalize (initial name ssrc rtx_ssrc pt rtx base ext w), Hs. clear.
  intros p0 Hs. induction Hs as [|p0 p1 p2 Hs _ IH]; [done|]. intros H. by apply IH, (step_ok p0).
Qed.

(** C28. However the threads interleave — requests, sent and failed packets,
    round trip times, the worker of the task queue, a shutdown at any point —
    the worker never makes an access that the history does not allow, at most
    10001 requests wait, and until the channel shuts down the flag says exactly
    whether the answering of requests is on its way or going on: it is never on
    its way twice, and never forgotten while requests wait. *)
Theorem nack_pipeline_safe (p : Pipeline) :
  reachable p ->
  (forall now, is_Some (worker_step now p)) /\
  Z.of_nat (size (pending_nack_sequence_numbers_ (sender p))) <= kMaxCapacity /\
  (history_shutdown_ (sender p) = false ->
   Nat.b2n (nack_task_scheduled_ (sender p)) = (underway p + answering p)%nat /\
   (pending_nack_sequence_numbers_ (sender p) <> ∅ -> (underway p + answering p = 1)%nat)).
Proof.
  intros H. apply reachable_ok in H as Hp. split_and!.
  - intros now. destruct (worker_step_ok now p Hp) as (ids & p' & -> & _). by eexists.
  - apply Hp.
  - intros Ho. destruct (ok_flag p Hp Ho) as (_ & Hf & Hw & _). split; [done|].
    intros Hn. rewrite <- Hf, (Hw Hn). done.
Qed.

(** C27. Every request is answered, and once: from any state of an open channel
    in which no thread is about to post the task, the worker needs a bounded
    number of steps to hand every request that waits or is in the middle of
    being answered to [ReSendPacket], each exactly once and none besides,
    whatever the order of the set and the readings of the clock; then nothing
    waits and the flag is down. *)
Theorem nacks_answered_once (p : Pipeline) (n : nat) (now : nat -> Z) :
  reachable p -> history_shutdown_ (sender p) = false -> posting p = O -> (effort p <= n)%nat ->
  exists log p', worker_run n now p = Some (log, p') /\
    log ≡ₚ match worker p with Resending ids => ids | _ => [] end ++
             elements (pending_nack_sequence_numbers_ (sender p)) /\
    idle p' /\ pending_nack_sequence_numbers_ (sender p') = ∅ /\
    nack_task_scheduled_ (sender p') = false.
Proof.
  intros H Ho Hpost He. apply reachable_ok in H as Hp.
  destruct (worker_drains n now p Hp Ho Hpost He) as (log & p' & E & Hreq & H').
  exists log, p'. split_and!; [done|by symmetry|apply H'..].
Qed.
End pipeline.

(** ** Concrete inputs *)

Definition recording_pacer : PacerQueue (list RtpPacketToSend) :=
  {| enqueue_rtp_packet p w := (0, w ++ [p]); enqueue_rtp_packets ps _ _ w := w ++ ps |}.

Definition elements_order : SetOrder :=
  {| set_order := elements; set_order_perm n := Permutation_refl (elements n) |}.

(** Two requests have come in and the task is in the queue. *)
Definition asked : Pipeline (W := list RtpPacketToSend) :=
  let s := Initialize String.EmptyString 7 8 96 true 0 None in
  mkPipeline (schedule_nacks (nacks_received [5; 6] s).2) O Waiting [].

Lemma asked_reachable : reachable (pacer_queue := recording_pacer) (order := elements_order) asked.
Proof.
  exists String.EmptyString, 7, 8, 96, true, 0, None, []. split; [split; done|].
  eapply rtc_l; [apply (StepNack (W := list RtpPacketToSend) [5; 6]); by repeat constructor|].
  eapply rtc_l; [by apply (StepPost (W := list RtpPacketToSend) O)|]. apply rtc_refl.
Qed.

Lemma nack_pipeline_safe_witness :
  (forall now, is_Some (worker_step (pacer_queue := recording_pacer) (order := elements_order) now asked)) /\
  Z.of_nat (size (pending_nack_sequence_numbers_ (sender asked))) <= kMaxCapacity /\
  (history_shutdown_ (sender asked) = false ->
   Nat.b2n (nack_task_scheduled_ (sender asked)) = (underway asked + answering asked)%nat /\
   (pending_nack_sequence_numbers_ (sender asked) <> ∅ -> (underway asked + answering asked = 1)%nat)).
Proof. exact (nack_pipeline_safe asked asked_reachable). Defined.

Lemma nacks_answered_once_witness :
  exists log p',
    worker_run (pacer_queue := recording_pacer) (order := elements_order) 12 (fun i => Z.of_nat i) asked =
      Some (log, p') /\
    log ≡ₚ elements (pending_nack_sequence_numbers_ (sender asked)) /\
    idle p' /\ pending_nack_sequence_numbers_ (sender p') = ∅ /\
    nack_task_scheduled_ (sender p') = false.
Proof.
  refine (nacks_answered_once asked 12 _ asked_reachable eq_refl eq_refl _).
  vm_compute. lia.
Defined.
