(* ===== verification/DataChannel.v ===== *)
(** * Data channels

    [DataChannelSend] and [DataChannelReceive] of [src/transport/channel], with
    the RTP sender and receiver they own: plain data goes into packets at once,
    reliable data through KCP, whose datagrams go into packets.  A thread of its
    own sends the queued packets, ten in a round; another runs KCP's clock.

    KCP, the ICE agent and the clock are interfaces.  The counters of
    [IOStatistics] are left out.  Each definition is what happens under one lock
    or in one round; [None] is an access that must not be made. *)

From S2P Require Import Prelude StateMonad ByteIO RingBuffer RtpPacket Packetizer Av1 VideoSend.

(** ** What the channels call *)

Class Kcp (K : Type) := {
  ikcp_create : Z -> option K;
  (** [ikcp_nodelay(1, 10, 2, 1)] and [ikcp_wndsize(256, 256)]. *)
  ikcp_configure : K -> K;
  ikcp_setmtu : Z -> K -> Z * K;
  ikcp_send : list Z -> K -> Z * K;
  ikcp_input : list Z -> K -> Z * K;
  (** The datagrams that it gives to the output callback, in order. *)
  ikcp_update : Z -> K -> list (list Z) * K;
  ikcp_check : Z -> K -> Z;
  ikcp_peeksize : K -> Z;
  (** Into a buffer of the size given: the result and the bytes. *)
  ikcp_recv : Z -> K -> Z * list Z * K;
}.

Class DataWorld (W : Type) := {
  (** [GetIceState() == ICE_STATE_DESTROYED]. *)
  ice_destroyed : W -> bool;
  (** [GetIceState() == ICE_STATE_NULLPTR]. *)
  ice_missing : W -> bool;
  ice_agent_send : list Z -> W -> Z * W;
  steady_ms : W -> Z * W;
  (** [on_receive_data_]. *)
  receive_data : list Z -> W -> W;
}.

#[export] Instance packet_movable : Movable (option RtpPacket) :=
  {| default_value := None; moved_from _ := None |}.

(** ** The sender of packets *)

(** src/transport/channel/rtp_data_sender.h:45-55 [RtpDataSender] *)
Record RtpDataSender := mkDataSender {
  rtp_packet_queue_ : RingBuffer (option RtpPacket);
  last_send_bytes_ : Z;
  total_rtp_payload_sent_ : Z;
  total_rtp_packets_sent_ : Z;
}.

Definition new_data_sender : RtpDataSender := mkDataSender (new_ring 1280) 0 0 0.

Definition set_packet_queue (q : RingBuffer (option RtpPacket)) (s : RtpDataSender) : RtpDataSender :=
  mkDataSender q (last_send_bytes_ s) (total_rtp_payload_sent_ s) (total_rtp_packets_sent_ s).

(** A packet that finds the ring full is dropped. *)
(** src/transport/channel/rtp_data_sender.cpp:22-27 [RtpDataSender::Enqueue] *)
Fixpoint Enqueue (rtp_packets : list RtpPacket) (s : RtpDataSender) : option RtpDataSender :=
  match rtp_packets with
  | [] => Some s
  | p :: rtp_packets =>
      '(_, q) ← push (Some p) (rtp_packet_queue_ s);
      Enqueue rtp_packets (set_packet_queue q s)
  end.

Section channels.
Context {W : Type} {world : DataWorld W}.

(** src/transport/channel/rtp_data_sender.cpp:34-99 [RtpDataSender::SendRtpPacket] *)
Definition SendRtpPacket (send : list Z -> W -> Z * W) (rtp_packet : option RtpPacket) (s : RtpDataSender) (w : W)
    : option (Z * RtpDataSender * W) :=
  p ← rtp_packet;
  bytes ← rd_range (buffer_ p) 0 (size_ p);
  let '(ret, w) := send bytes w in
  if ret =? -2 then Some (-1, set_packet_queue (clear (rtp_packet_queue_ s)) s, w)
  else Some (0, mkDataSender (rtp_packet_queue_ s) (u32 (last_send_bytes_ s + u32 (size_ p)))
                  (u32 (total_rtp_payload_sent_ s + u32 (payload_size_ p)))
                  (u32 (total_rtp_packets_sent_ s + 1)), w).

(** src/transport/channel/rtp_data_sender.cpp:134-141 [RtpDataSender::Process] *)
Fixpoint send_queued (n : nat) (send : list Z -> W -> Z * W) (s : RtpDataSender) (w : W)
    : option (RtpDataSender * W) :=
  match n with
  | O => Some (s, w)
  | S n =>
      if isEmpty (rtp_packet_queue_ s) then send_queued n send s w else
      '(rtp_packet, q) ← pop (rtp_packet_queue_ s);
      let s := set_packet_queue q s in
      match rtp_packet with
      | None => send_queued n send s w
      | Some rtp_packet =>
          '(_, s, w) ← SendRtpPacket send rtp_packet s w;
          send_queued n send s w
      end
  end.

(** src/transport/channel/rtp_data_sender.cpp:131-144 [RtpDataSender::Process] *)
Definition ProcessSender (send : list Z -> W -> Z * W) (s : RtpDataSender) (w : W) : option (RtpDataSender * W) :=
  send_queued 10 send
    (mkDataSender (rtp_packet_queue_ s) 0 (total_rtp_payload_sent_ s) (total_rtp_packets_sent_ s)) w.

Context {K : Type} {kcp : Kcp K}.

(** ** The sending channel *)

(** src/transport/channel/data_channel_send.h:94-104 [DataChannelSend] *)
Record DataChannelSend := mkDataSend {
  ds_ssrc : Z;
  ds_use_reliable_ : bool;
  ds_packetizer_ : option (PacketizerKind * Packetizer);
  rtp_data_sender_ : RtpDataSender;
  ds_kcp_ : option K;
}.

Definition set_ds_packetizer (k : PacketizerKind * Packetizer) (c : DataChannelSend) : DataChannelSend :=
  mkDataSend (ds_ssrc c) (ds_use_reliable_ c) (Some k) (rtp_data_sender_ c) (ds_kcp_ c).
Definition set_ds_sender (s : RtpDataSender) (c : DataChannelSend) : DataChannelSend :=
  mkDataSend (ds_ssrc c) (ds_use_reliable_ c) (ds_packetizer_ c) s (ds_kcp_ c).
Definition set_ds_kcp (k : option K) (c : DataChannelSend) : DataChannelSend :=
  mkDataSend (ds_ssrc c) (ds_use_reliable_ c) (ds_packetizer_ c) (rtp_data_sender_ c) k.

(** src/transport/channel/data_channel_send.cpp:39-63 [DataChannelSend::Initialize] *)
Definition InitializeSend (ssrc payload_type : Z) (use_reliable : bool) : DataChannelSend :=
  mkDataSend ssrc use_reliable (Some (Create payload_type ssrc)) new_data_sender None.

(** src/transport/channel/data_channel_send.cpp:45-59 [DataChannelSend::Initialize] *)
Definition send_channel_data (bytes : list Z) (w : W) : Z * W :=
  if ice_destroyed w then (-2, w) else ice_agent_send bytes w.

(** Payloads into packets, packets into the queue. *)
(** src/transport/channel/data_channel_send.cpp:85-98 [DataChannelSend::SendData] *)
Definition SendData (data : list Z) (c : DataChannelSend) : option (Z * DataChannelSend) :=
  match ds_packetizer_ c with
  | None => Some (-1, c)
  | Some (kind, pz) =>
      '(rtp_packets, pz) ← BuildFrame kind pz data 0;
      s ← Enqueue rtp_packets (rtp_data_sender_ c);
      Some (0, set_ds_sender s (set_ds_packetizer (kind, pz) c))
  end.

(** src/transport/channel/data_channel_send.cpp:9-14 [kReliableDataKcpMtu] *)
Definition kReliableDataKcpMtu : Z := MAX_NALU_LEN.

(** A KCP of the channel's own, or none; [address] is that of the channel. *)
(** src/transport/channel/data_channel_send.cpp:126-170 [DataChannelSend::InitKcp] *)
Definition init_kcp (address ssrc : Z) : option K :=
  let conv := if ssrc =? 0 then u32 address else ssrc in
  match ikcp_create conv with
  | None => None
  | Some k =>
      let '(result, k) := ikcp_setmtu kReliableDataKcpMtu (ikcp_configure k) in
      if negb (result =? 0) then None else Some k
  end.

(** src/transport/channel/data_channel_send.cpp:126-170 [DataChannelSend::InitKcp] *)
Definition InitKcpSend (address : Z) (c : DataChannelSend) : bool * DataChannelSend :=
  match ds_kcp_ c with
  | Some _ => (true, c)
  | None => match init_kcp address (ds_ssrc c) with
            | None => (false, c)
            | Some k => (true, set_ds_kcp (Some k) c)
            end
  end.

(** src/transport/channel/data_channel_send.cpp:100-124 [DataChannelSend::SendReliableData] *)
Definition SendReliableData (address : Z) (data : list Z) (c : DataChannelSend) : Z * DataChannelSend :=
  if bool_decide (ds_packetizer_ c = None) then (-1, c) else
  if negb (ds_use_reliable_ c) then (-1, c) else
  let '(ready, c) := InitKcpSend address c in
  match ready, ds_kcp_ c with
  | true, Some k =>
      let '(ret, k) := ikcp_send data k in
      (if ret <? 0 then ret else 0, set_ds_kcp (Some k) c)
  | _, _ => (-1, c)
  end.

(** A datagram of KCP; the callback is not called for less than a byte. *)
(** src/transport/channel/data_channel_send.cpp:172-202 [DataChannelSend::OnKcpOutput] *)
Definition OnKcpOutputSend (data : list Z) (c : DataChannelSend) : option DataChannelSend :=
  if zlen data <=? 0 then Some c else '(_, c) ← SendData data c; Some c.

Fixpoint output_all (datagrams : list (list Z)) (c : DataChannelSend) : option DataChannelSend :=
  match datagrams with
  | [] => Some c
  | d :: datagrams => c ← OnKcpOutputSend d c; output_all datagrams c
  end.

Definition update_kcp_send (now : Z) (k : K) (c : DataChannelSend) : option DataChannelSend :=
  let '(datagrams, k) := ikcp_update now k in
  output_all datagrams (set_ds_kcp (Some k) c).

(** A round of the clock's thread. *)
(** src/transport/channel/data_channel_send.h:32-50 [KcpUpdateTimer::Process] *)
Definition tick_send (now : Z) (c : DataChannelSend) : option (bool * DataChannelSend) :=
  match ds_kcp_ c with
  | None => Some (false, c)
  | Some k =>
      if ikcp_check now k <=? now then c ← update_kcp_send now k c; Some (true, c) else Some (true, c)
  end.

(** The payload handed on; a packet that could not be parsed has none. *)
(** src/rtp/rtp_packet/rtp_packet.h:262-263 [RtpPacket::Payload] *)
Definition payload_of (p : RtpPacket) : option (list Z) :=
  if payload_size_ p =? 0 then Some [] else Payload p.

(** Acknowledgements that come back. *)
(** src/transport/channel/data_channel_send.cpp:204-235 [DataChannelSend::OnReceiveRtpPacket] *)
Definition OnReceiveAck (address now : Z) (data : list Z) (c : DataChannelSend) : option (Z * DataChannelSend) :=
  if negb (ds_use_reliable_ c) then Some (-1, c) else
  let '(ready, c) := InitKcpSend address c in
  match ready, ds_kcp_ c with
  | true, Some k =>
      '(_, p) ← Build new_packet data (zlen data);
      payload ← payload_of p;
      let '(ret, k) := ikcp_input payload k in
      if ret <? 0 then Some (-1, set_ds_kcp (Some k) c) else
      c ← update_kcp_send now k c; Some (0, c)
  | _, _ => Some (-1, c)
  end.
End channels.
Arguments DataChannelSend : clear implicits.

(** ** The receiving channel *)

Section receiving.
Context {W : Type} {world : DataWorld W} {K : Type} {kcp : Kcp K}.

(** src/transport/channel/data_channel_receive.h:101-113 [DataChannelReceive] *)
Record DataChannelReceive := mkDataReceive {
  dr_ssrc_ : Z;
  dr_use_reliable_ : bool;
  dr_packetizer_ : option (PacketizerKind * Packetizer);
  dr_sender_ : option RtpDataSender;
  dr_kcp_ : option K;
  dr_payload_recv_ : Z;
  dr_packets_recv_ : Z;
}.

Definition set_dr_output (kp : PacketizerKind * Packetizer) (s : RtpDataSender) (c : DataChannelReceive) : DataChannelReceive :=
  mkDataReceive (dr_ssrc_ c) (dr_use_reliable_ c) (Some kp) (Some s) (dr_kcp_ c) (dr_payload_recv_ c) (dr_packets_recv_ c).
Definition set_dr_kcp (k : option K) (c : DataChannelReceive) : DataChannelReceive :=
  mkDataReceive (dr_ssrc_ c) (dr_use_reliable_ c) (dr_packetizer_ c) (dr_sender_ c) k (dr_payload_recv_ c) (dr_packets_recv_ c).
Definition count_received (p : RtpPacket) (c : DataChannelReceive) : DataChannelReceive :=
  mkDataReceive (dr_ssrc_ c) (dr_use_reliable_ c) (dr_packetizer_ c) (dr_sender_ c) (dr_kcp_ c)
    (u32 (dr_payload_recv_ c + u32 (payload_size_ p))) (u32 (dr_packets_recv_ c + 1)).

(** src/transport/channel/data_channel_receive.cpp:39-64 [DataChannelReceive::Initialize] *)
Definition InitializeReceive (ssrc payload_type : Z) (use_reliable : bool) : DataChannelReceive :=
  mkDataReceive ssrc use_reliable (if use_reliable then Some (Create payload_type ssrc) else None)
    (if use_reliable then Some new_data_sender else None) None 0 0.

(** src/transport/channel/data_channel_receive.cpp:46-60 [DataChannelReceive::Initialize] *)
Definition send_from_receiver (bytes : list Z) (w : W) : Z * W :=
  if ice_missing w || ice_destroyed w then (-2, w) else ice_agent_send bytes w.

(** src/transport/channel/data_channel_receive.cpp:150-194 [DataChannelReceive::InitKcp] *)
Definition InitKcpReceive (address : Z) (c : DataChannelReceive) : bool * DataChannelReceive :=
  match dr_kcp_ c with
  | Some _ => (true, c)
  | None => match init_kcp address (dr_ssrc_ c) with
            | None => (false, c)
            | Some k => (true, set_dr_kcp (Some k) c)
            end
  end.

(** src/transport/channel/data_channel_receive.cpp:197-227 [DataChannelReceive::OnKcpOutput] *)
Definition OnKcpOutputReceive (data : list Z) (c : DataChannelReceive) : option DataChannelReceive :=
  if zlen data <=? 0 then Some c else
  match dr_packetizer_ c, dr_sender_ c with
  | Some (kind, pz), Some s =>
      '(rtp_packets, pz) ← BuildFrame kind pz data 0;
      s ← Enqueue rtp_packets s;
      Some (set_dr_output (kind, pz) s c)
  | _, _ => Some c
  end.

Fixpoint output_receive (datagrams : list (list Z)) (c : DataChannelReceive) : option DataChannelReceive :=
  match datagrams with
  | [] => Some c
  | d :: datagrams => c ← OnKcpOutputReceive d c; output_receive datagrams c
  end.

Definition update_kcp_receive (now : Z) (k : K) (c : DataChannelReceive) : option DataChannelReceive :=
  let '(datagrams, k) := ikcp_update now k in
  output_receive datagrams (set_dr_kcp (Some k) c).

(** The messages that are complete, with the bytes received in all. *)
(** src/transport/channel/data_channel_receive.cpp:240-258 [DataChannelReceive::TryReceiveKcpData] *)
Fixpoint receive_messages (fuel : nat) (k : K) (received : list (list Z)) (total_received : Z)
    : option (list (list Z) * Z * K) :=
  match fuel with
  | O => None
  | S fuel =>
      let peek_size := ikcp_peeksize k in
      if peek_size <? 0 then Some (received, total_received, k) else
      let '(recv_len, buffer, k) := ikcp_recv peek_size k in
      if recv_len <=? 0 then Some (received, total_received, k) else
      receive_messages fuel k (received ++ [take (Z.to_nat recv_len) buffer]) (s32 (total_received + recv_len))
  end.

(** [fuel] bounds the messages that KCP holds. *)
(** src/transport/channel/data_channel_receive.cpp:229-271 [DataChannelReceive::TryReceiveKcpData] *)
Definition TryReceiveKcpData (fuel : nat) (c : DataChannelReceive) (w : W) : option (DataChannelReceive * W) :=
  match dr_kcp_ c with
  | None => Some (c, w)
  | Some k =>
      '(messages, total_received, k) ← receive_messages fuel k [] 0;
      let c := set_dr_kcp (Some k) c in
      '(c, w) ← (if 0 <? total_received
                 then let '(now, w) := steady_ms w in
                      c ← update_kcp_receive (u32 now) k c; Some (c, w)
                 else Some (c, w));
      Some (c, fold_left (fun w m => receive_data m w) messages w)
  end.

(** The payload, on its way to the application. *)
(** src/transport/channel/data_channel_receive.cpp:66-94 [DataChannelReceive::Initialize] *)
Definition on_payload (fuel : nat) (address : Z) (payload : list Z) (c : DataChannelReceive) (w : W)
    : option (DataChannelReceive * W) :=
  if negb (dr_use_reliable_ c) then Some (c, receive_data payload w) else
  let '(ready, c) := InitKcpReceive address c in
  match ready, dr_kcp_ c with
  | true, Some k =>
      let '(ret, k) := ikcp_input payload k in
      if ret <? 0 then Some (set_dr_kcp (Some k) c, w) else
      let '(now, w) := steady_ms w in
      c ← update_kcp_receive (u32 now) k c;
      TryReceiveKcpData fuel c w
  | _, _ => Some (c, w)
  end.

(** src/transport/channel/rtp_data_receiver.cpp:14-59 [RtpDataReceiver::InsertRtpPacket] *)
Definition InsertDataPacket (fuel : nat) (address : Z) (p : RtpPacket) (c : DataChannelReceive) (w : W)
    : option (DataChannelReceive * W) :=
  let c := count_received p c in
  payload ← payload_of p;
  on_payload fuel address payload c w.

(** The result of the parser is not looked at. *)
(** src/transport/channel/data_channel_receive.cpp:136-148 [DataChannelReceive::OnReceiveRtpPacket] *)
Definition OnReceiveData (fuel : nat) (address : Z) (data : list Z) (c : DataChannelReceive) (w : W)
    : option (DataChannelReceive * W) :=
  '(_, p) ← Build new_packet data (zlen data);
  InsertDataPacket fuel address p c w.

(** A round of the clock's thread. *)
(** src/transport/channel/data_channel_receive.h:36-60 [KcpUpdateTimerReceive::Process] *)
Definition tick_receive (fuel : nat) (now : Z) (c : DataChannelReceive) (w : W) : option (bool * DataChannelReceive * W) :=
  match dr_kcp_ c with
  | None => Some (false, c, w)
  | Some k =>
      c ← (if ikcp_check now k <=? now then update_kcp_receive now k c else Some c);
      '(c, w) ← TryReceiveKcpData fuel c w;
      Some (true, c, w)
  end.
End receiving.
Arguments DataChannelReceive : clear implicits.
