(* ===== verification/DataChannelOk.v ===== *)
(** * Reliable data arrives as KCP sent it

    [DataChannel.v]: each datagram of KCP travels in one packet, in order, and is
    given to the KCP of the other side unchanged. *)

From S2P Require Import Prelude StateMonad ByteIO RingBuffer RtpPacket Packetizer Av1 VideoSend DataChannel.

(** ** The sender's queue *)

Definition sender_holds (s : RtpDataSender) (l : list RtpPacket) : Prop :=
  m_size (rtp_packet_queue_ s) = 1280 /\ holds_queue (rtp_packet_queue_ s) (map Some l).

Lemma new_data_sender_ok : sender_holds new_data_sender [].
Proof. split; [done|]. by apply new_ring_ok. Qed.

Lemma Enqueue_ok ps : forall s l,
  sender_holds s l -> zlen l + zlen ps <= 1279 ->
  exists s', Enqueue ps s = Some s' /\ sender_holds s' (l ++ ps).
Proof.
  induction ps as [|p ps IH]; intros s l Hs Hz; cbn [Enqueue].
  - exists s. by rewrite app_nil_r.
  - rewrite zlen_cons in Hz. pose proof (zlen_nonneg ps). destruct Hs as [Hm Hq].
    destruct (push_ok (Some p) _ _ Hq) as (q & E & Em & Hq').
    assert (zlen (map Some l) = zlen l) as El by (unfold zlen; by rewrite length_map).
    rewrite El, Hm, (proj2 (Z.eqb_neq _ _)) in E, Hq' by lia. rewrite E. cbn [mbind option_bind].
    destruct (IH (set_packet_queue q s) (l ++ [p])) as (s' & -> & Hs').
    + split; [by rewrite <- Hm|]. cbn. by rewrite map_app.
    + rewrite zlen_app, zlen_cons, zlen_nil. lia.
    + exists s'. by rewrite <- app_assoc in Hs'.
Qed.

(** A packet whose buffer is whole. *)
Definition whole (p : RtpPacket) : Prop := rd_range (buffer_ p) 0 (size_ p) = Some (buffer_ p).

Lemma built_whole f q : whole (built f q).
Proof. apply rd_range_all. Qed.

Section sender.
Context {W : Type} (send : list Z -> W -> Z * W).

(** The link after the packets have been given to it. *)
Definition sent_to (ps : list RtpPacket) (w : W) : W := fold_left (fun w p => (send (buffer_ p) w).2) ps w.

Hypothesis alive : forall bytes w, (send bytes w).1 <> -2.

Lemma send_queued_ok n : forall s l w,
  sender_holds s l -> Forall whole l ->
  exists s', send_queued n send s w = Some (s', sent_to (take n l) w) /\ sender_holds s' (drop n l).
Proof.
  induction n as [|n IH]; intros s l w Hs Hl; cbn [send_queued]; [by exists s|].
  pose proof Hs as [Hm Hq]. rewrite (isEmpty_spec _ _ Hq). destruct l as [|p l].
  - cbn [map]. rewrite bool_decide_true by done. destruct (IH s [] w Hs Hl) as (s' & -> & H).
    exists s'. by rewrite take_nil, drop_nil in *.
  - rewrite bool_decide_false by done. destruct (pop_ok _ _ Hq) as (q & -> & Em & Hq').
    apply Forall_cons_1 in Hl as [Hp Hl]. cbn [map head tail mbind option_bind] in *. unfold SendRtpPacket. cbn [mbind option_bind].
    rewrite Hp. cbn [mbind option_bind take drop]. pose proof (alive (buffer_ p) w) as Ha.
    destruct (send (buffer_ p) w) as [ret w'] eqn:E. cbn [fst] in Ha. rewrite (proj2 (Z.eqb_neq _ _)) by done. cbn [mbind option_bind].
    match goal with |- context [send_queued n send ?s1 w'] => destruct (IH s1 l w') as (s' & Hrun & H) end;
      [split; [by rewrite <- Hm|exact Hq']|done|].
    exists s'. split; [|done]. unfold sent_to. cbn [fold_left]. rewrite E. exact Hrun.
Qed.

(** Rounds of the sender's thread. *)
Fixpoint rounds (n : nat) (s : RtpDataSender) (w : W) : option (RtpDataSender * W) :=
  match n with
  | O => Some (s, w)
  | S n => '(s, w) ← ProcessSender send s w; rounds n s w
  end.

Lemma rounds_ok n : forall s l w,
  sender_holds s l -> Forall whole l ->
  exists s', rounds n s w = Some (s', sent_to (take (10 * n) l) w) /\ sender_holds s' (drop (10 * n) l).
Proof.
  induction n as [|n IH]; intros s l w Hs Hl; cbn [rounds]; [by exists s|].
  destruct (send_queued_ok 10 (mkDataSender (rtp_packet_queue_ s) 0 (total_rtp_payload_sent_ s) (total_rtp_packets_sent_ s)) l w)
    as (s1 & E1 & H1); [exact Hs|done|]. unfold ProcessSender. rewrite E1. cbn [mbind option_bind].
  destruct (IH s1 (drop 10 l) (sent_to (take 10 l) w) H1) as (s2 & E2 & H2); [by apply Forall_drop|].
  exists s2. rewrite E2. replace (10 * S n)%nat with (10 + 10 * n)%nat by lia. split.
  - f_equal. f_equal. unfold sent_to. rewrite <- fold_left_app. f_equal.
    rewrite <- (firstn_skipn 10 (take (10 + 10 * n) l)). rewrite take_take, take_drop_commute. by rewrite Nat.min_l by lia.
  - by rewrite drop_drop in H2.
Qed.
End sender.

(** ** Datagrams in packets *)

(** The packet of one payload. *)
Definition carries (d : list Z) (p : RtpPacket) : Prop :=
  exists f, p = built f new_packet /\ frame_ok f /\ f_payload f = d /\ zlen (encode f) < 4294967296.

(** A payload that one packet can carry. *)
Definition fits (d : list Z) : Prop := bytes d /\ 0 < zlen d <= kReliableDataKcpMtu.

Section channels.
Context {K : Type} {kcp : Kcp K}.

(** A channel that is set up, with what waits to be sent. *)
Definition channel_ready (c : DataChannelSend K) (l : list RtpPacket) : Prop :=
  (exists pz, ds_packetizer_ c = Some (KindGeneric, pz) /\ pz_ok pz) /\ sender_holds (rtp_data_sender_ c) l.

Lemma SendData_ok d c l :
  channel_ready c l -> fits d -> zlen l < 1279 ->
  exists c' p, SendData d c = Some (0, c') /\ carries d p /\ channel_ready c' (l ++ [p]) /\
    ds_kcp_ c' = ds_kcp_ c /\ ds_ssrc c' = ds_ssrc c /\ ds_use_reliable_ c' = ds_use_reliable_ c.
Proof.
  intros [(pz & Ek & Hpz) Hs] [Hb Hz] Hl. unfold SendData. rewrite Ek. cbn [BuildFrame].
  unfold kReliableDataKcpMtu, MAX_NALU_LEN in Hz.
  rewrite BuildGeneric_train by (done || (unfold is_u32; lia) || lia).
  rewrite generic_payloads_single by done. cbn [mbind option_bind].
  destruct (step_frame_ok pz 0 true 0 d Hpz) as [Hf He]; [unfold is_u32; lia|done|unfold MAX_NALU_LEN; lia|].
  set (f := frame_of _ _ _ _ _ _) in *.
  change (packets (train pz 0 (length [d]) [d])) with [built f new_packet].
  destruct (Enqueue_ok [built f new_packet] _ l Hs) as (s' & -> & Hs'); [rewrite zlen_cons, zlen_nil; lia|].
  cbn [mbind option_bind]. eexists _, _. split; [done|]. split; [by exists f|]. split; [|done].
  split; [|exact Hs']. eexists. split; [done|]. by apply pz_ok_advance.
Qed.

Lemma output_all_ok ds : forall c l,
  channel_ready c l -> Forall fits ds -> zlen l + zlen ds <= 1279 ->
  exists c' ps, output_all ds c = Some c' /\ Forall2 carries ds ps /\ channel_ready c' (l ++ ps) /\
    ds_kcp_ c' = ds_kcp_ c.
Proof.
  induction ds as [|d ds IH]; intros c l Hc Hds Hz; cbn [output_all].
  - exists c, []. split_and!; [done|constructor|by rewrite app_nil_r|done].
  - apply Forall_cons_1 in Hds as [Hd Hds]. rewrite zlen_cons in Hz. pose proof (zlen_nonneg ds).
    destruct (SendData_ok d c l Hc Hd ltac:(lia)) as (c1 & p & E1 & Hp & H1 & Ek & _).
    unfold OnKcpOutputSend. rewrite (proj2 (Z.leb_gt _ _)) by apply Hd. rewrite E1. cbn [mbind option_bind].
    destruct (IH c1 (l ++ [p]) H1 Hds) as (c2 & ps & -> & Hps & H2 & Ek'); [rewrite zlen_app, zlen_cons, zlen_nil; lia|].
    exists c2, (p :: ps). split_and!; [done|by constructor|by rewrite <- app_assoc in H2|by rewrite Ek'].
Qed.

(** ** What arrives *)

Lemma OnReceive_carried {W} {world : DataWorld W} d p fuel address (c : DataChannelReceive K) (w : W) :
  carries d p -> 0 < zlen d ->
  OnReceiveData fuel address (buffer_ p) c w = on_payload fuel address d (count_received p c) w.
Proof.
  intros (f & -> & Hf & Hd & _) Hz. unfold OnReceiveData.
  change (buffer_ (built f new_packet)) with (encode f). rewrite Build_encode by done. cbn [mbind option_bind].
  unfold InsertDataPacket, payload_of. change (payload_size_ (built f new_packet)) with (zlen (f_payload f)).
  rewrite Hd, (proj2 (Z.eqb_neq _ _)) by lia. rewrite Payload_built, Hd. done.
Qed.
End channels.

(** ** Property *)

(** C10. KCP's datagrams arrive as they were: when KCP gives the output callback
    datagrams of at most the segment size that the channel asked of it, at most
    1279 of them, the sending thread's queue is empty and the link takes packets,
    the queue gets one packet for each; after enough rounds
    of that thread all of them have been given to the link, once and in
    order; and the receiving channel hands on, for each of these packets,
    exactly the datagram, whatever state it is in. *)
Theorem reliable_data_arrives {W} {world : DataWorld W} {K} {kcp : Kcp K} (now : Z) (k : K) (c : DataChannelSend K)
    (send : list Z -> W -> Z * W) (n : nat) (w : W) :
  channel_ready c [] -> ds_kcp_ c = Some k ->
  Forall fits (ikcp_update now k).1 -> zlen (ikcp_update now k).1 <= 1279 ->
  (forall bytes w, (send bytes w).1 <> -2) -> (length (ikcp_update now k).1 <= 10 * n)%nat ->
  exists c' s' ps, update_kcp_send now k c = Some c' /\ ds_kcp_ c' = Some (ikcp_update now k).2 /\
    rounds send n (rtp_data_sender_ c') w = Some (s', sent_to send ps w) /\ sender_holds s' [] /\
    Forall2 (fun d p => forall fuel address (rx : DataChannelReceive K) w,
      OnReceiveData fuel address (buffer_ p) rx w = on_payload fuel address d (count_received p rx) w)
      (ikcp_update now k).1 ps.
Proof.
  intros Hc Hk Hfit Hz Halive Hn. unfold update_kcp_send.
  destruct (ikcp_update now k) as [ds k'] eqn:E. cbn [fst snd] in *.
  destruct (output_all_ok ds (set_ds_kcp (Some k') c) []) as (c' & ps & Hrun & Hps & [_ Hs] & Ek); [exact Hc|done|done|].
  assert (Forall whole ps) as Hw.
  { apply Forall_lookup_2. intros i p Hi. destruct (Forall2_lookup_r _ _ _ _ _ Hps Hi) as (d & _ & f & -> & _).
    apply built_whole. }
  destruct (rounds_ok send Halive n (rtp_data_sender_ c') ps w Hs Hw) as (s' & Hr & Hs').
  pose proof (Forall2_length Hps) as Hlen.
  rewrite firstn_all2 in Hr by lia. rewrite skipn_all2 in Hs' by lia.
  exists c', s', ps. split_and!; [done|done|done|done|].
  clear -Hps Hfit. induction Hps as [|d p ds ps Hp Hps IH]; [constructor|].
  apply Forall_cons_1 in Hfit as [Hd Hfit]. constructor; [|by apply IH].
  intros fuel address rx w. apply OnReceive_carried; [done|apply Hd].
Qed.

(** A KCP that sends at the next update what it was given, and keeps what
    arrives. *)
Record MiniKcp := mkMini { outbox : list (list Z); inbox : list (list Z) }.

#[export] Instance mini_kcp : Kcp MiniKcp := {|
  ikcp_create _ := Some (mkMini [] []);
  ikcp_configure k := k;
  ikcp_setmtu _ k := (0, k);
  ikcp_send d k := (0, mkMini (outbox k ++ [d]) (inbox k));
  ikcp_input d k := (0, mkMini (outbox k) (inbox k ++ [d]));
  ikcp_update _ k := (outbox k, mkMini [] (inbox k));
  ikcp_check now _ := now;
  ikcp_peeksize k := match inbox k with [] => -1 | d :: _ => zlen d end;
  ikcp_recv _ k := match inbox k with [] => (-1, [], k) | d :: l => (zlen d, d, mkMini (outbox k) l) end;
|}.

(** A link and an application that write down what they get. *)
#[export] Instance mini_world : DataWorld (list (list Z)) := {|
  ice_destroyed _ := false;
  ice_missing _ := false;
  ice_agent_send bytes w := (0, w ++ [bytes]);
  steady_ms w := (5, w);
  receive_data m w := w ++ [m];
|}.

Definition mini_channel : DataChannelSend MiniKcp :=
  (SendReliableData 4096 [1; 2; 3] (SendReliableData 4096 [7] (InitializeSend 9 121 true)).2).2.

Lemma reliable_data_arrives_witness :
  exists c' s' ps, update_kcp_send 4 (mkMini [[7]; [1; 2; 3]] []) mini_channel = Some c' /\
    ds_kcp_ c' = Some (mkMini [] []) /\
    rounds send_channel_data 1 (rtp_data_sender_ c') [] = Some (s', sent_to send_channel_data ps []) /\ sender_holds s' [] /\
    Forall2 (fun d p => forall fuel address (rx : DataChannelReceive MiniKcp) w,
      OnReceiveData fuel address (buffer_ p) rx w = on_payload fuel address d (count_received p rx) w)
      [[7]; [1; 2; 3]] ps.
Proof.
  refine (reliable_data_arrives 4 (mkMini [[7]; [1; 2; 3]] []) mini_channel send_channel_data 1 [] _ _ _ _ _ _).
  - split; [|split; [done|by apply new_ring_ok]]. eexists. split; [done|].
    unfold pz_ok, is_u16, is_u32. cbn. lia.
  - done.
  - cbn. repeat constructor; unfold is_u8; lia || done.
  - vm_compute. congruence.
  - done.
  - cbn. lia.
Defined.

(** From one application to the other. *)
Example mini_run :
  (c ← update_kcp_send 4 (mkMini [[7]; [1; 2; 3]] []) mini_channel;
   '(_, link) ← ProcessSender send_channel_data (rtp_data_sender_ c) [];
   '(_, w) ← fold_left (fun r wire => '(rx, w) ← r; OnReceiveData 10 4096 wire rx w) link
               (Some (InitializeReceive 9 121 true, []));
   Some w) = Some [[7]; [1; 2; 3]].
Proof. vm_compute. reflexivity. Qed.
