(* ===== verification/Pacer.v ===== *)
(** * The pacing controller

    [PacingController] of [src/qos/pacing_controller.cc]: a leaky bucket in
    front of the packet queue, with padding, probes and keep-alive packets, and
    the two checks that hold packets back.  Dividing by a rate of zero, and
    reading the type of a packet without one, are [None].

    What the pacer calls is an interface: the clock, of which every call reads a
    time, and the packet sender.  Their state [W] is handed through. *)

From Stdlib Require Import SpecFloat.
From S2P Require Import Prelude StateMonad Units NetworkTypes Float32 RtpPacket RtpToSend PacketQueue Prober.

(** ** What the pacer calls *)

(** [clock_->CurrentTime()]. *)
Class Clock (W : Type) := read_clock : W -> Z * W.

(** src/qos/pacing_controller.h:44-65 [PacingController::PacketSender] *)
Class PacketSender (W : Type) := {
  SendPacket : RtpPacketToSend -> PacedPacketInfo -> W -> W;
  FetchFec : W -> list RtpPacketToSend * W;
  GeneratePadding : Z -> W -> list RtpPacketToSend * W;
  OnBatchComplete : W -> W;
}.

(** ** State *)

(** src/qos/pacing_controller.cc:37-37 [kCongestedPacketInterval] *)
Definition kCongestedPacketInterval : Z := 500000.
(** src/qos/pacing_controller.cc:40-40 [kMaxDebtInTime] *)
Definition kMaxDebtInTime : Z := 500000.
(** src/qos/pacing_controller.cc:41-41 [kMaxElapsedTime] *)
Definition kMaxElapsedTime : Z := 2000000.
(** src/qos/pacing_controller.cc:45-46 [PacingController::kPausedProcessInterval] *)
Definition kPausedProcessInterval : Z := kCongestedPacketInterval.
(** src/qos/pacing_controller.cc:48-48 [PacingController::kTargetPaddingDuration] *)
Definition kTargetPaddingDuration : Z := 5000.
(** src/qos/pacing_controller.cc:49-50 [PacingController::kMaxPaddingReplayDuration] *)
Definition kMaxPaddingReplayDuration : Z := 50000.
(** src/qos/pacing_controller.cc:51-52 [PacingController::kMaxEarlyProbeProcessing] *)
Definition kMaxEarlyProbeProcessing : Z := 1000.
(** src/qos/pacing_controller.h:87-87 [PacingController::kMaxBurstSize] *)
Definition kMaxBurstSize : Z := 63 * 1000.

(** src/qos/pacing_controller.h:239-283 [PacingController] *)
Record PacingController := mkPacer {
  drain_large_queues_ : bool;
  send_padding_if_silent_ : bool;
  pace_audio_ : bool;
  ignore_transport_overhead_ : bool;
  fast_retransmissions_ : bool;
  keyframe_flushing_ : bool;
  max_rate : Z;
  transport_overhead_per_packet_ : Z;
  send_burst_interval_ : Z;
  last_timestamp_ : Z;
  paused_ : bool;
  media_debt_ : Z;
  padding_debt_ : Z;
  pacing_rate_ : Z;
  adjusted_media_rate_ : Z;
  padding_rate_ : Z;
  prober_ : BitrateProber;
  probing_send_failure_ : bool;
  last_process_time_ : Z;
  last_send_time_ : Z;
  first_sent_packet_time_ : option Z;
  seen_first_packet_ : bool;
  packet_queue_ : PrioritizedPacketQueue;
  congested_ : bool;
  queue_time_limit_ : Z;
  account_for_audio_ : bool;
  include_overhead_ : bool;
  circuit_breaker_threshold_ : Z;
}.

Definition set_max_rate (v : Z) (s : PacingController) : PacingController :=
  mkPacer (drain_large_queues_ s) (send_padding_if_silent_ s) (pace_audio_ s)
    (ignore_transport_overhead_ s) (fast_retransmissions_ s) (keyframe_flushing_ s) v
    (transport_overhead_per_packet_ s) (send_burst_interval_ s) (last_timestamp_ s) (paused_ s)
    (media_debt_ s) (padding_debt_ s) (pacing_rate_ s) (adjusted_media_rate_ s) (padding_rate_
    s) (prober_ s) (probing_send_failure_ s) (last_process_time_ s) (last_send_time_ s)
    (first_sent_packet_time_ s) (seen_first_packet_ s) (packet_queue_ s) (congested_ s)
    (queue_time_limit_ s) (account_for_audio_ s) (include_overhead_ s)
    (circuit_breaker_threshold_ s).
Definition set_transport_overhead (v : Z) (s : PacingController) : PacingController :=
  mkPacer (drain_large_queues_ s) (send_padding_if_silent_ s) (pace_audio_ s)
    (ignore_transport_overhead_ s) (fast_retransmissions_ s) (keyframe_flushing_ s) (max_rate s)
    v (send_burst_interval_ s) (last_timestamp_ s) (paused_ s) (media_debt_ s) (padding_debt_ s)
    (pacing_rate_ s) (adjusted_media_rate_ s) (padding_rate_ s) (prober_ s)
    (probing_send_failure_ s) (last_process_time_ s) (last_send_time_ s)
    (first_sent_packet_time_ s) (seen_first_packet_ s) (packet_queue_ s) (congested_ s)
    (queue_time_limit_ s) (account_for_audio_ s) (include_overhead_ s)
    (circuit_breaker_threshold_ s).
Definition set_burst_interval (v : Z) (s : PacingController) : PacingController :=
  mkPacer (drain_large_queues_ s) (send_padding_if_silent_ s) (pace_audio_ s)
    (ignore_transport_overhead_ s) (fast_retransmissions_ s) (keyframe_flushing_ s) (max_rate s)
    (transport_overhead_per_packet_ s) v (last_timestamp_ s) (paused_ s) (media_debt_ s)
    (padding_debt_ s) (pacing_rate_ s) (adjusted_media_rate_ s) (padding_rate_ s) (prober_ s)
    (probing_send_failure_ s) (last_process_time_ s) (last_send_time_ s)
    (first_sent_packet_time_ s) (seen_first_packet_ s) (packet_queue_ s) (congested_ s)
    (queue_time_limit_ s) (account_for_audio_ s) (include_overhead_ s)
    (circuit_breaker_threshold_ s).
Definition set_last_timestamp (v : Z) (s : PacingController) : PacingController :=
  mkPacer (drain_large_queues_ s) (send_padding_if_silent_ s) (pace_audio_ s)
    (ignore_transport_overhead_ s) (fast_retransmissions_ s) (keyframe_flushing_ s) (max_rate s)
    (transport_overhead_per_packet_ s) (send_burst_interval_ s) v (paused_ s) (media_debt_ s)
    (padding_debt_ s) (pacing_rate_ s) (adjusted_media_rate_ s) (padding_rate_ s) (prober_ s)
    (probing_send_failure_ s) (last_process_time_ s) (last_send_time_ s)
    (first_sent_packet_time_ s) (seen_first_packet_ s) (packet_queue_ s) (congested_ s)
    (queue_time_limit_ s) (account_for_audio_ s) (include_overhead_ s)
    (circuit_breaker_threshold_ s).
Definition set_paused (v : bool) (s : PacingController) : PacingController :=
  mkPacer (drain_large_queues_ s) (send_padding_if_silent_ s) (pace_audio_ s)
    (ignore_transport_overhead_ s) (fast_retransmissions_ s) (keyframe_flushing_ s) (max_rate s)
    (transport_overhead_per_packet_ s) (send_burst_interval_ s) (last_timestamp_ s) v
    (media_debt_ s) (padding_debt_ s) (pacing_rate_ s) (adjusted_media_rate_ s) (padding_rate_
    s) (prober_ s) (probing_send_failure_ s) (last_process_time_ s) (last_send_time_ s)
    (first_sent_packet_time_ s) (seen_first_packet_ s) (packet_queue_ s) (congested_ s)
    (queue_time_limit_ s) (account_for_audio_ s) (include_overhead_ s)
    (circuit_breaker_threshold_ s).
Definition set_media_debt (v : Z) (s : PacingController) : PacingController :=
  mkPacer (drain_large_queues_ s) (send_padding_if_silent_ s) (pace_audio_ s)
    (ignore_transport_overhead_ s) (fast_retransmissions_ s) (keyframe_flushing_ s) (max_rate s)
    (transport_overhead_per_packet_ s) (send_burst_interval_ s) (last_timestamp_ s) (paused_ s)
    v (padding_debt_ s) (pacing_rate_ s) (adjusted_media_rate_ s) (padding_rate_ s) (prober_ s)
    (probing_send_failure_ s) (last_process_time_ s) (last_send_time_ s)
    (first_sent_packet_time_ s) (seen_first_packet_ s) (packet_queue_ s) (congested_ s)
    (queue_time_limit_ s) (account_for_audio_ s) (include_overhead_ s)
    (circuit_breaker_threshold_ s).
Definition set_padding_debt (v : Z) (s : PacingController) : PacingController :=
  mkPacer (drain_large_queues_ s) (send_padding_if_silent_ s) (pace_audio_ s)
    (ignore_transport_overhead_ s) (fast_retransmissions_ s) (keyframe_flushing_ s) (max_rate s)
    (transport_overhead_per_packet_ s) (send_burst_interval_ s) (last_timestamp_ s) (paused_ s)
    (media_debt_ s) v (pacing_rate_ s) (adjusted_media_rate_ s) (padding_rate_ s) (prober_ s)
    (probing_send_failure_ s) (last_process_time_ s) (last_send_time_ s)
    (first_sent_packet_time_ s) (seen_first_packet_ s) (packet_queue_ s) (congested_ s)
    (queue_time_limit_ s) (account_for_audio_ s) (include_overhead_ s)
    (circuit_breaker_threshold_ s).
Definition set_pacing_rate (v : Z) (s : PacingController) : PacingController :=
  mkPacer (drain_large_queues_ s) (send_padding_if_silent_ s) (pace_audio_ s)
    (ignore_transport_overhead_ s) (fast_retransmissions_ s) (keyframe_flushing_ s) (max_rate s)
    (transport_overhead_per_packet_ s) (send_burst_interval_ s) (last_timestamp_ s) (paused_ s)
    (media_debt_ s) (padding_debt_ s) v (adjusted_media_rate_ s) (padding_rate_ s) (prober_ s)
    (probing_send_failure_ s) (last_process_time_ s) (last_send_time_ s)
    (first_sent_packet_time_ s) (seen_first_packet_ s) (packet_queue_ s) (congested_ s)
    (queue_time_limit_ s) (account_for_audio_ s) (include_overhead_ s)
    (circuit_breaker_threshold_ s).
Definition set_adjusted_rate (v : Z) (s : PacingController) : PacingController :=
  mkPacer (drain_large_queues_ s) (send_padding_if_silent_ s) (pace_audio_ s)
    (ignore_transport_overhead_ s) (fast_retransmissions_ s) (keyframe_flushing_ s) (max_rate s)
    (transport_overhead_per_packet_ s) (send_burst_interval_ s) (last_timestamp_ s) (paused_ s)
    (media_debt_ s) (padding_debt_ s) (pacing_rate_ s) v (padding_rate_ s) (prober_ s)
    (probing_send_failure_ s) (last_process_time_ s) (last_send_time_ s)
    (first_sent_packet_time_ s) (seen_first_packet_ s) (packet_queue_ s) (congested_ s)
    (queue_time_limit_ s) (account_for_audio_ s) (include_overhead_ s)
    (circuit_breaker_threshold_ s).
Definition set_padding_rate (v : Z) (s : PacingController) : PacingController :=
  mkPacer (drain_large_queues_ s) (send_padding_if_silent_ s) (pace_audio_ s)
    (ignore_transport_overhead_ s) (fast_retransmissions_ s) (keyframe_flushing_ s) (max_rate s)
    (transport_overhead_per_packet_ s) (send_burst_interval_ s) (last_timestamp_ s) (paused_ s)
    (media_debt_ s) (padding_debt_ s) (pacing_rate_ s) (adjusted_media_rate_ s) v (prober_ s)
    (probing_send_failure_ s) (last_process_time_ s) (last_send_time_ s)
    (first_sent_packet_time_ s) (seen_first_packet_ s) (packet_queue_ s) (congested_ s)
    (queue_time_limit_ s) (account_for_audio_ s) (include_overhead_ s)
    (circuit_breaker_threshold_ s).
Definition set_prober (v : BitrateProber) (s : PacingController) : PacingController :=
  mkPacer (drain_large_queues_ s) (send_padding_if_silent_ s) (pace_audio_ s)
    (ignore_transport_overhead_ s) (fast_retransmissions_ s) (keyframe_flushing_ s) (max_rate s)
    (transport_overhead_per_packet_ s) (send_burst_interval_ s) (last_timestamp_ s) (paused_ s)
    (media_debt_ s) (padding_debt_ s) (pacing_rate_ s) (adjusted_media_rate_ s) (padding_rate_
    s) v (probing_send_failure_ s) (last_process_time_ s) (last_send_time_ s)
    (first_sent_packet_time_ s) (seen_first_packet_ s) (packet_queue_ s) (congested_ s)
    (queue_time_limit_ s) (account_for_audio_ s) (include_overhead_ s)
    (circuit_breaker_threshold_ s).
Definition set_send_failure (v : bool) (s : PacingController) : PacingController :=
  mkPacer (drain_large_queues_ s) (send_padding_if_silent_ s) (pace_audio_ s)
    (ignore_transport_overhead_ s) (fast_retransmissions_ s) (keyframe_flushing_ s) (max_rate s)
    (transport_overhead_per_packet_ s) (send_burst_interval_ s) (last_timestamp_ s) (paused_ s)
    (media_debt_ s) (padding_debt_ s) (pacing_rate_ s) (adjusted_media_rate_ s) (padding_rate_
    s) (prober_ s) v (last_process_time_ s) (last_send_time_ s) (first_sent_packet_time_ s)
    (seen_first_packet_ s) (packet_queue_ s) (congested_ s) (queue_time_limit_ s)
    (account_for_audio_ s) (include_overhead_ s) (circuit_breaker_threshold_ s).
Definition set_last_process (v : Z) (s : PacingController) : PacingController :=
  mkPacer (drain_large_queues_ s) (send_padding_if_silent_ s) (pace_audio_ s)
    (ignore_transport_overhead_ s) (fast_retransmissions_ s) (keyframe_flushing_ s) (max_rate s)
    (transport_overhead_per_packet_ s) (send_burst_interval_ s) (last_timestamp_ s) (paused_ s)
    (media_debt_ s) (padding_debt_ s) (pacing_rate_ s) (adjusted_media_rate_ s) (padding_rate_
    s) (prober_ s) (probing_send_failure_ s) v (last_send_time_ s) (first_sent_packet_time_ s)
    (seen_first_packet_ s) (packet_queue_ s) (congested_ s) (queue_time_limit_ s)
    (account_for_audio_ s) (include_overhead_ s) (circuit_breaker_threshold_ s).
Definition set_last_send (v : Z) (s : PacingController) : PacingController :=
  mkPacer (drain_large_queues_ s) (send_padding_if_silent_ s) (pace_audio_ s)
    (ignore_transport_overhead_ s) (fast_retransmissions_ s) (keyframe_flushing_ s) (max_rate s)
    (transport_overhead_per_packet_ s) (send_burst_interval_ s) (last_timestamp_ s) (paused_ s)
    (media_debt_ s) (padding_debt_ s) (pacing_rate_ s) (adjusted_media_rate_ s) (padding_rate_
    s) (prober_ s) (probing_send_failure_ s) (last_process_time_ s) v (first_sent_packet_time_
    s) (seen_first_packet_ s) (packet_queue_ s) (congested_ s) (queue_time_limit_ s)
    (account_for_audio_ s) (include_overhead_ s) (circuit_breaker_threshold_ s).
Definition set_first_sent (v : option Z) (s : PacingController) : PacingController :=
  mkPacer (drain_large_queues_ s) (send_padding_if_silent_ s) (pace_audio_ s)
    (ignore_transport_overhead_ s) (fast_retransmissions_ s) (keyframe_flushing_ s) (max_rate s)
    (transport_overhead_per_packet_ s) (send_burst_interval_ s) (last_timestamp_ s) (paused_ s)
    (media_debt_ s) (padding_debt_ s) (pacing_rate_ s) (adjusted_media_rate_ s) (padding_rate_
    s) (prober_ s) (probing_send_failure_ s) (last_process_time_ s) (last_send_time_ s) v
    (seen_first_packet_ s) (packet_queue_ s) (congested_ s) (queue_time_limit_ s)
    (account_for_audio_ s) (include_overhead_ s) (circuit_breaker_threshold_ s).
Definition set_seen_first (v : bool) (s : PacingController) : PacingController :=
  mkPacer (drain_large_queues_ s) (send_padding_if_silent_ s) (pace_audio_ s)
    (ignore_transport_overhead_ s) (fast_retransmissions_ s) (keyframe_flushing_ s) (max_rate s)
    (transport_overhead_per_packet_ s) (send_burst_interval_ s) (last_timestamp_ s) (paused_ s)
    (media_debt_ s) (padding_debt_ s) (pacing_rate_ s) (adjusted_media_rate_ s) (padding_rate_
    s) (prober_ s) (probing_send_failure_ s) (last_process_time_ s) (last_send_time_ s)
    (first_sent_packet_time_ s) v (packet_queue_ s) (congested_ s) (queue_time_limit_ s)
    (account_for_audio_ s) (include_overhead_ s) (circuit_breaker_threshold_ s).
Definition set_queue (v : PrioritizedPacketQueue) (s : PacingController) : PacingController :=
  mkPacer (drain_large_queues_ s) (send_padding_if_silent_ s) (pace_audio_ s)
    (ignore_transport_overhead_ s) (fast_retransmissions_ s) (keyframe_flushing_ s) (max_rate s)
    (transport_overhead_per_packet_ s) (send_burst_interval_ s) (last_timestamp_ s) (paused_ s)
    (media_debt_ s) (padding_debt_ s) (pacing_rate_ s) (adjusted_media_rate_ s) (padding_rate_
    s) (prober_ s) (probing_send_failure_ s) (last_process_time_ s) (last_send_time_ s)
    (first_sent_packet_time_ s) (seen_first_packet_ s) v (congested_ s) (queue_time_limit_ s)
    (account_for_audio_ s) (include_overhead_ s) (circuit_breaker_threshold_ s).
Definition set_congested (v : bool) (s : PacingController) : PacingController :=
  mkPacer (drain_large_queues_ s) (send_padding_if_silent_ s) (pace_audio_ s)
    (ignore_transport_overhead_ s) (fast_retransmissions_ s) (keyframe_flushing_ s) (max_rate s)
    (transport_overhead_per_packet_ s) (send_burst_interval_ s) (last_timestamp_ s) (paused_ s)
    (media_debt_ s) (padding_debt_ s) (pacing_rate_ s) (adjusted_media_rate_ s) (padding_rate_
    s) (prober_ s) (probing_send_failure_ s) (last_process_time_ s) (last_send_time_ s)
    (first_sent_packet_time_ s) (seen_first_packet_ s) (packet_queue_ s) v (queue_time_limit_ s)
    (account_for_audio_ s) (include_overhead_ s) (circuit_breaker_threshold_ s).
Definition set_queue_limit (v : Z) (s : PacingController) : PacingController :=
  mkPacer (drain_large_queues_ s) (send_padding_if_silent_ s) (pace_audio_ s)
    (ignore_transport_overhead_ s) (fast_retransmissions_ s) (keyframe_flushing_ s) (max_rate s)
    (transport_overhead_per_packet_ s) (send_burst_interval_ s) (last_timestamp_ s) (paused_ s)
    (media_debt_ s) (padding_debt_ s) (pacing_rate_ s) (adjusted_media_rate_ s) (padding_rate_
    s) (prober_ s) (probing_send_failure_ s) (last_process_time_ s) (last_send_time_ s)
    (first_sent_packet_time_ s) (seen_first_packet_ s) (packet_queue_ s) (congested_ s) v
    (account_for_audio_ s) (include_overhead_ s) (circuit_breaker_threshold_ s).
Definition set_account_audio (v : bool) (s : PacingController) : PacingController :=
  mkPacer (drain_large_queues_ s) (send_padding_if_silent_ s) (pace_audio_ s)
    (ignore_transport_overhead_ s) (fast_retransmissions_ s) (keyframe_flushing_ s) (max_rate s)
    (transport_overhead_per_packet_ s) (send_burst_interval_ s) (last_timestamp_ s) (paused_ s)
    (media_debt_ s) (padding_debt_ s) (pacing_rate_ s) (adjusted_media_rate_ s) (padding_rate_
    s) (prober_ s) (probing_send_failure_ s) (last_process_time_ s) (last_send_time_ s)
    (first_sent_packet_time_ s) (seen_first_packet_ s) (packet_queue_ s) (congested_ s)
    (queue_time_limit_ s) v (include_overhead_ s) (circuit_breaker_threshold_ s).
Definition set_overhead (v : bool) (s : PacingController) : PacingController :=
  mkPacer (drain_large_queues_ s) (send_padding_if_silent_ s) (pace_audio_ s)
    (ignore_transport_overhead_ s) (fast_retransmissions_ s) (keyframe_flushing_ s) (max_rate s)
    (transport_overhead_per_packet_ s) (send_burst_interval_ s) (last_timestamp_ s) (paused_ s)
    (media_debt_ s) (padding_debt_ s) (pacing_rate_ s) (adjusted_media_rate_ s) (padding_rate_
    s) (prober_ s) (probing_send_failure_ s) (last_process_time_ s) (last_send_time_ s)
    (first_sent_packet_time_ s) (seen_first_packet_ s) (packet_queue_ s) (congested_ s)
    (queue_time_limit_ s) (account_for_audio_ s) v (circuit_breaker_threshold_ s).
Definition set_threshold (v : Z) (s : PacingController) : PacingController :=
  mkPacer (drain_large_queues_ s) (send_padding_if_silent_ s) (pace_audio_ s)
    (ignore_transport_overhead_ s) (fast_retransmissions_ s) (keyframe_flushing_ s) (max_rate s)
    (transport_overhead_per_packet_ s) (send_burst_interval_ s) (last_timestamp_ s) (paused_ s)
    (media_debt_ s) (padding_debt_ s) (pacing_rate_ s) (adjusted_media_rate_ s) (padding_rate_
    s) (prober_ s) (probing_send_failure_ s) (last_process_time_ s) (last_send_time_ s)
    (first_sent_packet_time_ s) (seen_first_packet_ s) (packet_queue_ s) (congested_ s)
    (queue_time_limit_ s) (account_for_audio_ s) (include_overhead_ s) v.

(** src/qos/pacing_controller.h:93-121 [PacingController::Configuration] *)
Record Configuration := mkConfiguration {
  drain_large_queues : bool;
  queue_time_limit : Z;
  keyframe_flushing : bool;
  prioritize_audio_retransmission : bool;
  packet_queue_ttl : PacketQueueTTL;
  send_burst_interval : Z;
}.

(** src/qos/pacing_controller.h:90-121 [PacingController::DefaultConfiguration] *)
Definition DefaultConfiguration : Configuration :=
  mkConfiguration true 2000000 false false (mkTTL PlusInfinity PlusInfinity PlusInfinity) 40000.

(** [t0] and [t1] are the two readings of the clock. *)
(** src/qos/pacing_controller.cc:54-90 [PacingController::PacingController] *)
Definition new_pacer (c : Configuration) (t0 t1 : Z) : PacingController :=
  mkPacer (drain_large_queues c) true false false true (keyframe_flushing c) 100000000 0
    (send_burst_interval c) t0 false 0 0 0 0 0 new_prober false t1 t1 None false
    (new_queue t1 (prioritize_audio_retransmission c) (packet_queue_ttl c)) false
    (queue_time_limit c) false false (Z.shiftl 1 16).

(** ** Reading the queue *)

(** src/qos/prioritized_packet_queue.cc:238-244 [PrioritizedPacketQueue::Empty] *)
Definition QueueEmpty (s : PacingController) : bool := size_packets_ (totals (packet_queue_ s)) =? 0.

(** src/qos/pacing_controller.cc:275-282 [PacingController::QueueSizeData] *)
Definition QueueSizeData (s : PacingController) : Z :=
  let size := size_payload_ (totals (packet_queue_ s)) in
  if include_overhead_ s
  then unit_add size
         (unit_mul (transport_overhead_per_packet_ s) (size_packets_ (totals (packet_queue_ s))))
  else size.

(** src/qos/pacing_controller.cc:262-264 [PacingController::ExpectedQueueTime] *)
Definition ExpectedQueueTime (s : PacingController) : option Z :=
  if adjusted_media_rate_ s =? 0 then None
  else Some (size_over_rate (QueueSizeData s) (adjusted_media_rate_ s)).

(** src/qos/pacing_controller.cc:284-286 [PacingController::CurrentBufferLevel] *)
Definition CurrentBufferLevel (s : PacingController) : Z := Z.max (media_debt_ s) (padding_debt_ s).

(** src/qos/pacing_controller.cc:728-744 [PacingController::NextUnpacedSendTime] *)
Definition NextUnpacedSendTime (s : PacingController) : option Z :=
  audio ← (if negb (pace_audio_ s) then LeadingPacketEnqueueTime kAudio (packet_queue_ s)
           else Some MinusInfinity);
  if IsFinite audio then Some audio else
  retransmission ← (if fast_retransmissions_ s
                    then LeadingPacketEnqueueTimeForRetransmission (packet_queue_ s)
                    else Some MinusInfinity);
  if IsFinite retransmission then Some retransmission else Some MinusInfinity.

(** ** The budget *)

(** src/qos/pacing_controller.cc:684-687 [PacingController::UpdateBudgetWithElapsedTime] *)
Definition UpdateBudgetWithElapsedTime (delta : Z) (s : PacingController) : PacingController :=
  let media := unit_sub (media_debt_ s)
    (Z.min (media_debt_ s) (rate_times_duration (adjusted_media_rate_ s) delta)) in
  let padding := unit_sub (padding_debt_ s)
    (Z.min (padding_debt_ s) (rate_times_duration (padding_rate_ s) delta)) in
  set_padding_debt padding (set_media_debt media s).

(** src/qos/pacing_controller.cc:695-698 [PacingController::UpdatePaddingBudgetWithSentData] *)
Definition UpdatePaddingBudgetWithSentData (size : Z) (s : PacingController) : PacingController :=
  set_padding_debt
    (Z.min (unit_add (padding_debt_ s) size) (rate_times_duration (padding_rate_ s) kMaxDebtInTime)) s.

(** src/qos/pacing_controller.cc:689-693 [PacingController::UpdateBudgetWithSentData] *)
Definition UpdateBudgetWithSentData (size : Z) (s : PacingController) : PacingController :=
  UpdatePaddingBudgetWithSentData size
    (set_media_debt
      (Z.min (unit_add (media_debt_ s) size)
             (rate_times_duration (adjusted_media_rate_ s) kMaxDebtInTime)) s).

(** src/qos/pacing_controller.cc:296-310 [PacingController::UpdateTimeAndGetElapsed] *)
Definition UpdateTimeAndGetElapsed (now : Z) (s : PacingController) : Z * PacingController :=
  if (last_process_time_ s =? MinusInfinity) || (now <? last_process_time_ s) then (0, s) else
  let elapsed_time := timestamp_diff now (last_process_time_ s) in
  (if kMaxElapsedTime <? elapsed_time then kMaxElapsedTime else elapsed_time, set_last_process now s).

(** [UpdateBudgetWithElapsedTime(UpdateTimeAndGetElapsed(now))]. *)
Definition AdvanceTo (now : Z) (s : PacingController) : PacingController :=
  let '(elapsed_time, s) := UpdateTimeAndGetElapsed now s in
  UpdateBudgetWithElapsedTime elapsed_time s.

(** src/qos/pacing_controller.cc:312-321 [PacingController::ShouldSendKeepalive] *)
Definition ShouldSendKeepalive (now : Z) (s : PacingController) : bool :=
  (send_padding_if_silent_ s || paused_ s || congested_ s || negb (seen_first_packet_ s)) &&
  (kCongestedPacketInterval <=? timestamp_diff now (last_send_time_ s)).

(** src/qos/pacing_controller.cc:670-682 [PacingController::OnPacketSent] *)
Definition OnPacketSent (packet_type : RtpPacketMediaType) (packet_size send_time : Z)
    (s : PacingController) : PacingController :=
  let s := match first_sent_packet_time_ s with
           | None => if bool_decide (packet_type = kPadding) then s
                     else set_first_sent (Some send_time) s
           | Some _ => s
           end in
  let audio_packet := bool_decide (packet_type = kAudio) in
  let s := if (negb audio_packet || account_for_audio_ s) && (0 <? packet_size)
           then UpdateBudgetWithSentData packet_size s else s in
  set_last_send send_time s.

(** src/qos/pacing_controller.cc:599-622 [PacingController::PaddingToAdd] *)
Definition PaddingToAdd (recommended_probe_size data_sent : Z) (s : PacingController) : Z :=
  if negb (QueueEmpty s) then 0
  else if congested_ s then 0
  else if negb (recommended_probe_size =? 0) then
    if data_sent <? recommended_probe_size then unit_sub recommended_probe_size data_sent else 0
  else if (0 <? padding_rate_ s) && (padding_debt_ s =? 0)
  then rate_times_duration (padding_rate_ s) kTargetPaddingDuration
  else 0.

(** src/qos/pacing_controller.cc:704-726 [PacingController::MaybeUpdateMediaRateDueToLongQueue] *)
Definition MaybeUpdateMediaRateDueToLongQueue (now : Z) (s : PacingController) : PacingController :=
  let s := set_adjusted_rate (pacing_rate_ s) s in
  if negb (drain_large_queues_ s) then s else
  let queue_size_data := QueueSizeData s in
  if 0 <? queue_size_data then
    let q := packet_queue_ s in
    let q := set_totals (UpdateAverageQueueTime now (totals q)) q in
    let s := set_queue q s in
    let avg_time_left := Z.max 1000 (unit_sub (queue_time_limit_ s) (AverageQueueTime q)) in
    let min_rate_needed := size_over_duration queue_size_data avg_time_left in
    if pacing_rate_ s <? min_rate_needed then set_adjusted_rate min_rate_needed s else s
  else s.

(** src/qos/pacing_controller.cc:254-260 [PacingController::ClearProbingSendFailure] *)
Definition ClearProbingSendFailure (s : PacingController) : PacingController :=
  if negb (probing_send_failure_ s) then s else set_send_failure false s.

(** ** When to send next *)

(** [media_debt / rate] and the like. *)
(** src/common/api/units/data_rate.h:98-100 [operator/] *)
Definition drain_time (debt rate : Z) : option Z :=
  if rate =? 0 then None else Some (size_over_rate debt rate).

(** With packets to pace. *)
(** src/qos/pacing_controller.cc:358-369 [PacingController::NextSendTime] *)
Definition next_media_time (s : PacingController) : option Z :=
  drain ← drain_time (media_debt_ s) (adjusted_media_rate_ s);
  burst ← drain_time kMaxBurstSize (adjusted_media_rate_ s);
  let send_burst_interval := Z.min (send_burst_interval_ s) burst in
  Some (timestamp_add (last_process_time_ s) (if drain <? send_burst_interval then 0 else drain)).

(** With nothing queued and a padding rate. *)
(** src/qos/pacing_controller.cc:370-384 [PacingController::NextSendTime] *)
Definition next_padding_time (s : PacingController) : option Z :=
  media ← drain_time (media_debt_ s) (adjusted_media_rate_ s);
  padding ← drain_time (padding_debt_ s) (padding_rate_ s);
  let drain := Z.max media padding in
  let drain := if (drain =? 0) && (negb (media_debt_ s =? 0) || negb (padding_debt_ s =? 0))
               then 1 else drain in
  Some (timestamp_add (last_process_time_ s) drain).

(** [now] is what the call to [CurrentTime] gave. *)
(** src/qos/pacing_controller.cc:325-394 [PacingController::NextSendTime] *)
Definition next_send_time (now : Z) (s : PacingController) : option Z :=
  let apply_cluster_expiration t := Z.min t (NextClusterExpiration (prober_ s)) in
  if paused_ s
  then Some (apply_cluster_expiration (timestamp_add (last_send_time_ s) kPausedProcessInterval)) else
  let probe_time := if is_probing (prober_ s) && negb (probing_send_failure_ s)
                    then NextProbeTime (prober_ s) else PlusInfinity in
  if negb (probe_time =? PlusInfinity)
  then Some (apply_cluster_expiration (if probe_time =? MinusInfinity then now else probe_time)) else
  unpaced_send_time ← NextUnpacedSendTime s;
  if IsFinite unpaced_send_time then Some (apply_cluster_expiration unpaced_send_time) else
  if congested_ s || negb (seen_first_packet_ s)
  then Some (apply_cluster_expiration (timestamp_add (last_send_time_ s) kCongestedPacketInterval)) else
  next ← (if (0 <? adjusted_media_rate_ s) && negb (QueueEmpty s) then next_media_time s
          else if (0 <? padding_rate_ s) && QueueEmpty s then next_padding_time s
          else Some (timestamp_add (last_process_time_ s) kPausedProcessInterval));
  let next := if send_padding_if_silent_ s
              then Z.min next (timestamp_add (last_send_time_ s) kPausedProcessInterval) else next in
  Some (apply_cluster_expiration next).

Section pacer.
Context {W : Type} {clk : Clock W} {sender : PacketSender W}.

Definition P (A : Type) : Type := M (PacingController * W) A.

(** Reading and writing members; calling out. *)
Definition member {A} (f : PacingController -> A) : P A := gets (fun s => f s.1).
Definition update (f : PacingController -> PacingController) : P unit :=
  modify (fun s => (f s.1, s.2)).
Definition outside {A} (f : W -> A * W) : P A := fun s => let '(a, w) := f s.2 in Some (a, (s.1, w)).
Definition tell (f : W -> W) : P unit := modify (fun s => (s.1, f s.2)).

(** src/qos/pacing_controller.cc:148-159 [PacingController::CurrentTime] *)
Definition CurrentTime : P Z :=
  time ← outside read_clock;
  last ← member last_timestamp_;
  let time := if time <? last then last else time in
  update (set_last_timestamp time) ;;
  mret time.

(** src/qos/pacing_controller.cc:323-395 [PacingController::NextSendTime] *)
Definition NextSendTime : P Z :=
  now ← CurrentTime;
  s ← member id;
  lift (next_send_time now s).

(** ** Enqueuing *)

(** src/qos/pacing_controller.cc:195-203 [PacingController::EnqueuePacket] *)
Definition flush_for_keyframe (p : RtpPacketToSend) (s : PacingController)
    : option PacingController :=
  if keyframe_flushing_ s && bool_decide (packet_type_ p = Some kVideo) && is_key_frame_ p &&
     is_first_packet_of_frame_ p && negb (HasKeyframePackets (Ssrc p) (packet_queue_ s))
  then q ← RemovePacketsForSsrc (Ssrc p) (packet_queue_ s); Some (set_queue q s)
  else Some s.

(** src/qos/pacing_controller.cc:205-208 [PacingController::EnqueuePacket] *)
Definition note_incoming (p : RtpPacketToSend) (s : PacingController) : PacingController :=
  let s := set_prober (OnIncomingPacket (payload_size_ (rtp_packet p)) (prober_ s)) s in
  if is_probing (prober_ s) then ClearProbingSendFailure s else s.

(** An update that may be undefined. *)
Definition try_update (f : PacingController -> option PacingController) : P unit :=
  s ← member id;
  s ← lift (f s);
  update (fun _ => s).

(** src/qos/pacing_controller.cc:211-223 [PacingController::EnqueuePacket] *)
Definition fast_forward (now : Z) : P unit :=
  empty ← member QueueEmpty;
  if (empty : bool) then
    next ← NextSendTime;
    let target_process_time := if IsFinite next then Z.min now next else now in
    update (AdvanceTo target_process_time)
  else mret tt.

(** src/qos/pacing_controller.cc:225-229 [PacingController::EnqueuePacket] *)
Definition push_packet (now : Z) (p : RtpPacketToSend) (s : PacingController)
    : option PacingController :=
  q ← Push now p (packet_queue_ s);
  Some (MaybeUpdateMediaRateDueToLongQueue now (set_seen_first true (set_queue q s))).

(** src/qos/pacing_controller.cc:194-230 [PacingController::EnqueuePacket] *)
Definition EnqueuePacket (p : RtpPacketToSend) : P unit :=
  try_update (flush_for_keyframe p) ;;
  update (note_incoming p) ;;
  now ← CurrentTime;
  fast_forward now ;;
  try_update (push_packet now p).

(** src/qos/pacing_controller.cc:513-516 [PacingController::ProcessPackets] *)
Definition send_packet (p : RtpPacketToSend) (info : PacedPacketInfo) : P unit :=
  tell (SendPacket p info) ;;
  fec ← outside FetchFec;
  for_each EnqueuePacket fec.

(** ** Processing *)

(** src/qos/pacing_controller.cc:646-665 [PacingController::GetPendingPacket] *)
Definition may_send (is_probe : bool) (target_send_time now : Z) (s : PacingController)
    : option bool :=
  unpaced ← NextUnpacedSendTime s;
  if IsInfinite unpaced && negb is_probe then
    if congested_ s then Some false
    else if (now <=? target_send_time) && (send_burst_interval_ s =? 0) then
      flush_time ← drain_time (media_debt_ s) (adjusted_media_rate_ s);
      Some (negb (target_send_time <? timestamp_add now flush_time))
    else Some true
  else Some true.

(** src/qos/pacing_controller.cc:667-667 [PacingController::GetPendingPacket] *)
Definition pop_packet : P (option RtpPacketToSend) :=
  s ← member id;
  '(p, q) ← lift (Pop (packet_queue_ s));
  update (set_queue q) ;;
  mret p.

(** src/qos/pacing_controller.cc:642-668 [PacingController::GetPendingPacket] *)
Definition get_queued_packet (is_probe : bool) (target_send_time now : Z)
    : P (option RtpPacketToSend) :=
  s ← member id;
  if QueueEmpty s then mret None else
  may ← lift (may_send is_probe target_send_time now s);
  if (may : bool) then pop_packet else mret None.

(** src/qos/pacing_controller.cc:624-668 [PacingController::GetPendingPacket] *)
Definition GetPendingPacket (info : PacedPacketInfo) (target_send_time now : Z)
    : P (option RtpPacketToSend) :=
  let is_probe := negb (probe_cluster_id info =? kNotAProbe) in
  if is_probe && (probe_cluster_bytes_sent info =? 0) then
    padding ← outside (GeneratePadding 1);
    match padding with
    | p :: _ => mret (Some p)
    | [] => get_queued_packet is_probe target_send_time now
    end
  else get_queued_packet is_probe target_send_time now.

(** The bytes that a sent packet costs. *)
(** src/qos/pacing_controller.cc:505-511 [PacingController::ProcessPackets] *)
Definition sent_size (p : RtpPacketToSend) (s : PacingController) : Z :=
  let size := payload_size_ (rtp_packet p) + padding_size_ (rtp_packet p) in
  if include_overhead_ s
  then unit_add size (unit_add (payload_offset_ (rtp_packet p)) (transport_overhead_per_packet_ s))
  else size.

(** src/qos/pacing_controller.cc:524-524 [PacingController::ProcessPackets] *)
Definition add_probe_bytes (size : Z) (i : PacedPacketInfo) : PacedPacketInfo :=
  mkPaced (send_bitrate i) (probe_cluster_id i) (probe_cluster_min_probes i)
    (probe_cluster_min_bytes i) (s32 (probe_cluster_bytes_sent i + size)).

(** Replaying padding from too long ago is cut short. *)
(** src/qos/pacing_controller.cc:473-479 [PacingController::ProcessPackets] *)
Definition limit_replay (now target_send_time : Z) : P Z :=
  if kMaxPaddingReplayDuration <? timestamp_diff now target_send_time then
    let target_send_time := timestamp_sub now kMaxPaddingReplayDuration in
    update (fun s => set_last_process (Z.max (last_process_time_ s) target_send_time) s) ;;
    mret target_send_time
  else mret target_send_time.

(** What the loop of [ProcessPackets] keeps in local variables. *)
(** src/qos/pacing_controller.cc:461-465 [PacingController::ProcessPackets] *)
Record SendLoop := mkLoop {
  target_send_time : Z;
  pacing_info : PacedPacketInfo;
  data_sent : Z;
  packets_sent : Z;
}.

(** How the loop goes on after a packet. *)
Inductive LoopStep := Continue (l : SendLoop) | Break (l : SendLoop).

(** No packet may be sent: is it time for padding? *)
(** src/qos/pacing_controller.cc:472-502 [PacingController::ProcessPackets] *)
Definition nothing_to_send (recommended_probe_size now : Z) (l : SendLoop) : P LoopStep :=
  target ← limit_replay now (target_send_time l);
  let l := mkLoop target (pacing_info l) (data_sent l) (packets_sent l) in
  padding_to_add ← member (PaddingToAdd recommended_probe_size (data_sent l));
  if 0 <? padding_to_add then
    padding_packets ← outside (GeneratePadding padding_to_add);
    match padding_packets with
    | [] => update (UpdatePaddingBudgetWithSentData padding_to_add) ;; mret (Break l)
    | _ => for_each EnqueuePacket padding_packets ;; mret (Continue l)
    end
  else mret (Break l).

(** src/qos/pacing_controller.cc:532-542 [PacingController::ProcessPackets] *)
Definition next_target (is_probing : bool) (now : Z) (l : SendLoop) : P LoopStep :=
  target ← NextSendTime;
  if (now <? target) && negb is_probing
  then mret (Break (mkLoop target (pacing_info l) (data_sent l) (packets_sent l)))
  else
    let target := if now <? target then now else target in
    update (AdvanceTo target) ;;
    mret (Continue (mkLoop target (pacing_info l) (data_sent l) (packets_sent l))).

(** src/qos/pacing_controller.cc:503-543 [PacingController::ProcessPackets] *)
Definition send_one (is_probing : bool) (recommended_probe_size now : Z) (p : RtpPacketToSend)
    (l : SendLoop) : P LoopStep :=
  packet_type ← lift (packet_type_ p);
  packet_size ← member (sent_size p);
  send_packet p (pacing_info l) ;;
  let data := unit_add (data_sent l) packet_size in
  update (OnPacketSent packet_type packet_size now) ;;
  let info := if is_probing then add_probe_bytes packet_size (pacing_info l) else pacing_info l in
  let l := mkLoop (target_send_time l) info data (packets_sent l + 1) in
  if is_probing && (recommended_probe_size <=? data) then mret (Break l)
  else next_target is_probing now l.

(** src/qos/pacing_controller.cc:466-544 [PacingController::ProcessPackets] *)
Definition send_step (is_probing : bool) (recommended_probe_size now : Z) (l : SendLoop)
    : P LoopStep :=
  rtp_packet ← GetPendingPacket (pacing_info l) (target_send_time l) now;
  match rtp_packet with
  | None => nothing_to_send recommended_probe_size now l
  | Some p => send_one is_probing recommended_probe_size now p l
  end.

(** The iterations left before the circuit breaker are the fuel; [None] is the
    breaker. *)
(** src/qos/pacing_controller.cc:466-544 [PacingController::ProcessPackets] *)
Fixpoint send_loop (iterations : nat) (is_probing : bool) (recommended_probe_size now : Z)
    (l : SendLoop) : P (option SendLoop) :=
  match iterations with
  | O => mret None
  | S iterations =>
      step ← send_step is_probing recommended_probe_size now l;
      match step with
      | Break l => mret (Some l)
      | Continue l => send_loop iterations is_probing recommended_probe_size now l
      end
  end.

(** src/qos/pacing_controller.cc:414-421 [PacingController::ProcessPackets] *)
Fixpoint send_keepalive (packets : list RtpPacketToSend) (sent : Z) : P Z :=
  match packets with
  | [] => mret sent
  | p :: packets =>
      send_packet p not_a_probe ;;
      send_keepalive packets
        (unit_add sent (payload_size_ (rtp_packet p) + padding_size_ (rtp_packet p)))
  end.

(** src/qos/pacing_controller.cc:407-424 [PacingController::ProcessPackets] *)
Definition keepalive (now : Z) : P unit :=
  should ← member (ShouldSendKeepalive now);
  if (should : bool) then
    seen ← member seen_first_packet_;
    sent ← (if (seen : bool) then
              packets ← outside (GeneratePadding 1);
              send_keepalive packets 0
            else mret 0);
    update (OnPacketSent kPadding sent now)
  else mret tt.

(** src/qos/pacing_controller.cc:403-405 [PacingController::ProcessPackets] *)
Definition expire_clusters (now : Z) (s : PacingController) : PacingController :=
  let '(removed, prober) := RemoveExpiredClusters now (prober_ s) in
  let s := set_prober prober s in
  if removed then set_send_failure false s else s.

(** The probe to send, if any: its description and recommended size. *)
(** src/qos/pacing_controller.cc:446-459 [PacingController::ProcessPackets] *)
Definition current_probe (now : Z) (s : PacingController)
    : (bool * PacedPacketInfo * Z) * PacingController :=
  if is_probing (prober_ s) then
    let '(info, prober) := CurrentCluster now (prober_ s) in
    let info := default not_a_probe info in
    let s := set_prober prober s in
    if negb (probe_cluster_id info =? kNotAProbe)
    then ((true, info, RecommendedMinProbeSize prober), s)
    else ((false, info, 0), s)
  else ((false, not_a_probe, 0), s).

(** src/qos/pacing_controller.cc:571-591 [PacingController::ProcessPackets] *)
Definition finish_probe (is_probing : bool) (l : SendLoop) : P unit :=
  if is_probing then
    let send_failure := data_sent l =? 0 in
    update (set_send_failure send_failure) ;;
    if send_failure then mret tt else
    now ← CurrentTime;
    try_update (fun s =>
      prober ← ProbeSent now (data_sent l) (packets_sent l) (prober_ s);
      Some (set_prober prober s))
  else mret tt.

(** src/qos/pacing_controller.cc:441-596 [PacingController::ProcessPackets] *)
Definition process (now target_send_time : Z) : P unit :=
  update (fun s =>
    let '(elapsed_time, s) := UpdateTimeAndGetElapsed target_send_time s in
    if 0 <? elapsed_time then UpdateBudgetWithElapsedTime elapsed_time s else s) ;;
  s ← member id;
  let '((is_probing, info, recommended_probe_size), s) := current_probe now s in
  update (fun _ => s) ;;
  threshold ← member circuit_breaker_threshold_;
  done ← send_loop (Z.to_nat threshold) is_probing recommended_probe_size now
           (mkLoop target_send_time info 0 0);
  match done with
  | None => update (fun s => set_last_process now (set_last_send now s))
  | Some l =>
      finish_probe is_probing l ;;
      now ← CurrentTime;
      update (MaybeUpdateMediaRateDueToLongQueue now)
  end.

(** src/qos/pacing_controller.cc:426-596 [PacingController::ProcessPackets] *)
Definition process_unless_early (now : Z) : P unit :=
  s ← member id;
  if paused_ s then mret tt else
  let early_execute_margin := if is_probing (prober_ s) then kMaxEarlyProbeProcessing else 0 in
  target ← NextSendTime;
  if timestamp_add now early_execute_margin <? target
  then update (AdvanceTo now)
  else process now target.

(** src/qos/pacing_controller.cc:397-597 [PacingController::ProcessPackets] *)
Definition ProcessPackets : P unit :=
  now ← CurrentTime;
  update (expire_clusters now) ;;
  keepalive now ;;
  process_unless_early now ;;
  tell OnBatchComplete.

(** ** The other operations *)

(** src/qos/pacing_controller.cc:94-102 [PacingController::CreateProbeClusters] *)
Definition CreateProbeClusters (configs : list ProbeClusterConfig) : P unit :=
  update (fun s => set_prober (fold_left (fun b c => CreateProbeCluster c b) configs (prober_ s)) s) ;;
  match configs with
  | [] => mret tt
  | _ => update ClearProbingSendFailure
  end.

(** src/qos/pacing_controller.cc:104-110 [PacingController::Pause] *)
Definition Pause : P unit :=
  update (set_paused true) ;;
  now ← CurrentTime;
  update (fun s => set_queue (SetPauseState true now (packet_queue_ s)) s).

(** src/qos/pacing_controller.cc:112-123 [PacingController::Resume] *)
Definition Resume : P unit :=
  now ← CurrentTime;
  update (fun s =>
    let s := if paused_ s then set_last_process now s else s in
    let s := set_paused false s in
    set_queue (SetPauseState false now (packet_queue_ s)) s).

(** src/qos/pacing_controller.cc:127-136 [PacingController::SetCongested] *)
Definition SetCongested (congested : bool) : P unit :=
  s ← member id;
  let congestion_cleared := congested_ s && negb congested in
  (if congestion_cleared then now ← CurrentTime; update (AdvanceTo now) else mret tt) ;;
  update (set_congested congested) ;;
  if congestion_cleared then update ClearProbingSendFailure else mret tt.

(** src/qos/pacing_controller.cc:138-140 [PacingController::SetCircuitBreakerThreshold] *)
Definition SetCircuitBreakerThreshold (num_iterations : Z) : P unit :=
  update (set_threshold num_iterations).

(** src/qos/pacing_controller.cc:142-144 [PacingController::RemovePacketsForSsrc] *)
Definition PacerRemovePacketsForSsrc (ssrc : Z) : P unit :=
  try_update (fun s => q ← RemovePacketsForSsrc ssrc (packet_queue_ s); Some (set_queue q s)).

(** src/qos/pacing_controller.cc:161-163 [PacingController::SetProbingEnabled] *)
Definition SetProbingEnabled (enabled : bool) : P unit :=
  update (fun s => set_prober (SetEnabled enabled (prober_ s)) s).

(** src/qos/pacing_controller.cc:165-168 [PacingController::AbortProbing] *)
Definition AbortProbing : P unit :=
  update (fun s => set_send_failure false (set_prober (ProberAbortProbing (prober_ s)) s)).

(** [std::max(pacing_rate, padding_rate) * 1.1]; only logging looks at it. *)
(** src/qos/pacing_controller.cc:179-185 [PacingController::SetPacingRates] *)
Definition raise_max_rate (pacing_rate padding_rate : Z) (s : PacingController)
    : option PacingController :=
  if (max_rate s <? pacing_rate) || (max_rate s <? padding_rate) then
    m ← llround (f64_mul (f64_of_Z (Z.max pacing_rate padding_rate)) (f64_literal 11 10));
    Some (set_max_rate m s)
  else Some s.

(** src/qos/pacing_controller.cc:170-192 [PacingController::SetPacingRates] *)
Definition SetPacingRates (pacing_rate padding_rate : Z) : P unit :=
  let padding_rate := if pacing_rate <? padding_rate then pacing_rate else padding_rate in
  try_update (raise_max_rate pacing_rate padding_rate) ;;
  update (fun s => set_padding_rate padding_rate (set_pacing_rate pacing_rate s)) ;;
  now ← CurrentTime;
  update (MaybeUpdateMediaRateDueToLongQueue now).

(** src/qos/pacing_controller.cc:232-234 [PacingController::SetAccountForAudioPackets] *)
Definition SetAccountForAudioPackets (account : bool) : P unit := update (set_account_audio account).

(** src/qos/pacing_controller.cc:236-236 [PacingController::SetIncludeOverhead] *)
Definition SetIncludeOverhead : P unit := update (set_overhead true).

(** src/qos/pacing_controller.cc:238-241 [PacingController::SetTransportOverhead] *)
Definition SetTransportOverhead (overhead_per_packet : Z) : P unit :=
  update (fun s => if ignore_transport_overhead_ s then s
                   else set_transport_overhead overhead_per_packet s).

(** src/qos/pacing_controller.cc:243-245 [PacingController::SetSendBurstInterval] *)
Definition SetSendBurstInterval (burst_interval : Z) : P unit :=
  update (set_burst_interval burst_interval).

(** src/qos/pacing_controller.cc:247-252 [PacingController::SetAllowProbeWithoutMediaPacket] *)
Definition SetAllowProbeWithoutMediaPacket (allow : bool) : P unit :=
  update (fun s =>
    let s := set_prober (ProberSetAllowProbeWithoutMediaPacket allow (prober_ s)) s in
    if allow && is_probing (prober_ s) then ClearProbingSendFailure s else s).

(** src/qos/pacing_controller.cc:700-702 [PacingController::SetQueueTimeLimit] *)
Definition SetQueueTimeLimit (limit : Z) : P unit := update (set_queue_limit limit).

End pacer.
