(* ===== verification/PacerOk.v ===== *)
(** * Correctness of the pacing controller

    The invariant of [PacingController], kept by every operation whatever the
    clock and the packet sender do within their contract, so that no operation
    divides by zero or misuses the packet queue; and what the pacer promises
    about when packets leave. *)

From Stdlib Require Import SpecFloat.
From stdpp Require Import gmap.
From S2P Require Import Prelude StateMonad Units NetworkTypes Float32 RtpPacket RtpToSend PacketQueue Prober.
From S2P Require Import PacketQueueOk Pacer.

(** ** What the pacer relies on *)

(** Packets with a type, of at most 2 kB, with at least the first word of a
    header. *)
Definition kMaxPacketBytes : Z := 2000.
Definition kMaxOverhead : Z := 500.
Definition small_packet (p : RtpPacketToSend) : Prop :=
  is_Some (packet_type_ p) /\ 0 <= payload_size_ (rtp_packet p) /\ 0 <= padding_size_ (rtp_packet p) /\
  0 <= payload_offset_ (rtp_packet p) /\
  payload_size_ (rtp_packet p) + padding_size_ (rtp_packet p) + payload_offset_ (rtp_packet p) <= kMaxPacketBytes /\
  4 <= zlen (buffer_ (rtp_packet p)).

(** Padding comes in batches of at most a thousand packets. *)
Definition kMaxPadding : Z := 1000.

(** The contract of the clock and of the packet sender: times within the range
    of the queue, well-formed padding, and no FEC packets, as in
    [src/transport/paced_sender/paced_sender.h]. *)
Class SenderLaws (W : Type) {clk : Clock W} {sender : PacketSender W} := {
  world_ok : W -> Prop;
  clock_ok : forall w, world_ok w -> 0 <= (read_clock w).1 <= kMaxTime /\ world_ok (read_clock w).2;
  SendPacket_ok : forall p i w, small_packet p -> world_ok w -> world_ok (SendPacket p i w);
  FetchFec_ok : forall w, world_ok w -> (FetchFec w).1 = [] /\ world_ok (FetchFec w).2;
  GeneratePadding_ok : forall n w, world_ok w ->
    Forall small_packet (GeneratePadding n w).1 /\ zlen (GeneratePadding n w).1 <= kMaxPadding /\
    world_ok (GeneratePadding n w).2;
  OnBatchComplete_ok : forall w, world_ok w -> world_ok (OnBatchComplete w);
}.

(** ** Lemmas: the queue as the pacer sees it *)

(** The packet in front of a level. *)
Definition leading (i : nat) (q : PrioritizedPacketQueue) : option QueuedPacket :=
  match levels q !! i with Some ((_, p :: _) :: _) => Some p | _ => None end.

Lemma leading_time_ok i none q :
  queue_ok q -> (i < kNumPriorityLevels)%nat ->
  leading_time (Z.of_nat i) none q =
    Some (match leading i q with Some p => enqueue_time p | None => none end).
Proof.
  intros (Hsh & _ & _) Hi. unfold leading, leading_time.
  destruct (shape_level q i Hsh Hi) as [lv Hlv]. rewrite Hlv.
  destruct (level_round q i lv Hlv) as (ss & Hss & -> & ->). cbn [mbind option_bind].
  destruct ss as [|s ss]; [done|]. cbn [level_of map].
  destruct (sh_round q Hsh i _ Hss) as [_ Hin].
  assert (fifo q i s <> []) as Hne by (apply Hin; by left).
  destruct (fifo_stored q i s Hne) as (sq & Hsq & Hps). rewrite Hsq. cbn [mbind option_bind].
  unfold StreamLeadingPacketEnqueueTime. rewrite rd_nat, Hps. cbn [mbind option_bind].
  by destruct (fifo q i s).
Qed.

Lemma leading_in i p q : leading i q = Some p -> p ∈ all (levels q).
Proof.
  unfold leading. destruct (levels q !! i) as [[|[s [|p' ps]] lv]|] eqn:Hi; try done.
  intros [= ->]. rewrite (all_split _ _ _ Hi). cbn. by left.
Qed.

(** Times of arrival are far from the infinities. *)
Lemma enqueue_time_finite q p :
  queue_ok q -> p ∈ all (levels q) -> - kMaxTime <= enqueue_time p <= kMaxTime.
Proof.
  intros (_ & Ha & _) Hp. destruct Ha as [_ _ _ _ _ Hw Hc _ _ _].
  rewrite list.Forall_forall in Hw. specialize (Hw p Hp). unfold waiting in Hw. lia.
Qed.

Lemma QueueEmpty_iff s :
  queue_ok (packet_queue_ s) -> QueueEmpty s = true <-> all (levels (packet_queue_ s)) = [].
Proof.
  intros (_ & Ha & _). unfold QueueEmpty. rewrite (acct_count _ _ _ Ha), Z.eqb_eq.
  unfold zlen. split; [|by intros ->]. intros H. apply length_zero_iff_nil. lia.
Qed.

Lemma Forall_submseteq {A} (P : A -> Prop) l k : l ⊆+ k -> Forall P k -> Forall P l.
Proof.
  intros Hs Hf. apply list.Forall_forall. intros x Hx. rewrite list.Forall_forall in Hf.
  apply Hf. by eapply elem_of_submseteq.
Qed.

(** ** Invariant *)

(** At most so many packets wait; then rates, in bits per second, and debts, in
    bytes, stay where 64-bit products cannot overflow. *)
Definition kMaxPacerQueue : Z := 200000.
Definition kMaxRate : Z := 4000000000000.
Definition kMaxDebt : Z := 250000000000.

Definition queued_small (q : PrioritizedPacketQueue) : Prop :=
  Forall (fun p => small_packet (packet p)) (all (levels q)).

Record pacer_ok (s : PacingController) : Prop := {
  pk_queue : queue_ok (packet_queue_ s);
  pk_clock : last_update_time_ (totals (packet_queue_ s)) <= last_timestamp_ s <= kMaxTime;
  pk_packets : queued_small (packet_queue_ s);
  pk_prober : prober_ok (prober_ s);
  pk_rates : 0 <= padding_rate_ s <= pacing_rate_ s /\ 0 < pacing_rate_ s <= adjusted_media_rate_ s /\
             adjusted_media_rate_ s <= kMaxRate;
  pk_debts : 0 <= media_debt_ s <= kMaxDebt /\ 0 <= padding_debt_ s <= kMaxDebt;
  pk_overhead : 0 <= transport_overhead_per_packet_ s <= kMaxOverhead;
  pk_process : 0 <= last_process_time_ s <= last_timestamp_ s + kMaxEarlyProbeProcessing;
  pk_send : 0 <= last_send_time_ s <= last_timestamp_ s;
}.

Definition queue_len (s : PacingController) : Z := zlen (all (levels (packet_queue_ s))).

(** What is looked at by the invariant has not changed. *)
Ltac keep H := destruct H; split; cbn; assumption.

Lemma queue_clock q : queue_ok q -> 0 <= last_update_time_ (totals q).
Proof. intros (_ & Ha & _). destruct (acct_clock _ _ _ Ha) as (? & ? & _). lia. Qed.

(** A queue in the place of the old one. *)
Lemma pacer_ok_queue q s :
  pacer_ok s -> queue_ok q -> last_update_time_ (totals q) <= last_timestamp_ s -> queued_small q ->
  pacer_ok (set_queue q s).
Proof. intros H Hq Ht Hp. destruct H as [H1 H2 H3 H4 H5 H6 H7 H8 H9]. split; cbn; try assumption. lia. Qed.

Lemma pacer_ok_prober b s : pacer_ok s -> prober_ok b -> pacer_ok (set_prober b s).
Proof. intros H Hb. destruct H. split; cbn; assumption. Qed.

Lemma rate_times_duration_nonneg r d : 0 <= r -> 0 <= d -> 0 <= rate_times_duration r d.
Proof. intros Hr Hd. unfold rate_times_duration. rewrite Z.quot_div_nonneg by nia. apply Z.div_pos; nia. Qed.

(** A debt paid off as far as the budget allows. *)
Lemma unit_sub_paid debt budget :
  0 <= debt <= kMaxDebt -> 0 <= budget -> unit_sub debt (Z.min debt budget) = Z.max 0 (debt - budget).
Proof. unfold kMaxDebt. intros Hd Hb. rewrite unit_sub_small by (unfold small; lia). lia. Qed.

Lemma UpdateBudgetWithElapsedTime_ok d s :
  pacer_ok s -> 0 <= d -> pacer_ok (UpdateBudgetWithElapsedTime d s).
Proof.
  intros [H1 H2 H3 H4 H5 H6 H7 H8 H9] Hd. split; try assumption. cbn [UpdateBudgetWithElapsedTime set_padding_debt set_media_debt
    media_debt_ padding_debt_].
  pose proof (rate_times_duration_nonneg (adjusted_media_rate_ s) d ltac:(lia) Hd).
  pose proof (rate_times_duration_nonneg (padding_rate_ s) d ltac:(lia) Hd).
  rewrite !unit_sub_paid by lia. lia.
Qed.

Lemma unit_add_nonneg a b : 0 <= a -> 0 <= b -> 0 <= unit_add a b.
Proof. intros Ha Hb. unfold unit_add, PlusInfinity, MinusInfinity. repeat case_match; b2p; lia. Qed.

(** A debt never grows past half a second at the rate. *)
Lemma debt_capped debt n rate :
  0 <= debt <= kMaxDebt -> 0 <= n -> 0 <= rate <= kMaxRate ->
  0 <= Z.min (unit_add debt n) (rate_times_duration rate kMaxDebtInTime) <= kMaxDebt.
Proof.
  intros Hd Hn Hr. pose proof (rate_times_duration_nonneg rate kMaxDebtInTime ltac:(lia) ltac:(done)).
  assert (rate_times_duration rate kMaxDebtInTime <= kMaxDebt) as Hc.
  { unfold rate_times_duration, kMaxDebtInTime, kMaxDebt, kMaxRate in *.
    rewrite Z.quot_div_nonneg by lia. zdm. }
  pose proof (unit_add_nonneg debt n ltac:(lia) Hn). lia.
Qed.

Lemma UpdatePaddingBudgetWithSentData_ok n s :
  pacer_ok s -> 0 <= n -> pacer_ok (UpdatePaddingBudgetWithSentData n s).
Proof.
  intros [H1 H2 H3 H4 H5 H6 H7 H8 H9] Hn. split; try assumption. cbn [UpdatePaddingBudgetWithSentData set_padding_debt
    media_debt_ padding_debt_]. split; [lia|]. apply debt_capped; lia.
Qed.

Lemma UpdateBudgetWithSentData_ok n s : pacer_ok s -> 0 <= n -> pacer_ok (UpdateBudgetWithSentData n s).
Proof.
  intros H Hn. unfold UpdateBudgetWithSentData. apply UpdatePaddingBudgetWithSentData_ok; [|done].
  destruct H as [H1 H2 H3 H4 H5 H6 H7 H8 H9]. split; try assumption. cbn [set_media_debt media_debt_ padding_debt_].
  split; [|lia]. apply debt_capped; lia.
Qed.

(** The time since the last processing, at most two seconds. *)
Lemma UpdateTimeAndGetElapsed_spec now s :
  pacer_ok s -> now <= last_timestamp_ s + kMaxEarlyProbeProcessing ->
  UpdateTimeAndGetElapsed now s =
    if now <? last_process_time_ s then (0, s)
    else (Z.min (now - last_process_time_ s) kMaxElapsedTime, set_last_process now s).
Proof.
  intros H Hnow. pose proof (pk_process s H) as Hp. pose proof (pk_clock s H) as Hc.
  unfold UpdateTimeAndGetElapsed, kMaxTime, kMaxEarlyProbeProcessing, kMaxElapsedTime in *.
  destruct (Z.eqb_spec (last_process_time_ s) MinusInfinity) as [He|]; [rewrite He in Hp; unfold MinusInfinity in Hp; lia|].
  cbn [orb]. case_match; [done|]. b2p.
  rewrite timestamp_diff_small by (unfold small; lia). f_equal. case_match; b2p; lia.
Qed.

Lemma UpdateTime_ok now s :
  pacer_ok s -> now <= last_timestamp_ s + kMaxEarlyProbeProcessing ->
  0 <= (UpdateTimeAndGetElapsed now s).1 /\ pacer_ok (UpdateTimeAndGetElapsed now s).2.
Proof.
  intros H Hnow. rewrite UpdateTimeAndGetElapsed_spec by done. pose proof (pk_process s H).
  case_match; b2p; [by split|]. cbn [fst snd]. split; [unfold kMaxElapsedTime; lia|].
  destruct H. split; cbn; try assumption. lia.
Qed.

Lemma AdvanceTo_ok now s :
  pacer_ok s -> now <= last_timestamp_ s + kMaxEarlyProbeProcessing -> pacer_ok (AdvanceTo now s).
Proof.
  intros H Hnow. unfold AdvanceTo. destruct (UpdateTime_ok now s H Hnow) as [He H'].
  destruct (UpdateTimeAndGetElapsed now s). by apply UpdateBudgetWithElapsedTime_ok.
Qed.

Lemma OnPacketSent_ok ty n t s :
  pacer_ok s -> 0 <= n -> 0 <= t <= last_timestamp_ s -> pacer_ok (OnPacketSent ty n t s).
Proof.
  intros H Hn Ht. unfold OnPacketSent.
  set (s1 := match first_sent_packet_time_ s with Some _ => s | None => _ end).
  assert (pacer_ok s1) as H1 by (subst s1; repeat case_match; try done; keep H).
  assert (last_timestamp_ s1 = last_timestamp_ s) as Hs by (subst s1; by repeat case_match).
  assert (forall s, pacer_ok s -> t <= last_timestamp_ s -> pacer_ok (set_last_send t s)) as Hl.
  { intros s' [] Ht'. split; cbn; try assumption. lia. }
  case_if; apply Hl; try done; [by apply UpdateBudgetWithSentData_ok|cbn; lia|lia].
Qed.

(** The rate is raised for a long queue, but not past [kMaxRate]. *)
Lemma QueueSizeData_bound s :
  pacer_ok s -> queue_len s <= kMaxPacerQueue -> 0 <= QueueSizeData s <= 500000000.
Proof.
  intros [(Hsh & Ha & Ht) H2 H3 H4 H5 H6 H7] Hn. unfold QueueSizeData.
  rewrite (acct_bytes _ _ _ Ha), (acct_count _ _ _ Ha). fold (queue_len s).
  pose proof (zlen_nonneg (all (levels (packet_queue_ s)))) as Hl. fold (queue_len s) in Hl.
  assert (0 <= zsum PacketSize (all (levels (packet_queue_ s))) <= queue_len s * kMaxPacketBytes) as Hb.
  { apply zsum_bound. eapply List.Forall_impl; [|exact H3]. unfold small_packet, PacketSize. intros p Hp. lia. }
  unfold kMaxPacketBytes, kMaxPacerQueue, kMaxOverhead, unit_mul in *.
  assert (0 <= transport_overhead_per_packet_ s * queue_len s <= 500 * queue_len s) as Ho by nia.
  case_match; [rewrite unit_add_small by (unfold small; lia)|]; lia.
Qed.

Lemma AverageQueueTime_bound q : queue_ok q -> 0 <= AverageQueueTime q <= kMaxTime.
Proof.
  intros (_ & Ha & _). unfold AverageQueueTime, unit_div.
  pose proof (acct_small _ _ _ Ha) as (_ & _ & _ & _ & Hl & Hw).
  rewrite (acct_count _ _ _ Ha). destruct (Z.eqb_spec (zlen (all (levels q))) 0); [unfold kMaxTime; lia|].
  rewrite Z.quot_div_nonneg by lia. split; [apply Z.div_pos; lia|]. apply Z.div_le_upper_bound; lia.
Qed.

Lemma MaybeUpdateMediaRate_ok now s :
  pacer_ok s -> queue_len s <= kMaxPacerQueue ->
  last_update_time_ (totals (packet_queue_ s)) <= now <= last_timestamp_ s ->
  pacer_ok (MaybeUpdateMediaRateDueToLongQueue now s) /\
  levels (packet_queue_ (MaybeUpdateMediaRateDueToLongQueue now s)) = levels (packet_queue_ s).
Proof.
  intros H Hn Hnow. unfold MaybeUpdateMediaRateDueToLongQueue.
  pose proof H as [H1 H2 H3 H4 H5 H6 H7 H8 H9].
  assert (forall r s, pacer_ok s -> pacing_rate_ s <= r <= kMaxRate -> pacer_ok (set_adjusted_rate r s)) as Hrate.
  { intros r s' [] Hr. split; try assumption. cbn. lia. }
  pose proof (Hrate (pacing_rate_ s) s H ltac:(lia)) as Hs0.
  pose proof (QueueSizeData_bound _ Hs0 Hn) as Hsize.
  set (s0 := set_adjusted_rate (pacing_rate_ s) s) in *.
  destruct (negb (drain_large_queues_ s0)); [done|].
  destruct (Z.ltb_spec 0 (QueueSizeData s0)); [|done].
  set (q := set_totals _ _). set (s1 := set_queue q s0).
  destruct H1 as (Hsh & Ha & Ht).
  destruct (UpdateAverageQueueTime_ok _ _ now _ Ha) as (Ha' & Hl & _); [lia|].
  assert (queue_ok q) as Hq by (apply queue_ok_totals; [done|exact Ha']).
  assert (pacer_ok s1) as Hs1 by (apply pacer_ok_queue; [done|done|cbn; cbn in Hl; rewrite Hl; lia|done]).
  pose proof (AverageQueueTime_bound q Hq).
  set (left := Z.max 1000 _). assert (1000 <= left) as Hleft by (subst left; lia). clearbody left.
  case_match; [|done]. b2p. split; [|done]. apply Hrate; [done|]. split; [lia|].
  unfold size_over_duration, Microbits, kMaxRate. rewrite Z.quot_div_nonneg by lia.
  apply Z.div_le_upper_bound; lia.
Qed.

Lemma note_incoming_ok p s : pacer_ok s -> pacer_ok (note_incoming p s).
Proof.
  intros H. unfold note_incoming, ClearProbingSendFailure, OnIncomingPacket.
  assert (pacer_ok (set_prober (MaybeSetActiveState (payload_size_ (rtp_packet p)) (prober_ s)) s)) as H1
    by (apply pacer_ok_prober; [done|by apply MaybeSetActiveState_ok, pk_prober]).
  set (s1 := set_prober _ s) in *. repeat case_match; try done. keep H1.
Qed.

Lemma expire_clusters_ok now s : pacer_ok s -> pacer_ok (expire_clusters now s).
Proof.
  intros H. unfold expire_clusters. pose proof (RemoveExpiredClusters_ok now _ (pk_prober s H)) as Hb.
  destruct (RemoveExpiredClusters now (prober_ s)) as [r b].
  pose proof (pacer_ok_prober b s H Hb) as H1. set (s1 := set_prober b s) in *. destruct r; [keep H1|done].
Qed.

(** ** Lemmas: times *)

(** What the pacer checks before it paces. *)
Lemma NextUnpacedSendTime_ok s :
  pacer_ok s -> exists t, NextUnpacedSendTime s = Some t /\ (IsFinite t = true \/ t = MinusInfinity).
Proof.
  intros H. pose proof (pk_queue s H) as Hq. unfold NextUnpacedSendTime.
  assert (forall i none, (i < kNumPriorityLevels)%nat -> exists t, leading_time (Z.of_nat i) none (packet_queue_ s) = Some t)
    as Hlead by (intros i none Hi; rewrite (leading_time_ok i none _ Hq Hi); by eexists).
  assert (exists t, (if negb (pace_audio_ s) then LeadingPacketEnqueueTime kAudio (packet_queue_ s)
    else Some MinusInfinity) = Some t) as (a & ->).
  { destruct (negb (pace_audio_ s)); [|by eexists]. apply (Hlead 0%nat). unfold kNumPriorityLevels. lia. }
  cbn [mbind option_bind]. destruct (IsFinite a) eqn:Ea; [exists a; by split; [|left]|].
  assert (exists t, (if fast_retransmissions_ s then LeadingPacketEnqueueTimeForRetransmission (packet_queue_ s)
    else Some MinusInfinity) = Some t) as (r & ->).
  { destruct (fast_retransmissions_ s); [|by eexists]. unfold LeadingPacketEnqueueTimeForRetransmission.
    destruct (Hlead 1%nat PlusInfinity) as [t1 H1]; [unfold kNumPriorityLevels; lia|].
    destruct (Hlead 2%nat PlusInfinity) as [t2 H2]; [unfold kNumPriorityLevels; lia|].
    destruct (negb _); [by exists t1|].
    change (GetPriorityForType kRetransmission (Some kOriginalAudio)) with (Z.of_nat 1).
    change (GetPriorityForType kRetransmission (Some kOriginalVideo)) with (Z.of_nat 2).
    rewrite H1, H2. by eexists. }
  cbn [mbind option_bind]. destruct (IsFinite r) eqn:Er; eexists; (split; [done|]); [by left|by right].
Qed.

Lemma drain_time_ok debt rate : 0 < rate -> drain_time debt rate = Some (size_over_rate debt rate).
Proof. intros Hr. unfold drain_time. by destruct (Z.eqb_spec rate 0); [lia|]. Qed.

(** The next send time is always defined. *)
Lemma next_send_time_ok now s : pacer_ok s -> is_Some (next_send_time now s).
Proof.
  intros H. pose proof (pk_rates s H) as Hr. unfold next_send_time.
  destruct (paused_ s); [by eexists|]. case_if; [by eexists|].
  destruct (NextUnpacedSendTime_ok s H) as (t & -> & _). cbn [mbind option_bind].
  case_if; [by eexists|]. case_if; [by eexists|].
  unfold next_media_time, next_padding_time. repeat case_if; b2p;
    rewrite ?drain_time_ok by lia; cbn [mbind option_bind]; by eexists.
Qed.

(** ** Lemmas: the operations *)

Section pacer.
Context {W : Type} {clk : Clock W} {sender : PacketSender W} {laws : SenderLaws W}.
Implicit Types s : (PacingController * W)%type.

(** Between calls: the pacer and the world are well, at most [n] packets wait
    and the pacer has seen the time [t]. *)
Definition Inv (n t : Z) s : Prop :=
  pacer_ok s.1 /\ queue_len s.1 <= n /\ t <= last_timestamp_ s.1 /\ world_ok s.2.

Lemma Inv_weaken n t n' t' s : Inv n t s -> n <= n' -> t' <= t -> Inv n' t' s.
Proof. intros (? & ? & ? & ?) ? ?. split_and!; [done|lia|lia|done]. Qed.

Lemma wp_member {A} (f : PacingController -> A) s (Q : A -> PacingController * W -> Prop) :
  Q (f s.1) s -> wp (member f) s Q.
Proof. exact (wp_gets (fun s => f s.1) s Q). Qed.

Lemma wp_update f s (Q : unit -> PacingController * W -> Prop) : Q tt (f s.1, s.2) -> wp (update f) s Q.
Proof. exact (wp_modify (fun s => (f s.1, s.2)) s Q). Qed.

Lemma wp_try_update f v s (Q : unit -> PacingController * W -> Prop) :
  f s.1 = Some v -> Q tt (v, s.2) -> wp (try_update f) s Q.
Proof.
  intros Hf HQ. apply wp_bind, wp_member, wp_bind. eapply wp_lift; [exact Hf|]. by apply wp_update.
Qed.

(** An update that keeps the queue, the clock and the invariant. *)
Lemma wp_update_inv f n t s :
  Inv n t s -> pacer_ok (f s.1) -> packet_queue_ (f s.1) = packet_queue_ s.1 ->
  last_timestamp_ (f s.1) = last_timestamp_ s.1 -> wp (update f) s (fun _ s' => Inv n t s').
Proof.
  intros (H & Hn & Ht & Hw) Hf Hq Hl. apply wp_update. unfold Inv, queue_len. cbn [fst snd].
  by rewrite Hq, Hl.
Qed.

Lemma set_last_timestamp_ok t s :
  pacer_ok s.1 -> last_timestamp_ s.1 <= t <= kMaxTime -> pacer_ok (set_last_timestamp t s.1).
Proof. intros [] Ht. split; cbn; try assumption; lia. Qed.

(** Reading the clock changes only the last time seen. *)
Lemma wp_CurrentTime s (Q : Z -> PacingController * W -> Prop) :
  world_ok s.2 -> last_timestamp_ s.1 <= kMaxTime ->
  (forall now w, last_timestamp_ s.1 <= now <= kMaxTime -> world_ok w ->
    Q now (set_last_timestamp now s.1, w)) ->
  wp CurrentTime s Q.
Proof.
  intros Hw Hl HQ. unfold CurrentTime. apply wp_bind. unfold outside.
  destruct (clock_ok s.2 Hw) as [Hr Hw']. destruct (read_clock s.2) as [r w'] eqn:E.
  exists r, (s.1, w'). rewrite E. split; [done|]. cbn [fst snd] in *.
  apply wp_bind, wp_member, wp_bind, wp_update, wp_ret. cbn [fst snd].
  apply HQ; [case_match; b2p; lia|done].
Qed.

Lemma CurrentTime_ok n t s :
  Inv n t s ->
  wp CurrentTime s (fun now s' => Inv n now s' /\ t <= now <= kMaxTime /\ 0 <= now /\
    last_timestamp_ s.1 <= now /\ s'.1 = set_last_timestamp now s.1).
Proof.
  intros (H & Hn & Ht & Hw). pose proof (pk_clock _ H) as Hc.
  pose proof (queue_clock _ (pk_queue _ H)) as H0.
  apply wp_CurrentTime; [done|lia|]. intros now w' Hnow Hw'.
  split_and!; try lia; [|done]. split_and!; [by apply set_last_timestamp_ok|done|cbn; lia|done].
Qed.

Lemma NextSendTime_ok n t s :
  Inv n t s ->
  wp NextSendTime s (fun next s' => exists now, Inv n now s' /\ t <= now <= kMaxTime /\ 0 <= now /\
    last_timestamp_ s.1 <= now /\ s'.1 = set_last_timestamp now s.1 /\
    next_send_time now s'.1 = Some next).
Proof.
  intros H. unfold NextSendTime. apply wp_bind. wp_call (CurrentTime_ok n t s H).
  intros now s' (H' & Hnow & H0 & Hl & Hs'). apply wp_bind, wp_member. cbn [id].
  destruct (next_send_time_ok now s'.1) as [next Hn]; [apply H'|].
  eapply wp_lift; [exact Hn|]. by exists now.
Qed.

(** A stream is removed from the queue. *)
Lemma remove_ok ssrc n t s :
  Inv n t s ->
  exists q, RemovePacketsForSsrc ssrc (packet_queue_ s.1) = Some q /\ Inv n t (set_queue q s.1, s.2).
Proof.
  intros (H & Hn & Ht & Hw).
  destruct (RemovePacketsForSsrc_ok ssrc _ (pk_queue _ H)) as (q & Hq & Hok & Hl & (Hclk & _) & _).
  exists q. split; [done|]. pose proof (pk_queue _ H) as (Hsh & _).
  pose proof (abs_remove_sub (time_to_live_per_prio_ (packet_queue_ s.1))
    (last_update_time_ (totals (packet_queue_ s.1))) ssrc _ _ Hsh eq_refl) as Hsub.
  rewrite <- Hl in Hsub. split_and!; [|unfold queue_len in *; apply zlen_submseteq in Hsub; cbn; lia|done|done].
  apply pacer_ok_queue; [done|done|rewrite Hclk; apply (pk_clock _ H)|].
  eapply Forall_submseteq; [exact Hsub|apply (pk_packets _ H)].
Qed.

Lemma flush_for_keyframe_ok p n t s :
  Inv n t s -> wp (try_update (flush_for_keyframe p)) s (fun _ s' => Inv n t s').
Proof.
  intros H. destruct (remove_ok (Ssrc p) n t s H) as (q & Hq & H').
  destruct (keyframe_flushing_ s.1 && bool_decide (packet_type_ p = Some kVideo) && is_key_frame_ p &&
    is_first_packet_of_frame_ p && negb (HasKeyframePackets (Ssrc p) (packet_queue_ s.1))) eqn:Hc;
    (eapply wp_try_update; [unfold flush_for_keyframe; by rewrite Hc, ?Hq|]); [exact H'|].
  destruct H as (? & ? & ? & ?). by split_and!.
Qed.

Lemma packet_queue_advance now (s : PacingController) : packet_queue_ (AdvanceTo now s) = packet_queue_ s.
Proof. unfold AdvanceTo, UpdateTimeAndGetElapsed. by destruct (_ || _). Qed.

Lemma last_timestamp_advance now (s : PacingController) : last_timestamp_ (AdvanceTo now s) = last_timestamp_ s.
Proof. unfold AdvanceTo, UpdateTimeAndGetElapsed. by destruct (_ || _). Qed.

Lemma wp_AdvanceTo now n t s :
  Inv n t s -> now <= last_timestamp_ s.1 + kMaxEarlyProbeProcessing ->
  wp (update (AdvanceTo now)) s (fun _ s' => Inv n t s').
Proof.
  intros H Hnow. apply wp_update_inv; [done|by apply AdvanceTo_ok; [apply H|]|
    apply packet_queue_advance|apply last_timestamp_advance].
Qed.

(** The last process time moves up to the present when the queue was empty. *)
Lemma fast_forward_ok now n s :
  Inv n now s -> 0 <= now -> last_update_time_ (totals (packet_queue_ s.1)) <= now ->
  wp (fast_forward now) s (fun _ s' => Inv n now s' /\
    last_update_time_ (totals (packet_queue_ s'.1)) <= now).
Proof.
  intros H H0 Hq. unfold fast_forward. apply wp_bind, wp_member.
  destruct (QueueEmpty s.1); [|by apply wp_ret].
  apply wp_bind. wp_call (NextSendTime_ok n now s H).
  intros next s1 (now1 & H1 & Hnow1 & _ & Hl & Hs1 & _). cbv zeta.
  set (target := if IsFinite next then Z.min now next else now).
  assert (target <= now) as Ht by (subst target; case_match; lia).
  apply wp_update. cbn [fst snd]. rewrite packet_queue_advance, Hs1. split; [|done].
  destruct H1 as (Hok & Hn & Hlt & Hw). unfold Inv, queue_len. cbn [fst snd].
  rewrite packet_queue_advance, last_timestamp_advance. rewrite Hs1 in *. cbn in Hlt, Hn |- *.
  split_and!; [|done|lia|done].
  apply AdvanceTo_ok; [done|]. cbn. unfold kMaxEarlyProbeProcessing. lia.
Qed.

Lemma push_packet_ok now p n s :
  Inv n now s -> n < kMaxPacerQueue -> last_update_time_ (totals (packet_queue_ s.1)) <= now ->
  small_packet p ->
  wp (try_update (push_packet now p)) s (fun _ s' => Inv (n + 1) now s').
Proof.
  intros (H & Hn & Ht & Hw) Hmax Hq Hp. unfold kMaxPacerQueue, queue_len in *.
  pose proof Hp as (Hty & Hpl & Hpd & Hof & Hsz). pose proof (pk_clock _ H) as Hc.
  destruct (Push_ok now p _ (pk_queue _ H) Hty) as (q & Hpush & Hok & Hl & Hu & _);
    [unfold kMaxPacketBytes in *; lia|lia|unfold kMaxQueued; lia|].
  pose proof (abs_push_sub (time_to_live_per_prio_ (packet_queue_ s.1)) now
    (Z.to_nat (priority (packet_queue_ s.1) p)) (queued now p (totals (packet_queue_ s.1)))
    (levels (packet_queue_ s.1))) as Hsub. rewrite <- Hl in Hsub.
  eapply wp_try_update; [unfold push_packet; by rewrite Hpush|].
  pose proof (zlen_submseteq _ _ Hsub) as Hlen. rewrite zlen_cons in Hlen.
  assert (queued_small q) as Hsm.
  { eapply Forall_submseteq; [exact Hsub|]. constructor; [exact Hp|apply (pk_packets _ H)]. }
  assert (pacer_ok (set_queue q s.1)) as H1 by (apply pacer_ok_queue; [done|done|lia|done]).
  assert (pacer_ok (set_seen_first true (set_queue q s.1))) as H2 by keep H1.
  destruct (MaybeUpdateMediaRate_ok now _ H2) as [H3 H4]; [unfold queue_len; cbn; unfold kMaxPacerQueue; lia|cbn; lia|].
  unfold Inv, queue_len. cbn [fst snd]. rewrite H4. split_and!; [done|cbn; lia| |done].
  unfold MaybeUpdateMediaRateDueToLongQueue. repeat case_match; exact Ht.
Qed.

Lemma EnqueuePacket_inv p n t s :
  Inv n t s -> n < kMaxPacerQueue -> small_packet p ->
  wp (EnqueuePacket p) s (fun _ s' => Inv (n + 1) t s').
Proof.
  intros H Hn Hp. unfold EnqueuePacket. apply wp_bind. wp_call (flush_for_keyframe_ok p n t s H).
  intros [] s1 H1. apply wp_bind. eapply wp_mono.
  { apply (wp_update_inv _ n t); [done|apply note_incoming_ok, H1| |];
      unfold note_incoming, ClearProbingSendFailure; by repeat case_match. }
  intros [] s2 H2. apply wp_bind. wp_call (CurrentTime_ok n t s2 H2).
  intros now s3 (H3 & Hnow & H0 & Hl & Hs3). apply wp_bind.
  assert (last_update_time_ (totals (packet_queue_ s3.1)) <= now) as Hq.
  { rewrite Hs3. cbn. pose proof (pk_clock _ (proj1 H2)). lia. }
  wp_call (fast_forward_ok now n s3 H3 H0 Hq). intros [] s4 [H4 Hq4].
  eapply wp_mono; [by apply (push_packet_ok now p n)|].
  intros [] s5 H5. eapply Inv_weaken; [exact H5|lia|lia].
Qed.

(** A batch of packets, such as padding. *)
Lemma enqueue_all_ok ps n t s :
  Inv n t s -> n + zlen ps <= kMaxPacerQueue -> Forall small_packet ps ->
  wp (for_each EnqueuePacket ps) s (fun _ s' => Inv (n + zlen ps) t s').
Proof.
  revert n s. induction ps as [|p ps IH]; intros n s H Hn Hps; cbn [for_each].
  - apply wp_ret. eapply Inv_weaken; [exact H|unfold zlen; cbn; lia|lia].
  - rewrite zlen_cons in *. apply Forall_cons_1 in Hps as [Hp Hps]. pose proof (zlen_nonneg ps).
    apply wp_bind. eapply wp_mono; [apply (EnqueuePacket_inv p n t); [done|lia|done]|].
    intros [] s1 H1. eapply wp_mono; [apply (IH (n + 1)); [done|lia|done]|].
    intros [] s2 H2. eapply Inv_weaken; [exact H2|lia|lia].
Qed.

Lemma wp_outside {A} (f : W -> A * W) s (Q : A -> PacingController * W -> Prop) :
  Q (f s.2).1 (s.1, (f s.2).2) -> wp (outside f) s Q.
Proof.
  intros HQ. exists (f s.2).1, (s.1, (f s.2).2). split; [|done]. unfold outside. by destruct (f s.2).
Qed.

Lemma wp_tell (f : W -> W) s (Q : unit -> PacingController * W -> Prop) :
  Q tt (s.1, f s.2) -> wp (tell f) s Q.
Proof. exact (wp_modify (fun s => (s.1, f s.2)) s Q). Qed.

Lemma Inv_world n t s w : Inv n t s -> world_ok w -> Inv n t (s.1, w).
Proof. intros (? & ? & ? & _) Hw. by split_and!. Qed.

(** Sending calls out, and comes back without packets to add. *)
Lemma send_packet_ok p i n t s :
  Inv n t s -> small_packet p ->
  wp (send_packet p i) s (fun _ s' => Inv n t s' /\ s'.1 = s.1 /\
    s'.2 = (FetchFec (SendPacket p i s.2)).2).
Proof.
  intros H Hp. unfold send_packet. apply wp_bind, wp_tell, wp_bind, wp_outside. cbn [fst snd].
  destruct (FetchFec_ok (SendPacket p i s.2)) as [-> Hw]; [apply SendPacket_ok, H; exact Hp|].
  apply wp_ret. split; [|done]. by apply Inv_world.
Qed.

Lemma may_send_ok b target now (s : PacingController) : pacer_ok s -> is_Some (may_send b target now s).
Proof.
  intros H. unfold may_send. destruct (NextUnpacedSendTime_ok s H) as (u & -> & _). cbn [mbind option_bind].
  case_if; [|by eexists]. case_if; [by eexists|]. case_if; [|by eexists].
  rewrite drain_time_ok by (pose proof (pk_rates s H); lia). cbn [mbind option_bind]. by eexists.
Qed.

(** The packet that leaves the queue is one that was put there. *)
Lemma pop_packet_ok n t s :
  Inv n t s ->
  wp pop_packet s (fun p s' => Inv n t s' /\ s'.2 = s.2 /\
    exists q, s'.1 = set_queue q s.1 /\ Pop (packet_queue_ s.1) = Some (p, q) /\
    match p with Some p => small_packet p | None => True end).
Proof.
  intros (H & Hn & Ht & Hw). unfold pop_packet. apply wp_bind, wp_member, wp_bind. cbn [id].
  pose proof (Pop_ok _ (pk_queue _ H)) as Hpop. pose proof (pk_clock _ H) as Hc. unfold queue_len in *.
  destruct (abs_pop _ _ _) as [[p a]|] eqn:Hab.
  - destruct Hpop as (q & Hp & Hok & Hl & (Hclk & _) & _). eapply wp_lift; [exact Hp|].
    apply wp_bind, wp_update, wp_ret. cbn [fst snd]. rewrite <- Hl in Hab. apply abs_pop_sub in Hab.
    assert (Forall (fun p => small_packet (packet p)) (p :: all (levels q))) as Hsm
      by (eapply Forall_submseteq; [exact Hab|apply (pk_packets _ H)]).
    apply Forall_cons_1 in Hsm as [Hp1 Hsm]. apply zlen_submseteq in Hab. rewrite zlen_cons in Hab.
    split; [|split; [done|]; exists q; split; [done|]; split; [done|exact Hp1]].
    split_and!; [|unfold queue_len; cbn; lia|done|done]. apply pacer_ok_queue; [done|done|rewrite Hclk; lia|done].
  - destruct Hpop as [Hp _]. eapply wp_lift; [exact Hp|]. apply wp_bind, wp_update, wp_ret. cbn [fst snd].
    split; [|split; [done|]; by exists (packet_queue_ s.1)].
    split_and!; [|done|done|done]. apply pacer_ok_queue; [done|apply H|apply Hc|apply H].
Qed.

Lemma GetPendingPacket_ok info target now n t s :
  Inv n t s ->
  wp (GetPendingPacket info target now) s (fun p s' => Inv n t s' /\
    match p with Some p => small_packet p | None => True end).
Proof.
  intros H. unfold GetPendingPacket.
  assert (forall s b, Inv n t s -> wp (get_queued_packet b target now) s (fun p s' => Inv n t s' /\
    match p with Some p => small_packet p | None => True end)) as Hq.
  { intros s1 b H1. unfold get_queued_packet. apply wp_bind, wp_member. cbn [id].
    destruct (QueueEmpty s1.1); [by apply wp_ret|]. apply wp_bind.
    destruct (may_send_ok b target now s1.1 (proj1 H1)) as [m Hm]. eapply wp_lift; [exact Hm|].
    destruct m; [|by apply wp_ret]. wp_call (pop_packet_ok n t s1 H1).
    intros p s2 (H2 & _ & q & _ & _ & Hp). by split. }
  case_match; [|by apply Hq]. apply wp_bind, wp_outside.
  destruct (GeneratePadding_ok 1 s.2) as (Hf & _ & Hw); [apply H|].
  pose proof (Inv_world n t s _ H Hw) as H1.
  destruct (GeneratePadding 1 s.2).1 as [|p ps]; [by apply Hq|]. apply wp_ret.
  apply Forall_cons_1 in Hf as [Hp _]. by split.
Qed.

(** The variables of the loop: bytes are counted up, and a probe stops at its
    recommended size. *)
Definition loop_ok (is_probing : bool) (recommended : Z) (l : SendLoop) : Prop :=
  0 <= data_sent l /\ (is_probing = true -> data_sent l <= recommended).

Definition kMaxSent : Z := kMaxPacketBytes + kMaxOverhead.

Definition step_ok (is_probing : bool) (recommended : Z) (r : LoopStep) : Prop :=
  match r with
  | Continue l => loop_ok is_probing recommended l
  | Break l => 0 <= data_sent l /\ (is_probing = true -> data_sent l <= recommended + kMaxSent)
  end.

Lemma limit_replay_ok now target n t s :
  Inv n t s -> 0 <= now <= last_timestamp_ s.1 ->
  wp (limit_replay now target) s (fun _ s' => Inv n t s' /\ packet_queue_ s'.1 = packet_queue_ s.1).
Proof.
  intros H Hnow. unfold limit_replay. case_match; [|by apply wp_ret].
  apply wp_bind, wp_update, wp_ret. split; [|done]. pose proof (proj1 H) as Hok.
  pose proof (pk_clock _ Hok). unfold kMaxTime, kMaxPaddingReplayDuration in *.
  assert (timestamp_sub now 50000 = now - 50000) as ->.
  { unfold timestamp_sub, PlusInfinity, MinusInfinity in *. repeat case_match; b2p; lia. }
  destruct H as (_ & Hn & Ht & Hw). split_and!; [|done|done|done]. cbn [fst].
  destruct Hok. split; cbn; try assumption. unfold kMaxEarlyProbeProcessing in *. lia.
Qed.

Lemma nothing_to_send_ok b recommended now n s l :
  Inv n now s -> 0 <= now -> kMaxPadding <= n <= kMaxPacerQueue -> loop_ok b recommended l ->
  wp (nothing_to_send recommended now l) s (fun r s' => Inv n now s' /\ step_ok b recommended r).
Proof.
  intros H H0 Hn [Hd Hb]. unfold nothing_to_send. apply wp_bind.
  wp_call (limit_replay_ok now (target_send_time l) n now s H); [|].
  { destruct H as (_ & _ & ? & _). lia. }
  intros target s1 [H1 _]. cbv zeta. apply wp_bind, wp_member. cbn [data_sent].
  assert (forall target, loop_ok b recommended (mkLoop target (pacing_info l) (data_sent l) (packets_sent l)) /\
    step_ok b recommended (Break (mkLoop target (pacing_info l) (data_sent l) (packets_sent l)))) as Hl.
  { intros t. cbn. split; [by split|]. split; [done|]. intros Hbb. specialize (Hb Hbb). unfold kMaxSent, kMaxPacketBytes, kMaxOverhead. lia. }
  destruct (Z.ltb_spec 0 (PaddingToAdd recommended (data_sent l) s1.1)) as [Hp|_];
    [|apply wp_ret; split; [done|apply Hl]].
  apply wp_bind, wp_outside.
  destruct (GeneratePadding_ok (PaddingToAdd recommended (data_sent l) s1.1) s1.2) as (Hf & Hlen & Hw); [apply H1|].
  pose proof (Inv_world n now s1 _ H1 Hw) as H2.
  destruct (GeneratePadding _ _).1 as [|p ps].
  - apply wp_bind. eapply wp_mono.
    { apply (wp_update_inv _ n now); [exact H2|apply UpdatePaddingBudgetWithSentData_ok; [apply H2|lia]|done|done]. }
    intros [] s3 H3. apply wp_ret. split; [done|apply Hl].
  - assert (Inv 0 now (s1.1, (GeneratePadding (PaddingToAdd recommended (data_sent l) s1.1) s1.2).2)) as H3.
    { destruct H2 as (Hok & _ & ? & ?). split_and!; [done| |done|done]. cbn [fst].
      unfold PaddingToAdd in Hp. destruct (QueueEmpty s1.1) eqn:He; [|cbn in Hp; lia].
      apply QueueEmpty_iff in He; [|apply Hok]. unfold queue_len. by rewrite He. }
    apply wp_bind. eapply wp_mono; [apply (enqueue_all_ok (p :: ps) 0 now); [exact H3|lia|exact Hf]|].
    intros [] s3 H4. apply wp_ret. split; [|apply Hl]. eapply Inv_weaken; [exact H4|lia|lia].
Qed.

Lemma next_target_ok b recommended now n s l :
  Inv n now s -> 0 <= now -> loop_ok b recommended l ->
  wp (next_target b now l) s (fun r s' => Inv n now s' /\ step_ok b recommended r).
Proof.
  intros H H0 [Hd Hb]. unfold next_target. apply wp_bind. wp_call (NextSendTime_ok n now s H).
  intros next s1 (now1 & H1 & Hnow1 & _ & _ & Hs1 & _).
  assert (Inv n now s1) as H2 by (eapply Inv_weaken; [exact H1|lia|lia]).
  destruct (Z.ltb_spec now next) as [Hlt|Hge]; cbn [andb].
  - destruct b; cbn [negb].
    + apply wp_bind. eapply wp_mono.
      { apply (wp_AdvanceTo now n now s1 H2). destruct H2 as (_ & _ & ? & _). unfold kMaxEarlyProbeProcessing. lia. }
      intros [] s3 H3. apply wp_ret. by split.
    + apply wp_ret. by split.
  - apply wp_bind. eapply wp_mono.
    { apply (wp_AdvanceTo next n now s1 H2). destruct H2 as (_ & _ & ? & _). unfold kMaxEarlyProbeProcessing. lia. }
    intros [] s3 H3. apply wp_ret. by split.
Qed.

Lemma sent_size_bound p (s : PacingController) :
  pacer_ok s -> small_packet p -> 0 <= sent_size p s <= kMaxSent.
Proof.
  intros H (_ & Hp). pose proof (pk_overhead s H). unfold sent_size, kMaxSent, kMaxPacketBytes, kMaxOverhead in *.
  case_match; [|lia]. rewrite (unit_add_small (payload_offset_ _)) by (unfold small; lia).
  rewrite unit_add_small by (unfold small; lia). lia.
Qed.

Lemma send_one_ok b recommended now n s p l :
  Inv n now s -> 0 <= now -> small_packet p -> loop_ok b recommended l -> 0 <= recommended <= kMaxProbeSize ->
  wp (send_one b recommended now p l) s (fun r s' => Inv n now s' /\ step_ok b recommended r).
Proof.
  intros H H0 Hp [Hd Hb] Hrec. unfold send_one. pose proof Hp as ([ty Hty] & _).
  apply wp_bind. eapply wp_lift; [exact Hty|]. apply wp_bind, wp_member, wp_bind.
  pose proof (sent_size_bound p s.1 (proj1 H) Hp) as Hsz. set (size := sent_size p s.1) in *. clearbody size.
  wp_call (send_packet_ok p (pacing_info l) n now s H Hp). intros [] s1 (H1 & _ & _). cbv zeta.
  apply wp_bind. eapply wp_mono.
  { apply (wp_update_inv _ n now); [exact H1| | |].
    - apply OnPacketSent_ok; [apply H1|lia|]. destruct H1 as (_ & _ & ? & _). lia.
    - unfold OnPacketSent. by repeat case_match.
    - unfold OnPacketSent. by repeat case_match. }
  intros [] s2 H2. pose proof (unit_add_nonneg (data_sent l) size Hd ltac:(lia)) as Hd'.
  destruct (b && (recommended <=? unit_add (data_sent l) size)) eqn:Hstop.
  - apply wp_ret. split; [done|]. cbn. split; [done|]. intros ->. specialize (Hb eq_refl).
    unfold kMaxProbeSize, kMaxSent, kMaxPacketBytes, kMaxOverhead in *. rewrite unit_add_small by (unfold small; lia). lia.
  - apply next_target_ok; [done|done|]. split; [done|]. cbn. intros ->. cbn in Hstop. lia.
Qed.

Lemma send_step_ok b recommended now n s l :
  Inv n now s -> 0 <= now -> kMaxPadding <= n <= kMaxPacerQueue -> loop_ok b recommended l ->
  0 <= recommended <= kMaxProbeSize ->
  wp (send_step b recommended now l) s (fun r s' => Inv n now s' /\ step_ok b recommended r).
Proof.
  intros H H0 Hn Hl Hrec. unfold send_step. apply wp_bind.
  wp_call (GetPendingPacket_ok (pacing_info l) (target_send_time l) now n now s H).
  intros p s1 [H1 Hp]. destruct p; [by apply send_one_ok|by apply nothing_to_send_ok].
Qed.

Lemma send_loop_ok k b recommended now n s l :
  Inv n now s -> 0 <= now -> kMaxPadding <= n <= kMaxPacerQueue -> loop_ok b recommended l ->
  0 <= recommended <= kMaxProbeSize ->
  wp (send_loop k b recommended now l) s (fun r s' => Inv n now s' /\
    match r with
    | Some l => 0 <= data_sent l /\ (b = true -> data_sent l <= kMaxProbeBytes)
    | None => True
    end).
Proof.
  intros H H0 Hn Hl Hrec. revert s l H Hl. induction k as [|k IH]; intros s l H Hl; cbn [send_loop].
  - by apply wp_ret.
  - apply wp_bind. wp_call (send_step_ok b recommended now n s l H H0 Hn Hl Hrec).
    intros [l'|l'] s1 [H1 Hs]; [by apply IH|]. apply wp_ret. split; [done|].
    destruct Hs as [Hd Hb]. split; [done|]. intros Ht. specialize (Hb Ht).
    unfold kMaxProbeBytes, kMaxProbeSize, kMaxSent, kMaxPacketBytes, kMaxOverhead in *. lia.
Qed.

Lemma send_keepalive_ok ps sent n t s :
  Inv n t s -> Forall small_packet ps -> 0 <= sent ->
  wp (send_keepalive ps sent) s (fun r s' => Inv n t s' /\ 0 <= r).
Proof.
  revert sent s. induction ps as [|p ps IH]; intros sent s H Hps Hs; cbn [send_keepalive]; [by apply wp_ret|].
  apply Forall_cons_1 in Hps as [Hsm Hps]. pose proof Hsm as (_ & Hp). apply wp_bind.
  wp_call (send_packet_ok p not_a_probe n t s H Hsm). intros [] s1 (H1 & _ & _).
  apply IH; [done|done|]. apply unit_add_nonneg; lia.
Qed.

Lemma wp_OnPacketSent ty size now n s :
  Inv n now s -> 0 <= now -> 0 <= size ->
  wp (update (OnPacketSent ty size now)) s (fun _ s' => Inv n now s').
Proof.
  intros H H0 Hs. apply wp_update_inv; [done| | |].
  - apply OnPacketSent_ok; [apply H|lia|]. destruct H as (_ & _ & ? & _). lia.
  - unfold OnPacketSent. by repeat case_match.
  - unfold OnPacketSent. by repeat case_match.
Qed.

Lemma keepalive_ok now n s :
  Inv n now s -> 0 <= now -> wp (keepalive now) s (fun _ s' => Inv n now s').
Proof.
  intros H H0. unfold keepalive. apply wp_bind, wp_member.
  destruct (ShouldSendKeepalive now s.1); [|by apply wp_ret]. apply wp_bind, wp_member, wp_bind.
  destruct (seen_first_packet_ s.1).
  - apply wp_bind, wp_outside. destruct (GeneratePadding_ok 1 s.2) as (Hf & _ & Hw); [apply H|].
    pose proof (Inv_world n now s _ H Hw) as H1.
    eapply wp_mono; [by apply (send_keepalive_ok _ 0 n now)|]. intros sent s2 [H2 Hs].
    by apply wp_OnPacketSent.
  - apply wp_ret. by apply wp_OnPacketSent.
Qed.

Lemma RecommendedMinProbeSize_bound b :
  prober_ok b -> 0 <= RecommendedMinProbeSize b <= kMaxProbeSize.
Proof.
  intros H. unfold RecommendedMinProbeSize. destruct (clusters_ b) as [|c l] eqn:Hc; [done|].
  pose proof (po_clusters b H) as Hok. rewrite Hc in Hok. apply Forall_cons_1 in Hok as [[Hr Hd Hz _ _ _ _ _ _] _].
  split; [|done]. apply rate_times_duration_nonneg; [lia|unfold is_time in Hd; lia].
Qed.

Lemma current_probe_ok now (s : PacingController) b info recommended (s' : PacingController) :
  pacer_ok s -> current_probe now s = ((b, info, recommended), s') ->
  pacer_ok s' /\ 0 <= recommended <= kMaxProbeSize /\ packet_queue_ s' = packet_queue_ s /\
  last_timestamp_ s' = last_timestamp_ s.
Proof.
  intros H. unfold current_probe. destruct (is_probing (prober_ s)); [|by intros [= _ _ <- <-]].
  pose proof (CurrentCluster_ok now _ (pk_prober s H)) as Hb.
  destruct (CurrentCluster now (prober_ s)) as [i b'] eqn:E. cbn [snd] in Hb.
  pose proof (RecommendedMinProbeSize_bound b' Hb) as Hr.
  case_match; intros [= _ _ <- <-]; (split; [by apply pacer_ok_prober|done]).
Qed.

Lemma finish_probe_ok b l n t s :
  Inv n t s -> (0 <= data_sent l /\ (b = true -> data_sent l <= kMaxProbeBytes)) ->
  wp (finish_probe b l) s (fun _ s' => Inv n t s').
Proof.
  intros H [Hd Hb]. unfold finish_probe. destruct b; [|by apply wp_ret]. cbv zeta. specialize (Hb eq_refl).
  apply wp_bind. eapply wp_mono.
  { apply (wp_update_inv _ n t); [exact H| |done|done]. destruct H as [H _]. keep H. }
  intros [] s1 H1. destruct (Z.eqb_spec (data_sent l) 0); [by apply wp_ret|].
  apply wp_bind. wp_call (CurrentTime_ok n t s1 H1). intros now s2 (H2 & Hnow & H0 & _).
  destruct (ProbeSent_ok now (data_sent l) (packets_sent l) (prober_ s2.1)) as (b' & Hp & Hb' & _);
    [apply pk_prober, H2|unfold is_time, kMaxTime in *; lia|lia|].
  eapply wp_try_update; [by rewrite Hp|]. destruct H2 as (Hok & Hn & Ht & Hw).
  split_and!; [by apply pacer_ok_prober|done|cbn; lia|done].
Qed.

Lemma wp_MaybeUpdateMediaRate n t s :
  Inv n t s -> n <= kMaxPacerQueue ->
  wp (now ← CurrentTime; update (MaybeUpdateMediaRateDueToLongQueue now)) s (fun _ s' => Inv n t s').
Proof.
  intros H Hn. apply wp_bind. wp_call (CurrentTime_ok n t s H). intros now s1 (H1 & Hnow & _ & Hl & Hs1).
  apply wp_update. destruct H1 as (Hok & Hlen & Ht & Hw).
  destruct (MaybeUpdateMediaRate_ok now s1.1 Hok) as [H2 H3]; [lia| |].
  { rewrite Hs1. cbn. pose proof (pk_clock _ (proj1 H)). lia. }
  unfold Inv, queue_len. cbn [fst snd]. rewrite H3. split_and!; [done|done| |done].
  assert (last_timestamp_ (MaybeUpdateMediaRateDueToLongQueue now s1.1) = last_timestamp_ s1.1) as ->; [|lia].
  unfold MaybeUpdateMediaRateDueToLongQueue. by repeat case_match.
Qed.

Lemma process_ok now target n s :
  Inv n now s -> 0 <= now -> kMaxPadding <= n <= kMaxPacerQueue ->
  target <= now + kMaxEarlyProbeProcessing ->
  wp (process now target) s (fun _ s' => Inv n now s').
Proof.
  intros H H0 Hn Ht. unfold process. apply wp_bind. eapply wp_mono.
  { apply (wp_update_inv _ n now); [exact H| | |].
    - pose proof (UpdateTime_ok target s.1 (proj1 H)) as Hu. destruct H as (_ & _ & ? & _).
      destruct Hu as [He Hok]; [unfold kMaxEarlyProbeProcessing in *; lia|].
      destruct (UpdateTimeAndGetElapsed target s.1). case_match; [by apply UpdateBudgetWithElapsedTime_ok|done].
    - unfold UpdateTimeAndGetElapsed. destruct (_ || _); by case_match.
    - unfold UpdateTimeAndGetElapsed. destruct (_ || _); by case_match. }
  intros [] s1 H1. apply wp_bind, wp_member. cbn [id].
  destruct (current_probe now s1.1) as [[[b info] recommended] s2] eqn:Hprobe.
  destruct (current_probe_ok now s1.1 b info recommended s2 (proj1 H1) Hprobe) as (Hok & Hrec & Hq & Hlt).
  apply wp_bind, wp_update, wp_bind, wp_member, wp_bind. cbn [fst snd].
  assert (Inv n now (s2, s1.2)) as H2.
  { destruct H1 as (_ & Hl & Hlt1 & Hw). unfold Inv, queue_len. cbn [fst snd]. by rewrite Hq, Hlt. }
  eapply wp_mono; [apply (send_loop_ok _ b recommended now n); try done; split; [done|cbn; lia]|].
  intros [l|] s3 [H3 Hd].
  - apply wp_bind. eapply wp_mono; [by apply (finish_probe_ok b l n now)|]. intros [] s4 H4.
    apply wp_MaybeUpdateMediaRate; [done|lia].
  - apply wp_update_inv; [done| |done|done]. destruct H3 as ([] & _ & Hlt3 & _).
    split; cbn; try assumption; unfold kMaxEarlyProbeProcessing in *; lia.
Qed.

Lemma ProcessPackets_ok n t s :
  Inv n t s -> kMaxPadding <= n <= kMaxPacerQueue -> wp ProcessPackets s (fun _ s' => Inv n t s').
Proof.
  intros H Hn. unfold ProcessPackets. apply wp_bind. wp_call (CurrentTime_ok n t s H).
  intros now s1 (H1 & Hnow & H0 & _). apply wp_bind. eapply wp_mono.
  { apply (wp_update_inv _ n now); [exact H1|apply expire_clusters_ok, H1| |];
      unfold expire_clusters; destruct (RemoveExpiredClusters now (prober_ s1.1)) as [[] b]; done. }
  intros [] s2 H2. apply wp_bind. eapply wp_mono; [by apply (keepalive_ok now n)|]. intros [] s3 H3.
  apply wp_bind. eapply wp_mono with (P := fun _ s' => Inv n now s').
  - unfold process_unless_early. apply wp_bind, wp_member. cbn [id].
    destruct (paused_ s3.1); [by apply wp_ret|]. cbv zeta. apply wp_bind. wp_call (NextSendTime_ok n now s3 H3).
    intros target s4 (now4 & H4 & Hnow4 & _ & _ & _).
    assert (Inv n now s4) as H5 by (eapply Inv_weaken; [exact H4|lia|lia]).
    set (margin := if is_probing (prober_ s3.1) then kMaxEarlyProbeProcessing else 0).
    assert (0 <= margin <= kMaxEarlyProbeProcessing) as Hm by (subst margin; by destruct (is_probing _)).
    unfold kMaxEarlyProbeProcessing, kMaxTime in *. clearbody margin.
    rewrite timestamp_add_small by (unfold small; lia).
    destruct (Z.ltb_spec (now + margin) target).
    + apply wp_AdvanceTo; [done|]. destruct H5 as (_ & _ & ? & _). unfold kMaxEarlyProbeProcessing. lia.
    + apply process_ok; try done. unfold kMaxEarlyProbeProcessing. lia.
  - intros [] s4 H4. apply wp_tell. eapply Inv_weaken; [apply Inv_world; [exact H4|]|lia|lia].
    apply OnBatchComplete_ok, H4.
Qed.

(** The pacer apart from its rates, which the constructor leaves at zero. *)
Definition pacer_pre (s : PacingController) : Prop :=
  pacer_ok (set_adjusted_rate 1 (set_padding_rate 0 (set_pacing_rate 1 s))).

Lemma pacer_ok_pre (s : PacingController) : pacer_ok s -> pacer_pre s.
Proof. intros []. unfold pacer_pre. split; cbn; try assumption. unfold kMaxRate. lia. Qed.

Lemma raise_max_rate_ok pacing padding (s : PacingController) :
  0 <= pacing <= kMaxRate -> 0 <= padding <= kMaxRate ->
  exists m, raise_max_rate pacing padding s = Some (set_max_rate m s).
Proof.
  intros H1 H2. unfold raise_max_rate, kMaxRate in *. case_match.
  - assert (within (-53) 43 (f64_of_Z (Z.max pacing padding))) as Hw1
      by (apply (within_of_Z 53 1024 42); [lia|lia|change (2 ^ 42) with 4398046511104; lia|
          unfold emin; lia|lia]).
    assert (within (-53) 2 (f64_literal 11 10)) as Hw2
      by (right; eexists _, _; split; [vm_compute; reflexivity|split; [lia|vm_compute; congruence]]).
    pose proof (within_mul 53 1024 _ _ _ _ _ _ ltac:(lia) Hw1 Hw2 ltac:(lia) ltac:(lia)
      ltac:(unfold emin; lia) ltac:(lia)) as Hw3.
    destruct (llround_within _ _ _ Hw3 ltac:(lia) ltac:(lia)) as (v & Hv & _).
    change (llround (f64_mul (f64_of_Z (Z.max pacing padding)) (f64_literal 11 10)) = Some v) in Hv.
    rewrite Hv. by exists v.
  - exists (max_rate s). by destruct s.
Qed.

Lemma MaybeUpdate_stale r now (s : PacingController) :
  MaybeUpdateMediaRateDueToLongQueue now (set_adjusted_rate r s) = MaybeUpdateMediaRateDueToLongQueue now s.
Proof. done. Qed.

Lemma SetPacingRates_ok pacing padding n t s :
  pacer_pre s.1 -> queue_len s.1 <= n -> t <= last_timestamp_ s.1 -> world_ok s.2 ->
  0 < pacing <= kMaxRate -> 0 <= padding <= kMaxRate -> n <= kMaxPacerQueue ->
  wp (SetPacingRates pacing padding) s (fun _ s' => Inv n t s').
Proof.
  intros H Hn Ht Hw Hpac Hpad Hmax. unfold SetPacingRates. set (pad := if pacing <? padding then pacing else padding).
  assert (0 <= pad <= pacing) as Hp by (subst pad; case_match; lia). clearbody pad.
  apply wp_bind. destruct (raise_max_rate_ok pacing pad s.1) as [m Hm]; [lia|lia|].
  eapply wp_try_update; [exact Hm|]. apply wp_bind, wp_update. cbn [fst snd].
  set (s1 := set_padding_rate pad (set_pacing_rate pacing (set_max_rate m s.1))).
  assert (pacer_ok (set_adjusted_rate pacing s1)) as H1
    by (destruct H; split; cbn; try assumption; lia).
  pose proof (pk_clock _ H1) as Hc. cbn in Hc.
  apply wp_bind, wp_CurrentTime; [done|cbn; lia|]. cbn [fst snd]. intros now w Hnow Hw'.
  assert (pacer_ok (set_adjusted_rate pacing (set_last_timestamp now s1))) as H2
    by (apply (set_last_timestamp_ok now (set_adjusted_rate pacing s1, s.2)); [done|cbn in *; lia]).
  destruct (MaybeUpdateMediaRate_ok now _ H2) as [H3 H4]; [unfold queue_len in *; cbn; lia|cbn in *; lia|].
  rewrite MaybeUpdate_stale in H3, H4. apply wp_update. unfold Inv, queue_len. cbn [fst snd]. rewrite H4.
  split_and!; [done|done| |done].
  unfold MaybeUpdateMediaRateDueToLongQueue. repeat case_match; cbn in *; lia.
Qed.

Lemma pacer_send_failure b (s : PacingController) : pacer_ok s -> pacer_ok (set_send_failure b s).
Proof. intros H. keep H. Qed.

Lemma ClearProbingSendFailure_ok (s : PacingController) : pacer_ok s -> pacer_ok (ClearProbingSendFailure s).
Proof. intros H. unfold ClearProbingSendFailure. case_match; [done|by apply pacer_send_failure]. Qed.

Lemma wp_ClearProbingSendFailure n t s :
  Inv n t s -> wp (update ClearProbingSendFailure) s (fun _ s' => Inv n t s').
Proof.
  intros H. apply wp_update_inv; [done|apply ClearProbingSendFailure_ok, H| |];
    unfold ClearProbingSendFailure; by case_match.
Qed.

Lemma CreateProbeClusters_ok cs n t s :
  Inv n t s -> Forall probe_config_ok cs -> wp (CreateProbeClusters cs) s (fun _ s' => Inv n t s').
Proof.
  intros H Hcs. unfold CreateProbeClusters. apply wp_bind. eapply wp_mono.
  { apply (wp_update_inv _ n t); [exact H| |done|done]. apply pacer_ok_prober; [apply H|].
    pose proof (pk_prober _ (proj1 H)) as Hb. revert Hb. generalize (prober_ s.1).
    induction Hcs as [|c cs Hc _ IH]; intros b Hb; cbn [fold_left]; [done|].
    apply IH. by apply CreateProbeCluster_ok. }
  intros [] s1 H1. destruct cs; [by apply wp_ret|by apply wp_ClearProbingSendFailure].
Qed.

(** The queue learns of a pause, and of the time. *)
Lemma pause_queue_ok b now (s : PacingController) :
  pacer_ok s -> last_update_time_ (totals (packet_queue_ s)) <= now <= last_timestamp_ s ->
  pacer_ok (set_queue (SetPauseState b now (packet_queue_ s)) s) /\
  queue_len (set_queue (SetPauseState b now (packet_queue_ s)) s) = queue_len s.
Proof.
  intros H Hnow. pose proof (pk_clock _ H) as Hc.
  destruct (SetPauseState_ok b now _ (pk_queue _ H)) as (Hq & Hl & Hu); [lia|].
  split; [|unfold queue_len; cbn [packet_queue_ set_queue]; by rewrite Hl].
  apply pacer_ok_queue; [done|done|lia|].
  unfold queued_small. rewrite Hl. apply H.
Qed.

Lemma Pause_ok n t s : Inv n t s -> wp Pause s (fun _ s' => Inv n t s').
Proof.
  intros H. unfold Pause. apply wp_bind. eapply wp_mono.
  { apply (wp_update_inv _ n t); [exact H| |done|done]. destruct H as [H _]. keep H. }
  intros [] s1 H1. apply wp_bind. wp_call (CurrentTime_ok n t s1 H1). intros now s2 (H2 & Hnow & _ & Hl & Hs2).
  apply wp_update. destruct H2 as (Hok & Hn & Ht & Hw).
  destruct (pause_queue_ok true now s2.1 Hok) as [H3 H4].
  { rewrite Hs2. cbn. pose proof (pk_clock _ (proj1 H1)). lia. }
  split_and!; [done|cbn [fst]; lia|cbn; lia|done].
Qed.

Lemma Resume_ok n t s : Inv n t s -> wp Resume s (fun _ s' => Inv n t s').
Proof.
  intros H. unfold Resume. apply wp_bind. wp_call (CurrentTime_ok n t s H). intros now s1 (H1 & Hnow & H0 & Hl & Hs1).
  apply wp_update. destruct H1 as (Hok & Hn & Ht & Hw).
  set (s2 := set_paused false (if paused_ s1.1 then set_last_process now s1.1 else s1.1)).
  assert (pacer_ok s2 /\ packet_queue_ s2 = packet_queue_ s1.1 /\ last_timestamp_ s2 = last_timestamp_ s1.1) as (H2 & Hq & Hlt).
  { subst s2. destruct (paused_ s1.1); (split; [|done]); destruct Hok; split; cbn; try assumption.
    unfold kMaxEarlyProbeProcessing. lia. }
  destruct (pause_queue_ok false now s2 H2) as [H3 H4].
  { rewrite Hq, Hlt, Hs1. cbn. pose proof (pk_clock _ (proj1 H)). lia. }
  split_and!; [done| | |done].
  - cbn [fst]. fold s2. rewrite H4. unfold queue_len. rewrite Hq. exact Hn.
  - cbn [fst]. fold s2. change (t <= last_timestamp_ s2). rewrite Hlt. lia.
Qed.

Lemma SetCongested_ok b n t s : Inv n t s -> wp (SetCongested b) s (fun _ s' => Inv n t s').
Proof.
  intros H. unfold SetCongested. apply wp_bind, wp_member. cbn [id].
  set (cleared := congested_ s.1 && negb b). clearbody cleared. apply wp_bind.
  apply wp_mono with (P := fun _ s' => Inv n t s').
  { destruct cleared; [|by apply wp_ret]. apply wp_bind. wp_call (CurrentTime_ok n t s H).
    intros now s1 (H1 & Hnow & _). eapply wp_mono; [apply (wp_AdvanceTo now n now); [done|]|].
    - destruct H1 as (_ & _ & ? & _). unfold kMaxEarlyProbeProcessing. lia.
    - intros [] s2 H2. eapply Inv_weaken; [exact H2|lia|lia]. }
  intros [] s1 H1. apply wp_bind. eapply wp_mono.
  { apply (wp_update_inv _ n t); [exact H1| |done|done]. destruct H1 as [H1 _]. keep H1. }
  intros [] s2 H2. destruct cleared; [by apply wp_ClearProbingSendFailure|by apply wp_ret].
Qed.

Lemma PacerRemovePacketsForSsrc_ok ssrc n t s :
  Inv n t s -> wp (PacerRemovePacketsForSsrc ssrc) s (fun _ s' => Inv n t s').
Proof.
  intros H. unfold PacerRemovePacketsForSsrc. destruct (remove_ok ssrc n t s H) as (q & Hq & H').
  eapply wp_try_update; [by rewrite Hq|exact H'].
Qed.

(** ** Runs *)

(** What [PacedSender] calls. *)
Inductive PacerEvent :=
  | EEnqueue (p : RtpPacketToSend)
  | EProcess
  | ENextSendTime
  | EExpectedQueueTime
  | EProbes (configs : list ProbeClusterConfig)
  | EPause
  | EResume
  | ECongested (congested : bool)
  | ERates (pacing_rate padding_rate : Z)
  | ERemove (ssrc : Z)
  | EAbortProbing
  | EProbing (enabled : bool)
  | EAllowProbes (allow : bool)
  | EAccountAudio (account : bool)
  | EIncludeOverhead
  | EOverhead (overhead_per_packet : Z)
  | EBurst (burst_interval : Z)
  | EQueueLimit (limit : Z)
  | EThreshold (num_iterations : Z).

Definition pacer_step (e : PacerEvent) : P (W:=W) unit :=
  match e with
  | EEnqueue p => EnqueuePacket p
  | EProcess => ProcessPackets
  | ENextSendTime => NextSendTime ;; mret tt
  | EExpectedQueueTime => s ← member id; lift (ExpectedQueueTime s) ;; mret tt
  | EProbes configs => CreateProbeClusters configs
  | EPause => Pause
  | EResume => Resume
  | ECongested b => SetCongested b
  | ERates pacing padding => SetPacingRates pacing padding
  | ERemove ssrc => PacerRemovePacketsForSsrc ssrc
  | EAbortProbing => AbortProbing
  | EProbing b => SetProbingEnabled b
  | EAllowProbes b => SetAllowProbeWithoutMediaPacket b
  | EAccountAudio b => SetAccountForAudioPackets b
  | EIncludeOverhead => SetIncludeOverhead
  | EOverhead n => SetTransportOverhead n
  | EBurst d => SetSendBurstInterval d
  | EQueueLimit d => SetQueueTimeLimit d
  | EThreshold n => SetCircuitBreakerThreshold n
  end.

Definition pacer_event_ok (e : PacerEvent) : Prop :=
  match e with
  | EEnqueue p => small_packet p
  | EProbes configs => Forall probe_config_ok configs
  | ERates pacing padding => 0 < pacing <= kMaxRate /\ 0 <= padding <= kMaxRate
  | EOverhead n => 0 <= n <= kMaxOverhead
  | _ => True
  end.

(** Packets that the event adds to the queue, apart from padding. *)
Definition enqueues (e : PacerEvent) : Z := match e with EEnqueue _ => 1 | _ => 0 end.

Lemma pacer_step_ok e n t s :
  Inv n t s -> kMaxPadding <= n -> n + enqueues e <= kMaxPacerQueue -> pacer_event_ok e ->
  wp (pacer_step e) s (fun _ s' => Inv (n + enqueues e) t s').
Proof.
  intros H Hn Hmax He. destruct e; cbn [pacer_step enqueues pacer_event_ok] in *;
    rewrite ?Z.add_0_r in *.
  - apply EnqueuePacket_inv; [done|lia|done].
  - by apply ProcessPackets_ok.
  - apply wp_bind. wp_call (NextSendTime_ok n t s H). intros x s1 (now & H1 & Hnow & _).
    apply wp_ret. eapply Inv_weaken; [exact H1|lia|lia].
  - apply wp_bind, wp_member, wp_bind. cbn [id]. pose proof (pk_rates _ (proj1 H)).
    unfold ExpectedQueueTime. destruct (Z.eqb_spec (adjusted_media_rate_ s.1) 0); [lia|].
    eapply wp_lift; [done|]. by apply wp_ret.
  - by apply CreateProbeClusters_ok.
  - by apply Pause_ok.
  - by apply Resume_ok.
  - by apply SetCongested_ok.
  - destruct H as (H & Hl & Ht & Hw). destruct He.
    apply SetPacingRates_ok; try done; [by apply pacer_ok_pre].
  - by apply PacerRemovePacketsForSsrc_ok.
  - apply wp_update_inv; [done| |done|done].
    apply pacer_send_failure, pacer_ok_prober; [apply H|apply ProberAbortProbing_ok].
  - apply wp_update_inv; [done| |done|done]. apply pacer_ok_prober; [apply H|apply SetEnabled_ok, H].
  - apply wp_update_inv; [done| | |]; cbn beta;
      [|unfold ClearProbingSendFailure; by repeat case_match..].
    assert (pacer_ok (set_prober (ProberSetAllowProbeWithoutMediaPacket allow (prober_ s.1)) s.1)) as H1.
    { apply pacer_ok_prober; [apply H|]. apply MaybeSetActiveState_ok, prober_ok_config, H. }
    cbv zeta. case_match; [by apply ClearProbingSendFailure_ok|done].
  - apply wp_update_inv; [done| |done|done]. destruct H as [H _]. keep H.
  - apply wp_update_inv; [done| |done|done]. destruct H as [H _]. keep H.
  - apply wp_update_inv; [done| | |]; cbn beta; destruct (ignore_transport_overhead_ s.1); try done; [apply H|].
    destruct H as [[] _]. split; cbn; assumption.
  - apply wp_update_inv; [done| |done|done]. destruct H as [H _]. keep H.
  - apply wp_update_inv; [done| |done|done]. destruct H as [H _]. keep H.
  - apply wp_update_inv; [done| |done|done]. destruct H as [H _]. keep H.
Qed.

Lemma pacer_run_ok es n t s :
  Inv n t s -> kMaxPadding <= n -> n + zsum enqueues es <= kMaxPacerQueue -> Forall pacer_event_ok es ->
  wp (for_each pacer_step es) s (fun _ s' => Inv kMaxPacerQueue t s').
Proof.
  revert n s. induction es as [|e es IH]; intros n s H Hn Hmax Hes; cbn [for_each zsum] in *.
  - apply wp_ret. eapply Inv_weaken; [exact H|lia|lia].
  - apply Forall_cons_1 in Hes as [He Hes]. apply wp_bind.
    assert (0 <= enqueues e /\ 0 <= zsum enqueues es) as [].
    { split; [by destruct e|]. clear. induction es as [|[] es IH]; cbn [zsum enqueues]; lia. }
    eapply wp_mono; [by apply (pacer_step_ok e n t); [|done|lia|]|]. intros [] s1 Hs1.
    apply (IH (n + enqueues e)); [done|lia|lia|done].
Qed.

(** The pacer as it is constructed, seen from its first reading of the clock. *)
Lemma new_pacer_pre c t : 0 <= t <= kMaxTime -> pacer_pre (new_pacer c t t).
Proof.
  intros Ht. pose proof (new_queue_ok t (prioritize_audio_retransmission c) (packet_queue_ttl c) Ht) as Hq.
  unfold pacer_pre. split; cbn -[new_queue new_prober]; try lia.
  - exact Hq.
  - cbn. lia.
  - constructor.
  - apply new_prober_ok.
  - unfold kMaxRate. lia.
  - unfold kMaxDebt. lia.
  - unfold kMaxOverhead. lia.
  - unfold kMaxEarlyProbeProcessing. lia.
Qed.

Lemma first_rates c t0 t1 (w : W) pacing padding :
  t0 <= t1 <= (read_clock w).1 ->
  SetPacingRates pacing padding (new_pacer c t0 t1, w) = SetPacingRates pacing padding (new_pacer c t1 t1, w).
Proof.
  intros Ht. unfold SetPacingRates. set (pad := if pacing <? padding then _ else _).
  unfold try_update, CurrentTime, member, update, outside, gets, modify, lift, raise_max_rate.
  unfold mbind, M_bind, option_bind. cbn -[read_clock MaybeUpdateMediaRateDueToLongQueue llround].
  assert (forall r, t1 <= r -> (r <? t0) = false /\ (r <? t1) = false) as Hr by (intros; lia).
  destruct (read_clock w) as [r w'] eqn:E. destruct (Hr r) as [E0 E1]; [cbn in Ht; lia|].
  destruct ((100000000 <? pacing) || (100000000 <? pad)); [destruct (llround _) as [m|]; [|done]|];
    cbn -[read_clock MaybeUpdateMediaRateDueToLongQueue]; rewrite E;
    cbn -[read_clock MaybeUpdateMediaRateDueToLongQueue]; by rewrite E0, E1.
Qed.

(** ** Properties *)

(** C31. A pacer whose pacing rate is positive, from the first call on and in
    every later one that sets it, never divides by a rate of zero, never leaves
    a queue, and keeps its invariant, in whatever order it is asked, at any
    times the clock may show, even if it runs backwards: the packet queue and
    the prober are well, the padding rate is at most the pacing rate and the
    media rate at least that, debts are not negative, and no time is later than
    the present.  The bounds: rates are at most 4 Tbps, packets are typed, have
    a header and at most 2000 bytes, at most 199000 of them are queued over the
    run, and at most 1000 padding packets are made at once; overhead is at most
    500 bytes; a probe cluster asks for a positive rate, at most 1000 probes,
    1 GB, and 900 kB between two probes; and the clock shows at most 50 days. *)
Theorem pacer_run_safe (c : Configuration) (t0 t1 : Z) (w : W) (pacing padding : Z)
    (es : list PacerEvent) :
  world_ok w -> 0 <= t0 <= t1 -> t1 <= (read_clock w).1 ->
  Forall pacer_event_ok (ERates pacing padding :: es) -> zsum enqueues es <= kMaxPacerQueue - kMaxPadding ->
  exists s, for_each pacer_step (ERates pacing padding :: es) (new_pacer c t0 t1, w) = Some (tt, s) /\
    pacer_ok s.1 /\ queue_len s.1 <= kMaxPacerQueue.
Proof.
  intros Hw Ht Ht1 Hes Hn. apply Forall_cons_1 in Hes as [[Hpac Hpad] Hes].
  destruct (clock_ok w Hw) as [Hr _]. change (0 < pacing <= kMaxRate) in Hpac.
  assert (wp (for_each pacer_step (ERates pacing padding :: es)) (new_pacer c t0 t1, w)
    (fun _ s' => Inv kMaxPacerQueue t1 s')) as ([] & s & Hrun & Hok & Hl & _).
  - cbn [for_each pacer_step]. apply wp_bind. unfold wp at 1. rewrite first_rates by lia.
    apply wp_mono with (P := fun _ s' => Inv kMaxPadding t1 s').
    + apply SetPacingRates_ok; try done. apply new_pacer_pre. lia.
    + intros [] s1 H1. apply (pacer_run_ok es kMaxPadding); [done|done|unfold kMaxPacerQueue, kMaxPadding in *; lia|done].
  - by exists s.
Qed.

End pacer.

(** A world for examples: a clock that advances by a millisecond at each reading,
    padding of one packet, and the list of what was sent. *)
Record SampleWorld := mkWorld { w_time : Z; w_sent : list RtpPacketToSend }.

#[export] Instance sample_clock : Clock SampleWorld :=
  fun w => (Z.min kMaxTime (w_time w), mkWorld (w_time w + 1000) (w_sent w)).

Definition sample_padding : RtpPacketToSend := sample_packet_of 7 kPadding.

#[export] Instance sample_sender : PacketSender SampleWorld := {
  SendPacket p _ w := mkWorld (w_time w) (w_sent w ++ [p]);
  FetchFec w := ([], w);
  GeneratePadding _ w := ([sample_padding], w);
  OnBatchComplete w := w;
}.

Lemma sample_small ssrc ty : small_packet (sample_packet_of ssrc ty).
Proof. split; [by eexists|]. split_and!; vm_compute; congruence. Qed.

#[export] Program Instance sample_laws : SenderLaws SampleWorld := {
  world_ok w := 0 <= w_time w;
}.
Next Obligation. intros w H. cbn in *. unfold kMaxTime. lia. Qed.
Next Obligation. intros p i w _ H. exact H. Qed.
Next Obligation. intros w H. by split. Qed.
Next Obligation.
  intros n w H. cbn. split_and!; [constructor; [apply sample_small|constructor]|vm_compute; congruence|done].
Qed.
Next Obligation. intros w H. exact H. Qed.

Definition sample_rates : PacerEvent := ERates 300000 0.

(** Two video packets and an audio packet, a probe, a pause, and congestion. *)
Definition sample_pacing : list PacerEvent :=
  [EEnqueue (sample_packet_of 7 kVideo); EEnqueue (sample_packet_of 7 kVideo);
   EEnqueue (sample_packet_of 9 kAudio); EProcess; EProbes [sample_probe 20000 1]; EProcess; EPause;
   EProcess; EResume; ECongested true; EProcess; ECongested false; EExpectedQueueTime].

Lemma sample_pacing_ok : Forall pacer_event_ok (sample_rates :: sample_pacing).
Proof.
  repeat constructor; try apply sample_small; try (vm_compute; congruence).
Qed.

Lemma pacer_run_safe_witness :
  exists s, for_each pacer_step (sample_rates :: sample_pacing) (new_pacer DefaultConfiguration 1000 1000, mkWorld 1000 [])
    = Some (tt, s) /\ pacer_ok s.1 /\ queue_len s.1 <= kMaxPacerQueue.
Proof.
  apply (pacer_run_safe DefaultConfiguration 1000 1000 (mkWorld 1000 []) 300000 0 sample_pacing).
  - cbn. lia.
  - lia.
  - vm_compute. congruence.
  - exact sample_pacing_ok.
  - vm_compute. congruence.
Defined.
