(* ===== verification/PacerRate.v ===== *)
(** * What the pacer promises about rate and time

    When the next send is due, what congestion holds back, and the leaky bucket:
    how many bytes may leave in one run of the send loop. *)

From stdpp Require Import gmap.
From S2P Require Import Prelude StateMonad Units NetworkTypes RtpPacket RtpToSend PacketQueue Prober.
From S2P Require Import PacketQueueOk Pacer PacerOk.

(** ** Lemmas: nothing but paced packets *)

(** Audio and retransmissions skip the line; only video, FEC and padding wait
    for the budget. *)
Definition paced_only (q : PrioritizedPacketQueue) : Prop :=
  Forall (fun p => 3 <= priority q (packet p)) (all (levels q)).

Lemma leading_priority i p q :
  queue_ok q -> leading i q = Some p -> priority q (packet p) = Z.of_nat i.
Proof.
  intros (Hsh & _) Hl. unfold leading in Hl.
  destruct (levels q !! i) as [[|[s [|p' ps]] lv]|] eqn:Hi; try done. injection Hl as ->.
  destruct (level_round q i _ Hi) as (ss & Hss & Hlv & _). destruct ss as [|s' ss]; [done|].
  cbn [level_of map] in Hlv. injection Hlv as -> Hf _.
  pose proof (sh_own q Hsh i s') as Hown. rewrite <- Hf in Hown. apply Forall_cons_1 in Hown as [[_ Hp] _].
  exact Hp.
Qed.

Lemma paced_only_leading i q : queue_ok q -> paced_only q -> (i < 3)%nat -> leading i q = None.
Proof.
  intros Hq Hp Hi. destruct (leading i q) as [p|] eqn:Hl; [|done]. exfalso.
  pose proof (leading_priority i p q Hq Hl). apply leading_in in Hl.
  unfold paced_only in Hp. rewrite list.Forall_forall in Hp. specialize (Hp p Hl). cbn beta in Hp. lia.
Qed.

Lemma paced_only_unpaced (s : PacingController) :
  queue_ok (packet_queue_ s) -> paced_only (packet_queue_ s) -> NextUnpacedSendTime s = Some MinusInfinity.
Proof.
  intros Hq Hp. unfold NextUnpacedSendTime, LeadingPacketEnqueueTime, LeadingPacketEnqueueTimeForRetransmission.
  change (GetPriorityForType kAudio None) with (Z.of_nat 0).
  change (GetPriorityForType kRetransmission None) with (Z.of_nat 1).
  change (GetPriorityForType kRetransmission (Some kOriginalAudio)) with (Z.of_nat 1).
  change (GetPriorityForType kRetransmission (Some kOriginalVideo)) with (Z.of_nat 2).
  rewrite !leading_time_ok, !paced_only_leading by (done || (unfold kNumPriorityLevels; lia)).
  destruct (negb (pace_audio_ s)), (fast_retransmissions_ s), (negb (prioritize_audio_retransmission_ (packet_queue_ s))); reflexivity.
Qed.

(** Packets leaving the queue keep it so. *)
Lemma paced_only_sub q q' :
  paced_only q -> same_setup q q' -> all (levels q') ⊆+ all (levels q) -> paced_only q'.
Proof.
  intros Hp [Ha _] Hs. unfold paced_only in *. eapply Forall_submseteq; [exact Hs|].
  eapply List.Forall_impl; [|exact Hp]. intros p. unfold priority. by rewrite Ha.
Qed.

(** ** Lemmas: the next send time *)

Section times.
Implicit Types s : PacingController.

Lemma timestamp_add_near t d s :
  pacer_ok s -> 0 <= t <= last_timestamp_ s + kMaxEarlyProbeProcessing -> 0 <= d <= 4000000000000000000 ->
  timestamp_add t d = t + d.
Proof.
  intros H Ht Hd. pose proof (pk_clock s H). unfold kMaxTime, kMaxEarlyProbeProcessing in *.
  apply timestamp_add_small; unfold small; lia.
Qed.

(** Not probing, or a probe that could not be sent. *)
Definition no_probe s : Prop := is_probing (prober_ s) = false \/ probing_send_failure_ s = true.

Lemma next_send_time_expiration now s t :
  next_send_time now s = Some t -> t <= NextClusterExpiration (prober_ s).
Proof.
  unfold next_send_time. destruct (paused_ s); [intros [= <-]; lia|].
  case_match; [intros [= <-]; lia|]. intros (u & _ & Ht)%bind_Some.
  case_match; [injection Ht as <-; lia|]. case_match; [injection Ht as <-; lia|].
  apply bind_Some in Ht as (x & _ & Ht). injection Ht as <-. lia.
Qed.

Lemma enqueue_time_past s p :
  pacer_ok s -> p ∈ all (levels (packet_queue_ s)) -> enqueue_time p <= last_timestamp_ s.
Proof.
  intros H Hp. destruct (pk_queue s H) as (_ & Ha & _). pose proof (pk_clock s H).
  pose proof (acct_clock _ _ _ Ha) as (Hz & _). pose proof (acct_waiting _ _ _ Ha) as Hw.
  rewrite list.Forall_forall in Hw. specialize (Hw p Hp). unfold waiting in Hw. lia.
Qed.

(** A packet that is not paced is due when it arrived. *)
Lemma unpaced_past s t :
  pacer_ok s -> NextUnpacedSendTime s = Some t -> IsFinite t = true -> t <= last_timestamp_ s.
Proof.
  intros H. pose proof (pk_queue s H) as Hq. pose proof (queue_clock _ Hq). pose proof (pk_clock s H).
  assert (forall i none t, (i < kNumPriorityLevels)%nat -> leading_time (Z.of_nat i) none (packet_queue_ s) = Some t ->
    t = none \/ t <= last_timestamp_ s) as Hlead.
  { intros i none x Hi. rewrite (leading_time_ok i none _ Hq Hi). intros [= <-].
    destruct (leading i (packet_queue_ s)) as [p|] eqn:Hp; [right|by left].
    apply leading_in in Hp. by apply enqueue_time_past. }
  assert (forall i, (i < 3)%nat -> (i < kNumPriorityLevels)%nat) as Hi by (unfold kNumPriorityLevels; lia).
  unfold NextUnpacedSendTime. intros (a & Ha & Ht)%bind_Some Hf.
  destruct (IsFinite a) eqn:Ea.
  - injection Ht as <-. destruct (negb (pace_audio_ s)); [|by injection Ha as <-].
    destruct (Hlead 0%nat MinusInfinity a) as [->|]; [apply Hi; lia|exact Ha|done|done].
  - apply bind_Some in Ht as (r & Hr & Ht). destruct (IsFinite r) eqn:Er; injection Ht as <-; [|done].
    destruct (fast_retransmissions_ s); [|by injection Hr as <-].
    unfold LeadingPacketEnqueueTimeForRetransmission in Hr.
    destruct (negb (prioritize_audio_retransmission_ (packet_queue_ s))).
    + destruct (Hlead 1%nat PlusInfinity r) as [->|]; [apply Hi; lia|exact Hr|done|done].
    + apply bind_Some in Hr as (x & Hx & Hr). apply bind_Some in Hr as (y & Hy & [= <-]).
      destruct (Hlead 1%nat PlusInfinity x) as [->|]; [apply Hi; lia|exact Hx| |lia].
      destruct (Hlead 2%nat PlusInfinity y) as [->|]; [apply Hi; lia|exact Hy|done|lia].
Qed.

(** The pacer never sleeps through what it has to do: the next send time is
    defined, comes no later than the expiry of the first probe cluster, and,
    unless a probe is under way, no later than half a second after the last
    packet, or at once when a packet waits that is not paced. *)
Theorem pacer_wakes (s : PacingController) (now : Z) :
  pacer_ok s -> send_padding_if_silent_ s = true ->
  exists t, next_send_time now s = Some t /\ t <= NextClusterExpiration (prober_ s) /\
    (no_probe s -> t <= Z.max (last_timestamp_ s) (last_send_time_ s + kPausedProcessInterval)).
Proof.
  intros H Hsil. destruct (next_send_time_ok now s H) as [t Ht]. exists t. split; [done|].
  split; [by eapply next_send_time_expiration|]. intros Hno.
  pose proof (pk_send s H) as Hs.
  assert (timestamp_add (last_send_time_ s) kPausedProcessInterval = last_send_time_ s + kPausedProcessInterval) as Hadd.
  { apply (timestamp_add_near _ _ s H); [unfold kMaxEarlyProbeProcessing; lia|vm_compute; split; congruence]. }
  unfold next_send_time in Ht. change kCongestedPacketInterval with kPausedProcessInterval in Ht. rewrite Hadd in Ht.
  destruct (paused_ s); [injection Ht as <-; lia|].
  assert ((if is_probing (prober_ s) && negb (probing_send_failure_ s) then NextProbeTime (prober_ s) else PlusInfinity)
    = PlusInfinity) as E by (destruct Hno as [-> | ->]; [done|by rewrite andb_false_r]).
  rewrite E in Ht. change (PlusInfinity =? PlusInfinity) with true in Ht. cbn [negb] in Ht.
  apply bind_Some in Ht as (u & Hu & Ht). destruct (IsFinite u) eqn:Ef.
  - injection Ht as <-. pose proof (unpaced_past s u H Hu Ef). lia.
  - destruct (congested_ s || negb (seen_first_packet_ s)); [injection Ht as <-; lia|].
    apply bind_Some in Ht as (x & _ & Ht). rewrite Hsil in Ht.
    injection Ht as <-. lia.
Qed.
End times.

(** ** Lemmas: the bucket *)

Section bucket.
Implicit Types s : PacingController.

(** Only paced packets wait, nothing is probed, and no probe expires by [now]. *)
Record quiet (now : Z) s : Prop := {
  qt_paced : paced_only (packet_queue_ s);
  qt_probe : is_probing (prober_ s) = false;
  qt_expiration : now < NextClusterExpiration (prober_ s);
  qt_paused : paused_ s = false;
}.

(** What does not change while paced packets leave: the rate [r], the burst
    interval [b], and that nothing else is due at [now]. *)
Record plan (r b now : Z) s : Prop := {
  pl_quiet : quiet now s;
  pl_rate : adjusted_media_rate_ s = r;
  pl_padding : padding_rate_ s = 0;
  pl_burst : send_burst_interval_ s = b;
  pl_silent : send_padding_if_silent_ s = true;
}.

(** What is in a [plan] or not. *)
Lemma plan_same r b now s1 s2 :
  plan r b now s1 -> paced_only (packet_queue_ s2) -> prober_ s2 = prober_ s1 ->
  adjusted_media_rate_ s2 = adjusted_media_rate_ s1 -> padding_rate_ s2 = padding_rate_ s1 ->
  send_burst_interval_ s2 = send_burst_interval_ s1 ->
  send_padding_if_silent_ s2 = send_padding_if_silent_ s1 -> paused_ s2 = paused_ s1 -> plan r b now s2.
Proof.
  intros [[]] Hq Hp Ha Hpd Hbi Hs Hpa. split; [split|..]; rewrite ?Hp, ?Ha, ?Hpd, ?Hbi, ?Hs, ?Hpa; assumption.
Qed.

Lemma plan_time r b now t s : plan r b now s -> plan r b now (set_last_timestamp t s).
Proof. intros P. by destruct P as [[] ? ? ? ?]. Qed.

Lemma probe_time_none s :
  is_probing (prober_ s) = false ->
  (if is_probing (prober_ s) && negb (probing_send_failure_ s) then NextProbeTime (prober_ s)
   else PlusInfinity) = PlusInfinity.
Proof. by intros ->. Qed.

(** Congestion, or no packet seen yet, leaves only the keep-alive. *)
Lemma next_when_congested now now' s t :
  pacer_ok s -> quiet now s -> now < last_send_time_ s + kPausedProcessInterval ->
  congested_ s || negb (seen_first_packet_ s) = true ->
  next_send_time now' s = Some t -> now < t.
Proof.
  intros H P Hnow Hc Ht. pose proof (pk_send s H). pose proof (qt_expiration _ _ P).
  unfold next_send_time in Ht. rewrite (qt_paused _ _ P), (probe_time_none s (qt_probe _ _ P)) in Ht.
  rewrite (paced_only_unpaced s (pk_queue s H) (qt_paced _ _ P)) in Ht.
  change (PlusInfinity =? PlusInfinity) with true in Ht. cbn [negb mbind option_bind] in Ht.
  change (IsFinite MinusInfinity) with false in Ht. rewrite Hc in Ht.
  rewrite (timestamp_add_near _ _ s H) in Ht;
    [|unfold kMaxEarlyProbeProcessing; lia|vm_compute; split; congruence].
  change kCongestedPacketInterval with kPausedProcessInterval in Ht. injection Ht as <-. lia.
Qed.

(** The media that is due: at once within the burst, else when the debt is paid. *)
Definition due (r b : Z) s : Z :=
  let drain := media_debt_ s * 8000000 / r in
  if drain <? Z.min b (kMaxBurstSize * 8000000 / r) then 0 else drain.

Lemma due_bound r b s : 0 < r -> 0 <= media_debt_ s -> 0 <= due r b s <= media_debt_ s * 8000000 / r.
Proof.
  intros Hr Hd. assert (0 <= media_debt_ s * 8000000 / r) by (apply Z.div_pos; lia).
  unfold due. case_match; lia.
Qed.

Lemma next_when_media r b now now' s t :
  pacer_ok s -> plan r b now s -> now < last_send_time_ s + kPausedProcessInterval ->
  QueueEmpty s = false -> next_send_time now' s = Some t -> t <= now ->
  t = last_process_time_ s + due r b s.
Proof.
  intros H P Hnow He Ht Hle. destruct (congested_ s || negb (seen_first_packet_ s)) eqn:Hc.
  { pose proof (next_when_congested now now' s t H (pl_quiet _ _ _ _ P) Hnow Hc Ht). lia. }
  pose proof (pk_send s H). pose proof (qt_expiration _ _ (pl_quiet _ _ _ _ P)). pose proof (pk_rates s H) as Hr.
  pose proof (pk_debts s H) as Hd. pose proof (pk_process s H).
  unfold next_send_time in Ht. rewrite (qt_paused _ _ (pl_quiet _ _ _ _ P)), (probe_time_none s (qt_probe _ _ (pl_quiet _ _ _ _ P))) in Ht.
  rewrite (paced_only_unpaced s (pk_queue s H) (qt_paced _ _ (pl_quiet _ _ _ _ P))) in Ht.
  change (PlusInfinity =? PlusInfinity) with true in Ht. cbn [negb mbind option_bind] in Ht.
  change (IsFinite MinusInfinity) with false in Ht. rewrite Hc, He in Ht. cbn [negb] in Ht.
  rewrite (proj2 (Z.ltb_lt 0 (adjusted_media_rate_ s))) in Ht by lia. cbn [andb] in Ht.
  unfold next_media_time in Ht. rewrite !drain_time_ok in Ht by lia. cbn [mbind option_bind] in Ht.
  rewrite (pl_silent _ _ _ _ P), (pl_rate _ _ _ _ P), (pl_burst _ _ _ _ P) in Ht. rewrite (pl_rate _ _ _ _ P) in Hr.
  unfold size_over_rate, Microbits in Ht.
  rewrite !Z.quot_div_nonneg in Ht by (unfold kMaxBurstSize; lia). fold (due r b s) in Ht.
  pose proof (due_bound r b s ltac:(lia) ltac:(lia)) as Hdue.
  assert (media_debt_ s * 8000000 / r <= media_debt_ s * 8000000) by (apply Z.div_le_upper_bound; nia).
  unfold kMaxDebt in Hd.
  rewrite !(timestamp_add_near _ _ s H) in Ht;
    [|unfold kMaxEarlyProbeProcessing; lia|vm_compute; split; congruence|lia|lia].
  injection Ht as Ht. lia.
Qed.

(** Time passing pays the debt at the rate, rounded to half a byte. *)
Lemma advance_media r b now s target :
  pacer_ok s -> plan r b now s -> target <= last_timestamp_ s + kMaxEarlyProbeProcessing ->
  last_process_time_ s <= target <= last_process_time_ s + kMaxElapsedTime ->
  let s' := AdvanceTo target s in
  plan r b now s' /\ pacer_ok s' /\ last_process_time_ s' = target /\
  packet_queue_ s' = packet_queue_ s /\ last_send_time_ s' = last_send_time_ s /\
  media_debt_ s' = Z.max 0 (media_debt_ s - rate_times_duration r (target - last_process_time_ s)).
Proof.
  intros H P Ht Hlp s'. pose proof (AdvanceTo_ok target s H Ht) as H'. fold s' in H'.
  pose proof (pk_rates s H). pose proof (pk_debts s H).
  unfold s', AdvanceTo in *. rewrite (UpdateTimeAndGetElapsed_spec target s H Ht) in *.
  rewrite (proj2 (Z.ltb_ge target (last_process_time_ s))) in * by lia. rewrite Z.min_l in * by lia.
  destruct P as [[] ? ? ? ?]. split_and!; [by repeat split|done|done|done|done|].
  cbn [UpdateBudgetWithElapsedTime set_padding_debt set_media_debt media_debt_ set_last_process adjusted_media_rate_].
  subst r. apply unit_sub_paid; [lia|]. apply rate_times_duration_nonneg; lia.
Qed.

Lemma budget_bound r d :
  0 <= r -> 0 <= d -> r * d - 4000000 < 8000000 * rate_times_duration r d <= r * d + 4000000.
Proof.
  intros Hr Hd. unfold rate_times_duration. rewrite Z.quot_div_nonneg by nia.
  pose proof (Z.mul_div_le (r * d + 4000000) 8000000 ltac:(lia)).
  pose proof (Z.mul_succ_div_gt (r * d + 4000000) 8000000 ltac:(lia)). lia.
Qed.

(** What is left after waiting for what is due is within the burst. *)
Lemma due_pays r b s :
  0 < r -> 0 <= b -> 0 <= media_debt_ s ->
  (media_debt_ s - rate_times_duration r (due r b s)) * 8000000 < (b + 1) * r + 8000000.
Proof.
  intros Hr Hb Hm. pose proof (due_bound r b s Hr Hm) as Hdb.
  pose proof (budget_bound r (due r b s) ltac:(lia) ltac:(lia)) as Hbud.
  pose proof (Z.mul_succ_div_gt (media_debt_ s * 8000000) r Hr) as Hgt.
  unfold due in *. destruct (Z.ltb_spec (media_debt_ s * 8000000 / r) (Z.min b (kMaxBurstSize * 8000000 / r))).
  - assert (r * Z.succ (media_debt_ s * 8000000 / r) <= r * b) by nia. nia.
  - nia.
Qed.

(** With nothing to send and no padding, half a second passes. *)
Lemma next_when_empty r b now now' s t :
  pacer_ok s -> plan r b now s -> now < last_send_time_ s + kPausedProcessInterval ->
  QueueEmpty s = true -> next_send_time now' s = Some t -> t <= now ->
  t = last_process_time_ s + kPausedProcessInterval.
Proof.
  intros H P Hnow He Ht Hle. destruct (congested_ s || negb (seen_first_packet_ s)) eqn:Hc.
  { pose proof (next_when_congested now now' s t H (pl_quiet _ _ _ _ P) Hnow Hc Ht). lia. }
  pose proof (pk_send s H). pose proof (qt_expiration _ _ (pl_quiet _ _ _ _ P)). pose proof (pk_process s H).
  unfold next_send_time in Ht. rewrite (qt_paused _ _ (pl_quiet _ _ _ _ P)), (probe_time_none s (qt_probe _ _ (pl_quiet _ _ _ _ P))) in Ht.
  rewrite (paced_only_unpaced s (pk_queue s H) (qt_paced _ _ (pl_quiet _ _ _ _ P))) in Ht.
  change (PlusInfinity =? PlusInfinity) with true in Ht. cbn [negb mbind option_bind] in Ht.
  change (IsFinite MinusInfinity) with false in Ht. rewrite Hc, He, (pl_padding _ _ _ _ P) in Ht.
  rewrite (pl_silent _ _ _ _ P), andb_false_r in Ht. cbn [andb Z.ltb Z.compare mbind option_bind] in Ht.
  rewrite !(timestamp_add_near _ _ s H) in Ht;
    [|unfold kMaxEarlyProbeProcessing; lia|vm_compute; split; congruence|lia|vm_compute; split; congruence].
  injection Ht as Ht. lia.
Qed.
End bucket.


(** ** Lemmas: the send loop *)

(** Counting what is sent. *)
Class Meter (W : Type) {clk : Clock W} {sender : PacketSender W} := {
  bytes : W -> Z;
  packets : W -> Z;
  meter_send : forall p i w, bytes (SendPacket p i w) =
      bytes w + (payload_size_ (rtp_packet p) + padding_size_ (rtp_packet p)) /\
    packets (SendPacket p i w) = packets w + 1;
  meter_clock : forall w, bytes (read_clock w).2 = bytes w /\ packets (read_clock w).2 = packets w;
  meter_fec : forall w, bytes (FetchFec w).2 = bytes w /\ packets (FetchFec w).2 = packets w;
  meter_batch : forall w, bytes (OnBatchComplete w) = bytes w /\ packets (OnBatchComplete w) = packets w;
}.

Section loop.
Context {W : Type} {clk : Clock W} {sender : PacketSender W} {laws : SenderLaws W} {meter : Meter W}.
Context (r b now : Z) (Hr : 0 < r) (Hb : 0 <= b) (H0 : 0 <= now).
(** The burst and a packet fit in the half second that the debt is capped to. *)
Context (Hcap : (b + 1) * r + 8000000 * (kMaxSent + 1) <= kMaxDebtInTime * r).
Context (d0 lp0 bytes0 packets0 : Z) (Hd0 : 0 <= d0).
Implicit Types s : (PacingController * W)%type.

Definition spent s : Z := 8000000 * (bytes s.2 - bytes0).
Definition earned s : Z := 8000000 * (media_debt_ s.1 - d0) + r * (last_process_time_ s.1 - lp0).

(** Between two packets. *)
Record between s : Prop := {
  bt_inv : Inv kMaxPacerQueue now s;
  bt_plan : plan r b now s.1;
  bt_send : now < last_send_time_ s.1 + kPausedProcessInterval;
  bt_time : lp0 <= last_process_time_ s.1 <= now;
  bt_debt : media_debt_ s.1 * 8000000 < (b + 1) * r + 8000000 * (kMaxSent + 1);
  bt_burst : QueueEmpty s.1 = false -> media_debt_ s.1 * 8000000 < (b + 1) * r + 8000000;
  bt_spent : spent s <= earned s + 4000000 * (packets s.2 - packets0 + 1);
}.

(** What the loop leaves behind. *)
Definition within_budget s : Prop :=
  spent s <= (b + 1) * r + r * (now - lp0) + 8000000 * (kMaxSent + 2) + 4000000 * (packets s.2 - packets0).

Lemma between_within s : between s -> within_budget s.
Proof. intros []. unfold within_budget, earned in *. nia. Qed.

Lemma wp_world_clock s (Q : Z -> PacingController * W -> Prop) :
  Inv kMaxPacerQueue now s ->
  (forall t w, last_timestamp_ s.1 <= t <= kMaxTime -> world_ok w -> bytes w = bytes s.2 -> packets w = packets s.2 ->
    Q t (set_last_timestamp t s.1, w)) ->
  wp CurrentTime s Q.
Proof.
  intros (H & Hn & Ht & Hw) HQ. unfold CurrentTime. apply wp_bind, wp_outside.
  destruct (clock_ok s.2 Hw) as [Hc Hw']. destruct (meter_clock s.2) as [Hm1 Hm2].
  apply wp_bind, wp_member, wp_bind, wp_update, wp_ret. cbn [fst snd].
  pose proof (pk_clock _ H). apply HQ; [case_match; b2p; lia|done|done|done].
Qed.

(** Only paced packets leave such a queue. *)
Lemma pop_paced q p q' :
  queue_ok q -> paced_only q -> Pop q = Some (p, q') ->
  paced_only q' /\ match p with Some p => packet_type_ p <> Some kAudio | None => True end.
Proof using Type.
  intros Hq Hp Hpop. pose proof (Pop_ok q Hq) as H. destruct (abs_pop _ _ _) as [[p1 a]|] eqn:Hab.
  - destruct H as (q1 & E & _ & Hl & _ & Hset). rewrite E in Hpop. injection Hpop as <- <-.
    rewrite <- Hl in Hab. apply abs_pop_sub in Hab. split.
    + eapply paced_only_sub; [exact Hp|exact Hset|]. etransitivity; [|exact Hab]. by constructor.
    + eapply Forall_submseteq in Hp; [|exact Hab]. apply Forall_cons_1 in Hp as [Hp _].
      cbn [set_time_in_send_queue packet_type_]. intros E1. unfold priority in Hp. rewrite E1 in Hp. cbn in Hp. lia.
  - destruct H as [E _]. rewrite E in Hpop. by injection Hpop as <- <-.
Qed.

(** The debt and the times after a packet was sent. *)
Lemma sent_debt ty n (s : PacingController) :
  pacer_ok s -> plan r b now s -> ty <> kAudio -> 0 <= n <= kMaxSent ->
  media_debt_ s * 8000000 < (b + 1) * r + 8000000 ->
  media_debt_ (OnPacketSent ty n now s) = media_debt_ s + n.
Proof.
  intros H P Hty Hn Hd. pose proof (pk_debts s H) as [[Hm Hm1] _]. unfold OnPacketSent.
  rewrite (bool_decide_eq_false_2 (ty = kAudio)) by done. cbn [negb orb andb].
  set (s1 := match first_sent_packet_time_ s with Some _ => s | None => _ end).
  assert (media_debt_ s1 = media_debt_ s /\ adjusted_media_rate_ s1 = r) as [E1 E2].
  { rewrite <- (pl_rate _ _ _ _ P). subst s1. by repeat case_match. }
  destruct (Z.ltb_spec 0 n) as [Hpos|]; cbn [set_last_send media_debt_]; [|lia].
  cbn [UpdateBudgetWithSentData UpdatePaddingBudgetWithSentData set_padding_debt set_media_debt media_debt_].
  rewrite E1, E2. unfold kMaxDebt, kMaxSent, kMaxPacketBytes, kMaxOverhead in *. rewrite unit_add_small by (unfold small; lia).
  apply Z.min_l. pose proof (budget_bound r kMaxDebtInTime ltac:(lia) ltac:(done)). lia.
Qed.

(** Between the packets, time passes to the next send time, if that has come. *)
Lemma next_target_budget s l :
  Inv kMaxPacerQueue now s -> plan r b now s.1 -> now < last_send_time_ s.1 + kPausedProcessInterval ->
  lp0 <= last_process_time_ s.1 <= now ->
  media_debt_ s.1 * 8000000 < (b + 1) * r + 8000000 * (kMaxSent + 1) ->
  spent s <= earned s + 4000000 * (packets s.2 - packets0) ->
  wp (next_target false now l) s (fun step s' =>
    match step with
    | Continue l' => between s' /\ pacing_info l' = pacing_info l
    | Break _ => within_budget s'
    end).
Proof.
  intros H P Hsend Hlp Hd Hsp. unfold next_target, NextSendTime. pose proof (pk_clock _ (proj1 H)) as Hc.
  destruct H as (Hok & Hn & Ht & Hw).
  apply wp_bind, wp_bind, (wp_world_clock s); [by split_and!|]. intros now1 w Hnow1 Hw1 Hb1 Hp1.
  apply wp_bind, wp_member. cbn [fst id]. set (s1 := set_last_timestamp now1 s.1).
  assert (pacer_ok s1) as H1 by (apply set_last_timestamp_ok; [done|lia]).
  assert (plan r b now s1) as P1 by (by apply plan_time).
  destruct (next_send_time_ok now1 s1 H1) as [t Hnext]. eapply wp_lift; [exact Hnext|].
  destruct (Z.ltb_spec now t) as [Hlt|Hge]; cbn [andb negb].
  { apply wp_ret. unfold within_budget, spent, earned in *. cbn [fst snd]. rewrite Hb1, Hp1. nia. }
  apply wp_bind, wp_update, wp_ret. cbn [fst snd pacing_info]. split; [|done].
  assert (exists d, t = last_process_time_ s1 + d /\ 0 <= d <= kMaxElapsedTime /\
    (QueueEmpty s1 = false -> (media_debt_ s1 - rate_times_duration r d) * 8000000 < (b + 1) * r + 8000000))
    as (d & Htd & Hd1 & Hburst).
  { destruct (QueueEmpty s1) eqn:He.
    - exists kPausedProcessInterval.
      assert (t = last_process_time_ s1 + kPausedProcessInterval) as ->; [|done].
      eapply next_when_empty; eauto.
    - exists (due r b s1). pose proof (pk_debts s1 H1) as [[Hm _] _].
      pose proof (due_bound r b s1 Hr Hm) as Hdb.
      split; [by eapply next_when_media; eauto|].
      assert (media_debt_ s1 * 8000000 / r <= kMaxElapsedTime) as Hel.
      { apply Z.div_le_upper_bound; [lia|]. change (media_debt_ s1) with (media_debt_ s.1). unfold kMaxDebtInTime, kMaxElapsedTime in *. nia. }
      split; [lia|]. intros _. by apply due_pays. }
  subst t. destruct (advance_media r b now s1 (last_process_time_ s1 + d) H1 P1) as (P2 & H2 & Hlp2 & Hq2 & Hls2 & Hd2);
    [cbn in *; unfold kMaxEarlyProbeProcessing; lia|lia|].
  set (s2 := AdvanceTo _ s1) in *. rewrite Z.add_simpl_l in Hd2.
  pose proof (budget_bound r d ltac:(lia) ltac:(lia)) as Hbud.
  pose proof (pk_debts s1 H1) as [[Hm _] _]. change (last_process_time_ s1) with (last_process_time_ s.1) in *.
  change (media_debt_ s1) with (media_debt_ s.1) in *.
  split; cbn [fst snd]; try done.
  - split_and!; [done| |cbn [fst]; unfold s2; rewrite last_timestamp_advance; cbn; lia|done].
    unfold queue_len in *. cbn [fst]. by rewrite Hq2.
  - rewrite Hls2. exact Hsend.
  - rewrite Hlp2. lia.
  - pose proof (rate_times_duration_nonneg r d ltac:(lia) ltac:(lia)). lia.
  - unfold QueueEmpty. rewrite Hq2. intros He. specialize (Hburst He). rewrite Hd2.
    destruct (Z.max_spec 0 (media_debt_ s.1 - rate_times_duration r d)) as [[_ ->]|[_ ->]]; [lia|nia].
  - unfold spent, earned in *. cbn [fst snd]. rewrite Hb1, Hp1, Hlp2, Hd2. nia.
Qed.

(** The world after sending a packet. *)
Lemma meter_send_packet p i s :
  bytes (FetchFec (SendPacket p i s.2)).2 = bytes s.2 + (payload_size_ (rtp_packet p) + padding_size_ (rtp_packet p)) /\
  packets (FetchFec (SendPacket p i s.2)).2 = packets s.2 + 1.
Proof using Type.
  destruct (meter_send p i s.2) as [<- <-]. apply meter_fec.
Qed.

Lemma send_one_budget s p l :
  Inv kMaxPacerQueue now s -> plan r b now s.1 ->
  lp0 <= last_process_time_ s.1 <= now -> small_packet p -> packet_type_ p <> Some kAudio ->
  media_debt_ s.1 * 8000000 < (b + 1) * r + 8000000 ->
  spent s <= earned s + 4000000 * (packets s.2 - packets0 + 1) ->
  wp (send_one false 0 now p l) s (fun step s' =>
    match step with
    | Continue l' => between s' /\ pacing_info l' = pacing_info l
    | Break _ => within_budget s'
    end).
Proof.
  intros H P Hlp Hp Hty Hd Hsp. unfold send_one. pose proof Hp as ([ty E] & Hpl & Hpd & _).
  apply wp_bind. eapply wp_lift; [exact E|]. apply wp_bind, wp_member, wp_bind.
  pose proof (sent_size_bound p s.1 (proj1 H) Hp) as Hsz.
  assert (payload_size_ (rtp_packet p) + padding_size_ (rtp_packet p) <= sent_size p s.1) as Hn.
  { destruct Hp as (_ & _ & _ & Ho & Hm). pose proof (pk_overhead _ (proj1 H)). unfold sent_size, kMaxPacketBytes, kMaxOverhead in *.
    case_match; [|lia]. rewrite (unit_add_small (payload_offset_ _)) by (unfold small; lia).
    rewrite unit_add_small by (unfold small; lia). lia. }
  set (size := sent_size p s.1) in *. clearbody size.
  wp_call (send_packet_ok p (pacing_info l) kMaxPacerQueue now s H Hp). intros [] s1 (H1 & E1 & E2).
  destruct (meter_send_packet p (pacing_info l) s) as [Hb1 Hp1]. rewrite <- E2 in Hb1, Hp1.
  apply wp_bind. assert (ty <> kAudio) as Hta by congruence.
  pose proof (sent_debt ty size s.1 (proj1 H) P Hta Hsz Hd) as Hdebt.
  pose proof (wp_OnPacketSent ty size now kMaxPacerQueue s1 H1 H0 ltac:(lia)) as Hsent.
  destruct Hsent as ([] & s2 & [= Es2] & H2). subst s2. apply wp_update. rewrite E1 in *.
  set (s2 := OnPacketSent ty size now s.1) in *. cbv zeta. cbn [andb].
  assert (packet_queue_ s2 = packet_queue_ s.1 /\ prober_ s2 = prober_ s.1 /\
    adjusted_media_rate_ s2 = adjusted_media_rate_ s.1 /\ padding_rate_ s2 = padding_rate_ s.1 /\
    send_burst_interval_ s2 = send_burst_interval_ s.1 /\
    send_padding_if_silent_ s2 = send_padding_if_silent_ s.1 /\ paused_ s2 = paused_ s.1 /\
    last_process_time_ s2 = last_process_time_ s.1 /\ last_send_time_ s2 = now)
    as (F1 & F2 & F3 & F4 & F5 & F6 & F7 & F8 & F9).
  { subst s2. unfold OnPacketSent. by repeat case_match. }
  apply (next_target_budget (s2, s1.2)
    (mkLoop (target_send_time l) (pacing_info l) (unit_add (data_sent l) size) (packets_sent l + 1))); cbn [fst].
  - exact H2.
  - eapply plan_same; [exact P|rewrite F1; apply (pl_quiet _ _ _ _ P)|done..].
  - rewrite F9. unfold kPausedProcessInterval, kCongestedPacketInterval. lia.
  - rewrite F8. exact Hlp.
  - rewrite Hdebt. lia.
  - unfold spent, earned in *. cbn [fst snd]. rewrite Hb1, Hp1, Hdebt, F8. lia.
Qed.

Lemma nothing_budget s l :
  within_budget s -> pacer_ok s.1 -> padding_rate_ s.1 = 0 -> 
  wp (nothing_to_send 0 now l) s (fun step s' =>
    match step with Continue _ => False | Break _ => within_budget s' end).
Proof.
  intros Hb1 Hok Hpad. unfold nothing_to_send, limit_replay. apply wp_bind.
  apply wp_mono with (P := fun _ s' => s'.2 = s.2 /\ padding_rate_ s'.1 = 0).
  - case_match; [apply wp_bind, wp_update|]; by apply wp_ret.
  - intros target s1 [E Hp]. cbv zeta. apply wp_bind, wp_member.
    assert (PaddingToAdd 0 (data_sent l) s1.1 = 0) as E0.
    { unfold PaddingToAdd. rewrite Hp. by repeat case_match. }
    cbn [data_sent]. rewrite E0. cbn. apply wp_ret. unfold within_budget, spent in *. by rewrite E.
Qed.

Lemma send_step_budget s l :
  between s -> pacing_info l = not_a_probe ->
  wp (send_step false 0 now l) s (fun step s' =>
    match step with
    | Continue l' => between s' /\ pacing_info l' = not_a_probe
    | Break _ => within_budget s'
    end).
Proof.
  intros B Hl. pose proof (between_within s B) as Hw. destruct B as [H P Hsend Hlp Hd Hburst Hsp].
  unfold send_step, GetPendingPacket. rewrite Hl. cbn [negb andb probe_cluster_id not_a_probe Z.eqb kNotAProbe].
  assert (wp (nothing_to_send 0 now l) s (fun step s' => match step with
    | Continue l' => between s' /\ pacing_info l' = not_a_probe | Break _ => within_budget s' end)) as Hnone.
  { eapply wp_mono; [apply nothing_budget; [done|apply H|apply P]|]. by intros [] s'. }
  unfold get_queued_packet. apply wp_bind, wp_bind, wp_member. cbn [id].
  destruct (QueueEmpty s.1) eqn:He; [by apply wp_ret|]. specialize (Hburst eq_refl). apply wp_bind.
  destruct (may_send_ok false (target_send_time l) now s.1 (proj1 H)) as [m Hm]. eapply wp_lift; [exact Hm|].
  destruct m; [|by apply wp_ret]. wp_call (pop_packet_ok kMaxPacerQueue now s H).
  intros p [s1 w] (H1 & E & q & E1 & Hpop & Hp). cbn [fst snd] in E, E1. subst s1 w.
  destruct (pop_paced _ _ _ (pk_queue _ (proj1 H)) (qt_paced _ _ (pl_quiet _ _ _ _ P)) Hpop) as [Hq Hty].
  destruct p as [p|].
  - rewrite <- Hl. apply send_one_budget; try done. eapply plan_same; [exact P|exact Hq|done..].
  - eapply wp_mono; [apply nothing_budget; [done|exact (proj1 H1)|exact (pl_padding _ _ _ _ P)]|]. by intros [] s'.
Qed.

Lemma send_loop_budget k s l :
  between s -> pacing_info l = not_a_probe ->
  wp (send_loop k false 0 now l) s (fun _ s' => within_budget s').
Proof.
  revert s l. induction k as [|k IH]; intros s l B Hl; cbn [send_loop].
  - apply wp_ret. by apply between_within.
  - apply wp_bind. wp_call (send_step_budget s l B Hl). intros [l'|l'] s' Hs; [apply IH; apply Hs|by apply wp_ret].
Qed.

(** Nothing leaves an empty queue. *)
Lemma send_loop_idle k s l :
  QueueEmpty s.1 = true -> within_budget s -> pacer_ok s.1 -> padding_rate_ s.1 = 0 -> pacing_info l = not_a_probe ->
  wp (send_loop k false 0 now l) s (fun _ s' => within_budget s').
Proof.
  intros He Hw Hok Hp Hl. destruct k as [|k]; cbn [send_loop]; [by apply wp_ret|].
  unfold send_step, GetPendingPacket, get_queued_packet. rewrite Hl. cbn [negb andb probe_cluster_id not_a_probe Z.eqb kNotAProbe].
  apply wp_bind, wp_bind, wp_bind, wp_member. cbn [id]. rewrite He. apply wp_ret.
  wp_call (nothing_budget s l Hw Hok Hp). intros [l'|l'] s' Hs; [done|by apply wp_ret].
Qed.
End loop.

(** The first step of [ProcessPackets]' own: the budget up to the send time. *)
Lemma advance_if_elapsed target (s : PacingController) :
  pacer_ok s -> target <= last_timestamp_ s + kMaxEarlyProbeProcessing ->
  (let '(elapsed_time, s1) := UpdateTimeAndGetElapsed target s in
   if 0 <? elapsed_time then UpdateBudgetWithElapsedTime elapsed_time s1 else s1) = AdvanceTo target s.
Proof.
  intros H Ht. unfold AdvanceTo. rewrite (UpdateTimeAndGetElapsed_spec target s H Ht).
  pose proof (pk_debts s H) as [Hm Hp].
  assert (forall s, 0 <= media_debt_ s <= kMaxDebt -> 0 <= padding_debt_ s <= kMaxDebt ->
    UpdateBudgetWithElapsedTime 0 s = s) as Hzero.
  { assert (forall d, 0 <= d <= kMaxDebt -> unit_sub d (Z.min d 0) = d) as Hd
      by (intros d Hd; rewrite unit_sub_paid; lia).
    assert (forall x, rate_times_duration x 0 = 0) as Hr by (intros x; unfold rate_times_duration; by rewrite Z.mul_0_r).
    intros s1 Hm1 Hp1. unfold UpdateBudgetWithElapsedTime. rewrite !Hr, !Hd by done. by destruct s1. }
  destruct (Z.ltb_spec target (last_process_time_ s)); [by rewrite Hzero|].
  destruct (Z.ltb_spec 0 (Z.min (target - last_process_time_ s) kMaxElapsedTime)); [done|].
  replace (Z.min (target - last_process_time_ s) kMaxElapsedTime) with 0 by (unfold kMaxElapsedTime in *; lia).
  by rewrite Hzero.
Qed.

Lemma expire_none now (s : PacingController) :
  pacer_ok s -> 0 <= now <= kMaxTime -> now < NextClusterExpiration (prober_ s) -> expire_clusters now s = s.
Proof.
  intros H Hnow Hexp. pose proof (po_clusters _ (pk_prober s H)) as Hc. unfold expire_clusters, RemoveExpiredClusters.
  assert (drop_expired now (clusters_ (prober_ s)) = (false, clusters_ (prober_ s))) as ->.
  { unfold NextClusterExpiration in Hexp. destruct (clusters_ (prober_ s)) as [|c l]; [done|]. cbn [drop_expired].
    apply Forall_cons_1 in Hc as [Hc _]. pose proof (co_requested c Hc) as Hreq. unfold is_time, kMaxTime, kProbeClusterTimeout in *.
    rewrite timestamp_add_small in Hexp by (unfold small; lia).
    rewrite timestamp_diff_small by (unfold small; lia).
    by destruct (Z.leb_spec 5000000 (now - requested_at c)); [lia|]. }
  cbn [negb]. destruct s, prober_; reflexivity.
Qed.

Section burst.
Context {W : Type} {clk : Clock W} {sender : PacketSender W} {laws : SenderLaws W} {meter : Meter W}.
Implicit Types s : (PacingController * W)%type.

(** What follows the loop sends nothing. *)
Lemma wp_after_loop s (Q : unit -> PacingController * W -> Prop) :
  (forall (s' : PacingController) w, bytes w = bytes s.2 -> packets w = packets s.2 -> Q tt (s', w)) ->
  wp (now ← CurrentTime; update (MaybeUpdateMediaRateDueToLongQueue now)) s Q.
Proof using Type.
  intros HQ. unfold CurrentTime.
  apply wp_bind, wp_bind, wp_outside, wp_bind, wp_member, wp_bind, wp_update, wp_ret, wp_update.
  apply HQ; apply meter_clock.
Qed.

Lemma process_budget r b now now' target s :
  0 < r -> 0 <= b -> 0 <= now ->
  (b + 1) * r + 8000000 * (kMaxSent + 1) <= kMaxDebtInTime * r ->
  Inv kMaxPacerQueue now s -> plan r b now s.1 -> now < last_send_time_ s.1 + kPausedProcessInterval ->
  media_debt_ s.1 * 8000000 <= kMaxElapsedTime * r -> last_process_time_ s.1 <= now ->
  next_send_time now' s.1 = Some target -> target <= now ->
  wp (process now target) s (fun _ s' =>
    within_budget r b now (last_process_time_ s.1) (bytes s.2) (packets s.2) s').
Proof.
  intros Hr Hb H0 Hcap (Hok & Hn & Ht & Hw) P Hsend Hmax Hlp Hnext Hle.
  pose proof (pk_debts _ Hok) as [[Hm _] _]. pose proof (due_bound r b s.1 Hr Hm) as Hdb.
  assert (media_debt_ s.1 * 8000000 / r <= kMaxElapsedTime) as Hel by (apply Z.div_le_upper_bound; lia).
  assert (exists d, target = last_process_time_ s.1 + d /\ 0 <= d <= kMaxElapsedTime /\
    (QueueEmpty s.1 = false -> d = due r b s.1)) as (d & -> & Hd & Hdue).
  { destruct (QueueEmpty s.1) eqn:He.
    - exists kPausedProcessInterval. by rewrite (next_when_empty r b now now' s.1 target).
    - exists (due r b s.1). split; [by eapply next_when_media|]. split; [lia|done]. }
  destruct (advance_media r b now s.1 (last_process_time_ s.1 + d) Hok P) as (P1 & H1 & Hlp1 & Hq1 & Hls1 & Hd1);
    [unfold kMaxEarlyProbeProcessing; lia|lia|]. rewrite Z.add_simpl_l in Hd1.
  pose proof (last_timestamp_advance (last_process_time_ s.1 + d) s.1) as Hlt1.
  pose proof (budget_bound r d ltac:(lia) ltac:(lia)) as Hbud.
  unfold process. apply wp_bind, wp_update.
  rewrite (advance_if_elapsed _ _ Hok) by (unfold kMaxEarlyProbeProcessing; lia).
  set (s1 := AdvanceTo _ s.1) in *. apply wp_bind, wp_member. cbn [fst id]. unfold current_probe.
  rewrite (qt_probe _ _ (pl_quiet _ _ _ _ P1)). apply wp_bind, wp_update, wp_bind, wp_member, wp_bind. cbn [fst snd].
  set (l := mkLoop _ _ _ _). set (Within := within_budget r b now (last_process_time_ s.1) (bytes s.2) (packets s.2)).
  assert (Within (s1, s.2)) as Hstart.
  { unfold Within, within_budget, spent. cbn [snd]. unfold kMaxSent, kMaxPacketBytes, kMaxOverhead. nia. }
  apply wp_mono with (P := fun _ s' => Within s').
  - destruct (QueueEmpty s1) eqn:He; [apply send_loop_idle; done || apply P1|].
    assert (QueueEmpty s.1 = false) as He' by (unfold QueueEmpty in *; by rewrite <- Hq1).
    specialize (Hdue He'). subst d. pose proof (due_pays r b s.1 Hr Hb Hm) as Hpays.
    apply (send_loop_budget r b now Hr Hb H0 Hcap (media_debt_ s.1) _ _ _ Hm); [|done].
    split; cbn [fst snd]; try done.
    + split_and!; [done|unfold queue_len in *; cbn [fst]; by rewrite Hq1|cbn [fst]; lia|done].
    + rewrite Hls1. exact Hsend.
    + lia.
    + unfold kMaxSent, kMaxPacketBytes, kMaxOverhead. rewrite Hd1. destruct (Z.max_spec 0 (media_debt_ s.1 - rate_times_duration r (due r b s.1))) as [[_ ->]|[_ ->]]; nia.
    + intros _. rewrite Hd1. destruct (Z.max_spec 0 (media_debt_ s.1 - rate_times_duration r (due r b s.1))) as [[_ ->]|[_ ->]]; nia.
    + unfold spent, earned. cbn [fst snd]. rewrite Hlp1, Hd1. nia.
  - intros [l'|] s' Hs'; [|apply wp_update; exact Hs']. apply wp_bind. unfold finish_probe. apply wp_ret.
    apply wp_after_loop. intros s2 w Hw1 Hw2. unfold Within, within_budget, spent in *. cbn [snd].
    by rewrite Hw1, Hw2.
Qed.

Lemma process_unless_early_budget r b now s :
  0 < r -> 0 <= b -> 0 <= now <= kMaxTime ->
  (b + 1) * r + 8000000 * (kMaxSent + 1) <= kMaxDebtInTime * r ->
  Inv kMaxPacerQueue now s -> plan r b now s.1 -> now < last_send_time_ s.1 + kPausedProcessInterval ->
  media_debt_ s.1 * 8000000 <= kMaxElapsedTime * r -> last_process_time_ s.1 <= now ->
  wp (process_unless_early now) s (fun _ s' =>
    within_budget r b now (last_process_time_ s.1) (bytes s.2) (packets s.2) s').
Proof.
  intros Hr Hb Hnow Hcap H P Hsend Hmax Hlp. unfold process_unless_early, NextSendTime. apply wp_bind, wp_member.
  cbn [fst id]. rewrite (qt_paused _ _ (pl_quiet _ _ _ _ P)), (qt_probe _ _ (pl_quiet _ _ _ _ P)).
  apply wp_bind, wp_bind, wp_world_clock with (now := now); [exact H|].
  destruct H as (Hok & Hn & Ht & Hw). pose proof (pk_clock _ Hok) as Hc.
  intros t w Ht1 Hw1 Hb1 Hp1. apply wp_bind, wp_member. cbn [fst id].
  set (s1 := set_last_timestamp t s.1) in *.
  assert (pacer_ok s1) as H1 by (apply set_last_timestamp_ok; [done|exact Ht1]).
  destruct (next_send_time_ok t s1 H1) as [target Hnext]. eapply wp_lift; [exact Hnext|].
  rewrite timestamp_add_small by (unfold kMaxTime in *; unfold small; lia). rewrite Z.add_0_r.
  destruct (Z.ltb_spec now target) as [Hlt|Hge].
  - apply wp_update. unfold within_budget, spent. cbn [snd]. rewrite Hb1, Hp1.
    unfold kMaxSent, kMaxPacketBytes, kMaxOverhead. nia.
  - rewrite <- Hb1, <- Hp1. apply (process_budget r b now t target (s1, w)); cbn [fst snd]; try done; [lia| |].
    + split_and!; [done|done|cbn in *; lia|done].
    + by apply plan_time.
Qed.

(** The time that [ProcessPackets] reads first. *)
Definition present s : Z := Z.max (last_timestamp_ s.1) (read_clock s.2).1.

Lemma no_keepalive now (s : PacingController) :
  pacer_ok s -> 0 <= now <= kMaxTime -> now < last_send_time_ s + kPausedProcessInterval ->
  ShouldSendKeepalive now s = false.
Proof.
  intros H Hnow Hs. pose proof (pk_send s H). pose proof (pk_clock s H). unfold ShouldSendKeepalive, kMaxTime in *.
  rewrite timestamp_diff_small by (unfold small; lia).
  destruct (Z.leb_spec kCongestedPacketInterval (now - last_send_time_ s)); [|by rewrite andb_false_r].
  unfold kPausedProcessInterval in *. lia.
Qed.

(** With no keep-alive due, [ProcessPackets] goes straight to the packets. *)
Lemma wp_ProcessPackets_quiet s (Q : unit -> PacingController * W -> Prop) :
  let now := present s in
  Inv kMaxPacerQueue 0 s -> quiet now s.1 -> now < last_send_time_ s.1 + kPausedProcessInterval ->
  (forall w, 0 <= now <= kMaxTime -> Inv kMaxPacerQueue now (set_last_timestamp now s.1, w) ->
    bytes w = bytes s.2 -> packets w = packets s.2 ->
    wp (process_unless_early now) (set_last_timestamp now s.1, w) (fun _ s' => Q tt (s'.1, OnBatchComplete s'.2))) ->
  wp ProcessPackets s Q.
Proof.
  intros now (Hok & Hn & _ & Hw) P Hsend HQ.
  pose proof (pk_clock _ Hok) as Hc. pose proof (queue_clock _ (pk_queue _ Hok)) as Hq0.
  destruct (clock_ok s.2 Hw) as [Hrd Hw1].
  assert (0 <= now <= kMaxTime) as Hnow by (subst now; unfold present; lia).
  unfold ProcessPackets. apply wp_bind. unfold CurrentTime at 1.
  apply wp_bind, wp_outside, wp_bind, wp_member, wp_bind, wp_update, wp_ret. cbn [fst snd].
  assert ((if (read_clock s.2).1 <? last_timestamp_ s.1 then last_timestamp_ s.1 else (read_clock s.2).1) = now) as ->
    by (subst now; unfold present; case_match; b2p; lia).
  assert (pacer_ok (set_last_timestamp now s.1)) as H1
    by (apply set_last_timestamp_ok; [done|subst now; unfold present in *; lia]).
  set (s1 := set_last_timestamp now s.1) in *.
  apply wp_bind, wp_update. cbn [fst snd]. rewrite (expire_none now s1 H1 Hnow (qt_expiration _ _ P)).
  apply wp_bind. unfold keepalive. apply wp_bind, wp_member. cbn [fst].
  rewrite (no_keepalive now s1 H1 Hnow Hsend). apply wp_ret, wp_bind.
  eapply wp_mono; [apply HQ; [done| |apply meter_clock..]|].
  - split_and!; [done|exact Hn|cbn; lia|exact Hw1].
  - intros [] s' Hs'. by apply wp_tell.
Qed.

(** C34. The leaky bucket.  Take a pacer that keeps its invariant and is neither
    paused nor probing nor asked for padding (its padding rate is 0, and
    [send_padding_if_silent_] as the constructor sets it), in whose queue only paced packets wait (video, FEC and
    padding; audio and retransmissions skip the line), whose keep-alive is not
    due and no probe cluster of which expires by now; its media rate is [r] and
    its burst interval [b].  If the burst and the packet that may overshoot fit
    into the half second to which debts are capped ([b] and 2.5 kB at the rate
    [r]), the debt is at most two seconds, and the last call was not later than the
    clock shows now, then one call of
    [ProcessPackets] returns, and the bytes that leave in it are at most what
    [r] allows in [b] and in the time since the last call, two and a half
    kilobytes for the packet that may overshoot, and half a byte of rounding per
    packet.  (Above the cap debts are forgotten, and more may leave at once.) *)
Theorem pacer_burst_bounded s (r b : Z) :
  0 < r -> 0 <= b -> (b + 1) * r + 8000000 * (kMaxSent + 1) <= kMaxDebtInTime * r ->
  Inv kMaxPacerQueue 0 s -> plan r b (present s) s.1 ->
  present s < last_send_time_ s.1 + kPausedProcessInterval ->
  media_debt_ s.1 * 8000000 <= kMaxElapsedTime * r -> last_process_time_ s.1 <= present s ->
  exists s', ProcessPackets s = Some (tt, s') /\
    8000000 * (bytes s'.2 - bytes s.2) <=
      (b + 1) * r + r * (present s - last_process_time_ s.1) + 8000000 * (kMaxSent + 2) +
      4000000 * (packets s'.2 - packets s.2).
Proof.
  intros Hr Hb Hcap H P Hsend Hmax Hlp.
  assert (wp ProcessPackets s (fun _ s' =>
    within_budget r b (present s) (last_process_time_ s.1) (bytes s.2) (packets s.2) s')) as ([] & s' & Hrun & Hs');
    [|exists s'; split; [exact Hrun|]; unfold within_budget, spent in Hs'; lia].
  apply wp_ProcessPackets_quiet; [done|apply P|done|]. intros w Hnow H1 Hb1 Hp1. rewrite <- Hb1, <- Hp1.
  eapply wp_mono; [apply (process_unless_early_budget r b (present s) (set_last_timestamp (present s) s.1, w)); try done|].
  - by apply plan_time.
  - intros [] s' Hs'. unfold within_budget, spent in *. cbn [snd]. by destruct (meter_batch s'.2) as [-> ->].
Qed.

(** Congestion holds every paced packet back: while the network is
    congested, a call of [ProcessPackets] at which neither a probe nor the
    keep-alive is due returns without sending anything, and the queue is as it
    was. *)
Theorem pacer_congestion_holds s :
  Inv kMaxPacerQueue 0 s -> quiet (present s) s.1 -> congested_ s.1 = true ->
  present s < last_send_time_ s.1 + kPausedProcessInterval ->
  exists s', ProcessPackets s = Some (tt, s') /\ packet_queue_ s'.1 = packet_queue_ s.1 /\
    bytes s'.2 = bytes s.2 /\ packets s'.2 = packets s.2.
Proof.
  intros H P Hcg Hsend.
  assert (wp ProcessPackets s (fun _ s' => packet_queue_ s'.1 = packet_queue_ s.1 /\
    bytes s'.2 = bytes s.2 /\ packets s'.2 = packets s.2)) as ([] & s' & Hrun & Hs'); [|by exists s'].
  apply wp_ProcessPackets_quiet; try done. intros w Hnow (H1 & Hn & Ht & Hw) Hb1 Hp1.
  set (now := present s) in *. cbn [fst snd] in *. pose proof (pk_clock _ H1) as Hc.
  unfold process_unless_early, NextSendTime. apply wp_bind, wp_member. cbn [fst id].
  change (paused_ (set_last_timestamp now s.1)) with (paused_ s.1).
  change (prober_ (set_last_timestamp now s.1)) with (prober_ s.1). rewrite (qt_paused _ _ P), (qt_probe _ _ P).
  apply wp_bind, wp_bind, wp_world_clock with (now := now); [by split_and!|].
  intros t w1 Ht1 Hw1 Hb2 Hp2. apply wp_bind, wp_member. cbn [fst id snd] in *.
  set (s1 := set_last_timestamp t _) in *.
  assert (pacer_ok s1) as H2 by (apply (set_last_timestamp_ok t (set_last_timestamp now s.1, w)); [done|exact Ht1]).
  assert (quiet now s1) as P1 by (destruct P; by split).
  destruct (next_send_time_ok t s1 H2) as [target Hnext]. eapply wp_lift; [exact Hnext|].
  assert (congested_ s1 || negb (seen_first_packet_ s1) = true) as Hc1 by (cbn; by rewrite Hcg).
  pose proof (next_when_congested now t s1 target H2 P1 Hsend Hc1 Hnext) as Hlate.
  rewrite timestamp_add_small by (unfold kMaxTime in *; unfold small; lia). rewrite Z.add_0_r.
  rewrite (proj2 (Z.ltb_lt now target) Hlate). apply wp_update. cbn [fst snd].
  rewrite packet_queue_advance. destruct (meter_batch w1) as [-> ->]. split_and!; [done|congruence|congruence].
Qed.
End burst.

(** ** Witnesses *)

#[export] Program Instance sample_meter : Meter SampleWorld := {
  bytes w := zsum (fun p => payload_size_ (rtp_packet p) + padding_size_ (rtp_packet p)) (w_sent w);
  packets w := zlen (w_sent w);
}.
Next Obligation. intros p i w. cbn. rewrite zsum_app, zlen_app. cbn. unfold zlen. cbn. lia. Qed.
Next Obligation. done. Qed.
Next Obligation. done. Qed.
Next Obligation. done. Qed.

(** The pacer after the first rates and some events. *)
Definition sample_start : PacingController * SampleWorld :=
  (new_pacer DefaultConfiguration 1000 1000, mkWorld 1000 []).
Definition sample_state (es : list PacerEvent) : PacingController * SampleWorld :=
  from_option snd sample_start (for_each pacer_step (sample_rates :: es) sample_start).

Lemma sample_state_ok es :
  Forall pacer_event_ok es -> zsum enqueues es <= 100 -> Inv kMaxPacerQueue 0 (sample_state es).
Proof.
  intros Hes Hn. assert (wp (for_each pacer_step (sample_rates :: es)) sample_start
    (fun _ s' => Inv kMaxPacerQueue 0 s')) as ([] & s & Hrun & Hs);
    [|unfold sample_state; by rewrite Hrun].
  cbn [for_each]. apply wp_bind. eapply wp_mono.
  - apply (SetPacingRates_ok 300000 0 kMaxPadding 0); try done; [|vm_compute; congruence..].
    apply new_pacer_pre. unfold kMaxTime. lia.
  - intros [] s1 H1. apply (pacer_run_ok es kMaxPadding); [done|done|unfold kMaxPacerQueue, kMaxPadding; lia|done].
Qed.

(** Two video packets wait. *)
Definition sample_video : list PacerEvent :=
  [EEnqueue (sample_packet_of 7 kVideo); EEnqueue (sample_packet_of 7 kVideo)].
Definition sample_held : list PacerEvent := sample_video ++ [ECongested true].

Lemma sample_video_events : Forall pacer_event_ok sample_video.
Proof. repeat constructor; apply sample_small. Qed.

Lemma sample_held_ok : Forall pacer_event_ok sample_held.
Proof. repeat constructor; apply sample_small. Qed.

Lemma sample_quiet es :
  bool_decide (Forall (fun p => 3 <= priority (packet_queue_ (sample_state es).1) (packet p))
    (all (levels (packet_queue_ (sample_state es).1)))) &&
  negb (is_probing (prober_ (sample_state es).1)) &&
  (present (sample_state es) <? NextClusterExpiration (prober_ (sample_state es).1)) &&
  negb (paused_ (sample_state es).1) = true ->
  quiet (present (sample_state es)) (sample_state es).1.
Proof.
  intros H. apply andb_prop in H as [H Hp]. apply andb_prop in H as [H He]. apply andb_prop in H as [H Hpr].
  apply bool_decide_eq_true_1 in H. split; [exact H|by apply negb_true_iff|lia|by apply negb_true_iff].
Qed.

Lemma pacer_wakes_witness :
  exists t, next_send_time 5000 (sample_state sample_video).1 = Some t /\
    t <= NextClusterExpiration (prober_ (sample_state sample_video).1) /\
    (no_probe (sample_state sample_video).1 ->
      t <= Z.max (last_timestamp_ (sample_state sample_video).1)
             (last_send_time_ (sample_state sample_video).1 + kPausedProcessInterval)).
Proof.
  apply (pacer_wakes (sample_state sample_video).1 5000); [|vm_compute; reflexivity].
  apply (sample_state_ok sample_video sample_video_events). vm_compute. congruence.
Defined.

Lemma pacer_burst_bounded_witness :
  exists s', ProcessPackets (sample_state sample_video) = Some (tt, s') /\
    8000000 * (bytes s'.2 - bytes (sample_state sample_video).2) <=
      (40000 + 1) * 300000 +
      300000 * (present (sample_state sample_video) - last_process_time_ (sample_state sample_video).1) +
      8000000 * (kMaxSent + 2) + 4000000 * (packets s'.2 - packets (sample_state sample_video).2).
Proof.
  apply (pacer_burst_bounded (sample_state sample_video) 300000 40000).
  - lia.
  - lia.
  - vm_compute. congruence.
  - apply (sample_state_ok sample_video sample_video_events). vm_compute. congruence.
  - split; [apply sample_quiet|..]; vm_compute; reflexivity.
  - vm_compute. reflexivity.
  - vm_compute. congruence.
  - vm_compute. congruence.
Defined.

Lemma pacer_congestion_holds_witness :
  exists s', ProcessPackets (sample_state sample_held) = Some (tt, s') /\
    packet_queue_ s'.1 = packet_queue_ (sample_state sample_held).1 /\
    bytes s'.2 = bytes (sample_state sample_held).2 /\ packets s'.2 = packets (sample_state sample_held).2.
Proof.
  apply (pacer_congestion_holds (sample_state sample_held)).
  - apply (sample_state_ok sample_held sample_held_ok). vm_compute. congruence.
  - apply sample_quiet. vm_compute. reflexivity.
  - vm_compute. reflexivity.
  - vm_compute. reflexivity.
Defined.
