(* ===== verification/PacerFlow.v ===== *)
(** * What goes through the pacer

    Every packet that the pacing controller hands to its sender was queued, or is
    padding that the sender made for it, and none is handed over twice: packets
    may be dropped, but not copied or made up. *)

From stdpp Require Import gmap.
From S2P Require Import Prelude StateMonad Units NetworkTypes Float32 RtpPacket RtpToSend PacketQueue Prober.
From S2P Require Import PacketQueueOk Pacer PacerOk.

(** A sender that knows what it was handed and what it made.  Packets are told
    apart by labels that the queue does not change. *)
Class Courier (W : Type) {clk : Clock W} {sender : PacketSender W} {laws : SenderLaws W} (A : Type) := {
  label : RtpPacketToSend -> A;
  handed : W -> list A;
  made : W -> list A;
  label_time : forall t p, label (set_time_in_send_queue t p) = label p;
  handed_send : forall p i w, handed (SendPacket p i w) ⊆+ label p :: handed w /\ made (SendPacket p i w) = made w;
  handed_padding : forall n w, world_ok w -> handed (GeneratePadding n w).2 = handed w /\
    made (GeneratePadding n w).2 = made w ++ map label (GeneratePadding n w).1;
  handed_clock : forall w, handed (read_clock w).2 = handed w /\ made (read_clock w).2 = made w;
  handed_fec : forall w, handed (FetchFec w).2 = handed w /\ made (FetchFec w).2 = made w;
  handed_batch : forall w, handed (OnBatchComplete w) = handed w /\ made (OnBatchComplete w) = made w;
}.

Section flow.
Context {W : Type} {clk : Clock W} {sender : PacketSender W} {laws : SenderLaws W}.
Context {A : Type} {courier : Courier W A}.
Implicit Types s : (PacingController * W)%type.

(** ** Methods that move no packet *)

Definition kept s s' : Prop :=
  levels (packet_queue_ s'.1) = levels (packet_queue_ s.1) /\
  handed s'.2 = handed s.2 /\ made s'.2 = made s.2.

Definition quiet {B} (m : P (W:=W) B) : Prop := forall s a s', m s = Some (a, s') -> kept s s'.

Lemma quiet_ret {B} (b : B) : quiet (mret b).
Proof. by intros s a s' [= <- <-]. Qed.

Lemma quiet_bind {B C} (m : P B) (f : B -> P C) : quiet m -> (forall b, quiet (f b)) -> quiet (m ≫= f).
Proof.
  intros Hm Hf s c s2 E. unfold mbind, M_bind in E. destruct (m s) as [[b s1]|] eqn:Em; [|done].
  destruct (Hm _ _ _ Em) as (H1 & H2 & H3). destruct (Hf _ _ _ _ E) as (H4 & H5 & H6).
  unfold kept. by rewrite H4, H5, H6.
Qed.

Lemma quiet_member {B} (f : PacingController -> B) : quiet (member f).
Proof. by intros s a s' [= <- <-]. Qed.

Lemma quiet_update f :
  (forall c, levels (packet_queue_ (f c)) = levels (packet_queue_ c)) -> quiet (update f).
Proof. intros Hf s a s' [= <- <-]. unfold kept. cbn. by rewrite Hf. Qed.

Lemma silent_lift {B} (o : option B) : quiet (lift o).
Proof. intros s a s' E. unfold lift in E. destruct o; [by injection E as <- <-|done]. Qed.

Lemma quiet_clock : quiet CurrentTime.
Proof.
  apply quiet_bind.
  - intros s a s' E. unfold outside in E. destruct (handed_clock s.2) as [H1 H2].
    destruct (read_clock s.2) as [t w]. injection E as <- <-. done.
  - intros t. apply quiet_bind; [apply quiet_member|]. intros last.
    apply quiet_bind; [by apply quiet_update|]. intros _. apply quiet_ret.
Qed.

Lemma quiet_next : quiet NextSendTime.
Proof.
  apply quiet_bind; [apply quiet_clock|]. intros now. apply quiet_bind; [apply quiet_member|].
  intros s. apply silent_lift.
Qed.

Lemma quiet_advance target : quiet (update (AdvanceTo target)).
Proof. apply quiet_update. intros c. by rewrite packet_queue_advance. Qed.

Lemma quiet_forward now : quiet (fast_forward now).
Proof.
  apply quiet_bind; [apply quiet_member|]. intros []; [|apply quiet_ret].
  apply quiet_bind; [apply quiet_next|]. intros next. apply quiet_advance.
Qed.

Lemma quiet_failure : quiet (update ClearProbingSendFailure).
Proof. apply quiet_update. intros c. unfold ClearProbingSendFailure. by case_match. Qed.

Lemma levels_media_rate now c :
  levels (packet_queue_ (MaybeUpdateMediaRateDueToLongQueue now c)) = levels (packet_queue_ c).
Proof. unfold MaybeUpdateMediaRateDueToLongQueue. by repeat case_match. Qed.

Lemma quiet_target b now l : quiet (next_target b now l).
Proof.
  apply quiet_bind; [apply quiet_next|]. intros target. case_match; [apply quiet_ret|].
  apply quiet_bind; [apply quiet_advance|]. intros _. apply quiet_ret.
Qed.

Lemma quiet_sent ty size now : quiet (update (OnPacketSent ty size now)).
Proof. apply quiet_update. intros c. unfold OnPacketSent. by repeat case_match. Qed.

Lemma quiet_finish b l : quiet (finish_probe b l).
Proof.
  unfold finish_probe. case_match; [|apply quiet_ret]. apply quiet_bind; [by apply quiet_update|]. intros _.
  case_match; [apply quiet_ret|]. apply quiet_bind; [apply quiet_clock|]. intros now.
  intros s a s' E. unfold try_update, member, gets, lift, update, modify, mbind, M_bind in E. cbn in E.
  destruct (ProbeSent _ _ _ _); [|done]. cbn in E. by injection E as <- <-.
Qed.

Lemma wp_kept {B} (m : P B) s (Q : B -> PacingController * W -> Prop) :
  quiet m -> wp m s Q -> wp m s (fun a s' => Q a s' /\ kept s s').
Proof. intros Hm (a & s' & E & HQ). exists a, s'. split; [done|]. split; [done|by eapply Hm]. Qed.

(** ** The account

    [L] is what has been queued, [pend] what is in hand: taken from the queue or
    from the sender and not yet handed over or put back. *)

Definition J (L : list A) (pend : list RtpPacketToSend) s : Prop :=
  map label pend ++ map (fun q => label (packet q)) (all (levels (packet_queue_ s.1))) ++ handed s.2 ⊆+
    L ++ made s.2.

Context (L : list A).

Definition F (n t : Z) (pend : list RtpPacketToSend) s : Prop := Inv n t s /\ J L pend s.

Lemma J_kept pend s s' : J L pend s -> kept s s' -> J L pend s'.
Proof. unfold J. by intros H (-> & -> & ->). Qed.

Lemma J_drop p pend s : J L (p :: pend) s -> J L pend s.
Proof. unfold J. intros H. cbn in H. etransitivity; [|exact H]. by apply submseteq_cons. Qed.

Lemma J_drop_all ps pend s : J L (ps ++ pend) s -> J L pend s.
Proof. induction ps as [|p ps IH]; [done|]. intros H. by eapply IH, J_drop. Qed.

Lemma map_submseteq {B C} (f : B -> C) l k : l ⊆+ k -> map f l ⊆+ map f k.
Proof. exact (fmap_submseteq f l k). Qed.

(** The queue after packets have left it. *)
Lemma J_queue pend s q :
  J L pend s -> all (levels q) ⊆+ all (levels (packet_queue_ s.1)) -> J L pend (set_queue q s.1, s.2).
Proof.
  unfold J. intros H Hq. cbn [fst snd set_queue packet_queue_]. etransitivity; [|exact H].
  apply submseteq_app; [done|]. apply submseteq_app; [by apply map_submseteq|done].
Qed.

(** A step whose outcome is known, seen from both sides. *)
Lemma F_quiet {B} (m : P B) n t n' t' pend s (Q : B -> PacingController * W -> Prop) :
  F n t pend s -> quiet m ->
  wp m s (fun a s' => Inv n' t' s' /\ Q a s') -> wp m s (fun a s' => F n' t' pend s' /\ Q a s').
Proof.
  intros [_ HJ] Hm Hwp. eapply wp_mono; [by apply wp_kept|]. intros a s' [[H HQ] Hk].
  split; [|done]. split; [done|]. by eapply J_kept.
Qed.

Lemma F_quiet' {B} (m : P B) n t n' t' pend s :
  F n t pend s -> quiet m -> wp m s (fun _ s' => Inv n' t' s') -> wp m s (fun _ s' => F n' t' pend s').
Proof.
  intros [_ HJ] Hm Hwp. eapply wp_mono; [by apply wp_kept|]. intros a s' [H Hk].
  split; [done|]. by eapply J_kept.
Qed.

(** ** The queue *)

Lemma account_swap (x : A) (pend q q' h : list A) :
  q' ⊆+ x :: q -> pend ++ q' ++ h ⊆+ (x :: pend) ++ q ++ h.
Proof.
  intros Hq. etransitivity; [apply submseteq_skips_l, submseteq_skips_r; exact Hq|].
  apply Permutation_submseteq. symmetry. apply (Permutation_middle pend (q ++ h)).
Qed.

Lemma flush_flow p n t pend s :
  F n t pend s -> wp (try_update (flush_for_keyframe p)) s (fun _ s' => F n t pend s').
Proof.
  intros [H HJ].
  eapply wp_mono; [apply wp_both; [exact (flush_for_keyframe_ok p n t s H)|]|intros a s'; exact id].
  destruct (RemovePacketsForSsrc_ok (Ssrc p) _ (pk_queue _ (proj1 H))) as (q & Hq & _ & Hl & _).
  pose proof (abs_remove_sub (time_to_live_per_prio_ (packet_queue_ s.1))
    (last_update_time_ (totals (packet_queue_ s.1))) (Ssrc p) _ _ (proj1 (pk_queue _ (proj1 H))) eq_refl) as Hsub.
  rewrite <- Hl in Hsub.
  destruct (keyframe_flushing_ s.1 && bool_decide (packet_type_ p = Some kVideo) && is_key_frame_ p &&
    is_first_packet_of_frame_ p && negb (HasKeyframePackets (Ssrc p) (packet_queue_ s.1))) eqn:Hc;
    (eapply wp_try_update; [unfold flush_for_keyframe; by rewrite Hc, ?Hq|]); [by apply J_queue|].
  by destruct s.
Qed.

Lemma push_flow now p n pend s :
  F n now (p :: pend) s -> n < kMaxPacerQueue -> last_update_time_ (totals (packet_queue_ s.1)) <= now ->
  small_packet p -> wp (try_update (push_packet now p)) s (fun _ s' => F (n + 1) now pend s').
Proof.
  intros [H HJ] Hn Hq Hp.
  eapply wp_mono; [apply wp_both; [by apply (push_packet_ok now p n s H)|]|intros a s'; exact id].
  pose proof Hp as (Hty & Hpl & Hpd & Hof & Hsz). destruct H as (Hok & Hlen & Ht & Hw).
  pose proof (pk_clock _ Hok) as Hc. unfold kMaxPacerQueue, queue_len in *.
  destruct (Push_ok now p _ (pk_queue _ Hok) Hty) as (q & Hpush & _ & Hl & _);
    [unfold kMaxPacketBytes in *; lia|lia|unfold kMaxQueued; lia|].
  pose proof (abs_push_sub (time_to_live_per_prio_ (packet_queue_ s.1)) now
    (Z.to_nat (priority (packet_queue_ s.1) p)) (queued now p (totals (packet_queue_ s.1)))
    (levels (packet_queue_ s.1))) as Hsub. rewrite <- Hl in Hsub.
  eapply wp_try_update; [unfold push_packet; by rewrite Hpush|].
  unfold J in *. cbn [fst snd map] in *. rewrite levels_media_rate.
  cbn [set_seen_first set_queue packet_queue_]. etransitivity; [|exact HJ].
  apply (map_submseteq (fun q => label (packet q))) in Hsub. cbn [map queued packet] in Hsub.
  apply (account_swap _ _ _ _ _ Hsub).
Qed.

Lemma enqueue_flow p n t pend s :
  F n t (p :: pend) s -> n < kMaxPacerQueue -> small_packet p ->
  wp (EnqueuePacket p) s (fun _ s' => F (n + 1) t pend s').
Proof.
  intros H Hn Hp. unfold EnqueuePacket. apply wp_bind. wp_call (flush_flow p n t (p :: pend) s H).
  intros [] s1 H1. apply wp_bind. eapply wp_mono.
  { apply (F_quiet' _ n t n t (p :: pend) s1 H1).
    - apply quiet_update. intros c. unfold note_incoming, ClearProbingSendFailure. by repeat case_match.
    - apply (wp_update_inv _ n t); [apply H1|apply note_incoming_ok, H1| |];
        unfold note_incoming, ClearProbingSendFailure; by repeat case_match. }
  intros [] s2 H2. apply wp_bind.
  eapply wp_mono; [apply wp_kept; [apply quiet_clock|exact (CurrentTime_ok n t s2 (proj1 H2))]|].
  intros now s3 [(H3 & Hnow & H0 & Hl & Hs3) Hk]. apply wp_bind.
  assert (F n now (p :: pend) s3) as F3 by (split; [done|eapply J_kept; [apply H2|done]]).
  assert (last_update_time_ (totals (packet_queue_ s3.1)) <= now) as Hq.
  { rewrite Hs3. cbn. pose proof (pk_clock _ (proj1 (proj1 H2))). lia. }
  eapply wp_mono; [apply (F_quiet (fast_forward now) n now n now (p :: pend) s3
    (fun _ s' => last_update_time_ (totals (packet_queue_ s'.1)) <= now) F3 (quiet_forward now));
    exact (fast_forward_ok now n s3 H3 H0 Hq)|].
  intros [] s4 [H4 Hq4]. eapply wp_mono; [by apply (push_flow now p n pend)|].
  intros [] s5 [H5 J5]. split; [|done]. eapply Inv_weaken; [exact H5|lia|lia].
Qed.

Lemma enqueue_all_flow ps n t pend s :
  F n t (ps ++ pend) s -> n + zlen ps <= kMaxPacerQueue -> Forall small_packet ps ->
  wp (for_each EnqueuePacket ps) s (fun _ s' => F (n + zlen ps) t pend s').
Proof.
  revert n s. induction ps as [|p ps IH]; intros n s H Hn Hps; cbn [for_each].
  - apply wp_ret. destruct H as [H HJ]. split; [|done]. eapply Inv_weaken; [exact H|unfold zlen; cbn; lia|lia].
  - rewrite zlen_cons in *. apply Forall_cons_1 in Hps as [Hp Hps]. pose proof (zlen_nonneg ps).
    apply wp_bind. eapply wp_mono; [apply (enqueue_flow p n t (ps ++ pend)); [done|lia|done]|].
    intros [] s1 H1. eapply wp_mono; [apply (IH (n + 1)); [done|lia|done]|].
    intros [] s2 [H2 J2]. split; [|done]. eapply Inv_weaken; [exact H2|lia|lia].
Qed.

Lemma send_flow p i n t pend s :
  F n t (p :: pend) s -> small_packet p -> wp (send_packet p i) s (fun _ s' => F n t pend s' /\ s'.1 = s.1).
Proof.
  intros [H HJ] Hp. eapply wp_mono; [exact (send_packet_ok p i n t s H Hp)|].
  intros [] s' (H' & E & Ew). split; [|done]. split; [done|]. unfold J in *.
  rewrite E, Ew. destruct (handed_fec (SendPacket p i s.2)) as [-> ->].
  destruct (handed_send p i s.2) as [Hs ->]. etransitivity; [|exact HJ]. cbn [map app].
  etransitivity; [do 2 apply submseteq_skips_l; exact Hs|]. apply Permutation_submseteq.
  rewrite !app_assoc. symmetry. apply Permutation_middle.
Qed.

Lemma pop_flow n t pend s :
  F n t pend s ->
  wp pop_packet s (fun p s' => Inv n t s' /\
    match p with Some p => J L (p :: pend) s' /\ small_packet p | None => J L pend s' end).
Proof.
  intros [H HJ]. eapply wp_mono; [exact (pop_packet_ok n t s H)|].
  intros p [c w] (H' & E & q & Ec & Hpop & Hp). cbn [fst snd] in E, Ec. subst c w. split; [done|].
  pose proof (Pop_ok _ (pk_queue _ (proj1 H))) as Hspec. destruct (abs_pop _ _ _) as [[p1 a]|] eqn:Hab.
  - destruct Hspec as (q1 & Hpop' & _ & Hl & _). rewrite Hpop' in Hpop. injection Hpop as <- <-.
    split; [|exact Hp]. apply abs_pop_sub in Hab. rewrite <- Hl in Hab.
    apply (map_submseteq (fun q => label (packet q))) in Hab. cbn [map] in Hab.
    unfold J in *. cbn [fst snd map set_queue packet_queue_]. rewrite label_time. etransitivity; [|exact HJ].
    etransitivity; [apply Permutation_submseteq, (Permutation_middle (map label pend) _ (label (packet p1)))|].
    apply submseteq_skips_l. rewrite app_comm_cons. by apply submseteq_skips_r.
  - destruct Hspec as [Hpop' _]. rewrite Hpop' in Hpop. injection Hpop as <- <-. exact HJ.
Qed.

(** Padding that the sender makes is in hand. *)
Lemma padding_flow k n t pend s :
  F n t pend s ->
  let ps := (GeneratePadding k s.2).1 in
  F n t (ps ++ pend) (s.1, (GeneratePadding k s.2).2) /\ Forall small_packet ps /\ zlen ps <= kMaxPadding.
Proof.
  intros [H HJ] ps. destruct (GeneratePadding_ok k s.2) as (Hf & Hz & Hw); [apply H|].
  split; [|done]. split; [by apply Inv_world|]. unfold J in *. cbn [fst snd].
  destruct (handed_padding k s.2) as [-> ->]; [apply H|]. fold ps.
  rewrite map_app, <- app_assoc. etransitivity; [apply submseteq_skips_l; exact HJ|].
  apply Permutation_submseteq. rewrite (app_assoc L). apply Permutation_app_comm.
Qed.

Lemma get_queued_flow b target now n t pend s :
  F n t pend s ->
  wp (get_queued_packet b target now) s (fun p s' => Inv n t s' /\
    match p with Some p => J L (p :: pend) s' /\ small_packet p | None => J L pend s' end).
Proof.
  intros [H HJ]. unfold get_queued_packet. apply wp_bind, wp_member. cbn [id].
  destruct (QueueEmpty s.1); [by apply wp_ret|]. apply wp_bind.
  destruct (may_send_ok b target now s.1 (proj1 H)) as [m Hm]. eapply wp_lift; [exact Hm|].
  destruct m; [|by apply wp_ret]. by apply pop_flow.
Qed.

Lemma pending_flow info target now n t pend s :
  F n t pend s ->
  wp (GetPendingPacket info target now) s (fun p s' => Inv n t s' /\
    match p with Some p => J L (p :: pend) s' /\ small_packet p | None => J L pend s' end).
Proof.
  intros H. unfold GetPendingPacket. case_match; [|by apply get_queued_flow].
  apply wp_bind, wp_outside. destruct (padding_flow 1 n t pend s H) as ([H1 J1] & Hps & _).
  destruct (GeneratePadding 1 s.2).1 as [|p ps]; [by apply get_queued_flow|]. apply wp_ret.
  split; [done|]. apply Forall_cons_1 in Hps as [Hp _]. split; [|done].
  unfold J in *. etransitivity; [|exact J1]. cbn [map app]. rewrite map_app.
  apply submseteq_skip, submseteq_skips_r. by apply submseteq_inserts_l.
Qed.

(** ** The loop *)

Lemma quiet_limit now target : quiet (limit_replay now target).
Proof.
  unfold limit_replay. case_match; [|apply quiet_ret]. apply quiet_bind; [by apply quiet_update|].
  intros _. apply quiet_ret.
Qed.

Lemma nothing_flow b recommended now n pend s l :
  F n now pend s -> 0 <= now -> kMaxPadding <= n <= kMaxPacerQueue -> loop_ok b recommended l ->
  wp (nothing_to_send recommended now l) s (fun r s' => F n now pend s' /\ step_ok b recommended r).
Proof.
  intros H H0 Hn Hl.
  eapply wp_mono; [apply wp_both; [exact (nothing_to_send_ok b recommended now n s l (proj1 H) H0 Hn Hl)|]
    |intros r s' [[H1 H2] H3]; exact (conj (conj H1 H3) H2)].
  unfold nothing_to_send. apply wp_bind. destruct H as [H HJ].
  eapply wp_mono; [apply (F_quiet' _ n now n now pend s (conj H HJ) (quiet_limit now (target_send_time l)));
    eapply wp_mono; [apply (limit_replay_ok now _ n now s H)|by intros a s' [Hi _]]|].
  { destruct H as (_ & _ & ? & _). lia. }
  intros target s1 H1. cbv zeta. apply wp_bind, wp_member. cbn [data_sent].
  destruct (Z.ltb_spec 0 (PaddingToAdd recommended (data_sent l) s1.1)) as [Hp|_]; [|apply wp_ret, H1].
  apply wp_bind, wp_outside.
  destruct (padding_flow (PaddingToAdd recommended (data_sent l) s1.1) n now pend s1 H1) as ([H2 J2] & Hps & Hz).
  destruct (GeneratePadding _ _).1 as [|p ps] eqn:Eps.
  - apply wp_bind. apply wp_update. by apply wp_ret.
  - assert (F 0 now ((p :: ps) ++ pend) (s1.1, (GeneratePadding (PaddingToAdd recommended (data_sent l) s1.1) s1.2).2)) as F3.
    { split; [|done]. destruct H2 as (Hok & _ & ? & ?). split_and!; [done| |done|done]. cbn [fst].
      unfold PaddingToAdd in Hp. destruct (QueueEmpty s1.1) eqn:He; [|cbn in Hp; lia].
      apply QueueEmpty_iff in He; [|apply Hok]. unfold queue_len. by rewrite He. }
    apply wp_bind. eapply wp_mono; [apply (enqueue_all_flow (p :: ps) 0 now pend); [exact F3|lia|done]|].
    intros [] s3 [H4 J4]. by apply wp_ret.
Qed.

Lemma send_one_flow b recommended now n pend s p l :
  F n now (p :: pend) s -> 0 <= now -> small_packet p -> loop_ok b recommended l -> 0 <= recommended <= kMaxProbeSize ->
  wp (send_one b recommended now p l) s (fun r s' => F n now pend s' /\ step_ok b recommended r).
Proof.
  intros H H0 Hp Hl Hrec.
  eapply wp_mono; [apply wp_both; [exact (send_one_ok b recommended now n s p l (proj1 H) H0 Hp Hl Hrec)|]
    |intros r s' [[H1 H2] H3]; exact (conj (conj H1 H3) H2)].
  unfold send_one. pose proof Hp as ([ty Hty] & _).
  apply wp_bind. eapply wp_lift; [exact Hty|]. apply wp_bind, wp_member, wp_bind.
  pose proof (sent_size_bound p s.1 (proj1 (proj1 H)) Hp) as Hsz. set (size := sent_size p s.1) in *. clearbody size.
  wp_call (send_flow p (pacing_info l) n now pend s H Hp). intros [] s1 (H1 & _). cbv zeta.
  apply wp_bind. eapply wp_mono; [apply (F_quiet' _ n now n now pend s1 H1 (quiet_sent ty size now));
    apply (wp_OnPacketSent ty size now n s1 (proj1 H1) H0); lia|].
  intros [] s2 [H2 J2]. case_match; [by apply wp_ret|].
  eapply wp_mono; [apply wp_kept; [apply quiet_target|]|].
  - apply (next_target_ok b recommended now n s2); [done|done|]. destruct Hl as [Hd Hb].
    pose proof (unit_add_nonneg (data_sent l) size Hd ltac:(lia)) as Hd'. split; [done|].
    intros ->. match goal with Hc : true && _ = false |- _ => cbn in Hc |- *; lia end.
  - intros r s3 [_ Hk]. by eapply J_kept.
Qed.

Lemma send_loop_flow k b recommended now n pend s l :
  F n now pend s -> 0 <= now -> kMaxPadding <= n <= kMaxPacerQueue -> loop_ok b recommended l ->
  0 <= recommended <= kMaxProbeSize ->
  wp (send_loop k b recommended now l) s (fun _ s' => J L pend s').
Proof.
  intros H H0 Hn Hl Hrec. revert s l H Hl. induction k as [|k IH]; intros s l H Hl; cbn [send_loop].
  - apply wp_ret. apply H.
  - apply wp_bind. unfold send_step. apply wp_bind.
    wp_call (pending_flow (pacing_info l) (target_send_time l) now n now pend s H).
    intros p s1 [H1 Hp].
    assert (wp (match p with Some p => send_one b recommended now p l | None => nothing_to_send recommended now l end)
      s1 (fun r s' => F n now pend s' /\ step_ok b recommended r)) as Hstep.
    { destruct p as [p|]; [destruct Hp as [Jp Hp]; by apply send_one_flow|by apply nothing_flow]. }
    eapply wp_mono; [exact Hstep|]. intros [l'|l'] s2 [H2 Hs]; [by apply IH|]. apply wp_ret. apply H2.
Qed.

(** ** Processing *)

Lemma send_keepalive_flow ps sent n t pend s :
  F n t (ps ++ pend) s -> Forall small_packet ps -> 0 <= sent ->
  wp (send_keepalive ps sent) s (fun r s' => F n t pend s' /\ 0 <= r).
Proof.
  revert sent s. induction ps as [|p ps IH]; intros sent s H Hps Hs; cbn [send_keepalive]; [by apply wp_ret|].
  apply Forall_cons_1 in Hps as [Hsm Hps]. pose proof Hsm as (_ & Hp). apply wp_bind.
  wp_call (send_flow p not_a_probe n t (ps ++ pend) s H Hsm). intros [] s1 [H1 _].
  apply IH; [done|done|]. apply unit_add_nonneg; lia.
Qed.

Lemma sent_flow ty size now n pend s :
  F n now pend s -> 0 <= now -> 0 <= size ->
  wp (update (OnPacketSent ty size now)) s (fun _ s' => F n now pend s').
Proof. intros H H0 Hs. apply (F_quiet' _ n now n now pend s H (quiet_sent ty size now)). by apply wp_OnPacketSent; [apply H|..]. Qed.

Lemma keepalive_flow now n pend s :
  F n now pend s -> 0 <= now -> wp (keepalive now) s (fun _ s' => F n now pend s').
Proof.
  intros H H0. unfold keepalive. apply wp_bind, wp_member.
  destruct (ShouldSendKeepalive now s.1); [|by apply wp_ret]. apply wp_bind, wp_member, wp_bind.
  destruct (seen_first_packet_ s.1).
  - apply wp_bind, wp_outside. destruct (padding_flow 1 n now pend s H) as (H1 & Hps & _).
    eapply wp_mono; [by apply (send_keepalive_flow _ 0 n now pend)|]. intros sent s2 [H2 Hs].
    by apply sent_flow.
  - apply wp_ret. by apply sent_flow.
Qed.

Lemma quiet_media_rate : quiet (now ← CurrentTime; update (MaybeUpdateMediaRateDueToLongQueue now)).
Proof.
  apply quiet_bind; [apply quiet_clock|]. intros now. apply quiet_update. intros c. apply levels_media_rate.
Qed.

Lemma process_flow now target n pend s :
  F n now pend s -> 0 <= now -> kMaxPadding <= n <= kMaxPacerQueue -> target <= now + kMaxEarlyProbeProcessing ->
  wp (process now target) s (fun _ s' => F n now pend s').
Proof.
  intros [H HJ] H0 Hn Ht.
  eapply wp_mono; [apply wp_both; [exact (process_ok now target n s H H0 Hn Ht)|]|intros a s'; exact id].
  unfold process. apply wp_bind. eapply wp_mono.
  { apply (F_quiet' _ n now n now pend s (conj H HJ)).
    - apply quiet_update. intros c. unfold UpdateTimeAndGetElapsed. destruct (_ || _); by case_match.
    - apply (wp_update_inv _ n now); [exact H| | |].
      + pose proof (UpdateTime_ok target s.1 (proj1 H)) as Hu. destruct H as (_ & _ & ? & _).
        destruct Hu as [He Hok]; [unfold kMaxEarlyProbeProcessing in *; lia|].
        destruct (UpdateTimeAndGetElapsed target s.1). case_match; [by apply UpdateBudgetWithElapsedTime_ok|done].
      + unfold UpdateTimeAndGetElapsed. destruct (_ || _); by case_match.
      + unfold UpdateTimeAndGetElapsed. destruct (_ || _); by case_match. }
  intros [] s1 [H1 J1]. apply wp_bind, wp_member. cbn [id].
  destruct (current_probe now s1.1) as [[[b info] recommended] s2] eqn:Hprobe.
  destruct (current_probe_ok now s1.1 b info recommended s2 (proj1 H1) Hprobe) as (Hok & Hrec & Hq & Hlt).
  apply wp_bind, wp_update, wp_bind, wp_member, wp_bind. cbn [fst snd].
  assert (F n now pend (s2, s1.2)) as F2.
  { split; [|unfold J in *; cbn [fst snd]; by rewrite Hq].
    destruct H1 as (_ & Hl & Hlt1 & Hw). unfold Inv, queue_len. cbn [fst snd]. by rewrite Hq, Hlt. }
  set (l0 := mkLoop target info 0 0). set (k := Z.to_nat _).
  assert (loop_ok b recommended l0) as Hl0 by (split; [done|cbn; lia]).
  eapply wp_mono; [apply wp_both;
    [exact (send_loop_ok k b recommended now n _ l0 (proj1 F2) H0 Hn Hl0 Hrec)
    |exact (send_loop_flow k b recommended now n pend _ l0 F2 H0 Hn Hl0 Hrec)]|].
  intros [l|] s3 [[H3 Hd] J3].
  - apply wp_bind. eapply wp_mono; [apply (F_quiet' _ n now n now pend s3 (conj H3 J3) (quiet_finish b l));
      by apply (finish_probe_ok b l n now)|].
    intros [] s4 [H4 J4]. eapply wp_mono; [apply wp_kept; [apply quiet_media_rate|apply (wp_MaybeUpdateMediaRate n now s4 H4); lia]|].
    intros a s5 [_ Hk]. by eapply J_kept.
  - apply wp_update. exact J3.
Qed.

Lemma quiet_expire now : quiet (update (expire_clusters now)).
Proof.
  apply quiet_update. intros c. unfold expire_clusters. by destruct (RemoveExpiredClusters now (prober_ c)) as [[] b].
Qed.

Lemma batch_flow pend s : J L pend s -> J L pend (s.1, OnBatchComplete s.2).
Proof. unfold J. cbn [fst snd]. by destruct (handed_batch s.2) as [-> ->]. Qed.

Lemma ProcessPackets_flow n t pend s :
  F n t pend s -> kMaxPadding <= n <= kMaxPacerQueue -> wp ProcessPackets s (fun _ s' => F n t pend s').
Proof.
  intros [H HJ] Hn.
  eapply wp_mono; [apply wp_both; [exact (ProcessPackets_ok n t s H Hn)|]|intros a s'; exact id].
  unfold ProcessPackets. apply wp_bind.
  eapply wp_mono; [apply wp_kept; [apply quiet_clock|exact (CurrentTime_ok n t s H)]|].
  intros now s1 [(H1 & Hnow & H0 & _) Hk]. apply (J_kept _ _ _ HJ) in Hk. apply wp_bind. eapply wp_mono.
  { apply (F_quiet' _ n now n now pend s1 (conj H1 Hk) (quiet_expire now)).
    apply (wp_update_inv _ n now); [exact H1|apply expire_clusters_ok, H1| |];
      unfold expire_clusters; destruct (RemoveExpiredClusters now (prober_ s1.1)) as [[] b]; done. }
  intros [] s2 H2. apply wp_bind. eapply wp_mono; [by apply (keepalive_flow now n pend)|]. intros [] s3 [H3 J3].
  apply wp_bind. eapply wp_mono with (P := fun _ s' => J L pend s').
  - unfold process_unless_early. apply wp_bind, wp_member. cbn [id].
    destruct (paused_ s3.1); [by apply wp_ret|]. cbv zeta. apply wp_bind.
    eapply wp_mono; [apply wp_kept; [apply quiet_next|exact (NextSendTime_ok n now s3 H3)]|].
    intros target s4 [(now4 & H4 & Hnow4 & _ & _ & _) Hk4]. apply (J_kept _ _ _ J3) in Hk4.
    assert (Inv n now s4) as H5 by (eapply Inv_weaken; [exact H4|lia|lia]).
    set (margin := if is_probing (prober_ s3.1) then kMaxEarlyProbeProcessing else 0).
    assert (0 <= margin <= kMaxEarlyProbeProcessing) as Hm by (subst margin; by destruct (is_probing _)).
    unfold kMaxEarlyProbeProcessing, kMaxTime in *. clearbody margin.
    rewrite timestamp_add_small by (unfold small; lia).
    destruct (Z.ltb_spec (now + margin) target).
    + apply wp_update. eapply J_kept; [exact Hk4|]. by apply (quiet_advance now s4 tt).
    + eapply wp_mono; [apply (process_flow now target n pend s4 (conj H5 Hk4)); try done;
        unfold kMaxEarlyProbeProcessing; lia|]. by intros [] s5 [_ J5].
  - intros [] s4 J4. apply wp_tell. by apply batch_flow.
Qed.

(** ** Runs *)

Lemma quiet_try f :
  (forall c c', f c = Some c' -> levels (packet_queue_ c') = levels (packet_queue_ c)) -> quiet (try_update f).
Proof.
  intros Hf s a s' E. unfold try_update, member, gets, lift, update, modify, mbind, M_bind in E. cbn in E.
  destruct (f s.1) as [c|] eqn:Ec; [|done]. cbn in E. injection E as <- <-. unfold kept. cbn. by rewrite (Hf _ _ Ec).
Qed.

Lemma quiet_rates pacing padding : quiet (SetPacingRates pacing padding).
Proof.
  unfold SetPacingRates. cbv zeta. apply quiet_bind.
  - apply quiet_try. intros c c' E. unfold raise_max_rate in E. case_match; [|by injection E as <-].
    destruct (llround _); [by injection E as <-|done].
  - intros _. apply quiet_bind; [by apply quiet_update|]. intros _. apply quiet_media_rate.
Qed.

(** What an operation does not do to packets. *)
Lemma quiet_event e :
  match e with EEnqueue _ | EProcess | ERemove _ => True | _ => quiet (pacer_step e) end.
Proof.
  destruct e; try done; cbn [pacer_step].
  - apply quiet_bind; [apply quiet_next|]. intros _. apply quiet_ret.
  - apply quiet_bind; [apply quiet_member|]. intros c. apply quiet_bind; [apply silent_lift|]. intros _. apply quiet_ret.
  - apply quiet_bind; [by apply quiet_update|]. intros _. destruct configs; [apply quiet_ret|apply quiet_failure].
  - apply quiet_bind; [by apply quiet_update|]. intros _. apply quiet_bind; [apply quiet_clock|]. intros now.
    by apply quiet_update.
  - apply quiet_bind; [apply quiet_clock|]. intros now. apply quiet_update. intros c. by case_match.
  - apply quiet_bind; [apply quiet_member|]. intros c. cbv zeta. apply quiet_bind.
    + case_match; [|apply quiet_ret]. apply quiet_bind; [apply quiet_clock|]. intros now. apply quiet_advance.
    + intros _. apply quiet_bind; [by apply quiet_update|]. intros _. case_match; [apply quiet_failure|apply quiet_ret].
  - apply quiet_rates.
  - by apply quiet_update.
  - by apply quiet_update.
  - apply quiet_update. intros c. unfold ClearProbingSendFailure. by repeat case_match.
  - by apply quiet_update.
  - by apply quiet_update.
  - apply quiet_update. intros c. by case_match.
  - by apply quiet_update.
  - by apply quiet_update.
  - by apply quiet_update.
Qed.

Definition queues (e : PacerEvent) : list RtpPacketToSend := match e with EEnqueue p => [p] | _ => [] end.

Lemma pacer_step_flow e n t pend s :
  F n t (queues e ++ pend) s -> kMaxPadding <= n -> n + enqueues e <= kMaxPacerQueue -> pacer_event_ok e ->
  wp (pacer_step e) s (fun _ s' => F (n + enqueues e) t pend s').
Proof.
  intros [H HJ] Hn Hmax He. pose proof (pacer_step_ok e n t s H Hn Hmax He) as Hok.
  pose proof (quiet_event e) as Hq. destruct e; cbn [queues app] in *;
    try (exact (F_quiet' _ n t _ t pend s (conj H HJ) Hq Hok)).
  - cbn [pacer_step enqueues] in *. apply enqueue_flow; [done|lia|done].
  - cbn [pacer_step enqueues] in *. rewrite Z.add_0_r in *. by apply ProcessPackets_flow.
  - eapply wp_mono; [apply wp_both; [exact Hok|]|intros a s'; exact id]. cbn [pacer_step].
    unfold PacerRemovePacketsForSsrc.
    destruct (RemovePacketsForSsrc_ok ssrc _ (pk_queue _ (proj1 H))) as (q & Hq' & _ & Hl & _).
    pose proof (abs_remove_sub (time_to_live_per_prio_ (packet_queue_ s.1))
      (last_update_time_ (totals (packet_queue_ s.1))) ssrc _ _ (proj1 (pk_queue _ (proj1 H))) eq_refl) as Hsub.
    rewrite <- Hl in Hsub. eapply wp_try_update; [by rewrite Hq'|]. by apply J_queue.
Qed.

(** The packets that a run still has to queue are in hand. *)
Lemma pacer_run_flow es n t s :
  F n t (flat_map queues es) s -> kMaxPadding <= n -> n + zsum enqueues es <= kMaxPacerQueue -> Forall pacer_event_ok es ->
  wp (for_each pacer_step es) s (fun _ s' => F kMaxPacerQueue t [] s').
Proof.
  revert n s. induction es as [|e es IH]; intros n s H Hn Hmax Hes; cbn [for_each zsum flat_map] in *.
  - apply wp_ret. destruct H as [H HJ]. split; [|done]. eapply Inv_weaken; [exact H|lia|lia].
  - apply Forall_cons_1 in Hes as [He Hes]. apply wp_bind.
    assert (0 <= enqueues e /\ 0 <= zsum enqueues es) as [].
    { split; [by destruct e|]. clear. induction es as [|[] es IH]; cbn [zsum enqueues]; lia. }
    eapply wp_mono; [by apply (pacer_step_flow e n t); [|done|lia|]|]. intros [] s1 Hs1.
    apply (IH (n + enqueues e)); [done|lia|lia|done].
Qed.
End flow.

(** Nothing waits in a new pacer. *)
Lemma new_pacer_holds c t0 t1 : all (levels (packet_queue_ (new_pacer c t0 t1))) = [].
Proof. done. Qed.

(** ** Property *)

(** C33. The pacer neither copies nor makes up packets: after a run, what it has
    handed to the sender together with what still waits in its queue is part of
    what was queued and of the padding that the sender made, each packet counted
    once.  The runs are those of the bounds of [pacer_event_ok]: the first event
    sets the rates, pacing rates are positive in every such event and rates at
    most 4 Tbps, packets are typed, have a header and at most 2000 bytes, at
    most 199000 of them are queued and at most 1000 padding packets are made at
    once; overhead is at most 500 bytes; a probe cluster asks for a
    positive rate, at most 1000 probes, 1 GB, and 900 kB between two probes;
    and the clock shows at most 50 days.  Each such run succeeds, whatever the order of its
    events. *)
Theorem pacer_conserves {W} {clk : Clock W} {sender : PacketSender W} {laws : SenderLaws W} {A} {courier : Courier W A}
    (c : Configuration) (t0 t1 : Z) (w : W) (pacing padding : Z) (es : list PacerEvent) :
  world_ok w -> 0 <= t0 <= t1 -> t1 <= (read_clock w).1 ->
  Forall pacer_event_ok (ERates pacing padding :: es) -> zsum enqueues es <= kMaxPacerQueue - kMaxPadding ->
  exists s, for_each pacer_step (ERates pacing padding :: es) (new_pacer c t0 t1, w) = Some (tt, s) /\
    map (fun q => label (packet q)) (all (levels (packet_queue_ s.1))) ++ handed s.2 ⊆+
      (map label (flat_map queues es) ++ handed w) ++ made s.2.
Proof.
  intros Hw Ht Ht1 Hes Hn. apply Forall_cons_1 in Hes as [[Hpac Hpad] Hes]. change (0 < pacing <= kMaxRate) in Hpac.
  set (L := map label (flat_map queues es) ++ handed w).
  assert (J L (flat_map queues es) (new_pacer c t0 t1, w)) as HJ.
  { unfold J, L. cbn [fst snd]. rewrite new_pacer_holds. cbn [map app]. by apply submseteq_inserts_r. }
  assert (wp (for_each pacer_step (ERates pacing padding :: es)) (new_pacer c t0 t1, w)
    (fun _ s' => F L kMaxPacerQueue t1 [] s')) as ([] & s & Hrun & _ & Hs); [|by exists s].
  cbn [for_each pacer_step]. apply wp_bind.
  eapply wp_mono; [apply (wp_kept (SetPacingRates pacing padding) (new_pacer c t0 t1, w) (fun _ s' => Inv kMaxPadding t1 s'));
    [apply quiet_rates|]|].
  - unfold wp at 1. rewrite first_rates by lia. change (wp (SetPacingRates pacing padding) (new_pacer c t1 t1, w)
      (fun _ s' => Inv kMaxPadding t1 s')).
    apply SetPacingRates_ok; try done. apply new_pacer_pre. destruct (clock_ok w Hw) as [Hr _]. lia.
  - intros [] s1 [H1 Hk]. apply (pacer_run_flow L es kMaxPadding); [|done|unfold kMaxPacerQueue, kMaxPadding in *; lia|done].
    split; [done|]. by eapply J_kept.
Qed.

(** A sender that writes down what it is handed and what it makes; the labels
    are the transport sequence numbers. *)
Record NotingWorld := mkNoting { n_time : Z; n_sent : list (option Z); n_made : list (option Z) }.

#[export] Instance noting_clock : Clock NotingWorld :=
  fun w => (Z.min kMaxTime (n_time w), mkNoting (n_time w + 1000) (n_sent w) (n_made w)).

#[export] Instance noting_sender : PacketSender NotingWorld := {
  SendPacket p _ w := mkNoting (n_time w) (transport_sequence_number_ p :: n_sent w) (n_made w);
  FetchFec w := ([], w);
  GeneratePadding _ w := ([sample_padding], mkNoting (n_time w) (n_sent w) (n_made w ++ [transport_sequence_number_ sample_padding]));
  OnBatchComplete w := w;
}.

#[export] Program Instance noting_laws : SenderLaws NotingWorld := {
  world_ok w := 0 <= n_time w;
}.
Next Obligation. intros w H. cbn in *. unfold kMaxTime. lia. Qed.
Next Obligation. intros p i w _ H. exact H. Qed.
Next Obligation. intros w H. by split. Qed.
Next Obligation.
  intros n w H. cbn. split_and!; [constructor; [apply sample_small|constructor]|vm_compute; congruence|done].
Qed.
Next Obligation. intros w H. exact H. Qed.

#[export] Program Instance noting_courier : Courier NotingWorld (option Z) := {
  label p := transport_sequence_number_ p;
  handed w := n_sent w;
  made w := n_made w;
}.
Next Obligation. done. Qed.
Next Obligation. done. Qed.
Next Obligation. done. Qed.
Next Obligation. done. Qed.
Next Obligation. done. Qed.
Next Obligation. done. Qed.

Lemma pacer_conserves_witness :
  exists s, for_each pacer_step (sample_rates :: sample_pacing) (new_pacer DefaultConfiguration 1000 1000, mkNoting 1000 [] [])
      = Some (tt, s) /\
    map (fun q => label (W:=NotingWorld) (packet q)) (all (levels (packet_queue_ s.1))) ++ handed s.2 ⊆+
      (map (label (W:=NotingWorld)) (flat_map queues sample_pacing) ++ handed (mkNoting 1000 [] [])) ++ made s.2.
Proof.
  unshelve eapply (pacer_conserves (W:=NotingWorld) (courier:=noting_courier) DefaultConfiguration 1000 1000 (mkNoting 1000 [] []) 300000 0 sample_pacing).
  - cbn. lia.
  - lia.
  - vm_compute. congruence.
  - exact sample_pacing_ok.
  - vm_compute. congruence.
Defined.
