(* ===== verification/PacedSender.v ===== *)
(** * The paced sender

    [PacedSender] of [src/transport/paced_sender/paced_sender.h] and [.cpp]: it
    owns the pacing controller, runs it on a task queue, numbers the packets
    when they leave and when they are queued, and schedules its own next run.

    The controller calls back into it to send a packet and to make padding;
    these callbacks work on [Outlet], the members that the controller can reach,
    and on the transport's world behind it.  The loop of [MaybeProcessPackets]
    is taken one round at a time ([Sending] is its head, [Leaving] its end).
    [Shutdown] comes from another thread at any moment, in the middle of a
    round too: each load of the flag asks the world whether it has come
    ([load_shutdown]).  [RunOrPost] hands each operation to that
    queue, so that they do not overlap otherwise; the flag against re-entry from
    the callbacks is left out, as none of them calls back.  The callbacks set by
    [SetOnSentPacketFunc] and [SetGeneratePaddingFunc] are the interface
    [PacedTransport]: the controller of the transport sets them before it starts
    the sender. *)

From Stdlib Require Import SpecFloat.
From stdpp Require Import gmap.
From S2P Require Import Prelude StateMonad Units NetworkTypes Float32 RtpPacket RtpToSend Packetizer PacketQueue Prober Pacer.

(** ** The transport *)

Class PacedTransport (W : Type) := {
  transport_clock : W -> Z * W;
  (** [on_sent_packet_func_]. *)
  on_sent_packet : RtpPacketToSend -> PacedPacketInfo -> W -> W;
  (** [generat_padding_func_]: size, time in microseconds. *)
  generate_padding : Z -> Z -> W -> list RtpPacket * W;
  (** [PostDelayedHighPrecisionTask] with [MaybeProcessPackets] of the time
      given, after the delay in microseconds. *)
  post_delayed : Z -> Z -> W -> bool * W;
  (** Whether another thread has called [Shutdown] since the flag was last read. *)
  shutdown_comes : W -> bool * W;
}.

(** ** What the controller reaches *)

(** src/transport/paced_sender/paced_sender.h:233-246 [PacedSender] *)
Record Outlet (W : Type) := mkOutlet {
  is_shutdown_ : bool;
  transport_seq_ : Z;
  ssrc_seq_ : gmap Z Z;
  world : W;
}.
Arguments mkOutlet {W}.
Arguments is_shutdown_ {W}.
Arguments transport_seq_ {W}.
Arguments ssrc_seq_ {W}.
Arguments world {W}.

Definition set_world {W} (w : W) (o : Outlet W) : Outlet W :=
  mkOutlet (is_shutdown_ o) (transport_seq_ o) (ssrc_seq_ o) w.
Definition set_transport_seq {W} (n : Z) (o : Outlet W) : Outlet W :=
  mkOutlet (is_shutdown_ o) n (ssrc_seq_ o) (world o).
Definition set_ssrc_seq {W} (m : gmap Z Z) (o : Outlet W) : Outlet W :=
  mkOutlet (is_shutdown_ o) (transport_seq_ o) m (world o).

(** src/transport/paced_sender/paced_sender.cpp:45-45 [PacedSender::Shutdown] *)
Definition Shutdown {W} (o : Outlet W) : Outlet W :=
  mkOutlet true (transport_seq_ o) (ssrc_seq_ o) (world o).

Definition set_packet (q : RtpPacket) (p : RtpPacketToSend) : RtpPacketToSend :=
  mkToSend q (capture_time_ p) (packet_type_ p) (original_packet_type_ p) (original_ssrc_ p)
    (transport_sequence_number_ p) (allow_retransmission_ p) (retransmitted_sequence_number_ p)
    (is_first_packet_of_frame_ p) (is_key_frame_ p) (fec_protect_packet_ p) (is_red_ p) (send_as_ect1_ p)
    (time_in_send_queue_ p) (stream_name_ p).
Definition set_capture_time (t : Z) (p : RtpPacketToSend) : RtpPacketToSend :=
  mkToSend (rtp_packet p) t (packet_type_ p) (original_packet_type_ p) (original_ssrc_ p)
    (transport_sequence_number_ p) (allow_retransmission_ p) (retransmitted_sequence_number_ p)
    (is_first_packet_of_frame_ p) (is_key_frame_ p) (fec_protect_packet_ p) (is_red_ p) (send_as_ect1_ p)
    (time_in_send_queue_ p) (stream_name_ p).
Definition set_transport_sequence_number (n : Z) (p : RtpPacketToSend) : RtpPacketToSend :=
  mkToSend (rtp_packet p) (capture_time_ p) (packet_type_ p) (original_packet_type_ p) (original_ssrc_ p)
    (Some n) (allow_retransmission_ p) (retransmitted_sequence_number_ p)
    (is_first_packet_of_frame_ p) (is_key_frame_ p) (fec_protect_packet_ p) (is_red_ p) (send_as_ect1_ p)
    (time_in_send_queue_ p) (stream_name_ p).

(** The writing of the number cannot fail. *)
Definition numbered (n : Z) (p : RtpPacketToSend) : RtpPacketToSend :=
  match UpdateSequenceNumber n (rtp_packet p) with
  | Some q => set_packet q p
  | None => p
  end.

Section callbacks.
Context {W : Type} {transport : PacedTransport W}.

(** [is_shutdown_.load()]. *)
Definition load_shutdown (o : Outlet W) : bool * Outlet W :=
  let '(comes, w) := shutdown_comes (world o) in
  let o := set_world w (if comes : bool then Shutdown o else o) in
  (is_shutdown_ o, o).

(** src/transport/paced_sender/paced_sender.h:64-79 [PacedSender::SendPacket] *)
Definition OutletSendPacket (p : RtpPacketToSend) (cluster_info : PacedPacketInfo) (o : Outlet W) : Outlet W :=
  let '(shutdown, o) := load_shutdown o in
  if shutdown then o else
  let seq := default 1 (ssrc_seq_ o !! Ssrc p) in
  let o := set_ssrc_seq (<[Ssrc p := u16 (seq + 1)]> (ssrc_seq_ o)) o in
  set_world (on_sent_packet (numbered seq p) cluster_info (world o)) o.

(** src/transport/paced_sender/paced_sender.cpp:88-97 [PacedSender::GeneratePadding] *)
Fixpoint label_padding (padding_time seq : Z) (ps : list RtpPacket) : list RtpPacketToSend :=
  match ps with
  | [] => []
  | p :: ps =>
      set_packet_type kPadding (set_transport_sequence_number seq (set_capture_time padding_time (new_to_send p)))
        :: label_padding padding_time (seq + 1) ps
  end.

(** src/transport/paced_sender/paced_sender.cpp:79-100 [PacedSender::GeneratePadding] *)
Definition OutletGeneratePadding (size : Z) (o : Outlet W) : list RtpPacketToSend * Outlet W :=
  let '(shutdown, o) := load_shutdown o in
  if shutdown then ([], o) else
  let '(padding_time, w) := transport_clock (world o) in
  let '(ps, w) := generate_padding size padding_time w in
  (label_padding padding_time (transport_seq_ o) ps,
   set_transport_seq (transport_seq_ o + zlen ps) (set_world w o)).

#[export] Instance outlet_clock : Clock (Outlet W) :=
  fun o => let '(t, w) := transport_clock (world o) in (t, set_world w o).

(** src/transport/paced_sender/paced_sender.h:80-99 [PacedSender] *)
#[export] Instance outlet_sender : PacketSender (Outlet W) := {|
  SendPacket := OutletSendPacket;
  FetchFec o := ([], o);
  GeneratePadding := OutletGeneratePadding;
  OnBatchComplete o := o;
|}.
End callbacks.

(** ** The average size of the packets *)

(** The [ExpFilter] with [alpha] 0.95 and no upper limit. *)
(** src/transport/paced_sender/paced_sender.cpp:37-37 [PacedSender::PacedSender] *)
Definition kAlpha : spec_float := f32_div (f32_of_Z 95) (f32_of_Z 100).
(** src/common/rtc_base/numerics/exp_filter.cc:18-18 [ExpFilter::kValueUndefined] *)
Definition kValueUndefined : spec_float := f32_of_Z (-1).

(** With an exponent of one. *)
(** src/common/rtc_base/numerics/exp_filter.cc:25-39 [ExpFilter::Apply] *)
Definition ApplyFilter (sample filtered : spec_float) : spec_float :=
  if SFeqb filtered kValueUndefined then sample
  else f32_add (f32_mul kAlpha filtered) (f32_mul (SFsub 24 128 (f32_of_Z 1) kAlpha) sample).

(** ** State *)

(** src/transport/paced_sender/paced_sender.h:169-178 [PacedSender::Stats] *)
Record Stats := mkStats {
  oldest_packet_enqueue_time : Z;
  queue_size : Z;
  expected_queue_time : Z;
  first_sent_packet_time : option Z;
}.

(** Between two operations, at the head of the loop, or behind it. *)
Inductive Point := Idle | Sending (now next_send_time : Z) | Leaving (now next_send_time : Z).

(** src/transport/paced_sender/paced_sender.h:203-239 [PacedSender] *)
Record PacedSender := mkSender {
  pacing_controller_ : PacingController;
  next_process_time_ : Z;
  is_started_ : bool;
  transport_ready_ : bool;
  packet_size_ : spec_float;
  ps_include_overhead_ : bool;
  current_stats_ : Stats;
  point : Point;
}.

Definition set_controller (c : PacingController) (s : PacedSender) : PacedSender :=
  mkSender c (next_process_time_ s) (is_started_ s) (transport_ready_ s) (packet_size_ s)
    (ps_include_overhead_ s) (current_stats_ s) (point s).
Definition set_next_process (t : Z) (s : PacedSender) : PacedSender :=
  mkSender (pacing_controller_ s) t (is_started_ s) (transport_ready_ s) (packet_size_ s)
    (ps_include_overhead_ s) (current_stats_ s) (point s).
Definition set_started (b : bool) (s : PacedSender) : PacedSender :=
  mkSender (pacing_controller_ s) (next_process_time_ s) b (transport_ready_ s) (packet_size_ s)
    (ps_include_overhead_ s) (current_stats_ s) (point s).
Definition set_ready (b : bool) (s : PacedSender) : PacedSender :=
  mkSender (pacing_controller_ s) (next_process_time_ s) (is_started_ s) b (packet_size_ s)
    (ps_include_overhead_ s) (current_stats_ s) (point s).
Definition set_filter (f : spec_float) (s : PacedSender) : PacedSender :=
  mkSender (pacing_controller_ s) (next_process_time_ s) (is_started_ s) (transport_ready_ s) f
    (ps_include_overhead_ s) (current_stats_ s) (point s).
Definition set_ps_overhead (b : bool) (s : PacedSender) : PacedSender :=
  mkSender (pacing_controller_ s) (next_process_time_ s) (is_started_ s) (transport_ready_ s) (packet_size_ s)
    b (current_stats_ s) (point s).
Definition set_stats (t : Stats) (s : PacedSender) : PacedSender :=
  mkSender (pacing_controller_ s) (next_process_time_ s) (is_started_ s) (transport_ready_ s) (packet_size_ s)
    (ps_include_overhead_ s) t (point s).
Definition set_point (p : Point) (s : PacedSender) : PacedSender :=
  mkSender (pacing_controller_ s) (next_process_time_ s) (is_started_ s) (transport_ready_ s) (packet_size_ s)
    (ps_include_overhead_ s) (current_stats_ s) p.

(** Key frames flush what waits in front of them. *)
(** src/transport/paced_sender/paced_sender.cpp:11-19 [LowLatencyPacingConfiguration] *)
Definition LowLatencyPacingConfiguration : Configuration :=
  let c := DefaultConfiguration in
  mkConfiguration (drain_large_queues c) (queue_time_limit c) true (prioritize_audio_retransmission c)
    (packet_queue_ttl c) (send_burst_interval c).

(** [t0] and [t1] are the readings of the clock by the controller. *)
(** src/transport/paced_sender/paced_sender.cpp:25-41 [PacedSender::PacedSender] *)
Definition new_sender (t0 t1 : Z) : PacedSender :=
  mkSender (new_pacer LowLatencyPacingConfiguration t0 t1) MinusInfinity false false kValueUndefined false
    (mkStats MinusInfinity 0 0 None) Idle.

Definition new_outlet {W} (w : W) : Outlet W := mkOutlet false 0 ∅ w.

(** src/transport/paced_sender/paced_sender.cpp:37-38 [PacedSender::PacedSender] *)
Definition max_hold_back_window_ : Z := 5000.
Definition max_hold_back_window_in_packets_ : Z := 3.

Section sender.
Context {W : Type} {transport : PacedTransport W}.

(** An operation: it works on the sender and on the outlet. *)
Definition T (A : Type) : Type := M (PacedSender * Outlet W) A.

Definition own {A} (f : PacedSender -> A) : T A := gets (fun s => f s.1).
Definition change (f : PacedSender -> PacedSender) : T unit := modify (fun s => (f s.1, s.2)).
Definition reach {A} (f : Outlet W -> A * Outlet W) : T A := fun s => let '(a, o) := f s.2 in Some (a, (s.1, o)).

(** A method of the controller. *)
Definition controller {A} (m : P (W := Outlet W) A) : T A := fun s =>
  '(a, (c, o)) ← m (pacing_controller_ s.1, s.2);
  Some (a, (set_controller c s.1, o)).

(** ** Processing *)

(** src/transport/paced_sender/paced_sender.cpp:313-316 [PacedSender::MaybeProcessPackets] *)
Definition early_execute_margin (s : PacedSender) : Z :=
  if is_probing (prober_ (pacing_controller_ s)) then kMaxEarlyProbeProcessing else 0.

(** A scheduled run is no longer in flight. *)
(** src/transport/paced_sender/paced_sender.cpp:297-302 [PacedSender::MaybeProcessPackets] *)
Definition take_timer (scheduled_process_time : Z) (s : PacedSender) : PacedSender :=
  if IsFinite scheduled_process_time then set_next_process MinusInfinity s else s.

(** Up to the loop; a run that was scheduled for another time does nothing. *)
(** src/transport/paced_sender/paced_sender.cpp:291-316 [PacedSender::MaybeProcessPackets] *)
Definition MaybeProcessPackets (scheduled_process_time : Z) : T unit :=
  s ← own id;
  shutdown ← reach load_shutdown;
  if shutdown || negb (is_started_ s) || negb (transport_ready_ s) then mret tt else
  if IsFinite scheduled_process_time && negb (scheduled_process_time =? next_process_time_ s) then mret tt else
  change (take_timer scheduled_process_time);;
  next_send_time ← controller NextSendTime;
  now ← reach read_clock;
  change (set_point (Sending now next_send_time)).

(** src/transport/paced_sender/paced_sender.cpp:375-383 [PacedSender::UpdateStats] *)
Definition UpdateStats : T unit :=
  c ← own pacing_controller_;
  expected ← lift (ExpectedQueueTime c);
  change (set_stats (mkStats (OldestEnqueueTime (packet_queue_ c)) (QueueSizeData c) expected
                       (first_sent_packet_time_ c))).

(** How long to wait at least: no longer than three average packets take. *)
(** src/transport/paced_sender/paced_sender.cpp:337-351 [PacedSender::MaybeProcessPackets] *)
Definition hold_back_window (s : PacedSender) : option Z :=
  let c := pacing_controller_ s in
  if is_probing (prober_ c) then Some 0 else
  if negb (adjusted_media_rate_ c =? 0) && negb (SFeqb (packet_size_ s) kValueUndefined) then
    size ← f32_to_s64 (packet_size_ s);
    avg_packet_send_time ← drain_time size (adjusted_media_rate_ c);
    Some (Z.min max_hold_back_window_ (unit_mul avg_packet_send_time max_hold_back_window_in_packets_))
  else Some max_hold_back_window_.

(** After the loop. *)
(** src/transport/paced_sender/paced_sender.cpp:335-372 [PacedSender::MaybeProcessPackets] *)
Definition schedule_next (now next_send_time : Z) : T unit :=
  UpdateStats;;
  s ← own id;
  hold_back ← lift (hold_back_window s);
  let time_to_next_process :=
    Z.max hold_back (unit_sub (timestamp_diff next_send_time now) (early_execute_margin s)) in
  let next_send_time := timestamp_add now time_to_next_process in
  if (next_process_time_ s =? MinusInfinity) || (next_send_time <? next_process_time_ s) then
    posted ← reach (fun o => let '(b, w) := post_delayed next_send_time (RoundUpTo time_to_next_process 1000) (world o) in
                             (b, set_world w o));
    if posted : bool then change (set_next_process next_send_time) else mret tt
  else mret tt.

(** One evaluation of the loop's condition and one round; or what follows the
    loop. *)
(** src/transport/paced_sender/paced_sender.cpp:318-333 [PacedSender::MaybeProcessPackets] *)
Definition sender_round : T unit :=
  s ← own id;
  match point s with
  | Idle => mret tt
  | Sending now next_send_time =>
      shutdown ← reach load_shutdown;
      if negb shutdown && (next_send_time <=? timestamp_add now (early_execute_margin s)) then
        controller ProcessPackets;;
        next_send_time ← controller NextSendTime;
        change (set_point (Sending now next_send_time))
      else change (set_point (Leaving now next_send_time))
  | Leaving now next_send_time =>
      shutdown ← reach load_shutdown;
      (if shutdown : bool then mret tt else schedule_next now next_send_time);;
      change (set_point Idle)
  end.

(** The flag against re-entry is not set between operations. *)
(** src/transport/paced_sender/paced_sender.cpp:285-289 [PacedSender::MaybeScheduleProcessPackets] *)
Definition MaybeScheduleProcessPackets : T unit := MaybeProcessPackets MinusInfinity.

(** ** Packets *)

(** The type that goes with the payload. *)
(** src/transport/paced_sender/paced_sender.cpp:403-425 [PacedSender::EnqueueRtpPackets] *)
Definition type_of_payload (payload_type : Z) : RtpPacketMediaType :=
  if payload_type =? payload_type_value H264 then kVideo
  else if payload_type =? payload_type_value AV1 then kVideo
  else if payload_type =? payload_type_value H264_FEC_SOURCE then kForwardErrorCorrection
  else if payload_type =? payload_type_value H264_FEC_REPAIR then kForwardErrorCorrection
  else if payload_type =? payload_type_value OPUS then kAudio
  else kVideo.

(** The packets as they are put on the queue. *)
(** src/transport/paced_sender/paced_sender.cpp:392-433 [PacedSender::EnqueueRtpPackets] *)
Definition label_packet (captured_timestamp_us : Z) (stream_name : String.string) (p : RtpPacketToSend) : RtpPacketToSend :=
  set_packet_type (type_of_payload (payload_type_ (rtp_packet p)))
    (set_stream_name stream_name (set_capture_time captured_timestamp_us p)).

(** src/transport/paced_sender/paced_sender.cpp:205-214 [PacedSender::EnqueuePacketOnQueue] *)
Definition EnqueuePacketOnQueue (p : RtpPacketToSend) : T unit :=
  seq ← reach (fun o => (transport_seq_ o, set_transport_seq (transport_seq_ o + 1) o));
  let p := set_transport_sequence_number seq p in
  change (fun s =>
    let q := rtp_packet p in
    let packet_size := payload_size_ q + padding_size_ q +
                       (if ps_include_overhead_ s then payload_offset_ q else 0) in
    set_filter (ApplyFilter (f32_of_Z packet_size) (packet_size_ s)) s);;
  controller (EnqueuePacket p).

(** src/transport/paced_sender/paced_sender.cpp:197-203 [PacedSender::EnqueuePacketsOnQueue] *)
Definition EnqueuePacketsOnQueue (packets : list RtpPacketToSend) : T unit :=
  for_each EnqueuePacketOnQueue packets;;
  MaybeProcessPackets MinusInfinity.

(** src/transport/paced_sender/paced_sender.cpp:392-433 [PacedSender::EnqueueRtpPackets] *)
Definition EnqueueRtpPackets (packets : list RtpPacketToSend) (captured_timestamp_us : Z) (stream_name : String.string) : T unit :=
  EnqueuePacketsOnQueue (map (label_packet captured_timestamp_us stream_name) packets).

(** src/transport/paced_sender/paced_sender.cpp:189-195 [PacedSender::EnqueuePacket] *)
Definition SenderEnqueuePacket (p : RtpPacketToSend) : T unit :=
  EnqueuePacketOnQueue p;;
  MaybeProcessPackets MinusInfinity.

(** ** The other operations *)

(** src/transport/paced_sender/paced_sender.cpp:108-113 [PacedSender::SetAllowProbeWithoutMediaPacket] *)
Definition SenderSetAllowProbe (allow : bool) : T unit :=
  controller (SetAllowProbeWithoutMediaPacket allow);;
  MaybeScheduleProcessPackets.

(** src/transport/paced_sender/paced_sender.cpp:115-127 [PacedSender::SetTransportReady] *)
Definition SetTransportReady (ready : bool) : T unit :=
  change (set_ready ready);;
  if ready then controller Resume else
  controller AbortProbing;;
  controller Pause;;
  change (set_next_process MinusInfinity).

(** src/transport/paced_sender/paced_sender.cpp:129-134 [PacedSender::EnsureStarted] *)
Definition EnsureStarted : T unit :=
  change (set_started true);;
  MaybeProcessPackets MinusInfinity.

(** src/transport/paced_sender/paced_sender.cpp:136-154 [PacedSender::CreateProbeClusters] *)
Definition SenderCreateProbeClusters (configs : list ProbeClusterConfig) : T unit :=
  ready ← own transport_ready_;
  if negb ready then mret tt else
  controller (CreateProbeClusters configs);;
  MaybeScheduleProcessPackets.

(** src/transport/paced_sender/paced_sender.cpp:156-158 [PacedSender::Pause] *)
Definition SenderPause : T unit := controller Pause.

(** src/transport/paced_sender/paced_sender.cpp:160-165 [PacedSender::Resume] *)
Definition SenderResume : T unit :=
  controller Resume;;
  MaybeProcessPackets MinusInfinity.

(** src/transport/paced_sender/paced_sender.cpp:167-172 [PacedSender::SetCongested] *)
Definition SenderSetCongested (congested : bool) : T unit :=
  controller (SetCongested congested);;
  MaybeScheduleProcessPackets.

(** src/transport/paced_sender/paced_sender.cpp:174-180 [PacedSender::SetPacingRates] *)
Definition SenderSetPacingRates (pacing_rate padding_rate : Z) : T unit :=
  controller (SetPacingRates pacing_rate padding_rate);;
  MaybeScheduleProcessPackets.

(** src/transport/paced_sender/paced_sender.cpp:216-221 [PacedSender::RemovePacketsForSsrc] *)
Definition SenderRemovePackets (ssrc : Z) : T unit :=
  controller (PacerRemovePacketsForSsrc ssrc);;
  MaybeProcessPackets MinusInfinity.

(** src/transport/paced_sender/paced_sender.cpp:223-228 [PacedSender::SetAccountForAudioPackets] *)
Definition SenderAccountForAudio (account : bool) : T unit :=
  controller (SetAccountForAudioPackets account);;
  MaybeProcessPackets MinusInfinity.

(** src/transport/paced_sender/paced_sender.cpp:230-236 [PacedSender::SetIncludeOverhead] *)
Definition SenderIncludeOverhead : T unit :=
  change (set_ps_overhead true);;
  controller SetIncludeOverhead;;
  MaybeProcessPackets MinusInfinity.

(** src/transport/paced_sender/paced_sender.cpp:238-244 [PacedSender::SetTransportOverhead] *)
Definition SenderTransportOverhead (overhead_per_packet : Z) : T unit :=
  controller (SetTransportOverhead overhead_per_packet);;
  MaybeProcessPackets MinusInfinity.

(** src/transport/paced_sender/paced_sender.cpp:246-251 [PacedSender::SetQueueTimeLimit] *)
Definition SenderQueueTimeLimit (limit : Z) : T unit :=
  controller (SetQueueTimeLimit limit);;
  MaybeProcessPackets MinusInfinity.

(** src/transport/paced_sender/paced_sender.cpp:102-106 [PacedSender::SetSendBurstInterval] *)
Definition SenderBurstInterval (burst_interval : Z) : T unit :=
  controller (SetSendBurstInterval burst_interval).

End sender.

(** What the others may ask: the last statistics. *)
(** src/transport/paced_sender/paced_sender.cpp:265-278 [PacedSender::OldestPacketWaitTime] *)
Definition OldestPacketWaitTime (current : Z) (s : PacedSender) : Z :=
  let oldest_packet := oldest_packet_enqueue_time (current_stats_ s) in
  if IsInfinite oldest_packet then 0
  else if current <? oldest_packet then 0
  else timestamp_diff current oldest_packet.

(** Negative when the sender is shut down; else the packet is queued by
    [SenderEnqueuePacket]. *)
(** src/transport/paced_sender/paced_sender.cpp:441-448 [PacedSender::EnqueueRtpPacket] *)
Definition enqueue_result {W} {transport : PacedTransport W} (o : Outlet W) : Z * Outlet W :=
  let '(shutdown, o) := load_shutdown o in (if shutdown then -1 else 0, o).
