(* ===== verification/PacedSenderOk.v ===== *)
(** * What the paced sender promises

    In whatever order and from whatever thread the sender is asked, once it has a
    positive pacing rate and within bounds on sizes and counts, every operation succeeds, the packets of each stream leave it numbered one after
    the other, and no transport sequence number leaves it twice. *)

From Stdlib Require Import SpecFloat.
From stdpp Require Import gmap.
From S2P Require Import Prelude StateMonad Units NetworkTypes Float32 ByteIO RtpPacket RtpToSend Packetizer.
From S2P Require Import PacketQueue Prober PacketQueueOk Pacer PacerOk PacerFlow PacedSender.

(** ** What the sender relies on *)

Definition small_padding (q : RtpPacket) : Prop :=
  0 <= payload_size_ q /\ 0 <= padding_size_ q /\ 0 <= payload_offset_ q /\
  payload_size_ q + padding_size_ q + payload_offset_ q <= kMaxPacketBytes /\ 4 <= zlen (buffer_ q).

(** A transport that knows what it was given to send. *)
Class TransportLaws (W : Type) {transport : PacedTransport W} := {
  transport_ok : W -> Prop;
  on_wire : W -> list RtpPacketToSend;
  clock_law : forall w, transport_ok w -> 0 <= (transport_clock w).1 <= kMaxTime /\ transport_ok (transport_clock w).2;
  clock_wire : forall w, on_wire (transport_clock w).2 = on_wire w;
  sent_law : forall p i w, transport_ok w -> transport_ok (on_sent_packet p i w);
  sent_wire : forall p i w, on_wire (on_sent_packet p i w) = on_wire w ++ [p];
  padding_law : forall n t w, transport_ok w -> Forall small_padding (generate_padding n t w).1 /\
    zlen (generate_padding n t w).1 <= kMaxPadding /\ transport_ok (generate_padding n t w).2;
  padding_wire : forall n t w, on_wire (generate_padding n t w).2 = on_wire w;
  post_law : forall t d w, transport_ok w -> transport_ok (post_delayed t d w).2;
  post_wire : forall t d w, on_wire (post_delayed t d w).2 = on_wire w;
  stop_law : forall w, transport_ok w -> transport_ok (shutdown_comes w).2;
  stop_wire : forall w, on_wire (shutdown_comes w).2 = on_wire w;
}.

(** ** Numbers *)

(** The packets of a stream, in the order in which they left. *)
Definition stream (ssrc : Z) (l : list RtpPacketToSend) : list RtpPacketToSend := filter (fun p => Ssrc p = ssrc) l.

(** One, two, three, and so on, at 16 bits. *)
Definition consecutive (n : nat) : list Z := map (fun i => u16 (1 + Z.of_nat i)) (seq 0 n).

Definition numbered_streams (l : list RtpPacketToSend) : Prop :=
  forall ssrc, map SequenceNumber (stream ssrc l) = consecutive (length (stream ssrc l)).

(** The number is in the header. *)
Definition carries_number (p : RtpPacketToSend) : Prop :=
  ReadBigEndian 2 (buffer_ (rtp_packet p)) 2 = Some (SequenceNumber p).

Definition numbers_ok (l : list RtpPacketToSend) (m : gmap Z Z) : Prop :=
  numbered_streams l /\ Forall carries_number l /\
  forall ssrc, default 1 (m !! ssrc) = u16 (1 + Z.of_nat (length (stream ssrc l))).

Lemma consecutive_S n : consecutive (S n) = consecutive n ++ [u16 (1 + Z.of_nat n)].
Proof. unfold consecutive. by rewrite seq_S, map_app. Qed.

Lemma numbered_spec n p :
  is_u16 n -> 4 <= zlen (buffer_ (rtp_packet p)) ->
  Ssrc (numbered n p) = Ssrc p /\ SequenceNumber (numbered n p) = n /\ carries_number (numbered n p) /\
  transport_sequence_number_ (numbered n p) = transport_sequence_number_ p.
Proof.
  intros Hn Hz. unfold numbered, UpdateSequenceNumber. rewrite (proj2 (Z.leb_le _ _)) by done.
  destruct (split_mid (buffer_ (rtp_packet p)) 2 2) as (a & l & c & E & Ha & Hl); [lia|lia|].
  rewrite E, <- Ha, WriteBigEndian_mid by done. cbn [mbind option_bind].
  split; [done|]. split; [done|]. split; [|done]. unfold carries_number. cbn [set_packet rtp_packet set_sequence_number_
    set_buffer_ buffer_]. rewrite <- Ha.
  change (SequenceNumber _) with n.
  pose proof (ReadBigEndian_mid a (be_bytes 2 n) c (be_bytes_bytes 2 n)) as Hr.
  rewrite be_bytes_length in Hr. rewrite Hr, be_val_be_bytes. f_equal. apply Z.mod_small. exact Hn.
Qed.

Lemma stream_snoc ssrc l p :
  stream ssrc (l ++ [p]) = stream ssrc l ++ (if decide (Ssrc p = ssrc) then [p] else []).
Proof. unfold stream. rewrite list.filter_app. cbn. by destruct (decide _). Qed.

Lemma numbers_ok_send l m p :
  numbers_ok l m -> 4 <= zlen (buffer_ (rtp_packet p)) ->
  let n := default 1 (m !! Ssrc p) in
  numbers_ok (l ++ [numbered n p]) (<[Ssrc p := u16 (n + 1)]> m).
Proof.
  intros (H1 & H2 & H3) Hz n.
  assert (n = u16 (1 + Z.of_nat (length (stream (Ssrc p) l)))) as Hn by apply H3.
  assert (is_u16 n) as Hr by (rewrite Hn; apply u16_range).
  destruct (numbered_spec n p Hr Hz) as (E1 & E2 & E3 & _).
  split; [|split].
  - intros ssrc. rewrite stream_snoc, E1. case_decide as Hd.
    + rewrite map_app, length_app, H1. cbn [map length]. rewrite Nat.add_1_r, consecutive_S, E2, Hn. by rewrite Hd.
    + rewrite app_nil_r. apply H1.
  - apply Forall_app. split; [done|]. by constructor.
  - intros ssrc. rewrite stream_snoc, E1. destruct (decide (Ssrc p = ssrc)) as [<-|Hd].
    + rewrite lookup_insert_eq, length_app. cbn [default length]. rewrite Hn. unfold u16.
      rewrite Nat2Z.inj_add. cbn [Z.of_nat]. change (Z.of_nat 1) with 1.
      rewrite Zplus_mod_idemp_l. apply (f_equal (fun x => x `mod` 65536)). lia.
    + rewrite lookup_insert_ne, app_nil_r by done. apply H3.
Qed.

(** ** The sender's side of the controller's contract *)

Section laws.
Context {W : Type} {transport : PacedTransport W} {tlaws : TransportLaws W}.

Definition outlet_ok (o : Outlet W) : Prop :=
  transport_ok (world o) /\ numbers_ok (on_wire (world o)) (ssrc_seq_ o) /\ 0 <= transport_seq_ o.

Lemma label_padding_spec t n ps :
  Forall small_padding ps ->
  Forall small_packet (label_padding t n ps) /\ zlen (label_padding t n ps) = zlen ps /\
  map transport_sequence_number_ (label_padding t n ps) = map Some (seqZ n (zlen ps)).
Proof.
  intros Hps. revert n. induction Hps as [|p ps Hp _ IH]; intros n; cbn [label_padding map].
  - done.
  - destruct (IH (n + 1)) as (H1 & H2 & H3). rewrite !zlen_cons, H2. split; [|split; [done|]].
    + constructor; [|done]. destruct Hp as (A1 & A2 & A3 & A4 & A5). split; [by eexists|]. by split_and!.
    + pose proof (zlen_nonneg ps). rewrite H3. rewrite (seqZ_cons n) by lia. cbn [map]. do 2 f_equal.
      f_equal; lia.
Qed.

Lemma outlet_clock_ok (o : Outlet W) :
  outlet_ok o -> 0 <= (read_clock o).1 <= kMaxTime /\ outlet_ok (read_clock o).2.
Proof.
  intros (Hw & Hn & Hs). unfold read_clock, outlet_clock.
  destruct (clock_law (world o) Hw) as [Ht Hw']. pose proof (clock_wire (world o)) as He.
  destruct (transport_clock (world o)) as [t w]. cbn [fst snd] in *. split; [done|].
  split; [done|]. cbn [world set_world]. by rewrite He.
Qed.

(** Reading the flag changes the flag and the world only. *)
Lemma load_spec (o : Outlet W) :
  exists b f w, load_shutdown o = (b, mkOutlet f (transport_seq_ o) (ssrc_seq_ o) w) /\
    on_wire w = on_wire (world o) /\ (transport_ok (world o) -> transport_ok w).
Proof.
  unfold load_shutdown. pose proof (stop_law (world o)) as Hl. pose proof (stop_wire (world o)) as Hw.
  destruct (shutdown_comes (world o)) as [[] w]; cbn in *; by eexists _, _, w.
Qed.

Lemma load_ok (o : Outlet W) : outlet_ok o -> outlet_ok (load_shutdown o).2.
Proof.
  intros (Hw & Hn & Hs). destruct (load_spec o) as (b & f & w & -> & E & H). cbn [snd]. split; [by apply H|]. cbn. by rewrite E.
Qed.

Lemma outlet_send_ok p i (o : Outlet W) : small_packet p -> outlet_ok o -> outlet_ok (OutletSendPacket p i o).
Proof.
  intros Hp Ho. apply load_ok in Ho. unfold OutletSendPacket. destruct (load_shutdown o) as [[] o1]; [done|].
  destruct Ho as (Hw & Hn & Hs). cbn [snd] in *. cbv zeta.
  split; [by apply sent_law|]. split; [|done]. cbn [world set_world set_ssrc_seq ssrc_seq_].
  rewrite sent_wire. apply numbers_ok_send; [done|]. by destruct Hp as (_ & _ & _ & _ & _ & ?).
Qed.

Lemma outlet_padding_ok n (o : Outlet W) :
  outlet_ok o -> Forall small_packet (OutletGeneratePadding n o).1 /\
    zlen (OutletGeneratePadding n o).1 <= kMaxPadding /\ outlet_ok (OutletGeneratePadding n o).2.
Proof.
  intros Ho. apply load_ok in Ho. unfold OutletGeneratePadding. destruct (load_shutdown o) as [[] o1]; cbn [snd] in Ho.
  { split; [constructor|]. split; [by vm_compute|done]. }
  destruct Ho as (Hw & Hn & Hs). destruct (clock_law (world o1) Hw) as [Ht Hw1]. pose proof (clock_wire (world o1)) as He1.
  destruct (transport_clock (world o1)) as [t w1]. cbn [fst snd] in *.
  destruct (padding_law n t w1 Hw1) as (Hp & Hz & Hw2). pose proof (padding_wire n t w1) as He2.
  destruct (generate_padding n t w1) as [ps w2]. cbn [fst snd] in *.
  destruct (label_padding_spec t (transport_seq_ o1) ps Hp) as (H1 & H2 & _). rewrite H2.
  split; [done|]. split; [done|]. pose proof (zlen_nonneg ps).
  split; [done|]. cbn [world set_world set_transport_seq transport_seq_ ssrc_seq_]. rewrite He2, He1. split; [done|lia].
Qed.

#[export] Instance outlet_laws : SenderLaws (Outlet W) := {|
  world_ok := outlet_ok;
  clock_ok := outlet_clock_ok;
  SendPacket_ok := outlet_send_ok;
  FetchFec_ok o H := conj eq_refl H;
  GeneratePadding_ok := outlet_padding_ok;
  OnBatchComplete_ok o H := H;
|}.

(** The labels are the transport sequence numbers; the numbers given out so far
    are those below the counter. *)
Definition sent_labels (o : Outlet W) : list (option Z) := map transport_sequence_number_ (on_wire (world o)).
Definition given_labels (o : Outlet W) : list (option Z) := map Some (seqZ 0 (transport_seq_ o)).

Lemma given_more (o : Outlet W) n :
  0 <= transport_seq_ o -> 0 <= n ->
  given_labels (set_transport_seq (transport_seq_ o + n) o) = given_labels o ++ map Some (seqZ (transport_seq_ o) n).
Proof.
  intros H Hn. unfold given_labels. cbn [transport_seq_ set_transport_seq].
  rewrite seqZ_app, map_app by lia. by rewrite Z.add_0_l.
Qed.

Lemma numbered_transport n p : transport_sequence_number_ (numbered n p) = transport_sequence_number_ p.
Proof. unfold numbered. by case_match. Qed.

Lemma send_labels p i (o : Outlet W) :
  sent_labels (OutletSendPacket p i o) ⊆+ transport_sequence_number_ p :: sent_labels o /\
  given_labels (OutletSendPacket p i o) = given_labels o.
Proof.
  unfold OutletSendPacket. destruct (load_spec o) as (b & f & w & -> & E & _). unfold sent_labels. destruct b.
  { split; [|done]. cbn [world]. rewrite E. by apply submseteq_cons. }
  cbv zeta. split; [|done]. cbn [world set_world set_ssrc_seq ssrc_seq_].
  rewrite sent_wire, map_app, E. cbn [map]. rewrite numbered_transport.
  apply Permutation_submseteq. symmetry. apply Permutation_cons_append.
Qed.

Lemma padding_labels n (o : Outlet W) :
  outlet_ok o -> sent_labels (OutletGeneratePadding n o).2 = sent_labels o /\
  given_labels (OutletGeneratePadding n o).2 =
    given_labels o ++ map transport_sequence_number_ (OutletGeneratePadding n o).1.
Proof.
  intros (Hw & _ & Hs). unfold OutletGeneratePadding. destruct (load_spec o) as (b & f & w0 & -> & E & H). specialize (H Hw).
  destruct b.
  { unfold sent_labels. cbn. rewrite E. split; [done|]. by rewrite app_nil_r. }
  cbn [world set_world transport_seq_ set_transport_seq]. destruct (clock_law w0 H) as [_ Hw1]. pose proof (clock_wire w0) as He1.
  destruct (transport_clock w0) as [t w1]. cbn [fst snd] in *.
  destruct (padding_law n t w1 Hw1) as (Hp & _). pose proof (padding_wire n t w1) as He2.
  destruct (generate_padding n t w1) as [ps w2]. cbn [fst snd] in *.
  destruct (label_padding_spec t (transport_seq_ o) ps Hp) as (_ & _ & ->).
  unfold sent_labels. cbn [world set_transport_seq set_world]. rewrite He2, He1, E. split; [done|].
  exact (given_more (set_world w2 o) (zlen ps) Hs (zlen_nonneg ps)).
Qed.

Lemma clock_labels (o : Outlet W) :
  sent_labels (read_clock o).2 = sent_labels o /\ given_labels (read_clock o).2 = given_labels o.
Proof.
  unfold read_clock, outlet_clock. pose proof (clock_wire (world o)) as He.
  destruct (transport_clock (world o)) as [t w]. cbn [fst snd] in *. split; [|done].
  unfold sent_labels. cbn [world set_world]. by rewrite He.
Qed.

#[export] Instance outlet_courier : Courier (Outlet W) (option Z) := {|
  label := transport_sequence_number_;
  handed := sent_labels;
  made := given_labels;
  label_time t p := eq_refl;
  handed_send := send_labels;
  handed_padding := padding_labels;
  handed_clock := clock_labels;
  handed_fec o := conj eq_refl eq_refl;
  handed_batch o := conj eq_refl eq_refl;
|}.
End laws.

(** ** The average size *)

(** Undefined, or at most 2 kB. *)
Definition filter_ok (f : spec_float) : Prop := f = kValueUndefined \/ below (-149) 1 11 f.

Lemma sample_below z : 0 <= z <= 2048 -> below (-149) 1 11 (f32_of_Z z).
Proof. intros Hz. apply (normalize_below 24 128 ltac:(lia) (-149)); unfold emin; try lia. Qed.

(** A weighted mean of two sizes is no larger than the larger one, in spite of
    the rounding. *)
Lemma ApplyFilter_ok x f : below (-149) 1 11 x -> filter_ok f -> below (-149) 1 11 (ApplyFilter x f).
Proof.
  intros Hx Hf. unfold ApplyFilter. destruct (SFeqb f kValueUndefined) eqn:E; [done|].
  destruct Hf as [->|Hf]; [done|].
  change kAlpha with (S754_finite false 15938355 (-24)).
  change (SFsub 24 128 (f32_of_Z 1) (S754_finite false 15938355 (-24))) with (S754_finite false 13421776 (-28)).
  pose proof (mul_below 24 128 ltac:(lia) 1 11 15938355 (-24) f ltac:(lia) ltac:(by vm_compute) ltac:(by vm_compute)
    ltac:(lia) ltac:(lia) ltac:(lia) Hf) as H1.
  pose proof (mul_below 24 128 ltac:(lia) 1 11 13421776 (-28) x ltac:(lia) ltac:(by vm_compute) ltac:(by vm_compute)
    ltac:(lia) ltac:(lia) ltac:(lia) Hx) as H2.
  eapply (add_below 24 128 ltac:(lia) _ _ _ _ 1 11); [..|exact H1|exact H2|]; by vm_compute.
Qed.

Lemma filter_converts f : filter_ok f -> SFeqb f kValueUndefined = false ->
  exists v, f32_to_s64 f = Some v /\ 0 <= v.
Proof.
  intros [->|Hf] E; [done|]. apply (f32_to_s64_within (-149) 11 f); [|lia|lia].
  by apply (below_within 1 11).
Qed.

(** ** Operations *)

Section sender.
Context {W : Type} {transport : PacedTransport W} {tlaws : TransportLaws W}.
Implicit Types s : (PacedSender * Outlet W)%type.

Definition inner s : PacingController * Outlet W := (pacing_controller_ s.1, s.2).

(** [pend] are packets in hand. *)
Definition SF (n : Z) (pend : list RtpPacketToSend) s : Prop :=
  F ([] : list (option Z)) n 0 pend (inner s) /\ filter_ok (packet_size_ s.1).

Lemma wp_controller {B} (m : P B) s (Q : B -> PacedSender * Outlet W -> Prop) :
  wp m (inner s) (fun a r => Q a (set_controller r.1 s.1, r.2)) -> wp (controller m) s Q.
Proof.
  intros (a & [c o] & E & HQ). exists a, (set_controller c s.1, o). split; [|exact HQ].
  unfold controller. unfold inner in E. by rewrite E.
Qed.

Lemma wp_controller_F {B} (m : P B) n n' pend pend' s :
  SF n pend s -> wp m (inner s) (fun _ r => F [] n' 0 pend' r) -> wp (controller m) s (fun _ s' => SF n' pend' s').
Proof.
  intros [_ Hf] Hm. apply wp_controller. eapply wp_mono; [exact Hm|]. intros a [c o] H. by split.
Qed.

Lemma wp_own {B} (f : PacedSender -> B) s (Q : B -> PacedSender * Outlet W -> Prop) : Q (f s.1) s -> wp (own f) s Q.
Proof. exact (wp_gets (fun s => f s.1) s Q). Qed.

Lemma wp_change f s (Q : unit -> PacedSender * Outlet W -> Prop) : Q tt (f s.1, s.2) -> wp (change f) s Q.
Proof. exact (wp_modify (fun s => (f s.1, s.2)) s Q). Qed.

Lemma wp_reach {B} (f : Outlet W -> B * Outlet W) s (Q : B -> PacedSender * Outlet W -> Prop) :
  Q (f s.2).1 (s.1, (f s.2).2) -> wp (reach f) s Q.
Proof. intros HQ. exists (f s.2).1, (s.1, (f s.2).2). split; [|done]. unfold reach. by destruct (f s.2). Qed.

(** A change of the sender's own members. *)
Lemma SF_change f n pend s :
  SF n pend s -> pacing_controller_ (f s.1) = pacing_controller_ s.1 -> packet_size_ (f s.1) = packet_size_ s.1 ->
  SF n pend (f s.1, s.2).
Proof. unfold SF, inner. cbn [fst snd]. by intros H -> ->. Qed.

(** A change of the world that is not seen on the wire. *)
Lemma SF_world o n pend s :
  SF n pend s -> outlet_ok o -> sent_labels o = sent_labels s.2 -> given_labels o = given_labels s.2 ->
  SF n pend (s.1, o).
Proof.
  intros [[(H1 & H2 & H3 & _) HJ] Hf] Ho E1 E2. split; [|done]. split; [by split_and!|].
  unfold J in *. unfold inner in *. cbn [fst snd] in *.
  change (handed o) with (sent_labels o). change (made o) with (given_labels o). by rewrite E1, E2.
Qed.

Lemma SF_clock n pend s : SF n pend s -> SF n pend (s.1, (read_clock s.2).2).
Proof.
  intros H. destruct (clock_labels s.2) as [E1 E2]. apply SF_world; [done| |done|done].
  apply outlet_clock_ok. by destruct H as [[(_ & _ & _ & Hw) _] _].
Qed.

Lemma SF_load n pend s : SF n pend s -> SF n pend (s.1, (load_shutdown s.2).2).
Proof.
  intros H. apply SF_world; [done| |..].
  - apply load_ok. by destruct H as [[(_ & _ & _ & Hw) _] _].
  - destruct (load_spec s.2) as (b & f & w & -> & E & _). unfold sent_labels. cbn. by rewrite E.
  - by destruct (load_spec s.2) as (b & f & w & -> & E & _).
Qed.

Lemma flow_NextSendTime n pend s :
  SF n pend s -> wp (controller NextSendTime) s (fun _ s' => SF n pend s').
Proof.
  intros H. eapply wp_controller_F; [exact H|]. apply (F_quiet' [] _ n 0 n 0 pend (inner s) (proj1 H) quiet_next).
  eapply wp_mono; [exact (NextSendTime_ok n 0 (inner s) (proj1 (proj1 H)))|].
  intros next r (now & Hi & Hnow & _). eapply Inv_weaken; [exact Hi|lia|lia].
Qed.

Lemma MaybeProcessPackets_ok t n pend s :
  SF n pend s -> wp (MaybeProcessPackets t) s (fun _ s' => SF n pend s').
Proof.
  intros H. unfold MaybeProcessPackets. apply wp_bind, wp_own, wp_bind, wp_reach. cbn [id].
  apply SF_load in H. set (o := (load_shutdown s.2).2) in *. destruct (_ || _ || _); [by apply wp_ret|].
  destruct (IsFinite t && _); [by apply wp_ret|]. apply wp_bind, wp_change.
  assert (SF n pend (take_timer t s.1, o)) as H1
    by (apply (SF_change (take_timer t) n pend (s.1, o)); [done|unfold take_timer; by case_match..]).
  apply wp_bind. wp_call (flow_NextSendTime n pend _ H1). intros next s2 H2.
  apply wp_bind, wp_reach, wp_change. apply (SF_change (set_point _)); [|done|done]. by apply SF_clock.
Qed.

Lemma UpdateStats_ok n pend s : SF n pend s -> wp UpdateStats s (fun _ s' => SF n pend s').
Proof.
  intros H. unfold UpdateStats. apply wp_bind, wp_own, wp_bind.
  pose proof (pk_rates _ (proj1 (proj1 (proj1 H)))) as Hr. unfold ExpectedQueueTime. cbn [inner fst] in Hr.
  destruct (Z.eqb_spec (adjusted_media_rate_ (pacing_controller_ s.1)) 0); [lia|].
  eapply wp_lift; [done|]. by apply wp_change.
Qed.

Lemma hold_back_ok n pend s : SF n pend s ->
  exists h, hold_back_window s.1 = Some h /\ 0 <= h <= max_hold_back_window_.
Proof.
  intros [[(Hok & _) _] Hf]. unfold hold_back_window. pose proof (pk_rates _ Hok) as Hr. cbn [inner fst] in Hr.
  destruct (is_probing _); [by exists 0|].
  destruct (negb _ && negb (SFeqb _ _)) eqn:E; [|by exists max_hold_back_window_].
  apply andb_prop in E as [_ E%negb_true_iff]. destruct (filter_converts _ Hf E) as (v & -> & Hv).
  cbn [mbind option_bind]. rewrite drain_time_ok by lia. cbn [mbind option_bind].
  eexists. split; [done|]. unfold max_hold_back_window_, max_hold_back_window_in_packets_, unit_mul, size_over_rate, Microbits.
  assert (0 <= Z.quot (v * 8000000) (adjusted_media_rate_ (pacing_controller_ s.1))) by (apply Z.quot_pos; lia).
  lia.
Qed.

Lemma schedule_next_ok now next n pend s :
  SF n pend s -> wp (schedule_next now next) s (fun _ s' => SF n pend s').
Proof.
  intros H. unfold schedule_next. apply wp_bind. wp_call (UpdateStats_ok n pend s H). intros [] s1 H1.
  apply wp_bind, wp_own, wp_bind. cbn [id]. destruct (hold_back_ok n pend s1 H1) as (h & Hh & _).
  eapply wp_lift; [exact Hh|]. cbv zeta. case_match; [|by apply wp_ret].
  apply wp_bind, wp_reach. cbn [fst snd].
  match goal with |- context [post_delayed ?t ?d (world s1.2)] =>
    pose proof (post_law t d (world s1.2)) as Hl; pose proof (post_wire t d (world s1.2)) as Hw;
    destruct (post_delayed t d (world s1.2)) as [posted w] end. cbn [fst snd] in *.
  assert (SF n pend (s1.1, set_world w s1.2)) as H2.
  { destruct H1 as [[(Hi1 & Hi2 & Hi3 & (Ht & Hn & Hs)) HJ] Hf].
    apply SF_world; [by split; [split|]|split; [by apply Hl|]; cbn; by rewrite Hw| |done].
    unfold sent_labels. cbn. by rewrite Hw. }
  destruct posted; [|by apply wp_ret]. apply wp_change. by apply (SF_change (set_next_process _)).
Qed.

Lemma sender_round_ok n pend s :
  SF n pend s -> kMaxPadding <= n <= kMaxPacerQueue -> wp sender_round s (fun _ s' => SF n pend s').
Proof.
  intros H Hn. unfold sender_round. apply wp_bind, wp_own. cbn [id].
  destruct (point s.1) as [|now next|now next]; [by apply wp_ret| |].
  - apply wp_bind, wp_reach. apply SF_load in H. case_match.
    + apply wp_bind. eapply wp_mono; [eapply wp_controller_F; [exact H|apply ProcessPackets_flow; [apply H|done]]|].
      intros [] s1 H1. apply wp_bind. wp_call (flow_NextSendTime n pend _ H1). intros next' s2 H2.
      apply wp_change. by apply (SF_change (set_point _)).
    + apply wp_change. by apply (SF_change (set_point _) n pend (s.1, _)).
  - apply wp_bind, wp_reach, wp_bind. apply SF_load in H. eapply wp_mono with (P := fun _ s' => SF n pend s').
    + case_match; [by apply wp_ret|by apply schedule_next_ok].
    + intros [] s1 H1. apply wp_change. by apply (SF_change (set_point _)).
Qed.

(** A packet takes the next transport sequence number, and waits. *)
Lemma EnqueuePacketOnQueue_ok p n s :
  SF n [] s -> n < kMaxPacerQueue -> small_packet p ->
  wp (EnqueuePacketOnQueue p) s (fun _ s' => SF (n + 1) [] s').
Proof.
  intros H Hn Hp. unfold EnqueuePacketOnQueue. apply wp_bind, wp_reach. cbn [fst snd].
  set (p' := set_transport_sequence_number (transport_seq_ s.2) p). cbv zeta.
  assert (small_packet p') as Hp' by exact Hp.
  apply wp_bind, wp_change. cbn [fst snd].
  set (sz := payload_size_ _ + padding_size_ _ + _).
  assert (0 <= sz <= 2048) as Hsz.
  { destruct Hp as (_ & A1 & A2 & A3 & A4 & _). unfold kMaxPacketBytes in A4. subst sz.
    cbn [p' set_transport_sequence_number rtp_packet]. case_match; lia. }
  destruct H as [[(Hi1 & Hi2 & Hi3 & (Ht & Hnum & Hs)) HJ] Hf]. unfold inner in *. cbn [fst snd] in *.
  eapply wp_controller_F with (n := n) (pend := [p']).
  - split; [split|]; [|shelve|right; by apply ApplyFilter_ok; [apply sample_below|]].
    split_and!; [exact Hi1|exact Hi2|exact Hi3|]. split; [exact Ht|]. split; [exact Hnum|cbn; lia].
  - apply enqueue_flow; [|done|done]. split.
    + split_and!; [exact Hi1|exact Hi2|exact Hi3|]. split; [exact Ht|]. split; [exact Hnum|cbn; lia].
    + shelve.
  Unshelve.
  all: unfold J, inner in *; cbn [fst snd map app set_filter pacing_controller_] in *;
    change (made ?o) with (given_labels o) in *; rewrite given_more by lia;
    change (seqZ (transport_seq_ s.2) 1) with [transport_seq_ s.2]; cbn [map];
    (etransitivity; [|apply Permutation_submseteq, Permutation_cons_append]); by apply submseteq_skip.
Qed.

(** ** Runs *)

(** What happens to a sender.  Its operations run one after the other on the
    task queue, the loop goes round, and another thread may shut it down. *)
Inductive SenderCall :=
  | CRound
  | CShutdown
  | CTimer (scheduled_process_time : Z)
  | CEnqueueRtpPackets (packets : list RtpPacketToSend) (captured_timestamp_us : Z) (name : String.string)
  | CEnqueuePackets (packets : list RtpPacketToSend)
  | CEnqueuePacket (packet : RtpPacketToSend)
  | CReady (ready : bool)
  | CStart
  | CProbes (configs : list ProbeClusterConfig)
  | CPause
  | CResume
  | CCongested (congested : bool)
  | CRates (pacing_rate padding_rate : Z)
  | CAllowProbe (allow : bool)
  | CRemove (ssrc : Z)
  | CAccountAudio (account : bool)
  | CIncludeOverhead
  | COverhead (overhead_per_packet : Z)
  | CQueueLimit (limit : Z)
  | CBurst (burst_interval : Z).

Definition operation (c : SenderCall) : T (W:=W) unit :=
  match c with
  | CRound | CShutdown => mret tt
  | CTimer t => MaybeProcessPackets t
  | CEnqueueRtpPackets ps captured name => EnqueueRtpPackets ps captured name
  | CEnqueuePackets ps => EnqueuePacketsOnQueue ps
  | CEnqueuePacket p => SenderEnqueuePacket p
  | CReady b => SetTransportReady b
  | CStart => EnsureStarted
  | CProbes configs => SenderCreateProbeClusters configs
  | CPause => SenderPause
  | CResume => SenderResume
  | CCongested b => SenderSetCongested b
  | CRates pacing padding => SenderSetPacingRates pacing padding
  | CAllowProbe b => SenderSetAllowProbe b
  | CRemove ssrc => SenderRemovePackets ssrc
  | CAccountAudio b => SenderAccountForAudio b
  | CIncludeOverhead => SenderIncludeOverhead
  | COverhead n => SenderTransportOverhead n
  | CQueueLimit d => SenderQueueTimeLimit d
  | CBurst d => SenderBurstInterval d
  end.

(** An operation that comes while the loop runs waits for its end: there is no
    step then. *)
Definition sender_call (c : SenderCall) : T (W:=W) unit :=
  match c with
  | CRound => sender_round
  | CShutdown => reach (fun o => (tt, Shutdown o))
  | _ => p ← own point; match p with Idle => operation c | _ => mret tt end
  end.

Definition call_ok (c : SenderCall) : Prop :=
  match c with
  | CEnqueueRtpPackets ps captured name => Forall small_packet (map (label_packet captured name) ps)
  | CEnqueuePackets ps => Forall small_packet ps
  | CEnqueuePacket p => small_packet p
  | CProbes configs => Forall probe_config_ok configs
  | CRates pacing padding => 0 < pacing <= kMaxRate /\ 0 <= padding <= kMaxRate
  | COverhead n => 0 <= n <= kMaxOverhead
  | _ => True
  end.

Definition packets_of (c : SenderCall) : Z :=
  match c with CEnqueueRtpPackets ps _ _ | CEnqueuePackets ps => zlen ps | CEnqueuePacket _ => 1 | _ => 0 end.

Lemma SF_weaken n n' pend s : SF n pend s -> n <= n' -> SF n' pend s.
Proof. intros [[H HJ] Hf] Hn. split; [split|]; [|done..]. eapply Inv_weaken; [exact H|lia|lia]. Qed.

Lemma controller_event e n s :
  SF n [] s -> kMaxPadding <= n <= kMaxPacerQueue -> queues e = [] -> enqueues e = 0 -> pacer_event_ok e ->
  wp (controller (pacer_step e)) s (fun _ s' => SF n [] s').
Proof.
  intros H Hn Hq He Hok. eapply wp_controller_F; [exact H|].
  pose proof (pacer_step_flow [] e n 0 [] (inner s)) as Hs. rewrite Hq, He, Z.add_0_r in Hs.
  apply Hs; [apply H|lia|lia|done].
Qed.

Lemma enqueue_list_ok ps n s :
  SF n [] s -> n + zlen ps <= kMaxPacerQueue -> Forall small_packet ps ->
  wp (for_each EnqueuePacketOnQueue ps) s (fun _ s' => SF (n + zlen ps) [] s').
Proof.
  revert n s. induction ps as [|p ps IH]; intros n s H Hn Hps; cbn [for_each].
  - apply wp_ret. by rewrite Z.add_0_r.
  - rewrite zlen_cons in *. apply Forall_cons_1 in Hps as [Hp Hps]. pose proof (zlen_nonneg ps).
    apply wp_bind. wp_call (EnqueuePacketOnQueue_ok p n s H ltac:(lia) Hp). intros [] s1 H1.
    eapply wp_mono; [apply (IH (n + 1)); [done|lia|done]|]. intros [] s2 H2. eapply SF_weaken; [exact H2|lia].
Qed.

Lemma then_process (m : T (W:=W) unit) n s t :
  wp m s (fun _ s' => SF n [] s') -> wp (m ;; MaybeProcessPackets t) s (fun _ s' => SF n [] s').
Proof. intros H. apply wp_bind. eapply wp_mono; [exact H|]. intros [] s1 H1. by apply MaybeProcessPackets_ok. Qed.

Lemma operation_ok c n s :
  SF n [] s -> kMaxPadding <= n -> n + packets_of c <= kMaxPacerQueue -> call_ok c ->
  wp (operation c) s (fun _ s' => SF (n + packets_of c) [] s').
Proof.
  intros H Hn Hmax Hc.
  assert (forall e, packets_of c = 0 -> queues e = [] -> enqueues e = 0 -> pacer_event_ok e ->
    wp (controller (pacer_step e)) s (fun _ s' => SF n [] s')) as Hev
    by (intros e Hz Hq He Hok; apply controller_event; try done; lia).
  destruct c; cbn [operation packets_of call_ok] in *; rewrite ?Z.add_0_r in *.
  - by apply wp_ret.
  - by apply wp_ret.
  - by apply MaybeProcessPackets_ok.
  - apply then_process. replace (zlen packets) with (zlen (map (label_packet captured_timestamp_us name) packets)) in *
      by (unfold zlen; by rewrite length_map). by apply enqueue_list_ok.
  - apply then_process. by apply enqueue_list_ok.
  - apply then_process. apply EnqueuePacketOnQueue_ok; [done|lia|done].
  - unfold SetTransportReady. apply wp_bind, wp_change.
    pose proof (SF_change (set_ready ready) n [] s H eq_refl eq_refl) as H1.
    destruct ready.
    + by apply (controller_event EResume n _ H1).
    + apply wp_bind. wp_call (controller_event EAbortProbing n _ H1); try done. intros [] s2 H2.
      apply wp_bind. wp_call (controller_event EPause n s2 H2); try done. intros [] s3 H3.
      apply wp_change. by apply (SF_change (set_next_process MinusInfinity)).
  - unfold EnsureStarted. apply then_process. apply wp_change. by apply (SF_change (set_started true)).
  - unfold SenderCreateProbeClusters. apply wp_bind, wp_own. case_match; [by apply wp_ret|].
    apply then_process. by apply (Hev (EProbes configs)).
  - by apply (Hev EPause).
  - apply then_process. by apply (Hev EResume).
  - apply then_process. by apply (Hev (ECongested congested)).
  - apply then_process. by apply (Hev (ERates pacing_rate padding_rate)).
  - apply then_process. by apply (Hev (EAllowProbes allow)).
  - apply then_process. by apply (Hev (ERemove ssrc)).
  - apply then_process. by apply (Hev (EAccountAudio account)).
  - unfold SenderIncludeOverhead. apply wp_bind, wp_change.
    pose proof (SF_change (set_ps_overhead true) n [] s H eq_refl eq_refl) as H1.
    apply then_process. by apply (controller_event EIncludeOverhead n _ H1).
  - apply then_process. by apply (Hev (EOverhead overhead_per_packet)).
  - apply then_process. by apply (Hev (EQueueLimit limit)).
  - by apply (Hev (EBurst burst_interval)).
Qed.

Lemma sender_call_ok c n s :
  SF n [] s -> kMaxPadding <= n -> n + packets_of c <= kMaxPacerQueue -> call_ok c ->
  wp (sender_call c) s (fun _ s' => SF (n + packets_of c) [] s').
Proof.
  intros H Hn Hmax Hc.
  assert (0 <= packets_of c) as Hp by (destruct c; cbn; try lia; apply zlen_nonneg).
  pose proof (operation_ok c n s H Hn Hmax Hc) as Hop.
  destruct c; cbn [sender_call]; try (apply wp_bind, wp_own; case_match; [exact Hop|apply wp_ret; eapply SF_weaken; [exact H|lia]..]).
  - cbn [packets_of] in *. rewrite Z.add_0_r in *. by apply sender_round_ok.
  - cbn [packets_of]. rewrite Z.add_0_r. apply wp_reach. apply SF_world; [done| |done|done].
    by destruct H as [[(_ & _ & _ & Hw) _] _].
Qed.

Lemma sender_run_ok cs n s :
  SF n [] s -> kMaxPadding <= n -> n + zsum packets_of cs <= kMaxPacerQueue -> Forall call_ok cs ->
  wp (for_each sender_call cs) s (fun _ s' => SF kMaxPacerQueue [] s').
Proof.
  revert n s. induction cs as [|c cs IH]; intros n s H Hn Hmax Hcs; cbn [for_each zsum] in *.
  - apply wp_ret. eapply SF_weaken; [exact H|lia].
  - apply Forall_cons_1 in Hcs as [Hc Hcs]. apply wp_bind.
    assert (forall c, 0 <= packets_of c) as Hp by (intros []; cbn; try lia; apply zlen_nonneg).
    assert (0 <= zsum packets_of cs) as Hz by (clear -Hp; induction cs as [|c cs IH]; cbn; [lia|pose proof (Hp c); lia]).
    pose proof (Hp c). wp_call (sender_call_ok c n s H Hn ltac:(lia) Hc). intros [] s1 H1.
    apply (IH (n + packets_of c)); [done|lia|lia|done].
Qed.

(** The rates are set before anything else. *)
Lemma first_call_ok t0 t1 (w : W) pacing padding :
  transport_ok w -> on_wire w = [] -> 0 <= t0 <= t1 -> t1 <= (transport_clock w).1 ->
  0 < pacing <= kMaxRate -> 0 <= padding <= kMaxRate ->
  wp (sender_call (CRates pacing padding)) (new_sender t0 t1, new_outlet w) (fun _ s' => SF kMaxPadding [] s').
Proof.
  intros Hw Hwire Ht Ht1 Hpac Hpad. cbn [sender_call]. apply wp_bind, wp_own. cbn [point new_sender fst operation].
  unfold SenderSetPacingRates. apply then_process. apply wp_controller.
  assert (outlet_ok (new_outlet w)) as Ho.
  { split; [done|]. cbn. rewrite Hwire. split; [|done]. split; [by intros ssrc|]. split; [by constructor|]. by intros ssrc. }
  assert ((read_clock (new_outlet w)).1 = (transport_clock w).1) as Er
    by (unfold read_clock, outlet_clock; cbn; by destruct (transport_clock w)).
  set (c := LowLatencyPacingConfiguration).
  eapply wp_mono; [apply (wp_kept (SetPacingRates pacing padding) (new_pacer c t0 t1, new_outlet w)
    (fun _ r => Inv kMaxPadding t1 r)); [apply quiet_rates|]|].
  - unfold wp at 1. rewrite first_rates by (rewrite Er; lia).
    change (wp (SetPacingRates pacing padding) (new_pacer c t1 t1, new_outlet w) (fun _ r => Inv kMaxPadding t1 r)).
    apply SetPacingRates_ok; try done. apply new_pacer_pre.
    destruct (outlet_clock_ok _ Ho) as [Hr _]. rewrite Er in Hr. lia.
  - intros [] [c' o'] [H1 Hk]. split; [|by left]. split; [eapply Inv_weaken; [exact H1|lia|lia]|].
    eapply J_kept; [|exact Hk]. unfold J. cbn [fst snd]. rewrite new_pacer_holds.
    change (handed (new_outlet w)) with (sent_labels (new_outlet w)). unfold sent_labels. cbn. rewrite Hwire. done.
Qed.
End sender.

(** ** Property *)

(** C32. The packets on the wire are numbered.  The bounds: the first call sets
    the rates, the pacing rate is positive and rates are at most 4 Tbps in every
    such call, packets are typed, have a header and at most 2000 bytes, at most
    199000 of them are queued over the run, a transport adds at most 500 bytes to a
    packet and makes at most 1000 padding packets of at most 2000 bytes at
    once, a probe cluster asks for a positive rate, at most 1000 probes, 1 GB,
    and 900 kB between two probes, and the clock shows at most 50 days.
    Then, in whatever order operations, timers and rounds of the loop come, and
    at whatever moment another thread shuts the sender down, also between two
    packets of a round, all of them succeed; the packets of each
    stream, media, retransmissions and padding alike, carry the sequence
    numbers 1, 2, 3, ... (at 16 bits) in the order in which they left, in their
    headers too; and each packet has a transport sequence number that was given
    out and that no other packet on the wire has. *)
Theorem paced_sender_numbers {W} {transport : PacedTransport W} {tlaws : TransportLaws W}
    (t0 t1 : Z) (w : W) (pacing padding : Z) (calls : list SenderCall) :
  transport_ok w -> on_wire w = [] -> 0 <= t0 <= t1 -> t1 <= (transport_clock w).1 ->
  Forall call_ok (CRates pacing padding :: calls) -> zsum packets_of calls <= kMaxPacerQueue - kMaxPadding ->
  exists s o, for_each sender_call (CRates pacing padding :: calls) (new_sender t0 t1, new_outlet w) = Some (tt, (s, o)) /\
    let wire := on_wire (world o) in
    numbered_streams wire /\ Forall carries_number wire /\
    NoDup (map transport_sequence_number_ wire) /\
    Forall (fun p => exists n, transport_sequence_number_ p = Some n /\ 0 <= n < transport_seq_ o) wire.
Proof.
  intros Hw Hwire Ht Ht1 Hcs Hn. apply Forall_cons_1 in Hcs as [[Hpac Hpad] Hcs]. change (0 < pacing <= kMaxRate) in Hpac.
  assert (wp (for_each sender_call (CRates pacing padding :: calls)) (new_sender t0 t1, new_outlet w)
    (fun _ s' => SF kMaxPacerQueue [] s')) as ([] & [s o] & E & [[(_ & _ & _ & (_ & (Hnum & Hcar & _) & Hs)) HJ] _]).
  { cbn [for_each]. apply wp_bind. wp_call (first_call_ok t0 t1 w pacing padding); try done. intros [] s1 H1.
    apply (sender_run_ok calls kMaxPadding); [done|done|unfold kMaxPacerQueue, kMaxPadding in *; lia|done]. }
  exists s, o. split; [exact E|]. cbv zeta. split; [done|]. split; [done|].
  assert (map transport_sequence_number_ (on_wire (world o)) ⊆+ given_labels o) as Hsub.
  { etransitivity; [|exact HJ]. unfold inner. cbn [map app fst snd]. by apply submseteq_inserts_l. }
  split.
  - apply submseteq_Permutation in Hsub as [k Hk].
    assert (base.NoDup (given_labels o)) as Hnd by (apply (NoDup_fmap_2 Some), NoDup_seqZ).
    rewrite Hk in Hnd. by apply list.NoDup_app in Hnd as [Hnd _].
  - apply list.Forall_forall. intros p Hp.
    assert (transport_sequence_number_ p ∈ given_labels o) as Hin
      by (eapply elem_of_submseteq; [|exact Hsub]; by apply (list_elem_of_fmap_2 transport_sequence_number_)).
    unfold given_labels in Hin. apply list_elem_of_fmap in Hin as (n & -> & Hin). apply elem_of_seqZ in Hin.
    exists n. split; [done|lia].
Qed.

(** A transport that writes down what it is given; its clock advances by a
    millisecond at each reading, and another thread shuts the sender down after
    a number of packets. *)
Record WireWorld := mkWire { wire_time : Z; wire : list RtpPacketToSend; alarms : list Z; stop_after : nat }.

Definition sample_bytes : RtpPacket := set_buffer_ (replicate 112 0) (set_payload_size_ 100 (set_ssrc_ 7 new_packet)).

#[export] Instance wire_transport : PacedTransport WireWorld := {|
  transport_clock w := (Z.min kMaxTime (wire_time w), mkWire (wire_time w + 1000) (wire w) (alarms w) (stop_after w));
  on_sent_packet p _ w := mkWire (wire_time w) (wire w ++ [p]) (alarms w) (stop_after w);
  generate_padding _ _ w := ([sample_bytes], w);
  post_delayed t _ w := (true, mkWire (wire_time w) (wire w) (t :: alarms w) (stop_after w));
  shutdown_comes w := (bool_decide (length (wire w) = stop_after w), w);
|}.

#[export] Program Instance wire_laws : TransportLaws WireWorld := {|
  transport_ok w := 0 <= wire_time w;
  on_wire w := wire w;
|}.
Next Obligation. intros w H. cbn in *. unfold kMaxTime. lia. Qed.
Next Obligation. done. Qed.
Next Obligation. done. Qed.
Next Obligation. done. Qed.
Next Obligation.
  intros n t w H. cbn. split; [constructor; [|constructor]|by split; [vm_compute|]].
  unfold small_padding. split_and!; vm_compute; congruence.
Qed.
Next Obligation. done. Qed.
Next Obligation. done. Qed.
Next Obligation. done. Qed.
Next Obligation. done. Qed.
Next Obligation. done. Qed.

(** Two video packets and a retransmission of another stream, sent in three
    rounds. *)
Definition sample_calls : list SenderCall :=
  [CReady true; CStart; CRound; CRound; CRound;
   CEnqueueRtpPackets [sample_packet_of 7 kVideo; sample_packet_of 7 kVideo] 5000 String.EmptyString; CRound; CRound; CRound; CRound;
   CEnqueuePacket (sample_packet_of 9 kRetransmission); CRound; CRound; CRound; CRound; CRound; CShutdown; CRound].

Lemma sample_calls_ok : Forall call_ok (CRates 300000 0 :: sample_calls).
Proof.
  repeat constructor; try (by eexists); try (vm_compute; congruence).
Qed.

Lemma paced_sender_numbers_witness :
  exists s o, for_each sender_call (CRates 300000 0 :: sample_calls) (new_sender 1000 1000, new_outlet (mkWire 1000 [] [] 3))
      = Some (tt, (s, o)) /\
    let wire := on_wire (world o) in
    numbered_streams wire /\ Forall carries_number wire /\
    NoDup (map transport_sequence_number_ wire) /\
    Forall (fun p => exists n, transport_sequence_number_ p = Some n /\ 0 <= n < transport_seq_ o) wire.
Proof.
  apply (paced_sender_numbers 1000 1000 (mkWire 1000 [] [] 3) 300000 0 sample_calls).
  - cbn. lia.
  - done.
  - lia.
  - vm_compute. congruence.
  - exact sample_calls_ok.
  - vm_compute. congruence.
Defined.

(** What leaves in that run. *)
Example sample_wire :
  match for_each sender_call (CRates 300000 0 :: sample_calls) (new_sender 1000 1000, new_outlet (mkWire 1000 [] [] 3)) with
  | Some (_, (_, o)) => map (fun p => (Ssrc p, SequenceNumber p)) (wire (world o))
  | None => []
  end = [(7, 1); (7, 2); (9, 1)].
Proof. vm_compute. reflexivity. Qed.

(** A shutdown in the middle of a round keeps back the rest of the burst. *)
Example stopped_wire :
  match for_each sender_call (CRates 300000 0 :: sample_calls) (new_sender 1000 1000, new_outlet (mkWire 1000 [] [] 1)) with
  | Some (_, (_, o)) => map (fun p => (Ssrc p, SequenceNumber p)) (wire (world o))
  | None => []
  end = [(7, 1)].
Proof. vm_compute. reflexivity. Qed.
