(* ===== verification/FeedbackAdapter.v ===== *)
(** * The sender's side of transport feedback

    [TransportFeedbackAdapter] of [src/qos/transport_feedback_adapter.cc]: the
    history of the packets that were sent, the bytes in flight on each network
    route, and the translation of an RFC 8888 report into what became of each
    packet; with the calls of [IceTransportController] around a send.  What is
    only logged (the three counters of a report) is returned, and
    [last_transport_feedback_base_time_], which nothing reads, is left out. *)

From Stdlib Require Import Sorted.
From stdpp Require Import gmap.
From S2P Require Import Prelude StdContainers SeqNum Units NetworkTypes RtpPacket Ccfb RtpToSend PacketQueue.

(** ** Routes *)

(** src/common/rtc_base/network_route.h:60-63 [RouteEndpoint] *)
Record RouteEndpoint := mkEndpoint {
  adapter_type : Z;
  adapter_id : Z;
  network_id : Z;
  uses_turn : bool;
}.

(** src/common/rtc_base/network_route.h:66-74 [NetworkRoute] *)
Record NetworkRoute := mkRoute {
  connected : bool;
  local : RouteEndpoint;
  remote : RouteEndpoint;
  last_sent_packet_id : Z;
  packet_overhead : Z;
}.

(** src/common/rtc_base/network_route.cc:16-20 [RouteEndpoint::operator==] *)
Definition endpoint_eq (a b : RouteEndpoint) : bool :=
  (adapter_type a =? adapter_type b) && (adapter_id a =? adapter_id b) &&
  (network_id a =? network_id b) && eqb (uses_turn a) (uses_turn b).

(** src/common/rtc_base/network_route.cc:22-26 [NetworkRoute::operator==] *)
Definition route_eq (a b : NetworkRoute) : bool :=
  eqb (connected a) (connected b) && endpoint_eq (local a) (local b) &&
  endpoint_eq (remote a) (remote b) && (packet_overhead a =? packet_overhead b) &&
  (last_sent_packet_id a =? last_sent_packet_id b).

Definition new_endpoint : RouteEndpoint := mkEndpoint 0 0 0 false.
Definition new_route : NetworkRoute := mkRoute false new_endpoint new_endpoint (-1) 0.

(** [false < true]. *)
Definition bool_lt (a b : bool) : bool := negb a && b.

(** src/qos/transport_feedback_adapter.cc:64-82 [InFlightBytesTracker::NetworkRouteComparator::operator()] *)
Definition NetworkRouteComparator (a b : NetworkRoute) : bool :=
  if negb (network_id (local a) =? network_id (local b))
  then network_id (local a) <? network_id (local b) else
  if negb (network_id (remote a) =? network_id (remote b))
  then network_id (remote a) <? network_id (remote b) else
  if negb (adapter_id (local a) =? adapter_id (local b))
  then adapter_id (local a) <? adapter_id (local b) else
  if negb (adapter_id (remote a) =? adapter_id (remote b))
  then adapter_id (remote a) <? adapter_id (remote b) else
  if negb (eqb (uses_turn (local a)) (uses_turn (local b)))
  then bool_lt (uses_turn (local a)) (uses_turn (local b)) else
  if negb (eqb (uses_turn (remote a)) (uses_turn (remote b)))
  then bool_lt (uses_turn (remote a)) (uses_turn (remote b)) else
  bool_lt (connected a) (connected b).

(** What the comparator looks at: two routes are the same key of the map when
    these are equal ([route_key_equivalent] below). *)
Definition RouteKey : Type := (Z * Z) * (Z * Z) * (bool * bool) * bool.

Definition route_key (r : NetworkRoute) : RouteKey :=
  ((network_id (local r), network_id (remote r)),
   (adapter_id (local r), adapter_id (remote r)),
   (uses_turn (local r), uses_turn (remote r)), connected r).

(** ** Packets *)

(** src/common/api/transport/network_types.h:109-126 [SentPacket] *)
Record SentPacket := mkSent {
  send_time : Z;
  sent_size : Z;
  prior_unacked_data : Z;
  pacing_info : PacedPacketInfo;
  audio : bool;
  sent_sequence_number : Z;
  data_in_flight : Z;
}.

(** The fields of [rtc::SentPacket] that are read. *)
(** src/common/rtc_base/network/sent_packet.h:39-67 [rtc::SentPacket] *)
Record RtcSentPacket := mkRtcSent {
  packet_id : Z;
  send_time_ms : Z;
  included_in_feedback : bool;
  included_in_allocation : bool;
  packet_size_bytes : Z;
}.

(** src/qos/transport_feedback_adapter.h:34-49 [PacketFeedback] *)
Record PacketFeedback := mkPacketFeedback {
  creation_time : Z;
  sent : SentPacket;
  receive_time : Z;
  network_route : NetworkRoute;
  feedback_ssrc : Z;
  rtp_sequence_number : Z;
}.

(** src/common/api/transport/network_types.h:157-172 [PacketResult] *)
Record PacketResult := mkResult {
  sent_packet : SentPacket;
  result_receive_time : Z;
  result_ecn : EcnMarking;
}.

(** src/common/api/transport/network_types.h:174-182 [TransportPacketsFeedback] *)
Record TransportPacketsFeedback := mkTransportFeedback {
  feedback_time : Z;
  feedback_data_in_flight : Z;
  transport_supports_ecn : bool;
  packet_feedbacks : list PacketResult;
}.

(** src/common/api/transport/network_types.h:167-167 [PacketResult::IsReceived] *)
Definition IsReceived (r : PacketResult) : bool := negb (result_receive_time r =? PlusInfinity).

(** src/common/api/transport/network_types.cc:49-58 [TransportPacketsFeedback::ReceivedWithSendInfo] *)
Definition ReceivedWithSendInfo (msg : TransportPacketsFeedback) : list PacketResult :=
  List.filter IsReceived (packet_feedbacks msg).

(** src/common/api/transport/network_types.cc:60-68 [TransportPacketsFeedback::LostWithSendInfo] *)
Definition LostWithSendInfo (msg : TransportPacketsFeedback) : list PacketResult :=
  List.filter (fun r => negb (IsReceived r)) (packet_feedbacks msg).

(** ** Bytes in flight *)

Abbreviation InFlight := (gmap RouteKey Z).

(** src/qos/transport_feedback_adapter.cc:33-41 [InFlightBytesTracker::AddInFlightPacketBytes] *)
Definition AddInFlightPacketBytes (packet : PacketFeedback) (m : InFlight) : InFlight :=
  let k := route_key (network_route packet) in
  match m !! k with
  | Some size => <[k := unit_add size (sent_size (sent packet))]> m
  | None => <[k := sent_size (sent packet)]> m
  end.

(** src/qos/transport_feedback_adapter.cc:43-51 [InFlightBytesTracker::RemoveInFlightPacketBytes] *)
Definition RemoveInFlightPacketBytes (packet : PacketFeedback) (m : InFlight) : InFlight :=
  if IsInfinite (send_time (sent packet)) then m else
  let k := route_key (network_route packet) in
  match m !! k with
  | Some size =>
      let size := unit_sub size (sent_size (sent packet)) in
      if size =? 0 then delete k m else <[k := size]> m
  | None => m
  end.

(** src/qos/transport_feedback_adapter.cc:53-61 [InFlightBytesTracker::GetOutstandingData] *)
Definition GetOutstandingDataOn (route : NetworkRoute) (m : InFlight) : Z :=
  match m !! route_key route with Some size => size | None => 0 end.

(** ** State *)

(** src/qos/transport_feedback_adapter.h:104-108 [TransportFeedbackAdapter::RecentlyAcknowledgedPacket] *)
Record RecentlyAcknowledgedPacket := mkAcknowledged {
  acknowledged_key : Z * Z;
  acknowledgment_time : Z;
  generation : Z;
}.

(** src/qos/transport_feedback_adapter.h:123-154 [TransportFeedbackAdapter] *)
Record TransportFeedbackAdapter := mkAdapter {
  pending_untracked_size_ : Z;
  last_send_time_ : Z;
  last_untracked_send_time_ : Z;
  seq_num_unwrapper_ : SeqNumUnwrapper;
  last_ack_seq_num_ : Z;
  in_flight_ : InFlight;
  network_route_ : NetworkRoute;
  current_offset_ : Z;
  last_feedback_compact_ntp_time_ : option Z;
  rtp_to_transport_sequence_number_ : gmap (Z * Z) Z;
  sent_history_ : list (Z * PacketFeedback);
  recently_acknowledged_packets_ : gmap (Z * Z) Z;
  recently_acknowledged_packets_in_order_ : list RecentlyAcknowledgedPacket;
  acknowledgment_generation_ : Z;
}.

Definition new_adapter : TransportFeedbackAdapter :=
  mkAdapter 0 MinusInfinity MinusInfinity fresh_unwrapper (-1) ∅ new_route MinusInfinity None
    ∅ [] ∅ [] 0.

(** Assignments to the members. *)
Definition set_untracked (size time : Z) (a : TransportFeedbackAdapter) : TransportFeedbackAdapter :=
  mkAdapter size (last_send_time_ a) time (seq_num_unwrapper_ a) (last_ack_seq_num_ a)
    (in_flight_ a) (network_route_ a) (current_offset_ a) (last_feedback_compact_ntp_time_ a)
    (rtp_to_transport_sequence_number_ a) (sent_history_ a) (recently_acknowledged_packets_ a)
    (recently_acknowledged_packets_in_order_ a) (acknowledgment_generation_ a).
Definition set_last_send_time (t : Z) (a : TransportFeedbackAdapter) : TransportFeedbackAdapter :=
  mkAdapter (pending_untracked_size_ a) t (last_untracked_send_time_ a) (seq_num_unwrapper_ a)
    (last_ack_seq_num_ a) (in_flight_ a) (network_route_ a) (current_offset_ a)
    (last_feedback_compact_ntp_time_ a) (rtp_to_transport_sequence_number_ a) (sent_history_ a)
    (recently_acknowledged_packets_ a) (recently_acknowledged_packets_in_order_ a)
    (acknowledgment_generation_ a).
Definition set_unwrapper (u : SeqNumUnwrapper) (a : TransportFeedbackAdapter)
    : TransportFeedbackAdapter :=
  mkAdapter (pending_untracked_size_ a) (last_send_time_ a) (last_untracked_send_time_ a) u
    (last_ack_seq_num_ a) (in_flight_ a) (network_route_ a) (current_offset_ a)
    (last_feedback_compact_ntp_time_ a) (rtp_to_transport_sequence_number_ a) (sent_history_ a)
    (recently_acknowledged_packets_ a) (recently_acknowledged_packets_in_order_ a)
    (acknowledgment_generation_ a).
Definition set_flight (last_ack : Z) (m : InFlight) (a : TransportFeedbackAdapter)
    : TransportFeedbackAdapter :=
  mkAdapter (pending_untracked_size_ a) (last_send_time_ a) (last_untracked_send_time_ a)
    (seq_num_unwrapper_ a) last_ack m (network_route_ a) (current_offset_ a)
    (last_feedback_compact_ntp_time_ a) (rtp_to_transport_sequence_number_ a) (sent_history_ a)
    (recently_acknowledged_packets_ a) (recently_acknowledged_packets_in_order_ a)
    (acknowledgment_generation_ a).
Definition set_offset (offset : Z) (ntp : option Z) (a : TransportFeedbackAdapter)
    : TransportFeedbackAdapter :=
  mkAdapter (pending_untracked_size_ a) (last_send_time_ a) (last_untracked_send_time_ a)
    (seq_num_unwrapper_ a) (last_ack_seq_num_ a) (in_flight_ a) (network_route_ a) offset ntp
    (rtp_to_transport_sequence_number_ a) (sent_history_ a)
    (recently_acknowledged_packets_ a) (recently_acknowledged_packets_in_order_ a)
    (acknowledgment_generation_ a).
Definition set_sent (mapping : gmap (Z * Z) Z) (history : list (Z * PacketFeedback))
    (a : TransportFeedbackAdapter) : TransportFeedbackAdapter :=
  mkAdapter (pending_untracked_size_ a) (last_send_time_ a) (last_untracked_send_time_ a)
    (seq_num_unwrapper_ a) (last_ack_seq_num_ a) (in_flight_ a) (network_route_ a)
    (current_offset_ a) (last_feedback_compact_ntp_time_ a) mapping history
    (recently_acknowledged_packets_ a) (recently_acknowledged_packets_in_order_ a)
    (acknowledgment_generation_ a).
Definition set_acknowledged (m : gmap (Z * Z) Z) (order : list RecentlyAcknowledgedPacket)
    (gen : Z) (a : TransportFeedbackAdapter) : TransportFeedbackAdapter :=
  mkAdapter (pending_untracked_size_ a) (last_send_time_ a) (last_untracked_send_time_ a)
    (seq_num_unwrapper_ a) (last_ack_seq_num_ a) (in_flight_ a) (network_route_ a)
    (current_offset_ a) (last_feedback_compact_ntp_time_ a)
    (rtp_to_transport_sequence_number_ a) (sent_history_ a) m order gen.

(** ** Operations *)

(** src/qos/transport_feedback_adapter.cc:31-31 [kSendTimeHistoryWindow] *)
Definition kSendTimeHistoryWindow : Z := 60000000.

(** src/common/api/units/timestamp.h:34-38 [Timestamp::Millis] *)
Definition Millis (ms : Z) : Z := ms * 1000.

(** src/qos/transport_feedback_adapter.cc:318-330 [TransportFeedbackAdapter::PruneRecentlyAcknowledgedPackets] *)
Fixpoint prune_recent (now : Z) (order : list RecentlyAcknowledgedPacket)
    (m : gmap (Z * Z) Z) : list RecentlyAcknowledgedPacket * gmap (Z * Z) Z :=
  match order with
  | [] => ([], m)
  | p :: order' =>
      if kSendTimeHistoryWindow <? timestamp_diff now (acknowledgment_time p) then
        prune_recent now order'
          (match m !! acknowledged_key p with
           | Some g => if g =? generation p then delete (acknowledged_key p) m else m
           | None => m
           end)
      else (order, m)
  end.

(** src/qos/transport_feedback_adapter.cc:316-331 [TransportFeedbackAdapter::PruneRecentlyAcknowledgedPackets] *)
Definition PruneRecentlyAcknowledgedPackets (now : Z) (a : TransportFeedbackAdapter)
    : TransportFeedbackAdapter :=
  let '(order, m) := prune_recent now (recently_acknowledged_packets_in_order_ a)
                       (recently_acknowledged_packets_ a) in
  set_acknowledged m order (acknowledgment_generation_ a) a.

(** src/qos/transport_feedback_adapter.cc:333-339 [TransportFeedbackAdapter::RememberAcknowledgedPacket] *)
Definition RememberAcknowledgedPacket (key : Z * Z) (acknowledgment_time : Z)
    (a : TransportFeedbackAdapter) : TransportFeedbackAdapter :=
  let g := u64 (acknowledgment_generation_ a + 1) in
  set_acknowledged (<[key := g]> (recently_acknowledged_packets_ a))
    (recently_acknowledged_packets_in_order_ a ++ [mkAcknowledged key acknowledgment_time g]) g a.

(** src/qos/transport_feedback_adapter.cc:341-345 [TransportFeedbackAdapter::WasRecentlyAcknowledged] *)
Definition WasRecentlyAcknowledged (key : Z * Z) (a : TransportFeedbackAdapter) : bool :=
  bool_decide (is_Some (recently_acknowledged_packets_ a !! key)).

Definition feedback_key (p : PacketFeedback) : Z * Z := (feedback_ssrc p, rtp_sequence_number p).

(** What leaves the history by age. *)
(** src/qos/transport_feedback_adapter.cc:120-131 [TransportFeedbackAdapter::AddPacket] *)
Fixpoint prune_history (creation_time_ last_ack : Z) (history : list (Z * PacketFeedback))
    (m : InFlight) (mapping : gmap (Z * Z) Z)
    : list (Z * PacketFeedback) * InFlight * gmap (Z * Z) Z :=
  match history with
  | [] => ([], m, mapping)
  | (_, p) :: history' =>
      if kSendTimeHistoryWindow <? timestamp_diff creation_time_ (creation_time p) then
        prune_history creation_time_ last_ack history'
          (if last_ack <? sent_sequence_number (sent p)
           then RemoveInFlightPacketBytes p m else m)
          (delete (feedback_key p) mapping)
      else (history, m, mapping)
  end.

Definition is_audio (t : option RtpPacketMediaType) : bool :=
  bool_decide (t = Some kAudio).

(** src/qos/transport_feedback_adapter.cc:86-142 [TransportFeedbackAdapter::AddPacket] *)
Definition AddPacket (packet_to_send : RtpPacketToSend) (pacing : PacedPacketInfo)
    (overhead_bytes creation_time_ : Z) (a : TransportFeedbackAdapter)
    : TransportFeedbackAdapter :=
  match transport_sequence_number_ packet_to_send with
  | None => a
  | Some transport_sequence_number =>
      let a := PruneRecentlyAcknowledgedPackets creation_time_ a in
      let p := rtp_packet packet_to_send in
      let '(seq, u) := Unwrap16 (seq_num_unwrapper_ a) (u16 transport_sequence_number) in
      let a := set_unwrapper u a in
      let feedback :=
        mkPacketFeedback creation_time_
          (mkSent PlusInfinity (size_ p + overhead_bytes) 0 pacing
             (is_audio (packet_type_ packet_to_send)) seq 0)
          PlusInfinity (network_route_ a) (ssrc_ p) (sequence_number_ p) in
      let '(history, m, mapping) :=
        prune_history creation_time_ (last_ack_seq_num_ a) (sent_history_ a) (in_flight_ a)
          (rtp_to_transport_sequence_number_ a) in
      let a := set_flight (last_ack_seq_num_ a) m a in
      let a := set_acknowledged (delete (feedback_key feedback) (recently_acknowledged_packets_ a))
                 (recently_acknowledged_packets_in_order_ a) (acknowledgment_generation_ a) a in
      let mapping := match mapping !! feedback_key feedback with
                     | Some _ => mapping
                     | None => <[feedback_key feedback := seq]> mapping
                     end in
      set_sent mapping (map_emplace seq feedback history) a
  end.

(** src/qos/transport_feedback_adapter.cc:144-162 [TransportFeedbackAdapter::RemovePacket] *)
Definition RemovePacket (packet_to_send : RtpPacketToSend) (a : TransportFeedbackAdapter)
    : bool * TransportFeedbackAdapter :=
  let p := rtp_packet packet_to_send in
  let key := (ssrc_ p, sequence_number_ p) in
  match rtp_to_transport_sequence_number_ a !! key with
  | None => (false, a)
  | Some seq =>
      let mapping := delete key (rtp_to_transport_sequence_number_ a) in
      match map_find seq (sent_history_ a) with
      | Some p =>
          let m := if IsFinite (send_time (sent p))
                   then RemoveInFlightPacketBytes p (in_flight_ a) else in_flight_ a in
          (true, set_sent mapping (map_erase seq (sent_history_ a))
                   (set_flight (last_ack_seq_num_ a) m a))
      | None => (true, set_sent mapping (sent_history_ a) a)
      end
  end.

(** src/qos/transport_feedback_adapter.cc:307-310 [TransportFeedbackAdapter::SetNetworkRoute] *)
Definition SetNetworkRoute (route : NetworkRoute) (a : TransportFeedbackAdapter)
    : TransportFeedbackAdapter :=
  mkAdapter (pending_untracked_size_ a) (last_send_time_ a) (last_untracked_send_time_ a)
    (seq_num_unwrapper_ a) (last_ack_seq_num_ a) (in_flight_ a) route (current_offset_ a)
    (last_feedback_compact_ntp_time_ a) (rtp_to_transport_sequence_number_ a) (sent_history_ a)
    (recently_acknowledged_packets_ a) (recently_acknowledged_packets_in_order_ a)
    (acknowledgment_generation_ a).

(** src/qos/transport_feedback_adapter.cc:312-314 [TransportFeedbackAdapter::GetOutstandingData] *)
Definition GetOutstandingData (a : TransportFeedbackAdapter) : Z :=
  GetOutstandingDataOn (network_route_ a) (in_flight_ a).

(** [it->second.sent.send_time = send_time], and the untracked bytes. *)
Definition mark_sent (time untracked : Z) (p : PacketFeedback) : PacketFeedback :=
  let s := sent p in
  mkPacketFeedback (creation_time p)
    (mkSent time (sent_size s)
       (if negb (untracked =? 0) then unit_add (prior_unacked_data s) untracked
        else prior_unacked_data s)
       (pacing_info s) (audio s) (sent_sequence_number s) (data_in_flight s))
    (receive_time p) (network_route p) (feedback_ssrc p) (rtp_sequence_number p).

Definition mark_in_flight (outstanding : Z) (p : PacketFeedback) : PacketFeedback :=
  let s := sent p in
  mkPacketFeedback (creation_time p)
    (mkSent (send_time s) (sent_size s) (prior_unacked_data s) (pacing_info s) (audio s)
       (sent_sequence_number s) outstanding)
    (receive_time p) (network_route p) (feedback_ssrc p) (rtp_sequence_number p).

(** src/qos/transport_feedback_adapter.cc:164-202 [TransportFeedbackAdapter::ProcessSentPacket] *)
Definition ProcessSentPacket (sent_packet : RtcSentPacket) (a : TransportFeedbackAdapter)
    : option SentPacket * TransportFeedbackAdapter :=
  let time := Millis (send_time_ms sent_packet) in
  if included_in_feedback sent_packet || negb (packet_id sent_packet =? -1) then
    let '(seq, u) := Unwrap16 (seq_num_unwrapper_ a) (u16 (packet_id sent_packet)) in
    let a := set_unwrapper u a in
    match map_find seq (sent_history_ a) with
    | None => (None, a)
    | Some it =>
        let packet_retransmit := IsFinite (send_time (sent it)) in
        let it' := mark_sent time (pending_untracked_size_ a) it in
        let a := set_last_send_time (Z.max (last_send_time_ a) time) a in
        let a := set_untracked 0 (last_untracked_send_time_ a) a in
        let a := set_sent (rtp_to_transport_sequence_number_ a)
                   (map_update seq (fun _ => it') (sent_history_ a)) a in
        if negb packet_retransmit then
          let a := if last_ack_seq_num_ a <? sent_sequence_number (sent it')
                   then set_flight (last_ack_seq_num_ a)
                          (AddInFlightPacketBytes it' (in_flight_ a)) a
                   else a in
          let it'' := mark_in_flight (GetOutstandingData a) it' in
          (Some (sent it''),
           set_sent (rtp_to_transport_sequence_number_ a)
             (map_update seq (fun _ => it'') (sent_history_ a)) a)
        else (None, a)
    end
  else if included_in_allocation sent_packet then
    (None, set_untracked (unit_add (pending_untracked_size_ a) (packet_size_bytes sent_packet))
             (Z.max (last_untracked_send_time_ a) time) a)
  else (None, a).

(** The nodes from [upper_bound(low)] to [upper_bound(high)]. *)
Definition between (low high : Z) (history : list (Z * PacketFeedback))
    : list (Z * PacketFeedback) :=
  List.filter (fun '(k, _) => (low <? k) && (k <=? high)) history.

(** src/qos/transport_feedback_adapter.cc:356-394 [TransportFeedbackAdapter::RetrievePacketFeedback] *)
Definition RetrieveBySequenceNumber (transport_seq_num : Z) (received : bool)
    (a : TransportFeedbackAdapter) : option PacketFeedback * TransportFeedbackAdapter :=
  let a := if last_ack_seq_num_ a <? transport_seq_num then
             set_flight transport_seq_num
               (fold_left (fun m '(_, p) => RemoveInFlightPacketBytes p m)
                  (between (last_ack_seq_num_ a) transport_seq_num (sent_history_ a))
                  (in_flight_ a)) a
           else a in
  match map_find transport_seq_num (sent_history_ a) with
  | None => (None, a)
  | Some p =>
      if IsInfinite (send_time (sent p)) then (None, a)
      else if received then
        (Some p, set_sent (delete (feedback_key p) (rtp_to_transport_sequence_number_ a))
                   (map_erase transport_seq_num (sent_history_ a)) a)
      else (Some p, a)
  end.

(** src/qos/transport_feedback_adapter.cc:347-354 [TransportFeedbackAdapter::RetrievePacketFeedback] *)
Definition RetrievePacketFeedback (key : Z * Z) (received : bool)
    (a : TransportFeedbackAdapter) : option PacketFeedback * TransportFeedbackAdapter :=
  match rtp_to_transport_sequence_number_ a !! key with
  | None => (None, a)
  | Some seq => RetrieveBySequenceNumber seq received a
  end.

(** The local variables of the loop over the packets of a report. *)
Record FeedbackLoop := mkLoop {
  ignored_packets : Z;
  failed_lookups : Z;
  duplicate_feedbacks : Z;
  supports_ecn : bool;
  packet_result_vector : list PacketResult;
}.

(** src/qos/transport_feedback_adapter.cc:250-263 [TransportFeedbackAdapter::ProcessCongestionControlFeedback] *)
Definition packet_result (packet_info : PacketInfo) (p : PacketFeedback) (offset : Z)
    : PacketResult :=
  mkResult (sent p)
    (if IsFinite (arrival_time_offset packet_info)
     then timestamp_sub offset (arrival_time_offset packet_info) else PlusInfinity)
    (ecn packet_info).

(** src/qos/transport_feedback_adapter.cc:234-264 [TransportFeedbackAdapter::ProcessCongestionControlFeedback] *)
Fixpoint feedback_packets_loop (feedback_receive_time : Z) (packets : list PacketInfo)
    (l : FeedbackLoop) (a : TransportFeedbackAdapter)
    : FeedbackLoop * TransportFeedbackAdapter :=
  match packets with
  | [] => (l, a)
  | packet_info :: packets' =>
      let key := (ssrc packet_info, sequence_number packet_info) in
      let received := IsFinite (arrival_time_offset packet_info) in
      let '(packet_feedback, a) := RetrievePacketFeedback key received a in
      match packet_feedback with
      | None =>
          let duplicate := received && WasRecentlyAcknowledged key a in
          feedback_packets_loop feedback_receive_time packets'
            (mkLoop (ignored_packets l)
               (if duplicate then failed_lookups l else failed_lookups l + 1)
               (if duplicate then duplicate_feedbacks l + 1 else duplicate_feedbacks l)
               (supports_ecn l) (packet_result_vector l)) a
      | Some p =>
          let a := if received then RememberAcknowledgedPacket key feedback_receive_time a
                   else a in
          if negb (route_eq (network_route p) (network_route_ a)) then
            feedback_packets_loop feedback_receive_time packets'
              (mkLoop (ignored_packets l + 1) (failed_lookups l) (duplicate_feedbacks l)
                 (supports_ecn l) (packet_result_vector l)) a
          else
            feedback_packets_loop feedback_receive_time packets'
              (mkLoop (ignored_packets l) (failed_lookups l) (duplicate_feedbacks l)
                 (supports_ecn l && (negb received || negb (bool_decide (ecn packet_info = kNotEct))))
                 (packet_result_vector l ++ [packet_result packet_info p (current_offset_ a)])) a
      end
  end.

(** src/qos/transport_feedback_adapter.cc:282-286 [TransportFeedbackAdapter::ProcessCongestionControlFeedback] *)
Definition send_order (lhs rhs : PacketResult) : bool :=
  sent_sequence_number (sent_packet lhs) <? sent_sequence_number (sent_packet rhs).

(** src/qos/transport_feedback_adapter.cc:291-305 [TransportFeedbackAdapter::ToTransportFeedback] *)
Definition ToTransportFeedback (packet_results : list PacketResult)
    (feedback_receive_time : Z) (supports : bool) (a : TransportFeedbackAdapter)
    : option TransportPacketsFeedback :=
  match packet_results with
  | [] => None
  | _ => Some (mkTransportFeedback feedback_receive_time (GetOutstandingData a) supports
                 packet_results)
  end.

(** src/qos/transport_feedback_adapter.cc:213-227 [TransportFeedbackAdapter::ProcessCongestionControlFeedback] *)
Definition UpdateOffset (feedback_receive_time report_timestamp : Z)
    (a : TransportFeedbackAdapter) : TransportFeedbackAdapter :=
  let offset := if IsInfinite (current_offset_ a) then feedback_receive_time
                else current_offset_ a in
  let feedback_delta :=
    match last_feedback_compact_ntp_time_ a with
    | Some last => CompactNtpIntervalToTimeDelta (u32 (report_timestamp - last))
    | None => 0
    end in
  set_offset (if feedback_delta <? 0 then feedback_receive_time
              else timestamp_add offset feedback_delta) (Some report_timestamp) a.

Section feedback.
Context {sorts : StdSort}.

(** src/qos/transport_feedback_adapter.cc:204-289 [TransportFeedbackAdapter::ProcessCongestionControlFeedback] *)
Definition ProcessCongestionControlFeedback (feedback : Ccfb) (feedback_receive_time : Z)
    (a : TransportFeedbackAdapter)
    : option TransportPacketsFeedback * TransportFeedbackAdapter :=
  let a := PruneRecentlyAcknowledgedPackets feedback_receive_time a in
  match packets_ feedback with
  | [] => (None, a)
  | packets =>
      let a := UpdateOffset feedback_receive_time (report_timestamp_compact_ntp_ feedback) a in
      let '(l, a) := feedback_packets_loop feedback_receive_time packets
                       (mkLoop 0 0 0 true []) a in
      (ToTransportFeedback (std_sort send_order (packet_result_vector l))
         feedback_receive_time (supports_ecn l) a, a)
  end.
End feedback.

(** ** The calls around a send *)

(** src/transport/ice_transport_controller.h:153-156 [IceTransportController::PacketFeedbackRegistration] *)
Record PacketFeedbackRegistration := mkRegistration {
  registration_send_time_ms : Z;
  tracked : bool;
}.

(** src/transport/ice_transport_controller.cpp:2296-2325 [IceTransportController::RegisterPacketForFeedback] *)
Definition RegisterPacketForFeedback (clock_ms : Z) (packet : RtpPacketToSend)
    (pacing : PacedPacketInfo) (a : TransportFeedbackAdapter)
    : PacketFeedbackRegistration * TransportFeedbackAdapter :=
  match transport_sequence_number_ packet with
  | None => (mkRegistration clock_ms false, a)
  | Some transport_seq =>
      let a := AddPacket packet pacing 0 (Millis clock_ms) a in
      let '(_, a) := ProcessSentPacket
        (mkRtcSent (s32 transport_seq) clock_ms true true (size_ (rtp_packet packet))) a in
      (mkRegistration clock_ms true, a)
  end.

(** src/transport/ice_transport_controller.cpp:2327-2335 [IceTransportController::RollbackPacketFeedback] *)
Definition RollbackPacketFeedback (packet : RtpPacketToSend)
    (registration : PacketFeedbackRegistration) (a : TransportFeedbackAdapter)
    : TransportFeedbackAdapter :=
  if negb (tracked registration) then a else (RemovePacket packet a).2.

(** The part of [OnSentPacket] that concerns the history. *)
(** src/transport/ice_transport_controller.cpp:2337-2357 [IceTransportController::OnSentPacket] *)
Definition OnSentPacket (packet : RtpPacketToSend)
    (registration : PacketFeedbackRegistration) (a : TransportFeedbackAdapter)
    : TransportFeedbackAdapter :=
  if negb (tracked registration) then
    (ProcessSentPacket
       (mkRtcSent (-1) (registration_send_time_ms registration) false true
          (size_ (rtp_packet packet))) a).2
  else a.
