(* ===== verification/FeedbackAdapterOk.v ===== *)
(** * What the sender learns from transport feedback

    [FeedbackAdapter.v] against its two promises: the bytes in flight on a route
    are those of the packets sent there and not yet passed by an
    acknowledgement, and a report is translated into results that are true of
    the packets that were sent, each reported as received at most once. *)

From Stdlib Require Import Sorted.
From stdpp Require Import gmap.
From S2P Require Import Prelude StdContainers SeqNum Units NetworkTypes RtpPacket Ccfb RtpToSend PacketQueue.
From S2P Require Import FeedbackAdapter.

(** ** Routes as keys *)

(** One field of the lexicographic comparison. *)
Lemma lex_field (x y : Z) (A B : bool) :
  (if negb (x =? y) then x <? y else A) = false ->
  (if negb (y =? x) then y <? x else B) = false -> x = y /\ A = false /\ B = false.
Proof. rewrite (Z.eqb_sym y x). destruct (Z.eqb_spec x y); cbn; intros; [done|lia]. Qed.

(** Routes that the comparator does not order are the same key. *)
Lemma route_key_equivalent a b :
  NetworkRouteComparator a b = false /\ NetworkRouteComparator b a = false <->
  route_key a = route_key b.
Proof.
  unfold NetworkRouteComparator, route_key, bool_lt.
  destruct a as [c1 [? i1 n1 t1] [? i2 n2 t2] ? ?], b as [c1' [? i1' n1' t1'] [? i2' n2' t2'] ? ?].
  cbn [network_id adapter_id uses_turn local remote connected]. split.
  - intros [H1 H2]. do 4 (apply (lex_field _ _ _ _ H1) in H2 as (-> & H3 & H2); clear H1; rename H3 into H1).
    by destruct t1, t1', t2, t2', c1, c1'.
  - intros [= -> -> -> -> -> -> ->]. rewrite !Z.eqb_refl. by destruct t1', t2', c1'.
Qed.

(** ** Bytes in flight *)

Definition flight (m : InFlight) (key : RouteKey) : Z := default 0 (m !! key).

(** A packet counts for its route once sent, until an acknowledgement passes it. *)
Definition flying (key : RouteKey) (last_ack : Z) (x : Z * PacketFeedback) : Z :=
  if bool_decide (route_key (network_route x.2) = key) &&
     IsFinite (send_time (sent x.2)) && (last_ack <? x.1)
  then sent_size (sent x.2) else 0.

Definition node_ok (x : Z * PacketFeedback) : Prop :=
  sent_sequence_number (sent x.2) = x.1 /\ 0 <= sent_size (sent x.2) < 2147483648.

Definition in_flight_ok (last_ack : Z) (history : list (Z * PacketFeedback)) (m : InFlight) : Prop :=
  forall key, flight m key = zsum (flying key last_ack) history.

Lemma flying_bound key la x : node_ok x -> 0 <= flying key la x <= 2147483648.
Proof. intros [_ H]. unfold flying. case_match; lia. Qed.

Lemma flying_sum key la l :
  Forall node_ok l -> 0 <= zsum (flying key la) l <= zlen l * 2147483648.
Proof.
  intros H. apply zsum_bound. eapply List.Forall_impl; [|exact H]. intros x. apply flying_bound.
Qed.

Lemma flight_remove p m key :
  0 <= sent_size (sent p) < 2147483648 ->
  (IsFinite (send_time (sent p)) = true ->
   sent_size (sent p) <= flight m (route_key (network_route p)) < 4611686018427387904) ->
  flight (RemoveInFlightPacketBytes p m) key =
  flight m key -
    (if bool_decide (route_key (network_route p) = key) && IsFinite (send_time (sent p))
     then sent_size (sent p) else 0).
Proof.
  intros Hs Hf. unfold RemoveInFlightPacketBytes, IsFinite in *.
  destruct (IsInfinite (send_time (sent p))); cbn [negb] in *; [rewrite andb_false_r; lia|].
  specialize (Hf eq_refl). rewrite andb_true_r. unfold flight in *.
  destruct (m !! route_key (network_route p)) as [v|] eqn:E; cbn in Hf.
  - rewrite unit_sub_small by (unfold small; lia).
    destruct (Z.eqb_spec (v - sent_size (sent p)) 0);
      case_bool_decide as Hk; subst; rewrite ?lookup_delete_eq, ?lookup_insert_eq, ?E;
      cbn; try lia; [rewrite lookup_delete_ne by done|rewrite lookup_insert_ne by done]; lia.
  - case_bool_decide; subst; rewrite ?E; cbn; lia.
Qed.

Lemma flight_add p m key :
  0 <= sent_size (sent p) < 2147483648 -> 0 <= flight m (route_key (network_route p)) < 4611686016279904256 ->
  flight (AddInFlightPacketBytes p m) key =
  flight m key + (if bool_decide (route_key (network_route p) = key) then sent_size (sent p) else 0).
Proof.
  intros Hs Hf. unfold AddInFlightPacketBytes, flight in *.
  destruct (m !! route_key (network_route p)) as [v|] eqn:E; cbn in Hf.
  - rewrite unit_add_small by (unfold small; lia). case_bool_decide; subst.
    + rewrite lookup_insert_eq, E. done.
    + rewrite lookup_insert_ne by done. lia.
  - case_bool_decide; subst.
    + rewrite lookup_insert_eq, E. done.
    + rewrite lookup_insert_ne by done. lia.
Qed.

Lemma flying_ahead key la k p :
  la < k -> flying key la (k, p) =
    if bool_decide (route_key (network_route p) = key) && IsFinite (send_time (sent p))
    then sent_size (sent p) else 0.
Proof. intros H. unfold flying. cbn [fst snd]. by rewrite (proj2 (Z.ltb_lt la k)), andb_true_r. Qed.

Lemma flying_behind key la x : x.1 <= la -> flying key la x = 0.
Proof. intros H. unfold flying. by rewrite (proj2 (Z.ltb_ge la x.1)), andb_false_r. Qed.

(** Taking out packets that count leaves what the others count. *)
Lemma flight_remove_all la es : forall m (R : RouteKey -> Z),
  Forall (fun x => node_ok x /\ la < x.1) es -> (forall key, 0 <= R key) ->
  (forall key, flight m key = zsum (flying key la) es + R key /\
               zsum (flying key la) es + R key < 4611686018427387904) ->
  forall key, flight (fold_left (fun m '(_, p) => RemoveInFlightPacketBytes p m) es m) key = R key.
Proof.
  induction es as [|[k p] es IH]; intros m R He HR Hm key; cbn [fold_left].
  { destruct (Hm key) as [-> _]. done. }
  inversion He as [|?? [Hx Hk] Hes]; subst. cbn [fst snd] in *.
  assert (forall key, 0 <= zsum (flying key la) es) as Hnn.
  { intros j. apply (flying_sum j la es). eapply List.Forall_impl; [|exact Hes]. by intros ? [? _]. }
  apply IH; [done|done|]. intros j. destruct (Hm j) as [Hj Hjb]. cbn [zsum] in *.
  destruct Hx as [_ Hsz]. cbn [snd] in Hsz. rewrite (flying_ahead j la k p) in * by done.
  rewrite flight_remove; [|done|].
  - rewrite Hj. destruct (bool_decide _ && _); lia.
  - intros Hfin. destruct (Hm (route_key (network_route p))) as [-> Hb]. split; [|done].
    rewrite flying_ahead, bool_decide_eq_true_2, Hfin by done. cbn [andb].
    specialize (Hnn (route_key (network_route p))). specialize (HR (route_key (network_route p))). lia.
Qed.

Lemma in_flight_drop la x h m :
  Forall node_ok (x :: h) -> zlen (x :: h) < 2147483648 -> in_flight_ok la (x :: h) m ->
  in_flight_ok la h (if la <? x.1 then RemoveInFlightPacketBytes x.2 m else m).
Proof.
  intros Hn Hz Hf. inversion Hn as [|?? Hx Hh]; subst. destruct (Z.ltb_spec la x.1).
  - intros key. destruct x as [k p].
    apply (flight_remove_all la [(k, p)] m (fun key => zsum (flying key la) h)).
    + by apply list.Forall_singleton.
    + intros j. by apply flying_sum.
    + intros j. pose proof (flying_sum j la _ Hn). rewrite (Hf j). cbn [zsum] in *. lia.
  - intros key. rewrite (Hf key). cbn [zsum]. by rewrite flying_behind.
Qed.

(** An acknowledgement passes the packets up to [hi]. *)
Lemma in_flight_ack la hi h m :
  Forall node_ok h -> zlen h < 2147483648 -> la <= hi -> in_flight_ok la h m ->
  in_flight_ok hi h (fold_left (fun m '(_, p) => RemoveInFlightPacketBytes p m) (between la hi h) m).
Proof.
  intros Hn Hz Hle Hf key.
  apply (flight_remove_all la _ m (fun key => zsum (flying key hi) h)).
  - apply List.Forall_forall. intros [k p] Hin. apply List.filter_In in Hin as [Hin Hb].
    rewrite List.Forall_forall in Hn. split; [by apply Hn|]. b2p. cbn. lia.
  - intros j. by apply flying_sum.
  - intros j. pose proof (flying_sum j la h Hn) as Hb. rewrite (Hf j).
    assert (zsum (flying j la) h = zsum (flying j la) (between la hi h) + zsum (flying j hi) h)
      as E; [|lia].
    clear -Hle. induction h as [|[k p] h IH]; [done|]. cbn [between List.filter zsum].
    fold (between la hi h).
    destruct (Z.ltb_spec la k), (Z.leb_spec k hi); try lia; cbn [andb zsum].
    + rewrite (flying_behind j hi) by done. lia.
    + rewrite !flying_ahead by done. lia.
    + rewrite !flying_behind by done. lia.
Qed.

Lemma in_flight_perm la h h' m : h ≡ₚ h' -> in_flight_ok la h m -> in_flight_ok la h' m.
Proof. intros Hp Hf key. by rewrite <- (zsum_perm _ _ _ Hp). Qed.

(** ** The packets that were registered *)

Record Registered := mkRegistered {
  reg_seq : Z;
  reg_packet : RtpPacketToSend;
  reg_ms : Z;
  reg_route : NetworkRoute;
}.

Definition packet_key (p : RtpPacketToSend) : Z * Z :=
  (ssrc_ (rtp_packet p), sequence_number_ (rtp_packet p)).

(** A node of the history tells the truth about a registered packet. *)
Record describes (reg : Registered) (x : Z * PacketFeedback) : Prop := {
  describes_seq : reg_seq reg = x.1;
  describes_key : packet_key (reg_packet reg) = feedback_key x.2;
  describes_size : sent_size (sent x.2) = size_ (rtp_packet (reg_packet reg));
  describes_time : send_time (sent x.2) = Millis (reg_ms reg);
  describes_route : network_route x.2 = reg_route reg;
}.

(** The unwrapper stands at the last number registered. *)
Definition numbered (log : list Registered) (u : SeqNumUnwrapper) : Prop :=
  match log with
  | [] => last_value_ u = None
  | reg :: _ => u = mkUnwrapper (reg_seq reg) (Some (u16 (reg_seq reg)))
  end.

(** The next number is near the last one: the pacer reorders packets a little. *)
Definition near (log : list Registered) (x : Z) : Prop :=
  match log with
  | [] => is_u16 x
  | reg :: _ => Z.abs (x - reg_seq reg) < 32768
  end.

Lemma Unwrap16_true log u x :
  numbered log u -> near log x ->
  Unwrap16 u (u16 x) = (x, mkUnwrapper x (Some (u16 x))).
Proof.
  unfold numbered, near, Unwrap. destruct log as [|reg log].
  - intros -> Hx. by rewrite u16_id.
  - intros -> Hx. cbn. unfold u16. rewrite (Delta_exact (W := 65536)) by exact Hx.
    do 2 f_equal; lia.
Qed.

Lemma u16_s32 x : u16 (s32 x) = u16 x.
Proof. unfold u16, s32. zdm. Qed.

Record adapter_ok (n : Z) (log : list Registered) (a : TransportFeedbackAdapter) : Prop := {
  aok_sorted : keys_sorted (sent_history_ a);
  aok_nodes : Forall node_ok (sent_history_ a);
  aok_bound : zlen (sent_history_ a) <= n;
  aok_flight : in_flight_ok (last_ack_seq_num_ a) (sent_history_ a) (in_flight_ a);
  aok_log : Forall (fun x => Exists (fun reg => describes reg x) log) (sent_history_ a);
  aok_map K k : rtp_to_transport_sequence_number_ a !! K = Some k ->
                Exists (fun reg => reg_seq reg = k /\ packet_key (reg_packet reg) = K) log;
  aok_distinct : NoDup (map reg_seq log);
  aok_numbered : numbered log (seq_num_unwrapper_ a);
  aok_sendable : Forall (fun reg => is_time (Millis (reg_ms reg))) log;
}.

(** The invariant is about five members. *)
Definition same_core (a b : TransportFeedbackAdapter) : Prop :=
  sent_history_ a = sent_history_ b /\ last_ack_seq_num_ a = last_ack_seq_num_ b /\
  in_flight_ a = in_flight_ b /\
  rtp_to_transport_sequence_number_ a = rtp_to_transport_sequence_number_ b /\
  seq_num_unwrapper_ a = seq_num_unwrapper_ b /\ network_route_ a = network_route_ b.

Lemma adapter_ok_core n log a b : same_core a b -> adapter_ok n log a -> adapter_ok n log b.
Proof.
  intros (E1 & E2 & E3 & E4 & E5 & _) [? ? ? ? ? ? ? ? ?].
  split; rewrite <- ?E1, <- ?E2, <- ?E3, <- ?E4, <- ?E5; done.
Qed.

Lemma prune_recent_core now a : same_core a (PruneRecentlyAcknowledgedPackets now a).
Proof. unfold PruneRecentlyAcknowledgedPackets. by destruct (prune_recent _ _ _). Qed.

Lemma prune_history_ok ct la h : forall m mp h' m' mp',
  prune_history ct la h m mp = (h', m', mp') ->
  Forall node_ok h -> zlen h < 2147483648 -> in_flight_ok la h m ->
  (exists pre, h = pre ++ h') /\ in_flight_ok la h' m' /\
  (forall K k, mp' !! K = Some k -> mp !! K = Some k).
Proof.
  induction h as [|[k p] h IH]; intros m mp h' m' mp'; cbn [prune_history].
  { intros [= <- <- <-] _ _ Hf. split_and!; [by exists []|done..]. }
  case_if; [|intros [= <- <- <-] _ _ Hf; split_and!; [by exists []|done..]].
  intros Hp Hn Hz Hf. pose proof (in_flight_drop la (k, p) h m Hn Hz Hf) as Hd.
  inversion Hn as [|?? [Hseq _] Hh]; subst. cbn [fst snd] in *. rewrite Hseq in Hp.
  apply IH in Hp as ((pre & ->) & Hf' & Hm); [|done|rewrite zlen_cons in Hz; lia|done].
  split_and!; [by exists ((k, p) :: pre)|done|].
  intros K j Hj. apply Hm in Hj. by apply lookup_delete_Some in Hj as [_ ?].
Qed.

Lemma history_fresh n log a x :
  adapter_ok n log a -> ~ In x (map reg_seq log) -> map_find x (sent_history_ a) = None.
Proof.
  intros Hok Hx. destruct (map_find x _) as [p|] eqn:E; [|done]. exfalso. apply Hx.
  apply map_find_In in E. pose proof (aok_log _ _ _ Hok) as Hl. rewrite List.Forall_forall in Hl.
  apply Hl, List.Exists_exists in E as (reg & Hr & Hd). apply in_map_iff. exists reg.
  by destruct Hd.
Qed.

(** A packet that can be registered after [log]. *)
Definition sendable (log : list Registered) (ms : Z) (packet : RtpPacketToSend) : Prop :=
  exists x, transport_sequence_number_ packet = Some x /\ ~ In x (map reg_seq log) /\
    near log x /\ 0 <= size_ (rtp_packet packet) < 2147483648 /\ is_time (Millis ms).

Lemma time_finite t : is_time t -> IsFinite t = true.
Proof. unfold is_time, IsFinite, IsInfinite. intros H. finite_tests. Qed.

Definition registered (log : list Registered) (ms : Z) (packet : RtpPacketToSend)
    (a : TransportFeedbackAdapter) : list Registered :=
  match transport_sequence_number_ packet with
  | Some x => mkRegistered x packet ms (network_route_ a) :: log
  | None => log
  end.

(** The members after [AddPacket]. *)
Lemma AddPacket_ok n log a packet pacing ms x :
  adapter_ok n log a -> n < 2147483648 -> sendable log ms packet ->
  transport_sequence_number_ packet = Some x ->
  let a' := AddPacket packet pacing 0 (Millis ms) a in
  exists history fb,
    sent_history_ a' = map_emplace x fb history /\ keys_sorted history /\
    (exists pre, sent_history_ a = pre ++ history) /\
    in_flight_ok (last_ack_seq_num_ a) history (in_flight_ a') /\
    last_ack_seq_num_ a' = last_ack_seq_num_ a /\ network_route_ a' = network_route_ a /\
    seq_num_unwrapper_ a' = mkUnwrapper x (Some (u16 x)) /\
    (forall K k, rtp_to_transport_sequence_number_ a' !! K = Some k ->
       rtp_to_transport_sequence_number_ a !! K = Some k \/ K = packet_key packet /\ k = x) /\
    send_time (sent fb) = PlusInfinity /\ sent_sequence_number (sent fb) = x /\
    sent_size (sent fb) = size_ (rtp_packet packet) /\ feedback_key fb = packet_key packet /\
    network_route fb = network_route_ a.
Proof.
  intros Hok Hn (x' & Ex & Hx & Hnear & Hs & Ht) Ex'. rewrite Ex' in Ex. injection Ex as <-.
  unfold AddPacket. rewrite Ex'. cbv zeta.
  pose proof (prune_recent_core (Millis ms) a) as Hcore.
  pose proof (adapter_ok_core _ _ _ _ Hcore Hok) as Hok1.
  destruct Hcore as (E1 & E2 & E3 & E4 & E5 & E6).
  set (a1 := PruneRecentlyAcknowledgedPackets (Millis ms) a) in *.
  rewrite (Unwrap16_true log _ x) by (apply Hok1 || done).
  cbn [set_unwrapper last_ack_seq_num_ sent_history_ in_flight_
    rtp_to_transport_sequence_number_ network_route_].
  set (fb := mkPacketFeedback _ _ _ _ _ _).
  destruct (prune_history _ _ _ _ _) as [[h' m'] mp'] eqn:Ep.
  pose proof (aok_bound _ _ _ Hok1).
  apply prune_history_ok in Ep as ((pre & Epre) & Hf' & Hmp); [|apply Hok1|lia|apply Hok1].
  exists h', fb. cbn. rewrite E1, E2, E6. split_and!; try done; [|by exists pre| |by rewrite Z.add_0_r].
  - eapply keys_sorted_app_r. rewrite <- Epre. apply Hok1.
  - intros K k. rewrite E4. destruct (mp' !! feedback_key fb) eqn:Em; [by auto|].
    intros H1. apply lookup_insert_Some in H1 as [[<- <-]|[_ H1]]; [by right|auto].
Qed.

Lemma flight_sum n log a key :
  adapter_ok n log a -> n < 2147483647 ->
  0 <= flight (in_flight_ a) key < 4611686016279904256.
Proof.
  intros Hok Hn. rewrite (aok_flight _ _ _ Hok key).
  pose proof (flying_sum key (last_ack_seq_num_ a) _ (aok_nodes _ _ _ Hok)).
  pose proof (aok_bound _ _ _ Hok). lia.
Qed.

(** A sum with one more packet. *)
Lemma in_flight_new la x fb h m :
  node_ok (x, fb) -> IsFinite (send_time (sent fb)) = true ->
  (forall key, 0 <= flight m key < 4611686016279904256) -> in_flight_ok la h m ->
  in_flight_ok la ((x, fb) :: h) (if la <? x then AddInFlightPacketBytes fb m else m).
Proof.
  intros [_ Hs] Hfin Hb Hf key. cbn [fst snd zsum] in *. destruct (Z.ltb_spec la x).
  - rewrite flight_add, Hf, flying_ahead, Hfin, andb_true_r by (done || apply Hb). lia.
  - by rewrite flying_behind, Hf.
Qed.

Lemma Register_ok n log a packet pacing ms :
  adapter_ok n log a -> n < 2147483646 -> sendable log ms packet ->
  exists reg a', registered log ms packet a = reg :: log /\
    RegisterPacketForFeedback ms packet pacing a = (mkRegistration ms true, a') /\
    adapter_ok (n + 1) (reg :: log) a' /\ network_route_ a' = network_route_ a /\
    Forall (fun y => y.1 = reg_seq reg \/ In y (sent_history_ a)) (sent_history_ a').
Proof.
  intros Hok Hn Hsend. pose proof Hsend as (x & Ex & Hx & Hnear & Hs & Ht).
  destruct (AddPacket_ok n log a packet pacing ms x Hok ltac:(lia) Hsend Ex)
    as (h & fb & Eh & Hsort & (pre & Epre) & Hf & Ela & Ert & Eu & Hmap & Est & Esq & Esz & Ek & Er).
  unfold registered, RegisterPacketForFeedback. rewrite Ex. eexists.
  set (a1 := AddPacket packet pacing 0 (Millis ms) a) in *.
  assert (map_find x h = None) as Hfresh.
  { pose proof (history_fresh _ _ _ _ Hok Hx) as H. rewrite Epre in H. clear -H.
    induction pre as [|[k p] pre IH]; [done|]. cbn in H. destruct (x =? k); [done|auto]. }
  unfold ProcessSentPacket. cbn [included_in_feedback packet_id orb].
  rewrite u16_s32, (Unwrap16_true (mkRegistered x packet ms (network_route_ a) :: log) _ x)
    by (exact Eu || (cbn; rewrite Z.sub_diag; done)).
  cbn [set_unwrapper sent_history_]. rewrite Eh, map_find_emplace, Hfresh, Z.eqb_refl by done.
  cbn [default]. unfold from_option, id. rewrite Est. change (negb (IsFinite PlusInfinity)) with true.
  cbv zeta iota. cbn [pending_untracked_size_ send_time_ms].
  set (it := mark_sent _ _ fb).
  assert (Hit : sent_sequence_number (sent it) = x /\ sent_size (sent it) = size_ (rtp_packet packet) /\
    send_time (sent it) = Millis ms /\ feedback_key it = packet_key packet /\
    network_route it = network_route_ a) by (subst it; cbn; auto).
  clearbody it. destruct Hit as (I1 & I2 & I3 & I4 & I5).
  (* the state before the last update of the node *)
  set (a2 := if last_ack_seq_num_ _ <? _ then _ else _).
  assert (Ha2 : last_ack_seq_num_ a2 = last_ack_seq_num_ a /\ network_route_ a2 = network_route_ a /\
    seq_num_unwrapper_ a2 = mkUnwrapper x (Some (u16 x)) /\
    rtp_to_transport_sequence_number_ a2 = rtp_to_transport_sequence_number_ a1 /\
    sent_history_ a2 = map_update x (fun _ => it) (map_emplace x fb h) /\
    in_flight_ a2 = if last_ack_seq_num_ a <? x
                    then AddInFlightPacketBytes it (in_flight_ a1) else in_flight_ a1).
  { subst a2. cbn. rewrite I1, Ela.
    by destruct (last_ack_seq_num_ a <? x); cbn; rewrite ?Ela, ?Ert, ?Eh. }
  clearbody a2. destruct Ha2 as (A1 & A2 & A3 & A4 & A5 & A6).
  set (it2 := mark_in_flight (GetOutstandingData a2) it).
  assert (Hperm : map_update x (fun _ => it2) (sent_history_ a2) ≡ₚ (x, it2) :: h)
    by (rewrite A5, map_update_update; by apply (map_update_emplace x (fun _ => it2))).
  assert (Hlen : zlen h <= n).
  { pose proof (aok_bound _ _ _ Hok) as H. rewrite Epre, zlen_app in H.
    pose proof (zlen_nonneg pre). lia. }
  assert (Hnodes : Forall node_ok h).
  { pose proof (aok_nodes _ _ _ Hok) as H. rewrite Epre in H. by apply List.Forall_app in H as [_ H]. }
  assert (Hnew : node_ok (x, it2)) by (split; [exact I1|cbn; rewrite I2; exact Hs]).
  eexists. split; [reflexivity|]. split; [reflexivity|]. split_and!.
  - split; cbn; rewrite ?A1, ?A2, ?A3, ?A4; try done.
    + rewrite A5, map_update_update. apply map_update_sorted. by apply map_emplace_sorted.
    + rewrite Hperm. by constructor.
    + rewrite (zlen_perm _ _ Hperm), zlen_cons. lia.
    + eapply in_flight_perm; [symmetry; exact Hperm|]. rewrite A6.
      apply (in_flight_new _ x it2); [done|cbn; rewrite I3; by apply time_finite| |done].
      intros key. rewrite (Hf key). pose proof (flying_sum key (last_ack_seq_num_ a) h Hnodes). lia.
    + rewrite Hperm. constructor.
      * constructor. split; cbn; by rewrite ?I2, ?I3, ?I5.
      * pose proof (aok_log _ _ _ Hok) as H. rewrite Epre in H. apply List.Forall_app in H as [_ H].
        eapply List.Forall_impl; [|exact H]. intros y Hy. by apply List.Exists_cons_tl.
    + intros K k Hk. apply Hmap in Hk as [Hk|[-> ->]].
      * apply List.Exists_cons_tl. by apply (aok_map _ _ _ Hok).
      * by constructor.
    + apply list.NoDup_cons. split; [by rewrite list_elem_of_In|apply Hok].
    + constructor; [done|apply Hok].
  - done.
  - cbn. rewrite Hperm. constructor; [by left|]. rewrite Epre. apply List.Forall_forall.
    intros y Hy. right. apply in_app_iff. by right.
Qed.

(** Every registered packet in the history has been sent. *)
Lemma history_finite n log a x :
  adapter_ok n log a -> In x (sent_history_ a) -> IsFinite (send_time (sent x.2)) = true.
Proof.
  intros Hok Hx. pose proof (aok_log _ _ _ Hok) as Hl. rewrite List.Forall_forall in Hl.
  apply Hl, List.Exists_exists in Hx as (reg & Hr & Hd). rewrite (describes_time _ _ Hd).
  apply time_finite. pose proof (aok_sendable _ _ _ Hok) as Ht.
  rewrite List.Forall_forall in Ht. by apply Ht.
Qed.

(** Taking a node, and its key, out of the history. *)
Lemma adapter_ok_erase n log a k p m mapping :
  adapter_ok n log a -> n < 2147483648 -> map_find k (sent_history_ a) = Some p ->
  (forall K j, mapping !! K = Some j -> rtp_to_transport_sequence_number_ a !! K = Some j) ->
  m = (if last_ack_seq_num_ a <? k then RemoveInFlightPacketBytes p (in_flight_ a)
       else in_flight_ a) ->
  adapter_ok n log (set_sent mapping (map_erase k (sent_history_ a))
                      (set_flight (last_ack_seq_num_ a) m a)).
Proof.
  intros Hok Hn Hk Hmap ->. pose proof Hok as [H1 H2 H3 H4 H5 H6 H7 H8 H9].
  pose proof (map_erase_perm k p _ H1 Hk) as Hp.
  split; cbn; try done.
  - by apply map_erase_sorted.
  - rewrite Hp in H2. by inversion H2.
  - rewrite (zlen_perm _ _ Hp), zlen_cons in H3. lia.
  - apply (in_flight_drop _ (k, p)); [by rewrite <- Hp|rewrite <- (zlen_perm _ _ Hp); lia|].
    by apply (in_flight_perm _ _ _ _ Hp).
  - rewrite Hp in H5. by inversion H5.
  - intros K j Hj. by apply H6, Hmap.
Qed.

(** The packet of a rollback has not been passed by an acknowledgement. *)
Definition rollback_ok (packet : RtpPacketToSend) (a : TransportFeedbackAdapter) : Prop :=
  forall k p, rtp_to_transport_sequence_number_ a !! packet_key packet = Some k ->
    map_find k (sent_history_ a) = Some p -> last_ack_seq_num_ a < k.

Lemma RemovePacket_ok n log a packet :
  adapter_ok n log a -> n < 2147483648 -> rollback_ok packet a ->
  adapter_ok n log (RemovePacket packet a).2 /\
  (forall x, In x (sent_history_ (RemovePacket packet a).2) -> In x (sent_history_ a)).
Proof.
  intros Hok Hn Hroll. unfold RemovePacket, rollback_ok in *. fold (packet_key packet) in *.
  destruct (rtp_to_transport_sequence_number_ a !! packet_key packet) as [k|]; [|done].
  assert (forall K j, delete (packet_key packet) (rtp_to_transport_sequence_number_ a) !! K = Some j ->
    rtp_to_transport_sequence_number_ a !! K = Some j) as Hmap
    by (intros K j H; by apply lookup_delete_Some in H as [_ ?]).
  destruct (map_find k (sent_history_ a)) as [p|] eqn:E; cbn [snd].
  - specialize (Hroll k p eq_refl E). split; [|intros x Hx; by apply map_erase_In in Hx as [? _]].
    eapply adapter_ok_erase; [done|done|exact E|exact Hmap|].
    rewrite (proj2 (Z.ltb_lt _ _)) by done.
    pose proof (history_finite n log a (k, p) Hok (map_find_In _ _ _ E)) as Hfin.
    cbn in Hfin. by rewrite Hfin.
  - split; [|done]. destruct Hok. split; cbn; try done. intros K j Hj. auto.
Qed.

(** Advancing the last acknowledged number. *)
Definition acked (hi : Z) (a : TransportFeedbackAdapter) : TransportFeedbackAdapter :=
  if last_ack_seq_num_ a <? hi then
    set_flight hi
      (fold_left (fun m '(_, p) => RemoveInFlightPacketBytes p m)
         (between (last_ack_seq_num_ a) hi (sent_history_ a)) (in_flight_ a)) a
  else a.

Lemma acked_ok n log a hi :
  adapter_ok n log a -> n < 2147483648 ->
  adapter_ok n log (acked hi a) /\ sent_history_ (acked hi a) = sent_history_ a /\
  rtp_to_transport_sequence_number_ (acked hi a) = rtp_to_transport_sequence_number_ a /\
  hi <= last_ack_seq_num_ (acked hi a) /\
  network_route_ (acked hi a) = network_route_ a /\
  current_offset_ (acked hi a) = current_offset_ a.
Proof.
  intros Hok Hn. unfold acked. destruct (Z.ltb_spec (last_ack_seq_num_ a) hi); [|by split_and!].
  split_and!; try done. pose proof (aok_bound _ _ _ Hok). destruct Hok. split; cbn; try done.
  apply in_flight_ack; [done|lia|lia|done].
Qed.

(** The sequence number a key is mapped to belongs to a packet of that key. *)
Lemma mapped_key n log a K k p :
  adapter_ok n log a -> rtp_to_transport_sequence_number_ a !! K = Some k ->
  In (k, p) (sent_history_ a) -> feedback_key p = K.
Proof.
  intros Hok Hk Hp. pose proof (aok_log _ _ _ Hok) as Hl. rewrite List.Forall_forall in Hl.
  apply Hl, List.Exists_exists in Hp as (reg & Hr & Hd).
  apply (aok_map _ _ _ Hok), List.Exists_exists in Hk as (reg' & Hr' & Hs & <-).
  change p with (snd (k, p)). rewrite <- (describes_key _ _ Hd).
  pose proof (describes_seq _ _ Hd) as Hs'. cbn in Hs'.
  assert (reg = reg') as ->; [|done]. pose proof (aok_distinct _ _ _ Hok) as Hnd.
  apply list_elem_of_In, list_elem_of_lookup in Hr as [i Hi].
  apply list_elem_of_In, list_elem_of_lookup in Hr' as [j Hj].
  assert (i = j) as ->; [|congruence].
  eapply (NoDup_lookup (map reg_seq log)); [done|..];
    rewrite list_lookup_fmap, ?Hi, ?Hj; cbn; [done|congruence].
Qed.

Lemma RetrievePacketFeedback_ok n log K received a r a' :
  adapter_ok n log a -> n < 2147483648 ->
  RetrievePacketFeedback K received a = (r, a') ->
  adapter_ok n log a' /\ network_route_ a' = network_route_ a /\
  current_offset_ a' = current_offset_ a /\
  (forall x, In x (sent_history_ a') -> In x (sent_history_ a)) /\
  match r with
  | Some p => exists k, In (k, p) (sent_history_ a) /\ feedback_key p = K /\
      (received = true -> forall x, In x (sent_history_ a') -> x.1 <> k)
  | None => True
  end.
Proof.
  intros Hok Hn. unfold RetrievePacketFeedback.
  destruct (rtp_to_transport_sequence_number_ a !! K) as [k|] eqn:Ek; [|by intros [= <- <-]].
  unfold RetrieveBySequenceNumber. fold (acked k a).
  destruct (acked_ok n log a k Hok Hn) as (Hok1 & Eh & Em & Hle & Er & Eo). cbv zeta.
  rewrite Eh. destruct (map_find k (sent_history_ a)) as [p|] eqn:Ep.
  2: { intros [= <- <-]. rewrite Eh. by split_and!. }
  assert (In (k, p) (sent_history_ a)) as Hin by (by apply map_find_In).
  pose proof (history_finite _ _ _ _ Hok Hin) as Hfin. unfold IsFinite in Hfin. cbn in Hfin.
  apply negb_true_iff in Hfin. rewrite Hfin.
  pose proof (mapped_key _ _ _ _ _ _ Hok Ek Hin) as HK.
  destruct received; intros [= <- <-].
  - assert (adapter_ok n log (set_sent (delete (feedback_key p)
      (rtp_to_transport_sequence_number_ (acked k a))) (map_erase k (sent_history_ a)) (acked k a))) as H.
    { rewrite <- Eh in Ep |- *.
      eapply (adapter_ok_core _ _ (set_sent _ _ (set_flight (last_ack_seq_num_ (acked k a))
        (in_flight_ (acked k a)) (acked k a)))); [by split_and!|].
      eapply adapter_ok_erase; [done|done|exact Ep| |].
      - intros J j Hj. by apply lookup_delete_Some in Hj as [_ ?].
      - by rewrite (proj2 (Z.ltb_ge _ _)). }
    split_and!; [done|done|done| |].
    + cbn. intros x Hx. by apply map_erase_In in Hx as [? _].
    + exists k. split_and!; [done..|]. cbn. intros _ x Hx. by apply map_erase_In in Hx as [_ ?].
  - rewrite Eh. split_and!; [done..|]. by exists k.
Qed.

(** ** The results of a report *)

(** A result is true: it answers an entry of the report, for a packet that was
    registered, with its size and send time, on the current route. *)
Record result_true (log : list Registered) (route : NetworkRoute) (offset : Z)
    (packets : list PacketInfo) (r : PacketResult) : Prop := {
  true_entry : exists i reg, In i packets /\ In reg log /\
    (ssrc i, sequence_number i) = packet_key (reg_packet reg) /\
    sent_sequence_number (sent_packet r) = reg_seq reg /\
    sent_size (sent_packet r) = size_ (rtp_packet (reg_packet reg)) /\
    send_time (sent_packet r) = Millis (reg_ms reg) /\
    route_eq (reg_route reg) route = true /\ result_ecn r = ecn i /\
    result_receive_time r =
      (if IsFinite (arrival_time_offset i) then timestamp_sub offset (arrival_time_offset i)
       else PlusInfinity);
}.

(** The sequence numbers of the results that say "received". *)
Definition received_seqs (rs : list PacketResult) : list Z :=
  map (fun r => sent_sequence_number (sent_packet r)) (List.filter IsReceived rs).

Lemma received_seqs_perm rs rs' : rs ≡ₚ rs' -> received_seqs rs ≡ₚ received_seqs rs'.
Proof.
  unfold received_seqs. intros H. apply Permutation_map.
  induction H as [|x l l' _ IH|x y l|]; cbn; [done| | |by etransitivity].
  - case_match; [by f_equiv|done].
  - repeat case_match; try done. apply perm_swap.
Qed.

Definition keys (a : TransportFeedbackAdapter) : list Z := map fst (sent_history_ a).

Lemma result_true_weaken log route offset packets packets' r :
  (forall i, In i packets -> In i packets') ->
  result_true log route offset packets r -> result_true log route offset packets' r.
Proof. intros H [(i & reg & Hi & ?)]. split. exists i, reg. auto. Qed.

(** What the loop adds to the results. *)
Record loop_ok (n : Z) (log : list Registered) (a a' : TransportFeedbackAdapter)
    (packets : list PacketInfo) (rs : list PacketResult) : Prop := {
  loop_adapter : adapter_ok n log a';
  loop_route : network_route_ a' = network_route_ a;
  loop_offset : current_offset_ a' = current_offset_ a;
  loop_history x : In x (sent_history_ a') -> In x (sent_history_ a);
  loop_true : Forall (result_true log (network_route_ a) (current_offset_ a) packets) rs;
  loop_once : NoDup (received_seqs rs);
  loop_gone k : In k (received_seqs rs) -> In k (keys a) /\ ~ In k (keys a');
}.

Lemma keys_incl a a' :
  (forall x, In x (sent_history_ a') -> In x (sent_history_ a)) ->
  forall k, In k (keys a') -> In k (keys a).
Proof.
  intros H k. unfold keys. rewrite !in_map_iff. intros (x & Hx & Hin). exists x. auto.
Qed.

Lemma packet_result_true n log a K k p i packets :
  adapter_ok n log a -> In (k, p) (sent_history_ a) -> feedback_key p = K ->
  K = (ssrc i, sequence_number i) -> In i packets ->
  route_eq (network_route p) (network_route_ a) = true ->
  sent_sequence_number (sent p) = k /\
  result_true log (network_route_ a) (current_offset_ a) packets
    (packet_result i p (current_offset_ a)).
Proof.
  intros Hok Hp HK Hi Hin Hroute.
  pose proof (aok_nodes _ _ _ Hok) as Hn. rewrite List.Forall_forall in Hn.
  destruct (Hn _ Hp) as [Hs _]. split; [exact Hs|].
  pose proof (aok_log _ _ _ Hok) as Hl. rewrite List.Forall_forall in Hl.
  apply Hl, List.Exists_exists in Hp as (reg & Hr & [D1 D2 D3 D4 D5]). cbn in *.
  split. exists i, reg. unfold packet_result. cbn. rewrite <- D5. split_and!; try done; congruence.
Qed.

Lemma feedback_packets_loop_ok n log t packets : forall l a l' a',
  adapter_ok n log a -> n < 2147483648 ->
  feedback_packets_loop t packets l a = (l', a') ->
  exists rs, packet_result_vector l' = packet_result_vector l ++ rs /\
    loop_ok n log a a' packets rs.
Proof.
  induction packets as [|i packets IH]; intros l a l' a' Hok Hn; cbn [feedback_packets_loop].
  { intros [= <- <-]. exists []. rewrite app_nil_r. split; [done|].
    split; try done. constructor. }
  destruct (RetrievePacketFeedback _ _ a) as [r a1] eqn:Er.
  apply (RetrievePacketFeedback_ok n log) in Er as (Hok1 & Hroute & Hoff & Hincl & Hr); [|done..].
  assert (Hskip : forall l a2, same_core a1 a2 -> current_offset_ a2 = current_offset_ a1 ->
    feedback_packets_loop t packets l a2 = (l', a') ->
    exists rs, packet_result_vector l' = packet_result_vector l ++ rs /\
      loop_ok n log a a' (i :: packets) rs /\
      (forall k, In k (received_seqs rs) -> In k (keys a1)) /\
      (forall k, In k (keys a') -> In k (keys a1))).
  { intros l0 a2 Hcore Ho2 Hl. pose proof (adapter_ok_core _ _ _ _ Hcore Hok1) as Hok2.
    destruct Hcore as (Eh & _ & _ & _ & _ & Ert).
    destruct (IH _ _ _ _ Hok2 Hn Hl) as (rs & E & [L1 L2 L3 L4 L5 L6 L7]).
    exists rs. split; [done|]. rewrite <- Ert in *. rewrite Ho2, Hoff, Hroute in *.
    assert (Hk : forall k, In k (keys a2) -> In k (keys a1)) by (unfold keys; by rewrite <- Eh).
    split; [split|split]; try done.
    - intros x Hx. apply Hincl. rewrite Eh. auto.
    - eapply List.Forall_impl; [|exact L5]. intros r0. apply result_true_weaken. by right.
    - intros k Hin. destruct (L7 k Hin) as [H1 H2]. split; [|done].
      eapply keys_incl; [exact Hincl|]. auto.
    - intros k Hin. by apply Hk, L7.
    - intros k Hin. apply Hk. by eapply keys_incl. }
  destruct r as [p|].
  2: { intros Hl. apply Hskip in Hl as (rs & E & H & _); [|by split_and!|done]. by exists rs. }
  destruct Hr as (k & Hk & HK & Hgone).
  set (a2 := if IsFinite (arrival_time_offset i) then _ else _).
  assert (same_core a1 a2 /\ current_offset_ a2 = current_offset_ a1) as [Hcore Ho2]
    by (subst a2; destruct (IsFinite _); by split_and!).
  clearbody a2. assert (network_route_ a2 = network_route_ a) as Hroute2
    by (destruct Hcore as (_ & _ & _ & _ & _ & <-); done).
  rewrite Hroute2. destruct (route_eq _ _) eqn:Eroute; cbn [negb].
  2: { intros Hl. apply Hskip in Hl as (rs & E & H & _); [|done..]. by exists rs. }
  intros Hl. apply Hskip in Hl as (rs & E & [L1 L2 L3 L4 L5 L6 L7] & Hin1 & Hin2); [|done..].
  cbn [packet_result_vector] in E. rewrite Ho2, Hoff in E.
  destruct (packet_result_true n log a _ k p i (i :: packets) Hok Hk HK eq_refl (or_introl eq_refl) Eroute)
    as [Hs Htrue].
  exists (packet_result i p (current_offset_ a) :: rs). rewrite <- app_assoc in E. split; [exact E|].
  assert (Hrec : received_seqs (packet_result i p (current_offset_ a) :: rs) = received_seqs rs \/
    received_seqs (packet_result i p (current_offset_ a) :: rs) = k :: received_seqs rs /\
    ~ In k (keys a1)).
  { unfold received_seqs. cbn [List.filter]. destruct (IsReceived _) eqn:Eir; [right|by left].
    split; [cbn; by rewrite Hs|]. unfold IsReceived, packet_result in Eir. cbn in Eir.
    destruct (IsFinite (arrival_time_offset i)); [|done].
    intros Hc. apply in_map_iff in Hc as (x & Hx & Hc). by apply (Hgone eq_refl x Hc). }
  split; try done.
  - by constructor.
  - destruct Hrec as [->|[-> Hnk]]; [done|]. apply list.NoDup_cons.
    rewrite list_elem_of_In. auto.
  - intros j. destruct Hrec as [->|[-> Hnk]]; [apply L7|]. intros [<-|Hj]; [|by apply L7].
    split; [|auto]. apply in_map_iff. by exists (k, p).
Qed.

#[export] Instance send_order_weak : WeakOrder send_order.
Proof. split; unfold send_order; intros; lia. Qed.

(** ** Runs *)

Inductive adapter_event :=
  | Sending (packet : RtpPacketToSend) (pacing : PacedPacketInfo) (clock_ms : Z)
  | SendFailed (packet : RtpPacketToSend)
  | SentUntracked (packet : RtpPacketToSend) (clock_ms : Z)
  | GotFeedback (feedback : Ccfb) (feedback_receive_time : Z)
  | RouteChanged (route : NetworkRoute).

(** What the environment respects: the pacer numbers packets afresh and nearly
    in order, a failed send is rolled back before its number is passed, and the
    clock shows times. *)
Definition event_allowed (log : list Registered) (a : TransportFeedbackAdapter)
    (e : adapter_event) : Prop :=
  match e with
  | Sending packet _ clock_ms =>
      transport_sequence_number_ packet = None \/ sendable log clock_ms packet
  | SendFailed packet => rollback_ok packet a
  | GotFeedback _ t => is_time t
  | _ => True
  end.

Section runs.
Context {sorts : StdSort}.

Definition adapter_step (e : adapter_event) (a : TransportFeedbackAdapter)
    : list (Ccfb * TransportPacketsFeedback) * TransportFeedbackAdapter :=
  match e with
  | Sending packet pacing clock_ms => ([], (RegisterPacketForFeedback clock_ms packet pacing a).2)
  | SendFailed packet => ([], RollbackPacketFeedback packet (mkRegistration 0 true) a)
  | SentUntracked packet clock_ms => ([], OnSentPacket packet (mkRegistration clock_ms false) a)
  | GotFeedback feedback t =>
      let '(msg, a) := ProcessCongestionControlFeedback feedback t a in
      (match msg with Some msg => [(feedback, msg)] | None => [] end, a)
  | RouteChanged route => ([], SetNetworkRoute route a)
  end.

Definition log_step (e : adapter_event) (a : TransportFeedbackAdapter) (log : list Registered)
    : list Registered :=
  match e with Sending packet _ clock_ms => registered log clock_ms packet a | _ => log end.

(** The messages, the final state and the packets registered. *)
Fixpoint adapter_run (evs : list adapter_event) (a : TransportFeedbackAdapter)
    (log : list Registered)
    : list (Ccfb * TransportPacketsFeedback) * TransportFeedbackAdapter * list Registered :=
  match evs with
  | [] => ([], a, log)
  | e :: evs' =>
      let '(out, a') := adapter_step e a in
      let '(outs, a', log') := adapter_run evs' a' (log_step e a log) in
      (out ++ outs, a', log')
  end.

Fixpoint run_allowed (evs : list adapter_event) (a : TransportFeedbackAdapter)
    (log : list Registered) : Prop :=
  match evs with
  | [] => True
  | e :: evs' =>
      event_allowed log a e /\ run_allowed evs' (adapter_step e a).2 (log_step e a log)
  end.

(** The route that was set last. *)
Definition route_at (evs : list adapter_event) : NetworkRoute :=
  foldl (fun route e => match e with RouteChanged route => route | _ => route end) new_route evs.

(** The clock of the reports: the time at which the first one came, moved on as
    the other peer's clock moves from report to report, and set anew when that
    ran backwards; with the last report's time. *)
Definition clock_step (clock : option (Z * Z)) (e : adapter_event) : option (Z * Z) :=
  match e with
  | GotFeedback feedback t =>
      match packets_ feedback with
      | [] => clock
      | _ =>
          let time := report_timestamp_compact_ntp_ feedback in
          Some (match clock with
                | None => t
                | Some (offset, last) =>
                    let passed := CompactNtpIntervalToTimeDelta (u32 (time - last)) in
                    if passed <? 0 then t else offset + passed
                end, time)
      end
  | _ => clock
  end.

Definition report_clock (evs : list adapter_event) : option (Z * Z) := foldl clock_step None evs.

(** A message whose results are true and in the order of sending. *)
Definition message_true (log : list Registered) (route : NetworkRoute) (offset : Z)
    (out : Ccfb * TransportPacketsFeedback) : Prop :=
  in_order send_order (packet_feedbacks out.2) /\
  Forall (result_true log route offset (packets_ out.1)) (packet_feedbacks out.2).

Definition received_of (outs : list (Ccfb * TransportPacketsFeedback)) : list Z :=
  flat_map (fun out => received_seqs (packet_feedbacks out.2)) outs.

(** One step: what it says is true, and what it reports as received was in the
    history and is there no more. *)
Record step_ok (n : Z) (log : list Registered) (e : adapter_event)
    (a : TransportFeedbackAdapter) (out : list (Ccfb * TransportPacketsFeedback))
    (a' : TransportFeedbackAdapter) : Prop := {
  step_adapter : adapter_ok (n + 1) (log_step e a log) a';
  step_true : Forall (message_true log (network_route_ a) (current_offset_ a')) out;
  step_once : NoDup (received_of out);
  step_gone k : In k (received_of out) -> In k (keys a) /\ ~ In k (keys a');
  step_keys k : In k (keys a') -> In k (keys a) \/ ~ In k (map reg_seq log);
  step_log : exists new, log_step e a log = new ++ log;
}.

Lemma adapter_ok_le n n' log a : n <= n' -> adapter_ok n log a -> adapter_ok n' log a.
Proof. intros H []. split; try done. lia. Qed.

Lemma silent_step n log e a a' :
  log_step e a log = log -> adapter_ok n log a' ->
  (forall x, In x (sent_history_ a') -> In x (sent_history_ a)) -> step_ok n log e a [] a'.
Proof.
  intros E H Hincl. split; rewrite ?E; try done.
  - apply (adapter_ok_le n); [lia|done].
  - constructor.
  - intros k Hk. left. by eapply keys_incl.
  - by exists [].
Qed.

Lemma UpdateOffset_core t ts a : same_core a (UpdateOffset t ts a).
Proof. done. Qed.

Lemma ProcessFeedback_ok n log a feedback t msg a' :
  adapter_ok n log a -> n < 2147483648 ->
  ProcessCongestionControlFeedback feedback t a = (msg, a') ->
  step_ok n log (GotFeedback feedback t) a
    (match msg with Some msg => [(feedback, msg)] | None => [] end) a'.
Proof.
  intros Hok Hn. unfold ProcessCongestionControlFeedback.
  pose proof (prune_recent_core t a) as Hc. pose proof (adapter_ok_core _ _ _ _ Hc Hok) as Hok1.
  set (a1 := PruneRecentlyAcknowledgedPackets t a) in *. cbv zeta.
  destruct (packets_ feedback) as [|i0 is0] eqn:Ep.
  { intros [= <- <-]. apply silent_step; [done..|]. destruct Hc as [E _]. by rewrite E. }
  rewrite <- Ep. set (a2 := UpdateOffset t _ a1).
  pose proof (adapter_ok_core _ _ _ _ (UpdateOffset_core t (report_timestamp_compact_ntp_ feedback) a1) Hok1) as Hok2.
  fold a2 in Hok2.
  assert (sent_history_ a2 = sent_history_ a) as Eh by (destruct Hc as [E _]; by rewrite E).
  assert (keys a2 = keys a) as Ek by (unfold keys; by rewrite Eh).
  destruct (feedback_packets_loop _ _ _ a2) as [l a3] eqn:El.
  apply (feedback_packets_loop_ok n log) in El as (rs & E & [L1 L2 L3 L4 L5 L6 L7]); [|done..].
  cbn [packet_result_vector app] in E. rewrite E.
  pose proof (std_sort_perm send_order rs) as Hperm.
  pose proof (std_sort_order send_order rs) as Hord.
  intros [= <- <-]. unfold ToTransportFeedback.
  destruct (std_sort send_order rs) as [|r rs'] eqn:Es; [apply silent_step; [done..|]; by rewrite <- Eh|].
  split; cbn [log_step].
  - apply (adapter_ok_le n); [lia|done].
  - apply list.Forall_singleton. split; [exact Hord|]. cbn.
    replace (network_route_ a) with (network_route_ a2) by (by destruct Hc as (_ & _ & _ & _ & _ & ->)).
    rewrite L3. by rewrite Hperm.
  - cbn. rewrite app_nil_r. by rewrite (received_seqs_perm _ _ Hperm).
  - cbn. rewrite app_nil_r. intros k Hk. rewrite <- Ek. apply L7.
    by rewrite <- (received_seqs_perm _ _ Hperm).
  - intros k Hk. left. rewrite <- Ek. by eapply keys_incl.
  - by exists [].
Qed.

Lemma adapter_step_ok n log e a :
  adapter_ok n log a -> n < 2147483646 -> event_allowed log a e ->
  step_ok n log e a (adapter_step e a).1 (adapter_step e a).2.
Proof.
  intros Hok Hn He. destruct e as [packet pacing ms|packet|packet ms|feedback t|route];
    cbn [adapter_step event_allowed fst snd] in *.
  - destruct He as [He|He].
    + unfold RegisterPacketForFeedback. rewrite He. apply silent_step; [|done..].
      cbn. unfold registered. by rewrite He.
    + destruct (Register_ok n log a packet pacing ms Hok Hn He)
        as (reg & a' & Elog & -> & Hok' & _ & Hnew). cbn [snd].
      split; cbn [log_step]; rewrite ?Elog; try done; [constructor| |by exists [reg]].
      destruct He as (x & Ex & Hx & _). unfold registered in Elog. rewrite Ex in Elog.
      injection Elog as <-. intros k Hk. apply in_map_iff in Hk as (y & <- & Hy).
      rewrite List.Forall_forall in Hnew. destruct (Hnew y Hy) as [->|Hin]; [by right|left].
      by apply in_map.
  - apply silent_step; [done|..]; by apply (RemovePacket_ok n log a packet Hok ltac:(lia) He).
  - apply silent_step; [done| |done]. by apply (adapter_ok_core _ _ a).
  - destruct (ProcessCongestionControlFeedback feedback t a) as [msg a'] eqn:E.
    apply (ProcessFeedback_ok n log) in E; [done|done|lia].
  - apply silent_step; [done| |done]. by destruct Hok.
Qed.

Lemma history_logged n log a k : adapter_ok n log a -> In k (keys a) -> In k (map reg_seq log).
Proof.
  intros Hok Hk. apply in_map_iff in Hk as ([k' p] & <- & Hk).
  pose proof (aok_log _ _ _ Hok) as Hl. rewrite List.Forall_forall in Hl.
  apply Hl, List.Exists_exists in Hk as (reg & Hr & Hd). apply in_map_iff. exists reg.
  by destruct Hd.
Qed.

Lemma adapter_run_ok evs : forall n log a outs a' log',
  adapter_ok n log a -> n + zlen evs < 2147483646 -> run_allowed evs a log ->
  adapter_run evs a log = (outs, a', log') ->
  adapter_ok (n + zlen evs) log' a' /\ (exists new, log' = new ++ log) /\
  NoDup (received_of outs) /\
  (forall k, In k (received_of outs) -> In k (keys a) \/ ~ In k (map reg_seq log)).
Proof.
  induction evs as [|e evs IH]; intros n log a outs a' log' Hok Hn Hall; cbn [adapter_run].
  { intros [= <- <- <-]. rewrite zlen_nil, Z.add_0_r.
    split_and!; [done|by exists []|constructor|done]. }
  destruct Hall as [He Hall]. rewrite zlen_cons in Hn. pose proof (zlen_nonneg evs).
  pose proof (adapter_step_ok n log e a Hok ltac:(lia) He) as [S1 S2 S3 S4 S6 (new & S5)].
  destruct (adapter_step e a) as [out a1]. cbn [fst snd] in *.
  destruct (adapter_run evs a1 _) as [[outs1 a2] log2] eqn:Er. intros [= <- <- <-].
  destruct (IH _ _ _ _ _ _ S1 ltac:(lia) Hall Er) as (Hok2 & (new2 & Elog) & Hnd & Hk).
  split_and!.
  - rewrite zlen_cons. by replace (n + (1 + zlen evs)) with (n + 1 + zlen evs) by lia.
  - exists (new2 ++ new). by rewrite <- app_assoc, Elog, S5.
  - unfold received_of. rewrite flat_map_app. apply list.NoDup_app. split_and!; [done| |done].
    intros k Hk1 Hk2. apply list_elem_of_In in Hk1, Hk2. apply S4 in Hk1 as [Hin Hout].
    apply Hk in Hk2 as [Hk2|Hk2]; [done|]. apply Hk2. rewrite S5, map_app, in_app_iff. right.
    by apply (history_logged n log a).
  - intros k Hin. unfold received_of in Hin. rewrite flat_map_app, in_app_iff in Hin.
    destruct Hin as [Hin|Hin]; [left; by apply S4|].
    destruct (in_dec Z.eq_dec k (map reg_seq log)) as [Hl|]; [|by right]. left.
    apply Hk in Hin as [Hin|Hin].
    + by destruct (S6 k Hin).
    + exfalso. apply Hin. rewrite S5, map_app, in_app_iff. by right.
Qed.
End runs.

Lemma new_adapter_ok : adapter_ok 0 [] new_adapter.
Proof.
  split; cbn; try done; try constructor.
Qed.

(** ** Lemmas: the route and the clock at a report *)

(** What [SetNetworkRoute] and [UpdateOffset] write, and nothing else does. *)
Definition setting (a : TransportFeedbackAdapter) : NetworkRoute * (Z * option Z) :=
  (network_route_ a, (current_offset_ a, last_feedback_compact_ntp_time_ a)).

Lemma prune_recent_setting now a : setting (PruneRecentlyAcknowledgedPackets now a) = setting a.
Proof. unfold PruneRecentlyAcknowledgedPackets. by destruct (prune_recent _ _ _). Qed.

Lemma AddPacket_setting packet pacing overhead now a : setting (AddPacket packet pacing overhead now a) = setting a.
Proof.
  unfold AddPacket. destruct (transport_sequence_number_ packet); [|done]. cbv zeta. rewrite <- (prune_recent_setting now a).
  destruct (Unwrap _ _ _) as [seq u]. by destruct (prune_history _ _ _ _ _) as [[h m] mp].
Qed.

Lemma ProcessSentPacket_setting p a : setting (ProcessSentPacket p a).2 = setting a.
Proof.
  unfold ProcessSentPacket. cbv zeta. destruct (_ || _); [|by destruct (included_in_allocation p)].
  destruct (Unwrap _ _ _) as [seq u]. destruct (map_find _ _) as [it|]; [|done]. destruct (negb _); [|done]. by destruct (_ <? _).
Qed.

Lemma RemovePacket_setting packet a : setting (RemovePacket packet a).2 = setting a.
Proof. unfold RemovePacket. destruct (_ !! _); [|done]. by destruct (map_find _ _). Qed.

Lemma Retrieve_setting K received a : setting (RetrievePacketFeedback K received a).2 = setting a.
Proof.
  unfold RetrievePacketFeedback. destruct (_ !! _) as [k|]; [|done]. unfold RetrieveBySequenceNumber. cbv zeta.
  destruct (last_ack_seq_num_ a <? k); (destruct (map_find _ _); [|done]); (destruct (IsInfinite _); [done|]); by destruct received.
Qed.

Lemma feedback_loop_setting t packets : forall l a, setting (feedback_packets_loop t packets l a).2 = setting a.
Proof.
  induction packets as [|i packets IH]; intros l a; cbn [feedback_packets_loop]; [done|].
  pose proof (Retrieve_setting (ssrc i, sequence_number i) (IsFinite (arrival_time_offset i)) a) as Hr.
  destruct (RetrievePacketFeedback _ _ a) as [[p|] a1]; cbn [snd] in Hr; [|by rewrite IH]. rewrite <- Hr.
  destruct (IsFinite _); destruct (negb _); by rewrite IH.
Qed.

Section setting.
Context {sorts : StdSort}.

Lemma feedback_setting feedback t a :
  setting (ProcessCongestionControlFeedback feedback t a).2 =
    match packets_ feedback with [] => setting a | _ => setting (UpdateOffset t (report_timestamp_compact_ntp_ feedback) a) end.
Proof.
  unfold ProcessCongestionControlFeedback. cbv zeta. pose proof (prune_recent_setting t a) as Hp.
  destruct (packets_ feedback) as [|i0 is0] eqn:E; [done|]. rewrite <- E.
  pose proof (feedback_loop_setting t (packets_ feedback) (mkLoop 0 0 0 true [])
    (UpdateOffset t (report_timestamp_compact_ntp_ feedback) (PruneRecentlyAcknowledgedPackets t a))) as Hl.
  destruct (feedback_packets_loop _ _ _ _) as [l a3]. cbn [snd] in *. rewrite Hl. unfold setting in *. injection Hp as H1 H2 H3.
  unfold UpdateOffset. cbn. by rewrite H1, H2, H3.
Qed.

Lemma step_setting e a :
  setting (adapter_step e a).2 =
    match e with
    | RouteChanged route => (route, (setting a).2)
    | GotFeedback feedback t =>
        match packets_ feedback with [] => setting a | _ => setting (UpdateOffset t (report_timestamp_compact_ntp_ feedback) a) end
    | _ => setting a
    end.
Proof.
  destruct e as [packet pacing ms|packet|packet ms|feedback t|route]; cbn [adapter_step snd].
  - unfold RegisterPacketForFeedback. destruct (transport_sequence_number_ packet); [|done].
    match goal with |- context [ProcessSentPacket ?p ?b] => pose proof (ProcessSentPacket_setting p b) as H; destruct (ProcessSentPacket p b) end.
    cbn [snd] in *. by rewrite H, AddPacket_setting.
  - apply RemovePacket_setting.
  - apply ProcessSentPacket_setting.
  - rewrite <- feedback_setting. by destruct (ProcessCongestionControlFeedback feedback t a).
  - done.
Qed.

Lemma adapter_run_app b c : forall a log,
  adapter_run (b ++ c) a log =
    let '(o1, a1, l1) := adapter_run b a log in let '(o2, a2, l2) := adapter_run c a1 l1 in (o1 ++ o2, a2, l2).
Proof.
  induction b as [|e b IH]; intros a log; cbn [app adapter_run].
  - by destruct (adapter_run c a log) as [[? ?] ?].
  - destruct (adapter_step e a) as [out a1]. rewrite IH. destruct (adapter_run b a1 _) as [[o1 a2] l1].
    destruct (adapter_run c a2 l1) as [[o2 a3] l2]. by rewrite app_assoc.
Qed.

Lemma run_allowed_app b c : forall a log,
  run_allowed (b ++ c) a log <->
    run_allowed b a log /\ let '(_, a1, l1) := adapter_run b a log in run_allowed c a1 l1.
Proof.
  induction b as [|e b IH]; intros a log; cbn [app run_allowed adapter_run]; [by intuition|].
  rewrite IH. destruct (adapter_step e a) as [out a1]. cbn [snd]. destruct (adapter_run b a1 _) as [[o1 a2] l1]. by intuition.
Qed.

(** An interval of the compact time is less than half of its range. *)
Definition kMaxInterval : Z := 32768000000.
Definition kMaxReports : Z := 67108864.

Lemma interval_bound x : 0 <= CompactNtpIntervalToTimeDelta (u32 x) -> CompactNtpIntervalToTimeDelta (u32 x) <= kMaxInterval.
Proof.
  unfold CompactNtpIntervalToTimeDelta, kMaxInterval. pose proof (u32_range x) as Hx. unfold is_u32 in Hx.
  change (Z.shiftl 1 16) with 65536. change (Z.shiftl 1 32) with 4294967296. rewrite DivideRoundToNearest_floor by lia.
  destruct (Z.ltb_spec 2147483648 (u32 x)); zdm; lia.
Qed.

Definition clock_is (n : Z) (clock : option (Z * Z)) (a : TransportFeedbackAdapter) : Prop :=
  match clock with
  | None => current_offset_ a = MinusInfinity /\ last_feedback_compact_ntp_time_ a = None
  | Some (offset, last) => current_offset_ a = offset /\ last_feedback_compact_ntp_time_ a = Some last /\
      0 <= offset < 2305843009213693952 + n * kMaxInterval
  end.

Lemma clock_is_more n m clock a b : n <= m -> (setting a).2 = (setting b).2 -> clock_is n clock a -> clock_is m clock b.
Proof.
  unfold setting, clock_is, kMaxInterval. cbn [snd]. intros H [= -> ->]. destruct clock as [[offset last]|]; [|done].
  intros (H1 & H2 & H3). split; [done|]. split; [done|lia].
Qed.

Lemma UpdateOffset_clock n clock feedback t a :
  packets_ feedback <> [] -> is_time t -> 0 <= n < kMaxReports -> clock_is n clock a ->
  clock_is (n + 1) (clock_step clock (GotFeedback feedback t)) (UpdateOffset t (report_timestamp_compact_ntp_ feedback) a).
Proof.
  intros Hp Ht Hn Hc. cbn [clock_step]. destruct (packets_ feedback) as [|i0 is0]; [done|]. unfold clock_is in *.
  unfold UpdateOffset, is_time, kMaxReports, kMaxInterval in *. cbn [set_offset current_offset_ last_feedback_compact_ntp_time_].
  destruct clock as [[offset last]|]; destruct Hc as [-> H2]; [destruct H2 as [-> Ho]|rewrite H2].
  - assert (IsInfinite offset = false) as -> by (unfold IsInfinite; finite_tests).
    pose proof (interval_bound (report_timestamp_compact_ntp_ feedback - last)) as Hb. unfold kMaxInterval in Hb.
    destruct (Z.ltb_spec (CompactNtpIntervalToTimeDelta (u32 (report_timestamp_compact_ntp_ feedback - last))) 0);
      [split_and!; [done..|lia|lia]|].
    rewrite timestamp_add_small by (unfold small; lia). split_and!; [done..|lia|lia].
  - change (IsInfinite MinusInfinity) with true. cbn [Z.ltb Z.compare]. rewrite timestamp_add_small by (unfold small; lia).
    rewrite Z.add_0_r. split_and!; [done..|lia|lia].
Qed.

Lemma setting_run evs log a outs :
  run_allowed evs new_adapter [] -> zlen evs <= kMaxReports -> adapter_run evs new_adapter [] = (outs, a, log) ->
  network_route_ a = route_at evs /\ clock_is (zlen evs) (report_clock evs) a.
Proof.
  revert log a outs. induction evs as [|e evs IH] using rev_ind; intros log a outs Hall Hn.
  { intros [= <- <- <-]. done. }
  apply run_allowed_app in Hall as [Hall He]. rewrite adapter_run_app. rewrite zlen_app in Hn |- *. change (zlen [e]) with 1 in *.
  destruct (adapter_run evs new_adapter []) as [[o1 a1] l1]. destruct He as [He _]. pose proof (zlen_nonneg evs).
  destruct (IH l1 a1 o1 Hall ltac:(lia) eq_refl) as [Hr Hc]. cbn [adapter_run]. pose proof (step_setting e a1) as Hs.
  destruct (adapter_step e a1) as [out a2]. cbn [snd] in Hs. intros [= <- <- <-].
  unfold route_at, report_clock in *. rewrite !foldl_app. cbn [foldl].
  destruct e as [packet pacing ms|packet|packet ms|feedback t|route]; cbn [event_allowed] in He.
  1-3: by split; [cbn; rewrite <- Hr; by injection Hs|apply (clock_is_more (zlen evs) _ _ a1); [lia|by rewrite Hs|exact Hc]].
  - destruct (packets_ feedback) as [|i0 is0] eqn:Ep.
    { split; [rewrite <- Hr; by injection Hs|]. cbn [clock_step]. rewrite Ep. apply (clock_is_more (zlen evs) _ _ a1); [lia|by rewrite Hs|exact Hc]. }
    split; [rewrite <- Hr; by injection Hs|]. apply (clock_is_more (zlen evs + 1) _ _ (UpdateOffset t (report_timestamp_compact_ntp_ feedback) a1)); [lia|by rewrite Hs|].
    apply UpdateOffset_clock; [by rewrite Ep|done|lia|exact Hc].
  - split; [by injection Hs|]. apply (clock_is_more (zlen evs) _ _ a1); [lia|by rewrite Hs|exact Hc].
Qed.

(** ** Lemmas: entries that are answered *)

(** The adapter knows a packet under its SSRC and sequence number. *)
Definition known (a : TransportFeedbackAdapter) (K : Z * Z) (k : Z) (p : PacketFeedback) : Prop :=
  rtp_to_transport_sequence_number_ a !! K = Some k /\ map_find k (sent_history_ a) = Some p.

Lemma Retrieve_known n log K received a k p :
  adapter_ok n log a -> known a K k p -> (RetrievePacketFeedback K received a).1 = Some p.
Proof.
  intros Hok [Hm Hf]. pose proof (history_finite n log a (k, p) Hok (map_find_In _ _ _ Hf)) as Hs. cbn in Hs. apply negb_true_iff in Hs.
  unfold RetrievePacketFeedback. rewrite Hm. unfold RetrieveBySequenceNumber. cbv zeta.
  destruct (_ <? _); cbn [set_flight sent_history_]; rewrite Hf, Hs; by destruct received.
Qed.

Lemma Retrieve_other n log K J received a k p :
  adapter_ok n log a -> known a K k p -> J <> K -> known (RetrievePacketFeedback J received a).2 K k p.
Proof.
  intros Hok [Hm Hf] HJ. unfold RetrievePacketFeedback. destruct (_ !! J) as [j|] eqn:Ej; [|done].
  assert (feedback_key p = K) as HK by (by eapply mapped_key; [exact Hok|exact Hm|apply map_find_In]).
  unfold RetrieveBySequenceNumber. fold (acked j a). cbv zeta.
  assert (sent_history_ (acked j a) = sent_history_ a /\
    rtp_to_transport_sequence_number_ (acked j a) = rtp_to_transport_sequence_number_ a) as [Eh Em]
    by (unfold acked; by destruct (_ <? _)).
  unfold known. rewrite Eh. destruct (map_find j (sent_history_ a)) as [q|] eqn:Eq; cbn [snd]; [|by rewrite Eh, Em].
  assert (feedback_key q = J) as Hq by (by eapply mapped_key; [exact Hok|exact Ej|apply map_find_In]).
  destruct (IsInfinite _); [cbn [snd]; rewrite Eh, Em; by split|]. destruct received; cbn [snd]; [|rewrite Eh, Em; by split].
  cbn [set_sent rtp_to_transport_sequence_number_ sent_history_]. rewrite Em, Hq, lookup_delete_ne by done. split; [done|].
  rewrite map_find_erase. destruct (Z.eqb_spec k j) as [->|]; [|done]. rewrite Hf in Eq. injection Eq as ->. congruence.
Qed.

Lemma feedback_loop_grows t packets : forall l a, exists rs,
  packet_result_vector (feedback_packets_loop t packets l a).1 = packet_result_vector l ++ rs.
Proof.
  induction packets as [|i packets IH]; intros l a; cbn [feedback_packets_loop]; [exists []; by rewrite app_nil_r|].
  destruct (RetrievePacketFeedback _ _ a) as [[p|] a1]; [destruct (negb _)|];
    (match goal with |- context [feedback_packets_loop t packets ?l ?b] => destruct (IH l b) as [rs ->] end);
    cbn [packet_result_vector]; rewrite <- ?app_assoc; by eexists.
Qed.

Lemma feedback_loop_answers n log t packets k p i : forall l a,
  adapter_ok n log a -> n < 2147483648 -> In i packets -> known a (ssrc i, sequence_number i) k p ->
  route_eq (network_route p) (network_route_ a) = true ->
  exists r, In r (packet_result_vector (feedback_packets_loop t packets l a).1) /\ sent_sequence_number (sent_packet r) = k.
Proof.
  induction packets as [|j packets IH]; intros l a Hok Hn Hi Hk Hr; [done|]. cbn [feedback_packets_loop].
  pose proof (aok_nodes _ _ _ Hok) as Hnodes. rewrite List.Forall_forall in Hnodes.
  destruct (Hnodes (k, p) (map_find_In _ _ _ (proj2 Hk))) as [Hseq _]. cbn [fst snd] in Hseq.
  set (J := (ssrc j, sequence_number j)). destruct (RetrievePacketFeedback J _ a) as [q a1] eqn:Eq.
  pose proof (RetrievePacketFeedback_ok n log _ _ a q a1 Hok Hn Eq) as (Hok1 & Hroute & _).
  destruct (decide (J = (ssrc i, sequence_number i))) as [HJ|HJ].
  - pose proof (Retrieve_known n log J (IsFinite (arrival_time_offset j)) a k p Hok) as Hq. rewrite Eq in Hq. cbn [fst] in Hq.
    rewrite Hq by (by rewrite HJ). cbv zeta.
    assert (network_route_ (if IsFinite (arrival_time_offset j) then RememberAcknowledgedPacket J t a1 else a1) = network_route_ a) as ->
      by (destruct (IsFinite _); by rewrite <- Hroute).
    rewrite Hr. cbn [negb]. match goal with |- context [feedback_packets_loop t packets ?l ?b] => destruct (feedback_loop_grows t packets l b) as [rs ->] end.
    cbn [packet_result_vector]. eexists. split; [apply in_or_app; left; apply in_or_app; right; by left|]. exact Hseq.
  - pose proof (Retrieve_other n log _ J (IsFinite (arrival_time_offset j)) a k p Hok Hk HJ) as Hk1. rewrite Eq in Hk1. cbn [snd] in Hk1.
    destruct Hi as [->|Hi]; [done|].
    destruct q as [q|]; [|apply IH; [done|done|done|done|by rewrite Hroute]]. cbv zeta.
    destruct (IsFinite (arrival_time_offset j)); destruct (negb _); (apply IH; [|done|done|exact Hk1|rewrite <- Hroute in Hr; exact Hr]); try done;
      by apply (adapter_ok_core _ _ a1).
Qed.

(** A report is answered for each packet that is known on the current route. *)
Lemma feedback_answers n log feedback t a k p i :
  adapter_ok n log a -> n < 2147483648 -> In i (packets_ feedback) -> known a (ssrc i, sequence_number i) k p ->
  route_eq (network_route p) (network_route_ a) = true ->
  exists msg r, (ProcessCongestionControlFeedback feedback t a).1 = Some msg /\ In r (packet_feedbacks msg) /\
    sent_sequence_number (sent_packet r) = k.
Proof.
  intros Hok Hn Hi Hk Hr. unfold ProcessCongestionControlFeedback. cbv zeta.
  pose proof (prune_recent_core t a) as Hc. pose proof (adapter_ok_core _ _ _ _ Hc Hok) as Hok1.
  destruct (packets_ feedback) as [|i0 is0] eqn:Ep; [done|]. rewrite <- Ep in *.
  set (a2 := UpdateOffset t _ _). assert (adapter_ok n log a2) as Hok2 by (by apply (adapter_ok_core _ _ _ _ (UpdateOffset_core _ _ _) Hok1)).
  assert (known a2 (ssrc i, sequence_number i) k p /\ network_route_ a2 = network_route_ a) as [Hk2 Hr2].
  { destruct Hc as (E1 & _ & _ & E2 & _ & E3). unfold known. cbn. by rewrite <- E1, <- E2, <- E3. }
  destruct (feedback_loop_answers n log t (packets_ feedback) k p i (mkLoop 0 0 0 true []) a2 Hok2 Hn Hi Hk2) as (r & Hin & Hs);
    [by rewrite Hr2|].
  destruct (feedback_packets_loop _ _ _ a2) as [l a3]. cbn [fst] in *.
  assert (In r (std_sort send_order (packet_result_vector l))) as Hin2
    by (rewrite <- list_elem_of_In in *; by rewrite (std_sort_perm send_order)).
  unfold ToTransportFeedback. destruct (std_sort send_order (packet_result_vector l)) as [|r' rs'] eqn:Es; [done|].
  eexists _, r. split; [reflexivity|]. by split.
Qed.

End setting.

(** ** Properties *)

(** Bytes in flight.  After any run of sends, failed sends, reports, route
    changes and untracked packets, packets being numbered nearly in order and a
    failed send being rolled back before an acknowledgement passes it, the bytes
    the adapter says are in flight on a route are exactly the sizes of the
    packets of its history that were sent on that route with a number above the
    last acknowledged one; the history holds only packets that were registered,
    under their numbers and in order. *)
Theorem adapter_in_flight {sorts : StdSort} (evs : list adapter_event) (route : NetworkRoute) :
  run_allowed evs new_adapter [] -> zlen evs < 2147483646 ->
  exists outs a log, adapter_run evs new_adapter [] = (outs, a, log) /\
    GetOutstandingDataOn route (in_flight_ a) =
      zsum (flying (route_key route) (last_ack_seq_num_ a)) (sent_history_ a) /\
    keys_sorted (sent_history_ a) /\
    Forall (fun x => Exists (fun reg => describes reg x) log) (sent_history_ a).
Proof.
  intros Hall Hn. destruct (adapter_run evs new_adapter []) as [[outs a] log] eqn:E.
  destruct (adapter_run_ok evs 0 [] new_adapter outs a log new_adapter_ok Hn Hall E) as (Hok & _).
  exists outs, a, log. split_and!; [done| |apply Hok..].
  rewrite <- (aok_flight _ _ _ Hok). reflexivity.
Qed.

Definition example_to_send (tseq seq size : Z) : RtpPacketToSend :=
  mkToSend (set_ssrc_ 9 (set_sequence_number_ seq (set_size_ size new_packet))) 0 (Some kVideo)
    None None (Some tseq) true None false false false false false None String.EmptyString.

Definition no_pacing : PacedPacketInfo := mkPaced 0 (-1) (-1) (-1) 0.

(** Three packets, the second of which overtakes the first; a report of it, and
    one that repeats it with the others. *)
Definition example_sends : list adapter_event :=
  [Sending (example_to_send 1 501 700) no_pacing 1000;
   Sending (example_to_send 0 500 1200) no_pacing 1001;
   Sending (example_to_send 2 502 300) no_pacing 1002;
   Sending (example_to_send 3 503 400) no_pacing 1003].

Definition example_feedback : list adapter_event :=
  example_sends ++
  [GotFeedback (mkCcfb 0 [mkInfo 9 500 MinusInfinity kNotEct; mkInfo 9 501 5000 kEct1] 65536) 1050000;
   SendFailed (example_to_send 3 503 400);
   GotFeedback (mkCcfb 0 [mkInfo 9 502 1000 kEct1; mkInfo 9 501 9000 kEct1;
                          mkInfo 9 500 2000 kCe] 66000) 1060000].

(** Deciding whether a run is allowed, for concrete runs. *)
Ltac allowed_run :=
  cbn [run_allowed event_allowed app example_feedback example_sends];
  repeat match goal with
  | |- _ /\ _ => split
  | |- True => exact I
  | |- is_time _ => vm_compute; split; congruence
  | |- _ \/ sendable _ _ _ =>
      right; eexists; split; [reflexivity|split; [vm_compute; intuition lia|
        split; [vm_compute; lia || (split; congruence)|split; [vm_compute; split; congruence|
          vm_compute; split; congruence]]]]
  | |- rollback_ok _ _ =>
      let k := fresh "k" in let p := fresh "p" in let Hk := fresh "Hk" in
      intros k p Hk _; vm_compute in Hk; injection Hk as <-; vm_compute; reflexivity
  end.

Lemma adapter_in_flight_witness :
  exists outs a log, adapter_run example_feedback new_adapter [] = (outs, a, log) /\
    GetOutstandingDataOn new_route (in_flight_ a) =
      zsum (flying (route_key new_route) (last_ack_seq_num_ a)) (sent_history_ a).
Proof.
  destruct (adapter_in_flight example_feedback new_route) as (outs & a & log & H1 & H2 & _).
  - allowed_run.
  - vm_compute. reflexivity.
  - exists outs, a, log. exact (conj H1 H2).
Defined.

(** The bytes in flight along the example: all sent, the ones after the first
    acknowledged, those less the failed one, none. *)
Example in_flight_of_example :
  map (fun n => let '(_, a, _) := adapter_run (take n example_feedback) new_adapter [] in
                GetOutstandingData a) [4%nat; 5%nat; 6%nat; 7%nat] = [2600; 700; 300; 0].
Proof. vm_compute. reflexivity. Qed.

(** The restriction on failed sends matters: when the send of a packet fails
    after the acknowledgement of a later one, the code takes its bytes out a
    second time, from those of the packets still in flight. *)
Example late_rollback_miscounts :
  let evs := [Sending (example_to_send 0 500 1200) no_pacing 1000;
              Sending (example_to_send 1 501 700) no_pacing 1000;
              GotFeedback (mkCcfb 0 [mkInfo 9 501 5000 kEct1] 65536) 1050000;
              Sending (example_to_send 2 502 300) no_pacing 1060;
              SendFailed (example_to_send 0 500 1200)] in
  let '(_, a, _) := adapter_run evs new_adapter [] in
  GetOutstandingData a = -900 /\
  zsum (flying (route_key new_route) (last_ack_seq_num_ a)) (sent_history_ a) = 300.
Proof. vm_compute. split; reflexivity. Qed.

(** C39. Truth of the results.  In any run of sends, failed sends, reports, route
    changes and untracked packets — transport sequence numbers fresh and within
    half their range of the last one, a failed send rolled back before an
    acknowledgement passes it, clock readings below 73 thousand years, at most
    2^26 events — every message handed to the congestion controller upon a
    report lists its results in the order of sending, and each of them answers
    an entry of that report for a packet that was registered under that SSRC and
    sequence number while the route was the one that is current, the last that
    was set; it has the size and send time the packet was registered with, the
    entry's ECN marking, and, if the entry says that the packet came, the
    receive time that the entry gives relative to the clock of the reports: the
    time at which the first report came, moved on as the other peer's clock does
    and set anew when that ran backwards.  Every entry for a packet that the
    adapter still knows on the current route is answered; and over the whole run
    no packet is reported as received twice. *)
Theorem adapter_results_true {sorts : StdSort} (evs : list adapter_event) :
  run_allowed evs new_adapter [] -> zlen evs <= kMaxReports ->
  (forall before feedback t after, evs = before ++ GotFeedback feedback t :: after ->
    let '(_, a, log) := adapter_run before new_adapter [] in
    let answer := (ProcessCongestionControlFeedback feedback t a).1 in
    (forall msg, answer = Some msg -> exists offset,
      fst <$> report_clock (before ++ [GotFeedback feedback t]) = Some offset /\
      message_true log (route_at before) offset (feedback, msg)) /\
    (forall i k p, In i (packets_ feedback) -> known a (ssrc i, sequence_number i) k p ->
      route_eq (network_route p) (route_at before) = true ->
      exists msg r, answer = Some msg /\ In r (packet_feedbacks msg) /\ sent_sequence_number (sent_packet r) = k)) /\
  NoDup (flat_map (fun out => map (fun r => sent_sequence_number (sent_packet r)) (ReceivedWithSendInfo out.2))
           (adapter_run evs new_adapter []).1.1).
Proof.
  intros Hall Hn. split.
  - intros before feedback t after ->. rewrite zlen_app, zlen_cons in Hn. pose proof (zlen_nonneg after). pose proof (zlen_nonneg before).
    change (GotFeedback feedback t :: after) with ([GotFeedback feedback t] ++ after) in Hall. rewrite app_assoc in Hall.
    apply run_allowed_app in Hall as [Hall _]. pose proof Hall as Hall1. apply run_allowed_app in Hall1 as [Hall0 He].
    destruct (adapter_run before new_adapter []) as [[outs a] log] eqn:E. unfold kMaxReports in *.
    destruct (adapter_run_ok before 0 [] new_adapter outs a log new_adapter_ok ltac:(lia) Hall0 E) as (Hok & _).
    destruct (setting_run before log a outs Hall0 ltac:(unfold kMaxReports; lia) E) as [Hr _]. split.
    + intros msg Em. destruct (ProcessCongestionControlFeedback feedback t a) as [answer a'] eqn:Ea. cbn [fst] in Em. subst answer.
      pose proof (ProcessFeedback_ok _ log a feedback t _ a' Hok ltac:(lia) Ea) as [_ Htrue _ _ _ _]. apply Forall_inv in Htrue.
      rewrite Hr in Htrue. assert (packets_ feedback <> []) as Hne.
      { intros Ep. unfold ProcessCongestionControlFeedback in Ea. rewrite Ep in Ea. discriminate Ea. }
      assert (adapter_run (before ++ [GotFeedback feedback t]) new_adapter [] = (outs ++ [(feedback, msg)], a', log)) as E1.
      { rewrite adapter_run_app, E. cbn [adapter_run adapter_step log_step]. by rewrite Ea. }
      destruct (setting_run _ log a' _ Hall ltac:(rewrite zlen_app; change (zlen [_]) with 1; unfold kMaxReports; lia) E1) as [_ Hc].
      unfold report_clock in *. rewrite foldl_app in *. cbn [foldl clock_step] in *. destruct (packets_ feedback); [done|].
      destruct Hc as (Ho & _). eexists. split; [reflexivity|]. by rewrite <- Ho.
    + intros i k p Hi Hk Hroute. apply (feedback_answers (0 + zlen before) log feedback t a k p i); [done|lia|done|done|by rewrite Hr].
  - destruct (adapter_run evs new_adapter []) as [[outs a] log] eqn:E. unfold kMaxReports in *.
    by destruct (adapter_run_ok evs 0 [] new_adapter outs a log new_adapter_ok ltac:(lia) Hall E) as (_ & _ & Hnd & _).
Qed.

(** The second report of the example: the packet that it repeats is not answered. *)
Lemma adapter_results_true_witness :
  let before := take 6 example_feedback in
  exists msg offset log, (ProcessCongestionControlFeedback
      (mkCcfb 0 [mkInfo 9 502 1000 kEct1; mkInfo 9 501 9000 kEct1; mkInfo 9 500 2000 kCe] 66000) 1060000
      (adapter_run before new_adapter []).1.2).1 = Some msg /\
    message_true log new_route offset
      (mkCcfb 0 [mkInfo 9 502 1000 kEct1; mkInfo 9 501 9000 kEct1; mkInfo 9 500 2000 kCe] 66000, msg) /\
    offset = 1057080 /\
    map (fun r => (sent_sequence_number (sent_packet r), IsReceived r)) (packet_feedbacks msg) = [(0, true); (2, true)].
Proof.
  destruct (adapter_results_true example_feedback) as [H _].
  - allowed_run.
  - vm_compute. congruence.
  - specialize (H (take 6 example_feedback) _ _ [] eq_refl).
    destruct (adapter_run (take 6 example_feedback) new_adapter []) as [[outs a] log] eqn:E. destruct H as [H _].
    assert (a = (adapter_run (take 6 example_feedback) new_adapter []).1.2) as -> by (by rewrite E).
    match type of H with forall msg, ?x = Some msg -> _ => destruct x as [msg|] eqn:Em; [|vm_compute in Em; discriminate Em] end.
    destruct (H msg eq_refl) as (offset & Ho & Ht). exists msg, offset, log. vm_compute in Ho. injection Ho as <-.
    split; [done|]. split; [exact Ht|]. split; [done|]. vm_compute in Em. injection Em as <-. vm_compute. reflexivity.
Defined.
