(* ===== verification/SendPath.v ===== *)
(** * From the pacer to the network

    What the transport's controller does with a packet that the pacer releases,
    and with the pacer's request for padding: the two callbacks that
    [IceTransportController::Create] of
    [src/transport/ice_transport_controller.cpp] sets.  A packet is stamped,
    protected, registered for feedback and given to the ICE agent; the channel it
    belongs to learns whether that worked.

    The ICE agent, the SRTP sessions, the clock and the congestion controller's
    task queue are an interface.  The maps of sessions and channels are those of
    the controller.  [None] is an access that must not be made. *)

From Stdlib Require Import String.
From stdpp Require Import gmap.
From S2P Require Import Prelude StateMonad Units NetworkTypes ByteIO Rtcp RtpPacket RtpToSend Packetizer FeedbackAdapter VideoSend PacedSender.

(** ** The world *)

Class SendWorld (W : Type) := {
  (** [CurrentTimeUs]. *)
  time_us : W -> Z * W;
  (** The clock's offset to UTC. *)
  monotonic_to_utc_offset_us : Z;
  (** [protectRtp] of the session of a stream: the protected bytes, or an
      error. *)
  protectRtp : Z -> list Z -> W -> option (list Z) * W;
  (** [IceAgent::Send]: negative when it fails. *)
  ice_send : list Z -> W -> Z * W;
  (** The task for the congestion controller: size and time in milliseconds. *)
  cc_sent : Z -> Z -> W -> W;
}.

(** ** The controller *)

(** src/transport/ice_transport_controller.h:181-181 [IceTransportController::StreamType] *)
Inductive StreamType := StreamAudio | StreamVideo | StreamData.

(** The other channels ignore the calls made here. *)
Inductive Transceiver := VideoTransceiver (channel : VideoChannelSend) | OtherTransceiver.

(** src/transport/ice_transport_controller.h:184-198 [IceTransportController::StreamContext] *)
Record StreamContext := mkContext {
  context_type : StreamType;
  last_active_time : option Z;
  transceiver : option Transceiver;
}.

(** The maps are lists in the order of their keys. *)
(** src/transport/ice_transport_controller.h:345-405 [IceTransportController] *)
Record SendController := mkController {
  has_ice_agent : bool;
  video_abs_send_time_ext_id_ : option Z;
  audio_abs_send_time_ext_id_ : option Z;
  enable_srtp_ : bool;
  ssrc_to_srtp_sender_ : gmap Z bool;
  stream_senders_ : list (string * option StreamContext);
  last_active_stream_ : string;
  transport_feedback_adapter_ : TransportFeedbackAdapter;
}.

Definition set_senders (l : list (string * option StreamContext)) (c : SendController) : SendController :=
  mkController (has_ice_agent c) (video_abs_send_time_ext_id_ c) (audio_abs_send_time_ext_id_ c)
    (enable_srtp_ c) (ssrc_to_srtp_sender_ c) l (last_active_stream_ c) (transport_feedback_adapter_ c).
Definition set_last_active (name : string) (c : SendController) : SendController :=
  mkController (has_ice_agent c) (video_abs_send_time_ext_id_ c) (audio_abs_send_time_ext_id_ c)
    (enable_srtp_ c) (ssrc_to_srtp_sender_ c) (stream_senders_ c) name (transport_feedback_adapter_ c).
Definition set_adapter (a : TransportFeedbackAdapter) (c : SendController) : SendController :=
  mkController (has_ice_agent c) (video_abs_send_time_ext_id_ c) (audio_abs_send_time_ext_id_ c)
    (enable_srtp_ c) (ssrc_to_srtp_sender_ c) (stream_senders_ c) (last_active_stream_ c) a.

(** The video channel of a name, if it has one. *)
Definition video_channel (x : option StreamContext) : option VideoChannelSend :=
  match x with
  | Some (mkContext _ _ (Some (VideoTransceiver s))) => Some s
  | _ => None
  end.

Fixpoint find_sender (name : string) (l : list (string * option StreamContext)) : option StreamContext :=
  match l with
  | [] => None
  | (n, x) :: l => if String.eqb n name then x else find_sender name l
  end.

Definition put_channel (s : VideoChannelSend) (x : option StreamContext) : option StreamContext :=
  match x with
  | Some (mkContext type time (Some (VideoTransceiver _))) => Some (mkContext type time (Some (VideoTransceiver s)))
  | _ => x
  end.

Fixpoint put_sender (name : string) (s : VideoChannelSend) (l : list (string * option StreamContext))
    : list (string * option StreamContext) :=
  match l with
  | [] => []
  | (n, x) :: l => if String.eqb n name then (n, put_channel s x) :: l else (n, x) :: put_sender name s l
  end.

Section callbacks.
Context {W : Type} {world : SendWorld W}.

Definition C (A : Type) : Type := M (SendController * W) A.

Definition controller {A} (f : SendController -> A) : C A := gets (fun s => f s.1).
Definition set_controller (f : SendController -> SendController) : C unit := modify (fun s => (f s.1, s.2)).
Definition outside {A} (f : W -> A * W) : C A := fun s => let '(a, w) := f s.2 in Some (a, (s.1, w)).

(** A call to a channel by name. *)
Definition with_channel {A} (name : string) (none : A) (f : VideoChannelSend -> A * VideoChannelSend) : C A :=
  found ← controller (fun c => video_channel (find_sender name (stream_senders_ c)));
  match found with
  | None => mret none
  | Some s =>
      let '(a, s) := f s in
      set_controller (fun c => set_senders (put_sender name s (stream_senders_ c)) c);;
      mret a
  end.

(** ** A packet that the pacer releases *)

(** src/transport/ice_transport_controller.cpp:150-165 [IceTransportController::Create] *)
Definition notify_send_failure (packet : RtpPacketToSend) : C unit :=
  match packet_type_ packet with
  | Some kVideo | Some kRetransmission =>
      with_channel (stream_name_ packet) tt (fun s => (tt, OnRtpPacketSendFailed packet s))
  | _ => mret tt
  end.

(** The packet with its send time, or none. *)
(** src/transport/ice_transport_controller.cpp:172-186 [IceTransportController::Create] *)
Definition stamp_packet (packet : RtpPacketToSend) : C (option RtpPacketToSend) :=
  id ← controller (fun c => if bool_decide (packet_type_ packet = Some kAudio)
                            then audio_abs_send_time_ext_id_ c else video_abs_send_time_ext_id_ c);
  match id with
  | None => mret (Some packet)
  | Some id =>
      now ← outside time_us;
      let send_time := NtpToAbsoluteSendTime (MonotonicTimeUsToNtp monotonic_to_utc_offset_us now) in
      '(updated, q) ← lift (UpdateAbsoluteSendTimestamp id send_time (rtp_packet packet));
      mret (if updated : bool then Some (set_packet q packet) else None)
  end.

(** The bytes for the ICE agent, or none. *)
(** src/transport/ice_transport_controller.cpp:188-219 [IceTransportController::Create] *)
Definition send_bytes (packet : RtpPacketToSend) : C (option (list Z)) :=
  bytes ← lift (rd_range (buffer_ (rtp_packet packet)) 0 (size_ (rtp_packet packet)));
  srtp ← controller enable_srtp_;
  if srtp : bool then
    session ← controller (fun c => ssrc_to_srtp_sender_ c !! Ssrc packet);
    match session with
    | Some true => outside (protectRtp (Ssrc packet) bytes)
    | _ => mret None
    end
  else mret (Some bytes).

(** src/transport/ice_transport_controller.cpp:2337-2368 [IceTransportController::OnSentPacket] *)
Definition tell_sent (packet : RtpPacketToSend) (registration : PacketFeedbackRegistration) : C unit :=
  set_controller (fun c => set_adapter (OnSentPacket packet registration (transport_feedback_adapter_ c)) c);;
  outside (fun w => (tt, cc_sent (size_ (rtp_packet packet)) (registration_send_time_ms registration) w)).

(** The report that falls due goes to the ICE agent at once. *)
(** src/transport/channel/video_channel_send.cpp:126-137 [VideoChannelSend::MaybeSendSenderReport] *)
Definition send_report (report : option SenderInfo) : C unit :=
  match report with
  | None => mret tt
  | Some info =>
      '(built, _) ← lift (BuildSR (mkSR (si_sender_ssrc info) empty_header info [] [] 0) 0);
      match built with
      | None => mret tt
      | Some bytes => _ ← outside (ice_send bytes); mret tt
      end
  end.

(** src/transport/ice_transport_controller.cpp:235-252 [IceTransportController::Create] *)
Definition notify_sent (packet : RtpPacketToSend) : C unit :=
  match packet_type_ packet with
  | Some kVideo | Some kRetransmission =>
      set_controller (set_last_active (stream_name_ packet));;
      now ← outside time_us;
      report ← with_channel (stream_name_ packet) None
                 (OnSentRtpPacket now monotonic_to_utc_offset_us packet);
      send_report report
  | _ => mret tt
  end.

(** src/transport/ice_transport_controller.cpp:146-254 [IceTransportController::Create] *)
Definition OnPacedPacket (packet : RtpPacketToSend) (pacing_info : PacedPacketInfo) : C unit :=
  agent ← controller has_ice_agent;
  if negb agent then notify_send_failure packet else
  stamped ← stamp_packet packet;
  match stamped with
  | None => notify_send_failure packet
  | Some packet =>
      bytes ← send_bytes packet;
      match bytes with
      | None => notify_send_failure packet
      | Some bytes =>
          now ← outside time_us;
          a ← controller transport_feedback_adapter_;
          let '(registration, a) := RegisterPacketForFeedback (Z.quot now 1000) packet pacing_info a in
          set_controller (set_adapter a);;
          send_result ← outside (ice_send bytes);
          if send_result <? 0 then
            set_controller (fun c =>
              set_adapter (RollbackPacketFeedback packet registration (transport_feedback_adapter_ c)) c);;
            notify_send_failure packet
          else
            tell_sent packet registration;;
            notify_sent packet
      end
  end.

(** ** Padding *)

(** The video channel that was active last among all. *)
(** src/transport/ice_transport_controller.cpp:269-281 [IceTransportController::Create] *)
Fixpoint best_context (l : list (string * option StreamContext)) (best_ts : Z) (best : option string)
    : option string :=
  match l with
  | [] => best
  | (name, Some (mkContext StreamVideo time (Some _))) :: l =>
      let ts := default 0 time in
      if best_ts <? ts then best_context l ts (Some name) else best_context l best_ts best
  | _ :: l => best_context l best_ts best
  end.

(** src/transport/ice_transport_controller.cpp:256-290 [IceTransportController::Create] *)
Definition OnGeneratePadding (size padding_time_us : Z) : C (list RtpPacket) :=
  c ← controller id;
  let active :=
    match find_sender (last_active_stream_ c) (stream_senders_ c) with
    | Some (mkContext StreamVideo _ (Some _)) => Some (last_active_stream_ c)
    | _ => best_context (stream_senders_ c) (-9223372036854775808) None
    end in
  match active with
  | None => mret []
  | Some name =>
      found ← controller (fun c => video_channel (find_sender name (stream_senders_ c)));
      match found with
      | None => mret []
      | Some s =>
          '(packets, s) ← lift (GeneratePadding size padding_time_us s);
          set_controller (fun c => set_senders (put_sender name s (stream_senders_ c)) c);;
          mret packets
      end
  end.
End callbacks.
