(* ===== verification/SendPathOk.v ===== *)
(** * No packet is forgotten on the way out

    [SendPath.v]: whatever becomes of a media packet behind the pacer, the
    channel's history gets it, with the bytes that went out or would have, so
    that a request for it can be answered. *)

From Stdlib Require Import String.
From stdpp Require Import gmap.
From S2P Require Import Prelude StateMonad Units NetworkTypes ByteIO Rtcp RtpPacket RtpToSend Packetizer PacketHistory FeedbackAdapter VideoSend PacedSender SendPath.

(** ** Channels by name *)

Definition channel_of (name : string) (c : SendController) : option VideoChannelSend :=
  video_channel (find_sender name (stream_senders_ c)).

Lemma video_put s s' x : video_channel x = Some s -> video_channel (put_channel s' x) = Some s'.
Proof. by destruct x as [[? ? [[]|]]|]. Qed.

Lemma video_put_none s' x : video_channel x = None -> put_channel s' x = x.
Proof. by destruct x as [[? ? [[]|]]|]. Qed.

Lemma find_put name s s' l :
  video_channel (find_sender name l) = Some s -> video_channel (find_sender name (put_sender name s' l)) = Some s'.
Proof.
  induction l as [|[n x] l IH]; cbn [find_sender put_sender]; [done|]. intros H.
  destruct (String.eqb n name) eqn:E; cbn [find_sender]; rewrite E; [by apply (video_put s)|by apply IH].
Qed.

(** ** The packet on its way *)

(** The packet may get a new send time. *)
Definition restamped (f f' : RtpFrame) : Prop := f' = f \/ exists id t, frame_set_ast id t f = Some f'.

Lemma restamped_ok f f' : restamped f f' -> frame_ok f -> frame_ok f' /\ zlen (encode f') = zlen (encode f).
Proof. intros [->|(id & t & E)] Hf; [done|]. by apply (frame_set_ast_ok id t). Qed.

Lemma frame_set_ast_fields id t f f' :
  frame_set_ast id t f = Some f' ->
  f_marker f' = f_marker f /\ f_payload_type f' = f_payload_type f /\
  f_sequence_number f' = f_sequence_number f /\ f_timestamp f' = f_timestamp f /\ f_ssrc f' = f_ssrc f /\
  f_csrcs f' = f_csrcs f /\ f_payload f' = f_payload f /\ f_padding f' = f_padding f.
Proof.
  unfold frame_set_ast. destruct (f_exts f) as [[els n]|]; [|done].
  destruct (set_ast id t els); cbn [mbind option_bind]; [|done]. by intros [= <-].
Qed.

Lemma restamped_fields f f' :
  restamped f f' ->
  f_marker f' = f_marker f /\ f_payload_type f' = f_payload_type f /\
  f_sequence_number f' = f_sequence_number f /\ f_timestamp f' = f_timestamp f /\ f_ssrc f' = f_ssrc f /\
  f_csrcs f' = f_csrcs f /\ f_payload f' = f_payload f /\ f_padding f' = f_padding f.
Proof. intros [->|(id & t & E)]; [done|]. by apply (frame_set_ast_fields id t). Qed.

Section send.
Context {W : Type} {world : SendWorld W}.

Lemma wp_reads_controller {A} (f : SendController -> A) s (Q : A -> SendController * W -> Prop) :
  Q (f s.1) s -> wp (controller f) s Q.
Proof. intros H. by exists (f s.1), s. Qed.

Lemma wp_set_controller f (s : SendController * W) (Q : unit -> SendController * W -> Prop) :
  Q tt (f s.1, s.2) -> wp (set_controller f) s Q.
Proof. intros H. by eexists _, _. Qed.

Lemma wp_outside_controller {A} (f : W -> A * W) s (Q : A -> SendController * W -> Prop) :
  (forall a w, f s.2 = (a, w) -> Q a (s.1, w)) -> wp (outside f) s Q.
Proof. intros H. unfold wp, outside. destruct (f s.2) as [a w] eqn:E. eexists _, _. split; [done|auto]. Qed.

(** The identifier of the send time in a packet. *)
Definition ext_id_of (packet : RtpPacketToSend) (c : SendController) : option Z :=
  if bool_decide (packet_type_ packet = Some kAudio)
  then audio_abs_send_time_ext_id_ c else video_abs_send_time_ext_id_ c.

Lemma stamp_packet_ok f q packet (s : SendController * W) :
  rtp_packet packet = built f q -> frame_ok f ->
  wp (stamp_packet packet) s (fun r s' => s'.1 = s.1 /\
    match r with
    | Some p => exists f', restamped f f' /\ p = set_packet (built f' q) packet
    | None => exists id t, ext_id_of packet s.1 = Some id /\ frame_set_ast id t f = None
    end).
Proof.
  intros E Hf. unfold stamp_packet. apply wp_bind, wp_reads_controller. fold (ext_id_of packet s.1).
  destruct (ext_id_of packet s.1) as [id|].
  - apply wp_bind, wp_outside_controller. intros now w _. apply wp_bind. eapply wp_lift.
    { rewrite E. by apply UpdateAbsoluteSendTimestamp_built. }
    destruct (frame_set_ast _ _ f) as [f'|] eqn:Ef; apply wp_ret; cbn [fst]; (split; [done|]).
    + exists f'. split; [right; eauto|done].
    + by eexists id, _.
  - apply wp_ret. split; [done|]. exists f. split; [by left|]. rewrite <- E. by destruct packet.
Qed.

Lemma send_bytes_ok f q packet (s : SendController * W) :
  rtp_packet packet = built f q ->
  wp (send_bytes packet) s (fun r s' => s'.1 = s.1 /\
    (enable_srtp_ s.1 = false -> s'.2 = s.2 /\ r = Some (encode f))).
Proof.
  intros E. unfold send_bytes. apply wp_bind. eapply (wp_lift _ (encode f)).
  { rewrite E. cbn [built set_size_ set_buffer_ buffer_ size_]. apply rd_range_all. }
  apply wp_bind, wp_reads_controller. destruct (enable_srtp_ s.1) eqn:Es.
  - apply wp_bind, wp_reads_controller. case_match; [case_match|]; try (by apply wp_ret).
    apply wp_outside_controller. by intros a w _.
  - by apply wp_ret.
Qed.

(** ** What the channel is told *)

(** The channel got a task that stores the packet. *)
Definition stores_packet (name : string) (s : VideoChannelSend) (packet : RtpPacketToSend) (c : SendController) : Prop :=
  exists s' t, channel_of name c = Some s' /\ rtp_packet_history_ s' = rtp_packet_history_ s /\
    tasks (task_queue_history_ s') = tasks (task_queue_history_ s) ++ [t] /\
    (t = TaskSent packet \/ t = TaskPut packet).

Definition open (s : VideoChannelSend) : Prop :=
  history_shutdown_ s = false /\ stop_ (task_queue_history_ s) = false.

Lemma post_tasks t s : stop_ (task_queue_history_ s) = false ->
  rtp_packet_history_ (post t s) = rtp_packet_history_ s /\
  tasks (task_queue_history_ (post t s)) = tasks (task_queue_history_ s) ++ [t].
Proof. intros H. unfold post, PostTask. by rewrite H. Qed.

Lemma notify_send_failure_ok packet ch (s : SendController * W) :
  channel_of (stream_name_ packet) s.1 = Some ch -> open ch ->
  packet_type_ packet = Some kVideo -> retransmitted_sequence_number_ packet = None ->
  wp (notify_send_failure packet) s (fun _ s' => stores_packet (stream_name_ packet) ch packet s'.1).
Proof.
  intros Hc [Ho Hs] Ht Hr. unfold notify_send_failure. rewrite Ht. unfold with_channel.
  apply wp_bind, wp_reads_controller. unfold channel_of in Hc. rewrite Hc.
  apply wp_bind, wp_set_controller, wp_ret. cbn [fst].
  unfold OnRtpPacketSendFailed. rewrite Ho, Hr, Ht, bool_decide_true by done.
  destruct (post_tasks (TaskPut packet) ch Hs) as [E1 E2].
  exists (post (TaskPut packet) ch), (TaskPut packet). split_and!; [|done|done|by right].
  unfold channel_of. by apply (find_put _ ch).
Qed.

Lemma send_report_ok report (s : SendController * W) :
  wp (send_report report) s (fun _ s' => s'.1 = s.1).
Proof.
  destruct report as [info|]; cbn [send_report]; [|by apply wp_ret].
  apply wp_bind. eapply wp_lift; [by apply BuildSR_spec|].
  apply wp_bind, wp_outside_controller. intros a w _. by apply wp_ret.
Qed.

Lemma MaybeSend_keeps now offset packet s :
  let s' := (MaybeSendSenderReport now offset packet s).2 in
  history_shutdown_ s' = history_shutdown_ s /\ rtp_packet_history_ s' = rtp_packet_history_ s /\
  task_queue_history_ s' = task_queue_history_ s.
Proof. unfold MaybeSendSenderReport. case_match; [done|]. cbv zeta. by case_match. Qed.

Lemma notify_sent_ok packet ch (s : SendController * W) :
  channel_of (stream_name_ packet) s.1 = Some ch -> open ch -> packet_type_ packet = Some kVideo ->
  wp (notify_sent packet) s (fun _ s' => stores_packet (stream_name_ packet) ch packet s'.1).
Proof.
  intros Hc [Ho Hs] Ht. unfold notify_sent. rewrite Ht.
  apply wp_bind, wp_set_controller, wp_bind, wp_outside_controller. cbn [fst snd]. intros now w _.
  apply wp_bind. unfold with_channel. apply wp_bind, wp_reads_controller. cbn [fst].
  unfold channel_of in Hc. cbn [set_last_active stream_senders_]. rewrite Hc.
  unfold OnSentRtpPacket. pose proof (MaybeSend_keeps now monotonic_to_utc_offset_us packet ch) as Hk.
  destruct (MaybeSendSenderReport _ _ packet ch) as [report ch1]. cbn [snd] in Hk. destruct Hk as (E1 & E2 & E3).
  rewrite E1, Ho. destruct (post_tasks (TaskSent packet) ch1) as [E4 E5]; [by rewrite E3|].
  apply wp_bind, wp_set_controller, wp_ret. eapply wp_mono; [apply send_report_ok|].
  intros [] s' ->. cbn [fst]. exists (post (TaskSent packet) ch1), (TaskSent packet).
  split_and!; [|by rewrite E4, E2|by rewrite E5, E3|by left].
  unfold channel_of. by apply (find_put _ ch).
Qed.

Lemma OnPacedPacket_ok f q packet info ch (s : SendController * W) :
  rtp_packet packet = built f q -> frame_ok f ->
  channel_of (stream_name_ packet) s.1 = Some ch -> open ch ->
  packet_type_ packet = Some kVideo -> retransmitted_sequence_number_ packet = None ->
  wp (OnPacedPacket packet info) s (fun _ s' => exists f', restamped f f' /\
    stores_packet (stream_name_ packet) ch (set_packet (built f' q) packet) s'.1).
Proof.
  intros E Hf Hc Ho Ht Hr.
  assert (Hsame : packet = set_packet (built f q) packet) by (rewrite <- E; by destruct packet).
  unfold OnPacedPacket. apply wp_bind, wp_reads_controller. case_match.
  { eapply wp_mono; [by apply (notify_send_failure_ok packet ch)|]. intros [] s' H'. exists f.
    split; [by left|]. by rewrite <- Hsame. }
  apply wp_bind. eapply wp_mono; [by apply (stamp_packet_ok f q)|]. intros [p|] s1 [E1 H1].
  2: { eapply wp_mono; [apply (notify_send_failure_ok packet ch); rewrite ?E1; done|]. intros [] s' H'. exists f.
       split; [by left|]. by rewrite <- Hsame. }
  destruct H1 as (f' & Hst & ->). set (p := set_packet (built f' q) packet).
  assert (forall s' : SendController * W, stream_senders_ s'.1 = stream_senders_ s.1 -> wp (notify_send_failure p) s'
      (fun _ s' => exists f', restamped f f' /\ stores_packet (stream_name_ packet) ch (set_packet (built f' q) packet) s'.1)) as Hfail.
  { intros s' Es. eapply wp_mono; [apply (notify_send_failure_ok p ch); try done|].
    - unfold channel_of. rewrite Es. exact Hc.
    - intros [] s'' H''. by exists f'. }
  apply wp_bind. eapply wp_mono; [by apply (send_bytes_ok f' q)|]. intros [bytes|] s2 [E2 _]; [|apply Hfail; by rewrite E2, E1].
  apply wp_bind, wp_outside_controller. intros now w _. apply wp_bind, wp_reads_controller. cbn [fst].
  destruct (RegisterPacketForFeedback _ _ _ _) as [registration a].
  apply wp_bind, wp_set_controller, wp_bind, wp_outside_controller. cbn [fst snd]. intros send_result w' _. case_match.
  - apply wp_bind, wp_set_controller. apply Hfail. cbn. by rewrite E2, E1.
  - apply wp_bind. unfold tell_sent. apply wp_bind, wp_set_controller, wp_outside_controller. cbn [fst snd]. intros [] w'' _.
    eapply wp_mono; [apply (notify_sent_ok p ch); try done|].
    + unfold channel_of. cbn. rewrite E2, E1. exact Hc.
    + intros [] s'' H''. by exists f'.
Qed.
End send.

(** ** What the task does *)

Lemma kept_new now h packet : 0 <= now < PlusInfinity -> kept now h (new_stored packet now).
Proof.
  intros Hf. right. cbn [new_stored send_time_].
  assert (kMinPacketDuration <= packet_duration (rtt_ h)) as Hd by (unfold packet_duration; case_match; lia).
  unfold kMinPacketDuration, timestamp_add, PlusInfinity, MinusInfinity in *.
  generalize dependent (packet_duration (rtt_ h)). intros d Hd. repeat case_match; lia.
Qed.

Lemma stored_by_task now t packet h s :
  hist_ok h -> is_u16 (SequenceNumber packet) -> 0 <= now < PlusInfinity ->
  retransmitted_sequence_number_ packet = None -> payload_type_ (rtp_packet packet) <> payload_type_value H264 - 1 ->
  t = TaskSent packet \/ t = TaskPut packet ->
  (forall q st, abs h !! q = Some st -> u16 (SequenceNumber packet - q) < 32768) ->
  exists h', run_task now t (set_history h s) = Some (set_history h' s) /\ hist_ok h' /\
    exists st, abs h' !! SequenceNumber packet = Some st /\ packet_ st = Some packet /\
      forall now', available now' h' st = true.
Proof.
  intros Hh Hs Hf Hr Hpt Ht Hold.
  destruct (PutRtpPacket_abs now packet now h Hh Hs) as (h' & E & Hh' & _ & _ & Hk).
  exists h'. split.
  - destruct Ht as [-> | ->]; cbn [run_task]; rewrite ?Hr; [|by cbn [set_history rtp_packet_history_]; rewrite E].
    rewrite (proj2 (Z.eqb_neq _ _)) by done. cbn [negb set_history rtp_packet_history_]. by rewrite E.
  - split; [done|]. exists (new_stored packet now). split_and!; [|done|].
    + apply Hk; [done|by rewrite lookup_insert_eq|by apply kept_new|]. by rewrite Z.sub_diag.
    + intros now'. unfold available, VerifyRtt. done.
Qed.

(** ** Property *)

(** C9. Whatever happens to a media packet that the pacer releases — no ICE
    agent, no room for the send time, no SRTP session, a failed or a successful
    send — the callback completes, and the channel's history task queue gets one
    task, which puts the packet into the history with the send time it was given
    and nothing else changed: from then on a request for its sequence number is
    answered, as long as nothing newer was stored before. *)
Theorem outgoing_packet_kept {W} {world : SendWorld W} (c : SendController) (w : W) (packet : RtpPacketToSend)
    (info : PacedPacketInfo) (f : RtpFrame) (q : RtpPacket) (ch : VideoChannelSend) :
  rtp_packet packet = built f q -> frame_ok f -> f_payload_type f <> payload_type_value H264 - 1 ->
  packet_type_ packet = Some kVideo -> retransmitted_sequence_number_ packet = None ->
  channel_of (stream_name_ packet) c = Some ch -> open ch ->
  exists c' w' ch' t f', OnPacedPacket packet info (c, w) = Some (tt, (c', w')) /\
    channel_of (stream_name_ packet) c' = Some ch' /\ rtp_packet_history_ ch' = rtp_packet_history_ ch /\
    tasks (task_queue_history_ ch') = tasks (task_queue_history_ ch) ++ [t] /\
    restamped f f' /\
    forall now h, hist_ok h -> 0 <= now < PlusInfinity ->
      (forall seq st, abs h !! seq = Some st -> u16 (f_sequence_number f - seq) < 32768) ->
      exists h', run_task now t (set_history h ch') = Some (set_history h' ch') /\ hist_ok h' /\
        exists st, abs h' !! f_sequence_number f = Some st /\
          packet_ st = Some (set_packet (built f' q) packet) /\ forall now', available now' h' st = true.
Proof.
  intros E Hf Hpt Ht Hr Hc Ho.
  destruct (OnPacedPacket_ok f q packet info ch (c, w) E Hf Hc Ho Ht Hr)
    as ([] & [c' w'] & Hrun & f' & Hst & ch' & t & Hc' & Hh' & Htasks & Htask).
  exists c', w', ch', t, f'. split_and!; try done. intros now h Hh Hnow Hold.
  destruct (restamped_fields f f' Hst) as (_ & Ept & Es & _). pose proof Hf as (_ & Hseq & _).
  assert (SequenceNumber (set_packet (built f' q) packet) = f_sequence_number f) as Eseq by exact Es.
  rewrite <- Eseq in *. apply (stored_by_task now t (set_packet (built f' q) packet) h ch'); try done.
  change (f_payload_type f' <> payload_type_value H264 - 1). by rewrite Ept.
Qed.

(** An agent that loses every second packet; it keeps what it was given. *)
Record Wire := mkWire { wire_clock : Z; wire_sent : list (list Z) }.

#[export] Instance lossy_wire : SendWorld Wire := {|
  time_us w := (wire_clock w, mkWire (wire_clock w + 1000) (wire_sent w));
  monotonic_to_utc_offset_us := 0;
  protectRtp _ _ w := (None, w);
  ice_send bytes w := (if Nat.even (length (wire_sent w)) then -1 else 0,
                       mkWire (wire_clock w) (wire_sent w ++ [bytes]));
  cc_sent _ _ w := w;
|}.

Definition sample_channel : VideoChannelSend := Initialize "video" 7 8 96 true 0 (Some 3).

Definition sample_controller : SendController :=
  mkController true (Some 3) None false ∅
    [("audio"%string, Some (mkContext StreamAudio None (Some OtherTransceiver)));
     ("video"%string, Some (mkContext StreamVideo None (Some (VideoTransceiver sample_channel))))]
    "" new_adapter.

Definition sample_media : RtpFrame :=
  mkFrame true 96 41 90000 7 [] (Some ([(3, [0; 0; 0])], O)) [0; 0; 0; 1; 0x65; 9] None.

Definition sample_packet : RtpPacketToSend :=
  set_stream_name "video" (set_packet_type kVideo (set_transport_sequence_number 12
    (new_to_send (built sample_media new_packet)))).

Lemma sample_media_ok : frame_ok sample_media.
Proof.
  assert ((4 | zlen (block_body ([(3, [0; 0; 0])], O)))) as Hd by (exists 1; vm_compute; reflexivity).
  unfold frame_ok, sample_media, exts_ok, element_ok, is_u16, is_u32.
  repeat first [apply conj|constructor]; cbn; try lia; try done; try (vm_compute; congruence).
Qed.

Lemma outgoing_packet_kept_witness :
  exists c' w' ch' t f', OnPacedPacket sample_packet (mkPaced 0 (-1) (-1) (-1) 0) (sample_controller, mkWire 5000000 []) = Some (tt, (c', w')) /\
    channel_of "video" c' = Some ch' /\ rtp_packet_history_ ch' = rtp_packet_history_ sample_channel /\
    tasks (task_queue_history_ ch') = tasks (task_queue_history_ sample_channel) ++ [t] /\
    restamped sample_media f' /\
    forall now h, hist_ok h -> 0 <= now < PlusInfinity ->
      (forall seq st, abs h !! seq = Some st -> u16 (41 - seq) < 32768) ->
      exists h', run_task now t (set_history h ch') = Some (set_history h' ch') /\ hist_ok h' /\
        exists st, abs h' !! 41 = Some st /\
          packet_ st = Some (set_packet (built f' new_packet) sample_packet) /\ forall now', available now' h' st = true.
Proof.
  apply (outgoing_packet_kept sample_controller (mkWire 5000000 []) sample_packet _ sample_media new_packet sample_channel);
    [reflexivity|exact sample_media_ok|cbn; lia|reflexivity|reflexivity|reflexivity|split; reflexivity].
Defined.

(** The send fails: the bytes had the send time, and the channel keeps the
    packet. *)
Example sample_send_fails :
  match OnPacedPacket sample_packet (mkPaced 0 (-1) (-1) (-1) 0) (sample_controller, mkWire 5000000 []) with
  | Some (_, (c, w)) =>
      (map (take 20) (wire_sent w), map fst (sent_history_ (transport_feedback_adapter_ c)),
       match channel_of "video" c with
       | Some s => map (fun t => match t with TaskPut p => SequenceNumber p | _ => 0 end) (tasks (task_queue_history_ s))
       | None => []
       end)
  | None => ([], [], [])
  end = ([[144; 224; 0; 41; 0; 1; 95; 144; 0; 0; 0; 7; 190; 222; 0; 1; 50; 20; 0; 0]], [], [41]).
Proof. vm_compute. reflexivity. Qed.
