(* ===== verification/Retransmission.v ===== *)
(** * A retransmission restores the packet

    The way of a lost packet through the components: [VideoSend.v] builds the
    packet for the retransmission stream, [PacedSender.v] numbers it,
    [SendPath.v] stamps it, and the receiver of [VideoReceiver.v] makes the
    original out of what arrives. *)

From stdpp Require Import gmap.
From S2P Require Import Prelude StateMonad Units ByteIO Rtcp RtpPacket RtpToSend Packetizer PacketHistory VideoSend NackPipeline PacedSender.
From S2P Require Import SendPath SendPathOk VideoReceiver.

(** ** The receiver's restoration *)

(** The packet that [g] carries, on its own stream. *)
Definition restored (ssrc payload_type osn : Z) (payload : list Z) (g : RtpFrame) : RtpFrame :=
  mkFrame (f_marker g) payload_type osn (f_timestamp g) ssrc (f_csrcs g) (f_exts g) payload None.

Lemma marker_kept (m : bool) x payload_type :
  0 <= x < 128 -> 0 <= payload_type < 128 ->
  u8 (Z.lor (Z.land (128 * Z.b2z m + x) 0x80) (u8 payload_type)) = 128 * Z.b2z m + payload_type.
Proof.
  intros Hx Hp. rewrite (u8_id payload_type) by (unfold is_u8; lia).
  assert (Z.land x 0x80 = 0) as Hx0.
  { apply Z.bits_inj'. intros i Hi. rewrite Z.land_spec, Z.bits_0. change 0x80 with (2 ^ 7).
    rewrite Z.pow2_bits_eqb by lia. destruct (Z.eqb_spec 7 i) as [<-|Hne]; [|apply andb_false_r].
    rewrite andb_true_r. apply Z.testbit_false; [lia|]. by rewrite Z.div_small. }
  rewrite <- (marker_lor m x Hx), Z.land_lor_distr_l, Hx0, Z.lor_0_r.
  replace (Z.land (Z.shiftl (Z.b2z m) 7) 0x80) with (Z.shiftl (Z.b2z m) 7) by (by destruct m).
  rewrite marker_lor by lia. apply u8_id. unfold is_u8. destruct m; cbn [Z.b2z]; lia.
Qed.

(** The bytes of a header that are written over. *)
Lemma header_rewritten (b0 b1 b2 b3 b4 b5 b6 b7 b8 b9 b10 b11 v1 v2 v3 v8 v9 v10 v11 : Z) (tail : list Z) :
  (m ← wr (b0 :: b1 :: b2 :: b3 :: b4 :: b5 :: b6 :: b7 :: b8 :: b9 :: b10 :: b11 :: tail) 1 v1;
   m ← wr m 2 v2; m ← wr m 3 v3; m ← wr m 8 v8; m ← wr m 9 v9; m ← wr m 10 v10; wr m 11 v11) =
  Some (b0 :: v1 :: v2 :: v3 :: b4 :: b5 :: b6 :: b7 :: v8 :: v9 :: v10 :: v11 :: tail).
Proof.
  pose proof (zlen_nonneg tail).
  repeat (rewrite wr_Some by (rewrite !zlen_cons; lia);
    cbv [Z.to_nat Pos.to_nat Pos.iter_op Nat.add]; cbn [mbind option_bind insert list_insert]).
  done.
Qed.

Lemma restored_encode ssrc payload_type osn payload g p :
  0 <= f_payload_type g < 128 -> 0 <= payload_type < 128 -> f_padding g = None ->
  f_payload g = be_bytes 2 osn ++ payload ->
  restored_bytes ssrc payload_type osn (built g p) = Some (encode (restored ssrc payload_type osn payload g)).
Proof.
  intros Hg Hp Hpad Hpay. unfold restored_bytes.
  cbn [built set_size_ set_buffer_ parsed buffer_ payload_offset_ payload_size_ padding_size_ size_].
  rewrite Hpad. cbn [padding_bytes]. change (0 <? zlen (@nil Z)) with false. cbv iota.
  destruct (encode_split g) as [Hs Hz]. rewrite Hpad, Hpay in Hs. cbn [padding_bytes] in Hs. rewrite app_nil_r in Hs.
  rewrite <- Hz, Hs. set (h := header_fixed g ++ _).
  pose proof (rd_range_mid [] h (be_bytes 2 osn ++ payload)) as Hh. cbn [app] in Hh. change (zlen (@nil Z)) with 0 in Hh.
  rewrite Hh. clear Hh. cbn [mbind option_bind].
  replace (rd_range (h ++ be_bytes 2 osn ++ payload) (zlen h + 2) (zlen (f_payload g) - 2)) with (Some payload).
  2: { symmetry. pose proof (rd_range_mid (h ++ be_bytes 2 osn) payload []) as H.
       rewrite app_nil_r, <- app_assoc, zlen_app, be_bytes_zlen in H. rewrite Hpay, zlen_app, be_bytes_zlen.
       replace (Z.of_nat 2 + zlen payload - 2) with (zlen payload) by lia. exact H. }
  cbn [mbind option_bind]. rewrite app_nil_r. subst h. unfold header_fixed. rewrite Hpad, bool_decide_false by (intros [? [=]]).
  rewrite <- !app_assoc. set (tail := flat_map _ _ ++ _). pose proof (zlen_nonneg tail).
  cbn [be_bytes app]. unfold rd. rewrite !zlen_cons.
  rewrite (proj2 (Z.ltb_lt 1 _)) by lia. cbn [andb Z.leb Z.compare].
  change ((?a :: ?b :: ?l) !! Z.to_nat 1) with (Some b). cbn [mbind option_bind].
  rewrite marker_kept by done.
  rewrite header_rewritten. unfold encode, header_fixed, restored.
  cbn [f_padding f_exts f_csrcs f_marker f_payload_type f_sequence_number f_timestamp f_ssrc f_payload padding_bytes].
  rewrite (bool_decide_false (is_Some None)) by (intros [? [=]]). by rewrite app_nil_r, <- !app_assoc.
Qed.

Lemma be16_joined x :
  is_u16 x -> u16 (Z.lor (Z.shiftl (u8 (Z.shiftr x (8 * Z.of_nat 1))) 8) (u8 (Z.shiftr x (8 * Z.of_nat 0)))) = x.
Proof.
  intros Hx. unfold is_u16 in Hx. change (8 * Z.of_nat 1) with 8. change (8 * Z.of_nat 0) with 0.
  rewrite Z.shiftr_0_r, Z.shiftr_div_pow2, Z.shiftl_mul_pow2, lor_add by (unfold u8; zdm).
  unfold u8, u16. zdm.
Qed.

Lemma RestoreMedia_built osn payload g p (rx : VideoReceiver) :
  frame_ok g -> f_padding g = None -> f_payload g = be_bytes 2 osn ++ payload -> is_u16 osn ->
  f_payload_type g = payload_type_value RTX -> remote_ssrc_ rx <> 0 -> is_u32 (remote_ssrc_ rx) ->
  0 < media_payload_type_ rx < 127 ->
  RestoreMediaPacketFromRtx (built g p) rx =
    Some (Some (built (restored (remote_ssrc_ rx) (media_payload_type_ rx) osn payload g) new_packet)).
Proof.
  intros Hg Hpad Hpay Ho Hpt Hr Hr32 Hm. unfold RestoreMediaPacketFromRtx. cbv zeta.
  change (payload_type_ (built g p)) with (f_payload_type g). change (payload_size_ (built g p)) with (zlen (f_payload g)).
  change (payload_offset_ (built g p)) with (frame_payload_offset g). change (buffer_ (built g p)) with (encode g).
  pose proof (zlen_nonneg payload). pose proof (zlen_nonneg (exts_bytes (f_exts g))).
  pose proof (zlen_nonneg (f_csrcs g)).
  assert (zlen (f_payload g) = 2 + zlen payload) as Hz by (rewrite Hpay, zlen_app, be_bytes_zlen; lia).
  replace (_ || _) with false.
  2: { symmetry. rewrite Hpt, Z.eqb_refl. unfold frame_payload_offset, exts_offset, kFixedHeaderSize, kUndefinedPayloadType.
       change (payload_type_value RTX) with 127. lia. }
  destruct (encode_split g) as [Hs Hh]. rewrite Hpad, Hpay in Hs. cbn [padding_bytes] in Hs. rewrite app_nil_r in Hs.
  rewrite <- Hh. set (h := header_fixed g ++ _) in *.
  assert (rd (encode g) (zlen h) = Some (u8 (Z.shiftr osn (8 * Z.of_nat 1))) /\
          rd (encode g) (zlen h + 1) = Some (u8 (Z.shiftr osn (8 * Z.of_nat 0)))) as [-> ->].
  { rewrite Hs, (rd_app_r h _ (zlen h)), (rd_app_r h _ (zlen h + 1)) by lia.
    rewrite Z.sub_diag. replace (zlen h + 1 - zlen h) with 1 by lia.
    cbn [be_bytes app]. unfold rd. rewrite !zlen_cons.
    by rewrite (proj2 (Z.ltb_lt 0 _)), (proj2 (Z.ltb_lt 1 _)) by lia. }
  cbn [mbind option_bind]. rewrite be16_joined by done.
  rewrite (restored_encode _ _ osn payload) by (done || lia || (rewrite Hpt; done)). cbn [mbind option_bind].
  rewrite Build_encode; [done|]. pose proof Hg as (_ & _ & Hts & _ & Hcc & Hcs & Hx & Hb & _).
  rewrite Hpay in Hb. apply bytes_app in Hb as [_ Hb].
  assert (0 <= media_payload_type_ rx < 128) as Hm' by lia.
  exact (conj Hm' (conj Ho (conj Hts (conj Hr32 (conj Hcc (conj Hcs (conj Hx (conj Hb I)))))))).
Qed.

(** ** The sender's side *)

(** The frame of the retransmission, under the number the pacer gave it. *)
Definition resent (rtx_ssrc n : Z) (f : RtpFrame) : RtpFrame :=
  frame_set_seq n (rtx_frame (f_sequence_number f) (relabel 127 rtx_ssrc f)).

Lemma resent_ok rtx_ssrc n f : frame_ok f -> is_u32 rtx_ssrc -> is_u16 n -> frame_ok (resent rtx_ssrc n f).
Proof.
  intros Hf Hr Hn. assert (frame_ok (relabel 127 rtx_ssrc f)) as Hl by (apply relabel_ok; [done|lia|done]).
  pose proof (rtx_frame_ok (f_sequence_number f) _ Hl) as (H1 & _ & H).
  exact (conj H1 (conj Hn H)).
Qed.

(** Stamping and restoring commute. *)
Lemma restored_restamped rtx_ssrc n f g :
  f_padding f = None -> restamped (resent rtx_ssrc n f) g ->
  restamped f (restored (f_ssrc f) (f_payload_type f) (f_sequence_number f) (f_payload f) g).
Proof.
  intros Hp [->|(id & t & E)].
  - left. unfold restored. cbn. rewrite <- Hp. by destruct f.
  - right. exists id, t. revert E. unfold frame_set_ast. cbn [resent frame_set_seq rtx_frame relabel f_exts].
    destruct (f_exts f) as [[els k]|]; [|done].
    destruct (set_ast id t els); cbn [mbind option_bind]; [|done]. intros [= <-].
    unfold restored. cbn. by rewrite Hp.
Qed.

Section chain.
Context {W : Type} {pacer : PacerQueue W} {N : Type} {network : SendWorld N}.

(** A stored packet that may go out again is given to the pacer. *)
Lemma ReSendPacket_stored now f q packet stored (s : VideoChannelSend) (w : W) :
  hist_ok (rtp_packet_history_ s) -> abs (rtp_packet_history_ s) !! f_sequence_number f = Some stored ->
  packet_ stored = Some packet -> available now (rtp_packet_history_ s) stored = true ->
  rtp_packet packet = built f q -> frame_ok f -> f_padding f = None -> zlen (encode f) < 65536 ->
  rtx_enabled_ s = true -> is_u32 (vs_rtx_ssrc_ s) ->
  exists h', ReSendPacket now (f_sequence_number f) s w =
    let e := without_fec (set_packet_type kRetransmission (rtx_of (vs_rtx_ssrc_ s) f q packet)) in
    let '(z, w') := enqueue_rtp_packet e w in Some (z, set_history h' s, w').
Proof.
  intros Hh Ha Hp Hav E Hf Hpad Hz Hrt Hr. pose proof Hf as (_ & Hs & _).
  pose proof (encapsulate_built (vs_rtx_ssrc_ s) packet f q Hr E Hf Hpad Hz) as He.
  destruct (GetPacketAndEncapsulate_abs now (f_sequence_number f) (encapsulate_rtx (vs_rtx_ssrc_ s)) _ Hh Hs)
    as (a & r & h1 & Hg & Hh1 & _ & Hm).
  { intros t p Ht Hp'. rewrite Ha in Ht. injection Ht as <-. rewrite Hp in Hp'. injection Hp' as <-.
    rewrite He. by eexists. }
  rewrite Ha in Hm. destruct Hm as (p & Hp' & _ & Hm & _). rewrite Hp in Hp'. injection Hp' as <-.
  rewrite Hav, He in Hm. destruct a as [a|]; [|done]. injection Hm as <- <-.
  unfold ReSendPacket. rewrite Hrt, Hg. cbn [negb mbind option_bind default from_option id]. cbv zeta.
  pose proof (encode_zlen f) as Hl. pose proof (zlen_nonneg (encode f)).
  assert (12 <= zlen (encode f)).
  { destruct (encode_split f) as [-> _]. rewrite !zlen_app, header_fixed_zlen.
    pose proof (zlen_nonneg (flat_map (be_bytes 4) (f_csrcs f))). pose proof (zlen_nonneg (exts_bytes (f_exts f))).
    pose proof (zlen_nonneg (f_payload f)). pose proof (zlen_nonneg (padding_bytes (f_padding f))). lia. }
  rewrite (proj2 (Z.eqb_neq _ _)) by lia.
  destruct (enqueue_rtp_packet _ w) as [z w'] eqn:Ee. destruct (z <? 0); [|by exists h1].
  destruct (MarkPacketAsAborted_abs (f_sequence_number f) h1 Hh1 Hs) as (h2 & E2 & _).
  change (rtp_packet_history_ (set_history h1 s)) with h1. rewrite E2. by exists h2.
Qed.

Lemma numbered_rtx n rtx_ssrc f q packet :
  let e := without_fec (set_packet_type kRetransmission (rtx_of rtx_ssrc f q packet)) in
  rtp_packet (numbered n e) = built (resent rtx_ssrc n f)
    (set_payload_type_ 127 (set_payload_type_ 127 (set_ssrc_ rtx_ssrc (built f q)))).
Proof.
  cbv zeta. unfold numbered.
  change (rtp_packet (without_fec _)) with (built (rtx_frame (f_sequence_number f) (relabel 127 rtx_ssrc f))
    (set_payload_type_ 127 (set_payload_type_ 127 (set_ssrc_ rtx_ssrc (built f q))))).
  by rewrite UpdateSequenceNumber_built.
Qed.

(** Whether a packet has room for the send time does not depend on the time. *)
Lemma set_ast_room id t t' els : is_Some (set_ast id t els) -> is_Some (set_ast id t' els).
Proof.
  induction els as [|e els IH]; cbn [set_ast]; [done|]. case_match; [done|]. intros [els' E].
  destruct (set_ast id t els); [|done]. destruct IH as [? ->]; [done|]. done.
Qed.

Lemma resent_room rtx_ssrc n id t t' f f0 :
  frame_set_ast id t f = Some f0 -> is_Some (frame_set_ast id t' (resent rtx_ssrc n f)).
Proof.
  unfold frame_set_ast. cbn [resent frame_set_seq rtx_frame relabel f_exts].
  destruct (f_exts f) as [[els k]|]; [|done]. destruct (set_ast id t els) eqn:E; cbn [mbind option_bind]; [|done].
  intros _. destruct (set_ast_room id t t' els) as [x ->]; [by rewrite E|]. done.
Qed.
End chain.

(** ** Property *)

(** C8. A lost packet comes back as it was: when a stored packet may be sent
    again, the channel gives the pacer one packet of its retransmission stream;
    with any number that the pacer gives that packet and any send time that the
    transport puts into it, what arrives is parsed and restored by the receiver
    of the stream to the original packet — its number, timestamp, marker,
    contributing sources, extensions and payload, byte for byte, except for the
    new send time. *)
Theorem retransmission_restores {W} {pacer : PacerQueue W} {N} {network : SendWorld N}
    (now n : Z) (f : RtpFrame) (q : RtpPacket) (packet : RtpPacketToSend) (stored : StoredPacket)
    (s : VideoChannelSend) (w : W) (c : SendController) (net : N) (rx : VideoReceiver) :
  hist_ok (rtp_packet_history_ s) -> abs (rtp_packet_history_ s) !! f_sequence_number f = Some stored ->
  packet_ stored = Some packet -> available now (rtp_packet_history_ s) stored = true ->
  rtp_packet packet = built f q -> frame_ok f -> f_padding f = None -> zlen (encode f) < 65536 ->
  rtx_enabled_ s = true -> is_u32 (vs_rtx_ssrc_ s) -> vs_rtx_ssrc_ s <> 0 -> is_u16 n ->
  (forall id, video_abs_send_time_ext_id_ c = Some id -> exists t f0, frame_set_ast id t f = Some f0) ->
  f_ssrc f <> 0 -> 0 < f_payload_type f < 127 ->
  remote_ssrc_ rx = f_ssrc f -> media_payload_type_ rx = f_payload_type f -> rtx_ssrc_ rx = vs_rtx_ssrc_ s ->
  exists z h' w' e p c' net' a f',
    ReSendPacket now (f_sequence_number f) s w = Some (z, set_history h' s, w') /\
    enqueue_rtp_packet e w = (z, w') /\
    stamp_packet (numbered n e) (c, net) = Some (Some p, (c', net')) /\
    Build new_packet (buffer_ (rtp_packet p)) (size_ (rtp_packet p)) = Some (true, a) /\
    restamped f f' /\ media_packet_of a rx = Some (Some (built f' new_packet, true)).
Proof.
  intros Hh Ha Hp Hav E Hf Hpad Hz Hrt Hr Hr0 Hn Hroom Hs0 Hpt Ers Ept Ertx.
  destruct (ReSendPacket_stored now f q packet stored s w Hh Ha Hp Hav E Hf Hpad Hz Hrt Hr) as (h' & Hrun).
  cbv zeta in Hrun. set (e := without_fec _) in *. destruct (enqueue_rtp_packet e w) as [z w'] eqn:Ee.
  pose proof (numbered_rtx n (vs_rtx_ssrc_ s) f q packet) as Eb. cbv zeta in Eb. fold e in Eb.
  pose proof (resent_ok (vs_rtx_ssrc_ s) n f Hf Hr Hn) as Hg.
  destruct (stamp_packet_ok _ _ (numbered n e) (c, net) Eb Hg) as (r & [c' net'] & Hst & _ & Hpk).
  destruct r as [p|].
  2: { destruct Hpk as (id & t & Hid & Hno). unfold ext_id_of in Hid. rewrite bool_decide_false in Hid.
       - destruct (Hroom id Hid) as (t0 & f0 & H0).
         destruct (resent_room (vs_rtx_ssrc_ s) n id t0 t f f0 H0) as [x Hx]. by rewrite Hno in Hx.
       - unfold numbered. by destruct (UpdateSequenceNumber n (rtp_packet e)). }
  destruct Hpk as (g & Hst' & ->). destruct (restamped_ok _ _ Hst' Hg) as [Hg' _].
  destruct (restamped_fields _ _ Hst') as (_ & Gpt & _ & _ & Gss & _ & Gpay & Gpad).
  exists z, h', w', e, (set_packet (built g (set_payload_type_ 127 (set_payload_type_ 127 (set_ssrc_ (vs_rtx_ssrc_ s) (built f q)))))
    (numbered n e)), c', net', (built g new_packet), (restored (f_ssrc f) (f_payload_type f) (f_sequence_number f) (f_payload f) g).
  pose proof Hf as (_ & Hsq & _ & Hss & _).
  split_and!; [exact Hrun|exact Ee|exact Hst|by apply Build_encode|by apply (restored_restamped (vs_rtx_ssrc_ s) n)|].
  unfold media_packet_of. change (payload_type_ (built g new_packet)) with (f_payload_type g).
  change (ssrc_ (built g new_packet)) with (f_ssrc g). rewrite Gpt, Gss. cbn [resent frame_set_seq rtx_frame relabel f_payload_type f_ssrc].
  change (127 =? payload_type_value RTX) with true. cbn [andb].
  rewrite Ertx, Z.eqb_refl, (proj2 (Z.eqb_neq _ _)) by done. cbn [orb negb].
  rewrite (RestoreMedia_built (f_sequence_number f) (f_payload f) g new_packet rx); rewrite ?Ers, ?Ept; try done; by rewrite ?Gpad, ?Gpay, ?Gpt.
Qed.

(** The packet of [SendPathOk.v], once stored, through a pacer that keeps what
    it is given. *)
Definition sample_rx : VideoReceiver :=
  mkVideoReceiver 1 7 8 96 (Some 3) false true (frames (new_receiver 1 None)) (nack_ (new_receiver 1 None))
    (stats (new_receiver 1 None)) false 0 0 0.

Lemma retransmission_restores_witness :
  exists h, run_task 1000 (TaskPut sample_packet) (set_history new_history sample_channel) = Some (set_history h sample_channel) /\
  exists z h' w' e p c' net' a f',
    @ReSendPacket _ recording_pacer 2000 41 (set_history h sample_channel) [] =
      Some (z, set_history h' (set_history h sample_channel), w') /\
    @enqueue_rtp_packet _ recording_pacer e [] = (z, w') /\
    stamp_packet (numbered 5 e) (sample_controller, SendPathOk.mkWire 6000000 []) = Some (Some p, (c', net')) /\
    Build new_packet (buffer_ (rtp_packet p)) (size_ (rtp_packet p)) = Some (true, a) /\
    restamped sample_media f' /\ media_packet_of a sample_rx = Some (Some (built f' new_packet, true)).
Proof.
  destruct (stored_by_task 1000 (TaskPut sample_packet) sample_packet new_history sample_channel) as (h & E & Hh & st & Ha & Hp & Hav).
  - apply new_history_ok.
  - unfold is_u16. cbn. lia.
  - unfold PlusInfinity. lia.
  - done.
  - cbn. lia.
  - by right.
  - done.
  - exists h. split; [exact E|].
    refine (retransmission_restores (pacer := recording_pacer) 2000 5 sample_media new_packet sample_packet st
      (set_history h sample_channel) [] sample_controller (SendPathOk.mkWire 6000000 []) sample_rx Hh Ha Hp (Hav 2000)
      eq_refl sample_media_ok eq_refl _ eq_refl _ _ _ _ _ _ eq_refl eq_refl eq_refl).
    + vm_compute. done.
    + unfold is_u32. cbn. lia.
    + cbn. lia.
    + unfold is_u16. lia.
    + intros id [= <-]. exists 0. eexists. vm_compute. done.
    + cbn. lia.
    + cbn. lia.
Defined.
