(* ===== verification/Threads.v ===== *)
(** * Threads

    Code that several threads run at once: a thread is a tree of atomic
    sections — what a mutex guards, a call, an access to an atomic member — and
    a schedule says which thread goes on.  [obeys] says what each of a thread's
    sections does to the shared state and to the thread's own obligations;
    [schedule_sound] adds up the obligations of all threads. *)

From S2P Require Import Prelude StateMonad.

(** A section that fails is an exception that nobody catches: it ends the
    program. *)
Inductive Thread (S A : Type) : Type :=
  | Return (a : A)
  | Act (f : S -> option (Thread S A * S)).
Arguments Return {S A}. Arguments Act {S A}.

(** What holds of ends, and of a section when it holds of all that may follow,
    holds of threads. *)
Definition follows {S A} (P : Thread S A -> Prop) (f : S -> option (Thread S A * S)) : Prop :=
  forall s, match f s with Some (t, _) => P t | None => True end.

Definition thread_rect {S A} (P : Thread S A -> Prop) (Hr : forall a, P (Return a)) (Ha : forall f, follows P f -> P (Act f)) :
    forall t, P t :=
  fix go t := match t with
    | Return a => Hr a
    | Act f => Ha f (fun s => match f s as r return match r with Some (t, _) => P t | None => True end with
                             | Some (t, _) => go t
                             | None => I
                             end)
    end.

Fixpoint thread_bind {S A B} (k : A -> Thread S B) (t : Thread S A) : Thread S B :=
  match t with
  | Return a => k a
  | Act f => Act (fun s => match f s with Some (t, s') => Some (thread_bind k t, s') | None => None end)
  end.

#[export] Instance Thread_ret {S} : MRet (Thread S) := fun _ a => Return a.
#[export] Instance Thread_bind {S} : MBind (Thread S) := fun _ _ k t => thread_bind k t.

Definition atomic {S A} (m : M S A) : Thread S A := Act (fun s => '(a, s') ← m s; Some (Return a, s')).

(** An exception. *)
Definition throw {S A} : Thread S A := Act (fun _ => None).

(** What must be there. *)
Definition the {S A} (o : option A) : Thread S A := match o with Some a => Return a | None => throw end.

Fixpoint each {S A} (f : A -> Thread S unit) (l : list A) : Thread S unit :=
  match l with
  | [] => mret tt
  | x :: l => f x;; each f l
  end.

(** A thread that nobody interrupts. *)
Fixpoint alone {S A} (t : Thread S A) (s : S) : option (A * S) :=
  match t with
  | Return a => Some (a, s)
  | Act f => match f s with Some (t, s') => alone t s' | None => None end
  end.

Lemma alone_bind {S A B} (t : Thread S A) (k : A -> Thread S B) s :
  alone (t ≫= k) s = '(a, s') ← alone t s; alone (k a) s'.
Proof.
  revert s. induction t as [a|f IH] using thread_rect; intros s; [done|]. cbn. specialize (IH s).
  destruct (f s) as [[t' s']|]; [|done]. apply IH.
Qed.

Lemma alone_atomic {S A} (m : M S A) s : alone (atomic m) s = m s.
Proof. cbn. by destruct (m s) as [[a s']|]. Qed.

(** ** Schedules *)

Section schedules.
Context {S E : Type} (start : E -> Thread S unit).

Inductive Choice :=
  | Begin (e : E)
  | Go (i : nat).

Definition Pool : Type := list (Thread S unit) * S.

(** A thread that has ended, or is not there, does nothing. *)
Definition step (c : Choice) (p : Pool) : option Pool :=
  match c with
  | Begin e => Some (p.1 ++ [start e], p.2)
  | Go i =>
      match p.1 !! i with
      | Some (Act f) => '(t, s) ← f p.2; Some (<[i := t]> p.1, s)
      | _ => Some p
      end
  end.

Fixpoint schedule (cs : list Choice) (p : Pool) : option Pool :=
  match cs with
  | [] => Some p
  | c :: cs => p ← step c p; schedule cs p
  end.

Definition ended (t : Thread S unit) : bool := match t with Return _ => true | Act _ => false end.

End schedules.
Arguments Begin {E}. Arguments Go {E}.

(** ** Obligations *)

Section obligations.
Context {S L : Type}.
(** What a section may do to the state and to the obligations of its thread, and
    what state and obligations of all threads agree on. *)
Context (move : S -> L -> S -> L -> Prop) (total : S -> list L -> Prop).

Definition sees (s : S) (l : L) : Prop := exists before after, total s (before ++ l :: after).

Fixpoint obeys {A} (t : Thread S A) (l : L) (Q : A -> L -> Prop) : Prop :=
  match t with
  | Return a => Q a l
  | Act f => forall s, sees s l ->
      match f s with
      | None => True
      | Some (t, s') => exists l', move s l s' l' /\ obeys t l' Q
      end
  end.

Lemma obeys_mono {A} (t : Thread S A) l (P Q : A -> L -> Prop) : (forall a l, P a l -> Q a l) -> obeys t l P -> obeys t l Q.
Proof.
  intros H. revert l. induction t as [a|f IH] using thread_rect; intros l; cbn; [apply H|].
  intros Hf s Hs. specialize (Hf s Hs). specialize (IH s). destruct (f s) as [[t' s']|]; [|done].
  destruct Hf as (l' & Hm & Ho). exists l'. split; [done|]. by apply IH.
Qed.

Lemma obeys_bind {A B} (t : Thread S A) (k : A -> Thread S B) l Q :
  obeys t l (fun a l => obeys (k a) l Q) -> obeys (t ≫= k) l Q.
Proof.
  revert l. induction t as [a|f IH] using thread_rect; intros l; cbn; [done|].
  intros Hf s Hs. specialize (Hf s Hs). specialize (IH s). destruct (f s) as [[t' s']|]; [|done].
  destruct Hf as (l' & Hm & Ho). exists l'. split; [done|]. by apply IH.
Qed.

Lemma obeys_atomic {A} (m : M S A) l (Q : A -> L -> Prop) :
  (forall s a s', sees s l -> m s = Some (a, s') -> exists l', move s l s' l' /\ Q a l') -> obeys (atomic m) l Q.
Proof.
  intros H s Hs. specialize (H s). destruct (m s) as [[a s']|] eqn:E; cbn; [|done].
  destruct (H a s' Hs eq_refl) as (l' & Hm & HQ). by exists l'.
Qed.

Lemma obeys_throw {A} l (Q : A -> L -> Prop) : obeys throw l Q.
Proof. by intros s _. Qed.

Lemma obeys_the {A} (o : option A) l (Q : A -> L -> Prop) : (forall a, o = Some a -> Q a l) -> obeys (the o) l Q.
Proof. destruct o as [a|]; intros H; [by apply H|apply obeys_throw]. Qed.

(** A loop that changes nothing of its thread's obligations. *)
Lemma obeys_each {A} (f : A -> Thread S unit) xs l (Q : unit -> L -> Prop) :
  (forall x, obeys (f x) l (fun _ l' => l' = l)) -> Q tt l -> obeys (each f xs) l Q.
Proof.
  intros Hf HQ. induction xs as [|x xs IH]; cbn [each]; [done|]. apply obeys_bind.
  eapply obeys_mono; [|apply Hf]. by intros _ l' ->.
Qed.

Context {E : Type} (start : E -> Thread S unit) (none : L).

Hypothesis Hmove : forall s l s' l' before after,
  total s (before ++ l :: after) -> move s l s' l' -> total s' (before ++ l' :: after).
Hypothesis Hbegin : forall s ls, total s ls -> total s (ls ++ [none]).
Hypothesis Hstart : forall e, obeys (start e) none (fun _ l => l = none).

(** In every state that a schedule reaches, the obligations of the threads add
    up; those of the threads that have ended are none. *)
Theorem schedule_sound cs pool s pool' s' ls :
  schedule start cs (pool, s) = Some (pool', s') ->
  Forall2 (fun t l => obeys t l (fun _ l => l = none)) pool ls -> total s ls ->
  exists ls', Forall2 (fun t l => obeys t l (fun _ l => l = none)) pool' ls' /\ total s' ls'.
Proof.
  revert pool s ls. induction cs as [|c cs IH]; intros pool s ls; cbn [schedule].
  { intros [= -> ->] Ho Ht. by exists ls. }
  destruct c as [e|i]; cbn [step fst snd].
  - cbn [mbind option_bind]. intros E' Ho Ht. eapply (IH _ _ (ls ++ [none])); [exact E'| |by apply Hbegin].
    apply Forall2_app; [done|]. by constructor.
  - destruct (pool !! i) as [[a|f]|] eqn:Ei; cbn [mbind option_bind]; [by apply IH| |by apply IH].
    destruct (f s) as [[t s1]|] eqn:Ef; cbn [mbind option_bind]; [|done]. intros E' Ho Ht.
    destruct (Forall2_lookup_l _ _ _ _ _ Ho Ei) as (l & El & Hol).
    specialize (Hol s). rewrite Ef in Hol. destruct Hol as (l' & Hm & Hol').
    { exists (take i ls), (drop (Datatypes.S i) ls). by rewrite take_drop_middle. }
    eapply (IH _ _ (<[i := l']> ls)); [exact E'|by apply Forall2_insert|].
    rewrite <- (take_drop_middle ls i l El) in Ht |- *.
    rewrite insert_app_r_alt by (rewrite length_take; lia).
    rewrite length_take. apply lookup_lt_Some in El. replace (i - i `min` length ls)%nat with 0%nat by lia.
    by eapply Hmove.
Qed.

End obligations.

(** ** Threads that do not throw *)

Section safety.
Context {S : Type}.
(** What every section may rely on and keeps. *)
Context (Inv : S -> Prop).

Fixpoint safe {A} (t : Thread S A) (Q : A -> Prop) : Prop :=
  match t with
  | Return a => Q a
  | Act f => forall s, Inv s -> match f s with Some (t, s') => Inv s' /\ safe t Q | None => False end
  end.

Definition sure {A} (m : M S A) (Q : A -> Prop) : Prop := forall s, Inv s -> wp m s (fun a s' => Inv s' /\ Q a).

Lemma nothrow_bind {A B} (t : Thread S A) (k : A -> Thread S B) R Q : safe t R -> (forall a, R a -> safe (k a) Q) -> safe (t ≫= k) Q.
Proof.
  intros Ht Hk. revert Ht. induction t as [a|f IH] using thread_rect; [apply Hk|]. intros Ht s Hs. specialize (IH s). specialize (Ht s Hs).
  cbn. destruct (f s) as [[t s']|]; [|done]. destruct Ht as [Hi Ht]. split; [done|]. by apply IH.
Qed.

Lemma nothrow_mono {A} (t : Thread S A) (P Q : A -> Prop) : safe t P -> (forall a, P a -> Q a) -> safe t Q.
Proof.
  intros Ht HQ. revert Ht. induction t as [a|f IH] using thread_rect; [apply HQ|]. intros Ht s Hs. specialize (IH s). specialize (Ht s Hs).
  cbn in *. destruct (f s) as [[t s']|]; [|done]. destruct Ht as [Hi Ht]. split; [done|]. by apply IH.
Qed.

Lemma nothrow_then {A B} (t : Thread S A) (k : A -> Thread S B) Q : safe t (fun _ => True) -> (forall a, safe (k a) Q) -> safe (t ≫= k) Q.
Proof. intros Ht Hk. eapply nothrow_bind; [exact Ht|]. intros a _. apply Hk. Qed.

Lemma nothrow_each {A} (f : A -> Thread S unit) l : (forall x, safe (f x) (fun _ => True)) -> safe (each f l) (fun _ => True).
Proof. intros Hf. induction l; cbn [each]; [done|]. by apply nothrow_then. Qed.

Lemma nothrow_atomic {A} (m : M S A) Q : sure m Q -> safe (atomic m) Q.
Proof. intros H s Hs. destruct (H s Hs) as (a & s' & E & Hi & HQ). cbn. by rewrite E. Qed.

Lemma sure_ret {A} (a : A) (Q : A -> Prop) : Q a -> sure (mret a) Q.
Proof. intros HQ s Hs. by apply wp_ret. Qed.

Lemma sure_bind {A B} (m : M S A) (f : A -> M S B) R Q : sure m R -> (forall a, R a -> sure (f a) Q) -> sure (m ≫= f) Q.
Proof. intros Hm Hf s Hs. apply wp_bind. eapply wp_mono; [by apply Hm|]. intros a s' [Hi HR]. by apply Hf. Qed.

Lemma sure_then {A B} (m : M S A) (f : A -> M S B) Q : sure m (fun _ => True) -> (forall a, sure (f a) Q) -> sure (m ≫= f) Q.
Proof. intros Hm Hf. eapply sure_bind; [exact Hm|]. intros a _. apply Hf. Qed.

Lemma sure_for_each {A} (f : A -> M S unit) l : (forall x, sure (f x) (fun _ => True)) -> sure (for_each f l) (fun _ => True).
Proof. intros Hf. induction l; cbn [for_each]; [by apply sure_ret|]. by apply sure_then. Qed.

(** No schedule of such threads ends the program. *)
Theorem schedule_safe {E} (start : E -> Thread S unit) cs pool s :
  (forall e, Begin e ∈ cs -> safe (start e) (fun _ => True)) -> Inv s -> Forall (fun t => safe t (fun _ => True)) pool ->
  is_Some (schedule start cs (pool, s)).
Proof.
  revert pool s. induction cs as [|c cs IH]; intros pool s Hcs Hs Hp; cbn [schedule]; [by eexists|].
  assert (forall e, Begin e ∈ cs -> safe (start e) (fun _ => True)) as Hcs' by (intros e He; apply Hcs; by right).
  destruct c as [e|i]; cbn [step fst snd mbind option_bind].
  - apply IH; [done|done|]. apply list.Forall_app. split; [done|]. constructor; [|done]. apply Hcs. left.
  - destruct (pool !! i) as [[a|f]|] eqn:Ei; cbn [mbind option_bind]; [by apply IH| |by apply IH].
    pose proof (list.Forall_lookup_1 _ _ _ _ Hp Ei s Hs) as Hf. cbn in Hf. destruct (f s) as [[t s']|]; [|done]. destruct Hf as [Hi Hf].
    cbn [mbind option_bind]. apply IH; [done|done|]. by apply list.Forall_insert.
Qed.

End safety.
