(* ===== verification/WsClient.v ===== *)
(** * The socket of the signalling server

    [src/ws/ws_client.cpp] and [src/ws/ws_client.h]: opening and reopening the
    connection, with growing pauses, from whatever thread notices that it is
    gone.  Methods are [Thread]s; the threads that wait before they reconnect are
    in a list until the scheduler lets one run.  Sockets are numbers in the order
    of their creation.  websocketpp is an interface; waiting for a thread to end
    is left out. *)

From Stdlib Require Import Ascii String.
From stdpp Require Import strings.
From S2P Require Import Prelude StateMonad Text Threads.

(** src/ws/ws_client.h:28-37 [WsStatus] *)
Inductive WsStatus :=
  | WsOpening | WsOpened | WsConnecting | WsFailed | WsClosed
  | WsReconnecting | WsServerClosed | WsTlsCertError.

#[export] Instance WsStatus_eq_dec : EqDecision WsStatus.
Proof. solve_decision. Defined.

(** What the client does to the outside; [Scheduled] is the flag of an attempt
    to reconnect being taken, [Finished] its being given back. *)
Inductive WsEvent :=
  | StatusReported (status : WsStatus)
  | SocketConnecting (endpoint : nat) (uri : text)
  | SocketClosed
  | SocketStopped (endpoint : nat)
  | MessageSent (message : text)
  | MessageReceived (message : text)
  | Pinged
  | Scheduled
  | Finished.

(** The atomic members. *)
(** src/ws/ws_client.h:117-132 [WsClient] *)
Record Flags := mkFlags {
  running_ : bool;
  heartbeat_started_ : bool;
  ws_status_ : WsStatus;
  timeout_count_ : Z;
  shutdown_ : bool;
  is_reconnecting_ : bool;
  reconnect_attempts_ : Z;
  tls_failure_count_ : Z;
  reconnect_generation_ : Z;
}.

(** Threads are joinable or not. *)
(** src/ws/ws_client.h:102-116 [WsClient] *)
Record Ws := mkWs {
  flags : Flags;
  m_endpoint_ : option nat;
  created_endpoints : nat;
  m_thread_ : bool;
  ping_thread_ : bool;
  reconnect_thread_ : bool;
  pending_threads_ : nat;
  uri_ : text;
  (** The pauses of the threads that were started, and the generation that they
      belong to. *)
  waiting_threads : list (Z * Z);
  ws_trace : list WsEvent;
}.

Definition set_flags (f : Flags -> Flags) (s : Ws) : Ws :=
  mkWs (f (flags s)) (m_endpoint_ s) (created_endpoints s) (m_thread_ s) (ping_thread_ s) (reconnect_thread_ s) (pending_threads_ s)
    (uri_ s) (waiting_threads s) (ws_trace s).
Definition set_endpoint (e : option nat) (s : Ws) : Ws :=
  mkWs (flags s) e (created_endpoints s) (m_thread_ s) (ping_thread_ s) (reconnect_thread_ s) (pending_threads_ s)
    (uri_ s) (waiting_threads s) (ws_trace s).
Definition new_endpoint (s : Ws) : Ws :=
  mkWs (flags s) (Some (created_endpoints s)) (S (created_endpoints s)) (m_thread_ s) (ping_thread_ s) (reconnect_thread_ s)
    (pending_threads_ s) (uri_ s) (waiting_threads s) (ws_trace s).
Definition set_threads (m ping reconnect : bool) (pending : nat) (s : Ws) : Ws :=
  mkWs (flags s) (m_endpoint_ s) (created_endpoints s) m ping reconnect pending (uri_ s) (waiting_threads s) (ws_trace s).
Definition set_uri (uri : text) (s : Ws) : Ws :=
  mkWs (flags s) (m_endpoint_ s) (created_endpoints s) (m_thread_ s) (ping_thread_ s) (reconnect_thread_ s) (pending_threads_ s)
    uri (waiting_threads s) (ws_trace s).
Definition set_waiting (l : list (Z * Z)) (s : Ws) : Ws :=
  mkWs (flags s) (m_endpoint_ s) (created_endpoints s) (m_thread_ s) (ping_thread_ s) (reconnect_thread_ s) (pending_threads_ s)
    (uri_ s) l (ws_trace s).
Definition add_ws_event (e : WsEvent) (s : Ws) : Ws :=
  mkWs (flags s) (m_endpoint_ s) (created_endpoints s) (m_thread_ s) (ping_thread_ s) (reconnect_thread_ s) (pending_threads_ s)
    (uri_ s) (waiting_threads s) (ws_trace s ++ [e]).

Definition set_running (b : bool) : Ws -> Ws :=
  set_flags (fun f => mkFlags b (heartbeat_started_ f) (ws_status_ f) (timeout_count_ f) (shutdown_ f) (is_reconnecting_ f)
    (reconnect_attempts_ f) (tls_failure_count_ f) (reconnect_generation_ f)).
Definition set_heartbeat (b : bool) : Ws -> Ws :=
  set_flags (fun f => mkFlags (running_ f) b (ws_status_ f) (timeout_count_ f) (shutdown_ f) (is_reconnecting_ f)
    (reconnect_attempts_ f) (tls_failure_count_ f) (reconnect_generation_ f)).
Definition set_status (st : WsStatus) : Ws -> Ws :=
  set_flags (fun f => mkFlags (running_ f) (heartbeat_started_ f) st (timeout_count_ f) (shutdown_ f) (is_reconnecting_ f)
    (reconnect_attempts_ f) (tls_failure_count_ f) (reconnect_generation_ f)).
Definition set_timeouts (n : Z) : Ws -> Ws :=
  set_flags (fun f => mkFlags (running_ f) (heartbeat_started_ f) (ws_status_ f) n (shutdown_ f) (is_reconnecting_ f)
    (reconnect_attempts_ f) (tls_failure_count_ f) (reconnect_generation_ f)).
Definition set_shutdown : Ws -> Ws :=
  set_flags (fun f => mkFlags (running_ f) (heartbeat_started_ f) (ws_status_ f) (timeout_count_ f) true (is_reconnecting_ f)
    (reconnect_attempts_ f) (tls_failure_count_ f) (reconnect_generation_ f)).
Definition set_reconnecting (b : bool) : Ws -> Ws :=
  set_flags (fun f => mkFlags (running_ f) (heartbeat_started_ f) (ws_status_ f) (timeout_count_ f) (shutdown_ f) b
    (reconnect_attempts_ f) (tls_failure_count_ f) (reconnect_generation_ f)).
Definition set_attempts (n : Z) : Ws -> Ws :=
  set_flags (fun f => mkFlags (running_ f) (heartbeat_started_ f) (ws_status_ f) (timeout_count_ f) (shutdown_ f) (is_reconnecting_ f)
    n (tls_failure_count_ f) (reconnect_generation_ f)).
Definition set_tls_failures (n : Z) : Ws -> Ws :=
  set_flags (fun f => mkFlags (running_ f) (heartbeat_started_ f) (ws_status_ f) (timeout_count_ f) (shutdown_ f) (is_reconnecting_ f)
    (reconnect_attempts_ f) n (reconnect_generation_ f)).
Definition next_generation : Ws -> Ws :=
  set_flags (fun f => mkFlags (running_ f) (heartbeat_started_ f) (ws_status_ f) (timeout_count_ f) (shutdown_ f) (is_reconnecting_ f)
    (reconnect_attempts_ f) (tls_failure_count_ f) (u64 (reconnect_generation_ f + 1))).

(** websocketpp: whether a connection could be made, whether the one of the
    handle is gone, is open, whether a message or a ping could be sent. *)
Class Sockets (W : Type) := {
  get_connection : text -> W -> bool * W;
  handle_expired : W -> bool * W;
  socket_is_open : W -> bool * W;
  socket_ping : W -> bool * W;
}.

(** ** Pauses *)

(** Behind the first attempt it doubles up to a minute. *)
(** src/ws/ws_client.cpp:314-318 [WsClient::AsyncReConnect] *)
Definition reconnect_delay (attempt : Z) : Z :=
  let exponent := Z.min (attempt - 1) 6 in
  Z.min (if attempt <=? 1 then 0 else Z.shiftl 1 exponent) 60.

(** An [int] shifted by 31 is the least one, by more it is undefined. *)
(** src/ws/ws_client.cpp:485-486 [WsClient::OnFail] *)
Definition tls_delay (attempts : Z) : option Z :=
  if (attempts <? 0) || (32 <=? attempts) then None
  else Some (Z.min (if attempts =? 31 then -2147483648 else Z.shiftl 1 attempts) 60).

Section methods.
Context {W : Type} {sockets : Sockets W}.

#[local] Notation T := (Thread (Ws * W)).

Definition ws {A} (f : Ws -> A) : M (Ws * W) A := gets (fun s => f s.1).
Definition set (f : Ws -> Ws) : M (Ws * W) unit := modify (fun s => (f s.1, s.2)).
Definition ask {A} (f : W -> A * W) : M (Ws * W) A := fun s => let '(a, w) := f s.2 in Some (a, (s.1, w)).
Definition tell (e : WsEvent) : T unit := atomic (set (add_ws_event e)).
Definition flag (f : Flags -> bool) : T bool := atomic (ws (fun s => f (flags s))).

(** src/ws/ws_client.cpp:348-353 [WsClient::SetStatus] *)
Definition SetStatus (status : WsStatus) : T unit :=
  atomic (set (set_status status));;
  down ← flag shutdown_;
  if (down : bool) then mret tt else tell (StatusReported status).

(** Threads that are joined are not joinable any more. *)
Definition join_ping : M (Ws * W) unit :=
  set (fun s => set_threads (m_thread_ s) false (reconnect_thread_ s) (pending_threads_ s) s).
Definition join_main : M (Ws * W) unit :=
  set (fun s => set_threads false (ping_thread_ s) (reconnect_thread_ s) (pending_threads_ s) s).

(** src/ws/ws_client.cpp:106-120 [WsClient::CleanupPendingThreads] *)
Definition CleanupPendingThreads : T unit :=
  atomic (set next_generation);;
  atomic (set (fun s => set_threads (m_thread_ s) (ping_thread_ s) (reconnect_thread_ s) 0 s)).

(** src/ws/ws_client.cpp:89-104 [WsClient::StopThreads] *)
Definition StopThreads : T unit :=
  atomic (set (set_running false));;
  atomic join_ping;;
  CleanupPendingThreads;;
  atomic (e ← ws m_endpoint_;
          match e with Some e => set (add_ws_event (SocketStopped e)) | None => mret tt end;;
          join_main;;
          set (set_endpoint None));;
  atomic (set (set_heartbeat false)).

(** src/ws/ws_client.cpp:36-87 [WsClient::Shutdown] *)
Definition Shutdown : T unit :=
  finished ← atomic (ws (fun s => shutdown_ (flags s) && match m_endpoint_ s with None => true | Some _ => false end &&
                                  negb (m_thread_ s) && negb (ping_thread_ s) && negb (reconnect_thread_ s)));
  if (finished : bool) then mret tt else
  atomic (set set_shutdown);;
  atomic (set (set_running false));;
  atomic (set (set_reconnecting false));;
  atomic (set next_generation);;
  atomic (set (fun s => set_threads (m_thread_ s) (ping_thread_ s) false 0 s));;
  atomic (set (set_running false));;
  atomic join_ping;;
  atomic (e ← ws m_endpoint_;
          match e with Some e => set (add_ws_event (SocketStopped e)) | None => mret tt end;;
          join_main;;
          set (set_endpoint None));;
  atomic (set (set_heartbeat false)).

(** src/ws/ws_client.cpp:324-326 [WsClient::Close] *)
Definition Close : T unit := Shutdown.

(** src/ws/ws_client.cpp:248-279 [WsClient::Connect] *)
Definition Connect (uri : text) : T Z :=
  down ← flag shutdown_;
  if (down : bool) then mret (-1) else
  atomic (set (set_uri uri));;
  StopThreads;;
  atomic (set new_endpoint);;
  SetStatus WsOpening;;
  atomic (set (fun s => set_threads true (ping_thread_ s) (reconnect_thread_ s) (pending_threads_ s) s));;
  connection ← atomic (ask (get_connection uri));
  if negb (connection : bool) then StopThreads;; mret (-1) else
  atomic (e ← ws m_endpoint_; set (add_ws_event (SocketConnecting (default 0%nat e) uri)));;
  SetStatus WsConnecting;;
  mret 0.

(** src/ws/ws_client.cpp:281-307 [WsClient::ReConnect] *)
Definition ReConnect : T Z :=
  down ← flag shutdown_;
  if (down : bool) then mret (-1) else
  status ← atomic (ws (fun s => ws_status_ (flags s)));
  if bool_decide (status = WsReconnecting) then mret 0 else
  SetStatus WsReconnecting;;
  expired ← atomic (ask handle_expired);
  (if (expired : bool) then mret tt else
     is_open ← atomic (ask socket_is_open);
     if (is_open : bool) then tell SocketClosed else mret tt);;
  StopThreads;;
  uri ← atomic (ws uri_);
  Connect uri.

(** The flag is taken by one thread. *)
(** src/ws/ws_client.cpp:127-132 [WsClient::ScheduleReconnect] *)
Definition take_flag : M (Ws * W) bool :=
  taken ← ws (fun s => is_reconnecting_ (flags s));
  if (taken : bool) then mret false else
  set (set_reconnecting true);;
  set (add_ws_event Scheduled);;
  mret true.

(** The new thread is published, or given up when the client was shut down. *)
(** src/ws/ws_client.cpp:169-184 [WsClient::ScheduleReconnect] *)
Definition publish_thread : M (Ws * W) unit :=
  down ← ws (fun s => shutdown_ (flags s));
  if (down : bool) then set next_generation;; set (set_reconnecting false)
  else set (fun s => set_threads (m_thread_ s) (ping_thread_ s) true
                       (if reconnect_thread_ s then S (pending_threads_ s) else pending_threads_ s) s).

(** src/ws/ws_client.cpp:122-185 [WsClient::ScheduleReconnect] *)
Definition ScheduleReconnect (delay_seconds : Z) : T unit :=
  down ← flag shutdown_;
  if (down : bool) then mret tt else
  mine ← atomic take_flag;
  if negb (mine : bool) then mret tt else
  generation ← atomic (ws (fun s => reconnect_generation_ (flags s)));
  atomic (set (fun s => set_waiting (waiting_threads s ++ [(delay_seconds, generation)]) s));;
  atomic publish_thread.

Definition give_flag : M (Ws * W) unit := set (set_reconnecting false);; set (add_ws_event Finished).

(** What the thread does after its pause. *)
(** src/ws/ws_client.cpp:140-163 [WsClient::ScheduleReconnect] *)
Definition reconnect_thread : T unit :=
  job ← atomic (jobs ← ws waiting_threads;
                match jobs with
                | [] => mret None
                | job :: jobs => set (set_waiting jobs);; mret (Some job)
                end);
  match job with
  | None => mret tt
  | Some (_, current_generation) =>
      down ← flag shutdown_;
      generation ← atomic (ws (fun s => reconnect_generation_ (flags s)));
      (if (down : bool) || negb (generation =? current_generation) then mret tt else ReConnect;; mret tt);;
      atomic give_flag
  end.

(** src/ws/ws_client.cpp:309-322 [WsClient::AsyncReConnect] *)
Definition AsyncReConnect : T unit :=
  down ← flag shutdown_;
  if (down : bool) then mret tt else
  attempt ← atomic (n ← ws (fun s => reconnect_attempts_ (flags s)); set (set_attempts (s32 (n + 1)));; mret (s32 (n + 1)));
  ScheduleReconnect (reconnect_delay attempt).

(** src/ws/ws_client.cpp:328-344 [WsClient::Send] *)
Definition WsSend (message : text) : T unit :=
  e ← atomic (ws m_endpoint_);
  match e with
  | None => mret tt
  | Some _ =>
      is_open ← atomic (ask socket_is_open);
      if (is_open : bool) then tell (MessageSent message) else mret tt
  end.

(** src/ws/ws_client.cpp:355-369 [WsClient::RestartPingThread] *)
Definition RestartPingThread : T unit :=
  down ← flag shutdown_;
  if (down : bool) then mret tt else
  there ← atomic (ws ping_thread_);
  (if (there : bool) then atomic (set (set_running false));; atomic join_ping else mret tt);;
  atomic (set (set_running true));;
  atomic (set (fun s => set_threads (m_thread_ s) true (reconnect_thread_ s) (pending_threads_ s) s));;
  atomic (set (set_heartbeat true)).

(** One round of the heartbeat; whether there is another. *)
(** src/ws/ws_client.cpp:371-392 [WsClient::PingLoop] *)
Definition ping_round : T bool :=
  running ← flag running_;
  if negb (running : bool) then mret false else
  expired ← atomic (ask handle_expired);
  if (expired : bool) then mret false else
  is_open ← atomic (ask socket_is_open);
  if negb (is_open : bool) then mret true else
  tell Pinged;;
  atomic (ask socket_ping).

(** The certificate was verified by OpenSSL, or is by the system; an error that
    is one of certificates is told. *)
(** src/ws/ws_client.cpp:424-441 [WsClient::OnTlsVerify] *)
Definition OnTlsVerify (preverified system_trusts certificate_error : bool) : T bool :=
  if negb preverified && system_trusts then atomic (set (set_tls_failures 0));; mret true else
  if negb preverified then
    (if certificate_error then SetStatus WsTlsCertError else mret tt);;
    atomic (set (fun s => set_tls_failures (s32 (tls_failure_count_ (flags s) + 1)) s));;
    mret false
  else atomic (set (set_tls_failures 0));; mret true.

(** src/ws/ws_client.cpp:443-450 [WsClient::OnOpen] *)
Definition OnOpen : T unit :=
  SetStatus WsOpened;;
  atomic (set (set_attempts 0));;
  atomic (set (set_tls_failures 0));;
  RestartPingThread.

(** The message of an error of TLS says so. *)
(** src/ws/ws_client.cpp:458-473 [WsClient::OnFail] *)
Definition is_tls_error (error_msg : text) (ssl_category : bool) : bool :=
  let msg := map tolower error_msg in
  existsb (fun word => match find (lit word) msg with Some _ => true | None => false end)
    ["ssl"; "tls"; "certificate"; "handshake"; "verify"]%string || ssl_category.

(** The error of the connection, if there is one. *)
(** src/ws/ws_client.cpp:452-502 [WsClient::OnFail] *)
Definition OnFail (error : option (text * bool)) : T unit :=
  if (match error with Some (msg, ssl) => is_tls_error msg ssl | None => false end) then
    status ← atomic (ws (fun s => ws_status_ (flags s)));
    if bool_decide (status = WsTlsCertError) then mret tt else
    attempts ← atomic (n ← ws (fun s => reconnect_attempts_ (flags s)); set (set_attempts (s32 (n + 1)));; mret n);
    delay ← the (tls_delay attempts);
    down ← flag shutdown_;
    if (down : bool) then mret tt else ScheduleReconnect delay
  else
    down ← flag shutdown_;
    if (down : bool) then mret tt else AsyncReConnect.

(** src/ws/ws_client.cpp:504-510 [WsClient::OnClose] *)
Definition OnClose : T unit :=
  down ← flag shutdown_;
  if (down : bool) then mret tt else AsyncReConnect.

(** src/ws/ws_client.cpp:514-517 [WsClient::OnPong] *)
Definition OnPong : T bool := atomic (set (set_timeouts 0));; mret true.

(** src/ws/ws_client.cpp:519-524 [WsClient::OnPongTimeout] *)
Definition OnPongTimeout : T unit :=
  n ← atomic (n ← ws (fun s => timeout_count_ (flags s)); set (set_timeouts (s32 (n + 1)));; mret (s32 (n + 1)));
  if 2 <=? n then AsyncReConnect else mret tt.

(** src/ws/ws_client.cpp:526-530 [WsClient::OnMessage] *)
Definition OnMessage (message : text) : T unit := tell (MessageReceived message).

Inductive WsEntry :=
  | WsConnect (uri : text)
  | WsClose
  | WsSendMessage (message : text)
  | WsOnOpen
  | WsOnFail (error : option (text * bool))
  | WsOnClose
  | WsOnPong
  | WsOnPongTimeout
  | WsOnMessage (message : text)
  | WsOnTlsVerify (preverified system_trusts certificate_error : bool)
  | WsPing
  | WsReconnectThread.

Definition ws_start (e : WsEntry) : T unit :=
  match e with
  | WsConnect uri => Connect uri;; mret tt
  | WsClose => Close
  | WsSendMessage m => WsSend m
  | WsOnOpen => OnOpen
  | WsOnFail e => OnFail e
  | WsOnClose => OnClose
  | WsOnPong => OnPong;; mret tt
  | WsOnPongTimeout => OnPongTimeout
  | WsOnMessage m => OnMessage m
  | WsOnTlsVerify p t c => OnTlsVerify p t c;; mret tt
  | WsPing => ping_round;; mret tt
  | WsReconnectThread => reconnect_thread
  end.

End methods.

(** src/ws/ws_client.h:117-132 [WsClient] *)
Definition new_client : Ws :=
  mkWs (mkFlags false false WsClosed 0 false false 0 0 0) None 0 false false false 0 [] [] [].
