(* ===== verification/WsClientOk.v ===== *)
(** * Attempts to reconnect do not overlap

    Whatever threads notice that the connection is gone, and however they
    interleave, one attempt to reconnect is waiting or running at a time, until
    the client is shut down; and what the pauses before the attempts are. *)

From Stdlib Require Import Ascii String.
From stdpp Require Import strings.
From S2P Require Import Prelude StateMonad Text Threads WsClient.

Section attempts.
Context {W : Type} {sockets : Sockets W}.

#[local] Notation T := (Thread (Ws * W)).

Definition taken (s : Ws) : nat := if is_reconnecting_ (flags s) then 1 else 0.
Definition waiting_count (s : Ws) : nat := length (waiting_threads s).
Definition is_scheduled (e : WsEvent) : bool := match e with Scheduled => true | _ => false end.
Definition is_finished (e : WsEvent) : bool := match e with Finished => true | _ => false end.
Definition scheduled (s : Ws) : nat := length (List.filter is_scheduled (ws_trace s)).
Definition finished (s : Ws) : nat := length (List.filter is_finished (ws_trace s)).

(** The attempts that a thread carries, and whether it has seen the client shut
    down. *)
Record Load := mkLoad { carried : nat; seen_down : bool }.
Definition empty_handed : Load := mkLoad 0 false.

Definition ws_move (s : Ws * W) (l : Load) (s' : Ws * W) (l' : Load) : Prop :=
  (shutdown_ (flags s.1) = true -> shutdown_ (flags s'.1) = true) /\
  (seen_down l' = true -> shutdown_ (flags s'.1) = true) /\
  (shutdown_ (flags s'.1) = true \/
   (waiting_count s'.1 + carried l' + taken s.1 = waiting_count s.1 + carried l + taken s'.1)%nat /\
   (scheduled s'.1 + finished s.1 + taken s.1 = scheduled s.1 + finished s'.1 + taken s'.1)%nat).

Definition ws_total (s : Ws * W) (ls : list Load) : Prop :=
  Forall (fun l => seen_down l = true -> shutdown_ (flags s.1) = true) ls /\
  (shutdown_ (flags s.1) = true \/
   (waiting_count s.1 + list_sum (map carried ls) = taken s.1 /\ scheduled s.1 = finished s.1 + taken s.1)%nat).

Lemma ws_total_move s l s' l' before after : ws_total s (before ++ l :: after) -> ws_move s l s' l' -> ws_total s' (before ++ l' :: after).
Proof.
  intros [Hk H] (M1 & Mk & M2). split.
  - apply list.Forall_app in Hk as [Hb Hk]. apply list.Forall_cons in Hk as [_ Ha].
    apply list.Forall_app. split; [|constructor; [exact Mk|]]; (eapply List.Forall_impl; [|eassumption]); auto.
  - destruct H as [H|[H1 H2]]; [left; by apply M1|]. destruct M2 as [M2|[M2 M3]]; [by left|]. right.
    rewrite map_app, list_sum_app in *. cbn in *. lia.
Qed.

(** ** Sections that leave the attempts alone *)

Definition ws_view (s : Ws) := (shutdown_ (flags s), taken s, waiting_count s, scheduled s, finished s).

Definition still {A} (m : M (Ws * W) A) : Prop := forall s a s', m s = Some (a, s') -> ws_view s'.1 = ws_view s.1.

Lemma still_ret {A} (a : A) : still (mret a).
Proof. by intros s b s' [= _ <-]. Qed.
Lemma still_bind {A B} (m : M (Ws * W) A) (f : A -> M (Ws * W) B) : still m -> (forall a, still (f a)) -> still (m ≫= f).
Proof. intros Hm Hf s b s' (a & s1 & E1 & E2)%bind_inv. rewrite (Hf _ _ _ _ E2). by apply (Hm _ _ _ E1). Qed.
Lemma still_ws {A} (f : Ws -> A) : still (ws f).
Proof. by intros s a s' [= _ <-]. Qed.
Lemma still_set f : (forall s, ws_view (f s) = ws_view s) -> still (set f).
Proof. intros H s [] s' [= <-]. apply H. Qed.
Lemma still_ask {A} (f : W -> A * W) : still (ask f).
Proof. intros s a s'. unfold ask. destruct (f s.2). by intros [= _ <-]. Qed.

Lemma still_event e : is_scheduled e = false -> is_finished e = false -> still (set (add_ws_event e)).
Proof.
  intros H1 H2. apply still_set. intros s. unfold ws_view, scheduled, finished. cbn. rewrite !List.filter_app. cbn. rewrite H1, H2.
  by rewrite !app_nil_r.
Qed.

Lemma view_ws_move s s' l : sees ws_total s l -> ws_view s'.1 = ws_view s.1 -> ws_move s l s' l.
Proof.
  intros (before & after & Hk & _). apply list.Forall_app in Hk as [_ Hk]. apply list.Forall_cons in Hk as [Hk _].
  unfold ws_view. intros [= E1 E2 E3 E4 E5]. split_and!; [by rewrite E1|by rewrite E1|]. right. lia.
Qed.

Notation carries t l Q := (obeys ws_move ws_total t l Q).

(** A thread that carries at its end what it carried. *)
Definition even {A} (t : T A) : Prop := forall l, carries t l (fun _ l' => l' = l).

Lemma even_ret {A} (a : A) : even (mret a).
Proof. done. Qed.
Lemma even_bind {A B} (t : T A) (k : A -> T B) : even t -> (forall a, even (k a)) -> even (t ≫= k).
Proof. intros Ht Hk l. apply obeys_bind. eapply obeys_mono; [|apply Ht]. intros a l' ->. apply Hk. Qed.
Lemma even_atomic {A} (m : M (Ws * W) A) : still m -> even (atomic m).
Proof. intros Hm l. apply obeys_atomic. intros s a s' Hs E. exists l. split; [|done]. apply view_ws_move; [done|]. by eapply Hm. Qed.
Lemma even_the {A} (o : option A) : even (the o).
Proof. intros l. by apply obeys_the. Qed.
Lemma even_flag f : even (flag f).
Proof. apply even_atomic, still_ws. Qed.
Lemma even_tell e : is_scheduled e = false -> is_finished e = false -> even (tell e).
Proof. intros. by apply even_atomic, still_event. Qed.

(** ** Those that do not *)

Lemma shutdown_carries n seen (Q : unit -> Load -> Prop) : Q tt (mkLoad n true) -> carries (atomic (set set_shutdown)) (mkLoad n seen) Q.
Proof.
  intros HQ. apply obeys_atomic. intros [s w] [] s' _ [= <-]. exists (mkLoad n true). split; [|done]. split_and!; [done|done|by left].
Qed.

(** A thread that has seen the client shut down may clear the flag, and forget. *)
Lemma down_carries {A} (m : M (Ws * W) A) n seen (Q : A -> Load -> Prop) :
  (forall s a s', m s = Some (a, s') -> shutdown_ (flags s.1) = true -> shutdown_ (flags s'.1) = true) ->
  (forall a, Q a (mkLoad n seen)) -> carries (atomic m) (mkLoad n true) Q.
Proof.
  intros Hm HQ. apply obeys_atomic. intros s a s' (before & after & Hk & _) E. exists (mkLoad n seen). split; [|done].
  apply list.Forall_app in Hk as [_ Hk]. apply list.Forall_cons in Hk as [Hk _]. specialize (Hm s a s' E (Hk eq_refl)).
  split_and!; [done|done|by left].
Qed.

Lemma take_carries n seen (Q : bool -> Load -> Prop) : Q true (mkLoad (S n) seen) -> Q false (mkLoad n seen) ->
  carries (atomic take_flag) (mkLoad n seen) Q.
Proof.
  intros Ht Hf. apply obeys_atomic. intros [s w] a s' Hs E.
  assert (seen = true -> shutdown_ (flags s) = true) as Hseen.
  { destruct Hs as (before & after & Hk & _). apply list.Forall_app in Hk as [_ Hk]. by apply list.Forall_cons in Hk as [Hk _]. } unfold take_flag, ws, set, gets, modify, mbind, M_bind in E. cbn in E.
  destruct (is_reconnecting_ (flags s)) eqn:Er; cbn in E; injection E as <- <-.
  - exists (mkLoad n seen). split; [by apply view_ws_move|done].
  - exists (mkLoad (S n) seen). split; [|done]. split_and!; [done|exact Hseen|]. right. unfold taken, waiting_count, scheduled, finished. cbn. rewrite Er, !List.filter_app, !length_app.
    cbn. lia.
Qed.

Lemma wait_carries d g n seen (Q : unit -> Load -> Prop) : Q tt (mkLoad n seen) ->
  carries (atomic (set (fun s => set_waiting (waiting_threads s ++ [(d, g)]) s))) (mkLoad (S n) seen) Q.
Proof.
  intros HQ. apply obeys_atomic. intros [s w] [] s' (before & after & Hk & _) [= <-]. exists (mkLoad n seen). split; [|done].
  apply list.Forall_app in Hk as [_ Hk]. apply list.Forall_cons in Hk as [Hk _]. split_and!; [done|exact Hk|]. right.
  unfold taken, waiting_count, scheduled, finished. cbn. rewrite length_app. cbn. lia.
Qed.

Lemma even_publish : even (atomic publish_thread).
Proof.
  intros l. apply obeys_atomic. intros [s w] a s' Hs E. exists l. split; [|done].
  unfold publish_thread, ws, set, gets, modify, mbind, M_bind in E. cbn in E.
  destruct (shutdown_ (flags s)) eqn:Es; cbn in E; injection E as _ <-; [|by apply view_ws_move].
  split_and!; [done|done|]. left. exact Es.
Qed.

Lemma even_schedule d : even (ScheduleReconnect d).
Proof.
  intros [n seen]. unfold ScheduleReconnect. apply obeys_bind. eapply obeys_mono; [|apply even_flag]. intros down l' ->.
  destruct down; [done|]. apply obeys_bind, take_carries; [|done]. cbn [negb].
  apply obeys_bind, obeys_atomic. intros s g s' Hs E. exists (mkLoad (S n) seen). split; [by apply view_ws_move, (still_ws _ _ _ _ E)|].
  apply obeys_bind, wait_carries. apply even_publish.
Qed.

Lemma give_carries n seen (Q : unit -> Load -> Prop) : Q tt (mkLoad n seen) -> carries (atomic give_flag) (mkLoad (S n) seen) Q.
Proof.
  intros HQ. apply obeys_atomic. intros [s w] [] s' (before & after & Hk & Ht) [= <-]. exists (mkLoad n seen). split; [|done].
  apply list.Forall_app in Hk as [_ Hk]. apply list.Forall_cons in Hk as [Hk _]. split_and!; [done|exact Hk|].
  destruct Ht as [Ht|[H1 H2]]; [by left|]. right. rewrite map_app, list_sum_app in H1. cbn in H1, H2 |- *.
  unfold taken, waiting_count, scheduled, finished in *. cbn. rewrite !List.filter_app, !length_app. cbn.
  destruct (is_reconnecting_ (flags s)); lia.
Qed.

End attempts.

Ltac still_step :=
  lazymatch goal with
  | |- still (mret _) => apply still_ret
  | |- still (mbind _ _) => apply still_bind; [|intros ?]
  | |- still (ws _) => apply still_ws
  | |- still (ask _) => apply still_ask
  | |- still (set (add_ws_event _)) => apply still_event; reflexivity
  | |- still (set _) => apply still_set; reflexivity
  | |- still join_ping => unfold join_ping
  | |- still join_main => unfold join_main
  | |- still (match ?x with _ => _ end) => destruct x
  end.

Ltac even_step :=
  lazymatch goal with
  | |- even (mret _) => apply even_ret
  | |- even (mbind _ _) => apply even_bind; [|intros ?]
  | |- even (flag _) => apply even_flag
  | |- even (tell _) => apply even_tell; reflexivity
  | |- even (the _) => apply even_the
  | |- even (atomic _) => apply even_atomic; repeat still_step
  | |- even (ScheduleReconnect _) => apply even_schedule
  | |- even (match ?x with _ => _ end) => destruct x
  end.

Section entries.
Context {W : Type} {sockets : Sockets W}.

#[local] Notation even t := (even (W := W) t).

Lemma even_status status : even (SetStatus status).
Proof. unfold SetStatus. repeat even_step. Qed.
Lemma even_stop : even StopThreads.
Proof. unfold StopThreads, CleanupPendingThreads. repeat even_step. Qed.
Lemma even_connect uri : even (Connect uri).
Proof. unfold Connect. repeat first [apply even_status | apply even_stop | even_step]. Qed.
Lemma even_reconnect : even ReConnect.
Proof. unfold ReConnect. repeat first [apply even_status | apply even_stop | apply even_connect | even_step]. Qed.
Lemma even_async : even AsyncReConnect.
Proof. unfold AsyncReConnect. repeat even_step. Qed.
Lemma even_restart_ping : even RestartPingThread.
Proof. unfold RestartPingThread. repeat even_step. Qed.

Lemma even_shutdown : even Shutdown.
Proof.
  intros [n seen]. unfold Shutdown. apply obeys_bind. eapply obeys_mono; [|apply even_atomic, still_ws]. intros done_already l' ->.
  destruct done_already; [done|]. apply obeys_bind, shutdown_carries.
  do 7 (apply obeys_bind, (down_carries _ _ true); [intros [s w] [] s'; try (by intros [= <-])|intros []]).
  { unfold ws, set, join_main, gets, modify, mbind, M_bind. cbn. destruct (m_endpoint_ s); by intros [= <-]. }
  apply (down_carries _ _ seen); [|done]. intros [s w] [] s'. by intros [= <-].
Qed.

Lemma even_thread : even reconnect_thread.
Proof.
  intros [n seen]. unfold reconnect_thread. apply obeys_bind, obeys_atomic. intros [s w] a s' Hs E.
  unfold ws, set, gets, modify, mbind, M_bind in E. cbn in E. destruct (waiting_threads s) as [|[d g] jobs] eqn:Ej; cbn in E; injection E as <- <-.
  { exists (mkLoad n seen). split; [by apply view_ws_move|done]. }
  exists (mkLoad (S n) seen). split.
  - destruct Hs as (before & after & Hk & _). apply list.Forall_app in Hk as [_ Hk]. apply list.Forall_cons in Hk as [Hk _].
    split_and!; [done|exact Hk|]. right. unfold taken, waiting_count, scheduled, finished. cbn. rewrite Ej. cbn. lia.
  - apply obeys_bind. eapply obeys_mono; [|apply even_flag]. intros down l' ->.
    apply obeys_bind. eapply obeys_mono; [|apply even_atomic, still_ws]. intros generation l' ->.
    apply obeys_bind. eapply obeys_mono; [|destruct (down || _); [apply even_ret|apply even_bind; [apply even_reconnect|intros ?; apply even_ret]]].
    intros [] l' ->. by apply give_carries.
Qed.

Lemma even_start e : even (ws_start e).
Proof.
  destruct e; cbn [ws_start].
  - apply even_bind; [apply even_connect|]. intros ?. apply even_ret.
  - apply even_shutdown.
  - unfold WsSend. repeat even_step.
  - unfold OnOpen. repeat first [apply even_status | apply even_restart_ping | even_step].
  - unfold OnFail. repeat first [apply even_async | even_step].
  - unfold OnClose. repeat first [apply even_async | even_step].
  - unfold OnPong. repeat even_step.
  - unfold OnPongTimeout. repeat first [apply even_async | even_step].
  - unfold OnMessage. repeat even_step.
  - unfold OnTlsVerify. repeat first [apply even_status | even_step].
  - unfold ping_round. repeat even_step.
  - apply even_thread.
Qed.

(** C22. However the calls of the socket library, of the application and of the
    waiting threads interleave, attempts to reconnect do not overlap: until the
    client is shut down, at most one thread waits for its pause to end, one
    attempt at most has been scheduled and not finished, and none is waiting or
    running when the flag is free. *)
Theorem reconnects_never_overlap cs pool s (w w' : W) :
  schedule ws_start cs ([], (new_client, w)) = Some (pool, (s, w')) -> shutdown_ (flags s) = false ->
  (length (waiting_threads s) <= 1)%nat /\ (scheduled s <= finished s + 1)%nat /\
  (is_reconnecting_ (flags s) = false -> waiting_threads s = [] /\ scheduled s = finished s).
Proof.
  intros E Hd. destruct (fun H1 H2 H3 => schedule_sound (ws_move (W := W)) ws_total ws_start empty_handed H1 H2 H3 cs [] (new_client, w) pool (s, w') [] E)
    as (ls & _ & _ & H).
  - intros. by eapply ws_total_move.
  - intros s0 ls [Hk H]. split; [apply list.Forall_app; split; [done|by repeat constructor]|].
    destruct H as [H|[H1 H2]]; [by left|]. right. rewrite map_app, list_sum_app. cbn. lia.
  - intros e. apply even_start.
  - constructor.
  - split; [constructor|]. by right.
  - cbn [fst] in H. destruct H as [H|[H1 H2]]; [congruence|]. unfold taken, waiting_count in *.
    destruct (is_reconnecting_ (flags s)); split_and!; try lia; try done. intros _. split; [|lia]. destruct (waiting_threads s); [done|cbn in H1; lia].
Qed.

End entries.

(** ** The pauses *)

Lemma shiftl_one n : 0 <= n -> Z.shiftl 1 n = 2 ^ n.
Proof. intros H. by rewrite Z.shiftl_mul_pow2, Z.mul_1_l. Qed.

(** From one attempt to the next the pause does not get shorter, and it stays
    within a minute. *)
Lemma reconnect_delay_bounds a b : a <= b -> 0 <= reconnect_delay a <= reconnect_delay b /\ reconnect_delay b <= 60.
Proof.
  intros H. unfold reconnect_delay. destruct (a <=? 1) eqn:Ea, (b <=? 1) eqn:Eb; try lia.
  - rewrite shiftl_one by lia. pose proof (Z.pow_pos_nonneg 2 (Z.min (b - 1) 6)). lia.
  - rewrite !shiftl_one by lia. pose proof (Z.pow_le_mono_r 2 (Z.min (a - 1) 6) (Z.min (b - 1) 6) ltac:(lia) ltac:(lia)).
    pose proof (Z.pow_pos_nonneg 2 (Z.min (a - 1) 6)). lia.
Qed.

Example reconnect_pauses : map reconnect_delay [1; 2; 3; 4; 5; 6; 7; 8; 1000] = [0; 2; 4; 8; 16; 32; 60; 60; 60].
Proof. reflexivity. Qed.

(** After 31 failures of TLS in a row there is no pause any more, and the next
    shift is undefined. *)
Example tls_pauses : map tls_delay [0; 1; 5; 6; 30; 31; 32] =
  [Some 1; Some 2; Some 32; Some 60; Some 60; Some (-2147483648); None].
Proof. reflexivity. Qed.

(** ** A sample *)

Module WsSample.

#[export] Instance sample_sockets : Sockets Z := {|
  get_connection _ w := (true, w);
  handle_expired w := (false, w);
  socket_is_open w := (false, w);
  socket_ping w := (true, w);
|}.

Definition play_ws (cs : list (Choice (E := WsEntry))) := schedule ws_start cs ([], (new_client, 0)).
Definition steps (i n : nat) : list (Choice (E := WsEntry)) := repeat (Go i) n.

(** The connection opens, closes and is closed once more before the first attempt
    to reconnect. *)
Definition reopening : list (Choice (E := WsEntry)) :=
  [Begin (WsConnect (lit "wss://s"))] ++ steps 0 30 ++ [Begin WsOnOpen] ++ steps 1 30 ++ [Begin WsOnClose] ++ steps 2 30 ++
  [Begin (WsOnFail None)] ++ steps 3 30.

Definition after (cs : list (Choice (E := WsEntry))) : option (WsStatus * bool * nat * nat * nat) :=
  '(_, (s, _)) ← play_ws cs;
  Some (ws_status_ (flags s), is_reconnecting_ (flags s), length (waiting_threads s), scheduled s, finished s).

Example one_waits : after reopening = Some (WsOpened, true, 1%nat, 1%nat, 0%nat).
Proof. vm_compute. reflexivity. Qed.

Example then_reconnects : after (reopening ++ [Begin WsReconnectThread] ++ steps 4 60) = Some (WsConnecting, false, 0%nat, 1%nat, 1%nat).
Proof. vm_compute. reflexivity. Qed.

(** Sockets that began to connect. *)
Definition connecting (cs : list (Choice (E := WsEntry))) : option nat :=
  '(_, (s, _)) ← play_ws cs;
  Some (length (List.filter (fun e => match e with SocketConnecting _ _ => true | _ => false end) (ws_trace s))).

(** When the new connection fails, another attempt waits. *)
Example failure_answered :
  after (reopening ++ [Begin WsReconnectThread] ++ steps 4 60 ++ [Begin (WsOnFail None)] ++ steps 5 30) =
  Some (WsConnecting, true, 1%nat, 2%nat, 1%nat).
Proof. vm_compute. reflexivity. Qed.

(** When it fails before the thread that made it has given the flag back, the
    failure is not answered: the flag is free, nothing waits, and the client
    stays as it is. *)
Example failure_unanswered :
  connecting (reopening ++ [Begin WsReconnectThread] ++ steps 4 33) = Some 2%nat /\
  after (reopening ++ [Begin WsReconnectThread] ++ steps 4 33 ++ [Begin (WsOnFail None)] ++ steps 5 30 ++ steps 4 60) =
  Some (WsConnecting, false, 0%nat, 1%nat, 1%nat).
Proof. vm_compute. auto. Qed.

End WsSample.
Import WsSample.

Lemma reopening_runs : exists r, schedule ws_start reopening ([], (new_client, 0)) = Some r /\ shutdown_ (flags r.2.1) = false.
Proof.
  assert (forall (o : option (list (Thread (Ws * Z) unit) * (Ws * Z))),
    match o with Some r => negb (shutdown_ (flags r.2.1)) | None => false end = true -> exists r, o = Some r /\ shutdown_ (flags r.2.1) = false) as H.
  { intros [r|] H; [|discriminate H]. exists r. split; [done|]. by apply negb_true_iff. }
  apply H. vm_compute. reflexivity.
Qed.

Lemma reconnects_never_overlap_witness :
  exists pool s w, schedule ws_start reopening ([], (new_client, 0)) = Some (pool, (s, w)) /\ (length (waiting_threads s) <= 1)%nat.
Proof.
  destruct reopening_runs as ([pool [s w]] & E & Hd).
  destruct (reconnects_never_overlap reopening pool s 0 w E Hd) as [H _]. exists pool, s, w. exact (conj E H).
Defined.
