(* ===== verification/PeerConnection.v ===== *)
(** * The peer connection

    [src/pc/peer_connection.cpp] and [src/pc/connection_interface.h]: the
    settings, signing in to the signalling server, its messages, the connections
    to other peers and the thread that works for them.  Each method is a
    [Thread]: its sections are what a mutex guards, a call of a callback or of a
    connection, a message sent, an access to a member.  Connections are numbers
    in the order of their creation; what is told to the application and to them
    is kept in a trace.  JSON, the wall clock, the results that connections give
    and the order in which an [unordered_map] is gone through are interfaces. *)

From Stdlib Require Import Ascii String.
From stdpp Require Import gmap strings.
From S2P Require Import Prelude StateMonad Text IceUtils IceServers Threads WsClient.

(** ** Kinds of things *)

(** src/api/minirtc.h:35-45 [ConnectionStatus] *)
Inductive ConnectionStatus :=
  | Connecting | Connected | Gathering | Disconnected | Failed | Closed
  | IncorrectPassword | NoSuchTransmissionId | RemoteUnavailable.

(** src/api/minirtc.h:48-56 [SignalStatus] *)
Inductive SignalStatus :=
  | SignalConnecting | SignalConnected | SignalFailed | SignalClosed
  | SignalReconnecting | SignalServerClosed | SignalTlsCertError.

#[export] Instance SignalStatus_eq_dec : EqDecision SignalStatus.
Proof. solve_decision. Defined.

(** src/api/minirtc.h:62-62 [VideoQuality] *)
Inductive VideoQuality := QualityLow | QualityMedium | QualityHigh.
(** src/api/minirtc.h:65-68 [VideoContentType] *)
Inductive VideoContentType := RealtimeVideo | ScreenContent.
(** src/api/minirtc.h:72-76 [VideoDegradationPreference] *)
Inductive VideoDegradationPreference := MaintainFrameRate | MaintainResolution | Balanced.

(** src/pc/connection_interface.h:58-67 [IceWorkMsg::Type] *)
Inductive MsgType :=
  | MsgLogin | UserLeaveTransmission | UserJoinTransmission | MsgOffer | MsgAnswer | NewCandidate | NewCandidateMid | RetryWithTurn.

#[export] Instance MsgType_eq_dec : EqDecision MsgType.
Proof. solve_decision. Defined.

(** src/pc/connection_interface.h:57-79 [IceWorkMsg] *)
Record IceWorkMsg := mkMsg {
  msg_type : MsgType;
  msg_transmission_id : text;
  msg_remote_user_id : text;
  msg_new_candidate : text;
  msg_candidate_ufrag : text;
  msg_candidate : text;
  msg_mid : text;
  msg_remote_sdp : text;
}.

(** src/pc/connection_interface.h:21-25 [MediaStreamIds] *)
Record MediaStreamIds := mkStreams {
  stream_video : list text;
  stream_audio : list text;
  stream_data : list (text * bool);
}.

(** src/pc/connection_interface.h:33-43 [ConnectionInfo] *)
Record Settings := mkSettings {
  hardware_acceleration : bool;
  native_video_output : bool;
  trickle_ice : bool;
  reliable_ice : bool;
  turn_mode : TurnMode;
  enable_srtp : bool;
  video_content_type : VideoContentType;
  av1_encoding : bool;
  video_quality : VideoQuality;
  video_frame_rate : Z;
  video_degradation_preference : VideoDegradationPreference;
}.

(** src/pc/connection_interface.h:27-44 [ConnectionInfo] *)
Record ConnectionInfo := mkInfo {
  ice_config : option IceServerConfiguration;
  transmission_id : text;
  user_id : text;
  remote_user_id : text;
  settings : Settings;
}.

(** src/pc/connection_interface.h:46-48 [ConnectionIceConfigFresh] *)
Definition ConnectionIceConfigFresh (now : Z) (info : ConnectionInfo) : bool :=
  match ice_config info with Some config => Fresh now config | None => false end.

(** ** Settings *)

(** src/pc/peer_connection.cpp:68-70 [NormalizeVideoFrameRate] *)
Definition NormalizeVideoFrameRate (frame_rate : Z) : Z := if frame_rate =? 30 then 30 else 60.

(** src/pc/peer_connection.cpp:72-80 [ParseVideoContentType] *)
Definition ParseVideoContentType (value : text) : VideoContentType :=
  if bool_decide (value = lit "realtime_video") then RealtimeVideo else ScreenContent.

(** The application gives a number. *)
(** src/pc/peer_connection.cpp:82-90 [NormalizeVideoContentType] *)
Definition NormalizeVideoContentType (value : Z) : VideoContentType := if value =? 0 then RealtimeVideo else ScreenContent.

(** src/pc/peer_connection.cpp:92-108 [ParseVideoDegradationPreference] *)
Definition ParseVideoDegradationPreference (value : text) : VideoDegradationPreference :=
  if bool_decide (value = lit "maintain_resolution") || bool_decide (value = lit "quality_priority") then MaintainResolution else
  if bool_decide (value = lit "balanced") then Balanced else
  if negb (bool_decide (value = lit "maintain_frame_rate")) && negb (bool_decide (value = lit "frame_rate_priority"))
  then MaintainResolution else MaintainFrameRate.

(** src/pc/peer_connection.cpp:110-122 [NormalizeVideoDegradationPreference] *)
Definition NormalizeVideoDegradationPreference (value : Z) : VideoDegradationPreference :=
  if value =? 0 then MaintainFrameRate else if value =? 2 then Balanced else MaintainResolution.

(** src/pc/peer_connection.cpp:64-66 [IsValidTurnMode] *)
Definition turn_mode_of (mode : Z) : option TurnMode :=
  match mode with 0 => Some TurnDisabled | 1 => Some TurnAutoUdpTcp | 2 => Some TurnForceUdp | 3 => Some TurnForceTcp | _ => None end.

(** src/pc/peer_connection.cpp:152-173 [ParseTurnMode] *)
Definition ParseTurnMode (mode : text) (legacy_enabled : bool) : TurnMode :=
  let eq (s : string) := bool_decide (mode = lit s) in
  let fallback := if legacy_enabled then TurnAutoUdpTcp else TurnDisabled in
  if bool_decide (mode = []) then fallback else
  if eq "disabled"%string || eq "0"%string then TurnDisabled else
  if eq "auto"%string || eq "auto_udp_tcp"%string || eq "1"%string then TurnAutoUdpTcp else
  if eq "force_udp"%string || eq "2"%string then TurnForceUdp else
  if eq "force_tcp"%string || eq "3"%string then TurnForceTcp else fallback.

(** [std::stoi]: an exception without a number, or with one that is too large. *)
Definition stoi (s : text) : option Z :=
  let s' := drop_while isspace s in
  let s' := match s' with c :: r => if bool_decide (code c = 45) || bool_decide (code c = 43) then r else s' | [] => [] end in
  if bool_decide ((span_digits s').1 = []) then None else atoi s.

(** What the application gives. *)
(** src/pc/peer_connection.h:46-80 [PeerConnectionParams] *)
Record PeerConnectionParams := mkParams {
  (** The values of the configuration file by section and key, if it is used. *)
  p_cfg_file : option (string -> string -> option text);
  p_signal_server_ip : text;
  p_signal_server_port : Z;
  p_hardware_acceleration : bool;
  p_native_video_output : bool;
  p_av1_encoding : bool;
  p_turn_mode : Z;
  p_enable_srtp : bool;
  p_video_content_type : Z;
  p_video_quality : VideoQuality;
  p_video_frame_rate : Z;
  p_video_degradation_preference : Z;
  p_user_id : option text;
}.

(** The settings, and the address of the server; [None] is an exception. *)
(** src/pc/peer_connection.cpp:195-238 [PeerConnection::Init] *)
Definition settings_from_file (read : string -> string -> option text) : option (Settings * text) :=
  let get section key (default_value : string) := default (lit default_value) (read section key) in
  let on section := bool_decide (get section "turn_on"%string "false"%string = lit "true") in
  let ip := get "signal server"%string "ip"%string "-1"%string in
  let port := get "signal server"%string "port"%string "-1"%string in
  _ ← stoi port;
  fps ← stoi (get "video frame rate"%string "fps"%string "60"%string);
  let quality := get "video quality"%string "quality"%string "high"%string in
  Some (mkSettings (on "hardware acceleration"%string) (on "native video output"%string) true false
          (ParseTurnMode (get "turn mode"%string "mode"%string ""%string) (on "enable turn"%string))
          (bool_decide (get "enable srtp"%string "turn_on"%string "true"%string = lit "true"))
          (ParseVideoContentType (get "video content type"%string "type"%string "screen_content"%string))
          (on "av1 encoding"%string)
          (if bool_decide (quality = lit "low") then QualityLow else if bool_decide (quality = lit "medium") then QualityMedium
           else QualityHigh)
          (NormalizeVideoFrameRate fps)
          (ParseVideoDegradationPreference (get "video degradation preference"%string "preference"%string "maintain_resolution"%string)),
        lit "wss://" ++ ip ++ lit ":" ++ port).

(** src/pc/peer_connection.cpp:239-263 [PeerConnection::Init] *)
Definition settings_from_params (p : PeerConnectionParams) : Settings * text :=
  (mkSettings (p_hardware_acceleration p) (p_native_video_output p) true false
     (default TurnDisabled (turn_mode_of (p_turn_mode p))) (p_enable_srtp p)
     (NormalizeVideoContentType (p_video_content_type p)) (p_av1_encoding p) (p_video_quality p)
     (NormalizeVideoFrameRate (p_video_frame_rate p)) (NormalizeVideoDegradationPreference (p_video_degradation_preference p)),
   lit "wss://" ++ p_signal_server_ip p ++ lit ":" ++ to_string (p_signal_server_port p)).

(** A user with a password has it behind an at sign. *)
(** src/pc/peer_connection.cpp:187-193 [PeerConnection::Init] *)
Definition user_of (user_id_with_pwd : text) : text :=
  match find (lit "@") user_id_with_pwd with Some n => take n user_id_with_pwd | None => user_id_with_pwd end.

(** ** The state *)

(** A message that is sent to the server. *)
Inductive Request :=
  | LoginRequest (user : text)
  | JoinRequest (user transmission : text)
  | LeaveRequest (user transmission : text)
  | RawRequest (message : text).

(** What is sent to a connection. *)
Inductive Frame :=
  | VideoFrame (frame : Z) (stream : text)
  | AudioFrame (frame : Z) (stream : text)
  | DataFrame (data stream : text)
  | ReliableDataFrame (data stream : text).

(** What the peer connection does to the outside: messages, callbacks of the
    application, calls of connections.  A report about a connection that there
    is, or was, has its number. *)
Inductive Event :=
  | Connect (uri : text)
  | Send (r : Request)
  | CloseSocket
  | SignalReport (status : SignalStatus) (user : text)
  | NetReport (user_with_pwd user : text)
  | SignalMessage (message : text)
  | ConnectionReport (c : option nat) (status : ConnectionStatus) (user : text)
  | Created (c : nat) (info : ConnectionInfo) (streams : MediaStreamIds) (web : bool)
  | Released (c : nat)
  | Processed (c : nat) (msg : IceWorkMsg)
  | Sent (c : nat) (frame : Frame)
  | KeyFrame (c : nat) (stream : option text).

(** src/pc/peer_connection.h:180-205 [PeerConnection] *)
Record SignalState := mkSignalState {
  ws_status_ : WsStatus;
  signal_status_ : SignalStatus;
  pending_join_transmission_id_ : option text;
  leave_ : bool;
  offer_peer_ : bool;
}.

(** src/pc/peer_connection.h:187-192 [PeerConnection] *)
Record Identity := mkIdentity {
  user_id_ : text;
  user_id_with_pwd_ : text;
  remote_user_id_ : text;
  local_transmission_id_ : text;
  remote_transmission_id_ : text;
}.

(** Connections, and the work for the thread. *)
(** src/pc/peer_connection.h:229-256 [PeerConnection] *)
Record Managed := mkManaged {
  peer_connection_map_ : gmap text nat;
  ice_work_msg_queue_ : list IceWorkMsg;
  terminal_connection_cleanup_queue_ : list nat;
  ice_worker_running_ : bool;
  created_ : nat;
}.

(** src/pc/peer_connection.h:141-256 [PeerConnection] *)
Record Peer := mkPeer {
  signal : SignalState;
  identity : Identity;
  legacy_turn_config_ : option IceServerConfiguration;
  per_connection_ice_config_ : bool;
  connection_info_ : Settings;
  media_stream_ids_ : MediaStreamIds;
  managed : Managed;
  inited_ : bool;
  trace : list Event;
}.

Definition set_signal (f : SignalState -> SignalState) (p : Peer) : Peer :=
  mkPeer (f (signal p)) (identity p) (legacy_turn_config_ p) (per_connection_ice_config_ p) (connection_info_ p) (media_stream_ids_ p)
    (managed p) (inited_ p) (trace p).
Definition set_identity (f : Identity -> Identity) (p : Peer) : Peer :=
  mkPeer (signal p) (f (identity p)) (legacy_turn_config_ p) (per_connection_ice_config_ p) (connection_info_ p) (media_stream_ids_ p)
    (managed p) (inited_ p) (trace p).
Definition set_configs (legacy : option IceServerConfiguration) (per_connection : bool) (p : Peer) : Peer :=
  mkPeer (signal p) (identity p) legacy per_connection (connection_info_ p) (media_stream_ids_ p) (managed p) (inited_ p) (trace p).
Definition set_settings (s : Settings) (p : Peer) : Peer :=
  mkPeer (signal p) (identity p) (legacy_turn_config_ p) (per_connection_ice_config_ p) s (media_stream_ids_ p)
    (managed p) (inited_ p) (trace p).
Definition set_stream_ids (f : MediaStreamIds -> MediaStreamIds) (p : Peer) : Peer :=
  mkPeer (signal p) (identity p) (legacy_turn_config_ p) (per_connection_ice_config_ p) (connection_info_ p) (f (media_stream_ids_ p))
    (managed p) (inited_ p) (trace p).
Definition set_managed (f : Managed -> Managed) (p : Peer) : Peer :=
  mkPeer (signal p) (identity p) (legacy_turn_config_ p) (per_connection_ice_config_ p) (connection_info_ p) (media_stream_ids_ p)
    (f (managed p)) (inited_ p) (trace p).
Definition set_inited (b : bool) (p : Peer) : Peer :=
  mkPeer (signal p) (identity p) (legacy_turn_config_ p) (per_connection_ice_config_ p) (connection_info_ p) (media_stream_ids_ p)
    (managed p) b (trace p).
Definition add_event (e : Event) (p : Peer) : Peer :=
  mkPeer (signal p) (identity p) (legacy_turn_config_ p) (per_connection_ice_config_ p) (connection_info_ p) (media_stream_ids_ p)
    (managed p) (inited_ p) (trace p ++ [e]).

Definition set_map (m : gmap text nat) (g : Managed) : Managed :=
  mkManaged m (ice_work_msg_queue_ g) (terminal_connection_cleanup_queue_ g) (ice_worker_running_ g) (created_ g).
Definition set_work (q : list IceWorkMsg) (g : Managed) : Managed :=
  mkManaged (peer_connection_map_ g) q (terminal_connection_cleanup_queue_ g) (ice_worker_running_ g) (created_ g).
Definition set_cleanup (q : list nat) (g : Managed) : Managed :=
  mkManaged (peer_connection_map_ g) (ice_work_msg_queue_ g) q (ice_worker_running_ g) (created_ g).
Definition set_running (b : bool) (g : Managed) : Managed :=
  mkManaged (peer_connection_map_ g) (ice_work_msg_queue_ g) (terminal_connection_cleanup_queue_ g) b (created_ g).

(** ** Interfaces *)

(** [Init] of a connection, its results for key frames, and the order in which
    the connections are gone through. *)
Class PeerWorld (W : Type) := {
  connection_Init : nat -> W -> Z * W;
  connection_RequestVideoKeyFrame : nat -> option text -> W -> Z * W;
  map_order : gmap text nat -> list (text * nat);
}.

(** [json::parse] without exceptions, [==] with an integer, and the strings that
    [dump] writes: for a string that is not UTF-8 it is an exception. *)
Class JsonParser (J : Type) := {
  json_parse : text -> option J;
  json_equals : J -> Z -> bool;
  json_dumps : text -> bool;
}.

(** src/common/common.h:19-25 [HASH_STRING_PIECE] *)
Definition HASH_STRING_PIECE (string_piece : text) : Z :=
  let c_string := match find [nul] string_piece with Some n => take n string_piece | None => string_piece end in
  fold_left (fun result c => u64 (result * 131 + (if code c <? 128 then code c else code c - 256))) c_string 0.

(** ** Methods *)

Section methods.
Context {W J : Type} {world : PeerWorld W} {clock : WallClock W} {json : JsonLibrary J} {parser : JsonParser J}.

#[local] Notation P := (Thread (Peer * W)).

Definition peer {A} (f : Peer -> A) : M (Peer * W) A := gets (fun s => f s.1).
Definition put (f : Peer -> Peer) : M (Peer * W) unit := modify (fun s => (f s.1, s.2)).
Definition out {A} (m : M W A) : M (Peer * W) A := fun s => '(a, w) ← m s.2; Some (a, (s.1, w)).
Definition emit (e : Event) : P unit := atomic (put (add_event e)).
Definition ignore {A} (t : P A) : P unit := t;; mret tt.

(** The strings of a message that is built as JSON. *)
Definition request_texts (r : Request) : list text :=
  match r with
  | LoginRequest user => [user]
  | JoinRequest user transmission | LeaveRequest user transmission => [user; transmission]
  | RawRequest _ => []
  end.

(** [ws_transport_->Send(message.dump())]. *)
Definition send_request (r : Request) : M (Peer * W) unit :=
  lift (if forallb json_dumps (request_texts r) then Some tt else None);;
  put (add_event (Send r)).

(** *** Signing in, joining *)

(** src/pc/peer_connection.cpp:388-407 [PeerConnection::Login] *)
Definition Login : P Z :=
  status ← atomic (peer (fun p => ws_status_ (signal p)));
  if negb (bool_decide (status = WsOpened)) then mret (-1) else
  user ← atomic (peer (fun p => user_id_with_pwd_ (identity p)));
  atomic (put (set_configs None false));;
  atomic (send_request (LoginRequest user));;
  mret 0.

(** The mutex of the status is held. *)
(** src/pc/peer_connection.cpp:409-426 [PeerConnection::SendJoinRequestLocked] *)
Definition SendJoinRequestLocked (transmission_id : text) : M (Peer * W) Z :=
  put (set_signal (fun g => mkSignalState (ws_status_ g) (signal_status_ g) (pending_join_transmission_id_ g) false false));;
  user ← peer (fun p => user_id_ (identity p));
  put (set_identity (fun i => mkIdentity (user_id_ i) (user_id_with_pwd_ i) (remote_user_id_ i) (local_transmission_id_ i) transmission_id));;
  send_request (JoinRequest user transmission_id);;
  mret 0.

Definition set_signal_status (status : SignalStatus) : Peer -> Peer :=
  set_signal (fun g => mkSignalState (ws_status_ g) status (pending_join_transmission_id_ g) (leave_ g) (offer_peer_ g)).
Definition set_pending_join (pending : option text) : Peer -> Peer :=
  set_signal (fun g => mkSignalState (ws_status_ g) (signal_status_ g) pending (leave_ g) (offer_peer_ g)).
Definition set_leave (leave : bool) : Peer -> Peer :=
  set_signal (fun g => mkSignalState (ws_status_ g) (signal_status_ g) (pending_join_transmission_id_ g) leave (offer_peer_ g)).
Definition set_ws_status (status : WsStatus) : Peer -> Peer :=
  set_signal (fun g => mkSignalState status (signal_status_ g) (pending_join_transmission_id_ g) (leave_ g) (offer_peer_ g)).
Definition set_user_id (user : text) : Peer -> Peer :=
  set_identity (fun i => mkIdentity user (user_id_with_pwd_ i) (remote_user_id_ i) (local_transmission_id_ i) (remote_transmission_id_ i)).
Definition set_remote_user_id (user : text) : Peer -> Peer :=
  set_identity (fun i => mkIdentity (user_id_ i) (user_id_with_pwd_ i) user (local_transmission_id_ i) (remote_transmission_id_ i)).

(** src/pc/peer_connection.cpp:428-431 [PeerConnection::SetSignalStatus] *)
Definition SetSignalStatus (status : SignalStatus) : P unit := atomic (put (set_signal_status status)).

(** src/pc/peer_connection.cpp:433-451 [PeerConnection::Join] *)
Definition Join (transmission_id : text) : P Z :=
  atomic (status ← peer (fun p => signal_status_ (signal p));
          match status with
          | SignalConnected => SendJoinRequestLocked transmission_id
          | SignalConnecting | SignalReconnecting =>
              put (set_pending_join (Some transmission_id));;
              put (set_leave false);;
              mret 0
          | _ => mret (-1)
          end).

(** *** Connections *)

(** src/pc/peer_connection.cpp:534-538 [PeerConnection::IsTerminalConnectionStatus] *)
Definition IsTerminalConnectionStatus (status : ConnectionStatus) : bool :=
  match status with Disconnected | Failed | Closed => true | _ => false end.

Definition current (remote_user_id : text) (c : nat) (p : Peer) : bool :=
  bool_decide (peer_connection_map_ (managed p) !! remote_user_id = Some c).

(** src/pc/peer_connection.cpp:593-617 [PeerConnection::RetirePeerConnection] *)
Definition RetirePeerConnection (remote_user_id : text) (c : nat) : P bool :=
  atomic (here ← peer (current remote_user_id c);
          if negb here then mret false else
          running ← peer (fun p => ice_worker_running_ (managed p));
          if negb (running : bool) then mret false else
          put (set_managed (fun g => set_cleanup (terminal_connection_cleanup_queue_ g ++ [c]) g));;
          put (set_managed (fun g => set_map (delete remote_user_id (peer_connection_map_ g)) g));;
          mret true).

(** src/pc/peer_connection.cpp:619-625 [PeerConnection::IsCurrentPeerConnection] *)
Definition IsCurrentPeerConnection (remote_user_id : text) (c : nat) : P bool := atomic (peer (current remote_user_id c)).

(** What a connection calls. *)
(** src/pc/peer_connection.cpp:545-578 [PeerConnection::CreateManagedPeerConnection] *)
Definition on_connection_status (remote_user_id : text) (c : nat) (status : ConnectionStatus) (peer_id : text) : P unit :=
  if IsTerminalConnectionStatus status then
    retired ← RetirePeerConnection remote_user_id c;
    if (retired : bool) then emit (ConnectionReport (Some c) status peer_id) else mret tt
  else
    here ← IsCurrentPeerConnection remote_user_id c;
    if (here : bool) then emit (ConnectionReport (Some c) status peer_id) else mret tt.

(** src/pc/peer_connection.cpp:540-591 [PeerConnection::CreateManagedPeerConnection] *)
Definition CreateManagedPeerConnection (remote_user_id : text) (info : ConnectionInfo) : M (Peer * W) nat :=
  c ← peer (fun p => created_ (managed p));
  streams ← peer media_stream_ids_;
  let web := match find (lit "web") remote_user_id with Some _ => true | None => false end in
  put (add_event (Created c info streams web));;
  put (set_managed (fun g => mkManaged (peer_connection_map_ g) (ice_work_msg_queue_ g) (terminal_connection_cleanup_queue_ g)
    (ice_worker_running_ g) (S c)));;
  mret c.

(** src/pc/peer_connection.cpp:632-645 [PeerConnection::ReplaceOrCreatePeerConnection] *)
Definition replace_in_map (remote_user_id : text) (info : ConnectionInfo) : M (Peer * W) (option nat * nat) :=
  replaced ← peer (fun p => peer_connection_map_ (managed p) !! remote_user_id);
  put (set_managed (fun g => set_map (delete remote_user_id (peer_connection_map_ g)) g));;
  c ← CreateManagedPeerConnection remote_user_id info;
  put (set_managed (fun g => set_map (<[remote_user_id := c]> (peer_connection_map_ g)) g));;
  mret (replaced, c).

(** src/pc/peer_connection.cpp:627-662 [PeerConnection::ReplaceOrCreatePeerConnection] *)
Definition ReplaceOrCreatePeerConnection (remote_user_id : text) (info : ConnectionInfo) : P (option nat) :=
  '(replaced, c) ← atomic (replace_in_map remote_user_id info);
  match replaced with Some c => emit (Released c) | None => mret tt end;;
  r ← atomic (out (fun w => Some (connection_Init c w)));
  if negb (r =? 0) then
    retired ← RetirePeerConnection remote_user_id c;
    (if (retired : bool) then emit (ConnectionReport (Some c) Failed remote_user_id) else mret tt);;
    mret None
  else mret (Some c).

(** src/pc/peer_connection.cpp:664-690 [PeerConnection::ClearPeerConnections] *)
Definition ClearPeerConnections : P unit :=
  connections ← atomic (connections ← peer (fun p => map_order (peer_connection_map_ (managed p)));
                        put (set_managed (set_map ∅));;
                        mret connections);
  each (fun '(remote_user_id, c) =>
    emit (ConnectionReport (Some c) Closed remote_user_id);;
    emit (Released c)) connections.

(** Whether a queued join was cancelled, and the status. *)
(** src/pc/peer_connection.cpp:456-475 [PeerConnection::Leave] *)
Definition leave_signal (transmission_id : text) : M (Peer * W) (bool * SignalStatus) :=
  status ← peer (fun p => signal_status_ (signal p));
  pending ← peer (fun p => pending_join_transmission_id_ (signal p));
  cancelled ← match pending with
              | Some _ => put (set_pending_join None);; mret true
              | None =>
                  (if bool_decide (status = SignalConnected) then
                     user ← peer (fun p => user_id_ (identity p));
                     send_request (LeaveRequest user transmission_id)
                   else mret tt);;
                  mret false
              end;
  put (set_leave true);;
  mret (cancelled, status).

(** src/pc/peer_connection.cpp:453-493 [PeerConnection::Leave] *)
Definition Leave (transmission_id : text) : P Z :=
  '(cancelled, status) ← atomic (leave_signal transmission_id);
  if negb (cancelled : bool) && negb (bool_decide (status = SignalConnected)) then mret (-1) else
  ClearPeerConnections;;
  mret 0.

(** src/pc/peer_connection.cpp:495-499 [PeerConnection::AddVideoStream] *)
Definition AddVideoStream (stream_id : text) : P Z :=
  atomic (put (set_stream_ids (fun s => mkStreams (stream_video s ++ [stream_id]) (stream_audio s) (stream_data s))));; mret 0.
(** src/pc/peer_connection.cpp:501-505 [PeerConnection::AddAudioStream] *)
Definition AddAudioStream (stream_id : text) : P Z :=
  atomic (put (set_stream_ids (fun s => mkStreams (stream_video s) (stream_audio s ++ [stream_id]) (stream_data s))));; mret 0.
(** [insert] leaves a stream that is there as it is. *)
(** src/pc/peer_connection.cpp:507-511 [PeerConnection::AddDataStream] *)
Definition AddDataStream (stream_id : text) (reliable : bool) : P Z :=
  atomic (put (set_stream_ids (fun s => mkStreams (stream_video s) (stream_audio s)
    (match text_find stream_id (stream_data s) with Some _ => stream_data s | None => text_assign stream_id reliable (stream_data s) end))));;
  mret 0.

(** The thread is waited for; its rounds are those of [ice_worker_round]. *)
(** src/pc/peer_connection.cpp:1274-1283 [PeerConnection::StopIceWorker] *)
Definition StopIceWorker : P unit := atomic (put (set_managed (set_running false))).

(** src/pc/peer_connection.cpp:513-527 [PeerConnection::Destroy] *)
Definition Destroy : P Z :=
  atomic (put (set_pending_join None);; put (set_leave true));;
  ClearPeerConnections;;
  StopIceWorker;;
  emit CloseSocket;;
  mret 0.

(** *** Media, while the map is locked *)

(** src/pc/peer_connection.cpp:692-702 [PeerConnection::SendVideoFrame] *)
Definition send_to_all (frame : Frame) : P Z :=
  atomic (connections ← peer (fun p => map_order (peer_connection_map_ (managed p)));
          for_each (fun '(_, c) => put (add_event (Sent c frame))) connections;;
          mret 0).
Definition SendVideoFrame (frame : Z) (stream_id : text) : P Z := send_to_all (VideoFrame frame stream_id).
(** src/pc/peer_connection.cpp:730-740 [PeerConnection::SendAudioFrame] *)
Definition SendAudioFrame (frame : Z) (stream_id : text) : P Z := send_to_all (AudioFrame frame stream_id).
(** src/pc/peer_connection.cpp:742-752 [PeerConnection::SendDataFrame] *)
Definition SendDataFrame (data stream_id : text) : P Z := send_to_all (DataFrame data stream_id).
(** src/pc/peer_connection.cpp:754-764 [PeerConnection::SendReliableDataFrame] *)
Definition SendReliableDataFrame (data stream_id : text) : P Z := send_to_all (ReliableDataFrame data stream_id).

(** src/pc/peer_connection.cpp:766-782 [PeerConnection::SendVideoFrameToPeer] *)
Definition send_to_peer (frame : Frame) (remote_peer_id : text) : P Z :=
  atomic (c ← peer (fun p => peer_connection_map_ (managed p) !! remote_peer_id);
          match c with
          | Some c => put (add_event (Sent c frame));; mret 0
          | None => mret (-1)
          end).
Definition SendVideoFrameToPeer (frame : Z) (stream_id remote_peer_id : text) : P Z := send_to_peer (VideoFrame frame stream_id) remote_peer_id.
(** src/pc/peer_connection.cpp:784-800 [PeerConnection::SendAudioFrameToPeer] *)
Definition SendAudioFrameToPeer (frame : Z) (stream_id remote_peer_id : text) : P Z := send_to_peer (AudioFrame frame stream_id) remote_peer_id.
(** src/pc/peer_connection.cpp:802-818 [PeerConnection::SendDataFrameToPeer] *)
Definition SendDataFrameToPeer (data stream_id remote_peer_id : text) : P Z := send_to_peer (DataFrame data stream_id) remote_peer_id.
(** src/pc/peer_connection.cpp:820-836 [PeerConnection::SendReliableDataFrameToPeer] *)
Definition SendReliableDataFrameToPeer (data stream_id remote_peer_id : text) : P Z :=
  send_to_peer (ReliableDataFrame data stream_id) remote_peer_id.

(** The result is 0 when a connection gives 0. *)
(** src/pc/peer_connection.cpp:704-715 [PeerConnection::RequestVideoKeyFrame] *)
Fixpoint request_key_frames (stream_id : option text) (connections : list (text * nat)) (ret : Z) : M (Peer * W) Z :=
  match connections with
  | [] => mret ret
  | (_, c) :: connections =>
      put (add_event (KeyFrame c stream_id));;
      r ← out (fun w => Some (connection_RequestVideoKeyFrame c stream_id w));
      request_key_frames stream_id connections (if r =? 0 then 0 else ret)
  end.
Definition request_from_all (stream_id : option text) : P Z :=
  atomic (connections ← peer (fun p => map_order (peer_connection_map_ (managed p)));
          request_key_frames stream_id connections (-1)).
Definition RequestVideoKeyFrame (stream_id : text) : P Z := request_from_all (Some stream_id).
(** src/pc/peer_connection.cpp:717-728 [PeerConnection::RequestAllVideoKeyFrames] *)
Definition RequestAllVideoKeyFrames : P Z := request_from_all None.

(** src/pc/peer_connection.cpp:838-849 [PeerConnection::SendSignalMessage] *)
Definition SendSignalMessage (message : option text) : P Z :=
  match message with
  | None | Some [] => mret (-1)
  | Some message =>
      status ← atomic (peer (fun p => ws_status_ (signal p)));
      if negb (bool_decide (status = WsOpened)) then mret (-1) else
      emit (Send (RawRequest message));;
      mret 0
  end.

(** *** The servers of a connection *)

(** src/pc/peer_connection.cpp:861-869 [ParseLegacyTurnConfig] *)
Definition legacy_fields (message : J) : option (text * Z * text * text * Z) :=
  turn ← member "turn" message;
  if negb (is_object turn) then None else
  host ← required_string "host" turn;
  port ← member "port" turn;
  if negb (is_number_integer port) then None else
  username ← required_string "username" turn;
  password ← required_string "password" turn;
  expires_at ← ReadIceExpiry turn;
  if (get_integer port <? 1) || (65535 <? get_integer port) then None else
  Some (host, get_integer port, username, password, expires_at).

(** One relay, over both transports, that is a STUN server too. *)
(** src/pc/peer_connection.cpp:870-893 [ParseLegacyTurnConfig] *)
Definition legacy_configuration (host : text) (port : Z) (username password : text) (expires_at : Z) : option IceServerConfiguration :=
  e ← ParseIceServerUrl (lit "turn:" ++ StunEndpoint_ToString host port);
  if bool_decide (username = []) || (512 <? zlen username) || bool_decide (password = []) || (512 <? zlen password) ||
     bool_decide (zero ∈ username) || bool_decide (zero ∈ password) then None else
  let server tcp := mkEndpoint (ep_host e) (ep_port e) (ep_turn e) tcp username password expires_at in
  Some (mkConfiguration (lit "legacy") expires_at
          [server (ep_tcp e); server true; mkEndpoint (ep_host e) (ep_port e) false false [] [] 0]).

(** src/pc/peer_connection.cpp:859-894 [ParseLegacyTurnConfig] *)
Definition ParseLegacyTurnConfig (message : J) : M W (option IceServerConfiguration) :=
  match ('(host, port, username, password, expires_at) ← legacy_fields message;
         legacy_configuration host port username password expires_at) with
  | None => mret None
  | Some config =>
      fresh ← fresh_now config;
      mret (if (fresh : bool) then Some config else None)
  end.

(** src/pc/peer_connection.cpp:897-907 [PeerConnection::ApplyTurnCredentials] *)
Definition ApplyTurnCredentials (message : J) : P bool :=
  per_connection ← atomic (peer per_connection_ice_config_);
  if (per_connection : bool) then mret false else
  config ← atomic (out (ParseLegacyTurnConfig message));
  match config with
  | None => mret false
  | Some config => atomic (put (fun p => set_configs (Some config) (per_connection_ice_config_ p) p));; mret true
  end.

(** src/pc/peer_connection.cpp:918-940 [PeerConnection::BuildConnectionInfo] *)
Definition choose_configuration (message : J) : P (option IceServerConfiguration) :=
  match member "ice" message with
  | Some ice => atomic (out (ParseIceServerConfiguration ice))
  | None =>
      per_connection ← atomic (peer per_connection_ice_config_);
      if (per_connection : bool) then mret None else
      match member "turn" message with
      | Some _ => atomic (out (ParseLegacyTurnConfig message))
      | None =>
          legacy ← atomic (peer legacy_turn_config_);
          match legacy with
          | None => mret None
          | Some config =>
              fresh ← atomic (out (fresh_now config));
              mret (if (fresh : bool) then Some config else None)
          end
      end
  end.

(** src/pc/peer_connection.cpp:941-951 [PeerConnection::BuildConnectionInfo] *)
Definition relay_missing (mode : TurnMode) (config : IceServerConfiguration) : bool :=
  (bool_decide (mode = TurnForceUdp) || bool_decide (mode = TurnForceTcp)) &&
  negb (existsb (fun server => IceTurnTransportAllowed server mode) (conf_servers config)).

(** src/pc/peer_connection.cpp:909-956 [PeerConnection::BuildConnectionInfo] *)
Definition BuildConnectionInfo (message : J) (transmission_id remote_user_id : text) : P (option ConnectionInfo) :=
  settings ← atomic (peer connection_info_);
  user ← atomic (peer (fun p => user_id_ (identity p)));
  config ← choose_configuration message;
  mret (config ← config;
        if relay_missing (turn_mode settings) config then None
        else Some (mkInfo (Some config) transmission_id user remote_user_id settings)).

(** *** The thread *)

(** src/pc/peer_connection.cpp:1285-1289 [PeerConnection::PushIceWorkMsg] *)
Definition PushIceWorkMsg (msg : IceWorkMsg) : P unit :=
  atomic (put (set_managed (fun g => set_work (ice_work_msg_queue_ g ++ [msg]) g))).

(** src/pc/peer_connection.cpp:1296-1321 [PeerConnection::ProcessIceWorkMsg] *)
Definition process_leave (msg : IceWorkMsg) : P unit :=
  connection ← atomic (connection ← peer (fun p => peer_connection_map_ (managed p) !! msg_remote_user_id msg);
                       put (set_managed (fun g => set_map (delete (msg_remote_user_id msg) (peer_connection_map_ g)) g));;
                       mret connection);
  match connection with
  | None => mret tt
  | Some c =>
      emit (ConnectionReport (Some c) Closed (msg_remote_user_id msg));;
      emit (Processed c msg)
  end.

(** src/pc/peer_connection.cpp:1291-1334 [PeerConnection::ProcessIceWorkMsg] *)
Definition ProcessIceWorkMsg (msg : IceWorkMsg) : P unit :=
  if bool_decide (msg_remote_user_id msg = []) then mret tt else
  if bool_decide (msg_type msg = UserLeaveTransmission) then process_leave msg else
  connection ← atomic (peer (fun p => peer_connection_map_ (managed p) !! msg_remote_user_id msg));
  match connection with
  | None => mret tt
  | Some c => emit (Processed c msg)
  end.

Inductive Work := Cleanup (c : nat) | Stop | Message (msg : IceWorkMsg) | Wait.

(** What is to be done next; terminated connections come first. *)
(** src/pc/peer_connection.cpp:1238-1256 [PeerConnection::StartIceWorker] *)
Definition take_work : M (Peer * W) Work :=
  g ← peer managed;
  match terminal_connection_cleanup_queue_ g, ice_work_msg_queue_ g with
  | c :: queue, _ => put (set_managed (set_cleanup queue));; mret (Cleanup c)
  | [], queue =>
      if negb (ice_worker_running_ g) then mret Stop else
      match queue with
      | msg :: queue => put (set_managed (set_work queue));; mret (Message msg)
      | [] => mret Wait
      end
  end.

(** One round of the thread; at its end what is left is thrown away. *)
(** src/pc/peer_connection.cpp:1230-1272 [PeerConnection::StartIceWorker] *)
Definition ice_worker_round : P unit :=
  work ← atomic take_work;
  match work with
  | Cleanup c => emit (Released c)
  | Stop => atomic (put (set_managed (set_work [])))
  | Message msg => ProcessIceWorkMsg msg
  | Wait => mret tt
  end.

(** *** Messages of the server *)

(** [j[key].get<std::string>()] is an exception when it is no string. *)
Definition get_text (key : string) (j : J) : P text := the (required_string key j).
(** [j.value(key, default)] is one when it is there and no string. *)
Definition value_text (key : string) (default_value : text) (j : J) : P text :=
  match member key j with
  | None => mret default_value
  | Some v => if is_string v then mret (get_string v) else throw
  end.

(** src/pc/peer_connection.cpp:990-1000 [PeerConnection::ProcessSignal] *)
Definition join_when_connected : M (Peer * W) unit :=
  put (set_signal_status SignalConnected);;
  pending ← peer (fun p => pending_join_transmission_id_ (signal p));
  match pending with
  | None => mret tt
  | Some transmission_id => put (set_pending_join None);; SendJoinRequestLocked transmission_id;; mret tt
  end.

(** src/pc/peer_connection.cpp:965-1002 [PeerConnection::ProcessSignal] *)
Definition on_login_success (j : J) : P unit :=
  let versioned := match member "ice_config_version" j with Some v => json_equals v 1 | None => false end in
  atomic (put (fun p => set_configs (legacy_turn_config_ p) versioned p));;
  ApplyTurnCredentials j;;
  user_id_with_pwd ← get_text "user_id" j;
  atomic (put (set_user_id (user_of user_id_with_pwd)));;
  emit (NetReport user_id_with_pwd (user_of user_id_with_pwd));;
  atomic join_when_connected;;
  user ← atomic (peer (fun p => user_id_ (identity p)));
  emit (SignalReport SignalConnected user).

(** src/pc/peer_connection.cpp:964-1014 [PeerConnection::ProcessSignal] *)
Definition on_login (j : J) : P unit :=
  status ← get_text "status" j;
  if bool_decide (status = lit "success") then on_login_success j else
  if bool_decide (status = lit "fail") then
    atomic (put (set_signal_status SignalFailed);; put (set_pending_join None));;
    user ← atomic (peer (fun p => user_id_ (identity p)));
    emit (SignalReport SignalFailed user)
  else mret tt.

(** src/pc/peer_connection.cpp:1015-1027 [PeerConnection::ProcessSignal] *)
Definition on_transmission_id (j : J) : P unit :=
  status ← get_text "status" j;
  if bool_decide (status = lit "success") then
    transmission_id ← get_text "transmission_id" j;
    atomic (put (set_identity (fun i => mkIdentity transmission_id (user_id_with_pwd_ i) (remote_user_id_ i) transmission_id
                                          (remote_transmission_id_ i))))
  else if bool_decide (status = lit "fail") then ignore (get_text "reason" j)
  else mret tt.

(** src/pc/peer_connection.cpp:1031-1047 [PeerConnection::ProcessSignal] *)
Definition on_join_failed (reason transmission_id : text) : P unit :=
  if bool_decide (reason = lit "Incorrect password") then emit (ConnectionReport None IncorrectPassword transmission_id) else
  if bool_decide (reason = lit "No such transmission id") then emit (ConnectionReport None NoSuchTransmissionId transmission_id) else
  if bool_decide (reason = lit "Remote unavailable") then emit (ConnectionReport None RemoteUnavailable transmission_id)
  else mret tt.

(** A new connection, if there are servers for it. *)
(** src/pc/peer_connection.cpp:1061-1067 [PeerConnection::ProcessSignal] *)
Definition connect_peer (j : J) (transmission_id remote_user_id : text) : P bool :=
  info ← BuildConnectionInfo j transmission_id remote_user_id;
  match info with
  | None => emit (ConnectionReport None Failed remote_user_id);; mret false
  | Some info =>
      c ← ReplaceOrCreatePeerConnection remote_user_id info;
      mret (match c with Some _ => true | None => false end)
  end.

(** src/pc/peer_connection.cpp:1028-1076 [PeerConnection::ProcessSignal] *)
Definition on_user_join (j : J) : P unit :=
  transmission_id ← get_text "transmission_id" j;
  status ← get_text "status" j;
  if bool_decide (status = lit "failed") then
    reason ← get_text "reason" j;
    on_join_failed reason transmission_id
  else
    remote_user_id ← get_text "user_id" j;
    if bool_decide (remote_user_id = []) then mret tt else
    user ← atomic (peer (fun p => user_id_ (identity p)));
    if bool_decide (remote_user_id = user) then mret tt else
    connected ← connect_peer j transmission_id remote_user_id;
    if (connected : bool) then
      PushIceWorkMsg (mkMsg UserJoinTransmission transmission_id remote_user_id [] [] [] [] [])
    else mret tt.

(** src/pc/peer_connection.cpp:1077-1085 [PeerConnection::ProcessSignal] *)
Definition on_user_leave (j : J) : P unit :=
  remote_user_id ← get_text "user_id" j;
  PushIceWorkMsg (mkMsg UserLeaveTransmission [] remote_user_id [] [] [] [] []).

(** src/pc/peer_connection.cpp:1086-1123 [PeerConnection::ProcessSignal] *)
Definition on_offer (j : J) : P unit :=
  transmission_id ← get_text "transmission_id" j;
  remote_user_id ← get_text "remote_user_id" j;
  atomic (put (set_remote_user_id remote_user_id));;
  match member "sdp" j with
  | None => mret tt
  | Some _ =>
      remote_sdp ← get_text "sdp" j;
      if bool_decide (remote_user_id = []) then mret tt else
      connected ← connect_peer j transmission_id remote_user_id;
      if (connected : bool) then
        PushIceWorkMsg (mkMsg MsgOffer transmission_id remote_user_id [] [] [] [] remote_sdp);;
        emit (ConnectionReport None Connecting remote_user_id)
      else mret tt
  end.

(** src/pc/peer_connection.cpp:1124-1147 [PeerConnection::ProcessSignal] *)
Definition on_answer (j : J) : P unit :=
  transmission_id ← get_text "transmission_id" j;
  remote_user_id ← get_text "remote_user_id" j;
  atomic (put (set_remote_user_id remote_user_id));;
  match member "sdp" j with
  | None => mret tt
  | Some _ =>
      remote_sdp ← get_text "sdp" j;
      PushIceWorkMsg (mkMsg MsgAnswer transmission_id remote_user_id [] [] [] [] remote_sdp);;
      emit (ConnectionReport None Connecting remote_user_id)
  end.

(** The generation of a candidate, if it is a string or not there. *)
(** src/pc/peer_connection.cpp:1155-1158 [PeerConnection::ProcessSignal] *)
Definition ufrag_valid (j : J) : bool := match member "ufrag" j with Some v => is_string v | None => true end.

Definition has_strings (keys : list string) (j : J) : bool :=
  forallb (fun key => match required_string key j with Some _ => true | None => false end) keys.

(** src/pc/peer_connection.cpp:1148-1178 [PeerConnection::ProcessSignal] *)
Definition on_new_candidate (j : J) : P unit :=
  if negb (has_strings ["transmission_id"; "remote_user_id"; "sdp"]%string j) then mret tt else
  if negb (ufrag_valid j) then mret tt else
  transmission_id ← get_text "transmission_id" j;
  new_candidate ← get_text "sdp" j;
  remote_user_id ← get_text "remote_user_id" j;
  ufrag ← value_text "ufrag" [] j;
  match ParseIceCandidateSignal new_candidate ufrag with
  | None => mret tt
  | Some candidate =>
      PushIceWorkMsg (mkMsg NewCandidate transmission_id remote_user_id (sig_sdp candidate) (sig_ufrag candidate) [] [] [])
  end.

(** src/pc/peer_connection.cpp:1198-1205 [PeerConnection::ProcessSignal] *)
Definition mid_valid (mid : text) : bool :=
  negb (256 <? zlen mid) && negb (bool_decide (zero ∈ mid)) &&
  match find_first_of [" "%char; ascii_of_nat 9; carriage_return; newline] mid with Some _ => false | None => true end.

(** src/pc/peer_connection.cpp:1179-1214 [PeerConnection::ProcessSignal] *)
Definition on_new_candidate_mid (j : J) : P unit :=
  if negb (has_strings ["transmission_id"; "remote_user_id"; "candidate"; "mid"]%string j) then mret tt else
  if negb (ufrag_valid j) then mret tt else
  transmission_id ← get_text "transmission_id" j;
  remote_user_id ← get_text "remote_user_id" j;
  candidate ← get_text "candidate" j;
  mid ← get_text "mid" j;
  ufrag ← value_text "ufrag" [] j;
  match ParseIceCandidateSignal candidate ufrag with
  | Some parsed =>
      if mid_valid mid then
        PushIceWorkMsg (mkMsg NewCandidateMid transmission_id remote_user_id [] (sig_ufrag parsed) (sig_sdp parsed) mid [])
      else mret tt
  | None => mret tt
  end.

(** src/pc/peer_connection.cpp:1215-1223 [PeerConnection::ProcessSignal] *)
Definition on_turn_credentials (j : J) : P unit :=
  status ← value_text "status" (lit "fail") j;
  if bool_decide (status = lit "success") then ignore (ApplyTurnCredentials j)
  else ignore (value_text "reason" (lit "Unknown error") j).

(** The labels of the switch, which looks at hashes. *)
(** src/pc/peer_connection.cpp:963-1227 [PeerConnection::ProcessSignal] *)
Definition signal_handlers : list (text * (J -> P unit)) :=
  [(lit "login", on_login); (lit "transmission_id", on_transmission_id); (lit "user_join_transmission", on_user_join);
   (lit "user_leave_transmission", on_user_leave); (lit "offer", on_offer); (lit "answer", on_answer);
   (lit "new_candidate", on_new_candidate); (lit "new_candidate_mid", on_new_candidate_mid);
   (lit "turn_credentials", on_turn_credentials)].

Fixpoint switch (hash : Z) (handlers : list (text * (J -> P unit))) : J -> P unit :=
  match handlers with
  | [] => fun _ => mret tt
  | (label, handler) :: handlers => if hash =? HASH_STRING_PIECE label then handler else switch hash handlers
  end.

(** src/pc/peer_connection.cpp:959-1228 [PeerConnection::ProcessSignal] *)
Definition ProcessSignal (signal : text) : P unit :=
  j ← the (json_parse signal);
  type ← get_text "type" j;
  switch (HASH_STRING_PIECE type) signal_handlers j.

(** src/pc/peer_connection.h:244-254 [PeerConnection::internal_signal_types_] *)
Definition internal_signal_types_ : list text :=
  map lit ["login"; "transmission_id"; "user_join_transmission"; "user_leave_transmission"; "offer"; "answer"; "new_candidate";
           "new_candidate_mid"; "turn_credentials"]%string.

(** src/pc/peer_connection.cpp:316-328 [PeerConnection::Init] *)
Definition on_receive_ws_msg (msg : text) : P unit :=
  match (j ← json_parse msg; required_string "type" j) with
  | Some type => if bool_decide (type ∈ internal_signal_types_) then ProcessSignal msg else emit (SignalMessage msg)
  | None => emit (SignalMessage msg)
  end.

Definition report_signal (status : SignalStatus) : P unit :=
  user ← atomic (peer (fun p => user_id_ (identity p)));
  emit (SignalReport status user).

(** src/pc/peer_connection.cpp:330-366 [PeerConnection::Init] *)
Definition on_ws_status (ws_status : WsStatus) : P unit :=
  let changed (clear : bool) status :=
    atomic (put (set_ws_status ws_status));;
    SetSignalStatus status;;
    (if clear then ClearPeerConnections else mret tt);;
    report_signal status in
  match ws_status with
  | WsOpening => changed false SignalConnecting
  | WsOpened => atomic (put (set_ws_status WsOpened));; ignore Login
  | WsFailed => changed true SignalFailed
  | WsClosed => changed true SignalClosed
  | WsReconnecting => changed false SignalReconnecting
  | WsServerClosed => changed true SignalServerClosed
  | WsTlsCertError => changed true SignalTlsCertError
  | WsConnecting => mret tt
  end.

(** src/pc/peer_connection.cpp:181-386 [PeerConnection::Init] *)
Definition Init (params : PeerConnectionParams) : P Z :=
  inited ← atomic (peer inited_);
  if (inited : bool) then mret 0 else
  let user := default [] (p_user_id params) in
  atomic (put (set_identity (fun i => mkIdentity (user_of user) user (remote_user_id_ i) (local_transmission_id_ i)
                                        (remote_transmission_id_ i))));;
  '(settings, uri) ← the (match p_cfg_file params with
                          | Some read => settings_from_file read
                          | None => Some (settings_from_params params)
                          end);
  atomic (put (set_configs None false));;
  atomic (put (set_settings settings));;
  emit (Connect uri);;
  atomic (put (set_managed (set_running true)));;
  atomic (put (set_inited true));;
  mret 0.

(** ** What threads run *)

Inductive Entry :=
  | DoInit (params : PeerConnectionParams)
  | DoJoin (transmission_id : text)
  | DoLeave (transmission_id : text)
  | DoDestroy
  | DoAddVideoStream (stream_id : text)
  | DoAddAudioStream (stream_id : text)
  | DoAddDataStream (stream_id : text) (reliable : bool)
  | DoSend (frame : Frame)
  | DoSendToPeer (frame : Frame) (remote_peer_id : text)
  | DoRequestKeyFrame (stream_id : option text)
  | DoSendSignalMessage (message : option text)
  | OnMessage (msg : text)
  | OnWsStatus (status : WsStatus)
  | OnConnectionStatus (remote_user_id : text) (c : nat) (status : ConnectionStatus) (peer_id : text)
  | WorkerRound.

Definition start (e : Entry) : P unit :=
  match e with
  | DoInit params => ignore (Init params)
  | DoJoin t => ignore (Join t)
  | DoLeave t => ignore (Leave t)
  | DoDestroy => ignore Destroy
  | DoAddVideoStream s => ignore (AddVideoStream s)
  | DoAddAudioStream s => ignore (AddAudioStream s)
  | DoAddDataStream s reliable => ignore (AddDataStream s reliable)
  | DoSend frame => ignore (send_to_all frame)
  | DoSendToPeer frame id => ignore (send_to_peer frame id)
  | DoRequestKeyFrame s => ignore (request_from_all s)
  | DoSendSignalMessage m => ignore (SendSignalMessage m)
  | OnMessage msg => on_receive_ws_msg msg
  | OnWsStatus status => on_ws_status status
  | OnConnectionStatus user c status id => on_connection_status user c status id
  | WorkerRound => ice_worker_round
  end.

(** A peer connection as it is constructed. *)
Definition new_peer : Peer :=
  mkPeer (mkSignalState WsClosed SignalClosed None false false) (mkIdentity [] [] [] [] []) None false
    (mkSettings false false true false TurnDisabled true ScreenContent false QualityHigh 60 MaintainResolution)
    (mkStreams [] [] []) (mkManaged ∅ [] [] true 0) false [].

End methods.
