(* ===== verification/PeerConnectionOk.v ===== *)
(** * Every connection ends once

    However the threads of a peer connection interleave — the socket's with its
    messages, those of the connections with their callbacks, the worker, those of
    the application — each connection that was created is in the map, or is shut
    down exactly once, and the application hears of at most one end of it. *)

From Stdlib Require Import Ascii String.
From stdpp Require Import gmap strings.
From S2P Require Import Prelude StateMonad Text IceUtils IceServers Threads PeerConnection.

(** ** Counting connections *)

Definition one (x c : nat) : nat := if decide (x = c) then 1 else 0.

Fixpoint cnt (x : nat) (l : list nat) : nat :=
  match l with
  | [] => 0
  | c :: l => one x c + cnt x l
  end.

Lemma cnt_app x l k : cnt x (l ++ k) = (cnt x l + cnt x k)%nat.
Proof. induction l as [|c l IH]; cbn; [done|]. rewrite IH. lia. Qed.

Lemma cnt_perm x l k : l ≡ₚ k -> cnt x l = cnt x k.
Proof. induction 1; cbn; lia. Qed.

Lemma cnt_in x l : (0 < cnt x l)%nat <-> x ∈ l.
Proof.
  induction l as [|c l IH]; cbn; [split; [lia|by intros ?%not_elem_of_nil]|]. rewrite elem_of_cons, <- IH. unfold one.
  destruct (decide (x = c)); split; intros H; [by left|lia|by right|destruct H; [done|lia]].
Qed.

(** The connections in a map. *)
Definition ids (m : gmap text nat) : list nat := (map_to_list m).*2.

Lemma ids_insert x m k c : m !! k = None -> cnt x (ids (<[k := c]> m)) = (one x c + cnt x (ids m))%nat.
Proof. intros H. unfold ids. apply (cnt_perm x _ (c :: (map_to_list m).*2)). by rewrite map_to_list_insert. Qed.

Lemma ids_delete x m k c : m !! k = Some c -> cnt x (ids m) = (one x c + cnt x (ids (delete k m)))%nat.
Proof. intros H. rewrite <- (ids_insert x (delete k m) k c) by apply lookup_delete_eq. by rewrite insert_delete_id. Qed.

Lemma ids_in x m : (0 < cnt x (ids m))%nat <-> exists k, m !! k = Some x.
Proof.
  rewrite cnt_in. unfold ids. rewrite list_elem_of_fmap. split.
  - intros ([k c] & -> & H%elem_of_map_to_list). by exists k.
  - intros [k H]. exists (k, x). split; [done|]. by apply elem_of_map_to_list.
Qed.

(** ** What is told *)

(** The end of a connection that the application is told of. *)
Definition terminal_of (e : Event) : list nat :=
  match e with ConnectionReport (Some c) status _ => if IsTerminalConnectionStatus status then [c] else [] | _ => [] end.

(** A connection is shut down when it is released, and by the message that the
    other peer left. *)
Definition release_of (e : Event) : list nat :=
  match e with
  | Released c => [c]
  | Processed c msg => if bool_decide (msg_type msg = UserLeaveTransmission) then [c] else []
  | _ => []
  end.

Definition reported (p : Peer) : list nat := flat_map terminal_of (trace p).
Definition released (p : Peer) : list nat := flat_map release_of (trace p).
Definition in_map (p : Peer) : list nat := ids (peer_connection_map_ (managed p)).
Definition waiting (p : Peer) : list nat := terminal_connection_cleanup_queue_ (managed p).
Definition created (p : Peer) : nat := created_ (managed p).

(** What a thread has taken out of the map: whose end it may tell, whom it must
    shut down. *)
Record Owed := mkOwed { to_report : list nat; to_release : list nat }.
Definition nothing : Owed := mkOwed [] [].

Definition new_between (a b x : nat) : nat := if (a <=? x)%nat && (x <? b)%nat then 1 else 0.

Lemma new_between_split a b x : (a <= b)%nat -> new_between 0 b x = (new_between 0 a x + new_between a b x)%nat.
Proof.
  intros H. unfold new_between. cbn [Nat.leb andb].
  destruct (Nat.leb_spec a x), (Nat.ltb_spec x b), (Nat.ltb_spec x a); cbn; lia.
Qed.

Lemma new_between_same a x : new_between a a x = 0%nat.
Proof. unfold new_between. destruct (Nat.leb_spec a x), (Nat.ltb_spec x a); cbn; lia. Qed.

Lemma new_between_next a x : new_between a (S a) x = one x a.
Proof. unfold new_between, one. destruct (Nat.leb_spec a x), (Nat.ltb_spec x (S a)), (decide (x = a)); cbn; lia. Qed.

Section owed.
Context {W J : Type} {world : PeerWorld W} {clock : WallClock W} {json : JsonLibrary J} {parser : JsonParser J}.
Hypothesis map_order_all : forall m, map_order m ≡ₚ map_to_list m.

#[local] Notation P := (Thread (Peer * W)).

Definition move (s : Peer * W) (l : Owed) (s' : Peer * W) (l' : Owed) : Prop :=
  (created s.1 <= created s'.1)%nat /\
  (forall x, cnt x (in_map s'.1) + cnt x (waiting s'.1) + cnt x (to_release l') + cnt x (released s'.1) =
     cnt x (in_map s.1) + cnt x (waiting s.1) + cnt x (to_release l) + cnt x (released s.1) + new_between (created s.1) (created s'.1) x)%nat /\
  (forall x, cnt x (in_map s'.1) + cnt x (to_report l') + cnt x (reported s'.1) <=
     cnt x (in_map s.1) + cnt x (to_report l) + cnt x (reported s.1) + new_between (created s.1) (created s'.1) x)%nat.

Definition total (s : Peer * W) (ls : list Owed) : Prop :=
  (forall x, cnt x (in_map s.1) + cnt x (waiting s.1) + cnt x (flat_map to_release ls) + cnt x (released s.1) = new_between 0 (created s.1) x)%nat /\
  (forall x, cnt x (in_map s.1) + cnt x (flat_map to_report ls) + cnt x (reported s.1) <= new_between 0 (created s.1) x)%nat.

Lemma total_move s l s' l' before after : total s (before ++ l :: after) -> move s l s' l' -> total s' (before ++ l' :: after).
Proof.
  intros [H1 H2] (Hc & M1 & M2). split; intros x; specialize (H1 x); specialize (H2 x); specialize (M1 x); specialize (M2 x);
    pose proof (new_between_split (created s.1) (created s'.1) x Hc); rewrite flat_map_app in H1, H2 |- *;
    cbn [flat_map] in *; rewrite !cnt_app in *; lia.
Qed.

Lemma total_begin s ls : total s ls -> total s (ls ++ [nothing]).
Proof. intros [H1 H2]. split; intros x; specialize (H1 x); specialize (H2 x); rewrite flat_map_app, cnt_app; cbn; lia. Qed.

(** A connection that is not there yet. *)
Lemma total_fresh s l x : sees total s l -> (created s.1 <= x)%nat -> cnt x (in_map s.1) = 0%nat.
Proof.
  intros (before & after & H & _) Hx. specialize (H x). unfold new_between in H.
  replace (x <? created s.1)%nat with false in H by (symmetry; apply Nat.ltb_ge; lia). cbn in H. lia.
Qed.

(** ** Sections that leave connections alone *)

Definition view (p : Peer) := (peer_connection_map_ (managed p), waiting p, created p, reported p, released p).

Definition quiet {A} (m : M (Peer * W) A) : Prop := forall s a s', m s = Some (a, s') -> view s'.1 = view s.1.

Lemma hushed_ret {A} (a : A) : quiet (mret a).
Proof. by intros s b s' [= _ <-]. Qed.
Lemma hushed_bind {A B} (m : M (Peer * W) A) (f : A -> M (Peer * W) B) : quiet m -> (forall a, quiet (f a)) -> quiet (m ≫= f).
Proof. intros Hm Hf s b s' (a & s1 & E1 & E2)%bind_inv. rewrite (Hf _ _ _ _ E2). by apply (Hm _ _ _ E1). Qed.
Lemma quiet_peer {A} (f : Peer -> A) : quiet (peer f).
Proof. by intros s a s' [= _ <-]. Qed.
Lemma quiet_put f : (forall p, view (f p) = view p) -> quiet (put f).
Proof. intros H s [] s' [= <-]. apply H. Qed.
Lemma quiet_lift {A} (o : option A) : quiet (lift o).
Proof. intros s a s'. unfold lift. destruct o; [|done]. by intros [= _ <-]. Qed.
Lemma quiet_out {A} (m : M W A) : quiet (out m).
Proof. intros s a s'. unfold out. destruct (m s.2) as [[b w]|]; [|done]. by intros [= _ <-]. Qed.
Lemma quiet_for_each {A} (f : A -> M (Peer * W) unit) l : (forall x, quiet (f x)) -> quiet (for_each f l).
Proof. intros Hf. induction l; cbn [for_each]; [apply hushed_ret|]. by apply hushed_bind. Qed.

Definition harmless (e : Event) : Prop := terminal_of e = [] /\ release_of e = [].

Lemma reported_add e p : reported (add_event e p) = reported p ++ terminal_of e.
Proof. unfold reported. cbn. rewrite flat_map_app. cbn. by rewrite app_nil_r. Qed.
Lemma released_add e p : released (add_event e p) = released p ++ release_of e.
Proof. unfold released. cbn. rewrite flat_map_app. cbn. by rewrite app_nil_r. Qed.

Lemma quiet_add e : harmless e -> quiet (put (add_event e)).
Proof.
  intros [H1 H2]. apply quiet_put. intros p. unfold view. rewrite reported_add, released_add, H1, H2, !app_nil_r. done.
Qed.

Lemma view_move s s' l : view s'.1 = view s.1 -> move s l s' l.
Proof.
  unfold view. intros [= E1 E2 E3 E4 E5]. unfold move, in_map. rewrite E1, E2, E3, E4, E5.
  split_and!; intros; rewrite ?new_between_same; lia.
Qed.

Notation owes t l Q := (obeys move total t l Q).

(** A thread that owes what it owed. *)
Definition calm {A} (t : P A) : Prop := forall l, owes t l (fun _ l' => l' = l).

Lemma calm_ret {A} (a : A) : calm (mret a).
Proof. done. Qed.
Lemma calm_bind {A B} (t : P A) (k : A -> P B) : calm t -> (forall a, calm (k a)) -> calm (t ≫= k).
Proof. intros Ht Hk l. apply obeys_bind. eapply obeys_mono; [|apply Ht]. intros a l' ->. apply Hk. Qed.
Lemma calm_atomic {A} (m : M (Peer * W) A) : quiet m -> calm (atomic m).
Proof. intros Hm l. apply obeys_atomic. intros s a s' _ E. exists l. split; [|done]. apply view_move. by eapply Hm. Qed.
Lemma calm_the {A} (o : option A) : calm (the o).
Proof. intros l. by apply obeys_the. Qed.
Lemma calm_throw {A} : calm (throw (A := A)).
Proof. intros l. apply obeys_throw. Qed.
Lemma calm_emit e : harmless e -> calm (emit e).
Proof. intros H. by apply calm_atomic, quiet_add. Qed.

(** ** Sections that move connections *)

Lemma emit_move e l l' (p : Peer) (w : W) :
  (forall x, cnt x (to_release l) = cnt x (to_release l') + cnt x (release_of e))%nat ->
  (forall x, cnt x (to_report l') + cnt x (terminal_of e) <= cnt x (to_report l))%nat -> move (p, w) l (add_event e p, w) l'.
Proof.
  intros H1 H2. unfold move. cbn [fst]. rewrite reported_add, released_add.
  change (created (add_event e p)) with (created p). change (in_map (add_event e p)) with (in_map p).
  change (waiting (add_event e p)) with (waiting p). split_and!; [lia| |]; intros x; specialize (H1 x); specialize (H2 x);
    rewrite cnt_app, new_between_same; lia.
Qed.

(** What is owed is done. *)
Lemma emit_owed e l l' (Q : unit -> Owed -> Prop) :
  (forall x, cnt x (to_release l) = cnt x (to_release l') + cnt x (release_of e))%nat ->
  (forall x, cnt x (to_report l') + cnt x (terminal_of e) <= cnt x (to_report l))%nat -> Q tt l' -> owes (emit e) l Q.
Proof.
  intros H1 H2 HQ. apply obeys_atomic. intros [p w] [] s' _ [= <-]. exists l'. split; [by apply emit_move|done].
Qed.

Lemma report_owed c status user rep rel (Q : unit -> Owed -> Prop) :
  Q tt (mkOwed rep rel) -> owes (emit (ConnectionReport (Some c) status user)) (mkOwed (c :: rep) rel) Q.
Proof.
  apply emit_owed; intros x; cbn; [lia|]. destruct (IsTerminalConnectionStatus status); cbn; lia.
Qed.

Lemma release_owed c rep rel (Q : unit -> Owed -> Prop) :
  Q tt (mkOwed rep rel) -> owes (emit (Released c)) (mkOwed rep (c :: rel)) Q.
Proof. apply emit_owed; intros x; cbn; lia. Qed.

(** *** Retiring *)

Lemma retire_owed user c rep rel (Q : bool -> Owed -> Prop) :
  Q true (mkOwed (c :: rep) rel) -> Q false (mkOwed rep rel) -> owes (RetirePeerConnection user c) (mkOwed rep rel) Q.
Proof.
  intros Ht Hf. apply obeys_atomic. intros [p w] a s' _ E. unfold peer, put, gets, modify, mbind, M_bind in E. cbn in E.
  unfold current in E. destruct (bool_decide_reflect (peer_connection_map_ (managed p) !! user = Some c)) as [Hc|_]; cbn in E.
  - destruct (ice_worker_running_ (managed p)) eqn:Er; cbn in E; injection E as <- <-.
    + exists (mkOwed (c :: rep) rel). split; [|done]. unfold move, in_map, waiting, created, reported, released. cbn.
      split_and!; [lia| |]; intros x; rewrite (ids_delete x _ _ _ Hc), ?cnt_app, new_between_same; cbn; lia.
    + exists (mkOwed rep rel). split; [by apply view_move|done].
  - injection E as <- <-. exists (mkOwed rep rel). split; [by apply view_move|done].
Qed.

Lemma quiet_current user c : quiet (peer (current user c)).
Proof. apply quiet_peer. Qed.

Lemma calm_status user c status id : calm (on_connection_status user c status id).
Proof.
  intros [rep rel]. unfold on_connection_status. destruct (IsTerminalConnectionStatus status) eqn:Et; apply obeys_bind.
  - apply retire_owed; [|done]. by apply report_owed.
  - apply obeys_atomic. intros s a s' _ E. exists (mkOwed rep rel). split; [by apply view_move, (quiet_peer _ _ _ _ E)|].
    destruct a; [|done]. apply calm_emit. split; cbn; [by rewrite Et|done].
Qed.

(** *** Replacing *)

Lemma replace_owed user info rep rel (Q : option nat * nat -> Owed -> Prop) :
  (forall c0 c, Q (Some c0, c) (mkOwed rep (c0 :: rel))) -> (forall c, Q (None, c) (mkOwed rep rel)) ->
  owes (atomic (replace_in_map user info)) (mkOwed rep rel) Q.
Proof.
  intros Hs Hn. apply obeys_atomic. intros [p w] a s' _ E. injection E as <- <-.
  destruct (peer_connection_map_ (managed p) !! user) as [c0|] eqn:Ec;
    [exists (mkOwed rep (c0 :: rel))|exists (mkOwed rep rel)]; (split; [|done]);
    (split_and!; [unfold created; cbn; lia| |]); intros x; unfold in_map, waiting, created, reported, released; cbn; rewrite !flat_map_app; cbn;
    rewrite !app_nil_r, new_between_next, ids_insert by apply lookup_delete_eq;
    rewrite ?(ids_delete x _ _ _ Ec), ?(delete_id _ _ Ec); lia.
Qed.

Lemma calm_replace user info : calm (ReplaceOrCreatePeerConnection user info).
Proof.
  intros [rep rel]. unfold ReplaceOrCreatePeerConnection. apply obeys_bind.
  assert (forall c, owes (r ← atomic (out (fun w => Some (connection_Init c w)));
    if negb (r =? 0) then
      retired ← RetirePeerConnection user c;
      (if (retired : bool) then emit (ConnectionReport (Some c) Failed user) else mret tt);;
      mret None
    else mret (Some c)) (mkOwed rep rel) (fun _ l' => l' = mkOwed rep rel)) as Hinit.
  { intros c. apply obeys_bind. apply obeys_atomic. intros s a s' _ E. exists (mkOwed rep rel).
    split; [by apply view_move, (quiet_out _ _ _ _ E)|]. destruct (negb (a =? 0)); [|done].
    apply obeys_bind, retire_owed; apply obeys_bind; [|done]. by apply report_owed. }
  apply replace_owed.
  - intros c0 c. apply obeys_bind, release_owed. apply Hinit.
  - intros c. apply obeys_bind. apply Hinit.
Qed.

(** *** Clearing *)

Lemma clear_each (l : list (text * nat)) rep rel :
  owes (each (fun '(user, c) => emit (ConnectionReport (Some c) Closed user);; emit (Released c)) l) (mkOwed (l.*2 ++ rep) (l.*2 ++ rel))
    (fun _ l' => l' = mkOwed rep rel).
Proof.
  induction l as [|[user c] l IH]; [done|]. cbn [each fmap list_fmap snd app]. apply obeys_bind, obeys_bind, report_owed, release_owed. exact IH.
Qed.

Lemma calm_clear : calm ClearPeerConnections.
Proof.
  intros [rep rel]. unfold ClearPeerConnections. apply obeys_bind, obeys_atomic. intros [p w] a s' _ E. injection E as <- <-.
  set (l := map_order _). exists (mkOwed (l.*2 ++ rep) (l.*2 ++ rel)). split; [|apply clear_each].
  assert (forall x, cnt x (l.*2) = cnt x (in_map p)) as Hl.
  { intros x. apply cnt_perm. unfold in_map, ids. by rewrite <- map_order_all. }
  split_and!; [unfold created; cbn; lia| |]; intros x; unfold in_map at 1, waiting, created, reported, released; cbn;
    rewrite cnt_app, Hl, new_between_same; unfold ids; rewrite map_to_list_empty; cbn; unfold in_map, ids, waiting, reported, released; lia.
Qed.

(** *** The worker *)

Lemma calm_leave msg : msg_type msg = UserLeaveTransmission -> calm (process_leave msg).
Proof.
  intros Hm [rep rel]. unfold process_leave. apply obeys_bind, obeys_atomic. intros [p w] a s' _ E. injection E as <- <-.
  destruct (peer_connection_map_ (managed p) !! msg_remote_user_id msg) as [c|] eqn:Ec.
  - exists (mkOwed (c :: rep) (c :: rel)). split.
    + split_and!; [unfold created; cbn; lia| |]; intros x; unfold in_map, waiting, created, reported, released; cbn;
        rewrite (ids_delete x _ _ _ Ec), new_between_same; lia.
    + apply obeys_bind, report_owed, (emit_owed _ _ (mkOwed rep rel)); [| |done]; intros x; cbn; [|lia].
      rewrite bool_decide_true by done. cbn. lia.
  - exists (mkOwed rep rel). split; [|done]. apply view_move. unfold view. cbn. by rewrite delete_id.
Qed.

Lemma harmless_process c msg : msg_type msg <> UserLeaveTransmission -> harmless (Processed c msg).
Proof. intros H. split; [done|]. cbn. by rewrite bool_decide_false. Qed.

Lemma calm_process msg : calm (ProcessIceWorkMsg msg).
Proof.
  unfold ProcessIceWorkMsg. case_bool_decide as E1; [apply calm_ret|]. case_bool_decide as E2; [by apply calm_leave|].
  apply calm_bind; [apply calm_atomic, quiet_peer|]. intros [c|]; [|apply calm_ret]. by apply calm_emit, harmless_process.
Qed.

Lemma calm_round : calm ice_worker_round.
Proof.
  intros [rep rel]. unfold ice_worker_round. apply obeys_bind, obeys_atomic. intros [p w] a s' _ E.
  unfold take_work in E. unfold peer, put, gets, modify, mbind, M_bind in E. cbn in E.
  destruct (terminal_connection_cleanup_queue_ (managed p)) as [|c queue] eqn:Eq; cbn in E.
  - exists (mkOwed rep rel). destruct (ice_worker_running_ (managed p)); cbn in E; [|injection E as <- <-; split; [by apply view_move|]].
    + destruct (ice_work_msg_queue_ (managed p)) as [|msg q]; injection E as <- <-; (split; [by apply view_move|]); [done|]. apply calm_process.
    + apply calm_atomic. by apply quiet_put.
  - injection E as <- <-. exists (mkOwed rep (c :: rel)). split; [|by apply release_owed].
    split_and!; [unfold created; cbn; lia| |]; intros x; unfold in_map, waiting, created, reported, released; cbn; rewrite ?Eq, new_between_same; cbn; lia.
Qed.

End owed.

(** ** Every entry *)

Ltac quiet_step :=
  lazymatch goal with
  | |- quiet (mret _) => apply hushed_ret
  | |- quiet (mbind _ _) => apply hushed_bind; [|intros ?]
  | |- quiet (peer _) => apply quiet_peer
  | |- quiet (put (add_event _)) => apply quiet_add; split; reflexivity
  | |- quiet (put _) => apply quiet_put; reflexivity
  | |- quiet (out _) => apply quiet_out
  | |- quiet (for_each _ _) => apply quiet_for_each; intros ?
  | |- quiet (lift _) => apply quiet_lift
  | |- quiet (send_request _) => unfold send_request
  | |- quiet (SendJoinRequestLocked _) => unfold SendJoinRequestLocked
  | |- quiet (match ?x with _ => _ end) => destruct x
  end.

Ltac calm_step :=
  lazymatch goal with
  | |- calm (mret _) => apply calm_ret
  | |- calm (mbind _ _) => apply calm_bind; [|intros ?]
  | |- calm (atomic _) => apply calm_atomic; repeat quiet_step
  | |- calm (the _) => apply calm_the
  | |- calm (get_text _ _) => apply calm_the
  | |- calm throw => apply calm_throw
  | |- calm (emit _) => apply calm_emit; split; reflexivity
  | |- calm ClearPeerConnections => by apply calm_clear
  | |- calm (ReplaceOrCreatePeerConnection _ _) => apply calm_replace
  | |- calm (let _ := _ in _) => cbv zeta
  | |- calm (match ?x with _ => _ end) => destruct x
  end.

Section entries.
Context {W J : Type} {world : PeerWorld W} {clock : WallClock W} {json : JsonLibrary J} {parser : JsonParser J}.
Hypothesis map_order_all : forall m, map_order m ≡ₚ map_to_list m.

#[local] Notation P := (Thread (Peer * W)).
#[local] Notation calm t := (calm (W := W) t).
#[local] Notation quiet m := (quiet (W := W) m).

Lemma calm_ignore {A} (t : P A) : calm t -> calm (ignore t).
Proof. intros H. apply calm_bind; [exact H|]. intros ?. apply calm_ret. Qed.

Lemma calm_init params : calm (Init params).
Proof. unfold Init. repeat calm_step. Qed.
Lemma calm_join t : calm (Join t).
Proof. unfold Join. repeat calm_step. Qed.
Lemma calm_leave_call t : calm (Leave t).
Proof. unfold Leave, leave_signal. repeat calm_step. Qed.
Lemma calm_destroy : calm Destroy.
Proof. unfold Destroy, StopIceWorker. repeat calm_step. Qed.
Lemma calm_streams s reliable : calm (AddVideoStream s) /\ calm (AddAudioStream s) /\ calm (AddDataStream s reliable).
Proof. split_and!; unfold AddVideoStream, AddAudioStream, AddDataStream; repeat calm_step. Qed.
Lemma calm_send frame : calm (send_to_all frame).
Proof. unfold send_to_all. repeat calm_step. Qed.
Lemma calm_send_peer frame id : calm (send_to_peer frame id).
Proof. unfold send_to_peer. repeat calm_step. Qed.
Lemma quiet_key_frames s l ret : quiet (request_key_frames s l ret).
Proof. revert ret. induction l as [|[k c] l IH]; intros ret; cbn [request_key_frames]; repeat quiet_step. apply IH. Qed.
Lemma calm_request s : calm (request_from_all s).
Proof. unfold request_from_all. apply calm_atomic, hushed_bind; [apply quiet_peer|]. intros l. apply quiet_key_frames. Qed.
Lemma calm_signal_message m : calm (SendSignalMessage m).
Proof. unfold SendSignalMessage. repeat calm_step. Qed.

Lemma calm_login : calm Login.
Proof. unfold Login. repeat calm_step. Qed.
Lemma calm_report_signal status : calm (report_signal status).
Proof. unfold report_signal. repeat calm_step. Qed.
Lemma calm_ws_status status : calm (on_ws_status status).
Proof.
  unfold on_ws_status, SetSignalStatus. destruct status; repeat first [apply calm_report_signal | apply calm_ignore, calm_login | calm_step].
Qed.

Lemma calm_credentials (j : J) : calm (ApplyTurnCredentials j).
Proof. unfold ApplyTurnCredentials. repeat calm_step. Qed.
Lemma calm_build (j : J) t user : calm (BuildConnectionInfo j t user).
Proof. unfold BuildConnectionInfo, choose_configuration. repeat calm_step. Qed.
Lemma calm_connect (j : J) t user : calm (connect_peer j t user).
Proof. unfold connect_peer. repeat first [apply calm_build | calm_step]. Qed.
Lemma calm_push msg : calm (PushIceWorkMsg msg).
Proof. unfold PushIceWorkMsg. repeat calm_step. Qed.
Lemma calm_value key d (j : J) : calm (value_text key d j).
Proof. unfold value_text. repeat calm_step. Qed.

Lemma calm_handlers : Forall (fun h : text * (J -> P unit) => forall j, calm (h.2 j)) signal_handlers.
Proof.
  unfold signal_handlers. repeat constructor; cbn [snd]; intros j;
    [unfold on_login, on_login_success, join_when_connected|unfold on_transmission_id|unfold on_user_join, on_join_failed|unfold on_user_leave
    |unfold on_offer|unfold on_answer|unfold on_new_candidate|unfold on_new_candidate_mid|unfold on_turn_credentials];
    repeat first [apply calm_ignore | apply calm_credentials | apply calm_connect | apply calm_push | apply calm_value | calm_step].
Qed.

Lemma calm_switch hash handlers (j : J) : Forall (fun h : text * (J -> P unit) => forall j, calm (h.2 j)) handlers -> calm (switch hash handlers j).
Proof. induction 1 as [|[label h] l Hh _ IH]; cbn [switch]; [apply calm_ret|]. destruct (hash =? _); [apply Hh|exact IH]. Qed.

Lemma calm_message msg : calm (on_receive_ws_msg msg).
Proof.
  unfold on_receive_ws_msg, ProcessSignal. destruct (j ← json_parse msg; required_string "type" j); [|repeat calm_step].
  case_bool_decide; repeat calm_step. apply calm_switch, calm_handlers.
Qed.

Lemma calm_start e : calm (start e).
Proof.
  destruct e; cbn [start]; try apply calm_ignore.
  - apply calm_init.
  - apply calm_join.
  - apply calm_leave_call.
  - apply calm_destroy.
  - by apply (calm_streams stream_id false).
  - by apply (calm_streams stream_id false).
  - by apply calm_streams.
  - apply calm_send.
  - apply calm_send_peer.
  - apply calm_request.
  - apply calm_signal_message.
  - apply calm_message.
  - apply calm_ws_status.
  - apply calm_status.
  - apply calm_round.
Qed.

(** ** The statement *)

Lemma cnt_nodup l : (forall x, cnt x l <= 1)%nat -> base.NoDup l.
Proof.
  induction l as [|c l IH]; intros H; [apply NoDup_nil_2|]. apply NoDup_cons_2.
  - rewrite <- cnt_in. specialize (H c). cbn in H. unfold one in H. rewrite decide_True in H by done. lia.
  - apply IH. intros x. specialize (H x). cbn in H. lia.
Qed.

Lemma ended_nothing (pool : list (P unit)) ls :
  Forall2 (fun t l => obeys move total t l (fun _ l => l = nothing)) pool ls -> forallb ended pool = true -> flat_map to_release ls = [].
Proof.
  induction 1 as [|t l pool ls Ht _ IH]; cbn; [done|]. intros [Hh H]%andb_prop. destruct t as [[]|f]; [|done]. cbn in Ht. by rewrite Ht, IH.
Qed.

Lemma new_between_below b x : (new_between 0 b x <= 1)%nat /\ ((x < b)%nat -> new_between 0 b x = 1%nat).
Proof. unfold new_between. cbn [Nat.leb andb]. destruct (Nat.ltb_spec x b); split; intros; lia. Qed.

Lemma total_new (w : W) : total (new_peer, w) [].
Proof. by split. Qed.

(** C19. Whatever messages come and however the threads interleave — the
    socket's, those of the connections that report their states, the worker's
    rounds, the application's calls — no connection is shut down twice, and the
    application is told of at most one end of it; a connection in the map is
    neither shut down nor reported as ended; and once the threads have come to
    rest with nothing left to clean up, every connection that is not in the map
    has been shut down. *)
Theorem connections_end_once cs pool p (w w' : W) :
  schedule start cs ([], (new_peer, w)) = Some (pool, (p, w')) ->
  base.NoDup (reported p) /\ base.NoDup (released p) /\
  (forall user c, peer_connection_map_ (managed p) !! user = Some c -> c ∉ reported p /\ c ∉ released p) /\
  (forallb ended pool = true -> waiting p = [] ->
   forall c, (c < created p)%nat -> (exists user, peer_connection_map_ (managed p) !! user = Some c) \/ c ∈ released p).
Proof.
  intros E. destruct (fun H1 H2 H3 => schedule_sound (move (W := W)) total start nothing H1 H2 H3 cs [] (new_peer, w) pool (p, w') [] E)
    as (ls & Ho & H1 & H2).
  - intros. by eapply total_move.
  - apply total_begin.
  - intros e. apply calm_start.
  - constructor.
  - apply total_new.
  - cbn [fst] in *. split_and!.
    + apply cnt_nodup. intros x. specialize (H2 x). pose proof (new_between_below (created p) x). lia.
    + apply cnt_nodup. intros x. specialize (H1 x). pose proof (new_between_below (created p) x). lia.
    + intros user c Hc. assert (0 < cnt c (in_map p))%nat as Hin by (apply ids_in; by exists user).
      specialize (H1 c). specialize (H2 c). pose proof (new_between_below (created p) c). rewrite <- !cnt_in. split; lia.
    + intros Hend Hw c Hc. specialize (H1 c). rewrite (ended_nothing _ _ Ho Hend), Hw in H1. cbn [cnt] in H1.
      rewrite (proj2 (new_between_below (created p) c) Hc) in H1. rewrite <- cnt_in, <- ids_in. unfold in_map in H1. lia.
Qed.

End entries.

(** ** What ends the program *)

(** Strings that came as JSON are written as JSON, and so is what is before an at
    sign; so [dump] throws for strings of the application only. *)
Class JsonTexts (J : Type) {json : JsonLibrary J} {parser : JsonParser J} : Prop := {
  parsed_dumps msg j key v : json_parse msg = Some j -> required_string key j = Some v -> json_dumps v = true;
  head_dumps a b : json_dumps (a ++ lit "@" ++ b) = true -> json_dumps a = true;
  empty_dumps : json_dumps [] = true;
}.

Section survive.
Context {W J : Type} {world : PeerWorld W} {clock : WallClock W} {json : JsonLibrary J} {parser : JsonParser J} {texts : JsonTexts J}.

(** The members that go into messages can be written. *)
Definition names_dump (s : Peer * W) : Prop :=
  json_dumps (user_id_ (identity s.1)) = true /\ json_dumps (user_id_with_pwd_ (identity s.1)) = true /\
  (forall t, pending_join_transmission_id_ (signal s.1) = Some t -> json_dumps t = true).

Definition thread_safe {A} (t : Thread (Peer * W) A) : Prop := safe names_dump t (fun _ => True).
Definition section_sure {A} (m : M (Peer * W) A) : Prop := sure names_dump m (fun _ => True).

Lemma found_char c s n : find [c] s = Some n -> exists rest, s = take n s ++ c :: rest.
Proof.
  revert n. induction s as [|d s IH]; intros n; cbn; [done|]. case_bool_decide as Hc; cbn; [intros [= <-]; subst d; by exists s|].
  destruct (find [c] s) as [m|] eqn:E; [|done]. intros [= <-]. destruct (IH m eq_refl) as [rest Hr]. exists rest. cbn. by rewrite <- Hr.
Qed.

Lemma user_of_dumps u : json_dumps u = true -> json_dumps (user_of u) = true.
Proof.
  unfold user_of. destruct (find (lit "@") u) as [n|] eqn:E; [|done]. apply found_char in E as [b E]. intros H. rewrite E in H. by apply (head_dumps _ b).
Qed.

Lemma sure_peer {A} (f : Peer -> A) (Q : A -> Prop) : (forall s, names_dump s -> Q (f s.1)) -> sure names_dump (peer f) Q.
Proof. intros H s Hs. exists (f s.1), s. split; [done|]. split; [done|]. by apply H. Qed.
Lemma sure_put f : (forall s, names_dump s -> names_dump (f s.1, s.2)) -> section_sure (put f).
Proof. intros H s Hs. exists tt, (f s.1, s.2). split; [done|]. split; [by apply H|done]. Qed.
Lemma sure_out {A} (m : M W A) : (forall w, is_Some (m w)) -> section_sure (out m).
Proof. intros H [p w] Hs. destruct (H w) as [[a w'] E]. exists a, (p, w'). unfold out. cbn. by rewrite E. Qed.
Lemma sure_total {A} (f : W -> A * W) : section_sure (out (fun w => Some (f w))).
Proof. apply sure_out. intros w. by eexists. Qed.

Lemma sure_fresh config : section_sure (out (fresh_now config)).
Proof. apply sure_out. intros w. destruct (IceUnixTime w) as [now w'] eqn:E. rewrite (fresh_now_eq _ _ _ _ E). by eexists. Qed.
Lemma sure_configuration (ice : J) : section_sure (out (ParseIceServerConfiguration ice)).
Proof.
  apply sure_out. intros w. unfold ParseIceServerConfiguration. destruct (configuration_head ice) as [[[id x] servers]|]; [|by eexists].
  destruct (read_servers_ok servers _ w progress_start) as (r & w' & E & _). rewrite (bind_eval _ _ _ _ _ E).
  destruct r; [|by eexists]. destruct (IceUnixTime w') as [now w2] eqn:Ec. rewrite (bind_eval _ _ _ _ _ (fresh_now_eq _ _ _ _ Ec)). by eexists.
Qed.
Lemma legacy_total (j : J) (w : W) : is_Some (ParseLegacyTurnConfig j w).
Proof.
  unfold ParseLegacyTurnConfig. destruct (_ ≫= _) as [config|]; [|by eexists].
  destruct (IceUnixTime w) as [now w'] eqn:E. rewrite (bind_eval _ _ _ _ _ (fresh_now_eq _ _ _ _ E)). by eexists.
Qed.
Lemma sure_legacy (j : J) : section_sure (out (ParseLegacyTurnConfig j)).
Proof. apply sure_out. apply legacy_total. Qed.

Lemma sure_send r : forallb json_dumps (request_texts r) = true -> section_sure (send_request r).
Proof. intros H s Hs. unfold send_request. rewrite H. by exists tt, (add_event (Send r) s.1, s.2). Qed.

Lemma sure_key_frames s l ret : section_sure (request_key_frames s l ret).
Proof.
  revert ret. induction l as [|[k c] l IH]; intros ret; cbn [request_key_frames]; [by apply sure_ret|].
  apply sure_then; [by apply sure_put|]. intros _. apply sure_then; [apply sure_total|]. intros ?. apply IH.
Qed.

End survive.

(** The names stay as they are. *)
Ltac same_names := let H := fresh in intros ? H; exact H.

Ltac sure_step :=
  lazymatch goal with
  | |- sure _ (mret _) _ => apply sure_ret; exact I
  | |- sure _ (mbind _ _) _ => apply sure_then; [|intros ?]
  | |- sure _ (peer _) _ => apply sure_peer; exact (fun _ _ => I)
  | |- sure _ (put _) _ => apply sure_put; same_names
  | |- sure _ (out (ParseIceServerConfiguration _)) _ => apply sure_configuration
  | |- sure _ (out (ParseLegacyTurnConfig _)) _ => apply sure_legacy
  | |- sure _ (out (fresh_now _)) _ => apply sure_fresh
  | |- sure _ (out _) _ => apply sure_total
  | |- sure _ (for_each _ _) _ => apply sure_for_each; intros ?
  | |- sure _ (request_key_frames _ _ _) _ => apply sure_key_frames
  | |- sure _ (match ?x with _ => _ end) _ => destruct x
  | |- sure _ _ _ => progress cbv zeta
  end.

Ltac safe_step :=
  lazymatch goal with
  | |- thread_safe _ => unfold thread_safe
  | |- safe _ (mret _) _ => exact I
  | |- safe _ (Return _) _ => exact I
  | |- safe _ (mbind _ _) _ => apply nothrow_then; [|intros ?]
  | |- safe _ (atomic _) _ => apply nothrow_atomic; repeat sure_step
  | |- safe _ (emit _) _ => apply nothrow_atomic, sure_put; same_names
  | |- safe _ (ignore _) _ => apply nothrow_then; [|intros ?; exact I]
  | |- safe _ (each _ _) _ => apply nothrow_each; intros ?
  | |- safe _ (let _ := _ in _) _ => cbv zeta
  | |- safe _ (match ?x with _ => _ end) _ => destruct x
  end.

Section survive_all.
Context {W J : Type} {world : PeerWorld W} {clock : WallClock W} {json : JsonLibrary J} {parser : JsonParser J} {texts : JsonTexts J}.

#[local] Notation thread_safe t := (thread_safe (W := W) t).

Definition there (key : string) (j : J) : bool := match required_string key j with Some _ => true | None => false end.
Definition if_there (key : string) (j : J) : bool := match member key j with Some v => is_string v | None => true end.
Definition says (key value : string) (j : J) : bool := bool_decide (required_string key j = Some (lit value)).

(** The fields that a message of each type must have. *)
Definition fields_present (type : text) (j : J) : bool :=
  let eq (s : string) := bool_decide (type = lit s) in
  if eq "login"%string then there "status" j && (negb (says "status" "success" j) || there "user_id" j) else
  if eq "transmission_id"%string then
    there "status" j && (negb (says "status" "success" j) || there "transmission_id" j) && (negb (says "status" "fail" j) || there "reason" j) else
  if eq "user_join_transmission"%string then
    there "transmission_id" j && there "status" j && (if says "status" "failed" j then there "reason" j else there "user_id" j) else
  if eq "user_leave_transmission"%string then there "user_id" j else
  if eq "offer"%string || eq "answer"%string then there "transmission_id" j && there "remote_user_id" j && if_there "sdp" j else
  if eq "turn_credentials"%string then if_there "status" j && (says "status" "success" j || if_there "reason" j) else true.

Lemma get_there key (j : J) : there key j = true -> exists v, required_string key j = Some v.
Proof. unfold there. destruct (required_string key j) as [v|]; [by exists v|done]. Qed.

Lemma value_safe key d (j : J) : if_there key j = true -> thread_safe (value_text key d j).
Proof. unfold if_there, value_text. destruct (member key j) as [v|]; [|done]. by intros ->. Qed.

(** The labels are told apart by their hashes. *)
Lemma switch_labels : Forall (fun h => switch (HASH_STRING_PIECE h.1) signal_handlers = h.2) (signal_handlers (W := W) (J := J)).
Proof. unfold signal_handlers at 2. repeat (constructor; [reflexivity|]). constructor. Qed.

(** *** Requests *)

Lemma safe_send_login : thread_safe Login.
Proof.
  unfold Login. safe_step. apply nothrow_then; [safe_step|]. intros status. destruct (negb _); [done|].
  apply (nothrow_bind _ _ _ (fun user => json_dumps user = true)).
  { apply nothrow_atomic, sure_peer. by intros s (_ & H & _). }
  intros user Hu. apply nothrow_then; [safe_step|]. intros _. apply nothrow_then; [|done].
  apply nothrow_atomic, sure_send. cbn. by rewrite Hu.
Qed.

Lemma sure_send_join t : json_dumps t = true -> section_sure (W := W) (SendJoinRequestLocked t).
Proof.
  intros Ht. unfold SendJoinRequestLocked. apply sure_then; [sure_step|]. intros _.
  apply (sure_bind _ _ _ (fun user => json_dumps user = true)); [apply sure_peer; by intros s (H & _)|]. intros user Hu.
  apply sure_then; [sure_step|]. intros _. apply sure_then; [|intros _; sure_step]. apply sure_send. cbn. by rewrite Hu, Ht.
Qed.

Lemma sure_pending p : (forall t, p = Some t -> json_dumps t = true) -> section_sure (W := W) (put (set_pending_join p)).
Proof. intros H. apply sure_put. intros s (H1 & H2 & _). by split_and!. Qed.

Lemma safe_send_joining t : json_dumps t = true -> thread_safe (Join t).
Proof.
  intros Ht. apply nothrow_atomic. apply sure_then; [sure_step|]. intros [];
    first [by apply sure_send_join | apply sure_then; [apply sure_pending; by intros ? [= <-]|intros _; repeat sure_step] | sure_step].
Qed.

Lemma sure_leave t : json_dumps t = true -> section_sure (W := W) (leave_signal t).
Proof.
  intros Ht. apply sure_then; [sure_step|]. intros status. apply sure_then; [sure_step|]. intros pending.
  apply sure_then; [|intros ?; repeat sure_step]. destruct pending; [apply sure_then; [by apply sure_pending|intros _; sure_step]|].
  apply sure_then; [|intros _; sure_step]. destruct (bool_decide _); [|sure_step].
  apply (sure_bind _ _ _ (fun user => json_dumps user = true)); [apply sure_peer; by intros s (H & _)|]. intros user Hu.
  apply sure_send. cbn. by rewrite Hu, Ht.
Qed.

Lemma sure_queued_join : section_sure (W := W) join_when_connected.
Proof.
  unfold join_when_connected. apply sure_then; [sure_step|]. intros _.
  apply (sure_bind _ _ _ (fun pending => forall t, pending = Some t -> json_dumps t = true)); [apply sure_peer; by intros s (_ & _ & H)|].
  intros [t|] Ht; [|sure_step]. apply sure_then; [by apply sure_pending|]. intros _. apply sure_then; [by apply sure_send_join, Ht|intros _; sure_step].
Qed.

(** *** Messages *)

Lemma safe_credentials (j : J) : thread_safe (ApplyTurnCredentials j).
Proof. unfold ApplyTurnCredentials. repeat safe_step. Qed.
Lemma safe_retire user c : thread_safe (RetirePeerConnection user c).
Proof. unfold RetirePeerConnection. repeat safe_step. Qed.
Lemma safe_replace user info : thread_safe (ReplaceOrCreatePeerConnection user info).
Proof.
  unfold ReplaceOrCreatePeerConnection, replace_in_map, CreateManagedPeerConnection. repeat first [apply safe_retire | safe_step].
Qed.
Lemma safe_connect (j : J) t user : thread_safe (connect_peer j t user).
Proof. unfold connect_peer, BuildConnectionInfo, choose_configuration. repeat first [apply safe_replace | safe_step]. Qed.
Lemma safe_clear : thread_safe ClearPeerConnections.
Proof. unfold ClearPeerConnections. repeat safe_step. Qed.

Ltac field key H :=
  let v := fresh "v" in let E := fresh "E" in destruct (get_there key _ H) as [v E]; unfold get_text; rewrite E; fold (get_text (W := W) (J := J)); cbn [the mbind Thread_bind thread_bind].

Ltac survive := repeat first [apply safe_connect | apply safe_credentials | safe_step].

Lemma says_eq key (value : string) (j : J) v : required_string key j = Some v -> says key value j = bool_decide (v = lit value).
Proof.
  intros E. unfold says. rewrite E. apply bool_decide_ext. split; [by intros [= ->]|by intros ->].
Qed.

Definition parsed (j : J) : Prop := exists msg, json_parse msg = Some j.

Lemma safe_login (j : J) : parsed j -> fields_present (lit "login") j = true -> thread_safe (on_login j).
Proof.
  intros [msg Hj]. change (fields_present (lit "login") j) with (there "status" j && (negb (says "status" "success" j) || there "user_id" j)).
  intros [H1 H2]%andb_prop. unfold on_login. field "status"%string H1. rewrite (says_eq _ _ _ _ E) in H2.
  destruct (bool_decide (v = lit "success")); cbn [negb orb] in H2.
  - unfold on_login_success. cbv zeta. apply nothrow_then; [survive|intros _]. apply nothrow_then; [survive|intros _].
    field "user_id"%string H2. apply nothrow_then.
    { apply nothrow_atomic, sure_put. intros s (_ & N2 & N3). split_and!; [|done..]. by eapply user_of_dumps, parsed_dumps. }
    intros _. apply nothrow_then; [survive|intros _]. apply nothrow_then; [apply nothrow_atomic, sure_queued_join|intros _]. survive.
  - destruct (bool_decide _); [|done]. apply nothrow_then; [|intros _; survive]. apply nothrow_atomic.
    apply sure_then; [sure_step|]. intros _. by apply sure_pending.
Qed.

Lemma safe_transmission_id (j : J) : parsed j -> fields_present (lit "transmission_id") j = true -> thread_safe (on_transmission_id j).
Proof.
  intros [msg Hj]. change (fields_present (lit "transmission_id") j) with
    (there "status" j && (negb (says "status" "success" j) || there "transmission_id" j) && (negb (says "status" "fail" j) || there "reason" j)).
  intros [[H1 H2]%andb_prop H3]%andb_prop. unfold on_transmission_id. field "status"%string H1.
  rewrite (says_eq _ _ _ _ E) in H2; rewrite (says_eq _ _ _ _ E) in H3. destruct (bool_decide (v = lit "success")); cbn [negb orb] in H2.
  - field "transmission_id"%string H2. apply nothrow_atomic, sure_put. intros s (_ & N2 & N3). split_and!; [|done..]. by eapply parsed_dumps.
  - destruct (bool_decide (v = lit "fail")); [|done]. cbn [negb orb] in H3. unfold ignore. field "reason"%string H3. done.
Qed.


Lemma safe_join (j : J) : fields_present (lit "user_join_transmission") j = true -> thread_safe (on_user_join j).
Proof.
  change (fields_present (lit "user_join_transmission") j) with
    (there "transmission_id" j && there "status" j && (if says "status" "failed" j then there "reason" j else there "user_id" j)).
  intros [[H1 H2]%andb_prop H3]%andb_prop. unfold on_user_join. field "transmission_id"%string H1. field "status"%string H2.
  rewrite (says_eq _ _ _ _ E0) in H3. destruct (bool_decide (v0 = lit "failed")).
  - field "reason"%string H3. unfold on_join_failed. survive.
  - field "user_id"%string H3. unfold PushIceWorkMsg. survive.
Qed.

Lemma safe_offer_answer (j : J) : there "transmission_id" j && there "remote_user_id" j && if_there "sdp" j = true ->
  thread_safe (on_offer j) /\ thread_safe (on_answer j).
Proof.
  intros [[H1 H2]%andb_prop H3]%andb_prop.
  assert (forall v, member "sdp" j = Some v -> there "sdp" j = true) as H4.
  { intros v E. unfold if_there in H3. rewrite E in H3. unfold there, required_string. rewrite E. cbn. by rewrite H3. }
  unfold on_offer, on_answer. split; field "transmission_id"%string H1; field "remote_user_id"%string H2; (apply nothrow_then; [survive|intros _]);
    (destruct (member "sdp" j) as [sdp|] eqn:Es; [|done]); specialize (H4 _ eq_refl); field "sdp"%string H4; unfold PushIceWorkMsg; survive.
Qed.

Lemma safe_candidates (j : J) : thread_safe (on_new_candidate j) /\ thread_safe (on_new_candidate_mid j).
Proof.
  unfold on_new_candidate, on_new_candidate_mid, has_strings. cbn [forallb]. split.
  - destruct (required_string "transmission_id" j) as [a|] eqn:E1, (required_string "remote_user_id" j) as [b|] eqn:E2,
      (required_string "sdp" j) as [c|] eqn:E3; try exact I.
    cbn [andb negb]. destruct (ufrag_valid j) eqn:Eu; [|done]. unfold get_text. rewrite E1, E2, E3.
    cbn [negb the mbind Thread_bind thread_bind]. apply nothrow_then; [by apply value_safe|]. intros u. unfold PushIceWorkMsg. survive.
  - destruct (required_string "transmission_id" j) as [a|] eqn:E1, (required_string "remote_user_id" j) as [b|] eqn:E2,
      (required_string "candidate" j) as [c|] eqn:E3, (required_string "mid" j) as [d|] eqn:E4; try exact I.
    cbn [andb negb]. destruct (ufrag_valid j) eqn:Eu; [|done]. unfold get_text. rewrite E1, E2, E3, E4.
    cbn [negb the mbind Thread_bind thread_bind]. apply nothrow_then; [by apply value_safe|]. intros u. unfold PushIceWorkMsg. survive.
Qed.

Lemma safe_handler type (j : J) : parsed j -> type ∈ internal_signal_types_ -> fields_present type j = true ->
  thread_safe (switch (HASH_STRING_PIECE type) signal_handlers j).
Proof.
  intros Hj Ht Hf. pose proof switch_labels as Hs. unfold signal_handlers at 2 in Hs. repeat (apply list.Forall_cons in Hs as [?H Hs]).
  unfold internal_signal_types_ in Ht. cbn [map] in Ht. repeat (apply elem_of_cons in Ht as [->|Ht]); cbn [fst snd] in *.
  - rewrite H. by apply safe_login.
  - rewrite H0. by apply safe_transmission_id.
  - rewrite H1. by apply safe_join.
  - rewrite H2. cbn -[there] in Hf. unfold on_user_leave. field "user_id"%string Hf. unfold PushIceWorkMsg. survive.
  - rewrite H3. by apply safe_offer_answer.
  - rewrite H4. by apply safe_offer_answer.
  - rewrite H5. apply safe_candidates.
  - rewrite H6. apply safe_candidates.
  - rewrite H7. unfold on_turn_credentials.
    change (fields_present (lit "turn_credentials") j) with (if_there "status" j && (says "status" "success" j || if_there "reason" j)) in Hf.
    apply andb_prop in Hf as [Hf1 Hf2]. unfold if_there in Hf1. unfold says, required_string in Hf2.
    destruct (member "status" j) as [st|] eqn:Est.
    + assert (value_text (W := W) "status" (lit "fail") j = Return (get_string st)) as -> by (unfold value_text; by rewrite Est, Hf1).
      cbn [mbind Thread_bind thread_bind option_bind] in *. rewrite Hf1 in Hf2. cbv beta iota in Hf2. destruct (decide (get_string st = lit "success")) as [Ec|Ec]; [rewrite bool_decide_true by done; survive|].
      rewrite bool_decide_false by done. rewrite bool_decide_false in Hf2 by congruence. apply nothrow_then; [|by intros]. by apply value_safe.
    + assert (value_text (W := W) "status" (lit "fail") j = Return (lit "fail")) as -> by (unfold value_text; by rewrite Est).
      cbn [mbind Thread_bind thread_bind option_bind] in *. apply nothrow_then; [|by intros]. by apply value_safe.
  - destruct (not_elem_of_nil _ Ht).
Qed.

(** ** Calls and callbacks *)

(** What the code relies on: the strings that a user of the program gives are
    UTF-8, a configuration file has numbers where it must, and a message of the
    signalling server has the fields that its type needs. *)
Definition proper (e : Entry) : Prop :=
  match e with
  | DoInit params => json_dumps (default [] (p_user_id params)) = true /\
      (forall read, p_cfg_file params = Some read -> is_Some (settings_from_file read))
  | DoJoin t | DoLeave t => json_dumps t = true
  | OnMessage msg => forall j type, json_parse msg = Some j -> required_string "type" j = Some type -> fields_present type j = true
  | _ => True
  end.

Lemma safe_init params : proper (DoInit params) -> thread_safe (Init params).
Proof.
  intros [Hu Hf]. unfold Init. apply nothrow_then; [safe_step|]. intros inited. destruct (inited : bool); [done|]. cbv zeta.
  apply nothrow_then.
  { apply nothrow_atomic, sure_put. intros s (_ & _ & N3). split_and!; [by apply user_of_dumps|done..]. }
  intros _. apply nothrow_then; [|intros [settings uri]; repeat safe_step].
  destruct (p_cfg_file params) as [read|]; [|done]. by destruct (Hf read eq_refl) as [r ->].
Qed.

Lemma safe_message msg : proper (OnMessage msg) -> thread_safe (on_receive_ws_msg msg).
Proof.
  intros Hm. unfold on_receive_ws_msg. destruct (json_parse msg) as [j|] eqn:Ej; cbn [mbind option_bind]; [|survive].
  destruct (required_string "type" j) as [type|] eqn:Et; [|survive]. case_bool_decide as Hint; [|survive].
  unfold ProcessSignal. rewrite Ej. cbn [the mbind Thread_bind thread_bind]. unfold get_text. rewrite Et. cbn [the thread_bind].
  apply safe_handler; [by exists msg|done|]. by eapply Hm.
Qed.

Lemma safe_destroy : thread_safe Destroy.
Proof.
  unfold Destroy, StopIceWorker. apply nothrow_then; [|intros _; repeat first [apply safe_clear | safe_step]].
  apply nothrow_atomic, sure_then; [by apply sure_pending|]. intros _. sure_step.
Qed.

Lemma safe_start e : proper e -> thread_safe (start e).
Proof.
  intros He. destruct e; cbn [start]; unfold ignore; try (apply nothrow_then; [|by intros]).
  - by apply safe_init.
  - by apply safe_send_joining.
  - unfold Leave. apply nothrow_then; [by apply nothrow_atomic, sure_leave|]. intros [? ?]. repeat first [apply safe_clear | safe_step].
  - apply safe_destroy.
  - unfold AddVideoStream. survive.
  - unfold AddAudioStream. survive.
  - unfold AddDataStream. survive.
  - unfold send_to_all. survive.
  - unfold send_to_peer. survive.
  - unfold request_from_all. survive.
  - unfold SendSignalMessage. survive.
  - by apply safe_message.
  - unfold on_ws_status, SetSignalStatus, report_signal. destruct status; repeat first [apply safe_clear | apply safe_send_login | safe_step].
  - unfold on_connection_status, IsCurrentPeerConnection. repeat first [apply safe_retire | safe_step].
  - unfold ice_worker_round, take_work, ProcessIceWorkMsg, process_leave. survive.
Qed.

(** C20. From the construction of a peer connection on, and however its threads
    interleave, no call of the application, no message of the signalling server,
    no status of the socket, no callback of a connection and no round of the
    worker throws an exception: messages that are no JSON, of other types, and
    candidates of any form are passed on or dropped.  The code relies on four
    things, which [proper] states: the application's user id and transmission
    ids are UTF-8, since [dump] throws for others; a configuration file has
    numbers for the port and the frame rate; and a message whose type is one of
    the nine has the fields that the type needs, and strings in them.  Of the
    JSON library it is assumed that it writes the empty string, strings that it
    has read, and what is before an at sign of a string that it writes. *)
Theorem peer_survives cs (w : W) : (forall e, Begin e ∈ cs -> proper e) -> is_Some (schedule start cs ([], (new_peer, w))).
Proof.
  intros H. apply (schedule_safe names_dump); [intros e He; by apply safe_start, H| |constructor].
  split_and!; [apply empty_dumps..|done].
Qed.

End survive_all.

(** ** A queued join *)

Section join.
Context {W J : Type} {world : PeerWorld W} {clock : WallClock W} {json : JsonLibrary J} {parser : JsonParser J}.

Lemma alone_credentials (j : J) p (w : W) :
  exists b legacy w', alone (ApplyTurnCredentials j) (p, w) = Some (b, (set_configs legacy (per_connection_ice_config_ p) p, w')).
Proof.
  unfold ApplyTurnCredentials. rewrite alone_bind, alone_atomic. cbn [peer gets mbind option_bind fst].
  destruct (per_connection_ice_config_ p) eqn:E.
  - exists false, (legacy_turn_config_ p), w. cbn. destruct p; cbn in *. by rewrite E.
  - rewrite alone_bind, alone_atomic. unfold out. cbn [fst snd]. destruct (legacy_total j w) as [[config w'] Ec]. rewrite Ec.
    cbn [mbind option_bind fst snd]. destruct config as [config|].
    + exists true, (Some config), w'. cbn. by rewrite E.
    + exists false, (legacy_turn_config_ p), w'. cbn. destruct p; cbn in *. by rewrite E.
Qed.

(** A join that the application asks for while the login is under way is sent
    when the server has let the peer in, under the name that it gives, once. *)
Theorem queued_join_sent (t user : text) (j : J) p (w : W) :
  signal_status_ (signal p) = SignalConnecting \/ signal_status_ (signal p) = SignalReconnecting ->
  required_string "status" j = Some (lit "success") -> required_string "user_id" j = Some user ->
  json_dumps (user_of user) = true -> json_dumps t = true ->
  exists p' w', alone (Join t;; on_login j) (p, w) = Some (tt, (p', w')) /\
    trace p' = trace p ++ [NetReport user (user_of user); Send (JoinRequest (user_of user) t); SignalReport SignalConnected (user_of user)] /\
    pending_join_transmission_id_ (signal p') = None /\ signal_status_ (signal p') = SignalConnected /\ leave_ (signal p') = false.
Proof.
  intros Hs Hst Hu Hd1 Hd2. rewrite alone_bind. unfold Join. rewrite alone_atomic.
  set (p1 := set_leave false (set_pending_join (Some t) p)).
  assert ((status ← peer (fun p => signal_status_ (signal p));
          match status with
          | SignalConnected => SendJoinRequestLocked t
          | SignalConnecting | SignalReconnecting => put (set_pending_join (Some t));; put (set_leave false);; mret 0
          | _ => mret (-1)
          end) (p, w) = Some (0, (p1, w))) as E.
  { unfold peer, gets, mbind, M_bind. cbn [fst mbind option_bind]. by destruct Hs as [-> | ->]. }
  rewrite E. cbn [mbind option_bind]. unfold on_login, get_text. rewrite Hst. cbn [the mbind Thread_bind thread_bind].
  rewrite bool_decide_true by done. unfold on_login_success, get_text. rewrite Hu. cbv zeta.
  rewrite alone_bind, alone_atomic. cbn [put modify mbind option_bind fst snd].
  set (v := match member "ice_config_version" j with Some v => _ | None => _ end).
  destruct (alone_credentials j (set_configs (legacy_turn_config_ p1) v p1) w) as (b & legacy & w' & Ec).
  rewrite alone_bind, Ec. cbn [mbind option_bind the Thread_bind thread_bind].
  set (p2 := set_configs legacy (per_connection_ice_config_ (set_configs (legacy_turn_config_ p1) v p1)) (set_configs (legacy_turn_config_ p1) v p1)).
  set (p3 := add_event (NetReport user (user_of user)) (set_user_id (user_of user) p2)).
  assert (join_when_connected (p3, w') = Some (tt, (add_event (Send (JoinRequest (user_of user) t))
    (set_identity (fun i => mkIdentity (user_id_ i) (user_id_with_pwd_ i) (remote_user_id_ i) (local_transmission_id_ i) t)
      (set_signal (fun g => mkSignalState (ws_status_ g) (signal_status_ g) (pending_join_transmission_id_ g) false false)
        (set_pending_join None (set_signal_status SignalConnected p3)))), w'))) as Ej.
  { unfold join_when_connected, SendJoinRequestLocked, send_request, lift, peer, put, gets, modify, mbind, M_bind. cbn. by rewrite Hd1, Hd2. }
  eexists _, w'. split.
  - cbn -[join_when_connected].
    match goal with |- context [join_when_connected ?x] => change x with (p3, w') end. rewrite Ej. cbn. reflexivity.
  - cbn. rewrite <- !app_assoc. done.
Qed.

End join.

(** ** Samples *)

Module PeerSample.

Import IceServers.Sample.

#[export] Instance sample_world : PeerWorld Z := {|
  connection_Init _ w := (0, w);
  connection_RequestVideoKeyFrame _ _ w := (0, w);
  map_order m := map_to_list m;
|}.

Definition configuration_json : Value := message [relay "t1.example.org" false "u"].

(** The messages of a server: logins, two offers, a leave, one without a status. *)
Definition login : Value := Object [("type", Text "login"); ("status", Text "success"); ("user_id", Text "me@secret")]%string.
Definition offer : Value := Object [("type", Text "offer"); ("transmission_id", Text "room"); ("remote_user_id", Text "you");
  ("sdp", Text "v=0"); ("ice", configuration_json)]%string.
Definition left_room : Value := Object [("type", Text "user_leave_transmission"); ("user_id", Text "you")]%string.
Definition no_status : Value := Object [("type", Text "login")]%string.

#[export] Instance sample_parser : JsonParser Value := {|
  json_parse m := if bool_decide (m = lit "login") then Some login else if bool_decide (m = lit "offer") then Some offer else
    if bool_decide (m = lit "leave") then Some left_room else if bool_decide (m = lit "no status") then Some no_status else None;
  json_equals v z := match v with Number n => n =? z | _ => false end;
  json_dumps := forallb (fun c => code c <? 128);
|}.

Definition play (cs : list (Choice (E := Entry))) := schedule (start (W := Z) (J := Value)) cs ([], (new_peer, 1000)).

(** All the steps of a thread. *)
Definition finish (i : nat) : list (Choice (E := Entry)) := repeat (Go i) 30.

Definition session : list (Choice (E := Entry)) :=
  [Begin (OnMessage (lit "login"))] ++ finish 0 ++ [Begin (OnMessage (lit "offer"))] ++ finish 1 ++
  [Begin WorkerRound] ++ finish 2 ++ [Begin (OnMessage (lit "offer"))] ++ finish 3 ++
  [Begin (OnConnectionStatus (lit "you") 1 Failed (lit "you")); Go 4; Begin (OnMessage (lit "leave"))] ++ finish 5 ++
  finish 4 ++ [Begin WorkerRound] ++ finish 6 ++ [Begin WorkerRound] ++ finish 7 ++ [Begin WorkerRound] ++ finish 8.

Definition played (cs : list (Choice (E := Entry))) : list Event := match play cs with Some (_, (p, _)) => trace p | None => [] end.

(** What is told of connections, and what they are told. *)
Definition shown (e : Event) : list (nat * ConnectionStatus + nat * option MsgType) :=
  match e with
  | ConnectionReport (Some c) status _ => [inl (c, status)]
  | Released c => [inr (c, None)]
  | Processed c msg => [inr (c, Some (msg_type msg))]
  | _ => []
  end.

(** The first offer is worked on, the second replaces it and fails. *)
Example session_plays :
  flat_map shown (played session) =
  [inr (0%nat, Some MsgOffer); inr (0%nat, None); inl (1%nat, Failed); inr (1%nat, None)].
Proof. vm_compute. reflexivity. Qed.

(** *** Between a check and what follows it

    A state that was found to be current is told after the end of the
    connection, when the application leaves in between. *)
Example late_report :
  flat_map shown (played ([Begin (OnMessage (lit "login"))] ++ finish 0 ++ [Begin (OnMessage (lit "offer"))] ++ finish 1 ++
    [Begin (OnConnectionStatus (lit "you") 0 Connected (lit "you")); Go 2; Begin (DoLeave (lit "room"))] ++ finish 3 ++ finish 2)) =
  [inl (0%nat, Closed); inr (0%nat, None); inl (0%nat, Connected)].
Proof. vm_compute. reflexivity. Qed.

(** An offer that the worker has taken is worked on after its connection was
    shut down. *)
Example late_offer :
  flat_map shown (played ([Begin (OnMessage (lit "login"))] ++ finish 0 ++ [Begin (OnMessage (lit "offer"))] ++ finish 1 ++
    [Begin WorkerRound; Go 2; Go 2; Begin (DoLeave (lit "room"))] ++ finish 3 ++ finish 2)) =
  [inl (0%nat, Closed); inr (0%nat, None); inr (0%nat, Some MsgOffer)].
Proof. vm_compute. reflexivity. Qed.

(** *** A message without its fields ends the program. *)
Example missing_status : play (Begin (OnMessage (lit "no status")) :: finish 0) = None.
Proof. vm_compute. reflexivity. Qed.

(** So does a transmission id that is not UTF-8, once the peer has signed in. *)
Example join_not_written :
  play ([Begin (OnMessage (lit "login"))] ++ finish 0 ++ [Begin (DoJoin [ascii_of_nat 255])] ++ finish 1) = None.
Proof. vm_compute. reflexivity. Qed.

End PeerSample.
Import IceServers.Sample PeerSample.

Lemma session_runs :
  exists r, schedule (start (W := Z) (J := IceServers.Sample.Value)) session ([], (new_peer, 1000)) = Some r.
Proof.
  assert (forall (A : Type) (o : option A), match o with Some _ => true | None => false end = true -> exists r, o = Some r) as H
    by (intros A [r|] H; [by exists r|discriminate H]).
  apply H. vm_compute. reflexivity.
Qed.

Lemma connections_end_once_witness :
  exists pool p w, schedule (start (W := Z) (J := IceServers.Sample.Value)) session ([], (new_peer, 1000)) = Some (pool, (p, w)) /\
    base.NoDup (reported p) /\ base.NoDup (released p).
Proof.
  destruct session_runs as [[pool [p w]] E].
  destruct (connections_end_once (J := IceServers.Sample.Value) (fun m => Permutation_refl (map_to_list m)) session pool p 1000 w E) as (H1 & H2 & _).
  exists pool, p, w. exact (conj E (conj H1 H2)).
Defined.

#[export] Instance sample_texts : JsonTexts Value.
Proof.
  split; [|intros a b; cbn [json_dumps sample_parser]; rewrite forallb_app; by intros [H _]%andb_prop|done]. intros msg j key v. cbn [json_parse sample_parser].
  repeat (case_bool_decide; [intros [= <-]; cbn; repeat (case_bool_decide; [intros [= <-]; reflexivity|]); discriminate|]). discriminate.
Qed.

Lemma peer_survives_witness :
  is_Some (schedule (start (W := Z) (J := IceServers.Sample.Value)) [Begin (DoJoin (lit "room")); Go 0; Begin (OnMessage (lit "login")); Go 1]
             ([], (new_peer, 1000))).
Proof.
  apply peer_survives. intros e He. repeat (apply elem_of_cons in He as [He|He]; [try discriminate He; injection He as ->|]);
    [reflexivity| |by apply not_elem_of_nil in He]. intros j type [= <-] [= <-]. vm_compute. reflexivity.
Defined.

Lemma queued_join_sent_witness :
  exists p' w', alone (Join (lit "room");; on_login PeerSample.login) (set_signal_status SignalConnecting new_peer, 1000) = Some (tt, (p', w')) /\
    trace p' = [NetReport (lit "me@secret") (lit "me"); Send (JoinRequest (lit "me") (lit "room")); SignalReport SignalConnected (lit "me")] /\
    pending_join_transmission_id_ (signal p') = None /\ signal_status_ (signal p') = SignalConnected /\ leave_ (signal p') = false.
Proof.
  apply (queued_join_sent (lit "room") (lit "me@secret") PeerSample.login (set_signal_status SignalConnecting new_peer) 1000);
    [by left|reflexivity..].
Defined.
