(* ===== verification/Connection.v ===== *)
(** * A connection to one peer

    [MiniRtcConnection] of [src/pc/minirtc_connection.cpp]: it makes a transport
    when the worker gives it a join or an offer, and gives it what follows;
    candidates that come before are kept.  Transports are numbers in the order of
    their creation, and what is called on them is kept in a trace; their results
    and the clock are interfaces.  The worker is the only thread that makes
    transports; the callback of a transport is [on_ice_status_change]. *)

From Stdlib Require Import Ascii String.
From stdpp Require Import gmap strings.
From S2P Require Import Prelude StateMonad Text IceUtils IceServers Threads PeerConnection.

Inductive Call :=
  | CreateTransport (t : nat) (offer_peer : bool) (transmission_id user_id remote_user_id : text) (s : Settings)
  | InitTransport (t : nat) (config : IceServerConfiguration)
  | SetTransmissionId (t : nat) (transmission_id : text)
  | AddVideo (t : nat) (stream_id : text)
  | AddAudio (t : nat) (stream_id : text)
  | AddData (t : nat) (stream_id : text) (reliable : bool)
  | CallSendOffer (t : nat)
  | CallSendAnswer (t : nat)
  | CallGatherCandidates (t : nat)
  | CallSetRemoteSdp (t : nat) (sdp : text)
  | CallAddRemoteCandidate (t : nat) (sdp ufrag : text)
  | CallDestroy (t : nat)
  | CallSend (t : nat) (frame : Frame)
  | CallRequestKeyFrame (t : nat) (stream_id : option text)
  | StatusCallback (status : ConnectionStatus) (user_id : text).

Class Transports (W : Type) := {
  InitIceTransmission : nat -> IceServerConfiguration -> W -> Z * W;
  transport_SetRemoteSdp : nat -> text -> W -> Z * W;
  transport_RequestVideoKeyFrame : nat -> option text -> W -> Z * W;
}.

(** src/pc/minirtc_connection.h:51-83 [MiniRtcConnection] *)
Record Connection := mkConnection {
  info_ : ConnectionInfo;
  streams_ : MediaStreamIds;
  ice_transport_ : option nat;
  is_ice_transport_ready_ : bool;
  pending_ice_candidates_ : list IceWorkMsg;
  transports : nat;
  calls : list Call;
}.

(** src/pc/minirtc_connection.cpp:12-21 [MiniRtcConnection::MiniRtcConnection] *)
Definition new_connection (info : ConnectionInfo) (streams : MediaStreamIds) : Connection := mkConnection info streams None false [] 0 [].

Definition set_ice_transport (t : option nat) (c : Connection) : Connection :=
  mkConnection (info_ c) (streams_ c) t (is_ice_transport_ready_ c) (pending_ice_candidates_ c) (transports c) (calls c).
Definition set_ready (b : bool) (c : Connection) : Connection :=
  mkConnection (info_ c) (streams_ c) (ice_transport_ c) b (pending_ice_candidates_ c) (transports c) (calls c).
Definition set_pending (l : list IceWorkMsg) (c : Connection) : Connection :=
  mkConnection (info_ c) (streams_ c) (ice_transport_ c) (is_ice_transport_ready_ c) l (transports c) (calls c).
Definition next_transport (c : Connection) : Connection :=
  mkConnection (info_ c) (streams_ c) (Some (transports c)) (is_ice_transport_ready_ c) (pending_ice_candidates_ c) (S (transports c)) (calls c).
Definition add_call (x : Call) (c : Connection) : Connection :=
  mkConnection (info_ c) (streams_ c) (ice_transport_ c) (is_ice_transport_ready_ c) (pending_ice_candidates_ c) (transports c) (calls c ++ [x]).

Section methods.
Context {W : Type} {world : Transports W} {clock : WallClock W}.

#[local] Notation C := (M (Connection * W)).

Definition conn {A} (f : Connection -> A) : C A := gets (fun s => f s.1).
Definition alter (f : Connection -> Connection) : C unit := modify (fun s => (f s.1, s.2)).
Definition invoke (x : Call) : C unit := alter (add_call x).
Definition ask_world {A} (f : W -> A * W) : C A := fun s => let '(a, w) := f s.2 in Some (a, (s.1, w)).

(** src/pc/minirtc_connection.cpp:26-94 [MiniRtcConnection::Init] *)
Definition on_ice_status_change (ice_status user_id : text) : C unit :=
  let is_ (s : string) := bool_decide (ice_status = lit s) in
  let call status := invoke (StatusCallback status user_id) in
  if is_ "connecting"%string then call Connecting else
  if is_ "gathering"%string then call Gathering else
  if is_ "disconnected"%string then call Disconnected else
  if is_ "connected"%string then mret tt else
  if is_ "ready"%string then alter (set_ready true);; call Connected else
  if is_ "closed"%string then alter (set_ready false);; call Closed else
  if is_ "failed"%string then alter (set_ready false);; call Failed else
  alter (set_ready false).

(** *** Media *)

(** src/pc/minirtc_connection.cpp:99-108 [MiniRtcConnection::SendVideoFrame] *)
Definition conn_SendVideoFrame (frame : Z) (stream_id : text) : C Z :=
  t ← conn ice_transport_;
  match t with None => mret (-1) | Some t => invoke (CallSend t (VideoFrame frame stream_id));; mret 0 end.

(** src/pc/minirtc_connection.cpp:136-149 [MiniRtcConnection::SendAudioFrame] *)
Definition send_when_ready (frame : Frame) : C Z :=
  t ← conn ice_transport_;
  match t with
  | None => mret (-1)
  | Some t =>
      ready ← conn is_ice_transport_ready_;
      if negb (ready : bool) then mret (-1) else
      invoke (CallSend t frame);;
      mret 0
  end.
Definition conn_SendAudioFrame (frame : Z) (stream_id : text) : C Z := send_when_ready (AudioFrame frame stream_id).
(** src/pc/minirtc_connection.cpp:151-164 [MiniRtcConnection::SendDataFrame] *)
Definition conn_SendDataFrame (data stream_id : text) : C Z := send_when_ready (DataFrame data stream_id).
(** src/pc/minirtc_connection.cpp:166-179 [MiniRtcConnection::SendReliableDataFrame] *)
Definition conn_SendReliableDataFrame (data stream_id : text) : C Z := send_when_ready (ReliableDataFrame data stream_id).

(** src/pc/minirtc_connection.cpp:110-124 [MiniRtcConnection::RequestVideoKeyFrame] *)
Definition conn_RequestVideoKeyFrame (stream_id : option text) : C Z :=
  t ← conn ice_transport_;
  match t with
  | None => mret (-1)
  | Some t => invoke (CallRequestKeyFrame t stream_id);; ask_world (transport_RequestVideoKeyFrame t stream_id)
  end.

(** *** Messages of the worker *)

(** src/pc/minirtc_connection.cpp:126-134 [MiniRtcConnection::ReleaseAllIceTransmission] *)
Definition ReleaseAllIceTransmission : C Z :=
  alter (set_pending []);;
  t ← conn ice_transport_;
  match t with Some t => invoke (CallDestroy t) | None => mret tt end;;
  alter (set_ready false);;
  mret 0.

(** A message with another transmission or another peer. *)
(** src/pc/minirtc_connection.cpp:182-188 [MiniRtcConnection::ProcessIceWorkMsg] *)
Definition for_other (info : ConnectionInfo) (msg : IceWorkMsg) : bool :=
  (negb (bool_decide (transmission_id info = [])) && negb (bool_decide (msg_transmission_id msg = [])) &&
   negb (bool_decide (msg_transmission_id msg = transmission_id info))) ||
  (negb (bool_decide (remote_user_id info = [])) && negb (bool_decide (msg_remote_user_id msg = remote_user_id info))).

Definition same_candidate (sdp ufrag : text) (msg : IceWorkMsg) : bool :=
  bool_decide (msg_new_candidate msg = sdp) && bool_decide (msg_candidate_ufrag msg = ufrag).

(** src/pc/minirtc_connection.cpp:364-390 [MiniRtcConnection::ApplyRemoteIceCandidate] *)
Definition ApplyRemoteIceCandidate (msg : IceWorkMsg) : C unit :=
  match ParseIceCandidateSignal (msg_new_candidate msg) (msg_candidate_ufrag msg) with
  | None => mret tt
  | Some signal =>
      t ← conn ice_transport_;
      match t with
      | Some t => invoke (CallAddRemoteCandidate t (sig_sdp signal) (sig_ufrag signal))
      | None =>
          pending ← conn pending_ice_candidates_;
          if existsb (same_candidate (sig_sdp signal) (sig_ufrag signal)) pending then mret tt else
          if 256 <=? zlen pending then mret tt else
          alter (set_pending (pending ++
            [mkMsg (msg_type msg) (msg_transmission_id msg) (msg_remote_user_id msg) (sig_sdp signal) (sig_ufrag signal)
               (msg_candidate msg) (msg_mid msg) (msg_remote_sdp msg)]))
      end
  end.

(** A new transport with its settings, its servers and the local streams;
    whether that worked. *)
(** src/pc/minirtc_connection.cpp:214-254 [MiniRtcConnection::ProcessIceWorkMsg] *)
Definition make_transport (offer_peer : bool) (transmission_id remote_user_id : text) : C (option nat) :=
  info ← conn info_;
  streams ← conn streams_;
  t ← conn transports;
  alter next_transport;;
  invoke (CreateTransport t offer_peer transmission_id (user_id info) remote_user_id (settings info));;
  config ← lift (ice_config info);
  invoke (InitTransport t config);;
  r ← ask_world (InitIceTransmission t config);
  if negb (r =? 0) then
    alter (set_ready false);;
    alter (set_ice_transport None);;
    alter (set_pending []);;
    on_ice_status_change (lit "failed") remote_user_id;;
    mret None
  else
    (if negb offer_peer then invoke (SetTransmissionId t transmission_id) else mret tt);;
    for_each (fun id => invoke (AddVideo t id)) (stream_video streams);;
    for_each (fun id => invoke (AddAudio t id)) (stream_audio streams);;
    for_each (fun '(id, reliable) => invoke (AddData t id reliable)) (stream_data streams);;
    mret (Some t).

(** src/pc/minirtc_connection.cpp:203-264 [MiniRtcConnection::ProcessIceWorkMsg] *)
Definition process_join (flush : C unit) (msg : IceWorkMsg) : C unit :=
  info ← conn info_;
  if bool_decide (msg_remote_user_id msg = user_id info) then mret tt else
  old ← conn ice_transport_;
  match old with Some t => invoke (CallDestroy t) | None => mret tt end;;
  t ← make_transport true (msg_transmission_id msg) (msg_remote_user_id msg);
  match t with
  | None => mret tt
  | Some t =>
      (if trickle_ice (settings info) then invoke (CallSendOffer t) else invoke (CallGatherCandidates t));;
      flush
  end.

(** src/pc/minirtc_connection.cpp:273-335 [MiniRtcConnection::ProcessIceWorkMsg] *)
Definition process_offer (flush : C unit) (msg : IceWorkMsg) : C unit :=
  info ← conn info_;
  old ← conn ice_transport_;
  match old with Some t => invoke (CallDestroy t);; alter (set_ready false) | None => mret tt end;;
  t ← make_transport false (msg_transmission_id msg) (msg_remote_user_id msg);
  match t with
  | None => mret tt
  | Some t =>
      invoke (CallSetRemoteSdp t (msg_remote_sdp msg));;
      r ← ask_world (transport_SetRemoteSdp t (msg_remote_sdp msg));
      if negb (r =? 0) then mret tt else
      flush;;
      (if trickle_ice (settings info) then invoke (CallSendAnswer t) else mret tt);;
      invoke (CallGatherCandidates t)
  end.

(** src/pc/minirtc_connection.cpp:336-353 [MiniRtcConnection::ProcessIceWorkMsg] *)
Definition process_answer (msg : IceWorkMsg) : C unit :=
  t ← conn ice_transport_;
  match t with
  | None => mret tt
  | Some t =>
      invoke (CallSetRemoteSdp t (msg_remote_sdp msg));;
      r ← ask_world (transport_SetRemoteSdp t (msg_remote_sdp msg));
      if negb (r =? 0) then mret tt else
      info ← conn info_;
      if trickle_ice (settings info) then invoke (CallGatherCandidates t) else mret tt
  end.

Definition makes_transport (msg : IceWorkMsg) : bool :=
  match msg_type msg with UserJoinTransmission | MsgOffer | RetryWithTurn => true | _ => false end.

(** src/pc/minirtc_connection.cpp:181-362 [MiniRtcConnection::ProcessIceWorkMsg] *)
Definition process_message (flush : C unit) (msg : IceWorkMsg) : C unit :=
  info ← conn info_;
  if for_other info msg then mret tt else
  stale ← (if makes_transport msg then
             now ← ask_world IceUnixTime;
             mret (negb (ConnectionIceConfigFresh now info))
           else mret false);
  if (stale : bool) then on_ice_status_change (lit "failed") (remote_user_id info) else
  match msg_type msg with
  | RetryWithTurn | UserJoinTransmission => process_join flush msg
  | UserLeaveTransmission => ReleaseAllIceTransmission;; mret tt
  | MsgOffer => process_offer flush msg
  | MsgAnswer => process_answer msg
  | NewCandidate => ApplyRemoteIceCandidate msg
  | MsgLogin | NewCandidateMid => mret tt
  end.

(** The candidates that were kept are processed as if they came now; they do not
    lead to another round. *)
(** src/pc/minirtc_connection.cpp:392-396 [MiniRtcConnection::FlushRemoteIceCandidates] *)
Definition FlushRemoteIceCandidates (process : IceWorkMsg -> C unit) : C unit :=
  pending ← conn pending_ice_candidates_;
  alter (set_pending []);;
  for_each process pending.

Fixpoint process_with (rounds : nat) (msg : IceWorkMsg) : C unit :=
  match rounds with
  | O => lift None
  | S rounds => process_message (FlushRemoteIceCandidates (process_with rounds)) msg
  end.

Definition conn_ProcessIceWorkMsg : IceWorkMsg -> C unit := process_with 2.

End methods.
