(* ===== verification/ConnectionOk.v ===== *)
(** * Early candidates reach the transport

    Candidates may come before the worker has made the transport that they are
    for.  They are kept, and given to it after the description of the other peer,
    in their order and each once, in front of those that come later. *)

From Stdlib Require Import Ascii String.
From stdpp Require Import gmap strings.
From S2P Require Import Prelude StateMonad Text IceUtils IceServers Threads PeerConnection Connection.

(** The candidates of messages. *)
Definition signals_of (msgs : list IceWorkMsg) : list IceCandidateSignal :=
  omap (fun m => ParseIceCandidateSignal (msg_new_candidate m) (msg_candidate_ufrag m)) msgs.

Definition add_new (l : list IceCandidateSignal) (s : IceCandidateSignal) : list IceCandidateSignal :=
  if decide (s ∈ l) then l else l ++ [s].

(** Each candidate where it comes first. *)
Definition first_of_each (l : list IceCandidateSignal) : list IceCandidateSignal := fold_left add_new l [].

Definition call_of (t : nat) (s : IceCandidateSignal) : Call := CallAddRemoteCandidate t (sig_sdp s) (sig_ufrag s).

Definition kept_signal (m : IceWorkMsg) : IceCandidateSignal := mkSignal (msg_new_candidate m) (msg_candidate_ufrag m).

Definition add_calls (l : list Call) (c : Connection) : Connection :=
  mkConnection (info_ c) (streams_ c) (ice_transport_ c) (is_ice_transport_ready_ c) (pending_ice_candidates_ c) (transports c) (calls c ++ l).

Lemma add_calls_nil c : add_calls [] c = c.
Proof. unfold add_calls. rewrite app_nil_r. by destruct c. Qed.

Section early.
Context {W : Type} {world : Transports W} {clock : WallClock W}.

#[local] Notation C := (M (Connection * W)).

(** A candidate for this connection, and one that is kept. *)
Definition our_candidate (info : ConnectionInfo) (m : IceWorkMsg) : Prop := msg_type m = NewCandidate /\ for_other info m = false.

Definition kept (info : ConnectionInfo) (m : IceWorkMsg) : Prop :=
  our_candidate info m /\ ParseIceCandidateSignal (msg_new_candidate m) (msg_candidate_ufrag m) = Some (kept_signal m).

Lemma candidate_processed rounds m c (w : W) : our_candidate (info_ c) m ->
  process_with (S rounds) m (c, w) = ApplyRemoteIceCandidate m (c, w).
Proof.
  intros [Ht Ho]. cbn [process_with]. unfold process_message. rewrite (bind_eval _ _ (c, w) (info_ c) (c, w)) by reflexivity.
  rewrite Ho. unfold makes_transport. rewrite Ht. rewrite (bind_eval _ _ (c, w) false (c, w)) by reflexivity. done.
Qed.

Lemma same_candidate_spec s m : same_candidate (sig_sdp s) (sig_ufrag s) m = bool_decide (kept_signal m = s).
Proof.
  unfold same_candidate, kept_signal. destruct s as [sdp ufrag]; cbn. destruct (bool_decide_reflect (msg_new_candidate m = sdp)) as [->|Hn]; cbn [andb].
  - apply bool_decide_ext. split; [by intros ->|by intros [= ->]].
  - symmetry. apply bool_decide_false. congruence.
Qed.

Lemma existsb_same s pending : existsb (same_candidate (sig_sdp s) (sig_ufrag s)) pending = bool_decide (s ∈ map kept_signal pending).
Proof.
  induction pending as [|m pending IH]; cbn [existsb map]; [by rewrite bool_decide_false by apply not_elem_of_nil|].
  rewrite IH, same_candidate_spec. destruct (bool_decide_reflect (kept_signal m = s)) as [E|Hn]; cbn [orb].
  - symmetry. apply bool_decide_true. rewrite E. left.
  - apply bool_decide_ext. rewrite elem_of_cons. split; [by right|by intros [->|H]].
Qed.

(** One candidate while there is no transport. *)
Lemma apply_early m c (w : W) : our_candidate (info_ c) m -> zlen (msg_new_candidate m) <= 4094 -> ice_transport_ c = None ->
  zlen (pending_ice_candidates_ c) < 256 -> Forall (kept (info_ c)) (pending_ice_candidates_ c) ->
  exists pending, ApplyRemoteIceCandidate m (c, w) = Some (tt, (set_pending pending c, w)) /\
    Forall (kept (info_ c)) pending /\ zlen pending <= zlen (pending_ice_candidates_ c) + 1 /\
    map kept_signal pending = fold_left add_new (signals_of [m]) (map kept_signal (pending_ice_candidates_ c)).
Proof.
  intros [Ht Ho] Hl Hn Hp Hk. unfold ApplyRemoteIceCandidate, signals_of. cbn [omap list_omap].
  destruct (ParseIceCandidateSignal _ _) as [s|] eqn:Es.
  2: { exists (pending_ice_candidates_ c). split; [by destruct c|]. split_and!; [done|lia|done]. }
  rewrite (bind_eval _ _ (c, w) None (c, w)) by (unfold conn, gets; cbn; by rewrite Hn).
  rewrite (bind_eval _ _ (c, w) (pending_ice_candidates_ c) (c, w)) by reflexivity.
  rewrite existsb_same. cbn [fold_left]. unfold add_new. destruct (bool_decide_reflect (s ∈ map kept_signal (pending_ice_candidates_ c))) as [Hin|Hnin].
  - exists (pending_ice_candidates_ c). rewrite decide_True by done. split; [by destruct c|]. split_and!; [done|lia|done].
  - replace (256 <=? zlen (pending_ice_candidates_ c)) with false by lia. rewrite decide_False by done.
    eexists. split; [reflexivity|]. split_and!.
    + apply list.Forall_app. split; [done|]. constructor; [|constructor]. split; [split; [done|exact Ho]|]. cbn.
      pose proof (parse_length _ _ _ Es). rewrite (parse_again _ _ _ Es) by lia. by destruct s.
    + rewrite zlen_app. change (zlen [_]) with 1. lia.
    + rewrite map_app. cbn. by destruct s.
Qed.

Lemma all_early rounds msgs c (w : W) : Forall (our_candidate (info_ c)) msgs -> Forall (fun m => zlen (msg_new_candidate m) <= 4094) msgs ->
  ice_transport_ c = None -> zlen (pending_ice_candidates_ c) + zlen msgs <= 256 -> Forall (kept (info_ c)) (pending_ice_candidates_ c) ->
  exists pending, for_each (process_with (S rounds)) msgs (c, w) = Some (tt, (set_pending pending c, w)) /\
    Forall (kept (info_ c)) pending /\
    map kept_signal pending = fold_left add_new (signals_of msgs) (map kept_signal (pending_ice_candidates_ c)).
Proof.
  revert c. induction msgs as [|m msgs IH]; intros c Ho Hl Hn Hp Hk.
  { exists (pending_ice_candidates_ c). split; [by destruct c|done]. }
  apply list.Forall_cons in Ho as [Hm Ho]. apply list.Forall_cons in Hl as [Hlm Hl]. rewrite zlen_cons in Hp. pose proof (zlen_nonneg msgs).
  destruct (apply_early m c w Hm Hlm Hn ltac:(lia) Hk) as (p1 & E1 & Hk1 & Hz & Hs1).
  destruct (IH (set_pending p1 c) Ho Hl Hn ltac:(cbn; lia) Hk1) as (p2 & E2 & Hk2 & Hs2).
  exists p2. split; [|split; [exact Hk2|]].
  - cbn [for_each]. rewrite (bind_eval _ _ (c, w) tt (set_pending p1 c, w)) by (rewrite candidate_processed by done; exact E1). exact E2.
  - rewrite Hs2. cbn [pending_ice_candidates_ set_pending]. rewrite Hs1, <- fold_left_app.
    f_equal. unfold signals_of. cbn [omap list_omap]. by destruct (ParseIceCandidateSignal _ _).
Qed.

(** Candidates when there is a transport. *)
Lemma all_late rounds msgs t c (w : W) : Forall (our_candidate (info_ c)) msgs -> ice_transport_ c = Some t ->
  for_each (process_with (S rounds)) msgs (c, w) = Some (tt, (add_calls (map (call_of t) (signals_of msgs)) c, w)).
Proof.
  revert c. induction msgs as [|m msgs IH]; intros c Ho Ht.
  { change (Some (tt, (c, w)) = Some (tt, (add_calls [] c, w))). by rewrite add_calls_nil. }
  apply list.Forall_cons in Ho as [Hm Ho]. cbn [for_each].
  set (l := map (call_of t) (signals_of [m])).
  rewrite (bind_eval _ _ (c, w) tt (add_calls l c, w)).
  - rewrite (IH (add_calls l c) Ho Ht). unfold add_calls. cbn. rewrite <- app_assoc. repeat f_equal.
    subst l. rewrite <- map_app. f_equal. unfold signals_of. cbn [omap list_omap]. by destruct (ParseIceCandidateSignal _ _).
  - rewrite candidate_processed by done. subst l. unfold ApplyRemoteIceCandidate, signals_of. cbn [omap list_omap].
    destruct (ParseIceCandidateSignal _ _) as [s|]; [|cbn [map]; by rewrite add_calls_nil].
    rewrite (bind_eval _ _ (c, w) (Some t) (c, w)) by (unfold conn, gets; cbn; by rewrite Ht). done.
Qed.

(** ** A transport is made *)

Lemma invoke_eval x c (w : W) : invoke x (c, w) = Some (tt, (add_calls [x] c, w)).
Proof. done. Qed.

Lemma for_each_invoke {A} (f : A -> Call) l c (w : W) : for_each (fun x => invoke (f x)) l (c, w) = Some (tt, (add_calls (map f l) c, w)).
Proof.
  revert c. induction l as [|x l IH]; intros c; [cbn [for_each map]; by rewrite add_calls_nil|]. cbn [for_each map].
  rewrite (bind_eval _ _ _ _ _ (invoke_eval (f x) c w)), IH. unfold add_calls. cbn. by rewrite <- app_assoc.
Qed.

(** What an answering transport is told first. *)
Definition setup_calls (t : nat) (info : ConnectionInfo) (streams : MediaStreamIds) (config : IceServerConfiguration)
    (transmission remote : text) : list Call :=
  [CreateTransport t false transmission (user_id info) remote (settings info); InitTransport t config; SetTransmissionId t transmission] ++
  map (AddVideo t) (stream_video streams) ++ map (AddAudio t) (stream_audio streams) ++
  map (fun d => AddData t d.1 d.2) (stream_data streams).

Lemma make_transport_eval transmission remote c (w : W) config : ice_config (info_ c) = Some config ->
  (InitIceTransmission (transports c) config w).1 = 0 ->
  make_transport false transmission remote (c, w) = Some (Some (transports c),
    (add_calls (setup_calls (transports c) (info_ c) (streams_ c) config transmission remote) (next_transport c),
     (InitIceTransmission (transports c) config w).2)).
Proof.
  intros Hc Hi. unfold make_transport.
  rewrite (bind_eval _ _ (c, w) (info_ c) (c, w)), (bind_eval _ _ (c, w) (streams_ c) (c, w)), (bind_eval _ _ (c, w) (transports c) (c, w)),
    (bind_eval _ _ (c, w) tt (next_transport c, w)) by reflexivity.
  rewrite (bind_eval _ _ _ _ _ (invoke_eval _ (next_transport c) w)). rewrite Hc.
  rewrite (bind_eval _ _ _ config _ (eq_refl : lift (Some config) _ = Some (config, _))).
  rewrite (bind_eval _ _ _ _ _ (invoke_eval _ _ w)).
  destruct (InitIceTransmission (transports c) config w) as [r w'] eqn:Ew. cbn [fst snd] in *. subst r.
  rewrite (bind_eval _ _ _ 0 (add_calls [InitTransport (transports c) config] (add_calls [CreateTransport (transports c) false transmission
    (user_id (info_ c)) remote (settings (info_ c))] (next_transport c)), w')) by (unfold ask_world; cbn; by rewrite Ew).
  change (negb (0 =? 0)) with false. cbv iota. cbn [negb].
  rewrite (bind_eval _ _ _ _ _ (invoke_eval _ _ w')), (bind_eval _ _ _ _ _ (for_each_invoke (AddVideo _) _ _ w')),
    (bind_eval _ _ _ _ _ (for_each_invoke (AddAudio _) _ _ w')).
  assert (forall l s, for_each (fun '(id, reliable) => invoke (W := W) (AddData (transports c) id reliable)) l s =
    for_each (fun d => invoke (AddData (transports c) d.1 d.2)) l s) as Hd.
  { intros l. induction l as [|[id b] l IH]; intros s; [done|]. cbn [for_each fst snd]. unfold mbind, M_bind.
    destruct (invoke _ s) as [[[] s']|]; [|done]. apply IH. }
  rewrite (bind_eval _ _ _ tt _ (eq_trans (Hd _ _) (for_each_invoke (fun d => AddData (transports c) d.1 d.2) _ _ w'))).
  unfold setup_calls, add_calls. cbn. rewrite <- !app_assoc. done.
Qed.

Lemma for_each_then {A} (f : A -> C unit) l k s s' : for_each f l s = Some (tt, s') -> for_each f (l ++ k) s = for_each f k s'.
Proof.
  revert s. induction l as [|x l IH]; intros s; cbn [for_each app]; [by intros [= ->]|].
  intros ([] & s1 & E1 & E2)%bind_inv. rewrite (bind_eval _ _ _ _ _ E1). by apply IH.
Qed.

Lemma kept_signals info pending : Forall (kept info) pending -> signals_of pending = map kept_signal pending.
Proof.
  induction 1 as [|m l [_ Hm] _ IH]; [done|]. unfold signals_of in *. cbn [omap list_omap map]. by rewrite Hm, IH.
Qed.

(** The offer, with candidates that wait. *)
Lemma offer_processed c (w : W) offer config now w1 w2 : ice_transport_ c = None -> ice_config (info_ c) = Some config ->
  trickle_ice (settings (info_ c)) = true -> Forall (kept (info_ c)) (pending_ice_candidates_ c) ->
  msg_type offer = MsgOffer -> for_other (info_ c) offer = false ->
  IceUnixTime w = (now, w1) -> InitIceTransmission (transports c) config w1 = (0, w2) -> Fresh now config = true ->
  (transport_SetRemoteSdp (transports c) (msg_remote_sdp offer) w2).1 = 0 ->
  let t := transports c in
  conn_ProcessIceWorkMsg offer (c, w) = Some (tt,
    (add_calls (setup_calls t (info_ c) (streams_ c) config (msg_transmission_id offer) (msg_remote_user_id offer) ++
       CallSetRemoteSdp t (msg_remote_sdp offer) :: map (call_of t) (map kept_signal (pending_ice_candidates_ c)) ++
       [CallSendAnswer t; CallGatherCandidates t]) (set_pending [] (next_transport c)),
     (transport_SetRemoteSdp t (msg_remote_sdp offer) w2).2)).
Proof.
  intros Hn Hc Htr Hk Hot Hoo E1 E2 Hf Hr t. unfold conn_ProcessIceWorkMsg. cbn [process_with]. unfold process_message.
  rewrite (bind_eval _ _ (c, w) (info_ c) (c, w)) by reflexivity. rewrite Hoo. unfold makes_transport. rewrite Hot.
  rewrite (bind_eval _ _ (c, w) false (c, w1)).
  2: { rewrite (bind_eval _ _ (c, w) now (c, w1)) by (unfold ask_world; cbn; by rewrite E1). unfold ConnectionIceConfigFresh. by rewrite Hc, Hf. }
  unfold process_offer. rewrite (bind_eval _ _ (c, w1) (info_ c) (c, w1)) by reflexivity.
  rewrite (bind_eval _ _ (c, w1) None (c, w1)) by (unfold conn, gets; cbn; by rewrite Hn).
  rewrite (bind_eval _ _ (c, w1) tt (c, w1)) by reflexivity.
  rewrite (bind_eval _ _ _ _ _ (make_transport_eval _ _ c w1 config Hc ltac:(by rewrite E2))). rewrite E2. cbn [snd].
  rewrite (bind_eval _ _ _ _ _ (invoke_eval _ _ w2)). fold t in Hr |- *.
  destruct (transport_SetRemoteSdp t (msg_remote_sdp offer) w2) as [r w3] eqn:E3. cbn [fst snd] in *. subst r.
  set (c1 := add_calls [CallSetRemoteSdp t (msg_remote_sdp offer)] _).
  rewrite (bind_eval _ _ (c1, w2) 0 (c1, w3)) by (unfold ask_world; cbn; by rewrite E3). change (negb (0 =? 0)) with false. cbv iota.
  rewrite (bind_eval _ _ (c1, w3) tt (add_calls (map (call_of t) (signals_of (pending_ice_candidates_ c))) (set_pending [] c1), w3)).
  2: { unfold FlushRemoteIceCandidates. rewrite (bind_eval _ _ (c1, w3) (pending_ice_candidates_ c) (c1, w3)) by reflexivity.
       rewrite (bind_eval _ _ (c1, w3) tt (set_pending [] c1, w3)) by reflexivity. apply (all_late 0); [|done].
       eapply List.Forall_impl; [|exact Hk]. intros m Hm. apply Hm. }
  rewrite Htr. rewrite (bind_eval _ _ _ _ _ (invoke_eval _ _ w3)), invoke_eval, (kept_signals _ _ Hk).
  unfold c1, add_calls. cbn -[app setup_calls]. by rewrite <- !app_assoc.
Qed.

(** C21. Candidates that the worker processes before the offer — up to 256
    messages, candidates of up to 4094 bytes — are kept; the offer makes a
    transport that is told of the local streams and of the offer, then of these
    candidates, in their order and each once, then to answer and to gather; and
    the candidates that come after it are given to it as they come. *)
Theorem early_candidates_kept c (w : W) early offer late config :
  ice_transport_ c = None -> pending_ice_candidates_ c = [] -> ice_config (info_ c) = Some config -> trickle_ice (settings (info_ c)) = true ->
  Forall (our_candidate (info_ c)) early -> zlen early <= 256 -> Forall (fun m => zlen (msg_new_candidate m) <= 4094) early ->
  msg_type offer = MsgOffer -> for_other (info_ c) offer = false ->
  (let '(now, w1) := IceUnixTime w in let '(r, w2) := InitIceTransmission (transports c) config w1 in
   Fresh now config = true /\ r = 0 /\ (transport_SetRemoteSdp (transports c) (msg_remote_sdp offer) w2).1 = 0) ->
  Forall (our_candidate (info_ c)) late ->
  exists c' w', for_each conn_ProcessIceWorkMsg (early ++ offer :: late) (c, w) = Some (tt, (c', w')) /\ ice_transport_ c' = Some (transports c) /\
    pending_ice_candidates_ c' = [] /\
    calls c' = calls c ++
      setup_calls (transports c) (info_ c) (streams_ c) config (msg_transmission_id offer) (msg_remote_user_id offer) ++
      CallSetRemoteSdp (transports c) (msg_remote_sdp offer) :: map (call_of (transports c)) (first_of_each (signals_of early)) ++
      CallSendAnswer (transports c) :: CallGatherCandidates (transports c) :: map (call_of (transports c)) (signals_of late).
Proof.
  destruct (IceUnixTime w) as [now w1] eqn:E1. destruct (InitIceTransmission (transports c) config w1) as [r w2] eqn:E2.
  intros Hn Hp Hc Htr He Hel Hes Hot Hoo (Hf & -> & Hr) Hlate. set (t := transports c) in *.
  destruct (all_early 1 early c w He Hes Hn ltac:(rewrite Hp, zlen_nil; lia) ltac:(rewrite Hp; constructor)) as (pending & Ee & Hk & Hs).
  rewrite Hp in Hs. cbn [map] in Hs. fold (first_of_each (signals_of early)) in Hs.
  rewrite (for_each_then conn_ProcessIceWorkMsg early (offer :: late) (c, w) (set_pending pending c, w) Ee). cbn [for_each].
  rewrite (bind_eval _ _ _ _ _ (offer_processed (set_pending pending c) w offer config now w1 w2 Hn Hc Htr Hk Hot Hoo E1 E2 Hf Hr)).
  rewrite (all_late 1 late t) by done. eexists _, _. split; [reflexivity|]. split_and!; [done|done|].
  cbn [calls add_calls set_pending pending_ice_candidates_ next_transport info_ streams_ transports]. rewrite Hs, <- !app_assoc. cbn [app]. by rewrite <- !app_assoc.
Qed.

End early.

Module ConnSample.

#[global] Instance time : WallClock Z := fun w => (w, w + 1).
#[global] Instance answers : Transports Z := {|
  InitIceTransmission t config w := (0, w);
  transport_SetRemoteSdp t sdp w := (if bool_decide (sdp = []) then -1 else 0, w);
  transport_RequestVideoKeyFrame t stream w := (0, w);
|}.

Definition info : ConnectionInfo :=
  mkInfo (Some (mkConfiguration (lit "servers") 1000 [])) (lit "room") (lit "bob") (lit "alice") 
    (mkSettings false false true false TurnAutoUdpTcp true ScreenContent false QualityMedium 30 MaintainResolution).
Definition streams : MediaStreamIds := mkStreams [lit "camera"] [lit "microphone"] [(lit "chat", true)].
Definition message (type : MsgType) (candidate ufrag sdp : text) : IceWorkMsg :=
  mkMsg type (lit "room") (lit "alice") candidate ufrag [] [] sdp.
Definition near : text := lit "candidate:1 1 UDP 2013266431 10.0.0.2 40000 typ host".
Definition far : text := lit "candidate:2 1 UDP 1677721855 203.0.113.7 41000 typ srflx".

Definition early : list IceWorkMsg :=
  [message NewCandidate near (lit "frag") []; message NewCandidate far (lit "frag") []; message NewCandidate near (lit "frag") [];
   message NewCandidate (lit "nothing") [] []].
Definition offer : IceWorkMsg := message MsgOffer [] [] (lit "v=0").
Definition late : list IceWorkMsg := [message NewCandidate [] (lit "frag") []].

End ConnSample.

Lemma early_candidates_kept_witness :
  let c := new_connection ConnSample.info ConnSample.streams in
  exists c' w', for_each conn_ProcessIceWorkMsg (ConnSample.early ++ ConnSample.offer :: ConnSample.late) (c, 0) = Some (tt, (c', w')) /\
    pending_ice_candidates_ c' = [] /\
    calls c' =
      [CreateTransport 0 false (lit "room") (lit "bob") (lit "alice") (settings ConnSample.info);
       InitTransport 0 (mkConfiguration (lit "servers") 1000 []); SetTransmissionId 0 (lit "room");
       AddVideo 0 (lit "camera"); AddAudio 0 (lit "microphone"); AddData 0 (lit "chat") true;
       CallSetRemoteSdp 0 (lit "v=0");
       CallAddRemoteCandidate 0 (lit "a=" ++ ConnSample.near) (lit "frag"); CallAddRemoteCandidate 0 (lit "a=" ++ ConnSample.far) (lit "frag");
       CallSendAnswer 0; CallGatherCandidates 0; CallAddRemoteCandidate 0 [] (lit "frag")].
Proof.
  intros c.
  assert (Forall (our_candidate (info_ c)) ConnSample.early) as He by (repeat constructor).
  assert (Forall (our_candidate (info_ c)) ConnSample.late) as Hl by (repeat constructor).
  assert (Forall (fun m => zlen (msg_new_candidate m) <= 4094) ConnSample.early) as Hs by (repeat constructor; discriminate).
  destruct (early_candidates_kept c 0 ConnSample.early ConnSample.offer ConnSample.late (mkConfiguration (lit "servers") 1000 [])
    eq_refl eq_refl eq_refl eq_refl He ltac:(discriminate) Hs eq_refl eq_refl ltac:(repeat split) Hl) as (c' & w' & E & _ & Ep & Ec).
  exists c', w'. split; [exact E|]. split; [exact Ep|]. rewrite Ec. vm_compute. reflexivity.
Defined.

